(* ===== verification/_CoqProject ===== *)
-Q . S2P
Prelude.v
Bitmap.v
Klist.v
Cstring.v
Stdio.v
Thread.v
Timer.v
Sync.v
Ioqueue.v
Keyboard.v
Ide.v
Paging.v
Heap.v
Pagealloc.v
Blockdev.v
Inode.v
Kheap.v
File.v
Filewrite.v
Dir.v
Dirwrite.v
Dirdelete.v
Dirread.v
Dirdemo.v
Words.v
Path.v
Search.v
Fs.v
Fsspec.v
Cwd.v
Shell.v
Shellspec.v
Cmdline.v
Readline.v
Pipeline.v
Treedemo.v
Process.v
Space.v
Fork.v
Forkmem.v
Forkdemo.v
Waitexit.v
Kin.v
Kinspec.v
Kindemo.v
Release.v
Releasedemo.v
Exitfds.v
Exitspec.v
Exitdemo.v
Gates.v
Syscall.v
Printf.v
Screen.v
Rw.v
Exec.v
Loader.v
Execspec.v
Execdemo.v
Format.v
Formatspec.v
Fsinit.v
Fsinitdemo.v
Idestart.v
Idespec.v
Idedemo.v
Ps.v
Ls.v
Opendir.v
Lsspec.v
Lsdemo.v
