(* ===== verification/Prelude.v ===== *)
(** A verification library for the kernel of this repository: a 32-bit x86
    teaching operating system, written in C.

    * The program and the files of this library

    The kernel boots into [init_all], which initialises interrupts, memory, threads,
    timer, console, keyboard, system calls, disks and file system one after the other;
    from then on kernel threads and user processes share one processor, preempted by
    the timer interrupt. The lower parts know nothing of the upper ones, and the files
    here follow the same order.

    Data structures and devices:
    - Prelude.v: C integers, outcomes, bounds-checked arrays, fuelled loops, and
      the tactics and list lemmas everything else uses.
    - Bitmap.v (lib/kernel/bitmap.c): [bitmap_scan], [bitmap_set] over bytes.
    - Klist.v (lib/kernel/list.c): the intrusive lists, over a heap of nodes;
      [list_rep] says which sequence a list stands for. The files above use the
      sequences.
    - Cstring.v (lib/string.c), Stdio.v (lib/stdio.c): byte memory with unmapped
      addresses; [vsprintf] against a rendering of its format. Printf.v: [sprintf],
      [printf] and [printk] (lib/kernel/stdio-kernel.c) over buffers that are lists.
    - Timer.v (device/timer.c): the tick interrupt drives [schedule]; sleeping is
      a loop around [thread_yield].
    - Ioqueue.v (device/ioqueue.c, shell/pipe.c), Keyboard.v (device/keyboard.c):
      the ring buffer, and the interrupt handler that fills one.
    - Ide.v (device/ide.c): the driver as the sequence of port accesses and waits
      it performs; a channel with its controller, lock and interrupt ([ata_step]) that
      reacts to them sector by sector and refuses what breaks the protocol; the scan
      of the partition tables.
    - Screen.v (lib/kernel/print.S, kernel/debug.c): video memory and cursor, against
      a terminal that keeps every row, the ones scrolled away too; [panic_spin].
    - Gates.v (kernel/interrupt.c, kernel/global.h, userprog/tss.c): the descriptors
      of interrupts and segments, the interrupt controllers, the handler table.

    Threads, memory and processes:
    - Thread.v (thread/thread.c): task structures, ready list and all list,
      [schedule], blocking, start and exit, the pid pool. Ps.v: [sys_ps], and the
      start of the scheduler ([thread_init], [idle]).
    - Sync.v (thread/sync.c): semaphores and locks, as a step relation over the
      scheduler of Thread.v in which any thread may be preempted wherever
      interrupts are on.
    - Paging.v (kernel/memory.c): two-level page tables in a word-addressed
      physical memory, read through the processor's translation [mmu]; pools,
      [malloc_page], [mfree_page], [mem_pool_init].
    - Heap.v (kernel/memory.c): [sys_malloc] and [sys_free] with their arenas;
      Pagealloc.v and Kheap.v: the interfaces below and above it.
    - Process.v (userprog/process.c): the state [sys] of the machine, address spaces,
      creating a process. Space.v: what an address space holds, and how the page
      functions change it.
    - Fork.v, Forkmem.v, Forkdemo.v (userprog/fork.c): copying a process; the copy of
      its memory page by page.
    - Waitexit.v (userprog/wait_exit.c): waiting and exiting. Kin.v, Kinspec.v,
      Kindemo.v: the family of processes as a step relation; Release.v, Releasedemo.v:
      giving back the memory of a process; Exitfds.v: closing its files and pipes;
      Exitspec.v, Exitdemo.v: the exit as a whole.
    - Exec.v (userprog/exec.c): loading an ELF file. Loader.v: the loop over the program
      headers against the image of the file; Execspec.v, Execdemo.v.
    - Syscall.v (lib/user/syscall.c, userprog/syscall-init.c, kernel/kernel.S): the
      stubs, the table, and the way from one to the other.

    The file system:
    - Idestart.v (device/ide.c): finding the disks, and their start together with the
      file system's; Idespec.v, Idedemo.v.
    - Format.v (fs/fs.c): formatting and mounting; Formatspec.v, Fsinit.v,
      Fsinitdemo.v.
    - Inode.v (fs/inode.c), File.v and Filewrite.v (fs/file.c), Dir.v, Dirwrite.v,
      Dirdelete.v, Dirread.v, Dirdemo.v (fs/dir.c): inodes, the bytes of files,
      directories as sequences of entries.
    - Words.v, Path.v, Search.v (fs/fs.c): components of a path, and resolving it. Fs.v,
      Fsspec.v, Cwd.v, Opendir.v: the calls on paths. Treedemo.v is a tree on which the
      theorems are applied.
    - Rw.v (fs/fs.c, device/console.c): [sys_read] and [sys_write] through a descriptor,
      to a file, a pipe, the keyboard or the console.

    The shell (shell/):
    - Shell.v, Shellspec.v: paths with dots, and the commands that change directories and
      files. Ls.v, Lsspec.v, Lsdemo.v: [ls] and the commands that only print.
    - Cmdline.v: splitting a line into words. Readline.v: the line editor. Pipeline.v:
      the line with its pipes.

    * Interfaces

    Where components meet, the upper one is proved against a class of operations
    with a class of laws, and the lower one is an instance:
    - [Heap.PageAlloc]: pages, as the heap needs them; Pagealloc.v instantiates it
      with the functions of Paging.v.
    - [Inode.KernelHeap]: [sys_malloc] and [sys_free], as the file system needs
      them: blocks that [may_malloc] says are granted are fresh, freed ones gone.
      Kheap.v instantiates it with the functions of Heap.v as they are, over any page
      allocator with pages to spare. ([bump_heap] of Inode.v is a second, trivial
      instance, on which the file system's theorems are evaluated.)
    - [Blockdev.BlockDevice]: numbered sectors; its instance is the driver of
      Ide.v running on a channel with two drives, of which it selects one.

    So a theorem on files holds for the code of fs/ on top of the code of
    kernel/memory.c and device/ide.c.

    * How the code is translated

    A C function is a function of the state it reads and writes, with its
    statements in the source's order and its early returns. [Ok] is a return;
    [Err AssertFail] is a failed [ASSERT] or [PANIC], which spins for ever;
    [Err BadAccess] is an access outside the object accessed, which C leaves
    undefined. Memory that the code reads before writing it (stack variables,
    blocks of the heap that the caller does not clear) is a parameter. A C integer
    is a [Z] and wraps where the code's type does ([u8], [u16], [u32], [s8],
    [s16], [s32]). A function that blocks is one turn of the thread: its result says
    whether it waits, and the turn is repeated when the thread runs again.

    Loops whose end is not structural take fuel. [Err OutOfFuel] is never a result
    of the code: the theorems state that the result is [Ok] (or one of the other
    two errors), with the fuel the definitions give, which is at least the number
    of iterations the loop's counter allows: the bits of a bitmap, the slots of a
    table, 140 blocks of a file, 2940 entries of a directory, 1024 entries of a page
    table, the characters of a string, the remaining bytes of a transfer. [loop_rule] of
    this file is the rule by which they are proved; the loops that do not end
    ([delete_indirect_diverges]) are shown to run out of every fuel. Recursion over the
    chain of extended partitions takes as fuel more than its length.

    * What the theorems show

    - memory: [malloc_page] then [mfree_page] restores everything; every page
      table entry written is the one the processor reads; the pools do not
      overlap; blocks of the heap are fresh, zeroed and disjoint; freeing takes
      back exactly one block, and the pages of an arena with the last of its blocks.
    - threads: the two lists stay consistent; every ready thread runs; a lock
      admits one thread, loses no waiter and wakes them in the order they came; a
      thread's pages and pid are given back once.
    - processes: a fork copies the parent's memory; the exit of a child wakes a parent
      that waits, which then collects it with its status, and no end is lost over any
      history (of init, which inherits children that may have ended, less is shown); an
      exit closes the descriptors and gives back the frames of user memory, page tables
      and pipes and the whole pages of the address bitmap; a loaded program is the image
      its file describes, and other files are refused.
    - the way into the kernel: the gates lead where they should; a system call reaches
      the routine of its number with its arguments.
    - devices: exact transfers with the right drive in the driver, FIFO order in the
      ring buffer, the keyboard's layout, the timer's preemption and sleep; the screen
      shows the last rows of what is printed.
    - file system: formatting and mounting give an empty tree, mounting again what
      was there, and the first start does so for the partitions that need it; inodes
      survive a write and a read; releasing one frees exactly its blocks; appending and
      reading are those of a byte sequence, also through a descriptor; a directory
      is a sequence of entries, on which lookup, adding, removing and listing are
      the obvious ones; a path is the sequence of its components, and resolving it
      is one lookup per component.
    - shell: the line editor shows and returns the edited line; a line runs the commands
      between its bars, connected by pipes; [cd] goes where the path leads, [ls] prints
      what is there.
    - the error theorems and the findings of the manifest record where the code
      does not do what it means to.

    * Not modelled

    - other threads running while the file system, the allocator or a page function
      blocks on the disk or on a lock: those functions are sequential here, and the
      locks of the pools are left out;
    - the processor's caching of page table entries ([thread_exit] of Thread.v depends
      on it: see there), and the interrupt entry code apart from the system call's;
    - [boot/] and [switch.S]: assembly;
    - the order of [init_all] above the disks (kernel/init.c), and kernel/main.c: the
      calls it makes are modelled one by one, its demonstration threads and programs do
      nothing else; the process [init] is a loop around [sys_wait], which is modelled;
    - the programs under command/, which run in user mode and call the stubs;
    - messages of the kernel that only report progress ([put_str], [printk]) where no
      theorem speaks of them. *)
From stdpp Require Export base list gmap.
From Stdlib Require Export ZArith Lia.
#[global] Open Scope Z_scope.

(** ** Machine integers
    A C integer is a [Z]; conversions to a width are written where the code's
    types convert. *)

Definition u8 (z : Z) : Z := z mod 2 ^ 8.
Definition u16 (z : Z) : Z := z mod 2 ^ 16.
Definition u32 (z : Z) : Z := z mod 2 ^ 32.
Definition s8 (z : Z) : Z := (z + 2 ^ 7) mod 2 ^ 8 - 2 ^ 7.
Definition s16 (z : Z) : Z := (z + 2 ^ 15) mod 2 ^ 16 - 2 ^ 15.
Definition s32 (z : Z) : Z := (z + 2 ^ 31) mod 2 ^ 32 - 2 ^ 31.

(** The [DIV_ROUND_UP] macro of kernel/global.h on [uint32_t] operands. *)
Definition DIV_ROUND_UP (x step : Z) : Z := u32 (x + step - 1) / step.

Definition is_byte (b : Z) : Prop := 0 <= b < 256.
Abbreviation bytes := (Forall is_byte).

(** ** Outcomes
    [Err AssertFail] is the spin loop of a failed [ASSERT] or [PANIC];
    [Err BadAccess] a memory access the C object does not contain;
    [Err OutOfFuel] only says that a model loop was given too little fuel. *)

Inductive fault := AssertFail | BadAccess | OutOfFuel.
Inductive outcome (A : Type) := Ok (a : A) | Err (e : fault).
Arguments Ok {A} a.
Arguments Err {A} e.

#[export] Instance fault_eq_dec : EqDecision fault.
Proof. solve_decision. Defined.

Definition obind {A B} (m : outcome A) (k : A -> outcome B) : outcome B :=
  match m with Ok a => k a | Err e => Err e end.

Declare Scope c_scope.
Delimit Scope c_scope with c.
Notation "'let!' x := m 'in' k" := (obind m (fun x => k))
  (at level 10, x name, m at level 100, k at level 200) : c_scope.
Notation "'let!' ' p := m 'in' k" := (obind m (fun x => match x with p => k end))
  (at level 10, p pattern, m at level 100, k at level 200) : c_scope.
Notation "m ;;; k" := (obind m (fun _ => k))
  (at level 100, right associativity) : c_scope.
#[global] Open Scope c_scope.

(** [ASSERT(cond)]. *)
Definition c_assert (b : bool) : outcome unit :=
  if b then Ok tt else Err AssertFail.

(** ** Arrays indexed by [Z], with bounds *)

Definition znth {A} (l : list A) (i : Z) : option A :=
  if i <? 0 then None else l !! Z.to_nat i.

Definition rd {A} (l : list A) (i : Z) : outcome A :=
  match znth l i with Some x => Ok x | None => Err BadAccess end.

Definition wr {A} (l : list A) (i : Z) (x : A) : outcome (list A) :=
  if (0 <=? i) && (i <? Z.of_nat (length l))
  then Ok (<[Z.to_nat i := x]> l) else Err BadAccess.

Abbreviation zlen l := (Z.of_nat (length l)).

(** [memcpy] of [src] into a buffer [dst] at byte offset [off]. *)
Definition splice {A} (dst : list A) (off : Z) (src : list A) : outcome (list A) :=
  if (0 <=? off) && (off + zlen src <=? zlen dst)
  then Ok (take (Z.to_nat off) dst ++ src ++
           drop (Z.to_nat off + length src) dst)
  else Err BadAccess.

(** The [n] elements of [l] from offset [off]. *)
Definition slice {A} (l : list A) (off n : Z) : outcome (list A) :=
  if (0 <=? off) && (0 <=? n) && (off + n <=? zlen l)
  then Ok (take (Z.to_nat n) (drop (Z.to_nat off) l))
  else Err BadAccess.

(** A little-endian 32-bit word at byte offset [off]. *)
Definition rd_le32 (l : list Z) (off : Z) : outcome Z :=
  let! a := rd l off in
  let! b := rd l (off + 1) in
  let! c := rd l (off + 2) in
  let! d := rd l (off + 3) in
  Ok (a + 256 * b + 65536 * c + 16777216 * d).

(** The four bytes of a 32-bit word, and a structure or array of words as the
    bytes memory holds. *)
Definition le32 (w : Z) : list Z :=
  [u8 w; u8 (Z.shiftr w 8); u8 (Z.shiftr w 16); u8 (Z.shiftr w 24)].

Definition words_to_bytes (ws : list Z) : list Z := concat (map le32 ws).

Fixpoint bytes_to_words (l : list Z) : list Z :=
  match l with
  | a :: b :: c :: d :: l => a + 256 * b + 65536 * c + 16777216 * d :: bytes_to_words l
  | _ => []
  end.

(** ** Loops
    [body] continues with a new state ([inl]) or leaves the loop ([inr]). *)

Fixpoint loop {S R} (body : S -> outcome (S + R)) (fuel : nat) (s : S) : outcome R :=
  match fuel with
  | O => Err OutOfFuel
  | Datatypes.S f =>
      match body s with
      | Err e => Err e
      | Ok (inl s') => loop body f s'
      | Ok (inr r) => Ok r
      end
  end.

Lemma obind_Ok {A B} (m : outcome A) (k : A -> outcome B) r : obind m k = Ok r -> exists a, m = Ok a /\ k a = Ok r.
Proof. destruct m; cbn; [eauto | done]. Qed.

(** ** Tactics *)

Create HintDb cmodel.
Create Rewrite HintDb clen.

(** Simplify a hypothesis [m >>= k = Ok r] step by step. *)
Ltac inv_ok H :=
  match type of H with
  | obind ?m _ = Ok _ =>
      let E := fresh "E" in
      destruct m eqn:E; cbn [obind] in H; [| discriminate H]
  end.

Ltac case_bool :=
  match goal with
  | H : context [if ?b then _ else _] |- _ =>
      let E := fresh "Eb" in destruct b eqn:E
  | |- context [if ?b then _ else _] =>
      let E := fresh "Eb" in destruct b eqn:E
  end.

(** Booleans over [Z] as propositions. *)
Ltac zb :=
  repeat match goal with
  | H : (_ && _)%bool = true |- _ => apply andb_true_iff in H; destruct H
  | H : (_ && _)%bool = false |- _ => apply andb_false_iff in H
  | H : (_ || _)%bool = true |- _ => apply orb_true_iff in H
  | H : (_ || _)%bool = false |- _ => apply orb_false_iff in H; destruct H
  | H : negb _ = true |- _ => apply negb_true_iff in H
  | H : negb _ = false |- _ => apply negb_false_iff in H
  | H : (_ <? _) = true |- _ => apply Z.ltb_lt in H
  | H : (_ <? _) = false |- _ => apply Z.ltb_ge in H
  | H : (_ <=? _) = true |- _ => apply Z.leb_le in H
  | H : (_ <=? _) = false |- _ => apply Z.leb_gt in H
  | H : (_ =? _) = true |- _ => apply Z.eqb_eq in H
  | H : (_ =? _) = false |- _ => apply Z.eqb_neq in H
  end.

(** Decide a boolean comparison that [lia] can settle. *)
Ltac zdec :=
  repeat match goal with
  | |- context [?a <? ?b] =>
      first [ replace (a <? b) with true by (symmetry; apply Z.ltb_lt; lia)
            | replace (a <? b) with false by (symmetry; apply Z.ltb_ge; lia) ]
  | |- context [?a <=? ?b] =>
      first [ replace (a <=? b) with true by (symmetry; apply Z.leb_le; lia)
            | replace (a <=? b) with false by (symmetry; apply Z.leb_gt; lia) ]
  | |- context [?a =? ?b] =>
      first [ replace (a =? b) with true by (symmetry; apply Z.eqb_eq; lia)
            | replace (a =? b) with false by (symmetry; apply Z.eqb_neq; lia) ]
  end; cbn [andb orb negb].

(** A concrete list of bytes is a list of bytes. *)
Ltac solve_bytes :=
  repeat (apply Forall_cons; split; [unfold is_byte; lia |]); apply Forall_nil; exact I.

(** ** Integer lemmas *)

Lemma u8_small z : 0 <= z < 256 -> u8 z = z.
Proof. intros; unfold u8; apply Z.mod_small; lia. Qed.

Lemma u16_small z : 0 <= z < 65536 -> u16 z = z.
Proof. intros; unfold u16; apply Z.mod_small; lia. Qed.

Lemma u32_small z : 0 <= z < 2 ^ 32 -> u32 z = z.
Proof. intros; unfold u32; apply Z.mod_small; lia. Qed.

Lemma s32_small z : - 2 ^ 31 <= z < 2 ^ 31 -> s32 z = z.
Proof. intros; unfold s32; rewrite Z.mod_small; lia. Qed.

Lemma s16_small z : - 2 ^ 15 <= z < 2 ^ 15 -> s16 z = z.
Proof. intros; unfold s16; rewrite Z.mod_small; lia. Qed.

Lemma u8_range z : 0 <= u8 z < 256.
Proof. unfold u8; apply Z.mod_pos_bound; lia. Qed.

Lemma u32_range z : 0 <= u32 z < 2 ^ 32.
Proof. unfold u32; apply Z.mod_pos_bound; lia. Qed.

(** ** Filters *)

Lemma filter_ext_in {A} (P Q : A -> Prop) `{forall x, Decision (P x), forall x, Decision (Q x)} (l : list A) :
  (forall x, x ∈ l -> P x <-> Q x) -> filter P l = filter Q l.
Proof.
  induction l as [|x l IH]; intros Hl; [done|]. rewrite !filter_cons. rewrite IH by (intros y Hy; apply Hl; by right).
  pose proof (Hl x ltac:(by left)) as Hx. destruct (decide (P x)), (decide (Q x)); tauto.
Qed.

Lemma filter_all {A} (P : A -> Prop) `{forall x, Decision (P x)} (l : list A) : Forall P l -> filter P l = l.
Proof. induction 1 as [|x l Hx Hl IH]; [done|]. rewrite filter_cons_True by done. by rewrite IH. Qed.

Lemma filter_snoc_False {A} (P : A -> Prop) `{forall x, Decision (P x)} (l : list A) x : ~ P x -> filter P (l ++ [x]) = filter P l.
Proof. intros Hx. by rewrite filter_app, filter_cons_False, filter_nil, app_nil_r. Qed.

(** Fewer elements pass a stronger test; all but one. *)
Lemma filter_count_mono {A} (P Q : A -> Prop) `{forall x, Decision (P x), forall x, Decision (Q x)} (l : list A) :
  (forall x, x ∈ l -> P x -> Q x) -> (length (filter P l) <= length (filter Q l))%nat.
Proof.
  induction l as [|x l IH]; intros Hl; [done|]. specialize (IH (fun y Hy => Hl y (list_elem_of_further _ _ _ Hy))).
  pose proof (Hl x (list_elem_of_here _ _)). rewrite !filter_cons. destruct (decide (P x)), (decide (Q x)); cbn; try lia. tauto.
Qed.

Lemma filter_count_but {A} (P Q : A -> Prop) `{forall x, Decision (P x), forall x, Decision (Q x)} (l : list A) r : NoDup l ->
  (forall x, x ∈ l -> x <> r -> P x -> Q x) -> (length (filter P l) <= S (length (filter Q l)))%nat.
Proof.
  induction l as [|x l IH]; intros Hnd Hl; [cbn; lia|]. apply NoDup_cons in Hnd as [Hx Hnd].
  specialize (IH Hnd (fun y Hy => Hl y (list_elem_of_further _ _ _ Hy))).
  pose proof (filter_count_mono P Q l) as Hm. pose proof (Hl x (list_elem_of_here _ _)) as H1.
  rewrite !filter_cons. destruct (decide (P x)), (decide (Q x)); cbn; try lia.
  enough (length (filter P l) <= length (filter Q l))%nat by lia. apply Hm. intros y Hy. apply Hl; [by right|].
  intros ->. assert (x <> r) by (by intros ->). tauto.
Qed.

(** ** Array lemmas *)

Section arrays.
Context {A : Type}.
Implicit Types (l : list A) (x : A).

Lemma znth_Some l i x : znth l i = Some x -> 0 <= i < zlen l.
Proof.
  unfold znth; case_bool; zb; [done|].
  intros Hl; apply lookup_lt_Some in Hl; lia.
Qed.

Lemma znth_in l i : 0 <= i < zlen l -> exists x, znth l i = Some x.
Proof.
  intros Hi; unfold znth; zdec.
  apply lookup_lt_is_Some; lia.
Qed.

Lemma znth_out l i : i < 0 \/ zlen l <= i -> znth l i = None.
Proof.
  intros Hi; unfold znth; case_bool; zb; [done|].
  apply lookup_ge_None; lia.
Qed.

Lemma rd_znth l i x : znth l i = Some x -> rd l i = Ok x.
Proof. unfold rd; by intros ->. Qed.

Lemma rd_out l i : i < 0 \/ zlen l <= i -> rd l i = Err BadAccess.
Proof. intros; unfold rd; by rewrite znth_out. Qed.

Lemma rd_Ok l i x : rd l i = Ok x -> znth l i = Some x.
Proof. unfold rd; destruct (znth l i); congruence. Qed.

Lemma wr_in l i x : 0 <= i < zlen l -> wr l i x = Ok (<[Z.to_nat i := x]> l).
Proof. intros; unfold wr; by zdec. Qed.

Lemma wr_Ok l i x l' :
  wr l i x = Ok l' -> 0 <= i < zlen l /\ l' = <[Z.to_nat i := x]> l.
Proof. unfold wr; case_bool; zb; intros [= <-]; split; [lia | done]. Qed.

Lemma znth_insert l i x j : 0 <= i < zlen l ->
  znth (<[Z.to_nat i := x]> l) j = if j =? i then Some x else znth l j.
Proof.
  intros Hi; unfold znth.
  destruct (Z.ltb_spec j 0); destruct (Z.eqb_spec j i); try lia; subst; try done.
  - apply list_lookup_insert_eq; lia.
  - apply list_lookup_insert_ne; lia.
Qed.

Lemma splice_length l off src l' : splice l off src = Ok l' -> length l' = length l.
Proof.
  unfold splice; case_bool; zb; intros [= <-].
  rewrite !length_app, length_take, length_drop; lia.
Qed.

Lemma slice_splice l off src l' :
  splice l off src = Ok l' -> slice l' off (zlen src) = Ok src.
Proof.
  intros Hs. pose proof (splice_length _ _ _ _ Hs) as Hl.
  unfold splice in Hs; case_bool; zb; [injection Hs as <- | discriminate].
  unfold slice; rewrite Hl; zdec. f_equal.
  rewrite drop_app_length' by (rewrite length_take; lia).
  rewrite take_app_length'; [done | lia].
Qed.

Lemma slice_all l n : zlen l = n -> slice l 0 n = Ok l.
Proof. intros Hl. unfold slice. zdec. change (Z.to_nat 0) with 0%nat. by rewrite drop_0, take_ge by lia. Qed.

Lemma splice_ok dst off src : 0 <= off -> off + zlen src <= zlen dst -> exists l, splice dst off src = Ok l.
Proof. intros; unfold splice; zdec; by eexists. Qed.

Lemma splice_lookup dst off src l k : splice dst off src = Ok l -> 0 <= k ->
  l !! Z.to_nat k = if (off <=? k) && (k <? off + zlen src) then src !! Z.to_nat (k - off) else dst !! Z.to_nat k.
Proof.
  intros Hs Hk. unfold splice in Hs; case_bool; zb; [injection Hs as <- | discriminate].
  assert (length (take (Z.to_nat off) dst) = Z.to_nat off) as Ht by (rewrite length_take; lia).
  destruct (Z.leb_spec off k); cbn [andb].
  - rewrite lookup_app_r, Ht by lia. destruct (Z.ltb_spec k (off + zlen src)).
    + rewrite lookup_app_l by lia. f_equal; lia.
    + rewrite lookup_app_r, lookup_drop by lia. f_equal; lia.
  - rewrite lookup_app_l, lookup_take_lt by lia. done.
Qed.

Lemma splice_forall (P : A -> Prop) dst off src l : splice dst off src = Ok l ->
  Forall P dst -> Forall P src -> Forall P l.
Proof.
  intros Hs Hd Hr. unfold splice in Hs; case_bool; [injection Hs as <- | discriminate].
  repeat (apply Forall_app; split); [by apply Forall_take | done | by apply Forall_drop].
Qed.

(** A splice leaves every slice that does not meet it alone. *)
Lemma slice_splice_ne l off src l' off' n :
  splice l off src = Ok l' ->
  off' + n <= off \/ off + zlen src <= off' ->
  slice l' off' n = slice l off' n.
Proof.
  intros Hs Hd. pose proof (splice_length _ _ _ _ Hs) as Hl.
  unfold slice; rewrite Hl. case_bool; [|done]. zb. f_equal.
  unfold splice in Hs; case_bool; zb; [injection Hs as <- | discriminate].
  apply list_eq; intros i.
  destruct (decide (i < Z.to_nat n)%nat) as [Hi|Hi].
  2: { rewrite !lookup_take_ge by lia; done. }
  rewrite !lookup_take_lt, !lookup_drop by lia.
  destruct Hd.
  - rewrite lookup_app_l by (rewrite length_take; lia).
    rewrite lookup_take_lt by lia; done.
  - rewrite lookup_app_r by (rewrite length_take; lia).
    rewrite length_take, lookup_app_r by lia.
    rewrite lookup_drop; f_equal; lia.
Qed.

End arrays.

(** ** Word lemmas *)

Abbreviation is_u32 z := (0 <= z < 2 ^ 32).

Lemma le32_value w : is_u32 w ->
  u8 w + 256 * u8 (Z.shiftr w 8) + 65536 * u8 (Z.shiftr w 16) + 16777216 * u8 (Z.shiftr w 24) = w.
Proof.
  intros Hw. unfold u8. rewrite (Z.shiftr_div_pow2 w 8), (Z.shiftr_div_pow2 w 16), (Z.shiftr_div_pow2 w 24) by lia.
  change (2 ^ 8) with 256. change (2 ^ 16) with (256 * 256). change (2 ^ 24) with (256 * 256 * 256).
  rewrite <- !Z.div_div by lia.
  pose proof (Z.div_mod w 256). pose proof (Z.div_mod (w / 256) 256).
  pose proof (Z.div_mod (w / 256 / 256) 256). rewrite (Z.mod_small (w / 256 / 256 / 256)); [lia|].
  split; [repeat apply Z.div_pos; lia|]. repeat (apply Z.div_lt_upper_bound; [lia|]). lia.
Qed.

Lemma le32_bytes w : bytes (le32 w).
Proof. repeat (constructor; [apply u8_range|]). constructor. Qed.

Lemma words_to_bytes_cons w ws : words_to_bytes (w :: ws) = le32 w ++ words_to_bytes ws.
Proof. done. Qed.

Lemma words_to_bytes_length ws : length (words_to_bytes ws) = (4 * length ws)%nat.
Proof. induction ws as [|w ws IH]; [done|]. rewrite words_to_bytes_cons, length_app, IH. cbn. lia. Qed.

Lemma words_to_bytes_bytes ws : bytes (words_to_bytes ws).
Proof.
  induction ws as [|w ws IH]; [constructor|]. rewrite words_to_bytes_cons.
  apply Forall_app; split; [apply le32_bytes | done].
Qed.

Lemma bytes_to_words_to_bytes ws : Forall (fun w => is_u32 w) ws ->
  bytes_to_words (words_to_bytes ws) = ws.
Proof.
  induction 1 as [|w ws Hw _ IH]; [done|]. rewrite words_to_bytes_cons. unfold le32.
  cbn [app bytes_to_words]. by rewrite IH, le32_value.
Qed.

Lemma bytes_to_words_ok n : forall l, length l = (4 * n)%nat -> bytes l ->
  length (bytes_to_words l) = n /\ Forall (fun w => is_u32 w) (bytes_to_words l)
  /\ words_to_bytes (bytes_to_words l) = l.
Proof.
  induction n as [|n IH]; intros l Hl Hb.
  - destruct l; [by repeat split | cbn in Hl; lia].
  - destruct l as [|a [|b [|c [|d l]]]]; cbn in Hl; try lia.
    rewrite !Forall_cons in Hb. destruct Hb as (Ha & Hb & Hc & Hd & Hrest). unfold is_byte in Ha, Hb, Hc, Hd.
    destruct (IH l ltac:(lia) Hrest) as (IH1 & IH2 & IH3). cbn [bytes_to_words].
    split; [cbn; lia|]. split; [constructor; [lia|done]|].
    rewrite words_to_bytes_cons, IH3. unfold le32, u8.
    set (w := a + 256 * b + 65536 * c + 16777216 * d).
    rewrite (Z.shiftr_div_pow2 w 8), (Z.shiftr_div_pow2 w 16), (Z.shiftr_div_pow2 w 24) by lia.
    change (2 ^ 8) with 256. change (2 ^ 16) with 65536. change (2 ^ 24) with 16777216.
    assert (w / 256 = b + 256 * c + 65536 * d) as -> by (symmetry; apply (Z.div_unique _ _ _ a); unfold w; lia).
    assert (w / 65536 = c + 256 * d) as -> by (symmetry; apply (Z.div_unique _ _ _ (a + 256 * b)); unfold w; lia).
    assert (w / 16777216 = d) as ->
      by (symmetry; apply (Z.div_unique _ _ _ (a + 256 * b + 65536 * c)); unfold w; lia).
    cbn [app]. f_equal; [|f_equal; [|f_equal; [|f_equal; apply Z.mod_small; lia]]].
    + symmetry; apply (Z.mod_unique _ _ (b + 256 * c + 65536 * d)); unfold w; lia.
    + symmetry; apply (Z.mod_unique _ _ (c + 256 * d)); lia.
    + symmetry; apply (Z.mod_unique _ _ d); lia.
Qed.

(** ** The total-correctness rule of [loop]
    An invariant, a measure that each continuing pass decreases, and a
    postcondition on the outcome of a leaving pass (errors included). *)
Lemma loop_rule {S R} (body : S -> outcome (S + R))
    (Inv : S -> Prop) (Q : outcome R -> Prop) (m : S -> nat) :
  (forall s, Inv s ->
     match body s with
     | Ok (inl s') => Inv s' /\ (m s' < m s)%nat
     | Ok (inr r) => Q (Ok r)
     | Err e => Q (Err e)
     end) ->
  forall fuel s, Inv s -> (m s < fuel)%nat -> Q (loop body fuel s).
Proof.
  intros Hb fuel; induction fuel as [|f IH]; intros s Hs Hm; [lia|].
  cbn. specialize (Hb s Hs).
  destruct (body s) as [[s'|r]|e]; try done.
  destruct Hb as [Hi Hlt]. apply IH; [done | lia].
Qed.

(** What a loop that returns has kept; nothing is said about those that do not. *)
Lemma loop_keeps {S R} (body : S -> outcome (S + R)) (I : S -> Prop) (P : R -> Prop) :
  (forall s r, I s -> body s = Ok r -> match r with inl s' => I s' | inr x => P x end) ->
  forall n s r, I s -> loop body n s = Ok r -> P r.
Proof.
  intros Hb. induction n as [|n IH]; intros s r Hi E; [done|]. cbn in E. destruct (body s) as [[s'|x]|] eqn:Eb; [| |done].
  - by apply (IH s'); [apply (Hb s _ Hi Eb)|].
  - injection E as <-. apply (Hb s _ Hi Eb).
Qed.

(** Extra fuel does not change an answer. *)
Lemma loop_fuel_mono {S R} (body : S -> outcome (S + R)) f s r :
  loop body f s = Ok r -> forall f', (f <= f')%nat -> loop body f' s = Ok r.
Proof.
  revert s; induction f as [|f IH]; intros s H f' Hf; [done|].
  destruct f' as [|f']; [lia|]. cbn in *.
  destruct (body s) as [[s'|r']|e]; try done.
  apply IH; [done | lia].
Qed.

(** Reduce a goal about a loop to its invariant [I] and measure [m]. *)
Ltac loop_inv I m :=
  match goal with
  | |- context [loop ?b ?f ?s] =>
      pattern (loop b f s); apply (loop_rule b I _ m)
  end.

(** Lists compared index by index, and a buffer overwritten from its start. *)
Lemma list_by_znth {A} (l l' : list A) n : zlen l = n -> zlen l' = n ->
  (forall k, 0 <= k < n -> l !! Z.to_nat k = l' !! Z.to_nat k) -> l = l'.
Proof.
  intros Hl Hl' Hk. apply list_eq. intros j. destruct (decide (Z.of_nat j < n)).
  - specialize (Hk (Z.of_nat j) ltac:(lia)). by rewrite Nat2Z.id in Hk.
  - rewrite !lookup_ge_None_2 by lia. done.
Qed.

Lemma splice_start {A} (buf l : list A) : (length l <= length buf)%nat -> splice buf 0 l = Ok (l ++ drop (length l) buf).
Proof. intros Hl. unfold splice. zdec. by rewrite take_0. Qed.

#[export] Hint Rewrite @length_app @length_take @length_drop @length_insert
  @length_replicate : clen.
#[export] Hint Resolve u8_range u32_range : cmodel.
