(* ===== verification/Bitmap.v ===== *)
(** lib/kernel/bitmap.c and bitmap.h: the bitmaps behind every allocator
    (physical pages, virtual addresses, pids, blocks and inodes).

    [bits] is the memory at the bitmap's pointer: it may be longer than
    [btmp_bytes_len], and reading past it is a [BadAccess]. *)
From S2P Require Import Prelude.

Definition BITMAP_MASK : Z := 1.

Record bitmap := mk_bitmap { btmp_bytes_len : Z; bits : list Z }.

Definition with_bits (btmp : bitmap) (l : list Z) : bitmap :=
  {| btmp_bytes_len := btmp_bytes_len btmp; bits := l |}.

(** [memset(btmp->bits, 0, btmp->btmp_bytes_len)]. *)
Definition bitmap_init (btmp : bitmap) : outcome bitmap :=
  let! l := splice (bits btmp) 0 (replicate (Z.to_nat (btmp_bytes_len btmp)) 0) in
  Ok (with_bits btmp l).

(** The C function returns the masked byte: zero or not zero. *)
Definition bitmap_scan_test (btmp : bitmap) (bit_idx : Z) : outcome Z :=
  let byte_idx := bit_idx / 8 in
  let bit_odd := bit_idx mod 8 in
  let! b := rd (bits btmp) byte_idx in
  Ok (Z.land b (Z.shiftl BITMAP_MASK bit_odd)).

Definition bitmap_set (btmp : bitmap) (bit_idx value : Z) : outcome bitmap :=
  c_assert ((value =? 0) || (value =? 1)) ;;;
  let byte_idx := bit_idx / 8 in
  let bit_odd := bit_idx mod 8 in
  let! b := rd (bits btmp) byte_idx in
  let b' := if negb (value =? 0)
            then u8 (Z.lor b (Z.shiftl BITMAP_MASK bit_odd))
            else u8 (Z.land b (Z.lnot (Z.shiftl BITMAP_MASK bit_odd))) in
  let! l := wr (bits btmp) byte_idx b' in
  Ok (with_bits btmp l).

(** The first loop of [bitmap_scan]: the byte is read before the index is
    compared with the length. *)
Definition scan_byte_body (btmp : bitmap) (idx_byte : Z) : outcome (Z + Z) :=
  let! b := rd (bits btmp) idx_byte in
  if (255 =? b) && (idx_byte <? btmp_bytes_len btmp)
  then Ok (inl (idx_byte + 1)) else Ok (inr idx_byte).

(** The second loop: the first clear bit of the byte. *)
Definition scan_bit_body (b : Z) (idx_bit : Z) : outcome (Z + Z) :=
  if negb (Z.land (u8 (Z.shiftl BITMAP_MASK idx_bit)) b =? 0)
  then Ok (inl (idx_bit + 1)) else Ok (inr idx_bit).

(** The third loop, over [(bit_left, next_bit, count)]. *)
Definition scan_run_body (btmp : bitmap) (cnt : Z) (s : Z * Z * Z)
  : outcome (Z * Z * Z + Z) :=
  let '(bit_left, next_bit, count) := s in
  if negb (0 <? bit_left) then Ok (inr (-1)) else
  let bit_left := u32 (bit_left - 1) in
  let! t := bitmap_scan_test btmp next_bit in
  let count := if t =? 0 then u32 (count + 1) else 0 in
  if count =? cnt then Ok (inr (s32 (next_bit - cnt + 1)))
  else Ok (inl (bit_left, u32 (next_bit + 1), count)).

Definition bitmap_scan (btmp : bitmap) (cnt : Z) : outcome Z :=
  let len := btmp_bytes_len btmp in
  let! idx_byte := loop (scan_byte_body btmp) (S (S (Z.to_nat len))) 0 in
  c_assert (idx_byte <? len) ;;;
  if idx_byte =? len then Ok (-1) else
  let! b := rd (bits btmp) idx_byte in
  let! idx_bit := loop (scan_bit_body b) 10 0 in
  let bit_idx_start := s32 (u32 (idx_byte * 8 + idx_bit)) in
  if cnt =? 1 then Ok bit_idx_start else
  let bit_left := u32 (len * 8 - bit_idx_start) in
  let next_bit := u32 (bit_idx_start + 1) in
  loop (scan_run_body btmp cnt) (S (Z.to_nat bit_left)) (bit_left, next_bit, 1).

(** ** Specification vocabulary *)

(** Bit [i] of the memory at the bitmap's pointer. *)
Definition bit (btmp : bitmap) (i : Z) : bool :=
  Z.testbit (default 0 (znth (bits btmp) (i / 8))) (i mod 8).

Definition nbits (btmp : bitmap) : Z := btmp_bytes_len btmp * 8.

(** All of [cnt] bits from [i] are clear. *)
Definition clear_run (btmp : bitmap) (i cnt : Z) : Prop :=
  forall j, i <= j < i + cnt -> bit btmp j = false.

(** The memory holds bytes, covers the bitmap and the [slack] bytes after it,
    and bit indices fit a C [int]. *)
Record bitmap_wf (slack : Z) (btmp : bitmap) : Prop := {
  wf_len : 0 <= btmp_bytes_len btmp;
  wf_int : nbits btmp + 8 < 2 ^ 31;
  wf_mem : btmp_bytes_len btmp + slack <= zlen (bits btmp);
  wf_bytes : bytes (bits btmp) }.

Ltac solve_bitmap_wf :=
  constructor; [cbn; lia | unfold nbits; cbn; lia | cbn; lia | solve_bytes].

(** ** Bit-level lemmas *)

Lemma land_pow2_zero b k : 0 <= k -> (Z.land b (Z.shiftl 1 k) =? 0) = negb (Z.testbit b k).
Proof.
  intros Hk. rewrite Z.shiftl_1_l.
  destruct (Z.testbit b k) eqn:E; cbn.
  - apply Z.eqb_neq; intros H0. apply (f_equal (fun z => Z.testbit z k)) in H0.
    rewrite Z.land_spec, Z.pow2_bits_true, E, Z.bits_0 in H0 by lia. done.
  - apply Z.eqb_eq, Z.bits_inj'; intros n Hn.
    rewrite Z.land_spec, Z.bits_0, Z.pow2_bits_eqb by lia.
    destruct (Z.eqb_spec k n); subst; [by rewrite E | by rewrite andb_false_r].
Qed.

Lemma is_byte_testbit b k : is_byte b -> 8 <= k -> Z.testbit b k = false.
Proof.
  intros [H0 H1] Hk. rewrite <- (Z.mod_small b (2 ^ 8)) by lia.
  apply Z.mod_pow2_bits_high; lia.
Qed.

Lemma u8_testbit z k : 0 <= k < 8 -> Z.testbit (u8 z) k = Z.testbit z k.
Proof. intros; unfold u8; apply Z.mod_pow2_bits_low; lia. Qed.

Lemma byte_full b : is_byte b ->
  b = 255 <-> forall k, 0 <= k < 8 -> Z.testbit b k = true.
Proof.
  intros Hb; split.
  - intros -> k Hk. change 255 with (Z.ones 8). apply Z.ones_spec_low; lia.
  - intros Ha. change 255 with (Z.ones 8). apply Z.bits_inj'; intros n Hn.
    destruct (Z.ltb_spec n 8).
    + rewrite Ha, Z.ones_spec_low by lia; done.
    + rewrite is_byte_testbit, Z.ones_spec_high by (done || lia); done.
Qed.

Lemma rd_byte (l : list Z) i : bytes l -> 0 <= i < zlen l ->
  exists b, znth l i = Some b /\ is_byte b.
Proof.
  intros Hl Hi. destruct (znth_in l i Hi) as [b Hb]. exists b; split; [done|].
  unfold znth in Hb; case_bool; [done|]. eapply Forall_lookup_1; eauto.
Qed.

(** ** [bitmap_scan_test] and [bitmap_set] *)

Lemma scan_test_ok btmp s i : bitmap_wf s btmp ->
  0 <= i < nbits btmp + s * 8 ->
  exists t, bitmap_scan_test btmp i = Ok t /\ (t =? 0) = negb (bit btmp i).
Proof.
  intros [] Hi. unfold nbits in *.
  assert (0 <= i / 8 < zlen (bits btmp)) as Hr by (Z.to_euclidean_division_equations; lia).
  destruct (rd_byte _ _ wf_bytes0 Hr) as (b & Hb & _).
  unfold bitmap_scan_test, bit. erewrite rd_znth, Hb by done. cbn.
  eexists; split; [done|]. apply land_pow2_zero, Z.mod_pos_bound; lia.
Qed.

Lemma div_mod_eq8 i j : i / 8 = j / 8 -> i mod 8 = j mod 8 -> i = j.
Proof. intros; Z.to_euclidean_division_equations; lia. Qed.

Lemma set_bits_byte b (v : bool) k n : is_byte b -> 0 <= k < 8 -> 0 <= n ->
  Z.testbit (if v then u8 (Z.lor b (Z.shiftl 1 k))
             else u8 (Z.land b (Z.lnot (Z.shiftl 1 k)))) n
  = if n =? k then v else Z.testbit b n.
Proof.
  intros Hb Hk Hn. destruct (Z.ltb_spec n 8) as [Hn8|Hn8].
  - destruct v; rewrite u8_testbit by lia; rewrite Z.shiftl_1_l;
      rewrite ?Z.lor_spec, ?Z.land_spec, ?Z.lnot_spec, Z.pow2_bits_eqb by lia;
      rewrite (Z.eqb_sym k n); destruct (n =? k); destruct (Z.testbit b n); done.
  - zdec. rewrite (is_byte_testbit b) by done.
    destruct v; apply is_byte_testbit; try done; apply u8_range.
Qed.

Lemma bitmap_set_ok btmp s i v : bitmap_wf s btmp -> 0 <= i < nbits btmp + s * 8 ->
  exists btmp', bitmap_set btmp i (Z.b2z v) = Ok btmp'
    /\ btmp_bytes_len btmp' = btmp_bytes_len btmp
    /\ bitmap_wf s btmp'
    /\ forall j, bit btmp' j = if j =? i then v else bit btmp j.
Proof.
  intros Hwf Hi. pose proof Hwf as []. unfold nbits in *.
  assert (0 <= i / 8 < zlen (bits btmp)) as Hr by (Z.to_euclidean_division_equations; lia).
  destruct (rd_byte _ _ wf_bytes0 Hr) as (b & Hb & Hbyte).
  unfold bitmap_set.
  replace ((Z.b2z v =? 0) || (Z.b2z v =? 1))%bool with true by (by destruct v).
  cbn [c_assert obind]. erewrite rd_znth by done. cbn [obind].
  rewrite wr_in by done. cbn [obind].
  replace (negb (Z.b2z v =? 0)) with v by (by destruct v).
  eexists; split; [done|]. split; [done|]. split.
  - constructor; cbn; try done.
    + by rewrite length_insert.
    + apply Forall_insert; [done|]. destruct v; apply u8_range.
  - intros j. unfold bit; cbn. rewrite znth_insert by done.
    destruct (Z.eqb_spec (j / 8) (i / 8)) as [E|E].
    + rewrite E, Hb. cbn. unfold BITMAP_MASK.
      rewrite set_bits_byte by (done || apply Z.mod_pos_bound; lia).
      destruct (Z.eqb_spec j i) as [->|Hne]; [by rewrite Z.eqb_refl|].
      destruct (Z.eqb_spec (j mod 8) (i mod 8)); [|done].
      exfalso; by apply Hne, div_mod_eq8.
    + destruct (Z.eqb_spec j i) as [->|]; done.
Qed.

(** ** The loops of [bitmap_scan] *)

Lemma scan_byte_spec btmp : bitmap_wf 1 btmp ->
  exists k, loop (scan_byte_body btmp) (S (S (Z.to_nat (btmp_bytes_len btmp)))) 0 = Ok k
    /\ 0 <= k <= btmp_bytes_len btmp
    /\ (forall i, 0 <= i < k -> znth (bits btmp) i = Some 255)
    /\ (k < btmp_bytes_len btmp -> znth (bits btmp) k <> Some 255).
Proof.
  intros []. set (len := btmp_bytes_len btmp) in *.
  loop_inv
    (fun k => 0 <= k <= len /\ forall i, 0 <= i < k -> znth (bits btmp) i = Some 255)
    (fun k => Z.to_nat (len - k)); [|split; [lia | intros; lia] | lia].
  intros k [Hk Hall]. unfold scan_byte_body; fold len.
  destruct (znth_in (bits btmp) k ltac:(lia)) as [b Hb].
  erewrite rd_znth by done. cbn [obind].
  destruct ((255 =? b) && (k <? len))%bool eqn:E; zb.
  - split; [|lia]. split; [lia|]. intros i Hi.
    destruct (Z.eq_dec i k) as [->|]; [by subst b | apply Hall; lia].
  - exists k. split; [done|]. split; [lia|]. split; [done|].
    intros Hlt Hb'. rewrite Hb in Hb'. injection Hb' as ->. destruct E as [E|E]; zb; lia.
Qed.

Lemma scan_bit_spec b : is_byte b -> b <> 255 ->
  exists k, loop (scan_bit_body b) 10 0 = Ok k /\ 0 <= k < 8
    /\ Z.testbit b k = false /\ forall i, 0 <= i < k -> Z.testbit b i = true.
Proof.
  intros Hb Hne.
  loop_inv
    (fun k => 0 <= k <= 8 /\ forall i, 0 <= i < k -> Z.testbit b i = true)
    (fun k => Z.to_nat (8 - k)); [|split; [lia | intros; lia] | lia].
  intros k [Hk Hall]. unfold scan_bit_body, BITMAP_MASK.
  destruct (Z.eq_dec k 8) as [->|Hk8].
  { exfalso. apply Hne. apply byte_full; done. }
  assert (0 <= Z.shiftl 1 k < 256) as Hp.
  { rewrite Z.shiftl_1_l; split; [apply Z.pow_nonneg; lia|].
    change 256 with (2 ^ 8). apply Z.pow_lt_mono_r; lia. }
  rewrite (u8_small _ Hp), Z.land_comm, land_pow2_zero by lia.
  destruct (Z.testbit b k) eqn:E; cbn.
  - split; [|lia]. split; [lia|]. intros i Hi.
    destruct (Z.eq_dec i k) as [->|]; [done | apply Hall; lia].
  - exists k; repeat split; try done; lia.
Qed.

Lemma bit_byte btmp k j : 0 <= j < 8 ->
  bit btmp (k * 8 + j) = Z.testbit (default 0 (znth (bits btmp) k)) j.
Proof.
  intros Hj. unfold bit.
  replace ((k * 8 + j) / 8) with k by (Z.to_euclidean_division_equations; lia).
  by replace ((k * 8 + j) mod 8) with j by (Z.to_euclidean_division_equations; lia).
Qed.

Lemma bit_full_bytes btmp k i :
  (forall n, 0 <= n < k -> znth (bits btmp) n = Some 255) ->
  0 <= i < k * 8 -> bit btmp i = true.
Proof.
  intros Hk Hi. unfold bit.
  rewrite Hk by (Z.to_euclidean_division_equations; lia). cbn.
  apply (byte_full 255); [split; lia | done | apply Z.mod_pos_bound; lia].
Qed.

(** What the scan has established when it starts to count: the first clear
    bit of the bitmap, as a C [int]. *)
Lemma bitmap_scan_first btmp cnt : bitmap_wf 1 btmp ->
  (exists i, 0 <= i < nbits btmp /\ bit btmp i = false) ->
  exists k, 0 <= k < nbits btmp /\ bit btmp k = false
    /\ (forall i, 0 <= i < k -> bit btmp i = true)
    /\ bitmap_scan btmp cnt =
       if cnt =? 1 then Ok k else
       loop (scan_run_body btmp cnt) (S (Z.to_nat (nbits btmp - k)))
            (nbits btmp - k, k + 1, 1).
Proof.
  intros Hwf (i0 & Hi0 & Hfree). pose proof Hwf as []. unfold nbits in *.
  destruct (scan_byte_spec btmp Hwf) as (k & Hk & Hkr & Hall & Hk255).
  unfold bitmap_scan. rewrite Hk. cbn [obind].
  assert (k < btmp_bytes_len btmp) as Hlt.
  { destruct (Z.eq_dec k (btmp_bytes_len btmp)) as [->|]; [|lia].
    rewrite (bit_full_bytes btmp (btmp_bytes_len btmp)) in Hfree by done. done. }
  zdec. cbn [c_assert obind].
  destruct (rd_byte _ k wf_bytes0 ltac:(lia)) as (b & Hb & Hbyte).
  erewrite rd_znth by done. cbn [obind].
  destruct (scan_bit_spec b Hbyte) as (j & Hj & Hjr & Hjf & Hjt).
  { intros ->. by apply Hk255. }
  rewrite Hj. cbn [obind].
  assert (forall n, 0 <= n < 8 -> bit btmp (k * 8 + n) = Z.testbit b n) as Hbits.
  { intros. rewrite bit_byte, Hb by done. done. }
  exists (k * 8 + j). rewrite !u32_small, s32_small by
    (rewrite ?s32_small, ?u32_small; lia).
  split; [lia|]. split; [by rewrite Hbits|]. split; [|done].
  intros i Hi. destruct (Z.ltb_spec i (k * 8)).
  - eapply bit_full_bytes; [done | lia].
  - replace i with (k * 8 + (i - k * 8)) by lia. rewrite Hbits by lia. apply Hjt; lia.
Qed.

Lemma clear_run_sub btmp i c i' c' :
  clear_run btmp i c -> i <= i' -> i' + c' <= i + c -> clear_run btmp i' c'.
Proof. intros H ?? j Hj; apply H; lia. Qed.

(** The counting loop: it meets the earliest run of [cnt] clear bits ending
    at or before bit [nbits], the bit after the last one. *)
Lemma scan_run_spec btmp cnt k : bitmap_wf 1 btmp -> 2 <= cnt < 2 ^ 32 ->
  0 <= k < nbits btmp -> bit btmp k = false ->
  (forall i, 0 <= i < k -> bit btmp i = true) ->
  exists r,
    loop (scan_run_body btmp cnt) (S (Z.to_nat (nbits btmp - k)))
         (nbits btmp - k, k + 1, 1) = Ok r
    /\ (0 <= r /\ r + cnt <= nbits btmp + 1 /\ clear_run btmp r cnt
        /\ (forall i, 0 <= i < r -> ~ clear_run btmp i cnt)
        \/ r = -1
        /\ forall i, 0 <= i -> i + cnt <= nbits btmp + 1 -> ~ clear_run btmp i cnt).
Proof.
  intros Hwf Hcnt Hk Hkf Hkt. pose proof Hwf as []. set (N := nbits btmp) in *.
  pose (Inv := fun s : Z * Z * Z => let '(l, n, c) := s in
    0 <= l /\ l = N - n + 1 /\ k < n /\ 0 <= c < cnt /\ c <= n /\ clear_run btmp (n - c) c
    /\ (n - c = 0 \/ bit btmp (n - c - 1) = true)
    /\ forall i, 0 <= i -> i + cnt <= n -> ~ clear_run btmp i cnt).
  loop_inv Inv (fun s : Z * Z * Z => Z.to_nat (s.1.1)); [| | cbn; lia].
  2: { split_and!; try lia.
       - intros j Hj. by replace j with k by lia.
       - destruct (Z.eq_dec k 0); [lia|]. right. apply Hkt; lia.
       - intros i Hi Hic Hc. destruct (Z.eq_dec i k); [lia|].
         specialize (Hc i ltac:(lia)). rewrite Hkt in Hc by lia. done. }
  intros [[l n] c] (Hl & Hln & Hkn & Hc & Hcn & Hrun & Hpre & Hno).
  unfold scan_run_body. destruct (0 <? l) eqn:El; zb; cbn [negb].
  2: { exists (-1). split; [done|]. right; split; [done|]. intros i ??. apply Hno; lia. }
  destruct (scan_test_ok btmp 1 n Hwf ltac:(lia)) as (t & Ht & Htz).
  rewrite Ht. cbn [obind]. rewrite Htz.
  rewrite (u32_small (l - 1)) by lia. rewrite (u32_small (n + 1)) by lia.
  assert (bit btmp n = true -> forall i, 0 <= i -> i + cnt <= n + 1 -> ~ clear_run btmp i cnt) as Hset.
  { intros Hn i ?? Hcr. destruct (Z.eq_dec (i + cnt) (n + 1)); [|apply (Hno i); [lia|lia|done]].
    specialize (Hcr n ltac:(lia)). congruence. }
  destruct (bit btmp n) eqn:En; cbn [negb].
  - zdec. split; [|cbn; lia]. split_and!; try lia; try (by intros j ?; lia).
    + right. by replace (n + 1 - 0 - 1) with n by lia.
    + intros i ??. apply Hset; done.
  - rewrite (u32_small (c + 1)) by lia.
    assert (clear_run btmp (n - c) (c + 1)) as Hrun'.
    { intros j Hj. destruct (Z.eq_dec j n) as [->|]; [done | apply Hrun; lia]. }
    assert (forall i, 0 <= i < n - c -> i + cnt <= n + 1 -> ~ clear_run btmp i cnt) as Hbefore.
    { intros i ?? Hcr. destruct Hpre as [Hpre|Hpre]; [lia|].
      destruct (Z.leb_spec (i + cnt) n); [by apply (Hno i); [lia|..]|].
      specialize (Hcr (n - c - 1)). rewrite Hpre in Hcr. by discriminate Hcr; lia. }
    case_bool; zb.
    + exists (n - c). split; [f_equal; rewrite s32_small; lia|]. left.
      split_and!; [lia | lia | by replace cnt with (c + 1) | intros i Hi; apply Hbefore; lia].
    + split; [|cbn; lia]. split_and!; try lia.
      * by replace (n + 1 - (c + 1)) with (n - c) by lia.
      * by replace (n + 1 - (c + 1)) with (n - c) by lia.
      * intros i ??. destruct (Z.ltb_spec i (n - c)); [apply Hbefore; lia|]. intros. lia.
Qed.

(** ** Properties *)

(** Allocating one unit, as [palloc], [allocate_pid], [inode_bitmap_alloc]
    and [block_bitmap_alloc] do: on a bitmap with a clear bit, the scan for one
    bit returns the lowest clear bit, and setting it changes that bit alone. *)
Theorem bitmap_alloc_one btmp :
  bitmap_wf 1 btmp -> (exists i, 0 <= i < nbits btmp /\ bit btmp i = false) ->
  exists k btmp', bitmap_scan btmp 1 = Ok k /\ 0 <= k < nbits btmp
    /\ bit btmp k = false /\ (forall i, 0 <= i < k -> bit btmp i = true)
    /\ bitmap_set btmp k 1 = Ok btmp' /\ bitmap_wf 1 btmp'
    /\ forall j, bit btmp' j = if j =? k then true else bit btmp j.
Proof.
  intros Hwf Hfree. destruct (bitmap_scan_first _ 1 Hwf Hfree) as (k & Hk & Hf & Ht & Hs).
  destruct (bitmap_set_ok btmp 1 k true Hwf ltac:(lia)) as (b' & Hb & _ & Hwf' & Hbits).
  exists k, b'. done.
Qed.

(** Searching for a run of [cnt >= 2] clear bits: the scan terminates with
    the earliest such run, or with -1 exactly when there is none, where the
    search window is the bitmap and the one bit after its end. *)
Theorem bitmap_scan_run btmp cnt :
  bitmap_wf 1 btmp -> 2 <= cnt < 2 ^ 32 ->
  (exists i, 0 <= i < nbits btmp /\ bit btmp i = false) ->
  exists r, bitmap_scan btmp cnt = Ok r
    /\ (0 <= r /\ r + cnt <= nbits btmp + 1 /\ clear_run btmp r cnt
        /\ (forall i, 0 <= i < r -> ~ clear_run btmp i cnt)
        \/ r = -1
        /\ forall i, 0 <= i -> i + cnt <= nbits btmp + 1 -> ~ clear_run btmp i cnt).
Proof.
  intros Hwf Hcnt Hfree. destruct (bitmap_scan_first _ cnt Hwf Hfree) as (k & Hk & Hf & Ht & Hs).
  rewrite Hs. zdec. by apply scan_run_spec.
Qed.

(** The counting loop looks at one bit too many: when only the last bit is
    free and the bit after the bitmap happens to be clear, a request for two
    bits is granted although the second one is outside the bitmap. *)
Theorem bitmap_scan_past_end btmp :
  bitmap_wf 1 btmp -> 0 < nbits btmp ->
  (forall i, 0 <= i < nbits btmp - 1 -> bit btmp i = true) ->
  bit btmp (nbits btmp - 1) = false -> bit btmp (nbits btmp) = false ->
  bitmap_scan btmp 2 = Ok (nbits btmp - 1).
Proof.
  intros Hwf Hpos Ht Hl Hn.
  assert (0 <= nbits btmp - 1 < nbits btmp) as Hi by lia.
  destruct (bitmap_scan_first btmp 2 Hwf ltac:(eauto)) as (k & Hk & Hf & Htk & Hs).
  assert (k = nbits btmp - 1) as ->.
  { destruct (Z.eq_dec k (nbits btmp - 1)); [done|]. rewrite Ht in Hf by lia. done. }
  rewrite Hs. zdec.
  destruct (scan_run_spec btmp 2 _ Hwf ltac:(lia) Hk Hf Htk) as (r & Hr & Hcase).
  rewrite Hr. f_equal. destruct Hcase as [(?&?&Hc&Hmin)|[_ Hno]].
  - destruct (Z.eq_dec r (nbits btmp - 1)); [done|].
    specialize (Hc r ltac:(lia)). rewrite Ht in Hc by lia. done.
  - exfalso. apply (Hno (nbits btmp - 1)); [lia | lia |].
    intros j Hj. destruct (Z.eq_dec j (nbits btmp)) as [->|]; [done|].
    by replace j with (nbits btmp - 1) by lia.
Qed.

(** A full bitmap never makes the scan return its documented -1: the loop
    stops at the length, where [ASSERT(idx_byte < btmp_bytes_len)] spins; and
    when no byte follows the bitmap it has already read outside it. *)
Theorem bitmap_scan_full btmp cnt slack :
  0 <= slack <= 1 -> bitmap_wf slack btmp ->
  zlen (bits btmp) = btmp_bytes_len btmp + slack ->
  (forall i, 0 <= i < nbits btmp -> bit btmp i = true) ->
  bitmap_scan btmp cnt = Err (if slack =? 0 then BadAccess else AssertFail).
Proof.
  intros Hsl Hwf Hmem Hfull. pose proof Hwf as []. unfold nbits in *.
  set (len := btmp_bytes_len btmp) in *.
  assert (forall i, 0 <= i < len -> znth (bits btmp) i = Some 255) as H255.
  { intros i Hi. destruct (rd_byte _ i wf_bytes0 ltac:(lia)) as (b & Hb & Hbyte).
    rewrite Hb. f_equal. apply byte_full; [done|]. intros k Hk.
    specialize (Hfull (i * 8 + k) ltac:(lia)). by rewrite bit_byte, Hb in Hfull by done. }
  assert (loop (scan_byte_body btmp) (S (S (Z.to_nat len))) 0 =
          if slack =? 0 then Err BadAccess else Ok len) as Hl.
  { loop_inv (fun k => 0 <= k <= len) (fun k => Z.to_nat (len - k)); [|lia|lia].
    intros k Hk. unfold scan_byte_body; fold len.
    destruct (Z.eq_dec k len) as [->|Hne].
    - destruct (Z.eqb_spec slack 0) as [->|].
      + rewrite rd_out by lia. done.
      + destruct (znth_in (bits btmp) len ltac:(lia)) as [b Hb].
        erewrite rd_znth by done. cbn [obind]. rewrite Z.ltb_irrefl, andb_false_r. done.
    - erewrite rd_znth by (apply H255; lia). cbn [obind]. zdec. lia. }
  unfold bitmap_scan. fold len. rewrite Hl.
  destruct (slack =? 0); cbn [obind]; [done|]. rewrite Z.ltb_irrefl. done.
Qed.

(** ** Witnesses *)

Example bitmap_alloc_one_witness :
  exists k btmp', bitmap_scan (mk_bitmap 2 [255; 7; 0]) 1 = Ok k
    /\ 0 <= k < 16
    /\ bit (mk_bitmap 2 [255; 7; 0]) k = false
    /\ (forall i, 0 <= i < k -> bit (mk_bitmap 2 [255; 7; 0]) i = true)
    /\ bitmap_set (mk_bitmap 2 [255; 7; 0]) k 1 = Ok btmp' /\ bitmap_wf 1 btmp'
    /\ forall j, bit btmp' j = if j =? k then true else bit (mk_bitmap 2 [255; 7; 0]) j.
Proof.
  apply (bitmap_alloc_one (mk_bitmap 2 [255; 7; 0])).
  - solve_bitmap_wf.
  - exists 11. split; [unfold nbits; cbn; lia | reflexivity].
Defined.

Example bitmap_scan_run_witness :
  exists r, bitmap_scan (mk_bitmap 2 [0x17; 0; 255]) 4 = Ok r
    /\ (0 <= r /\ r + 4 <= 16 + 1 /\ clear_run (mk_bitmap 2 [0x17; 0; 255]) r 4
        /\ (forall i, 0 <= i < r -> ~ clear_run (mk_bitmap 2 [0x17; 0; 255]) i 4)
        \/ r = -1
        /\ forall i, 0 <= i -> i + 4 <= 16 + 1 ->
             ~ clear_run (mk_bitmap 2 [0x17; 0; 255]) i 4).
Proof.
  apply (bitmap_scan_run (mk_bitmap 2 [0x17; 0; 255]) 4).
  - solve_bitmap_wf.
  - lia.
  - exists 3. split; [unfold nbits; cbn; lia | reflexivity].
Defined.

Example bitmap_scan_past_end_witness : bitmap_scan (mk_bitmap 1 [0x7f; 0]) 2 = Ok 7.
Proof.
  apply (bitmap_scan_past_end (mk_bitmap 1 [0x7f; 0])); try reflexivity.
  - solve_bitmap_wf.
  - intros i Hi. unfold nbits in Hi; cbn in Hi.
    assert (i = 0 \/ i = 1 \/ i = 2 \/ i = 3 \/ i = 4 \/ i = 5 \/ i = 6) as Hc by lia.
    repeat (destruct Hc as [->|Hc]; [reflexivity|]). subst; reflexivity.
Defined.

Example bitmap_scan_full_witness :
  bitmap_scan (mk_bitmap 1 [255]) 1 = Err BadAccess.
Proof.
  apply (bitmap_scan_full (mk_bitmap 1 [255]) 1 0); try reflexivity; try lia.
  - solve_bitmap_wf.
  - intros i Hi. unfold nbits in Hi; cbn in Hi.
    assert (i = 0 \/ i = 1 \/ i = 2 \/ i = 3 \/ i = 4 \/ i = 5 \/ i = 6 \/ i = 7) as Hc by lia.
    repeat (destruct Hc as [->|Hc]; [reflexivity|]). subst; reflexivity.
Defined.
