(* ===== verification/Klist.v ===== *)
(** lib/kernel/list.c and list.h: the intrusive doubly linked lists of the
    kernel, over an explicit heap of nodes shared by all the lists. Interrupts
    are off inside [list_insert_before] and [list_remove], so each is one step. *)
From S2P Require Import Prelude.

(** [struct list_elem] and the heap of the nodes, by address. *)
Record list_elem := mk_elem { prev : Z; next : Z }.
Abbreviation heap := (gmap Z list_elem).

Definition NULL : Z := 0.

(** [struct list] is its two sentinels, named by their addresses. *)
Record klist := mk_klist { head : Z; tail : Z }.

Definition get (h : heap) (p : Z) : outcome list_elem :=
  match h !! p with Some e => Ok e | None => Err BadAccess end.

Definition set_next (h : heap) (p v : Z) : outcome heap :=
  let! e := get h p in Ok (<[p := mk_elem (prev e) v]> h).

Definition set_prev (h : heap) (p v : Z) : outcome heap :=
  let! e := get h p in Ok (<[p := mk_elem v (next e)]> h).

Definition list_init (h : heap) (l : klist) : outcome heap :=
  let! h := set_prev h (head l) NULL in
  let! h := set_next h (head l) (tail l) in
  let! h := set_next h (tail l) NULL in
  set_prev h (tail l) (head l).

Definition list_insert_before (h : heap) (before elem : Z) : outcome heap :=
  let! b := get h before in
  let! h := set_next h (prev b) elem in
  let! b := get h before in
  let! h := set_prev h elem (prev b) in
  let! h := set_next h elem before in
  set_prev h before elem.

Definition list_push (h : heap) (l : klist) (elem : Z) : outcome heap :=
  let! hd := get h (head l) in list_insert_before h (next hd) elem.

Definition list_append (h : heap) (l : klist) (elem : Z) : outcome heap :=
  list_insert_before h (tail l) elem.

Definition list_remove (h : heap) (elem : Z) : outcome heap :=
  let! e := get h elem in
  let! h := set_next h (prev e) (next e) in
  let! e := get h elem in
  set_prev h (next e) (prev e).

Definition list_pop (h : heap) (l : klist) : outcome (heap * Z) :=
  let! hd := get h (head l) in
  let result := next hd in
  let! h := list_remove h result in Ok (h, result).

Definition elem_find_body (h : heap) (l : klist) (elem e : Z) : outcome (Z + bool) :=
  if e =? tail l then Ok (inr false)
  else if e =? elem then Ok (inr true)
  else let! n := get h e in Ok (inl (next n)).

Definition elem_find (fuel : nat) (h : heap) (l : klist) (elem : Z) : outcome bool :=
  let! hd := get h (head l) in loop (elem_find_body h l elem) fuel (next hd).

Definition list_empty (h : heap) (l : klist) : outcome bool :=
  let! hd := get h (head l) in Ok (next hd =? tail l).

Definition list_length_body (h : heap) (l : klist) (s : Z * Z) : outcome (Z * Z + Z) :=
  let '(e, length) := s in
  if e =? tail l then Ok (inr length)
  else let! n := get h e in Ok (inl (next n, u32 (length + 1))).

Definition list_length (fuel : nat) (h : heap) (l : klist) : outcome Z :=
  let! hd := get h (head l) in loop (list_length_body h l) fuel (next hd, 0).

(** The callback is a total predicate on the element and the argument. *)
Definition list_traversal_body (h : heap) (l : klist) (func : Z -> Z -> bool) (arg e : Z)
  : outcome (Z + Z) :=
  if e =? tail l then Ok (inr NULL)
  else if func e arg then Ok (inr e)
  else let! n := get h e in Ok (inl (next n)).

Definition list_traversal (fuel : nat) (h : heap) (l : klist) (func : Z -> Z -> bool)
  (arg : Z) : outcome Z :=
  let! em := list_empty h l in
  if (em : bool) then Ok NULL else
  let! hd := get h (head l) in
  loop (list_traversal_body h l func arg) fuel (next hd).

(** ** The abstract list *)

Definition nxt (h : heap) (p : Z) : option Z := next <$> h !! p.
Definition prv (h : heap) (p : Z) : option Z := prev <$> h !! p.

(** From node [a], [next] runs through [l], and [prev] runs back. *)
Fixpoint linked (h : heap) (a : Z) (l : list Z) : Prop :=
  match l with
  | [] => True
  | b :: l' => nxt h a = Some b /\ prv h b = Some a /\ linked h b l'
  end.

(** The list [l] holds the elements [xs], in order. *)
Definition list_rep (h : heap) (l : klist) (xs : list Z) : Prop :=
  NoDup (head l :: xs ++ [tail l]) /\ linked h (head l) (xs ++ [tail l]).

(** Only the links of nodes in [ns] differ between [h] and [h']. *)
Definition frame (h h' : heap) (ns : list Z) : Prop :=
  forall p, p ∉ ns -> h' !! p = h !! p.

(** ** Lemmas on links *)

Lemma linked_cons h a b l :
  linked h a (b :: l) = (nxt h a = Some b /\ prv h b = Some a /\ linked h b l).
Proof. reflexivity. Qed.

Lemma linked_app h a l1 b l2 :
  linked h a (l1 ++ b :: l2) <-> linked h a (l1 ++ [b]) /\ linked h b l2.
Proof. revert a; induction l1 as [|c l1 IH]; intros a; cbn; [tauto|]. rewrite IH; tauto. Qed.

Lemma linked_mono h h' a l :
  (forall p, p ∈ a :: l -> nxt h' p = nxt h p) ->
  (forall p, p ∈ l -> prv h' p = prv h p) ->
  linked h a l -> linked h' a l.
Proof.
  revert a; induction l as [|c l IH]; intros a Hn Hp; cbn; [done|].
  rewrite Hn, (Hp c) by set_solver. intros (?&?&?); split_and!; try done.
  apply IH; [set_solver | set_solver | done].
Qed.

(** The last node before [b] and its two links. *)
Lemma linked_last h a l1 b l2 : linked h a (l1 ++ b :: l2) ->
  exists c, last (a :: l1) = Some c /\ c ∈ a :: l1 /\ nxt h c = Some b /\ prv h b = Some c.
Proof.
  revert a; induction l1 as [|d l1 IH]; intros a; cbn.
  - intros (?&?&_). exists a. split_and!; try done. set_solver.
  - intros (?&?&Hl). destruct (IH d Hl) as (c&?&?&?&?). exists c. split_and!; try done. set_solver.
Qed.

Lemma nxt_get h p v : nxt h p = Some v -> exists e, h !! p = Some e /\ next e = v.
Proof. unfold nxt; intros H. destruct (h !! p); [|done]. injection H as <-. eauto. Qed.

Lemma prv_get h p v : prv h p = Some v -> exists e, h !! p = Some e /\ prev e = v.
Proof. unfold prv; intros H. destruct (h !! p); [|done]. injection H as <-. eauto. Qed.

(** Inserting [elem] between the adjacent nodes [a] and [b]. *)
Lemma insert_between h a b elem :
  nxt h a = Some b -> prv h b = Some a -> is_Some (h !! elem) ->
  a <> b -> elem <> a -> elem <> b ->
  exists h', list_insert_before h b elem = Ok h'
    /\ frame h h' [a; elem; b]
    /\ (forall p, nxt h' p = if decide (p = a) then Some elem else
          if decide (p = elem) then Some b else nxt h p)
    /\ (forall p, prv h' p = if decide (p = elem) then Some a else
          if decide (p = b) then Some elem else prv h p).
Proof.
  intros Hn Hp [ee He] Hab Hea Heb.
  destruct (nxt_get _ _ _ Hn) as (ea & Ha & Hna).
  destruct (prv_get _ _ _ Hp) as (eb & Hb & Hpb).
  unfold list_insert_before, set_next, set_prev, get.
  do 8 (cbn [obind prev next]; simplify_map_eq).
  eexists; split; [done|]. split; [|split].
  - intros p Hni. rewrite !lookup_insert_ne by set_solver. done.
  - intros p. unfold nxt. rewrite !lookup_insert. repeat case_decide; subst; simplify_map_eq; done.
  - intros p. unfold prv. rewrite !lookup_insert. repeat case_decide; subst; simplify_map_eq; done.
Qed.

Lemma linked_insert h h' elem b l2 : forall l1 a c,
  last (a :: l1) = Some c -> NoDup (a :: l1 ++ b :: l2) -> elem ∉ a :: l1 ++ b :: l2 ->
  (forall p, nxt h' p = if decide (p = c) then Some elem else
     if decide (p = elem) then Some b else nxt h p) ->
  (forall p, prv h' p = if decide (p = elem) then Some c else
     if decide (p = b) then Some elem else prv h p) ->
  linked h a (l1 ++ b :: l2) -> linked h' a (l1 ++ elem :: b :: l2).
Proof.
  induction l1 as [|d l1 IH]; intros a c Hl Hnd Hni Hn Hp; cbn [app];
    rewrite !linked_cons; apply NoDup_cons in Hnd as [Hnd1 Hnd2].
  - injection Hl as ->. cbn [app] in *. intros (_&_&Hl).
    apply NoDup_cons in Hnd2 as [Hnd2 _].
    apply not_elem_of_cons in Hnd1 as [? Hc2].
    apply not_elem_of_cons in Hni as [? [? He2]%not_elem_of_cons].
    rewrite (Hn c), (Hn elem), (Hp elem), (Hp b).
    split_and!; [by repeat case_decide..|]. apply (linked_mono h); [| |done].
    + intros p [->|Hin]%elem_of_cons; rewrite Hn, !decide_False by congruence; done.
    + intros p Hin; rewrite Hp, !decide_False by congruence; done.
  - cbn [app] in *. intros (Hna&Hpd&Hl').
    assert (c ∈ d :: l1) as Hc by (by apply last_Some_elem_of).
    pose proof Hnd2 as [Hnd3 _]%NoDup_cons.
    apply not_elem_of_cons in Hni as [? Hni].
    assert (a <> c) by (intros ->; apply Hnd1; clear -Hc; set_solver).
    assert (d <> elem /\ d <> b) as [] by (clear -Hni Hnd3; set_solver).
    rewrite (Hn a), (Hp d), !decide_False by congruence. split_and!; try done.
    by apply (IH d c).
Qed.

Lemma linked_remove h h' x b l2 : forall l1 a c,
  last (a :: l1) = Some c -> NoDup (a :: l1 ++ x :: b :: l2) ->
  (forall p, nxt h' p = if decide (p = c) then Some b else nxt h p) ->
  (forall p, prv h' p = if decide (p = b) then Some c else prv h p) ->
  linked h a (l1 ++ x :: b :: l2) -> linked h' a (l1 ++ b :: l2).
Proof.
  induction l1 as [|d l1 IH]; intros a c Hl Hnd Hn Hp; cbn [app];
    rewrite !linked_cons; apply NoDup_cons in Hnd as [Hnd1 Hnd2].
  - injection Hl as ->. cbn [app] in *. intros (_&_&_&_&Hl).
    apply NoDup_cons in Hnd2 as [Hnd2 [Hnd3 _]%NoDup_cons].
    apply not_elem_of_cons in Hnd1 as [? [? Hc2]%not_elem_of_cons].
    rewrite (Hn c), (Hp b).
    split_and!; [by repeat case_decide..|]. apply (linked_mono h); [| |done].
    + intros p [->|Hin]%elem_of_cons; rewrite Hn, !decide_False by congruence; done.
    + intros p Hin; rewrite Hp, !decide_False by congruence; done.
  - cbn [app] in *. intros (Hna&Hpd&Hl').
    assert (c ∈ d :: l1) as Hc by (by apply last_Some_elem_of).
    pose proof Hnd2 as [Hnd3 _]%NoDup_cons.
    assert (a <> c) by (intros ->; apply Hnd1; clear -Hc; set_solver).
    assert (d <> b) by (clear -Hnd3; set_solver).
    rewrite (Hn a), (Hp d), !decide_False by congruence. split_and!; try done.
    by apply (IH d c).
Qed.

(** Unlinking [x], whose neighbours are [c] and [b]. *)
Lemma remove_between h c x b :
  nxt h c = Some x -> prv h x = Some c -> nxt h x = Some b -> prv h b = Some x ->
  c <> x -> x <> b -> c <> b ->
  exists h', list_remove h x = Ok h' /\ frame h h' [c; b]
    /\ (forall p, nxt h' p = if decide (p = c) then Some b else nxt h p)
    /\ (forall p, prv h' p = if decide (p = b) then Some c else prv h p).
Proof.
  intros Hn1 Hp1 Hn2 Hp2 Hcx Hxb Hcb.
  destruct (nxt_get _ _ _ Hn1) as (ec & Hc & Hnc).
  destruct (nxt_get _ _ _ Hn2) as (ex & Hx & Hnx).
  destruct (prv_get _ _ _ Hp1) as (ex' & Hx' & Hpx). simplify_map_eq.
  destruct (prv_get _ _ _ Hp2) as (eb & Hb & Hpb).
  unfold list_remove, set_next, set_prev, get.
  do 8 (cbn [obind prev next]; simplify_map_eq).
  eexists; split; [done|]. split; [|split].
  - intros p Hni. rewrite !lookup_insert_ne by set_solver. done.
  - intros p. unfold nxt. rewrite !lookup_insert. repeat case_decide; subst; simplify_map_eq; done.
  - intros p. unfold prv. rewrite !lookup_insert. repeat case_decide; subst; simplify_map_eq; done.
Qed.

(** ** Walking along a list *)

Section walk.
Context (h : heap) (l : klist).

Lemma rep_head xs : list_rep h l xs ->
  exists n, h !! head l = Some n /\ next n = hd (tail l) xs.
Proof.
  intros [_ Hl]. apply nxt_get. destruct xs; cbn in Hl; tauto.
Qed.

Lemma rep_next pre x rest : list_rep h l (pre ++ x :: rest) ->
  exists n, h !! x = Some n /\ next n = hd (tail l) rest.
Proof.
  intros [_ Hl]. rewrite <- app_assoc in Hl. cbn in Hl.
  apply linked_app in Hl as [_ Hl]. apply nxt_get. destruct rest; cbn in Hl; tauto.
Qed.

Lemma rep_not_sentinel xs x : list_rep h l xs -> x ∈ xs -> x <> tail l /\ x <> head l.
Proof.
  intros [Hnd _] Hx. apply NoDup_cons in Hnd as [H1 H2].
  apply NoDup_app in H2 as (_&H2&_). specialize (H2 x Hx). set_solver.
Qed.

Lemma rep_sentinels xs : list_rep h l xs -> head l <> tail l.
Proof. intros [Hnd _]. apply NoDup_cons in Hnd as [H1 _]. set_solver. Qed.

Lemma rep_at_end xs rest pre : list_rep h l xs -> xs = pre ++ rest ->
  (hd (tail l) rest =? tail l) = match rest with [] => true | _ => false end.
Proof.
  intros Hr ->. destruct rest as [|x rest]; [apply Z.eqb_refl|].
  apply Z.eqb_neq. apply (rep_not_sentinel _ x Hr). set_solver.
Qed.

(** A loop that visits the elements in order, carrying [P pre rest]. *)
Lemma walk_loop {S R} (body : S -> outcome (S + R)) xs
    (P : list Z -> list Z -> S -> Prop) (Q : R -> Prop) :
  (forall s, P xs [] s -> exists r, body s = Ok (inr r) /\ Q r) ->
  (forall pre e rest s, xs = pre ++ e :: rest -> P pre (e :: rest) s ->
     (exists r, body s = Ok (inr r) /\ Q r)
     \/ exists s', body s = Ok (inl s') /\ P (pre ++ [e]) rest s') ->
  forall rest pre s fuel, xs = pre ++ rest -> P pre rest s -> (length rest < fuel)%nat ->
  exists r, loop body fuel s = Ok r /\ Q r.
Proof.
  intros Hend Hstep rest; induction rest as [|e rest IH]; intros pre s fuel Hxs HP Hf;
    (destruct fuel as [|fuel]; [cbn in Hf; lia|]); cbn [loop].
  - rewrite app_nil_r in Hxs. subst. destruct (Hend s HP) as (r&->&Hr). eauto.
  - destruct (Hstep pre e rest s Hxs HP) as [(r&->&Hr)|(s'&->&HP')]; [eauto|].
    apply (IH (pre ++ [e])); [by rewrite <- app_assoc | done | cbn in Hf; lia].
Qed.

Lemma elem_find_ok xs x fuel : list_rep h l xs -> (length xs < fuel)%nat ->
  elem_find fuel h l x = Ok (bool_decide (x ∈ xs)).
Proof.
  intros Hr Hf. unfold elem_find, get. destruct (rep_head xs Hr) as (n&Hn&Hnx).
  rewrite Hn; cbn [obind]; rewrite Hnx.
  destruct (walk_loop (elem_find_body h l x) xs
    (fun pre rest e => xs = pre ++ rest /\ e = hd (tail l) rest /\ x ∉ pre)
    (eq (bool_decide (x ∈ xs)))) with (rest := xs) (pre := @nil Z)
    (s := hd (tail l) xs) (fuel := fuel) as (r&->&->); try done.
  - intros s (_&->&Hni). exists false. unfold elem_find_body. cbn [hd].
    rewrite Z.eqb_refl. split; [done|]. by apply bool_decide_false.
  - intros pre e rest s Hxs (_&->&Hni). unfold elem_find_body.
    erewrite rep_at_end by done. cbn [hd].
    destruct (Z.eqb_spec e x) as [->|Hne].
    + left. exists true. split; [done|]. apply bool_decide_true. subst; set_solver.
    + right. subst xs. eexists. destruct (rep_next pre e rest Hr) as (ne&He&Hnn).
      unfold get. rewrite He; cbn [obind]. rewrite Hnn. split; [done|].
      split; [by rewrite <- app_assoc|]. split; [done | set_solver].
  - split_and!; try done. set_solver.
Qed.

Lemma list_length_ok xs fuel : list_rep h l xs -> (length xs < fuel)%nat ->
  zlen xs < 2 ^ 32 -> list_length fuel h l = Ok (zlen xs).
Proof.
  intros Hr Hf Hlt. unfold list_length, get. destruct (rep_head xs Hr) as (n&Hn&Hnx).
  rewrite Hn; cbn [obind]; rewrite Hnx.
  destruct (walk_loop (list_length_body h l) xs
    (fun pre rest s => xs = pre ++ rest /\ s = (hd (tail l) rest, zlen pre))
    (eq (zlen xs))) with (rest := xs) (pre := @nil Z)
    (s := (hd (tail l) xs, 0)) (fuel := fuel) as (r&->&->); try done.
  - intros s (_&->). exists (zlen xs). unfold list_length_body. cbn [hd].
    by rewrite Z.eqb_refl.
  - intros pre e rest s Hxs (_&->). right. unfold list_length_body.
    erewrite rep_at_end by done. cbn [hd]. subst xs.
    destruct (rep_next pre e rest Hr) as (ne&He&Hnn).
    unfold get. rewrite He; cbn [obind]. rewrite Hnn. eexists; split; [done|].
    rewrite length_app in Hlt; cbn in Hlt.
    rewrite u32_small, length_app by lia. cbn. split; [by rewrite <- app_assoc|].
    f_equal; lia.
Qed.

Lemma list_traversal_ok xs func arg fuel : list_rep h l xs -> (length xs < fuel)%nat ->
  list_traversal fuel h l func arg =
    Ok (default NULL (List.find (fun e => func e arg) xs)).
Proof.
  intros Hr Hf. unfold list_traversal, list_empty, get.
  destruct (rep_head xs Hr) as (n&Hn&Hnx). rewrite Hn; cbn [obind]; rewrite Hnx.
  rewrite (rep_at_end xs xs []) by done.
  destruct xs as [|x0 xs0] eqn:Ex; [done|]. rewrite <- Ex in *. clear Ex x0 xs0.
  destruct (walk_loop (list_traversal_body h l func arg) xs
    (fun pre rest e => xs = pre ++ rest /\ e = hd (tail l) rest
       /\ forall y, y ∈ pre -> func y arg = false)
    (eq (default NULL (List.find (fun e => func e arg) xs))))
    with (rest := xs) (pre := @nil Z) (s := hd (tail l) xs) (fuel := fuel)
    as (r&->&->); try done.
  - intros s (_&->&Hno). exists NULL. unfold list_traversal_body. cbn [hd].
    rewrite Z.eqb_refl. split; [done|].
    destruct (List.find _ xs) eqn:E; [|done].
    apply List.find_some in E as [Hin Ht]. rewrite Hno in Ht; [done|].
    by apply list_elem_of_In.
  - intros pre e rest s Hxs (_&->&Hno). unfold list_traversal_body.
    erewrite rep_at_end by done. cbn [hd]. destruct (func e arg) eqn:Ee.
    + left. exists e. split; [done|]. subst xs. clear Hr Hf Hnx. induction pre as [|y pre IH]; cbn.
      * by rewrite Ee.
      * rewrite Hno by set_solver. apply IH. intros; apply Hno; set_solver.
    + right. subst xs. eexists. destruct (rep_next pre e rest Hr) as (ne&He&Hnn).
      unfold get. rewrite He; cbn [obind]. rewrite Hnn. split; [done|].
      split; [by rewrite <- app_assoc|]. split; [done|].
      intros y [Hy| ->%list_elem_of_singleton]%elem_of_app; [by apply Hno | done].
  - split_and!; try done. intros y Hy. by apply not_elem_of_nil in Hy.
Qed.
End walk.

(** ** The operations on the abstract list *)

(** Inserting before the first node of [ys], or before the tail. *)
Lemma list_insert_before_ok h l xs ys elem :
  list_rep h l (xs ++ ys) -> is_Some (h !! elem) ->
  elem ∉ head l :: (xs ++ ys) ++ [tail l] ->
  exists h', list_insert_before h (hd (tail l) ys) elem = Ok h'
    /\ list_rep h' l (xs ++ elem :: ys)
    /\ frame h h' (elem :: head l :: (xs ++ ys) ++ [tail l]).
Proof.
  intros [Hnd Hl] He Hni.
  assert (exists b l2, ys ++ [tail l] = b :: l2 /\ hd (tail l) ys = b) as (b&l2&Hb&->).
  { destruct ys; cbn; eauto. }
  rewrite <- app_assoc, Hb in *.
  destruct (linked_last _ _ _ _ _ Hl) as (c&Hc&Hcin&Hn&Hp).
  assert (b ∈ head l :: xs ++ b :: l2) as Hbin by set_solver.
  assert (c <> b) as Hcb.
  { intros ->. change (head l :: xs ++ b :: l2) with ((head l :: xs) ++ b :: l2) in Hnd.
    apply NoDup_app in Hnd as (_&Hd&_). apply (Hd b Hcin). set_solver. }
  destruct (insert_between h c b elem Hn Hp He Hcb) as (h'&Hins&Hfr&Hn'&Hp').
  { intros ->. apply Hni. clear -Hcin. set_solver. }
  { intros ->. by apply Hni. }
  exists h'. split; [done|]. split; [split|].
  - rewrite <- app_assoc. cbn. rewrite Hb.
    assert (Permutation (head l :: xs ++ elem :: b :: l2) (elem :: head l :: xs ++ b :: l2)) as ->.
    { symmetry. apply (Permutation_middle (head l :: xs)). }
    by apply NoDup_cons.
  - rewrite <- app_assoc. cbn. rewrite Hb. by apply (linked_insert h h' elem b l2 xs _ c).
  - intros p Hpn. apply Hfr. clear -Hpn Hcin. set_solver.
Qed.

Lemma list_remove_ok h l xs x ys :
  list_rep h l (xs ++ x :: ys) ->
  exists h', list_remove h x = Ok h' /\ list_rep h' l (xs ++ ys)
    /\ frame h h' (head l :: (xs ++ ys) ++ [tail l]).
Proof.
  intros [Hnd Hl]. rewrite <- app_assoc in Hl, Hnd. cbn in Hl, Hnd.
  assert (exists b l2, ys ++ [tail l] = b :: l2) as (b&l2&Hb).
  { destruct ys; cbn; eauto. }
  rewrite Hb in Hl, Hnd.
  destruct (linked_last _ _ _ _ _ Hl) as (c&Hc&Hcin&Hn&Hp).
  pose proof Hl as Hl'. apply linked_app in Hl' as [_ (Hn2&Hp2&_)].
  change (head l :: xs ++ x :: b :: l2) with ((head l :: xs) ++ x :: b :: l2) in Hnd.
  pose proof Hnd as (_&Hd&Hnd2)%NoDup_app. apply NoDup_cons in Hnd2 as [Hxb _].
  assert (c <> x) by (intros ->; apply (Hd x Hcin); set_solver).
  assert (c <> b) by (intros ->; apply (Hd b Hcin); set_solver).
  assert (x <> b) by (clear -Hxb; set_solver).
  destruct (remove_between h c x b) as (h'&Hr&Hfr&Hn'&Hp'); try done.
  exists h'. split; [done|]. split; [split|].
  - rewrite <- app_assoc, Hb. eapply sublist_NoDup; [exact Hnd|].
    change (head l :: xs ++ b :: l2) with ((head l :: xs) ++ b :: l2).
    apply sublist_app; [done|]. by apply sublist_cons.
  - rewrite <- app_assoc, Hb. by apply (linked_remove h h' x b l2 xs _ c).
  - intros p Hpn. apply Hfr. rewrite <- app_assoc, Hb in Hpn. clear -Hpn Hcin. set_solver.
Qed.

(** A list's own frame leaves every other list alone. *)
Lemma list_rep_frame h h' l xs ns :
  list_rep h l xs -> frame h h' ns ->
  (forall p, p ∈ head l :: xs ++ [tail l] -> p ∉ ns) -> list_rep h' l xs.
Proof.
  intros [Hnd Hl] Hfr Hd. split; [done|].
  apply (linked_mono h); [| |done]; intros p Hp; unfold nxt, prv; rewrite Hfr;
    try done; apply Hd; [done | by right].
Qed.

(** ** Properties *)

(** [list_push] and [list_append] put a new node at the front and the back of
    a list, whatever it holds, changing the links of no node outside it. *)
Theorem list_push_append_spec h l xs elem :
  list_rep h l xs -> is_Some (h !! elem) -> elem ∉ head l :: xs ++ [tail l] ->
  (exists h', list_push h l elem = Ok h' /\ list_rep h' l (elem :: xs)
     /\ frame h h' (elem :: head l :: xs ++ [tail l]))
  /\ (exists h', list_append h l elem = Ok h' /\ list_rep h' l (xs ++ [elem])
     /\ frame h h' (elem :: head l :: xs ++ [tail l])).
Proof.
  intros Hr He Hni. split.
  - unfold list_push, get. destruct (rep_head h l xs Hr) as (n&->&Hn). cbn [obind].
    rewrite Hn. by apply (list_insert_before_ok h l [] xs elem).
  - destruct (list_insert_before_ok h l xs [] elem) as (h'&?&?&?);
      rewrite ?app_nil_r; try done. exists h'. by rewrite app_nil_r in *.
Qed.

(** [list_remove] takes exactly the given node out of a list, [list_pop]
    returns the first node and takes it out, and the removed node's own links
    are left as they were. *)
Theorem list_remove_pop_spec h l xs x ys :
  list_rep h l (xs ++ x :: ys) ->
  (exists h', list_remove h x = Ok h' /\ list_rep h' l (xs ++ ys) /\ h' !! x = h !! x
     /\ frame h h' (head l :: (xs ++ ys) ++ [tail l]))
  /\ (xs = [] -> exists h', list_pop h l = Ok (h', x) /\ list_rep h' l ys).
Proof.
  intros Hr. destruct (list_remove_ok h l xs x ys Hr) as (h'&Hrm&Hr'&Hfr). split.
  - exists h'. split_and!; try done. apply Hfr.
    destruct Hr as [Hnd _]. intros Hin.
    assert (Permutation (head l :: (xs ++ x :: ys) ++ [tail l])
              (x :: head l :: (xs ++ ys) ++ [tail l])) as Hperm.
    { rewrite <- !app_assoc. symmetry. apply (Permutation_middle (head l :: xs)). }
    rewrite Hperm in Hnd. by apply NoDup_cons in Hnd as [? _].
  - intros ->. exists h'. unfold list_pop, get.
    destruct (rep_head h l _ Hr) as (n&->&Hn). cbn [obind]. cbn in Hn. subst x.
    by rewrite Hrm.
Qed.

(** The queries walk the whole list and stop: [elem_find] decides
    membership, [list_length] counts, and [list_traversal] returns the first
    element the callback accepts, or NULL. *)
Theorem list_query_spec h l xs x func arg fuel :
  list_rep h l xs -> (length xs < fuel)%nat -> zlen xs < 2 ^ 32 ->
  elem_find fuel h l x = Ok (bool_decide (x ∈ xs))
  /\ list_length fuel h l = Ok (zlen xs)
  /\ list_traversal fuel h l func arg = Ok (default NULL (List.find (fun e => func e arg) xs)).
Proof.
  intros Hr Hf Hlt. split; [by apply elem_find_ok|]. split; [by apply list_length_ok|].
  by apply list_traversal_ok.
Qed.

(** [list_pop] does not test for emptiness: on an empty list it unlinks
    the tail sentinel, through the tail's NULL [next]. *)
Theorem list_pop_empty_faults h l :
  list_rep h l [] -> nxt h (tail l) = Some NULL -> h !! NULL = None ->
  list_pop h l = Err BadAccess.
Proof.
  intros Hr Ht Hnull. destruct (rep_head h l [] Hr) as (n&Hn&Hnx).
  pose proof (rep_sentinels h l [] Hr). destruct Hr as [_ (_&Hp&_)].
  destruct (nxt_get _ _ _ Ht) as (et&Het&Hnet).
  unfold prv in Hp. rewrite Het in Hp. injection Hp as Hpt.
  unfold list_pop, list_remove, get. rewrite Hn. cbn [obind]. rewrite Hnx. cbn [hd].
  rewrite Het. cbn [obind]. unfold set_next, set_prev, get. rewrite Hpt, Hn. cbn [obind].
  rewrite lookup_insert_ne, Het by done. cbn [obind]. rewrite Hnet.
  rewrite lookup_insert_ne, Hnull; [done|]. intros E. rewrite <- E, Hn in Hnull. done.
Qed.

(** ** Witnesses: two sentinels at 10 and 18, nodes at 100, 200 and 300. *)

Definition demo_list : klist := mk_klist 10 18.
Definition demo_heap : heap :=
  list_to_map [(10, mk_elem 0 100); (100, mk_elem 10 200); (200, mk_elem 100 18);
               (18, mk_elem 200 0); (300, mk_elem 0 0)].
Definition empty_heap : heap :=
  list_to_map [(10, mk_elem 0 18); (18, mk_elem 10 0)].

Lemma demo_rep : list_rep demo_heap demo_list [100; 200].
Proof.
  split; [|vm_compute; tauto]. apply (bool_decide_unpack _). vm_compute. exact I.
Defined.

Example list_push_append_witness :
  (exists h', list_push demo_heap demo_list 300 = Ok h'
     /\ list_rep h' demo_list [300; 100; 200]
     /\ frame demo_heap h' [300; 10; 100; 200; 18])
  /\ (exists h', list_append demo_heap demo_list 300 = Ok h'
     /\ list_rep h' demo_list [100; 200; 300]
     /\ frame demo_heap h' [300; 10; 100; 200; 18]).
Proof.
  apply (list_push_append_spec demo_heap demo_list [100; 200] 300).
  - apply demo_rep.
  - vm_compute; eauto.
  - apply (bool_decide_unpack _). vm_compute. exact I.
Defined.

Example list_remove_pop_witness :
  (exists h', list_remove demo_heap 200 = Ok h' /\ list_rep h' demo_list [100]
     /\ h' !! 200 = demo_heap !! 200 /\ frame demo_heap h' [10; 100; 18])
  /\ ([100] = [] -> exists h', list_pop demo_heap demo_list = Ok (h', 200)
        /\ list_rep h' demo_list []).
Proof. apply (list_remove_pop_spec demo_heap demo_list [100] 200 []), demo_rep. Defined.

Example list_query_witness :
  elem_find 3 demo_heap demo_list 200 = Ok true
  /\ list_length 3 demo_heap demo_list = Ok 2
  /\ list_traversal 3 demo_heap demo_list (fun e a => a <? e) 150 = Ok 200.
Proof.
  apply (list_query_spec demo_heap demo_list [100; 200] 200 (fun e a => a <? e) 150 3);
    [apply demo_rep | cbn; lia | cbn; lia].
Defined.

Example list_pop_empty_witness : list_pop empty_heap demo_list = Err BadAccess.
Proof.
  apply (list_pop_empty_faults empty_heap demo_list); [|reflexivity|reflexivity].
  split; [|vm_compute; tauto]. apply (bool_decide_unpack _). vm_compute. exact I.
Defined.
