(* ===== verification/Cstring.v ===== *)
(** lib/string.c: the byte and string routines, over one flat byte memory.
    An access to an unmapped address is a [BadAccess]; [assert] is the spinning
    assertion of lib/user/assert.h. [char] is signed, as gcc has it on x86. *)
From S2P Require Import Prelude.

Abbreviation mem := (gmap Z Z).

Definition NULLP : Z := 0.

Definition load (m : mem) (p : Z) : outcome Z :=
  match m !! p with Some b => Ok b | None => Err BadAccess end.

Definition store (m : mem) (p v : Z) : outcome mem :=
  match m !! p with Some _ => Ok (<[p := v]> m) | None => Err BadAccess end.

Definition notnull (p : Z) : bool := negb (p =? NULLP).

(** ** The routines *)

Definition memset_body (value : Z) (s : mem * Z * Z) : outcome (mem * Z * Z + mem) :=
  let '(m, dst, size) := s in
  if negb (0 <? size) then Ok (inr m) else
  let! m := store m dst value in Ok (inl (m, dst + 1, size - 1)).

Definition memset (m : mem) (dst_ value size : Z) : outcome mem :=
  c_assert (notnull dst_) ;;;
  loop (memset_body value) (S (Z.to_nat size)) (m, dst_, size).

Definition memcpy_body (s : mem * Z * Z * Z) : outcome (mem * Z * Z * Z + mem) :=
  let '(m, dst, src, size) := s in
  if negb (0 <? size) then Ok (inr m) else
  let! b := load m src in
  let! m := store m dst b in Ok (inl (m, dst + 1, src + 1, size - 1)).

Definition memcpy (m : mem) (dst_ src_ size : Z) : outcome mem :=
  c_assert (notnull dst_ && notnull src_) ;;;
  loop memcpy_body (S (Z.to_nat size)) (m, dst_, src_, size).

Definition memcmp_body (m : mem) (s : Z * Z * Z) : outcome (Z * Z * Z + Z) :=
  let '(a, b, size) := s in
  if negb (0 <? size) then Ok (inr 0) else
  let! x := load m a in
  let! y := load m b in
  if negb (s8 x =? s8 y) then Ok (inr (if s8 y <? s8 x then 1 else -1))
  else Ok (inl (a + 1, b + 1, size - 1)).

Definition memcmp (m : mem) (a_ b_ size : Z) : outcome Z :=
  c_assert (notnull a_ || notnull b_) ;;;
  loop (memcmp_body m) (S (Z.to_nat size)) (a_, b_, size).

(** The copy loop shared by [strcpy] and [strcat]: the terminator is copied too. *)
Definition strcpy_body (s : mem * Z * Z) : outcome (mem * Z * Z + mem) :=
  let '(m, dst, src) := s in
  let! b := load m src in
  let! m := store m dst b in
  if b =? 0 then Ok (inr m) else Ok (inl (m, dst + 1, src + 1)).

Definition strcpy (fuel : nat) (m : mem) (dst_ src_ : Z) : outcome (mem * Z) :=
  c_assert (notnull dst_ && notnull src_) ;;;
  let! m := loop strcpy_body fuel (m, dst_, src_) in Ok (m, dst_).

(** The loop that advances over the terminator, leaving with [p] one past the terminator. *)
Definition skip_body (m : mem) (p : Z) : outcome (Z + Z) :=
  let! b := load m p in
  if b =? 0 then Ok (inr (p + 1)) else Ok (inl (p + 1)).

Definition strlen (fuel : nat) (m : mem) (str : Z) : outcome Z :=
  c_assert (notnull str) ;;;
  let! p := loop (skip_body m) fuel str in Ok (u32 (p - str - 1)).

Definition strcmp_body (m : mem) (s : Z * Z) : outcome (Z * Z + Z) :=
  let '(a, b) := s in
  let! x := load m a in
  if x =? 0 then
    let! y := load m b in
    Ok (inr (if s8 x <? s8 y then -1 else if s8 y <? s8 x then 1 else 0))
  else
    let! y := load m b in
    if s8 x =? s8 y then Ok (inl (a + 1, b + 1))
    else Ok (inr (if s8 x <? s8 y then -1 else if s8 y <? s8 x then 1 else 0)).

Definition strcmp (fuel : nat) (m : mem) (a b : Z) : outcome Z :=
  c_assert (notnull a && notnull b) ;;;
  loop (strcmp_body m) fuel (a, b).

(** [ch] is a [uint8_t]: it is compared, unsigned, with a signed [char]. *)
Definition strchr_body (m : mem) (ch str : Z) : outcome (Z + Z) :=
  let! c := load m str in
  if c =? 0 then Ok (inr NULLP)
  else if s8 c =? ch then Ok (inr str) else Ok (inl (str + 1)).

Definition strchr (fuel : nat) (m : mem) (str ch : Z) : outcome Z :=
  c_assert (notnull str) ;;; loop (strchr_body m ch) fuel str.

Definition strrchr_body (m : mem) (ch : Z) (s : Z * Z) : outcome (Z * Z + Z) :=
  let '(str, last_char) := s in
  let! c := load m str in
  if c =? 0 then Ok (inr last_char)
  else Ok (inl (str + 1, if s8 c =? ch then str else last_char)).

Definition strrchr (fuel : nat) (m : mem) (str ch : Z) : outcome Z :=
  c_assert (notnull str) ;;; loop (strrchr_body m ch) fuel (str, NULLP).

Definition strcat (fuel : nat) (m : mem) (dst_ src_ : Z) : outcome (mem * Z) :=
  c_assert (notnull dst_ && notnull src_) ;;;
  let! p := loop (skip_body m) fuel dst_ in
  let str := p - 1 in
  let! m := loop strcpy_body fuel (m, str, src_) in Ok (m, dst_).

Definition strchrs_body (m : mem) (ch : Z) (s : Z * Z) : outcome (Z * Z + Z) :=
  let '(p, ch_cnt) := s in
  let! c := load m p in
  if c =? 0 then Ok (inr ch_cnt)
  else Ok (inl (p + 1, if s8 c =? ch then u32 (ch_cnt + 1) else ch_cnt)).

Definition strchrs (fuel : nat) (m : mem) (str ch : Z) : outcome Z :=
  c_assert (notnull str) ;;; loop (strchrs_body m ch) fuel (str, 0).

(** ** Strings in memory *)

Fixpoint bytes_at (m : mem) (p : Z) (l : list Z) : Prop :=
  match l with [] => True | b :: l' => m !! p = Some b /\ bytes_at m (p + 1) l' end.

(** The characters of a C string: bytes, none of them the terminator. *)
Definition is_char (b : Z) : Prop := 0 < b < 256.

Definition cstr (m : mem) (p : Z) (s : list Z) : Prop :=
  p <> NULLP /\ Forall is_char s /\ bytes_at m p (s ++ [0]).

(** Addresses [p .. p + n - 1] are mapped. *)
Definition mapped (m : mem) (p n : Z) : Prop :=
  forall a, p <= a < p + n -> is_Some (m !! a).

Definition same_outside (m m' : mem) (p n : Z) : Prop :=
  forall a, ~ (p <= a < p + n) -> m' !! a = m !! a.

Definition disjoint_ranges (p n q k : Z) : Prop := p + n <= q \/ q + k <= p.

(** Comparison by signed characters, as a reference. *)
Fixpoint cmp_chars (s t : list Z) : Z :=
  match s, t with
  | [], [] => 0
  | [], c :: _ => if 0 <? s8 c then -1 else 1
  | c :: _, [] => if s8 c <? 0 then -1 else 1
  | c :: s', d :: t' =>
      if s8 c =? s8 d then cmp_chars s' t' else if s8 c <? s8 d then -1 else 1
  end.

(** The index of the first character equal to [ch], as a signed [char]. *)
Fixpoint index_of (ch : Z) (s : list Z) : option Z :=
  match s with
  | [] => None
  | c :: s' => if s8 c =? ch then Some 0 else Z.succ <$> index_of ch s'
  end.

Fixpoint last_index_of (ch : Z) (s : list Z) : option Z :=
  match s with
  | [] => None
  | c :: s' => match last_index_of ch s' with
      | Some i => Some (i + 1)
      | None => if s8 c =? ch then Some 0 else None
      end
  end.

Fixpoint count_of (ch : Z) (s : list Z) : Z :=
  match s with [] => 0 | c :: s' => (if s8 c =? ch then 1 else 0) + count_of ch s' end.

(** ** Lemmas *)

Lemma s8_char c : is_char c -> s8 c = (if c <? 128 then c else c - 256) /\ s8 c <> 0.
Proof.
  unfold is_char, s8; intros. destruct (Z.ltb_spec c 128);
    Z.to_euclidean_division_equations; lia.
Qed.

Lemma s8_inj c d : is_char c -> is_char d -> s8 c = s8 d -> c = d.
Proof.
  intros Hc Hd. destruct (s8_char c Hc) as [-> _], (s8_char d Hd) as [-> _].
  unfold is_char in *. destruct (Z.ltb_spec c 128), (Z.ltb_spec d 128); lia.
Qed.

Lemma bytes_at_app m p l1 l2 :
  bytes_at m p (l1 ++ l2) <-> bytes_at m p l1 /\ bytes_at m (p + zlen l1) l2.
Proof.
  revert p; induction l1 as [|b l1 IH]; intros p; cbn.
  - rewrite Z.add_0_r. tauto.
  - rewrite IH. replace (p + 1 + zlen l1) with (p + Z.of_nat (S (length l1))) by lia. tauto.
Qed.

Lemma bytes_at_outside m m' p l q n :
  bytes_at m p l -> same_outside m m' q n -> disjoint_ranges p (zlen l) q n ->
  bytes_at m' p l.
Proof.
  unfold disjoint_ranges. revert p; induction l as [|b l IH]; intros p; cbn; [done|].
  intros [Hb Hl] Ho Hd. split; [rewrite Ho; [done|lia]|]. apply IH; [done|done|lia].
Qed.

Lemma bytes_at_mapped m p l : bytes_at m p l -> mapped m p (zlen l).
Proof.
  revert p; induction l as [|b l IH]; intros p; cbn; [intros _ a; lia|].
  intros [Hb Hl] a Ha. destruct (Z.eq_dec a p) as [->|]; [by eexists|].
  apply (IH (p + 1)); [done | lia].
Qed.

Lemma store_mapped m p v : is_Some (m !! p) -> store m p v = Ok (<[p := v]> m).
Proof. unfold store. by intros [b ->]. Qed.

Lemma load_Some m p v : m !! p = Some v -> load m p = Ok v.
Proof. unfold load. by intros ->. Qed.

Lemma skip_ok m s : forall p fuel, Forall is_char s -> bytes_at m p (s ++ [0]) ->
  (length s < fuel)%nat -> loop (skip_body m) fuel p = Ok (p + zlen s + 1).
Proof.
  induction s as [|c s IH]; intros p fuel Hs Hm Hf; (destruct fuel as [|f]; [cbn in Hf; lia|]);
    cbn in Hm; destruct Hm as [Hc Hm]; cbn [loop]; unfold skip_body at 1;
    rewrite (load_Some _ _ _ Hc); cbn [obind].
  - cbn. f_equal; lia.
  - inversion_clear Hs as [|?? Hch]. unfold is_char in Hch. zdec.
    rewrite (IH (p + 1)) by (done || (cbn in Hf; lia)). f_equal; cbn [length]; lia.
Qed.

(** The copying loop of [strcpy] and [strcat]. *)
Lemma strcpy_loop_ok s : forall m dst src fuel,
  Forall is_char s -> bytes_at m src (s ++ [0]) -> mapped m dst (zlen s + 1) ->
  disjoint_ranges dst (zlen s + 1) src (zlen s + 1) -> (length s < fuel)%nat ->
  exists m', loop strcpy_body fuel (m, dst, src) = Ok m'
    /\ bytes_at m' dst (s ++ [0]) /\ same_outside m m' dst (zlen s + 1).
Proof.
  unfold disjoint_ranges.
  induction s as [|c s IH]; intros m dst src fuel Hs Hm Hd Hdis Hf;
    (destruct fuel as [|f]; [cbn in Hf; lia|]);
    cbn in Hm; destruct Hm as [Hc Hm]; cbn [length] in *; cbn [loop];
    unfold strcpy_body at 1; rewrite (load_Some _ _ _ Hc); cbn [obind];
    rewrite store_mapped by (apply Hd; lia); cbn [obind].
  - cbn. eexists; split; [done|]. split.
    + split; [apply lookup_insert_eq | done].
    + intros a Ha. apply lookup_insert_ne. lia.
  - inversion_clear Hs as [|?? Hch]. unfold is_char in Hch. zdec.
    assert (same_outside m (<[dst:=c]> m) dst 1) as Ho.
    { intros a Ha. apply lookup_insert_ne. lia. }
    destruct (IH (<[dst:=c]> m) (dst + 1) (src + 1) f) as (m' & Hl & Hb & Ho'); try done; try lia.
    + eapply bytes_at_outside; [done | exact Ho |].
      unfold disjoint_ranges. rewrite length_app; cbn; lia.
    + intros a Ha. rewrite Ho by lia. apply Hd; lia.
    + exists m'. split; [done|]. split.
      * cbn. split; [|done]. rewrite Ho' by lia. apply lookup_insert_eq.
      * intros a Ha. rewrite Ho' by lia. apply Ho; lia.
Qed.

Lemma strcmp_loop_ok m s : forall t a b fuel,
  Forall is_char s -> Forall is_char t -> bytes_at m a (s ++ [0]) -> bytes_at m b (t ++ [0]) ->
  (length s < fuel)%nat -> loop (strcmp_body m) fuel (a, b) = Ok (cmp_chars s t).
Proof.
  induction s as [|c s IH]; intros t a b fuel Hs Ht Ha Hb Hf;
    (destruct fuel as [|f]; [cbn in Hf; lia|]); cbn [loop]; unfold strcmp_body at 1;
    cbn in Ha; destruct Ha as [Hc Ha]; rewrite (load_Some _ _ _ Hc); cbn [obind].
  - cbn. destruct t as [|d t]; cbn in Hb; destruct Hb as [Hd Hb];
      rewrite (load_Some _ _ _ Hd); cbn; [done|].
    inversion_clear Ht as [|?? Hch]. destruct (s8_char d Hch) as [_ Hne].
    change (s8 0) with 0. destruct (Z.ltb_spec 0 (s8 d)); [done|]. by zdec.
  - inversion_clear Hs as [|?? Hch Hs']. pose proof Hch. unfold is_char in Hch. zdec.
    destruct t as [|d t]; cbn in Hb; destruct Hb as [Hd Hb];
      rewrite (load_Some _ _ _ Hd); cbn [obind cmp_chars].
    + destruct (s8_char c) as [_ Hne]; [done|]. change (s8 0) with 0. zdec.
      destruct (Z.ltb_spec (s8 c) 0); [done|]. by zdec.
    + inversion_clear Ht. destruct (Z.eqb_spec (s8 c) (s8 d)) as [E|E].
      * apply IH; try done. cbn in Hf; lia.
      * destruct (Z.ltb_spec (s8 c) (s8 d)); [done|]. by zdec.
Qed.

Lemma cmp_chars_eq s t : Forall is_char s -> Forall is_char t -> cmp_chars s t = 0 <-> s = t.
Proof.
  revert t; induction s as [|c s IH]; intros [|d t] Hs Ht; cbn; try done.
  - split; [|done]. by case_bool.
  - split; [|done]. by case_bool.
  - inversion_clear Hs; inversion_clear Ht. destruct (Z.eqb_spec (s8 c) (s8 d)) as [E|E].
    + rewrite IH by done. apply s8_inj in E as ->; [|done..]. split; congruence.
    + split; [by case_bool|]. intros [= ->]. done.
Qed.

Lemma strchr_loop_ok m ch s : forall p fuel, Forall is_char s -> bytes_at m p (s ++ [0]) ->
  (length s < fuel)%nat ->
  loop (strchr_body m ch) fuel p = Ok (from_option (Z.add p) NULLP (index_of ch s)).
Proof.
  induction s as [|c s IH]; intros p fuel Hs Hm Hf; (destruct fuel as [|f]; [cbn in Hf; lia|]);
    cbn in Hm; destruct Hm as [Hc Hm]; cbn [loop]; unfold strchr_body at 1;
    rewrite (load_Some _ _ _ Hc); cbn [obind index_of]; [done|].
  inversion_clear Hs as [|?? Hch]. unfold is_char in Hch. zdec.
  case_bool; [cbn; f_equal; lia|]. rewrite IH by (done || (cbn in Hf; lia)).
  destruct (index_of ch s); cbn; f_equal; lia.
Qed.

Lemma strrchr_loop_ok m ch s : forall p acc fuel, Forall is_char s -> bytes_at m p (s ++ [0]) ->
  (length s < fuel)%nat ->
  loop (strrchr_body m ch) fuel (p, acc) = Ok (from_option (Z.add p) acc (last_index_of ch s)).
Proof.
  induction s as [|c s IH]; intros p acc fuel Hs Hm Hf; (destruct fuel as [|f]; [cbn in Hf; lia|]);
    cbn in Hm; destruct Hm as [Hc Hm]; cbn [loop]; unfold strrchr_body at 1;
    rewrite (load_Some _ _ _ Hc); cbn [obind last_index_of]; [done|].
  inversion_clear Hs as [|?? Hch]. unfold is_char in Hch. zdec.
  rewrite IH by (done || (cbn in Hf; lia)).
  destruct (last_index_of ch s); cbn; [f_equal; lia|]. case_bool; cbn; f_equal; lia.
Qed.

Lemma strchrs_loop_ok m ch s : forall p acc fuel, Forall is_char s -> bytes_at m p (s ++ [0]) ->
  (length s < fuel)%nat -> 0 <= acc -> acc + zlen s < 2 ^ 32 ->
  loop (strchrs_body m ch) fuel (p, acc) = Ok (acc + count_of ch s).
Proof.
  induction s as [|c s IH]; intros p acc fuel Hs Hm Hf Ha Hb;
    (destruct fuel as [|f]; [cbn in Hf; lia|]);
    cbn in Hm; destruct Hm as [Hc Hm]; cbn [loop]; unfold strchrs_body at 1;
    rewrite (load_Some _ _ _ Hc); cbn [obind count_of]; [cbn; f_equal; lia|].
  inversion_clear Hs as [|?? Hch]. unfold is_char in Hch. zdec. cbn [length] in *.
  case_bool; rewrite ?u32_small by lia; rewrite IH by (done || lia); f_equal; lia.
Qed.

(** The signed comparison is antisymmetric, so [strcmp] orders strings. *)
Lemma cmp_chars_anti s t : Forall is_char s -> Forall is_char t ->
  cmp_chars t s = - cmp_chars s t /\ (cmp_chars s t = -1 \/ cmp_chars s t = 0 \/ cmp_chars s t = 1).
Proof.
  revert t; induction s as [|c s IH]; intros [|d t] Hs Ht; cbn; [lia|..].
  - inversion_clear Ht as [|?? Hch]. destruct (s8_char d Hch) as [_ Hne].
    destruct (Z.ltb_spec 0 (s8 d)), (Z.ltb_spec (s8 d) 0); lia.
  - inversion_clear Hs as [|?? Hch]. destruct (s8_char c Hch) as [_ Hne].
    destruct (Z.ltb_spec 0 (s8 c)), (Z.ltb_spec (s8 c) 0); lia.
  - inversion_clear Hs; inversion_clear Ht. rewrite (Z.eqb_sym (s8 d)).
    destruct (Z.eqb_spec (s8 c) (s8 d)); [by apply IH|].
    destruct (Z.ltb_spec (s8 d) (s8 c)), (Z.ltb_spec (s8 c) (s8 d)); lia.
Qed.

Lemma index_of_high ch s : Forall is_char s -> 128 <= ch -> index_of ch s = None.
Proof.
  intros Hs Hch. induction Hs as [|c s Hc Hs IH]; cbn; [done|].
  destruct (s8_char c Hc) as [Heq _]. unfold is_char in Hc.
  destruct (Z.eqb_spec (s8 c) ch) as [E|_]; [|by rewrite IH].
  rewrite Heq in E. destruct (Z.ltb_spec c 128); lia.
Qed.

Lemma index_of_Some ch s i : 0 < ch < 128 -> Forall is_char s -> index_of ch s = Some i ->
  znth s i = Some ch /\ forall j, 0 <= j < i -> znth s j <> Some ch.
Proof.
  intros Hch. revert i; induction s as [|c s IH]; intros i Hs; cbn; [done|].
  inversion_clear Hs as [|?? Hc Hs']. destruct (s8_char c Hc) as [Heq _].
  assert (s8 c = ch <-> c = ch) as Hiff.
  { unfold is_char in Hc. rewrite Heq. destruct (Z.ltb_spec c 128); lia. }
  destruct (Z.eqb_spec (s8 c) ch) as [E|E].
  - intros [= <-]. apply Hiff in E as ->. split; [done|]. intros j Hj; lia.
  - destruct (index_of ch s) as [k|] eqn:Ek; cbn; intros [= <-].
    destruct (IH k Hs' eq_refl) as [Hk Hmin]. pose proof (znth_Some _ _ _ Hk) as Hr.
    assert (forall j, 0 < j -> znth (c :: s) j = znth s (j - 1)) as Hsh.
    { intros j Hj. unfold znth. zdec. by replace (Z.to_nat j) with (S (Z.to_nat (j - 1))) by lia. }
    split; [rewrite Hsh by lia; by replace (Z.succ k - 1) with k by lia|].
    intros j Hj. destruct (Z.eq_dec j 0) as [->|].
    + cbn. intros [= ->]. by apply E, Hiff.
    + rewrite Hsh by lia. apply Hmin; lia.
Qed.

(** [memcpy] of [l] from [src] to a disjoint [dst]. *)
Lemma memcpy_loop_ok l : forall m dst src size, size = zlen l ->
  bytes_at m src l -> mapped m dst (zlen l) ->
  disjoint_ranges dst (zlen l) src (zlen l) ->
  exists m', loop memcpy_body (S (Z.to_nat size)) (m, dst, src, size) = Ok m'
    /\ bytes_at m' dst l /\ same_outside m m' dst (zlen l).
Proof.
  unfold disjoint_ranges.
  induction l as [|c l IH]; intros m dst src size -> Hm Hd Hdis; cbn [length] in *.
  - cbn. by exists m.
  - replace (Z.to_nat (Z.of_nat (S (length l)))) with (S (Z.to_nat (zlen l))) by lia.
    cbn in Hm; destruct Hm as [Hc Hm].
    cbn [loop]. unfold memcpy_body at 1. zdec. rewrite (load_Some _ _ _ Hc); cbn [obind].
    rewrite store_mapped by (apply Hd; lia); cbn [obind].
    assert (same_outside m (<[dst:=c]> m) dst 1) as Ho.
    { intros a Ha. apply lookup_insert_ne. lia. }
    replace (Z.of_nat (S (length l)) - 1) with (zlen l) by lia.
    destruct (IH (<[dst:=c]> m) (dst + 1) (src + 1) (zlen l)) as (m' & Hl & Hb & Ho'); try done; try lia.
    + eapply bytes_at_outside; [done | exact Ho |]. unfold disjoint_ranges. lia.
    + intros a Ha. rewrite Ho by lia. apply Hd; lia.
    + exists m'. split; [exact Hl|]. split.
      * cbn. split; [|done]. rewrite Ho' by lia. apply lookup_insert_eq.
      * intros a Ha. rewrite Ho' by lia. apply Ho; lia.
Qed.

Lemma memset_loop_ok v n : forall m dst size, size = Z.of_nat n -> mapped m dst size ->
  exists m', loop (memset_body v) (S (Z.to_nat size)) (m, dst, size) = Ok m'
    /\ bytes_at m' dst (replicate n v) /\ same_outside m m' dst size.
Proof.
  induction n as [|n IH]; intros m dst size -> Hd.
  - cbn. by exists m.
  - replace (Z.to_nat (Z.of_nat (S n))) with (S (Z.to_nat (Z.of_nat n))) by lia.
    cbn [loop]. unfold memset_body at 1. zdec.
    rewrite store_mapped by (apply Hd; lia); cbn [obind].
    assert (same_outside m (<[dst:=v]> m) dst 1) as Ho.
    { intros a Ha. apply lookup_insert_ne. lia. }
    replace (Z.of_nat (S n) - 1) with (Z.of_nat n) by lia.
    destruct (IH (<[dst:=v]> m) (dst + 1) (Z.of_nat n)) as (m' & Hl & Hb & Ho'); [done|..].
    + intros a Ha. rewrite Ho by lia. apply Hd; lia.
    + exists m'. split; [exact Hl|]. split.
      * cbn. split; [|done]. rewrite Ho' by lia. apply lookup_insert_eq.
      * intros a Ha. rewrite Ho' by lia. apply Ho; lia.
Qed.

(** The index of the first two bytes that differ as signed chars decides. *)
Lemma memcmp_loop_ok m l : forall l' a b, length l' = length l ->
  bytes l -> bytes l' -> bytes_at m a l -> bytes_at m b l' ->
  exists r, loop (memcmp_body m) (S (Z.to_nat (zlen l))) (a, b, zlen l) = Ok r
    /\ (r = 0 <-> l = l').
Proof.
  induction l as [|c l IH]; intros [|d l'] a b Hlen Hl Hl' Ha Hb; try done.
  { cbn. by exists 0. }
  cbn [length] in *.
  replace (Z.to_nat (Z.of_nat (S (length l)))) with (S (Z.to_nat (zlen l))) by lia.
  cbn in Ha, Hb; destruct Ha as [Hc Ha]; destruct Hb as [Hd Hb].
  cbn [loop]. unfold memcmp_body at 1. zdec.
  rewrite (load_Some _ _ _ Hc), (load_Some _ _ _ Hd); cbn [obind].
  inversion_clear Hl; inversion_clear Hl'.
  assert (s8 c = s8 d <-> c = d) as Hiff.
  { unfold s8, is_byte in *. split; [|congruence]. Z.to_euclidean_division_equations; lia. }
  destruct (Z.eqb_spec (s8 c) (s8 d)) as [E|E]; cbn [negb].
  - replace (Z.of_nat (S (length l)) - 1) with (zlen l) by lia.
    apply Hiff in E as ->. destruct (IH l' (a + 1) (b + 1)) as (r & Hr & Hr0); try done; [lia|].
    exists r. split; [exact Hr|]. rewrite Hr0. split; congruence.
  - eexists; split; [done|]. split.
    + by case_bool.
    + intros [= -> ->]. done.
Qed.

(** ** Properties *)

(** [strcpy] into room for the string and its terminator, away from the
    source: it returns [dst], [dst] now holds the string, so [strlen] gives its
    length and [strcmp] finds the two equal, and no other byte has changed. *)
Theorem strcpy_spec m dst src s fuel :
  cstr m src s -> dst <> NULLP -> mapped m dst (zlen s + 1) ->
  disjoint_ranges dst (zlen s + 1) src (zlen s + 1) ->
  (length s < fuel)%nat -> zlen s < 2 ^ 32 ->
  exists m', strcpy fuel m dst src = Ok (m', dst)
    /\ cstr m' dst s /\ cstr m' src s
    /\ same_outside m m' dst (zlen s + 1)
    /\ strlen fuel m' dst = Ok (zlen s) /\ strcmp fuel m' dst src = Ok 0.
Proof.
  intros (Hn & Hs & Hb) Hdn Hd Hdis Hf Hlt.
  destruct (strcpy_loop_ok s m dst src fuel) as (m' & Hl & Hb' & Ho); try done.
  assert (bytes_at m' src (s ++ [0])) as Hsrc.
  { eapply bytes_at_outside; [done | exact Ho |]. unfold disjoint_ranges in *.
    rewrite length_app; cbn; lia. }
  exists m'. unfold strcpy, strlen, strcmp, notnull.
  apply Z.eqb_neq in Hdn as Hdn', Hn as Hn'. rewrite Hdn', Hn'. cbn [negb andb c_assert obind].
  rewrite Hl, (skip_ok m' s), (strcmp_loop_ok m' s s) by done. cbn [obind].
  split_and!; try done.
  - f_equal. rewrite u32_small; lia.
  - f_equal. by apply cmp_chars_eq.
Qed.

(** [strcmp] returns -1, 0 or 1, is 0 exactly on equal strings, and
    swapping its arguments negates its result. *)
Theorem strcmp_order m a b s t fuel :
  cstr m a s -> cstr m b t -> (length s < fuel)%nat -> (length t < fuel)%nat ->
  exists r, strcmp fuel m a b = Ok r /\ strcmp fuel m b a = Ok (- r)
    /\ (r = 0 <-> s = t) /\ (r = -1 \/ r = 0 \/ r = 1).
Proof.
  intros (Hna & Hs & Ha) (Hnb & Ht & Hb) Hfs Hft. exists (cmp_chars s t).
  unfold strcmp, notnull. apply Z.eqb_neq in Hna, Hnb. rewrite Hna, Hnb.
  cbn [negb andb c_assert obind].
  rewrite (strcmp_loop_ok m s t), (strcmp_loop_ok m t s) by done.
  destruct (cmp_chars_anti s t Hs Ht) as [-> ?]. split_and!; try done.
  by apply cmp_chars_eq.
Qed.

(** [strcat] appends: with room after the string at [dst] and [src]
    elsewhere, [dst] holds the concatenation and nothing else changes. *)
Theorem strcat_spec m dst src s t fuel :
  cstr m dst s -> cstr m src t -> mapped m (dst + zlen s) (zlen t + 1) ->
  disjoint_ranges (dst + zlen s) (zlen t + 1) src (zlen t + 1) ->
  (length s < fuel)%nat -> (length t < fuel)%nat ->
  exists m', strcat fuel m dst src = Ok (m', dst) /\ cstr m' dst (s ++ t)
    /\ same_outside m m' (dst + zlen s) (zlen t + 1).
Proof.
  intros (Hnd & Hs & Hd) (Hns & Ht & Hsrc) Hmap Hdis Hfs Hft.
  destruct (strcpy_loop_ok t m (dst + zlen s) src fuel) as (m' & Hl & Hb' & Ho); try done.
  exists m'. unfold strcat, notnull. apply Z.eqb_neq in Hnd as Hnd', Hns as Hns'.
  rewrite Hnd', Hns'. cbn [negb andb c_assert obind]. rewrite (skip_ok m s) by done.
  cbn [obind]. replace (dst + zlen s + 1 - 1) with (dst + zlen s) by lia. rewrite Hl.
  split_and!; try done. split; [done|]. split; [by apply Forall_app|].
  rewrite <- app_assoc. apply bytes_at_app. split; [|done].
  apply bytes_at_app in Hd as [Hd _]. eapply bytes_at_outside; [done | exact Ho |].
  unfold disjoint_ranges; lia.
Qed.

(** [strchr], [strrchr] and [strchrs] return the first occurrence, the
    last one and the number of occurrences of [ch] as a signed character; for
    an ASCII [ch] the first occurrence really is the first position holding
    [ch], and a [ch] of 128 or more is never found, even when it is there. *)
Theorem strchr_family m p s ch fuel :
  cstr m p s -> (length s < fuel)%nat -> zlen s < 2 ^ 32 ->
  strchr fuel m p ch = Ok (from_option (Z.add p) NULLP (index_of ch s))
  /\ strrchr fuel m p ch = Ok (from_option (Z.add p) NULLP (last_index_of ch s))
  /\ strchrs fuel m p ch = Ok (count_of ch s)
  /\ (0 < ch < 128 -> forall i, index_of ch s = Some i ->
        znth s i = Some ch /\ forall j, 0 <= j < i -> znth s j <> Some ch)
  /\ (128 <= ch -> strchr fuel m p ch = Ok NULLP).
Proof.
  intros (Hn & Hs & Hb) Hf Hlt. unfold strchr, strrchr, strchrs, notnull.
  apply Z.eqb_neq in Hn. rewrite Hn. cbn [negb c_assert obind].
  rewrite (strchr_loop_ok m ch s), (strrchr_loop_ok m ch s), (strchrs_loop_ok m ch s) by (done || lia).
  split_and!; try done.
  - intros Hch i Hi. by apply index_of_Some.
  - intros Hch. by rewrite index_of_high.
Qed.

(** [memset], [memcpy] to a disjoint place and [memcmp] on the copies:
    the bytes land where they should, nothing else changes, and [memcmp] then
    answers 0, and 0 only for equal bytes. *)
Theorem mem_routines_spec m dst src l :
  bytes l -> bytes_at m src l -> mapped m dst (zlen l) ->
  disjoint_ranges dst (zlen l) src (zlen l) -> dst <> NULLP -> src <> NULLP ->
  (exists m', memset m dst 0 (zlen l) = Ok m'
     /\ bytes_at m' dst (replicate (length l) 0) /\ same_outside m m' dst (zlen l))
  /\ exists m', memcpy m dst src (zlen l) = Ok m'
     /\ bytes_at m' dst l /\ same_outside m m' dst (zlen l)
     /\ memcmp m' dst src (zlen l) = Ok 0
     /\ forall l' q, length l' = length l -> bytes l' -> bytes_at m' q l' -> q <> NULLP ->
          exists r, memcmp m' dst q (zlen l) = Ok r /\ (r = 0 <-> l = l').
Proof.
  intros Hby Hsrc Hmap Hdis Hdn Hsn. unfold memset, memcpy, memcmp, notnull.
  apply Z.eqb_neq in Hdn, Hsn. rewrite Hdn, Hsn. cbn [negb andb orb c_assert obind]. split.
  - by apply (memset_loop_ok 0 (length l)).
  - destruct (memcpy_loop_ok l m dst src (zlen l)) as (m' & Hl & Hb & Ho); try done.
    exists m'. split_and!; try done.
    + destruct (memcmp_loop_ok m' l l dst src) as (r & Hr & Hr0); try done.
      { eapply bytes_at_outside; [exact Hsrc | exact Ho |]. unfold disjoint_ranges in *; lia. }
      rewrite Hr. f_equal. by apply Hr0.
    + intros l' q Hlen Hl' Hq Hqn. by apply memcmp_loop_ok.
Qed.

(** ** Witnesses: "hi" at 100, "a/b" at 200, room at 300. *)

Definition demo_mem : mem :=
  list_to_map [(100, 104); (101, 105); (102, 0); (103, 7); (104, 7); (105, 7); (106, 7);
               (200, 97); (201, 47); (202, 98); (203, 0);
               (300, 1); (301, 2); (302, 3); (303, 4)].

Ltac solve_cstr :=
  split; [done | split; [repeat (apply Forall_cons; split; [unfold is_char; lia|]);
                         apply Forall_nil; exact I
                        | vm_compute; tauto]].

Example strcpy_witness :
  exists m', strcpy 5 demo_mem 300 200 = Ok (m', 300)
    /\ cstr m' 300 [97; 47; 98] /\ cstr m' 200 [97; 47; 98]
    /\ same_outside demo_mem m' 300 4
    /\ strlen 5 m' 300 = Ok 3 /\ strcmp 5 m' 300 200 = Ok 0.
Proof.
  apply (strcpy_spec demo_mem 300 200 [97; 47; 98] 5).
  - solve_cstr.
  - done.
  - intros a Ha. cbn in Ha.
    assert (a = 300 \/ a = 301 \/ a = 302 \/ a = 303) as [->|[->|[->| ->]]] by lia; by eexists.
  - right. cbn; lia.
  - cbn; lia.
  - cbn; lia.
Defined.

Example strcmp_order_witness :
  exists r, strcmp 5 demo_mem 100 200 = Ok r /\ strcmp 5 demo_mem 200 100 = Ok (- r)
    /\ (r = 0 <-> [104; 105] = [97; 47; 98]) /\ (r = -1 \/ r = 0 \/ r = 1).
Proof.
  apply (strcmp_order demo_mem 100 200 [104; 105] [97; 47; 98] 5);
    [solve_cstr | solve_cstr | cbn; lia | cbn; lia].
Defined.

Example strcat_witness :
  exists m', strcat 5 demo_mem 100 200 = Ok (m', 100)
    /\ cstr m' 100 [104; 105; 97; 47; 98] /\ same_outside demo_mem m' 102 4.
Proof.
  apply (strcat_spec demo_mem 100 200 [104; 105] [97; 47; 98] 5).
  - solve_cstr.
  - solve_cstr.
  - intros a Ha. cbn in Ha.
    assert (a = 102 \/ a = 103 \/ a = 104 \/ a = 105) as [->|[->|[->| ->]]] by lia; by eexists.
  - left. cbn; lia.
  - cbn; lia.
  - cbn; lia.
Defined.

Example strchr_family_witness :
  strchr 5 demo_mem 200 47 = Ok 201 /\ strrchr 5 demo_mem 200 47 = Ok 201
  /\ strchrs 5 demo_mem 200 47 = Ok 1
  /\ (0 < 47 < 128 -> forall i, index_of 47 [97; 47; 98] = Some i ->
        znth [97; 47; 98] i = Some 47 /\ forall j, 0 <= j < i -> znth [97; 47; 98] j <> Some 47)
  /\ (128 <= 47 -> strchr 5 demo_mem 200 47 = Ok NULLP).
Proof.
  apply (strchr_family demo_mem 200 [97; 47; 98] 47 5); [solve_cstr | cbn; lia | cbn; lia].
Defined.

Example mem_routines_witness :
  (exists m', memset demo_mem 300 0 3 = Ok m'
     /\ bytes_at m' 300 [0; 0; 0] /\ same_outside demo_mem m' 300 3)
  /\ exists m', memcpy demo_mem 300 200 3 = Ok m'
     /\ bytes_at m' 300 [97; 47; 98] /\ same_outside demo_mem m' 300 3
     /\ memcmp m' 300 200 3 = Ok 0
     /\ forall l' q, length l' = 3%nat -> bytes l' -> bytes_at m' q l' -> q <> NULLP ->
          exists r, memcmp m' 300 q 3 = Ok r /\ (r = 0 <-> [97; 47; 98] = l').
Proof.
  apply (mem_routines_spec demo_mem 300 200 [97; 47; 98]); try done.
  - solve_bytes.
  - intros a Ha. cbn in Ha.
    assert (a = 300 \/ a = 301 \/ a = 302) as [->|[->| ->]] by lia; by eexists.
  - right. cbn; lia.
Defined.
