(* ===== verification/Stdio.v ===== *)
(** lib/stdio.c: [itoa] and [vsprintf], over the byte memory of Cstring.v.
    [va_list] is a pointer that [va_arg] advances by four bytes before reading. *)
From S2P Require Import Prelude Cstring.

(** ** Code *)

Definition ch_percent : Z := 37.
Definition ch_minus : Z := 45.
Definition ch_0 : Z := 48.
Definition ch_A : Z := 65.
Definition ch_c : Z := 99.
Definition ch_d : Z := 100.
Definition ch_s : Z := 115.
Definition ch_x : Z := 120.

(** A 32-bit little-endian load, for the arguments on the stack. *)
Definition load32 (m : mem) (p : Z) : outcome Z :=
  let! b0 := load m p in
  let! b1 := load m (p + 1) in
  let! b2 := load m (p + 2) in
  let! b3 := load m (p + 3) in
  Ok (b0 + 2 ^ 8 * b1 + 2 ^ 16 * b2 + 2 ^ 24 * b3).

(** Writing one character through the output pointer: returns the memory and the advanced pointer. *)
Definition putc (m : mem) (p c : Z) : outcome (mem * Z) :=
  let! m := store m p (u8 c) in Ok (m, p + 1).

Definition itoa_char (m : Z) : Z := if m <? 10 then m + ch_0 else m - 10 + ch_A.

Fixpoint itoa (fuel : nat) (m : mem) (buf_ptr value base : Z) : outcome (mem * Z) :=
  match fuel with
  | O => Err OutOfFuel
  | S f =>
      let md := value mod base in
      let i := value / base in
      let! ' (m, buf_ptr) :=
        if negb (i =? 0) then itoa f m buf_ptr i base else Ok (m, buf_ptr) in
      putc m buf_ptr (itoa_char md)
  end.

Record vstate := mk_vstate
  { v_mem : mem; v_buf : Z; v_idx : Z; v_char : Z; v_ap : Z }.

(** One pass of the [while (index_char)] loop; [fuel] bounds the string
    routines and [itoa], which has at most 32 digits to write. *)
Definition vsprintf_body (fuel : nat) (s : vstate) : outcome (vstate + mem) :=
  let '(mk_vstate m buf idx c ap) := s in
  if c =? 0 then Ok (inr m) else
  if negb (c =? ch_percent) then
    let! ' (m, buf) := putc m buf c in
    let! c := load m (idx + 1) in
    Ok (inl (mk_vstate m buf (idx + 1) c ap))
  else
    let idx := idx + 1 in
    let! c := load m idx in
    if c =? ch_s then
      let ap := ap + 4 in
      let! arg_str := load32 m ap in
      let! ' (m, _) := strcpy fuel m buf arg_str in
      let! n := strlen fuel m arg_str in
      let! c := load m (idx + 1) in
      Ok (inl (mk_vstate m (buf + n) (idx + 1) c ap))
    else if c =? ch_c then
      let ap := ap + 4 in
      let! b := load m ap in
      let! ' (m, buf) := putc m buf b in
      let! c := load m (idx + 1) in
      Ok (inl (mk_vstate m buf (idx + 1) c ap))
    else if c =? ch_d then
      let ap := ap + 4 in
      let! a := load32 m ap in
      let arg_int := s32 a in
      let! ' (m, buf, arg_int) :=
        if arg_int <? 0 then
          let! ' (m, buf) := putc m buf ch_minus in Ok (m, buf, s32 (0 - arg_int))
        else Ok (m, buf, arg_int) in
      let! ' (m, buf) := itoa 33 m buf (u32 arg_int) 10 in
      let! c := load m (idx + 1) in
      Ok (inl (mk_vstate m buf (idx + 1) c ap))
    else if c =? ch_x then
      let ap := ap + 4 in
      let! a := load32 m ap in
      let! ' (m, buf) := itoa 33 m buf (u32 (s32 a)) 16 in
      let! c := load m (idx + 1) in
      Ok (inl (mk_vstate m buf (idx + 1) c ap))
    else Ok (inl (mk_vstate m buf idx c ap)).

Definition vsprintf (fuel : nat) (m : mem) (str format ap : Z) : outcome (mem * Z) :=
  let! c := load m format in
  let! m := loop (vsprintf_body fuel) fuel (mk_vstate m str format c ap) in
  let! n := strlen fuel m str in
  Ok (m, n).

(** ** Specification *)

(** The number a list of digits denotes, most significant first. *)
Definition undigits (base : Z) (ds : list Z) : Z :=
  fold_left (fun acc d => acc * base + d) ds 0.

(** [out] is the shortest numeral of [v] in [base]. *)
Definition numeral (base v : Z) (out : list Z) : Prop :=
  exists ds, out = map itoa_char ds /\ undigits base ds = v /\ ds <> []
    /\ Forall (fun d => 0 <= d < base) ds /\ (hd 0 ds = 0 -> ds = [0]).

(** The digits [itoa] writes, most significant first. *)
Fixpoint digits (fuel : nat) (base v : Z) : list Z :=
  match fuel with
  | O => []
  | S f => (if v / base =? 0 then [] else digits f base (v / base)) ++ [v mod base]
  end.

(** The numeral of a 32-bit number. *)
Definition ascii_of (base v : Z) : list Z := map itoa_char (digits 33 base v).

(** What [vsprintf] has to write for a format and its arguments; [str] and [n]
    delimit the output buffer, from which everything read stays away. *)
Section renders.
Context (m : mem) (str n : Z).

Definition apart (p k : Z) : Prop := disjoint_ranges p k str n.

Inductive renders : list Z -> Z -> list Z -> Prop :=
| renders_nil ap : renders [] ap []
| renders_char c fmt ap out : c <> ch_percent ->
    renders fmt ap out -> renders (c :: fmt) ap (c :: out)
| renders_s fmt ap p s out : load32 m (ap + 4) = Ok p -> apart (ap + 4) 4 ->
    cstr m p s -> apart p (zlen s + 1) ->
    renders fmt (ap + 4) out -> renders (ch_percent :: ch_s :: fmt) ap (s ++ out)
| renders_c fmt ap b out : load m (ap + 4) = Ok b -> apart (ap + 4) 1 -> is_char b ->
    renders fmt (ap + 4) out -> renders (ch_percent :: ch_c :: fmt) ap (b :: out)
| renders_d fmt ap a out : load32 m (ap + 4) = Ok a -> apart (ap + 4) 4 ->
    renders fmt (ap + 4) out ->
    renders (ch_percent :: ch_d :: fmt) ap
      ((if s32 a <? 0 then [ch_minus] else []) ++ ascii_of 10 (Z.abs (s32 a)) ++ out)
| renders_x fmt ap a out : load32 m (ap + 4) = Ok a -> apart (ap + 4) 4 ->
    renders fmt (ap + 4) out ->
    renders (ch_percent :: ch_x :: fmt) ap (ascii_of 16 (u32 a) ++ out).
End renders.

(** ** [itoa] *)

Lemma putc_ok m p c : is_Some (m !! p) -> putc m p c = Ok (<[p := u8 c]> m, p + 1).
Proof. intros. unfold putc. by rewrite store_mapped. Qed.

Lemma itoa_char_range d base : 0 <= d < base -> base <= 16 -> is_char (itoa_char d).
Proof. unfold is_char, itoa_char, ch_0, ch_A; intros. case_bool; zb; lia. Qed.

Lemma undigits_app base ds d : undigits base (ds ++ [d]) = undigits base ds * base + d.
Proof. unfold undigits. by rewrite fold_left_app. Qed.

Lemma digits_ok base v fuel : 2 <= base -> 0 <= v < 2 ^ (Z.of_nat fuel - 1) -> (0 < fuel)%nat ->
  undigits base (digits fuel base v) = v /\ digits fuel base v <> []
  /\ Forall (fun d => 0 <= d < base) (digits fuel base v)
  /\ (hd 0 (digits fuel base v) = 0 -> digits fuel base v = [0]).
Proof.
  intros Hb. revert v; induction fuel as [|f IH]; intros v Hv Hf; [lia|]. cbn [digits].
  assert (0 <= v mod base < base) as Hm by (apply Z.mod_pos_bound; lia).
  destruct (Z.eqb_spec (v / base) 0) as [E|E].
  - assert (v mod base = v) as Hvm.
    { pose proof (Z.div_mod v base ltac:(lia)). rewrite E in *. lia. }
    rewrite Hvm. cbn. split_and!; [lia | done | by apply Forall_singleton; lia | congruence].
  - assert (0 <= v / base) by (apply Z.div_pos; lia).
    assert (v / base <= v / 2) by (apply Z.div_le_compat_l; lia).
    assert (f <> O) as Hf0.
    { intros ->. cbn in Hv. assert (v = 0) by lia. subst. by rewrite Z.div_0_l in E by lia. }
    assert (2 ^ (Z.of_nat (S f) - 1) = 2 * 2 ^ (Z.of_nat f - 1)) as Hp.
    { replace (Z.of_nat (S f) - 1) with (Z.succ (Z.of_nat f - 1)) by lia.
      apply Z.pow_succ_r; lia. }
    destruct (IH (v / base)) as (Hu & Hne & Hall & Hhd).
    { split; [done|]. assert (v / 2 < 2 ^ (Z.of_nat f - 1)); [|lia].
      apply Z.div_lt_upper_bound; lia. }
    { lia. }
    rewrite undigits_app, Hu. split_and!.
    + pose proof (Z.div_mod v base ltac:(lia)). lia.
    + by destruct (digits f base (v / base)).
    + apply Forall_app; split; [done | by apply Forall_singleton].
    + destruct (digits f base (v / base)) as [|d ds] eqn:Ed; [done|]. cbn. intros ->.
      rewrite (Hhd eq_refl) in Hu. cbn in Hu. lia.
Qed.

Lemma numeral_digits base v fuel : 2 <= base -> 0 <= v < 2 ^ (Z.of_nat fuel - 1) ->
  (0 < fuel)%nat -> numeral base v (map itoa_char (digits fuel base v)).
Proof.
  intros Hb Hv Hf. destruct (digits_ok base v fuel Hb Hv Hf) as (?&?&?&?).
  by exists (digits fuel base v).
Qed.

Lemma write_char m p c l : same_outside m (<[p := c]> m) p 1 /\ (bytes_at m (p + 1) l ->
  bytes_at (<[p := c]> m) (p + 1) l).
Proof.
  assert (same_outside m (<[p := c]> m) p 1) as Ho by (intros a ?; apply lookup_insert_ne; lia).
  split; [done|]. intros Hl. eapply bytes_at_outside; [done | exact Ho|].
  unfold disjoint_ranges; lia.
Qed.

Lemma itoa_ok base : 2 <= base <= 16 -> forall fuel m p v,
  0 <= v < 2 ^ (Z.of_nat fuel - 1) -> (0 < fuel)%nat ->
  mapped m p (zlen (digits fuel base v)) ->
  exists m', itoa fuel m p v base = Ok (m', p + zlen (digits fuel base v))
    /\ bytes_at m' p (map itoa_char (digits fuel base v))
    /\ same_outside m m' p (zlen (digits fuel base v)).
Proof.
  intros Hb fuel; induction fuel as [|f IH]; intros m p v Hv Hf Hm; [lia|].
  pose proof (digits_ok base v (S f) ltac:(lia) Hv Hf) as (_&_&Hall&_).
  cbn [digits itoa] in *. destruct (Z.eqb_spec (v / base) 0) as [E|E]; cbn [negb app] in *.
  - cbn in Hm |- *. rewrite putc_ok by (apply Hm; lia).
    inversion_clear Hall as [|?? Hd _]. pose proof (itoa_char_range _ _ Hd ltac:(lia)) as Hc.
    unfold is_char in Hc. rewrite u8_small by lia.
    eexists; split; [done|]. split; [split; [apply lookup_insert_eq | done]|].
    apply (proj1 (write_char m p _ [])).
  - apply Forall_app in Hall as [Hall Hd]. rewrite Forall_singleton in Hd.
    pose proof (itoa_char_range _ _ Hd ltac:(lia)) as Hc. unfold is_char in Hc.
    rewrite length_app in *. cbn [length] in *.
    assert (f <> O) as Hf0.
    { intros ->. cbn in Hv. assert (v = 0) by lia. subst. by rewrite Z.div_0_l in E by lia. }
    destruct (IH m p (v / base)) as (m' & Hi & Hbytes & Ho).
    { split; [apply Z.div_pos; lia|].
      replace (Z.of_nat (S f) - 1) with (Z.succ (Z.of_nat f - 1)) in Hv by lia.
      rewrite Z.pow_succ_r in Hv by lia.
      assert (v / base <= v / 2) by (apply Z.div_le_compat_l; lia).
      assert (v / 2 < 2 ^ (Z.of_nat f - 1)); [apply Z.div_lt_upper_bound; lia | lia]. }
    { lia. }
    { intros a Ha. apply Hm; lia. }
    rewrite Hi. cbn [obind]. set (k := zlen (digits f base (v / base))) in *.
    rewrite putc_ok, u8_small by (lia || (rewrite Ho by lia; apply Hm; lia)).
    assert (same_outside m' (<[p + k := itoa_char (v mod base)]> m') (p + k) 1) as Ho'
      by (apply (proj1 (write_char m' (p + k) _ []))).
    eexists; split; [f_equal; f_equal; lia|]. split.
    + rewrite map_app. apply bytes_at_app. rewrite length_map. split.
      * eapply bytes_at_outside; [done | exact Ho' |]. unfold disjoint_ranges.
        rewrite length_map; lia.
      * split; [apply lookup_insert_eq | done].
    + intros a Ha. rewrite Ho' by lia. apply Ho; lia.
Qed.

(** ** [vsprintf] *)

Definition zeros (m : mem) (p k : Z) : Prop := forall a, p <= a < p + k -> m !! a = Some 0.

Lemma load_apart m m' str n p : same_outside m m' str n -> apart str n p 1 -> load m' p = load m p.
Proof. unfold apart, disjoint_ranges, load. intros Ho Hd. rewrite Ho; [done | lia]. Qed.

Lemma load32_apart m m' str n p : same_outside m m' str n -> apart str n p 4 ->
  load32 m' p = load32 m p.
Proof.
  intros Ho Hd. unfold load32, apart, disjoint_ranges in *.
  by rewrite !(load_apart m m' str n) by (unfold apart, disjoint_ranges; done || lia).
Qed.

(** The output so far: [l] has been written at [buf], zeros follow. *)
Definition wrote (m m1 : mem) (buf k : Z) (l : list Z) : Prop :=
  bytes_at m1 buf l /\ same_outside m m1 buf k /\ zeros m1 (buf + zlen l) (k - zlen l).

Lemma wrote_trans m m1 m2 buf k l out :
  wrote m m1 buf k l -> wrote m1 m2 (buf + zlen l) (k - zlen l) out -> wrote m m2 buf k (l ++ out).
Proof.
  intros (Hb&Ho&_) (Hb'&Ho'&Hz'). split_and!.
  - apply bytes_at_app. split; [|done]. eapply bytes_at_outside; [done | exact Ho'|].
    unfold disjoint_ranges; lia.
  - intros a Ha. rewrite Ho' by lia. apply Ho; lia.
  - rewrite length_app. intros a Ha. apply Hz'; lia.
Qed.

Lemma wrote_putc m buf k c : zeros m buf k -> 0 < k -> is_char c ->
  exists m1, putc m buf c = Ok (m1, buf + 1) /\ wrote m m1 buf k [c].
Proof.
  intros Hz Hk Hc. unfold is_char in Hc.
  rewrite putc_ok, u8_small by (lia || (exists 0; apply Hz; lia)).
  eexists; split; [done|]. split_and!.
  - split; [apply lookup_insert_eq | done].
  - intros a Ha. apply lookup_insert_ne; lia.
  - intros a Ha. cbn in Ha. rewrite lookup_insert_ne by lia. apply Hz; lia.
Qed.

Lemma wrote_itoa m buf k base v : zeros m buf k -> 2 <= base <= 16 -> 0 <= v < 2 ^ 32 ->
  zlen (ascii_of base v) <= k ->
  exists m1, itoa 33 m buf v base = Ok (m1, buf + zlen (ascii_of base v))
    /\ wrote m m1 buf k (ascii_of base v).
Proof.
  unfold ascii_of. rewrite length_map. intros Hz Hb Hv Hk.
  destruct (itoa_ok base Hb 33 m buf v) as (m1&Hi&Hby&Ho); [done | lia | |].
  { intros a Ha. exists 0. apply Hz; lia. }
  exists m1. split; [done|]. split_and!; [done | |].
  - intros a Ha. apply Ho; lia.
  - rewrite length_map. intros a Ha. rewrite Ho by lia. apply Hz; lia.
Qed.

Lemma wrote_strcpy m buf k p s fuel : zeros m buf k -> zlen s < k -> Forall is_char s ->
  bytes_at m p (s ++ [0]) -> disjoint_ranges p (zlen s + 1) buf k -> (length s < fuel)%nat ->
  buf <> NULLP -> p <> NULLP ->
  exists m1, strcpy fuel m buf p = Ok (m1, buf) /\ wrote m m1 buf k s
    /\ strlen fuel m1 p = Ok (u32 (zlen s)).
Proof.
  intros Hz Hk Hs Hp Hd Hf Hb0 Hp0. unfold disjoint_ranges in Hd.
  destruct (strcpy_loop_ok s m buf p fuel) as (m1&Hl&Hby&Ho); try done.
  { intros a Ha. exists 0. apply Hz; lia. }
  { unfold disjoint_ranges; lia. }
  exists m1. unfold strcpy, strlen, notnull. apply Z.eqb_neq in Hb0, Hp0. rewrite Hb0, Hp0.
  cbn [negb andb c_assert obind]. rewrite Hl, (skip_ok m1 s); try done.
  - cbn [obind]. apply bytes_at_app in Hby as [Hby [Hz0 _]].
    split_and!; try done; [|by do 2 f_equal; lia].
    split_and!; [done | |].
    + intros a Ha. apply Ho; lia.
    + intros a Ha. destruct (Z.eq_dec a (buf + zlen s)) as [->|]; [done|].
      rewrite Ho by lia. apply Hz; lia.
  - eapply bytes_at_outside; [done | exact Ho|]. unfold disjoint_ranges.
    rewrite length_app; cbn; lia.
Qed.

Lemma s32_neg a : s32 a < 0 -> u32 (s32 (0 - s32 a)) = Z.abs (s32 a).
Proof. unfold u32, s32. intros. Z.to_euclidean_division_equations; lia. Qed.

Lemma s32_pos a : ~ s32 a < 0 -> u32 (s32 a) = Z.abs (s32 a).
Proof. unfold u32, s32. intros. Z.to_euclidean_division_equations; lia. Qed.

Lemma u32_s32 a : u32 (s32 a) = u32 a.
Proof. unfold u32, s32. Z.to_euclidean_division_equations; lia. Qed.

Lemma s32_abs a : 0 <= Z.abs (s32 a) < 2 ^ 32.
Proof. unfold s32. Z.to_euclidean_division_equations; lia. Qed.

(** The state of the loop before the rest [fmt] of the format. *)
Definition vs_at (m' : mem) (buf idx : Z) (fmt : list Z) (ap : Z) : vstate :=
  mk_vstate m' buf idx (hd 0 (fmt ++ [0])) ap.

Section vsprintf_loop.
Context (m : mem) (str n : Z) (fuel0 : nat).
Hypothesis Hstr : 0 < str.
Hypothesis Htop : str + n <= 2 ^ 32.
Hypothesis Hfuel0 : (Z.to_nat n < fuel0)%nat.

(** What holds before a pass; [k] bytes of the buffer are left. *)
Definition vs_inv (m' : mem) (buf idx k : Z) (fmt : list Z) : Prop :=
  same_outside m m' str n /\ str <= buf /\ buf + k = str + n /\ zeros m' buf k
  /\ bytes_at m' idx (fmt ++ [0]) /\ apart str n idx (zlen fmt + 1) /\ Forall is_char fmt.

(** After one directive of [d] characters has written [l]. *)
Lemma vs_inv_step m' m1 buf idx k d fmt l :
  vs_inv m' buf idx k (d ++ fmt) -> wrote m' m1 buf k l -> zlen l <= k ->
  vs_inv m1 (buf + zlen l) (idx + zlen d) (k - zlen l) fmt
  /\ load m1 (idx + zlen d) = Ok (hd 0 (fmt ++ [0])).
Proof.
  intros (Ho&Hlo&Hk&Hz&Hb&Hap&Hch) (Hby&Ho1&Hz1) Hl. unfold apart, disjoint_ranges in *.
  rewrite <- app_assoc in Hb. apply bytes_at_app in Hb as [_ Hb].
  rewrite length_app in Hap. apply Forall_app in Hch as [_ Hch].
  assert (bytes_at m1 (idx + zlen d) (fmt ++ [0])) as Hb1.
  { eapply bytes_at_outside; [done | exact Ho1 |]. unfold disjoint_ranges.
    rewrite length_app; cbn; lia. }
  split.
  - split_and!; try done; try lia.
    + intros a Ha. rewrite Ho1 by lia. apply Ho; lia.
    + unfold apart, disjoint_ranges; lia.
  - apply load_Some. destruct fmt; cbn in *; tauto.
Qed.

Lemma vsprintf_continue m' m1 buf k l out (o : outcome mem) :
  wrote m' m1 buf k l ->
  (exists m2, o = Ok m2 /\ wrote m1 m2 (buf + zlen l) (k - zlen l) out) ->
  exists m2, o = Ok m2 /\ wrote m' m2 buf k (l ++ out).
Proof. intros Hw (m2&->&Hw2). exists m2. split; [done|]. by apply (wrote_trans m' m1). Qed.

(** Close a directive of characters [d] that has written [l] into [m1]. *)
Local Ltac finish_directive IH Hinv Hw d :=
  lazymatch type of Hw with
  | wrote ?m' ?m1 ?buf ?k ?l =>
    lazymatch type of Hinv with
    | vs_inv _ _ ?idx _ (_ :: _ :: ?fmt) =>
      let Hinv1 := fresh in let Hld := fresh in
      destruct (vs_inv_step m' m1 buf idx k d fmt l Hinv Hw ltac:(cbn [length]; lia)) as [Hinv1 Hld];
      change (zlen d) with 2 in *;
      replace (idx + 1 + 1) with (idx + 2) by lia; rewrite Hld; cbn [obind];
      apply (vsprintf_continue m' m1 buf k l); [exact Hw|];
      eapply IH; [exact Hinv1 | cbn [length] in *; lia | lia]
    end
  end.

Lemma vsprintf_loop_ok fmt ap out : renders m str n fmt ap out -> forall m' buf idx k fuel,
  vs_inv m' buf idx k fmt -> zlen out < k -> (length fmt < fuel)%nat ->
  exists m2, loop (vsprintf_body fuel0) fuel (vs_at m' buf idx fmt ap) = Ok m2
    /\ wrote m' m2 buf k out.
Proof.
  intros Hr; induction Hr as [ap|c fmt ap out Hc Hr IH|fmt ap p s out Hp Hap Hs Hsap Hr IH
    |fmt ap b out Hb Hap Hbc Hr IH|fmt ap a out Ha Hap Hr IH|fmt ap a out Ha Hap Hr IH];
    intros m' buf idx k fuel Hinv Hk Hf; (destruct fuel as [|f]; [cbn in Hf; lia|]);
    unfold vs_at; cbn [loop]; cbn [app hd length] in *;
    pose proof Hinv as (Ho&Hlo&Hkn&Hz&Hby&Hfap&Hch).
  - exists m'. split; [done|]. split_and!; [done | done | cbn; by rewrite Z.add_0_r, Z.sub_0_r].
  - inversion_clear Hch as [|?? Hcc _]. unfold vsprintf_body. pose proof Hcc. unfold is_char in *.
    zdec. replace (c =? ch_percent) with false by (symmetry; by apply Z.eqb_neq). cbn [negb].
    destruct (wrote_putc m' buf k c Hz ltac:(lia) Hcc) as (m1&->&Hw). cbn [obind].
    destruct (vs_inv_step m' m1 buf idx k [c] fmt [c] Hinv Hw ltac:(cbn; lia)) as [Hinv1 Hld].
    cbn [length] in *. change (Z.of_nat 1) with 1 in *. rewrite Hld. cbn [obind].
    apply (vsprintf_continue m' m1 buf k [c] out); [done|].
    apply (IH m1 (buf + 1) (idx + 1) (k - 1) f); [done | lia | lia].
  - destruct Hby as [_ [Hc2 _]].
    unfold vsprintf_body. cbn [Z.eqb ch_percent Pos.eqb negb].
    rewrite (load_Some _ _ _ Hc2). cbn [obind Z.eqb ch_s ch_c ch_d ch_x Pos.eqb].
    rewrite (load32_apart m m' str n), Hp by done. cbn [obind].
    rewrite length_app in Hk. destruct Hs as (Hp0&Hsc&Hsb).
    destruct (wrote_strcpy m' buf k p s fuel0) as (m1&->&Hw&Hlen); try done; try lia.
    { eapply bytes_at_outside; [done | exact Ho |]. unfold apart, disjoint_ranges in *.
      rewrite length_app; cbn; lia. }
    { unfold apart, disjoint_ranges in *; lia. }
    { unfold NULLP; lia. }
    cbn [obind]. rewrite Hlen, u32_small by lia. cbn [obind].
    finish_directive IH Hinv Hw [ch_percent; ch_s].
  - destruct Hby as [_ [Hc2 _]].
    unfold vsprintf_body. cbn [Z.eqb ch_percent Pos.eqb negb].
    rewrite (load_Some _ _ _ Hc2). cbn [obind Z.eqb ch_s ch_c ch_d ch_x Pos.eqb].
    rewrite (load_apart m m' str n), Hb by done. cbn [obind].
    destruct (wrote_putc m' buf k b Hz ltac:(lia) Hbc) as (m1&->&Hw). cbn [obind].
    change (b :: out) with ([b] ++ out) in *.
    finish_directive IH Hinv Hw [ch_percent; ch_c].
  - destruct Hby as [_ [Hc2 _]].
    unfold vsprintf_body. cbn [Z.eqb ch_percent Pos.eqb negb].
    rewrite (load_Some _ _ _ Hc2). cbn [obind Z.eqb ch_s ch_c ch_d ch_x Pos.eqb].
    rewrite (load32_apart m m' str n), Ha by done. cbn [obind].
    rewrite app_assoc in *. rewrite !length_app in Hk. pose proof (s32_abs a) as Habs.
    destruct (Z.ltb_spec (s32 a) 0) as [Hn|Hn]; cbn [app] in *.
    + destruct (wrote_putc m' buf k ch_minus Hz ltac:(lia)) as (m1&->&Hw); [done|].
      cbn [obind]. rewrite s32_neg by done.
      destruct (wrote_itoa m1 (buf + 1) (k - 1) 10 (Z.abs (s32 a))) as (m2&->&Hw2);
        [apply Hw | lia | done | lia |]. cbn [obind].
      pose proof (wrote_trans m' m1 m2 buf k [ch_minus] _ Hw Hw2) as Hw3. cbn [app] in *.
      replace (buf + 1 + zlen (ascii_of 10 (Z.abs (s32 a))))
        with (buf + zlen (ch_minus :: ascii_of 10 (Z.abs (s32 a)))) by (cbn [length]; lia).
      finish_directive IH Hinv Hw3 [ch_percent; ch_d].
    + cbn [obind]. rewrite s32_pos by lia.
      destruct (wrote_itoa m' buf k 10 (Z.abs (s32 a)) Hz) as (m2&->&Hw);
        [lia | done | lia |]. cbn [obind].
      finish_directive IH Hinv Hw [ch_percent; ch_d].
  - destruct Hby as [_ [Hc2 _]].
    unfold vsprintf_body. cbn [Z.eqb ch_percent Pos.eqb negb].
    rewrite (load_Some _ _ _ Hc2). cbn [obind Z.eqb ch_s ch_c ch_d ch_x Pos.eqb].
    rewrite (load32_apart m m' str n), Ha by done. cbn [obind]. rewrite u32_s32.
    rewrite !length_app in Hk.
    destruct (wrote_itoa m' buf k 16 (u32 a) Hz) as (m2&->&Hw);
      [lia | apply u32_range | lia |]. cbn [obind].
    finish_directive IH Hinv Hw [ch_percent; ch_x].
Qed.
End vsprintf_loop.

Lemma ascii_of_chars base v : 2 <= base <= 16 -> 0 <= v < 2 ^ 32 -> Forall is_char (ascii_of base v).
Proof.
  intros Hb Hv. unfold ascii_of. apply List.Forall_map.
  destruct (digits_ok base v 33) as (_&_&Hall&_); [lia | done | lia |].
  eapply List.Forall_impl; [|exact Hall]. intros d Hd. apply (itoa_char_range d base); [done | lia].
Qed.

Lemma renders_chars m str n fmt ap out : Forall is_char fmt -> renders m str n fmt ap out ->
  Forall is_char out.
Proof.
  intros Hf Hr. induction Hr;
    repeat match goal with H : Forall is_char (_ :: _) |- _ => inversion H; clear H; subst end.
  - done.
  - constructor; auto.
  - apply Forall_app; split; [|by auto].
    match goal with H : cstr _ _ _ |- _ => apply H end.
  - constructor; auto.
  - apply Forall_app; split; [|apply Forall_app; split; [|by auto]].
    + case_bool; [|done]. repeat constructor; done.
    + apply ascii_of_chars; [lia | apply s32_abs].
  - apply Forall_app; split; [|by auto]. apply ascii_of_chars; [lia | apply u32_range].
Qed.

(** ** Properties *)

(** [itoa] terminates and writes, at the output pointer and nowhere else,
    the shortest numeral of the value: its digits are in range for the base,
    there is no leading zero except for 0 itself, and read back in that base
    they give the value; the pointer ends one past the last digit. *)
Theorem itoa_spec m p v base :
  base = 10 \/ base = 16 -> 0 <= v < 2 ^ 32 -> mapped m p 32 ->
  exists m' out, itoa 33 m p v base = Ok (m', p + zlen out)
    /\ numeral base v out /\ bytes_at m' p out /\ same_outside m m' p (zlen out)
    /\ zlen out <= 10.
Proof.
  intros Hb Hv Hm.
  assert (zlen (digits 33 base v) <= 10) as Hlen.
  { assert (forall k f b w, 10 <= b -> 0 <= w < 10 ^ Z.of_nat (S k) ->
      (length (digits f b w) <= S k)%nat) as Hd.
    { clear. induction k as [|k IH]; intros [|f] b w Hb Hw; cbn [digits length]; try lia;
        rewrite length_app; cbn [length];
        (destruct (Z.eqb_spec (w / b) 0) as [E|E]; [cbn; lia|]).
      - exfalso. apply E. apply Z.div_small. cbn in Hw. lia.
      - specialize (IH f b (w / b) Hb).
        assert (w / b < 10 ^ Z.of_nat (S k)).
        { apply Z.div_lt_upper_bound; [lia|].
          replace (Z.of_nat (S (S k))) with (Z.succ (Z.of_nat (S k))) in Hw by lia.
          rewrite Z.pow_succ_r in Hw by lia. nia. }
        pose proof (Z.div_pos w b). lia. }
    specialize (Hd 9%nat 33%nat base v ltac:(lia) ltac:(cbn; lia)). lia. }
  destruct (itoa_ok base ltac:(lia) 33 m p v) as (m'&Hi&Hby&Ho); [done | lia | |].
  { intros a Ha. apply Hm. lia. }
  exists m', (ascii_of base v). unfold ascii_of. rewrite length_map.
  split_and!; try done. apply numeral_digits; [lia | done | lia].
Qed.

(** [vsprintf] into a zeroed buffer writes exactly the rendering of the
    format - literal characters, and %s, %c, %d, %x with the next argument - as
    a C string, returns its length, and touches nothing outside the buffer,
    whenever the rendering and a terminator fit. *)
Theorem vsprintf_spec m str n format fmt ap out fuel :
  0 < str -> str + n <= 2 ^ 32 -> zeros m str n ->
  Forall is_char fmt -> bytes_at m format (fmt ++ [0]) -> apart str n format (zlen fmt + 1) ->
  renders m str n fmt ap out -> zlen out < n ->
  (Z.to_nat n < fuel)%nat -> (length fmt < fuel)%nat ->
  exists m', vsprintf fuel m str format ap = Ok (m', zlen out)
    /\ cstr m' str out /\ same_outside m m' str n.
Proof.
  intros Hstr Htop Hz Hch Hf Hap Hr Hlen Hfu Hfm.
  assert (vs_inv m str n m str format n fmt) as Hinv.
  { split_and!; try done; lia. }
  destruct (vsprintf_loop_ok m str n fuel Hstr Htop Hfu fmt ap out Hr m str format n fuel
    Hinv Hlen Hfm) as (m'&Hl&Hby&Ho&Hz').
  exists m'. unfold vsprintf.
  assert (load m format = Ok (hd 0 (fmt ++ [0]))) as ->.
  { apply load_Some. destruct fmt; cbn in *; tauto. }
  cbn [obind]. unfold vs_at in Hl. rewrite Hl. cbn [obind].
  pose proof (renders_chars _ _ _ _ _ _ Hch Hr) as Hout.
  assert (bytes_at m' str (out ++ [0])) as Hby'.
  { apply bytes_at_app. split; [done|]. split; [apply Hz'; lia | done]. }
  unfold strlen, notnull. replace (str =? NULLP) with false by (symmetry; apply Z.eqb_neq; unfold NULLP; lia).
  cbn [negb c_assert obind]. rewrite (skip_ok m' out) by (done || lia). cbn [obind].
  rewrite u32_small by lia. split; [do 2 f_equal; lia|]. split; [|done].
  split; [unfold NULLP; lia | done].
Qed.

(** ** Witnesses *)

(** A buffer of 8 zero bytes at 100, the format "v=%d" at 200, and at 300 the
    stack slot of the last named argument, followed by the [int] -7. *)
Definition demo_fmt_mem : mem :=
  list_to_map [(100, 0); (101, 0); (102, 0); (103, 0); (104, 0); (105, 0); (106, 0); (107, 0);
               (200, 118); (201, 61); (202, 37); (203, 100); (204, 0);
               (304, 249); (305, 255); (306, 255); (307, 255)].

Example itoa_witness :
  exists m' out, itoa 33 (list_to_map (map (fun i => (Z.of_nat i, 0)) (seq 1 32))) 1 255 16
      = Ok (m', 1 + zlen out)
    /\ numeral 16 255 out /\ bytes_at m' 1 out
    /\ same_outside (list_to_map (map (fun i => (Z.of_nat i, 0)) (seq 1 32))) m' 1 (zlen out)
    /\ zlen out <= 10.
Proof.
  apply itoa_spec; [by right | lia |].
  intros a Ha. exists 0. apply elem_of_list_to_map_1; [apply (bool_decide_unpack _); vm_compute; exact I|].
  apply list_elem_of_In, List.in_map_iff. exists (Z.to_nat a).
  split; [f_equal; lia | apply List.in_seq; lia].
Defined.

Example vsprintf_witness :
  exists m', vsprintf 9 demo_fmt_mem 100 200 300 = Ok (m', 4)
    /\ cstr m' 100 [118; 61; 45; 55] /\ same_outside demo_fmt_mem m' 100 8.
Proof.
  apply (vsprintf_spec demo_fmt_mem 100 8 200 [118; 61; 37; 100] 300 [118; 61; 45; 55] 9);
    try (cbn; lia).
  - intros a Ha.
    assert (a = 100 \/ a = 101 \/ a = 102 \/ a = 103 \/ a = 104 \/ a = 105 \/ a = 106 \/ a = 107)
      as Hc by lia.
    repeat (destruct Hc as [->|Hc]; [reflexivity|]). subst; reflexivity.
  - repeat (apply Forall_cons; split; [unfold is_char; lia|]). apply Forall_nil; exact I.
  - vm_compute; tauto.
  - right. cbn; lia.
  - apply renders_char; [done|]. apply renders_char; [done|].
    apply (renders_d _ _ _ [] 300 4294967289 []); [reflexivity | right; cbn; lia | constructor].
Defined.
