(* ===== verification/Thread.v ===== *)
(** thread/thread.c and thread.h: the task structures, the scheduler and its
    blocking operations, with the pid pool, [thread_start] and [thread_exit].

    A thread is named by the address of its task structure (0 is NULL). The
    general and all-list tags are threaded through Klist.v lists in the code;
    here [thread_ready_list] and [thread_all_list] are the element sequences
    those lists stand for (their operations are the ones proved in Klist.v).
    [switch_to] is the assignment of [cur]: what a thread does after it is
    scheduled again is the business of the caller's model (Sync.v). *)
From S2P Require Import Prelude Bitmap.

(** ** Data *)

Inductive task_status :=
  | TASK_RUNNING | TASK_READY | TASK_BLOCKED | TASK_WAITING | TASK_HANGING | TASK_DIED.

#[export] Instance task_status_eq_dec : EqDecision task_status.
Proof. solve_decision. Defined.

Definition PG_SIZE : Z := 4096.
Definition MAX_FILES_OPEN_PER_PROC : Z := 8.
Definition STACK_MAGIC : Z := 0x19870916.

(** [struct thread_stack]: what [switch_to] pops the first time. *)
Record thread_stack := mk_thread_stack {
  ts_ebp : Z; ts_ebx : Z; ts_edi : Z; ts_esi : Z;
  ts_eip : Z; ts_function : Z; ts_func_arg : Z }.

(** [kstack] is the [thread_stack] written at [self_kstack], if any. *)
Record task_struct := mk_task {
  self_kstack : Z;
  kstack : option thread_stack;
  pid : Z;
  status : task_status;
  name : list Z;
  priority : Z;
  ticks : Z;
  elapsed_ticks : Z;
  fd_table : list Z;
  pgdir : Z;
  cwd_inode_nr : Z;
  parent_pid : Z;
  exit_status : Z;
  stack_magic : Z }.

Definition set_status (s : task_status) (t : task_struct) : task_struct :=
  mk_task (self_kstack t) (kstack t) (pid t) s (name t) (priority t) (ticks t) (elapsed_ticks t)
    (fd_table t) (pgdir t) (cwd_inode_nr t) (parent_pid t) (exit_status t) (stack_magic t).

Definition set_ticks (v : Z) (t : task_struct) : task_struct :=
  mk_task (self_kstack t) (kstack t) (pid t) (status t) (name t) (priority t) v (elapsed_ticks t)
    (fd_table t) (pgdir t) (cwd_inode_nr t) (parent_pid t) (exit_status t) (stack_magic t).

Definition set_elapsed (v : Z) (t : task_struct) : task_struct :=
  mk_task (self_kstack t) (kstack t) (pid t) (status t) (name t) (priority t) (ticks t) v
    (fd_table t) (pgdir t) (cwd_inode_nr t) (parent_pid t) (exit_status t) (stack_magic t).

Definition set_parent (v : Z) (t : task_struct) : task_struct :=
  mk_task (self_kstack t) (kstack t) (pid t) (status t) (name t) (priority t) (ticks t) (elapsed_ticks t)
    (fd_table t) (pgdir t) (cwd_inode_nr t) v (exit_status t) (stack_magic t).

Definition set_exit_status (v : Z) (t : task_struct) : task_struct :=
  mk_task (self_kstack t) (kstack t) (pid t) (status t) (name t) (priority t) (ticks t) (elapsed_ticks t)
    (fd_table t) (pgdir t) (cwd_inode_nr t) (parent_pid t) v (stack_magic t).

Definition set_fd_table (v : list Z) (t : task_struct) : task_struct :=
  mk_task (self_kstack t) (kstack t) (pid t) (status t) (name t) (priority t) (ticks t) (elapsed_ticks t)
    v (pgdir t) (cwd_inode_nr t) (parent_pid t) (exit_status t) (stack_magic t).

(** The kernel state the scheduler works on; [intr] is the interrupt flag, and
    [cr3]/[tss_esp0] what [process_activate] loads. [addr_v2p] is the address
    translation of the live page tables (Memory.v). *)
Record kstate := mk_kstate {
  cur : Z;
  tasks : gmap Z task_struct;
  thread_ready_list : list Z;
  thread_all_list : list Z;
  intr : bool;
  idle_thread : Z;
  main_thread : Z;
  pid_bitmap : bitmap;
  cr3 : Z;
  tss_esp0 : Z;
  addr_v2p : Z -> Z }.

Definition with_cur (v : Z) (k : kstate) : kstate :=
  mk_kstate v (tasks k) (thread_ready_list k) (thread_all_list k) (intr k) (idle_thread k)
    (main_thread k) (pid_bitmap k) (cr3 k) (tss_esp0 k) (addr_v2p k).
Definition with_tasks (v : gmap Z task_struct) (k : kstate) : kstate :=
  mk_kstate (cur k) v (thread_ready_list k) (thread_all_list k) (intr k) (idle_thread k)
    (main_thread k) (pid_bitmap k) (cr3 k) (tss_esp0 k) (addr_v2p k).
Definition with_ready (v : list Z) (k : kstate) : kstate :=
  mk_kstate (cur k) (tasks k) v (thread_all_list k) (intr k) (idle_thread k)
    (main_thread k) (pid_bitmap k) (cr3 k) (tss_esp0 k) (addr_v2p k).
Definition with_all (v : list Z) (k : kstate) : kstate :=
  mk_kstate (cur k) (tasks k) (thread_ready_list k) v (intr k) (idle_thread k)
    (main_thread k) (pid_bitmap k) (cr3 k) (tss_esp0 k) (addr_v2p k).
Definition with_intr (v : bool) (k : kstate) : kstate :=
  mk_kstate (cur k) (tasks k) (thread_ready_list k) (thread_all_list k) v (idle_thread k)
    (main_thread k) (pid_bitmap k) (cr3 k) (tss_esp0 k) (addr_v2p k).
Definition with_pids (v : bitmap) (k : kstate) : kstate :=
  mk_kstate (cur k) (tasks k) (thread_ready_list k) (thread_all_list k) (intr k) (idle_thread k)
    (main_thread k) v (cr3 k) (tss_esp0 k) (addr_v2p k).
Definition with_mmu (c e : Z) (k : kstate) : kstate :=
  mk_kstate (cur k) (tasks k) (thread_ready_list k) (thread_all_list k) (intr k) (idle_thread k)
    (main_thread k) (pid_bitmap k) c e (addr_v2p k).

Definition get_task (k : kstate) (t : Z) : outcome task_struct :=
  match tasks k !! t with Some x => Ok x | None => Err BadAccess end.

(** [t->field = ...]: [f] is the field update. *)
Definition upd_task (k : kstate) (t : Z) (f : task_struct -> task_struct) : outcome kstate :=
  let! x := get_task k t in Ok (with_tasks (<[t := f x]> (tasks k)) k).

Definition elem_find (l : list Z) (t : Z) : bool := bool_decide (t ∈ l).

Definition running_thread (k : kstate) : Z := cur k.

(** ** Interrupt flag (kernel/interrupt.c) *)

Definition intr_get_status (k : kstate) : bool := intr k.

Definition intr_enable (k : kstate) : bool * kstate :=
  if intr_get_status k then (true, k) else (false, with_intr true k).

Definition intr_disable (k : kstate) : bool * kstate :=
  if intr_get_status k then (true, with_intr false k) else (false, k).

Definition intr_set_status (k : kstate) (s : bool) : kstate :=
  if s then snd (intr_enable k) else snd (intr_disable k).

(** ** Address space of the next thread (userprog/process.c, tss.c) *)

Definition page_dir_activate (k : kstate) (t : Z) : outcome kstate :=
  let! x := get_task k t in
  let pagedir_phy_addr := if negb (pgdir x =? 0) then addr_v2p k (pgdir x) else 0x100000 in
  Ok (with_mmu pagedir_phy_addr (tss_esp0 k) k).

Definition update_tss_esp (k : kstate) (t : Z) : kstate :=
  with_mmu (cr3 k) (t + PG_SIZE) k.

Definition process_activate (k : kstate) (t : Z) : outcome kstate :=
  c_assert (negb (t =? 0)) ;;;
  let! k := page_dir_activate k t in
  let! x := get_task k t in
  Ok (if negb (pgdir x =? 0) then update_tss_esp k t else k).

(** ** The scheduler *)

Definition is_blocked_status (s : task_status) : bool :=
  match s with TASK_BLOCKED | TASK_WAITING | TASK_HANGING => true | _ => false end.

Definition thread_unblock (k : kstate) (t : Z) : outcome kstate :=
  let '(old_status, k) := intr_disable k in
  let! x := get_task k t in
  c_assert (is_blocked_status (status x)) ;;;
  let! k :=
    if bool_decide (status x <> TASK_READY) then
      c_assert (negb (elem_find (thread_ready_list k) t)) ;;;
      (if elem_find (thread_ready_list k) t then Err AssertFail else
       upd_task (with_ready (t :: thread_ready_list k) k) t (set_status TASK_READY))
    else Ok k in
  Ok (intr_set_status k old_status).

(** A thread whose time slice is over goes back to the end of the queue. *)
Definition schedule_requeue (k : kstate) : outcome kstate :=
  let c := running_thread k in
  let! x := get_task k c in
  if bool_decide (status x = TASK_RUNNING) then
    c_assert (negb (elem_find (thread_ready_list k) c)) ;;;
    upd_task (with_ready (thread_ready_list k ++ [c]) k) c
      (fun x => set_status TASK_READY (set_ticks (priority x) x))
  else Ok k.

(** With nothing ready, the idle thread is woken. *)
Definition schedule_wake_idle (k : kstate) : outcome kstate :=
  match thread_ready_list k with
  | [] => thread_unblock k (idle_thread k)
  | _ => Ok k
  end.

Definition schedule (k : kstate) : outcome kstate :=
  c_assert (negb (intr_get_status k)) ;;;
  let! k := schedule_requeue k in
  let! k := schedule_wake_idle k in
  match thread_ready_list k with
  | [] => Err AssertFail
  | next :: rest =>
      let! k := upd_task (with_ready rest k) next (set_status TASK_RUNNING) in
      let! k := process_activate k next in
      Ok (with_cur next k)
  end.

(** [thread_block] up to the switch; the caller resumes, later, with
    [thread_block_resume] and the interrupt status returned here. *)
Definition thread_block (k : kstate) (stat : task_status) : outcome (kstate * bool) :=
  c_assert (is_blocked_status stat) ;;;
  let '(old_status, k) := intr_disable k in
  let! k := upd_task k (running_thread k) (set_status stat) in
  let! k := schedule k in
  Ok (k, old_status).

Definition thread_block_resume (k : kstate) (old_status : bool) : kstate :=
  intr_set_status k old_status.

(** [thread_yield] up to the switch. *)
Definition thread_yield (k : kstate) : outcome (kstate * bool) :=
  let c := running_thread k in
  let '(old_status, k) := intr_disable k in
  c_assert (negb (elem_find (thread_ready_list k) c)) ;;;
  let! k := upd_task (with_ready (thread_ready_list k ++ [c]) k) c (set_status TASK_READY) in
  let! k := schedule k in
  Ok (k, old_status).

(** ** Pids *)

Definition pid_start : Z := 1.

(** [pid_pool_init]: [mem] is the static array and what follows it. *)
Definition pid_pool_init (k : kstate) (mem : list Z) : outcome kstate :=
  let! b := bitmap_init (mk_bitmap 128 mem) in Ok (with_pids b k).

(** [allocate_pid] and [release_pid] run under [pid_lock], hence as one step;
    a scan result of -1 would be used as an index. *)
Definition allocate_pid (k : kstate) : outcome (kstate * Z) :=
  let! bit_idx := bitmap_scan (pid_bitmap k) 1 in
  let! b := bitmap_set (pid_bitmap k) (u32 bit_idx) 1 in
  Ok (with_pids b k, s16 (bit_idx + pid_start)).

Definition release_pid (k : kstate) (p : Z) : outcome kstate :=
  let bit_idx := s32 (p - pid_start) in
  let! b := bitmap_set (pid_bitmap k) (u32 bit_idx) 0 in
  Ok (with_pids b k).

Definition fork_pid (k : kstate) : outcome (kstate * Z) := allocate_pid k.

(** ** Creation *)

Definition SIZEOF_INTR_STACK : Z := 76.
Definition SIZEOF_THREAD_STACK : Z := 32.

(** [fd_table] after the three standard descriptors and the -1 loop. *)
Definition initial_fd_table : list Z :=
  [0; 1; 2] ++ replicate (Z.to_nat (MAX_FILES_OPEN_PER_PROC - 3)) (-1).

(** [priority] and [ticks] are [uint8_t]; [nm] is the name with its terminator,
    copied over a zeroed 16-byte array. *)
Definition init_thread (k : kstate) (t : Z) (nm : list Z) (prio : Z) : outcome kstate :=
  let! ' (k, p) := allocate_pid k in
  let! nmbuf := splice (replicate 16 0) 0 nm in
  let st := if t =? main_thread k then TASK_RUNNING else TASK_READY in
  Ok (with_tasks (<[t := mk_task (t + PG_SIZE) None p st nmbuf (u8 prio) (u8 prio) 0
                          initial_fd_table 0 0 (-1) 0 STACK_MAGIC]> (tasks k)) k).

(** [thread_create]: [self_kstack] is a [uint32_t*], so each subtraction takes
    four times the size of the structure. [kthread] is the address of
    [kernel_thread]. *)
Definition thread_create (k : kstate) (t kthread function func_arg : Z) : outcome kstate :=
  upd_task k t (fun x =>
    mk_task (self_kstack x - 4 * SIZEOF_INTR_STACK - 4 * SIZEOF_THREAD_STACK)
      (Some (mk_thread_stack 0 0 0 0 kthread function func_arg)) (pid x) (status x)
      (name x) (priority x) (ticks x) (elapsed_ticks x) (fd_table x) (pgdir x)
      (cwd_inode_nr x) (parent_pid x) (exit_status x) (stack_magic x)).

(** [thread_start]; [page] is the result of [get_kernel_pages(1)], which is not
    tested: the first [memset] of [init_thread] asserts that it is not NULL. *)
Definition thread_start (k : kstate) (page : Z) (nm : list Z) (prio kthread function arg : Z)
  : outcome (kstate * Z) :=
  c_assert (negb (page =? 0)) ;;;
  let! k := init_thread k page nm prio in
  let! k := thread_create k page kthread function arg in
  c_assert (negb (elem_find (thread_ready_list k) page)) ;;;
  let k := with_ready (thread_ready_list k ++ [page]) k in
  c_assert (negb (elem_find (thread_all_list k) page)) ;;;
  let k := with_all (thread_all_list k ++ [page]) k in
  Ok (k, page).

(** [make_main_thread]: the running thread becomes the main thread. *)
Definition with_main (v : Z) (k : kstate) : kstate :=
  mk_kstate (cur k) (tasks k) (thread_ready_list k) (thread_all_list k) (intr k) (idle_thread k)
    v (pid_bitmap k) (cr3 k) (tss_esp0 k) (addr_v2p k).

Definition main_name : list Z := [109; 97; 105; 110; 0].

Definition make_main_thread (k : kstate) : outcome kstate :=
  let k := with_main (running_thread k) k in
  let! k := init_thread k (main_thread k) main_name 31 in
  c_assert (negb (elem_find (thread_all_list k) (main_thread k))) ;;;
  Ok (with_all (thread_all_list k ++ [main_thread k]) k).

(** ** Exit *)

Definition remove_elem (t : Z) (l : list Z) : list Z := filter (fun x => x <> t) l.

(** [thread_exit]: also returns the kernel pages given to [mfree_page], in
    order. As in the code the pid is read from the task structure when its page was
    already given back. That page is no longer mapped then; the read gives the pid all
    the same because [page_table_pte_remove] invalidates the translation of its own
    argument's page and not of the page removed, and because interrupts are off, so
    nothing has reused the frame. [list_remove] of a node that is in no list would
    follow dangling links. *)
Definition thread_exit (k : kstate) (thread_over : Z) (need_schedule : bool)
  : outcome (kstate * list Z) :=
  let k := snd (intr_disable k) in
  let! k := upd_task k thread_over (set_status TASK_DIED) in
  let k := if elem_find (thread_ready_list k) thread_over
           then with_ready (remove_elem thread_over (thread_ready_list k)) k else k in
  let! x := get_task k thread_over in
  let freed := if negb (pgdir x =? 0) then [pgdir x] else [] in
  let! k := if elem_find (thread_all_list k) thread_over
            then Ok (with_all (remove_elem thread_over (thread_all_list k)) k)
            else Err BadAccess in
  let freed := if negb (thread_over =? main_thread k) then freed ++ [thread_over] else freed in
  let! after_free := get_task k thread_over in
  let! k := release_pid k (pid after_free) in
  let! k := if need_schedule then schedule k else Ok k in
  Ok (k, freed).

(** [list_traversal(&thread_all_list, pid_check, pid)] and [elem2entry]. *)
Definition pid_check (k : kstate) (t p : Z) : bool :=
  match tasks k !! t with Some x => pid x =? p | None => false end.

Definition pid2thread (k : kstate) (p : Z) : Z :=
  default 0 (List.find (fun t => pid_check k t p) (thread_all_list k)).

(** ** The scheduler's invariant *)

(** The status of a thread, and the sentinel word of its stack. *)
Definition st_of (k : kstate) (t : Z) : option task_status := status <$> tasks k !! t.
Definition magic_of (k : kstate) (t : Z) : option Z := stack_magic <$> tasks k !! t.

(** [sched_wf] relates statuses and the ready list; [sched_ok] is the same with
    the current thread running, as it is between kernel operations. *)
Record sched_wf (k : kstate) : Prop := {
  wf_cur : is_Some (st_of k (cur k));
  wf_nonzero : st_of k 0 = None;
  wf_nodup : NoDup (thread_ready_list k);
  wf_ready : forall t, t ∈ thread_ready_list k <-> st_of k t = Some TASK_READY;
  wf_running : forall t, st_of k t = Some TASK_RUNNING -> t = cur k;
  wf_idle : st_of k (idle_thread k) = Some TASK_READY \/
    st_of k (idle_thread k) = Some TASK_RUNNING \/ st_of k (idle_thread k) = Some TASK_BLOCKED }.

Definition sched_ok (k : kstate) : Prop :=
  sched_wf k /\ st_of k (cur k) = Some TASK_RUNNING.

(** The queue [schedule] picks from. *)
Definition run_queue (k : kstate) : list Z :=
  match st_of k (cur k) with
  | Some TASK_RUNNING => thread_ready_list k ++ [cur k]
  | _ => match thread_ready_list k with [] => [idle_thread k] | l => l end
  end.

(** Everything but [cur], the tasks, the ready list and the loaded page table. *)
Definition same_rest (k k' : kstate) : Prop :=
  thread_all_list k' = thread_all_list k /\ idle_thread k' = idle_thread k
  /\ main_thread k' = main_thread k /\ pid_bitmap k' = pid_bitmap k.

(** [n] consecutive time slices run out. *)
Fixpoint schedule_n (n : nat) (k : kstate) : outcome kstate :=
  match n with O => Ok k | S n => let! k := schedule k in schedule_n n k end.

(** The page directory and level-0 stack loaded for the running thread. *)
Definition mmu_loaded (k : kstate) : Prop :=
  exists x, tasks k !! cur k = Some x
    /\ cr3 k = (if pgdir x =? 0 then 0x100000 else addr_v2p k (pgdir x))
    /\ (pgdir x <> 0 -> tss_esp0 k = cur k + PG_SIZE).

(** Pid [p] is taken; the pool is the 1024-bit map [pid_pool_init] sets up. *)
Definition pid_used (k : kstate) (p : Z) : bool := bit (pid_bitmap k) (p - 1).

Definition pids_wf (k : kstate) : Prop :=
  bitmap_wf 1 (pid_bitmap k) /\ btmp_bytes_len (pid_bitmap k) = 128.

(** A state with four threads, used to instantiate the theorems. *)
Definition demo_task (p : Z) (s : task_status) : task_struct :=
  mk_task 0 None p s [97; 0] 31 31 0 initial_fd_table 0 0 (-1) 0 STACK_MAGIC.
Definition demo_state : kstate :=
  mk_kstate 0x1000
    (<[0x1000 := demo_task 1 TASK_RUNNING]> (<[0x2000 := demo_task 2 TASK_READY]>
     (<[0x3000 := demo_task 3 TASK_WAITING]> (<[0x4000 := demo_task 4 TASK_BLOCKED]> ∅))))
    [0x2000] [0x1000; 0x2000; 0x3000; 0x4000] false 0x4000 0x1000
    (mk_bitmap 128 (15 :: replicate 128 0)) 0x100000 0 (fun v => v).

(** ** Lemmas *)

Lemma st_of_task k t s : st_of k t = Some s -> exists x, tasks k !! t = Some x /\ status x = s.
Proof. unfold st_of. destruct (tasks k !! t); cbn; [|done]. intros [= <-]. eauto. Qed.

Lemma upd_task_ok k t x f : tasks k !! t = Some x ->
  upd_task k t f = Ok (with_tasks (<[t := f x]> (tasks k)) k).
Proof. unfold upd_task, get_task. by intros ->. Qed.

Lemma st_of_upd k t y u :
  st_of (with_tasks (<[t := y]> (tasks k)) k) u
  = if decide (t = u) then Some (status y) else st_of k u.
Proof. unfold st_of; cbn. rewrite lookup_insert. by case_decide. Qed.

Lemma magic_of_upd k t y u :
  magic_of (with_tasks (<[t := y]> (tasks k)) k) u
  = if decide (t = u) then Some (stack_magic y) else magic_of k u.
Proof. unfold magic_of; cbn. rewrite lookup_insert. by case_decide. Qed.

Lemma intr_disable_snd k : snd (intr_disable k) = with_intr false k.
Proof. unfold intr_disable, intr_get_status. destruct k as [???? i]; by destruct i. Qed.

Lemma intr_disable_fst k : fst (intr_disable k) = intr k.
Proof. unfold intr_disable, intr_get_status. destruct k as [???? i]; by destruct i. Qed.

Lemma intr_disable_eq k : intr_disable k = (intr k, with_intr false k).
Proof. rewrite <- intr_disable_snd, <- intr_disable_fst. by destruct (intr_disable k). Qed.

Lemma intr_set_status_eq k s : intr_set_status k s = with_intr s k.
Proof.
  unfold intr_set_status. destruct s; [|apply intr_disable_snd].
  unfold intr_enable, intr_get_status. destruct k as [???? i]; by destruct i.
Qed.

(** [thread_unblock] puts a blocked thread at the front of the ready list. *)
Lemma thread_unblock_ok k t x : tasks k !! t = Some x -> is_blocked_status (status x) = true ->
  t ∉ thread_ready_list k ->
  thread_unblock k t = Ok (with_tasks (<[t := set_status TASK_READY x]> (tasks k))
                             (with_ready (t :: thread_ready_list k) k)).
Proof.
  intros Hx Hb Hn. unfold thread_unblock. rewrite intr_disable_eq.
  unfold get_task; cbn. rewrite Hx; cbn. rewrite Hb; cbn.
  rewrite bool_decide_true by (by destruct (status x)). unfold elem_find; cbn.
  rewrite bool_decide_false by done. cbn.
  erewrite upd_task_ok by done. cbn. rewrite intr_set_status_eq. by destruct k.
Qed.

Lemma thread_unblock_wf k t s : sched_wf k -> st_of k t = Some s -> is_blocked_status s = true ->
  exists k', thread_unblock k t = Ok k' /\ sched_wf k' /\ same_rest k k' /\ cur k' = cur k
    /\ intr k' = intr k /\ thread_ready_list k' = t :: thread_ready_list k
    /\ (forall u, st_of k' u = if decide (t = u) then Some TASK_READY else st_of k u)
    /\ (forall u, magic_of k' u = magic_of k u).
Proof.
  intros [] Hst Hb. destruct (st_of_task _ _ _ Hst) as (x & Hx & Hs).
  assert (t ∉ thread_ready_list k) as Hn.
  { rewrite wf_ready0, Hst. intros [= ->]. by subst. }
  rewrite (thread_unblock_ok k t x Hx) by (by subst). eexists; split; [done|].
  set (k' := with_tasks _ _).
  assert (forall u, st_of k' u = if decide (t = u) then Some TASK_READY else st_of k u) as Hst'.
  { intros u. unfold k', st_of; cbn. rewrite lookup_insert. by case_decide. }
  split_and!; try done.
  - constructor; cbn; try rewrite Hst'.
    + case_decide; [by eexists | done].
    + case_decide; [subst; congruence | done].
    + by apply NoDup_cons.
    + intros u. rewrite Hst', elem_of_cons, wf_ready0. case_decide; [subst; tauto|].
      split; [intros [->|]; [done|done] | tauto].
    + intros u. rewrite Hst'. case_decide; [done | apply wf_running0].
    + case_decide; tauto.
  - intros u. unfold magic_of; cbn. rewrite lookup_insert. case_decide; [|done].
    subst. by rewrite Hx.
Qed.

(** Making [next] the running thread. *)
Lemma dispatch_ok k next rest : is_Some (st_of k next) -> next <> 0 ->
  exists k', (let! k := upd_task (with_ready rest k) next (set_status TASK_RUNNING) in
              let! k := process_activate k next in Ok (with_cur next k)) = Ok k'
    /\ same_rest k k' /\ cur k' = next /\ intr k' = intr k /\ thread_ready_list k' = rest
    /\ (forall u, st_of k' u = if decide (next = u) then Some TASK_RUNNING else st_of k u)
    /\ (forall u, magic_of k' u = magic_of k u).
Proof.
  intros [s Hs] Hn. destruct (st_of_task _ _ _ Hs) as (x & Hx & _).
  erewrite upd_task_ok by done. cbn [obind].
  unfold process_activate, page_dir_activate, get_task. apply Z.eqb_neq in Hn. rewrite Hn.
  cbn. rewrite !lookup_insert_eq. cbn. rewrite lookup_insert_eq. cbn.
  eexists; split; [done|].
  assert (forall u, status <$> <[next := set_status TASK_RUNNING x]> (tasks k) !! u =
     if decide (next = u) then Some TASK_RUNNING else st_of k u) as Hst.
  { intros u. rewrite lookup_insert. by case_decide. }
  assert (forall u, stack_magic <$> <[next := set_status TASK_RUNNING x]> (tasks k) !! u =
     magic_of k u) as Hmg.
  { intros u. unfold magic_of. rewrite lookup_insert. case_decide; [|done]. subst. by rewrite Hx. }
  destruct (negb (pgdir x =? 0)); split_and!; try done.
Qed.

Definition schedule_post (k k' : kstate) : Prop :=
  sched_ok k' /\ same_rest k k' /\ intr k' = false
  /\ run_queue k = cur k' :: thread_ready_list k'
  /\ (forall u, st_of k' u =
        if decide (cur k' = u) then Some TASK_RUNNING
        else if decide (cur k = u) then
          match st_of k u with Some TASK_RUNNING => Some TASK_READY | s => s end
        else st_of k u)
  /\ (forall u, magic_of k' u = magic_of k u).

(** What the requeueing branch leaves. *)
Lemma schedule_requeue_ok k : sched_wf k ->
  exists k1, schedule_requeue k = Ok k1 /\ same_rest k k1 /\ cur k1 = cur k /\ intr k1 = intr k
    /\ sched_wf k1
    /\ run_queue k = match thread_ready_list k1 with [] => [idle_thread k] | l => l end
    /\ st_of k1 (cur k) <> Some TASK_RUNNING
    /\ (forall u, st_of k1 u = if decide (cur k = u) then
          match st_of k u with Some TASK_RUNNING => Some TASK_READY | s => s end else st_of k u)
    /\ (forall u, magic_of k1 u = magic_of k u).
Proof.
  intros Hwf. pose proof Hwf as []. destruct wf_cur0 as [s Hs].
  destruct (st_of_task _ _ _ Hs) as (x & Hx & Hsx).
  unfold schedule_requeue, running_thread, get_task. rewrite Hx. cbn [obind].
  unfold run_queue. rewrite Hs. subst s. case_bool_decide as Hr.
  - rewrite Hr in *. assert (cur k ∉ thread_ready_list k) as Hn by (rewrite wf_ready0, Hs; done).
    unfold elem_find. rewrite bool_decide_false by done. cbn [negb c_assert obind].
    erewrite upd_task_ok by done. eexists; split; [done|]. set (k1 := with_tasks _ _).
    assert (forall u, st_of k1 u = if decide (cur k = u) then Some TASK_READY else st_of k u) as Hst.
    { intros u. unfold k1, st_of; cbn. rewrite lookup_insert. by case_decide. }
    split_and!; try done.
    + constructor; cbn; try rewrite Hst.
      * rewrite decide_True by done. by eexists.
      * case_decide as E; [rewrite E in *; congruence | done].
      * apply NoDup_app. split_and!; [done | | apply NoDup_singleton].
        intros u Hu. rewrite list_elem_of_singleton. intros ->. done.
      * intros u. rewrite Hst, elem_of_app, list_elem_of_singleton, wf_ready0.
        case_decide; [subst; tauto|]. split; [intros [|]; congruence | tauto].
      * intros u. rewrite Hst. case_decide; [done | apply wf_running0].
      * case_decide; tauto.
    + cbn. destruct (thread_ready_list k); done.
    + rewrite Hst, decide_True by done. done.
    + intros u. rewrite Hst. case_decide; [|done]. subst u. by rewrite Hs.
    + intros u. unfold magic_of; cbn. rewrite lookup_insert. case_decide; [|done].
      subst. by rewrite Hx.
  - exists k. split_and!; try done.
    + destruct (status x); done.
    + rewrite Hs. congruence.
    + intros u. case_decide; [|done]. subst u. rewrite Hs. destruct (status x); done.
Qed.

Lemma schedule_ok k : sched_wf k -> intr k = false ->
  exists k', schedule k = Ok k' /\ schedule_post k k'.
Proof.
  intros Hwf Hi. unfold schedule, intr_get_status. rewrite Hi. cbn [negb c_assert obind].
  destruct (schedule_requeue_ok k Hwf) as (k1&->&(Ha1&Hid1&Hmn1&Hp1)&Hc1&Hi1&Hwf1&Hrq&Hnr&Hst1&Hm1).
  cbn [obind].
  assert (exists k2, schedule_wake_idle k1 = Ok k2 /\ same_rest k k2 /\ intr k2 = false
    /\ sched_wf k2 /\ run_queue k = thread_ready_list k2
    /\ (forall u, st_of k2 u <> st_of k1 u -> u ∈ thread_ready_list k2 /\ run_queue k = [u])
    /\ (forall u, magic_of k2 u = magic_of k u)
    /\ st_of k2 (cur k) <> Some TASK_RUNNING /\ cur k2 = cur k)
    as (k2&->&Hsr2&Hi2&Hwf2&Hrq2&Hdiff&Hm2&Hnr2&Hc2).
  { unfold schedule_wake_idle. destruct (thread_ready_list k1) eqn:Er.
    - assert (st_of k1 (idle_thread k1) = Some TASK_BLOCKED) as Hb.
      { destruct Hwf1. destruct wf_idle0 as [H|[H|H]]; [| |done].
        - apply wf_ready0 in H. rewrite Er in H. by apply not_elem_of_nil in H.
        - pose proof (wf_running0 _ H) as E. rewrite Hc1 in E. rewrite E in H. congruence. }
      destruct (thread_unblock_wf k1 _ _ Hwf1 Hb eq_refl) as (k2&->&Hwf2&(Ha2&Hid2&Hmn2&Hp2)&Hc2&Hi2&Hr2&Hst2&Hm2).
      rewrite Er in Hr2. exists k2. split; [done|]. split_and!; try done.
      + split_and!; congruence.
      + congruence.
      + rewrite Hrq, Hr2. congruence.
      + intros u. rewrite Hst2. case_decide; [|done]. subst u. intros _.
        rewrite Hr2, Hrq. split; [by apply list_elem_of_singleton | congruence].
      + intros u. by rewrite Hm2, Hm1.
      + rewrite Hst2. case_decide; done.
      + congruence.
    - exists k1. split; [done|]. split_and!; try done.
      + congruence. + rewrite Hrq, Er; done. }
  cbn [obind]. destruct (thread_ready_list k2) as [|next rest] eqn:Er.
  { exfalso. rewrite <- Er in Hrq2. rewrite Er in Hrq2. unfold run_queue in Hrq2.
    destruct (st_of k (cur k)) as [[]|], (thread_ready_list k); discriminate. }
  pose proof Hwf2 as [].
  assert (st_of k2 next = Some TASK_READY) as Hnext.
  { apply wf_ready0. rewrite Er. apply list_elem_of_here. }
  destruct (dispatch_ok k2 next rest) as (k'&->&(Ha3&Hid3&Hmn3&Hp3)&Hc'&Hi'&Hr'&Hst'&Hm').
  { by eexists. }
  { intros ->. congruence. }
  destruct Hsr2 as (Ha2&Hid2&Hmn2&Hp2).
  rewrite Er in wf_nodup0. apply NoDup_cons in wf_nodup0 as [Hnin Hnd].
  exists k'. split; [done|]. unfold schedule_post. rewrite Hc', Hr', Hi', Hi2, Hrq2. split_and!; try done.
  - split; [|rewrite Hst', Hc', decide_True; done].
    constructor; rewrite ?Hst', ?Hc', ?Hr', ?Hid3; try rewrite Hst'.
    + rewrite decide_True by done. by eexists.
    + case_decide as E; [subst; congruence | done].
    + done.
    + intros u. rewrite Hst'. case_decide as E.
      * subst. split; [done | congruence].
      * rewrite <- wf_ready0, Er, elem_of_cons. split; [tauto | intros [|]; congruence].
    + intros u. rewrite Hst'. case_decide as E; [congruence|]. intros Hu.
      pose proof (wf_running0 _ Hu) as E'. rewrite Hc2 in E'. congruence.
    + case_decide; tauto.
  - split_and!; congruence.
  - intros u. rewrite Hst'. case_decide as E; [done|].
    assert (st_of k2 u = st_of k1 u) as ->; [|apply Hst1].
    destruct (decide (st_of k2 u = st_of k1 u)) as [|Hd]; [done|].
    apply Hdiff in Hd as [_ Hd]. rewrite Hrq2 in Hd. congruence.
  - intros u. by rewrite Hm', Hm2.
Qed.

Lemma process_activate_mmu k t k' : process_activate k t = Ok k' -> mmu_loaded (with_cur t k').
Proof.
  unfold process_activate, page_dir_activate. intros H. inv_ok H.
  destruct (get_task k t) as [x|] eqn:Ex; [|done]. unfold get_task in *.
  destruct (tasks k !! t) as [y|] eqn:Ey; [|done]. cbn in H. rewrite Ey in H. cbn in H.
  injection H as <-. injection Ex as <-. exists y.
  destruct (Z.eqb_spec (pgdir y) 0); cbn; split_and!; done.
Qed.

Lemma schedule_mmu k k' : schedule k = Ok k' -> mmu_loaded k'.
Proof.
  unfold schedule. intros H. inv_ok H. inv_ok H. inv_ok H.
  destruct (thread_ready_list a1) as [|next rest]; [done|]. inv_ok H. inv_ok H.
  injection H as <-. by eapply process_activate_mmu.
Qed.

(** A thread leaves the runnable ones. *)
Lemma sched_wf_stop k k' t s : sched_wf k -> is_Some (st_of k t) ->
  cur k' = cur k -> idle_thread k' = idle_thread k ->
  (forall u, st_of k' u = if decide (t = u) then Some s else st_of k u) ->
  thread_ready_list k' = remove_elem t (thread_ready_list k) ->
  s <> TASK_RUNNING -> s <> TASK_READY -> (t = idle_thread k -> s = TASK_BLOCKED) ->
  sched_wf k'.
Proof.
  intros [] [s0 Ht] Hc Hid Hst Hr Hn1 Hn2 Hi. unfold remove_elem in Hr.
  constructor; rewrite ?Hc, ?Hid, ?Hr; try rewrite Hst.
  - case_decide; [by eexists | done].
  - case_decide; [subst; congruence | done].
  - by apply NoDup_filter.
  - intros u. rewrite list_elem_of_filter, Hst, wf_ready0. case_decide; [subst|].
    + split; [tauto | congruence].
    + split; [tauto | done].
  - intros u. rewrite Hst. case_decide; [congruence | apply wf_running0].
  - case_decide; [|done]. right; right. f_equal; by apply Hi.
Qed.

Lemma remove_elem_notin t l : t ∉ l -> remove_elem t l = l.
Proof.
  unfold remove_elem. induction l as [|y l IH]; [done|]. rewrite not_elem_of_cons.
  intros [Hy Hl]. rewrite filter_cons, decide_True by done. by rewrite IH.
Qed.

Lemma sched_running_not_ready k : sched_ok k -> cur k ∉ thread_ready_list k.
Proof. intros [[] Hc]. rewrite wf_ready0, Hc. done. Qed.

Lemma thread_block_ok k s : sched_ok k -> is_blocked_status s = true ->
  (cur k = idle_thread k -> s = TASK_BLOCKED) ->
  exists k', thread_block k s = Ok (k', intr k) /\ sched_ok k' /\ same_rest k k' /\ intr k' = false
    /\ mmu_loaded k'
    /\ cur k' :: thread_ready_list k'
       = match thread_ready_list k with [] => [idle_thread k] | l => l end
    /\ (forall u, st_of k' u = if decide (cur k' = u) then Some TASK_RUNNING
                               else if decide (cur k = u) then Some s else st_of k u)
    /\ (forall u, magic_of k' u = magic_of k u).
Proof.
  intros Hok Hs Hi. pose proof (sched_running_not_ready _ Hok) as Hn. destruct Hok as [Hwf Hc].
  destruct (st_of_task _ _ _ Hc) as (x & Hx & Hxs).
  unfold thread_block. rewrite Hs, intr_disable_eq. cbn [c_assert obind].
  erewrite upd_task_ok by done. cbn [obind]. set (k1 := with_tasks _ _).
  assert (forall u, st_of k1 u = if decide (cur k = u) then Some s else st_of k u) as Hst.
  { intros u. unfold k1, st_of; cbn. rewrite lookup_insert. by case_decide. }
  assert (forall u, magic_of k1 u = magic_of k u) as Hm.
  { intros u. unfold k1, magic_of; cbn. rewrite lookup_insert. case_decide; [|done].
    subst. by rewrite Hx. }
  assert (sched_wf k1) as Hwf1.
  { apply (sched_wf_stop k k1 (cur k) s); try done.
    - by rewrite remove_elem_notin.
    - intros ->; done.
    - intros ->; done. }
  destruct (schedule_ok k1 Hwf1 eq_refl) as (k'&E&Hok'&Hsr&Hi'&Hrq&Hst'&Hm').
  rewrite E. cbn [obind]. exists k'. split_and!; try done.
  - by apply (schedule_mmu k1).
  - rewrite <- Hrq. unfold run_queue. rewrite Hst, decide_True by done. cbn.
    destruct s; done.
  - intros u. rewrite Hst', Hst. cbn. case_decide; [done|]. case_decide; [|done].
    destruct s; done.
  - intros u. by rewrite Hm', Hm.
Qed.

Lemma thread_yield_ok k : sched_ok k ->
  exists k', thread_yield k = Ok (k', intr k) /\ sched_ok k' /\ same_rest k k' /\ intr k' = false
    /\ mmu_loaded k' /\ cur k' :: thread_ready_list k' = thread_ready_list k ++ [cur k]
    /\ (forall u, st_of k' u = if decide (cur k' = u) then Some TASK_RUNNING
                               else if decide (cur k = u) then Some TASK_READY else st_of k u)
    /\ (forall u, magic_of k' u = magic_of k u).
Proof.
  intros Hok. pose proof (sched_running_not_ready _ Hok) as Hn. destruct Hok as [Hwf Hc].
  destruct (st_of_task _ _ _ Hc) as (x & Hx & Hxs).
  unfold thread_yield, running_thread, elem_find. rewrite intr_disable_eq. cbn.
  rewrite bool_decide_false by done. cbn [negb c_assert obind].
  erewrite upd_task_ok by done. cbn [obind]. set (k1 := with_tasks _ _).
  assert (forall u, st_of k1 u = if decide (cur k = u) then Some TASK_READY else st_of k u) as Hst.
  { intros u. unfold k1, st_of; cbn. rewrite lookup_insert. by case_decide. }
  assert (forall u, magic_of k1 u = magic_of k u) as Hm.
  { intros u. unfold k1, magic_of; cbn. rewrite lookup_insert. case_decide; [|done].
    subst. by rewrite Hx. }
  assert (sched_wf k1) as Hwf1.
  { destruct Hwf. constructor; cbn; try rewrite Hst.
    - rewrite decide_True by done. by eexists.
    - case_decide as E; [rewrite E in *; congruence | done].
    - apply NoDup_app. split_and!; [done | | apply NoDup_singleton].
      intros u Hu. rewrite list_elem_of_singleton. intros ->. done.
    - intros u. rewrite Hst, elem_of_app, list_elem_of_singleton, wf_ready0.
      case_decide; [subst; tauto|]. split; [intros [|]; congruence | tauto].
    - intros u. rewrite Hst. case_decide; [done | apply wf_running0].
    - case_decide; tauto. }
  destruct (schedule_ok k1 Hwf1 eq_refl) as (k'&E&Hok'&Hsr&Hi'&Hrq&Hst'&Hm').
  rewrite E. cbn [obind]. exists k'. split_and!; try done.
  - by apply (schedule_mmu k1).
  - rewrite <- Hrq. unfold run_queue. rewrite Hst, decide_True by done. cbn.
    by destruct (thread_ready_list k).
  - intros u. rewrite Hst', Hst. cbn. case_decide; [done|]. by case_decide.
  - intros u. by rewrite Hm', Hm.
Qed.

(** ** Pids *)

Lemma allocate_pid_ok k : pids_wf k ->
  (exists q, 1 <= q <= 1024 /\ pid_used k q = false) ->
  exists b p, allocate_pid k = Ok (with_pids b k, p) /\ 1 <= p <= 1024
    /\ pid_used k p = false /\ (forall q, 1 <= q < p -> pid_used k q = true)
    /\ pids_wf (with_pids b k)
    /\ forall q, 1 <= q -> pid_used (with_pids b k) q = if q =? p then true else pid_used k q.
Proof.
  intros [Hwf Hlen] (q0 & Hq0 & Hf0). unfold pid_used in *.
  assert (nbits (pid_bitmap k) = 1024) as Hnb by (unfold nbits; lia).
  destruct (bitmap_scan_first _ 1 Hwf) as (i & Hi & Hf & Ht & Hs).
  { exists (q0 - 1). split; [lia | done]. }
  rewrite Hnb in Hi. destruct (bitmap_set_ok _ 1 i true Hwf ltac:(lia)) as (b & Hb & Hl & Hwf' & Hbits).
  exists b, (i + 1). unfold allocate_pid. rewrite Hs. change (1 =? 1) with true. cbn iota. cbn [obind].
  rewrite u32_small by lia. cbn [Z.b2z] in Hb. rewrite Hb. cbn [obind].
  unfold pid_start. rewrite s16_small by lia. split; [done|].
  split; [lia|]. replace (i + 1 - 1) with i by lia. split; [done|]. split.
  - intros q Hq. apply Ht. lia.
  - split; [split; cbn; congruence|]. intros q Hq. cbn. rewrite Hbits.
    destruct (Z.eqb_spec q (i + 1)), (Z.eqb_spec (q - 1) i); done || lia.
Qed.

Lemma release_pid_ok k p : pids_wf k -> 1 <= p <= 1024 ->
  exists b, release_pid k p = Ok (with_pids b k) /\ pids_wf (with_pids b k)
    /\ forall q, 1 <= q -> pid_used (with_pids b k) q = if q =? p then false else pid_used k q.
Proof.
  intros [Hwf Hlen] Hp. assert (nbits (pid_bitmap k) = 1024) as Hnb by (unfold nbits; lia).
  destruct (bitmap_set_ok _ 1 (p - 1) false Hwf ltac:(lia)) as (b & Hb & Hl & Hwf' & Hbits).
  exists b. unfold release_pid, pid_start. rewrite s32_small, u32_small by lia.
  cbn [Z.b2z] in Hb. rewrite Hb. split; [done|].
  split; [split; cbn; congruence|]. intros q Hq. unfold pid_used; cbn. rewrite Hbits.
  destruct (Z.eqb_spec q p), (Z.eqb_spec (q - 1) (p - 1)); done || lia.
Qed.

(** ** Properties *)

(** C32. Round robin: from a consistent scheduler state with interrupts off,
    running out of time slices never fails an assertion, the thread at place
    [n] of the ready list runs after [n + 1] slices, and each time the state is
    consistent and the new thread's page directory and level-0 stack are loaded. *)
Theorem schedule_fair n k t : sched_ok k -> intr k = false ->
  thread_ready_list k !! n = Some t ->
  exists k', schedule_n (S n) k = Ok k' /\ cur k' = t /\ sched_ok k' /\ mmu_loaded k'
    /\ thread_ready_list k' = drop (S n) (thread_ready_list k ++ [cur k])
                              ++ take n (thread_ready_list k).
Proof.
  revert k. induction n as [|n IH]; intros k Hok Hi Ht; pose proof Hok as [Hwf Hc];
    destruct (schedule_ok k Hwf Hi) as (k1&E&Hok1&_&Hi1&Hrq&_);
    unfold run_queue in Hrq; rewrite Hc in Hrq;
    destruct (thread_ready_list k) as [|y l] eqn:Er; try done; injection Hrq as Hy Hl.
  - exists k1. cbn. rewrite E. cbn. injection Ht as ->. split_and!; try done.
    + by eapply schedule_mmu.
    + by rewrite <- Hl, app_nil_r.
  - cbn in Ht. destruct (IH k1 Hok1 Hi1) as (k'&E'&Hc'&Hok'&Hmm&Hr').
    { rewrite <- Hl. by apply lookup_app_l_Some. }
    exists k'. change (schedule_n (S (S n)) k) with (let! k := schedule k in schedule_n (S n) k).
    rewrite E. cbn [obind]. split_and!; try done. rewrite Hr', <- Hl, <- Hy.
    apply lookup_lt_Some in Ht. cbn [app drop take].
    rewrite (take_app_le l) by lia.
    rewrite <- app_assoc, (drop_app_le l), (drop_app_le l) by lia.
    by rewrite <- !app_assoc.
Qed.

(** [thread_block] switches the caller out with the status asked for,
    [thread_unblock] makes a blocked thread the next one to be scheduled, and
    [thread_yield] sends the caller to the end of the queue: none fails an
    assertion in a consistent state (the idle thread may only block as
    TASK_BLOCKED) and all leave one. *)
Theorem block_unblock_yield k : sched_ok k ->
  (forall s, is_blocked_status s = true -> (cur k = idle_thread k -> s = TASK_BLOCKED) ->
    exists k', thread_block k s = Ok (k', intr k) /\ sched_ok k' /\ intr k' = false
      /\ mmu_loaded k' /\ (cur k' <> cur k -> st_of k' (cur k) = Some s)
      /\ cur k' :: thread_ready_list k'
         = match thread_ready_list k with [] => [idle_thread k] | l => l end
      /\ sched_ok (thread_block_resume k' (intr k)))
  /\ (forall t s, st_of k t = Some s -> is_blocked_status s = true ->
    exists k', thread_unblock k t = Ok k' /\ sched_ok k' /\ intr k' = intr k
      /\ exists k2, schedule (snd (intr_disable k')) = Ok k2 /\ cur k2 = t /\ sched_ok k2)
  /\ (exists k', thread_yield k = Ok (k', intr k) /\ sched_ok k' /\ intr k' = false
      /\ cur k' :: thread_ready_list k' = thread_ready_list k ++ [cur k]).
Proof.
  intros Hok. split_and!.
  - intros s Hs Hi. destruct (thread_block_ok k s Hok Hs Hi) as (k'&E&Hok'&_&Hi'&Hm&Hq&Hst&_).
    exists k'. split_and!; try done.
    + intros Hne. by rewrite Hst, decide_False, decide_True.
    + unfold thread_block_resume. rewrite intr_set_status_eq.
      destruct Hok' as [[] Hc']. by split; [constructor|].
  - intros t s Ht Hs. destruct Hok as [Hwf Hc].
    destruct (thread_unblock_wf k t s Hwf Ht Hs) as (k'&E&Hwf'&_&Hc'&Hi'&Hr&Hst&_).
    assert (sched_ok k') as Hok'.
    { split; [done|]. rewrite Hst, Hc'. case_decide; [|done]. subst t. rewrite Hc in Ht. by injection Ht as <-. }
    exists k'. split_and!; try done. rewrite intr_disable_snd. set (k1 := with_intr false k').
    assert (sched_wf k1) as Hwf1 by (destruct Hwf'; by constructor).
    destruct (schedule_ok k1 Hwf1 eq_refl) as (k2&->&Hok2&_&_&Hrq&_).
    exists k2. split_and!; try done. unfold run_queue in Hrq.
    replace (st_of k1 (cur k1)) with (Some TASK_RUNNING) in Hrq by (symmetry; apply Hok').
    cbn in Hrq. rewrite Hr in Hrq. by injection Hrq.
  - destruct (thread_yield_ok k Hok) as (k'&E&Hok'&_&Hi'&_&Hq&_). eauto 10.
Qed.

(** The pid pool: a fresh pool has every pid free; [allocate_pid] takes the
    lowest free pid of 1..1024 and touches no other; [release_pid] frees
    exactly its pid, so allocating and releasing restores the pool. *)
Theorem pid_pool_spec k mem : bytes mem -> 129 <= zlen mem ->
  (exists k0, pid_pool_init k mem = Ok k0 /\ pids_wf k0 /\ forall p, 1 <= p <= 1024 -> pid_used k0 p = false)
  /\ (pids_wf k -> (exists q, 1 <= q <= 1024 /\ pid_used k q = false) ->
      exists k1 p, fork_pid k = Ok (k1, p) /\ 1 <= p <= 1024 /\ pids_wf k1
        /\ pid_used k p = false /\ (forall q, 1 <= q < p -> pid_used k q = true)
        /\ (forall q, 1 <= q -> pid_used k1 q = if q =? p then true else pid_used k q)
        /\ exists k2, release_pid k1 p = Ok k2 /\ pids_wf k2
           /\ forall q, 1 <= q -> pid_used k2 q = pid_used k q).
Proof.
  intros Hb Hlen. split.
  - unfold pid_pool_init, bitmap_init. cbn [bits btmp_bytes_len].
    unfold splice. rewrite length_replicate. zdec.
    eexists; split; [done|]. change (Z.to_nat 0) with 0%nat. cbn [take app Nat.add].
    assert (bytes (replicate (Z.to_nat 128) 0 ++ drop (Z.to_nat 128) mem)) as Hb'.
    { apply Forall_app; split; [apply Forall_replicate; unfold is_byte; lia | by apply Forall_drop]. }
    split; [split; [|done]; constructor; [cbn; lia | unfold nbits; cbn; lia | | exact Hb']|].
    + cbn [bits btmp_bytes_len with_pids with_bits pid_bitmap].
      rewrite !length_app, length_take, length_drop, length_replicate; lia.
    + intros p Hp. unfold pid_used, bit, znth. cbn [bits with_pids with_bits pid_bitmap].
      assert (0 <= (p - 1) / 8 < 128) as Hr by (Z.to_euclidean_division_equations; lia).
      zdec. rewrite take_0, app_nil_l. rewrite lookup_app_l by (rewrite length_replicate; lia).
      rewrite lookup_replicate_2 by lia. apply Z.testbit_0_l.
  - intros Hwf Hfree. unfold fork_pid.
    destruct (allocate_pid_ok k Hwf Hfree) as (b&p&E&Hp&Hf&Hlow&Hwf'&Hu).
    destruct (release_pid_ok _ p Hwf' Hp) as (b2&E2&Hwf2&Hu2).
    eexists _, _; split; [exact E|]. split_and!; try done; try lia.
    eexists; split; [exact E2|]. split; [done|]. intros q Hq. rewrite Hu2, Hu by done.
    destruct (Z.eqb_spec q p); [by subst | done].
Qed.

(** Adding a ready thread. *)
Lemma sched_wf_add k k' t : sched_wf k -> t ∉ thread_ready_list k -> t <> 0 ->
  cur k' = cur k -> idle_thread k' = idle_thread k ->
  (forall u, st_of k' u = if decide (t = u) then Some TASK_READY else st_of k u) ->
  thread_ready_list k' = thread_ready_list k ++ [t] -> sched_wf k'.
Proof.
  intros [] Ht H0 Hc Hid Hst Hr. constructor; rewrite ?Hc, ?Hid, ?Hr; try rewrite Hst.
  - case_decide; [by eexists | done].
  - case_decide; done.
  - apply NoDup_app. split_and!; [done | | apply NoDup_singleton].
    intros u Hu. rewrite list_elem_of_singleton. by intros ->.
  - intros u. rewrite Hst, elem_of_app, list_elem_of_singleton, wf_ready0.
    case_decide; [subst; tauto|]. split; [intros [|]; congruence | tauto].
  - intros u. rewrite Hst. case_decide; [done | apply wf_running0].
  - case_decide; tauto.
Qed.

(** [thread_start] on a fresh page: the new thread gets a pid nobody has,
    sits last in both lists, READY with a full time slice, its stack sentinel
    set and a first frame that enters [kernel_thread]; nothing else changes. *)
Theorem thread_start_spec k page nm prio kthread function arg :
  sched_ok k -> pids_wf k -> (exists q, 1 <= q <= 1024 /\ pid_used k q = false) ->
  page <> 0 -> page <> main_thread k -> tasks k !! page = None ->
  page ∉ thread_all_list k -> zlen nm <= 16 ->
  exists k' x, thread_start k page nm prio kthread function arg = Ok (k', page)
    /\ sched_ok k' /\ pids_wf k' /\ tasks k' !! page = Some x
    /\ (forall u, u <> page -> tasks k' !! u = tasks k !! u)
    /\ thread_ready_list k' = thread_ready_list k ++ [page]
    /\ thread_all_list k' = thread_all_list k ++ [page]
    /\ status x = TASK_READY /\ ticks x = u8 prio /\ priority x = u8 prio
    /\ stack_magic x = STACK_MAGIC /\ parent_pid x = -1 /\ pgdir x = 0
    /\ pid_used k (pid x) = false /\ pid_used k' (pid x) = true
    /\ (exists f, kstack x = Some f /\ ts_eip f = kthread /\ ts_function f = function
        /\ ts_func_arg f = arg)
    /\ page < self_kstack x /\ self_kstack x + SIZEOF_THREAD_STACK <= page + PG_SIZE.
Proof.
  intros Hok Hpw Hfree H0 Hmain Hnew Hall Hnm.
  destruct (allocate_pid_ok k Hpw Hfree) as (b&p&E&Hp&Hf&_&Hpw'&Hu).
  assert (exists nmb, splice (replicate 16 0) 0 nm = Ok nmb) as [nmb En].
  { unfold splice. rewrite length_replicate. zdec. by eexists. }
  assert (page ∉ thread_ready_list k) as Hnr.
  { destruct Hok as [[] _]. rewrite wf_ready0. unfold st_of. by rewrite Hnew. }
  unfold thread_start. apply Z.eqb_neq in H0 as H0'. rewrite H0'. cbn [negb c_assert obind].
  unfold init_thread. rewrite E. cbn [obind]. rewrite En. cbn [obind].
  apply Z.eqb_neq in Hmain. cbn [main_thread with_pids]. rewrite Hmain.
  unfold thread_create. erewrite upd_task_ok by (cbn; apply lookup_insert_eq).
  cbn [obind]. unfold elem_find. cbn. rewrite !bool_decide_false by done. cbn.
  eexists _, _. split; [done|]. split.
  { destruct Hok as [Hwf Hc]. split; [|unfold st_of in *; cbn].
    - eapply (sched_wf_add k _ page); try done.
      intros u. unfold st_of; cbn. rewrite lookup_insert. case_decide; [done|].
      by rewrite lookup_insert_ne.
    - rewrite !lookup_insert_ne; [done| |]; intros ->; by rewrite Hnew in Hc. }
  split; [done|]. cbn. split; [apply lookup_insert_eq|]. split.
  { intros u Hne. by rewrite !lookup_insert_ne by done. }
  unfold SIZEOF_INTR_STACK, SIZEOF_THREAD_STACK, PG_SIZE. split_and!; try done; try lia.
  - change (pid_used (with_pids b k) p = true). rewrite Hu by lia. by rewrite Z.eqb_refl.
  - eexists; split; [done|]. done.
  - cbn; lia.
  - cbn; lia.
Qed.

(** [thread_exit]: the thread leaves both lists as TASK_DIED, its page
    directory and task page are given back exactly once and its pid becomes
    free. Of another thread (as [sys_wait] calls it) the caller keeps running;
    of the caller itself, the next thread is scheduled and it never is again. *)
Theorem thread_exit_spec k t x : sched_ok k -> pids_wf k -> tasks k !! t = Some x ->
  t <> idle_thread k -> t ∈ thread_all_list k -> 1 <= pid x <= 1024 ->
  let freed := (if pgdir x =? 0 then [] else [pgdir x]) ++ (if t =? main_thread k then [] else [t]) in
  exists k', thread_exit k t (bool_decide (t = cur k)) = Ok (k', freed)
    /\ sched_ok k' /\ intr k' = false /\ st_of k' t = Some TASK_DIED
    /\ (t ∉ thread_ready_list k') /\ cur k' <> t
    /\ thread_all_list k' = remove_elem t (thread_all_list k)
    /\ pids_wf k' /\ pid_used k' (pid x) = false
    /\ (forall q, 1 <= q -> q <> pid x -> pid_used k' q = pid_used k q)
    /\ (t <> cur k -> cur k' = cur k
        /\ thread_ready_list k' = remove_elem t (thread_ready_list k)
        /\ forall u, u <> t -> tasks k' !! u = tasks k !! u).
Proof.
  intros Hok Hpw Hx Hidle Hall Hpid freed. pose proof (sched_running_not_ready _ Hok) as Hnc.
  destruct Hok as [Hwf Hc]. unfold thread_exit. rewrite intr_disable_snd.
  erewrite upd_task_ok by done. cbn [obind]. set (k1 := with_tasks _ _).
  set (k2 := if elem_find (thread_ready_list k1) t
             then with_ready (remove_elem t (thread_ready_list k1)) k1 else k1).
  assert (k2 = with_ready (remove_elem t (thread_ready_list k)) k1) as ->.
  { unfold k2, elem_find. case_bool_decide as Ht; [done|].
    rewrite remove_elem_notin; [by destruct k | done]. }
  unfold get_task, elem_find. cbn. rewrite lookup_insert_eq. cbn.
  rewrite bool_decide_true by done. cbn [obind].
  set (k3 := with_all _ _).
  assert (tasks k3 !! t = Some (set_status TASK_DIED x)) as -> by (cbn; by rewrite lookup_insert_eq).
  cbn [obind]. change (pid (set_status TASK_DIED x)) with (pid x).
  assert (sched_wf k3) as Hwf3.
  { apply (sched_wf_stop k k3 t TASK_DIED); try done.
    - unfold st_of. rewrite Hx. by eexists.
    - intros u. unfold st_of; cbn. rewrite lookup_insert. by case_decide. }
  assert (forall u, st_of k3 u = if decide (t = u) then Some TASK_DIED else st_of k u) as Hst.
  { intros u. unfold st_of; cbn. rewrite lookup_insert. by case_decide. }
  destruct (release_pid_ok k3 (pid x) Hpw Hpid) as (b&Eb&Hpw'&Hu). rewrite Eb. cbn [obind].
  assert (freed = (if negb (t =? main_thread k) then (if negb (pgdir x =? 0) then [pgdir x] else []) ++ [t]
                   else if negb (pgdir x =? 0) then [pgdir x] else [])) as Hfreed.
  { unfold freed. destruct (pgdir x =? 0), (t =? main_thread k); done. }
  assert (pid_used (with_pids b k3) (pid x) = false) as Hu1.
  { rewrite Hu by lia. by rewrite Z.eqb_refl. }
  assert (forall q, 1 <= q -> q <> pid x -> pid_used (with_pids b k3) q = pid_used k q) as Hu2.
  { intros q Hq Hne. rewrite Hu by lia. by apply Z.eqb_neq in Hne as ->. }
  case_bool_decide as Ht.
  - destruct (schedule_ok (with_pids b k3)) as (k'&E&Hok'&(Ha&_&_&Hp)&Hi'&Hrq&Hst'&_).
    { destruct Hwf3; by constructor. } { done. }
    rewrite E. cbn [obind]. exists k'.
    assert (cur k' <> t) as Hne.
    { intros Hc'. destruct Hok' as [Hw' _]. pose proof (Hst' t) as H1. rewrite Hc', decide_True in H1 by done.
      unfold run_queue in Hrq. change (st_of (with_pids b k3) ?u) with (st_of k3 u) in Hrq.
      rewrite (Hst (cur (with_pids b k3))) in Hrq. cbn in Hrq. rewrite decide_True in Hrq by done.
      rewrite remove_elem_notin in Hrq by (by rewrite Ht).
      destruct (thread_ready_list k); injection Hrq as Hr1 Hr2; [congruence|].
      apply Hnc. rewrite <- Ht, <- Hc', <- Hr1. apply list_elem_of_here. }
    assert (st_of k' t = Some TASK_DIED) as Hd.
    { rewrite Hst', decide_False by done. change (st_of (with_pids b k3) ?u) with (st_of k3 u).
      rewrite Hst, (decide_True (P := t = t)) by done. by case_decide. }
    split_and!; try done.
    + by rewrite Hfreed.
    + destruct Hok' as [[] _]. rewrite wf_ready0, Hd. done.
    + unfold pids_wf. by rewrite Hp.
    + unfold pid_used. by rewrite Hp.
    + intros q Hq Hqn. unfold pid_used. rewrite Hp. by apply Hu2.
  - eexists. split; [by rewrite Hfreed|]. cbn. split_and!; try done.
    + split; [destruct Hwf3; by constructor|].
      change (st_of k3 (cur k) = Some TASK_RUNNING). rewrite Hst. by rewrite decide_False.
    + change (st_of k3 t = Some TASK_DIED). rewrite Hst. by rewrite decide_True.
    + unfold remove_elem. rewrite list_elem_of_filter. tauto.
    + intros _. split_and!; try done. intros u Hne. by rewrite lookup_insert_ne.
Qed.

(** ** Witnesses *)

Lemma demo_ok : sched_ok demo_state.
Proof.
  assert (forall t, st_of demo_state t = if decide (0x1000 = t) then Some TASK_RUNNING
    else if decide (0x2000 = t) then Some TASK_READY
    else if decide (0x3000 = t) then Some TASK_WAITING
    else if decide (0x4000 = t) then Some TASK_BLOCKED else None) as Hst.
  { intros t. unfold st_of, demo_state; cbn [tasks]. rewrite !lookup_insert. by repeat case_decide. }
  split; [constructor|]; try (rewrite Hst; by repeat case_decide).
  - apply NoDup_singleton.
  - intros t. rewrite Hst. cbn [thread_ready_list demo_state]. rewrite list_elem_of_singleton.
    repeat case_decide; subst; split; congruence.
  - intros t. rewrite Hst. cbn [cur demo_state]. repeat case_decide; congruence.
  - right; right. reflexivity.
Qed.

Lemma demo_pids : pids_wf demo_state.
Proof.
  split; [|reflexivity]. constructor; [cbn; lia | unfold nbits; cbn; lia | cbn; lia |].
  cbn [bits pid_bitmap demo_state]. apply Forall_cons; split; [unfold is_byte; lia|].
  apply Forall_replicate. unfold is_byte; lia.
Qed.

Example schedule_fair_witness :
  exists k', schedule_n 1 demo_state = Ok k' /\ cur k' = 0x2000 /\ sched_ok k' /\ mmu_loaded k'
    /\ thread_ready_list k' = [0x1000].
Proof. apply (schedule_fair 0 demo_state); [apply demo_ok | reflexivity | reflexivity]. Defined.

Example block_unblock_yield_witness :
  exists k', thread_yield demo_state = Ok (k', false) /\ sched_ok k' /\ intr k' = false
    /\ cur k' :: thread_ready_list k' = [0x2000; 0x1000].
Proof. apply (block_unblock_yield demo_state), demo_ok. Defined.

Example pid_pool_witness :
  exists k0, pid_pool_init demo_state (replicate 129 255) = Ok k0 /\ pids_wf k0
    /\ forall p, 1 <= p <= 1024 -> pid_used k0 p = false.
Proof.
  apply (pid_pool_spec demo_state (replicate 129 255)).
  - apply Forall_replicate. unfold is_byte; lia.
  - vm_compute. discriminate.
Defined.

Example thread_start_witness :
  exists k' x, thread_start demo_state 0x5000 [98; 0] 31 0x77 0x88 0x99 = Ok (k', 0x5000)
    /\ sched_ok k' /\ tasks k' !! 0x5000 = Some x /\ thread_ready_list k' = [0x2000; 0x5000]
    /\ ticks x = 31 /\ pid_used k' (pid x) = true.
Proof.
  destruct (thread_start_spec demo_state 0x5000 [98; 0] 31 0x77 0x88 0x99)
    as (k'&x&E&H1&_&H2&_&H3&_&_&H4&_&_&_&_&_&H5&_);
    [apply demo_ok | apply demo_pids | | lia | cbn; lia | reflexivity | | cbn; lia |].
  - exists 5. split; [lia | reflexivity].
  - cbn. rewrite !not_elem_of_cons. split_and!; try lia. apply not_elem_of_nil.
  - exists k', x. split_and!; assumption.
Defined.

Example thread_exit_witness :
  exists k', thread_exit demo_state 0x3000 false = Ok (k', [0x3000]) /\ sched_ok k'
    /\ st_of k' 0x3000 = Some TASK_DIED /\ pid_used k' 3 = false.
Proof.
  destruct (thread_exit_spec demo_state 0x3000 (demo_task 3 TASK_WAITING))
    as (k'&E&H1&_&H2&_&_&_&_&H3&_);
    [apply demo_ok | apply demo_pids | reflexivity | cbn; lia | | cbn; lia |].
  - cbn. apply list_elem_of_further, list_elem_of_further, list_elem_of_here.
  - exists k'. split_and!; assumption.
Defined.
