(* ===== verification/Timer.v ===== *)
(** device/timer.c: programming the 8253 timer, the timer interrupt, and
    sleeping. Port output is the list of [(port, byte)] pairs written. *)
From S2P Require Import Prelude Thread.

Definition IRQ0_FREQUENCY : Z := 100.
Definition INPUT_FREQUENCY : Z := 1193180.
Definition COUNTER0_VALUE : Z := INPUT_FREQUENCY / IRQ0_FREQUENCY.
Definition COUNTER0_PORT : Z := 0x40.
Definition COUNTER_MODE : Z := 2.
Definition COUNTER0_NO : Z := 0.
Definition READ_WRITE_LATCH : Z := 3.
Definition PIT_CONTROL_PORT : Z := 0x43.
Definition mil_seconds_per_intr : Z := 1000 / IRQ0_FREQUENCY.

(** The cast in the third write binds tighter than the shift. *)
Definition frequency_set (counter_port counter_no rwl counter_mode counter_value : Z)
  : list (Z * Z) :=
  [(PIT_CONTROL_PORT,
    u8 (Z.lor (Z.lor (Z.shiftl counter_no 6) (Z.shiftl rwl 4)) (Z.shiftl counter_mode 1)));
   (counter_port, u8 counter_value);
   (counter_port, u8 (Z.shiftr (u8 counter_value) 8))].

Definition timer_init : list (Z * Z) :=
  frequency_set COUNTER0_PORT COUNTER0_NO READ_WRITE_LATCH COUNTER_MODE (u16 COUNTER0_VALUE).

(** The handler; [ticks] is the kernel-wide counter. *)
Definition intr_timer_handler (k : kstate) (ticks : Z) : outcome (kstate * Z) :=
  let cur_thread := running_thread k in
  let! x := get_task k cur_thread in
  c_assert (stack_magic x =? 0x19870916) ;;;
  let! k := upd_task k cur_thread (set_elapsed (u32 (elapsed_ticks x + 1))) in
  let ticks := u32 (ticks + 1) in
  let! x := get_task k cur_thread in
  if Thread.ticks x =? 0 then let! k := schedule k in Ok (k, ticks)
  else let! k := upd_task k cur_thread (set_ticks (u8 (Thread.ticks x - 1))) in Ok (k, ticks).

(** [ticks_to_sleep]: [clock n] is what [ticks] holds at its [n]-th reading,
    [thread_yield] running between two readings; the result is the number of
    yields. *)
Definition ticks_to_sleep_body (clock : nat -> Z) (start_tick sleep_ticks : Z) (n : nat)
  : outcome (nat + nat) :=
  if u32 (clock n - start_tick) <? sleep_ticks then Ok (inl (S n)) else Ok (inr n).

Definition ticks_to_sleep (fuel : nat) (clock : nat -> Z) (start_tick sleep_ticks : Z)
  : outcome nat :=
  loop (ticks_to_sleep_body clock start_tick sleep_ticks) fuel 0%nat.

Definition mtime_sleep (fuel : nat) (clock : nat -> Z) (start_tick m_seconds : Z) : outcome nat :=
  let sleep_ticks := DIV_ROUND_UP m_seconds mil_seconds_per_intr in
  c_assert (0 <? sleep_ticks) ;;;
  ticks_to_sleep fuel clock start_tick sleep_ticks.

(** ** Lemmas *)

(** [n] timer interrupts in a row, taken with interrupts off. *)
Fixpoint tick_n (n : nat) (k : kstate) (ticks : Z) : outcome (kstate * Z) :=
  match n with
  | O => Ok (k, ticks)
  | S n => let! ' (k, ticks) := intr_timer_handler k ticks in tick_n n k ticks
  end.

(** The counter reload value the two data writes leave in the timer. *)
Definition pit_reload (w : list (Z * Z)) : option Z :=
  match w with [_; (_, lo); (_, hi)] => Some (lo + 256 * hi) | _ => None end.

(** The handler in a consistent state, with interrupts off. *)
Lemma intr_timer_handler_ok k t x : sched_ok k -> intr k = false ->
  tasks k !! cur k = Some x -> stack_magic x = STACK_MAGIC ->
  exists k', intr_timer_handler k t = Ok (k', u32 (t + 1)) /\ sched_ok k' /\ same_rest k k'
    /\ (if Thread.ticks x =? 0
        then cur k' :: thread_ready_list k' = thread_ready_list k ++ [cur k]
        else cur k' = cur k /\ thread_ready_list k' = thread_ready_list k
             /\ exists x', tasks k' !! cur k = Some x' /\ Thread.ticks x' = u8 (Thread.ticks x - 1)
                           /\ elapsed_ticks x' = u32 (elapsed_ticks x + 1))
    /\ (forall u, st_of k' u = if decide (cur k' = u) then Some TASK_RUNNING
                               else if decide (cur k = u) then Some TASK_READY else st_of k u)
    /\ (forall u, magic_of k' u = magic_of k u).
Proof.
  intros [Hwf Hc] Hi Hx Hm. unfold intr_timer_handler, running_thread, get_task.
  rewrite Hx. cbn [obind]. rewrite Hm. cbn [Z.eqb Pos.eqb STACK_MAGIC c_assert obind].
  erewrite upd_task_ok by done. cbn [obind]. set (k1 := with_tasks _ _).
  assert (tasks k1 !! cur k = Some (set_elapsed (u32 (elapsed_ticks x + 1)) x)) as Hx1
    by apply lookup_insert_eq.
  rewrite Hx1. cbn [obind Thread.ticks set_elapsed].
  assert (forall u, st_of k1 u = st_of k u) as Hst.
  { intros u. unfold k1. rewrite st_of_upd. case_decide; [|done]. subst.
    unfold st_of. by rewrite Hx. }
  assert (forall u, magic_of k1 u = magic_of k u) as Hmg.
  { intros u. unfold k1. rewrite magic_of_upd. case_decide; [|done]. subst.
    unfold magic_of. by rewrite Hx. }
  assert (sched_wf k1) as Hwf1.
  { destruct Hwf; constructor; cbn; rewrite ?Hst; try done; intros u; rewrite Hst; auto. }
  destruct (Z.eqb_spec (Thread.ticks x) 0) as [E0|E0].
  - destruct (schedule_ok k1 Hwf1 Hi) as (k'&->&Hok&Hsr&_&Hrq&Hst'&Hm').
    cbn [obind]. exists k'. split_and!; try done.
    + rewrite <- Hrq. unfold run_queue. cbn. by rewrite Hst, Hc.
    + intros u. rewrite Hst', !Hst. cbn. repeat case_decide; try done. subst. by rewrite Hc.
    + intros u. by rewrite Hm', Hmg.
  - erewrite upd_task_ok by done. cbn [obind]. eexists; split; [done|].
    set (k2 := with_tasks _ k1).
    assert (forall u, st_of k2 u = st_of k u) as Hst2.
    { intros u. unfold k2. rewrite st_of_upd. case_decide; [|apply Hst]. subst.
      unfold st_of. by rewrite Hx. }
    split_and!; try done.
    + split; [|by rewrite Hst2].
      destruct Hwf; constructor; cbn; rewrite ?Hst2; try done; intros u; rewrite Hst2; auto.
    + eexists; split; [apply lookup_insert_eq | done].
    + intros u. rewrite Hst2. repeat case_decide; try done. by subst.
    + intros u. unfold k2. rewrite magic_of_upd. case_decide; [|apply Hmg]. subst.
      unfold magic_of. by rewrite Hx.
Qed.

(** ** Properties *)

(** Preemption: a thread with [n] ticks left keeps the processor for [n]
    interrupts and loses it, at the back of the queue, on the next; the
    kernel-wide counter advances by one each time, modulo 2^32. *)
Theorem timer_preempts n k t x : sched_ok k -> intr k = false -> 0 <= t < 2 ^ 32 ->
  tasks k !! cur k = Some x -> stack_magic x = STACK_MAGIC ->
  Thread.ticks x = Z.of_nat n -> (n < 256)%nat ->
  exists k', tick_n (S n) k t = Ok (k', u32 (t + Z.of_nat n + 1)) /\ sched_ok k'
    /\ cur k' :: thread_ready_list k' = thread_ready_list k ++ [cur k]
    /\ (thread_ready_list k <> [] -> st_of k' (cur k) = Some TASK_READY).
Proof.
  revert k t x. induction n as [|n IH]; intros k t x Hok Hi Ht Hx Hm Hn Hlt;
    pose proof (sched_running_not_ready _ Hok) as Hnr;
    destruct (intr_timer_handler_ok k t x Hok Hi Hx Hm) as (k1&E&Hok1&Hsr&Hq&Hst&Hmg);
    rewrite Hn in Hq.
  - change (Z.of_nat 0 =? 0) with true in Hq. cbn iota in Hq. exists k1. cbn [tick_n]. rewrite E. cbn [obind].
    rewrite Z.add_0_r. split_and!; try done. intros Hne. rewrite Hst.
    rewrite decide_False; [by rewrite decide_True|].
    destruct (thread_ready_list k) as [|y l]; [done|]. injection Hq as -> _.
    intros ->. apply Hnr, list_elem_of_here.
  - replace (Z.of_nat (S n) =? 0) with false in Hq by (symmetry; apply Z.eqb_neq; lia).
    destruct Hq as (Hc&Hr&x'&Hx'&Ht'&_).
    assert (intr k1 = false) as Hi1.
    { clear -E Hi Hx Hm Hn. unfold intr_timer_handler, running_thread, get_task in E.
      rewrite Hx in E. cbn [obind] in E. rewrite Hm in E. cbn [Z.eqb Pos.eqb STACK_MAGIC c_assert obind] in E.
      erewrite upd_task_ok in E by done. cbn in E. rewrite lookup_insert_eq in E. cbn in E.
      rewrite Hn in E. cbn [Z.of_nat Z.eqb] in E.
      erewrite upd_task_ok in E by apply lookup_insert_eq. cbn in E. by injection E as <-. }
    assert (stack_magic x' = STACK_MAGIC) as Hm'.
    { specialize (Hmg (cur k)). unfold magic_of in Hmg. rewrite Hx', Hx in Hmg. cbn in Hmg. congruence. }
    destruct (IH k1 (u32 (t + 1)) x' Hok1 Hi1) as (k'&E'&Hok'&Hq'&Hst'); try done.
    + apply u32_range.
    + by rewrite Hc.
    + rewrite Ht', u8_small by lia. lia.
    + lia.
    + exists k'. change (tick_n (S (S n)) k t)
        with (let! ' (k, ticks) := intr_timer_handler k t in tick_n (S n) k ticks).
      rewrite E. cbn [obind]. rewrite E'. rewrite Hc, Hr in *. split_and!; try done.
      do 2 f_equal. unfold u32. rewrite <- Z.add_assoc, Zplus_mod_idemp_l. f_equal. lia.
Qed.

(** [mtime_sleep] with any positive time returns, after the first yield at
    which at least [m] milliseconds' worth of ticks have passed, also when the
    32-bit counter wraps; [e] is the time that really passes. *)
Theorem mtime_sleep_spec (e : nat -> Z) start m n fuel :
  0 < m < 2 ^ 32 - 10 -> e O = 0 -> (forall i j, (i <= j)%nat -> e i <= e j) ->
  (forall i, e i < 2 ^ 32) ->
  m <= 10 * e n -> (forall i, (i < n)%nat -> 10 * e i < m) -> (n < fuel)%nat ->
  mtime_sleep fuel (fun i => u32 (start + e i)) start m = Ok n.
Proof.
  intros Hm H0 Hmono Hmax Hn Hmin Hf. unfold mtime_sleep, DIV_ROUND_UP.
  change mil_seconds_per_intr with 10. rewrite u32_small by lia.
  set (st := (m + 10 - 1) / 10).
  assert (10 * (st - 1) < m <= 10 * st) as Hst.
  { unfold st. Z.to_euclidean_division_equations; lia. }
  zdec. cbn [c_assert obind]. unfold ticks_to_sleep.
  loop_inv (fun i => (i <= n)%nat) (fun i => (n - i)%nat); [|lia|lia].
  intros i Hi. unfold ticks_to_sleep_body.
  assert (u32 (u32 (start + e i) - start) = e i) as ->.
  { unfold u32. rewrite Zminus_mod_idemp_l. replace (start + e i - start) with (e i) by lia.
    pose proof (Hmono O i). apply Z.mod_small. split; [lia | apply Hmax]. }
  case_bool; zb.
  - assert (i <> n) by (intros ->; lia). lia.
  - destruct (decide (i = n)) as [->|]; [done|].
    exfalso. specialize (Hmin i). lia.
Qed.

(** The counter value never reaches the timer's high byte: what is
    programmed is its low byte, so the interrupt does not come at
    IRQ0_FREQUENCY. *)
Theorem frequency_set_high_byte_lost port no rwl mode v :
  pit_reload (frequency_set port no rwl mode v) = Some (v mod 256)
  /\ timer_init = [(0x43, 0x34); (0x40, 0x9b); (0x40, 0)]
  /\ pit_reload timer_init <> Some COUNTER0_VALUE.
Proof.
  split_and!; [|reflexivity|vm_compute; congruence].
  unfold pit_reload, frequency_set. rewrite Z.shiftr_div_pow2 by lia.
  rewrite (Z.div_small (u8 v)) by apply u8_range. change (u8 0) with 0. f_equal.
  unfold u8. change (2 ^ 8) with 256. lia.
Qed.

(** ** Witnesses *)

Example timer_preempts_witness :
  exists k', tick_n 32 demo_state 5 = Ok (k', 37) /\ sched_ok k'
    /\ cur k' :: thread_ready_list k' = [0x2000; 0x1000]
    /\ ([0x2000] <> [] -> st_of k' 0x1000 = Some TASK_READY).
Proof.
  apply (timer_preempts 31 demo_state 5 (demo_task 1 TASK_RUNNING));
    [apply demo_ok | reflexivity | lia | reflexivity | reflexivity | reflexivity | lia].
Defined.

Example mtime_sleep_witness :
  mtime_sleep 10 (fun i => u32 (2 ^ 32 - 2 + Z.of_nat (Nat.min i 9))) (2 ^ 32 - 2) 35 = Ok 4%nat.
Proof. apply (mtime_sleep_spec (fun i => Z.of_nat (Nat.min i 9))); intros; cbn beta in *; lia. Defined.
