(* ===== verification/Sync.v ===== *)
(** thread/sync.c and sync.h: semaphores and the recursive lock built on one,
    as a system of threads interleaved by the scheduler of Thread.v.

    A thread inside [lock_acquire] or [lock_release] is at a program point
    [pc]; an [action] is what the running thread executes between two points
    where it can lose the processor: a stretch with interrupts off, or code
    touching only fields no other thread writes meanwhile. Timer interrupts,
    [thread_yield], and blocking and waking for other reasons come in between. *)
From S2P Require Import Prelude Thread Timer.

Record semaphore := mk_sema { value : Z; waiters : list Z }.
Record lock := mk_lock { holder : Z; sem : semaphore; holder_repeat_nr : Z }.

Definition sema_init (v : Z) : semaphore := mk_sema (u8 v) [].

Definition lock_init : lock := mk_lock 0 (sema_init 1) 0.

(** One turn of [sema_down], entered with interrupts off: either the caller
    queues up and loses the processor ([false]; it takes the next turn when it
    runs again), or it takes the semaphore ([true]). *)
Definition sema_down_turn (k : kstate) (s : semaphore) : outcome (kstate * semaphore * bool) :=
  if value s =? 0 then
    let t := running_thread k in
    c_assert (negb (elem_find (waiters s) t)) ;;;
    (if elem_find (waiters s) t then Err AssertFail else
     let s := mk_sema (value s) (waiters s ++ [t]) in
     let! ' (k, _) := thread_block k TASK_BLOCKED in
     Ok (k, s, false))
  else
    let s := mk_sema (u8 (value s - 1)) (waiters s) in
    c_assert (value s =? 0) ;;;
    Ok (k, s, true).

Definition sema_up (k : kstate) (s : semaphore) : outcome (kstate * semaphore) :=
  let '(old_status, k) := intr_disable k in
  c_assert (value s =? 0) ;;;
  let! ' (k, s) :=
    match waiters s with
    | [] => Ok (k, s)
    | thread_blocked :: rest =>
        let! k := thread_unblock k thread_blocked in Ok (k, mk_sema (value s) rest)
    end in
  let s := mk_sema (u8 (value s + 1)) (waiters s) in
  c_assert (value s =? 1) ;;;
  Ok (intr_set_status k old_status, s).

(** [lock_acquire] before [sema_down]: [true] when the caller must go down. *)
Definition lock_acquire_check (k : kstate) (l : lock) : lock * bool :=
  if negb (holder l =? running_thread k) then (l, true)
  else (mk_lock (holder l) (sem l) (u32 (holder_repeat_nr l + 1)), false).

(** [lock_acquire] after [sema_down]. *)
Definition lock_acquire_take (k : kstate) (l : lock) : outcome lock :=
  let l := mk_lock (running_thread k) (sem l) (holder_repeat_nr l) in
  c_assert (holder_repeat_nr l =? 0) ;;;
  Ok (mk_lock (holder l) (sem l) 1).

(** [lock_release] before [sema_up]: [true] when the semaphore is to be upped. *)
Definition lock_release_drop (k : kstate) (l : lock) : outcome (lock * bool) :=
  c_assert (holder l =? running_thread k) ;;;
  if 1 <? holder_repeat_nr l
  then Ok (mk_lock (holder l) (sem l) (u32 (holder_repeat_nr l - 1)), false)
  else
    c_assert (holder_repeat_nr l =? 1) ;;;
    Ok (mk_lock 0 (sem l) 0, true).

(** The whole calls, as far as the caller runs without losing the processor:
    [lock_acquire] ends with [true] when it got the lock, with [false] when it
    blocked in [sema_down]. *)
Definition lock_acquire (k : kstate) (l : lock) : outcome (kstate * lock * bool) :=
  let '(l, down) := lock_acquire_check k l in
  if down then
    let '(old_status, k) := intr_disable k in
    let! ' (k, s, got) := sema_down_turn k (sem l) in
    let l := mk_lock (holder l) s (holder_repeat_nr l) in
    if got then
      let k := intr_set_status k old_status in
      let! l := lock_acquire_take k l in Ok (k, l, true)
    else Ok (k, l, false)
  else Ok (k, l, true).

Definition lock_release (k : kstate) (l : lock) : outcome (kstate * lock) :=
  let! ' (l, up) := lock_release_drop k l in
  if (up : bool) then
    let! ' (k, s) := sema_up k (sem l) in
    Ok (k, mk_lock (holder l) s (holder_repeat_nr l))
  else Ok (k, l).

(** ** The system *)

(** Outside; about to go down; inside [sema_down]; down, holder not yet set;
    holding; holder cleared, semaphore not yet up. *)
Inductive pc := Out | Want | InDown | Got | Held | Drop1.

#[export] Instance pc_eq_dec : EqDecision pc.
Proof. solve_decision. Defined.

Record sys := mk_sys { ks : kstate; lk : lock; pcs : Z -> pc }.

Inductive action :=
  | Acquire | Down | Take | Release | Up
  | Tick (ticks : Z) | Yield | Block (st : task_status) | Wake (t : Z).

Definition pc_upd (f : Z -> pc) (t : Z) (p : pc) : Z -> pc :=
  fun u => if decide (u = t) then p else f u.

Definition with_sem (l : lock) (s : semaphore) : lock := mk_lock (holder l) s (holder_repeat_nr l).

Definition exec (a : action) (s : sys) : outcome sys :=
  let k := with_intr true (ks s) in
  let off := with_intr false (ks s) in
  let l := lk s in
  let c := running_thread k in
  match a with
  | Acquire =>
      let '(l, down) := lock_acquire_check k l in
      Ok (mk_sys k l (pc_upd (pcs s) c (if down then Want else Held)))
  | Down =>
      let! ' (k, sm, got) := sema_down_turn off (sem l) in
      Ok (mk_sys k (with_sem l sm) (pc_upd (pcs s) c (if got then Got else InDown)))
  | Take =>
      let! l := lock_acquire_take k l in Ok (mk_sys k l (pc_upd (pcs s) c Held))
  | Release =>
      let! ' (l, up) := lock_release_drop k l in
      Ok (mk_sys k l (pc_upd (pcs s) c (if up then Drop1 else Held)))
  | Up =>
      let! ' (k, sm) := sema_up k (sem l) in
      Ok (mk_sys k (with_sem l sm) (pc_upd (pcs s) c Out))
  | Tick t => let! ' (k, _) := intr_timer_handler off t in Ok (mk_sys k l (pcs s))
  | Yield => let! ' (k, _) := thread_yield k in Ok (mk_sys k l (pcs s))
  | Block st => let! ' (k, _) := thread_block k st in Ok (mk_sys k l (pcs s))
  | Wake t => let! k := thread_unblock k t in Ok (mk_sys k l (pcs s))
  end.

(** When the running thread can perform an action. A thread inside
    [sema_down] runs with interrupts off and only finishes its turn; a waiter
    of the semaphore is woken by nobody else; the idle thread only blocks. *)
Definition enabled (a : action) (s : sys) : Prop :=
  let c := cur (ks s) in
  match a with
  | Acquire => c <> idle_thread (ks s)
      /\ (pcs s c = Out \/ pcs s c = Held /\ holder_repeat_nr (lk s) + 1 < 2 ^ 32)
  | Down => pcs s c = Want \/ pcs s c = InDown
  | Take => pcs s c = Got
  | Release => pcs s c = Held
  | Up => pcs s c = Drop1
  | Tick _ | Yield => pcs s c <> InDown
  | Block st => pcs s c <> InDown /\ is_blocked_status st = true
      /\ (c = idle_thread (ks s) -> st = TASK_BLOCKED)
  | Wake t => pcs s c <> InDown /\ pcs s t <> InDown
      /\ exists st, st_of (ks s) t = Some st /\ is_blocked_status st = true
  end.

(** A consistent scheduler with intact stack sentinels and a fresh lock that
    nobody uses. *)
Definition init_sys (s : sys) : Prop :=
  sched_ok (ks s)
  /\ (forall t, is_Some (st_of (ks s) t) -> magic_of (ks s) t = Some STACK_MAGIC)
  /\ lk s = lock_init /\ forall t, pcs s t = Out.

Inductive reachable : sys -> Prop :=
  | reach_init s : init_sys s -> reachable s
  | reach_step s a s' : reachable s -> enabled a s -> exec a s = Ok s' -> reachable s'.

(** Three threads and an idle one around a free lock. *)
Definition demo_sys : sys := mk_sys demo_state lock_init (fun _ => Out).

(** ** The invariant *)

Definition owns (p : pc) : bool :=
  match p with Got | Held | Drop1 => true | _ => false end.

Definition runnable (o : option task_status) : Prop :=
  o = Some TASK_READY \/ o = Some TASK_RUNNING.

(** Of the semaphore and the lock against the program points. *)
Record lock_ok (l : lock) (p : Z -> pc) : Prop := {
  lo_nodup : NoDup (waiters (sem l));
  lo_own : exists o : option Z, value (sem l) = match o with Some _ => 0 | None => 1 end
           /\ forall t, owns (p t) = true <-> o = Some t;
  lo_held : forall t, p t = Held -> holder l = t /\ 1 <= holder_repeat_nr l < 2 ^ 32;
  lo_free : (forall t, p t <> Held) -> holder l = 0 /\ holder_repeat_nr l = 0;
  lo_lost : value (sem l) = 1 -> waiters (sem l) <> [] ->
            exists t, p t = InDown /\ t ∉ waiters (sem l) }.

(** Of the thread statuses against the program points and the waiters. *)
Record threads_ok (k : kstate) (w : list Z) (p : Z -> pc) : Prop := {
  to_sched : sched_ok k;
  to_magic : forall t, is_Some (st_of k t) -> magic_of k t = Some STACK_MAGIC;
  to_wait : forall t, t ∈ w -> p t = InDown /\ st_of k t = Some TASK_BLOCKED;
  to_woken : forall t, p t = InDown -> t ∉ w -> runnable (st_of k t);
  to_dom : forall t, p t <> Out -> is_Some (st_of k t);
  to_idle : p (idle_thread k) = Out }.

Definition sys_ok (s : sys) : Prop :=
  lock_ok (lk s) (pcs s) /\ threads_ok (ks s) (waiters (sem (lk s))) (pcs s).

(** ** Lemmas *)

#[local] Arguments thread_block : simpl never.
#[local] Arguments thread_unblock : simpl never.
#[local] Arguments thread_yield : simpl never.
#[local] Arguments intr_timer_handler : simpl never.
#[local] Arguments intr_disable : simpl never.
#[local] Arguments intr_set_status : simpl never.

Lemma sched_ok_intr k b : sched_ok k -> sched_ok (with_intr b k).
Proof. intros [[] ?]. split; [by constructor | done]. Qed.

Lemma threads_ok_intr k w p b : threads_ok k w p -> threads_ok (with_intr b k) w p.
Proof. intros []. constructor; try done. by apply sched_ok_intr. Qed.

Lemma init_sys_ok s : init_sys s -> sys_ok s.
Proof.
  destruct s as [k l p]. intros (Hok & Hm & Hl & Hp). cbn in *. subst l.
  split; constructor; cbn in *; try done.
  - apply NoDup_nil_2.
  - exists None. split; [done|]. intros t. rewrite Hp. done.
  - intros t. by rewrite Hp.
  - intros t Ht. by apply not_elem_of_nil in Ht.
  - intros t. by rewrite Hp.
  - intros t. by rewrite Hp.
Qed.

(** A scheduler operation that leaves every waiting thread waiting. *)
Lemma threads_ok_sched k k' w p : threads_ok k w p -> sched_ok k' ->
  idle_thread k' = idle_thread k -> (forall u, magic_of k' u = magic_of k u) ->
  (forall u, p u = InDown -> st_of k' u = st_of k u \/ runnable (st_of k u) /\ runnable (st_of k' u)) ->
  threads_ok k' w p.
Proof.
  intros [] Hok Hid Hm Hst.
  assert (forall t, is_Some (st_of k' t) <-> is_Some (st_of k t)) as Hdom.
  { intros t. specialize (Hm t). unfold magic_of, st_of in *. rewrite !fmap_is_Some.
    destruct (tasks k' !! t), (tasks k !! t); try done. }
  constructor; try done.
  - intros t Ht. rewrite Hm. apply to_magic0. by apply Hdom.
  - intros t Ht. destruct (to_wait0 t Ht) as [Hp Hb]. split; [done|].
    destruct (Hst t Hp) as [->|[[E|E] _]]; congruence.
  - intros t Hp Ht. destruct (Hst t Hp) as [->|[_ ?]]; auto.
  - intros t Ht. apply Hdom. auto.
  - by rewrite Hid.
Qed.

(** The running thread is at a program point of its own and waits for nothing. *)
Lemma cur_not_waiting k w p : threads_ok k w p -> cur k ∉ w.
Proof. intros [[_ Hc]] H. apply to_wait0 in H as [_ H]. congruence. Qed.

(** Whoever a blocking thread hands the processor to was not waiting. *)
Lemma next_not_waiting k w p x l : threads_ok k w p ->
  x :: l = match thread_ready_list k with [] => [idle_thread k] | l => l end ->
  st_of k x = Some TASK_READY \/ x = idle_thread k.
Proof.
  intros Ht H. destruct (thread_ready_list k) as [|y r] eqn:Er; injection H as -> ->; [by right|].
  left. apply (wf_ready _ (proj1 (to_sched _ _ _ Ht))). rewrite Er. apply list_elem_of_here.
Qed.

Lemma pc_upd_eq f t p : pc_upd f t p t = p.
Proof. unfold pc_upd. by case_decide. Qed.

Lemma pc_upd_ne f t p u : u <> t -> pc_upd f t p u = f u.
Proof. intros. unfold pc_upd. by case_decide. Qed.

(** The running thread moves to another point, not into [sema_down] nor out of it
    while waiting. *)
Lemma threads_ok_pc k w p pn b : threads_ok k w p -> pn <> InDown -> cur k <> idle_thread k ->
  threads_ok (with_intr b k) w (pc_upd p (cur k) pn).
Proof.
  intros Ht Hp Hid. apply threads_ok_intr. pose proof (cur_not_waiting _ _ _ Ht) as Hn. destruct Ht. constructor; try done.
  - intros t Hw. rewrite pc_upd_ne; [auto|]. by intros ->.
  - intros t. unfold pc_upd. case_decide; [done | auto].
  - intros t. unfold pc_upd. case_decide; [|auto]. subst. destruct to_sched0 as [_ ->]. by eexists.
  - rewrite pc_upd_ne; done.
Qed.

Lemma cur_not_idle k w p : threads_ok k w p -> p (cur k) <> Out -> cur k <> idle_thread k.
Proof. intros [] H E. rewrite E in H. done. Qed.

(** ** One action from a consistent system *)

Section step.
Variable s : sys.
Hypothesis Hok : sys_ok s.
Let k := ks s.
Let l := lk s.
Let c := cur k.

Lemma step_acquire : enabled Acquire s -> exists s', exec Acquire s = Ok s' /\ sys_ok s'.
Proof.
  destruct Hok as [Hl Ht]. intros [Hid Hpc]. cbn. unfold lock_acquire_check, running_thread. cbn.
  fold k l c in Hid, Hpc, Hl, Ht |- *.
  destruct (Z.eqb_spec (holder l) c) as [Hh|Hh]; cbn; eexists; (split; [done|]).
  - assert (pcs s c = Held) as Hp.
    { destruct Hpc as [Hp|[Hp _]]; [|done]. destruct (lo_free _ _ Hl) as [H0 _].
      - intros t Hp'. destruct (lo_held _ _ Hl t Hp') as [E _]. rewrite Hh in E. congruence.
      - destruct (to_sched _ _ _ Ht) as [Hw Hc]. pose proof (wf_nonzero _ Hw) as Hz.
        unfold c in Hh. rewrite <- Hh, H0 in Hc. congruence. }
    destruct (lo_held _ _ Hl c Hp) as [_ Hr].
    destruct Hpc as [Hpc|[_ Hpc]]; [congruence|].
    assert (forall t, pc_upd (pcs s) c Held t = pcs s t) as Hsame.
    { intros t. unfold pc_upd. case_decide; [by subst | done]. }
    split; cbn; [|by apply threads_ok_pc, Hid].
    destruct Hl. constructor; cbn; try done.
    + destruct lo_own0 as (o&Hv&Ho). exists o. split; [done|]. intros t. by rewrite Hsame.
    + intros t. rewrite Hsame. intros Ht'. destruct (lo_held0 t Ht'). rewrite u32_small by lia. lia.
    + intros Hn. by destruct (Hn c); rewrite pc_upd_eq.
    + intros Hv Hw. destruct (lo_lost0 Hv Hw) as (t&?&?). exists t. by rewrite Hsame.
  - assert (pcs s c <> Held) as Hp.
    { intros Hp. by destruct (lo_held _ _ Hl c Hp). }
    destruct Hpc as [Hpc|[? _]]; [|done].
    split; cbn; [|by apply threads_ok_pc, Hid].
    destruct Hl. constructor; cbn; try done.
    + destruct lo_own0 as (o&Hv&Ho). exists o. split; [done|]. intros t. rewrite <- Ho.
      unfold pc_upd. case_decide; [subst; by rewrite Hpc | done].
    + intros t. unfold pc_upd. case_decide; [done|]. auto.
    + intros Hn. apply lo_free0. intros t Hp'. apply (Hn t). rewrite pc_upd_ne; [done|].
      intros ->. done.
    + intros Hv Hw. destruct (lo_lost0 Hv Hw) as (t&?&?). exists t.
      rewrite pc_upd_ne; [done|]. intros ->. congruence.
Qed.

Lemma step_take : enabled Take s -> exists s', exec Take s = Ok s' /\ sys_ok s'.
Proof.
  destruct Hok as [Hl Ht]. intros Hpc. cbn in *. unfold lock_acquire_take, running_thread. cbn.
  fold k l c in Hpc, Hl, Ht |- *.
  destruct (lo_own _ _ Hl) as (o&Hv&Ho).
  assert (o = Some c) as -> by (by apply Ho; rewrite Hpc).
  destruct (lo_free _ _ Hl) as [Hh Hr].
  { intros t Hp. assert (Some c = Some t) as [= ->] by (by apply Ho; rewrite Hp). congruence. }
  rewrite Hr. cbn. eexists; split; [done|].
  split; cbn; [|apply threads_ok_pc; [done | done |]].
  - destruct Hl. constructor; cbn; try done.
    + exists (Some c). split; [done|]. intros t. unfold pc_upd. case_decide; [by subst | done].
    + intros t. unfold pc_upd. case_decide; [subst; done|]. intros Hp.
      assert (Some c = Some t) as [= ->] by (by apply Ho; rewrite Hp). done.
    + intros Hn. by destruct (Hn c); rewrite pc_upd_eq.
    + rewrite Hv. done.
  - apply (cur_not_idle k (waiters (sem l)) (pcs s)); [done|]. fold c. by rewrite Hpc.
Qed.

Lemma step_release : enabled Release s -> exists s', exec Release s = Ok s' /\ sys_ok s'.
Proof.
  destruct Hok as [Hl Ht]. intros Hpc. cbn in *. unfold lock_release_drop, running_thread. cbn.
  fold k l c in Hpc, Hl, Ht |- *.
  destruct (lo_own _ _ Hl) as (o&Hv&Ho).
  assert (o = Some c) as -> by (by apply Ho; rewrite Hpc).
  destruct (lo_held _ _ Hl c Hpc) as [Hh Hr]. rewrite Hh, Z.eqb_refl. cbn.
  assert (forall pn, threads_ok (with_intr true k) (waiters (sem l)) (pc_upd (pcs s) c pn) \/ pn = InDown) as Hth.
  { intros pn. destruct (decide (pn = InDown)); [by right|]. left.
    apply threads_ok_pc; [done | done|].
    apply (cur_not_idle k (waiters (sem l)) (pcs s)); [done|]. fold c. by rewrite Hpc. }
  case_bool; zb; cbn.
  - eexists; split; [done|]. split; cbn; [|by destruct (Hth Held)].
    destruct Hl. constructor; cbn; try done.
    + exists (Some c). split; [done|]. intros t. unfold pc_upd. case_decide; [by subst | done].
    + intros t. unfold pc_upd. case_decide.
      * subst. rewrite u32_small by lia. split; [done | lia].
      * intros Hp. assert (Some c = Some t) as [= ->] by (by apply Ho; rewrite Hp). done.
    + intros Hn. by destruct (Hn c); rewrite pc_upd_eq.
    + rewrite Hv. done.
  - zdec. cbn. eexists; split; [done|]. split; cbn; [|by destruct (Hth Drop1)].
    destruct Hl. constructor; cbn; try done.
    + exists (Some c). split; [done|]. intros t. unfold pc_upd. case_decide; [by subst | done].
    + intros t. unfold pc_upd. case_decide; [done|].
      intros Hp. assert (Some c = Some t) as [= ->] by (by apply Ho; rewrite Hp). done.
    + rewrite Hv. done.
Qed.

(** The same for the two halves of [sema_down]'s turn and for [sema_up]. *)
Lemma step_down : enabled Down s -> exists s', exec Down s = Ok s' /\ sys_ok s'.
Proof.
  destruct Hok as [Hl Ht]. intros Hpc. cbn in *. unfold sema_down_turn, running_thread. cbn.
  fold k l c in Hpc, Hl, Ht |- *.
  destruct (lo_own _ _ Hl) as (o&Hv&Ho).
  assert (cur k <> idle_thread k) as Hid.
  { apply (cur_not_idle k (waiters (sem l)) (pcs s)); [done|]. fold c. by destruct Hpc as [->| ->]. }
  assert (owns (pcs s c) = false) as Hnown by (by destruct Hpc as [->| ->]).
  pose proof (cur_not_waiting _ _ _ Ht) as Hnw.
  rewrite Hv. destruct o as [o|]; cbn [Z.eqb].
  - unfold elem_find. rewrite bool_decide_false by done. cbn [negb c_assert obind].
    destruct (thread_block_ok (with_intr false k) TASK_BLOCKED) as
      (k'&E&Hok'&(_&Hid'&_&_)&_&_&Hq&Hst&Hm); [apply sched_ok_intr, Ht | done | done |].
    rewrite E. cbn [obind]. eexists; split; [done|].
    assert (cur k' <> c /\ forall t, t ∈ waiters (sem l) -> cur k' <> t) as [Hne Hnew].
    { destruct (next_not_waiting (with_intr false k) _ _ _ _ (threads_ok_intr _ _ _ false Ht) Hq) as [H|H];
        change (st_of (with_intr false k) ?u) with (st_of k u) in *; cbn in H.
      - split; [intros E'; rewrite E' in H; destruct (to_sched _ _ _ Ht) as [_ H']; unfold c in H; congruence|].
        intros t Hw E'. apply (to_wait _ _ _ Ht) in Hw as [_ Hw]. congruence.
      - rewrite H. split; [unfold c; congruence|]. intros t Hw <-.
        apply (to_wait _ _ _ Ht) in Hw as [Hw _]. rewrite (to_idle _ _ _ Ht) in Hw. done. }
    change (st_of (with_intr false k) ?u) with (st_of k u) in Hst. cbn in Hst, Hid'.
    split; cbn.
    + destruct Hl. constructor; cbn; try done.
      * apply NoDup_app. split_and!; [done | | apply NoDup_singleton].
        intros u Hu. rewrite list_elem_of_singleton. intros ->. done.
      * exists (Some o). split; [done|]. intros t. rewrite <- Ho.
        unfold pc_upd. case_decide; [subst; by rewrite Hnown | done].
      * intros t. unfold pc_upd. case_decide; [done | auto].
      * intros Hn. apply lo_free0. intros t Hp'. apply (Hn t). rewrite pc_upd_ne; [done|].
        intros ->. rewrite Hp' in Hnown. done.
    + destruct Ht. assert (forall u, magic_of k' u = magic_of k u) as Hm' by exact Hm.
      constructor; try done.
      * intros t Ht'. rewrite Hm'. apply to_magic0.
        revert Ht'. rewrite Hst. case_decide; [|case_decide; [|done]]; intros _; subst.
        -- destruct Hok' as [_ Hc']. specialize (Hst (cur k')). specialize (Hm' (cur k')).
           unfold magic_of, st_of in *. destruct (tasks k !! cur k'); [by eexists|].
           destruct (tasks k' !! cur k'); done.
        -- destruct to_sched0 as [_ ->]. by eexists.
      * intros t. rewrite elem_of_app, list_elem_of_singleton. intros [Hw| ->].
        -- destruct (to_wait0 t Hw) as [Hp Hb].
           assert (t <> c) as Hne' by (intros ->; done). rewrite pc_upd_ne by done.
           split; [done|]. rewrite Hst, decide_False by (by apply Hnew). by rewrite decide_False by done.
        -- rewrite pc_upd_eq. split; [done|]. rewrite Hst, decide_False by done. by rewrite decide_True.
      * intros t. rewrite elem_of_app, list_elem_of_singleton. intros Hp Hw.
        assert (t <> c /\ t ∉ waiters (sem l)) as [Htc Htw].
        { split; intros H; apply Hw; [by right | by left]. }
        rewrite pc_upd_ne in Hp by done. rewrite Hst. case_decide; [by right|].
        rewrite decide_False by (by intros <-). by apply to_woken0.
      * intros t Hp. rewrite Hst. case_decide; [by eexists|]. case_decide as Hct; [by eexists|].
        apply to_dom0. by rewrite pc_upd_ne in Hp by (intros ->; done).
      * rewrite Hid'. rewrite pc_upd_ne by done. done.
  - cbn. eexists; split; [done|].
    split; cbn; [|by apply threads_ok_pc].
    destruct Hl. constructor; cbn; try done.
    + exists (Some c). split; [done|]. intros t. unfold pc_upd. case_decide; [by subst|].
      rewrite Ho. split; congruence.
    + intros t. unfold pc_upd. case_decide; [done | auto].
    + intros _. apply lo_free0. intros t Hp'. specialize (Ho t). rewrite Hp' in Ho. cbn in Ho.
      destruct Ho as [Ho _]. by specialize (Ho eq_refl).
Qed.

Lemma step_up : enabled Up s -> exists s', exec Up s = Ok s' /\ sys_ok s'
  /\ forall w ws, waiters (sem (lk s)) = w :: ws ->
       waiters (sem (lk s')) = ws /\ thread_ready_list (ks s') = w :: thread_ready_list (ks s).
Proof.
  destruct Hok as [Hl Ht]. intros Hpc. cbn in *. unfold sema_up. rewrite intr_disable_eq.
  fold k l c in Hpc, Hl, Ht |- *.
  destruct (lo_own _ _ Hl) as (o&Hv&Ho).
  assert (o = Some c) as -> by (by apply Ho; rewrite Hpc).
  assert (cur k <> idle_thread k) as Hid.
  { apply (cur_not_idle k (waiters (sem l)) (pcs s)); [done|]. fold c. by rewrite Hpc. }
  assert (forall t, t <> c -> owns (pcs s t) = false) as Hno.
  { intros t Hne. destruct (owns (pcs s t)) eqn:E; [|done]. apply Ho in E. congruence. }
  assert (forall t, owns (pc_upd (pcs s) c Out t) = true <-> None = Some t) as Hown'.
  { intros t. unfold pc_upd. case_decide; [done|]. by rewrite Hno. }
  rewrite Hv. cbn [Z.eqb c_assert obind].
  assert (holder l = 0 /\ holder_repeat_nr l = 0) as Hfree.
  { apply (lo_free _ _ Hl). intros t Hp. destruct (decide (t = c)) as [->|Hne]; [congruence|].
    apply Hno in Hne. by rewrite Hp in Hne. }
  destruct (waiters (sem l)) as [|w ws] eqn:Ew.
  - cbn. rewrite intr_set_status_eq, Hv. cbn. eexists; split; [done|]. split; [|done].
    split; cbn; rewrite ?Ew.
    2: { refine (threads_ok_pc _ _ _ Out true Ht _ Hid); done. }
    destruct Hl. constructor; cbn; rewrite ?Ew; try done.
    + apply NoDup_nil_2.
    + by exists None.
    + intros t Hp. apply lo_held0. revert Hp. unfold pc_upd. by case_decide.
  - pose proof (to_wait _ _ _ Ht w) as Hw. destruct Hw as [Hpw Hsw]; [apply list_elem_of_here|].
    destruct (thread_unblock_wf (with_intr false (with_intr true k)) w TASK_BLOCKED) as
      (k'&E&Hwf'&(_&Hid'&_&_)&Hc'&_&Hr'&Hst&Hm);
      [apply sched_ok_intr, sched_ok_intr, Ht | done | done |].
    rewrite E. cbn. rewrite intr_set_status_eq. cbn. eexists; split; [done|].
    change (st_of (with_intr false (with_intr true k)) ?u) with (st_of k u) in Hst.
    cbn in Hc', Hr', Hid'.
    split; [|cbn; intros ?? [= -> ->]; done].
    pose proof (lo_nodup _ _ Hl) as Hnd. rewrite Ew in Hnd. apply NoDup_cons in Hnd as [Hnin Hnd].
    assert (w <> c) as Hwc by (intros ->; congruence).
    split; cbn.
    + destruct Hl. constructor; cbn; try done.
      * by exists None.
      * intros t Hp. apply lo_held0. revert Hp. unfold pc_upd. by case_decide.
      * intros _ _. exists w. rewrite pc_upd_ne by done. done.
    + destruct Ht. constructor; try done.
      * apply sched_ok_intr. split; [done|]. rewrite Hst, Hc', decide_False by done. apply to_sched0.
      * intros t Ht'. change (magic_of k' t = Some STACK_MAGIC). rewrite Hm. apply to_magic0.
        change (is_Some (st_of k' t)) in Ht'. rewrite Hst in Ht'. case_decide; [|done].
        subst. by eexists.
      * intros t Htw. change (st_of (with_intr ?b k') ?u) with (st_of k' u).
        destruct (to_wait0 t) as [Hp Hb]; [by apply list_elem_of_further|].
        rewrite pc_upd_ne by (intros ->; congruence). split; [done|].
        rewrite Hst, decide_False; [done|]. by intros ->.
      * intros t. change (st_of (with_intr ?b k') ?u) with (st_of k' u).
        unfold pc_upd. case_decide; [done|]. intros Hp Hw. rewrite Hst. case_decide; [by left|].
        apply to_woken0; [done|]. by apply not_elem_of_cons.
      * intros t. change (st_of (with_intr ?b k') ?u) with (st_of k' u).
        rewrite Hst. intros Hp. case_decide; [by eexists|].
        apply to_dom0. revert Hp. unfold pc_upd. by case_decide.
      * cbn. rewrite Hid'. rewrite pc_upd_ne; [done | intros E'; by apply Hid].
Qed.
End step.

(** Whoever a scheduling operation picks could run before it. *)
Lemma picked_ok k w p x : threads_ok k w p -> p x = InDown ->
  x ∈ thread_ready_list k ++ [cur k] \/ x = idle_thread k -> runnable (st_of k x).
Proof.
  intros Ht Hp [Hx| ->]; [|rewrite (to_idle _ _ _ Ht) in Hp; done].
  destruct (to_sched _ _ _ Ht) as [Hwf Hc].
  apply elem_of_app in Hx as [Hx|Hx]; [left; by apply (wf_ready _ Hwf)|].
  apply list_elem_of_singleton in Hx as ->. by right.
Qed.

(** Timer interrupts, yielding, blocking and waking for other reasons. *)
Lemma step_sched s a : sys_ok s -> enabled a s ->
  match a with Tick _ | Yield | Block _ | Wake _ => True | _ => False end ->
  exists s', exec a s = Ok s' /\ sys_ok s'.
Proof.
  intros [Hl Ht] Hen Ha. destruct (to_sched _ _ _ Ht) as [Hwf Hc].
  destruct (st_of_task _ _ _ Hc) as (x & Hx & Hxs).
  destruct a as [| | | | |t| |st|t]; try done; cbn in *.
  - destruct (intr_timer_handler_ok (with_intr false (ks s)) t x)
      as (k'&E&Hok'&(_&Hid&_)&Hq&Hst&Hm); try done; [by apply sched_ok_intr, Ht | |].
    { pose proof (to_magic _ _ _ Ht (cur (ks s))) as Hm. unfold magic_of in Hm. rewrite Hx in Hm.
      rewrite Hc in Hm. specialize (Hm ltac:(by eexists)). by injection Hm. }
    rewrite E. cbn. eexists; split; [done|]. split; [done|].
    apply (threads_ok_sched (ks s)); try done.
    intros u Hp. rewrite Hst. case_decide as H1; [|case_decide as H2; [|by left]]; right; cbn in *.
    + split; [|by right]. apply (picked_ok _ _ _ _ Ht Hp). left. subst u.
      destruct (Thread.ticks x =? 0); [rewrite <- Hq; apply list_elem_of_here|].
      destruct Hq as [-> _]. apply elem_of_app. right. by apply list_elem_of_singleton.
    + subst u. rewrite Hc. split; [by right | by left].
  - destruct (thread_yield_ok (with_intr true (ks s))) as (k'&E&Hok'&(_&Hid&_)&_&_&Hq&Hst&Hm);
      [by apply sched_ok_intr, Ht|].
    rewrite E. cbn. eexists; split; [done|]. split; [done|].
    apply (threads_ok_sched (ks s)); try done.
    intros u Hp. rewrite Hst. case_decide as H1; [|case_decide as H2; [|by left]]; right; cbn in *.
    + split; [|by right]. apply (picked_ok _ _ _ _ Ht Hp). left. subst u.
      rewrite <- Hq. apply list_elem_of_here.
    + subst u. rewrite Hc. split; [by right | by left].
  - destruct Hen as (Hp0 & Hb & Hid0).
    destruct (thread_block_ok (with_intr true (ks s)) st) as (k'&E&Hok'&(_&Hid&_)&_&_&Hq&Hst&Hm);
      [by apply sched_ok_intr, Ht | done | done |].
    rewrite E. cbn. eexists; split; [done|]. split; [done|].
    apply (threads_ok_sched (ks s)); try done.
    intros u Hp. rewrite Hst. case_decide as H1; [|case_decide as H2; [|by left]]; cbn in *.
    + right. split; [|by right]. apply (picked_ok _ _ _ _ Ht Hp). subst u.
      destruct (thread_ready_list (ks s)) as [|y r]; injection Hq as -> _; [by right | left].
      apply list_elem_of_here.
    + subst u. done.
  - destruct Hen as (_ & Hpt & st & Hst0 & Hb).
    destruct (thread_unblock_wf (with_intr true (ks s)) t st) as (k'&E&Hwf'&(_&Hid&_)&Hc'&_&_&Hst&Hm);
      [by apply sched_ok_intr, Ht | done | done |].
    rewrite E. cbn. eexists; split; [done|]. split; [done|].
    apply (threads_ok_sched (ks s)); try done.
    + split; [done|]. rewrite Hst. cbn [ks]. rewrite Hc'. cbn. case_decide; [|done].
      subst t. rewrite Hc in Hst0. by injection Hst0 as <-.
    + intros u Hp. left. rewrite Hst. case_decide; [by subst | done].
Qed.

Lemma step_ok s a : sys_ok s -> enabled a s -> exists s', exec a s = Ok s' /\ sys_ok s'.
Proof.
  intros Hok Hen. destruct a.
  - by apply step_acquire.
  - by apply step_down.
  - by apply step_take.
  - by apply step_release.
  - destruct (step_up s Hok Hen) as (s'&?&?&_). by exists s'.
  - by apply step_sched.
  - by apply step_sched.
  - by apply step_sched.
  - by apply step_sched.
Qed.

Lemma reachable_ok s : reachable s -> sys_ok s.
Proof.
  induction 1 as [s Hi|s a s' _ IH Hen E]; [by apply init_sys_ok|].
  destruct (step_ok s a IH Hen) as (s2&E2&?). by rewrite E in E2; injection E2 as ->.
Qed.

Lemma sema_down_queue k s k' s' b : sema_down_turn k s = Ok (k', s', b) ->
  waiters s' = if value s =? 0 then waiters s ++ [cur k] else waiters s.
Proof.
  unfold sema_down_turn, running_thread. case_bool; intros E0; inv_ok E0; [|by injection E0 as _ <- _].
  destruct (elem_find (waiters s) (cur k)); [done|]. inv_ok E0. destruct a0. by injection E0 as _ <- _.
Qed.

Lemma sema_up_queue k s k' s' : sema_up k s = Ok (k', s') -> waiters s' = tail (waiters s).
Proof.
  unfold sema_up. destruct (intr_disable k) as [o k0]. intros E. inv_ok E. inv_ok E. destruct a0 as [k1 s1]. inv_ok E. injection E as _ <-.
  destruct (waiters s) as [|w ws] eqn:Ew; [by injection E1 as _ <-|]. inv_ok E1. by injection E1 as _ <-.
Qed.

Lemma lock_steps_sem k l :
  sem (fst (lock_acquire_check k l)) = sem l
  /\ (forall l', lock_acquire_take k l = Ok l' -> sem l' = sem l)
  /\ (forall l' b, lock_release_drop k l = Ok (l', b) -> sem l' = sem l).
Proof.
  split_and!.
  - unfold lock_acquire_check. by case_bool.
  - unfold lock_acquire_take. intros l' E. inv_ok E. by injection E as <-.
  - unfold lock_release_drop. intros l' b E. inv_ok E. revert E. case_bool; intros E; [by injection E as <- _|]. inv_ok E. by injection E as <- _.
Qed.

(** The queue of the semaphore: joined at the end, left at the front. *)
Lemma waiters_step a s s' : exec a s = Ok s' ->
  waiters (sem (lk s')) = match a with
    | Down => if value (sem (lk s)) =? 0 then waiters (sem (lk s)) ++ [cur (ks s)] else waiters (sem (lk s))
    | Up => tail (waiters (sem (lk s)))
    | _ => waiters (sem (lk s))
    end.
Proof.
  destruct (lock_steps_sem (with_intr true (ks s)) (lk s)) as (H1 & H2 & H3).
  destruct a; cbn [exec]; intros E; try (inv_ok E; repeat match type of E with match ?x with _ => _ end = _ => destruct x end; by injection E as <-).
  - destruct (lock_acquire_check _ _) as [l b]. injection E as <-. cbn in *. by rewrite H1.
  - inv_ok E. destruct a as [[k' s'0] b]. injection E as <-. by apply sema_down_queue in E0.
  - inv_ok E. injection E as <-. cbn. by rewrite (H2 _ eq_refl).
  - inv_ok E. destruct a as [l b]. injection E as <-. cbn. by rewrite (H3 _ _ eq_refl).
  - inv_ok E. destruct a as [k' s'0]. injection E as <-. by apply sema_up_queue in E0.
Qed.

(** ** Properties *)

(** No interleaving of any number of threads acquiring (also recursively)
    and releasing the lock, with timer interrupts, yields, blocking and waking in
    between, makes an assertion of the lock, the semaphore or the scheduler
    fail: every action a thread can come to executes. *)
Theorem lock_never_panics s a : reachable s -> enabled a s -> exists s', exec a s = Ok s'.
Proof.
  intros Hr Hen. destruct (step_ok s a (reachable_ok s Hr) Hen) as (s'&?&_). by exists s'.
Qed.

(** C13. Mutual exclusion: in every reachable state at most one thread is past
    [sema_down] and not yet through [sema_up], the semaphore counts exactly
    that, and [holder] and [holder_repeat_nr] name the thread that holds the
    lock, if any. *)
Theorem lock_mutual_exclusion s : reachable s ->
  (forall t u, owns (pcs s t) = true -> owns (pcs s u) = true -> t = u)
  /\ (value (sem (lk s)) = 0 <-> exists t, owns (pcs s t) = true)
  /\ (value (sem (lk s)) = 0 \/ value (sem (lk s)) = 1)
  /\ (forall t, pcs s t = Held <-> holder (lk s) = t /\ t <> 0)
  /\ (holder (lk s) = 0 <-> holder_repeat_nr (lk s) = 0).
Proof.
  intros Hr. destruct (reachable_ok s Hr) as [Hl Ht].
  destruct (lo_own _ _ Hl) as (o&Hv&Ho). rewrite Hv.
  assert (forall t, pcs s t = Held -> t <> 0) as Hnz.
  { intros t Hp ->. destruct (to_sched _ _ _ Ht) as [Hwf _]. pose proof (wf_nonzero _ Hwf) as H0.
    pose proof (to_dom _ _ _ Ht 0) as Hd. rewrite Hp, H0 in Hd. by destruct (Hd ltac:(done)). }
  assert ((exists t, pcs s t = Held) \/ forall t, pcs s t <> Held) as Hex.
  { destruct o as [o|].
    - destruct (decide (pcs s o = Held)) as [E|E]; [left; eauto | right].
      intros t Hp. assert (Some o = Some t) as [= ->] by (by apply Ho; rewrite Hp). done.
    - right. intros t Hp. assert (None = Some t) by (by apply Ho; rewrite Hp). done. }
  split_and!.
  - intros t u H1 H2. apply Ho in H1, H2. congruence.
  - destruct o as [o|]; split; try done.
    + intros _. exists o. by apply Ho.
    + intros [t H]. apply Ho in H. done.
  - destruct o; auto.
  - intros t. split; [intros Hp; split; [by apply (lo_held _ _ Hl) | auto]|].
    intros [Hh Hz]. destruct Hex as [[u Hu]|Hn].
    + destruct (lo_held _ _ Hl u Hu) as [E _]. congruence.
    + destruct (lo_free _ _ Hl Hn) as [E _]. congruence.
  - destruct Hex as [[u Hu]|Hn].
    + destruct (lo_held _ _ Hl u Hu) as [E1 E2]. apply Hnz in Hu. split; [congruence | lia].
    + destruct (lo_free _ _ Hl Hn) as [E1 E2]. by rewrite E1, E2.
Qed.

(** C31. No lost wakeup: a thread in the waiters' queue is blocked inside
    [sema_down]; when the semaphore is free while threads wait, one thread has
    been woken and is ready or running, about to retry; [sema_up] wakes the
    longest waiting thread and puts it at the front of the ready list: the queue
    is joined at the end by a thread that finds the semaphore taken, left at the
    front by the one [sema_up] wakes, and changed by no other action. *)
Theorem lock_no_lost_wakeup s : reachable s ->
  (forall t, t ∈ waiters (sem (lk s)) -> pcs s t = InDown /\ st_of (ks s) t = Some TASK_BLOCKED)
  /\ NoDup (waiters (sem (lk s)))
  /\ (value (sem (lk s)) = 1 -> waiters (sem (lk s)) <> [] ->
      exists t, pcs s t = InDown
        /\ (st_of (ks s) t = Some TASK_READY \/ st_of (ks s) t = Some TASK_RUNNING))
  /\ (forall w ws, enabled Up s -> waiters (sem (lk s)) = w :: ws ->
      exists s', exec Up s = Ok s' /\ value (sem (lk s')) = 1 /\ waiters (sem (lk s')) = ws
        /\ thread_ready_list (ks s') = w :: thread_ready_list (ks s))
  /\ (forall a s', exec a s = Ok s' -> waiters (sem (lk s')) =
      match a with
      | Down => if value (sem (lk s)) =? 0 then waiters (sem (lk s)) ++ [cur (ks s)] else waiters (sem (lk s))
      | Up => tail (waiters (sem (lk s)))
      | _ => waiters (sem (lk s))
      end).
Proof.
  intros Hr. destruct (reachable_ok s Hr) as [Hl Ht]. split_and!.
  - apply (to_wait _ _ _ Ht).
  - apply (lo_nodup _ _ Hl).
  - intros Hv Hw. destruct (lo_lost _ _ Hl Hv Hw) as (t&Hp&Hn). exists t. split; [done|].
    by apply (to_woken _ _ _ Ht).
  - intros w ws Hen Hw. destruct (step_up s (conj Hl Ht) Hen) as (s'&E&[Hl' _]&Hs').
    destruct (Hs' w ws Hw) as [H1 H2]. exists s'. split_and!; try done.
    destruct (lo_own _ _ Hl') as (o&->&Ho). destruct o as [t|]; [|done]. exfalso.
    assert (owns (pcs s' t) = true) as H by (by apply Ho).
    assert (forall u, pcs s' u = pc_upd (pcs s) (cur (ks s)) Out u) as Hpcs.
    { intros u. cbn in E. inv_ok E. destruct a. by injection E as <-. }
    rewrite Hpcs in H. unfold pc_upd in H. case_decide as Hc; [done|].
    destruct (lo_own _ _ Hl) as (o'&_&Ho'). apply Ho' in H. cbn in Hen.
    assert (o' = Some (cur (ks s))) as E' by (by apply Ho'; rewrite Hen). congruence.
  - intros a s'. apply waiters_step.
Qed.

(** ** Witnesses *)

Lemma demo_sys_reachable : reachable demo_sys.
Proof.
  apply reach_init. split_and!; try done; [apply demo_ok|].
  intros t. unfold st_of, magic_of; cbn [ks demo_sys tasks demo_state]. rewrite !lookup_insert.
  repeat case_decide; try done. intros [y Hy]. by rewrite lookup_empty in Hy.
Qed.

Example lock_never_panics_witness : exists s', exec Acquire demo_sys = Ok s'.
Proof.
  apply (lock_never_panics demo_sys Acquire demo_sys_reachable).
  split; [cbn; lia | by left].
Defined.

(** The first thread takes the lock, the second one queues up for it, and the
    first is about to give the semaphore back. *)
Definition run_actions (l : list action) (s : sys) : sys :=
  fold_left (fun s a => match exec a s with Ok s' => s' | Err _ => s end) l s.
Definition demo_held : sys := run_actions [Acquire; Down; Take] demo_sys.
Definition demo_wait : sys := run_actions [Yield; Acquire; Down; Release] demo_held.

Lemma reach_run s a l : reachable s -> enabled a s -> (exists s', exec a s = Ok s') ->
  (forall s', reachable s' -> exec a s = Ok s' -> reachable (run_actions l s')) -> reachable (run_actions (a :: l) s).
Proof.
  intros Hr He [s' E] Hl. cbn. rewrite E. apply Hl; [by eapply reach_step | done].
Qed.

Ltac reach_next := apply reach_run;
  [assumption | vm_compute; intuition congruence | eexists; vm_compute; reflexivity
  | let s := fresh "s" in let E := fresh "E" in intros s ? E; vm_compute in E; injection E as <-].

Lemma demo_held_reachable : reachable demo_held.
Proof. pose proof demo_sys_reachable. unfold demo_held. do 3 reach_next. assumption. Qed.

Lemma demo_wait_reachable : reachable demo_wait.
Proof. pose proof demo_held_reachable. unfold demo_wait. do 4 reach_next. assumption. Qed.

Example lock_mutual_exclusion_witness :
  (pcs demo_held 0x1000 = Held <-> holder (lk demo_held) = 0x1000 /\ 0x1000 <> 0)
  /\ holder (lk demo_held) = 0x1000.
Proof. split; [apply (lock_mutual_exclusion demo_held demo_held_reachable) | reflexivity]. Defined.

Example lock_no_lost_wakeup_witness :
  exists s', exec Up demo_wait = Ok s' /\ waiters (sem (lk s')) = []
    /\ thread_ready_list (ks s') = 0x2000 :: thread_ready_list (ks demo_wait).
Proof.
  destruct (lock_no_lost_wakeup demo_wait demo_wait_reachable) as (_ & _ & _ & Hup & _).
  destruct (Hup 0x2000 []) as (s' & E & _ & Hw & Hr); [vm_compute; reflexivity.. |].
  exists s'. split; [exact E|]. split; [exact Hw | exact Hr].
Defined.
