(* ===== verification/Ioqueue.v ===== *)
(** device/ioqueue.c and ioqueue.h: the ring buffer behind the keyboard and the
    pipes, with the threads that wait on it. *)
From S2P Require Import Prelude Thread Sync.

Definition bufsize : Z := 2048.

Record ioqueue := mk_ioqueue {
  ioq_lock : lock; producer : Z; consumer : Z;
  buf : list Z; head : Z; tail : Z }.

Definition with_producer (v : Z) (q : ioqueue) : ioqueue :=
  mk_ioqueue (ioq_lock q) v (consumer q) (buf q) (head q) (tail q).
Definition with_consumer (v : Z) (q : ioqueue) : ioqueue :=
  mk_ioqueue (ioq_lock q) (producer q) v (buf q) (head q) (tail q).
Definition with_lock (v : lock) (q : ioqueue) : ioqueue :=
  mk_ioqueue v (producer q) (consumer q) (buf q) (head q) (tail q).

(** [b] is the memory the queue is laid in. *)
Definition ioqueue_init (b : list Z) : ioqueue := mk_ioqueue lock_init 0 0 b 0 0.

Definition next_pos (pos : Z) : Z := Z.rem (pos + 1) bufsize.

Definition ioq_full (k : kstate) (q : ioqueue) : outcome bool :=
  c_assert (negb (intr_get_status k)) ;;; Ok (next_pos (head q) =? tail q).

Definition ioq_empty (k : kstate) (q : ioqueue) : outcome bool :=
  c_assert (negb (intr_get_status k)) ;;; Ok (head q =? tail q).

(** [ioq_wait]: the caller registers as the waiter and loses the processor. *)
Definition ioq_wait (k : kstate) (waiter : Z) : outcome (kstate * Z) :=
  c_assert (waiter =? 0) ;;;
  let waiter := running_thread k in
  let! ' (k, _) := thread_block k TASK_BLOCKED in
  Ok (k, waiter).

Definition wakeup (k : kstate) (waiter : Z) : outcome (kstate * Z) :=
  c_assert (negb (waiter =? 0)) ;;;
  let! k := thread_unblock k waiter in
  Ok (k, 0).

(** [ioq_getchar] up to its end or to where the caller blocks ([None]): in
    [lock_acquire], or in [ioq_wait] as the registered consumer. A caller that
    runs again releases the lock and starts over. *)
Definition ioq_getchar (k : kstate) (q : ioqueue) : outcome (kstate * ioqueue * option Z) :=
  c_assert (negb (intr_get_status k)) ;;;
  let! empty := ioq_empty k q in
  if empty then
    let! ' (k, l, got) := lock_acquire k (ioq_lock q) in
    let q := with_lock l q in
    if (got : bool) then
      let! ' (k, w) := ioq_wait k (consumer q) in Ok (k, with_consumer w q, None)
    else Ok (k, q, None)
  else
    let! byte := rd (buf q) (tail q) in
    let q := mk_ioqueue (ioq_lock q) (producer q) (consumer q) (buf q) (head q) (next_pos (tail q)) in
    let! ' (k, w) := if negb (producer q =? 0) then wakeup k (producer q) else Ok (k, producer q) in
    Ok (k, with_producer w q, Some byte).

Definition ioq_putchar (k : kstate) (q : ioqueue) (byte : Z)
  : outcome (kstate * ioqueue * option unit) :=
  c_assert (negb (intr_get_status k)) ;;;
  let! full := ioq_full k q in
  if full then
    let! ' (k, l, got) := lock_acquire k (ioq_lock q) in
    let q := with_lock l q in
    if (got : bool) then
      let! ' (k, w) := ioq_wait k (producer q) in Ok (k, with_producer w q, None)
    else Ok (k, q, None)
  else
    let! b := wr (buf q) (head q) byte in
    let q := mk_ioqueue (ioq_lock q) (producer q) (consumer q) b (next_pos (head q)) (tail q) in
    let! ' (k, w) := if negb (consumer q =? 0) then wakeup k (consumer q) else Ok (k, consumer q) in
    Ok (k, with_consumer w q, Some tt).

Definition ioq_length (q : ioqueue) : Z :=
  if tail q <=? head q then u32 (head q - tail q) else u32 (bufsize - (tail q - head q)).

(** ** Pipes (shell/pipe.c): the transfers between a buffer and the queue *)

(** The loop of [pipe_read], over the bytes read so far; [false] when blocked. *)
Definition pipe_read_body (size : Z) (s : kstate * ioqueue * list Z)
  : outcome (kstate * ioqueue * list Z + kstate * ioqueue * list Z * bool) :=
  let '(k, q, out) := s in
  if zlen out <? size then
    let! ' (k, q, r) := ioq_getchar k q in
    match r with
    | Some byte => Ok (inl (k, q, out ++ [byte]))
    | None => Ok (inr (k, q, out, false))
    end
  else Ok (inr (k, q, out, true)).

Definition pipe_read (k : kstate) (q : ioqueue) (count : Z)
  : outcome (kstate * ioqueue * list Z * bool) :=
  let ioq_len := ioq_length q in
  let size := if count <? ioq_len then count else ioq_len in
  loop (pipe_read_body size) (S (Z.to_nat size)) (k, q, []).

(** The loop of [pipe_write], over the number of bytes written. *)
Definition pipe_write_body (data : list Z) (size : Z) (s : kstate * ioqueue * Z)
  : outcome (kstate * ioqueue * Z + kstate * ioqueue * Z * bool) :=
  let '(k, q, n) := s in
  if n <? size then
    let! byte := rd data n in
    let! ' (k, q, r) := ioq_putchar k q byte in
    match r with
    | Some _ => Ok (inl (k, q, n + 1))
    | None => Ok (inr (k, q, n, false))
    end
  else Ok (inr (k, q, n, true)).

Definition pipe_write (k : kstate) (q : ioqueue) (data : list Z) (count : Z)
  : outcome (kstate * ioqueue * Z * bool) :=
  let ioq_left := u32 (bufsize - ioq_length q) in
  let size := if count <? ioq_left then count else ioq_left in
  loop (pipe_write_body data size) (S (Z.to_nat size)) (k, q, 0).

(** ** Specification: the queue as a bounded FIFO *)

(** Cell [i] places after [tail]. *)
Definition slot (q : ioqueue) (i : Z) : Z := (tail q + i) mod bufsize.

Record ioq_rep (q : ioqueue) (l : list Z) : Prop := {
  ir_buf : zlen (buf q) = bufsize;
  ir_tail : 0 <= tail q < bufsize;
  ir_len : zlen l < bufsize;
  ir_head : head q = slot q (zlen l);
  ir_cell : forall i, 0 <= i < zlen l -> znth (buf q) (slot q i) = znth l i }.

(** A registered waiter is nobody or a blocked thread. *)
Definition waiter_ok (k : kstate) (w : Z) : Prop :=
  w = 0 \/ exists s, st_of k w = Some s /\ is_blocked_status s = true.

(** What waking the waiter [w] does: nothing for nobody, else [w] is the first
    ready thread. *)
Definition woken (k : kstate) (w : Z) (k' : kstate) : Prop :=
  sched_ok k' /\ intr k' = intr k /\ cur k' = cur k
  /\ if w =? 0 then k' = k
     else thread_ready_list k' = w :: thread_ready_list k /\ st_of k' w = Some TASK_READY.

(** An empty queue whose cursors are at [p]. *)
Definition demo_ring (p : Z) : ioqueue := mk_ioqueue lock_init 0 0 (replicate 2048 0) p p.

(** ** Lemmas *)

Lemma next_pos_mod p : 0 <= p -> next_pos p = (p + 1) mod bufsize.
Proof. intros. unfold next_pos, bufsize. apply Z.rem_mod_nonneg; lia. Qed.

Lemma mod_case x : 0 <= x < 2 * bufsize ->
  x mod bufsize = if x <? bufsize then x else x - bufsize.
Proof. unfold bufsize. intros. case_bool; zb; Z.to_euclidean_division_equations; lia. Qed.

Lemma slot_eq q i : 0 <= tail q < bufsize -> 0 <= i < bufsize ->
  slot q i = if tail q + i <? bufsize then tail q + i else tail q + i - bufsize.
Proof. intros. unfold slot. apply mod_case. lia. Qed.

Lemma slot_range q i : 0 <= slot q i < bufsize.
Proof. unfold slot. apply Z.mod_pos_bound. done. Qed.

Lemma slot_inj q i j : 0 <= tail q < bufsize -> 0 <= i < bufsize -> 0 <= j < bufsize ->
  slot q i = slot q j -> i = j.
Proof. intros Ht Hi Hj. rewrite !slot_eq by done. repeat case_bool; zb; lia. Qed.

Lemma head_next q l : ioq_rep q l -> next_pos (head q) = (tail q + zlen l + 1) mod bufsize.
Proof.
  intros []. rewrite next_pos_mod, ir_head0 by (rewrite ir_head0; apply slot_range).
  unfold slot. rewrite Z.add_mod_idemp_l by done. done.
Qed.

(** Fullness, emptiness and length of the represented queue. *)
Lemma ioq_full_ok k q l : ioq_rep q l -> intr k = false ->
  ioq_full k q = Ok (zlen l =? bufsize - 1).
Proof.
  intros Hr Hi. unfold ioq_full, intr_get_status. rewrite Hi. cbn [negb c_assert obind]. f_equal.
  rewrite (head_next q l Hr). destruct Hr. rewrite mod_case by lia.
  unfold bufsize in *. case_bool; zb;
    [ destruct (Z.eqb_spec (zlen l) (2048 - 1)); apply Z.eqb_neq || apply Z.eqb_eq; lia
    | destruct (Z.eqb_spec (zlen l) (2048 - 1)); apply Z.eqb_neq || apply Z.eqb_eq; lia ].
Qed.

Lemma ioq_empty_ok k q l : ioq_rep q l -> intr k = false ->
  ioq_empty k q = Ok (zlen l =? 0).
Proof.
  intros Hr Hi. unfold ioq_empty, intr_get_status. rewrite Hi. cbn [negb c_assert obind]. f_equal.
  destruct Hr. rewrite ir_head0, slot_eq by lia. unfold bufsize in *.
  case_bool; zb; destruct (Z.eqb_spec (zlen l) 0); apply Z.eqb_neq || apply Z.eqb_eq; lia.
Qed.

Lemma ioq_length_ok q l : ioq_rep q l -> ioq_length q = zlen l.
Proof.
  intros []. unfold ioq_length. rewrite ir_head0, slot_eq by lia.
  unfold bufsize in *. repeat case_bool; zb; rewrite u32_small; lia.
Qed.

Lemma wakeup_ok k w : sched_ok k -> waiter_ok k w ->
  exists k', (if negb (w =? 0) then wakeup k w else Ok (k, w)) = Ok (k', 0) /\ woken k w k'.
Proof.
  intros Hs Hw. unfold woken. destruct (Z.eqb_spec w 0) as [->|Hw0]; cbn [negb].
  - exists k. by split.
  - destruct Hw as [?|(s & Hst & Hb)]; [done|]. unfold wakeup. zdec. cbn [c_assert obind].
    destruct Hs as [Hwf Hc].
    destruct (thread_unblock_wf k w s Hwf Hst Hb) as (k'&->&Hwf'&_&Hc'&Hi'&Hr&Hst'&_).
    exists k'. split; [done|]. split_and!; try done.
    + split; [done|]. rewrite Hst', Hc'. case_decide; [|done].
      subst w. rewrite Hc in Hst. by injection Hst as <-.
    + rewrite Hst'. by rewrite decide_True.
Qed.

Lemma ioq_put_ok k q l b : ioq_rep q l -> intr k = false -> zlen l < bufsize - 1 ->
  sched_ok k -> waiter_ok k (consumer q) ->
  exists k' q', ioq_putchar k q b = Ok (k', q', Some tt) /\ ioq_rep q' (l ++ [b])
    /\ producer q' = producer q /\ ioq_lock q' = ioq_lock q /\ consumer q' = 0
    /\ woken k (consumer q) k'.
Proof.
  intros Hr Hi Hl Hs Hw. unfold ioq_putchar.
  rewrite (ioq_full_ok _ _ _ Hr Hi). unfold intr_get_status. rewrite Hi.
  cbn [negb c_assert obind]. unfold bufsize in Hl. change (bufsize - 1) with 2047. zdec.
  pose proof (head_next _ _ Hr) as Hn. destruct Hr. pose proof (slot_range q (zlen l)) as Hsr.
  rewrite wr_in by (rewrite ir_head0, ir_buf0; done). cbn [obind consumer].
  destruct (wakeup_ok k (consumer q) Hs Hw) as (k'&->&Hwk). cbn [obind].
  exists k'; eexists; split; [done|]. split; [|by cbn].
  assert (zlen (l ++ [b]) = zlen l + 1) as Hzl by (rewrite length_app; cbn; lia).
  constructor; cbn [buf tail head with_consumer].
  - by rewrite length_insert.
  - done.
  - unfold bufsize in *; lia.
  - rewrite Hn, Hzl. unfold slot. cbn [tail with_consumer]. f_equal. lia.
  - intros i Hi'. change (slot _ i) with (slot q i).
    rewrite ir_head0, znth_insert by (rewrite ir_buf0; done).
    destruct (Z.eqb_spec (slot q i) (slot q (zlen l))) as [E|E].
    + apply slot_inj in E; [|done|unfold bufsize in *; lia|done || lia]. subst i.
      unfold znth. zdec. rewrite lookup_app_r by lia.
      by replace (Z.to_nat (zlen l) - length l)%nat with 0%nat by lia.
    + destruct (Z.eq_dec i (zlen l)) as [->|]; [done|].
      rewrite ir_cell0 by lia. unfold znth. zdec. by rewrite lookup_app_l by lia.
Qed.

Lemma ioq_get_ok k q b l : ioq_rep q (b :: l) -> intr k = false ->
  sched_ok k -> waiter_ok k (producer q) ->
  exists k' q', ioq_getchar k q = Ok (k', q', Some b) /\ ioq_rep q' l
    /\ consumer q' = consumer q /\ ioq_lock q' = ioq_lock q /\ producer q' = 0
    /\ woken k (producer q) k'.
Proof.
  intros Hr Hi Hs Hw. unfold ioq_getchar.
  rewrite (ioq_empty_ok _ _ _ Hr Hi). unfold intr_get_status. rewrite Hi.
  cbn [negb c_assert obind]. destruct Hr.
  assert (zlen (b :: l) = zlen l + 1) as Hzl by (cbn; lia). rewrite Hzl in *. zdec.
  pose proof (ir_cell0 0 ltac:(lia)) as Hc0.
  rewrite slot_eq in Hc0 by (unfold bufsize in *; lia). rewrite Z.add_0_r in Hc0.
  replace (tail q <? bufsize) with true in Hc0 by (symmetry; apply Z.ltb_lt; lia).
  cbn in Hc0. rewrite (rd_znth _ _ _ Hc0). cbn [obind producer].
  destruct (wakeup_ok k (producer q) Hs Hw) as (k'&->&Hwk). cbn [obind].
  exists k'; eexists; split; [done|]. split; [|by cbn].
  assert (forall i, 0 <= i -> (next_pos (tail q) + i) mod bufsize = slot q (i + 1)) as Hsl.
  { intros i Hi'. rewrite next_pos_mod by lia. unfold slot. rewrite Z.add_mod_idemp_l by done.
    f_equal. lia. }
  constructor; cbn [buf tail head with_producer].
  - done.
  - rewrite next_pos_mod by lia. by apply Z.mod_pos_bound.
  - lia.
  - unfold slot; cbn [tail with_producer]. rewrite Hsl by lia. done.
  - intros i Hi'. unfold slot at 1; cbn [tail with_producer]. rewrite Hsl by lia.
    rewrite ir_cell0 by lia. unfold znth. zdec.
    by replace (Z.to_nat (i + 1)) with (S (Z.to_nat i)) by lia.
Qed.

#[local] Arguments intr_set_status : simpl never.

(** A free lock is taken without losing the processor. *)
Definition lock_free (l : lock) : Prop :=
  holder l = 0 /\ holder_repeat_nr l = 0 /\ value (sem l) = 1.

Lemma lock_acquire_free k l : sched_ok k -> intr k = false -> lock_free l ->
  lock_acquire k l
  = Ok (with_intr false k, mk_lock (cur k) (mk_sema 0 (waiters (sem l))) 1, true).
Proof.
  intros [Hwf Hc] Hi (Hh & Hn & Hv). unfold lock_acquire, lock_acquire_check, running_thread.
  assert (cur k <> 0) as H0.
  { intros E. pose proof (wf_nonzero _ Hwf) as Hz. rewrite <- E, Hc in Hz. done. }
  rewrite Hh. zdec. cbn [negb]. rewrite intr_disable_eq. unfold sema_down_turn. rewrite Hv.
  cbn. unfold lock_acquire_take. cbn. rewrite Hn. change (u8 (1 - 1)) with 0. cbn.
  rewrite intr_set_status_eq, Hi. by destruct k.
Qed.

(** The caller blocks as the waiter recorded in the queue. *)
Definition blocked_on (k k' : kstate) (q q' : ioqueue) (l : list Z) : Prop :=
  sched_ok k' /\ intr k' = false /\ ioq_rep q' l /\ holder (ioq_lock q') = cur k
  /\ (cur k' <> cur k -> st_of k' (cur k) = Some TASK_BLOCKED).

Lemma ioq_wait_ok k : sched_ok k -> intr k = false ->
  exists k', ioq_wait (with_intr false k) 0 = Ok (k', cur k) /\ sched_ok k' /\ intr k' = false
    /\ (cur k' <> cur k -> st_of k' (cur k) = Some TASK_BLOCKED).
Proof.
  intros Hs Hi. unfold ioq_wait. cbn [Z.eqb c_assert obind].
  destruct (thread_block_ok (with_intr false k) TASK_BLOCKED) as (k'&->&Hok'&_&Hi'&_&_&Hst&_);
    [|done|done|].
  { destruct Hs as [[] ?]. by split; [constructor|]. }
  cbn. exists k'. split_and!; try done. intros Hne. rewrite Hst, decide_False by done.
  cbn. by rewrite decide_True.
Qed.

Lemma ioq_put_full k q l b : ioq_rep q l -> intr k = false -> zlen l = bufsize - 1 ->
  sched_ok k -> lock_free (ioq_lock q) -> producer q = 0 ->
  exists k' q', ioq_putchar k q b = Ok (k', q', None) /\ blocked_on k k' q q' l
    /\ producer q' = cur k /\ consumer q' = consumer q.
Proof.
  intros Hr Hi Hl Hs Hf Hp. unfold ioq_putchar.
  rewrite (ioq_full_ok _ _ _ Hr Hi), Hl. unfold intr_get_status. rewrite Hi.
  change (bufsize - 1 =? bufsize - 1) with true. cbn [negb c_assert obind].
  rewrite lock_acquire_free by done. cbn [obind producer with_lock]. rewrite Hp.
  destruct (ioq_wait_ok k Hs Hi) as (k'&->&Hok'&Hi'&Hst). cbn [obind].
  exists k'; eexists; split; [done|]. split; [|done]. split_and!; try done.
  destruct Hr. by constructor.
Qed.

Lemma ioq_get_empty k q : ioq_rep q [] -> intr k = false ->
  sched_ok k -> lock_free (ioq_lock q) -> consumer q = 0 ->
  exists k' q', ioq_getchar k q = Ok (k', q', None) /\ blocked_on k k' q q' []
    /\ consumer q' = cur k /\ producer q' = producer q.
Proof.
  intros Hr Hi Hs Hf Hp. unfold ioq_getchar.
  rewrite (ioq_empty_ok _ _ _ Hr Hi). unfold intr_get_status. rewrite Hi.
  change (zlen (@nil Z) =? 0) with true. cbn [negb c_assert obind].
  rewrite lock_acquire_free by done. cbn [obind consumer with_lock]. rewrite Hp.
  destruct (ioq_wait_ok k Hs Hi) as (k'&->&Hok'&Hi'&Hst). cbn [obind].
  exists k'; eexists; split; [done|]. split; [|done]. split_and!; try done.
  destruct Hr. by constructor.
Qed.

(** ** Properties *)

(** C34. The ring buffer is a FIFO of at most 2047 bytes. A byte put into a
    queue that is not full comes out after the ones before it, and a
    registered consumer (producer) is woken and unregistered; on a full (empty)
    queue with a free lock the caller registers itself and blocks, the contents
    unchanged; [ioq_length] is the number of bytes held. *)
Theorem ioq_fifo k q l b : ioq_rep q l -> intr k = false -> sched_ok k ->
  waiter_ok k (consumer q) -> waiter_ok k (producer q) ->
  ioq_length q = zlen l
  /\ (zlen l < bufsize - 1 -> exists k' q', ioq_putchar k q b = Ok (k', q', Some tt)
      /\ ioq_rep q' (l ++ [b]) /\ consumer q' = 0 /\ woken k (consumer q) k')
  /\ (forall x l', l = x :: l' -> exists k' q', ioq_getchar k q = Ok (k', q', Some x)
      /\ ioq_rep q' l' /\ producer q' = 0 /\ woken k (producer q) k')
  /\ (lock_free (ioq_lock q) -> zlen l = bufsize - 1 -> producer q = 0 ->
      exists k' q', ioq_putchar k q b = Ok (k', q', None) /\ blocked_on k k' q q' l
        /\ producer q' = cur k)
  /\ (lock_free (ioq_lock q) -> l = [] -> consumer q = 0 ->
      exists k' q', ioq_getchar k q = Ok (k', q', None) /\ blocked_on k k' q q' []
        /\ consumer q' = cur k).
Proof.
  intros Hr Hi Hs Hc Hp. split_and!.
  - by apply ioq_length_ok.
  - intros Hl. destruct (ioq_put_ok k q l b Hr Hi Hl Hs Hc) as (k'&q'&?&?&_&_&?&?). eauto 10.
  - intros x l' ->. destruct (ioq_get_ok k q x l' Hr Hi Hs Hp) as (k'&q'&?&?&_&_&?&?). eauto 10.
  - intros Hf Hl Hp0. destruct (ioq_put_full k q l b Hr Hi Hl Hs Hf Hp0) as (k'&q'&?&?&?&_). eauto 10.
  - intros Hf -> Hc0. destruct (ioq_get_empty k q Hr Hi Hs Hf Hc0) as (k'&q'&?&?&?&_). eauto 10.
Qed.

Lemma zlen_take {A} (l : list A) n : 0 <= n <= zlen l -> zlen (take (Z.to_nat n) l) = n.
Proof. intros. rewrite length_take. lia. Qed.

Lemma take_snoc_znth {A} (l : list A) n x : znth l n = Some x ->
  take (Z.to_nat (n + 1)) l = take (Z.to_nat n) l ++ [x].
Proof.
  intros H. pose proof (znth_Some _ _ _ H) as Hr. unfold znth in H.
  destruct (n <? 0); [done|]. replace (Z.to_nat (n + 1)) with (S (Z.to_nat n)) by lia.
  by apply take_S_r.
Qed.

(** One byte of a pipe write that fits. *)
Lemma pipe_write_loop data size k0 q0 l r :
  ioq_rep q0 l -> intr k0 = false -> sched_ok k0 -> waiter_ok k0 (consumer q0) ->
  0 <= size <= zlen data -> r = Z.min size (bufsize - 1 - zlen l) ->
  (size > r -> lock_free (ioq_lock q0) /\ producer q0 = 0) ->
  exists k q, loop (pipe_write_body data size) (S (Z.to_nat size)) (k0, q0, 0)
    = Ok (k, q, r, bool_decide (size = r))
  /\ sched_ok k /\ ioq_rep q (l ++ take (Z.to_nat r) data)
  /\ (size <> r -> producer q = cur k0 /\ (cur k <> cur k0 -> st_of k (cur k0) = Some TASK_BLOCKED)).
Proof.
  intros Hr Hi Hs Hw Hsz Hrr Hfree. assert (0 <= r) as Hr0 by (destruct Hr; lia).
  loop_inv (fun s : kstate * ioqueue * Z => let '(k, q, n) := s in
    0 <= n <= r /\ sched_ok k /\ intr k = false /\ cur k = cur k0 /\ waiter_ok k (consumer q)
    /\ producer q = producer q0 /\ ioq_lock q = ioq_lock q0
    /\ ioq_rep q (l ++ take (Z.to_nat n) data))
   (fun s : kstate * ioqueue * Z => Z.to_nat (size - snd s)).
  - intros [[k q] n] (Hn&Hsk&Hik&Hck&Hwk&Hpk&Hlk&Hrk). unfold pipe_write_body.
    assert (zlen (l ++ take (Z.to_nat n) data) = zlen l + n) as Hzl.
    { rewrite length_app, Nat2Z.inj_add, zlen_take; lia. }
    destruct (Z.ltb_spec n size) as [Hlt|Hge].
    + destruct (znth_in data n ltac:(lia)) as [b Hb]. rewrite (rd_znth _ _ _ Hb). cbn [obind].
      destruct (Z.eq_dec n r) as [->|Hne].
      * destruct (Hfree ltac:(lia)) as [Hf Hp].
        destruct (ioq_put_full k q _ b Hrk Hik) as (k'&q'&E&(Hok'&_&Hrep&_&Hbl)&Hpr&_);
          [lia | done | by rewrite Hlk | by rewrite Hpk |].
        rewrite E. cbn [obind]. exists k', q'.
        rewrite bool_decide_false by lia. rewrite <- Hck. done.
      * destruct (ioq_put_ok k q _ b Hrk Hik ltac:(lia) Hsk Hwk) as (k'&q'&E&Hrep&Hp&Hlq&Hc&(Hok'&Hi'&Hc'&_)).
        rewrite E. cbn [obind]. split; [|cbn; lia].
        split_and!; try done; try lia; try congruence.
        -- by left.
        -- rewrite (take_snoc_znth _ _ _ Hb), app_assoc. done.
    + assert (n = size /\ size = r) as [-> E] by lia.
      exists k, q. rewrite bool_decide_true by done. rewrite <- E in *. done.
  - split_and!; try done; try lia. by rewrite app_nil_r.
  - cbn; lia.
Qed.

Lemma pipe_read_loop size k0 q0 l :
  ioq_rep q0 l -> intr k0 = false -> sched_ok k0 -> waiter_ok k0 (producer q0) ->
  0 <= size <= zlen l ->
  exists k q, loop (pipe_read_body size) (S (Z.to_nat size)) (k0, q0, [])
    = Ok (k, q, take (Z.to_nat size) l, true)
  /\ sched_ok k /\ cur k = cur k0 /\ ioq_rep q (drop (Z.to_nat size) l).
Proof.
  intros Hr Hi Hs Hw Hsz.
  loop_inv (fun s : kstate * ioqueue * list Z => let '(k, q, out) := s in
    zlen out <= size /\ out = take (length out) l /\ sched_ok k /\ intr k = false
    /\ cur k = cur k0 /\ waiter_ok k (producer q) /\ ioq_rep q (drop (length out) l))
   (fun s : kstate * ioqueue * list Z => Z.to_nat (size - zlen (snd s))).
  - intros [[k q] out] (Hn&Hout&Hsk&Hik&Hck&Hwk&Hrk). unfold pipe_read_body.
    destruct (Z.ltb_spec (zlen out) size) as [Hlt|Hge].
    + destruct (lookup_lt_is_Some_2 l (length out)) as [b Hb]; [lia|].
      rewrite (drop_S _ _ _ Hb) in Hrk.
      destruct (ioq_get_ok k q _ _ Hrk Hik Hsk Hwk) as (k'&q'&E&Hrep&_&_&Hp&(Hok'&Hi'&Hc'&_)).
      rewrite E. cbn [obind]. assert (length (out ++ [b]) = S (length out)) as Hl1
        by (rewrite length_app; cbn; lia).
      split; [|cbn; lia]. rewrite Hl1. split_and!; try done; try lia; try congruence.
      * rewrite (take_S_r _ _ _ Hb). by rewrite <- Hout.
      * by left.
    + assert (Z.to_nat size = length out) as -> by lia. exists k, q.
      split_and!; try done. by rewrite <- Hout.
  - cbn. split_and!; try done; lia.
  - cbn. lia.
Qed.

Lemma pipe_read_ok k q l count : ioq_rep q l -> intr k = false -> sched_ok k -> waiter_ok k (producer q) -> 0 <= count ->
  exists k' q', pipe_read k q count = Ok (k', q', take (Z.to_nat count) l, true) /\ sched_ok k' /\ ioq_rep q' (drop (Z.to_nat count) l).
Proof.
  intros Hr Hi Hs Hp Hcnt. unfold pipe_read. rewrite (ioq_length_ok q l Hr).
  set (size := if count <? zlen l then count else zlen l).
  assert (0 <= size <= zlen l) as Hsz by (unfold size; case_bool; zb; lia).
  destruct (pipe_read_loop size k q l) as (k'&q'&E&?&_&?); try done.
  exists k', q'. rewrite E. unfold size in *.
  destruct (Z.ltb_spec count (zlen l)); [done|]. split_and!; try done.
  - do 2 f_equal. by rewrite !take_ge by lia.
  - rewrite drop_ge by lia. by rewrite drop_ge in * by lia.
Qed.

(** Pipes keep order and lose nothing: [pipe_write] appends the bytes that
    fit, [pipe_read] returns the oldest [count] bytes (all there are when there
    are fewer) without ever blocking, and what is read back from an empty pipe
    is what was written. A write of more bytes than the 2047 the queue can hold
    next to its contents does not come back: the writer blocks on the full
    queue with the rest unwritten. *)
Theorem pipe_spec k q l data count : ioq_rep q l -> intr k = false -> sched_ok k ->
  waiter_ok k (consumer q) -> waiter_ok k (producer q) ->
  0 <= count <= zlen data -> count < 2 ^ 32 ->
  (zlen l + count <= bufsize - 1 ->
     exists k' q', pipe_write k q data count = Ok (k', q', count, true) /\ sched_ok k'
       /\ ioq_rep q' (l ++ take (Z.to_nat count) data))
  /\ (exists k' q', pipe_read k q count = Ok (k', q', take (Z.to_nat count) l, true)
       /\ sched_ok k' /\ ioq_rep q' (drop (Z.to_nat count) l))
  /\ (bufsize - 1 < zlen l + count -> lock_free (ioq_lock q) -> producer q = 0 ->
     exists k' q', pipe_write k q data count = Ok (k', q', bufsize - 1 - zlen l, false)
       /\ ioq_rep q' (l ++ take (Z.to_nat (bufsize - 1 - zlen l)) data)
       /\ producer q' = cur k /\ (cur k' <> cur k -> st_of k' (cur k) = Some TASK_BLOCKED)).
Proof.
  intros Hr Hi Hs Hc Hp Hcnt Hmax. pose proof (ioq_length_ok q l Hr) as Hlen.
  assert (zlen l < bufsize) as Hll by (by destruct Hr).
  unfold bufsize in *. split_and!.
  - intros Hfit. unfold pipe_write, bufsize. rewrite Hlen, u32_small by lia.
    replace (if count <? 2048 - zlen l then count else 2048 - zlen l) with count
      by (case_bool; zb; lia).
    destruct (pipe_write_loop data count k q l count) as (k'&q'&E&?&?&_); try done; unfold bufsize; try lia.
    exists k', q'. rewrite E, bool_decide_true by done. done.
  - apply pipe_read_ok; done || lia.
  - intros Hover Hf Hp0. unfold pipe_write, bufsize. rewrite Hlen, u32_small by lia.
    set (size := if count <? 2048 - zlen l then count else 2048 - zlen l).
    assert (size = 2048 - zlen l) as Hsz by (unfold size; case_bool; zb; lia).
    rewrite Hsz.
    destruct (pipe_write_loop data (2048 - zlen l) k q l (2048 - 1 - zlen l))
      as (k'&q'&E&?&?&Hb); try done; unfold bufsize; try lia.
    rewrite E, bool_decide_false by lia. exists k', q'. split_and!; try done; apply Hb; lia.
Qed.

(** ** Witnesses *)

Lemma demo_ring_rep : ioq_rep (demo_ring 5) [].
Proof.
  constructor; try done. intros i Hi. cbn in Hi. lia.
Qed.

Example ioq_fifo_witness :
  exists k' q', ioq_putchar demo_state (demo_ring 2047) 65 = Ok (k', q', Some tt)
    /\ ioq_rep q' [65] /\ consumer q' = 0 /\ woken demo_state 0 k'.
Proof.
  apply (ioq_fifo demo_state (demo_ring 2047) [] 65).
  - constructor; try done. intros i Hi. cbn in Hi. lia.
  - reflexivity.
  - apply demo_ok.
  - by left.
  - by left.
  - done.
Defined.

Example pipe_spec_witness :
  exists k' q', pipe_write demo_state (demo_ring 5) [1; 2; 3] 2 = Ok (k', q', 2, true)
    /\ sched_ok k' /\ ioq_rep q' [1; 2].
Proof.
  apply (pipe_spec demo_state (demo_ring 5) [] [1; 2; 3] 2); try done.
  - apply demo_ring_rep.
  - apply demo_ok.
  - by left.
  - by left.
Defined.
