(* ===== verification/Keyboard.v ===== *)
(** device/keyboard.c: the keyboard interrupt handler, from scan codes to the
    characters put in the keyboard's ring buffer. *)
From S2P Require Import Prelude Thread Sync Ioqueue.

Definition shift_l_make : Z := 0x2a.
Definition shift_r_make : Z := 0x36.
Definition alt_l_make : Z := 0x38.
Definition alt_r_make : Z := 0xe038.
Definition ctrl_l_make : Z := 0x1d.
Definition ctrl_r_make : Z := 0xe01d.
Definition caps_lock_make : Z := 0x3a.

(** [keymap]: without and with shift, by make code from 0x00 to 0x3a. *)
Definition keymap : list (Z * Z) :=
  [(0, 0); (27, 27); (49, 33); (50, 64); (51, 35); (52, 36);
   (53, 37); (54, 94); (55, 38); (56, 42); (57, 40); (48, 41);
   (45, 95); (61, 43); (8, 8); (9, 9); (113, 81); (119, 87);
   (101, 69); (114, 82); (116, 84); (121, 89); (117, 85); (105, 73);
   (111, 79); (112, 80); (91, 123); (93, 125); (13, 13); (0, 0);
   (97, 65); (115, 83); (100, 68); (102, 70); (103, 71); (104, 72);
   (106, 74); (107, 75); (108, 76); (59, 58); (39, 34); (96, 126);
   (0, 0); (92, 124); (122, 90); (120, 88); (99, 67); (118, 86);
   (98, 66); (110, 78); (109, 77); (44, 60); (46, 62); (47, 63);
   (0, 0); (42, 42); (0, 0); (32, 32); (0, 0)].

(** The static variables of the driver. *)
Record kbd := mk_kbd {
  ctrl_status : bool; shift_status : bool; alt_status : bool;
  caps_lock_status : bool; ext_scancode : bool }.

Definition set_ctrl (v : bool) (s : kbd) : kbd :=
  mk_kbd v (shift_status s) (alt_status s) (caps_lock_status s) (ext_scancode s).
Definition set_shift (v : bool) (s : kbd) : kbd :=
  mk_kbd (ctrl_status s) v (alt_status s) (caps_lock_status s) (ext_scancode s).
Definition set_alt (v : bool) (s : kbd) : kbd :=
  mk_kbd (ctrl_status s) (shift_status s) v (caps_lock_status s) (ext_scancode s).
Definition set_caps (v : bool) (s : kbd) : kbd :=
  mk_kbd (ctrl_status s) (shift_status s) (alt_status s) v (ext_scancode s).
Definition set_ext (v : bool) (s : kbd) : kbd :=
  mk_kbd (ctrl_status s) (shift_status s) (alt_status s) (caps_lock_status s) v.

(** What one scan code byte does: the new key state and the character to
    queue, if any ([None] also for an unknown key). *)
Definition kbd_break (s : kbd) (make_code : Z) : kbd :=
  if (make_code =? ctrl_l_make) || (make_code =? ctrl_r_make) then set_ctrl false s
  else if (make_code =? shift_l_make) || (make_code =? shift_r_make) then set_shift false s
  else if (make_code =? alt_l_make) || (make_code =? alt_r_make) then set_alt false s
  else s.

(** The keys whose two characters are chosen by shift alone. *)
Definition double_char_key (scancode : Z) : bool :=
  (scancode <? 0x0e) || (scancode =? 0x29) || (scancode =? 0x1a) || (scancode =? 0x1b)
  || (scancode =? 0x2b) || (scancode =? 0x27) || (scancode =? 0x28) || (scancode =? 0x33)
  || (scancode =? 0x34) || (scancode =? 0x35).

Definition kbd_shift (s : kbd) (scancode : Z) : bool :=
  if double_char_key scancode then shift_status s
  else if shift_status s && caps_lock_status s then false
  else shift_status s || caps_lock_status s.

(** The control keys, recorded for the next key stroke. *)
Definition kbd_control (s : kbd) (scancode : Z) : kbd :=
  if (scancode =? ctrl_l_make) || (scancode =? ctrl_r_make) then set_ctrl true s
  else if (scancode =? shift_l_make) || (scancode =? shift_r_make) then set_shift true s
  else if (scancode =? alt_l_make) || (scancode =? alt_r_make) then set_alt true s
  else if scancode =? caps_lock_make then set_caps (negb (caps_lock_status s)) s
  else s.

Definition kbd_decode (s : kbd) (byte : Z) : outcome (kbd * option Z) :=
  let scancode := u16 byte in
  if scancode =? 0xe0 then Ok (set_ext true s, None) else
  let '(scancode, s') :=
    if ext_scancode s then (Z.lor 0xe000 scancode, set_ext false s) else (scancode, s) in
  let break_code := negb (Z.land scancode 0x0080 =? 0) in
  if break_code then Ok (kbd_break s' (Z.land scancode 0xff7f), None)
  else if ((0x00 <? scancode) && (scancode <? 0x3b))
       || (scancode =? alt_r_make) || (scancode =? ctrl_r_make) then
    let shift := kbd_shift s scancode in
    let scancode := Z.land scancode 0x00ff in
    let index := u8 scancode in
    let! row := rd keymap index in
    let cur_char := if shift then snd row else fst row in
    if negb (cur_char =? 0) then
      let cur_char :=
        if (ctrl_status s && (cur_char =? 108)) || (ctrl_status s && (cur_char =? 117))
        then cur_char - 97 else cur_char in
      Ok (s', Some cur_char)
    else Ok (kbd_control s' scancode, None)
  else Ok (s', None).

(** The handler: the character is queued unless the buffer is full. *)
Definition intr_keyboard_handler (k : kstate) (s : kbd) (kbd_buf : ioqueue) (byte : Z)
  : outcome (kstate * kbd * ioqueue) :=
  let! ' (s, ch) := kbd_decode s byte in
  match ch with
  | None => Ok (k, s, kbd_buf)
  | Some cur_char =>
      let! full := ioq_full k kbd_buf in
      if negb full then
        let! ' (k, kbd_buf, _) := ioq_putchar k kbd_buf cur_char in Ok (k, s, kbd_buf)
      else Ok (k, s, kbd_buf)
  end.

(** ** Specification *)

(** The driver as a keyboard layout: bit 7 of a byte says whether the key went
    up, the rest which key it is; 0xe0 announces a right-hand or extended key. *)
Definition key_of (b : Z) : Z := b mod 128.
Definition key_down (b : Z) : bool := b <? 128.
Definition is_letter (c : Z) : bool := (97 <=? c) && (c <=? 122).

(** Modifier keys follow their key; caps lock flips on each press. *)
Definition kbd_next (s : kbd) (b : Z) : kbd :=
  if b =? 0xe0 then set_ext true s else
  let key := key_of b in
  let left := negb (ext_scancode s) in
  mk_kbd
    (if key =? 0x1d then key_down b else ctrl_status s)
    (if left && ((key =? 0x2a) || (key =? 0x36)) then key_down b else shift_status s)
    (if key =? 0x38 then key_down b else alt_status s)
    (if left && (b =? 0x3a) then negb (caps_lock_status s) else caps_lock_status s)
    false.

(** Shift chooses the second character of a key, caps lock inverts that choice
    for the letters only, and ctrl turns an unshifted l or u into a shortcut. *)
Definition kbd_char (s : kbd) (b : Z) : option Z :=
  if ext_scancode s then None else
  match znth keymap b with
  | None => None
  | Some (lo, hi) =>
      let upper := if is_letter lo then xorb (shift_status s) (caps_lock_status s)
                   else shift_status s in
      let c := if upper then hi else lo in
      if c =? 0 then None
      else if ctrl_status s && ((c =? 108) || (c =? 117)) then Some (c - 97) else Some c
  end.

(** ** Lemmas *)

#[export] Instance kbd_eq_dec : EqDecision kbd.
Proof. solve_decision. Defined.

Lemma all_bytes (P : Z -> bool) : forallb P (map Z.of_nat (seq 0 256)) = true ->
  forall b, is_byte b -> P b = true.
Proof.
  intros H b [H0 H1]. rewrite forallb_forall in H. apply H.
  apply in_map_iff. exists (Z.to_nat b). split; [lia|]. apply in_seq. lia.
Qed.

(** The code's decoding is the layout's, for every key state and every byte. *)
Lemma kbd_decode_layout s b : is_byte b ->
  kbd_decode s b = Ok (kbd_next s b, kbd_char s b).
Proof.
  intros Hb.
  pose (P := fun b => match kbd_decode s b with
                      | Ok r => bool_decide (r = (kbd_next s b, kbd_char s b))
                      | Err _ => false end).
  assert (P b = true) as H.
  { apply all_bytes; [|done]. unfold P. destruct s as [[] [] [] [] []]; vm_compute; reflexivity. }
  unfold P in H. destruct (kbd_decode s b); [|done]. apply bool_decide_eq_true in H. by subst.
Qed.

(** ** Properties *)

(** C35. For every key state and every byte the controller can send, the
    handler stays inside [keymap], follows the modifiers and produces the
    character of the layout ([kbd_next], [kbd_char]); it queues that character
    when the ring buffer has room, drops it when it is full, and never blocks. *)
Theorem keyboard_handler_spec k s q l b : is_byte b ->
  ioq_rep q l -> intr k = false -> sched_ok k -> waiter_ok k (consumer q) ->
  exists k' q', intr_keyboard_handler k s q b = Ok (k', kbd_next s b, q')
    /\ sched_ok k' /\ cur k' = cur k
    /\ ioq_rep q' (match kbd_char s b with
                   | Some c => if zlen l <? bufsize - 1 then l ++ [c] else l
                   | None => l
                   end).
Proof.
  intros Hb Hr Hi Hs Hw. unfold intr_keyboard_handler. rewrite kbd_decode_layout by done.
  cbn [obind]. destruct (kbd_char s b) as [c|]; [|by exists k, q].
  rewrite (ioq_full_ok _ _ _ Hr Hi). cbn [obind]. pose proof (ir_len _ _ Hr) as Hl.
  destruct (Z.eqb_spec (zlen l) (bufsize - 1)) as [E|E]; cbn [negb].
  - exists k, q. rewrite E. by rewrite Z.ltb_irrefl.
  - destruct (ioq_put_ok k q l c Hr Hi ltac:(lia) Hs Hw) as (k'&q'&->&Hr'&_&_&_&(?&_&?&_)).
    cbn [obind]. exists k', q'. by replace (zlen l <? bufsize - 1) with true
      by (symmetry; apply Z.ltb_lt; lia).
Qed.

(** ** Witnesses *)

(** Shift held, the key of [a]: an upper-case A is queued. *)
Example keyboard_handler_witness :
  exists k' q', intr_keyboard_handler demo_state (mk_kbd false true false false false) (demo_ring 9) 0x1e
    = Ok (k', mk_kbd false true false false false, q')
    /\ sched_ok k' /\ cur k' = 0x1000 /\ ioq_rep q' [65].
Proof.
  apply (keyboard_handler_spec demo_state (mk_kbd false true false false false) (demo_ring 9) [] 0x1e).
  - unfold is_byte; lia.
  - constructor; try done. intros i Hi. cbn in Hi. lia.
  - reflexivity.
  - apply demo_ok.
  - by left.
Defined.
