(* ===== verification/Ide.v ===== *)
(** device/ide.c and ide.h: the disk driver (register programming, chunked
    sector transfers, the completion interrupt) and the partition scan.

    The driver is modelled by the sequence of hardware and synchronisation
    operations it performs; the lock and the semaphore among them are those of
    Sync.v. What the channel does with them (its ATA controller, its interrupt and
    the lock) is the specification [ata_step]. *)
From S2P Require Import Prelude Thread Sync.

Definition BIT_STAT_BSY : Z := 0x80.
Definition BIT_STAT_DRQ : Z := 0x8.
Definition BIT_DEV_MBS : Z := 0xa0.
Definition BIT_DEV_LBA : Z := 0x40.
Definition BIT_DEV_DEV : Z := 0x10.
Definition CMD_IDENTIFY : Z := 0xec.
Definition CMD_READ_SECTOR : Z := 0x20.
Definition CMD_WRITE_SECTOR : Z := 0x30.
Definition max_lba : Z := 80 * 1024 * 1024 / 512 - 1.

Record disk := mk_disk { port_base : Z; dev_no : Z }.

Definition reg_data (hd : disk) : Z := port_base hd + 0.
Definition reg_sect_cnt (hd : disk) : Z := port_base hd + 2.
Definition reg_lba_l (hd : disk) : Z := port_base hd + 3.
Definition reg_lba_m (hd : disk) : Z := port_base hd + 4.
Definition reg_lba_h (hd : disk) : Z := port_base hd + 5.
Definition reg_dev (hd : disk) : Z := port_base hd + 6.
Definition reg_status (hd : disk) : Z := port_base hd + 7.
Definition reg_cmd (hd : disk) : Z := reg_status hd.

(** [Insw port off words]: [words] 16-bit words from the port to the caller's
    buffer at byte offset [off]; [Outsw] the other way. *)
Inductive event :=
  | Outb (port val : Z)
  | Insw (port off words : Z)
  | Outsw (port off words : Z)
  | ExpectIntr
  | LockAcquire | LockRelease | SemaDown.

Definition select_disk (hd : disk) : list event :=
  let reg_device := Z.lor BIT_DEV_MBS BIT_DEV_LBA in
  let reg_device := if dev_no hd =? 1 then Z.lor reg_device BIT_DEV_DEV else reg_device in
  [Outb (reg_dev hd) (u8 reg_device)].

Definition select_sector (hd : disk) (lba sec_cnt : Z) : outcome (list event) :=
  c_assert (lba <=? max_lba) ;;;
  Ok [Outb (reg_sect_cnt hd) (u8 sec_cnt);
      Outb (reg_lba_l hd) (u8 lba);
      Outb (reg_lba_m hd) (u8 (Z.shiftr lba 8));
      Outb (reg_lba_h hd) (u8 (Z.shiftr lba 16));
      Outb (reg_dev hd)
        (u8 (Z.lor (Z.lor (Z.lor BIT_DEV_MBS BIT_DEV_LBA)
                          (if dev_no hd =? 1 then BIT_DEV_DEV else 0)) (Z.shiftr lba 24)))].

Definition cmd_out (hd : disk) (cmd : Z) : list event := [ExpectIntr; Outb (reg_cmd hd) cmd].

Definition size_in_byte (sec_cnt : Z) : Z := if sec_cnt =? 0 then 256 * 512 else sec_cnt * 512.

(** [sec_cnt] is a [uint8_t] here: 256 arrives as 0. *)
Definition read_from_sector (hd : disk) (off sec_cnt : Z) : list event :=
  [Insw (reg_data hd) off (size_in_byte (u8 sec_cnt) / 2)].

Definition write2sector (hd : disk) (off sec_cnt : Z) : list event :=
  [Outsw (reg_data hd) off (size_in_byte (u8 sec_cnt) / 2)].

(** [status n] is the [n]-th reading of the status register: one a turn while the
    device is busy, 10 ms apart, and a second one for DRQ in the turn in which it is
    not; [time_limit -= 10 >= 0] takes one off the limit. *)
Definition busy_wait_body (status : nat -> Z) (s : Z * nat) : outcome (Z * nat + bool) :=
  let '(time_limit, n) := s in
  let time_limit := u16 (time_limit - 1) in
  if time_limit =? 0 then Ok (inr false)
  else if Z.land (status n) BIT_STAT_BSY =? 0
  then Ok (inr (negb (Z.land (status (S n)) BIT_STAT_DRQ =? 0)))
  else Ok (inl (time_limit, S n)).

Definition busy_wait (status : nat -> Z) : outcome bool :=
  loop (busy_wait_body status) (Z.to_nat 30001) (30 * 1000, 0%nat).

(** The chunk loops, over the sectors done, the chunk number and the operations
    so far; [status i] are the status readings of chunk [i]. *)
Definition chunk_of (secs_done sec_cnt : Z) : Z :=
  if secs_done + 256 <=? sec_cnt then 256 else sec_cnt - secs_done.

Definition ide_read_body (hd : disk) (lba sec_cnt : Z) (status : nat -> nat -> Z)
    (s : Z * nat * list event) : outcome (Z * nat * list event + list event) :=
  let '(secs_done, i, tr) := s in
  if secs_done <? sec_cnt then
    let secs_op := chunk_of secs_done sec_cnt in
    let! sel := select_sector hd (lba + secs_done) secs_op in
    let tr := tr ++ sel ++ cmd_out hd CMD_READ_SECTOR ++ [SemaDown] in
    let! ready := busy_wait (status i) in
    c_assert ready ;;;
    Ok (inl (secs_done + secs_op, S i, tr ++ read_from_sector hd (secs_done * 512) secs_op))
  else Ok (inr tr).

Definition ide_read (hd : disk) (lba sec_cnt : Z) (status : nat -> nat -> Z) : outcome (list event) :=
  c_assert (lba <=? max_lba) ;;;
  c_assert (0 <? sec_cnt) ;;;
  let! tr := loop (ide_read_body hd lba sec_cnt status) (S (Z.to_nat sec_cnt))
                  (0, 0%nat, LockAcquire :: select_disk hd) in
  Ok (tr ++ [LockRelease]).

Definition ide_write_body (hd : disk) (lba sec_cnt : Z) (status : nat -> nat -> Z)
    (s : Z * nat * list event) : outcome (Z * nat * list event + list event) :=
  let '(secs_done, i, tr) := s in
  if secs_done <? sec_cnt then
    let secs_op := chunk_of secs_done sec_cnt in
    let! sel := select_sector hd (lba + secs_done) secs_op in
    let tr := tr ++ sel ++ cmd_out hd CMD_WRITE_SECTOR in
    let! ready := busy_wait (status i) in
    c_assert ready ;;;
    Ok (inl (secs_done + secs_op, S i,
             tr ++ write2sector hd (secs_done * 512) secs_op ++ [SemaDown]))
  else Ok (inr tr).

Definition ide_write (hd : disk) (lba sec_cnt : Z) (status : nat -> nat -> Z) : outcome (list event) :=
  c_assert (lba <=? max_lba) ;;;
  c_assert (0 <? sec_cnt) ;;;
  let! tr := loop (ide_write_body hd lba sec_cnt status) (S (Z.to_nat sec_cnt))
                  (0, 0%nat, LockAcquire :: select_disk hd) in
  Ok (tr ++ [LockRelease]).

(** [intr_hd_handler] on the channel it selects. *)
Record ide_channel := mk_channel { irq_no : Z; expecting_intr : bool; disk_done : semaphore }.

Definition intr_hd_handler (k : kstate) (channels : list ide_channel) (irq : Z)
  : outcome (kstate * list ide_channel) :=
  c_assert ((irq =? 0x2e) || (irq =? 0x2f)) ;;;
  let ch_no := u8 (irq - 0x2e) in
  let! channel := rd channels ch_no in
  c_assert (irq_no channel =? irq) ;;;
  if expecting_intr channel then
    let! ' (k, s) := sema_up k (disk_done channel) in
    let! cs := wr channels ch_no (mk_channel (irq_no channel) false s) in
    Ok (k, cs)
  else Ok (k, channels).

(** [swap_pairs_bytes], over [idx] and the position in [dst]; the byte index
    wraps at 256. *)
Definition swap_body (dst : list Z) (len : Z) (s : Z * Z * list Z)
  : outcome (Z * Z * list Z + list Z) :=
  let '(idx, d, buf) := s in
  if idx <? len then
    let! b0 := rd dst d in
    let! buf := wr buf (idx + 1) b0 in
    let! b1 := rd dst (d + 1) in
    let! buf := wr buf idx b1 in
    Ok (inl (u8 (idx + 2), d + 2, buf))
  else let! buf := wr buf idx 0 in Ok (inr buf).

Definition swap_pairs_bytes (dst buf : list Z) (len : Z) : outcome (list Z) :=
  loop (swap_body dst len) (S (Z.to_nat len)) (0, 0, buf).

(** ** Partitions *)

Record partition_table_entry := mk_pte { fs_type : Z; start_lba : Z; sec_cnt : Z }.

(** The four entries of a boot sector, 16 bytes each from byte 446. *)
Definition read_pte (sector : list Z) (i : Z) : outcome partition_table_entry :=
  let o := 446 + 16 * i in
  let! t := rd sector (o + 4) in
  let! s := rd_le32 sector (o + 8) in
  let! c := rd_le32 sector (o + 12) in
  Ok (mk_pte t s c).

Definition partition_table (sector : list Z) : outcome (list partition_table_entry) :=
  let! a := read_pte sector 0 in
  let! b := read_pte sector 1 in
  let! c := read_pte sector 2 in
  let! d := read_pte sector 3 in
  Ok [a; b; c; d].

(** A partition recorded in [prim_parts] or [logic_parts] at an index. *)
Record partition := mk_part {
  part_logical : bool; part_idx : Z; part_start : Z; part_cnt : Z }.

(** The static variables of the scan; the two arrays are the partitions queued
    on [partition_list], each at its index of its array. *)
Record pscan := mk_pscan {
  ext_lba_base : Z; p_no : Z; l_no : Z; partition_list : list partition }.

Definition add_prim (st : pscan) (p : partition_table_entry) (ext_lba : Z) : outcome pscan :=
  if 4 <=? p_no st then Err BadAccess else
  let st := mk_pscan (ext_lba_base st) (u8 (p_no st + 1)) (l_no st)
    (partition_list st ++ [mk_part false (p_no st) (u32 (ext_lba + start_lba p)) (sec_cnt p)]) in
  c_assert (p_no st <? 4) ;;; Ok st.

Definition add_logic (st : pscan) (p : partition_table_entry) (ext_lba : Z) : outcome pscan :=
  if 8 <=? l_no st then Err BadAccess else
  Ok (mk_pscan (ext_lba_base st) (p_no st) (u8 (l_no st + 1))
    (partition_list st ++ [mk_part true (l_no st) (u32 (ext_lba + start_lba p)) (sec_cnt p)])).

(** The loop over the entries of the sector at [ext_lba]; [scan] is the recursive
    call, which reads the sector of its argument. *)
Fixpoint scan_entries (scan : Z -> pscan -> outcome pscan) (ext_lba : Z)
    (es : list partition_table_entry) (st : pscan) : outcome pscan :=
  match es with
  | [] => Ok st
  | p :: es =>
      if fs_type p =? 0x5 then
        let! st :=
          if negb (ext_lba_base st =? 0) then scan (u32 (start_lba p + ext_lba_base st)) st
          else scan (start_lba p) (mk_pscan (s32 (start_lba p)) (p_no st) (l_no st) (partition_list st)) in
        scan_entries scan ext_lba es st
      else if negb (fs_type p =? 0) then
        if ext_lba =? 0 then
          let! st := add_prim st p ext_lba in scan_entries scan ext_lba es st
        else
          let! st := add_logic st p ext_lba in
          if 8 <=? l_no st then Ok st else scan_entries scan ext_lba es st
      else scan_entries scan ext_lba es st
  end.

(** [sect] is what [ide_read] of one sector returns. *)
Fixpoint partition_scan (fuel : nat) (sect : Z -> list Z) (ext_lba : Z) (st : pscan) : outcome pscan :=
  match fuel with
  | O => Err OutOfFuel
  | S f =>
      c_assert (ext_lba <=? max_lba) ;;;
      let! es := partition_table (sect ext_lba) in
      scan_entries (partition_scan f sect) ext_lba es st
  end.

(** ** Specification: an ATA channel *)

(** The command block registers and the command in progress: its opcode, drive, next
    sector and the number of sectors left. *)
Record ata := mk_ata {
  a_cnt : Z; a_lba_l : Z; a_lba_m : Z; a_lba_h : Z; a_dev : Z;
  a_cmd : option (Z * bool * Z * Z) }.

(** LBA28: the drive and the block a command addresses; a count of 0 means 256. *)
Definition ata_latch (a : ata) (cmd : Z) : Z * bool * Z * Z :=
  (cmd, Z.testbit (a_dev a) 4,
   a_lba_l a + Z.shiftl (a_lba_m a) 8 + Z.shiftl (a_lba_h a) 16
     + Z.shiftl (Z.land (a_dev a) 15) 24,
   if a_cnt a =? 0 then 256 else a_cnt a).

Definition ata_reg (a : ata) (p v : Z) : ata :=
  if p =? 2 then mk_ata v (a_lba_l a) (a_lba_m a) (a_lba_h a) (a_dev a) (a_cmd a)
  else if p =? 3 then mk_ata (a_cnt a) v (a_lba_m a) (a_lba_h a) (a_dev a) (a_cmd a)
  else if p =? 4 then mk_ata (a_cnt a) (a_lba_l a) v (a_lba_h a) (a_dev a) (a_cmd a)
  else if p =? 5 then mk_ata (a_cnt a) (a_lba_l a) (a_lba_m a) v (a_dev a) (a_cmd a)
  else if p =? 6 then mk_ata (a_cnt a) (a_lba_l a) (a_lba_m a) (a_lba_h a) v (a_cmd a)
  else a.

Definition ata_cmd (a : ata) (c : option (Z * bool * Z * Z)) : ata :=
  mk_ata (a_cnt a) (a_lba_l a) (a_lba_m a) (a_lba_h a) (a_dev a) c.

(** A sector moved: the command, the drive, the sector and the buffer offset. *)
Definition xfer : Type := Z * bool * Z * Z.

(** The channel: its lock, [expecting_intr], the value of [disk_done], the controller
    and the sectors moved so far. *)
Record chan := mk_chan {
  ch_lock : bool; ch_expect : bool; ch_done : nat; ch_ata : ata; ch_moved : list xfer }.

Definition with_ata (a : ata) (s : chan) : chan := mk_chan (ch_lock s) (ch_expect s) (ch_done s) a (ch_moved s).

(** The controller interrupts; [intr_hd_handler] counts the one expected. *)
Definition ata_intr (s : chan) : chan :=
  if ch_expect s then mk_chan (ch_lock s) false (S (ch_done s)) (ch_ata s) (ch_moved s) else s.

(** A register is written; none while a command is in progress. A read command
    interrupts when its first sector is ready. *)
Definition ata_outb (s : chan) (p v : Z) : option chan :=
  let a := ch_ata s in
  match a_cmd a with
  | Some _ => None
  | None =>
      if p =? 7 then
        if v =? CMD_READ_SECTOR then Some (ata_intr (with_ata (ata_cmd a (Some (ata_latch a v))) s))
        else if v =? CMD_WRITE_SECTOR then Some (with_ata (ata_cmd a (Some (ata_latch a v))) s)
        else None
      else Some (with_ata (ata_reg a p v) s)
  end.

(** The next sector of the command moves; the controller interrupts when a written
    sector is taken and when the next one to read is ready. *)
Definition ata_block (cmd off : Z) (s : chan) : option chan :=
  match a_cmd (ch_ata s) with
  | Some (c, drive, lba, n) =>
      if c =? cmd then
        let s' := mk_chan (ch_lock s) (ch_expect s) (ch_done s)
                    (ata_cmd (ch_ata s) (if n =? 1 then None else Some (c, drive, lba + 1, n - 1)))
                    (ch_moved s ++ [(c, drive, lba, off)]) in
        Some (if (cmd =? CMD_WRITE_SECTOR) || negb (n =? 1) then ata_intr s' else s')
      else None
  | None => None
  end.

Fixpoint ata_data (blocks : nat) (cmd off : Z) (s : chan) : option chan :=
  match blocks with
  | O => Some s
  | S k => match ata_block cmd off s with Some s' => ata_data k cmd (off + 512) s' | None => None end
  end.

(** Words through the data register, 256 a sector. *)
Definition ata_words (s : chan) (cmd p off words : Z) : option chan :=
  if (p =? 0) && (words mod 256 =? 0) then ata_data (Z.to_nat (words / 256)) cmd off s else None.

(** One operation of the driver; [None] when it breaks the protocol: a register or
    data access without the lock or out of turn, a wait nobody will end, the lock
    taken twice. *)
Definition ata_step (hd : disk) (s : option chan) (e : event) : option chan :=
  match s with
  | None => None
  | Some s =>
      match e with
      | LockAcquire => if ch_lock s then None else Some (mk_chan true (ch_expect s) (ch_done s) (ch_ata s) (ch_moved s))
      | LockRelease => if ch_lock s then Some (mk_chan false (ch_expect s) (ch_done s) (ch_ata s) (ch_moved s)) else None
      | _ =>
          if ch_lock s then
            match e with
            | Outb port v => ata_outb s (port - port_base hd) v
            | Insw port off words => ata_words s CMD_READ_SECTOR (port - port_base hd) off words
            | Outsw port off words => ata_words s CMD_WRITE_SECTOR (port - port_base hd) off words
            | ExpectIntr => Some (mk_chan true true (ch_done s) (ch_ata s) (ch_moved s))
            | _ => match ch_done s with
                   | O => None
                   | S n => Some (mk_chan true (ch_expect s) n (ch_ata s) (ch_moved s))
                   end
            end
          else None
      end
  end.

Definition ata_run (hd : disk) (s : chan) (tr : list event) : option chan :=
  fold_left (ata_step hd) tr (Some s).

(** Nothing in progress: the lock free, no interrupt expected or counted, no command. *)
Definition at_rest (s : chan) : Prop :=
  ch_lock s = false /\ ch_expect s = false /\ ch_done s = 0%nat /\ a_cmd (ch_ata s) = None.

Definition xfers (cmd : Z) (hd : disk) (lba n : Z) : list xfer :=
  map (fun k => (cmd, dev_no hd =? 1, lba + k, 512 * k)) (seqZ 0 n).

(** The disk answers: never busy longer than the driver waits, data ready. *)
Definition disk_ready (status : nat -> Z) : Prop :=
  exists n, Z.of_nat n < 29999 /\ (forall j, (j < n)%nat -> Z.land (status j) BIT_STAT_BSY <> 0)
    /\ Z.land (status n) BIT_STAT_BSY = 0 /\ Z.land (status (S n)) BIT_STAT_DRQ <> 0.

(** A partitioned disk: [prims] in the boot record followed by the extended
    partition at [base]; from [base + off] on, a chain of sectors each naming one
    logical partition and the next sector, both as the format has them: the
    partition relative to its own sector, the next sector relative to [base]. *)
Definition data_entry (p : partition_table_entry) : Prop := fs_type p <> 0 /\ fs_type p <> 5.

Fixpoint ebr_chain (sect : Z -> list Z) (base off : Z) (parts : list partition_table_entry) : Prop :=
  match parts with
  | [] => False
  | p :: rest =>
      0 < base + off <= max_lba /\ data_entry p /\ 0 <= start_lba p /\ base + off + start_lba p < 2 ^ 32
      /\ exists next z1 z2, partition_table (sect (base + off)) = Ok [p; next; z1; z2]
         /\ fs_type z1 = 0 /\ fs_type z2 = 0
         /\ match rest with
            | [] => fs_type next = 0
            | _ => fs_type next = 5 /\ ebr_chain sect base (start_lba next) rest
            end
  end.

(** Where the chain's sectors are, hence the absolute starts. *)
Inductive logicals (sect : Z -> list Z) (base : Z) : Z -> Z -> list partition_table_entry -> list partition -> Prop :=
  | logicals_last off n p : logicals sect base off n [p] [mk_part true n (base + off + start_lba p) (sec_cnt p)]
  | logicals_next off n p rest l next z1 z2 : rest <> [] ->
      partition_table (sect (base + off)) = Ok [p; next; z1; z2] ->
      logicals sect base (start_lba next) (n + 1) rest l ->
      logicals sect base off n (p :: rest) (mk_part true n (base + off + start_lba p) (sec_cnt p) :: l).

(** The primary partitions of the boot record, numbered from [n]. *)
Fixpoint primaries (n : Z) (es : list partition_table_entry) : list partition :=
  match es with
  | [] => []
  | p :: es => mk_part false n (start_lba p) (sec_cnt p) :: primaries (n + 1) es
  end.

(** A controller with the command for [n] sectors from [lba] on in progress. *)
Definition latched (cmd : Z) (hd : disk) (lba n : Z) (a : ata) : Prop :=
  a_cmd a = Some (cmd, dev_no hd =? 1, lba, n).

(** The channel between two commands of a transfer. *)
Definition ready_chan (a : ata) (out : list xfer) : chan := mk_chan true false 0 a out.

(** One primary partition of 100 sectors and two logical ones. *)
Definition demo_pte (t s c : Z) : list Z := [0;0;0;0; t;0;0;0; s;0;0;0; c;0;0;0].
Definition demo_boot (e1 e2 : list Z) : list Z :=
  replicate 446 0 ++ e1 ++ e2 ++ replicate 34 0.
Definition demo_sect (lba : Z) : list Z :=
  if lba =? 0 then demo_boot (demo_pte 0x83 1 100) (demo_pte 5 120 90)
  else if lba =? 120 then demo_boot (demo_pte 0x66 1 40) (demo_pte 5 50 40)
  else demo_boot (demo_pte 0x66 1 30) (demo_pte 0 0 0).

(** ** Lemmas *)

Lemma busy_wait_ok status n ready : Z.of_nat n < 29999 ->
  (forall j, (j < n)%nat -> Z.land (status j) BIT_STAT_BSY <> 0) ->
  Z.land (status n) BIT_STAT_BSY = 0 ->
  ready = negb (Z.land (status (S n)) BIT_STAT_DRQ =? 0) ->
  busy_wait status = Ok ready.
Proof.
  intros Hn Hb H0 ->. unfold busy_wait.
  loop_inv (fun s : Z * nat => let '(t, j) := s in (j <= n)%nat /\ t = 30000 - Z.of_nat j)
           (fun s : Z * nat => (n - snd s)%nat); [|cbn; lia|cbn; lia].
  intros [t j] [Hj ->]. unfold busy_wait_body. rewrite u16_small by lia. zdec.
  destruct (decide (j = n)) as [->|Hne].
  - by rewrite H0.
  - specialize (Hb j ltac:(lia)). apply Z.eqb_neq in Hb as ->. cbn [snd]. lia.
Qed.

Lemma busy_wait_timeout status :
  (forall j, Z.of_nat j < 29999 -> Z.land (status j) BIT_STAT_BSY <> 0) -> busy_wait status = Ok false.
Proof.
  intros Hb. unfold busy_wait.
  loop_inv (fun s : Z * nat => let '(t, j) := s in Z.of_nat j <= 29999 /\ t = 30000 - Z.of_nat j)
           (fun s : Z * nat => Z.to_nat (29999 - Z.of_nat (snd s))); [|cbn; lia|cbn; lia].
  intros [t j] [Hj ->]. unfold busy_wait_body. rewrite u16_small by lia.
  case_bool; zb; [done|].
  specialize (Hb j ltac:(lia)). apply Z.eqb_neq in Hb as ->. cbn [snd]. lia.
Qed.

Lemma disk_ready_wait status : disk_ready status -> busy_wait status = Ok true.
Proof.
  intros (n & Hn & Hb & H0 & Hd). apply (busy_wait_ok _ n); try done.
  by apply Z.eqb_neq in Hd as ->.
Qed.

(** Three bytes of a number that fits them. *)
Lemma three_bytes z : 0 <= z < 256 * 256 * 256 ->
  z mod 256 + z / 256 mod 256 * 256 + z / (256 * 256) mod 256 * (256 * 256) = z.
Proof.
  intros H. rewrite <- (Z.div_div z 256 256) by lia.
  set (q := z / 256). assert (z = 256 * q + z mod 256) as Hz by (apply Z.div_mod; lia).
  assert (0 <= q < 256 * 256) as Hq by (split; [apply Z.div_pos | apply Z.div_lt_upper_bound]; lia).
  assert (0 <= q / 256 < 256) as Hr by (split; [apply Z.div_pos | apply Z.div_lt_upper_bound]; lia).
  rewrite (Z.mod_small (q / 256)) by done.
  assert (q = 256 * (q / 256) + q mod 256) as Hq' by (apply Z.div_mod; lia). lia.
Qed.

Lemma lba_bytes lba : 0 <= lba <= max_lba ->
  u8 lba + Z.shiftl (u8 (Z.shiftr lba 8)) 8 + Z.shiftl (u8 (Z.shiftr lba 16)) 16 = lba
  /\ Z.shiftr lba 24 = 0.
Proof.
  change max_lba with 163839. intros H. rewrite (Z.shiftr_div_pow2 lba 8), (Z.shiftr_div_pow2 lba 16),
    (Z.shiftr_div_pow2 lba 24), (Z.shiftl_mul_pow2 _ 8), (Z.shiftl_mul_pow2 _ 16) by lia.
  unfold u8.
  change (2 ^ 8) with 256. change (2 ^ 16) with (256 * 256). change (2 ^ 24) with 16777216.
  split; [apply three_bytes; lia | apply Z.div_small; lia].
Qed.

(** A register write, by the register's offset, while no command is in progress. *)
Lemma outb_reg hd e n c l m h d out i v : 2 <= i <= 6 ->
  ata_step hd (Some (mk_chan true e n (mk_ata c l m h d None) out)) (Outb (port_base hd + i) v)
  = Some (mk_chan true e n (if i =? 2 then mk_ata v l m h d None else if i =? 3 then mk_ata c v m h d None
          else if i =? 4 then mk_ata c l v h d None else if i =? 5 then mk_ata c l m v d None
          else mk_ata c l m h v None) out).
Proof.
  intros Hi. unfold ata_step, ata_outb. cbn [ch_lock ch_ata a_cmd]. replace (port_base hd + i - port_base hd) with i by lia.
  destruct (Z.eqb_spec i 7); [lia|]. unfold with_ata, ata_reg. cbn [ch_lock ch_expect ch_done ch_moved a_cnt a_lba_l a_lba_m a_lba_h a_dev a_cmd].
  repeat case_bool; zb; done || lia.
Qed.

(** The command goes out: a read interrupts at once. *)
Lemma outb_cmd hd e n a out cmd : cmd = CMD_READ_SECTOR \/ cmd = CMD_WRITE_SECTOR -> a_cmd a = None ->
  ata_step hd (Some (mk_chan true e n a out)) (Outb (port_base hd + 7) cmd)
  = Some (let s := mk_chan true e n (ata_cmd a (Some (ata_latch a cmd))) out in
          if cmd =? CMD_READ_SECTOR then ata_intr s else s).
Proof.
  intros Hc Ha. unfold ata_step, ata_outb. cbn [ch_lock ch_ata]. rewrite Ha.
  replace (port_base hd + 7 - port_base hd) with 7 by lia. by destruct Hc as [-> | ->].
Qed.

Lemma select_chunk hd cmd lba n a out : 0 <= lba <= max_lba -> 1 <= n <= 256 ->
  cmd = CMD_READ_SECTOR \/ cmd = CMD_WRITE_SECTOR -> a_cmd a = None ->
  exists sel a', select_sector hd lba n = Ok sel /\ latched cmd hd lba n a'
    /\ fold_left (ata_step hd) (sel ++ cmd_out hd cmd) (Some (ready_chan a out))
       = Some (if cmd =? CMD_READ_SECTOR then mk_chan true false 1 a' out else mk_chan true true 0 a' out).
Proof.
  intros Hl Hn Hc Ha. unfold select_sector. zdec. cbn [c_assert obind].
  destruct (lba_bytes lba Hl) as [Hb H24].
  unfold reg_sect_cnt, reg_lba_l, reg_lba_m, reg_lba_h, reg_dev, cmd_out, reg_cmd, reg_status, ready_chan.
  destruct a as [c l m h d p]. cbn in Ha. subst p. eexists _, _. split; [done|]. apply and_comm. cbn [app fold_left].
  do 5 (rewrite outb_reg by lia; cbn [Z.eqb Pos.eqb]).
  match goal with |- context [ata_step hd (Some (mk_chan true false 0 ?a ?o)) ExpectIntr] =>
    change (ata_step hd (Some (mk_chan true false 0 a o)) ExpectIntr) with (Some (mk_chan true true 0 a o)) end.
  rewrite outb_cmd by done. split; [destruct (cmd =? CMD_READ_SECTOR); reflexivity|].
  unfold latched, ata_latch, ata_cmd. cbn [ch_ata ch_moved a_cmd a_cnt a_lba_l a_lba_m a_lba_h a_dev].
  rewrite Hb, H24, Z.lor_0_r. f_equal. f_equal; [f_equal; [by destruct (dev_no hd =? 1) | destruct (dev_no hd =? 1); apply Z.add_0_r]|].
  destruct (Z.eq_dec n 256) as [->|]; [done|]. rewrite u8_small by lia. by zdec.
Qed.

Lemma chunk_words n : 1 <= n <= 256 -> size_in_byte (u8 n) / 2 = n * 256.
Proof.
  intros Hn. destruct (Z.eq_dec n 256) as [->|]; [done|].
  unfold size_in_byte. rewrite u8_small by lia. zdec. replace (n * 512) with (n * 256 * 2) by lia.
  by apply Z.div_mul.
Qed.

Lemma ata_data_S k cmd off s :
  ata_data (S k) cmd off s = match ata_block cmd off s with Some s' => ata_data k cmd (off + 512) s' | None => None end.
Proof. done. Qed.

(** The sectors of a command move one by one; the first of a write is the one whose
    interrupt the driver waits for. *)
Lemma data_blocks cmd drive k : forall e n a out off lba, (e = true -> cmd = CMD_WRITE_SECTOR) ->
  a_cmd a = Some (cmd, drive, lba, Z.of_nat (S k)) ->
  exists a', ata_data (S k) cmd off (mk_chan true e n a out)
    = Some (mk_chan true false (if e then S n else n) a'
              (out ++ map (fun j => (cmd, drive, lba + j, off + 512 * j)) (seqZ 0 (Z.of_nat (S k)))))
    /\ a_cmd a' = None.
Proof.
  induction k as [|k IH]; intros e n a out off lba He Ha; rewrite ata_data_S; unfold ata_block; cbn [ch_ata]; rewrite Ha, Z.eqb_refl; cbn zeta.
  - change (Z.of_nat 1 =? 1) with true. cbn [negb]. change (map _ (seqZ 0 (Z.of_nat 1))) with [(cmd, drive, lba + 0, off + 512 * 0)].
    rewrite orb_false_r, !Z.add_0_r. eexists. split; [destruct e; [rewrite (He eq_refl)|destruct (cmd =? CMD_WRITE_SECTOR)]; reflexivity | done].
  - replace (Z.of_nat (S (S k)) =? 1) with false by (symmetry; apply Z.eqb_neq; lia). cbn [negb]. rewrite orb_true_r.
    destruct (IH false (if e then S n else n) (ata_cmd a (Some (cmd, drive, lba + 1, Z.of_nat (S k)))) (out ++ [(cmd, drive, lba, off)]) (off + 512) (lba + 1))
      as (a' & E & Ha'); [done | done|]. exists a'. split; [|done].
    replace (Z.of_nat (S (S k)) - 1) with (Z.of_nat (S k)) by lia. cbn [ch_lock ch_expect ch_done ch_moved].
    assert (forall b, ata_intr (mk_chan true b n (ata_cmd a (Some (cmd, drive, lba + 1, Z.of_nat (S k)))) (out ++ [(cmd, drive, lba, off)]))
      = mk_chan true false (if b then S n else n) (ata_cmd a (Some (cmd, drive, lba + 1, Z.of_nat (S k)))) (out ++ [(cmd, drive, lba, off)])) as -> by (by intros []).
    rewrite E. do 2 f_equal.
    rewrite <- app_assoc. f_equal. replace (Z.of_nat (S (S k))) with (1 + Z.of_nat (S k)) by lia.
    rewrite seqZ_app, map_app by lia. change (map _ (seqZ 0 1)) with [(cmd, drive, lba + 0, off + 512 * 0)]. rewrite Z.mul_0_r, !Z.add_0_r. cbn [app]. f_equal.
    change (0 + 1) with (1 + 0). rewrite <- (fmap_add_seqZ 1 0). unfold fmap. rewrite map_map. apply map_ext. intros j. f_equal; [f_equal|]; lia.
Qed.

Lemma data_chunk hd cmd lba n a out off ev e dn : 1 <= n <= 256 -> latched cmd hd lba n a -> (e = true -> cmd = CMD_WRITE_SECTOR) ->
  (cmd = CMD_READ_SECTOR /\ [ev] = read_from_sector hd off n
   \/ cmd = CMD_WRITE_SECTOR /\ [ev] = write2sector hd off n) ->
  exists a', a_cmd a' = None /\ ata_step hd (Some (mk_chan true e dn a out)) ev
    = Some (mk_chan true false (if e then S dn else dn) a'
              (out ++ map (fun j => (cmd, dev_no hd =? 1, lba + j, off + 512 * j)) (seqZ 0 n))).
Proof.
  intros Hn Hl He Hev. unfold latched in Hl. pose proof (chunk_words n Hn) as Hw.
  replace n with (Z.of_nat (S (Z.to_nat (n - 1)))) in Hl by lia.
  destruct (data_blocks cmd (dev_no hd =? 1) (Z.to_nat (n - 1)) e dn a out off lba He Hl) as (a' & E & Ha').
  exists a'. split; [done|]. replace (Z.of_nat (S (Z.to_nat (n - 1)))) with n in E by lia. rewrite <- E.
  destruct Hev as [[-> Hev]|[-> Hev]]; injection Hev as ->; unfold ata_step, ata_words, reg_data; cbn [ch_lock];
    rewrite Hw, Z.mod_mul, Z.div_mul by lia; replace (port_base hd + 0 - port_base hd) with 0 by lia; cbn [Z.eqb andb];
    f_equal; lia.
Qed.

Lemma xfers_app cmd hd lba d n : 0 <= d -> 0 <= n ->
  xfers cmd hd lba d ++ map (fun j => (cmd, dev_no hd =? 1, lba + d + j, d * 512 + 512 * j)) (seqZ 0 n)
  = xfers cmd hd lba (d + n).
Proof.
  intros Hd Hn. unfold xfers. rewrite seqZ_app, map_app by done. f_equal.
  rewrite (Z.add_comm 0 d), <- (fmap_add_seqZ d 0 n). unfold fmap. rewrite map_map.
  apply map_ext. intros j. f_equal; [f_equal|]; lia.
Qed.

Lemma chunk_of_range d cnt : 0 <= d < cnt -> 1 <= chunk_of d cnt <= 256 /\ d + chunk_of d cnt <= cnt.
Proof. intros. unfold chunk_of. case_bool; zb; lia. Qed.

Lemma select_run hd s : at_rest s ->
  exists a, a_cmd a = None /\ ata_run hd s (LockAcquire :: select_disk hd) = Some (ready_chan a (ch_moved s)).
Proof.
  destruct s as [lk ex dn [c l m h d p] out]. intros (E1 & E2 & E3 & E4). cbn in E1, E2, E3, E4. subst lk ex dn p.
  unfold ata_run, select_disk, reg_dev, ready_chan. cbn [fold_left ch_moved].
  change (ata_step hd (Some (mk_chan false false 0 ?a ?o)) LockAcquire) with (Some (mk_chan true false 0 a o)).
  rewrite outb_reg by lia. eexists. apply and_comm. split; reflexivity.
Qed.

Section transfer.
Variables (hd : disk) (lba sec_cnt : Z) (status : nat -> nat -> Z) (s0 : chan).
Hypothesis Hlba : 0 <= lba /\ lba + sec_cnt - 1 <= max_lba.
Hypothesis Hcnt : 0 < sec_cnt.
Hypothesis Hready : forall i, disk_ready (status i).
Hypothesis Hrest : at_rest s0.

(** The operations so far have moved the first [d] sectors. *)
Definition moved (cmd : Z) (d : Z) (tr : list event) : Prop :=
  exists a, ata_run hd s0 tr = Some (ready_chan a (ch_moved s0 ++ xfers cmd hd lba d)) /\ a_cmd a = None.

Lemma moved_start cmd : moved cmd 0 (LockAcquire :: select_disk hd).
Proof.
  destruct (select_run hd s0 Hrest) as (a & Ha & E). exists a. split; [|done].
  change (xfers cmd hd lba 0) with (@nil xfer). by rewrite app_nil_r.
Qed.

Lemma read_chunk d i tr : 0 <= d < sec_cnt -> moved CMD_READ_SECTOR d tr ->
  exists tr', ide_read_body hd lba sec_cnt status (d, i, tr)
    = Ok (inl (d + chunk_of d sec_cnt, S i, tr')) /\ moved CMD_READ_SECTOR (d + chunk_of d sec_cnt) tr'.
Proof.
  intros Hd (a & Ha & Hn0). destruct (chunk_of_range d sec_cnt Hd) as [Hn Hd'].
  destruct (select_chunk hd CMD_READ_SECTOR (lba + d) (chunk_of d sec_cnt) a (ch_moved s0 ++ xfers CMD_READ_SECTOR hd lba d))
    as (sel & a1 & Hsel & Hl & Hrun); [lia|lia|by left|done|].
  unfold ide_read_body. zdec. rewrite Hsel. cbn [obind]. rewrite disk_ready_wait by apply Hready.
  cbn [obind c_assert]. eexists; split; [done|].
  destruct (data_chunk hd CMD_READ_SECTOR _ _ a1 (ch_moved s0 ++ xfers CMD_READ_SECTOR hd lba d) (d * 512) _ false 0 Hn Hl
              ltac:(done) (or_introl (conj eq_refl eq_refl))) as (a2 & Hn2 & Ha2).
  exists a2. split; [|done]. unfold ata_run in *.
  rewrite <- !app_assoc, (app_assoc sel), fold_left_app, Ha, fold_left_app, Hrun.
  unfold read_from_sector. change (CMD_READ_SECTOR =? CMD_READ_SECTOR) with true. cbn [fold_left app].
  change (ata_step hd (Some (mk_chan true false 1 ?s ?o)) SemaDown) with (Some (mk_chan true false 0 s o)). rewrite Ha2.
  by rewrite <- app_assoc, xfers_app by lia.
Qed.

Lemma write_chunk d i tr : 0 <= d < sec_cnt -> moved CMD_WRITE_SECTOR d tr ->
  exists tr', ide_write_body hd lba sec_cnt status (d, i, tr)
    = Ok (inl (d + chunk_of d sec_cnt, S i, tr')) /\ moved CMD_WRITE_SECTOR (d + chunk_of d sec_cnt) tr'.
Proof.
  intros Hd (a & Ha & Hn0). destruct (chunk_of_range d sec_cnt Hd) as [Hn Hd'].
  destruct (select_chunk hd CMD_WRITE_SECTOR (lba + d) (chunk_of d sec_cnt) a (ch_moved s0 ++ xfers CMD_WRITE_SECTOR hd lba d))
    as (sel & a1 & Hsel & Hl & Hrun); [lia|lia|by right|done|].
  unfold ide_write_body. zdec. rewrite Hsel. cbn [obind]. rewrite disk_ready_wait by apply Hready.
  cbn [obind c_assert]. eexists; split; [done|].
  destruct (data_chunk hd CMD_WRITE_SECTOR _ _ a1 (ch_moved s0 ++ xfers CMD_WRITE_SECTOR hd lba d) (d * 512) _ true 0 Hn Hl
              ltac:(done) (or_intror (conj eq_refl eq_refl))) as (a2 & Hn2 & Ha2).
  exists a2. split; [|done]. unfold ata_run in *.
  rewrite <- !app_assoc, (app_assoc sel), fold_left_app, Ha, fold_left_app, Hrun.
  unfold write2sector. change (CMD_WRITE_SECTOR =? CMD_READ_SECTOR) with false. cbn [fold_left app]. rewrite Ha2.
  change (ata_step hd (Some (mk_chan true false 1 ?s ?o)) SemaDown) with (Some (mk_chan true false 0 s o)).
  by rewrite <- app_assoc, xfers_app by lia.
Qed.

(** A loop whose every turn moves one more chunk moves everything. *)
Lemma transfer_loop cmd body :
  (forall d i tr, 0 <= d < sec_cnt -> moved cmd d tr -> exists tr',
     body (d, i, tr) = Ok (inl (d + chunk_of d sec_cnt, S i, tr')) /\ moved cmd (d + chunk_of d sec_cnt) tr') ->
  (forall i tr, body (sec_cnt, i, tr) = Ok (inr tr)) ->
  exists tr, loop body (S (Z.to_nat sec_cnt)) (0, 0%nat, LockAcquire :: select_disk hd) = Ok tr
    /\ moved cmd sec_cnt tr.
Proof.
  intros Hb He.
  loop_inv (fun s : Z * nat * list event => let '(d, i, tr) := s in 0 <= d <= sec_cnt /\ moved cmd d tr)
           (fun s : Z * nat * list event => Z.to_nat (sec_cnt - fst (fst s))).
  - intros [[d i] tr] [Hd Hm]. destruct (Z.eq_dec d sec_cnt) as [->|Hne].
    + rewrite He. by exists tr.
    + destruct (Hb d i tr ltac:(lia) Hm) as (tr' & -> & Hm').
      destruct (chunk_of_range d sec_cnt ltac:(lia)). cbn [fst]. split; [split; [lia|done]|lia].
  - split; [lia | apply moved_start].
  - cbn [fst]. lia.
Qed.
End transfer.

(** The lock goes last. *)
Lemma moved_release hd lba s0 cmd n tr : moved hd lba s0 cmd n tr ->
  exists s, ata_run hd s0 (tr ++ [LockRelease]) = Some s /\ at_rest s /\ ch_moved s = ch_moved s0 ++ xfers cmd hd lba n.
Proof.
  intros (a & Ha & Hn). unfold ata_run in *. rewrite fold_left_app, Ha. by exists (mk_chan false false 0 a (ch_moved s0 ++ xfers cmd hd lba n)).
Qed.

Lemma ide_read_moves hd lba sec_cnt status s0 :
  0 <= lba -> 0 < sec_cnt -> lba + sec_cnt - 1 <= max_lba -> (forall i, disk_ready (status i)) -> at_rest s0 ->
  exists tr s, ide_read hd lba sec_cnt status = Ok tr /\ ata_run hd s0 tr = Some s /\ at_rest s
    /\ ch_moved s = ch_moved s0 ++ xfers CMD_READ_SECTOR hd lba sec_cnt.
Proof.
  intros H0 Hc Hm Hr Hs.
  destruct (transfer_loop hd lba sec_cnt s0 Hc Hs CMD_READ_SECTOR (ide_read_body hd lba sec_cnt status))
    as (tr & E & (s & Ea & Hs' & Em)%moved_release).
  { intros. by apply read_chunk. }
  { intros. unfold ide_read_body. by zdec. }
  exists (tr ++ [LockRelease]), s. unfold ide_read. zdec. cbn [c_assert obind]. by rewrite E.
Qed.

Lemma ide_write_moves hd lba sec_cnt status s0 :
  0 <= lba -> 0 < sec_cnt -> lba + sec_cnt - 1 <= max_lba -> (forall i, disk_ready (status i)) -> at_rest s0 ->
  exists tr s, ide_write hd lba sec_cnt status = Ok tr /\ ata_run hd s0 tr = Some s /\ at_rest s
    /\ ch_moved s = ch_moved s0 ++ xfers CMD_WRITE_SECTOR hd lba sec_cnt.
Proof.
  intros H0 Hc Hm Hr Hs.
  destruct (transfer_loop hd lba sec_cnt s0 Hc Hs CMD_WRITE_SECTOR (ide_write_body hd lba sec_cnt status))
    as (tr & E & (s & Ea & Hs' & Em)%moved_release).
  { intros. by apply write_chunk. }
  { intros. unfold ide_write_body. by zdec. }
  exists (tr ++ [LockRelease]), s. unfold ide_write. zdec. cbn [c_assert obind]. by rewrite E.
Qed.

(** ** Properties *)

(** The chain adds its first partitions up to index 7. *)
Lemma scan_chain sect base parts : 0 < base <= max_lba -> forall off st fuel n l,
  ebr_chain sect base off parts -> logicals sect base off n parts l ->
  ext_lba_base st = base -> l_no st = n -> 0 <= n < 8 -> (length parts <= fuel)%nat ->
  partition_scan fuel sect (base + off) st
  = Ok (mk_pscan base (p_no st) (Z.min 8 (n + zlen parts))
          (partition_list st ++ take (Z.to_nat (8 - n)) l)).
Proof.
  intros Hbase. induction parts as [|p rest IH]; intros off st fuel n l; [done|].
  intros (Hoff & [Hp0 Hp5] & Hs0 & Hs & next & z1 & z2 & Htab & Hz1 & Hz2 & Hnext) Hl Hb Hn Hn8 Hf.
  destruct fuel as [|f]; [cbn in Hf; lia|]. cbn [partition_scan].
  zdec. cbn [c_assert obind]. rewrite Htab. cbn [obind scan_entries].
  apply Z.eqb_neq in Hp0 as ->, Hp5 as ->. cbn [negb].
  replace (base + off =? 0) with false by (symmetry; apply Z.eqb_neq; lia).
  unfold add_logic. rewrite Hn. zdec. cbn [obind l_no].
  rewrite u8_small, u32_small by lia.
  destruct st as [b pn ln pl]. cbn [ext_lba_base p_no l_no partition_list] in *. subst b ln.
  destruct (Z.leb_spec 8 (n + 1)).
  - assert (n = 7) as -> by lia. destruct l as [|x l]; [by inversion Hl|].
    assert (x = mk_part true 7 (base + off + start_lba p) (sec_cnt p)) as -> by (by inversion Hl).
    change (Z.to_nat (8 - 7)) with 1%nat. cbn [take]. do 2 f_equal. cbn [length]. lia.
  - destruct rest as [|p2 rest].
    + rewrite Hnext. cbn [Z.eqb Pos.eqb negb]. rewrite ?Hz1, ?Hz2. cbn [Z.eqb Pos.eqb negb].
      inversion Hl; subst; [|done]. do 2 f_equal; [cbn; lia|].
      destruct (Z.to_nat (8 - n)) as [|m] eqn:E; [lia|]. cbn [take]. by rewrite firstn_nil.
    + destruct Hnext as [Hn5 Hch]. inversion Hl as [|? ? ? ? l2 nx ? ? _ Htab2 Hl2]; subst.
      rewrite Htab in Htab2. injection Htab2 as <- _ _.
      rewrite Hn5. cbn [Z.eqb Pos.eqb negb ext_lba_base].
      replace (base =? 0) with false by (symmetry; apply Z.eqb_neq; lia). cbn [negb].
      assert (0 < base + start_lba next <= max_lba) as Hno by (by destruct Hch as [? _]).
      rewrite u32_small by (change max_lba with 163839 in *; lia).
      rewrite (Z.add_comm (start_lba next)).
      rewrite (IH (start_lba next) _ f (n + 1) l2); try done; try (cbn in *; lia).
      cbn [obind]. rewrite ?Hz1, ?Hz2. cbn [Z.eqb Pos.eqb negb p_no partition_list].
      do 2 f_equal; [cbn [length]; lia|].
      rewrite <- app_assoc. f_equal. replace (Z.to_nat (8 - n)) with (S (Z.to_nat (8 - (n + 1)))) by lia.
      done.
Qed.

Lemma scan_prims scan prims es st : Forall data_entry prims ->
  Forall (fun p => 0 <= start_lba p < 2 ^ 32) prims -> 0 <= p_no st -> p_no st + zlen prims < 4 ->
  scan_entries scan 0 (prims ++ es) st
  = scan_entries scan 0 es (mk_pscan (ext_lba_base st) (p_no st + zlen prims) (l_no st)
                              (partition_list st ++ primaries (p_no st) prims)).
Proof.
  revert st. induction prims as [|p prims IH]; intros st Hd Hs H0 Hn.
  - cbn [app primaries length]. rewrite Z.add_0_r, app_nil_r. by destruct st.
  - apply Forall_cons in Hd as [[Hp0 Hp5] Hd]. apply Forall_cons in Hs as [Hs1 Hs].
    cbn [length] in Hn. cbn [app scan_entries]. zdec. unfold add_prim. zdec.
    rewrite Z.add_0_l, u32_small, u8_small by lia. cbn [p_no]. zdec. cbn [c_assert obind].
    rewrite IH; cbn [p_no ext_lba_base l_no partition_list]; try done; try lia.
    f_equal. f_equal; [cbn [length]; lia|]. by rewrite <- app_assoc.
Qed.

(** The partition scan of a formatted disk (up to three primary partitions
    and an extended one holding a chain of logical partitions) terminates and
    queues exactly the primaries and the first eight logicals, each with its
    absolute start and its length, numbered in order, and never writes past the
    partition arrays, however long the chain is. *)
Theorem partition_scan_spec sect prims ext zs parts l fuel :
  partition_table (sect 0) = Ok (prims ++ ext :: zs) ->
  Forall data_entry prims -> Forall (fun p => 0 <= start_lba p < 2 ^ 32) prims ->
  zlen prims <= 3 -> fs_type ext = 5 -> 0 < start_lba ext -> Forall (fun p => fs_type p = 0) zs ->
  ebr_chain sect (start_lba ext) 0 parts -> logicals sect (start_lba ext) 0 0 parts l ->
  (length parts < fuel)%nat ->
  partition_scan fuel sect 0 (mk_pscan 0 0 0 [])
  = Ok (mk_pscan (start_lba ext) (zlen prims) (Z.min 8 (zlen parts))
          (primaries 0 prims ++ take 8 l)).
Proof.
  intros Htab Hd Hs Hn Hx Hb Hz Hch Hl Hf. destruct fuel as [|f]; [lia|].
  assert (start_lba ext <= max_lba) as Hmax by (destruct parts; [done|]; destruct Hch; lia).
  cbn [partition_scan]. change (0 <=? max_lba) with true. cbn [c_assert obind].
  rewrite Htab. cbn [obind]. rewrite scan_prims by (done || (cbn [p_no]; lia)).
  cbn [scan_entries]. rewrite Hx. cbn [Z.eqb Pos.eqb ext_lba_base negb p_no l_no partition_list app].
  change max_lba with 163839 in Hmax.
  rewrite s32_small by lia. rewrite <- (Z.add_0_r (start_lba ext)) at 1.
  rewrite (scan_chain sect (start_lba ext) parts) with (n := 0) (l := l);
    try done; try (cbn [length] in *; change max_lba with 163839; lia).
  cbn [obind p_no partition_list]. change (Z.to_nat (8 - 0)) with 8%nat. rewrite !Z.add_0_l.
  clear -Hz. induction Hz as [|z zs Hz _ IH]; [done|]. cbn [scan_entries]. rewrite Hz. done.
Qed.

(** ** Witnesses *)

Example partition_scan_witness :
  partition_scan 4 demo_sect 0 (mk_pscan 0 0 0 [])
  = Ok (mk_pscan 120 1 2 [mk_part false 0 1 100; mk_part true 0 121 40; mk_part true 1 171 30]).
Proof.
  apply (partition_scan_spec demo_sect [mk_pte 0x83 1 100] (mk_pte 5 120 90) [mk_pte 0 0 0; mk_pte 0 0 0]
           [mk_pte 0x66 1 40; mk_pte 0x66 1 30] [mk_part true 0 121 40; mk_part true 1 171 30] 4).
  - vm_compute; reflexivity.
  - repeat constructor; cbn; lia.
  - repeat constructor; cbn; lia.
  - cbn; lia.
  - reflexivity.
  - cbn; lia.
  - repeat constructor.
  - cbn [ebr_chain]. change max_lba with 163839. split; [cbn; lia|]. split; [by split|].
    split; [cbn; lia|]. split; [cbn; lia|].
    exists (mk_pte 5 50 40), (mk_pte 0 0 0), (mk_pte 0 0 0). split; [vm_compute; reflexivity|].
    do 3 (split; [reflexivity|]). split; [cbn; lia|]. split; [by split|].
    split; [cbn; lia|]. split; [cbn; lia|].
    exists (mk_pte 0 0 0), (mk_pte 0 0 0), (mk_pte 0 0 0). split; [vm_compute; reflexivity|].
    repeat split.
  - eapply (logicals_next demo_sect 120 0 0 (mk_pte 0x66 1 40) [mk_pte 0x66 1 30] _ (mk_pte 5 50 40));
      [done | vm_compute; reflexivity | apply logicals_last].
  - cbn; lia.
Defined.
