(* ===== verification/Paging.v ===== *)
(** kernel/memory.c, first part: page tables, physical page pools, virtual
    address pools, and page allocation.

    Physical memory is a function from word addresses to 32-bit words. The code
    reaches the page tables only through virtual addresses, so every access to a
    page directory or page table entry goes through [mmu], the address
    translation of the processor (its caching of entries is not modelled). *)
From S2P Require Import Prelude Bitmap.

Definition PG_SIZE : Z := 4096.
Definition PG_P_1 : Z := 1.
Definition PG_RW_W : Z := 2.
Definition PG_US_U : Z := 4.
Definition PTE_ATTR (frame : Z) : Z := Z.lor (Z.lor (Z.lor frame PG_US_U) PG_RW_W) PG_P_1.

Definition PDE_IDX (addr : Z) : Z := Z.shiftr (Z.land addr 0xffc00000) 22.
Definition PTE_IDX (addr : Z) : Z := Z.shiftr (Z.land addr 0x003ff000) 12.

Record pool := mk_pool { pool_bitmap : bitmap; phy_addr_start : Z; pool_size : Z }.
Record virtual_addr := mk_vaddr { vaddr_bitmap : bitmap; vaddr_start : Z }.

(** [PF_KERNEL] and [PF_USER]. *)
Inductive pool_flags := PF_KERNEL | PF_USER.

(** [cr3] is the page directory in use; [userprog_vaddr] that of the running
    process. *)
Record vm := mk_vm {
  pm : Z -> Z;
  cr3 : Z;
  kernel_pool : pool;
  user_pool : pool;
  kernel_vaddr : virtual_addr;
  userprog_vaddr : virtual_addr }.

Definition with_pm (v : Z -> Z) (m : vm) : vm :=
  mk_vm v (cr3 m) (kernel_pool m) (user_pool m) (kernel_vaddr m) (userprog_vaddr m).
Definition with_kpool (v : pool) (m : vm) : vm :=
  mk_vm (pm m) (cr3 m) v (user_pool m) (kernel_vaddr m) (userprog_vaddr m).
Definition with_upool (v : pool) (m : vm) : vm :=
  mk_vm (pm m) (cr3 m) (kernel_pool m) v (kernel_vaddr m) (userprog_vaddr m).
Definition with_kvaddr (v : virtual_addr) (m : vm) : vm :=
  mk_vm (pm m) (cr3 m) (kernel_pool m) (user_pool m) v (userprog_vaddr m).
Definition with_uvaddr (v : virtual_addr) (m : vm) : vm :=
  mk_vm (pm m) (cr3 m) (kernel_pool m) (user_pool m) (kernel_vaddr m) v.

Definition get_pool (pf : pool_flags) (m : vm) : pool :=
  match pf with PF_KERNEL => kernel_pool m | PF_USER => user_pool m end.
Definition with_pool (pf : pool_flags) (v : pool) (m : vm) : vm :=
  match pf with PF_KERNEL => with_kpool v m | PF_USER => with_upool v m end.
Definition get_vaddr (pf : pool_flags) (m : vm) : virtual_addr :=
  match pf with PF_KERNEL => kernel_vaddr m | PF_USER => userprog_vaddr m end.
Definition with_vaddr (pf : pool_flags) (v : virtual_addr) (m : vm) : vm :=
  match pf with PF_KERNEL => with_kvaddr v m | PF_USER => with_uvaddr v m end.

(** ** The processor's address translation *)

Definition pdx (va : Z) : Z := va / 2 ^ 22.
Definition ptx (va : Z) : Z := va / 2 ^ 12 mod 2 ^ 10.
Definition present (e : Z) : bool := Z.testbit e 0.
Definition frame (e : Z) : Z := e / 2 ^ 12 mod 2 ^ 20 * 2 ^ 12.

(** The physical addresses of the two entries a virtual address goes through. *)
Definition pde_pa (m : vm) (va : Z) : Z := cr3 m + 4 * pdx va.
Definition pte_pa (m : vm) (va : Z) : Z := frame (pm m (pde_pa m va)) + 4 * ptx va.

Definition mmu (m : vm) (va : Z) : option Z :=
  if present (pm m (pde_pa m va)) then
    let pte := pm m (pte_pa m va) in
    if present pte then Some (frame pte + va mod 2 ^ 12) else None
  else None.

(** Memory accesses by the kernel; an unmapped address is a page fault. *)
Definition load (m : vm) (va : Z) : outcome Z :=
  match mmu m va with Some pa => Ok (pm m pa) | None => Err BadAccess end.

Definition store (m : vm) (va v : Z) : outcome vm :=
  match mmu m va with
  | Some pa => Ok (with_pm (fun a => if a =? pa then v else pm m a) m)
  | None => Err BadAccess
  end.

(** [memset(va, 0, PG_SIZE)] of the page at [va]. *)
Definition zero_page (m : vm) (va : Z) : outcome vm :=
  match mmu m va with
  | Some pa => Ok (with_pm (fun a => if (pa <=? a) && (a <? pa + PG_SIZE) then 0 else pm m a) m)
  | None => Err BadAccess
  end.

(** ** Page table entries *)

Definition pte_ptr (vaddr : Z) : Z :=
  u32 (0xffc00000 + Z.shiftr (Z.land vaddr 0xffc00000) 10 + PTE_IDX vaddr * 4).

Definition pde_ptr (vaddr : Z) : Z := u32 (0xfffff000 + PDE_IDX vaddr * 4).

Definition addr_v2p (m : vm) (vaddr : Z) : outcome Z :=
  let! pte := load m (pte_ptr vaddr) in
  Ok (u32 (Z.land pte 0xfffff000 + Z.land vaddr 0x00000fff)).

(** [palloc]: [None] is NULL. *)
Definition palloc (p : pool) : outcome (pool * option Z) :=
  let! bit_idx := bitmap_scan (pool_bitmap p) 1 in
  if bit_idx =? -1 then Ok (p, None) else
  let! b := bitmap_set (pool_bitmap p) (u32 bit_idx) 1 in
  Ok (mk_pool b (phy_addr_start p) (pool_size p), Some (u32 (bit_idx * PG_SIZE + phy_addr_start p))).

(** The result of [palloc(&kernel_pool)] for a page table is not tested: NULL
    becomes the page table's address. *)
Definition page_table_add (m : vm) (vaddr page_phyaddr : Z) : outcome vm :=
  let pde := pde_ptr vaddr in
  let pte := pte_ptr vaddr in
  let! pde_v := load m pde in
  if negb (Z.land pde_v 0x00000001 =? 0) then
    let! pte_v := load m pte in
    c_assert (Z.land pte_v 0x00000001 =? 0) ;;;
    if Z.land pte_v 0x00000001 =? 0 then store m pte (PTE_ATTR page_phyaddr) else Err AssertFail
  else
    let! ' (kp, r) := palloc (kernel_pool m) in
    let m := with_kpool kp m in
    let pde_phyaddr := default 0 r in
    let! m := store m pde (PTE_ATTR pde_phyaddr) in
    let! m := zero_page m (Z.land pte 0xfffff000) in
    let! pte_v := load m pte in
    c_assert (Z.land pte_v 0x00000001 =? 0) ;;;
    store m pte (PTE_ATTR page_phyaddr).

Definition page_table_pte_remove (m : vm) (vaddr : Z) : outcome vm :=
  let pte := pte_ptr vaddr in
  let! v := load m pte in
  store m pte (Z.land v (Z.lnot PG_P_1)).

(** ** Virtual address pools *)

(** [n] consecutive bits from [start] set to [v], as the loops of [vaddr_get] and
    [vaddr_remove] do. *)
Fixpoint set_run (b : bitmap) (start : Z) (n : nat) (v : Z) : outcome bitmap :=
  match n with
  | O => Ok b
  | S n => let! b := bitmap_set b (u32 start) v in set_run b (start + 1) n v
  end.

(** [None] is NULL. *)
Definition vaddr_get (m : vm) (pf : pool_flags) (pg_cnt : Z) : outcome (vm * option Z) :=
  let va := get_vaddr pf m in
  let! bit_idx_start := bitmap_scan (vaddr_bitmap va) pg_cnt in
  if bit_idx_start =? -1 then Ok (m, None) else
  let! b := set_run (vaddr_bitmap va) bit_idx_start (Z.to_nat pg_cnt) 1 in
  let vaddr := u32 (vaddr_start va + bit_idx_start * PG_SIZE) in
  (match pf with
   | PF_KERNEL => Ok tt
   | PF_USER => c_assert (vaddr <? 0xc0000000 - PG_SIZE)
   end) ;;;
  Ok (with_vaddr pf (mk_vaddr b (vaddr_start va)) m, Some vaddr).

Definition vaddr_remove (m : vm) (pf : pool_flags) (vaddr pg_cnt : Z) : outcome vm :=
  let va := get_vaddr pf m in
  let bit_idx_start := u32 (vaddr - vaddr_start va) / PG_SIZE in
  let! b := set_run (vaddr_bitmap va) bit_idx_start (Z.to_nat pg_cnt) 0 in
  Ok (with_vaddr pf (mk_vaddr b (vaddr_start va)) m).

(** ** Pages *)

(** The mapping loop of [malloc_page]; [false] when a physical page is missing. *)
Fixpoint map_pages (m : vm) (pf : pool_flags) (vaddr : Z) (cnt : nat) : outcome (vm * bool) :=
  match cnt with
  | O => Ok (m, true)
  | S cnt =>
      let! ' (p, page_phyaddr) := palloc (get_pool pf m) in
      let m := with_pool pf p m in
      match page_phyaddr with
      | None => Ok (m, false)
      | Some pa =>
          let! m := page_table_add m vaddr pa in
          map_pages m pf (u32 (vaddr + PG_SIZE)) cnt
      end
  end.

Definition malloc_page (m : vm) (pf : pool_flags) (pg_cnt : Z) : outcome (vm * option Z) :=
  c_assert ((0 <? pg_cnt) && (pg_cnt <? 3840)) ;;;
  let! ' (m, vaddr_start) := vaddr_get m pf pg_cnt in
  match vaddr_start with
  | None => Ok (m, None)
  | Some va =>
      let! ' (m, ok) := map_pages m pf va (Z.to_nat pg_cnt) in
      Ok (m, if (ok : bool) then Some va else None)
  end.

(** [get_a_page]; [is_process] is [cur->pgdir != NULL]. *)
Definition get_a_page (m : vm) (is_process : bool) (pf : pool_flags) (vaddr : Z)
  : outcome (vm * option Z) :=
  let! m :=
    match is_process, pf with
    | true, PF_USER =>
        let va := userprog_vaddr m in
        let bit_idx := s32 (u32 (vaddr - vaddr_start va) / PG_SIZE) in
        c_assert (0 <=? bit_idx) ;;;
        let! b := bitmap_set (vaddr_bitmap va) (u32 bit_idx) 1 in
        Ok (with_uvaddr (mk_vaddr b (vaddr_start va)) m)
    | false, PF_KERNEL =>
        let va := kernel_vaddr m in
        let bit_idx := s32 (u32 (vaddr - vaddr_start va) / PG_SIZE) in
        c_assert (0 <? bit_idx) ;;;
        let! b := bitmap_set (vaddr_bitmap va) (u32 bit_idx) 1 in
        Ok (with_kvaddr (mk_vaddr b (vaddr_start va)) m)
    | _, _ => Err AssertFail
    end in
  let! ' (p, r) := palloc (get_pool pf m) in
  let m := with_pool pf p m in
  match r with
  | None => Ok (m, None)
  | Some pa => let! m := page_table_add m vaddr pa in Ok (m, Some vaddr)
  end.

Definition get_a_page_without_opvaddrbitmap (m : vm) (pf : pool_flags) (vaddr : Z)
  : outcome (vm * option Z) :=
  let! ' (p, r) := palloc (get_pool pf m) in
  let m := with_pool pf p m in
  match r with
  | None => Ok (m, None)
  | Some pa => let! m := page_table_add m vaddr pa in Ok (m, Some vaddr)
  end.

(** [pfree] and [free_a_phy_page] have the same body. *)
Definition pfree (m : vm) (pg_phy_addr : Z) : outcome vm :=
  let pf := if phy_addr_start (user_pool m) <=? pg_phy_addr then PF_USER else PF_KERNEL in
  let p := get_pool pf m in
  let bit_idx := u32 (pg_phy_addr - phy_addr_start p) / PG_SIZE in
  let! b := bitmap_set (pool_bitmap p) bit_idx 0 in
  Ok (with_pool pf (mk_pool b (phy_addr_start p) (pool_size p)) m).

Definition free_a_phy_page (m : vm) (pg_phy_addr : Z) : outcome vm := pfree m pg_phy_addr.

(** The freeing loop of [mfree_page]; [user] says which of its two branches it is
    in, decided on the first page. *)
Fixpoint unmap_pages (m : vm) (user : bool) (vaddr : Z) (cnt : nat) : outcome vm :=
  match cnt with
  | O => Ok m
  | S cnt =>
      let! pa := addr_v2p m vaddr in
      c_assert ((pa mod PG_SIZE =? 0) &&
        (if user then phy_addr_start (user_pool m) <=? pa
         else (phy_addr_start (kernel_pool m) <=? pa) && (pa <? phy_addr_start (user_pool m)))) ;;;
      let! m := pfree m pa in
      let! m := page_table_pte_remove m vaddr in
      unmap_pages m user (u32 (vaddr + PG_SIZE)) cnt
  end.

Definition mfree_page (m : vm) (pf : pool_flags) (vaddr pg_cnt : Z) : outcome vm :=
  c_assert ((1 <=? pg_cnt) && (vaddr mod PG_SIZE =? 0)) ;;;
  let! pg_phy_addr := addr_v2p m vaddr in
  c_assert ((pg_phy_addr mod PG_SIZE =? 0) && (0x102000 <=? pg_phy_addr)) ;;;
  let! m := unmap_pages m (phy_addr_start (user_pool m) <=? pg_phy_addr) vaddr (Z.to_nat pg_cnt) in
  vaddr_remove m pf vaddr pg_cnt.

(** ** Initialisation *)

Definition K_HEAP_START : Z := 0xc0100000.
Definition MEM_BITMAP_BASE : Z := 0xc009a000.

(** [mem_pool_init] up to the contents of the bitmaps: the two pools and the
    kernel address pool as [(bitmap address, bitmap length, start, size)]. *)
Record layout := mk_layout { l_bits : Z; l_len : Z; l_start : Z; l_size : Z }.

Definition mem_pool_init (all_mem : Z) : layout * layout * layout :=
  let page_table_size := PG_SIZE * 256 in
  let used_mem := page_table_size + 0x100000 in
  let free_mem := u32 (all_mem - used_mem) in
  let all_free_pages := u16 (free_mem / PG_SIZE) in
  let kernel_free_pages := u16 (all_free_pages / 2) in
  let user_free_pages := u16 (all_free_pages - kernel_free_pages) in
  let kbm_length := kernel_free_pages / 8 in
  let ubm_length := user_free_pages / 8 in
  let kp_start := used_mem in
  let up_start := u32 (kp_start + kernel_free_pages * PG_SIZE) in
  (mk_layout MEM_BITMAP_BASE kbm_length kp_start (kernel_free_pages * PG_SIZE),
   mk_layout (MEM_BITMAP_BASE + kbm_length) ubm_length up_start (user_free_pages * PG_SIZE),
   mk_layout (MEM_BITMAP_BASE + kbm_length + ubm_length) kbm_length K_HEAP_START 0).

(** ** Specification vocabulary *)

Definition aligned (a : Z) : Prop := 0 <= a < 2 ^ 32 /\ a mod 2 ^ 12 = 0.

Definition pool_bits (p : pool) : Z := nbits (pool_bitmap p).

(** Frame [f] is a free page of pool [p]. *)
Definition frame_free (p : pool) (f : Z) : Prop :=
  exists i, 0 <= i < pool_bits p /\ f = phy_addr_start p + i * PG_SIZE
    /\ bit (pool_bitmap p) i = false.

(** How many pages of [p] are free. *)
Definition free_pages (p : pool) : nat :=
  length (filter (fun i => bit (pool_bitmap p) i = false) (seqZ 0 (pool_bits p))).

Record pool_ok (p : pool) : Prop := {
  po_wf : bitmap_wf 1 (pool_bitmap p);
  po_start : 0 < phy_addr_start p /\ phy_addr_start p mod 2 ^ 12 = 0;
  po_end : phy_addr_start p + pool_bits p * PG_SIZE <= 2 ^ 32 }.

(** The page directory in use maps itself through its last entry; page tables
    are never free pages, nor the directory, nor shared between the entries 1
    to 1022; the kernel pool lies below the user pool. *)
Record vm_ok (m : vm) : Prop := {
  vo_cr3 : aligned (cr3 m);
  vo_self : present (pm m (cr3 m + 4 * 1023)) = true /\ frame (pm m (cr3 m + 4 * 1023)) = cr3 m;
  vo_kpool : pool_ok (kernel_pool m);
  vo_upool : pool_ok (user_pool m);
  vo_order : phy_addr_start (kernel_pool m) + pool_bits (kernel_pool m) * PG_SIZE
             <= phy_addr_start (user_pool m);
  vo_cr3_used : forall pf, ~ frame_free (get_pool pf m) (cr3 m);
  vo_tables : forall i, 0 <= i < 1023 -> present (pm m (cr3 m + 4 * i)) = true ->
    frame (pm m (cr3 m + 4 * i)) <> cr3 m
    /\ forall pf, ~ frame_free (get_pool pf m) (frame (pm m (cr3 m + 4 * i)));
  vo_unshared : forall i j, 1 <= i < 1023 -> 1 <= j < 1023 -> i <> j ->
    present (pm m (cr3 m + 4 * i)) = true -> present (pm m (cr3 m + 4 * j)) = true ->
    frame (pm m (cr3 m + 4 * i)) <> frame (pm m (cr3 m + 4 * j)) }.

(** Addresses translated by the directory entries 1 to 1022. *)
Definition mappable (va : Z) : Prop := 2 ^ 22 <= va < 0xffc00000.

Definition page_of (va : Z) : Z := va / 2 ^ 12.

(** [f] is a page table of the directory in use. *)
Definition is_table (m : vm) (f : Z) : Prop :=
  exists i, 0 <= i < 1023 /\ present (pm m (cr3 m + 4 * i)) = true /\ frame (pm m (cr3 m + 4 * i)) = f.

(** [p'] is [p] with at least as much in use. *)
Record pool_sub (p' p : pool) : Prop := {
  ps_start : phy_addr_start p' = phy_addr_start p;
  ps_bits : pool_bits p' = pool_bits p;
  ps_size : pool_size p' = pool_size p;
  ps_free : forall f, frame_free p' f -> frame_free p f }.

(** A machine with empty page tables, eight kernel and eight user pages, and
    eight pages of kernel heap addresses. *)
Definition demo_pool (start : Z) : pool := mk_pool (mk_bitmap 1 [0; 0]) start (8 * PG_SIZE).
Definition demo_vaddr (start : Z) : virtual_addr := mk_vaddr (mk_bitmap 1 [0; 0]) start.
Definition demo_vm : vm :=
  mk_vm (fun a => if a =? 0x100ffc then 0x100007 else 0) 0x100000
    (demo_pool 0x200000) (demo_pool 0x208000) (demo_vaddr 0xc0100000) (demo_vaddr 0x8048000).

(** ** Bit fields *)

Lemma land_field a n k : 0 <= n -> 0 <= k ->
  Z.land a (Z.shiftl (Z.ones n) k) = a / 2 ^ k mod 2 ^ n * 2 ^ k.
Proof.
  intros Hn Hk. rewrite <- Z.shiftl_mul_pow2, <- Z.land_ones, <- Z.shiftr_div_pow2 by done.
  apply Z.bits_inj'. intros i Hi.
  rewrite Z.land_spec, !Z.shiftl_spec by lia. destruct (Z.ltb_spec i k).
  - by rewrite !(Z.testbit_neg_r _ (i - k)), andb_false_r by lia.
  - rewrite Z.land_spec, Z.shiftr_spec by lia. by replace (i - k + k) with i by lia.
Qed.

Lemma ptr_fields va : 0 <= va < 2 ^ 32 ->
  PDE_IDX va = pdx va /\ PTE_IDX va = ptx va
  /\ Z.shiftr (Z.land va 0xffc00000) 10 = pdx va * 2 ^ 12
  /\ 0 <= pdx va < 1024 /\ 0 <= ptx va < 1024.
Proof.
  intros H. unfold PDE_IDX, PTE_IDX, pdx, ptx.
  change 0xffc00000 with (Z.shiftl (Z.ones 10) 22). change 0x003ff000 with (Z.shiftl (Z.ones 10) 12).
  rewrite !land_field by lia.
  assert (0 <= va / 2 ^ 22 < 1024) as Hd.
  { split; [apply Z.div_pos | apply Z.div_lt_upper_bound]; lia. }
  rewrite (Z.mod_small (va / 2 ^ 22)) by (change (2 ^ 10) with 1024; lia).
  rewrite (Z.shiftr_div_pow2 (va / 2 ^ 22 * 2 ^ 22) 22), (Z.shiftr_div_pow2 (va / 2 ^ 22 * 2 ^ 22) 10),
    (Z.shiftr_div_pow2 _ 12), !Z.div_mul by lia.
  split_and!; try done; try lia.
  - change (2 ^ 22) with (2 ^ 12 * 2 ^ 10) at 2. rewrite Z.mul_assoc. by apply Z.div_mul.
  - apply Z.mod_pos_bound. lia.
  - apply Z.mod_pos_bound. lia.
Qed.

Lemma pte_ptr_eq va : 0 <= va < 2 ^ 32 ->
  pte_ptr va = 0xffc00000 + pdx va * 2 ^ 12 + 4 * ptx va.
Proof.
  intros H. destruct (ptr_fields va H) as (_&E1&E2&?&?). unfold pte_ptr. rewrite E1, E2.
  rewrite u32_small; lia.
Qed.

Lemma pde_ptr_eq va : 0 <= va < 2 ^ 32 -> pde_ptr va = 0xfffff000 + 4 * pdx va.
Proof.
  intros H. destruct (ptr_fields va H) as (E&_&_&?&?). unfold pde_ptr. rewrite E.
  rewrite u32_small; lia.
Qed.

Lemma pdx_split hi lo : 0 <= lo < 2 ^ 22 -> pdx (hi * 2 ^ 22 + lo) = hi.
Proof. intros. unfold pdx. rewrite Z.div_add_l, Z.div_small by lia. lia. Qed.

Lemma ptx_split hi mid lo : 0 <= mid < 1024 -> 0 <= lo < 2 ^ 12 ->
  ptx (hi * 2 ^ 22 + mid * 2 ^ 12 + lo) = mid.
Proof.
  intros. unfold ptx. replace (hi * 2 ^ 22 + mid * 2 ^ 12 + lo) with ((hi * 2 ^ 10 + mid) * 2 ^ 12 + lo) by lia.
  rewrite Z.div_add_l, (Z.div_small lo), Z.add_0_r, Z.add_comm, Z.mod_add, Z.mod_small; lia.
Qed.

Lemma off_split hi lo : 0 <= lo < 2 ^ 12 -> (hi * 2 ^ 12 + lo) mod 2 ^ 12 = lo.
Proof. intros. rewrite Z.add_comm, Z.mod_add, Z.mod_small; lia. Qed.

Lemma frame_aligned e : aligned (frame e).
Proof.
  unfold frame, aligned. split; [|by apply Z.mod_mul].
  pose proof (Z.mod_pos_bound (e / 2 ^ 12) (2 ^ 20) ltac:(lia)). lia.
Qed.

(** ** The self map *)

(** The entries of [va] are at the virtual addresses [pde_ptr] and [pte_ptr]. *)
Lemma mmu_pde m va : vm_ok m -> 0 <= va < 2 ^ 32 -> mmu m (pde_ptr va) = Some (pde_pa m va).
Proof.
  intros Hm H. rewrite pde_ptr_eq by done. destruct (ptr_fields va H) as (_&_&_&Hp&_).
  destruct (vo_self m Hm) as [Hs Hf]. unfold mmu.
  assert (pdx (0xfffff000 + 4 * pdx va) = 1023) as E1.
  { replace (0xfffff000 + 4 * pdx va) with (1023 * 2 ^ 22 + (1023 * 2 ^ 12 + 4 * pdx va)) by lia.
    apply pdx_split. lia. }
  assert (ptx (0xfffff000 + 4 * pdx va) = 1023) as E2.
  { replace (0xfffff000 + 4 * pdx va) with (1023 * 2 ^ 22 + 1023 * 2 ^ 12 + 4 * pdx va) by lia.
    apply ptx_split; lia. }
  unfold pte_pa, pde_pa at 1 2. rewrite E1, E2, Hs, Hf.
  unfold pde_pa at 1. rewrite E1, Hf, Hs, Hf. f_equal. unfold pde_pa. f_equal.
  replace (0xfffff000 + 4 * pdx va) with (0xfffff * 2 ^ 12 + 4 * pdx va) by lia.
  apply off_split. lia.
Qed.

Lemma mmu_pte m va : vm_ok m -> 0 <= va < 2 ^ 32 ->
  mmu m (pte_ptr va) = if present (pm m (pde_pa m va)) then Some (pte_pa m va) else None.
Proof.
  intros Hm H. rewrite pte_ptr_eq by done. destruct (ptr_fields va H) as (_&_&_&Hp&Ht).
  destruct (vo_self m Hm) as [Hs Hf]. unfold mmu.
  assert (pdx (0xffc00000 + pdx va * 2 ^ 12 + 4 * ptx va) = 1023) as E1.
  { replace (0xffc00000 + pdx va * 2 ^ 12 + 4 * ptx va)
      with (1023 * 2 ^ 22 + (pdx va * 2 ^ 12 + 4 * ptx va)) by lia. apply pdx_split. lia. }
  assert (ptx (0xffc00000 + pdx va * 2 ^ 12 + 4 * ptx va) = pdx va) as E2.
  { replace (0xffc00000 + pdx va * 2 ^ 12 + 4 * ptx va)
      with (1023 * 2 ^ 22 + pdx va * 2 ^ 12 + 4 * ptx va) by lia. apply ptx_split; lia. }
  unfold pte_pa at 1 2. unfold pde_pa at 1 2 3. rewrite E1, E2, Hs, Hf.
  fold (pde_pa m va). destruct (present (pm m (pde_pa m va))); [|done].
  f_equal. unfold pte_pa. f_equal.
  replace (0xffc00000 + pdx va * 2 ^ 12 + 4 * ptx va)
    with ((0xffc00 + pdx va) * 2 ^ 12 + 4 * ptx va) by lia. apply off_split. lia.
Qed.

(** ** Physical pages *)

#[export] Instance pool_sub_refl : Reflexive pool_sub.
Proof. intros p. by constructor. Qed.

#[export] Instance pool_sub_trans : Transitive pool_sub.
Proof. intros p q r [] []. constructor; try congruence. auto. Qed.

(** Removing one element from a filtered list without repetitions. *)
Lemma filter_flip (P Q : Z -> Prop) `{forall z, Decision (P z)} `{forall z, Decision (Q z)} l x :
  NoDup l -> x ∈ l -> P x -> ~ Q x -> (forall y, y <> x -> P y <-> Q y) ->
  length (filter P l) = S (length (filter Q l)).
Proof.
  intros Hnd Hx HP HQ Heq. induction l as [|y l IH]; [by apply not_elem_of_nil in Hx|].
  apply NoDup_cons in Hnd as [Hy Hnd]. rewrite !filter_cons.
  destruct (decide (y = x)) as [->|Hne].
  - rewrite decide_True, decide_False by done. cbn. f_equal. f_equal.
    clear IH Hx. induction l as [|z l IH]; [done|].
    apply not_elem_of_cons in Hy as [Hz Hy]. apply NoDup_cons in Hnd as [_ Hnd].
    rewrite !filter_cons. specialize (Heq z (not_eq_sym Hz)).
    destruct (decide (P z)), (decide (Q z)); try tauto; by rewrite IH.
  - apply elem_of_cons in Hx as [Hx|Hx]; [done|]. specialize (IH Hnd Hx).
    destruct (decide (P y)), (decide (Q y)); cbn; rewrite ?IH; try done; exfalso; apply Heq in Hne; tauto.
Qed.

Lemma free_pages_pos p : (0 < free_pages p)%nat <-> exists i, 0 <= i < pool_bits p /\ bit (pool_bitmap p) i = false.
Proof.
  unfold free_pages. split.
  - destruct (filter _ _) as [|i l] eqn:E; cbn; [lia|]. intros _. exists i.
    assert (i ∈ filter (fun i => bit (pool_bitmap p) i = false) (seqZ 0 (pool_bits p))) as Hi
      by (rewrite E; apply list_elem_of_here).
    apply list_elem_of_filter in Hi as [Hb Hi]. apply elem_of_seqZ in Hi. split; [lia | done].
  - intros (i & Hi & Hb). destruct (filter _ _) eqn:E; cbn; [|lia].
    assert (i ∈ filter (fun i => bit (pool_bitmap p) i = false) (seqZ 0 (pool_bits p))) as Hin.
    { apply list_elem_of_filter. split; [done|]. apply elem_of_seqZ. lia. }
    rewrite E in Hin. by apply not_elem_of_nil in Hin.
Qed.

(** Changing one bit of a pool's bitmap. *)
Lemma pool_ok_set p b i v : pool_ok p -> 0 <= i < pool_bits p ->
  btmp_bytes_len b = btmp_bytes_len (pool_bitmap p) -> bitmap_wf 1 b ->
  (forall j, bit b j = if j =? i then v else bit (pool_bitmap p) j) ->
  let p' := mk_pool b (phy_addr_start p) (pool_size p) in
  let f := phy_addr_start p + i * PG_SIZE in
  pool_ok p' /\ pool_bits p' = pool_bits p /\ aligned f
  /\ (v = true -> bit (pool_bitmap p) i = false ->
      pool_sub p' p /\ ~ frame_free p' f /\ S (free_pages p') = free_pages p)
  /\ (v = false -> bit (pool_bitmap p) i = true ->
      frame_free p' f /\ free_pages p' = S (free_pages p)
      /\ forall g, frame_free p' g <-> frame_free p g \/ g = f).
Proof.
  intros [] Hi Hl Hwf Hb p' f. unfold pool_bits, nbits, PG_SIZE in *.
  assert (pool_bits p' = pool_bits p) as Hbits by (unfold pool_bits, nbits; cbn; by rewrite Hl).
  unfold pool_bits, nbits in Hbits.
  split_and!; try done.
  - constructor; cbn; try done. unfold pool_bits, nbits, PG_SIZE; cbn. rewrite Hl. done.
  - unfold aligned, f, PG_SIZE. rewrite Z.add_mod, (proj2 po_start0), Z_mod_mult by lia. split; [lia|done].
  - intros -> Hf. split_and!.
    + constructor; try done. intros g (j & Hj & -> & Hg). cbn in *. rewrite Hb in Hg.
      exists j. unfold pool_bits, nbits in *; cbn in Hj. rewrite Hl in Hj.
      destruct (j =? i); [done|]. done.
    + intros (j & Hj & E & Hg). cbn in *. unfold f, PG_SIZE in E. assert (j = i) as -> by lia.
      rewrite Hb, Z.eqb_refl in Hg. done.
    + symmetry. unfold free_pages. unfold pool_bits, nbits; cbn. rewrite Hl. apply (filter_flip _ _ _ i).
      * apply NoDup_seqZ.
      * apply elem_of_seqZ. lia.
      * done.
      * rewrite Hb, Z.eqb_refl. done.
      * intros y Hy. rewrite Hb. apply Z.eqb_neq in Hy as ->. done.
  - intros -> Hf. split_and!.
    + exists i. unfold pool_bits, nbits; cbn. rewrite Hl, Hb, Z.eqb_refl. done.
    + unfold free_pages. unfold pool_bits, nbits; cbn. rewrite Hl. apply (filter_flip _ _ _ i).
      * apply NoDup_seqZ.
      * apply elem_of_seqZ. lia.
      * rewrite Hb, Z.eqb_refl. done.
      * by rewrite Hf.
      * intros y Hy. rewrite Hb. apply Z.eqb_neq in Hy as ->. done.
    + intros g. split.
      * intros (j & Hj & -> & Hg). unfold pool_bits, nbits in Hj. cbn in Hj, Hg. rewrite Hb in Hg.
        destruct (Z.eqb_spec j i) as [->|]; [by right | left]. rewrite Hl in Hj. exists j. done.
      * intros [(j & Hj & -> & Hg)| ->].
        -- exists j. unfold pool_bits, nbits; cbn. rewrite Hl, Hb. case_bool; done.
        -- exists i. unfold pool_bits, nbits; cbn. rewrite Hl, Hb, Z.eqb_refl. done.
Qed.

Lemma palloc_ok p : pool_ok p -> (0 < free_pages p)%nat ->
  exists p' f, palloc p = Ok (p', Some f) /\ pool_ok p' /\ pool_sub p' p
    /\ frame_free p f /\ ~ frame_free p' f /\ aligned f /\ S (free_pages p') = free_pages p.
Proof.
  intros Hp Hfree. apply free_pages_pos in Hfree. pose proof (wf_int _ _ (po_wf p Hp)) as Hint.
  destruct (bitmap_scan_first (pool_bitmap p) 1 (po_wf p Hp) Hfree) as (k & Hk & Hf & _ & Hs).
  destruct (bitmap_set_ok (pool_bitmap p) 1 k true (po_wf p Hp) ltac:(lia)) as (b & Hb & Hlb & Hwf & Hbits).
  destruct (pool_ok_set p b k true Hp Hk Hlb Hwf Hbits) as (Hok & Hpb & Hal & Hset & _).
  destruct (Hset eq_refl Hf) as (Hsub & Hnf & Hcnt).
  unfold palloc. rewrite Hs. change (1 =? 1) with true. cbn iota. cbn [obind].
  replace (k =? -1) with false by (symmetry; apply Z.eqb_neq; lia).
  rewrite u32_small by lia. cbn [Z.b2z] in Hb. rewrite Hb. cbn [obind].
  rewrite Z.add_comm in Hal, Hnf. rewrite u32_small by apply Hal.
  eexists _, _. split; [done|]. split_and!; try done. exists k. split; [done|]. split; [lia|done].
Qed.

(** ** Page table updates *)

Lemma PTE_ATTR_eq f : f mod 2 ^ 12 = 0 -> PTE_ATTR f = f + 7.
Proof.
  intros Hf. unfold PTE_ATTR, PG_US_U, PG_RW_W, PG_P_1.
  rewrite <- !Z.lor_assoc. change (Z.lor 4 (Z.lor 2 1)) with 7.
  assert (Z.land f 7 = 0) as Hl.
  { apply Z.bits_inj'. intros i Hi. rewrite Z.land_spec, Z.bits_0. destruct (Z.ltb_spec i 12).
    - rewrite <- (Z.mod_pow2_bits_low f 12) by lia. by rewrite Hf, Z.bits_0.
    - change 7 with (Z.ones 3). rewrite Z.ones_spec_high by lia. apply andb_false_r. }
  by rewrite Z.add_nocarry_lxor, Z.lxor_lor.
Qed.

Lemma frame_attr f n : aligned f -> 0 <= n < 2 ^ 12 -> frame (f + n) = f.
Proof.
  intros [Hr Hm] Hn. unfold frame.
  assert (f = f / 2 ^ 12 * 2 ^ 12) as Hf by (rewrite Z.mul_comm; by apply Z_div_exact_full_2).
  rewrite Hf at 1. rewrite Z.div_add_l, (Z.div_small n), Z.add_0_r by lia.
  rewrite Z.mod_small; [by rewrite <- Hf|].
  split; [apply Z.div_pos; lia | apply Z.div_lt_upper_bound; lia].
Qed.

Lemma pte_attr f : aligned f -> present (PTE_ATTR f) = true /\ frame (PTE_ATTR f) = f.
Proof.
  intros Hf. rewrite PTE_ATTR_eq by apply Hf. split; [|by apply frame_attr].
  unfold present. rewrite Z.bit0_odd.
  destruct Hf as [_ Hf]. apply Z.mod_divide in Hf as [q ->]; [|lia].
  replace (q * 2 ^ 12 + 7) with (1 + 2 * (q * 2 ^ 11 + 3)) by lia. by rewrite Z.odd_add_mul_2.
Qed.

Lemma land1 e : (Z.land e 1 =? 0) = negb (present e).
Proof.
  unfold present. rewrite Z.bit0_odd. change 1 with (Z.ones 1).
  rewrite Z.land_ones, Zmod_odd by lia. by destruct (Z.odd e).
Qed.

Lemma load_pde m va : vm_ok m -> 0 <= va < 2 ^ 32 -> load m (pde_ptr va) = Ok (pm m (pde_pa m va)).
Proof. intros. unfold load. by rewrite mmu_pde. Qed.

Lemma load_pte m va : vm_ok m -> 0 <= va < 2 ^ 32 -> present (pm m (pde_pa m va)) = true ->
  load m (pte_ptr va) = Ok (pm m (pte_pa m va)).
Proof. intros Hm H Hp. unfold load. by rewrite mmu_pte, Hp. Qed.

(** [vm_ok] only depends on the directory and the pools. *)
Lemma vm_ok_ext m m' : vm_ok m -> cr3 m' = cr3 m -> kernel_pool m' = kernel_pool m ->
  user_pool m' = user_pool m ->
  (forall i, 0 <= i < 1024 -> pm m' (cr3 m + 4 * i) = pm m (cr3 m + 4 * i)) -> vm_ok m'.
Proof.
  intros [] Hc Hk Hu Hd.
  assert (forall pf, get_pool pf m' = get_pool pf m) as Hg by (by intros []).
  constructor; rewrite ?Hc, ?Hk, ?Hu; try done.
  - by rewrite Hd by lia.
  - intros pf. rewrite Hg. apply vo_cr3_used0.
  - intros i Hi. rewrite Hd by lia. intros Hp. destruct (vo_tables0 i Hi Hp) as [? Hn].
    split; [done|]. intros pf. rewrite Hg. apply Hn.
  - intros i j Hi Hj. rewrite !Hd by lia. by apply vo_unshared0.
Qed.

(** Two words in different frames. *)
Lemma frames_apart f g i j : aligned f -> aligned g -> f <> g -> 0 <= i < 2 ^ 12 -> 0 <= j < 2 ^ 12 ->
  f + i <> g + j.
Proof.
  intros Hf Hg Hne Hi Hj E. apply Hne. rewrite <- (frame_attr f i), <- (frame_attr g j); congruence.
Qed.

Lemma mappable_idx va : mappable va -> 0 <= va < 2 ^ 32 /\ 1 <= pdx va < 1023 /\ 0 <= ptx va < 1024.
Proof.
  unfold mappable. intros H. split; [lia|]. split.
  - unfold pdx. split; [apply Z.div_le_lower_bound | apply Z.div_lt_upper_bound]; lia.
  - unfold ptx. apply Z.mod_pos_bound. lia.
Qed.

(** Pages with the same two indices are the same page. *)
Lemma page_idx va va' : pdx va = pdx va' -> ptx va = ptx va' -> page_of va = page_of va'.
Proof.
  unfold pdx, ptx, page_of. intros H1 H2.
  rewrite (Z.div_mod (va / 2 ^ 12) (2 ^ 10)), (Z.div_mod (va' / 2 ^ 12) (2 ^ 10)) by lia.
  rewrite H2. f_equal. f_equal. change (2 ^ 22) with (2 ^ 12 * 2 ^ 10) in H1.
  by rewrite <- !Z.div_div in H1 by lia.
Qed.

(** Entries of different pages are different words. *)
Lemma pte_apart m va va' : vm_ok m -> mappable va -> mappable va' -> page_of va' <> page_of va ->
  present (pm m (pde_pa m va)) = true -> present (pm m (pde_pa m va')) = true ->
  pte_pa m va' <> pte_pa m va.
Proof.
  intros Hm H H' Hne Hp Hp'. destruct (mappable_idx va H) as (_&Hi&Hj), (mappable_idx va' H') as (_&Hi'&Hj').
  unfold pte_pa. destruct (Z.eq_dec (pdx va') (pdx va)) as [E|E].
  - unfold pde_pa. rewrite E. intros E2. apply Hne, page_idx; lia.
  - apply frames_apart; try apply frame_aligned; try lia.
    apply (vo_unshared m Hm); done.
Qed.

(** Writing the page table entry of [va], its table being present. *)
Lemma set_pte m va v : vm_ok m -> mappable va -> present (pm m (pde_pa m va)) = true ->
  let m' := with_pm (fun a => if a =? pte_pa m va then v else pm m a) m in
  store m (pte_ptr va) v = Ok m' /\ vm_ok m'
  /\ (forall i, 0 <= i < 1024 -> pm m' (cr3 m + 4 * i) = pm m (cr3 m + 4 * i))
  /\ mmu m' va = (if present v then Some (frame v + va mod 2 ^ 12) else None)
  /\ forall va', mappable va' -> page_of va' <> page_of va -> mmu m' va' = mmu m va'.
Proof.
  intros Hm H Hp m'. destruct (mappable_idx va H) as (Hr&Hi&Hj).
  destruct (vo_tables m Hm (pdx va) ltac:(lia) Hp) as [Hne _].
  assert (forall i, 0 <= i < 1024 -> pm m' (cr3 m + 4 * i) = pm m (cr3 m + 4 * i)) as Hdir.
  { intros i Hi'. cbn. replace (cr3 m + 4 * i =? pte_pa m va) with false; [done|]. symmetry.
    apply Z.eqb_neq. unfold pte_pa. apply frames_apart; try lia; try apply frame_aligned.
    - apply (vo_cr3 m Hm). - done. }
  assert (forall x, 0 <= x < 2 ^ 32 -> pm m' (pde_pa m x) = pm m (pde_pa m x)) as Hpde.
  { intros x Hx. apply Hdir. apply (ptr_fields x Hx). }
  split_and!; try done.
  - unfold store. by rewrite mmu_pte, Hp.
  - by apply (vm_ok_ext m).
  - unfold mmu. change (pde_pa m' ?x) with (pde_pa m x). rewrite Hpde, Hp by done.
    unfold pte_pa. change (pde_pa m' ?x) with (pde_pa m x). rewrite Hpde by done.
    fold (pte_pa m va). cbn. by rewrite Z.eqb_refl.
  - intros va' H' Hne'. destruct (mappable_idx va' H') as (Hr'&_&_). unfold mmu.
    change (pde_pa m' ?x) with (pde_pa m x). rewrite Hpde by done.
    destruct (present (pm m (pde_pa m va'))) eqn:Hp'; [|done].
    unfold pte_pa. change (pde_pa m' ?x) with (pde_pa m x). rewrite Hpde by done.
    fold (pte_pa m va'). cbn. pose proof (pte_apart m va va' Hm H H' Hne' Hp Hp') as Hap.
    by apply Z.eqb_neq in Hap as ->.
Qed.

Lemma land_frame e : Z.land e 0xfffff000 = frame e.
Proof. change 0xfffff000 with (Z.shiftl (Z.ones 20) 12). by rewrite land_field by lia. Qed.

(** A word of one frame is not inside another frame. *)
Lemma outside_frame f g i : aligned f -> aligned g -> f <> g -> 0 <= i < 2 ^ 12 ->
  ((g <=? f + i) && (f + i <? g + PG_SIZE))%bool = false.
Proof.
  intros Hf Hg Hne Hi. apply andb_false_iff. unfold PG_SIZE.
  destruct (Z.leb_spec g (f + i)), (Z.ltb_spec (f + i) (g + 4096)); auto.
  exfalso. apply (frames_apart f g i (f + i - g)); try done; lia.
Qed.

(** A free page of either pool is no free page of the other. *)
Lemma pools_disjoint m f : vm_ok m -> frame_free (kernel_pool m) f -> frame_free (user_pool m) f -> False.
Proof.
  intros Hm (i & Hi & Hf & _) (j & Hj & Hf' & _). pose proof (vo_order m Hm).
  unfold PG_SIZE in *. nia.
Qed.

Section set_pde.
Variables (m : vm) (va f : Z) (kp : pool).
Hypothesis Hm : vm_ok m.
Hypothesis Hva : mappable va.
Hypothesis Habs : present (pm m (pde_pa m va)) = false.
Hypothesis Hkp : pool_ok kp.
Hypothesis Hsub : pool_sub kp (kernel_pool m).
Hypothesis Hfree : frame_free (kernel_pool m) f.
Hypothesis Hused : ~ frame_free kp f.
Hypothesis Hal : aligned f.
Let m1 := with_kpool kp m.
Let m2 := with_pm (fun a => if a =? pde_pa m va then PTE_ATTR f else pm m a) m1.
Let m3 := with_pm (fun a => if (f <=? a) && (a <? f + PG_SIZE) then 0 else pm m2 a) m2.

Lemma new_table_fresh : f <> cr3 m.
Proof. intros E. rewrite E in Hfree. by apply (vo_cr3_used m Hm PF_KERNEL). Qed.

Lemma m2_dir j : 0 <= j < 1024 ->
  pm m2 (cr3 m + 4 * j) = if j =? pdx va then PTE_ATTR f else pm m (cr3 m + 4 * j).
Proof.
  intros Hj. cbn. unfold pde_pa. destruct (Z.eqb_spec j (pdx va)) as [->|]; [by rewrite Z.eqb_refl|].
  by replace (cr3 m + 4 * j =? cr3 m + 4 * pdx va) with false by (symmetry; apply Z.eqb_neq; lia).
Qed.

Lemma m2_free pf g : frame_free (get_pool pf m2) g -> frame_free (get_pool pf m) g.
Proof. destruct pf; [apply (ps_free _ _ Hsub) | done]. Qed.

Lemma m2_ok : vm_ok m2.
Proof.
  destruct (mappable_idx va Hva) as (Hr&Hi&Hj). destruct (pte_attr f Hal) as [Hp Hf].
  pose proof new_table_fresh as Hne.
  assert (forall i, 0 <= i < 1023 -> i <> pdx va -> present (pm m (cr3 m + 4 * i)) = true ->
    frame (pm m (cr3 m + 4 * i)) <> f) as Hoth.
  { intros i Hi' _ Hpi E. destruct (vo_tables m Hm i Hi' Hpi) as [_ Hn].
    rewrite E in Hn. by apply (Hn PF_KERNEL). }
  destruct Hm, Hsub. constructor; cbn [cr3 kernel_pool user_pool m2 with_pm m1 with_kpool];
    fold m1; fold m2; try done.
  - rewrite m2_dir by lia. by replace (1023 =? pdx va) with false by (symmetry; apply Z.eqb_neq; lia).
  - by rewrite ps_start0, ps_bits0.
  - intros pf Hc. apply (vo_cr3_used0 pf). by apply m2_free.
  - intros i Hi'. rewrite m2_dir by lia. destruct (Z.eqb_spec i (pdx va)).
    + rewrite Hf. intros _. split; [done|]. intros [] Hff; [done|].
      apply (pools_disjoint m f Hm); [done | exact Hff].
    + intros Hpi. destruct (vo_tables0 i Hi' Hpi) as [? Hn]. split; [done|].
      intros pf Hff. apply (Hn pf). by apply m2_free.
  - intros i j Hi' Hj' Hij. rewrite !m2_dir by lia.
    destruct (Z.eqb_spec i (pdx va)), (Z.eqb_spec j (pdx va)); try lia; rewrite ?Hf.
    + intros _ Hpj. apply not_eq_sym, Hoth; done || lia.
    + intros Hpi _. apply Hoth; done || lia.
    + by apply vo_unshared0.
Qed.

Lemma m2_pde x : 0 <= x < 2 ^ 32 ->
  pm m2 (pde_pa m x) = if pdx x =? pdx va then PTE_ATTR f else pm m (pde_pa m x).
Proof. intros Hx. apply m2_dir, (ptr_fields x Hx). Qed.

Lemma m3_dir j : 0 <= j < 1024 -> pm m3 (cr3 m + 4 * j) = pm m2 (cr3 m + 4 * j).
Proof.
  intros Hj. unfold m3 at 1. cbn [pm with_pm]. rewrite outside_frame; try done; try lia.
  - apply (vo_cr3 m Hm).
  - apply not_eq_sym, new_table_fresh.
Qed.

Lemma m3_ok : vm_ok m3.
Proof. apply (vm_ok_ext m2 m3 m2_ok); try done. exact m3_dir. Qed.

Lemma m3_pde x : 0 <= x < 2 ^ 32 ->
  pm m3 (pde_pa m3 x) = if pdx x =? pdx va then PTE_ATTR f else pm m (pde_pa m x).
Proof.
  intros Hx. change (pde_pa m3 x) with (cr3 m + 4 * pdx x). rewrite m3_dir by apply (ptr_fields x Hx).
  by apply m2_pde.
Qed.

Lemma m3_zero i : 0 <= i < 2 ^ 12 -> pm m3 (f + i) = 0.
Proof.
  intros Hi. unfold m3. cbn [pm with_pm].
  replace ((f <=? f + i) && (f + i <? f + PG_SIZE))%bool with true; [done|].
  symmetry. apply andb_true_iff. unfold PG_SIZE. split; [apply Z.leb_le | apply Z.ltb_lt]; lia.
Qed.

Lemma store_new_pde : store m1 (pde_ptr va) (PTE_ATTR f) = Ok m2.
Proof.
  unfold store. change (mmu m1 (pde_ptr va)) with (mmu m (pde_ptr va)).
  rewrite mmu_pde by (done || apply (mappable_idx va Hva)). done.
Qed.

Lemma zero_new_table : zero_page m2 (Z.land (pte_ptr va) 0xfffff000) = Ok m3.
Proof.
  destruct (mappable_idx va Hva) as (Hr&Hi&Hj). destruct (pte_attr f Hal) as [Hp Hf].
  pose (va0 := pdx va * 2 ^ 22 + 0).
  assert (pdx va0 = pdx va) as E1 by (apply pdx_split; lia).
  assert (ptx va0 = 0) as E2.
  { unfold va0. replace (pdx va * 2 ^ 22 + 0) with (pdx va * 2 ^ 22 + 0 * 2 ^ 12 + 0) by lia.
    apply ptx_split; lia. }
  assert (0 <= va0 < 2 ^ 32) as H0 by (unfold va0; lia).
  assert (Z.land (pte_ptr va) 0xfffff000 = pte_ptr va0) as ->.
  { rewrite land_frame, !pte_ptr_eq, E1, E2 by done. rewrite Z.mul_0_r, Z.add_0_r.
    apply frame_attr; [|lia]. split; [lia|].
    replace (0xffc00000 + pdx va * 2 ^ 12) with ((0xffc00 + pdx va) * 2 ^ 12) by lia.
    by apply Z.mod_mul. }
  unfold zero_page. rewrite mmu_pte by (exact m2_ok || done).
  assert (pm m2 (pde_pa m2 va0) = PTE_ATTR f) as E.
  { change (pde_pa m2 va0) with (pde_pa m va0). rewrite m2_pde by done. by rewrite E1, Z.eqb_refl. }
  unfold pte_pa. rewrite E, Hp, Hf, E2, Z.mul_0_r, Z.add_0_r. done.
Qed.

Lemma m3_maps : present (pm m3 (pde_pa m3 va)) = true /\ pte_pa m3 va = f + 4 * ptx va
  /\ pm m3 (pte_pa m3 va) = 0.
Proof.
  destruct (mappable_idx va Hva) as (Hr&Hi&Hj). destruct (pte_attr f Hal) as [Hp Hf].
  unfold pte_pa. rewrite m3_pde, Z.eqb_refl, Hp, Hf by done. split_and!; try done.
  apply m3_zero. lia.
Qed.

Lemma m3_mmu va' : mappable va' -> mmu m3 va' = mmu m va'.
Proof.
  intros H'. destruct (mappable_idx va' H') as (Hr'&Hi'&Hj'). destruct (pte_attr f Hal) as [Hp Hf].
  unfold mmu, pte_pa. rewrite m3_pde by done. destruct (Z.eqb_spec (pdx va') (pdx va)) as [E|E].
  - rewrite Hp, Hf, m3_zero by lia. unfold pde_pa in *. by rewrite E, Habs.
  - destruct (present (pm m (pde_pa m va'))) eqn:Hp'; [|done].
    destruct (vo_tables m Hm (pdx va') ltac:(lia) Hp') as [Hc Hn]. fold (pde_pa m va') in Hc, Hn.
    assert (pm m3 (frame (pm m (pde_pa m va')) + 4 * ptx va')
            = pm m (frame (pm m (pde_pa m va')) + 4 * ptx va')) as ->; [|done].
    unfold m3 at 1. cbn [pm with_pm].
    rewrite outside_frame; try apply frame_aligned; try done; try lia; [|intros E'; rewrite E' in Hn; by apply (Hn PF_KERNEL)].
    cbn [pm m2 with_pm].
    destruct (Z.eqb_spec (frame (pm m (pde_pa m va')) + 4 * ptx va') (pde_pa m va)) as [E'|E']; [|done].
    exfalso. revert E'. unfold pde_pa at 2. destruct (mappable_idx va Hva) as (_&?&_).
    apply frames_apart; try apply frame_aligned; try apply (vo_cr3 m Hm); try done; lia.
Qed.
End set_pde.

(** [page_table_add] maps the page, maps or unmaps nothing else, and takes at
    most one page of the kernel pool, for a page table. *)
Record added (m m' : vm) (va pa : Z) : Prop := {
  ad_ok : vm_ok m';
  ad_map : mmu m' va = Some (pa + va mod 2 ^ 12);
  ad_other : forall va', mappable va' -> page_of va' <> page_of va -> mmu m' va' = mmu m va';
  ad_tables : forall g, is_table m' g -> is_table m g \/ frame_free (kernel_pool m) g;
  ad_cr3 : cr3 m' = cr3 m;
  ad_kpool : pool_sub (kernel_pool m') (kernel_pool m);
  ad_cnt : (free_pages (kernel_pool m) <= S (free_pages (kernel_pool m')))%nat;
  ad_upool : user_pool m' = user_pool m;
  ad_kvaddr : kernel_vaddr m' = kernel_vaddr m;
  ad_uvaddr : userprog_vaddr m' = userprog_vaddr m }.

Lemma is_table_ext m m' : cr3 m' = cr3 m ->
  (forall i, 0 <= i < 1023 -> pm m' (cr3 m + 4 * i) = pm m (cr3 m + 4 * i)) ->
  forall g, is_table m' g -> is_table m g.
Proof. intros Hc Hd g (i & Hi & Hp & Hf). rewrite Hc, Hd in * by done. by exists i. Qed.

Lemma page_table_add_ok m va pa : vm_ok m -> mappable va -> mmu m va = None -> aligned pa ->
  (0 < free_pages (kernel_pool m))%nat ->
  exists m', page_table_add m va pa = Ok m' /\ added m m' va pa.
Proof.
  intros Hm H Hun Hal Hfree. destruct (mappable_idx va H) as (Hr&Hi&Hj).
  destruct (pte_attr pa Hal) as [Hpp Hpf].
  unfold page_table_add. rewrite load_pde by done. cbn [obind]. rewrite land1, negb_involutive.
  destruct (present (pm m (pde_pa m va))) eqn:Hp.
  - rewrite load_pte by done. cbn [obind]. rewrite land1.
    unfold mmu in Hun. rewrite Hp in Hun. destruct (present (pm m (pte_pa m va))); [done|]. cbn [negb c_assert obind].
    destruct (set_pte m va (PTE_ATTR pa) Hm H Hp) as (E&Hok&Hdir&Hmap&Hoth).
    rewrite Hpp, Hpf in Hmap. rewrite E. eexists; split; [done|]. constructor; try done; [|cbn; lia].
    intros g Hg. left. revert Hg. apply is_table_ext; [done|]. intros; apply Hdir; lia.
  - destruct (palloc_ok _ (vo_kpool m Hm) Hfree) as (kp&f&E&Hkp&Hsub&Hff&Hnf&Hfal&Hcnt).
    rewrite E. cbn [obind]. change (default 0 (Some f)) with f.
    rewrite (store_new_pde m va f kp Hm H). cbn [obind].
    rewrite (zero_new_table m va f kp Hm H Hkp Hsub Hff Hnf Hfal). cbn [obind].
    pose proof (m3_ok m va f kp Hm H Hkp Hsub Hff Hnf Hfal) as Hok3.
    edestruct (m3_maps m va f kp) as (Hp3&Hpte3&Hz3); try done.
    set (m3 := with_pm _ _) in *.
    assert (forall va', mappable va' -> mmu m3 va' = mmu m va') as Hmmu3.
    { intros. by apply (m3_mmu m va f kp). }
    rewrite load_pte by done. cbn [obind]. rewrite Hz3. change (Z.land 0 1 =? 0) with true.
    cbn [c_assert obind].
    destruct (set_pte m3 va (PTE_ATTR pa) Hok3 H Hp3) as (E4&Hok&Hdir&Hmap&Hoth).
    rewrite Hpp, Hpf in Hmap. rewrite E4. eexists; split; [done|]. constructor; try done.
    + intros va' H' Hne. by rewrite Hoth, Hmmu3.
    + intros g (i & Hi' & Hpi & Hfi). change (cr3 (with_pm _ m3)) with (cr3 m3) in *. rewrite Hdir in * by lia.
      destruct (pte_attr f Hfal) as [_ Hf'].
      unfold m3 in Hpi, Hfi. change (cr3 (with_pm _ _)) with (cr3 m) in *.
      rewrite (m3_dir m va f kp) in Hpi, Hfi by (done || lia).
      rewrite (m2_dir m va f kp) in Hpi, Hfi by (done || lia).
      destruct (i =? pdx va); [right; by rewrite <- Hfi, Hf' | left; by exists i].
    + cbn. lia.
Qed.

(** ** Runs of pages *)

Lemma get_with_pool pf p m : get_pool pf (with_pool pf p m) = p.
Proof. by destruct pf. Qed.

(** The pool a page was not taken from is as before. *)
Definition other_pool (pf : pool_flags) : pool_flags :=
  match pf with PF_KERNEL => PF_USER | PF_USER => PF_KERNEL end.

Lemma vm_ok_pool m pf p : vm_ok m -> pool_ok p -> pool_sub p (get_pool pf m) -> vm_ok (with_pool pf p m).
Proof.
  intros [] Hp [].
  assert (forall pf' g, frame_free (get_pool pf' (with_pool pf p m)) g -> frame_free (get_pool pf' m) g) as Hfr
    by (intros [] g; destruct pf; auto).
  destruct pf; constructor; cbn in ps_start0, ps_bits0 |- *; rewrite ?ps_start0, ?ps_bits0; try done.
  - intros pf' Hc. by apply (vo_cr3_used0 pf'), Hfr.
  - intros i Hi Hpi. destruct (vo_tables0 i Hi Hpi) as [? Hn]. split; [done|].
    intros pf' Hg. by apply (Hn pf'), Hfr.
  - intros pf' Hc. by apply (vo_cr3_used0 pf'), Hfr.
  - intros i Hi Hpi. destruct (vo_tables0 i Hi Hpi) as [? Hn]. split; [done|].
    intros pf' Hg. by apply (Hn pf'), Hfr.
Qed.

Lemma page_of_add va i : page_of (va + i * PG_SIZE) = page_of va + i.
Proof. unfold page_of, PG_SIZE. change 4096 with (2 ^ 12). by rewrite Z.div_add. Qed.

Lemma add_page_mod va i : va mod 2 ^ 12 = 0 -> (va + i * PG_SIZE) mod 2 ^ 12 = 0.
Proof. unfold PG_SIZE. change 4096 with (2 ^ 12). intros. by rewrite Z.mod_add. Qed.

(** The page range of [n] pages from [va]. *)
Definition range_ok (va : Z) (n : nat) : Prop :=
  va mod 2 ^ 12 = 0 /\ 2 ^ 22 <= va /\ va + Z.of_nat n * PG_SIZE <= 0xffc00000.

Lemma range_mappable va n i : range_ok va n -> (i < n)%nat -> mappable (va + Z.of_nat i * PG_SIZE).
Proof. unfold range_ok, mappable, PG_SIZE. lia. Qed.

Lemma range_next va n : range_ok va (S n) -> range_ok (va + PG_SIZE) n /\ u32 (va + PG_SIZE) = va + PG_SIZE
  /\ mappable va /\ page_of (va + PG_SIZE) = page_of va + 1.
Proof.
  intros (Hm & H & He). pose proof (page_of_add va 1) as Hp. pose proof (add_page_mod va 1 Hm) as Hm1.
  rewrite Z.mul_1_l in *. unfold range_ok, mappable, PG_SIZE in *.
  split_and!; try done; try lia. apply u32_small. lia.
Qed.

Lemma next_page va i : va + PG_SIZE + Z.of_nat i * PG_SIZE = va + Z.of_nat (S i) * PG_SIZE.
Proof. lia. Qed.

(** What mapping [n] pages from [va] to the frames [fs] of pool [pf] leaves. *)
Record mapped (m m' : vm) (pf : pool_flags) (va : Z) (n : nat) (fs : list Z) : Prop := {
  mp_ok : vm_ok m';
  mp_len : length fs = n;
  mp_nodup : NoDup fs;
  mp_map : forall i f, fs !! i = Some f -> mmu m' (va + Z.of_nat i * PG_SIZE) = Some f;
  mp_free : forall f, f ∈ fs -> aligned f /\ frame_free (get_pool pf m) f /\ ~ frame_free (get_pool pf m') f;
  mp_tables : forall f, f ∈ fs -> ~ is_table m' f;
  mp_new_tables : forall g, is_table m' g -> is_table m g \/ frame_free (kernel_pool m) g;
  mp_other : forall va', mappable va' -> ~ (page_of va <= page_of va' < page_of va + Z.of_nat n) ->
    mmu m' va' = mmu m va';
  mp_cr3 : cr3 m' = cr3 m;
  mp_kpool : pool_sub (kernel_pool m') (kernel_pool m);
  mp_upool : pool_sub (user_pool m') (user_pool m);
  mp_taken : pf = PF_USER -> forall g, frame_free (user_pool m) g -> frame_free (user_pool m') g \/ g ∈ fs;
  mp_vaddr : kernel_vaddr m' = kernel_vaddr m /\ userprog_vaddr m' = userprog_vaddr m;
  mp_count : (free_pages (kernel_pool m) <= free_pages (kernel_pool m') + 2 * n)%nat
    /\ (free_pages (user_pool m) <= free_pages (user_pool m') + n)%nat }.

(** Frames enough to map [n] pages and the page tables they may need. *)
Definition enough (m : vm) (pf : pool_flags) (n : nat) : Prop :=
  match pf with
  | PF_KERNEL => (2 * n <= free_pages (kernel_pool m))%nat
  | PF_USER => (n <= free_pages (user_pool m))%nat /\ (n <= free_pages (kernel_pool m))%nat
  end.

Lemma palloc_taken p p' f : palloc p = Ok (p', Some f) -> pool_ok p -> (0 < free_pages p)%nat ->
  forall g, frame_free p g -> frame_free p' g \/ g = f.
Proof.
  intros E Hp Hfree. apply free_pages_pos in Hfree. pose proof (wf_int _ _ (po_wf p Hp)) as Hint.
  destruct (bitmap_scan_first (pool_bitmap p) 1 (po_wf p Hp) Hfree) as (k & Hk & Hf & _ & Hs).
  destruct (bitmap_set_ok (pool_bitmap p) 1 k true (po_wf p Hp) ltac:(lia)) as (b & Hb & Hlb & Hwf & Hbits).
  unfold palloc in E. rewrite Hs in E. change (1 =? 1) with true in E. cbn iota in E. cbn [obind] in E.
  replace (k =? -1) with false in E by (symmetry; apply Z.eqb_neq; lia).
  rewrite u32_small in E by lia. cbn [Z.b2z] in Hb. rewrite Hb in E. cbn [obind] in E. injection E as <- <-.
  intros g (j & Hj & -> & Hg). destruct (Z.eq_dec j k) as [->|Hne].
  - right. rewrite Z.add_comm, u32_small; [done|].
    destruct Hp. unfold pool_bits, PG_SIZE in *. nia.
  - left. exists j. unfold pool_bits, nbits in *; cbn. rewrite Hlb, Hbits.
    apply Z.eqb_neq in Hne as ->. done.
Qed.

Lemma map_pages_ok pf n : forall m va, vm_ok m -> range_ok va n -> enough m pf n ->
  (forall i, (i < n)%nat -> mmu m (va + Z.of_nat i * PG_SIZE) = None) ->
  exists m' fs, map_pages m pf va n = Ok (m', true) /\ mapped m m' pf va n fs.
Proof.
  induction n as [|n IH]; intros m va Hm Hrg Hen Hun.
  - exists m, []. split; [done|]. constructor; try done; try (intros ? H; by apply not_elem_of_nil in H).
    + apply NoDup_nil_2.
    + auto.
    + auto.
    + lia.
  - assert (0 < free_pages (get_pool pf m))%nat as Hfree by (destruct pf; cbn in *; lia).
    assert (pool_ok (get_pool pf m)) as Hpok by (destruct pf; apply Hm).
    destruct (palloc_ok _ Hpok Hfree) as (p&f&E&Hp&Hsub&Hff&Hnf&Hal&Hcnt).
    pose proof (palloc_taken _ _ _ E Hpok Hfree) as Htk.
    cbn [map_pages]. rewrite E. cbn [obind]. set (m1 := with_pool pf p m).
    pose proof (vm_ok_pool m pf p Hm Hp Hsub) as Hm1. fold m1 in Hm1.
    pose proof Hrg as (Hmod & _ & _). destruct (range_next va n Hrg) as (Hrg' & Hu & Hmap & Hpg).
    destruct (page_table_add_ok m1 va f) as (m2&E2&[]); try done.
    { specialize (Hun O ltac:(lia)). rewrite Z.mul_0_l, Z.add_0_r in Hun. by destruct pf. }
    { destruct pf; cbn in *; lia. }
    rewrite E2. cbn [obind]. rewrite Hmod, Z.add_0_r in ad_map0. rewrite Hu.
    assert (get_pool pf m1 = p) as Hgp by apply get_with_pool.
    assert (pool_sub (get_pool pf m2) p) as Hs2.
    { rewrite <- Hgp. destruct pf; [done|]. cbn. by rewrite ad_upool0. }
    assert (pool_sub (kernel_pool m1) (kernel_pool m) /\ pool_sub (user_pool m1) (user_pool m)) as [Hk1 Hu1]
      by (by destruct pf).
    assert (~ is_table m2 f) as Hft.
    { intros Ht. apply ad_tables0 in Ht as [Ht|Ht].
      - assert (is_table m f) as (i & Hi & Hpi & Hfi) by (by destruct pf).
        destruct (vo_tables m Hm i Hi Hpi) as [_ Hn]. rewrite Hfi in Hn. by apply (Hn pf).
      - destruct pf; [done|]. by apply (pools_disjoint m f Hm). }
    assert (forall va', mmu m1 va' = mmu m va') as Hmm1 by (by destruct pf).
    destruct (IH m2 (va + PG_SIZE)) as (m3 & fs & E3 & []); try done.
    { destruct pf; cbn in *; rewrite ?ad_upool0; cbn; lia. }
    { intros i Hi. rewrite next_page, ad_other0, Hmm1.
      - apply Hun. lia.
      - apply (range_mappable va (S n)); [done | lia].
      - rewrite page_of_add. lia. }
    exists m3, (f :: fs). split; [done|].
    assert (~ frame_free (get_pool pf m3) f) as Hf3.
    { intros Hf. apply Hnf, (ps_free _ _ Hs2). destruct pf; [by apply mp_kpool0 | by apply mp_upool0]. }
    assert (forall g, frame_free (get_pool pf m2) g -> frame_free (get_pool pf m) g) as Hf2.
    { intros g Hg. by apply (ps_free _ _ Hsub), (ps_free _ _ Hs2). }
    constructor.
    + done.
    + cbn. lia.
    + apply NoDup_cons. split; [|done]. intros Hf. apply mp_free0 in Hf as (_ & Hf & _).
      by apply Hnf, (ps_free _ _ Hs2).
    + intros [|i] g Hg; cbn in Hg.
      * injection Hg as <-. rewrite Z.mul_0_l, Z.add_0_r, mp_other0; try done. lia.
      * rewrite <- next_page. by apply mp_map0.
    + intros g Hg. apply elem_of_cons in Hg as [->|Hg]; [done|].
      destruct (mp_free0 g Hg) as (? & ? & ?). auto.
    + intros g Hg. apply elem_of_cons in Hg as [->|Hg]; [|by apply mp_tables0].
      intros Ht. apply mp_new_tables0 in Ht as [Ht|Ht]; [done|].
      destruct pf; [by apply Hnf, (ps_free _ _ Hs2)|].
      apply (pools_disjoint m f Hm); [|done]. by apply (ps_free _ _ Hk1), (ps_free _ _ ad_kpool0).
    + intros g Ht. apply mp_new_tables0 in Ht as [Ht|Ht].
      * apply ad_tables0 in Ht as [Ht|Ht]; [left; by destruct pf | right; by apply Hk1].
      * right. by apply (ps_free _ _ Hk1), (ps_free _ _ ad_kpool0).
    + intros va' H' Hne. rewrite mp_other0, ad_other0, Hmm1; try done; lia.
    + rewrite mp_cr4, ad_cr4. by destruct pf.
    + by do 2 (etransitivity; [eassumption|]).
    + etransitivity; [exact mp_upool0|]. by rewrite ad_upool0.
    + intros Hpf g Hg. rewrite Hpf in Htk. destruct (Htk g Hg) as [Hg'|Hg'].
      * destruct (mp_taken0 Hpf g) as [?|?]; [|by left | right; by apply list_elem_of_further].
        rewrite ad_upool0. rewrite Hpf in Hgp. cbn in Hgp. by rewrite Hgp.
      * right. rewrite Hg'. apply list_elem_of_here.
    + destruct mp_vaddr0 as [-> ->]. rewrite ad_kvaddr0, ad_uvaddr0. by destruct pf.
    + destruct mp_count0 as [Hck Hcu]. rewrite ad_upool0 in Hcu. destruct pf; cbn in *; lia.
Qed.

(** ** Giving pages back *)

(** Frame [f] is a page of [p] that is in use. *)
Definition frame_used (p : pool) (f : Z) : Prop :=
  exists i, 0 <= i < pool_bits p /\ f = phy_addr_start p + i * PG_SIZE /\ bit (pool_bitmap p) i = true.

Lemma frame_used_aligned p f : pool_ok p -> frame_used p f -> aligned f.
Proof.
  intros [] (i & Hi & -> & _). unfold aligned, PG_SIZE in *. split; [nia|].
  change 4096 with (2 ^ 12). rewrite Z.mod_add by lia. apply po_start0.
Qed.

Lemma frame_free_used p p' f : pool_sub p' p -> frame_free p f -> ~ frame_free p' f -> frame_used p' f.
Proof.
  intros [] (i & Hi & -> & _) Hn. exists i. rewrite ps_bits0, ps_start0. split_and!; try done; try lia.
  destruct (bit (pool_bitmap p') i) eqn:E; [done|]. exfalso. apply Hn. exists i.
  by rewrite ps_bits0, ps_start0.
Qed.

(** [p'] is [p] with the frames [fs] given back. *)
Definition pool_back (p' p : pool) (fs : list Z) : Prop :=
  phy_addr_start p' = phy_addr_start p /\ pool_bits p' = pool_bits p /\ pool_size p' = pool_size p
  /\ forall g, frame_free p' g <-> frame_free p g \/ g ∈ fs.

Lemma pfree_ok m pf f : vm_ok m -> frame_used (get_pool pf m) f -> ~ is_table m f -> f <> cr3 m ->
  exists p', pfree m f = Ok (with_pool pf p' m) /\ vm_ok (with_pool pf p' m)
    /\ pool_back p' (get_pool pf m) [f].
Proof.
  intros Hm Hu Ht Hc. assert (pool_ok (get_pool pf m)) as Hp by (destruct pf; apply Hm).
  destruct Hu as (i & Hi & Hf & Hb). pose proof (wf_int _ _ (po_wf _ Hp)) as Hint.
  destruct (bitmap_set_ok _ 1 i false (po_wf _ Hp)) as (b & Eb & Hlb & Hwf & Hbits).
  { unfold pool_bits in Hi. lia. }
  destruct (pool_ok_set _ b i false Hp Hi Hlb Hwf Hbits) as (Hok & Hpb & Hal & _ & Hset).
  destruct (Hset eq_refl Hb) as (_ & _ & Hfr). rewrite <- Hf in Hal, Hfr.
  set (p' := mk_pool b _ _) in *. exists p'.
  assert (forall pf' g, frame_free (get_pool pf' (with_pool pf p' m)) g -> frame_free (get_pool pf' m) g \/ g = f)
    as Hany by (intros [] g; destruct pf; cbn; try tauto; apply Hfr).
  split_and!.
  - unfold pfree. assert ((phy_addr_start (user_pool m) <=? f) = match pf with PF_USER => true | _ => false end) as ->.
    { pose proof (vo_order m Hm). unfold PG_SIZE in *. destruct pf; cbn in *;
        [apply Z.leb_gt; nia | apply Z.leb_le; nia]. }
    assert (get_pool (if match pf with PF_USER => true | _ => false end then PF_USER else PF_KERNEL) m
            = get_pool pf m) as -> by (by destruct pf).
    assert (u32 (f - phy_addr_start (get_pool pf m)) / PG_SIZE = i) as ->.
    { rewrite u32_small by (destruct Hp; unfold PG_SIZE in *; nia). rewrite Hf.
      replace (phy_addr_start (get_pool pf m) + i * PG_SIZE - phy_addr_start (get_pool pf m)) with (i * PG_SIZE) by lia.
      by apply Z.div_mul. }
    cbn [Z.b2z] in Eb. rewrite Eb. cbn [obind]. by destruct pf.
  - destruct Hm. destruct pf; cbn in *; constructor; cbn; try done.
    + unfold pool_bits in *. by rewrite Hpb.
    + intros pf' Hg. apply (Hany pf') in Hg as [Hg|Hg]; [by apply (vo_cr3_used0 pf') | by apply Hc].
    + intros i' Hi' Hpi. destruct (vo_tables0 i' Hi' Hpi) as [? Hn]. split; [done|].
      intros pf' Hg. apply (Hany pf') in Hg as [Hg|Hg]; [by apply (Hn pf') | apply Ht; by exists i'].
    + intros pf' Hg. apply (Hany pf') in Hg as [Hg|Hg]; [by apply (vo_cr3_used0 pf') | by apply Hc].
    + intros i' Hi' Hpi. destruct (vo_tables0 i' Hi' Hpi) as [? Hn]. split; [done|].
      intros pf' Hg. apply (Hany pf') in Hg as [Hg|Hg]; [by apply (Hn pf') | apply Ht; by exists i'].
  - split_and!; try done. intros g. rewrite Hfr, list_elem_of_singleton. done.
Qed.

Lemma addr_v2p_ok m va pa : vm_ok m -> 0 <= va < 2 ^ 32 -> mmu m va = Some pa -> addr_v2p m va = Ok pa.
Proof.
  intros Hm H Hmmu. unfold mmu in Hmmu. destruct (present (pm m (pde_pa m va))) eqn:Hp; [|done].
  destruct (present (pm m (pte_pa m va))); [|done]. injection Hmmu as <-.
  unfold addr_v2p. rewrite load_pte by done. cbn [obind]. rewrite land_frame.
  change 0x00000fff with (Z.ones 12). rewrite Z.land_ones by lia. f_equal.
  destruct (frame_aligned (pm m (pte_pa m va))) as [Hr Ha].
  pose proof (Z.mod_pos_bound va (2 ^ 12) ltac:(lia)). apply u32_small.
  apply Z.mod_divide in Ha as [q Ha]; [|lia]. lia.
Qed.

Lemma pte_remove_ok m va pa : vm_ok m -> mappable va -> mmu m va = Some pa ->
  exists m', page_table_pte_remove m va = Ok m' /\ vm_ok m' /\ mmu m' va = None
    /\ (forall va', mappable va' -> page_of va' <> page_of va -> mmu m' va' = mmu m va')
    /\ (forall g, is_table m' g -> is_table m g) /\ cr3 m' = cr3 m
    /\ kernel_pool m' = kernel_pool m /\ user_pool m' = user_pool m
    /\ kernel_vaddr m' = kernel_vaddr m /\ userprog_vaddr m' = userprog_vaddr m.
Proof.
  intros Hm H Hmmu. destruct (mappable_idx va H) as (Hr&_&_).
  unfold mmu in Hmmu. destruct (present (pm m (pde_pa m va))) eqn:Hp; [|done].
  unfold page_table_pte_remove. rewrite load_pte by done. cbn [obind].
  set (v := Z.land _ _).
  assert (present v = false) as Hv.
  { unfold present, v, PG_P_1. rewrite Z.land_spec, Z.lnot_spec by lia. apply andb_false_r. }
  destruct (set_pte m va v Hm H Hp) as (E&Hok&Hdir&Hmap&Hoth). rewrite Hv in Hmap.
  rewrite E. eexists; split; [done|]. split_and!; try done.
  intros g. apply is_table_ext; [done|]. intros; apply Hdir; lia.
Qed.

(** What unmapping the [n] pages from [va], which map [fs], leaves. *)
Record unmapped (m m' : vm) (pf : pool_flags) (va : Z) (n : nat) (fs : list Z) : Prop := {
  um_ok : vm_ok m';
  um_none : forall i, (i < n)%nat -> mmu m' (va + Z.of_nat i * PG_SIZE) = None;
  um_other : forall va', mappable va' -> ~ (page_of va <= page_of va' < page_of va + Z.of_nat n) ->
    mmu m' va' = mmu m va';
  um_back : pool_back (get_pool pf m') (get_pool pf m) fs;
  um_other_pool : get_pool (other_pool pf) m' = get_pool (other_pool pf) m;
  um_vaddr : kernel_vaddr m' = kernel_vaddr m /\ userprog_vaddr m' = userprog_vaddr m;
  um_tables : forall g, is_table m' g -> is_table m g;
  um_cr3 : cr3 m' = cr3 m }.

Lemma pool_back_cons p p1 p2 f fs : pool_back p1 p [f] -> pool_back p2 p1 fs -> pool_back p2 p (f :: fs).
Proof.
  intros (H1&H2&H3&H4) (G1&G2&G3&G4). split_and!; try congruence.
  intros g. rewrite G4, H4, list_elem_of_singleton, elem_of_cons. tauto.
Qed.

Lemma frame_used_back p p' f g : pool_back p' p [f] -> g <> f -> frame_used p g -> frame_used p' g.
Proof.
  intros (H1&H2&_&H4) Hne (i & Hi & -> & Hb). exists i. rewrite H1, H2. split_and!; try done; try lia.
  destruct (bit (pool_bitmap p') i) eqn:E; [done|].
  assert (frame_free p' (phy_addr_start p + i * PG_SIZE)) as Hf by (exists i; by rewrite H1, H2).
  apply H4 in Hf as [(j & Hj & Ej & Hbj)|Hf].
  - unfold PG_SIZE in *. assert (j = i) as -> by lia. congruence.
  - by apply list_elem_of_singleton in Hf.
Qed.

Lemma unmap_pages_ok pf n : forall m va fs, vm_ok m -> range_ok va n -> length fs = n -> NoDup fs ->
  (forall i f, fs !! i = Some f -> mmu m (va + Z.of_nat i * PG_SIZE) = Some f) ->
  (forall f, f ∈ fs -> frame_used (get_pool pf m) f /\ ~ is_table m f /\ f <> cr3 m) ->
  exists m', unmap_pages m (match pf with PF_USER => true | PF_KERNEL => false end) va n = Ok m'
    /\ unmapped m m' pf va n fs.
Proof.
  induction n as [|n IH]; intros m va fs Hm Hrg Hlen Hnd Hmap Hfs.
  - destruct fs; [|done]. exists m. split; [done|]. constructor; try done; [lia|].
    split_and!; try done. intros g. split; [tauto|]. intros [|H]; [done | by apply not_elem_of_nil in H].
  - destruct fs as [|f fs]; [done|]. apply NoDup_cons in Hnd as [Hnin Hnd]. injection Hlen as Hlen.
    destruct (range_next va n Hrg) as (Hrg' & Hu & Hva & Hpg). destruct (mappable_idx va Hva) as (Hr&_&_).
    destruct (Hfs f (list_elem_of_here _ _)) as (Hused & Hnt & Hnc).
    assert (pool_ok (get_pool pf m)) as Hp by (destruct pf; apply Hm).
    pose proof (Hmap O f eq_refl) as Hf0. rewrite Z.mul_0_l, Z.add_0_r in Hf0.
    cbn [unmap_pages]. rewrite (addr_v2p_ok m va f) by done. cbn [obind].
    assert ((f mod PG_SIZE =? 0) = true) as ->.
    { apply Z.eqb_eq. apply (frame_used_aligned _ _ Hp Hused). }
    match goal with |- context [c_assert (true && ?b)] => replace b with true end.
    2: { pose proof (vo_order m Hm). pose proof (po_end _ Hp). destruct Hused as (i & Hi & -> & _).
         unfold PG_SIZE in *. symmetry. destruct pf; cbn in *; [apply andb_true_iff; split|];
           (apply Z.leb_le || apply Z.ltb_lt); nia. }
    cbn [andb c_assert obind].
    destruct (pfree_ok m pf f Hm Hused Hnt Hnc) as (p' & E1 & Hm1 & Hback). rewrite E1. cbn [obind].
    set (m1 := with_pool pf p' m) in *.
    assert (forall x, mmu m1 x = mmu m x) as Hmm1 by (by destruct pf).
    destruct (pte_remove_ok m1 va f Hm1 Hva) as (m2&E2&Hm2&Hn2&Ho2&Ht2&Hc2&Hk2&Hu2&Hkv2&Huv2).
    { by rewrite Hmm1. }
    rewrite E2. cbn [obind]. rewrite Hu.
    assert (get_pool pf m2 = p') as Hg2.
    { assert (get_pool pf m2 = get_pool pf m1) as -> by (by destruct pf). apply get_with_pool. }
    destruct (IH m2 (va + PG_SIZE) fs) as (m3 & E3 & []); try done.
    + intros i g Hg. rewrite next_page, Ho2, Hmm1.
      * by apply Hmap.
      * apply (range_mappable va (S n)); [done|]. apply lookup_lt_Some in Hg. lia.
      * rewrite page_of_add. lia.
    + intros g Hg. destruct (Hfs g (list_elem_of_further _ _ _ Hg)) as (Hu' & Hnt' & Hnc').
      rewrite Hg2. split_and!.
      * apply (frame_used_back _ _ f _ Hback); [by intros ->|done].
      * intros Ht. apply Hnt'. apply Ht2 in Ht. by destruct pf.
      * rewrite Hc2. by destruct pf.
    + exists m3. split; [done|]. constructor.
      * done.
      * intros [|i] Hi.
        -- rewrite Z.mul_0_l, Z.add_0_r, um_other0; try done. lia.
        -- rewrite <- next_page. apply um_none0. lia.
      * intros va' H' Hne. rewrite um_other0, Ho2, Hmm1; try done; lia.
      * rewrite Hg2 in um_back0. by apply (pool_back_cons _ p').
      * rewrite um_other_pool0. destruct pf; cbn; [by rewrite Hu2 | by rewrite Hk2].
      * destruct um_vaddr0 as [-> ->]. rewrite Hkv2, Huv2. by destruct pf.
      * intros g Hg. apply um_tables0, Ht2 in Hg. by destruct pf.
      * rewrite um_cr4, Hc2. by destruct pf.
Qed.

(** ** Virtual address pools *)

Lemma set_run_ok n v : forall b r, bitmap_wf 1 b -> 0 <= r -> r + Z.of_nat n <= nbits b ->
  exists b', set_run b r n (Z.b2z v) = Ok b' /\ bitmap_wf 1 b' /\ btmp_bytes_len b' = btmp_bytes_len b
    /\ forall j, bit b' j = if (r <=? j) && (j <? r + Z.of_nat n) then v else bit b j.
Proof.
  induction n as [|n IH]; intros b r Hwf Hr He.
  - exists b. split_and!; try done. intros j.
    destruct (Z.leb_spec r j), (Z.ltb_spec j (r + Z.of_nat 0)); try done; lia.
  - destruct (bitmap_set_ok b 1 r v Hwf) as (b1 & E & Hl & Hwf1 & Hb1); [lia|].
    pose proof (wf_int _ _ Hwf). cbn [set_run]. rewrite u32_small by lia. rewrite E. cbn [obind].
    destruct (IH b1 (r + 1)) as (b' & E' & Hwf' & Hl' & Hb').
    { done. } { lia. } { unfold nbits in *. rewrite Hl. lia. }
    exists b'. rewrite E'. split_and!; try done; [congruence|]. intros j. rewrite Hb', Hb1.
    destruct (Z.leb_spec (r + 1) j), (Z.ltb_spec j (r + 1 + Z.of_nat n)), (Z.leb_spec r j),
      (Z.ltb_spec j (r + Z.of_nat (S n))), (Z.eqb_spec j r); try done; lia.
Qed.

(** The address pool [pf] covers mappable pages, and its clear bits are pages
    that are not mapped. *)
Record vaddr_ok (m : vm) (pf : pool_flags) : Prop := {
  va_wf : bitmap_wf 1 (vaddr_bitmap (get_vaddr pf m));
  va_range : range_ok (vaddr_start (get_vaddr pf m)) (Z.to_nat (nbits (vaddr_bitmap (get_vaddr pf m))));
  va_clear : forall i, 0 <= i < nbits (vaddr_bitmap (get_vaddr pf m)) ->
    bit (vaddr_bitmap (get_vaddr pf m)) i = false ->
    mmu m (vaddr_start (get_vaddr pf m) + i * PG_SIZE) = None }.

Lemma get_with_vaddr pf v m : get_vaddr pf (with_vaddr pf v m) = v.
Proof. by destruct pf. Qed.

(** A clear run of the address pool of [pf] and frames for it. *)
Record alloc_pre (m : vm) (pf : pool_flags) (n r : Z) : Prop := {
  ap_ok : vm_ok m;
  ap_vaddr : vaddr_ok m pf;
  ap_n : 0 < n < 3840;
  ap_scan : bitmap_scan (vaddr_bitmap (get_vaddr pf m)) n = Ok r;
  ap_r : 0 <= r;
  ap_end : r + n <= nbits (vaddr_bitmap (get_vaddr pf m));
  ap_run : clear_run (vaddr_bitmap (get_vaddr pf m)) r n;
  ap_enough : enough m pf (Z.to_nat n);
  ap_user : pf = PF_USER -> vaddr_start (get_vaddr pf m) + r * PG_SIZE < 0xc0000000 - PG_SIZE }.

Lemma alloc_range m pf n r : alloc_pre m pf n r ->
  range_ok (vaddr_start (get_vaddr pf m) + r * PG_SIZE) (Z.to_nat n)
  /\ page_of (vaddr_start (get_vaddr pf m) + r * PG_SIZE) = page_of (vaddr_start (get_vaddr pf m)) + r
  /\ 0 <= vaddr_start (get_vaddr pf m).
Proof.
  intros [? [_ (Hmod & Hlo & Hhi) _] ? _ ? ? _ _ _]. split_and!.
  - split_and!; [by apply add_page_mod | unfold PG_SIZE in *; lia | unfold PG_SIZE in *; lia].
  - apply page_of_add.
  - lia.
Qed.

Lemma malloc_page_ok m pf n r : alloc_pre m pf n r ->
  let va := vaddr_start (get_vaddr pf m) + r * PG_SIZE in
  exists b m1 fs, malloc_page m pf n = Ok (m1, Some va)
    /\ mapped (with_vaddr pf (mk_vaddr b (vaddr_start (get_vaddr pf m))) m) m1 pf va (Z.to_nat n) fs
    /\ bitmap_wf 1 b /\ btmp_bytes_len b = btmp_bytes_len (vaddr_bitmap (get_vaddr pf m))
    /\ (forall j, bit b j = if (r <=? j) && (j <? r + n) then true
                            else bit (vaddr_bitmap (get_vaddr pf m)) j).
Proof.
  intros Hpre va. destruct (alloc_range _ _ _ _ Hpre) as (Hrg & Hpg & H0). fold va in Hrg, Hpg.
  destruct Hpre as [Hm [Hwf _ Hcl] Hn Hs Hr He Hrun Hen Hus]. fold va in Hus.
  destruct (set_run_ok (Z.to_nat n) true _ r Hwf Hr ltac:(lia)) as (b & Eb & Hwfb & Hlb & Hb).
  rewrite Z2Nat.id in Hb by lia. cbn [Z.b2z] in Eb.
  set (mv := with_vaddr pf (mk_vaddr b (vaddr_start (get_vaddr pf m))) m).
  assert (vm_ok mv) as Hmv by (apply (vm_ok_ext m); try done; by destruct pf).
  assert (forall x, mmu mv x = mmu m x) as Hmm by (by destruct pf).
  destruct (map_pages_ok pf (Z.to_nat n) mv va Hmv Hrg) as (m1 & fs & E1 & Hmp).
  { by destruct pf. }
  { intros i Hi. rewrite Hmm. unfold va. rewrite <- Z.add_assoc, <- Z.mul_add_distr_r.
    apply Hcl; [lia|]. apply Hrun. lia. }
  exists b, m1, fs. split_and!; try done.
  unfold malloc_page. zdec. cbn [c_assert obind]. unfold vaddr_get. rewrite Hs. cbn [obind].
  replace (r =? -1) with false by (symmetry; apply Z.eqb_neq; lia). rewrite Eb. cbn [obind].
  fold va. rewrite u32_small by (destruct Hrg as (_&?&?); unfold va, PG_SIZE in *; lia).
  assert ((match pf with PF_KERNEL => Ok tt | PF_USER => c_assert (va <? 0xc0000000 - PG_SIZE) end) = Ok tt) as ->.
  { destruct pf; [done|]. specialize (Hus eq_refl). by zdec. }
  cbn [obind]. fold mv. rewrite E1. done.
Qed.

Lemma mfree_page_ok m pf n r fs : vm_ok m -> 0 < n ->
  let va := vaddr_start (get_vaddr pf m) + r * PG_SIZE in
  range_ok va (Z.to_nat n) -> 0 <= vaddr_start (get_vaddr pf m) ->
  bitmap_wf 1 (vaddr_bitmap (get_vaddr pf m)) -> 0 <= r ->
  r + n <= nbits (vaddr_bitmap (get_vaddr pf m)) ->
  length fs = Z.to_nat n -> NoDup fs ->
  (forall i f, fs !! i = Some f -> mmu m (va + Z.of_nat i * PG_SIZE) = Some f) ->
  (forall f, f ∈ fs -> frame_used (get_pool pf m) f /\ ~ is_table m f /\ f <> cr3 m) ->
  0x102000 <= phy_addr_start (kernel_pool m) ->
  exists mu m2, mfree_page m pf va n = Ok m2 /\ unmapped m mu pf va (Z.to_nat n) fs
    /\ (exists b, m2 = with_vaddr pf (mk_vaddr b (vaddr_start (get_vaddr pf m))) mu
        /\ bitmap_wf 1 b /\ btmp_bytes_len b = btmp_bytes_len (vaddr_bitmap (get_vaddr pf m))
        /\ forall j, bit b j = if (r <=? j) && (j <? r + n) then false
                               else bit (vaddr_bitmap (get_vaddr pf m)) j).
Proof.
  intros Hm Hn va Hrg H0 Hwf Hr He Hlen Hnd Hmap Hfs Hlow.
  destruct fs as [|f fs']; [cbn in Hlen; lia|].
  destruct (Hfs f (list_elem_of_here _ _)) as (Hused & _ & _).
  pose proof (Hmap O f eq_refl) as Hf0. rewrite Z.mul_0_l, Z.add_0_r in Hf0.
  assert (pool_ok (get_pool pf m)) as Hp by (destruct pf; apply Hm).
  destruct (frame_used_aligned _ _ Hp Hused) as [_ Hfa].
  pose proof Hrg as (Hva & Hlo & Hhi). unfold mfree_page, PG_SIZE in *. change 4096 with (2 ^ 12).
  rewrite Hva. zdec. cbn [c_assert obind]. rewrite (addr_v2p_ok m va f) by (done || lia). cbn [obind].
  rewrite Hfa. pose proof (vo_order m Hm) as Hord. pose proof (po_end _ Hp) as Hend.
  destruct (unmap_pages_ok pf (Z.to_nat n) m va (f :: fs') Hm Hrg Hlen Hnd Hmap Hfs) as (mu & Eu & Hun).
  destruct Hused as (i & Hi & Hfi & _). unfold PG_SIZE in *.
  assert ((phy_addr_start (user_pool m) <=? f) = match pf with PF_USER => true | PF_KERNEL => false end) as ->.
  { destruct pf; cbn in *; [apply Z.leb_gt | apply Z.leb_le]; nia. }
  assert (0 <= pool_bits (kernel_pool m)) as Hkb.
  { pose proof (wf_len _ _ (po_wf _ (vo_kpool m Hm))). unfold pool_bits, nbits. lia. }
  replace (0x102000 <=? f) with true by (symmetry; apply Z.leb_le; destruct pf; cbn in *; nia).
  change (0 =? 0) with true. cbn [andb c_assert obind]. rewrite Eu. cbn [obind].
  assert (get_vaddr pf mu = get_vaddr pf m) as Hg by (destruct Hun as [_ _ _ _ _ [? ?] _ _]; by destruct pf).
  unfold vaddr_remove. rewrite Hg.
  assert (u32 (va - vaddr_start (get_vaddr pf m)) / PG_SIZE = r) as ->.
  { unfold PG_SIZE. rewrite u32_small by (unfold va; lia). unfold va.
    replace (vaddr_start (get_vaddr pf m) + r * 4096 - vaddr_start (get_vaddr pf m)) with (r * 4096) by lia.
    by apply Z.div_mul. }
  destruct (set_run_ok (Z.to_nat n) false _ r Hwf Hr ltac:(lia)) as (b & Eb & Hwfb & Hlb & Hb).
  rewrite Z2Nat.id in Hb by lia. cbn [Z.b2z] in Eb. rewrite Eb. cbn [obind].
  eexists mu, _. split; [done|]. split; [done|]. by exists b.
Qed.

(** ** Properties *)

(** The self-mapped page tables: with the directory mapped through its own
    last entry, [pde_ptr] and [pte_ptr] are virtual addresses whose translation
    is exactly the directory and table entry that translate [vaddr] (a page
    fault when the table is absent), and [addr_v2p] computes the translation
    the processor makes. *)
Theorem self_map_correct m vaddr : vm_ok m -> 0 <= vaddr < 2 ^ 32 ->
  mmu m (pde_ptr vaddr) = Some (pde_pa m vaddr)
  /\ mmu m (pte_ptr vaddr) = (if present (pm m (pde_pa m vaddr)) then Some (pte_pa m vaddr) else None)
  /\ forall pa, mmu m vaddr = Some pa -> addr_v2p m vaddr = Ok pa.
Proof.
  intros Hm H. split_and!; [by apply mmu_pde | by apply mmu_pte | intros; by apply addr_v2p_ok].
Qed.

(** C30. [page_table_add] on an unmapped page maps it to the frame given and
    changes the translation of no other page, whether the page table was there
    or had to be created: a new table is a free page of the kernel pool that
    is taken out of it and holds no stale entry. On a page already mapped it
    stops at its assertion. *)
Theorem page_table_add_spec m vaddr pa : vm_ok m -> mappable vaddr -> aligned pa ->
  ((0 < free_pages (kernel_pool m))%nat -> mmu m vaddr = None ->
     exists m', page_table_add m vaddr pa = Ok m' /\ vm_ok m'
       /\ mmu m' vaddr = Some (pa + vaddr mod 2 ^ 12)
       /\ (forall va', mappable va' -> page_of va' <> page_of vaddr -> mmu m' va' = mmu m va')
       /\ (forall g, is_table m' g -> is_table m g \/ frame_free (kernel_pool m) g)
       /\ pool_sub (kernel_pool m') (kernel_pool m) /\ user_pool m' = user_pool m)
  /\ (mmu m vaddr <> None -> page_table_add m vaddr pa = Err AssertFail).
Proof.
  intros Hm H Hal. split.
  - intros Hfree Hun. destruct (page_table_add_ok m vaddr pa Hm H Hun Hal Hfree) as (m'&E&[]).
    exists m'. split_and!; done.
  - intros Hmap. destruct (mappable_idx vaddr H) as (Hr&_&_). unfold mmu in Hmap. unfold page_table_add.
    rewrite load_pde by done. cbn [obind]. rewrite land1.
    destruct (present (pm m (pde_pa m vaddr))) eqn:Hp; [|done]. cbn [negb].
    rewrite load_pte by done. cbn [obind]. rewrite land1.
    by destruct (present (pm m (pte_pa m vaddr))).
Qed.

(** C1. [malloc_page] maps [n] consecutive pages to [n] distinct frames that
    were free in the right pool and are not page tables, and disturbs no other
    mapping; [mfree_page] of the result unmaps exactly those pages, gives
    exactly those frames back and frees the addresses again, so that the pair
    restores the address pool, and of the user pool every frame. *)
Theorem malloc_mfree_page m pf n r : alloc_pre m pf n r -> 0x102000 <= phy_addr_start (kernel_pool m) ->
  let va := vaddr_start (get_vaddr pf m) + r * PG_SIZE in
  exists m1 fs, malloc_page m pf n = Ok (m1, Some va) /\ vm_ok m1 /\ vaddr_ok m1 pf
    /\ length fs = Z.to_nat n /\ NoDup fs
    /\ (forall f, f ∈ fs -> frame_free (get_pool pf m) f /\ ~ frame_free (get_pool pf m1) f /\ ~ is_table m1 f)
    /\ (forall i f, fs !! i = Some f -> mmu m1 (va + Z.of_nat i * PG_SIZE) = Some f)
    /\ (forall va', mappable va' -> ~ (page_of va <= page_of va' < page_of va + n) -> mmu m1 va' = mmu m va')
    /\ exists m2, mfree_page m1 pf va n = Ok m2 /\ vm_ok m2
       /\ (forall va', mappable va' -> ~ (page_of va <= page_of va' < page_of va + n) -> mmu m2 va' = mmu m va')
       /\ (forall i, 0 <= i < n -> mmu m2 (va + i * PG_SIZE) = None)
       /\ (forall g, frame_free (get_pool pf m2) g <-> frame_free (get_pool pf m1) g \/ g ∈ fs)
       /\ (pf = PF_USER -> forall g, frame_free (user_pool m2) g <-> frame_free (user_pool m) g)
       /\ (forall j, bit (vaddr_bitmap (get_vaddr pf m2)) j = bit (vaddr_bitmap (get_vaddr pf m)) j).
Proof.
  intros Hpre Hlow va. destruct (alloc_range _ _ _ _ Hpre) as (Hrg & Hpg & H0). fold va in Hrg, Hpg.
  destruct (malloc_page_ok _ _ _ _ Hpre) as (b & m1 & fs & E & Hmp & Hwfb & Hlb & Hb). fold va in E, Hmp.
  set (mv := with_vaddr pf _ m) in *.
  assert (forall x, mmu mv x = mmu m x) as Hmm by (by destruct pf).
  assert (get_pool pf mv = get_pool pf m /\ cr3 mv = cr3 m /\ kernel_pool mv = kernel_pool m
          /\ user_pool mv = user_pool m) as (Hgp & Hcr & Hkp & Hup) by (by destruct pf).
  assert (get_vaddr pf m1 = mk_vaddr b (vaddr_start (get_vaddr pf m))) as Hgv.
  { destruct (mp_vaddr _ _ _ _ _ _ Hmp) as [H1 H2].
    destruct pf; cbn in H1, H2 |- *; [by rewrite H1 | by rewrite H2]. }
  pose proof (ap_n _ _ _ _ Hpre) as Hn. pose proof (ap_r _ _ _ _ Hpre) as Hr.
  pose proof (ap_end _ _ _ _ Hpre) as Hend. pose proof (va_range _ _ (ap_vaddr _ _ _ _ Hpre)) as Hvr.
  assert (forall va', mappable va' -> ~ (page_of va <= page_of va' < page_of va + n) -> mmu m1 va' = mmu m va') as Hoth.
  { intros va' H' Hne. rewrite (mp_other _ _ _ _ _ _ Hmp), Hmm; [done | done | lia]. }
  assert (forall f, f ∈ fs -> frame_free (get_pool pf m) f /\ ~ frame_free (get_pool pf m1) f /\ ~ is_table m1 f) as Hfr.
  { intros f Hf. destruct (mp_free _ _ _ _ _ _ Hmp f Hf) as (_ & H1 & H2). rewrite Hgp in H1.
    split_and!; try done. by apply (mp_tables _ _ _ _ _ _ Hmp). }
  exists m1, fs. split; [done|]. split; [apply Hmp|]. split; [|split; [apply Hmp|split; [apply Hmp|split; [done|
    split; [apply Hmp|split; [done|]]]]]].
  - constructor; rewrite Hgv; cbn [vaddr_bitmap vaddr_start].
    + done.
    + unfold nbits in *. by rewrite Hlb.
    + intros i Hi Hbi. rewrite Hb in Hbi.
      destruct ((r <=? i) && (i <? r + n))%bool eqn:Ein; [done|]. unfold nbits in Hi. rewrite Hlb in Hi.
      rewrite Hoth.
      * by apply (va_clear _ _ (ap_vaddr _ _ _ _ Hpre)).
      * rewrite <- (Z2Nat.id i) by lia. eapply range_mappable; [exact Hvr|]. unfold nbits. lia.
      * rewrite page_of_add, Hpg. zb. destruct Ein; zb; lia.
  - assert (pool_sub (get_pool pf m1) (get_pool pf m)) as Hsub.
    { rewrite <- Hgp. destruct pf; [apply (mp_kpool _ _ _ _ _ _ Hmp) | apply (mp_upool _ _ _ _ _ _ Hmp)]. }
    destruct (mfree_page_ok m1 pf n r fs) as (mu & m2 & E2 & Hun & b2 & -> & _ & _ & Hb2);
      rewrite ?Hgv; cbn [vaddr_bitmap vaddr_start]; try exact (mp_ok _ _ _ _ _ _ Hmp);
      try exact (mp_len _ _ _ _ _ _ Hmp); try exact (mp_nodup _ _ _ _ _ _ Hmp);
      try exact (mp_map _ _ _ _ _ _ Hmp); try done; try lia.
    { unfold nbits in *. rewrite Hlb. lia. }
    { intros f Hf. destruct (Hfr f Hf) as (H1 & H2 & H3). split_and!; [|done|].
      - by apply (frame_free_used _ _ _ Hsub).
      - rewrite (mp_cr3 _ _ _ _ _ _ Hmp), Hcr. intros ->. by apply (vo_cr3_used m (ap_ok _ _ _ _ Hpre) pf). }
    { rewrite (ps_start _ _ (mp_kpool _ _ _ _ _ _ Hmp)), Hkp. done. }
    rewrite Hgv in E2, Hun, Hb2. cbn [vaddr_bitmap vaddr_start] in E2, Hun, Hb2. fold va in E2, Hun.
    eexists. split; [exact E2|]. set (m2 := with_vaddr pf _ mu).
    assert (forall x, mmu m2 x = mmu mu x) as Hmm2 by (by destruct pf).
    assert (get_pool pf m2 = get_pool pf mu /\ user_pool m2 = user_pool mu) as [Hgp2 Hup2] by (by destruct pf).
    destruct (um_back _ _ _ _ _ _ Hun) as (_ & _ & _ & Hback).
    split_and!.
    + apply (vm_ok_ext mu); [apply Hun | | | |]; by destruct pf.
    + intros va' H' Hne. rewrite Hmm2, (um_other _ _ _ _ _ _ Hun), Hoth; [done | done | done | done | lia].
    + intros i Hi. rewrite Hmm2, <- (Z2Nat.id i) by lia. apply (um_none _ _ _ _ _ _ Hun). lia.
    + intros g. by rewrite Hgp2.
    + intros Hpf g. rewrite Hup2. rewrite Hpf in Hback. cbn in Hback. rewrite Hback. split.
      * intros [Hg|Hg]; [by apply (ps_free _ _ (mp_upool _ _ _ _ _ _ Hmp)) in Hg; rewrite Hup in Hg|].
        apply Hfr in Hg as (Hg & _). by rewrite Hpf in Hg.
      * intros Hg. apply (mp_taken _ _ _ _ _ _ Hmp Hpf). by rewrite Hup.
    + intros j. unfold m2. rewrite get_with_vaddr. cbn [vaddr_bitmap]. rewrite Hb2, Hb.
      destruct ((r <=? j) && (j <? r + n))%bool eqn:Ein; [|done]. zb.
      symmetry. apply (ap_run _ _ _ _ Hpre). lia.
Qed.

(** C36. [mem_pool_init] on a machine of less than 258 MB splits the free pages
    into two adjacent pools that stay inside memory, above the page tables; no
    pool's bitmap has a bit for a page outside the pool, and the three bitmaps
    follow each other below the main thread's stack page. From 258 MB on, the
    16-bit page count wraps: with exactly 258 MB the pools are empty. *)
Theorem mem_pool_init_layout all_mem : 0x200000 <= all_mem < 0x10200000 ->
  let '(k, u, kv) := mem_pool_init all_mem in
  l_start k = 0x200000 /\ l_start u = l_start k + l_size k
  /\ l_start u + l_size u <= all_mem /\ all_mem - (l_start u + l_size u) < PG_SIZE
  /\ l_size k mod PG_SIZE = 0 /\ l_size u mod PG_SIZE = 0
  /\ l_len k * 8 * PG_SIZE <= l_size k < l_len k * 8 * PG_SIZE + 8 * PG_SIZE
  /\ l_len u * 8 * PG_SIZE <= l_size u < l_len u * 8 * PG_SIZE + 8 * PG_SIZE
  /\ l_bits u = l_bits k + l_len k /\ l_bits kv = l_bits u + l_len u /\ l_len kv = l_len k
  /\ l_bits kv + l_len kv <= 0xc009e000
  /\ mem_pool_init 0x10200000
     = (mk_layout 0xc009a000 0 0x200000 0, mk_layout 0xc009a000 0 0x200000 0, mk_layout 0xc009a000 0 K_HEAP_START 0).
Proof.
  intros H. unfold mem_pool_init, PG_SIZE. change (4096 * 256 + 0x100000) with 0x200000.
  rewrite u32_small by lia.
  set (p := (all_mem - 0x200000) / 4096).
  assert (0 <= p < 65536 /\ 4096 * p <= all_mem - 0x200000 < 4096 * p + 4096) as [Hp Hp2]
    by (unfold p; Z.to_euclidean_division_equations; lia).
  clearbody p. rewrite (u16_small p) by lia.
  assert (0 <= p / 2 <= p) as Hh by (Z.to_euclidean_division_equations; lia).
  rewrite (u16_small (p / 2)), (u16_small (p - p / 2)) by lia. rewrite u32_small by lia.
  cbn [l_start l_size l_len l_bits].
  pose proof (Z.div_mod (p / 2) 8 ltac:(lia)) as Hk. pose proof (Z.mod_pos_bound (p / 2) 8 ltac:(lia)).
  pose proof (Z.div_mod (p - p / 2) 8 ltac:(lia)) as Hu. pose proof (Z.mod_pos_bound (p - p / 2) 8 ltac:(lia)).
  unfold MEM_BITMAP_BASE. split_and!; try lia; try reflexivity; by apply Z.mod_mul.
Qed.

(** ** Witnesses *)

Lemma demo_pool_ok start : 0 < start < 0xf0000000 -> start mod 2 ^ 12 = 0 -> pool_ok (demo_pool start).
Proof.
  intros H Hm. constructor; [solve_bitmap_wf | split; [cbn; lia | done] |].
  unfold pool_bits, nbits, PG_SIZE; cbn. lia.
Qed.

Lemma demo_vm_ok : vm_ok demo_vm.
Proof.
  assert (forall i, 0 <= i < 1023 -> pm demo_vm (0x100000 + 4 * i) = 0) as Hd.
  { intros i Hi. cbn [pm demo_vm]. by replace (0x100000 + 4 * i =? 0x100ffc) with false
      by (symmetry; apply Z.eqb_neq; lia). }
  constructor.
  - split; [cbn; lia | reflexivity].
  - split; reflexivity.
  - apply demo_pool_ok; [lia | reflexivity].
  - apply demo_pool_ok; [lia | reflexivity].
  - vm_compute. discriminate.
  - intros pf (i & Hi & E & _). destruct pf; unfold PG_SIZE in E; cbn in E, Hi; lia.
  - intros i Hi Hp. change (cr3 demo_vm) with 0x100000 in Hp. rewrite Hd in Hp by done. done.
  - intros i j Hi Hj _ Hp. change (cr3 demo_vm) with 0x100000 in Hp. rewrite Hd in Hp by lia. done.
Qed.

Lemma demo_unmapped va : mappable va -> mmu demo_vm va = None.
Proof.
  intros H. destruct (mappable_idx va H) as (_&Hi&_). unfold mmu, pde_pa. cbn [pm cr3 demo_vm].
  by replace (0x100000 + 4 * pdx va =? 0x100ffc) with false by (symmetry; apply Z.eqb_neq; lia).
Qed.

Example self_map_witness : mmu demo_vm (pde_ptr 0xc0100123) = Some (0x100000 + 4 * 768).
Proof. apply (self_map_correct demo_vm 0xc0100123 demo_vm_ok). lia. Defined.

Example page_table_add_witness :
  exists m', page_table_add demo_vm 0xc0100000 0x208000 = Ok m' /\ vm_ok m'
    /\ mmu m' 0xc0100000 = Some (0x208000 + 0)
    /\ (forall va', mappable va' -> page_of va' <> page_of 0xc0100000 -> mmu m' va' = mmu demo_vm va')
    /\ (forall g, is_table m' g -> is_table demo_vm g \/ frame_free (kernel_pool demo_vm) g)
    /\ pool_sub (kernel_pool m') (kernel_pool demo_vm) /\ user_pool m' = user_pool demo_vm.
Proof.
  apply (page_table_add_spec demo_vm 0xc0100000 0x208000 demo_vm_ok).
  - unfold mappable; lia.
  - split; [lia | reflexivity].
  - vm_compute. lia.
  - apply demo_unmapped. unfold mappable; lia.
Defined.

Example malloc_mfree_witness :
  exists m1 (fs : list Z), malloc_page demo_vm PF_KERNEL 2 = Ok (m1, Some 0xc0100000) /\ length fs = 2%nat /\ NoDup fs.
Proof.
  destruct (malloc_mfree_page demo_vm PF_KERNEL 2 0) as (m1 & fs & E & _ & _ & Hl & Hn & _).
  - constructor; try (cbn; lia); try done.
    + apply demo_vm_ok.
    + constructor; [solve_bitmap_wf | split_and!; [reflexivity | cbn; lia | vm_compute; discriminate] |].
      intros i Hi _. apply demo_unmapped. unfold nbits in Hi. cbn in Hi.
      unfold mappable, PG_SIZE; cbn; lia.
    + intros j Hj. assert (j = 0 \/ j = 1) as [->| ->] by lia; reflexivity.
    + vm_compute. lia.
  - cbn; lia.
  - exists m1, fs. split_and!; assumption.
Defined.

Example mem_pool_init_witness :
  let '(k, u, _) := mem_pool_init 0x2000000 in
  l_start k = 0x200000 /\ l_start u = l_start k + l_size k /\ l_start u + l_size u <= 0x2000000.
Proof.
  destruct (mem_pool_init_layout 0x2000000) as (H1 & H2 & H3 & _); [lia|].
  split; [exact H1 | split; [exact H2 | exact H3]].
Defined.
