(* ===== verification/Heap.v ===== *)
(** kernel/memory.c, second part: the heap. [sys_malloc] cuts pages into arenas of
    equal blocks and keeps the free blocks of each size on a list; [sys_free]
    puts a block back and returns a page whose blocks are all free.

    Pages come through the interface [PageAlloc], which the functions of Paging.v
    implement (Pagealloc.v). The header of an arena is a record kept by the
    address of its page; a free list is the sequence of its blocks, in the sense
    of [Klist.list_rep]. [hmem] holds the bytes of the blocks handed out; the
    headers and the links inside free blocks are kept apart from it. *)
From S2P Require Import Prelude Paging.

(** ** Pages, as the heap sees them
    [held] says that a page of the pool is allocated and mapped; [room] that the
    next request for [n] pages will be granted; [spare] that the next [n] requests for
    one page will be. *)

Class PageAlloc (P : Type) := {
  pg_malloc : P -> pool_flags -> Z -> outcome (P * option Z);
  pg_mfree : P -> pool_flags -> Z -> Z -> outcome P;
  pg_pool_size : P -> pool_flags -> Z;
  pages_ok : P -> Prop;
  held : P -> pool_flags -> Z -> Prop;
  held_dec p pf q :: Decision (held p pf q);
  room : P -> pool_flags -> Z -> bool;
  spare : P -> nat -> Prop }.

(** [q] is one of the [n] pages from [a]. *)
Definition in_pages (a n q : Z) : Prop := exists i, 0 <= i < n /\ q = a + i * PG_SIZE.

Class PageAllocLaws (P : Type) `{PageAlloc P} := {
  pg_size_range p pf : pages_ok p -> 0 <= pg_pool_size p pf < 2 ^ 32 - 2 * PG_SIZE;
  held_page p pf q : pages_ok p -> held p pf q ->
    q mod PG_SIZE = 0 /\ match pf with PF_KERNEL => K_HEAP_START | PF_USER => PG_SIZE end <= q /\ q + PG_SIZE <= 2 ^ 32;
  held_one p pf pf' q : pages_ok p -> held p pf q -> held p pf' q -> pf = pf';
  malloc_room p pf n : pages_ok p -> room p pf n = true -> exists p' va,
    pg_malloc p pf n = Ok (p', Some va) /\ pages_ok p' /\ (forall pf', pg_pool_size p' pf' = pg_pool_size p pf')
    /\ (forall pf' q, in_pages va n q -> ~ held p pf' q)
    /\ (forall pf' q, held p' pf' q <-> held p pf' q \/ (pf' = pf /\ in_pages va n q));
  mfree_held p pf va n : pages_ok p -> 0 < n -> (forall q, in_pages va n q -> held p pf q) -> exists p',
    pg_mfree p pf va n = Ok p' /\ pages_ok p' /\ (forall pf', pg_pool_size p' pf' = pg_pool_size p pf')
    /\ (forall pf' q, held p' pf' q <-> held p pf' q /\ ~ in_pages va n q);
  spare_room p pf n : pages_ok p -> spare p (S n) -> room p pf 1 = true /\ 1024 < pg_pool_size p pf;
  spare_less p n : spare p (S n) -> spare p n;
  spare_malloc p pf n p' r : pages_ok p -> spare p (S n) -> pg_malloc p pf 1 = Ok (p', r) -> spare p' n;
  spare_mfree p pf va n k p' : pages_ok p -> 0 < n -> (forall q, in_pages va n q -> held p pf q) ->
    pg_mfree p pf va n = Ok p' -> spare p k -> spare p' k }.

(** ** Data *)

(** [struct arena]; [a_desc] is NULL or says which array of descriptors and where in it. *)
Record arena := mk_arena { a_desc : option (pool_flags * Z); a_cnt : Z; a_large : bool }.
Definition sizeof_arena : Z := 12.

Record mem_block_desc := mk_desc { block_size : Z; blocks_per_arena : Z; free_list : list Z }.
Definition DESC_CNT : Z := 7.

(** [k_descs] is [k_block_descs], [u_descs] the [u_block_desc] of the running process. *)
Record heap {P : Type} := mk_heap {
  pages : P; k_descs : list mem_block_desc; u_descs : list mem_block_desc;
  arenas : gmap Z arena; hmem : Z -> Z }.
Arguments heap : clear implicits.

#[export] Instance pool_flags_dec : EqDecision pool_flags.
Proof. solve_decision. Defined.

(** [memset(a, 0, n)]. *)
Definition fill (m : Z -> Z) (a n : Z) : Z -> Z := fun q => if (a <=? q) && (q <? a + n) then 0 else m q.

(** [block_desc_init]: [block_size] is a [uint16_t] that doubles. *)
Fixpoint desc_array (n : nat) (size : Z) : list mem_block_desc :=
  match n with
  | O => []
  | S n => mk_desc size ((PG_SIZE - sizeof_arena) / size) [] :: desc_array n (u16 (size * 2))
  end.
Definition block_desc_init : list mem_block_desc := desc_array 7 16.

(** [mem_init], on the number of bytes the loader left at 0xb00. *)
Definition mem_init (mem_bytes_total : Z) : layout * layout * layout * list mem_block_desc :=
  (mem_pool_init mem_bytes_total, block_desc_init).

Definition arena2block (a size idx : Z) : Z := u32 (a + sizeof_arena + idx * size).
Definition block2arena (b : Z) : Z := Z.land b 0xfffff000.

(** ** Code *)

Section heap.
Context {P : Type} `{PageAlloc P}.
Abbreviation hp := (heap P).

Definition with_pages (v : P) (h : hp) : hp := mk_heap _ v (k_descs h) (u_descs h) (arenas h) (hmem h).
Definition with_arenas (v : gmap Z arena) (h : hp) : hp := mk_heap _ (pages h) (k_descs h) (u_descs h) v (hmem h).
Definition with_hmem (v : Z -> Z) (h : hp) : hp := mk_heap _ (pages h) (k_descs h) (u_descs h) (arenas h) v.
Definition get_descs (pf : pool_flags) (h : hp) : list mem_block_desc :=
  match pf with PF_KERNEL => k_descs h | PF_USER => u_descs h end.
Definition with_descs (pf : pool_flags) (v : list mem_block_desc) (h : hp) : hp :=
  match pf with
  | PF_KERNEL => mk_heap _ (pages h) v (u_descs h) (arenas h) (hmem h)
  | PF_USER => mk_heap _ (pages h) (k_descs h) v (arenas h) (hmem h)
  end.
Definition set_free (pf : pool_flags) (i : Z) (l : list Z) (h : hp) : outcome hp :=
  let! d := rd (get_descs pf h) i in
  let! ds := wr (get_descs pf h) i (mk_desc (block_size d) (blocks_per_arena d) l) in
  Ok (with_descs pf ds h).

(** The first descriptor whose blocks are large enough. *)
Fixpoint find_desc (ds : list mem_block_desc) (size : Z) (desc_idx : Z) : Z :=
  match ds with
  | [] => desc_idx
  | d :: ds => if size <=? block_size d then desc_idx else find_desc ds size (desc_idx + 1)
  end.

(** The loop that cuts an arena into blocks. *)
Fixpoint split_arena (a size : Z) (l : list Z) (block_idx : Z) (n : nat) : outcome (list Z) :=
  match n with
  | O => Ok l
  | S n =>
      c_assert (negb (bool_decide (arena2block a size block_idx ∈ l))) ;;;
      split_arena a size (l ++ [arena2block a size block_idx]) (block_idx + 1) n
  end.

(** An empty free list is filled with a new arena; [false] when there is no page. *)
Definition refill (h : hp) (pf : pool_flags) (i : Z) : outcome (hp * bool) :=
  let! d := rd (get_descs pf h) i in
  match free_list d with
  | _ :: _ => Ok (h, true)
  | [] =>
      let! ' (p, r) := pg_malloc (pages h) pf 1 in
      match r with
      | None => Ok (with_pages p h, false)
      | Some a =>
          let h := with_arenas (<[a := mk_arena (Some (pf, i)) (blocks_per_arena d) false]> (arenas h))
                     (with_hmem (fill (hmem h) a PG_SIZE) (with_pages p h)) in
          let! l := split_arena a (block_size d) [] 0 (Z.to_nat (blocks_per_arena d)) in
          let! h := set_free pf i l h in
          Ok (h, true)
      end
  end.

(** A block from a list that is not empty. *)
Definition take_block (h : hp) (pf : pool_flags) (i : Z) : outcome (hp * Z) :=
  let! d := rd (get_descs pf h) i in
  match free_list d with
  | [] => Err BadAccess
  | b :: rest =>
      let! h := set_free pf i rest h in
      let a := block2arena b in
      match arenas h !! a with
      | None => Err BadAccess
      | Some ar =>
          Ok (with_arenas (<[a := mk_arena (a_desc ar) (u32 (a_cnt ar - 1)) (a_large ar)]> (arenas h))
                (with_hmem (fill (hmem h) b (block_size d)) h), b)
      end
  end.

(** [None] is NULL; the pool is the kernel's when [pgdir] of the caller is NULL. *)
Definition sys_malloc (h : hp) (pf : pool_flags) (size : Z) : outcome (hp * option Z) :=
  if negb ((0 <? size) && (size <? pg_pool_size (pages h) pf)) then Ok (h, None) else
  if 1024 <? size then
    let page_cnt := DIV_ROUND_UP (u32 (size + sizeof_arena)) PG_SIZE in
    let! ' (p, r) := pg_malloc (pages h) pf page_cnt in
    match r with
    | None => Ok (with_pages p h, None)
    | Some a =>
        Ok (with_arenas (<[a := mk_arena None page_cnt true]> (arenas h))
              (with_hmem (fill (hmem h) a (page_cnt * PG_SIZE)) (with_pages p h)), Some (u32 (a + sizeof_arena)))
    end
  else
    let desc_idx := find_desc (get_descs pf h) size 0 in
    let! ' (h, ok) := refill h pf desc_idx in
    if negb ok then Ok (h, None) else
    let! ' (h, b) := take_block h pf desc_idx in
    Ok (h, Some b).

(** The loop that takes the blocks of an empty arena off the list. *)
Fixpoint unsplit_arena (a size : Z) (l : list Z) (block_idx : Z) (n : nat) : outcome (list Z) :=
  match n with
  | O => Ok l
  | S n =>
      let b := arena2block a size block_idx in
      c_assert (bool_decide (b ∈ l)) ;;;
      unsplit_arena a size (filter (fun x => x <> b) l) (block_idx + 1) n
  end.

Definition sys_free (h : hp) (pf : pool_flags) (ptr : Z) : outcome hp :=
  c_assert (negb (ptr =? 0)) ;;;
  c_assert (match pf with PF_KERNEL => K_HEAP_START <=? ptr | PF_USER => true end) ;;;
  let a := block2arena ptr in
  match arenas h !! a with
  | None => Err BadAccess
  | Some ar =>
      match a_desc ar, a_large ar with
      | None, true =>
          let! p := pg_mfree (pages h) pf a (a_cnt ar) in
          Ok (with_arenas (delete a (arenas h)) (with_pages p h))
      | None, false => Err BadAccess
      | Some (dpf, i), _ =>
          let! d := rd (get_descs dpf h) i in
          let l := free_list d ++ [ptr] in
          let cnt := u32 (a_cnt ar + 1) in
          if cnt =? blocks_per_arena d then
            let! l := unsplit_arena a (block_size d) l 0 (Z.to_nat (blocks_per_arena d)) in
            let! h := set_free dpf i l h in
            let! p := pg_mfree (pages h) pf a 1 in
            Ok (with_arenas (delete a (arenas h)) (with_pages p h))
          else
            let! h := set_free dpf i l h in
            Ok (with_arenas (<[a := mk_arena (a_desc ar) cnt (a_large ar)]> (arenas h)) h)
      end
  end.

(** ** Specification *)

(** Sizes and numbers of blocks of the seven descriptors. *)
Definition size_of (i : Z) : Z := 16 * 2 ^ i.
Definition per_arena (i : Z) : Z := 4084 / size_of i.

Definition free_of (h : hp) (pf : pool_flags) (i : Z) : list Z :=
  match znth (get_descs pf h) i with Some d => free_list d | None => [] end.

(** Block [k] of an arena of blocks of kind [i]. *)
Definition block_at (a i k : Z) : Z := a + 12 + k * size_of i.

(** [b] is a block of the small arena at [a]. *)
Definition block_in (a i b : Z) : Prop := exists k, 0 <= k < per_arena i /\ b = block_at a i k.

Definition span (ar : arena) : Z := if a_large ar then a_cnt ar else 1.

(** The arena at [a]: its pages are held; one of small blocks counts its free ones
    and, except at page [e], is in use. *)
Definition arena_ok (h : hp) (e a : Z) (ar : arena) : Prop :=
  if a_large ar then a_desc ar = None /\ 0 < a_cnt ar
    /\ exists pf, forall q, in_pages a (a_cnt ar) q -> held (pages h) pf q
  else exists pf i, a_desc ar = Some (pf, i) /\ 0 <= i < DESC_CNT /\ held (pages h) pf a
    /\ a_cnt ar = zlen (filter (fun b => block2arena b = a) (free_of h pf i))
    /\ a_cnt ar <= per_arena i /\ (a <> e -> a_cnt ar < per_arena i).

Record heap_inv (e : Z) (h : hp) : Prop := {
  hk_pages : pages_ok (pages h);
  hk_descs pf : map (fun d => (block_size d, blocks_per_arena d)) (get_descs pf h)
    = map (fun i => (size_of i, per_arena i)) (seqZ 0 7);
  hk_arena a ar : arenas h !! a = Some ar -> arena_ok h e a ar;
  hk_apart a ar a' ar' : arenas h !! a = Some ar -> arenas h !! a' = Some ar' -> in_pages a (span ar) a' -> a' = a;
  hk_free pf i b : b ∈ free_of h pf i ->
    exists a ar, arenas h !! a = Some ar /\ a_desc ar = Some (pf, i) /\ a_large ar = false /\ block_in a i b;
  hk_nodup pf i : NoDup (free_of h pf i) }.

(** Between calls no arena is wholly free. *)
Definition heap_ok : hp -> Prop := heap_inv 0.

(** The blocks handed out, and how long they are. *)
Definition live (h : hp) (pf : pool_flags) (b : Z) : Prop :=
  exists a ar, arenas h !! a = Some ar /\
    if a_large ar then held (pages h) pf a /\ b = a + 12
    else exists i, a_desc ar = Some (pf, i) /\ block_in a i b /\ b ∉ free_of h pf i.

Definition block_len (h : hp) (b : Z) : Z :=
  match arenas h !! block2arena b with
  | Some ar => if a_large ar then a_cnt ar * PG_SIZE - 12 else match a_desc ar with Some (_, i) => size_of i | None => 0 end
  | None => 0
  end.

(** The blocks of [h] are as long and hold the same bytes in [h']. *)
Definition kept (h h' : hp) : Prop := forall pf c, live h pf c -> live h' pf c ->
  block_len h' c = block_len h c /\ forall q, c <= q < c + block_len h c -> hmem h' q = hmem h q.

End heap.

(** ** Lemmas *)

Lemma kind_cases i : 0 <= i < DESC_CNT -> i = 0 \/ i = 1 \/ i = 2 \/ i = 3 \/ i = 4 \/ i = 5 \/ i = 6.
Proof. unfold DESC_CNT. lia. Qed.

Lemma kind_bounds i : 0 <= i < DESC_CNT ->
  16 <= size_of i <= 1024 /\ 3 <= per_arena i <= 255 /\ 12 + per_arena i * size_of i <= PG_SIZE.
Proof. intros Hi. destruct (kind_cases i Hi) as [->|[->|[->|[->|[->|[->| ->]]]]]]; vm_compute; intuition discriminate. Qed.

(** The address of a page. *)
Definition page_addr (a : Z) : Prop := a mod PG_SIZE = 0 /\ PG_SIZE <= a /\ a + PG_SIZE <= 2 ^ 32.

Lemma block2arena_ok a b : page_addr a -> a <= b < a + PG_SIZE -> block2arena b = a.
Proof.
  intros (Hm & Hlo & Hhi) Hb. unfold block2arena. rewrite land_frame. unfold frame, PG_SIZE in *.
  change (2 ^ 12) with 4096 in *. change (2 ^ 20) with 1048576. change (2 ^ 32) with 4294967296 in *.
  pose proof (Z.div_mod a 4096 ltac:(lia)).
  assert (b / 4096 = a / 4096) as -> by (symmetry; apply (Z.div_unique b 4096 _ (b - a)); lia).
  rewrite Z.mod_small by lia. lia.
Qed.

Lemma block_in_range a i b : 0 <= i < DESC_CNT -> block_in a i b -> a + 12 <= b /\ b + size_of i <= a + PG_SIZE.
Proof. intros Hi (k & Hk & ->). destruct (kind_bounds i Hi) as (? & ? & Hp).
  pose proof (Z.mul_le_mono_nonneg_r (k + 1) (per_arena i) (size_of i) ltac:(lia) ltac:(lia)). pose proof (Z.mul_nonneg_nonneg k (size_of i) ltac:(lia) ltac:(lia)).
  unfold block_at. lia.
Qed.

Lemma block_in_page a i b : page_addr a -> 0 <= i < DESC_CNT -> block_in a i b -> block2arena b = a.
Proof. intros Ha Hi Hb. apply block2arena_ok; [done|]. destruct (block_in_range _ _ _ Hi Hb). destruct (kind_bounds i Hi). lia. Qed.

Lemma arena2block_ok a i k : page_addr a -> 0 <= i < DESC_CNT -> 0 <= k < per_arena i ->
  arena2block a (size_of i) k = block_at a i k.
Proof.
  intros (_ & Hlo & Hhi) Hi Hk. destruct (kind_bounds i Hi) as (? & ? & ?). unfold arena2block, block_at, sizeof_arena, PG_SIZE in *.
  apply u32_small. nia.
Qed.

Lemma block_at_inj a i k k' : 0 <= i < DESC_CNT -> block_at a i k = block_at a i k' -> k = k'.
Proof. intros Hi. destruct (kind_bounds i Hi) as (? & ? & ?). unfold block_at. nia. Qed.

(** Runs of pages that share a byte share a first page. *)
Lemma runs_apart a n a' n' q : a mod PG_SIZE = 0 -> a' mod PG_SIZE = 0 ->
  a <= q < a + n * PG_SIZE -> a' <= q < a' + n' * PG_SIZE -> in_pages a n a' \/ in_pages a' n' a.
Proof.
  unfold in_pages, PG_SIZE. intros Hm Hm' Hq Hq'. pose proof (Z.div_mod a 4096 ltac:(lia)). pose proof (Z.div_mod a' 4096 ltac:(lia)).
  destruct (Z.le_ge_cases a a'); [left; exists (a' / 4096 - a / 4096) | right; exists (a / 4096 - a' / 4096)]; lia.
Qed.

Lemma in_pages_one a q : in_pages a 1 q <-> q = a.
Proof. unfold in_pages, PG_SIZE. split; [intros (i & Hi & ->); lia | intros ->; exists 0; lia]. Qed.

Lemma in_pages_first a n : 0 < n -> in_pages a n a.
Proof. exists 0. unfold PG_SIZE. lia. Qed.

Lemma find_desc_ok size ds k : (exists d, d ∈ ds /\ size <= block_size d) ->
  exists d, k <= find_desc ds size k /\ znth ds (find_desc ds size k - k) = Some d /\ size <= block_size d.
Proof.
  revert k. induction ds as [|d ds IH]; intros k (x & Hx & Hs); [by apply elem_of_nil in Hx|]. cbn.
  destruct (Z.leb_spec size (block_size d)) as [Hle|Hgt].
  - exists d. rewrite Z.sub_diag. split; [lia|]. by split.
  - apply elem_of_cons in Hx as [->|Hx]; [lia|]. destruct (IH (k + 1)) as (y & Hk & Hy & Hys); [by exists x|].
    exists y. split; [lia|]. split; [|done]. unfold znth in *. revert Hy. zdec.
    replace (Z.to_nat (find_desc ds size (k + 1) - k)) with (S (Z.to_nat (find_desc ds size (k + 1) - (k + 1)))) by lia. done.
Qed.

(** The blocks of an arena, in order. *)
Definition all_blocks_of (a i n : Z) : list Z := map (block_at a i) (seqZ 0 n).

Lemma all_blocks_in a i n b : b ∈ all_blocks_of a i n <-> exists k, 0 <= k < n /\ b = block_at a i k.
Proof.
  unfold all_blocks_of. rewrite list_elem_of_In, in_map_iff. split.
  - intros (k & <- & Hk). apply list_elem_of_In, elem_of_seqZ in Hk. exists k. lia.
  - intros (k & Hk & ->). exists k. split; [done|]. apply list_elem_of_In, elem_of_seqZ. lia.
Qed.

Lemma all_blocks_S a i n : 0 <= n -> all_blocks_of a i (n + 1) = all_blocks_of a i n ++ [block_at a i n].
Proof. intros Hn. unfold all_blocks_of. rewrite seqZ_app, map_app by lia. done. Qed.

Lemma all_blocks_NoDup a i n : 0 <= i < DESC_CNT -> NoDup (all_blocks_of a i n).
Proof.
  intros Hi. unfold all_blocks_of. apply NoDup_fmap_2_strong; [|apply NoDup_seqZ]. intros x y _ _. by apply block_at_inj.
Qed.

Lemma split_arena_ok a i n : page_addr a -> 0 <= i < DESC_CNT -> forall k, 0 <= k -> k + Z.of_nat n <= per_arena i ->
  split_arena a (size_of i) (all_blocks_of a i k) k n = Ok (all_blocks_of a i (k + Z.of_nat n)).
Proof.
  intros Ha Hi. induction n as [|n IH]; intros k Hk Hn; [by rewrite Z.add_0_r|]. cbn [split_arena].
  rewrite arena2block_ok by (done || lia). rewrite bool_decide_eq_false_2.
  2: { rewrite all_blocks_in. intros (k' & Hk' & He). apply block_at_inj in He; [lia|done]. }
  cbn [negb c_assert obind]. rewrite <- all_blocks_S by done. rewrite IH by lia. do 2 f_equal. lia.
Qed.

(** Taking all the blocks of an arena off a list. *)
Lemma unsplit_arena_ok a i n : page_addr a -> 0 <= i < DESC_CNT -> forall k l, 0 <= k -> k + Z.of_nat n = per_arena i ->
  (forall j, k <= j < per_arena i -> block_at a i j ∈ l) ->
  unsplit_arena a (size_of i) l k n = Ok (filter (fun b => b ∉ map (block_at a i) (seqZ k (Z.of_nat n))) l).
Proof.
  intros Ha Hi. induction n as [|n IH]; intros k l Hk Hn Hl; cbn [unsplit_arena].
  - f_equal. change (Z.of_nat 0) with 0. change (seqZ k 0) with (@nil Z). cbn [map]. symmetry.
    clear. induction l as [|b l IH]; [done|]. rewrite filter_cons_True by apply not_elem_of_nil. by rewrite IH.
  - rewrite arena2block_ok by (done || lia). rewrite bool_decide_eq_true_2 by (apply Hl; lia). cbn [c_assert obind].
    rewrite IH; [|lia|lia|].
    + f_equal. rewrite list_filter_filter. apply list_filter_iff. intros x.
      replace (Z.of_nat (S n)) with (1 + Z.of_nat n) by lia. rewrite (seqZ_app k 1 (Z.of_nat n)) by lia. rewrite map_app, not_elem_of_app.
      change (map (block_at a i) (seqZ k 1)) with [block_at a i k]. rewrite list_elem_of_singleton. tauto.
    + intros j Hj. apply list_elem_of_filter. split; [|apply Hl; lia]. intros E. apply block_at_inj in E; [lia|done].
Qed.

Section lemmas.
Context {P : Type} `{PageAllocLaws P}.
Abbreviation hp := (heap P).
Implicit Types (h : hp) (pf : pool_flags).

Lemma held_addr h e pf a : heap_inv e h -> held (pages h) pf a -> page_addr a.
Proof.
  intros I Hh. destruct (held_page _ pf a (hk_pages _ _ I) Hh) as (Hm & Hlo & Hhi). split; [done|]. split; [|done].
  destruct pf; [unfold K_HEAP_START, PG_SIZE in *|]; lia.
Qed.

Lemma arena_addr h e a ar : heap_inv e h -> arenas h !! a = Some ar -> page_addr a.
Proof.
  intros I Ha. pose proof (hk_arena _ _ I _ _ Ha) as Ho. unfold arena_ok in Ho. destruct (a_large ar).
  - destruct Ho as (_ & Hc & pf & Hp). by apply (held_addr h e pf), Hp, in_pages_first.
  - destruct Ho as (pf & i & _ & _ & Hp & _). by apply (held_addr h e pf).
Qed.

(** The descriptor of kind [i]. *)
Lemma desc_ok h e pf i : heap_inv e h -> 0 <= i < DESC_CNT ->
  exists d, rd (get_descs pf h) i = Ok d /\ block_size d = size_of i /\ blocks_per_arena d = per_arena i
    /\ free_list d = free_of h pf i /\ zlen (get_descs pf h) = 7.
Proof.
  intros I Hi. pose proof (hk_descs _ _ I pf) as Hd.
  assert (length (get_descs pf h) = 7%nat) as Hl by (by rewrite <- (length_map (fun d => (block_size d, blocks_per_arena d))), Hd).
  destruct (znth_in (get_descs pf h) i) as [d Ed]; [unfold DESC_CNT in Hi; lia|]. exists d. split; [by apply rd_znth|].
  assert ((block_size d, blocks_per_arena d) = (size_of i, per_arena i)) as [= -> ->].
  { assert (map (fun d => (block_size d, blocks_per_arena d)) (get_descs pf h) !! Z.to_nat i = Some (size_of i, per_arena i)) as E.
    { rewrite Hd, list_lookup_fmap, lookup_seqZ_lt by (unfold DESC_CNT in Hi; lia). cbn. by replace (0 + Z.of_nat (Z.to_nat i)) with i by lia. }
    rewrite list_lookup_fmap in E. unfold znth in Ed. revert Ed. zdec. intros Ed. rewrite Ed in E. cbn in E. congruence. }
  split; [done|]. split; [done|]. split; [|lia]. unfold free_of. by rewrite Ed.
Qed.

(** [set_free] changes one free list. *)
Lemma set_free_ok h e pf i l : heap_inv e h -> 0 <= i < DESC_CNT ->
  exists h', set_free pf i l h = Ok h' /\ pages h' = pages h /\ arenas h' = arenas h /\ hmem h' = hmem h
    /\ (forall pf', map (fun d => (block_size d, blocks_per_arena d)) (get_descs pf' h')
                    = map (fun i => (size_of i, per_arena i)) (seqZ 0 7))
    /\ (forall pf' i', free_of h' pf' i' = if decide (pf' = pf /\ i' = i) then l else free_of h pf' i').
Proof.
  intros I Hi. destruct (desc_ok h e pf i I Hi) as (d & Ed & Hs & Hb & _ & Hl). unfold set_free. rewrite Ed. cbn [obind].
  rewrite wr_in by (unfold DESC_CNT in Hi; lia). cbn [obind]. eexists; split; [done|].
  set (ds := <[Z.to_nat i := _]> (get_descs pf h)).
  assert (forall pf', get_descs pf' (with_descs pf ds h) = if decide (pf' = pf) then ds else get_descs pf' h) as Hg.
  { intros pf'. destruct pf, pf'; done. }
  split; [by destruct pf|]. split; [by destruct pf|]. split; [by destruct pf|]. split.
  - intros pf'. rewrite Hg. destruct (decide (pf' = pf)) as [->|]; [|apply (hk_descs _ _ I)]. rewrite <- (hk_descs _ _ I pf).
    unfold ds. rewrite list_fmap_insert. cbn. rewrite list_insert_id; [done|]. rewrite list_lookup_fmap.
    apply rd_Ok in Ed. unfold znth in Ed. revert Ed. unfold DESC_CNT in Hi. zdec. intros ->. done.
  - intros pf' i'. unfold free_of. rewrite Hg. destruct (decide (pf' = pf)) as [->|Hne].
    + unfold ds. rewrite znth_insert by (unfold DESC_CNT in Hi; lia). destruct (Z.eqb_spec i' i) as [->|Hi'].
      * by rewrite decide_True.
      * rewrite decide_False by tauto. done.
    + by rewrite decide_False by tauto.
Qed.

Lemma find_kind h e pf n : heap_inv e h -> 0 < n <= 1024 ->
  0 <= find_desc (get_descs pf h) n 0 < DESC_CNT /\ n <= size_of (find_desc (get_descs pf h) n 0).
Proof.
  intros I Hn. destruct (find_desc_ok n (get_descs pf h) 0) as (d & Hk & Ed & Hs).
  - destruct (desc_ok h e pf 6 I ltac:(unfold DESC_CNT; lia)) as (d & Ed & Hs & _). exists d. split.
    + apply rd_Ok in Ed. unfold znth in Ed. cbn in Ed. by eapply list_elem_of_lookup_2.
    + rewrite Hs. change (size_of 6) with 1024. lia.
  - rewrite Z.sub_0_r in Ed. pose proof (znth_Some _ _ _ Ed) as Hlt.
    assert (zlen (get_descs pf h) = 7) as Hl by (by destruct (desc_ok h e pf 0 I ltac:(unfold DESC_CNT; lia)) as (_ & _ & _ & _ & _ & ?)).
    assert (0 <= find_desc (get_descs pf h) n 0 < DESC_CNT) as Hr by (unfold DESC_CNT; lia). split; [done|].
    destruct (desc_ok h e pf _ I Hr) as (d' & Ed' & Hs' & _). rewrite (rd_znth _ _ _ Ed) in Ed'. injection Ed' as <-. lia.
Qed.

(** Where a block handed out lies. *)
Lemma live_range h e pf c : heap_inv e h -> live h pf c -> exists a ar, arenas h !! a = Some ar /\ page_addr a
  /\ block2arena c = a /\ a + 12 <= c /\ 0 < block_len h c /\ c + block_len h c <= a + span ar * PG_SIZE /\ held (pages h) pf a.
Proof.
  intros I (a & ar & Ha & Hl). pose proof (arena_addr h e a ar I Ha) as Hp. pose proof (hk_arena _ _ I _ _ Ha) as Ho.
  exists a, ar. split; [done|]. split; [done|]. unfold arena_ok in Ho. unfold span. destruct (a_large ar) eqn:El.
  - destruct Hl as [Hh ->]. assert (block2arena (a + 12) = a) as E by (apply block2arena_ok; [done | unfold PG_SIZE; lia]).
    split; [done|]. split; [lia|]. unfold block_len. rewrite E, Ha, El. destruct Ho as (_ & Hc & _). unfold PG_SIZE. split_and!; [lia|lia|done].
  - destruct Hl as (i & Hd & Hb & Hn). destruct Ho as (pf' & i' & Hd' & Hi & Hh & _ & _). rewrite Hd in Hd'. injection Hd' as -> ->.
    pose proof (block_in_page a i' c Hp Hi Hb) as E. destruct (block_in_range a i' c Hi Hb) as [Hlo Hhi].
    split; [done|]. split; [done|]. unfold block_len. rewrite E, Ha, El, Hd. destruct (kind_bounds i' Hi) as (? & _).
    unfold PG_SIZE in *. split_and!; [lia|lia|done].
Qed.

(** A live block is found from its address. *)
Lemma live_at h e pf c : heap_inv e h -> live h pf c -> exists ar, arenas h !! block2arena c = Some ar
  /\ if a_large ar then held (pages h) pf (block2arena c) /\ c = block2arena c + 12
     else exists i, a_desc ar = Some (pf, i) /\ block_in (block2arena c) i c /\ c ∉ free_of h pf i.
Proof.
  intros I (a & ar & Ha & Hl). pose proof (arena_addr h e a ar I Ha) as Hp. pose proof (hk_arena _ _ I _ _ Ha) as Ho.
  unfold arena_ok in Ho. assert (block2arena c = a) as ->; [|by exists ar]. destruct (a_large ar).
  - destruct Hl as [_ ->]. apply block2arena_ok; [done | unfold PG_SIZE; lia].
  - destruct Hl as (i & Hd & Hb & _). destruct Ho as (pf' & i' & Hd' & Hi & _). rewrite Hd in Hd'. injection Hd' as -> ->.
    by apply (block_in_page a i').
Qed.

Lemma arena_held h e a ar q : heap_inv e h -> arenas h !! a = Some ar -> in_pages a (span ar) q -> exists pf, held (pages h) pf q.
Proof.
  intros I Ha Hq. pose proof (hk_arena _ _ I _ _ Ha) as Ho. unfold arena_ok, span in *. destruct (a_large ar).
  - destruct Ho as (_ & _ & pf & Hp). exists pf. by apply Hp.
  - destruct Ho as (pf & i & _ & _ & Hp & _). apply in_pages_one in Hq as ->. by exists pf.
Qed.

Lemma span_pos h e a ar : heap_inv e h -> arenas h !! a = Some ar -> 0 < span ar.
Proof.
  intros I Ha. pose proof (hk_arena _ _ I _ _ Ha) as Ho. unfold arena_ok, span in *. destruct (a_large ar); [by destruct Ho as (_ & ? & _)|lia].
Qed.

Lemma fill_out m a n q : ~ (a <= q < a + n) -> fill m a n q = m q.
Proof. intros Hq. unfold fill. destruct (Z.leb_spec a q), (Z.ltb_spec q (a + n)); try done. lia. Qed.

Lemma fill_in m a n q : a <= q < a + n -> fill m a n q = 0.
Proof. intros Hq. unfold fill. by zdec. Qed.

(** New pages for an arena. *)
Section grow.
Variables (h : hp) (e n va : Z) (p' : P) (pf : pool_flags).
Hypothesis I : heap_inv e h.
Hypothesis Hn : 0 < n.
Hypothesis Hp' : pages_ok p'.
Hypothesis Hnew : forall pf' q, in_pages va n q -> ~ held (pages h) pf' q.
Hypothesis Hheld : forall pf' q, held p' pf' q <-> held (pages h) pf' q \/ (pf' = pf /\ in_pages va n q).

Lemma va_held q : in_pages va n q -> held p' pf q.
Proof. intros Hq. apply Hheld. by right. Qed.

Lemma va_page : page_addr va.
Proof.
  destruct (held_page p' pf va Hp' (va_held va (in_pages_first va n Hn))) as (Hm & Hlo & Hhi). split; [done|]. split; [|done].
  destruct pf; [unfold K_HEAP_START, PG_SIZE in *|]; lia.
Qed.

Lemma va_apart a ar : arenas h !! a = Some ar -> ~ in_pages va n a /\ ~ in_pages a (span ar) va.
Proof.
  intros Ha. split; intros Hin.
  - destruct (arena_held h e a ar a I Ha) as [pf' Hh]; [apply in_pages_first; by eapply span_pos|]. by apply (Hnew pf' a).
  - destruct (arena_held h e a ar va I Ha Hin) as [pf' Hh]. by apply (Hnew pf' va); [apply in_pages_first|].
Qed.

Lemma va_new : arenas h !! va = None.
Proof. destruct (arenas h !! va) as [ar|] eqn:E; [|done]. destruct (va_apart va ar E) as [Hc _]. exfalso. by apply Hc, in_pages_first. Qed.

Lemma live_outside pf' c q : live h pf' c -> c <= q < c + block_len h c -> ~ (va <= q < va + n * PG_SIZE).
Proof.
  intros Hl Hq Hin. destruct (live_range h e pf' c I Hl) as (a & ar & Ha & (Hm & _) & _ & Hlo & _ & Hhi & _).
  pose proof va_page as [Hvm _]. destruct (va_apart a ar Ha) as [H1 H2].
  destruct (runs_apart a (span ar) va n q) as [|]; [done|done|lia|done|done|done].
Qed.

(** The arena that was not there leaves the others as they are. *)
Lemma grow_inv h' e' ar : span ar = n -> pages h' = p' -> arenas h' = <[va := ar]> (arenas h) ->
  (forall pf', map (fun d => (block_size d, blocks_per_arena d)) (get_descs pf' h')
     = map (fun i => (size_of i, per_arena i)) (seqZ 0 7)) ->
  arena_ok h' e' va ar -> (e = e' \/ e = 0) ->
  (forall pf' i, free_of h' pf' i = free_of h pf' i
     \/ (free_of h pf' i = [] /\ free_of h' pf' i = all_blocks_of va i (per_arena i) /\ 0 <= i < DESC_CNT
         /\ a_desc ar = Some (pf', i) /\ a_large ar = false)) ->
  heap_inv e' h'.
Proof.
  intros Hs Ep Ea Hd Hok He Hfree. pose proof va_new as Hva. pose proof va_page as Hpg.
  assert (forall a, is_Some (arenas h !! a) -> a <> va) as Hne by (intros a [x Hx] ->; congruence).
  split; rewrite ?Ep, ?Ea; try done.
  - intros a x Hx. destruct (decide (a = va)) as [->|Ha]; [rewrite lookup_insert_eq in Hx; by injection Hx as <-|].
    rewrite lookup_insert_ne in Hx by done. pose proof (hk_arena _ _ I _ _ Hx) as Ho. pose proof (arena_addr h e a x I Hx) as Hap.
    unfold arena_ok in *. rewrite Ep. destruct (a_large x).
    + destruct Ho as (? & ? & pf' & Hp). split_and!; try done. exists pf'. intros q Hq. apply Hheld. left. by apply Hp.
    + destruct Ho as (pf' & i & Hdd & Hi & Hh & Hc & Hle & Hlt). exists pf', i. split; [done|]. split; [done|]. split; [apply Hheld; by left|]. split; [|split; [done|]].
      * rewrite Hc. destruct (Hfree pf' i) as [->|(E0 & -> & _ & _ & _)]; [done|]. rewrite E0.
        replace (filter (fun b => block2arena b = a) (all_blocks_of va i (per_arena i))) with (@nil Z); [done|].
        symmetry. apply elem_of_nil_inv. intros b Hb. apply list_elem_of_filter in Hb as [Hba Hb].
        apply all_blocks_in in Hb. rewrite (block_in_page va i b Hpg Hi) in Hba by done. by apply Ha.
      * intros Hae. apply Hlt. destruct He as [->| ->]; [done|]. destruct Hap as (_ & ? & _). unfold PG_SIZE in *. lia.
  - intros a x a' x' Hx Hx' Hin.
    destruct (decide (a = va)) as [->|Ha], (decide (a' = va)) as [->|Ha']; [done| | |].
    + rewrite lookup_insert_eq in Hx. injection Hx as <-. rewrite lookup_insert_ne in Hx' by done. rewrite Hs in Hin.
      by destruct (va_apart a' x' Hx') as [? _].
    + rewrite lookup_insert_ne in Hx by done. by destruct (va_apart a x Hx) as [_ ?].
    + rewrite lookup_insert_ne in Hx, Hx' by done. by apply (hk_apart _ _ I a x a' x').
  - intros pf' i b Hb. destruct (Hfree pf' i) as [E|(_ & E & Hi & Hda & Hla)]; rewrite E in Hb.
    + destruct (hk_free _ _ I _ _ _ Hb) as (a & x & Hx & Hr). exists a, x. split; [|done]. rewrite lookup_insert_ne; [done|].
      intros <-. congruence.
    + exists va, ar. rewrite lookup_insert_eq. split_and!; try done. by apply all_blocks_in in Hb.
  - intros pf' i. destruct (Hfree pf' i) as [->|(_ & -> & Hi & _)]; [apply (hk_nodup _ _ I) | by apply all_blocks_NoDup].
Qed.

Lemma block_len_old h' ar pf' c : arenas h' = <[va := ar]> (arenas h) -> live h pf' c -> block_len h' c = block_len h c.
Proof.
  intros Ea Hl. destruct (live_range h e pf' c I Hl) as (a & x & Ha & _ & Hc & _). unfold block_len. rewrite Hc, Ea.
  rewrite lookup_insert_ne; [done|]. intros <-. rewrite va_new in Ha. done.
Qed.

End grow.

Lemma all_blocks_page a i n b : page_addr a -> 0 <= i < DESC_CNT -> n <= per_arena i -> b ∈ all_blocks_of a i n ->
  block2arena b = a /\ block_in a i b.
Proof.
  intros Ha Hi Hn Hb. apply all_blocks_in in Hb as (k & Hk & ->). assert (block_in a i (block_at a i k)) as Hin by (exists k; split; [lia|done]).
  split; [by apply (block_in_page a i)|done].
Qed.

Lemma refill_ok h pf i : heap_ok h -> 0 <= i < DESC_CNT -> free_of h pf i <> [] \/ room (pages h) pf 1 = true ->
  exists h1 e b rest, refill h pf i = Ok (h1, true) /\ heap_inv e h1 /\ free_of h1 pf i = b :: rest
    /\ (e = 0 \/ e = block2arena b) /\ (forall pf' c, live h1 pf' c <-> live h pf' c) /\ kept h h1.
Proof.
  intros I Hi Hr. destruct (desc_ok h 0 pf i I Hi) as (d & Ed & Hbs & Hbp & Hf & _). unfold refill. rewrite Ed. cbn [obind].
  rewrite Hf. destruct (free_of h pf i) as [|b rest] eqn:Efree.
  2: { exists h, 0, b, rest. split; [done|]. split; [done|]. split; [done|]. split; [by left|]. split; [done|]. by intros pf' c _ _. }
  destruct Hr as [Hr|Hr]; [done|].
  destruct (malloc_room (pages h) pf 1 (hk_pages _ _ I) Hr) as (p' & va & E & Hp' & _ & Hnew & Hheld). rewrite E. cbn [obind].
  pose proof (va_page h 1 va p' pf ltac:(lia) Hp' Hheld) as Hpg. pose proof (va_new h 0 1 va I ltac:(lia) Hnew) as Hva.
  destruct (kind_bounds i Hi) as (Hsz & Hper & _).
  rewrite Hbs, Hbp. change (@nil Z) with (all_blocks_of va i 0) at 1. rewrite split_arena_ok by (done || lia).
  rewrite Z.add_0_l, Z2Nat.id by lia. cbn [obind].
  set (ar := mk_arena (Some (pf, i)) (per_arena i) false).
  set (h0 := with_arenas (<[va := ar]> (arenas h)) (with_hmem (fill (hmem h) va PG_SIZE) (with_pages p' h))).
  assert (set_free pf i (all_blocks_of va i (per_arena i)) h0
          = let! h' := set_free pf i (all_blocks_of va i (per_arena i)) h in
            Ok (with_arenas (<[va := ar]> (arenas h)) (with_hmem (fill (hmem h) va PG_SIZE) (with_pages p' h')))) as ->.
  { unfold set_free, h0. destruct pf; cbn; destruct (rd _ i); try done; cbn; by destruct (wr _ i _). }
  destruct (set_free_ok h 0 pf i (all_blocks_of va i (per_arena i)) I Hi) as (h' & -> & Epg & Ear & Ehm & Hds & Hfree).
  cbn [obind]. set (h1 := with_arenas _ _).
  assert (forall pf' i', free_of h1 pf' i' = if decide (pf' = pf /\ i' = i) then all_blocks_of va i (per_arena i) else free_of h pf' i') as Hfree1 by exact Hfree.
  assert (free_of h1 pf i = all_blocks_of va i (per_arena i)) as Hf1 by (rewrite Hfree1; by rewrite decide_True).
  exists h1, va, (block_at va i 0), (map (block_at va i) (seqZ 1 (per_arena i - 1))).
  split; [done|]. split; [|split; [|split; [|split]]].
  - apply (grow_inv h 0 1 va p' pf I ltac:(lia) Hp' Hnew Hheld h1 va ar); try done.
    + exists pf, i. split; [done|]. split; [done|]. split; [apply Hheld; right; split; [done | by apply in_pages_first]|].
      split; [|split; [cbn; lia | intros Hc; by destruct Hc]].
      rewrite Hf1, filter_all; [cbn; unfold all_blocks_of; rewrite length_map, length_seqZ; lia|].
      apply Forall_forall. intros x Hx. by apply (all_blocks_page va i (per_arena i)).
    + by right.
    + intros pf' i'. rewrite Hfree1. destruct (decide (pf' = pf /\ i' = i)) as [[-> ->]|]; [right; by rewrite Efree | by left].
  - rewrite Hf1. unfold all_blocks_of. replace (per_arena i) with (1 + (per_arena i - 1)) at 1 by lia. by rewrite seqZ_app by lia.
  - right. symmetry. apply (block_in_page va i); [done|done|]. exists 0. split; [lia|done].
  - intros pf' c. unfold live. change (arenas h1) with (<[va := ar]> (arenas h)). split.
    + intros (a & x & Hx & Hl). destruct (decide (a = va)) as [->|Hne].
      * rewrite lookup_insert_eq in Hx. injection Hx as <-. cbn in Hl. destruct Hl as (i' & [= -> ->] & Hb & Hn). exfalso. apply Hn.
        rewrite Hf1. by apply all_blocks_in.
      * rewrite lookup_insert_ne in Hx by done. exists a, x. split; [done|]. destruct (a_large x) eqn:El.
        -- destruct Hl as [Hh Hc]. split; [|done]. apply Hheld in Hh as [Hh|[_ Hh]]; [done|]. by apply in_pages_one in Hh.
        -- destruct Hl as (i' & Hd & Hb & Hn). exists i'. split; [done|]. split; [done|]. rewrite Hfree1 in Hn.
           destruct (decide (pf' = pf /\ i' = i)) as [[-> ->]|]; [rewrite Efree; apply not_elem_of_nil | done].
    + intros (a & x & Hx & Hl). assert (a <> va) as Hne by congruence. exists a, x. rewrite lookup_insert_ne by done. split; [done|].
      destruct (a_large x) eqn:El.
      * destruct Hl as [Hh Hc]. split; [|done]. apply Hheld. by left.
      * destruct Hl as (i' & Hd & Hb & Hn). exists i'. split; [done|]. split; [done|]. rewrite Hfree1.
        destruct (decide (pf' = pf /\ i' = i)) as [[-> ->]|]; [|done]. intros Hin. apply Hne.
        apply (all_blocks_page va i) in Hin as [Hin _]; [|done|done|lia]. rewrite <- Hin. symmetry. apply (block_in_page a i); [|done|done].
        by apply (arena_addr h 0 a x).
  - intros pf' c Hl _. split; [by apply (block_len_old h 0 1 va I ltac:(lia) Hnew h1 ar pf')|].
    intros q Hq. change (hmem h1) with (fill (hmem h) va PG_SIZE). apply fill_out.
    replace PG_SIZE with (1 * PG_SIZE) by lia. by apply (live_outside h 0 1 va p' pf I ltac:(lia) Hp' Hnew Hheld pf' c).
Qed.

(** Blocks handed out do not overlap. *)
Lemma live_disjoint h e pf pf' c c' q : heap_inv e h -> live h pf c -> live h pf' c' -> c <> c' ->
  c <= q < c + block_len h c -> c' <= q < c' + block_len h c' -> False.
Proof.
  intros I Hl Hl' Hne Hq Hq'. destruct (live_range h e pf c I Hl) as (a & ar & Ha & [Hm _] & Hca & Hlo & _ & Hhi & _).
  destruct (live_range h e pf' c' I Hl') as (a' & ar' & Ha' & [Hm' _] & Hca' & Hlo' & _ & Hhi' & _).
  destruct (decide (a = a')) as [<-|Hna].
  2: { destruct (runs_apart a (span ar) a' (span ar') q) as [Hin|Hin]; try done; try lia.
       - apply Hna. symmetry. by apply (hk_apart _ _ I a ar a' ar').
       - apply Hna. by apply (hk_apart _ _ I a' ar' a ar). }
  assert (ar' = ar) as -> by congruence. destruct (live_at h e pf c I Hl) as (x & Hx & Hc). destruct (live_at h e pf' c' I Hl') as (x' & Hx' & Hc').
  rewrite Hca in *. rewrite Hca' in *. assert (x = ar) as -> by congruence. assert (x' = ar) as -> by congruence.
  unfold block_len in Hq, Hq'. rewrite Hca, Ha in Hq. rewrite Hca', Ha in Hq'.
  pose proof (hk_arena _ _ I _ _ Ha) as Ho. unfold arena_ok in Ho. destruct (a_large ar).
  - destruct Hc as [_ ->], Hc' as [_ ->]. done.
  - destruct Hc as (i & Hd & (k & Hk & ->) & _), Hc' as (i' & Hd' & (k' & Hk' & ->) & _), Ho as (? & ? & Hdd & Hi & _).
    rewrite Hd in Hd', Hdd. injection Hd' as <- <-. injection Hdd as <- <-. rewrite Hd in Hq, Hq'. unfold block_at in *.
    destruct (kind_bounds i Hi) as (Hs & _). destruct (Z.lt_trichotomy k k') as [Hlt|[->|Hlt]]; [|done|].
    + pose proof (Z.mul_le_mono_nonneg_r (k + 1) k' (size_of i) ltac:(lia) ltac:(lia)). lia.
    + pose proof (Z.mul_le_mono_nonneg_r (k' + 1) k (size_of i) ltac:(lia) ltac:(lia)). lia.
Qed.

(** Block [b] of the arena at [a] joins its free list or leaves it. *)
Section relink.
Variables (h h' : hp) (e e' a i b : Z) (ar : arena) (pf : pool_flags) (l : list Z).
Hypothesis I : heap_inv e h.
Hypothesis Ha : arenas h !! a = Some ar.
Hypothesis Hd : a_desc ar = Some (pf, i).
Hypothesis Hlg : a_large ar = false.
Hypothesis Hb : block_in a i b.
Hypothesis Epages : pages h' = pages h.
Hypothesis Earenas : arenas h' = <[a := mk_arena (Some (pf, i)) (zlen (filter (fun b => block2arena b = a) l)) false]> (arenas h).
Hypothesis Hfree : forall pf' i', free_of h' pf' i' = if decide (pf' = pf /\ i' = i) then l else free_of h pf' i'.
Hypothesis Hl : forall c, c <> b -> c ∈ l <-> c ∈ free_of h pf i.

Lemma relink_kind : 0 <= i < DESC_CNT /\ page_addr a /\ block2arena b = a /\ held (pages h) pf a
  /\ a_cnt ar = zlen (filter (fun b => block2arena b = a) (free_of h pf i)) /\ a_cnt ar <= per_arena i
  /\ (a <> e -> a_cnt ar < per_arena i).
Proof.
  pose proof (hk_arena _ _ I _ _ Ha) as Ho. unfold arena_ok in Ho. rewrite Hlg in Ho.
  destruct Ho as (pf0 & i0 & Hd0 & Hi & Hr). rewrite Hd in Hd0. injection Hd0 as <- <-. pose proof (arena_addr h e a ar I Ha) as Hp.
  split; [done|]. split; [done|]. split; [by apply (block_in_page a i)|done].
Qed.

Lemma relink_back a' x : arenas h' !! a' = Some x -> exists y, arenas h !! a' = Some y
  /\ a_desc x = a_desc y /\ a_large x = a_large y /\ span x = span y /\ (a' <> a -> x = y).
Proof.
  intros Hx. rewrite Earenas in Hx. destruct (decide (a' = a)) as [->|Hne].
  - rewrite lookup_insert_eq in Hx. injection Hx as <-. exists ar. unfold span. rewrite Hd, Hlg. by split_and!.
  - rewrite lookup_insert_ne in Hx by done. exists x. by split_and!.
Qed.

Lemma relink_forth a' y : arenas h !! a' = Some y -> exists x, arenas h' !! a' = Some x
  /\ a_desc x = a_desc y /\ a_large x = a_large y /\ (a' <> a -> x = y).
Proof.
  intros Hy. rewrite Earenas. destruct (decide (a' = a)) as [->|Hne].
  - rewrite lookup_insert_eq. assert (y = ar) as -> by congruence. eexists. split; [done|]. by rewrite Hd, Hlg.
  - rewrite lookup_insert_ne by done. by exists y.
Qed.

Lemma relink_inv : NoDup l -> zlen (filter (fun b => block2arena b = a) l) <= per_arena i ->
  (a <> e' -> zlen (filter (fun b => block2arena b = a) l) < per_arena i) ->
  (forall a', a' <> a -> filter (fun b => block2arena b = a') l = filter (fun b => block2arena b = a') (free_of h pf i)) ->
  (forall a', a' <> a -> PG_SIZE <= a' -> a' <> e' -> a' <> e) ->
  (forall pf', map (fun d => (block_size d, blocks_per_arena d)) (get_descs pf' h')
     = map (fun i => (size_of i, per_arena i)) (seqZ 0 7)) ->
  heap_inv e' h'.
Proof.
  intros Hnd Hle Hlt Hoth He Hds. destruct relink_kind as (Hi & Hpg & Hba & Hh & _).
  split; rewrite ?Epages; try done; [apply (hk_pages _ _ I) | | | |].
  - intros a' x Hx. destruct (decide (a' = a)) as [->|Hne].
    + rewrite Earenas, lookup_insert_eq in Hx. injection Hx as <-. exists pf, i. by rewrite Epages, Hfree, decide_True.
    + destruct (relink_back a' x Hx) as (y & Hy & _ & _ & _ & Heq). rewrite (Heq Hne). pose proof (hk_arena _ _ I _ _ Hy) as Ho.
      pose proof (arena_addr h e a' y I Hy) as (_ & Hlo & _). unfold arena_ok in *. rewrite Epages. destruct (a_large y); [done|].
      destruct Ho as (pf0 & i0 & ? & ? & ? & Hc & ? & Hl0). exists pf0, i0. split; [done|]. split; [done|]. split; [done|]. split; [|split; [done|]].
      * rewrite Hc, Hfree. destruct (decide (pf0 = pf /\ i0 = i)) as [[-> ->]|]; [by rewrite Hoth|done].
      * intros Hae. apply Hl0. by apply He.
  - intros a1 x1 a2 x2 H1 H2. destruct (relink_back _ _ H1) as (y1 & Hy1 & _ & _ & -> & _), (relink_back _ _ H2) as (y2 & Hy2 & _).
    by apply (hk_apart _ _ I a1 y1 a2 y2).
  - intros pf' i' c Hc. rewrite Hfree in Hc. destruct (decide (pf' = pf /\ i' = i)) as [[-> ->]|Hne].
    + destruct (decide (c = b)) as [->|Hcb].
      * destruct (relink_forth _ _ Ha) as (x & Hx & E3 & E4 & _). exists a, x. by rewrite E3, E4.
      * apply Hl in Hc; [|done]. destruct (hk_free _ _ I _ _ _ Hc) as (a' & y & Hy & E1 & E2 & Hin).
        destruct (relink_forth _ _ Hy) as (x & Hx & E3 & E4 & _). exists a', x. by rewrite E3, E4.
    + destruct (hk_free _ _ I _ _ _ Hc) as (a' & y & Hy & E1 & E2 & Hin). destruct (relink_forth _ _ Hy) as (x & Hx & E3 & E4 & _).
      exists a', x. by rewrite E3, E4.
  - intros pf' i'. rewrite Hfree. destruct (decide (pf' = pf /\ i' = i)) as [[-> ->]|]; [done | apply (hk_nodup _ _ I)].
Qed.

Lemma relink_live pf' c : ~ (pf' = pf /\ c = b) -> live h' pf' c <-> live h pf' c.
Proof.
  intros Hne. assert (forall i' x, (i' = i -> pf' = pf -> c <> b) -> a_desc x = Some (pf', i') -> c ∉ free_of h' pf' i' <-> c ∉ free_of h pf' i') as Hnf.
  { intros i' x Hcb Hx. rewrite Hfree. destruct (decide (pf' = pf /\ i' = i)) as [[-> ->]|]; [|done]. by rewrite Hl by auto. }
  split.
  - intros (a' & x & Hx & Hlv). destruct (relink_back _ _ Hx) as (y & Hy & E1 & E2 & _). rewrite Epages, E1, E2 in Hlv.
    exists a', y. split; [done|]. destruct (a_large y); [done|]. destruct Hlv as (i' & Hdd & Hin & Hn). exists i'. split; [done|]. split; [done|].
    apply (Hnf i' y); [intros _ -> ->; by apply Hne | done | done].
  - intros (a' & y & Hy & Hlv). destruct (relink_forth _ _ Hy) as (x & Hx & E1 & E2 & _). exists a', x. split; [done|].
    rewrite Epages, E1, E2. destruct (a_large y); [done|]. destruct Hlv as (i' & Hdd & Hin & Hn). exists i'. split; [done|]. split; [done|].
    apply (Hnf i' y); [intros _ -> ->; by apply Hne | done | done].
Qed.

Lemma relink_live_b : live h' pf b <-> b ∉ l.
Proof.
  destruct relink_kind as (Hi & Hpg & Hba & _). split.
  - intros (a' & x & Hx & Hlv). destruct (relink_back _ _ Hx) as (y & Hy & E1 & E2 & _). rewrite E1, E2 in Hlv.
    pose proof (hk_arena _ _ I _ _ Hy) as Ho. unfold arena_ok in Ho. pose proof (arena_addr h e a' y I Hy) as Hpg'. destruct (a_large y) eqn:El.
    + destruct Hlv as [_ ->]. assert (a' = a) as ->; [|congruence]. rewrite <- Hba. symmetry. apply block2arena_ok; [done|]. unfold PG_SIZE; lia.
    + destruct Hlv as (i' & Hdd & Hin & Hn), Ho as (pf0 & i0 & Hd0 & Hi0 & _). rewrite Hdd in Hd0. injection Hd0 as <- <-.
      assert (a' = a) as -> by (rewrite <- Hba; symmetry; by apply (block_in_page a' i')).
      assert (y = ar) as -> by congruence. rewrite Hd in Hdd. injection Hdd as <-. by rewrite Hfree, decide_True in Hn.
  - intros Hn. destruct (relink_forth _ _ Ha) as (x & Hx & E1 & E2 & _). exists a, x. split; [done|]. rewrite E1, E2, Hlg. exists i.
    split; [done|]. split; [done|]. by rewrite Hfree, decide_True.
Qed.

Lemma relink_len c : is_Some (arenas h !! block2arena c) -> block_len h' c = block_len h c.
Proof.
  intros [y Hy]. unfold block_len. rewrite Hy. destruct (relink_forth _ _ Hy) as (x & -> & E1 & E2 & Heq). rewrite E2.
  destruct (a_large y) eqn:El; [|by rewrite E1]. rewrite Heq; [done|]. intros Hca. rewrite Hca in Hy. congruence.
Qed.

Lemma relink_len_b : block_len h' b = size_of i.
Proof. destruct relink_kind as (_ & _ & Hba & _). unfold block_len. by rewrite Hba, Earenas, lookup_insert_eq. Qed.

End relink.

(** [h'] is [h] with the block [b] handed out. *)
Record given h h' pf (b : Z) : Prop := {
  gv_ok : heap_ok h';
  gv_new : forall pf', ~ live h pf' b;
  gv_live pf' c : live h' pf' c <-> live h pf' c \/ (pf' = pf /\ c = b);
  gv_zero q : b <= q < b + block_len h' b -> hmem h' q = 0;
  gv_kept : kept h h' }.

Lemma given_nonzero h h' pf b : given h h' pf b -> 0 < b /\ 0 < block_len h' b.
Proof.
  intros [I _ Hl _ _]. destruct (live_range h' 0 pf b I) as (a & ar & _ & (_ & ? & _) & _ & ? & ? & _); [by apply Hl; right|].
  unfold PG_SIZE in *. lia.
Qed.

Lemma take_free_block_ok h e pf i b rest : heap_inv e h -> 0 <= i < DESC_CNT -> free_of h pf i = b :: rest ->
  e = 0 \/ e = block2arena b -> exists h', take_block h pf i = Ok (h', b) /\ given h h' pf b /\ block_len h' b = size_of i.
Proof.
  intros I Hi Hf He. destruct (desc_ok h e pf i I Hi) as (d & Ed & Hbs & _ & Hfd & _). unfold take_block. rewrite Ed. cbn [obind].
  rewrite Hfd, Hf. destruct (set_free_ok h e pf i rest I Hi) as (h1 & E1 & Epg & Ear & Ehm & Hds & Hfree). rewrite E1. cbn [obind].
  destruct (hk_free _ _ I pf i b) as (a & ar & Ha & Hd & Hlg & Hb); [rewrite Hf; by left|].
  destruct (relink_kind h e a i b ar pf I Ha Hd Hlg Hb) as (_ & Hpg & Hba & Hh & Hcnt & Hle & Hlt).
  rewrite Hba in *. rewrite Ear, Ha. pose proof (hk_nodup _ _ I pf i) as Hnd. rewrite Hf in Hnd. apply NoDup_cons in Hnd as [Hbr Hnd].
  rewrite Hf, filter_cons_True in Hcnt by done. cbn [length] in Hcnt. destruct (kind_bounds i Hi) as (Hsz & Hper & _).
  rewrite Hd, Hlg, u32_small by lia. eexists; split; [done|].
  replace (a_cnt ar - 1) with (zlen (filter (fun b => block2arena b = a) rest)) by lia. set (h' := with_arenas _ _).
  assert (hmem h' = fill (hmem h) b (size_of i)) as Emem by (unfold h'; cbn; by rewrite Ehm, Hbs).
  assert (forall c, c <> b -> c ∈ rest <-> c ∈ free_of h pf i) as Hl by (intros c Hc; rewrite Hf, elem_of_cons; tauto).
  assert (arenas h' = <[a := mk_arena (Some (pf, i)) (zlen (filter (fun b => block2arena b = a) rest)) false]> (arenas h)) as Ea by done.
  pose proof (relink_live h h' a i b ar pf rest Ha Hd Hlg Epg Ea Hfree Hl) as Hlive.
  pose proof (relink_live_b h h' e a i b ar pf rest I Ha Hd Hlg Hb Ea Hfree Hl) as Hlive_b.
  pose proof (relink_len h h' a i ar pf rest Ha Hd Hlg Ea) as Hlen.
  pose proof (relink_len_b h h' e a i b ar pf rest I Ha Hd Hlg Hb Ea) as Hlen_b.
  assert (heap_ok h') as I'.
  { apply (relink_inv h h' e 0 a i b ar pf rest I Ha Hd Hlg Hb Epg Ea Hfree Hl); [done | lia | lia | | |done].
    - intros a' Hne. rewrite Hf, filter_cons_False; [done|congruence].
    - intros a' Hne Hpos _ ->. destruct He as [->|He]; [unfold PG_SIZE in *; lia | congruence]. }
  assert (forall pf' c, live h pf' c -> c <> b) as Hnb.
  { intros pf' c Hc ->. destruct (live_at h e pf' b I Hc) as (y & Hy & Hl'). rewrite Hba in *. assert (y = ar) as -> by congruence.
    rewrite Hlg in Hl'. destruct Hl' as (i2 & Hd2 & _ & Hn). rewrite Hd in Hd2. injection Hd2 as <- <-. apply Hn. rewrite Hf. by left. }
  split; [|done]. split; [done | | | |].
  - intros pf' Hc. by apply (Hnb pf') in Hc.
  - intros pf' c. destruct (decide (pf' = pf /\ c = b)) as [[-> ->]|Hne]; [rewrite Hlive_b; tauto|]. rewrite Hlive by done. tauto.
  - intros q Hq. rewrite Hlen_b in Hq. rewrite Emem. by apply fill_in.
  - intros pf' c Hc Hc'. destruct (live_at h e pf' c I Hc) as (y & Hy & _). rewrite Hlen by (by exists y). split; [done|].
    intros q Hq. rewrite Emem. apply fill_out. rewrite <- Hlen_b. rewrite <- Hlen in Hq by (by exists y).
    intros Hqb. apply (live_disjoint h' 0 pf' pf c b q I' Hc'); [by apply Hlive_b | by apply (Hnb pf') | done | done].
Qed.

(** What a request needs: a free block of its size, or a page for an arena, or the pages themselves. *)
Definition granted h pf (size : Z) : Prop :=
  if 1024 <? size then room (pages h) pf ((size + 12 + PG_SIZE - 1) / PG_SIZE) = true
  else free_of h pf (find_desc (get_descs pf h) size 0) <> [] \/ room (pages h) pf 1 = true.

Lemma malloc_small h pf size : heap_ok h -> 0 < size < pg_pool_size (pages h) pf -> size <= 1024 -> granted h pf size ->
  exists h' b, sys_malloc h pf size = Ok (h', Some b) /\ given h h' pf b /\ size <= block_len h' b.
Proof.
  intros I Hs Hle Hr. unfold granted in Hr. unfold sys_malloc. zdec. replace (1024 <? size) with false in Hr by (symmetry; apply Z.ltb_ge; lia).
  destruct (find_kind h 0 pf size I ltac:(lia)) as [Hi Hsz]. set (i := find_desc _ _ _) in *.
  destruct (refill_ok h pf i I Hi Hr) as (h1 & e & b & rest & E1 & I1 & Hf & He & Hlive & Hk). rewrite E1. cbn [obind negb].
  destruct (take_free_block_ok h1 e pf i b rest I1 Hi Hf He) as (h2 & E2 & [I2 Hn Hl Hz Hk2] & Hlen). rewrite E2. cbn [obind].
  exists h2, b. split; [done|]. split; [|lia]. split; [done | | | done |].
  - intros pf' Hc. by apply (Hn pf'), Hlive.
  - intros pf' c. by rewrite Hl, Hlive.
  - intros pf' c Hc Hc'. assert (live h1 pf' c) as Hc1 by (by apply Hlive). destruct (Hk pf' c Hc Hc1) as [L1 M1]. destruct (Hk2 pf' c Hc1 Hc') as [L2 M2].
    split; [lia|]. intros q Hq. rewrite M2 by lia. by apply M1.
Qed.

Lemma malloc_large h pf size : heap_ok h -> 1024 < size < pg_pool_size (pages h) pf -> granted h pf size ->
  exists h' b, sys_malloc h pf size = Ok (h', Some b) /\ given h h' pf b /\ size <= block_len h' b.
Proof.
  intros I Hs Hr. unfold granted in Hr. unfold sys_malloc. zdec. replace (1024 <? size) with true in Hr by (symmetry; apply Z.ltb_lt; lia).
  pose proof (pg_size_range _ pf (hk_pages _ _ I)) as Hrange. unfold DIV_ROUND_UP, sizeof_arena, PG_SIZE in *.
  rewrite (u32_small (size + 12)) by lia. rewrite u32_small by lia. set (n := (size + 12 + 4096 - 1) / 4096) in *.
  assert (0 < n /\ size + 12 <= n * 4096) as [Hn Hsz].
  { pose proof (Z.div_mod (size + 12 + 4096 - 1) 4096 ltac:(lia)). pose proof (Z.mod_pos_bound (size + 12 + 4096 - 1) 4096 ltac:(lia)). lia. }
  destruct (malloc_room (pages h) pf n (hk_pages _ _ I) Hr) as (p' & va & E & Hp' & _ & Hnew & Hheld). rewrite E. cbn [obind].
  pose proof (va_page h n va p' pf Hn Hp' Hheld) as Hpg. pose proof Hpg as (Hm & Hlo & Hhi). unfold PG_SIZE in Hlo, Hhi.
  rewrite u32_small by lia. set (ar := mk_arena None n true). set (h' := with_arenas _ _). exists h', (va + 12). split; [done|].
  assert (block2arena (va + 12) = va) as Hba by (apply block2arena_ok; [done | unfold PG_SIZE; lia]).
  assert (arenas h' = <[va := ar]> (arenas h)) as Ea by done. pose proof (va_new h 0 n va I Hn Hnew) as Hva.
  assert (block_len h' (va + 12) = n * 4096 - 12) as Hlen by (unfold block_len; by rewrite Hba, Ea, lookup_insert_eq).
  split; [|lia]. split.
  - apply (grow_inv h 0 n va p' pf I Hn Hp' Hnew Hheld h' 0 ar); try done; [intros pf'; apply (hk_descs _ _ I pf') | | by left | by intros pf' i; left; destruct pf'].
    split; [done|]. split; [done|]. exists pf. intros q Hq. apply Hheld. by right.
  - intros pf' Hc. destruct (live_at h 0 pf' _ I Hc) as (y & Hy & _). rewrite Hba in Hy. congruence.
  - intros pf' c. split.
    + intros (a & x & Hx & Hl). rewrite Ea in Hx. destruct (decide (a = va)) as [->|Hne].
      * rewrite lookup_insert_eq in Hx. injection Hx as <-. destruct Hl as [Hl ->]. right. split; [|done].
        apply (held_one p' pf' pf va Hp' Hl). apply Hheld. right. split; [done|]. by apply in_pages_first.
      * rewrite lookup_insert_ne in Hx by done. left. exists a, x. split; [done|]. destruct (a_large x); [|done]. destruct Hl as [Hl ->].
        split; [|done]. apply Hheld in Hl as [Hl|[_ Hl]]; [done|]. by destruct (va_apart h 0 n va I Hn Hnew a x Hx).
    + intros [(a & x & Hx & Hl)|[-> ->]].
      * exists a, x. rewrite Ea, lookup_insert_ne by congruence. split; [done|]. destruct (a_large x); [|done]. destruct Hl as [Hl ->]. split; [|done]. apply Hheld. by left.
      * exists va, ar. rewrite Ea, lookup_insert_eq. split; [done|]. split; [|done]. apply Hheld. right. split; [done|]. by apply in_pages_first.
  - intros q Hq. rewrite Hlen in Hq. apply fill_in. unfold PG_SIZE. lia.
  - intros pf' c Hl _. split; [by apply (block_len_old h 0 n va I Hn Hnew h' ar pf')|]. intros q Hq. apply fill_out.
    by apply (live_outside h 0 n va p' pf I Hn Hp' Hnew Hheld pf' c).
Qed.

(** ** Giving back *)

(** [q] is a page of the arena at [a]. *)
Definition in_arena h (a q : Z) : Prop := exists ar, arenas h !! a = Some ar /\ in_pages a (span ar) q.

(** The arena of [b] gives up its pages exactly when no block of it is left. *)
Record returned h h' pf (b : Z) : Prop := {
  rt_ok : heap_ok h';
  rt_live pf' c : live h' pf' c <-> live h pf' c /\ ~ (pf' = pf /\ c = b);
  rt_kept : kept h h';
  rt_pages pf' q : held (pages h') pf' q <->
    held (pages h) pf' q /\ ~ (in_arena h (block2arena b) q /\ forall pf'' c, live h' pf'' c -> block2arena c <> block2arena b) }.

(** Every arena has a block that is handed out. *)
Lemma arena_used h a ar : heap_ok h -> arenas h !! a = Some ar -> exists pf c, live h pf c /\ block2arena c = a.
Proof.
  intros I Ha. pose proof (arena_addr h 0 a ar I Ha) as Hpg. pose proof Hpg as (_ & Hlo & _). pose proof (hk_arena _ _ I _ _ Ha) as Ho. unfold arena_ok in Ho.
  destruct (a_large ar) eqn:El.
  - destruct Ho as (_ & Hc & pf & Hp). exists pf, (a + 12). split; [|apply block2arena_ok; [done | unfold PG_SIZE; lia]].
    exists a, ar. rewrite El. split; [done|]. split; [by apply Hp, in_pages_first|done].
  - destruct Ho as (pf & i & Hd & Hi & Hh & Hcnt & _ & Hlt). specialize (Hlt ltac:(unfold PG_SIZE in *; lia)).
    destruct (decide (Forall (fun b => b ∈ free_of h pf i) (all_blocks_of a i (per_arena i)))) as [Hall|Hex].
    + enough (per_arena i <= a_cnt ar) by lia. rewrite Hcnt. destruct (kind_bounds i Hi) as (_ & Hper & _).
      assert (length (all_blocks_of a i (per_arena i)) <= length (filter (fun b => block2arena b = a) (free_of h pf i)))%nat as Hl.
      { apply NoDup_incl_length; [by apply NoDup_ListNoDup, all_blocks_NoDup|]. intros b Hb. apply list_elem_of_In in Hb.
        apply list_elem_of_In, list_elem_of_filter. rewrite Forall_forall in Hall. split; [|by apply Hall].
        by apply (all_blocks_page a i (per_arena i)). }
      unfold all_blocks_of in Hl. rewrite length_map, length_seqZ in Hl. lia.
    + apply not_Forall_Exists in Hex; [|apply _]. apply Exists_exists in Hex as (b & Hb & Hn). apply all_blocks_in in Hb.
      exists pf, b. split; [|by apply (block_in_page a i)]. exists a, ar. rewrite El. split; [done|]. by exists i.
Qed.

(** An arena with no block handed out goes, with its pages. *)
Section drop.
Variables (h h' : hp) (e a : Z) (ar : arena) (pf : pool_flags).
Hypothesis I : heap_inv e h.
Hypothesis Ha : arenas h !! a = Some ar.
Hypothesis He : e = a \/ e = 0.
Hypothesis Hp' : pages_ok (pages h').
Hypothesis Hheld : forall pf' q, held (pages h') pf' q <-> held (pages h) pf' q /\ ~ in_pages a (span ar) q.
Hypothesis Earenas : arenas h' = delete a (arenas h).
Hypothesis Hfree : forall pf' i, free_of h' pf' i = filter (fun b => block2arena b <> a) (free_of h pf' i).

Lemma drop_held pf' a' x q : arenas h !! a' = Some x -> a' <> a -> in_pages a' (span x) q -> held (pages h) pf' q -> held (pages h') pf' q.
Proof.
  intros Hx Hne Hq Hh. apply Hheld. split; [done|]. intros Hqa.
  destruct (arena_addr h e a' x I Hx) as [Hm' _]. destruct (arena_addr h e a ar I Ha) as [Hm _].
  destruct (runs_apart a' (span x) a (span ar) q) as [Hin|Hin]; try done.
  - destruct Hq as (j & Hj & ->). unfold PG_SIZE. lia.
  - destruct Hqa as (j & Hj & ->). unfold PG_SIZE. lia.
  - apply Hne. symmetry. by apply (hk_apart _ _ I a' x a ar).
  - apply Hne. by apply (hk_apart _ _ I a ar a' x).
Qed.

Lemma drop_inv : (forall pf', map (fun d => (block_size d, blocks_per_arena d)) (get_descs pf' h')
     = map (fun i => (size_of i, per_arena i)) (seqZ 0 7)) -> heap_ok h'.
Proof.
  intros Hds. split; try done.
  - intros a' x Hx. rewrite Earenas in Hx. apply lookup_delete_Some in Hx as [Hne Hx]. pose proof (hk_arena _ _ I _ _ Hx) as Ho.
    assert (forall pf' q, in_pages a' (span x) q -> held (pages h) pf' q -> held (pages h') pf' q) as Hh
      by (intros pf' q; apply (drop_held pf' a' x q); congruence).
    pose proof (arena_addr h e a' x I Hx) as (_ & Hlo & _). unfold arena_ok, span in *. destruct (a_large x).
    + destruct Ho as (? & ? & pf' & Hp). split; [done|]. split; [done|]. exists pf'. intros q Hq. apply Hh; [done|]. by apply Hp.
    + destruct Ho as (pf' & i & ? & ? & Hpa & Hc & ? & Hlt). exists pf', i. split; [done|]. split; [done|].
      split; [apply Hh; [by apply in_pages_one|done]|]. split; [|split; [done|]].
      * rewrite Hc, Hfree, list_filter_filter. do 2 f_equal. apply list_filter_iff. intros c. split; [intros ->; split; [done|congruence] | tauto].
      * intros _. apply Hlt. destruct He as [->| ->]; [congruence | unfold PG_SIZE in *; lia].
  - intros a1 x1 a2 x2 H1 H2. rewrite Earenas in H1, H2. apply lookup_delete_Some in H1 as [_ H1], H2 as [_ H2].
    by apply (hk_apart _ _ I a1 x1 a2 x2).
  - intros pf' i b Hb. rewrite Hfree in Hb. apply list_elem_of_filter in Hb as [Hba Hb].
    destruct (hk_free _ _ I _ _ _ Hb) as (a' & x & Hx & Hd & Hl & Hin). exists a', x. split; [|done]. rewrite Earenas.
    apply lookup_delete_Some. split; [|done]. intros <-. apply Hba. pose proof (hk_arena _ _ I _ _ Hx) as Ho. unfold arena_ok in Ho. rewrite Hl in Ho.
    destruct Ho as (? & ? & Hd' & Hi & _). rewrite Hd in Hd'. injection Hd' as <- <-. apply (block_in_page a i); [|done|done]. by apply (arena_addr h e a x).
  - intros pf' i. rewrite Hfree. apply NoDup_filter, (hk_nodup _ _ I).
Qed.

Lemma drop_live pf' c : live h' pf' c <-> live h pf' c /\ block2arena c <> a.
Proof.
  split.
  - intros (a' & x & Hx & Hl). rewrite Earenas in Hx. apply lookup_delete_Some in Hx as [Hne Hx].
    assert (live h pf' c) as Hlv.
    { exists a', x. split; [done|]. destruct (a_large x) eqn:El; [destruct Hl as [Hl ->]; split; [|done]; by apply Hheld in Hl as [? _]|].
      destruct Hl as (i & Hd & Hb & Hn). exists i. split; [done|]. split; [done|]. intros Hin. apply Hn. rewrite Hfree. apply list_elem_of_filter.
      split; [|done]. pose proof (hk_arena _ _ I _ _ Hx) as Ho. unfold arena_ok in Ho. rewrite El in Ho. destruct Ho as (? & ? & Hd' & Hi & _).
      rewrite Hd in Hd'. injection Hd' as <- <-. rewrite (block_in_page a' i c); [congruence| |done|done]. by apply (arena_addr h e a' x). }
    split; [done|]. pose proof (arena_addr h e a' x I Hx) as Hpg. pose proof (hk_arena _ _ I _ _ Hx) as Ho. unfold arena_ok in Ho.
    destruct (a_large x).
    + destruct Hl as [_ ->]. rewrite (block2arena_ok a'); [congruence | done | unfold PG_SIZE; lia].
    + destruct Hl as (i & Hd & Hb & _), Ho as (? & ? & Hd' & Hi & _). rewrite Hd in Hd'. injection Hd' as <- <-.
      rewrite (block_in_page a' i c); [congruence|done|done|done].
  - intros [Hl Hne]. destruct (live_at h e pf' c I Hl) as (x & Hx & Hc). exists (block2arena c), x. rewrite Earenas.
    split; [by apply lookup_delete_Some|]. destruct (a_large x).
    + destruct Hc as [Hh Hc]. split; [|done]. apply (drop_held pf' (block2arena c) x); [done | done | | done].
      apply in_pages_first. by apply (span_pos h e (block2arena c)).
    + destruct Hc as (i & Hd & Hb & Hn). exists i. split; [done|]. split; [done|]. rewrite Hfree. by intros [_ ?]%list_elem_of_filter.
Qed.

Lemma drop_len c : block2arena c <> a -> block_len h' c = block_len h c.
Proof. intros Hne. unfold block_len. by rewrite Earenas, lookup_delete_ne by congruence. Qed.

End drop.

Lemma free_large h pf b ar : heap_ok h -> live h pf b -> arenas h !! block2arena b = Some ar -> a_large ar = true ->
  exists h', sys_free h pf b = Ok h' /\ returned h h' pf b.
Proof.
  intros I Hl Ha Hlg. destruct (live_at h 0 pf b I Hl) as (x & Hx & Hb). assert (x = ar) as -> by congruence. rewrite Hlg in Hb.
  destruct Hb as [Hh Hb]. set (a := block2arena b) in *. pose proof (arena_addr h 0 a ar I Ha) as Hpg.
  pose proof (hk_arena _ _ I _ _ Ha) as Ho. unfold arena_ok in Ho. rewrite Hlg in Ho. destruct Ho as (Hd & Hc & pf0 & Hp).
  assert (pf0 = pf) as -> by (apply (held_one (pages h) pf0 pf a (hk_pages _ _ I)); [by apply Hp, in_pages_first | done]).
  destruct (held_page _ pf a (hk_pages _ _ I) Hh) as (_ & Hlo & _).
  assert (span ar = a_cnt ar) as Hs by (unfold span; by rewrite Hlg).
  destruct (mfree_held (pages h) pf a (a_cnt ar) (hk_pages _ _ I) Hc Hp) as (p' & E & Hp' & _ & Hheld0).
  assert (forall pf' q, held p' pf' q <-> held (pages h) pf' q /\ ~ in_pages a (span ar) q) as Hheld by (by rewrite Hs).
  unfold sys_free. replace (b =? 0) with false by (symmetry; apply Z.eqb_neq; destruct Hpg as (_ & ? & _); unfold PG_SIZE in *; lia).
  replace (match pf with PF_KERNEL => K_HEAP_START <=? b | PF_USER => true end) with true by (destruct pf; [symmetry; apply Z.leb_le; lia|done]).
  cbn [negb c_assert obind]. fold a. rewrite Ha, Hd, Hlg, E. cbn [obind]. eexists; split; [done|]. set (h' := with_arenas _ _).
  assert (forall pf' i, free_of h' pf' i = filter (fun b => block2arena b <> a) (free_of h pf' i)) as Hfree.
  { intros pf' i. change (free_of h' pf' i) with (free_of h pf' i). symmetry. apply filter_all, Forall_forall. intros c Hcf Hca.
    destruct (hk_free _ _ I _ _ _ Hcf) as (a' & y & Hy & Hdy & Hly & Hin). pose proof (hk_arena _ _ I _ _ Hy) as Ho. unfold arena_ok in Ho.
    rewrite Hly in Ho. destruct Ho as (? & ? & Hdy' & Hi & _). rewrite Hdy in Hdy'. injection Hdy' as <- <-.
    rewrite (block_in_page a' i c) in Hca; [congruence | by apply (arena_addr h 0 a' y) | done | done]. }
  pose proof (drop_live h h' 0 a ar I Ha Hheld eq_refl Hfree) as Hlive.
  split.
  - by apply (drop_inv h h' 0 a ar I Ha (or_intror eq_refl) Hp' Hheld eq_refl Hfree (hk_descs _ _ I)).
  - intros pf' c. rewrite Hlive. split; intros [Hlc Hne]; (split; [done|]).
    + by intros [_ ->].
    + intros Hca. apply Hne. destruct (live_at h 0 pf' c I Hlc) as (y & Hy & Hcl). rewrite Hca in *. assert (y = ar) as -> by congruence.
      rewrite Hlg in Hcl. destruct Hcl as [Hh' ->]. split; [by apply (held_one (pages h) pf' pf a (hk_pages _ _ I)) | by rewrite Hb].
  - intros pf' c _ Hc'. apply Hlive in Hc' as [_ Hne]. split; [by apply (drop_len h h' a)|]. done.
  - intros pf' q. change (pages h') with p'. rewrite Hheld. fold a. apply and_iff_compat_l, not_iff_compat. split.
    + intros Hq. split; [by exists ar|]. intros pf'' c Hlc. by apply Hlive in Hlc as [_ ?].
    + intros [(x & Hx' & Hq) _]. assert (x = ar) as -> by congruence. done.
Qed.

(** A block put back on its free list. *)
Lemma put_block h pf b i ar : heap_ok h -> live h pf b -> arenas h !! block2arena b = Some ar -> a_large ar = false ->
  a_desc ar = Some (pf, i) -> exists h1, set_free pf i (free_of h pf i ++ [b]) h = Ok h1 /\
    let h2 := with_arenas (<[block2arena b := mk_arena (Some (pf, i)) (a_cnt ar + 1) false]> (arenas h1)) h1 in
    heap_inv (block2arena b) h2
    /\ (forall pf' i', free_of h2 pf' i' = if decide (pf' = pf /\ i' = i) then free_of h pf i ++ [b] else free_of h pf' i') /\ 0 <= i < DESC_CNT
    /\ page_addr (block2arena b) /\ held (pages h2) pf (block2arena b)
    /\ a_cnt ar + 1 = zlen (filter (fun c => block2arena c = block2arena b) (free_of h2 pf i))
    /\ a_cnt ar + 1 <= per_arena i /\ (a_cnt ar + 1 < per_arena i -> heap_ok h2)
    /\ pages h1 = pages h /\ arenas h1 = arenas h
    /\ (forall pf' c, live h2 pf' c <-> live h pf' c /\ ~ (pf' = pf /\ c = b)) /\ kept h h2.
Proof.
  intros I Hlv Ha Hlg Hd. destruct (live_at h 0 pf b I Hlv) as (x & Hx & Hb). assert (x = ar) as -> by congruence. rewrite Hlg in Hb.
  destruct Hb as (i' & Hd' & Hb & Hnb). rewrite Hd in Hd'. injection Hd' as <-. set (a := block2arena b) in *.
  destruct (relink_kind h 0 a i b ar pf I Ha Hd Hlg Hb) as (Hi & Hpg & _ & Hh & Hcnt & Hle & Hlt).
  assert (a <> 0) as Ha0 by (destruct Hpg as (_ & ? & _); unfold PG_SIZE in *; lia). specialize (Hlt Ha0).
  set (l := free_of h pf i ++ [b]).
  destruct (set_free_ok h 0 pf i l I Hi) as (h1 & E1 & Epg & Ear & Ehm & Hds & Hfree). exists h1. split; [done|]. cbv zeta.
  assert (zlen (filter (fun c => block2arena c = a) l) = a_cnt ar + 1) as Hzl.
  { unfold l. rewrite filter_app, filter_cons_True, filter_nil, length_app by done. cbn [length]. lia. }
  rewrite Ear, <- Hzl. set (h2 := with_arenas _ h1).
  assert (arenas h2 = <[a := mk_arena (Some (pf, i)) (zlen (filter (fun b => block2arena b = a) l)) false]> (arenas h)) as Ea by done.
  assert (forall c, c <> b -> c ∈ l <-> c ∈ free_of h pf i) as Hl by (intros c Hc; unfold l; rewrite elem_of_app, list_elem_of_singleton; tauto).
  assert (forall pf' i', free_of h2 pf' i' = if decide (pf' = pf /\ i' = i) then l else free_of h pf' i') as Hf2 by exact Hfree.
  assert (forall e', (a <> e' -> a_cnt ar + 1 < per_arena i) -> heap_inv e' h2) as Hinv.
  { intros e' Hlt'. apply (relink_inv h h2 0 e' a i b ar pf l I Ha Hd Hlg Hb Epg Ea Hfree Hl); [ | lia | lia | | |done].
    - apply NoDup_app. split; [apply (hk_nodup _ _ I)|]. split; [|apply NoDup_singleton]. intros c Hc ->%list_elem_of_singleton. done.
    - intros a' Hne. apply filter_snoc_False. intros E. by apply Hne.
    - intros a' Hne Hpos _. unfold PG_SIZE in *. lia. }
  split; [by apply Hinv|]. split; [done|]. split; [done|]. split; [done|]. split; [by rewrite <- Epg in Hh|].
  split; [by rewrite Hf2, decide_True|]. split; [lia|]. split; [intros Hs; apply Hinv; lia|]. split; [done|]. split; [done|].
  pose proof (relink_live h h2 a i b ar pf l Ha Hd Hlg Epg Ea Hfree Hl) as Hlive.
  pose proof (relink_live_b h h2 0 a i b ar pf l I Ha Hd Hlg Hb Ea Hfree Hl) as Hlive_b. split.
  - intros pf' c. destruct (decide (pf' = pf /\ c = b)) as [[-> ->]|Hne]; [|rewrite Hlive by done; tauto].
    rewrite Hlive_b. unfold l. rewrite elem_of_app, list_elem_of_singleton.
    split; [intros Hn; exfalso; apply Hn; by right | intros [_ Hn]; exfalso; by apply Hn].
  - intros pf' c Hc _. destruct (live_at h 0 pf' c I Hc) as (y & Hy & _). split; [|intros q _; change (hmem h2) with (hmem h1); by rewrite Ehm].
    apply (relink_len h h2 a i ar pf l Ha Hd Hlg Ea). by exists y.
Qed.

(** The free blocks of an arena whose count is full are all its blocks. *)
Lemma all_free h e pf a i l : heap_inv e h -> page_addr a -> 0 <= i < DESC_CNT -> free_of h pf i = l ->
  (exists ar, arenas h !! a = Some ar /\ a_desc ar = Some (pf, i) /\ a_large ar = false) ->
  zlen (filter (fun c => block2arena c = a) l) = per_arena i ->
  (forall j, 0 <= j < per_arena i -> block_at a i j ∈ l)
  /\ filter (fun c => c ∉ all_blocks_of a i (per_arena i)) l = filter (fun c => block2arena c <> a) l.
Proof.
  intros I Hpg Hi Hf (ar & Ha & Hd & Hlg) Hcnt.
  assert (forall c, c ∈ l -> block2arena c = a -> block_in a i c) as Hin.
  { intros c Hc Hca. rewrite <- Hf in Hc. destruct (hk_free _ _ I _ _ _ Hc) as (a' & y & Hy & Hdy & Hly & Hin).
    rewrite (block_in_page a' i c) in Hca; [by subst a' | by apply (arena_addr h e a' y) | done | done]. }
  destruct (kind_bounds i Hi) as (_ & Hper & _). split.
  - intros j Hj. assert (block_at a i j ∈ filter (fun c => block2arena c = a) l) as Hm; [|by apply list_elem_of_filter in Hm as [_ ?]].
    apply list_elem_of_In. apply (NoDup_length_incl (l := filter (fun c => block2arena c = a) l) (l' := all_blocks_of a i (per_arena i))).
    + apply NoDup_ListNoDup, NoDup_filter. rewrite <- Hf. apply (hk_nodup _ _ I).
    + unfold all_blocks_of. rewrite length_map, length_seqZ. lia.
    + intros c Hc. apply list_elem_of_In, list_elem_of_filter in Hc as [Hca Hc]. apply list_elem_of_In, all_blocks_in. by apply Hin.
    + apply list_elem_of_In, all_blocks_in. by exists j.
  - apply filter_ext_in. intros c Hc. rewrite all_blocks_in. split; [intros Hn Hca; by apply Hn, Hin|].
    intros Hca Hex. apply Hca. by apply (block_in_page a i).
Qed.

Lemma free_small h pf b ar : heap_ok h -> live h pf b -> arenas h !! block2arena b = Some ar -> a_large ar = false ->
  exists h', sys_free h pf b = Ok h' /\ returned h h' pf b.
Proof.
  intros I Hlv Ha Hlg. destruct (live_at h 0 pf b I Hlv) as (x & Hx & Hb). assert (x = ar) as -> by congruence. rewrite Hlg in Hb.
  destruct Hb as (i & Hd & Hb & _).
  destruct (put_block h pf b i ar I Hlv Ha Hlg Hd) as (h1 & E1 & I2 & Hf2' & Hi & Hpg & Hh2 & Hcnt & Hle & Hok & Epg & Ear & Hlive & Hkept).
  assert (forall h2, free_of h2 pf i = (if decide (pf = pf /\ i = i) then free_of h pf i ++ [b] else free_of h pf i) ->
    free_of h2 pf i = free_of h pf i ++ [b]) as Hself by (intros h2 ->; by rewrite decide_True).
  set (a := block2arena b) in *. set (h2 := with_arenas _ h1) in *. pose proof (Hself h2 (Hf2' pf i)) as Hf2. clear Hself. destruct (kind_bounds i Hi) as (Hsz & Hper & _).
  assert (held (pages h) pf a) as Hh by (by rewrite <- Epg).
  destruct (held_page _ pf a (hk_pages _ _ I) Hh) as (_ & Hlo & _). destruct (block_in_range a i b Hi Hb) as [Hblo _].
  unfold sys_free. replace (b =? 0) with false by (symmetry; apply Z.eqb_neq; destruct Hpg as (_ & ? & _); unfold PG_SIZE in *; lia).
  replace (match pf with PF_KERNEL => K_HEAP_START <=? b | PF_USER => true end) with true by (destruct pf; [symmetry; apply Z.leb_le; lia|done]).
  cbn [negb c_assert obind]. fold a. rewrite Ha, Hd. destruct (desc_ok h 0 pf i I Hi) as (d & Ed & Hbs & Hbp & Hfd & _). rewrite Ed. cbn [obind].
  rewrite Hbs, Hbp, Hfd, Hlg. assert (0 <= a_cnt ar) as Hc0.
  { pose proof (hk_arena _ _ I _ _ Ha) as Ho. unfold arena_ok in Ho. rewrite Hlg in Ho. destruct Ho as (? & ? & _ & _ & _ & -> & _). lia. }
  rewrite u32_small by lia. destruct (Z.eqb_spec (a_cnt ar + 1) (per_arena i)) as [Hfull|Hnf].
  2: { rewrite E1. cbn [obind]. exists h2. split; [done|]. split; [apply Hok; lia | done | done |].
       intros pf' q. change (pages h2) with (pages h1). rewrite Epg. split; [|by intros [? _]]. intros Hq. split; [done|]. intros [_ Hno].
       destruct (arena_used h2 a (mk_arena (Some (pf, i)) (a_cnt ar + 1) false)) as (pf'' & c & Hlc & Hca); [apply Hok; lia | apply lookup_insert_eq |].
       by apply (Hno pf'' c). }
  destruct (all_free h2 a pf a i (free_of h pf i ++ [b]) I2 Hpg Hi Hf2) as [Hall Hfilt].
  { eexists. split; [apply lookup_insert_eq|]. done. }
  { rewrite <- Hf2. lia. }
  rewrite unsplit_arena_ok by (done || lia). cbn [obind]. rewrite Z2Nat.id by lia. fold (all_blocks_of a i (per_arena i)). rewrite Hfilt.
  destruct (set_free_ok h 0 pf i (filter (fun c => block2arena c <> a) (free_of h pf i ++ [b])) I Hi) as (h3 & E3 & Epg3 & Ear3 & Ehm3 & Hds3 & Hfree3).
  rewrite E3. cbn [obind]. rewrite Epg3.
  destruct (mfree_held (pages h) pf a 1 (hk_pages _ _ I) ltac:(lia)) as (p' & E & Hp' & _ & Hheld); [intros q ->%in_pages_one; done|].
  rewrite E. cbn [obind]. rewrite Ear3. eexists; split; [done|]. set (h' := with_arenas _ _).
  set (ar2 := mk_arena (Some (pf, i)) (a_cnt ar + 1) false) in *.
  assert (arenas h2 !! a = Some ar2) as Ha2 by apply lookup_insert_eq.
  assert (arenas h' = delete a (arenas h2)) as Earenas.
  { change (arenas h') with (delete a (arenas h)). change (arenas h2) with (<[a := ar2]> (arenas h1)). rewrite Ear. by rewrite delete_insert_eq. }
  assert (forall pf' q, held (pages h') pf' q <-> held (pages h2) pf' q /\ ~ in_pages a (span ar2) q) as Hheld2.
  { intros pf' q. change (pages h2) with (pages h1). rewrite Epg. exact (Hheld pf' q). }
  assert (forall pf' i', free_of h' pf' i' = filter (fun b => block2arena b <> a) (free_of h2 pf' i')) as Hfree.
  { intros pf' i'. transitivity (free_of h3 pf' i'); [by destruct pf'|]. rewrite Hfree3, Hf2'.
    destruct (decide (pf' = pf /\ i' = i)) as [|Hne]; [done|]. symmetry. apply filter_all, Forall_forall. intros c Hc Hca. apply Hne.
    destruct (hk_free _ _ I _ _ _ Hc) as (a' & y & Hy & Hdy & Hly & Hin). pose proof (hk_arena _ _ I _ _ Hy) as Ho. unfold arena_ok in Ho.
    rewrite Hly in Ho. destruct Ho as (? & ? & Hdy' & Hi' & _). rewrite Hdy in Hdy'. injection Hdy' as <- <-.
    rewrite (block_in_page a' i' c) in Hca by (done || by apply (arena_addr h 0 a' y)). subst a'. assert (y = ar) as -> by congruence.
    rewrite Hd in Hdy. by injection Hdy as -> ->. }
  pose proof (drop_live h2 h' a a ar2 I2 Ha2 Hheld2 Earenas Hfree) as Hlive'.
  split.
  - apply (drop_inv h2 h' a a ar2 I2 Ha2 (or_introl eq_refl) Hp' Hheld2 Earenas Hfree). exact Hds3.
  - intros pf' c. rewrite Hlive', Hlive. split; [tauto|]. intros Hc. split; [done|]. intros Hca.
    apply Hlive in Hc. destruct (live_at h2 a pf' c I2 Hc) as (y & Hy & Hcl). rewrite Hca in *. assert (y = ar2) as -> by congruence.
    destruct Hcl as (i' & [= -> ->] & (k & Hk & ->) & Hn). apply Hn. rewrite Hf2. by apply Hall.
  - intros pf' c Hc Hc'. apply Hlive' in Hc' as [Hc2 Hne]. destruct (Hkept pf' c Hc Hc2) as [L M]. rewrite (drop_len h2 h' a Earenas c Hne).
    split; [done|]. intros q Hq. change (hmem h') with (hmem h3). rewrite Ehm3. done.
  - intros pf' q. change (pages h') with p'. rewrite Hheld. fold a. apply and_iff_compat_l, not_iff_compat.
    assert (span ar = 1) as Hs by (unfold span; by rewrite Hlg). split.
    + intros Hq. split; [exists ar; by rewrite Hs|]. intros pf'' c Hlc. by apply Hlive' in Hlc as [_ ?].
    + intros [(x & Hx' & Hq) _]. assert (x = ar) as -> by congruence. by rewrite Hs in Hq.
Qed.

Lemma heap_init p m : pages_ok p -> heap_ok (mk_heap P p block_desc_init block_desc_init ∅ m).
Proof.
  intros Hp. assert (forall pf i, free_of (mk_heap P p block_desc_init block_desc_init ∅ m) pf i = []) as Hf.
  { intros pf i. unfold free_of. replace (get_descs pf _) with block_desc_init by (by destruct pf). unfold znth. destruct (i <? 0); [done|].
    destruct (Z.to_nat i) as [|[|[|[|[|[|[|[|]]]]]]]]; reflexivity. }
  split; [done | by intros [] | | | intros pf i b; rewrite Hf; by intros ?%elem_of_nil | intros; rewrite Hf; constructor].
  - intros a ar Ha. cbn in Ha; by rewrite lookup_empty in Ha.
  - intros a ar a' ar' Ha. cbn in Ha; by rewrite lookup_empty in Ha.
Qed.

(** When nothing is handed out there is no arena. *)
Lemma heap_empty h : heap_ok h -> (forall pf c, ~ live h pf c) -> arenas h = ∅.
Proof.
  intros I Hno. apply map_empty. intros a. destruct (arenas h !! a) as [ar|] eqn:Ha; [|done].
  destruct (arena_used h a ar I Ha) as (pf & c & Hl & _). by destruct (Hno pf c).
Qed.

(** ** Properties *)

(** C20. [sys_malloc] hands out a block that was not handed out, at least as long
    as asked for, all zeros, and apart from every other block, whose bytes stay
    as they are; the heap stays well-formed. A size of 0, or one that is not
    below the size of the pool, gives NULL and changes nothing. *)
Theorem sys_malloc_spec h pf size : heap_ok h ->
  (0 < size < pg_pool_size (pages h) pf -> granted h pf size ->
     exists h' b, sys_malloc h pf size = Ok (h', Some b) /\ heap_ok h' /\ size <= block_len h' b
       /\ (forall pf', ~ live h pf' b)
       /\ (forall pf' c, live h' pf' c <-> live h pf' c \/ (pf' = pf /\ c = b))
       /\ (forall q, b <= q < b + block_len h' b -> hmem h' q = 0)
       /\ (forall pf' c, live h pf' c -> block_len h' c = block_len h c
            /\ (c + block_len h c <= b \/ b + block_len h' b <= c)
            /\ forall q, c <= q < c + block_len h c -> hmem h' q = hmem h q))
  /\ (~ (0 < size < pg_pool_size (pages h) pf) -> sys_malloc h pf size = Ok (h, None)).
Proof.
  intros I. split.
  - intros Hs Hg. assert (exists h' b, sys_malloc h pf size = Ok (h', Some b) /\ given h h' pf b /\ size <= block_len h' b)
      as (h' & b & E & [I' Hn Hl Hz Hk] & Hlen).
    { destruct (Z.le_gt_cases size 1024); [by apply malloc_small | apply malloc_large; [done|lia|done]]. }
    exists h', b. split; [done|]. split; [done|]. split; [done|]. split; [done|]. split; [done|]. split; [done|].
    intros pf' c Hc. assert (live h' pf' c) as Hc' by (apply Hl; by left). destruct (Hk pf' c Hc Hc') as [L Hmem]. split; [done|]. split; [|done].
    rewrite <- L. destruct (live_range h' 0 pf' c I' Hc') as (_ & _ & _ & _ & _ & _ & Hp & _).
    assert (live h' pf b) as Hb by (apply Hl; by right). destruct (live_range h' 0 pf b I' Hb) as (_ & _ & _ & _ & _ & _ & Hpb & _).
    destruct (Z.le_gt_cases (c + block_len h' c) b) as [|H1]; [by left|]. destruct (Z.le_gt_cases (b + block_len h' b) c) as [|H2]; [by right|].
    exfalso. apply (live_disjoint h' 0 pf' pf c b (Z.max c b) I' Hc' Hb); [intros ->; by apply (Hn pf') | lia | lia].
  - intros Hs. unfold sys_malloc. replace ((0 <? size) && (size <? pg_pool_size (pages h) pf)) with false; [done|].
    symmetry. apply andb_false_iff. rewrite !Z.ltb_ge. lia.
Qed.

(** C21. [sys_free] of a block that is handed out never stops at an assertion: the
    block is free again, every other block is still handed out with its bytes, and
    the heap stays well-formed. With the last block of its arena (always, for a large
    one) exactly the pages of that arena go back to the page allocator; otherwise no
    page does, and none is ever taken. When nothing is handed out there is no arena. *)
Theorem sys_free_spec h pf b : heap_ok h -> live h pf b ->
  exists h', sys_free h pf b = Ok h' /\ heap_ok h'
    /\ (forall pf' c, live h' pf' c <-> live h pf' c /\ ~ (pf' = pf /\ c = b))
    /\ (forall pf' c, live h' pf' c -> block_len h' c = block_len h c
          /\ forall q, c <= q < c + block_len h c -> hmem h' q = hmem h q)
    /\ (forall pf' q, held (pages h') pf' q <-> held (pages h) pf' q
          /\ ~ (in_arena h (block2arena b) q /\ forall pf'' c, live h' pf'' c -> block2arena c <> block2arena b))
    /\ ((forall pf' c, ~ live h' pf' c) -> arenas h' = ∅).
Proof.
  intros I Hl. destruct (live_at h 0 pf b I Hl) as (ar & Ha & _).
  assert (exists h', sys_free h pf b = Ok h' /\ returned h h' pf b) as (h' & E & [I' Hlive Hk Hp]).
  { destruct (a_large ar) eqn:El; [by apply (free_large h pf b ar) | by apply (free_small h pf b ar)]. }
  exists h'. split; [done|]. split; [done|]. split; [done|]. split; [|split; [exact Hp | by apply heap_empty]].
  intros pf' c Hc. apply (Hk pf' c); [by apply Hlive in Hc as [? _]|done].
Qed.

End lemmas.
