(* ===== verification/Pagealloc.v ===== *)
(** The page allocator of Paging.v does what the heap of Heap.v asks of it: an
    instance of [PageAlloc] and its laws. *)
From S2P Require Import Prelude Bitmap Paging Heap.

(** Page [q] of the address pool [pf] is in use, with frame [f]. *)
Definition page_frame (m : vm) (pf : pool_flags) (q f : Z) : Prop :=
  exists j, 0 <= j < nbits (vaddr_bitmap (get_vaddr pf m)) /\ q = vaddr_start (get_vaddr pf m) + j * PG_SIZE
    /\ bit (vaddr_bitmap (get_vaddr pf m)) j = true /\ mmu m q = Some f.

Definition vaddr_end (v : virtual_addr) : Z := vaddr_start v + nbits (vaddr_bitmap v) * PG_SIZE.

(** Pages in use have distinct frames of their pool, none of them a page table;
    user addresses lie below kernel addresses. *)
Record vm_pages_ok (m : vm) : Prop := {
  vp_ok : vm_ok m;
  vp_vaddr pf : vaddr_ok m pf;
  vp_low : 0x102000 <= phy_addr_start (kernel_pool m);
  vp_size pf : 0 <= pool_size (get_pool pf m) < 2 ^ 32 - 2 * PG_SIZE;
  vp_heap : K_HEAP_START <= vaddr_start (kernel_vaddr m);
  vp_user : vaddr_end (userprog_vaddr m) <= vaddr_start (kernel_vaddr m);
  vp_frame pf q f : page_frame m pf q f -> frame_used (get_pool pf m) f /\ ~ is_table m f /\ f <> cr3 m;
  vp_one pf pf' q q' f : page_frame m pf q f -> page_frame m pf' q' f -> q = q' }.

(** [malloc_page] will be granted [n] pages: a run of addresses inside the pool,
    and frames for the pages and the page tables they may need. *)
Definition vm_room (m : vm) (pf : pool_flags) (n : Z) : bool :=
  match bitmap_scan (vaddr_bitmap (get_vaddr pf m)) n with
  | Ok r =>
      (0 <? n) && (n <? 3840) && (0 <=? r) && (r + n <=? nbits (vaddr_bitmap (get_vaddr pf m)))
      && forallb (fun j => negb (bit (vaddr_bitmap (get_vaddr pf m)) j)) (seqZ r n)
      && match pf with
         | PF_KERNEL => bool_decide (2 * Z.to_nat n <= free_pages (kernel_pool m))%nat
         | PF_USER => bool_decide (Z.to_nat n <= free_pages (user_pool m))%nat
                      && bool_decide (Z.to_nat n <= free_pages (kernel_pool m))%nat
                      && (vaddr_start (get_vaddr pf m) + r * PG_SIZE <? 0xc0000000 - PG_SIZE)
         end
  | Err _ => false
  end.

#[export] Instance page_frame_dec m pf q : Decision (exists f, page_frame m pf q f).
Proof.
  set (j := (q - vaddr_start (get_vaddr pf m)) / PG_SIZE).
  destruct (decide (0 <= j < nbits (vaddr_bitmap (get_vaddr pf m)) /\ q = vaddr_start (get_vaddr pf m) + j * PG_SIZE
    /\ bit (vaddr_bitmap (get_vaddr pf m)) j = true /\ is_Some (mmu m q))) as [Hj|Hj].
  - left. destruct Hj as (? & ? & ? & [f Hf]). by exists f, j.
  - right. intros [f (k & Hk & Eq & Hb & Hf)]. assert (j = k) as Ej.
    { unfold j. rewrite Eq. replace (_ + k * PG_SIZE - _) with (k * PG_SIZE) by lia. by apply Z.div_mul. }
    apply Hj. rewrite Ej. split; [done|]. split; [done|]. split; [done|]. by exists f.
Defined.

(** How many bits of an address pool are clear. *)
Definition free_bits (b : bitmap) : nat := length (filter (fun i => bit b i = false) (seqZ 0 (nbits b))).

(** Addresses in both pools and frames for [n] pages, one at a time; no user address
    is one that [vaddr_get] refuses. *)
Definition vm_spare (m : vm) (n : nat) : Prop :=
  (forall pf, (n <= free_bits (vaddr_bitmap (get_vaddr pf m)))%nat)
  /\ (2 * n <= free_pages (kernel_pool m))%nat /\ (n <= free_pages (user_pool m))%nat
  /\ vaddr_end (userprog_vaddr m) <= 0xc0000000 - PG_SIZE
  /\ forall pf, 1024 < pool_size (get_pool pf m).

#[export] Instance vm_page_alloc : PageAlloc vm := {
  pg_malloc := malloc_page;
  pg_mfree := mfree_page;
  pg_pool_size m pf := pool_size (get_pool pf m);
  pages_ok := vm_pages_ok;
  held m pf q := exists f, page_frame m pf q f;
  held_dec m pf q := page_frame_dec m pf q;
  room := vm_room;
  spare := vm_spare }.

(** ** Lemmas *)

Lemma frame_used_sub p p' f : pool_sub p' p -> frame_used p f -> frame_used p' f.
Proof.
  intros [Hs Hb _ Hf] (i & Hi & -> & Hbit). exists i. rewrite Hs, Hb. split; [done|]. split; [done|].
  destruct (bit (pool_bitmap p') i) eqn:E; [done|]. destruct (Hf (phy_addr_start p + i * PG_SIZE)) as (j & Hj & Ej & Hbj).
  - exists i. by rewrite Hs, Hb.
  - unfold PG_SIZE in *. assert (j = i) as -> by lia. congruence.
Qed.

Lemma used_not_free p f : frame_used p f -> ~ frame_free p f.
Proof. intros (i & Hi & -> & Hb) (j & Hj & Ej & Hbj). unfold PG_SIZE in *. assert (j = i) as -> by lia. congruence. Qed.

Lemma used_not_free_any m pf pf' f : vm_ok m -> frame_used (get_pool pf m) f -> ~ frame_free (get_pool pf' m) f.
Proof.
  intros Hm Hu Hf. destruct (decide (pf = pf')) as [->|Hne]; [by apply (used_not_free _ _ Hu)|].
  pose proof (vo_order m Hm). pose proof (vo_kpool m Hm) as [Hk _ _]. pose proof (vo_upool m Hm) as [Hku _ _].
  destruct Hu as (i & Hi & -> & _), Hf as (j & Hj & Ej & _). unfold PG_SIZE in *. destruct pf, pf'; cbn in *; try done; nia.
Qed.

Lemma vaddr_range m pf : vm_pages_ok m -> vaddr_start (get_vaddr pf m) mod PG_SIZE = 0
  /\ 2 ^ 22 <= vaddr_start (get_vaddr pf m) /\ vaddr_end (get_vaddr pf m) <= 0xffc00000 /\ 0 <= nbits (vaddr_bitmap (get_vaddr pf m)).
Proof.
  intros M. destruct (vp_vaddr m M pf) as [Hwf (Hm & Hlo & Hhi) _]. split; [done|]. split; [done|].
  pose proof (wf_len _ _ Hwf). unfold vaddr_end, nbits, PG_SIZE in *. lia.
Qed.

Lemma page_frame_addr m pf q f : vm_pages_ok m -> page_frame m pf q f ->
  q mod PG_SIZE = 0 /\ vaddr_start (get_vaddr pf m) <= q /\ q + PG_SIZE <= vaddr_end (get_vaddr pf m) /\ mappable q.
Proof.
  intros M (j & Hj & -> & _). destruct (vaddr_range m pf M) as (Hm & Hlo & Hhi & _). unfold vaddr_end, mappable, PG_SIZE in *.
  split; [|lia]. by rewrite Z.mod_add.
Qed.

Lemma page_frame_pool m pf pf' q f f' : vm_pages_ok m -> page_frame m pf q f -> page_frame m pf' q f' -> pf = pf'.
Proof.
  intros M Hf Hf'. destruct (page_frame_addr m pf q f M Hf) as (_ & ? & ? & _), (page_frame_addr m pf' q f' M Hf') as (_ & ? & ? & _).
  pose proof (vp_user m M). unfold PG_SIZE in *. destruct pf, pf'; cbn in *; try done; lia.
Qed.

Lemma room_pre m pf n : vm_pages_ok m -> vm_room m pf n = true -> exists r, alloc_pre m pf n r.
Proof.
  intros M. unfold vm_room. destruct (bitmap_scan _ n) as [r|] eqn:Es; [|done]. intros Hr.
  apply andb_true_iff in Hr as [Hr Hfr]. apply andb_true_iff in Hr as [Hr Hrun]. zb. exists r.
  constructor; try done; try lia; [apply M | apply M | | |].
  - intros j Hj. rewrite forallb_forall in Hrun. specialize (Hrun j). apply negb_true_iff, Hrun, list_elem_of_In, elem_of_seqZ. lia.
  - destruct pf; cbn.
    + by apply bool_decide_eq_true in Hfr.
    + apply andb_true_iff in Hfr as [Hfr _]. apply andb_true_iff in Hfr as [Hfu Hfk]. by apply bool_decide_eq_true in Hfu, Hfk.
  - intros ->. apply andb_true_iff in Hfr as [_ Hfr]. by apply Z.ltb_lt in Hfr.
Qed.

(** ** Allocation *)

Section malloc.
Variables (m m1 : vm) (pf : pool_flags) (n r : Z) (b : bitmap) (fs : list Z).
Abbreviation va := (vaddr_start (get_vaddr pf m) + r * PG_SIZE).
Abbreviation mv := (with_vaddr pf (mk_vaddr b (vaddr_start (get_vaddr pf m))) m).
Hypothesis M : vm_pages_ok m.
Hypothesis Pre : alloc_pre m pf n r.
Hypothesis Hmp : mapped mv m1 pf va (Z.to_nat n) fs.
Hypothesis Hwf : bitmap_wf 1 b.
Hypothesis Hlen : btmp_bytes_len b = btmp_bytes_len (vaddr_bitmap (get_vaddr pf m)).
Hypothesis Hbits : forall j, bit b j = if (r <=? j) && (j <? r + n) then true else bit (vaddr_bitmap (get_vaddr pf m)) j.

Lemma malloc_vaddr pf' : get_vaddr pf' m1 = if decide (pf' = pf) then mk_vaddr b (vaddr_start (get_vaddr pf m)) else get_vaddr pf' m.
Proof. 
  destruct (mp_vaddr _ _ _ _ _ _ Hmp) as [Hk Hu].
  destruct (decide (pf' = pf)) as [->|Hne]; [destruct pf; cbn in *; by rewrite ?Hk, ?Hu | destruct pf, pf'; cbn in *; by rewrite ?Hk, ?Hu].
Qed.

Lemma malloc_start pf' : vaddr_start (get_vaddr pf' m1) = vaddr_start (get_vaddr pf' m)
  /\ nbits (vaddr_bitmap (get_vaddr pf' m1)) = nbits (vaddr_bitmap (get_vaddr pf' m)).
Proof. rewrite malloc_vaddr. destruct (decide (pf' = pf)) as [->|]; [|done]. unfold nbits. cbn. by rewrite Hlen. Qed.

(** The new pages are of addresses that were free. *)
Lemma va_pages i : 0 <= i < n -> exists j, j = r + i /\ va + i * PG_SIZE = vaddr_start (get_vaddr pf m) + j * PG_SIZE
  /\ 0 <= j < nbits (vaddr_bitmap (get_vaddr pf m)) /\ bit (vaddr_bitmap (get_vaddr pf m)) j = false.
Proof.
  intros Hi. destruct Pre as [_ _ Hn _ Hr Hend Hrun _ _]. exists (r + i). split; [done|]. split; [lia|]. split; [lia|]. apply Hrun. lia.
Qed.

Lemma in_va q : q mod PG_SIZE = 0 -> ~ in_pages va n q -> ~ (page_of va <= page_of q < page_of va + Z.of_nat (Z.to_nat n)).
Proof.
  intros Hq Hn Hp. pose proof (ap_n _ _ _ _ Pre). destruct (vaddr_range m pf M) as (Hm & _). apply Hn. exists (page_of q - page_of va). split; [lia|].
  pose proof (add_page_mod (vaddr_start (get_vaddr pf m)) r Hm) as Hvm. unfold page_of, PG_SIZE in *. change 4096 with (2 ^ 12) in *.
  pose proof (Z.div_mod q (2 ^ 12) ltac:(lia)). pose proof (Z.div_mod (vaddr_start (get_vaddr pf m) + r * 2 ^ 12) (2 ^ 12) ltac:(lia)). lia.
Qed.

Lemma malloc_other q : mappable q -> q mod PG_SIZE = 0 -> ~ in_pages va n q -> mmu m1 q = mmu m q.
Proof. intros Hq Hm Hn. rewrite (mp_other _ _ _ _ _ _ Hmp q Hq) by (by apply in_va). by destruct pf. Qed.

Lemma new_frame i f : fs !! i = Some f -> page_frame m1 pf (va + Z.of_nat i * PG_SIZE) f.
Proof.
  intros Hf. pose proof (lookup_lt_Some _ _ _ Hf) as Hlt. rewrite (mp_len _ _ _ _ _ _ Hmp) in Hlt.
  destruct (va_pages (Z.of_nat i) ltac:(lia)) as (j & -> & Ej & Hj & _). exists (r + Z.of_nat i). destruct (malloc_start pf) as [-> ->].
  split; [done|]. split; [done|]. split; [|by apply (mp_map _ _ _ _ _ _ Hmp)].
  rewrite malloc_vaddr, decide_True by done. cbn. rewrite Hbits. by zdec.
Qed.

(** The pages in use afterwards are those before and the new ones. *)
Lemma malloc_frames pf' q f : page_frame m1 pf' q f <-> page_frame m pf' q f
  \/ (pf' = pf /\ exists i, fs !! i = Some f /\ q = va + Z.of_nat i * PG_SIZE).
Proof.
  split.
  - intros (j & Hj & Eq & Hb & Hmmu). destruct (malloc_start pf') as [Es En]. rewrite Es, ?En in *.
    destruct (vaddr_range m pf' M) as (Hm & Hlo & Hhi & _).
    assert (mappable q /\ q mod PG_SIZE = 0) as [Hmap Hmod].
    { subst q. unfold vaddr_end, mappable, PG_SIZE in *. split; [lia|]. by rewrite Z.mod_add. }
    destruct (decide (pf' = pf /\ r <= j < r + n)) as [[-> Hin]|Hout].
    + right. split; [done|]. exists (Z.to_nat (j - r)).
      destruct (lookup_lt_is_Some_2 fs (Z.to_nat (j - r))) as [g Hg]; [rewrite (mp_len _ _ _ _ _ _ Hmp); lia|].
      assert (q = va + Z.of_nat (Z.to_nat (j - r)) * PG_SIZE) as Eq' by (rewrite Z2Nat.id by lia; lia).
      split; [|done]. rewrite Hg. pose proof (mp_map _ _ _ _ _ _ Hmp _ _ Hg) as Hg'. rewrite <- Eq' in Hg'. congruence.
    + left. exists j. split; [done|]. split; [done|]. split.
      * rewrite malloc_vaddr in Hb. destruct (decide (pf' = pf)) as [->|]; [|done]. cbn in Hb. rewrite Hbits in Hb.
        destruct ((r <=? j) && (j <? r + n))%bool eqn:E; [|done]. zb. exfalso. apply Hout. split; [done|lia].
      * rewrite <- Hmmu. symmetry. apply malloc_other; [done|done|]. intros (i & Hi & Ei). apply Hout.
        destruct (va_pages i Hi) as (j' & -> & Ej & Hj' & _). destruct (decide (pf' = pf)) as [->|Hne].
        -- split; [done|]. unfold PG_SIZE in *. lia.
        -- exfalso. pose proof (vp_user m M). unfold vaddr_end, PG_SIZE in *. destruct pf, pf'; cbn in *; try done; lia.
  - intros [Hf|(-> & i & Hf & ->)]; [|by apply new_frame].
    destruct (page_frame_addr m pf' q f M Hf) as (Hmod & _ & _ & Hmap). destruct Hf as (j & Hj & Eq & Hb & Hmmu).
    exists j. destruct (malloc_start pf') as [-> ->]. split; [done|]. split; [done|].
    assert (~ (pf' = pf /\ r <= j < r + n)) as Hout.
    { intros [-> Hin]. destruct (va_pages (j - r) ltac:(lia)) as (j' & Ej' & _ & _ & Hf). replace j' with j in Hf by lia. congruence. }
    split.
    + rewrite malloc_vaddr. destruct (decide (pf' = pf)) as [->|]; [|done]. cbn. rewrite Hbits.
      destruct ((r <=? j) && (j <? r + n))%bool; done.
    + rewrite malloc_other; [done|done|done|]. intros (i & Hi & Ei). apply Hout. destruct (va_pages i Hi) as (j' & -> & Ej & Hj' & _).
      destruct (decide (pf' = pf)) as [->|Hne]; [split; [done|]; unfold PG_SIZE in *; lia|].
      exfalso. pose proof (vp_user m M). unfold vaddr_end, PG_SIZE in *. destruct pf, pf'; cbn in *; try done; lia.
Qed.

Lemma malloc_pool_sub pf' : pool_sub (get_pool pf' m1) (get_pool pf' m).
Proof.
  assert (kernel_pool mv = kernel_pool m /\ user_pool mv = user_pool m) as [Ek Eu] by (by destruct pf).
  destruct pf'; cbn; [rewrite <- Ek; apply (mp_kpool _ _ _ _ _ _ Hmp) | rewrite <- Eu; apply (mp_upool _ _ _ _ _ _ Hmp)].
Qed.

Lemma malloc_pages_ok : vm_pages_ok m1.
Proof.
  assert (get_pool pf mv = get_pool pf m /\ cr3 mv = cr3 m /\ kernel_pool mv = kernel_pool m) as (Hgp & Hcr & Hkp) by (by destruct pf).
  assert (cr3 m1 = cr3 m) as Hc1 by (by rewrite (mp_cr3 _ _ _ _ _ _ Hmp)).
  pose proof (vp_ok m M) as Hm.
  assert (forall g, is_table m1 g -> is_table m g \/ frame_free (kernel_pool m) g) as Htab.
  { intros g Hg. apply (mp_new_tables _ _ _ _ _ _ Hmp) in Hg as [Hg|Hg]; [left; by destruct pf | right; by rewrite <- Hkp]. }
  assert (forall i f, fs !! i = Some f -> frame_free (get_pool pf m) f /\ frame_used (get_pool pf m1) f /\ ~ is_table m1 f /\ f <> cr3 m) as Hnew.
  { intros i f Hf. apply list_elem_of_lookup_2 in Hf. destruct (mp_free _ _ _ _ _ _ Hmp f Hf) as (_ & Hfr & Hnf). rewrite Hgp in Hfr.
    split; [done|]. split; [by apply (frame_free_used _ _ _ (malloc_pool_sub pf))|]. split; [by apply (mp_tables _ _ _ _ _ _ Hmp)|].
    intros ->. by apply (vo_cr3_used m Hm pf). }
  split.
  - apply Hmp.
  - intros pf'. destruct (malloc_start pf') as [Es En]. destruct (vp_vaddr m M pf') as [Hw Hrg Hcl]. split.
    + rewrite malloc_vaddr. by destruct (decide (pf' = pf)).
    + by rewrite Es, En.
    + intros j Hj Hb. rewrite Es, En in *. destruct (vaddr_range m pf' M) as (Hmod & Hlo & Hhi & _).
      assert (bit (vaddr_bitmap (get_vaddr pf' m)) j = false /\ ~ (pf' = pf /\ r <= j < r + n)) as [Hb' Hout].
      { rewrite malloc_vaddr in Hb. destruct (decide (pf' = pf)) as [->|Hne]; [|split; [done|by intros [? _]]]. cbn in Hb. rewrite Hbits in Hb.
        destruct ((r <=? j) && (j <? r + n))%bool eqn:E; [done|]. split; [done|]. intros [_ ?]. zb. lia. }
      rewrite malloc_other.
      * by apply Hcl.
      * unfold vaddr_end, mappable, PG_SIZE in *. lia.
      * unfold PG_SIZE in *. by rewrite Z.mod_add.
      * intros (i & Hi & Ei). apply Hout. destruct (va_pages i Hi) as (j' & -> & Ej & Hj' & _).
        destruct (decide (pf' = pf)) as [->|Hne]; [split; [done|]; unfold PG_SIZE in *; lia|].
        exfalso. pose proof (vp_user m M). unfold vaddr_end, PG_SIZE in *. destruct pf, pf'; cbn in *; try done; lia.
  - pose proof (ps_start _ _ (malloc_pool_sub PF_KERNEL)) as Es. cbn in Es. rewrite Es. apply M.
  - intros pf'. rewrite (ps_size _ _ (malloc_pool_sub pf')). apply M.
  - destruct (malloc_start PF_KERNEL) as [Es _]. cbn in Es. rewrite Es. apply M.
  - unfold vaddr_end. destruct (malloc_start PF_KERNEL) as [Es _], (malloc_start PF_USER) as [Eu En]. cbn in *. rewrite Es, Eu, En. apply M.
  - intros pf' q f Hf. apply malloc_frames in Hf as [Hf|(-> & i & Hf & ->)].
    + destruct (vp_frame m M pf' q f Hf) as (Hu & Ht & Hc). split; [by apply (frame_used_sub _ _ _ (malloc_pool_sub pf'))|]. rewrite Hc1.
      split; [|done]. intros [?|Hfr]%Htab; [done|]. by apply (used_not_free_any m pf' PF_KERNEL f Hm).
    + destruct (Hnew i f Hf) as (_ & ? & ? & ?). rewrite Hc1. by split.
  - intros pf1 pf2 q q' f Hf Hf'. apply malloc_frames in Hf as [Hf|(-> & i & Hf & ->)], Hf' as [Hf'|(-> & i' & Hf' & ->)].
    + by apply (vp_one m M pf1 pf2 q q' f).
    + exfalso. destruct (Hnew i' f Hf') as (Hfr & _). destruct (vp_frame m M pf1 q f Hf) as (Hu & _). by apply (used_not_free_any m pf1 pf f Hm).
    + exfalso. destruct (Hnew i f Hf) as (Hfr & _). destruct (vp_frame m M pf2 q' f Hf') as (Hu & _). by apply (used_not_free_any m pf2 pf f Hm).
    + by rewrite (NoDup_lookup fs i i' f (mp_nodup _ _ _ _ _ _ Hmp) Hf Hf').
Qed.

End malloc.

(** ** Giving back *)

(** The frames of a run of pages in use. *)
Lemma run_frames m pf va n : (forall q, in_pages va (Z.of_nat n) q -> exists f, page_frame m pf q f) ->
  exists fs, length fs = n /\ forall i f, fs !! i = Some f -> page_frame m pf (va + Z.of_nat i * PG_SIZE) f.
Proof.
  induction n as [|n IH]; intros Hq.
  - exists []. split; [done|]. intros i f Hf. done.
  - destruct IH as (fs & Hl & Hfs); [intros q (i & Hi & ->); apply Hq; exists i; lia|].
    destruct (Hq (va + Z.of_nat n * PG_SIZE)) as [f Hf]; [exists (Z.of_nat n); lia|].
    exists (fs ++ [f]). split; [rewrite length_app; cbn; lia|]. intros i g Hg.
    apply lookup_app_Some in Hg as [Hg|[Hi Hg]]; [by apply Hfs|].
    apply list_lookup_singleton_Some in Hg as [Hi' ->]. replace i with n by lia. done.
Qed.

Section mfree.
Variables (m mu : vm) (pf : pool_flags) (n r : Z) (b : bitmap) (fs : list Z).
Abbreviation va := (vaddr_start (get_vaddr pf m) + r * PG_SIZE).
Abbreviation m2 := (with_vaddr pf (mk_vaddr b (vaddr_start (get_vaddr pf m))) mu).
Hypothesis M : vm_pages_ok m.
Hypothesis Hr : 0 <= r.
Hypothesis Hend : r + n <= nbits (vaddr_bitmap (get_vaddr pf m)).
Hypothesis Hn : 0 < n.
Hypothesis Hlen : length fs = Z.to_nat n.
Hypothesis Hfs : forall i f, fs !! i = Some f -> page_frame m pf (va + Z.of_nat i * PG_SIZE) f.
Hypothesis Hum : unmapped m mu pf va (Z.to_nat n) fs.
Hypothesis Hwf : bitmap_wf 1 b.
Hypothesis Hblen : btmp_bytes_len b = btmp_bytes_len (vaddr_bitmap (get_vaddr pf m)).
Hypothesis Hbits : forall j, bit b j = if (r <=? j) && (j <? r + n) then false else bit (vaddr_bitmap (get_vaddr pf m)) j.

Lemma mfree_vaddr pf' : get_vaddr pf' m2 = if decide (pf' = pf) then mk_vaddr b (vaddr_start (get_vaddr pf m)) else get_vaddr pf' m.
Proof.
  destruct (um_vaddr _ _ _ _ _ _ Hum) as [Hk Hu].
  destruct (decide (pf' = pf)) as [->|Hne]; [by rewrite get_with_vaddr | destruct pf, pf'; cbn in *; by rewrite ?Hk, ?Hu].
Qed.

Lemma mfree_start pf' : vaddr_start (get_vaddr pf' m2) = vaddr_start (get_vaddr pf' m)
  /\ nbits (vaddr_bitmap (get_vaddr pf' m2)) = nbits (vaddr_bitmap (get_vaddr pf' m)).
Proof. rewrite mfree_vaddr. destruct (decide (pf' = pf)) as [->|]; [|done]. unfold nbits. cbn. by rewrite Hblen. Qed.

Lemma mfree_mmu q : mmu m2 q = mmu mu q.
Proof. by destruct pf. Qed.

Lemma run_in_pages q : in_pages va n q <-> exists j, r <= j < r + n /\ q = vaddr_start (get_vaddr pf m) + j * PG_SIZE.
Proof.
  unfold in_pages, PG_SIZE. split; [intros (i & Hi & ->); exists (r + i) | intros (j & Hj & ->); exists (j - r)]; lia.
Qed.

Lemma mfree_other q : mappable q -> q mod PG_SIZE = 0 -> ~ in_pages va n q -> mmu m2 q = mmu m q.
Proof.
  intros Hq Hm Hni. rewrite mfree_mmu. apply (um_other _ _ _ _ _ _ Hum); [done|]. intros Hp. apply Hni.
  destruct (vaddr_range m pf M) as (Hvm & _). exists (page_of q - page_of va). split; [lia|].
  pose proof (add_page_mod (vaddr_start (get_vaddr pf m)) r Hvm) as Hm'. unfold page_of, PG_SIZE in *. change 4096 with (2 ^ 12) in *.
  pose proof (Z.div_mod q (2 ^ 12) ltac:(lia)). pose proof (Z.div_mod (vaddr_start (get_vaddr pf m) + r * 2 ^ 12) (2 ^ 12) ltac:(lia)). lia.
Qed.

Lemma mfree_none q : in_pages va n q -> mmu m2 q = None.
Proof.
  intros (i & Hi & ->). rewrite mfree_mmu, <- (Z2Nat.id i) by lia. apply (um_none _ _ _ _ _ _ Hum). lia.
Qed.

Lemma mfree_frames pf' q f : page_frame m2 pf' q f <-> page_frame m pf' q f /\ ~ in_pages va n q.
Proof.
  destruct (mfree_start pf') as [Es En]. split.
  - intros (j & Hj & Eq & Hb & Hmmu). rewrite Es, En in *. destruct (vaddr_range m pf' M) as (Hm & Hlo & Hhi & _).
    assert (~ in_pages va n q) as Hni by (intros Hin; rewrite mfree_none in Hmmu; done). split; [|done].
    assert (mappable q /\ q mod PG_SIZE = 0) as [Hmap Hmod].
    { subst q. unfold vaddr_end, mappable, PG_SIZE in *. split; [lia|]. by rewrite Z.mod_add. }
    rewrite mfree_other in Hmmu by done. exists j. split; [done|]. split; [done|]. split; [|done].
    rewrite mfree_vaddr in Hb. destruct (decide (pf' = pf)) as [->|]; [|done]. cbn in Hb. rewrite Hbits in Hb.
    destruct ((r <=? j) && (j <? r + n))%bool; done.
  - intros [Hf Hni]. destruct (page_frame_addr m pf' q f M Hf) as (Hmod & _ & _ & Hmap). destruct Hf as (j & Hj & Eq & Hb & Hmmu).
    exists j. rewrite Es, En, mfree_other by done. split; [done|]. split; [done|]. split; [|done].
    rewrite mfree_vaddr. destruct (decide (pf' = pf)) as [->|]; [|done]. cbn. rewrite Hbits.
    destruct ((r <=? j) && (j <? r + n))%bool eqn:E; [|done]. exfalso. apply Hni, run_in_pages. exists j. zb. split; [lia|done].
Qed.

Lemma mfree_pool pf' : get_pool pf' m2 = get_pool pf' mu.
Proof. by destruct pf, pf'. Qed.

Lemma freed_frame f : f ∈ fs -> exists q, in_pages va n q /\ page_frame m pf q f.
Proof.
  intros [i Hf]%list_elem_of_lookup. exists (va + Z.of_nat i * PG_SIZE). split; [|by apply Hfs].
  exists (Z.of_nat i). apply lookup_lt_Some in Hf. lia.
Qed.

Lemma kept_used pf' q f : page_frame m pf' q f -> ~ in_pages va n q -> frame_used (get_pool pf' m2) f.
Proof.
  intros Hf Hni. destruct (vp_frame m M pf' q f Hf) as (Hu & _). rewrite mfree_pool. destruct (decide (pf' = pf)) as [->|Hne].
  - destruct (um_back _ _ _ _ _ _ Hum) as (Es & Eb & _ & Hback). destruct Hu as (i & Hi & Ei & Hb). exists i. rewrite Es, Eb.
    split; [done|]. split; [done|]. destruct (bit (pool_bitmap (get_pool pf mu)) i) eqn:E; [done|]. exfalso.
    destruct (proj1 (Hback f)) as [Hfr|Hin]; [exists i; by rewrite Es, Eb | |].
    + destruct (vp_frame m M pf q f Hf) as (Hu & _). by apply (used_not_free _ _ Hu).
    + destruct (freed_frame f Hin) as (q' & Hq' & Hf'). rewrite (vp_one m M pf pf q q' f Hf Hf') in Hni. done.
  - assert (get_pool pf' mu = get_pool pf' m) as ->; [|done]. pose proof (um_other_pool _ _ _ _ _ _ Hum) as Ho. by destruct pf, pf'.
Qed.

Lemma pool_kept pf' : phy_addr_start (get_pool pf' m2) = phy_addr_start (get_pool pf' m) /\ pool_size (get_pool pf' m2) = pool_size (get_pool pf' m).
Proof.
  rewrite mfree_pool. destruct (decide (pf' = pf)) as [->|Hne].
  - by destruct (um_back _ _ _ _ _ _ Hum) as (-> & _ & -> & _).
  - assert (get_pool pf' mu = get_pool pf' m) as ->; [|done]. pose proof (um_other_pool _ _ _ _ _ _ Hum) as Ho. by destruct pf, pf'.
Qed.

Lemma mfree_pages_ok : vm_pages_ok m2.
Proof.
  assert (cr3 m2 = cr3 m) as Hc by (rewrite <- (um_cr3 _ _ _ _ _ _ Hum); by destruct pf).
  assert (forall g, is_table m2 g -> is_table m g) as Htab by (intros g Hg; apply (um_tables _ _ _ _ _ _ Hum); by destruct pf).
  split.
  - apply (vm_ok_ext mu); [apply Hum | | | |]; by destruct pf.
  - intros pf'. destruct (mfree_start pf') as [Es En]. destruct (vp_vaddr m M pf') as [Hw Hrg Hcl]. split.
    + rewrite mfree_vaddr. by destruct (decide (pf' = pf)).
    + by rewrite Es, En.
    + intros j Hj Hb. rewrite Es, En in *. destruct (vaddr_range m pf' M) as (Hmod & Hlo & Hhi & _).
      set (q := vaddr_start (get_vaddr pf' m) + j * PG_SIZE).
      destruct (decide (pf' = pf /\ r <= j < r + n)) as [[-> Hin]|Hout]; [by apply mfree_none, run_in_pages; exists j|].
      assert (~ in_pages va n q) as Hni.
      { rewrite run_in_pages. intros (j' & Hj' & Ej). apply Hout. unfold q in Ej. destruct (decide (pf' = pf)) as [->|Hne].
        - split; [done|]. unfold PG_SIZE in *. lia.
        - exfalso. pose proof (vp_user m M). unfold vaddr_end, PG_SIZE in *. destruct pf, pf'; cbn in *; try done; lia. }
      rewrite mfree_other; [|unfold q, vaddr_end, mappable, PG_SIZE in *; lia | unfold q, PG_SIZE in *; by rewrite Z.mod_add | done].
      apply Hcl; [done|]. rewrite mfree_vaddr in Hb. destruct (decide (pf' = pf)) as [->|]; [|done]. cbn in Hb. rewrite Hbits in Hb.
      destruct ((r <=? j) && (j <? r + n))%bool eqn:E; [|done]. exfalso. apply Hout. zb. split; [done|lia].
  - destruct (pool_kept PF_KERNEL) as [Ep _]. cbn in Ep. rewrite Ep. apply M.
  - intros pf'. destruct (pool_kept pf') as [_ ->]. apply M.
  - destruct (mfree_start PF_KERNEL) as [Es _]. cbn in Es. rewrite Es. apply M.
  - unfold vaddr_end. destruct (mfree_start PF_KERNEL) as [Es _], (mfree_start PF_USER) as [Eu En]. cbn in *. rewrite Es, Eu, En. apply M.
  - intros pf' q f Hf. apply mfree_frames in Hf as [Hf Hni]. destruct (vp_frame m M pf' q f Hf) as (_ & Ht & Hcr).
    split; [by apply (kept_used pf' q)|]. rewrite Hc. split; [|done]. by intros ?%Htab.
  - intros pf1 pf2 q q' f Hf Hf'. apply mfree_frames in Hf as [Hf _], Hf' as [Hf' _]. by apply (vp_one m M pf1 pf2 q q' f).
Qed.

End mfree.

(** [mfree_page] of pages in use, in terms of their run of bits and frames. *)
Lemma mfree_page_run m pf va n : vm_pages_ok m -> 0 < n -> (forall q, in_pages va n q -> exists f, page_frame m pf q f) ->
  exists r fs mu b, va = vaddr_start (get_vaddr pf m) + r * PG_SIZE
    /\ mfree_page m pf va n = Ok (with_vaddr pf (mk_vaddr b (vaddr_start (get_vaddr pf m))) mu)
    /\ 0 <= r /\ r + n <= nbits (vaddr_bitmap (get_vaddr pf m)) /\ length fs = Z.to_nat n
    /\ (forall i f, fs !! i = Some f -> page_frame m pf (vaddr_start (get_vaddr pf m) + r * PG_SIZE + Z.of_nat i * PG_SIZE) f)
    /\ unmapped m mu pf (vaddr_start (get_vaddr pf m) + r * PG_SIZE) (Z.to_nat n) fs
    /\ bitmap_wf 1 b /\ btmp_bytes_len b = btmp_bytes_len (vaddr_bitmap (get_vaddr pf m))
    /\ forall j, bit b j = if (r <=? j) && (j <? r + n) then false else bit (vaddr_bitmap (get_vaddr pf m)) j.
Proof.
  intros M Hn Hheld. destruct (Hheld va) as [f0 (r & Hr & Eva & _)]; [by apply in_pages_first|].
  assert (r + n <= nbits (vaddr_bitmap (get_vaddr pf m))) as Hend.
  { destruct (Hheld (va + (n - 1) * PG_SIZE)) as [f (j & Hj & Ej & _)]; [exists (n - 1); lia|]. unfold PG_SIZE in *. lia. }
  rewrite <- (Z2Nat.id n) in Hheld by lia. destruct (run_frames m pf va (Z.to_nat n) Hheld) as (fs & Hl & Hfs). subst va.
  destruct (vaddr_range m pf M) as (Hm & Hlo & Hhi & _).
  destruct (mfree_page_ok m pf n r fs) as (mu & m2 & E & Hum & b & -> & Hwf & Hlb & Hb).
  - apply M.
  - done.
  - split; [by apply add_page_mod|]. unfold vaddr_end, PG_SIZE in *. lia.
  - lia.
  - apply (vp_vaddr m M).
  - lia.
  - done.
  - done.
  - apply NoDup_alt. intros i i' f Hf Hf'. pose proof (vp_one m M pf pf _ _ f (Hfs i f Hf) (Hfs i' f Hf')). unfold PG_SIZE in *. lia.
  - intros i f Hf. by destruct (Hfs i f Hf) as (_ & _ & _ & _ & ?).
  - intros f [i Hf]%list_elem_of_lookup. by apply (vp_frame m M pf _ f (Hfs i f Hf)).
  - apply M.
  - exists r, fs, mu, b. split_and!; (done || lia).
Qed.

(** ** One page at a time *)

Lemma spare_room_ok m pf n : vm_pages_ok m -> vm_spare m (S n) -> vm_room m pf 1 = true.
Proof.
  intros M (Hb & Hk & Hu & He & _). specialize (Hb pf). pose proof (va_wf _ _ (vp_vaddr m M pf)) as Hwf.
  destruct (bitmap_scan_first (vaddr_bitmap (get_vaddr pf m)) 1 Hwf) as (r & Hr & Hf & _ & Es).
  { unfold free_bits in Hb. destruct (filter _ _) as [|i l] eqn:E; [cbn in Hb; lia|].
    assert (i ∈ filter (fun i => bit (vaddr_bitmap (get_vaddr pf m)) i = false) (seqZ 0 (nbits (vaddr_bitmap (get_vaddr pf m))))) as Hi
      by (rewrite E; apply list_elem_of_here).
    apply list_elem_of_filter in Hi as [Hi ?%elem_of_seqZ]. exists i. split; [lia | done]. }
  unfold vm_room. rewrite Es. change (1 =? 1) with true. cbn iota. zdec.
  change (seqZ r 1) with [r]. cbn [forallb]. rewrite Hf. cbn [negb andb].
  destruct pf; cbn in *; [apply bool_decide_eq_true; lia|].
  rewrite !bool_decide_eq_true_2 by lia. apply Z.ltb_lt. unfold vaddr_end, PG_SIZE in *. lia.
Qed.

Lemma spare_malloc_ok m pf n m1 v : vm_pages_ok m -> vm_spare m (S n) -> malloc_page m pf 1 = Ok (m1, v) -> vm_spare m1 n.
Proof.
  intros M Hs E. destruct (room_pre m pf 1 M (spare_room_ok m pf n M Hs)) as [r Pre].
  destruct (malloc_page_ok m pf 1 r Pre) as (b & m2 & fs & E2 & Hmp & Hwf & Hlb & Hb).
  rewrite E in E2. injection E2 as <- _. destruct Hs as (Hfb & Hk & Hu & He & Hsz).
  assert (kernel_pool (with_vaddr pf (mk_vaddr b (vaddr_start (get_vaddr pf m))) m) = kernel_pool m
    /\ user_pool (with_vaddr pf (mk_vaddr b (vaddr_start (get_vaddr pf m))) m) = user_pool m) as [Ek Eu] by (by destruct pf).
  destruct (mp_count _ _ _ _ _ _ Hmp) as [Hck Hcu]. rewrite Ek in Hck. rewrite Eu in Hcu. change (Z.to_nat 1) with 1%nat in *.
  split_and!; [|lia|lia| |].
  - intros pf'. specialize (Hfb pf'). enough (free_bits (vaddr_bitmap (get_vaddr pf' m)) <= S (free_bits (vaddr_bitmap (get_vaddr pf' m1))))%nat by lia.
    unfold free_bits. destruct (malloc_start m m1 pf 1 r b fs Pre Hmp Hlb Hb pf') as [_ ->].
    apply (filter_count_but _ _ _ r); [apply NoDup_seqZ|]. intros j _ Hj Hbj. rewrite (malloc_vaddr m m1 pf 1 r b fs Pre Hmp Hlb Hb).
    destruct (decide (pf' = pf)) as [->|]; [|done]. cbn. rewrite Hb, Hbj. by replace ((r <=? j) && (j <? r + 1)) with false by (symmetry; apply andb_false_iff; rewrite Z.leb_gt, Z.ltb_ge; lia).
  - destruct (malloc_start m m1 pf 1 r b fs Pre Hmp Hlb Hb PF_USER) as [E1 E2]. unfold vaddr_end in *. cbn in E1, E2. by rewrite E1, E2.
  - intros pf'. by rewrite (ps_size _ _ (malloc_pool_sub m m1 pf 1 r b fs Pre Hmp Hlb Hb pf')).
Qed.

Lemma pool_back_count p' p fs : pool_ok p -> pool_back p' p fs -> (free_pages p <= free_pages p')%nat.
Proof.
  intros Hp (Es & Eb & _ & Hf). unfold free_pages. rewrite Eb. apply filter_count_mono. intros i Hi%elem_of_seqZ Hb.
  destruct (proj2 (Hf (phy_addr_start p + i * PG_SIZE))) as (j & Hj & Ej & Hbj).
  - left. exists i. split; [lia | done].
  - rewrite Es in Ej. unfold PG_SIZE in Ej. by assert (j = i) as -> by lia.
Qed.

#[export] Instance vm_page_laws : PageAllocLaws vm.
Proof.
  split.
  - intros m pf M. apply M.
  - intros m pf q M [f Hf]. destruct (page_frame_addr m pf q f M Hf) as (Hm & Hlo & Hhi & _). split; [done|].
    destruct (vaddr_range m pf M) as (_ & Hs & He & _). pose proof (vp_heap m M).
    assert (2 ^ 22 <= q) as Hq by lia. assert (q + PG_SIZE <= 0xffc00000) as Hq' by lia. split; [|lia].
    destruct pf; [cbn in Hlo; lia | unfold PG_SIZE; lia].
  - intros m pf pf' q M [f Hf] [f' Hf']. by apply (page_frame_pool m pf pf' q f f').
  - intros m pf n M Hroom. destruct (room_pre m pf n M Hroom) as [r Pre].
    destruct (malloc_page_ok m pf n r Pre) as (b & m1 & fs & E & Hmp & Hwf & Hlb & Hb).
    exists m1, (vaddr_start (get_vaddr pf m) + r * PG_SIZE). split; [exact E|].
    split; [by apply (malloc_pages_ok m m1 pf n r b fs)|]. split.
    { intros pf'. apply (ps_size _ _ (malloc_pool_sub m m1 pf n r b fs Pre Hmp Hlb Hb pf')). }
    split.
    + intros pf' q Hq [f Hf]. destruct Hq as (i & Hi & ->). destruct (va_pages m pf n r Pre i Hi) as (j & _ & Ej & Hj & Hbf).
      destruct Hf as (j' & Hj' & Ej' & Hb' & _). destruct (decide (pf' = pf)) as [->|Hne].
      * assert (j = j') as -> by (unfold PG_SIZE in *; lia). congruence.
      * pose proof (vp_user m M). unfold vaddr_end, PG_SIZE in *. destruct pf, pf'; cbn in *; try done; lia.
    + intros pf' q. cbn. split.
      * intros [f Hf]. apply (malloc_frames m m1 pf n r b fs M Pre Hmp Hlb Hb) in Hf as [Hf|(-> & i & Hf & ->)]; [left; by exists f|].
        right. split; [done|]. exists (Z.of_nat i). apply lookup_lt_Some in Hf. rewrite (mp_len _ _ _ _ _ _ Hmp) in Hf. lia.
      * intros [[f Hf]|[-> (i & Hi & ->)]].
        -- exists f. apply (malloc_frames m m1 pf n r b fs M Pre Hmp Hlb Hb). by left.
        -- destruct (lookup_lt_is_Some_2 fs (Z.to_nat i)) as [f Hf]; [rewrite (mp_len _ _ _ _ _ _ Hmp); lia|].
           exists f. apply (malloc_frames m m1 pf n r b fs M Pre Hmp Hlb Hb). right. split; [done|]. exists (Z.to_nat i). split; [done|].
           by rewrite Z2Nat.id by lia.
  - intros m pf va n M Hn Hheld. destruct (mfree_page_run m pf va n M Hn Hheld) as (r & fs & mu & b & -> & E & Hr & Hend & Hl & Hfs & Hum & Hwf & Hlb & Hb).
    eexists. split; [exact E|]. split; [by apply (mfree_pages_ok m mu pf n r b fs)|]. split.
    { intros pf'. by apply (pool_kept m mu pf n r b fs). }
    intros pf' q. cbn. pose proof (mfree_frames m mu pf n r b fs M) as Hfr.
    split; [intros [f Hf]; apply Hfr in Hf as [Hf Hni]; try done; split; [by exists f|done] | intros [[f Hf] Hni]; exists f; by apply Hfr].
  - intros m pf n M Hs. split; [by apply (spare_room_ok m pf n) | apply Hs].
  - intros m n (Hb & ? & ? & ? & ?). split_and!; try done; try lia. intros pf. specialize (Hb pf). lia.
  - intros m pf n m1 v. apply spare_malloc_ok.
  - intros m pf va n k m2 M Hn Hheld E (Hfb & Hk & Hu & He & Hsz).
    destruct (mfree_page_run m pf va n M Hn Hheld) as (r & fs & mu & b & -> & E' & Hr & Hend & Hl & Hfs & Hum & Hwf & Hlb & Hb).
    change (mfree_page m pf (vaddr_start (get_vaddr pf m) + r * PG_SIZE) n = Ok m2) in E. rewrite E in E'. injection E' as ->. pose proof (mfree_pool m mu pf n r b fs Hend Hfs Hum Hlb Hb) as Hpool.
    assert (forall pf', (free_pages (get_pool pf' m) <= free_pages (get_pool pf' mu))%nat) as Hcnt.
    { intros pf'. destruct (decide (pf' = pf)) as [->|Hne].
      - apply (pool_back_count _ _ fs); [by destruct pf; apply M | apply Hum].
      - pose proof (um_other_pool _ _ _ _ _ _ Hum) as Ho. destruct pf, pf'; cbn in *; try done; by rewrite Ho. }
    pose proof (Hcnt PF_KERNEL) as Hck. pose proof (Hcnt PF_USER) as Hcu. rewrite <- !Hpool in Hck, Hcu. cbn [get_pool] in Hck, Hcu.
    split_and!; [|lia|lia| |].
    + intros pf'. etransitivity; [apply (Hfb pf')|]. unfold free_bits. destruct (mfree_start m mu pf n r b fs Hend Hfs Hum Hlb Hb pf') as [_ ->].
      apply filter_count_mono. intros j _ Hbj. rewrite (mfree_vaddr m mu pf n r b fs Hend Hfs Hum Hlb Hb).
      destruct (decide (pf' = pf)) as [->|]; [|done]. cbn. rewrite Hb, Hbj. by case_bool.
    + destruct (mfree_start m mu pf n r b fs Hend Hfs Hum Hlb Hb PF_USER) as [E1 E2]. unfold vaddr_end in *. cbn in E1, E2. by rewrite E1, E2.
    + intros pf'. destruct (pool_kept m mu pf n r b fs Hend Hfs Hum Hlb Hb pf') as [_ ->]. apply Hsz.
Qed.
