(* ===== verification/Blockdev.v ===== *)
(** The disk as the file system sees it: [ide_read] and [ide_write] of
    device/ide.c as transfers between numbered 512-byte sectors and a buffer.

    [BlockDevice] is the interface the file system's files are proved against;
    [ide_block_device] shows that the driver of Ide.v, run on a channel with two
    drives, does on the one selected exactly what the interface promises. *)
From S2P Require Import Prelude Ide.

Definition SECTOR_SIZE : Z := 512.
Definition BLOCK_SIZE : Z := SECTOR_SIZE.

(** ** The interface *)

Class BlockDevice (D : Type) := {
  sector : D -> Z -> list Z;
  set_sector : D -> Z -> list Z -> D }.

Class BlockDeviceLaws (D : Type) `{BlockDevice D} := {
  sector_len d lba : zlen (sector d lba) = SECTOR_SIZE;
  sector_bytes d lba : bytes (sector d lba);
  sector_set d lba l i : zlen l = SECTOR_SIZE -> bytes l ->
    sector (set_sector d lba l) i = if i =? lba then l else sector d i }.

(** A disk that is a finite map of written sectors; the others hold zeros. *)
Definition zero_sector : list Z := replicate 512 0.

Record sparse_disk := mk_sparse { written : gmap Z (list Z) }.

Definition good_sector (l : list Z) : bool :=
  (zlen l =? SECTOR_SIZE) && forallb (fun b => (0 <=? b) && (b <? 256)) l.

#[export] Instance sparse_device : BlockDevice sparse_disk := {
  sector d lba := match written d !! lba with
                  | Some l => if good_sector l then l else zero_sector
                  | None => zero_sector end;
  set_sector d lba l := mk_sparse (<[lba := l]> (written d)) }.

Section device.
Context {D : Type} `{BlockDevice D}.

Fixpoint read_sectors (d : D) (lba : Z) (n : nat) : list Z :=
  match n with
  | O => []
  | S n => sector d lba ++ read_sectors d (lba + 1) n
  end.

Fixpoint write_sectors (d : D) (lba : Z) (n : nat) (buf : list Z) : D :=
  match n with
  | O => d
  | S n => write_sectors (set_sector d lba (take 512 buf)) (lba + 1) n (drop 512 buf)
  end.

(** The assertions of the driver: on the start, on the count, and on the start
    of every 256-sector chunk. *)
Definition transfer_ok (lba sec_cnt : Z) : outcome unit :=
  c_assert (lba <=? max_lba) ;;;
  c_assert (0 <? sec_cnt) ;;;
  c_assert (lba + 256 * ((sec_cnt - 1) / 256) <=? max_lba).

(** [ide_read(hd, lba, buf + off, sec_cnt)]. *)
Definition disk_read (d : D) (lba sec_cnt : Z) (buf : list Z) (off : Z) : outcome (list Z) :=
  transfer_ok lba sec_cnt ;;;
  splice buf off (read_sectors d lba (Z.to_nat sec_cnt)).

(** [ide_write(hd, lba, buf + off, sec_cnt)]. *)
Definition disk_write (d : D) (lba sec_cnt : Z) (buf : list Z) (off : Z) : outcome D :=
  transfer_ok lba sec_cnt ;;;
  let! data := slice buf off (512 * sec_cnt) in
  Ok (write_sectors d lba (Z.to_nat sec_cnt) data).

(** The byte at a byte address of the disk. *)
Definition dbyte (d : D) (p : Z) : option Z := sector d (p / 512) !! Z.to_nat (p mod 512).

(** ** The driver's transfers on the media of a channel
    One entry of Ide.v's transfer list moves one sector of the drive it names. *)
Record drives := mk_drives { master : D; slave : D }.

Definition drive (sl : bool) (ds : drives) : D := if sl then slave ds else master ds.

Definition set_drive (sl : bool) (d : D) (ds : drives) : drives :=
  if sl then mk_drives (master ds) d else mk_drives d (slave ds).

(** The drive a disk is: [dev_no] 0 is the master, 1 the slave. *)
Definition drive_of (hd : disk) : drives -> D := drive (dev_no hd =? 1).
Definition set_drive_of (hd : disk) : D -> drives -> drives := set_drive (dev_no hd =? 1).

Definition apply_xfer (s : outcome (drives * list Z)) (x : xfer) : outcome (drives * list Z) :=
  let! ' (ds, buf) := s in
  let '(cmd, sl, lba, off) := x in
  if cmd =? CMD_READ_SECTOR then
    let! buf := splice buf off (sector (drive sl ds) lba) in Ok (ds, buf)
  else
    let! l := slice buf off 512 in Ok (set_drive sl (set_sector (drive sl ds) lba l) ds, buf).

Definition run_xfers (ds : drives) (buf : list Z) (l : list xfer) : outcome (drives * list Z) :=
  fold_left apply_xfer l (Ok (ds, buf)).

End device.

#[global] Arguments drives : clear implicits.
#[global] Arguments mk_drives {D}.

(** ** Lemmas *)

Lemma good_sector_true l : good_sector l = true <-> zlen l = SECTOR_SIZE /\ bytes l.
Proof.
  unfold good_sector. rewrite andb_true_iff, Z.eqb_eq, forallb_forall, Forall_forall.
  apply and_iff_compat_l. unfold is_byte. split; intros Hl x Hx.
  - apply list_elem_of_In in Hx. specialize (Hl x Hx). zb. lia.
  - apply list_elem_of_In in Hx. specialize (Hl x Hx). apply andb_true_iff. split; [apply Z.leb_le | apply Z.ltb_lt]; lia.
Qed.

#[export] Instance sparse_laws : BlockDeviceLaws sparse_disk.
Proof.
  assert (zlen zero_sector = SECTOR_SIZE /\ bytes zero_sector) as [Hz1 Hz2].
  { apply good_sector_true. reflexivity. }
  assert (forall (d : sparse_disk) lba, zlen (sector d lba) = SECTOR_SIZE /\ bytes (sector d lba)) as Hall.
  { intros d lba. cbn [sector sparse_device]. destruct (written d !! lba) as [l|]; [|by split].
    destruct (good_sector l) eqn:E; [by apply good_sector_true | by split]. }
  split.
  - intros; apply Hall.
  - intros; apply Hall.
  - intros d lba l i Hl Hb. cbn [sector set_sector sparse_device written].
    destruct (Z.eqb_spec i lba) as [->|Hne].
    + rewrite lookup_insert_eq. by rewrite (proj2 (good_sector_true l)).
    + by rewrite lookup_insert_ne by congruence.
Qed.

Lemma transfer_ok_small lba n : lba <= max_lba -> 0 < n <= 256 -> transfer_ok lba n = Ok tt.
Proof.
  intros Hl Hn. unfold transfer_ok. rewrite (Z.div_small (n - 1)) by lia.
  rewrite Z.mul_0_r, Z.add_0_r. by zdec.
Qed.

Section laws.
Context {D : Type} `{BlockDeviceLaws D}.
Implicit Types (d : D) (buf l : list Z).

Lemma read_sectors_length d lba n : zlen (read_sectors d lba n) = 512 * Z.of_nat n.
Proof.
  revert lba; induction n as [|n IH]; intros lba; [done|]. cbn [read_sectors].
  pose proof (sector_len d lba) as Hl. unfold SECTOR_SIZE in Hl. rewrite length_app. specialize (IH (lba + 1)). lia.
Qed.

Lemma read_sectors_bytes d lba n : bytes (read_sectors d lba n).
Proof.
  revert lba; induction n as [|n IH]; intros lba; [apply Forall_nil; exact I|].
  cbn [read_sectors]. apply Forall_app; split; [apply sector_bytes | apply IH].
Qed.

Lemma dbyte_in d lba i : 0 <= i < 512 -> dbyte d (512 * lba + i) = sector d lba !! Z.to_nat i.
Proof.
  intros Hi. unfold dbyte. rewrite (Z.mul_comm 512 lba), Z.div_add_l, Z.div_small, Z.add_0_r by lia.
  rewrite Z.add_comm, Z.mod_add, Z.mod_small by lia. done.
Qed.

Lemma read_sectors_lookup d lba n i : 0 <= i < 512 * Z.of_nat n ->
  read_sectors d lba n !! Z.to_nat i = dbyte d (512 * lba + i).
Proof.
  revert lba i; induction n as [|n IH]; intros lba i Hi; [lia|]. cbn [read_sectors].
  pose proof (sector_len d lba) as Hl. unfold SECTOR_SIZE in Hl.
  destruct (Z.lt_ge_cases i 512).
  - rewrite lookup_app_l by lia. rewrite dbyte_in by lia. done.
  - rewrite lookup_app_r by lia. replace (Z.to_nat i - length (sector d lba))%nat with (Z.to_nat (i - 512)) by lia.
    rewrite IH by lia. f_equal; lia.
Qed.

Lemma dbyte_set d lba l p : zlen l = 512 -> bytes l ->
  dbyte (set_sector d lba l) p = if p / 512 =? lba then l !! Z.to_nat (p mod 512) else dbyte d p.
Proof. intros. unfold dbyte. rewrite sector_set by done. by case_bool. Qed.

Lemma write_sectors_dbyte n : forall d lba buf p, zlen buf = 512 * Z.of_nat n -> bytes buf ->
  dbyte (write_sectors d lba n buf) p
  = if (512 * lba <=? p) && (p <? 512 * (lba + Z.of_nat n)) then buf !! Z.to_nat (p - 512 * lba) else dbyte d p.
Proof.
  induction n as [|n IH]; intros d lba buf p Hl Hb; cbn [write_sectors].
  - case_bool; zb; [lia|done].
  - assert (zlen (take 512 buf) = 512) as Ht by (rewrite length_take; lia).
    rewrite IH by (rewrite ?length_drop; (by apply Forall_drop) || lia).
    assert (p / 512 * 512 <= p < p / 512 * 512 + 512) as Hp.
    { pose proof (Z.div_mod p 512). pose proof (Z.mod_pos_bound p 512). lia. }
    rewrite dbyte_set by (done || by apply Forall_take).
    pose proof (Z.div_mod p 512). pose proof (Z.mod_pos_bound p 512).
    repeat case_bool; zb;
      repeat match goal with H : _ \/ _ |- _ => destruct H; zb end; try lia; try done.
    + rewrite lookup_drop. f_equal; lia.
    + rewrite lookup_take_lt by lia. f_equal; lia.
Qed.

Lemma sector_ext d d' lba : (forall i, 0 <= i < 512 -> dbyte d (512 * lba + i) = dbyte d' (512 * lba + i)) ->
  sector d lba = sector d' lba.
Proof.
  intros Hd. pose proof (sector_len d lba). pose proof (sector_len d' lba). unfold SECTOR_SIZE in *.
  apply list_eq. intros i. destruct (decide (i < 512)%nat).
  - specialize (Hd (Z.of_nat i) ltac:(lia)). rewrite !dbyte_in, !Nat2Z.id in Hd by lia. done.
  - rewrite !lookup_ge_None_2; [done|lia|lia].
Qed.

Lemma disk_read_ok d lba n buf off : lba <= max_lba -> 0 < n <= 256 -> 0 <= off -> off + 512 * n <= zlen buf ->
  exists buf', disk_read d lba n buf off = Ok buf' /\ zlen buf' = zlen buf
    /\ (forall i, 0 <= i < 512 * n -> buf' !! Z.to_nat (off + i) = dbyte d (512 * lba + i))
    /\ (bytes buf -> bytes buf')
    /\ splice buf off (read_sectors d lba (Z.to_nat n)) = Ok buf'.
Proof.
  intros Hl Hn Ho Hb. unfold disk_read. rewrite transfer_ok_small by done. cbn [obind].
  pose proof (read_sectors_length d lba (Z.to_nat n)) as Hr.
  destruct (splice buf off (read_sectors d lba (Z.to_nat n))) as [buf'|] eqn:E.
  2: { unfold splice in E. case_bool; zb; [discriminate|lia]. }
  exists buf'. split; [done|]. split; [by rewrite (splice_length _ _ _ _ E)|].
  unfold splice in E. case_bool; [|discriminate]. injection E as <-. split; [|split; [|done]].
  - intros i Hi. rewrite lookup_app_r by (rewrite length_take; lia).
    rewrite length_take, lookup_app_l by lia. rewrite <- read_sectors_lookup with (n := Z.to_nat n) by lia.
    f_equal; lia.
  - intros Hbb. apply Forall_app; split; [by apply Forall_take|].
    apply Forall_app; split; [apply read_sectors_bytes | by apply Forall_drop].
Qed.

Lemma splice_whole buf l : zlen l = zlen buf -> splice buf 0 l = Ok l.
Proof.
  intros Hl. unfold splice. zdec. change (Z.to_nat 0) with 0%nat. cbn [take app].
  by rewrite drop_ge, app_nil_r by lia.
Qed.

Lemma disk_read_whole d lba n buf : lba <= max_lba -> 0 < n <= 256 -> zlen buf = 512 * n ->
  disk_read d lba n buf 0 = Ok (read_sectors d lba (Z.to_nat n)).
Proof.
  intros Hl Hn Hb. unfold disk_read. rewrite transfer_ok_small by done. cbn [obind].
  apply splice_whole. pose proof (read_sectors_length d lba (Z.to_nat n)). lia.
Qed.

Lemma disk_read_one d lba buf : lba <= max_lba -> zlen buf = 512 -> disk_read d lba 1 buf 0 = Ok (sector d lba).
Proof.
  intros. rewrite disk_read_whole by lia. change (Z.to_nat 1) with 1%nat. cbn [read_sectors].
  by rewrite app_nil_r.
Qed.

Lemma disk_write_one d lba buf : lba <= max_lba -> zlen buf = 512 -> disk_write d lba 1 buf 0 = Ok (set_sector d lba buf).
Proof.
  intros Hl Hb. unfold disk_write, slice. rewrite transfer_ok_small by lia. cbn [obind]. zdec. cbn [obind].
  change (Z.to_nat 0) with 0%nat. change (Z.to_nat 1) with 1%nat. rewrite drop_0. cbn [write_sectors].
  rewrite !take_ge by (rewrite ?length_take; lia). done.
Qed.

(** One sector at the start of a larger buffer. *)
Lemma disk_read_first d lba buf : lba <= max_lba -> 512 <= zlen buf ->
  disk_read d lba 1 buf 0 = Ok (sector d lba ++ drop 512 buf).
Proof.
  intros Hl Hb. unfold disk_read, splice. rewrite transfer_ok_small by lia. cbn [obind read_sectors].
  change (Z.to_nat 1) with 1%nat. cbn [read_sectors]. rewrite app_nil_r.
  pose proof (sector_len d lba) as Hs. unfold SECTOR_SIZE in Hs. zdec. change (Z.to_nat 0) with 0%nat. cbn [take app Nat.add].
  replace (length (sector d lba)) with 512%nat by lia. done.
Qed.

Lemma disk_write_first d lba buf : lba <= max_lba -> 512 <= zlen buf ->
  disk_write d lba 1 buf 0 = Ok (set_sector d lba (take 512 buf)).
Proof.
  intros Hl Hb. unfold disk_write, slice. rewrite transfer_ok_small by lia. cbn [obind]. zdec. cbn [obind].
  change (Z.to_nat 0) with 0%nat. change (Z.to_nat 1) with 1%nat. rewrite drop_0. cbn [write_sectors].
  change (Z.to_nat (512 * 1)) with 512%nat. by rewrite take_take, Nat.min_id.
Qed.

(** Bytes and sectors of the disk say the same. *)
Lemma dbyte_sector d d' lba : sector d lba = sector d' lba ->
  forall q, 512 * lba <= q < 512 * lba + 512 -> dbyte d q = dbyte d' q.
Proof.
  intros Hs q Hq. replace q with (512 * lba + (q - 512 * lba)) by lia. rewrite !dbyte_in by lia. by rewrite Hs.
Qed.

Lemma disk_write_ok d lba n buf off : lba <= max_lba -> 0 < n <= 256 -> 0 <= off -> off + 512 * n <= zlen buf ->
  bytes buf ->
  exists d', disk_write d lba n buf off = Ok d'
    /\ forall p, dbyte d' p = if (512 * lba <=? p) && (p <? 512 * (lba + n))
                              then buf !! Z.to_nat (off + (p - 512 * lba)) else dbyte d p.
Proof.
  intros Hl Hn Ho Hb Hbb. unfold disk_write, slice. rewrite transfer_ok_small by done. cbn [obind]. zdec.
  eexists; split; [done|]. intros p.
  rewrite write_sectors_dbyte; rewrite ?length_take, ?length_drop; try lia.
  - rewrite Z2Nat.id by lia. case_bool; [|done]. zb. rewrite lookup_take_lt, lookup_drop by lia. f_equal; lia.
  - by apply Forall_take, Forall_drop.
Qed.

End laws.

(** ** The driver implements the interface *)

Section refinement.
Context {D : Type} `{BlockDeviceLaws D}.
Implicit Types (d : D) (ds : drives D) (buf l : list Z).

Lemma drive_set sl d ds : drive sl (set_drive sl d ds) = d.
Proof. by destruct sl. Qed.

Lemma set_drive_set sl d d' ds : set_drive sl d' (set_drive sl d ds) = set_drive sl d' ds.
Proof. by destruct sl. Qed.

Lemma set_drive_same sl ds : set_drive sl (drive sl ds) ds = ds.
Proof. by destruct sl, ds. Qed.

Lemma xfers_snoc cmd hd lba n : 0 <= n ->
  xfers cmd hd lba (n + 1) = xfers cmd hd lba n ++ [(cmd, dev_no hd =? 1, lba + n, 512 * n)].
Proof.
  intros Hn. unfold xfers. rewrite seqZ_app, map_app by lia. by rewrite (Z.add_0_l n).
Qed.

Lemma read_sectors_snoc d lba n :
  read_sectors d lba (S n) = read_sectors d lba n ++ sector d (lba + Z.of_nat n).
Proof.
  revert lba; induction n as [|n IH]; intros lba.
  - cbn. by rewrite Z.add_0_r, app_nil_r.
  - cbn [read_sectors] in *. rewrite IH, <- app_assoc. do 2 f_equal. f_equal; lia.
Qed.

Lemma splice_snoc buf off l l' buf' : splice buf off l = Ok buf' ->
  splice buf' (off + zlen l) l' = splice buf off (l ++ l').
Proof.
  intros Hs. pose proof (splice_length _ _ _ _ Hs) as Hlen. unfold splice in *.
  case_bool; [|discriminate]. injection Hs as <-. zb. rewrite Hlen, length_app.
  replace (off + zlen l + zlen l') with (off + Z.of_nat (length l + length l')) by lia.
  destruct (Z.leb_spec 0 (off + zlen l)); [|lia]. destruct (Z.leb_spec 0 off); [|lia]. cbn [andb].
  case_bool; zb; [|done]. f_equal.
  assert (length (take (Z.to_nat off) buf) = Z.to_nat off) as Ht by (rewrite length_take; lia).
  set (p := take (Z.to_nat off) buf) in *. set (r := drop (Z.to_nat off + length l) buf).
  replace (Z.to_nat (off + zlen l)) with (length (p ++ l)) by (rewrite length_app; lia).
  rewrite (app_assoc p l r), take_app_length, <- !app_assoc. do 3 f_equal.
  rewrite (app_assoc p l r), <- drop_drop, drop_app_length. unfold r. rewrite drop_drop. f_equal; lia.
Qed.

Lemma run_reads ds buf hd lba n : 512 * Z.of_nat n <= zlen buf ->
  run_xfers ds buf (xfers CMD_READ_SECTOR hd lba (Z.of_nat n))
  = let! buf' := splice buf 0 (read_sectors (drive_of hd ds) lba n) in Ok (ds, buf').
Proof.
  induction n as [|n IH]; intros Hn.
  - unfold run_xfers, splice. cbn [xfers seqZ map fold_left read_sectors length].
    change (zlen (@nil Z)) with 0. zdec. done.
  - replace (Z.of_nat (S n)) with (Z.of_nat n + 1) by lia. rewrite xfers_snoc by lia.
    unfold run_xfers in *. rewrite fold_left_app, IH by lia. cbn [fold_left].
    pose proof (read_sectors_length (drive_of hd ds) lba n) as Hr.
    rewrite read_sectors_snoc. destruct (splice buf 0 (read_sectors (drive_of hd ds) lba n)) as [b|] eqn:E.
    + rewrite <- (splice_snoc _ _ _ _ _ E). unfold apply_xfer. cbn [obind].
      change (CMD_READ_SECTOR =? CMD_READ_SECTOR) with true. cbn iota. by rewrite Hr.
    + exfalso. unfold splice in E. case_bool; zb; [discriminate|lia].
Qed.

Lemma write_sectors_snoc n : forall d lba buf, zlen buf = 512 * Z.of_nat (S n) ->
  write_sectors d lba (S n) buf
  = set_sector (write_sectors d lba n (take (512 * n) buf)) (lba + Z.of_nat n) (drop (512 * n) buf).
Proof.
  induction n as [|n IH]; intros d lba buf Hl.
  - cbn [write_sectors]. rewrite Z.add_0_r, (take_ge buf 512) by lia. reflexivity.
  - cbn [write_sectors] in *. rewrite IH by (rewrite length_drop; lia).
    rewrite take_take, drop_drop, take_drop_commute. f_equal; [|lia|f_equal; lia].
    replace (512 `min` (512 * S n))%nat with 512%nat by lia.
    by replace (512 + 512 * n)%nat with (512 * S n)%nat by lia.
Qed.

Lemma run_writes ds buf hd lba n : 512 * Z.of_nat n <= zlen buf ->
  run_xfers ds buf (xfers CMD_WRITE_SECTOR hd lba (Z.of_nat n))
  = Ok (set_drive_of hd (write_sectors (drive_of hd ds) lba n (take (512 * n) buf)) ds, buf).
Proof.
  induction n as [|n IH]; intros Hn; [unfold set_drive_of, drive_of; cbn [write_sectors]; by rewrite set_drive_same|].
  replace (Z.of_nat (S n)) with (Z.of_nat n + 1) by lia. rewrite xfers_snoc by lia.
  unfold run_xfers in *. rewrite fold_left_app, IH by lia. cbn [fold_left].
  unfold apply_xfer. cbn [obind]. change (CMD_WRITE_SECTOR =? CMD_READ_SECTOR) with false. cbn iota.
  unfold slice. zdec. cbn [obind]. unfold set_drive_of. rewrite drive_set, set_drive_set. do 3 f_equal.
  rewrite write_sectors_snoc by (rewrite length_take; lia). f_equal.
  - rewrite take_take. do 2 f_equal. lia.
  - replace (Z.to_nat 512) with 512%nat by lia. rewrite take_drop_commute. f_equal; [lia|]. f_equal. lia.
Qed.

(** C33. The driver implements the interface. On a channel at rest, the operations of
    [ide_read] and [ide_write] keep the controller's protocol (registers and data only
    under the lock and in turn, no wait that nobody ends) and leave the channel at
    rest; on the two media of the channel, what they move puts into the buffer exactly
    the sectors [disk_read] reads from the drive of [hd], and leaves exactly the medium
    [disk_write] leaves on the drive of [hd], the other drive untouched. *)
Theorem ide_block_device ds buf hd lba sec_cnt status s0 :
  0 <= lba -> 0 < sec_cnt -> lba + sec_cnt - 1 <= max_lba -> 512 * sec_cnt <= zlen buf ->
  (forall i, disk_ready (status i)) -> at_rest s0 ->
  (exists tr s moves buf', ide_read hd lba sec_cnt status = Ok tr /\ ata_run hd s0 tr = Some s /\ at_rest s
     /\ ch_moved s = ch_moved s0 ++ moves /\ run_xfers ds buf moves = Ok (ds, buf')
     /\ disk_read (drive_of hd ds) lba sec_cnt buf 0 = Ok buf')
  /\ (exists tr s moves d', ide_write hd lba sec_cnt status = Ok tr /\ ata_run hd s0 tr = Some s /\ at_rest s
     /\ ch_moved s = ch_moved s0 ++ moves /\ run_xfers ds buf moves = Ok (set_drive_of hd d' ds, buf)
     /\ disk_write (drive_of hd ds) lba sec_cnt buf 0 = Ok d').
Proof.
  intros H1 H2 H3 H4 Hr Hs.
  assert (transfer_ok lba sec_cnt = Ok tt) as Hok.
  { unfold transfer_ok. pose proof (Z.mul_div_le (sec_cnt - 1) 256). change max_lba with 163839 in *. by zdec. }
  assert (sec_cnt = Z.of_nat (Z.to_nat sec_cnt)) as Hn by lia. split.
  - destruct (ide_read_moves hd lba sec_cnt status s0) as (tr & s & E & Ea & Hs' & Em); try done.
    destruct (splice buf 0 (read_sectors (drive_of hd ds) lba (Z.to_nat sec_cnt))) as [buf'|] eqn:Es.
    2: { exfalso. pose proof (read_sectors_length (drive_of hd ds) lba (Z.to_nat sec_cnt)).
         unfold splice in Es. case_bool; zb; [discriminate|lia]. }
    exists tr, s, (xfers CMD_READ_SECTOR hd lba sec_cnt), buf'. split_and!; try done.
    + rewrite Hn, run_reads by lia. by rewrite Es.
    + unfold disk_read. by rewrite Hok.
  - destruct (ide_write_moves hd lba sec_cnt status s0) as (tr & s & E & Ea & Hs' & Em); try done.
    exists tr, s, (xfers CMD_WRITE_SECTOR hd lba sec_cnt). eexists. split_and!; try done.
    + rewrite Hn at 1. by rewrite run_writes by lia.
    + unfold disk_write, slice. rewrite Hok. cbn [obind]. zdec. cbn [obind].
      do 2 f_equal. change (Z.to_nat 0) with 0%nat. rewrite drop_0. f_equal. lia.
Qed.

End refinement.

Definition demo_disk : sparse_disk := mk_sparse {[ 7 := replicate 512 65 ]}.
Definition demo_drives : drives sparse_disk := mk_drives demo_disk (mk_sparse ∅).
Definition demo_chan : chan := mk_chan false false 0 (mk_ata 0 0 0 0 0 None) [].

(** Three sectors to the slave. *)
Example ide_block_device_witness :
  exists tr s moves d', ide_write (mk_disk 0x1f0 1) 1000 3 (fun _ _ => 8) = Ok tr
    /\ ata_run (mk_disk 0x1f0 1) demo_chan tr = Some s /\ at_rest s /\ ch_moved s = [] ++ moves
    /\ run_xfers demo_drives (replicate 1536 66) moves = Ok (mk_drives demo_disk d', replicate 1536 66)
    /\ disk_write (mk_sparse ∅) 1000 3 (replicate 1536 66) 0 = Ok d'.
Proof.
  apply (ide_block_device demo_drives (replicate 1536 66) (mk_disk 0x1f0 1) 1000 3 (fun _ _ => 8) demo_chan);
    try (change max_lba with 163839; lia); [rewrite length_replicate; lia | | by split_and!].
  intros i. exists 0%nat. split; [lia|]. split; [intros; lia|]. split; [reflexivity | discriminate].
Defined.
