(* ===== verification/Inode.v ===== *)
(** fs/inode.c, with the data of fs/inode.h, fs/super_block.h, fs/file.h and
    device/ide.h's partition, and the bitmap part of fs/file.c: the state of the
    mounted file system and its inodes, on disk and in memory.

    The functions are run one after the other: what other threads do while
    [ide_read] or [ide_write] blocks is not modelled. Kernel memory is reached
    through the interface [KernelHeap]; of the objects on the heap the model
    keeps those that outlive a call (the open inodes, by address), a buffer that
    a function allocates and frees itself is a list of that function. *)
From S2P Require Import Prelude Bitmap Thread Ide Blockdev.

(** ** The allocator, as its clients see it
    The flag says which heap: [true] for the kernel's (the caller's [pgdir] set
    to NULL), [false] for the heap of the running thread. NULL is 0. *)

Class KernelHeap (H : Type) := {
  sys_malloc : H -> bool -> Z -> H * Z;
  sys_free : H -> bool -> Z -> H;
  live : H -> bool -> Z -> Prop;
  may_malloc : H -> bool -> Z -> Prop }.

Class KernelHeapLaws (H : Type) `{KernelHeap H} := {
  malloc_some h k n : may_malloc h k n -> snd (sys_malloc h k n) <> 0;
  malloc_fresh h k n h' a : may_malloc h k n -> sys_malloc h k n = (h', a) ->
    ~ live h k a /\ forall k' b, live h' k' b <-> live h k' b \/ (k' = k /\ b = a);
  free_gone h k a k' b : live h k a ->
    live (sys_free h k a) k' b <-> live h k' b /\ ~ (k' = k /\ b = a) }.

(** An allocator that never runs out: above everything it has given. *)
Record bump_heap := mk_bump { blocks : list (bool * Z) }.

Definition top_addr (l : list (bool * Z)) : Z := foldr (fun x m => Z.max (snd x + 1024) m) 4096 l.

#[export] Instance bump_alloc : KernelHeap bump_heap := {
  sys_malloc h k n := (mk_bump ((k, top_addr (blocks h)) :: blocks h), top_addr (blocks h));
  sys_free h k a := mk_bump (filter (fun x => x <> (k, a)) (blocks h));
  live h k a := In (k, a) (blocks h);
  may_malloc _ _ _ := True }.

(** ** Data *)

Record super_block := mk_sb {
  magic : Z; sb_sec_cnt : Z; inode_cnt : Z; part_lba_base : Z;
  block_bitmap_lba : Z; block_bitmap_sects : Z;
  inode_bitmap_lba : Z; inode_bitmap_sects : Z;
  inode_table_lba : Z; inode_table_sects : Z;
  data_start_lba : Z; root_inode_no : Z; dir_entry_size : Z }.

(** [struct inode]; [inode_tag] is the node's place in [open_inodes]. *)
Record inode := mk_inode {
  i_no : Z; i_size : Z; i_open_cnts : Z; write_deny : Z; i_sectors : list Z }.

Definition sizeof_inode : Z := 76.

Record partition := mk_partition {
  start_lba : Z; sec_cnt : Z; sb : super_block;
  block_bitmap : bitmap; inode_bitmap : bitmap; open_inodes : list Z }.

Record file := mk_file { fd_pos : Z; fd_flag : Z; fd_inode : Z }.

(** The mounted partition [cur_part] with the medium it is on, the heap, the
    inodes in memory by address, and the kernel's threads. *)
Record fstate {D H : Type} := mk_fs {
  medium : D; cur_part : partition; kheap : H; inodes : gmap Z inode;
  file_table : list file; kern : kstate }.
Arguments fstate : clear implicits.

Definition set_open (v : list Z) (p : partition) : partition :=
  mk_partition (start_lba p) (sec_cnt p) (sb p) (block_bitmap p) (inode_bitmap p) v.
Definition set_block_bitmap (v : bitmap) (p : partition) : partition :=
  mk_partition (start_lba p) (sec_cnt p) (sb p) v (inode_bitmap p) (open_inodes p).
Definition set_inode_bitmap (v : bitmap) (p : partition) : partition :=
  mk_partition (start_lba p) (sec_cnt p) (sb p) (block_bitmap p) v (open_inodes p).

Definition set_cnts (v : Z) (i : inode) : inode := mk_inode (i_no i) (i_size i) v (write_deny i) (i_sectors i).
Definition set_deny (v : Z) (i : inode) : inode := mk_inode (i_no i) (i_size i) (i_open_cnts i) v (i_sectors i).
Definition set_size (v : Z) (i : inode) : inode := mk_inode (i_no i) v (i_open_cnts i) (write_deny i) (i_sectors i).
Definition set_sectors (v : list Z) (i : inode) : inode :=
  mk_inode (i_no i) (i_size i) (i_open_cnts i) (write_deny i) v.

(** The 19 words of a [struct inode] whose tag is cleared. *)
Definition inode_words (i : inode) : list Z :=
  [i_no i; i_size i; i_open_cnts i; write_deny i] ++ i_sectors i ++ [0; 0].

(** The structure at byte [off] of a buffer; the tag is overwritten by the
    [list_push] that follows every such copy. *)
Definition inode_at (buf : list Z) (off : Z) : outcome inode :=
  let! l := slice buf off sizeof_inode in
  match bytes_to_words l with
  | no :: size :: cnts :: deny :: rest => Ok (mk_inode no size cnts deny (take 13 rest))
  | _ => Err BadAccess
  end.

Section inode.
Context {D H : Type} `{BlockDevice D} `{KernelHeap H}.
Abbreviation fs := (fstate D H).

Definition with_medium (v : D) (f : fs) : fs :=
  mk_fs _ _ v (cur_part f) (kheap f) (inodes f) (file_table f) (kern f).
Definition with_part (v : partition) (f : fs) : fs :=
  mk_fs _ _ (medium f) v (kheap f) (inodes f) (file_table f) (kern f).
Definition with_kheap (v : H) (f : fs) : fs :=
  mk_fs _ _ (medium f) (cur_part f) v (inodes f) (file_table f) (kern f).
Definition with_inodes (v : gmap Z inode) (f : fs) : fs :=
  mk_fs _ _ (medium f) (cur_part f) (kheap f) v (file_table f) (kern f).
Definition with_files (v : list file) (f : fs) : fs :=
  mk_fs _ _ (medium f) (cur_part f) (kheap f) (inodes f) v (kern f).
Definition with_kern (v : kstate) (f : fs) : fs :=
  mk_fs _ _ (medium f) (cur_part f) (kheap f) (inodes f) (file_table f) v.

Definition get_inode (f : fs) (a : Z) : outcome inode :=
  match inodes f !! a with Some i => Ok i | None => Err BadAccess end.

Definition put_inode (a : Z) (i : inode) (f : fs) : fs := with_inodes (<[a := i]> (inodes f)) f.

(** ** Code *)

Record inode_position := mk_pos { two_sec : bool; sec_lba : Z; off_size : Z }.

Definition inode_locate (part : partition) (inode_no : Z) : outcome inode_position :=
  c_assert (inode_no <? 4096) ;;;
  let off_size := u32 (inode_no * sizeof_inode) in
  let off_sec := off_size / 512 in
  let off_size_in_sec := off_size mod 512 in
  let left_in_sec := 512 - off_size_in_sec in
  Ok (mk_pos (left_in_sec <? sizeof_inode) (u32 (inode_table_lba (sb part) + off_sec)) off_size_in_sec).

(** The sectors an inode lies on. *)
Definition pos_secs (pos : inode_position) : Z := if two_sec pos then 2 else 1.

Definition sec_in_part (part : partition) (pos : inode_position) : outcome unit :=
  c_assert (sec_lba pos <=? u32 (start_lba part + sec_cnt part)).

(** [inode_sync]: the caller's buffer is read into, patched and written back; it
    is part of the result. The inode number passes through a [uint8_t]. *)
Definition inode_sync (f : fs) (i : inode) (io_buf : list Z) : outcome (fs * list Z) :=
  let inode_no := u8 (i_no i) in
  let! pos := inode_locate (cur_part f) inode_no in
  sec_in_part (cur_part f) pos ;;;
  let pure_inode := set_cnts 0 (set_deny 0 i) in
  let! inode_buf := disk_read (medium f) (sec_lba pos) (pos_secs pos) io_buf 0 in
  let! inode_buf := splice inode_buf (off_size pos) (words_to_bytes (inode_words pure_inode)) in
  let! d := disk_write (medium f) (sec_lba pos) (pos_secs pos) inode_buf 0 in
  Ok (with_medium d f, inode_buf).

(** The walk along [open_inodes]. *)
Fixpoint find_open (m : gmap Z inode) (l : list Z) (inode_no : Z) : outcome (option (Z * inode)) :=
  match l with
  | [] => Ok None
  | a :: l =>
      match m !! a with
      | None => Err BadAccess
      | Some i => if i_no i =? inode_no then Ok (Some (a, i)) else find_open m l inode_no
      end
  end.

Definition inode_open (f : fs) (inode_no : Z) : outcome (fs * Z) :=
  let! found := find_open (inodes f) (open_inodes (cur_part f)) inode_no in
  match found with
  | Some (a, i) => Ok (put_inode a (set_cnts (u32 (i_open_cnts i + 1)) i) f, a)
  | None =>
      let! pos := inode_locate (cur_part f) inode_no in
      let '(h, a) := sys_malloc (kheap f) true sizeof_inode in
      let '(h, b) := sys_malloc h false (512 * pos_secs pos) in
      if b =? 0 then Err BadAccess else
      let! inode_buf := disk_read (medium f) (sec_lba pos) (pos_secs pos)
                          (replicate (Z.to_nat (512 * pos_secs pos)) 0) 0 in
      if a =? 0 then Err BadAccess else
      let! i := inode_at inode_buf (off_size pos) in
      let f := with_part (set_open (a :: open_inodes (cur_part f)) (cur_part f)) f in
      let f := put_inode a (set_cnts 1 i) f in
      Ok (with_kheap (sys_free h false b) f, a)
  end.

(** [list_remove] of a node that is in no list would corrupt memory. *)
Definition inode_close (f : fs) (a : Z) : outcome fs :=
  let! i := get_inode f a in
  let cnts := u32 (i_open_cnts i - 1) in
  if cnts =? 0 then
    if elem_find (open_inodes (cur_part f)) a then
      let f := with_part (set_open (remove_elem a (open_inodes (cur_part f))) (cur_part f)) f in
      Ok (with_kheap (sys_free (kheap f) true a) (with_inodes (delete a (inodes f)) f))
    else Err BadAccess
  else Ok (put_inode a (set_cnts cnts i) f).

Definition inode_delete (f : fs) (inode_no : Z) (io_buf : list Z) : outcome (fs * list Z) :=
  c_assert (inode_no <? 4096) ;;;
  let! pos := inode_locate (cur_part f) inode_no in
  sec_in_part (cur_part f) pos ;;;
  let! inode_buf := disk_read (medium f) (sec_lba pos) (pos_secs pos) io_buf 0 in
  let! inode_buf := splice inode_buf (off_size pos) (replicate (Z.to_nat sizeof_inode) 0) in
  let! d := disk_write (medium f) (sec_lba pos) (pos_secs pos) inode_buf 0 in
  Ok (with_medium d f, inode_buf).

Definition inode_init (inode_no : Z) : inode := mk_inode inode_no 0 0 0 (replicate 13 0).

(** *** fs/file.c: the bitmaps *)

Inductive bitmap_type := INODE_BITMAP | BLOCK_BITMAP.

Definition inode_bitmap_alloc (f : fs) : outcome (fs * Z) :=
  let! bit_idx := bitmap_scan (inode_bitmap (cur_part f)) 1 in
  if bit_idx =? -1 then Ok (f, -1) else
  let! b := bitmap_set (inode_bitmap (cur_part f)) bit_idx 1 in
  Ok (with_part (set_inode_bitmap b (cur_part f)) f, bit_idx).

Definition block_bitmap_alloc (f : fs) : outcome (fs * Z) :=
  let! bit_idx := bitmap_scan (block_bitmap (cur_part f)) 1 in
  if bit_idx =? -1 then Ok (f, -1) else
  let! b := bitmap_set (block_bitmap (cur_part f)) bit_idx 1 in
  Ok (with_part (set_block_bitmap b (cur_part f)) f, s32 (u32 (data_start_lba (sb (cur_part f)) + bit_idx))).

Definition bitmap_sync (f : fs) (bit_idx : Z) (btmp : bitmap_type) : outcome fs :=
  let off_sec := bit_idx / 4096 in
  let off_size := u32 (off_sec * BLOCK_SIZE) in
  let '(lba, bits) :=
    match btmp with
    | INODE_BITMAP => (u32 (inode_bitmap_lba (sb (cur_part f)) + off_sec), bits (inode_bitmap (cur_part f)))
    | BLOCK_BITMAP => (u32 (block_bitmap_lba (sb (cur_part f)) + off_sec), bits (block_bitmap (cur_part f)))
    end in
  let! d := disk_write (medium f) lba 1 bits off_size in
  Ok (with_medium d f).

(** Clear the block's bit and write the bitmap's sector back. *)
Definition release_block (f : fs) (lba : Z) : outcome fs :=
  let block_bitmap_idx := u32 (lba - data_start_lba (sb (cur_part f))) in
  c_assert (0 <? block_bitmap_idx) ;;;
  let! b := bitmap_set (block_bitmap (cur_part f)) block_bitmap_idx 0 in
  bitmap_sync (with_part (set_block_bitmap b (cur_part f)) f) block_bitmap_idx BLOCK_BITMAP.

Fixpoint release_blocks (f : fs) (all_blocks : list Z) : outcome fs :=
  match all_blocks with
  | [] => Ok f
  | lba :: l =>
      let! f := if negb (lba =? 0) then release_block f lba else Ok f in
      release_blocks f l
  end.

(** The table of 128 block addresses in a sector. *)
Definition read_table (d : D) (lba : Z) : outcome (list Z) :=
  let! buf := disk_read d lba 1 (replicate 512 0) 0 in
  Ok (bytes_to_words buf).

(** Step 1: the table's block first, then the blocks. *)
Definition inode_release_blocks (f : fs) (i : inode) : outcome fs :=
  let! table_lba := rd (i_sectors i) 12 in
  let! ' (f, all_blocks) :=
    if negb (table_lba =? 0) then
      let! table := read_table (medium f) table_lba in
      let! f := release_block f table_lba in
      Ok (f, take 12 (i_sectors i) ++ table)
    else Ok (f, take 12 (i_sectors i)) in
  release_blocks f all_blocks.

Definition inode_release (f : fs) (inode_no : Z) : outcome fs :=
  let! ' (f, a) := inode_open f inode_no in
  let! i := get_inode f a in
  c_assert (i_no i =? inode_no) ;;;
  let! f := inode_release_blocks f i in
  let! b := bitmap_set (inode_bitmap (cur_part f)) inode_no 0 in
  let! f := bitmap_sync (with_part (set_inode_bitmap b (cur_part f)) f) inode_no INODE_BITMAP in
  let '(h, io_buf) := sys_malloc (kheap f) false 1024 in
  if io_buf =? 0 then Err BadAccess else
  let! ' (f, _) := inode_delete (with_kheap h f) inode_no (replicate 1024 0) in
  let f := with_kheap (sys_free (kheap f) false io_buf) f in
  inode_close f a.

End inode.

(** ** Specification *)

Definition wf_inode (i : inode) : Prop :=
  length (i_sectors i) = 13%nat /\ Forall (fun w => is_u32 w) (inode_words i).

(** The layout of a formatted partition, in the partition and on the disk, and
    the bitmaps as they are mounted: their sectors, and memory after them. *)
Record geometry (p : partition) : Prop := {
  geo_start : 0 <= start_lba p;
  geo_end : start_lba p + sec_cnt p <= max_lba;
  geo_bb : start_lba p + 2 <= block_bitmap_lba (sb p);
  geo_ib : block_bitmap_lba (sb p) + block_bitmap_sects (sb p) <= inode_bitmap_lba (sb p);
  geo_table : inode_bitmap_lba (sb p) + 1 <= inode_table_lba (sb p);
  geo_data : inode_table_lba (sb p) + 608 <= data_start_lba (sb p);
  geo_last : data_start_lba (sb p) <= start_lba p + sec_cnt p;
  geo_bb_len : btmp_bytes_len (block_bitmap p) = 512 * block_bitmap_sects (sb p);
  geo_ib_len : btmp_bytes_len (inode_bitmap p) = 512;
  geo_bb_wf : bitmap_wf 1 (block_bitmap p);
  geo_ib_wf : bitmap_wf 1 (inode_bitmap p);
  geo_root : bit (block_bitmap p) 0 = true;
  geo_free k : 0 <= k < nbits (block_bitmap p) -> bit (block_bitmap p) k = false ->
    data_start_lba (sb p) + k < start_lba p + sec_cnt p }.

(** The arithmetic of the layout, for [lia]. *)
Ltac geo G :=
  let g := fresh in
  pose proof G as g; destruct g as [? ? ? ? ? ? ? ? ? [? ? ? ?] [? ? ? ?] ? ?];
  unfold nbits in *; change max_lba with 163839 in *.

(** The byte address of an inode, and the inode the disk holds there. *)
Definition inode_addr (p : partition) (no : Z) : Z := 512 * inode_table_lba (sb p) + 76 * no.

Definition disk_inode {D} `{BlockDevice D} (d : D) (p : partition) (no : Z) : outcome inode :=
  inode_at (read_sectors d (inode_addr p no / 512) 2) (inode_addr p no mod 512).

(** The open inodes: distinct kernel blocks, at most one per number, each counted. *)
Record mem_ok {D H} `{KernelHeap H} (f : fstate D H) : Prop := {
  mem_nodup : NoDup (open_inodes (cur_part f));
  mem_open a : a ∈ open_inodes (cur_part f) ->
    exists i, inodes f !! a = Some i /\ 0 <= i_no i < 4096 /\ 1 <= i_open_cnts i < 2 ^ 32;
  mem_live a i : inodes f !! a = Some i -> a <> 0 /\ live (kheap f) true a;
  mem_one a b i j : a ∈ open_inodes (cur_part f) -> b ∈ open_inodes (cur_part f) ->
    inodes f !! a = Some i -> inodes f !! b = Some j -> i_no i = i_no j -> a = b }.

(** The heap can serve the next [n] requests of at most 1024 bytes. *)
Fixpoint roomy {H} `{KernelHeap H} (n : nat) (h : H) : Prop :=
  match n with
  | O => True
  | S n => (forall k sz, 0 < sz <= 1024 -> may_malloc h k sz /\ roomy n (fst (sys_malloc h k sz)))
           /\ forall k a, live h k a -> roomy n (sys_free h k a)
  end.

Definition same_live {H} `{KernelHeap H} (h h' : H) : Prop := forall k a, live h k a <-> live h' k a.

(** Inode [no] is not open. *)
Definition not_open {D H} (f : fstate D H) (no : Z) : Prop :=
  forall a i, a ∈ open_inodes (cur_part f) -> inodes f !! a = Some i -> i_no i <> no.

(** The bitmaps on the disk are those in memory. *)
Definition bb_synced {D} `{BlockDevice D} (d : D) (p : partition) : Prop :=
  forall q, 0 <= q < 512 * block_bitmap_sects (sb p) ->
    dbyte d (512 * block_bitmap_lba (sb p) + q) = bits (block_bitmap p) !! Z.to_nat q.
Definition ib_synced {D} `{BlockDevice D} (d : D) (p : partition) : Prop :=
  forall q, 0 <= q < 512 ->
    dbyte d (512 * inode_bitmap_lba (sb p) + q) = bits (inode_bitmap p) !! Z.to_nat q.

(** A byte address inside the bitmaps' sectors. *)
Definition in_bb (p : partition) (q : Z) : Prop :=
  512 * block_bitmap_lba (sb p) <= q < 512 * (block_bitmap_lba (sb p) + block_bitmap_sects (sb p)).
Definition in_ib (p : partition) (q : Z) : Prop :=
  512 * inode_bitmap_lba (sb p) <= q < 512 * (inode_bitmap_lba (sb p) + 1).

(** A block of the data area other than the root directory's first. *)
Definition data_block (p : partition) (lba : Z) : Prop :=
  0 < lba - data_start_lba (sb p) < nbits (block_bitmap p) /\ lba < start_lba p + sec_cnt p.

(** The sectors an inode owns: its direct blocks, its table and the table's blocks. *)
Definition indirect_table {D} `{BlockDevice D} (d : D) (i : inode) : list Z :=
  let lba := default 0 (znth (i_sectors i) 12) in
  if lba =? 0 then [] else bytes_to_words (sector d lba).
Definition inode_blocks {D} `{BlockDevice D} (d : D) (i : inode) : list Z :=
  filter (fun b => b <> 0) (i_sectors i ++ indirect_table d i).

(** ** Lemmas *)

Lemma top_addr_above l : 4096 <= top_addr l /\ Forall (fun x => snd x < top_addr l) l.
Proof.
  induction l as [|x l [IH1 IH2]]; [by split|].
  change (top_addr (x :: l)) with (Z.max (snd x + 1024) (top_addr l)). split; [lia|]. constructor; [lia|].
  eapply Forall_impl; [exact IH2|]. intros y Hy; cbn beta in *; lia.
Qed.

#[local] Arguments top_addr : simpl never.
#[local] Arguments remove_elem : simpl never.

#[export] Instance bump_laws : KernelHeapLaws bump_heap.
Proof.
  split.
  - intros [l] k n _. cbn. pose proof (proj1 (top_addr_above l)) as Hl. lia.
  - intros [l] k n h' a _. cbn. intros [= <- <-]. cbn. split.
    + intros Hin. destruct (top_addr_above l) as [_ Hl]. rewrite Forall_forall in Hl.
      apply list_elem_of_In in Hin. specialize (Hl _ Hin). cbn beta in Hl. cbn [snd] in Hl. lia.
    + intros k' b. split; [intros [[= -> ->]|]; [by right | by left] | intros [|[-> ->]]; [by right | by left]].
  - intros [l] k a k' b _. cbn. rewrite <- !list_elem_of_In, list_elem_of_filter.
    split; [intros [Hne Hin]; split; [done | intros [-> ->]; by apply Hne]
           | intros [Hin Hne]; split; [intros [= -> ->]; by apply Hne | done]].
Qed.

Lemma bump_roomy n : forall h : bump_heap, roomy n h.
Proof.
  induction n as [|n IH]; intros h; [done|]. split; [|intros; apply IH].
  intros k sz _. split; [done | apply IH].
Qed.

Section lemmas.
Context {D H : Type} `{BlockDeviceLaws D} `{KernelHeapLaws H}.
Abbreviation fs := (fstate D H).
Implicit Types (f : fs) (p : partition) (i : inode) (d : D).

Lemma wf_inode_pure i : wf_inode i -> wf_inode (set_cnts 0 (set_deny 0 i)).
Proof.
  intros [Hs Hw]. split; [done|]. unfold inode_words in *. apply Forall_app in Hw as [Hw1 Hw2].
  apply Forall_app; split; [|done]. rewrite !Forall_cons in Hw1. destruct Hw1 as (? & ? & _).
  repeat (constructor; [cbn; lia|]). constructor.
Qed.

Lemma wf_set_one i : wf_inode i -> wf_inode (set_cnts 1 i).
Proof.
  intros [Hs Hw]. split; [done|]. unfold inode_words in *. apply Forall_app in Hw as [Hw1 Hw2].
  apply Forall_app; split; [|done]. rewrite !Forall_cons in Hw1. destruct Hw1 as (? & ? & ? & ? & _).
  repeat (constructor; [cbn; lia|]). constructor.
Qed.

Lemma inode_words_length i : length (i_sectors i) = 13%nat -> length (words_to_bytes (inode_words i)) = 76%nat.
Proof. intros Hs. rewrite words_to_bytes_length. unfold inode_words. rewrite !length_app, Hs. done. Qed.

(** The structure found where its bytes are. *)
Lemma inode_at_bytes buf off i : wf_inode i -> 0 <= off -> off + 76 <= zlen buf ->
  (forall k, 0 <= k < 76 -> buf !! Z.to_nat (off + k) = words_to_bytes (inode_words i) !! Z.to_nat k) ->
  inode_at buf off = Ok i.
Proof.
  intros [Hs Hw] Ho Hl Hb. unfold inode_at, slice, sizeof_inode. zdec. cbn [obind].
  assert (take (Z.to_nat 76) (drop (Z.to_nat off) buf) = words_to_bytes (inode_words i)) as ->.
  { apply list_eq. intros k. pose proof (inode_words_length i Hs) as Hlen.
    destruct (decide (k < 76)%nat) as [Hk|Hk].
    - specialize (Hb (Z.of_nat k) ltac:(lia)). rewrite Nat2Z.id in Hb. rewrite <- Hb.
      rewrite lookup_take_lt, lookup_drop by lia. f_equal; lia.
    - rewrite lookup_take_ge by lia. by rewrite lookup_ge_None_2 by lia. }
  rewrite bytes_to_words_to_bytes by done. unfold inode_words. cbn [app].
  rewrite take_app_length' by done. by destruct i.
Qed.

Lemma inode_at_ext buf buf' off off' : 0 <= off -> off + 76 <= zlen buf -> 0 <= off' -> off' + 76 <= zlen buf' ->
  (forall k, 0 <= k < 76 -> buf !! Z.to_nat (off + k) = buf' !! Z.to_nat (off' + k)) ->
  inode_at buf off = inode_at buf' off'.
Proof.
  intros O1 O2 O3 O4 Hb. unfold inode_at, slice, sizeof_inode. zdec. cbn [obind].
  assert (take (Z.to_nat 76) (drop (Z.to_nat off) buf) = take (Z.to_nat 76) (drop (Z.to_nat off') buf')) as ->; [|done].
  apply list_eq. intros k. destruct (decide (k < 76)%nat) as [Hk|Hk].
  - rewrite !lookup_take_lt, !lookup_drop by lia. specialize (Hb (Z.of_nat k) ltac:(lia)).
    replace (Z.to_nat (off + Z.of_nat k)) with (Z.to_nat off + k)%nat in Hb by lia.
    by replace (Z.to_nat (off' + Z.of_nat k)) with (Z.to_nat off' + k)%nat in Hb by lia.
  - by rewrite !lookup_take_ge by lia.
Qed.

Lemma disk_inode_bytes d p no i : wf_inode i ->
  (forall k, 0 <= k < 76 -> dbyte d (inode_addr p no + k) = words_to_bytes (inode_words i) !! Z.to_nat k) ->
  disk_inode d p no = Ok i.
Proof.
  intros Hi Hb. unfold disk_inode. pose proof (Z.mod_pos_bound (inode_addr p no) 512 ltac:(lia)).
  pose proof (Z.div_mod (inode_addr p no) 512 ltac:(lia)).
  pose proof (read_sectors_length d (inode_addr p no / 512) 2) as Hl.
  apply inode_at_bytes; try lia; [done|].
  intros k Hk. rewrite read_sectors_lookup by lia. rewrite <- Hb by done. f_equal; lia.
Qed.

Lemma disk_inode_ext d d' p no :
  (forall k, 0 <= k < 76 -> dbyte d (inode_addr p no + k) = dbyte d' (inode_addr p no + k)) ->
  disk_inode d p no = disk_inode d' p no.
Proof.
  intros Hb. unfold disk_inode. pose proof (Z.mod_pos_bound (inode_addr p no) 512 ltac:(lia)).
  pose proof (Z.div_mod (inode_addr p no) 512 ltac:(lia)).
  pose proof (read_sectors_length d (inode_addr p no / 512) 2) as Hl.
  pose proof (read_sectors_length d' (inode_addr p no / 512) 2) as Hl'.
  apply inode_at_ext; try lia. intros k Hk. rewrite !read_sectors_lookup by lia.
  replace (512 * (inode_addr p no / 512) + (inode_addr p no mod 512 + k)) with (inode_addr p no + k) by lia. auto.
Qed.

(** Where [inode_locate] says an inode is. *)
Lemma inode_locate_ok p no : geometry p -> 0 <= no < 4096 ->
  exists pos, inode_locate p no = Ok pos
    /\ 512 * sec_lba pos + off_size pos = inode_addr p no
    /\ 0 <= off_size pos < 512 /\ off_size pos + 76 <= 512 * pos_secs pos
    /\ 0 < pos_secs pos <= 2 /\ 0 <= sec_lba pos /\ sec_lba pos <= max_lba
    /\ sec_in_part p pos = Ok tt
    /\ (two_sec pos = true <-> 436 < off_size pos).
Proof.
  intros G Hno. geo G. unfold inode_locate, sizeof_inode. zdec. cbn [c_assert obind].
  rewrite u32_small by lia.
  pose proof (Z.mod_pos_bound (no * 76) 512 ltac:(lia)). pose proof (Z.div_mod (no * 76) 512 ltac:(lia)).
  assert (0 <= no * 76 / 512 <= 607) by lia.
  rewrite u32_small by lia. eexists; split; [done|]. cbn [sec_lba off_size].
  unfold inode_addr, pos_secs, sec_in_part. cbn [two_sec sec_lba].
  rewrite u32_small by lia.
  destruct (Z.ltb_spec (512 - (no * 76) mod 512) 76); cbn [two_sec]; zdec; repeat split; try lia; try done.
Qed.

(** Bytes read, patched and written back: what all updates of the inode table do. *)
Lemma patch_sectors d lba n io_buf off bs : lba <= max_lba -> 0 < n <= 256 -> 0 <= off ->
  off + zlen bs <= 512 * n -> 512 * n <= zlen io_buf -> bytes io_buf -> bytes bs ->
  exists b1 b2 d', disk_read d lba n io_buf 0 = Ok b1 /\ splice b1 off bs = Ok b2
    /\ disk_write d lba n b2 0 = Ok d' /\ zlen b2 = zlen io_buf /\ bytes b2
    /\ forall q, dbyte d' q = if (512 * lba + off <=? q) && (q <? 512 * lba + off + zlen bs)
                              then bs !! Z.to_nat (q - (512 * lba + off)) else dbyte d q.
Proof.
  intros Hl Hn Ho Hs Hb Hbb Hbs.
  destruct (disk_read_ok d lba n io_buf 0) as (b1 & E1 & L1 & R1 & B1 & _); try lia.
  destruct (splice_ok b1 off bs) as [b2 E2]; try lia.
  pose proof (splice_length _ _ _ _ E2) as L2.
  assert (bytes b2) as B2 by (eapply splice_forall; eauto).
  destruct (disk_write_ok d lba n b2 0) as (d' & E3 & W); try lia; try done.
  exists b1, b2, d'. repeat split; try done; [lia|]. intros q. rewrite W.
  destruct ((512 * lba <=? q) && (q <? 512 * (lba + n))) eqn:Eq.
  - zb. rewrite (splice_lookup _ _ _ _ _ E2) by lia.
    replace (0 + (q - 512 * lba)) with (q - 512 * lba) by lia.
    replace (off <=? q - 512 * lba) with (512 * lba + off <=? q)
      by (destruct (Z.leb_spec (512 * lba + off) q); symmetry; [apply Z.leb_le | apply Z.leb_gt]; lia).
    replace (q - 512 * lba <? off + zlen bs) with (q <? 512 * lba + off + zlen bs)
      by (destruct (Z.ltb_spec q (512 * lba + off + zlen bs)); symmetry; [apply Z.ltb_lt | apply Z.ltb_ge]; lia).
    case_bool; [f_equal; lia|]. specialize (R1 (q - 512 * lba) ltac:(lia)).
    rewrite Z.add_0_l in R1. rewrite R1. f_equal; lia.
  - case_bool; [|done]. zb. destruct Eq; zb; lia.
Qed.

(** How many sectors an inode lies on. *)
Definition inode_secs p (no : Z) : Z := if 436 <? inode_addr p no mod 512 then 2 else 1.

Lemma inode_secs_pos p no pos : inode_locate p no = Ok pos -> 0 <= off_size pos < 512 ->
  512 * sec_lba pos + off_size pos = inode_addr p no -> (two_sec pos = true <-> 436 < off_size pos) ->
  pos_secs pos = inode_secs p no.
Proof.
  intros _ Ho Ha Ht. unfold pos_secs, inode_secs.
  replace (inode_addr p no mod 512) with (off_size pos) by (apply (Z.mod_unique _ _ (sec_lba pos)); lia).
  destruct (Z.ltb_spec 436 (off_size pos)), (two_sec pos); try done; intuition (congruence || lia).
Qed.

(** [inode_sync] puts the bytes of the inode, open count and write lock cleared,
    into the slot of its number modulo 256, whatever the number. *)
Lemma inode_sync_gen f i io_buf : geometry (cur_part f) -> length (i_sectors i) = 13%nat ->
  512 * inode_secs (cur_part f) (u8 (i_no i)) <= zlen io_buf -> bytes io_buf ->
  exists d' buf', inode_sync f i io_buf = Ok (with_medium d' f, buf')
    /\ zlen buf' = zlen io_buf /\ bytes buf'
    /\ forall q, dbyte d' q =
         let a := inode_addr (cur_part f) (u8 (i_no i)) in
         if (a <=? q) && (q <? a + 76)
         then words_to_bytes (inode_words (set_cnts 0 (set_deny 0 i))) !! Z.to_nat (q - a) else dbyte (medium f) q.
Proof.
  intros G Hs Hb Hbb. pose proof (u8_range (i_no i)) as Hu.
  destruct (inode_locate_ok (cur_part f) (u8 (i_no i)) G ltac:(lia))
    as (pos & E & Ha & Ho & Hf & Hn & Hl0 & Hl & Hin & Ht).
  rewrite <- (inode_secs_pos _ _ pos E Ho Ha Ht) in Hb.
  unfold inode_sync. rewrite E. cbn [obind]. rewrite Hin. cbn [obind].
  pose proof (inode_words_length (set_cnts 0 (set_deny 0 i)) Hs) as Hw.
  destruct (patch_sectors (medium f) (sec_lba pos) (pos_secs pos) io_buf (off_size pos)
              (words_to_bytes (inode_words (set_cnts 0 (set_deny 0 i)))))
    as (b1 & b2 & d' & E1 & E2 & E3 & L & B & W); try lia; try done; [apply words_to_bytes_bytes|].
  rewrite E1. cbn [obind]. rewrite E2. cbn [obind]. rewrite E3. cbn [obind].
  exists d', b2. repeat split; try done. intros q. rewrite W, Ha, Hw. done.
Qed.

(** A buffer shorter than the sectors of the inode is written past its end. *)
Lemma inode_sync_short f i io_buf : geometry (cur_part f) ->
  zlen io_buf < 512 * inode_secs (cur_part f) (u8 (i_no i)) ->
  inode_sync f i io_buf = Err BadAccess.
Proof.
  intros G Hb. pose proof (u8_range (i_no i)) as Hu.
  destruct (inode_locate_ok (cur_part f) (u8 (i_no i)) G ltac:(lia))
    as (pos & E & Ha & Ho & Hf & Hn & Hl0 & Hl & Hin & Ht).
  rewrite <- (inode_secs_pos _ _ pos E Ho Ha Ht) in Hb.
  unfold inode_sync. rewrite E. cbn [obind]. rewrite Hin. cbn [obind].
  unfold disk_read. rewrite transfer_ok_small by lia. cbn [obind].
  pose proof (read_sectors_length (medium f) (sec_lba pos) (Z.to_nat (pos_secs pos))).
  unfold splice. case_bool; [zb; lia | done].
Qed.

Lemma inode_sync_ok f i io_buf : geometry (cur_part f) -> length (i_sectors i) = 13%nat ->
  1024 <= zlen io_buf -> bytes io_buf ->
  exists d' buf', inode_sync f i io_buf = Ok (with_medium d' f, buf')
    /\ zlen buf' = zlen io_buf /\ bytes buf'
    /\ forall q, dbyte d' q =
         let a := inode_addr (cur_part f) (u8 (i_no i)) in
         if (a <=? q) && (q <? a + 76)
         then words_to_bytes (inode_words (set_cnts 0 (set_deny 0 i))) !! Z.to_nat (q - a) else dbyte (medium f) q.
Proof. intros. apply inode_sync_gen; try done. unfold inode_secs. case_bool; lia. Qed.

Lemma inode_delete_ok f no io_buf : geometry (cur_part f) -> 0 <= no < 4096 ->
  1024 <= zlen io_buf -> bytes io_buf ->
  exists d' buf', inode_delete f no io_buf = Ok (with_medium d' f, buf')
    /\ forall q, dbyte d' q =
         let a := inode_addr (cur_part f) no in
         if (a <=? q) && (q <? a + 76) then Some 0 else dbyte (medium f) q.
Proof.
  intros G Hno Hb Hbb. unfold inode_delete. replace (no <? 4096) with true by (symmetry; apply Z.ltb_lt; lia).
  destruct (inode_locate_ok (cur_part f) no G Hno) as (pos & E & Ha & Ho & Hf & Hn & Hl0 & Hl & Hin & _).
  cbn [c_assert obind]. rewrite E. cbn [obind]. rewrite Hin. cbn [obind].
  destruct (patch_sectors (medium f) (sec_lba pos) (pos_secs pos) io_buf (off_size pos)
              (replicate (Z.to_nat sizeof_inode) 0))
    as (b1 & b2 & d' & E1 & E2 & E3 & L & B & W); try lia; try done.
  { apply Forall_replicate. unfold is_byte; lia. }
  rewrite E1. cbn [obind]. rewrite E2. cbn [obind]. rewrite E3. cbn [obind].
  exists d', b2. split; [done|]. intros q. rewrite W, Ha, length_replicate.
  change (Z.of_nat (Z.to_nat sizeof_inode)) with 76. cbv zeta. case_bool; [|done]. zb.
  apply lookup_replicate_2. unfold sizeof_inode. lia.
Qed.

(** [bitmap_sync] copies the sector of the bitmap that holds the bit. *)
Lemma bitmap_sync_ok f idx ty : geometry (cur_part f) ->
  let b := match ty with INODE_BITMAP => inode_bitmap (cur_part f) | BLOCK_BITMAP => block_bitmap (cur_part f) end in
  let lba := match ty with INODE_BITMAP => inode_bitmap_lba (sb (cur_part f))
                         | BLOCK_BITMAP => block_bitmap_lba (sb (cur_part f)) end in
  0 <= idx < nbits b ->
  exists d', bitmap_sync f idx ty = Ok (with_medium d' f)
    /\ forall q, dbyte d' q =
         if (512 * (lba + idx / 4096) <=? q) && (q <? 512 * (lba + idx / 4096 + 1))
         then bits b !! Z.to_nat (q - 512 * lba) else dbyte (medium f) q.
Proof.
  intros G b lba Hidx.
  assert (0 <= lba /\ 0 <= idx / 4096 /\ lba + idx / 4096 <= max_lba /\ 512 * (idx / 4096) + 512 <= zlen (bits b)
          /\ bytes (bits b)) as (Hl0 & Hd0 & Hl & Hlen & Hb).
  { geo G. pose proof (Z.div_mod idx 4096 ltac:(lia)). pose proof (Z.mod_pos_bound idx 4096 ltac:(lia)).
    unfold b, lba in *. destruct ty; unfold nbits in *; repeat split; try done; lia. }
  unfold bitmap_sync. destruct (disk_write_ok (medium f) (lba + idx / 4096) 1 (bits b) (512 * (idx / 4096)))
    as (d' & E & W); try lia; try done.
  exists d'. split.
  - change max_lba with 163839 in *. change BLOCK_SIZE with 512.
    rewrite (u32_small (idx / 4096 * 512)) by (geo G; unfold b in *; destruct ty; unfold nbits in *; lia).
    rewrite (Z.mul_comm (idx / 4096) 512).
    unfold b, lba in *. destruct ty; rewrite u32_small, E by lia; done.
  - intros q. rewrite W. case_bool; [|done]. f_equal. lia.
Qed.

(** Any clear bit makes the next allocation succeed, with the lowest clear one. *)
Lemma block_bitmap_alloc_ok f : geometry (cur_part f) ->
  (exists k, 0 <= k < nbits (block_bitmap (cur_part f)) /\ bit (block_bitmap (cur_part f)) k = false) ->
  exists k b, block_bitmap_alloc f
      = Ok (with_part (set_block_bitmap b (cur_part f)) f, data_start_lba (sb (cur_part f)) + k)
    /\ 0 < k < nbits (block_bitmap (cur_part f)) /\ bit (block_bitmap (cur_part f)) k = false
    /\ geometry (set_block_bitmap b (cur_part f)) /\ nbits b = nbits (block_bitmap (cur_part f))
    /\ forall j, bit b j = if j =? k then true else bit (block_bitmap (cur_part f)) j.
Proof.
  intros G Hfree. destruct (bitmap_scan_first _ 1 (geo_bb_wf _ G) Hfree) as (k & Hk & Hf & Ht & Hs).
  destruct (bitmap_set_ok _ 1 k true (geo_bb_wf _ G) ltac:(lia)) as (b & Hb & Hblen & Hwf & Hbits).
  cbn [Z.eqb Pos.eqb] in Hs. unfold block_bitmap_alloc. rewrite Hs. cbn [obind].
  replace (k =? -1) with false by (symmetry; apply Z.eqb_neq; lia). change 1 with (Z.b2z true). rewrite Hb. cbn [obind].
  assert (k <> 0) as Hk0 by (intros ->; pose proof (geo_root _ G); congruence).
  exists k, b. split; [|split; [lia|split; [done|split; [|split; [unfold nbits; by rewrite Hblen|done]]]]].
  - geo G. by rewrite u32_small, s32_small by lia.
  - destruct G. constructor; cbn [set_block_bitmap start_lba sec_cnt sb block_bitmap inode_bitmap]; try done; try lia.
    + rewrite Hbits. by zdec.
    + intros j Hj. rewrite Hbits. case_bool; [done|]. apply geo_free0. unfold nbits in *. lia.
Qed.

Lemma disk_inode_total d p no : exists i, disk_inode d p no = Ok i /\ wf_inode i.
Proof.
  unfold disk_inode, inode_at, slice, sizeof_inode.
  pose proof (Z.mod_pos_bound (inode_addr p no) 512 ltac:(lia)).
  pose proof (read_sectors_length d (inode_addr p no / 512) 2) as Hl.
  pose proof (read_sectors_bytes d (inode_addr p no / 512) 2) as Hb. zdec. cbn [obind].
  set (l := take (Z.to_nat 76) _).
  assert (length l = (4 * 19)%nat) as Hlen by (unfold l; rewrite length_take, length_drop; lia).
  destruct (bytes_to_words_ok 19 l Hlen) as (Hn & Hw & _); [by apply Forall_take, Forall_drop|].
  destruct (bytes_to_words l) as [|no' [|sz [|cn [|wd rest]]]]; cbn in Hn; try lia.
  eexists; split; [done|]. rewrite !Forall_cons in Hw. destruct Hw as (? & ? & ? & ? & Hw).
  split; cbn [i_sectors]; [rewrite length_take; lia|].
  unfold inode_words. cbn [i_no i_size i_open_cnts write_deny i_sectors].
  apply Forall_app; split; [repeat constructor; lia|].
  apply Forall_app; split; [by apply Forall_take | repeat constructor; lia].
Qed.

Lemma find_open_spec f no l : (forall a, a ∈ l -> is_Some (inodes f !! a)) ->
  (exists a i, find_open (inodes f) l no = Ok (Some (a, i)) /\ a ∈ l /\ inodes f !! a = Some i /\ i_no i = no)
  \/ (find_open (inodes f) l no = Ok None /\ forall a i, a ∈ l -> inodes f !! a = Some i -> i_no i <> no).
Proof.
  induction l as [|a l IH]; intros Hl; cbn [find_open].
  - right. split; [done|]. intros a i Ha. by apply elem_of_nil in Ha.
  - destruct (Hl a ltac:(left)) as [i Hi]. rewrite Hi.
    destruct (Z.eqb_spec (i_no i) no) as [|Hne].
    + left. exists a, i. repeat split; try done. left.
    + destruct IH as [(b & j & E & Hb & Hj & Hno)|[E Hno]]; [intros; apply Hl; by right| |].
      * left. exists b, j. repeat split; try done. by right.
      * right. split; [done|]. intros b j Hb Hj. apply elem_of_cons in Hb as [->|Hb]; [congruence | eauto].
Qed.

(** Opening an inode that is open counts it; closing again gives the state back. *)
Lemma inode_open_hit f a i : mem_ok f -> a ∈ open_inodes (cur_part f) -> inodes f !! a = Some i ->
  i_open_cnts i < 2 ^ 32 - 1 ->
  inode_open f (i_no i) = Ok (put_inode a (set_cnts (i_open_cnts i + 1) i) f, a)
  /\ inode_close (put_inode a (set_cnts (i_open_cnts i + 1) i) f) a = Ok f.
Proof.
  intros M Ha Hi Hc. destruct (mem_open f M a Ha) as (i' & Hi' & Hno & Hcnt).
  rewrite Hi in Hi'. injection Hi' as <-. split.
  - unfold inode_open. destruct (find_open_spec f (i_no i) (open_inodes (cur_part f)))
      as [(b & j & E & Hb & Hj & Hbn)|[E Hbn]].
    { intros b Hb. destruct (mem_open f M b Hb) as (j & Hj & _). by exists j. }
    + rewrite E. cbn [obind]. assert (b = a) as -> by eauto using mem_one.
      rewrite Hi in Hj. injection Hj as <-. by rewrite u32_small by lia.
    + by destruct (Hbn a i Ha Hi).
  - unfold inode_close, get_inode, put_inode. cbn [with_inodes inodes]. rewrite lookup_insert_eq. cbn [obind].
    cbn [set_cnts i_open_cnts]. rewrite u32_small by lia. zdec. f_equal. unfold with_inodes. cbn.
    assert (set_cnts (i_open_cnts i + 1 - 1) (set_cnts (i_open_cnts i + 1) i) = i) as ->.
    { destruct i. unfold set_cnts. cbn. f_equal. lia. }
    rewrite insert_insert_eq, insert_id by done. by destruct f.
Qed.

(** The state after opening an inode from the disk. *)
Definition opened f (h : H) (a : Z) (i : inode) : fs :=
  with_kheap h (put_inode a (set_cnts 1 i)
    (with_part (set_open (a :: open_inodes (cur_part f)) (cur_part f)) f)).

Lemma inode_open_miss f no i : mem_ok f -> geometry (cur_part f) -> 0 <= no < 4096 -> not_open f no ->
  forall n, roomy (3 + n) (kheap f) -> disk_inode (medium f) (cur_part f) no = Ok i ->
  exists h a, inode_open f no = Ok (opened f h a i, a) /\ a <> 0 /\ inodes f !! a = None /\ ~ live (kheap f) true a /\ roomy n h
    /\ forall k b, live h k b <-> live (kheap f) k b \/ (k = true /\ b = a).
Proof.
  intros M G Hno Hmiss n R Hd. unfold inode_open.
  destruct (find_open_spec f no (open_inodes (cur_part f))) as [(b & j & E & Hb & Hj & Hbn)|[E _]].
  { intros b Hb. destruct (mem_open f M b Hb) as (j & Hj & _). by exists j. }
  { by destruct (Hmiss b j Hb Hj). }
  rewrite E. cbn [obind].
  destruct (inode_locate_ok (cur_part f) no G Hno) as (pos & El & Ha & Ho & Hf & Hps & Hl0 & Hl & _ & Ht).
  rewrite El. cbn [obind]. destruct R as [R _]. destruct (R true sizeof_inode ltac:(unfold sizeof_inode; lia)) as [M1 [R2 _]]. pose proof (malloc_some _ _ _ M1) as R1.
  destruct (sys_malloc (kheap f) true sizeof_inode) as [h1 a] eqn:E1. cbn [fst snd] in *.
  destruct (R2 false (512 * pos_secs pos) ltac:(lia)) as [M2 [_ R3]]. clear R2. pose proof (malloc_some _ _ _ M2) as R2.
  destruct (sys_malloc h1 false (512 * pos_secs pos)) as [h2 b] eqn:E2. cbn [fst snd] in *.
  destruct (malloc_fresh _ _ _ _ _ M1 E1) as [F1 L1]. destruct (malloc_fresh _ _ _ _ _ M2 E2) as [F2 L2].
  replace (b =? 0) with false by (symmetry; by apply Z.eqb_neq).
  destruct (disk_read_ok (medium f) (sec_lba pos) (pos_secs pos) (replicate (Z.to_nat (512 * pos_secs pos)) 0) 0)
    as (buf & Eb & Lb & Rb & _); try lia; [rewrite length_replicate; lia|].
  rewrite length_replicate in Lb. rewrite Eb. cbn [obind].
  replace (a =? 0) with false by (symmetry; by apply Z.eqb_neq).
  assert (inode_at buf (off_size pos) = Ok i) as ->.
  { rewrite <- Hd. unfold disk_inode.
    pose proof (Z.mod_pos_bound (inode_addr (cur_part f) no) 512 ltac:(lia)).
    pose proof (Z.div_mod (inode_addr (cur_part f) no) 512 ltac:(lia)).
    pose proof (read_sectors_length (medium f) (inode_addr (cur_part f) no / 512) 2).
    apply inode_at_ext; try lia. intros k Hk. rewrite read_sectors_lookup by lia.
    specialize (Rb (off_size pos + k) ltac:(lia)). rewrite Z.add_0_l in Rb. rewrite Rb. f_equal. lia. }
  cbn [obind]. exists (sys_free h2 false b), a. split; [done|]. split; [done|]. split; [|split; [done|split]].
  - destruct (inodes f !! a) as [j|] eqn:Ea; [|done]. by destruct (mem_live f M a j Ea).
  - apply R3, L2. by right.
  - intros k c. rewrite free_gone by (apply L2; by right). rewrite L2, L1. split.
    + intros [[[?|?]|[-> ->]] Hne]; [by left | by right | by destruct Hne].
    + intros Hc. split; [by left|]. intros [-> ->]. apply F2, L1. destruct Hc as [|[? ?]]; [by left | done].
Qed.

Lemma remove_elem_head a l : a ∉ l -> remove_elem a (a :: l) = l.
Proof.
  intros Ha. unfold remove_elem. rewrite filter_cons_False by (intros Hne; by apply Hne).
  by apply remove_elem_notin.
Qed.

(** The last close takes the inode off the list and frees it. *)
Lemma inode_close_last f a i l : inodes f !! a = Some i -> i_open_cnts i = 1 ->
  open_inodes (cur_part f) = a :: l -> a ∉ l ->
  inode_close f a = Ok (with_kheap (sys_free (kheap f) true a)
                          (with_inodes (delete a (inodes f)) (with_part (set_open l (cur_part f)) f))).
Proof.
  intros Hi Hc Hl Ha. unfold inode_close, get_inode. rewrite Hi. cbn [obind]. rewrite Hc.
  change (u32 (1 - 1) =? 0) with true. cbn iota. rewrite Hl. unfold elem_find.
  rewrite bool_decide_eq_true_2 by left. by rewrite remove_elem_head.
Qed.

Lemma inode_close_opened f h a i : inodes f !! a = None -> a ∉ open_inodes (cur_part f) ->
  inode_close (opened f h a i) a = Ok (with_kheap (sys_free h true a) f).
Proof.
  intros Hn Ha. unfold opened. erewrite inode_close_last with (l := open_inodes (cur_part f)); [|cbn..].
  - destruct f as [md [st sc s bb ib op] hp ino ft kn]. cbn in *. unfold with_kheap, with_inodes, with_part. cbn.
    by rewrite delete_insert_id.
  - by rewrite lookup_insert_eq.
  - done.
  - done.
  - done.
Qed.

Lemma mem_ok_opened f h a i : mem_ok f -> a <> 0 -> inodes f !! a = None -> 0 <= i_no i < 4096 ->
  not_open f (i_no i) -> (forall k b, live (kheap f) k b \/ (k = true /\ b = a) -> live h k b) ->
  mem_ok (opened f h a i).
Proof.
  intros M H0a Ha Hno Hmiss Hlive.
  assert (a ∉ open_inodes (cur_part f)) as Hnot.
  { intros Hin. destruct (mem_open f M a Hin) as (j & Hj & _). congruence. }
  split; cbn [opened with_kheap put_inode with_inodes with_part cur_part set_open open_inodes inodes kheap].
  - constructor; [done | apply M].
  - intros b Hb. apply elem_of_cons in Hb as [->|Hb].
    + rewrite lookup_insert_eq. eexists; split; [done|]. cbn [set_cnts i_no i_open_cnts]. lia.
    + rewrite lookup_insert_ne by congruence. by apply M.
  - intros b j Hb. destruct (decide (b = a)) as [->|].
    + split; [done|]. apply Hlive. by right.
    + rewrite lookup_insert_ne in Hb by congruence. destruct (mem_live f M b j Hb). split; [done|].
      apply Hlive. by left.
  - intros b c j k Hb Hc Hj Hk Hjk. apply elem_of_cons in Hb, Hc.
    destruct (decide (b = a)) as [->|Hba]; destruct (decide (c = a)) as [->|Hca]; try done;
      rewrite ?lookup_insert_eq in Hj; rewrite ?lookup_insert_eq in Hk; rewrite ?lookup_insert_ne in Hj by congruence;
      rewrite ?lookup_insert_ne in Hk by congruence.
    + injection Hj as <-. destruct Hc as [|Hc]; [done|]. by destruct (Hmiss c k Hc Hk).
    + injection Hk as <-. destruct Hb as [|Hb]; [done|]. by destruct (Hmiss b j Hb Hj).
    + destruct Hb as [|Hb]; [done|]. destruct Hc as [|Hc]; [done|]. eauto using mem_one.
Qed.

(** The state with another medium and block bitmap. *)
Definition fs_bb f d (b : bitmap) : fs := with_medium d (with_part (set_block_bitmap b (cur_part f)) f).

Lemma bitmap_set_other b k v b' j : bitmap_set b k v = Ok b' -> 0 <= k -> 0 <= j -> j <> k / 8 ->
  bits b' !! Z.to_nat j = bits b !! Z.to_nat j.
Proof.
  unfold bitmap_set. intros Hs Hi Hj Hne. repeat inv_ok Hs. injection Hs as <-.
  match goal with E : wr _ _ _ = Ok _ |- _ => apply wr_Ok in E as [Hr ->] end.
  cbn [bits with_bits]. apply list_lookup_insert_ne. lia.
Qed.

Lemma geometry_clear p k b : geometry p -> 0 < k < nbits (block_bitmap p) ->
  data_start_lba (sb p) + k < start_lba p + sec_cnt p ->
  btmp_bytes_len b = btmp_bytes_len (block_bitmap p) -> bitmap_wf 1 b ->
  (forall j, bit b j = if j =? k then false else bit (block_bitmap p) j) -> geometry (set_block_bitmap b p).
Proof.
  intros G Hk Hd Hl Hwf Hb. destruct G.
  constructor; cbn [set_block_bitmap start_lba sec_cnt sb block_bitmap inode_bitmap]; try done; try lia.
  - rewrite Hb. by zdec.
  - intros j Hj. rewrite Hb. case_bool; [zb; subst; done|]. apply geo_free0. unfold nbits in *. lia.
Qed.

Lemma geometry_take p k b : geometry p -> 0 <= k ->
  btmp_bytes_len b = btmp_bytes_len (block_bitmap p) -> bitmap_wf 1 b ->
  (forall j, bit b j = if j =? k then true else bit (block_bitmap p) j) -> geometry (set_block_bitmap b p).
Proof.
  intros G Hk Hl Hwf Hb. destruct G.
  constructor; cbn [set_block_bitmap start_lba sec_cnt sb block_bitmap inode_bitmap]; try done; try lia.
  - rewrite Hb. by case_bool.
  - intros j Hj. rewrite Hb. case_bool; [done|]. apply geo_free0. unfold nbits in *. lia.
Qed.

(** A bit of the block bitmap changed, in memory and then on the disk. *)
Lemma set_block_sync f k (v : bool) : geometry (cur_part f) -> bb_synced (medium f) (cur_part f) ->
  0 < k < nbits (block_bitmap (cur_part f)) ->
  data_start_lba (sb (cur_part f)) + k < start_lba (cur_part f) + sec_cnt (cur_part f) ->
  exists d b, bitmap_set (block_bitmap (cur_part f)) k (Z.b2z v) = Ok b
    /\ bitmap_sync (with_part (set_block_bitmap b (cur_part f)) f) k BLOCK_BITMAP = Ok (fs_bb f d b)
    /\ geometry (set_block_bitmap b (cur_part f)) /\ nbits b = nbits (block_bitmap (cur_part f))
    /\ (forall j, bit b j = if j =? k then v else bit (block_bitmap (cur_part f)) j)
    /\ bb_synced d (set_block_bitmap b (cur_part f))
    /\ (forall q, ~ in_bb (cur_part f) q -> dbyte d q = dbyte (medium f) q).
Proof.
  intros G Hsync Hk Hlast.
  destruct (bitmap_set_ok _ 1 k v (geo_bb_wf _ G) ltac:(lia)) as (b & Hb & Hblen & Hwf & Hbits).
  assert (nbits b = nbits (block_bitmap (cur_part f))) as Hnb by (unfold nbits; by rewrite Hblen).
  assert (geometry (set_block_bitmap b (cur_part f))) as G'.
  { destruct v; [eapply geometry_take | eapply geometry_clear]; eauto; lia. }
  destruct (bitmap_sync_ok (with_part (set_block_bitmap b (cur_part f)) f) k BLOCK_BITMAP G') as (d & Ed & W).
  { cbn [with_part cur_part set_block_bitmap block_bitmap]. lia. }
  cbn [with_part cur_part set_block_bitmap block_bitmap sb medium] in W.
  exists d, b. split; [done|]. split; [exact Ed|]. split; [done|]. split; [done|]. split; [done|].
  pose proof (Z.div_mod k 4096 ltac:(lia)). pose proof (Z.mod_pos_bound k 4096 ltac:(lia)).
  pose proof (Z.div_mod k 8 ltac:(lia)). pose proof (Z.mod_pos_bound k 8 ltac:(lia)).
  assert (0 <= k / 4096 < block_bitmap_sects (sb (cur_part f))) as Hsec by (geo G; lia). split.
  - intros q Hq. cbn [set_block_bitmap sb block_bitmap] in *. rewrite W. case_bool; zb; [f_equal; lia|].
    rewrite Hsync by done. symmetry. eapply bitmap_set_other; eauto; lia.
  - intros q Hq. rewrite W. case_bool; [|done]. zb. unfold in_bb in Hq. lia.
Qed.

(** Freeing a data block: its bit is cleared, in memory and on the disk. *)
Lemma release_block_ok f lba : geometry (cur_part f) -> data_block (cur_part f) lba ->
  bb_synced (medium f) (cur_part f) ->
  exists d b, release_block f lba = Ok (fs_bb f d b) /\ geometry (set_block_bitmap b (cur_part f))
    /\ nbits b = nbits (block_bitmap (cur_part f))
    /\ (forall k, bit b k = if k =? lba - data_start_lba (sb (cur_part f)) then false
                            else bit (block_bitmap (cur_part f)) k)
    /\ bb_synced d (set_block_bitmap b (cur_part f))
    /\ (forall q, ~ in_bb (cur_part f) q -> dbyte d q = dbyte (medium f) q).
Proof.
  intros G [Hk Hlast] Hsync. set (k := lba - data_start_lba (sb (cur_part f))) in *.
  destruct (set_block_sync f k false G Hsync Hk) as (d & b & Hb & Ed & R); [lia|].
  assert (u32 (lba - data_start_lba (sb (cur_part f))) = k) as Hu by (geo G; fold k; apply u32_small; lia).
  exists d, b. split; [|exact R].
  unfold release_block. rewrite Hu. replace (0 <? k) with true by (symmetry; apply Z.ltb_lt; lia).
  change 0 with (Z.b2z false) at 1. cbn [c_assert obind]. rewrite Hb. cbn [obind]. exact Ed.
Qed.

(** Taking a free block, and its bit to the disk. *)
Lemma take_block_ok f : geometry (cur_part f) -> bb_synced (medium f) (cur_part f) ->
  (exists k, 0 <= k < nbits (block_bitmap (cur_part f)) /\ bit (block_bitmap (cur_part f)) k = false) ->
  exists d b t, let k := t - data_start_lba (sb (cur_part f)) in
    block_bitmap_alloc f = Ok (with_part (set_block_bitmap b (cur_part f)) f, t)
    /\ bitmap_sync (with_part (set_block_bitmap b (cur_part f)) f) k BLOCK_BITMAP = Ok (fs_bb f d b)
    /\ data_block (cur_part f) t /\ bit (block_bitmap (cur_part f)) k = false
    /\ geometry (set_block_bitmap b (cur_part f)) /\ nbits b = nbits (block_bitmap (cur_part f))
    /\ (forall j, bit b j = if j =? k then true else bit (block_bitmap (cur_part f)) j)
    /\ bb_synced d (set_block_bitmap b (cur_part f))
    /\ (forall q, ~ in_bb (cur_part f) q -> dbyte d q = dbyte (medium f) q).
Proof.
  intros G Hsync Hfree. destruct (bitmap_scan_first _ 1 (geo_bb_wf _ G) Hfree) as (k & Hk & Hf & Ht & Hs).
  assert (k <> 0) as Hk0 by (intros ->; pose proof (geo_root _ G); congruence).
  pose proof (geo_free _ G k ltac:(lia) Hf) as Hlast.
  destruct (set_block_sync f k true G Hsync ltac:(lia) Hlast) as (d & b & Hb & Ed & R).
  exists d, b, (data_start_lba (sb (cur_part f)) + k). cbv zeta.
  replace (data_start_lba (sb (cur_part f)) + k - data_start_lba (sb (cur_part f))) with k by lia.
  split; [|split; [exact Ed|split; [|split; [done|exact R]]]].
  - unfold block_bitmap_alloc. cbn [Z.eqb Pos.eqb] in Hs. rewrite Hs. cbn [obind].
    replace (k =? -1) with false by (symmetry; apply Z.eqb_neq; lia). change 1 with (Z.b2z true). rewrite Hb. cbn [obind].
    geo G. by rewrite u32_small, s32_small by lia.
  - unfold data_block. replace (data_start_lba (sb (cur_part f)) + k - data_start_lba (sb (cur_part f))) with k by lia. lia.
Qed.

Lemma release_blocks_ok l : forall f, geometry (cur_part f) -> bb_synced (medium f) (cur_part f) ->
  Forall (fun b => b <> 0 -> data_block (cur_part f) b) l ->
  exists d b, release_blocks f l = Ok (fs_bb f d b) /\ geometry (set_block_bitmap b (cur_part f))
    /\ nbits b = nbits (block_bitmap (cur_part f))
    /\ (forall k, bit b k = bit (block_bitmap (cur_part f)) k
                  && negb (bool_decide (data_start_lba (sb (cur_part f)) + k ∈ filter (fun b => b <> 0) l)))
    /\ bb_synced d (set_block_bitmap b (cur_part f))
    /\ (forall q, ~ in_bb (cur_part f) q -> dbyte d q = dbyte (medium f) q).
Proof.
  induction l as [|lba l IH]; intros f G Hsync Hl; cbn [release_blocks].
  - assert (set_block_bitmap (block_bitmap (cur_part f)) (cur_part f) = cur_part f) as Hp by (by destruct f as [? [] ? ? ? ?]).
    exists (medium f), (block_bitmap (cur_part f)). rewrite Hp. split; [unfold fs_bb; rewrite Hp; by destruct f|].
    split; [done|]. split; [done|]. split; [|by split]. intros k.
    rewrite bool_decide_eq_false_2 by (apply not_elem_of_nil). by rewrite andb_true_r.
  - apply Forall_cons in Hl as [Hlba Hl]. destruct (Z.eqb_spec lba 0) as [->|Hne]; cbn [negb obind].
    + rewrite filter_cons_False by (intros Hne; by apply Hne). by apply IH.
    + specialize (Hlba Hne). destruct (release_block_ok f lba G Hlba Hsync)
        as (d1 & b1 & E1 & G1 & N1 & B1 & S1 & O1). rewrite E1. cbn [obind].
      destruct (IH (fs_bb f d1 b1)) as (d & b & E & G2 & N2 & B2 & S2 & O2); try done.
      { eapply Forall_impl; [exact Hl|]. intros x Hx Hx0. specialize (Hx Hx0). unfold data_block in *.
        cbn [fs_bb with_medium with_part cur_part set_block_bitmap block_bitmap sb start_lba sec_cnt].
        rewrite N1. done. }
      cbn [fs_bb with_medium with_part cur_part set_block_bitmap block_bitmap sb medium] in *.
      exists d, b. split; [exact E|]. split; [exact G2|]. split; [congruence|]. split; [|split; [exact S2|]].
      * intros k. rewrite B2, B1, filter_cons_True by done.
        destruct (Z.eqb_spec k (lba - data_start_lba (sb (cur_part f)))) as [Hk|Hk].
        -- rewrite (bool_decide_eq_true_2 (_ ∈ lba :: _)) by (apply elem_of_cons; left; lia).
           by rewrite andb_false_r.
        -- f_equal. f_equal. apply bool_decide_ext. rewrite elem_of_cons. split; [by right|].
           intros [|]; [lia | done].
      * intros q Hq. rewrite O2 by done. by apply O1.
Qed.

Lemma read_table_ok d lba : lba <= max_lba -> read_table d lba = Ok (bytes_to_words (sector d lba)).
Proof.
  intros Hl. unfold read_table. by rewrite disk_read_one by (done || by rewrite length_replicate).
Qed.

Lemma geometry_ib p b : geometry p -> bitmap_wf 1 b -> btmp_bytes_len b = 512 -> geometry (set_inode_bitmap b p).
Proof. intros [] Hwf Hl. by constructor. Qed.

Lemma geometry_open p l : geometry p -> geometry (set_open l p).
Proof. by intros []; constructor. Qed.

Lemma mem_ok_put f a i i' : mem_ok f -> a ∈ open_inodes (cur_part f) -> inodes f !! a = Some i ->
  i_no i' = i_no i -> 1 <= i_open_cnts i' < 2 ^ 32 -> mem_ok (put_inode a i' f).
Proof.
  intros M Ha Hi Hno Hc. destruct (mem_open f M a Ha) as (i0 & Hi0 & Hr & _).
  rewrite Hi in Hi0. injection Hi0 as <-.
  assert (forall b j, inodes (put_inode a i' f) !! b = Some j -> exists j0, inodes f !! b = Some j0 /\ i_no j0 = i_no j)
    as Hback.
  { intros b j. cbn. destruct (decide (b = a)) as [->|]; [|rewrite lookup_insert_ne by congruence; by eexists].
    rewrite lookup_insert_eq. intros [= <-]. by exists i. }
  split.
  - apply M.
  - intros b Hb. cbn. destruct (decide (b = a)) as [->|].
    + rewrite lookup_insert_eq. eexists; split; [done|]. lia.
    + rewrite lookup_insert_ne by congruence. by apply M.
  - intros b j Hb. destruct (Hback b j Hb) as (j0 & Hj0 & _). by apply (mem_live f M b j0).
  - intros b c j k Hb Hc' Hj Hk Hjk. destruct (Hback b j Hj) as (j0 & Hj0 & E1).
    destruct (Hback c k Hk) as (k0 & Hk0 & E2). eapply (mem_one f M); eauto. congruence.
Qed.

(** What [inode_release] frees on the disk, from its first release on. *)
Lemma release_all_ok f i : geometry (cur_part f) -> bb_synced (medium f) (cur_part f) -> wf_inode i ->
  Forall (data_block (cur_part f)) (inode_blocks (medium f) i) ->
  exists d b, inode_release_blocks f i = Ok (fs_bb f d b)
    /\ geometry (set_block_bitmap b (cur_part f)) /\ nbits b = nbits (block_bitmap (cur_part f))
    /\ (forall k, bit b k = bit (block_bitmap (cur_part f)) k
         && negb (bool_decide (data_start_lba (sb (cur_part f)) + k ∈ inode_blocks (medium f) i)))
    /\ bb_synced d (set_block_bitmap b (cur_part f))
    /\ (forall q, ~ in_bb (cur_part f) q -> dbyte d q = dbyte (medium f) q).
Proof.
  intros G Hsync [Hlen _] Hdata. unfold inode_release_blocks, inode_blocks, indirect_table in *.
  destruct (znth_in (i_sectors i) 12 ltac:(lia)) as [t Ht]. rewrite Ht in *.
  change (default 0 (Some t)) with t in *.
  rewrite (rd_znth _ _ _ Ht). cbn [obind].
  assert (i_sectors i = take 12 (i_sectors i) ++ [t]) as Hs.
  { rewrite <- (take_drop 12 (i_sectors i)) at 1. f_equal. assert (i_sectors i !! 12%nat = Some t) as Ht' by exact Ht.
    destruct (drop 12 (i_sectors i)) as [|t' [|? ?]] eqn:E; apply (f_equal length) in E as El;
      rewrite length_drop in El; cbn in El; try lia. f_equal.
    assert (drop 12 (i_sectors i) !! 0%nat = Some t') as E' by (by rewrite E).
    rewrite lookup_drop in E'. change (12 + 0)%nat with 12%nat in E'. congruence. }
  destruct (Z.eqb_spec t 0) as [Ht0|Hne]; cbn [negb].
  - rewrite app_nil_r in *. cbn [obind].
    assert (filter (fun b => b <> 0) (i_sectors i) = filter (fun b => b <> 0) (take 12 (i_sectors i))) as Hf.
    { rewrite Hs at 1. rewrite Ht0, filter_app, (filter_cons_False _ 0) by (intros Hx; by apply Hx).
      by rewrite filter_nil, app_nil_r. }
    rewrite Hf in *. apply release_blocks_ok; try done.
    rewrite Forall_forall in *. intros x Hx Hx0. apply Hdata, list_elem_of_filter. done.
  - set (tab := bytes_to_words (sector (medium f) t)) in *.
    assert (forall x, x ∈ filter (fun b => b <> 0) (i_sectors i ++ tab)
              <-> x = t \/ x ∈ filter (fun b => b <> 0) (take 12 (i_sectors i) ++ tab)) as Hf.
    { intros x. rewrite Hs at 1. rewrite !list_elem_of_filter, !elem_of_app, list_elem_of_singleton.
      split; [intros [? [[?|?]|?]]; tauto | intros [->|[? [?|?]]]; tauto]. }
    rewrite Forall_forall in Hdata. assert (data_block (cur_part f) t) as Hdt by (apply Hdata, Hf; by left).
    assert (t <= max_lba) as Htm by (destruct Hdt; geo G; lia).
    rewrite read_table_ok by done. cbn [obind].
    destruct (release_block_ok f t G Hdt Hsync) as (d1 & b1 & E1 & G1 & N1 & B1 & S1 & O1).
    rewrite E1. cbn [obind]. fold tab.
    destruct (release_blocks_ok (take 12 (i_sectors i) ++ tab) (fs_bb f d1 b1)) as (d & b & E & G2 & N2 & B2 & S2 & O2);
      try done.
    { rewrite Forall_forall. intros x Hx Hx0.
      destruct (Hdata x) as [D1 D2]; [apply Hf; right; by apply list_elem_of_filter|].
      unfold data_block. cbn [fs_bb with_medium with_part cur_part set_block_bitmap block_bitmap sb start_lba sec_cnt].
      by rewrite N1. }
    cbn [fs_bb with_medium with_part cur_part set_block_bitmap block_bitmap sb medium] in *.
    exists d, b. split; [exact E|]. split; [exact G2|]. split; [congruence|]. split; [|split; [exact S2|]].
    + intros k. rewrite B2, B1. destruct (Z.eqb_spec k (t - data_start_lba (sb (cur_part f)))) as [Hk|Hk].
      * rewrite (bool_decide_eq_true_2 (_ ∈ filter _ (i_sectors i ++ tab))) by (apply Hf; left; lia).
        by rewrite andb_false_r.
      * f_equal. f_equal. apply bool_decide_ext. rewrite Hf. split; [by right|]. intros [|]; [lia|done].
    + intros q Hq. rewrite O2 by done. by apply O1.
Qed.

(** Clearing an inode's bit, in memory and on the disk. *)
Lemma release_number_ok f no : geometry (cur_part f) -> 0 <= no < 4096 -> ib_synced (medium f) (cur_part f) ->
  exists b d, bitmap_set (inode_bitmap (cur_part f)) no 0 = Ok b
    /\ bitmap_sync (with_part (set_inode_bitmap b (cur_part f)) f) no INODE_BITMAP
       = Ok (with_medium d (with_part (set_inode_bitmap b (cur_part f)) f))
    /\ geometry (set_inode_bitmap b (cur_part f))
    /\ (forall k, bit b k = if k =? no then false else bit (inode_bitmap (cur_part f)) k)
    /\ ib_synced d (set_inode_bitmap b (cur_part f))
    /\ (forall q, ~ in_ib (cur_part f) q -> dbyte d q = dbyte (medium f) q).
Proof.
  intros G Hno Hsync.
  assert (nbits (inode_bitmap (cur_part f)) = 4096) as Hn by (unfold nbits; by rewrite (geo_ib_len _ G)).
  destruct (bitmap_set_ok _ 1 no false (geo_ib_wf _ G) ltac:(lia)) as (b & Hb & Hblen & Hwf & Hbits).
  assert (geometry (set_inode_bitmap b (cur_part f))) as G'
    by (apply geometry_ib; try done; rewrite Hblen; apply G).
  destruct (bitmap_sync_ok (with_part (set_inode_bitmap b (cur_part f)) f) no INODE_BITMAP G') as (d & Ed & W).
  { cbn. unfold nbits in *. rewrite Hblen. lia. }
  cbn [with_part cur_part set_inode_bitmap inode_bitmap sb medium] in W.
  exists b, d. split; [exact Hb|]. split; [exact Ed|]. split; [done|]. split; [done|].
  rewrite (Z.div_small no 4096) in W by lia. split.
  - intros q Hq. cbn [set_inode_bitmap sb inode_bitmap]. rewrite W. zdec. f_equal. lia.
  - intros q Hq. rewrite W. case_bool; [|done]. zb. unfold in_ib in Hq. lia.
Qed.

(** ** Properties *)

(** C29. [inode_sync] then [inode_open]: an inode numbered below 256, written back
    through a 1024-byte buffer and not open, is read again from the disk as it
    was, with the count 1 and no write lock, at a fresh place; no other inode
    of the table and no other byte of the disk has changed. *)
Theorem inode_sync_open f i io_buf : geometry (cur_part f) -> mem_ok f -> wf_inode i -> i_no i < 256 ->
  not_open f (i_no i) -> roomy 3 (kheap f) -> 1024 <= zlen io_buf -> bytes io_buf ->
  exists d buf f' a, inode_sync f i io_buf = Ok (with_medium d f, buf)
    /\ inode_open (with_medium d f) (i_no i) = Ok (f', a)
    /\ inodes f' = <[a := set_cnts 1 (set_deny 0 i)]> (inodes f) /\ inodes f !! a = None
    /\ open_inodes (cur_part f') = a :: open_inodes (cur_part f) /\ mem_ok f'
    /\ (forall no, 0 <= no < 4096 -> no <> i_no i ->
         disk_inode d (cur_part f) no = disk_inode (medium f) (cur_part f) no)
    /\ (forall q, q < inode_addr (cur_part f) (i_no i) \/ inode_addr (cur_part f) (i_no i) + 76 <= q ->
         dbyte d q = dbyte (medium f) q).
Proof.
  intros G M Hwf Hno Hmiss R Hl Hb. pose proof Hwf as [Hs Hw].
  assert (0 <= i_no i) as Hno0 by (apply Forall_cons in Hw as [? _]; lia).
  destruct (inode_sync_ok f i io_buf G Hs Hl Hb) as (d & buf & E & _ & _ & W). cbv zeta in W.
  rewrite (u8_small (i_no i)) in W by lia.
  assert (disk_inode d (cur_part f) (i_no i) = Ok (set_cnts 0 (set_deny 0 i))) as Hd.
  { apply disk_inode_bytes.
    - by apply wf_inode_pure.
    - intros k Hk. rewrite W. zdec. f_equal. lia. }
  destruct (inode_open_miss (with_medium d f) (i_no i) (set_cnts 0 (set_deny 0 i))) with (n := 0%nat)
    as (h & a & Eo & Ha0 & Ha & _ & _ & Hlive); try done; [by destruct M | lia |].
  exists d, buf, (opened (with_medium d f) h a (set_cnts 0 (set_deny 0 i))), a.
  split; [done|]. split; [done|]. split; [done|]. split; [done|]. split; [done|]. split; [|split].
  - apply mem_ok_opened; try done; [by destruct M | cbn; lia | intros k b; apply Hlive].
  - intros no Hn Hne. apply disk_inode_ext. intros k Hk. rewrite W. unfold inode_addr.
    case_bool; [|done]. zb. lia.
  - intros q Hq. rewrite W. case_bool; [|done]. zb. lia.
Qed.

(** The number passes through a [uint8_t] in [inode_sync]: from number 256 on
    the inode is written over the slot of its number modulo 256, and its own
    slot keeps what it held. *)
Theorem inode_sync_wrong_slot f i io_buf : geometry (cur_part f) -> wf_inode i -> 256 <= i_no i < 4096 ->
  1024 <= zlen io_buf -> bytes io_buf ->
  exists d buf, inode_sync f i io_buf = Ok (with_medium d f, buf)
    /\ disk_inode d (cur_part f) (i_no i mod 256) = Ok (set_cnts 0 (set_deny 0 i))
    /\ disk_inode d (cur_part f) (i_no i) = disk_inode (medium f) (cur_part f) (i_no i).
Proof.
  intros G Hwf Hno Hl Hb. pose proof Hwf as [Hs Hw].
  destruct (inode_sync_ok f i io_buf G Hs Hl Hb) as (d & buf & E & _ & _ & W). cbv zeta in W.
  exists d, buf. split; [done|]. change (u8 (i_no i)) with (i_no i mod 256) in W.
  pose proof (Z.mod_pos_bound (i_no i) 256 ltac:(lia)). split.
  - apply disk_inode_bytes.
    + by apply wf_inode_pure.
    + intros k Hk. rewrite W. zdec. f_equal. lia.
  - apply disk_inode_ext. intros k Hk. rewrite W. unfold inode_addr. case_bool; [|done]. zb. lia.
Qed.

(** Sharing: whether inode [no] is open or is read from the disk, opening it
    gives the one object that stands for it, which another opening finds again;
    the table of open inodes stays consistent, and the matching [inode_close]
    gives back the inodes, the list, the disk and the heap there were before. *)
Theorem inode_open_close f no : mem_ok f -> geometry (cur_part f) -> 0 <= no < 4096 ->
  (exists a i, a ∈ open_inodes (cur_part f) /\ inodes f !! a = Some i /\ i_no i = no /\ i_open_cnts i < 2 ^ 32 - 2)
  \/ (not_open f no /\ roomy 3 (kheap f)
      /\ exists i, disk_inode (medium f) (cur_part f) no = Ok i /\ i_no i = no) ->
  exists f1 a f2 f', inode_open f no = Ok (f1, a) /\ a ∈ open_inodes (cur_part f1)
    /\ i_no <$> inodes f1 !! a = Some no /\ mem_ok f1 /\ medium f1 = medium f
    /\ inode_open f1 no = Ok (f2, a) /\ inode_close f2 a = Ok f1
    /\ inode_close f1 a = Ok f' /\ inodes f' = inodes f /\ cur_part f' = cur_part f /\ medium f' = medium f
    /\ same_live (kheap f) (kheap f').
Proof.
  intros M G Hno [(a & i & Ha & Hi & <- & Hc)|(Hmiss & R & i & Hd & <-)].
  - destruct (inode_open_hit f a i M Ha Hi ltac:(lia)) as [E1 E2].
    destruct (mem_open f M a Ha) as (j & Hj & _ & Hcnt). rewrite Hi in Hj. injection Hj as <-.
    assert (mem_ok (put_inode a (set_cnts (i_open_cnts i + 1) i) f)) as M1
      by (eapply mem_ok_put; eauto; cbn; lia).
    destruct (inode_open_hit _ a (set_cnts (i_open_cnts i + 1) i) M1 Ha) as [E3 E4];
      [apply lookup_insert_eq | cbn; lia |].
    eexists _, a, _, f. split; [exact E1|]. split; [done|]. split; [cbn; by rewrite lookup_insert_eq|].
    split; [done|]. split; [done|]. split; [exact E3|]. split; [exact E4|]. by repeat split.
  - destruct (inode_open_miss f (i_no i) i M G Hno Hmiss 0%nat R Hd) as (h & a & E1 & Ha0 & Ha & Hdead & _ & Hlive).
    assert (mem_ok (opened f h a i)) as M1 by (apply mem_ok_opened; try done; intros k b; apply Hlive).
    assert (a ∉ open_inodes (cur_part f)) as Hnot.
    { intros Hin. destruct (mem_open f M a Hin) as (j & Hj & _). congruence. }
    destruct (inode_open_hit _ a (set_cnts 1 i) M1) as [E3 E4]; [by left | apply lookup_insert_eq | cbn; lia |].
    eexists _, a, _, _. split; [exact E1|]. split; [by left|]. split; [cbn; by rewrite lookup_insert_eq|].
    split; [done|]. split; [done|]. split; [exact E3|]. split; [exact E4|].
    split; [by apply inode_close_opened|]. split; [done|]. split; [done|]. split; [done|].
    intros k b. cbn [with_kheap kheap]. rewrite free_gone by (apply Hlive; by right). rewrite Hlive.
    split; [|tauto]. intros Hb. split; [by left|]. intros [-> ->].
    done.
Qed.

(** C28. [inode_release] of an inode that is on the disk and not open: exactly the
    blocks it owns (direct blocks, table, the table's blocks) and its number
    become free, in memory and in the bitmaps on the disk, its slot is zeroed,
    no other byte of the disk changes, and the open inodes and the heap are
    what they were. *)
Theorem inode_release_spec f no i : mem_ok f -> geometry (cur_part f) -> 0 <= no < 4096 -> not_open f no ->
  roomy 4 (kheap f) -> disk_inode (medium f) (cur_part f) no = Ok i -> i_no i = no ->
  bb_synced (medium f) (cur_part f) -> ib_synced (medium f) (cur_part f) ->
  Forall (data_block (cur_part f)) (inode_blocks (medium f) i) ->
  exists f', inode_release f no = Ok f'
    /\ (forall k, bit (block_bitmap (cur_part f')) k = bit (block_bitmap (cur_part f)) k
         && negb (bool_decide (data_start_lba (sb (cur_part f)) + k ∈ inode_blocks (medium f) i)))
    /\ (forall k, bit (inode_bitmap (cur_part f')) k
                  = if k =? no then false else bit (inode_bitmap (cur_part f)) k)
    /\ geometry (cur_part f') /\ sb (cur_part f') = sb (cur_part f)
    /\ bb_synced (medium f') (cur_part f') /\ ib_synced (medium f') (cur_part f')
    /\ (forall q, inode_addr (cur_part f) no <= q < inode_addr (cur_part f) no + 76 -> dbyte (medium f') q = Some 0)
    /\ (forall q, ~ in_bb (cur_part f) q -> ~ in_ib (cur_part f) q ->
         ~ (inode_addr (cur_part f) no <= q < inode_addr (cur_part f) no + 76) ->
         dbyte (medium f') q = dbyte (medium f) q)
    /\ open_inodes (cur_part f') = open_inodes (cur_part f) /\ inodes f' = inodes f
    /\ same_live (kheap f) (kheap f').
Proof.
  intros M G Hno Hmiss R Hd <- Sb Si Hdata. set (no := i_no i) in *.
  destruct (inode_open_miss f no i M G Hno Hmiss 1%nat R Hd) as (h & a & E1 & Ha0 & Ha & Hdead & R1 & Hlive).
  assert (a ∉ open_inodes (cur_part f)) as Hnot.
  { intros Hin. destruct (mem_open f M a Hin) as (j & Hj & _). congruence. }
  destruct (disk_inode_total (medium f) (cur_part f) no) as (i' & Hd' & Hwf). rewrite Hd in Hd'. injection Hd' as <-.
  unfold inode_release. rewrite E1. cbn [obind].
  assert (get_inode (opened f h a i) a = Ok (set_cnts 1 i)) as ->.
  { unfold get_inode. cbn. by rewrite lookup_insert_eq. }
  cbn [obind]. change (i_no (set_cnts 1 i)) with no. rewrite Z.eqb_refl. cbn [c_assert obind].
  set (p := cur_part f) in *. set (p1 := set_open (a :: open_inodes p) p).
  assert (geometry p1) as G1 by (destruct G; by constructor).
  assert (wf_inode (set_cnts 1 i)) as Hwf1 by (by apply wf_set_one).
  set (f1 := opened f h a i) in *.
  destruct (release_all_ok f1 (set_cnts 1 i) G1 Sb Hwf1 Hdata) as (d & b & E2 & G2 & N2 & B2 & S2 & O2).
  rewrite E2. cbn [obind]. set (f2 := fs_bb f1 d b) in *.
  assert (forall q, ~ in_bb p q -> dbyte d q = dbyte (medium f) q) as O2' by exact O2.
  assert (ib_synced (medium f2) (cur_part f2)) as Si2.
  { intros q Hq. change (dbyte d (512 * inode_bitmap_lba (sb p) + q) = bits (inode_bitmap p) !! Z.to_nat q).
    rewrite O2' by (unfold in_bb; geo G; lia). by apply Si. }
  destruct (release_number_ok f2 no G2 Hno Si2) as (b' & d' & Eb & Ed & G3 & B3 & S3 & O3).
  assert (forall q, ~ in_ib p q -> dbyte d' q = dbyte d q) as O3' by exact O3.
  rewrite Eb. cbn [obind]. rewrite Ed. cbn [obind].
  set (f3 := with_medium d' (with_part (set_inode_bitmap b' (cur_part f2)) f2)) in *.
  change (kheap f3) with h. destruct R1 as [R1 _]. destruct (R1 false 1024 ltac:(lia)) as [Mb _]. pose proof (malloc_some _ _ _ Mb) as Rb.
  destruct (sys_malloc h false 1024) as [h2 io] eqn:Em. cbn [snd] in Rb.
  destruct (malloc_fresh _ _ _ _ _ Mb Em) as [Hio Hlive2].
  replace (io =? 0) with false by (symmetry; by apply Z.eqb_neq).
  destruct (inode_delete_ok (with_kheap h2 f3) no (replicate 1024 0)) as (d3 & buf & E4 & W); try done.
  { apply Forall_replicate. unfold is_byte; lia. }
  rewrite E4. cbn [obind]. cbv zeta in W. change (inode_addr (cur_part (with_kheap h2 f3)) no) with (inode_addr p no) in W.
  change (medium (with_kheap h2 f3)) with d' in W.
  erewrite inode_close_last with (i := set_cnts 1 i) (l := open_inodes p); [|cbn; by rewrite lookup_insert_eq|done|done|done].
  eexists; split; [reflexivity|]. cbn. split; [exact B2|]. split; [exact B3|].
  split; [by destruct G3|]. split; [done|].
  assert (forall q, in_bb p q -> dbyte d3 q = dbyte d q) as Wbb.
  { intros q Hq. unfold in_bb in Hq. rewrite W. unfold inode_addr. geo G. zdec.
    apply O3'. unfold in_ib. lia. }
  assert (forall q, in_ib p q -> dbyte d3 q = dbyte d' q) as Wib.
  { intros q Hq. unfold in_ib in Hq. rewrite W. unfold inode_addr. geo G. by zdec. }
  split.
  { intros q Hq. change (0 <= q < 512 * block_bitmap_sects (sb p)) in Hq.
    change (dbyte d3 (512 * block_bitmap_lba (sb p) + q) = bits b !! Z.to_nat q).
    rewrite Wbb by (unfold in_bb; lia). exact (S2 q Hq). }
  split.
  { intros q Hq. change (dbyte d3 (512 * inode_bitmap_lba (sb p) + q) = bits b' !! Z.to_nat q).
    rewrite Wib by (unfold in_ib; lia). exact (S3 q Hq). }
  split; [intros q Hq; rewrite W; by zdec|]. split.
  { intros q Hq1 Hq2 Hq3. rewrite W. case_bool; [zb; lia|]. rewrite O3' by done. by apply O2'. }
  split; [done|]. split; [by rewrite delete_insert_id|].
  intros k c. rewrite free_gone by (rewrite free_gone; [|apply Hlive2; by right]; rewrite Hlive2, Hlive;
    split; [left; by right | intros [? _]; done]).
  rewrite free_gone by (apply Hlive2; by right). rewrite Hlive2, Hlive. split.
  - intros Hc. split; [split; [by left; left|]|].
    + intros [-> ->]. apply Hio, Hlive. by left.
    + by intros [-> ->].
  - intros [[[[?|?]|?] Hne1] Hne2]; [done | by destruct Hne2 | by destruct Hne1].
Qed.

End lemmas.

(** ** Witnesses
    A partition of 2000 sectors from sector 100; inode 3 holds two blocks. *)

Definition demo_sb : super_block := mk_sb 0x19590318 2000 4096 100 102 1 103 1 104 608 712 0 24.
Definition demo_inode (no : Z) : inode := mk_inode no 600 0 0 ([713; 714] ++ replicate 11 0).
Definition demo_bb : list Z := [7] ++ replicate 172 0 ++ [0xf0] ++ replicate 338 255.
Definition demo_ib : list Z := [9] ++ replicate 511 0.
Definition demo_part : partition :=
  mk_partition 100 2000 demo_sb (mk_bitmap 512 (demo_bb ++ [0])) (mk_bitmap 512 (demo_ib ++ [0])) [].
Definition demo_medium : sparse_disk := mk_sparse
  (<[102 := demo_bb]> (<[103 := demo_ib]>
    {[ 104 := replicate 228 0 ++ words_to_bytes (inode_words (demo_inode 3)) ++ replicate 208 0 ]})).
Definition demo_fs : fstate sparse_disk bump_heap :=
  mk_fs _ _ demo_medium demo_part (mk_bump []) ∅ (replicate 32 (mk_file 0 0 0)) demo_state.

Lemma forallb_range (P : Z -> bool) n : forallb P (seqZ 0 n) = true -> forall k, 0 <= k < n -> P k = true.
Proof.
  intros Hf k Hk. rewrite forallb_forall in Hf. apply Hf, list_elem_of_In, elem_of_seqZ. lia.
Qed.

Lemma good_bytes l : forallb (fun b => (0 <=? b) && (b <? 256)) l = true -> bytes l.
Proof.
  rewrite forallb_forall, Forall_forall. intros Hl x Hx. apply list_elem_of_In in Hx.
  specialize (Hl x Hx). zb. unfold is_byte. lia.
Qed.

Lemma words_ok l : forallb (fun w => (0 <=? w) && (w <? 2 ^ 32)) l = true -> Forall (fun w => is_u32 w) l.
Proof.
  rewrite forallb_forall, Forall_forall. intros Hl x Hx. apply list_elem_of_In in Hx.
  specialize (Hl x Hx). zb. lia.
Qed.

Lemma demo_geometry : geometry demo_part.
Proof.
  constructor; try (vm_compute; congruence).
  - constructor; [vm_compute; congruence | vm_compute; reflexivity | vm_compute; congruence |].
    apply good_bytes. vm_compute; reflexivity.
  - constructor; [vm_compute; congruence | vm_compute; reflexivity | vm_compute; congruence |].
    apply good_bytes. vm_compute; reflexivity.
  - intros k Hk. change (nbits (block_bitmap demo_part)) with 4096 in Hk. intros Hb.
    assert (implb (negb (bit (block_bitmap demo_part) k)) (712 + k <? 2100) = true) as Hc.
    { apply (forallb_range (fun k => implb (negb (bit (block_bitmap demo_part) k)) (712 + k <? 2100)) 4096); [|done].
      vm_compute. reflexivity. }
    rewrite Hb in Hc. cbn [implb negb] in Hc. apply Z.ltb_lt in Hc. exact Hc.
Qed.

Lemma demo_mem_ok : mem_ok demo_fs.
Proof.
  split; cbn; [constructor | intros a Ha; by apply elem_of_nil in Ha | intros a i; by rewrite lookup_empty |].
  intros a b i j Ha. by apply elem_of_nil in Ha.
Qed.

Lemma demo_not_open no : not_open demo_fs no.
Proof. intros a i Ha. by apply elem_of_nil in Ha. Qed.

Lemma range_eq {A} `{EqDecision A} (f g : Z -> A) n :
  forallb (fun q => bool_decide (f q = g q)) (seqZ 0 n) = true -> forall q, 0 <= q < n -> f q = g q.
Proof. intros Hf q Hq. by apply (forallb_range _ _ Hf), bool_decide_eq_true in Hq. Qed.

Lemma demo_synced : bb_synced demo_medium demo_part /\ ib_synced demo_medium demo_part.
Proof.
  split; intros q Hq.
  - apply (range_eq (fun q => dbyte demo_medium (512 * 102 + q)) (fun q => (demo_bb ++ [0]) !! Z.to_nat q) 512);
      [vm_compute; reflexivity | exact Hq].
  - apply (range_eq (fun q => dbyte demo_medium (512 * 103 + q)) (fun q => (demo_ib ++ [0]) !! Z.to_nat q) 512);
      [vm_compute; reflexivity | exact Hq].
Qed.

Lemma demo_disk_inode : disk_inode demo_medium demo_part 3 = Ok (demo_inode 3).
Proof. vm_compute. reflexivity. Qed.

Lemma demo_blocks : Forall (data_block demo_part) (inode_blocks demo_medium (demo_inode 3)).
Proof. change (inode_blocks demo_medium (demo_inode 3)) with [713; 714]. repeat constructor; cbn; lia. Qed.

Example inode_sync_open_witness :
  exists d buf f' a, inode_sync demo_fs (demo_inode 5) (replicate 1024 0) = Ok (with_medium d demo_fs, buf)
    /\ inode_open (with_medium d demo_fs) 5 = Ok (f', a)
    /\ inodes f' = {[ a := set_cnts 1 (demo_inode 5) ]}.
Proof.
  destruct (inode_sync_open demo_fs (demo_inode 5) (replicate 1024 0) demo_geometry demo_mem_ok)
    as (d & buf & f' & a & E1 & E2 & E3 & _).
  - split; [reflexivity | by apply words_ok].
  - cbn; lia.
  - apply demo_not_open.
  - apply bump_roomy.
  - rewrite length_replicate; lia.
  - apply Forall_replicate; unfold is_byte; lia.
  - exists d, buf, f', a. by repeat split.
Defined.

Example inode_sync_wrong_slot_witness :
  exists d buf, inode_sync demo_fs (demo_inode 259) (replicate 1024 0) = Ok (with_medium d demo_fs, buf)
    /\ disk_inode d demo_part 3 = Ok (demo_inode 259)
    /\ disk_inode d demo_part 259 = disk_inode demo_medium demo_part 259.
Proof.
  apply (inode_sync_wrong_slot demo_fs (demo_inode 259) (replicate 1024 0) demo_geometry).
  - split; [reflexivity | by apply words_ok].
  - cbn; lia.
  - rewrite length_replicate; lia.
  - apply Forall_replicate; unfold is_byte; lia.
Defined.

Example inode_open_close_witness :
  exists f1 a f', inode_open demo_fs 3 = Ok (f1, a) /\ inode_close f1 a = Ok f' /\ inodes f' = ∅.
Proof.
  destruct (inode_open_close demo_fs 3 demo_mem_ok demo_geometry ltac:(lia))
    as (f1 & a & f2 & f' & E1 & _ & _ & _ & _ & _ & _ & E2 & E3 & _).
  - right. split; [apply demo_not_open|]. split; [apply bump_roomy|].
    exists (demo_inode 3). split; [exact demo_disk_inode | reflexivity].
  - exists f1, a, f'. by repeat split.
Defined.

Example inode_release_witness :
  exists f', inode_release demo_fs 3 = Ok f' /\ bit (block_bitmap (cur_part f')) 1 = false
    /\ bit (block_bitmap (cur_part f')) 0 = true /\ bit (inode_bitmap (cur_part f')) 3 = false.
Proof.
  destruct (inode_release_spec demo_fs 3 (demo_inode 3) demo_mem_ok demo_geometry ltac:(lia) (demo_not_open 3)
              (bump_roomy _ _) demo_disk_inode eq_refl (proj1 demo_synced) (proj2 demo_synced) demo_blocks)
    as (f' & E & B1 & B2 & _).
  exists f'. split; [exact E|]. rewrite !B1, B2. repeat split.
Defined.
