(* ===== verification/Kheap.v ===== *)
(** The heap of Heap.v implements the allocator the file system relies on (class
    [KernelHeap] of Inode.v), and a concrete heap on the machine of Paging.v. *)
From S2P Require Import Prelude Bitmap Paging Heap Pagealloc Inode.

(** The heap as its clients see it: the functions of Heap.v run on it, and once one
    of them stops at an assertion or a bad access there is no heap to go on with. *)
Definition kheap (P : Type) `{PageAlloc P} : Type := outcome (heap P).

(** [true] is the kernel's heap. *)
Definition flag_pf (k : bool) : pool_flags := if k then PF_KERNEL else PF_USER.

Section kheap.
Context {P : Type} `{PageAllocLaws P}.
Abbreviation hp := (heap P).
Implicit Types (h : hp) (pf : pool_flags).

(** What a request is promised to be granted for: a size below the pool's, with a
    free block of it or pages to cut one from. *)
Definition grantable h pf (size : Z) : Prop := 0 < size < pg_pool_size (pages h) pf /\ granted h pf size.

#[export] Instance kheap_alloc : KernelHeap (kheap P) := {
  sys_malloc k flag size :=
    match k with
    | Err e => (Err e, 0)
    | Ok h => match Heap.sys_malloc h (flag_pf flag) size with
              | Err e => (Err e, 0)
              | Ok (h', r) => (Ok h', default 0 r)
              end
    end;
  sys_free k flag b := let! h := k in Heap.sys_free h (flag_pf flag) b;
  live k flag b := exists h, k = Ok h /\ heap_ok h /\ Heap.live h (flag_pf flag) b;
  may_malloc k flag size := exists h, k = Ok h /\ heap_ok h /\ grantable h (flag_pf flag) size }.

Lemma malloc_given h pf size : heap_ok h -> grantable h pf size ->
  exists h' b, Heap.sys_malloc h pf size = Ok (h', Some b) /\ given h h' pf b.
Proof.
  intros I [Hs Hg]. destruct (Z.le_gt_cases size 1024).
  - destruct (malloc_small h pf size I Hs ltac:(done) Hg) as (h' & b & E & G & _). by exists h', b.
  - destruct (malloc_large h pf size I ltac:(lia) Hg) as (h' & b & E & G & _). by exists h', b.
Qed.

Lemma free_returned h pf b : heap_ok h -> Heap.live h pf b -> exists h', Heap.sys_free h pf b = Ok h' /\ returned h h' pf b.
Proof.
  intros I Hb. destruct (live_at h 0 pf b I Hb) as (ar & Ha & _).
  destruct (a_large ar) eqn:El; [by apply (free_large h pf b ar) | by apply (free_small h pf b ar)].
Qed.

Lemma flag_pf_eq k k' : flag_pf k' = flag_pf k <-> k' = k.
Proof. split; [by destruct k, k' | by intros ->]. Qed.

(** A promised request is one step of the machine. *)
Lemma kmalloc_ok h flag size : heap_ok h -> grantable h (flag_pf flag) size ->
  exists h' b, Heap.sys_malloc h (flag_pf flag) size = Ok (h', Some b) /\ given h h' (flag_pf flag) b
    /\ Inode.sys_malloc (Ok h : kheap P) flag size = (Ok h', b).
Proof.
  intros I G. destruct (malloc_given h _ size I G) as (h' & b & E & Hg). exists h', b. cbn. by rewrite E.
Qed.

Lemma klive_Ok h flag b : heap_ok h -> Inode.live (Ok h : kheap P) flag b <-> Heap.live h (flag_pf flag) b.
Proof. intros I. split; [by intros (? & [= <-] & _ & Hl) | intros Hl; by exists h]. Qed.

#[export] Instance kheap_laws : KernelHeapLaws (kheap P).
Proof.
  split.
  - intros k flag n (h & -> & I & G). destruct (kmalloc_ok h flag n I G) as (h' & b & _ & Hg & ->).
    cbn. destruct (given_nonzero _ _ _ _ Hg). lia.
  - intros k flag n k1 a (h & -> & I & G) E. destruct (kmalloc_ok h flag n I G) as (h' & b & _ & [I' Hn Hl _ _] & E').
    rewrite E in E'. injection E' as -> ->. split; [rewrite klive_Ok by done; apply Hn|].
    intros k' c. rewrite !klive_Ok by done. by rewrite Hl, flag_pf_eq.
  - intros k flag b k' c (h & -> & I & Hb). destruct (free_returned h _ b I Hb) as (h' & E & [I' Hl _ _]).
    cbn [Inode.sys_free kheap_alloc obind]. rewrite E, !klive_Ok by done. by rewrite Hl, flag_pf_eq.
Qed.

(** What the heap does to the page allocator. *)
Lemma set_free_pages pf i l h h' : set_free pf i l h = Ok h' -> pages h' = pages h.
Proof. unfold set_free. intros E. apply obind_Ok in E as (? & _ & E). apply obind_Ok in E as (? & _ & E). injection E as <-. by destruct pf. Qed.

Lemma malloc_pages h pf size h' r : size <= 1024 -> Heap.sys_malloc h pf size = Ok (h', r) ->
  pages h' = pages h \/ exists v, pg_malloc (pages h) pf 1 = Ok (pages h', v).
Proof.
  intros Hs. unfold Heap.sys_malloc. case_bool; [intros [= <- _]; by left|]. replace (1024 <? size) with false by (symmetry; by apply Z.ltb_ge).
  intros E. apply obind_Ok in E as ([h1 ok] & E1 & E). assert (pages h1 = pages h \/ exists v, pg_malloc (pages h) pf 1 = Ok (pages h1, v)) as Hp.
  { unfold refill in E1. apply obind_Ok in E1 as (d & _ & E1). destruct (free_list d); [|injection E1 as <- _; by left].
    apply obind_Ok in E1 as ([p v] & Ep & E1). right. exists v. rewrite Ep. destruct v as [a|]; [|by injection E1 as <- _].
    apply obind_Ok in E1 as (l & _ & E1). apply obind_Ok in E1 as (h2 & Es & E1). injection E1 as <- _. by rewrite (set_free_pages _ _ _ _ _ Es). }
  destruct ok; cbn [negb] in E; [|by injection E as <- _].
  apply obind_Ok in E as ([h2 b] & E2 & E). injection E as <- _. enough (pages h2 = pages h1) as -> by done.
  unfold take_block in E2. apply obind_Ok in E2 as (d & _ & E2). destruct (free_list d) as [|b' l]; [done|].
  apply obind_Ok in E2 as (h3 & Es & E2). rewrite <- (set_free_pages _ _ _ _ _ Es).
  destruct (arenas h3 !! _); [|done]. by injection E2 as <- _.
Qed.

Lemma free_spare h pf b h' k : heap_ok h -> Heap.live h pf b -> Heap.sys_free h pf b = Ok h' -> spare (pages h) k -> spare (pages h') k.
Proof.
  intros I Hb E Hk. destruct (live_at h 0 pf b I Hb) as (ar & Ha & Hl). pose proof (hk_arena _ _ I _ _ Ha) as Ho. pose proof (hk_pages _ _ I) as Hp.
  unfold Heap.sys_free in E. apply obind_Ok in E as (_ & _ & E). apply obind_Ok in E as (_ & _ & E). rewrite Ha in E.
  unfold arena_ok in Ho. destruct (a_large ar).
  - destruct Ho as (Hd & Hc & pf' & Hq), Hl as [Hh _]. rewrite Hd in E. apply obind_Ok in E as (p & Ep & E). injection E as <-.
    assert (pf' = pf) as -> by (apply (held_one (pages h) pf' pf (block2arena b) Hp); [by apply Hq, in_pages_first | done]).
    by apply (spare_mfree (pages h) pf (block2arena b) (a_cnt ar)).
  - destruct Ho as (pf' & i & Hd & _ & Hh & _), Hl as (i' & Hd' & _). rewrite Hd in Hd', E. injection Hd' as -> ->.
    apply obind_Ok in E as (d & _ & E). destruct (_ =? _).
    + apply obind_Ok in E as (l & _ & E). apply obind_Ok in E as (h1 & Es & E). apply obind_Ok in E as (p & Ep & E). injection E as <-.
      rewrite (set_free_pages _ _ _ _ _ Es) in Ep. apply (spare_mfree (pages h) pf (block2arena b) 1) with (k := k) in Ep; try done.
      by intros q ->%in_pages_one.
    + apply obind_Ok in E as (h1 & Es & E). injection E as <-. cbn. by rewrite (set_free_pages _ _ _ _ _ Es).
Qed.

(** A page is spare for every request the file system makes. *)
Lemma kheap_roomy n : forall h, heap_ok h -> spare (pages h) n -> roomy n (Ok h : kheap P).
Proof.
  induction n as [|n IH]; intros h I Hn; [done|]. split.
  - intros flag sz Hsz. destruct (spare_room (pages h) (flag_pf flag) n (hk_pages _ _ I) Hn) as [Hroom Hsize].
    assert (grantable h (flag_pf flag) sz) as G.
    { split; [lia|]. unfold granted. replace (1024 <? sz) with false by (symmetry; apply Z.ltb_ge; lia). by right. }
    split; [by exists h|]. destruct (kmalloc_ok h flag sz I G) as (h' & b & E & [I' _ _ _ _] & ->). apply IH; [done|].
    destruct (malloc_pages h _ sz h' _ ltac:(lia) E) as [->|[v Ev]]; [by apply spare_less|].
    by apply (spare_malloc (pages h) (flag_pf flag) n _ v); [apply I | |].
  - intros flag b (h0 & [= <-] & _ & Hl). destruct (free_returned h _ b I Hl) as (h' & E & [I' _ _ _]).
    cbn [Inode.sys_free kheap_alloc obind]. rewrite E. apply IH; [done|]. apply (free_spare h (flag_pf flag) b); [done..|]. by apply spare_less.
Qed.

(** ** Properties *)


End kheap.

(** ** Witnesses: the empty heap of the machine of Paging.v *)

Lemma demo_pages_ok : vm_pages_ok demo_vm.
Proof.
  assert (forall pf q f, ~ page_frame demo_vm pf q f) as Hno.
  { intros pf q f (j & Hj & _ & Hb & _). assert (bit (vaddr_bitmap (get_vaddr pf demo_vm)) j = false) as Hf; [|congruence].
    assert (0 <= j < 8) as Hj' by (by destruct pf).
    destruct pf; apply (range_eq (bit _) (fun _ => false) 8); done. }
  split; try (intros; exfalso; eapply Hno; eassumption).
  - apply demo_vm_ok.
  - intros pf. split; [by destruct pf; solve_bitmap_wf | destruct pf; split_and!; (reflexivity || vm_compute; discriminate) |].
    intros i Hi _. apply demo_unmapped. assert (0 <= i < 8) as Hi' by (by destruct pf). destruct pf; unfold mappable, PG_SIZE; cbn; lia.
  - cbn; lia.
  - intros pf. destruct pf; vm_compute; intuition discriminate.
  - vm_compute; discriminate.
  - vm_compute; discriminate.
Qed.

Definition demo_heap : heap vm := mk_heap vm demo_vm block_desc_init block_desc_init ∅ (fun _ => 0).

Lemma demo_heap_ok : heap_ok demo_heap.
Proof. apply heap_init, demo_pages_ok. Qed.

Lemma demo_none_live pf c : ~ Heap.live demo_heap pf c.
Proof. intros (a & ar & Ha & _). change (arenas demo_heap) with (∅ : gmap Z arena) in Ha. by rewrite lookup_empty in Ha. Qed.

Lemma demo_granted : granted demo_heap PF_KERNEL 100 /\ granted demo_heap PF_KERNEL 5000.
Proof. split; [right|]; vm_compute; reflexivity. Qed.

Example sys_malloc_witness : exists h' b, Heap.sys_malloc demo_heap PF_KERNEL 100 = Ok (h', Some b) /\ 100 <= block_len h' b.
Proof.
  destruct (proj1 (sys_malloc_spec demo_heap PF_KERNEL 100 demo_heap_ok)) as (h' & b & E & _ & Hl & _).
  - vm_compute; split; reflexivity.
  - exact (proj1 demo_granted).
  - exists h', b. exact (conj E Hl).
Defined.

(** The heap after one small request. *)
Definition demo_heap1 : heap vm := match Heap.sys_malloc demo_heap PF_KERNEL 100 with Ok (h, _) => h | Err _ => demo_heap end.

Lemma demo_heap1_given : given demo_heap demo_heap1 PF_KERNEL 0xc010000c.
Proof.
  destruct (malloc_small demo_heap PF_KERNEL 100 demo_heap_ok) as (h' & b & E & G & _).
  - vm_compute; split; reflexivity.
  - lia.
  - exact (proj1 demo_granted).
  - unfold demo_heap1. rewrite E. assert (b = 0xc010000c) as <-; [|done].
    assert (match Heap.sys_malloc demo_heap PF_KERNEL 100 with Ok (_, Some b) => b | _ => 0 end = 0xc010000c) as Hb by (vm_compute; reflexivity).
    by rewrite E in Hb.
Qed.

Example sys_free_witness : exists h', Heap.sys_free demo_heap1 PF_KERNEL 0xc010000c = Ok h' /\ arenas h' = ∅.
Proof.
  destruct demo_heap1_given as [I _ Hl _ _].
  destruct (sys_free_spec demo_heap1 PF_KERNEL 0xc010000c I) as (h' & E & _ & Hlive & _ & Hemp).
  - apply Hl. by right.
  - exists h'. split; [exact E|]. apply Hemp. intros pf' c Hc. destruct (proj1 (Hlive pf' c) Hc) as [Hc' Hn].
    destruct (proj1 (Hl pf' c) Hc') as [H0|H0]; [exact (demo_none_live pf' c H0) | exact (Hn H0)].
Defined.

