(* ===== verification/File.v ===== *)
(** fs/file.c: the file table and the descriptors of the running task, opening,
    closing, reading and appending to files; with shell/pipe.c's descriptor
    part and fs/fs.c's [fd_local2global].

    A [struct file*] is an index of [file_table]. Heap addresses and open
    inodes are those of Inode.v; [buf] is the caller's memory from the pointer
    on. *)
From S2P Require Import Prelude Bitmap Thread Ide Blockdev Inode.

Definition MAX_FILE_OPEN : Z := 32.
Definition O_RDONLY : Z := 0.
Definition O_WRONLY : Z := 1.
Definition O_RDWR : Z := 2.
Definition O_CREAT : Z := 4.
Definition PIPE_FLAG : Z := 0xffff.

Section file.
Context {D H : Type} `{BlockDevice D} `{KernelHeap H}.
Abbreviation fs := (fstate D H).

Definition get_file (f : fs) (fd : Z) : outcome file := rd (file_table f) fd.
Definition put_file (fd : Z) (x : file) (f : fs) : outcome fs :=
  let! l := wr (file_table f) fd x in Ok (with_files l f).
Definition set_pos (v : Z) (x : file) : file := mk_file v (fd_flag x) (fd_inode x).

(** ** Descriptors *)

Definition free_slot_body (f : fs) (fd_idx : Z) : outcome (Z + Z) :=
  if fd_idx <? MAX_FILE_OPEN then
    let! x := get_file f fd_idx in
    if fd_inode x =? 0 then Ok (inr fd_idx) else Ok (inl (fd_idx + 1))
  else Ok (inr fd_idx).

Definition get_free_slot_in_global (f : fs) : outcome Z :=
  let! fd_idx := loop (free_slot_body f) 30 3 in
  if fd_idx =? MAX_FILE_OPEN then Ok (-1) else Ok fd_idx.

Definition fd_install_body (global_fd_idx : Z) (s : Z * list Z) : outcome (Z * list Z + Z * list Z) :=
  let '(local_fd_idx, t) := s in
  if local_fd_idx <? MAX_FILES_OPEN_PER_PROC then
    let! v := rd t local_fd_idx in
    if v =? -1 then let! t := wr t local_fd_idx global_fd_idx in Ok (inr (local_fd_idx, t))
    else Ok (inl (u8 (local_fd_idx + 1), t))
  else Ok (inr (local_fd_idx, t)).

Definition set_fds (t : list Z) (f : fs) : outcome fs :=
  let! k := upd_task (kern f) (running_thread (kern f)) (set_fd_table t) in Ok (with_kern k f).

Definition cur_fds (f : fs) : outcome (list Z) :=
  let! cur := get_task (kern f) (running_thread (kern f)) in Ok (fd_table cur).

Definition pcb_fd_install (f : fs) (global_fd_idx : Z) : outcome (fs * Z) :=
  let! t := cur_fds f in
  let! ' (local_fd_idx, t) := loop (fd_install_body global_fd_idx) 6 (3, t) in
  if local_fd_idx =? MAX_FILES_OPEN_PER_PROC then Ok (f, -1) else
  let! f := set_fds t f in Ok (f, local_fd_idx).

(** fs/fs.c. *)
Definition fd_local2global (f : fs) (local_fd : Z) : outcome Z :=
  let! t := cur_fds f in
  let! global_fd := rd t local_fd in
  c_assert ((0 <=? global_fd) && (global_fd <? MAX_FILE_OPEN)) ;;;
  Ok global_fd.

(** ** Opening and closing *)

Definition file_open (f : fs) (inode_no flag : Z) : outcome (fs * Z) :=
  let! fd_idx := get_free_slot_in_global f in
  if fd_idx =? -1 then Ok (f, -1) else
  let! ' (f, a) := inode_open f inode_no in
  let! f := put_file fd_idx (mk_file 0 flag a) f in
  if negb (Z.land flag O_WRONLY =? 0) || negb (Z.land flag O_RDWR =? 0) then
    let! i := get_inode f a in
    if write_deny i =? 0 then pcb_fd_install (put_inode a (set_deny 1 i) f) fd_idx
    else Ok (f, -1)
  else pcb_fd_install f fd_idx.

Definition file_close (f : fs) (file : option Z) : outcome (fs * Z) :=
  match file with
  | None => Ok (f, -1)
  | Some fd =>
      let! x := get_file f fd in
      let! i := get_inode f (fd_inode x) in
      let! f := inode_close (put_inode (fd_inode x) (set_deny 0 i) f) (fd_inode x) in
      let! f := put_file fd (mk_file (fd_pos x) (fd_flag x) 0) f in
      Ok (f, 0)
  end.

(** ** Reading *)

(** [all_blocks] is 140 words; the table's 128 go to its end. *)
Definition table_at_12 (all_blocks table : list Z) : list Z := take 12 all_blocks ++ table.

Definition copy_sectors_body (i_sectors : list Z) (last : Z) (s : Z * list Z)
  : outcome (Z * list Z + list Z) :=
  let '(block_idx, all_blocks) := s in
  if block_idx <=? last then
    let! lba := rd i_sectors block_idx in
    let! all_blocks := wr all_blocks block_idx lba in
    Ok (inl (block_idx + 1, all_blocks))
  else Ok (inr all_blocks).

(** [all_blocks[block_idx] = i_sectors[block_idx]] from [first] to [last]. *)
Definition copy_sectors (i_sectors all_blocks : list Z) (first last : Z) : outcome (list Z) :=
  loop (copy_sectors_body i_sectors last) 15 (first, all_blocks).

Definition read_blocks (f : fs) (i : inode) (all_blocks : list Z) (start_idx end_idx : Z) : outcome (list Z) :=
  let with_table l :=
    let! table_lba := rd (i_sectors i) 12 in
    let! table := read_table (medium f) table_lba in Ok (table_at_12 l table) in
  let assert_table := let! table_lba := rd (i_sectors i) 12 in c_assert (negb (table_lba =? 0)) in
  if u32 (start_idx - end_idx) =? 0 then
    c_assert (end_idx =? start_idx) ;;;
    if end_idx <? 12 then
      let! lba := rd (i_sectors i) end_idx in wr all_blocks end_idx lba
    else with_table all_blocks
  else if end_idx <? 12 then copy_sectors (i_sectors i) all_blocks start_idx end_idx
  else if (start_idx <? 12) && (12 <=? end_idx) then
    let! all_blocks := copy_sectors (i_sectors i) all_blocks start_idx 11 in
    assert_table ;;; with_table all_blocks
  else assert_table ;;; with_table all_blocks.

(** The copy loop: position, bytes read, bytes left, bytes put into [buf]. *)
Definition file_read_body (d : D) (all_blocks : list Z) (size : Z) (s : Z * Z * Z * list Z)
  : outcome (Z * Z * Z * list Z + Z * Z * list Z) :=
  let '(pos, bytes_read, size_left, out) := s in
  if bytes_read <? size then
    let sec_idx := pos / BLOCK_SIZE in
    let! sec_lba := rd all_blocks sec_idx in
    let sec_off_bytes := pos mod BLOCK_SIZE in
    let sec_left_bytes := BLOCK_SIZE - sec_off_bytes in
    let chunk_size := if size_left <? sec_left_bytes then size_left else sec_left_bytes in
    let! io_buf := disk_read d sec_lba 1 (replicate 512 0) 0 in
    let! chunk := slice io_buf sec_off_bytes chunk_size in
    Ok (inl (u32 (pos + chunk_size), u32 (bytes_read + chunk_size), u32 (size_left - chunk_size), out ++ chunk))
  else Ok (inr (pos, bytes_read, out)).

(** The bytes put at [buf] are the third result. *)
Definition file_read (f : fs) (fd count : Z) : outcome (fs * Z * list Z) :=
  let! x := get_file f fd in
  let! i := get_inode f (fd_inode x) in
  let past_end := i_size i <? u32 (fd_pos x + count) in
  let size := if past_end then u32 (i_size i - fd_pos x) else count in
  if past_end && (size =? 0) then Ok (f, -1, []) else
  let '(h, io_buf) := sys_malloc (kheap f) false BLOCK_SIZE in
  if io_buf =? 0 then Ok (with_kheap h f, -1, []) else
  let '(h, ab) := sys_malloc h false (BLOCK_SIZE + 48) in
  if ab =? 0 then Ok (with_kheap h f, -1, []) else
  let start_idx := fd_pos x / BLOCK_SIZE in
  let end_idx := u32 (fd_pos x + size) / BLOCK_SIZE in
  c_assert ((start_idx <? 139) && (end_idx <? 139)) ;;;
  let! all_blocks := read_blocks f i (replicate 140 0) start_idx end_idx in
  let! ' (pos, bytes_read, out) :=
    loop (file_read_body (medium f) all_blocks size) (S (Z.to_nat size)) (fd_pos x, 0, size, []) in
  let! f := put_file fd (set_pos pos x) f in
  Ok (with_kheap (sys_free (sys_free h false ab) false io_buf) f, s32 bytes_read, out).

(** ** Appending *)

(** [fd_inode->i_sectors[idx]], read and written in place. *)
Definition get_sector (f : fs) (a idx : Z) : outcome Z :=
  let! i := get_inode f a in rd (i_sectors i) idx.
Definition put_sector (f : fs) (a idx lba : Z) : outcome fs :=
  let! i := get_inode f a in
  let! l := wr (i_sectors i) idx lba in
  Ok (put_inode a (set_sectors l i) f).

(** [block_bitmap_idx] of a block just allocated. *)
Definition bitmap_idx_of (f : fs) (block_lba : Z) : Z :=
  u32 (block_lba - data_start_lba (sb (cur_part f))).

(** The first write gives the file its first block; [None] is the return of -1. *)
Definition first_block (f : fs) (a : Z) : outcome (fs * option unit) :=
  let! s0 := get_sector f a 0 in
  if s0 =? 0 then
    let! ' (f, block_lba) := block_bitmap_alloc f in
    if block_lba =? -1 then Ok (f, None) else
    let! f := put_sector f a 0 block_lba in
    c_assert (negb (bitmap_idx_of f block_lba =? 0)) ;;;
    let! f := bitmap_sync f (bitmap_idx_of f block_lba) BLOCK_BITMAP in
    Ok (f, Some tt)
  else Ok (f, Some tt).

(** Where the three allocation loops put a new block: situation 1, the two
    branches of situation 2, situation 3. *)
Definition store_direct (a : Z) (f : fs) (all_blocks : list Z) (block_idx block_lba : Z) : outcome (fs * list Z) :=
  let! old := get_sector f a block_idx in
  c_assert (old =? 0) ;;;
  let! all_blocks := wr all_blocks block_idx block_lba in
  let! f := put_sector f a block_idx block_lba in
  Ok (f, all_blocks).
Definition store_indirect (f : fs) (all_blocks : list Z) (block_idx block_lba : Z) : outcome (fs * list Z) :=
  let! all_blocks := wr all_blocks block_idx block_lba in Ok (f, all_blocks).
Definition store_mixed (a : Z) (f : fs) (all_blocks : list Z) (block_idx block_lba : Z) : outcome (fs * list Z) :=
  if block_idx <? 12 then store_direct a f all_blocks block_idx block_lba
  else store_indirect f all_blocks block_idx block_lba.

(** One turn of an allocation loop. *)
Definition alloc_body (store : fs -> list Z -> Z -> Z -> outcome (fs * list Z)) (file_will_use_blocks : Z)
    (s : fs * list Z * Z) : outcome (fs * list Z * Z + fs * option (list Z)) :=
  let '(f, all_blocks, block_idx) := s in
  if block_idx <? file_will_use_blocks then
    let! ' (f, block_lba) := block_bitmap_alloc f in
    if block_lba =? -1 then Ok (inr (f, None)) else
    let! ' (f, all_blocks) := store f all_blocks block_idx block_lba in
    let! f := bitmap_sync f (bitmap_idx_of f block_lba) BLOCK_BITMAP in
    Ok (inl (f, all_blocks, block_idx + 1))
  else Ok (inr (f, Some all_blocks)).

Definition alloc_loop store (f : fs) (all_blocks : list Z) (first will_use : Z) : outcome (fs * option (list Z)) :=
  loop (alloc_body store will_use) 141 (f, all_blocks, first).

(** [ide_write] of [all_blocks + 12]. *)
Definition write_table (f : fs) (lba : Z) (all_blocks : list Z) : outcome fs :=
  let! d := disk_write (medium f) lba 1 (words_to_bytes (drop 12 all_blocks)) 0 in
  Ok (with_medium d f).

(** The blocks the write will touch, allocating what is missing. *)
Definition write_blocks (f : fs) (a : Z) (all_blocks : list Z) (has_used will_use : Z)
  : outcome (fs * option (list Z)) :=
  if u32 (will_use - has_used) =? 0 then
    if will_use <=? 12 then
      let block_idx := has_used - 1 in
      let! lba := get_sector f a block_idx in
      let! all_blocks := wr all_blocks block_idx lba in
      Ok (f, Some all_blocks)
    else
      let! table_lba := get_sector f a 12 in
      c_assert (negb (table_lba =? 0)) ;;;
      let! table := read_table (medium f) table_lba in
      Ok (f, Some (table_at_12 all_blocks table))
  else if will_use <=? 12 then
    let block_idx := has_used - 1 in
    let! lba := get_sector f a block_idx in
    c_assert (negb (lba =? 0)) ;;;
    let! all_blocks := wr all_blocks block_idx lba in
    alloc_loop (store_direct a) f all_blocks has_used will_use
  else if (has_used <=? 12) && (12 <? will_use) then
    let block_idx := has_used - 1 in
    let! lba := get_sector f a block_idx in
    let! all_blocks := wr all_blocks block_idx lba in
    let! ' (f, block_lba) := block_bitmap_alloc f in
    if block_lba =? -1 then Ok (f, None) else
    let! old := get_sector f a 12 in
    c_assert (old =? 0) ;;;
    let! f := put_sector f a 12 block_lba in
    let! ' (f, r) := alloc_loop (store_mixed a) f all_blocks has_used will_use in
    match r with
    | None => Ok (f, None)
    | Some all_blocks => let! f := write_table f block_lba all_blocks in Ok (f, Some all_blocks)
    end
  else
    let! table_lba := get_sector f a 12 in
    c_assert (negb (table_lba =? 0)) ;;;
    let! table := read_table (medium f) table_lba in
    let! ' (f, r) := alloc_loop store_indirect f (table_at_12 all_blocks table) has_used will_use in
    match r with
    | None => Ok (f, None)
    | Some all_blocks => let! f := write_table f table_lba all_blocks in Ok (f, Some all_blocks)
    end.

(** The write loop, over the state, [fd_pos], bytes written, bytes left,
    [first_write_block] and [io_buf]; [src] is the caller's buffer. *)
Definition file_write_body (a : Z) (src all_blocks : list Z) (count : Z)
    (s : fs * Z * Z * Z * bool * list Z) : outcome (fs * Z * Z * Z * bool * list Z + fs * Z * Z * list Z) :=
  let '(f, pos, bytes_written, size_left, first_write_block, io_buf) := s in
  if bytes_written <? count then
    let io_buf := replicate 512 0 in
    let! i := get_inode f a in
    let sec_idx := i_size i / BLOCK_SIZE in
    let! sec_lba := rd all_blocks sec_idx in
    let sec_off_bytes := i_size i mod BLOCK_SIZE in
    let sec_left_bytes := BLOCK_SIZE - sec_off_bytes in
    let chunk_size := if size_left <? sec_left_bytes then size_left else sec_left_bytes in
    let! io_buf := if first_write_block : bool then disk_read (medium f) sec_lba 1 io_buf 0 else Ok io_buf in
    let! chunk := slice src bytes_written chunk_size in
    let! io_buf := splice io_buf sec_off_bytes chunk in
    let! d := disk_write (medium f) sec_lba 1 io_buf 0 in
    let f := put_inode a (set_size (u32 (i_size i + chunk_size)) i) (with_medium d f) in
    Ok (inl (f, u32 (pos + chunk_size), u32 (bytes_written + chunk_size), u32 (size_left - chunk_size), false, io_buf))
  else Ok (inr (f, pos, bytes_written, io_buf)).

(** [sys_malloc] clears what it gives: [all_blocks] starts as zeros. On the early
    returns of -1 after the buffers are taken they stay taken. *)
Definition file_write (f : fs) (fd : Z) (src : list Z) (count : Z) : outcome (fs * Z) :=
  let! x := get_file f fd in
  let a := fd_inode x in
  let! i := get_inode f a in
  if BLOCK_SIZE * 140 <? u32 (i_size i + count) then Ok (f, -1) else
  let '(h, io) := sys_malloc (kheap f) false 512 in
  if io =? 0 then Ok (with_kheap h f, -1) else
  let '(h, ab) := sys_malloc h false (BLOCK_SIZE + 48) in
  if ab =? 0 then Ok (with_kheap h f, -1) else
  let! ' (f, r) := first_block (with_kheap h f) a in
  match r with
  | None => Ok (f, -1)
  | Some _ =>
      let has_used := i_size i / BLOCK_SIZE + 1 in
      let will_use := u32 (i_size i + count) / BLOCK_SIZE + 1 in
      c_assert (will_use <=? 140) ;;;
      let! ' (f, r) := write_blocks f a (replicate 140 0) has_used will_use in
      match r with
      | None => Ok (f, -1)
      | Some all_blocks =>
          let! ' (f, pos, bytes_written, io_buf) :=
            loop (file_write_body a src all_blocks count) (S (Z.to_nat count))
              (f, u32 (i_size i - 1), 0, count, true, replicate 512 0) in
          let! f := put_file fd (set_pos pos x) f in
          let! i := get_inode f a in
          let! ' (f, _) := inode_sync f i io_buf in
          Ok (with_kheap (sys_free (sys_free (kheap f) false ab) false io) f, s32 bytes_written)
      end
  end.

(** ** Positioning and descriptors, fs/fs.c and shell/pipe.c *)

Inductive whence := SEEK_SET | SEEK_CUR | SEEK_END | BadWhence.

Definition sys_lseek (f : fs) (fd offset : Z) (w : whence) : outcome (fs * Z) :=
  if fd <? 0 then Ok (f, -1) else
  c_assert (match w with BadWhence => false | _ => true end) ;;;
  let! g := fd_local2global f fd in
  let! pf := get_file f g in
  let! i := get_inode f (fd_inode pf) in
  let file_size := s32 (i_size i) in
  let new_pos :=
    match w with
    | SEEK_SET => offset
    | SEEK_CUR => s32 (fd_pos pf + offset)
    | SEEK_END => s32 (file_size + offset)
    | BadWhence => 0
    end in
  if (new_pos <? 0) || (s32 (file_size - 1) <? new_pos) then Ok (f, -1) else
  let! f := put_file g (set_pos new_pos pf) f in
  Ok (f, new_pos).

Definition is_pipe (f : fs) (local_fd : Z) : outcome bool :=
  let! g := fd_local2global f local_fd in
  let! x := get_file f g in
  Ok (fd_flag x =? PIPE_FLAG).

Definition set_fd (f : fs) (fd v : Z) : outcome fs :=
  let! t := cur_fds f in
  let! t := wr t fd v in
  set_fds t f.

Definition sys_fd_redirect (f : fs) (old_local_fd new_local_fd : Z) : outcome fs :=
  if new_local_fd <? 3 then set_fd f old_local_fd (s32 new_local_fd)
  else
    let! t := cur_fds f in
    let! new_global_fd := rd t new_local_fd in
    set_fd f old_local_fd new_global_fd.

(** Closing a descriptor; the page of a pipe whose last descriptor goes is the
    third result, given back by [mfree_page]. *)
Definition sys_close (f : fs) (fd : Z) : outcome (fs * Z * option Z) :=
  if 2 <? fd then
    let! g := fd_local2global f fd in
    let! p := is_pipe f fd in
    let! ' (f, ret, page) :=
      if (p : bool) then
        let! x := get_file f g in
        let x := set_pos (u32 (fd_pos x - 1)) x in
        if fd_pos x =? 0 then
          let! f := put_file g (mk_file (fd_pos x) (fd_flag x) 0) f in Ok (f, 0, Some (fd_inode x))
        else let! f := put_file g x f in Ok (f, 0, None)
      else let! ' (f, ret) := file_close f (Some g) in Ok (f, ret, None) in
    let! f := set_fd f fd (-1) in
    Ok (f, ret, page)
  else Ok (f, -1, None).

(** [page] is what [get_kernel_pages] returned. *)
Definition sys_pipe (f : fs) (page : Z) : outcome (fs * Z * Z * Z) :=
  let! g := get_free_slot_in_global f in
  if g <? 0 then Err BadAccess else
  if page =? 0 then Err BadAccess else
  let! f := put_file g (mk_file 2 PIPE_FLAG page) f in
  let! ' (f, fd0) := pcb_fd_install f g in
  let! ' (f, fd1) := pcb_fd_install f g in
  Ok (f, fd0, fd1, 0).

End file.

(** ** Specification *)

(** The sector of block [k] of a file, and its byte at a position. *)
Definition file_block {D} `{BlockDevice D} (d : D) (i : inode) (k : Z) : Z :=
  default 0 (if k <? 12 then znth (i_sectors i) k else znth (indirect_table d i) (k - 12)).
Definition file_byte {D} `{BlockDevice D} (d : D) (i : inode) (p : Z) : option Z :=
  sector d (file_block d i (p / 512)) !! Z.to_nat (p mod 512).

(** ** Lemmas *)

Section lemmas.
Context {D H : Type} `{BlockDeviceLaws D} `{KernelHeapLaws H}.
Abbreviation fs := (fstate D H).
Implicit Types (f : fs) (i : inode) (d : D).

Lemma copy_sectors_ok l ab first last : 0 <= first -> last < zlen l -> last < zlen ab -> last - first <= 12 ->
  first <= last + 1 ->
  exists ab', copy_sectors l ab first last = Ok ab' /\ length ab' = length ab
    /\ forall k, znth ab' k = if (first <=? k) && (k <=? last) then znth l k else znth ab k.
Proof.
  intros Hf Hl Ha Hn Hfl. unfold copy_sectors.
  loop_inv (fun s : Z * list Z => let '(n, ab') := s in first <= n <= last + 1 /\ length ab' = length ab
              /\ forall k, znth ab' k = if (first <=? k) && (k <? n) then znth l k else znth ab k)
           (fun s : Z * list Z => Z.to_nat (last + 1 - fst s)).
  - intros [n ab'] (Hr & Hlen & Hk). unfold copy_sectors_body. destruct (Z.leb_spec n last).
    + destruct (znth_in l n ltac:(lia)) as [v Hv]. rewrite (rd_znth _ _ _ Hv). cbn [obind].
      rewrite wr_in by lia. cbn [obind fst]. split; [|lia]. split; [lia|].
      split; [by rewrite length_insert|]. intros k. rewrite znth_insert by lia.
      destruct (Z.eqb_spec k n) as [->|]; [by zdec|]. rewrite Hk.
      replace (k <? n + 1) with (k <? n); [done|].
      destruct (Z.ltb_spec k n); symmetry; [apply Z.ltb_lt | apply Z.ltb_ge]; lia.
    + exists ab'. split; [done|]. split; [done|]. intros k. rewrite Hk.
      replace (k <=? last) with (k <? n); [done|].
      destruct (Z.ltb_spec k n); symmetry; [apply Z.leb_le | apply Z.leb_gt]; lia.
  - split; [lia|]. split; [done|]. intros k. case_bool; [|done]. zb. lia.
  - cbn [fst]. lia.
Qed.

(** The file's table of blocks exists when a block past the direct ones is asked for. *)
Definition has_table i (last : Z) : Prop :=
  12 <= last -> exists t, znth (i_sectors i) 12 = Some t /\ t <> 0 /\ t <= max_lba.

Lemma table_words d lba : length (bytes_to_words (sector d lba)) = 128%nat.
Proof.
  pose proof (sector_len d lba) as Hl. unfold SECTOR_SIZE in Hl.
  apply (bytes_to_words_ok 128); [lia | apply sector_bytes].
Qed.

Lemma indirect_table_of d i t : znth (i_sectors i) 12 = Some t -> t <> 0 ->
  indirect_table d i = bytes_to_words (sector d t).
Proof. intros Ht Hne. unfold indirect_table. rewrite Ht. cbn [default from_option id]. by apply Z.eqb_neq in Hne as ->. Qed.

Lemma znth_table ab tab k : length ab = 140%nat -> 0 <= k ->
  znth (table_at_12 ab tab) k = if k <? 12 then znth ab k else znth tab (k - 12).
Proof.
  intros Hl Hk. unfold table_at_12, znth. zdec. destruct (Z.ltb_spec k 12).
  - rewrite lookup_app_l by (rewrite length_take; lia). rewrite lookup_take_lt by lia. done.
  - zdec. rewrite lookup_app_r by (rewrite length_take; lia). rewrite length_take. f_equal. lia.
Qed.

Lemma znth_default l k : 0 <= k < zlen l -> znth l k = Some (default 0 (znth l k)).
Proof. intros Hk. by destruct (znth_in l k Hk) as [v ->]. Qed.

Lemma with_table_ok f i ab last : has_table i last -> 12 <= last -> length ab = 140%nat ->
  (let! table_lba := rd (i_sectors i) 12 in c_assert (negb (table_lba =? 0))) = Ok tt
  /\ exists l, (let! table_lba := rd (i_sectors i) 12 in
      let! table := read_table (medium f) table_lba in Ok (table_at_12 ab table)) = Ok l
    /\ length l = 140%nat
    /\ (forall k, 0 <= k < 12 -> znth l k = znth ab k)
    /\ (forall k, 12 <= k < 140 -> znth l k = Some (file_block (medium f) i k)).
Proof.
  intros Ht Hlast Hab. destruct (Ht Hlast) as (t & Hz & Hne & Hmax). rewrite (rd_znth _ _ _ Hz). cbn [obind].
  split; [by apply Z.eqb_neq in Hne as ->|]. rewrite read_table_ok by done. cbn [obind].
  eexists; split; [done|]. split; [|split].
  - unfold table_at_12. rewrite length_app, length_take, table_words. lia.
  - intros k Hk. rewrite znth_table by lia. by zdec.
  - intros k Hk. rewrite znth_table by lia. zdec. unfold file_block. zdec.
    rewrite (indirect_table_of _ _ _ Hz Hne). apply znth_default. rewrite table_words. lia.
Qed.

Lemma read_blocks_ok f i s e : 0 <= s <= e -> e < 139 -> length (i_sectors i) = 13%nat -> has_table i e ->
  exists l, read_blocks f i (replicate 140 0) s e = Ok l
    /\ forall k, s <= k <= e -> znth l k = Some (file_block (medium f) i k).
Proof.
  intros Hs He Hlen Ht. unfold read_blocks.
  assert (forall k, 0 <= k < 12 -> znth (i_sectors i) k = Some (file_block (medium f) i k)) as Hdir.
  { intros k Hk. unfold file_block. zdec. apply znth_default. lia. }
  assert (length (replicate 140 0) = 140%nat) as Hrep by done.
  remember (replicate 140 0) as ab eqn:Eab. clear Eab.
  destruct (Z.eq_dec s e) as [->|Hne].
  - replace (u32 (e - e)) with 0 by (by rewrite Z.sub_diag). cbn [Z.eqb]. rewrite Z.eqb_refl. cbn [c_assert obind].
    destruct (Z.ltb_spec e 12).
    + rewrite (rd_znth _ _ _ (Hdir e ltac:(lia))). cbn [obind]. rewrite wr_in by lia.
      eexists; split; [done|]. intros k Hk. rewrite znth_insert by lia. by replace k with e by lia; rewrite Z.eqb_refl.
    + destruct (with_table_ok f i ab e Ht ltac:(lia) Hrep) as (_ & l & El & _ & _ & Hl).
      exists l. split; [exact El|]. intros k Hk. apply Hl. lia.
  - replace (u32 (s - e) =? 0) with false.
    2: { symmetry. apply Z.eqb_neq. unfold u32. rewrite <- (Z.mod_add (s - e) 1) by lia. rewrite Z.mod_small; lia. }
    destruct (Z.ltb_spec e 12).
    + destruct (copy_sectors_ok (i_sectors i) ab s e) as (l & El & _ & Hl); try lia.
      exists l. split; [exact El|]. intros k Hk. rewrite Hl. zdec. apply Hdir. lia.
    + replace (12 <=? e) with true by (symmetry; apply Z.leb_le; lia). rewrite andb_true_r.
      destruct (Z.ltb_spec s 12).
      * destruct (copy_sectors_ok (i_sectors i) ab s 11) as (ab' & Ea & Hla & Hab'); try lia.
        rewrite Ea. cbn [obind].
        destruct (with_table_ok f i ab' e Ht ltac:(lia) ltac:(lia)) as (Eas & l & El & _ & Hl1 & Hl2).
        rewrite Eas. cbn [obind]. exists l. split; [exact El|]. intros k Hk. destruct (Z.lt_ge_cases k 12).
        -- rewrite Hl1, Hab' by lia. zdec. apply Hdir. lia.
        -- apply Hl2. lia.
      * destruct (with_table_ok f i ab e Ht ltac:(lia) ltac:(lia)) as (Eas & l & El & _ & Hl1 & Hl2).
        rewrite Eas. cbn [obind]. exists l. split; [exact El|]. intros k Hk. apply Hl2. lia.
Qed.

(** The copy loop, over blocks that are all known. *)
Lemma file_read_loop d i all_blocks pos size : 0 <= pos -> pos + size < 2 ^ 32 -> 0 <= size ->
  (forall k, pos / 512 <= k <= (pos + size) / 512 ->
     znth all_blocks k = Some (file_block d i k) /\ file_block d i k <= max_lba) ->
  exists out, loop (file_read_body d all_blocks size) (S (Z.to_nat size)) (pos, 0, size, [])
      = Ok (pos + size, size, out)
    /\ zlen out = size /\ forall k, 0 <= k < size -> out !! Z.to_nat k = file_byte d i (pos + k).
Proof.
  intros Hp Hmax Hs Hb.
  loop_inv (fun s : Z * Z * Z * list Z => let '(p, r, lf, out) := s in
              0 <= r <= size /\ p = pos + r /\ lf = size - r /\ zlen out = r
              /\ forall k, 0 <= k < r -> out !! Z.to_nat k = file_byte d i (pos + k))
           (fun s : Z * Z * Z * list Z => let '(p, r, lf, out) := s in Z.to_nat (size - r)).
  - intros [[[p r] lf] out] (Hr & -> & -> & Hlen & Hout). unfold file_read_body.
    destruct (Z.ltb_spec r size) as [Hlt|Hge].
    2: { replace r with size in * by lia. exists out. done. }
    change BLOCK_SIZE with 512.
    pose proof (Z.div_mod (pos + r) 512 ltac:(lia)) as Hdm. pose proof (Z.mod_pos_bound (pos + r) 512 ltac:(lia)) as Hmb.
    destruct (Hb ((pos + r) / 512)) as [Hz Hlba]; [split; apply Z.div_le_mono; lia|].
    rewrite (rd_znth _ _ _ Hz). cbn [obind]. rewrite disk_read_one by (done || by rewrite length_replicate). cbn [obind].
    set (o := (pos + r) mod 512) in *. set (c := if size - r <? 512 - o then size - r else 512 - o).
    assert (0 < c <= size - r /\ o + c <= 512) as [Hc Hoc] by (unfold c; case_bool; zb; lia).
    pose proof (sector_len d (file_block d i ((pos + r) / 512))) as Hsl. unfold SECTOR_SIZE in Hsl.
    unfold slice. zdec. cbn [obind]. rewrite !u32_small by lia.
    split; [|lia]. split; [lia|]. split; [lia|]. split; [lia|]. split.
    + rewrite length_app, length_take, length_drop. lia.
    + intros k Hk. destruct (Z.lt_ge_cases k r).
      * rewrite lookup_app_l by lia. apply Hout. lia.
      * rewrite lookup_app_r, lookup_take_lt, lookup_drop by lia. unfold file_byte.
        assert (pos + k = 512 * ((pos + r) / 512) + (o + (k - r))) as Epk by lia.
        assert ((pos + k) / 512 = (pos + r) / 512) as ->
          by (symmetry; apply (Z.div_unique _ _ _ (o + (k - r))); lia).
        assert ((pos + k) mod 512 = o + (k - r)) as ->
          by (symmetry; apply (Z.mod_unique _ _ ((pos + r) / 512)); lia).
        f_equal. lia.
  - split; [lia|]. split; [lia|]. split; [lia|]. split; [done|]. intros k Hk. lia.
  - lia.
Qed.

Lemma put_file_ok f fd x y : get_file f fd = Ok x ->
  put_file fd y f = Ok (with_files (<[Z.to_nat fd := y]> (file_table f)) f).
Proof.
  unfold get_file, put_file. intros Hx. apply rd_Ok, znth_Some in Hx. by rewrite wr_in.
Qed.

(** The requests a heap can still serve. *)
Lemma roomy_less n : forall h : H, roomy (S n) h -> roomy n h.
Proof.
  induction n as [|n IH]; intros h R; [done|]. destruct R as [R1 R2]. split.
  - intros k sz Hs. destruct (R1 k sz Hs) as [Hn R]. split; [done | by apply IH].
  - intros k a Ha. apply IH. by apply R2.
Qed.

Lemma roomy_le n k : forall h : H, roomy (k + n) h -> roomy n h.
Proof. induction k as [|k IH]; intros h R; [done|]. by apply IH, roomy_less. Qed.

Lemma roomy_malloc n (h : H) k sz : roomy (S n) h -> 0 < sz <= 1024 ->
  exists h' a, sys_malloc h k sz = (h', a) /\ a <> 0 /\ roomy n h' /\ ~ live h k a
    /\ forall k' b, live h' k' b <-> live h k' b \/ (k' = k /\ b = a).
Proof.
  intros [R _] Hs. destruct (R k sz Hs) as [M R']. pose proof (malloc_some _ _ _ M) as Ha. destruct (sys_malloc h k sz) as [h' a] eqn:E. cbn [fst snd] in *.
  destruct (malloc_fresh _ _ _ _ _ M E) as [F L]. by exists h', a.
Qed.

(** Two buffers taken and given back. *)
Lemma two_buffers_roomy n (h : H) n1 n2 : roomy (2 + n) h -> 0 < n1 <= 1024 -> 0 < n2 <= 1024 -> exists h1 b1 h2 b2,
  sys_malloc h false n1 = (h1, b1) /\ (b1 =? 0) = false /\ sys_malloc h1 false n2 = (h2, b2) /\ (b2 =? 0) = false
  /\ same_live h (sys_free (sys_free h2 false b2) false b1) /\ roomy (n - 2) (sys_free (sys_free h2 false b2) false b1).
Proof.
  intros R Hs1 Hs2. destruct (roomy_malloc _ h false n1 R Hs1) as (h1 & b1 & E1 & N1 & R1 & F1 & L1).
  destruct (roomy_malloc _ h1 false n2 R1 Hs2) as (h2 & b2 & E2 & N2 & R2 & F2 & L2).
  exists h1, b1, h2, b2. split; [done|]. split; [by apply Z.eqb_neq|]. split; [done|]. split; [by apply Z.eqb_neq|].
  assert (b1 <> b2) as Hne by (intros ->; apply F2, L1; by right).
  assert (live h2 false b2) as Lb2 by (apply L2; by right).
  assert (live (sys_free h2 false b2) false b1) as Lb1.
  { apply free_gone; [done|]. split; [apply L2; left; apply L1; by right | intros [_ ?]; done]. }
  split.
  - intros k a. rewrite free_gone by done. rewrite free_gone by done. rewrite L2, L1. split.
    + intros Ha. split; [split; [by left; left|]|].
      * intros [-> ->]. apply F2, L1. by left.
      * intros [-> ->]. by apply F1.
    + intros [[[[?|?]|?] Hn2] Hn1]; [done | by destruct Hn1 | by destruct Hn2].
  - destruct n as [|[|n]]; [done|done|]. cbn [Nat.sub]. rewrite Nat.sub_0_r. apply R2 in Lb2 as R3. by apply R3.
Qed.

Lemma two_buffers (h : H) n1 n2 : roomy 2 h -> 0 < n1 <= 1024 -> 0 < n2 <= 1024 -> exists h1 b1 h2 b2,
  sys_malloc h false n1 = (h1, b1) /\ (b1 =? 0) = false /\ sys_malloc h1 false n2 = (h2, b2) /\ (b2 =? 0) = false
  /\ same_live h (sys_free (sys_free h2 false b2) false b1).
Proof.
  intros R Hs1 Hs2. destruct (two_buffers_roomy 0 h n1 n2 R Hs1 Hs2) as (h1 & b1 & h2 & b2 & ? & ? & ? & ? & ? & _).
  by exists h1, b1, h2, b2.
Qed.

Lemma file_read_ok n f fd count x i : get_file f fd = Ok x -> get_inode f (fd_inode x) = Ok i ->
  wf_inode i -> 0 <= fd_pos x <= i_size i -> 0 <= count -> fd_pos x + count < 2 ^ 32 -> roomy (2 + n) (kheap f) ->
  let size := Z.min count (i_size i - fd_pos x) in
  (fd_pos x + size) / 512 < 139 -> has_table i ((fd_pos x + size) / 512) ->
  (forall k, fd_pos x / 512 <= k <= (fd_pos x + size) / 512 -> file_block (medium f) i k <= max_lba) ->
  if (0 <? count) && (size =? 0) then file_read f fd count = Ok (f, -1, [])
  else exists h out, file_read f fd count
      = Ok (with_kheap h (with_files (<[Z.to_nat fd := set_pos (fd_pos x + size) x]> (file_table f)) f), size, out)
    /\ zlen out = size
    /\ (forall k, 0 <= k < size -> out !! Z.to_nat k = file_byte (medium f) i (fd_pos x + k))
    /\ same_live (kheap f) h /\ roomy (n - 2) h.
Proof.
  intros Hx Hi Hwf Hpos Hc Hmax R size Hlast Htab Hblk.
  assert (i_size i < 2 ^ 32) as Hsz.
  { destruct Hwf as [_ Hw]. unfold inode_words in Hw. rewrite Forall_app, !Forall_cons in Hw. lia. }
  unfold file_read. rewrite Hx. cbn [obind]. rewrite Hi. cbn [obind]. rewrite (u32_small (fd_pos x + count)) by lia.
  assert ((if i_size i <? fd_pos x + count then u32 (i_size i - fd_pos x) else count) = size) as ->.
  { unfold size. case_bool; zb; [rewrite u32_small by lia|]; lia. }
  assert ((i_size i <? fd_pos x + count) && (size =? 0) = (0 <? count) && (size =? 0)) as ->.
  { unfold size. destruct (Z.ltb_spec (i_size i) (fd_pos x + count)), (Z.ltb_spec 0 count);
      destruct (Z.eqb_spec (Z.min count (i_size i - fd_pos x)) 0); try done; lia. }
  destruct ((0 <? count) && (size =? 0)) eqn:Eend; [done|].
  destruct (two_buffers_roomy n (kheap f) BLOCK_SIZE (BLOCK_SIZE + 48) R ltac:(done) ltac:(done)) as (h1 & b1 & h2 & b2 & E1 & N1 & E2 & N2 & Hlive & Hroomy).
  rewrite E1, N1, E2, N2. change BLOCK_SIZE with 512. rewrite u32_small by (unfold size; lia).
  assert (0 <= size) as Hs0 by (unfold size; lia).
  assert (fd_pos x / 512 <= (fd_pos x + size) / 512) as Hle by (apply Z.div_le_mono; lia).
  assert (0 <= fd_pos x / 512) as H0p by (apply Z.div_pos; lia). zdec. cbn [c_assert obind].
  destruct (read_blocks_ok f i (fd_pos x / 512) ((fd_pos x + size) / 512)) as (l & El & Hl);
    try done; try lia; [by destruct Hwf|].
  rewrite El. cbn [obind].
  destruct (file_read_loop (medium f) i l (fd_pos x) size) as (out & Eo & Hlen & Hout); try lia.
  { intros k Hk. split; [by apply Hl | by apply Hblk]. }
  rewrite Eo. cbn [obind]. rewrite (put_file_ok _ _ _ _ Hx). cbn [obind].
  rewrite s32_small.
  2: { assert (fd_pos x + size < 512 * 139); [|lia].
       pose proof (Z.div_mod (fd_pos x + size) 512 ltac:(lia)). pose proof (Z.mod_pos_bound (fd_pos x + size) 512 ltac:(lia)). lia. }
  eexists _, out. split; [done|]. by split_and!.
Qed.

(** ** Properties *)


End lemmas.

(** ** Witness: inode 3 of the partition of Inode.v, opened for reading and writing *)

Definition demo_open : fstate sparse_disk bump_heap :=
  match file_open demo_fs 3 O_RDWR with Ok (f, _) => f | Err _ => demo_fs end.

Definition demo_opened : inode := set_deny 1 (set_cnts 1 (demo_inode 3)).

Lemma demo_open_file : get_file demo_open 3 = Ok (mk_file 0 2 4096) /\ get_inode demo_open 4096 = Ok demo_opened
  /\ medium demo_open = demo_medium /\ cur_part demo_open = set_open [4096] demo_part.
Proof. split_and!; vm_compute; reflexivity. Qed.

