(* ===== verification/Filewrite.v ===== *)
(** Correctness of [file_write] of File.v: appending to a file keeps its old
    bytes, puts the new ones after them, takes only free blocks, and leaves
    every other allocated block alone. *)
From S2P Require Import Prelude Bitmap Thread Ide Blockdev Inode File.

(** ** Specification *)

Definition free_list (b : bitmap) : list Z := filter (fun k => bit b k = false) (seqZ 0 (nbits b)).

Definition table_lba (i : inode) : Z := default 0 (znth (i_sectors i) 12).

(** The sectors a file of [n] blocks lives on, the block table among them. *)
Definition used_list {D} `{BlockDevice D} (d : D) (i : inode) (n : Z) : list Z :=
  (if 12 <? n then [table_lba i] else []) ++ map (file_block d i) (seqZ 0 n).

(** A file of [n] blocks: on distinct allocated data blocks; the rest of the
    block list is empty. *)
Record file_layout {D} `{BlockDevice D} (p : partition) (d : D) (i : inode) (n : Z) : Prop := {
  lay_nodup : NoDup (used_list d i n);
  lay_used : Forall (fun b => data_block p b /\ bit (block_bitmap p) (b - data_start_lba (sb p)) = true) (used_list d i n);
  lay_free k : n <= k < 12 -> znth (i_sectors i) k = Some 0;
  lay_table : n <= 12 -> znth (i_sectors i) 12 = Some 0 }.

(** ** Allocation *)

Lemma free_exists b (N : list Z) : (length N < length (free_list b))%nat ->
  exists k, 0 <= k < nbits b /\ bit b k = false /\ k ∉ N.
Proof.
  intros Hl. destruct (decide (Forall (fun k => k ∈ N) (free_list b))) as [Hall|Hex].
  - exfalso. assert (free_list b ⊆+ N) as Hsub.
    { apply NoDup_submseteq; [apply NoDup_filter, NoDup_seqZ|]. intros x Hx. rewrite Forall_forall in Hall. auto. }
    apply submseteq_length in Hsub. lia.
  - apply not_Forall_Exists in Hex; [|apply _]. apply Exists_exists in Hex as (k & Hk & HN).
    apply list_elem_of_filter in Hk as [Hb Hr]. apply elem_of_seqZ in Hr. exists k. split; [lia|]. done.
Qed.

Section write.
Context {D H : Type} `{BlockDeviceLaws D} `{KernelHeapLaws H}.
Abbreviation fs := (fstate D H).
Implicit Types (f : fs) (i : inode) (d : D) (b : bitmap).

(** The state after allocations: another medium, bitmap and inode at [a]. *)
Definition with_alloc f (a : Z) d b i : fs := put_inode a i (fs_bb f d b).

Lemma get_with_alloc f a d b i : get_inode (with_alloc f a d b i) a = Ok i.
Proof. unfold get_inode, with_alloc, put_inode. cbn. by rewrite lookup_insert_eq. Qed.

Lemma put_with_alloc f a d b i i' : put_inode a i' (with_alloc f a d b i) = with_alloc f a d b i'.
Proof. unfold with_alloc, put_inode, with_inodes. cbn. by rewrite insert_insert_eq. Qed.

Section alloc.
Variables (f0 : fs) (a : Z).
Abbreviation p0 := (cur_part f0).
Abbreviation b0 := (block_bitmap (cur_part f0)).
Abbreviation ds := (data_start_lba (sb (cur_part f0))).

(** The blocks [N] have been taken since [f0]. *)
Record alloc_inv (d : D) (b : bitmap) (N : list Z) : Prop := {
  ai_geo : geometry (set_block_bitmap b p0);
  ai_nbits : nbits b = nbits b0;
  ai_nodup : NoDup N;
  ai_new x : x ∈ N -> data_block p0 x /\ bit b0 (x - ds) = false;
  ai_bits j : bit b j = bit b0 j || bool_decide (ds + j ∈ N);
  ai_disk q : ~ in_bb p0 q -> dbyte d q = dbyte (medium f0) q }.

Lemma alloc_inv_nil : geometry p0 -> alloc_inv (medium f0) b0 [].
Proof.
  intros G. split; try done.
  - by destruct p0, G; constructor.
  - constructor.
  - intros x Hx. by apply elem_of_nil in Hx.
  - intros j. rewrite bool_decide_eq_false_2 by (apply not_elem_of_nil). by rewrite orb_false_r.
Qed.

Lemma alloc_step d b i N : alloc_inv d b N -> (length N < length (free_list b0))%nat ->
  exists b' lba, block_bitmap_alloc (with_alloc f0 a d b i) = Ok (with_alloc f0 a d b' i, lba)
    /\ alloc_inv d b' (N ++ [lba]).
Proof.
  intros A Hfree. destruct (free_exists b0 (map (fun x => x - ds) N)) as (k & Hk & Hkb & HkN); [by rewrite length_map|].
  destruct (block_bitmap_alloc_ok (with_alloc f0 a d b i)) as (k' & b' & E & Hk' & Hf & G' & Hn & Hb');
    cbn [with_alloc put_inode with_inodes fs_bb with_medium with_part cur_part set_block_bitmap block_bitmap sb] in *.
  { apply A. }
  { exists k. rewrite (ai_nbits _ _ _ A), (ai_bits _ _ _ A), Hkb. split; [done|]. apply bool_decide_eq_false_2.
    intros Hin. apply HkN. apply list_elem_of_fmap. exists (ds + k). split; [lia|done]. }
  rewrite (ai_nbits _ _ _ A) in *. rewrite (ai_bits _ _ _ A), orb_false_iff in Hf. destruct Hf as [Hf0 HfN].
  apply bool_decide_eq_false in HfN.
  exists b', (ds + k'). split; [exact E|]. destruct A. split; try done.
  - apply NoDup_app. split; [done|]. split; [|apply NoDup_singleton].
    intros x Hx Hx'. apply list_elem_of_singleton in Hx' as ->. done.
  - intros x Hx. apply elem_of_app in Hx as [Hx|Hx]; [auto|]. apply list_elem_of_singleton in Hx as ->.
    replace (ds + k' - ds) with k' by lia. split; [|done]. split; [lia|].
    pose proof (geo_free _ ai_geo0 k') as Hgf. cbn in Hgf.
    rewrite ai_nbits0, ai_bits0, Hf0 in Hgf. rewrite bool_decide_eq_false_2 in Hgf by done. apply Hgf; [lia|done].
  - intros j. rewrite Hb', ai_bits0. destruct (Z.eqb_spec j k') as [->|Hne].
    + rewrite bool_decide_eq_true_2 by (apply elem_of_app; right; by apply list_elem_of_singleton).
      by rewrite orb_true_r.
    + f_equal. apply bool_decide_ext. rewrite elem_of_app, list_elem_of_singleton. split; [by left|].
      intros [|]; [done|lia].
Qed.

Lemma sync_step d b i N lba : alloc_inv d b N -> lba ∈ N ->
  exists d', bitmap_sync (with_alloc f0 a d b i) (bitmap_idx_of (with_alloc f0 a d b i) lba) BLOCK_BITMAP
      = Ok (with_alloc f0 a d' b i)
    /\ alloc_inv d' b N /\ bitmap_idx_of (with_alloc f0 a d b i) lba <> 0.
Proof.
  intros A Hin. destruct (ai_new _ _ _ A lba Hin) as [[Hk Hlast] _].
  assert (bitmap_idx_of (with_alloc f0 a d b i) lba = lba - ds) as Hidx.
  { unfold bitmap_idx_of. cbn. pose proof (ai_geo _ _ _ A) as G. geo G. apply u32_small. cbn in *. lia. }
  rewrite Hidx. destruct (bitmap_sync_ok (with_alloc f0 a d b i) (lba - ds) BLOCK_BITMAP) as (d' & E & W).
  { apply A. }
  { cbn. rewrite (ai_nbits _ _ _ A). lia. }
  cbn [with_alloc put_inode with_inodes fs_bb with_medium with_part cur_part set_block_bitmap block_bitmap sb medium] in W.
  exists d'. split; [rewrite E; done|]. split; [|lia]. destruct A. split; try done.
  intros q Hq. rewrite <- ai_disk0 by done. rewrite W. case_bool; [|done]. zb. exfalso. apply Hq. unfold in_bb.
  assert (0 <= (lba - ds) / 4096 < block_bitmap_sects (sb p0)) as Hs.
  { pose proof ai_geo0 as G. geo G. cbn in *.
    pose proof (Z.div_mod (lba - ds) 4096 ltac:(lia)). pose proof (Z.mod_pos_bound (lba - ds) 4096 ltac:(lia)). lia. }
  lia.
Qed.

(** ** The allocation loops *)

(** What a loop does with a new block: into [all_blocks], and into the inode
    where [dir] says so. *)
Definition store_spec (store : fs -> list Z -> Z -> Z -> outcome (fs * list Z)) (dir : Z -> bool) : Prop :=
  forall f i blocks k lba, get_inode f a = Ok i -> length (i_sectors i) = 13%nat -> length blocks = 140%nat ->
    0 <= k < 140 -> (dir k = true -> k < 12 /\ znth (i_sectors i) k = Some 0) ->
    store f blocks k lba
    = Ok (if dir k then put_inode a (set_sectors (<[Z.to_nat k := lba]> (i_sectors i)) i) f else f,
          <[Z.to_nat k := lba]> blocks).

Lemma store_indirect_ok : store_spec store_indirect (fun _ => false).
Proof. intros f i blocks k lba _ _ Hb Hk _. unfold store_indirect. by rewrite wr_in by lia. Qed.

Lemma put_sector_ok f i k lba : get_inode f a = Ok i -> 0 <= k < zlen (i_sectors i) ->
  put_sector f a k lba = Ok (put_inode a (set_sectors (<[Z.to_nat k := lba]> (i_sectors i)) i) f).
Proof. intros Hi Hk. unfold put_sector. rewrite Hi. cbn [obind]. by rewrite wr_in. Qed.

Lemma get_sector_ok f i k v : get_inode f a = Ok i -> znth (i_sectors i) k = Some v -> get_sector f a k = Ok v.
Proof. intros Hi Hk. unfold get_sector. rewrite Hi. cbn [obind]. by apply rd_znth. Qed.

Lemma store_direct_at f i blocks k lba : get_inode f a = Ok i -> length (i_sectors i) = 13%nat -> length blocks = 140%nat ->
  0 <= k < 12 -> znth (i_sectors i) k = Some 0 ->
  store_direct a f blocks k lba
  = Ok (put_inode a (set_sectors (<[Z.to_nat k := lba]> (i_sectors i)) i) f, <[Z.to_nat k := lba]> blocks).
Proof.
  intros Hi Hl Hb Hk Hz. unfold store_direct. rewrite (get_sector_ok _ _ _ _ Hi Hz). cbn [obind Z.eqb c_assert].
  rewrite wr_in by lia. cbn [obind]. by rewrite (put_sector_ok _ _ _ _ Hi) by lia.
Qed.

Lemma store_direct_ok : store_spec (store_direct a) (fun _ => true).
Proof.
  intros f i blocks k lba Hi Hl Hb Hk Hd. destruct (Hd eq_refl). apply store_direct_at; done || lia.
Qed.

Lemma store_mixed_ok : store_spec (store_mixed a) (fun k => k <? 12).
Proof.
  intros f i blocks k lba Hi Hl Hb Hk Hd. unfold store_mixed. destruct (Z.ltb_spec k 12).
  - destruct (Hd eq_refl). apply store_direct_at; done || lia.
  - unfold store_indirect. rewrite wr_in by lia. done.
Qed.

Lemma znth_elem (l : list Z) k x : znth l k = Some x -> x ∈ l.
Proof. unfold znth. case_bool; [done|]. apply list_elem_of_lookup_2. Qed.

Lemma elem_znth (l : list Z) x : x ∈ l -> exists k, znth l k = Some x.
Proof.
  intros Hx. apply list_elem_of_lookup in Hx as [n Hn]. exists (Z.of_nat n). unfold znth. rewrite Nat2Z.id.
  by replace (Z.of_nat n <? 0) with false by (symmetry; apply Z.ltb_ge; lia).
Qed.

Lemma new_u32 d b N' x : alloc_inv d b N' -> x ∈ N' -> is_u32 x.
Proof. intros A Hx. destruct (ai_new _ _ _ A x Hx) as [[Hk Hlast] _]. pose proof (ai_geo _ _ _ A) as G. geo G. cbn in *. lia. Qed.

Section loop.
Variables (store : fs -> list Z -> Z -> Z -> outcome (fs * list Z)) (dir : Z -> bool).
Hypothesis Hstore : store_spec store dir.
Variables (i : inode) (N blocks : list Z) (first will : Z).
Hypothesis Hi : length (i_sectors i) = 13%nat.
Hypothesis Hblocks : length blocks = 140%nat /\ Forall (fun w => is_u32 w) blocks.
Hypothesis Hfirst : 0 <= first <= will.
Hypothesis Hwill : will <= 140.
Hypothesis Hroom : (length N + Z.to_nat (will - first) <= length (free_list b0))%nat.
Hypothesis Hdir : forall k, first <= k < will -> dir k = true -> k < 12 /\ znth (i_sectors i) k = Some 0.

(** [M] has been stored at [first], ... of [blocks'] and, where [dir] says so, of [l]. *)
Definition stored (n : Z) (M blocks' l : list Z) : Prop :=
  zlen M = n - first /\ length blocks' = 140%nat /\ Forall (fun w => is_u32 w) blocks' /\ length l = 13%nat
  /\ (forall k, znth blocks' k = if (first <=? k) && (k <? n) then znth M (k - first) else znth blocks k)
  /\ (forall k, znth l k = if (first <=? k) && (k <? n) && dir k then znth M (k - first) else znth (i_sectors i) k).

Lemma stored_start : stored first [] blocks (i_sectors i).
Proof.
  destruct Hblocks. split; [cbn; lia|]. split; [done|]. split; [done|]. split; [done|].
  split; intros k; destruct (Z.leb_spec first k); destruct (Z.ltb_spec k first); done || lia.
Qed.

Lemma stored_step n M blocks' l lba : first <= n < will -> is_u32 lba -> stored n M blocks' l ->
  stored (n + 1) (M ++ [lba]) (<[Z.to_nat n := lba]> blocks') (if dir n then <[Z.to_nat n := lba]> l else l).
Proof.
  intros Hn Hlba (HM & Hb & Hu & Hl & Hkb & Hkl).
  assert (forall k, znth (M ++ [lba]) (k - first) = if k =? n then Some lba else znth M (k - first)) as HMk.
  { intros k. unfold znth. destruct (Z.eqb_spec k n) as [->|Hne].
    - zdec. rewrite lookup_app_r by lia. replace (Z.to_nat (n - first) - length M)%nat with 0%nat by lia. done.
    - case_bool; [done|]. zb. destruct (Z.lt_ge_cases k n).
      + by rewrite lookup_app_l by lia.
      + rewrite !lookup_ge_None_2; [done | lia | rewrite length_app; cbn; lia]. }
  split; [rewrite length_app; cbn; lia|]. split; [by rewrite length_insert|].
  split; [by apply Forall_insert|]. split; [case_bool; by rewrite ?length_insert|]. split; intros k.
  - rewrite znth_insert by lia. rewrite HMk, Hkb. destruct (Z.eqb_spec k n) as [->|Hne]; [by zdec|].
    replace (k <? n + 1) with (k <? n); [done|].
    destruct (Z.ltb_spec k n); symmetry; [apply Z.ltb_lt | apply Z.ltb_ge]; lia.
  - rewrite HMk. destruct (Z.eqb_spec k n) as [->|Hne].
    + zdec. destruct (dir n) eqn:Ed; cbn [andb].
      * rewrite znth_insert by (destruct (Hdir n ltac:(lia) Ed); lia). by rewrite Z.eqb_refl.
      * rewrite Hkl. by zdec.
    + replace (k <? n + 1) with (k <? n)
        by (destruct (Z.ltb_spec k n); symmetry; [apply Z.ltb_lt | apply Z.ltb_ge]; lia).
      rewrite <- Hkl. destruct (dir n) eqn:Ed; [|done].
      rewrite znth_insert by (destruct (Hdir n ltac:(lia) Ed); lia). by zdec.
Qed.

Lemma stored_u32 d b n M blocks' l : Forall (fun w => is_u32 w) (i_sectors i) ->
  alloc_inv d b (N ++ M) -> stored n M blocks' l -> Forall (fun w => is_u32 w) l.
Proof.
  intros Hu A (_ & _ & _ & _ & _ & Hkl). apply Forall_forall. intros w Hin. apply elem_znth in Hin as [k Hk].
  rewrite Hkl in Hk. rewrite Forall_forall in Hu. case_bool; apply znth_elem in Hk; [|auto].
  apply (new_u32 d b (N ++ M) w A). apply elem_of_app. by right.
Qed.

Lemma alloc_loop_ok d b : alloc_inv d b N ->
  exists d' b' M blocks' l, alloc_loop store (with_alloc f0 a d b i) blocks first will
      = Ok (with_alloc f0 a d' b' (set_sectors l i), Some blocks')
    /\ alloc_inv d' b' (N ++ M) /\ stored will M blocks' l.
Proof.
  intros A. unfold alloc_loop.
  loop_inv (fun s : fs * list Z * Z => let '(f, blocks', n) := s in first <= n <= will
              /\ exists d' b' M l, f = with_alloc f0 a d' b' (set_sectors l i)
                 /\ alloc_inv d' b' (N ++ M) /\ stored n M blocks' l)
           (fun s : fs * list Z * Z => Z.to_nat (will - snd s)).
  - intros [[f blocks'] n] (Hn & d' & b' & M & l & -> & A' & S'). unfold alloc_body.
    destruct (Z.ltb_spec n will) as [Hlt|Hge].
    2: { assert (n = will) as -> by lia. exists d', b', M, blocks', l. done. }
    pose proof S' as (HM & Hb & Hu & Hl & Hkb & Hkl).
    destruct (alloc_step d' b' (set_sectors l i) (N ++ M) A') as (b2 & lba & E & A2);
      [rewrite length_app; lia|].
    rewrite E. cbn [obind]. assert (lba ∈ (N ++ M) ++ [lba]) as Hin
      by (apply elem_of_app; right; by apply list_elem_of_singleton).
    destruct (ai_new _ _ _ A2 lba Hin) as [[Hk Hlast] _].
    assert (is_u32 lba) as Hlba by (pose proof (ai_geo _ _ _ A2) as G; geo G; cbn in *; lia).
    replace (lba =? -1) with false by (symmetry; apply Z.eqb_neq; lia).
    rewrite (Hstore _ (set_sectors l i)); try done; try lia.
    2: { apply get_with_alloc. }
    2: { intros Ed. destruct (Hdir n ltac:(lia) Ed) as [H12 Hz]. split; [done|]. cbn [set_sectors i_sectors].
         rewrite Hkl, <- Hz. by zdec. }
    cbn [obind set_sectors i_sectors].
    assert ((if dir n then put_inode a (set_sectors (<[Z.to_nat n:=lba]> l) (set_sectors l i)) (with_alloc f0 a d' b2 (set_sectors l i))
             else with_alloc f0 a d' b2 (set_sectors l i))
            = with_alloc f0 a d' b2 (set_sectors (if dir n then <[Z.to_nat n := lba]> l else l) i)) as Hput.
    { destruct (dir n); [|done]. by rewrite put_with_alloc. }
    rewrite Hput.
    destruct (sync_step d' b2 (set_sectors (if dir n then <[Z.to_nat n := lba]> l else l) i) _ lba A2 Hin)
      as (d3 & E3 & A3 & _).
    rewrite E3. cbn [obind snd]. split; [|lia]. split; [lia|].
    exists d3, b2, (M ++ [lba]), (if dir n then <[Z.to_nat n := lba]> l else l). split; [done|].
    rewrite app_assoc. split; [done|]. apply stored_step; done || lia.
  - split; [lia|]. exists d, b, [], (i_sectors i). rewrite app_nil_r. split; [|split; [done|apply stored_start]].
    by destruct i.
  - cbn [snd]. lia.
Qed.
End loop.
(** ** The blocks of a growing file *)

(** The file at [a] has grown from [has] to [will] blocks. *)
Record write_post (i : inode) (has will : Z) (d2 : D) (b2 : bitmap) (i2 : inode) (blocks : list Z) : Prop := {
  wp_geo : geometry (set_block_bitmap b2 p0);
  wp_nbits : nbits b2 = nbits b0;
  wp_inode : exists l, i2 = set_sectors l i /\ length l = 13%nat /\ Forall (fun w => is_u32 w) l;
  wp_layout : file_layout (set_block_bitmap b2 p0) d2 i2 will;
  wp_blocks k : Z.max 0 (has - 1) <= k < will -> znth blocks k = Some (file_block d2 i2 k);
  wp_old k : 0 <= k < has -> file_block d2 i2 k = file_block (medium f0) i k;
  wp_new k : has <= k < will -> bit b0 (file_block d2 i2 k - ds) = false;
  wp_table : 12 < will -> (12 < has /\ table_lba i2 = table_lba i) \/ bit b0 (table_lba i2 - ds) = false;
  wp_bits j : bit b0 j = true -> bit b2 j = true;
  wp_disk q : ~ in_bb p0 q -> (12 < will -> ~ (512 * table_lba i2 <= q < 512 * table_lba i2 + 512)) ->
    dbyte d2 q = dbyte (medium f0) q }.

Lemma znth_ext (l1 l2 : list Z) : length l1 = length l2 -> (forall k, 0 <= k < zlen l1 -> znth l1 k = znth l2 k) -> l1 = l2.
Proof.
  intros Hl Hk. apply list_eq. intros n. destruct (decide (n < length l1)%nat).
  - specialize (Hk (Z.of_nat n) ltac:(lia)). unfold znth in Hk. rewrite Nat2Z.id in Hk.
    replace (Z.of_nat n <? 0) with false in Hk by (symmetry; apply Z.ltb_ge; lia). done.
  - by rewrite !lookup_ge_None_2 by lia.
Qed.

Lemma znth_map_seqZ (g : Z -> Z) m n k : 0 <= k < n -> znth (map g (seqZ m n)) k = Some (g (m + k)).
Proof.
  intros Hk. unfold znth. zdec. change (map g (seqZ m n)) with (g <$> seqZ m n). rewrite list_lookup_fmap.
  rewrite lookup_seqZ_lt by lia. cbn. do 2 f_equal. lia.
Qed.

Lemma used_blocks_grow d2 i2 i has will M : 0 <= has <= will -> zlen M = will - has ->
  (forall k, 0 <= k < has -> file_block d2 i2 k = file_block (medium f0) i k) ->
  (forall k, has <= k < will -> znth M (k - has) = Some (file_block d2 i2 k)) ->
  map (file_block d2 i2) (seqZ 0 will) = map (file_block (medium f0) i) (seqZ 0 has) ++ M.
Proof.
  intros Hh HM Hold Hnew. replace will with (has + (will - has)) by lia. rewrite seqZ_app, map_app by lia. f_equal.
  - apply map_ext_in. intros k Hk. apply list_elem_of_In, elem_of_seqZ in Hk. apply Hold. lia.
  - apply znth_ext; [rewrite length_map, length_seqZ; lia|]. intros k Hk.
    rewrite length_map, length_seqZ in Hk. rewrite znth_map_seqZ by lia. rewrite <- Hnew by lia. f_equal. lia.
Qed.

Lemma mk_write_post i has will d b2 d2 l N M blocks :
  geometry p0 -> file_layout p0 (medium f0) i has -> 0 <= has <= will ->
  alloc_inv d b2 (N ++ M) -> zlen M = will - has ->
  length l = 13%nat -> Forall (fun w => is_u32 w) l ->
  (forall k, 0 <= k < has -> file_block d2 (set_sectors l i) k = file_block (medium f0) i k) ->
  (forall k, has <= k < will -> znth M (k - has) = Some (file_block d2 (set_sectors l i) k)) ->
  (12 < has /\ N = [] /\ table_lba (set_sectors l i) = table_lba i
   \/ will <= 12 /\ N = [] /\ znth l 12 = Some 0
   \/ has <= 12 < will /\ N = [table_lba (set_sectors l i)]) ->
  (forall k, will <= k < 12 -> znth l k = Some 0) ->
  (forall k, Z.max 0 (has - 1) <= k < will -> znth blocks k = Some (file_block d2 (set_sectors l i) k)) ->
  (forall q, ~ in_bb p0 q -> (12 < will -> ~ (512 * table_lba (set_sectors l i) <= q < 512 * table_lba (set_sectors l i) + 512)) ->
     dbyte d2 q = dbyte d q) ->
  write_post i has will d2 b2 (set_sectors l i) blocks.
Proof.
  intros G L Hh A HM Hl Hu Hold Hnew T Hz Hblocks Hdisk. pose proof A as [? ? ? ? ? ?].
  assert (used_list d2 (set_sectors l i) will ≡ₚ used_list (medium f0) i has ++ (N ++ M)) as Hperm.
  { unfold used_list at 1. rewrite (used_blocks_grow d2 (set_sectors l i) i has will M) by (done || lia).
    unfold used_list. destruct T as [(T1 & -> & ->)|[(T1 & -> & _)|(T1 & ->)]].
    - replace (12 <? will) with true by (symmetry; apply Z.ltb_lt; lia).
      replace (12 <? has) with true by (symmetry; apply Z.ltb_lt; lia). done.
    - replace (12 <? will) with false by (symmetry; apply Z.ltb_ge; lia).
      replace (12 <? has) with false by (symmetry; apply Z.ltb_ge; lia). done.
    - replace (12 <? will) with true by (symmetry; apply Z.ltb_lt; lia).
      replace (12 <? has) with false by (symmetry; apply Z.ltb_ge; lia). cbn [app].
      apply Permutation_middle. }
  assert (forall x, x ∈ N ++ M -> bit b2 (x - ds) = true) as Hset.
  { intros x Hx. rewrite ai_bits0. replace (ds + (x - ds)) with x by lia.
    rewrite (bool_decide_eq_true_2 _ Hx). by rewrite orb_true_r. }
  assert (forall j, bit b0 j = true -> bit b2 j = true) as Hmono by (intros j Hj; by rewrite ai_bits0, Hj).
  destruct L as [Lnd Lus Lfr Ltb]. rewrite Forall_forall in Lus.
  split; try done.
  - by exists l.
  - split; cbn [set_block_bitmap block_bitmap sb set_sectors i_sectors].
    + rewrite Hperm. apply NoDup_app. split; [done|]. split; [|done]. intros x Hx Hx'.
      destruct (Lus x Hx) as [_ Hb]. destruct (ai_new0 x Hx') as [_ Hb']. congruence.
    + rewrite Hperm. apply Forall_app. split; apply Forall_forall; intros x Hx.
      * destruct (Lus x Hx) as [[Hd1 Hd2] Hb]. split; [|auto]. split; [|done]. cbn. rewrite ai_nbits0. done.
      * destruct (ai_new0 x Hx) as [[Hd1 Hd2] _]. split; [|auto]. split; [|done]. cbn. rewrite ai_nbits0. done.
    + done.
    + intros Hw. by destruct T as [(? & _)|[(_ & _ & ?)|(? & _)]]; [lia| |lia].
  - intros k Hk. destruct (ai_new0 (file_block d2 (set_sectors l i) k)) as [_ Hb]; [|done].
    apply elem_of_app; right. specialize (Hnew k Hk). unfold znth in Hnew. case_bool; [done|].
    eapply list_elem_of_lookup_2; eauto.
  - intros Hw. destruct T as [(? & _ & ?)|[(? & _)|(? & ->)]]; [by left | lia | right].
    apply ai_new0. by left.
  - intros q Hq Hq'. rewrite Hdisk by done. by apply ai_disk0.
Qed.

Lemma with_alloc_refl i : get_inode f0 a = Ok i -> with_alloc f0 a (medium f0) b0 i = f0.
Proof.
  unfold get_inode. destruct (inodes f0 !! a) as [j|] eqn:E; [|done]. intros [= ->].
  unfold with_alloc, put_inode, fs_bb, with_inodes, with_medium, with_part. cbn.
  rewrite insert_id by done. by destruct f0 as [? [] ? ? ? ?].
Qed.

Lemma file_block_direct d i k : length (i_sectors i) = 13%nat -> 0 <= k < 12 ->
  znth (i_sectors i) k = Some (file_block d i k).
Proof. intros Hl Hk. unfold file_block. zdec. apply znth_default. lia. Qed.

Lemma file_block_table d i t k : znth (i_sectors i) 12 = Some t -> t <> 0 -> 12 <= k ->
  file_block d i k = default 0 (znth (bytes_to_words (sector d t)) (k - 12)).
Proof. intros Ht Hne Hk. unfold file_block. zdec. by rewrite (indirect_table_of _ _ _ Ht Hne). Qed.

Lemma layout_table d p i n : length (i_sectors i) = 13%nat -> file_layout p d i n -> geometry p -> 12 < n ->
  znth (i_sectors i) 12 = Some (table_lba i) /\ 0 < table_lba i <= max_lba.
Proof.
  intros Hl [_ Hu _ _] G Hn. split; [unfold table_lba; apply znth_default; lia|].
  unfold used_list in Hu. replace (12 <? n) with true in Hu by (symmetry; apply Z.ltb_lt; lia).
  cbn [app] in Hu. apply Forall_cons in Hu as [[[Hd1 Hd2] _] _]. geo G. lia.
Qed.

Lemma words_u32 d t : Forall (fun w => is_u32 w) (bytes_to_words (sector d t)).
Proof.
  pose proof (sector_len d t) as Hl. unfold SECTOR_SIZE in Hl.
  apply (bytes_to_words_ok 128); [lia | apply sector_bytes].
Qed.

(** [ide_write] of the block table. *)
Lemma write_table_ok f t blocks : t <= max_lba -> length blocks = 140%nat ->
  write_table f t blocks = Ok (with_medium (set_sector (medium f) t (words_to_bytes (drop 12 blocks))) f).
Proof.
  intros Ht Hb. unfold write_table. rewrite disk_write_one; [done|done|].
  rewrite words_to_bytes_length, length_drop. lia.
Qed.

Lemma table_after d t blocks k : length blocks = 140%nat -> Forall (fun w => is_u32 w) blocks -> 12 <= k < 140 ->
  znth (bytes_to_words (sector (set_sector d t (words_to_bytes (drop 12 blocks))) t)) (k - 12) = znth blocks k.
Proof.
  intros Hb Hu Hk. rewrite sector_set.
  - rewrite Z.eqb_refl, bytes_to_words_to_bytes by (by apply Forall_drop). unfold znth. zdec.
    rewrite lookup_drop. f_equal. lia.
  - rewrite words_to_bytes_length, length_drop. unfold SECTOR_SIZE. lia.
  - apply words_to_bytes_bytes.
Qed.

Lemma dbyte_set_other d t l q : zlen l = 512 -> bytes l -> ~ (512 * t <= q < 512 * t + 512) ->
  dbyte (set_sector d t l) q = dbyte d q.
Proof.
  intros Hl Hb Hq. rewrite dbyte_set by done. case_bool; [|done]. zb.
  pose proof (Z.div_mod q 512 ltac:(lia)). pose proof (Z.mod_pos_bound q 512 ltac:(lia)). lia.
Qed.

Section blocks.
Variables (i : inode) (has will : Z) (ab0 : list Z).
Hypothesis Hrep : length ab0 = 140%nat.
Hypothesis Hru : Forall (fun w => is_u32 w) ab0.
Hypothesis Hi : get_inode f0 a = Ok i.
Hypothesis Hwf : wf_inode i.
Hypothesis G : geometry p0.
Hypothesis L : file_layout p0 (medium f0) i has.
Hypothesis Hh : 1 <= has <= will.
Hypothesis Hw : will <= 140.

Lemma sectors_len : length (i_sectors i) = 13%nat.
Proof. apply Hwf. Qed.

Lemma sectors_u32 : Forall (fun w => is_u32 w) (i_sectors i).
Proof. destruct Hwf as [_ Hu]. unfold inode_words in Hu. rewrite !Forall_app in Hu. apply Hu. Qed.

Lemma u32_of k v : znth (i_sectors i) k = Some v -> is_u32 v.
Proof.
  intros Hk. pose proof sectors_u32 as Hu. rewrite Forall_forall in Hu. apply Hu.
  unfold znth in Hk. case_bool; [done|]. eapply list_elem_of_lookup_2; eauto.
Qed.

(** No new block is needed. *)
Lemma write_blocks_same : has = will ->
  exists blocks, write_blocks f0 a ab0 has will = Ok (f0, Some blocks)
    /\ write_post i has will (medium f0) b0 i blocks.
Proof.
  intros <-. pose proof sectors_len as Hlen. pose proof sectors_u32 as Hu. unfold write_blocks. rewrite Z.sub_diag.
  change (u32 0 =? 0) with true. cbn iota.
  assert (set_sectors (i_sectors i) i = i) as Hsame by (by destruct i).
  assert (forall blocks, znth blocks (has - 1) = Some (file_block (medium f0) i (has - 1)) ->
            write_post i has has (medium f0) b0 i blocks) as Hpost.
  { intros blocks Hb. rewrite <- Hsame at 2.
    apply (mk_write_post i has has (medium f0) b0 (medium f0) (i_sectors i) [] []); try done; rewrite ?Hsame; try done; try lia.
    - by apply alloc_inv_nil.
    - cbn. lia.
    - destruct (Z.lt_ge_cases 12 has); [by left | right; left]. split; [lia|]. split; [done|]. apply (lay_table _ _ _ _ L). lia.
    - intros k Hk. by apply L.
    - intros k Hk. by replace k with (has - 1) by lia. }
  destruct (Z.leb_spec has 12).
  - pose proof (file_block_direct (medium f0) i (has - 1) Hlen ltac:(lia)) as Hk.
    rewrite (get_sector_ok _ _ _ _ Hi Hk). cbn [obind].
    
    rewrite wr_in by lia. cbn [obind]. eexists; split; [done|]. apply Hpost.
    rewrite znth_insert by lia. by rewrite Z.eqb_refl.
  - destruct (layout_table _ _ _ _ Hlen L G ltac:(lia)) as [Ht [Ht0 Htm]].
    rewrite (get_sector_ok _ _ _ _ Hi Ht). cbn [obind].
    replace (table_lba i =? 0) with false by (symmetry; apply Z.eqb_neq; lia). cbn [negb c_assert obind].
    rewrite read_table_ok by done. cbn [obind]. eexists; split; [done|]. apply Hpost.
    rewrite znth_table by (done || lia). replace (has - 1 <? 12) with false by (symmetry; apply Z.ltb_ge; lia).
    rewrite (file_block_table _ _ _ _ Ht) by lia. apply znth_default. rewrite table_words. lia.
Qed.

Hypothesis Hgrow : has < will.
Hypothesis Hroom : (Z.to_nat (will - has) + (if ((has <=? 12) && (12 <? will))%Z then 1 else 0) <= length (free_list b0))%nat.

Lemma grow_neq : (u32 (will - has) =? 0) = false.
Proof. rewrite u32_small by lia. apply Z.eqb_neq. lia. Qed.

Lemma table_12 : has <= 12 -> znth (i_sectors i) 12 = Some 0.
Proof. apply (lay_table _ _ _ _ L). Qed.

(** Situation 1: the direct blocks are enough. *)
Lemma write_blocks_direct : will <= 12 ->
  exists d2 b2 i2 blocks, write_blocks f0 a ab0 has will = Ok (with_alloc f0 a d2 b2 i2, Some blocks)
    /\ write_post i has will d2 b2 i2 blocks.
Proof.
  intros H12. pose proof sectors_len as Hlen. unfold write_blocks. rewrite grow_neq.
  replace (will <=? 12) with true by (symmetry; apply Z.leb_le; lia).
  pose proof (file_block_direct (medium f0) i (has - 1) Hlen ltac:(lia)) as Hk.
  rewrite (get_sector_ok _ _ _ _ Hi Hk). cbn [obind].
  assert (file_block (medium f0) i (has - 1) <> 0) as Hne.
  { destruct L as [_ Hu _ _]. unfold used_list in Hu. apply Forall_app in Hu as [_ Hu]. rewrite Forall_forall in Hu.
    destruct (Hu (file_block (medium f0) i (has - 1))) as [[Hd _] _].
    - apply list_elem_of_In, in_map, list_elem_of_In, elem_of_seqZ. lia.
    - geo G. lia. }
  apply Z.eqb_neq in Hne as Hne'. rewrite Hne'. cbn [negb c_assert obind].
  
   rewrite wr_in by lia. cbn [obind].
  set (blocks0 := <[Z.to_nat (has - 1) := file_block (medium f0) i (has - 1)]> ab0).
  destruct (alloc_loop_ok (store_direct a) (fun _ => true) store_direct_ok i [] blocks0 has will) with (d := medium f0) (b := b0)
    as (d' & b' & M & blocks' & l & E & A & S'); try done; try lia.
  { split; [unfold blocks0; by rewrite length_insert|]. apply Forall_insert; [done|]. by eapply u32_of. }
  { cbn [length]. lia. }
  { intros k Hk' _. split; [lia|]. apply L. lia. }
  { by apply alloc_inv_nil. }
  rewrite (with_alloc_refl i Hi) in E.
  rewrite E. pose proof S' as (HM & Hb & Hbu & Hl & Hkb & Hkl). eexists _, _, _, _. split; [done|].
  assert (forall k, 0 <= k < 12 -> znth l k = Some (file_block d' (set_sectors l i) k)) as Hdir.
  { intros k Hk'. apply (file_block_direct d' (set_sectors l i)); [done|lia]. }
  assert (forall k, has <= k < will -> znth M (k - has) = Some (file_block d' (set_sectors l i) k)) as HMk.
  { intros k Hk'. rewrite <- Hdir by lia. rewrite Hkl. by zdec. }
  apply (mk_write_post i has will d' b' d' l [] M); try done; try lia.
  - eapply stored_u32; [apply sectors_u32 | exact A | exact S'].
  - intros k Hk'. assert (Some (file_block d' (set_sectors l i) k) = Some (file_block (medium f0) i k)) as [= ->]; [|done].
    rewrite <- Hdir, <- file_block_direct by (done || lia). rewrite Hkl. by zdec.
  - right; left. split; [done|]. split; [done|]. rewrite Hkl. zdec. apply table_12. lia.
  - intros k Hk'. rewrite Hkl. zdec. apply L. lia.
  - intros k Hk'. rewrite Hkb. destruct (Z.eq_dec k (has - 1)) as [->|Hk2].
    + zdec. unfold blocks0. rewrite znth_insert by lia. rewrite Z.eqb_refl. rewrite <- Hdir by lia.
      rewrite Hkl. by zdec.
    + zdec. apply HMk. lia.
Qed.

(** Situation 2: the block table is created. *)
Lemma write_blocks_new_table : has <= 12 < will ->
  exists d2 b2 i2 blocks, write_blocks f0 a ab0 has will = Ok (with_alloc f0 a d2 b2 i2, Some blocks)
    /\ write_post i has will d2 b2 i2 blocks.
Proof.
  intros H12. pose proof sectors_len as Hlen. pose proof sectors_u32 as Hsu. unfold write_blocks. rewrite grow_neq.
  replace (will <=? 12) with false by (symmetry; apply Z.leb_gt; lia).
  replace (has <=? 12) with true in * by (symmetry; apply Z.leb_le; lia).
  replace (12 <? will) with true in * by (symmetry; apply Z.ltb_lt; lia). cbn [andb] in *.
  pose proof (file_block_direct (medium f0) i (has - 1) Hlen ltac:(lia)) as Hk.
  rewrite (get_sector_ok _ _ _ _ Hi Hk). cbn [obind].
  
   rewrite wr_in by lia. cbn [obind].
  set (blocks0 := <[Z.to_nat (has - 1) := file_block (medium f0) i (has - 1)]> ab0).
  destruct (alloc_step (medium f0) b0 i [] (alloc_inv_nil G)) as (b1 & t & E1 & A1); [cbn; lia|].
  rewrite (with_alloc_refl i Hi) in E1. rewrite E1. cbn [obind app] in *.
  assert (t ∈ [t]) as Ht by left. pose proof (new_u32 _ _ _ t A1 Ht) as Htu.
  destruct (ai_new _ _ _ A1 t Ht) as [[Htd Htl] Htb].
  replace (t =? -1) with false by (symmetry; apply Z.eqb_neq; lia).
  rewrite (get_sector_ok _ _ _ _ (get_with_alloc f0 a (medium f0) b1 i) (table_12 ltac:(lia))).
  cbn [obind Z.eqb c_assert].
  rewrite (put_sector_ok _ _ _ _ (get_with_alloc f0 a (medium f0) b1 i)) by lia. cbn [obind].
  rewrite put_with_alloc. set (i1 := set_sectors (<[Z.to_nat 12 := t]> (i_sectors i)) i).
  assert (forall k, znth (i_sectors i1) k = if k =? 12 then Some t else znth (i_sectors i) k) as Hi1.
  { intros k. unfold i1. cbn [set_sectors i_sectors]. by rewrite znth_insert by lia. }
  destruct (alloc_loop_ok (store_mixed a) (fun k => k <? 12) store_mixed_ok i1 [t] blocks0 has will) with (d := medium f0) (b := b1)
    as (d' & b' & M & blocks' & l & E & A & S'); try done; try lia.
  { unfold i1. cbn [set_sectors i_sectors]. by rewrite length_insert. }
  { split; [unfold blocks0; by rewrite length_insert|]. apply Forall_insert; [done|]. by eapply u32_of. }
  { cbn [length]. lia. }
  { intros k Hk' Hd. apply Z.ltb_lt in Hd. split; [done|]. rewrite Hi1. zdec. apply L. lia. }
  rewrite E. cbn [obind]. pose proof S' as (HM & Hb & Hbu & Hl & Hkb & Hkl).
  assert (t <= max_lba) as Htm by (geo G; lia). assert (t <> 0) as Htne by (geo G; lia).
  rewrite write_table_ok by done. cbn [obind].
  set (d2 := set_sector (medium (with_alloc f0 a d' b' (set_sectors l i1))) t (words_to_bytes (drop 12 blocks'))).
  change (set_sectors l i1) with (set_sectors l i) in *.
  exists d2, b', (set_sectors l i), blocks'. split; [done|].
  assert (znth l 12 = Some t) as Hl12.
  { rewrite Hkl, Hi1. replace ((has <=? 12) && (12 <? will) && (12 <? 12)) with false by (by rewrite andb_false_r). done. }
  assert (table_lba (set_sectors l i) = t) as Htab by (unfold table_lba; cbn [set_sectors i_sectors]; by rewrite Hl12).
  assert (forall k, 0 <= k < 12 -> Some (file_block d2 (set_sectors l i) k) = znth l k) as Hdir.
  { intros k Hk'. symmetry. apply (file_block_direct d2 (set_sectors l i)); [done|lia]. }
  assert (forall k, 12 <= k < 140 -> Some (file_block d2 (set_sectors l i) k) = znth blocks' k) as Hind.
  { intros k Hk'. rewrite (file_block_table d2 (set_sectors l i) t k) by (done || lia).
    rewrite <- znth_default by (unfold d2; rewrite table_words; lia). unfold d2. by apply table_after. }
  apply (mk_write_post i has will d' b' d2 l [t] M); try done; try lia.
  - eapply stored_u32; [|exact A | exact S']. unfold i1. cbn [set_sectors i_sectors]. by apply Forall_insert.
  - intros k Hk'. assert (Some (file_block d2 (set_sectors l i) k) = Some (file_block (medium f0) i k)) as [= ->]; [|done].
    rewrite Hdir by lia. rewrite Hkl, Hi1. zdec. apply file_block_direct; [done|lia].
  - intros k Hk'. destruct (Z.lt_ge_cases k 12).
    + rewrite Hdir by lia. rewrite Hkl. by zdec.
    + rewrite Hind by lia. rewrite Hkb. by zdec.
  - right; right. by rewrite Htab.
  - intros k Hk'. destruct (Z.lt_ge_cases k 12).
    + rewrite Hdir, Hkb, Hkl by lia. destruct (Z.eq_dec k (has - 1)) as [->|Hne].
      * zdec. unfold blocks0. rewrite znth_insert by lia. rewrite Z.eqb_refl, Hi1. zdec.
        symmetry. apply file_block_direct; [done|lia].
      * by zdec.
    + by rewrite Hind by lia.
  - intros q Hq Hq'. rewrite Htab in Hq'. unfold d2. apply dbyte_set_other; [|apply words_to_bytes_bytes|apply Hq'; lia].
    rewrite words_to_bytes_length, length_drop. lia.
Qed.

(** Situation 3: the table is there and grows. *)
Lemma write_blocks_old_table : 12 < has ->
  exists d2 b2 i2 blocks, write_blocks f0 a ab0 has will = Ok (with_alloc f0 a d2 b2 i2, Some blocks)
    /\ write_post i has will d2 b2 i2 blocks.
Proof.
  intros H12. pose proof sectors_len as Hlen. pose proof sectors_u32 as Hsu. unfold write_blocks. rewrite grow_neq.
  replace (will <=? 12) with false by (symmetry; apply Z.leb_gt; lia).
  replace (has <=? 12) with false in * by (symmetry; apply Z.leb_gt; lia). cbn [andb] in *.
  destruct (layout_table _ _ _ _ Hlen L G ltac:(lia)) as [Ht [Ht0 Htm]].
  rewrite (get_sector_ok _ _ _ _ Hi Ht). cbn [obind].
  replace (table_lba i =? 0) with false by (symmetry; apply Z.eqb_neq; lia). cbn [negb c_assert obind].
  rewrite read_table_ok by done. cbn [obind].
  
  
  set (tab := bytes_to_words (sector (medium f0) (table_lba i))). set (blocks0 := table_at_12 ab0 tab).
  destruct (alloc_loop_ok store_indirect (fun _ => false) store_indirect_ok i [] blocks0 has will) with (d := medium f0) (b := b0)
    as (d' & b' & M & blocks' & l & E & A & S'); try done; try lia.
  { split; [unfold blocks0, table_at_12; rewrite length_app, length_take; unfold tab; rewrite table_words; lia|].
    apply Forall_app; split; [by apply Forall_take | apply words_u32]. }
  { cbn [length]. lia. }
  { by apply alloc_inv_nil. }
  rewrite (with_alloc_refl i Hi) in E. rewrite E. cbn [obind]. pose proof S' as (HM & Hb & Hbu & Hl & Hkb & Hkl).
  rewrite write_table_ok by done. cbn [obind].
  set (d2 := set_sector (medium (with_alloc f0 a d' b' (set_sectors l i))) (table_lba i) (words_to_bytes (drop 12 blocks'))).
  exists d2, b', (set_sectors l i), blocks'. split; [done|].
  assert (forall k, znth l k = znth (i_sectors i) k) as Hli.
  { intros k. rewrite Hkl. by rewrite andb_false_r. }
  assert (table_lba (set_sectors l i) = table_lba i) as Htab by (unfold table_lba; cbn [set_sectors i_sectors]; by rewrite Hli).
  assert (forall k, 0 <= k < 12 -> Some (file_block d2 (set_sectors l i) k) = znth l k) as Hdir.
  { intros k Hk'. symmetry. apply (file_block_direct d2 (set_sectors l i)); [done|lia]. }
  assert (forall k, 12 <= k < 140 -> Some (file_block d2 (set_sectors l i) k) = znth blocks' k) as Hind.
  { intros k Hk'. rewrite (file_block_table d2 (set_sectors l i) (table_lba i) k); [|cbn [set_sectors i_sectors]; by rewrite Hli|lia|lia].
    rewrite <- znth_default by (unfold d2; rewrite table_words; lia). unfold d2. by apply table_after. }
  assert (forall k, 12 <= k < has -> znth blocks' k = Some (file_block (medium f0) i k)) as Hold.
  { intros k Hk'. rewrite Hkb. zdec. unfold blocks0. rewrite znth_table by (done || lia). zdec.
    rewrite (file_block_table _ _ _ _ Ht) by lia. apply znth_default. unfold tab. rewrite table_words. lia. }
  apply (mk_write_post i has will d' b' d2 l [] M); try done; try lia.
  - eapply stored_u32; [exact Hsu | exact A | exact S'].
  - intros k Hk'. assert (Some (file_block d2 (set_sectors l i) k) = Some (file_block (medium f0) i k)) as [= ->]; [|done].
    destruct (Z.lt_ge_cases k 12).
    + rewrite Hdir, Hli by lia. apply file_block_direct; [done|lia].
    + by rewrite Hind, Hold by lia.
  - intros k Hk'. rewrite Hind by lia. rewrite Hkb. by zdec.
  - by left.
  - intros k Hk'. by rewrite Hind by lia.
  - intros q Hq Hq'. rewrite Htab in Hq'. unfold d2. apply dbyte_set_other; [|apply words_to_bytes_bytes|apply Hq'; lia].
    rewrite words_to_bytes_length, length_drop. lia.
Qed.

End blocks.

Lemma write_blocks_ok i has will ab0 : length ab0 = 140%nat -> Forall (fun w => is_u32 w) ab0 -> get_inode f0 a = Ok i -> wf_inode i -> geometry p0 ->
  file_layout p0 (medium f0) i has -> 1 <= has <= will -> will <= 140 ->
  (Z.to_nat (will - has) + (if ((has <=? 12) && (12 <? will))%Z then 1 else 0) <= length (free_list b0))%nat ->
  exists d2 b2 i2 blocks, write_blocks f0 a ab0 has will = Ok (with_alloc f0 a d2 b2 i2, Some blocks)
    /\ write_post i has will d2 b2 i2 blocks.
Proof.
  intros Hrep Hru Hi Hwf G L Hh Hw Hroom. destruct (Z.eq_dec has will) as [Heq|Hne].
  - destruct (write_blocks_same i has will ab0) as (blocks & E & P); try done; try lia.
    exists (medium f0), b0, i, blocks. by rewrite with_alloc_refl.
  - destruct (Z.le_gt_cases will 12); [|destruct (Z.le_gt_cases has 12)].
    + apply write_blocks_direct; done || lia.
    + apply write_blocks_new_table; done || lia.
    + apply write_blocks_old_table; done || lia.
Qed.

(** The first block of an empty file. *)
Lemma first_block_ok i : get_inode f0 a = Ok i -> wf_inode i -> geometry p0 ->
  file_layout p0 (medium f0) i 0 -> (1 <= length (free_list b0))%nat ->
  exists d2 b2 i2 blocks, first_block f0 a = Ok (with_alloc f0 a d2 b2 i2, Some tt)
    /\ write_post i 0 1 d2 b2 i2 blocks /\ (length (free_list b0) <= S (length (free_list b2)))%nat.
Proof.
  intros Hi Hwf G L Hfree. pose proof (sectors_len i Hwf) as Hlen. unfold first_block.
  rewrite (get_sector_ok _ _ _ _ Hi (lay_free _ _ _ _ L 0 ltac:(lia))). cbn [obind Z.eqb].
  destruct (alloc_step (medium f0) b0 i [] (alloc_inv_nil G)) as (b1 & t & E1 & A1); [cbn; lia|].
  rewrite (with_alloc_refl i Hi) in E1. rewrite E1. cbn [obind app] in *.
  assert (t ∈ [t]) as Ht by left. pose proof (new_u32 _ _ _ t A1 Ht) as Htu.
  destruct (ai_new _ _ _ A1 t Ht) as [[Htd Htl] Htb].
  replace (t =? -1) with false by (symmetry; apply Z.eqb_neq; lia).
  rewrite (put_sector_ok _ _ _ _ (get_with_alloc f0 a (medium f0) b1 i)) by lia. cbn [obind].
  rewrite put_with_alloc. set (l := <[Z.to_nat 0 := t]> (i_sectors i)).
  destruct (sync_step (medium f0) b1 (set_sectors l i) [t] t A1 Ht) as (d' & E2 & A2 & Hne).
  apply Z.eqb_neq in Hne as ->. cbn [negb c_assert obind]. rewrite E2. cbn [obind].
  exists d', b1, (set_sectors l i), [t]. split; [done|].
  assert (forall k, znth l k = if k =? 0 then Some t else znth (i_sectors i) k) as Hl
    by (intros k; unfold l; by rewrite znth_insert by lia).
  assert (length l = 13%nat) as Hl13 by (unfold l; by rewrite length_insert).
  assert (file_block d' (set_sectors l i) 0 = t) as Hfb.
  { pose proof (file_block_direct d' (set_sectors l i) 0 Hl13 ltac:(lia)) as Hf. cbn [set_sectors i_sectors] in Hf.
    rewrite Hl in Hf. change (0 =? 0) with true in Hf. cbn iota in Hf. congruence. }
  split.
  - apply (mk_write_post i 0 1 d' b1 d' l [] [t]); try done; try lia.
    + apply Forall_insert; [by apply sectors_u32|done].
    + intros k Hk. replace k with 0 by lia. by rewrite Hfb.
    + right; left. split; [lia|]. split; [done|]. rewrite Hl. zdec. apply (lay_table _ _ _ _ L). lia.
    + intros k Hk. rewrite Hl. zdec. apply L. lia.
    + intros k Hk. replace k with 0 by lia. by rewrite Hfb.
  - change (S (length (free_list b1))) with (length ((t - ds) :: free_list b1)).
    apply submseteq_length, NoDup_submseteq; [apply NoDup_filter, NoDup_seqZ|].
    intros k Hk. apply list_elem_of_filter in Hk as [Hkb Hkr]. apply elem_of_cons.
    destruct (Z.eq_dec k (t - ds)) as [|Hne']; [by left | right]. apply list_elem_of_filter.
    rewrite (ai_nbits _ _ _ A1), (ai_bits _ _ _ A1), Hkb. split; [|done].
    apply bool_decide_eq_false_2. intros Hin. apply list_elem_of_singleton in Hin. lia.
Qed.

End alloc.

Lemma with_alloc_twice f a d b i d' b' i' : with_alloc (with_alloc f a d b i) a d' b' i' = with_alloc f a d' b' i'.
Proof. unfold with_alloc, put_inode, fs_bb, with_inodes, with_medium, with_part. cbn. by rewrite insert_insert_eq. Qed.

Lemma wf_set_sectors i l : wf_inode i -> length l = 13%nat -> Forall (fun w => is_u32 w) l -> wf_inode (set_sectors l i).
Proof.
  intros [_ Hu] Hl Hlu. split; [done|]. unfold inode_words in *. apply Forall_app in Hu as [Hu1 Hu2].
  apply Forall_app in Hu2 as [_ Hu2]. apply Forall_app; split; [done|]. by apply Forall_app.
Qed.

(** Growing in two steps. *)
Lemma write_post_trans f a i nb has will d1 b1 i1 bl1 d2 b2 i2 blocks :
  0 <= nb <= has -> has <= 12 -> nb = has \/ has = nb + 1 ->
  write_post f i nb has d1 b1 i1 bl1 ->
  write_post (with_alloc f a d1 b1 i1) i1 has will d2 b2 i2 blocks ->
  has - 1 <= Z.max 0 (nb - 1) -> write_post f i nb will d2 b2 i2 blocks.
Proof.
  intros Hn H12 Hstep P1 P2 Hmax. destruct P1, P2.
  cbn [with_alloc put_inode with_inodes fs_bb with_medium with_part cur_part set_block_bitmap block_bitmap sb medium] in *.
  split; try done.
  - congruence.
  - destruct wp_inode0 as (l1 & -> & _), wp_inode1 as (l2 & -> & H2l & H2u). by exists l2.
  - intros k Hk. apply wp_blocks1. lia.
  - intros k Hk. rewrite wp_old1 by lia. apply wp_old0. lia.
  - intros k Hk. destruct (Z.lt_ge_cases k has).
    + rewrite wp_old1 by lia. apply wp_new0. lia.
    + destruct (bit (block_bitmap (cur_part f)) (file_block d2 i2 k - data_start_lba (sb (cur_part f)))) eqn:E; [|done].
      apply wp_bits0 in E. rewrite wp_new1 in E by lia. done.
  - intros Hw. right. destruct (wp_table1 Hw) as [[? _]|Hb]; [lia|].
    destruct (bit (block_bitmap (cur_part f)) (table_lba i2 - data_start_lba (sb (cur_part f)))) eqn:E; [|done].
    apply wp_bits0 in E. congruence.
  - auto.
  - intros q Hq Hq'. rewrite wp_disk1 by done. apply wp_disk0; [done | lia].
Qed.

(** How many blocks a file has, and will have with [n] more bytes. *)
Definition blocks_of i : Z := if default 0 (znth (i_sectors i) 0) =? 0 then 0 else i_size i / 512 + 1.
Definition blocks_for i (n : Z) : Z := (i_size i + n) / 512 + 1.

(** The sectors appending [n] bytes takes. *)
Definition new_sectors i (n : Z) : nat :=
  (Z.to_nat (blocks_for i n - blocks_of i)
   + (if ((blocks_of i <=? 12) && (12 <? blocks_for i n))%Z then 1 else 0))%nat.

Lemma file_blocks_ok f a i n ab0 : length ab0 = 140%nat -> Forall (fun w => is_u32 w) ab0 -> get_inode f a = Ok i -> wf_inode i -> geometry (cur_part f) ->
  file_layout (cur_part f) (medium f) i (blocks_of i) -> (blocks_of i = 0 -> i_size i = 0) ->
  0 <= n -> blocks_for i n <= 140 -> (new_sectors i n <= length (free_list (block_bitmap (cur_part f))))%nat ->
  exists f1 d2 b2 i2 blocks, first_block f a = Ok (f1, Some tt)
    /\ write_blocks f1 a ab0 (i_size i / 512 + 1) (blocks_for i n) = Ok (with_alloc f a d2 b2 i2, Some blocks)
    /\ write_post f i (blocks_of i) (blocks_for i n) d2 b2 i2 blocks.
Proof.
  intros Hrep Hru Hi Hwf G L Hempty Hn Hw Hroom.
  assert (0 <= i_size i) as Hsz.
  { destruct Hwf as [_ Hu]. unfold inode_words in Hu. rewrite Forall_app, !Forall_cons in Hu. lia. }
  assert (i_size i / 512 <= (i_size i + n) / 512) as Hmono by (apply Z.div_le_mono; lia).
  assert (0 <= i_size i / 512) as Hdiv0 by (apply Z.div_pos; lia).
  pose proof Hwf as [Hlen _]. destruct (znth_in (i_sectors i) 0 ltac:(lia)) as [s0 Hs0].
  unfold blocks_of, new_sectors in *. unfold blocks_for in *. fold (blocks_of i) in *.
  destruct (Z.eq_dec s0 0) as [->|Hne].
  - assert (blocks_of i = 0) as Hb0 by (unfold blocks_of; by rewrite Hs0).
    rewrite Hb0 in *. rewrite (Hempty eq_refl) in *. change (0 / 512 + 1) with 1. rewrite Z.add_0_l in *.
    assert (0 <= n / 512) as Hn512 by (apply Z.div_pos; lia).
    change (0 <=? 12) with true in Hroom. cbn [andb] in Hroom.
    destruct (first_block_ok f a i Hi Hwf G L ltac:(lia)) as (d1 & b1 & i1 & bl1 & E1 & P1 & Hfree).
    pose proof P1 as [G1 N1 (l1 & -> & Hl1 & Hu1) L1 _ _ _ _ _ _].
    destruct (write_blocks_ok (with_alloc f a d1 b1 (set_sectors l1 i)) a (set_sectors l1 i) 1 (n / 512 + 1) ab0)
      as (d2 & b2 & i2 & blocks & E2 & P2); try done; try lia.
    { apply get_with_alloc. }
    { by apply wf_set_sectors. }
    { change (1 <=? 12) with true. cbn [andb].
      change (block_bitmap (cur_part (with_alloc f a d1 b1 (set_sectors l1 i)))) with b1.
      destruct (12 <? n / 512 + 1); lia. }
    rewrite with_alloc_twice in E2. eexists _, d2, b2, i2, blocks. split; [exact E1|]. split; [exact E2|].
    eapply (write_post_trans f a i 0 1); eauto; lia.
  - assert (blocks_of i = i_size i / 512 + 1) as Hb0.
    { unfold blocks_of. rewrite Hs0. change (default 0 (Some s0)) with s0. by apply Z.eqb_neq in Hne as ->. }
    rewrite Hb0 in *.
    destruct (write_blocks_ok f a i (i_size i / 512 + 1) ((i_size i + n) / 512 + 1) ab0) as (d2 & b2 & i2 & blocks & E2 & P2);
      try done; try lia.
    exists f, d2, b2, i2, blocks. split; [|done].
    unfold first_block. rewrite (get_sector_ok _ _ _ _ _ Hi Hs0). cbn [obind]. by apply Z.eqb_neq in Hne as ->.
Qed.

(** ** The write loop *)

Lemma get_put_inode f a i : get_inode (put_inode a i f) a = Ok i.
Proof. unfold get_inode, put_inode. cbn. by rewrite lookup_insert_eq. Qed.

Section data.
Variables (f : fs) (a : Z) (i : inode) (src blocks : list Z) (count : Z) (B : Z -> Z).
Abbreviation sz := (i_size i).
Abbreviation last := ((i_size i + count) / 512).
Hypothesis Hi : get_inode f a = Ok i.
Hypothesis Hsz : 0 <= sz /\ 0 <= count /\ sz + count < 2 ^ 31.
Hypothesis Hsrc : count <= zlen src.
Hypothesis Hbytes : bytes src.
Hypothesis Hblocks : forall k, sz / 512 <= k <= last -> znth blocks k = Some (B k) /\ B k <= max_lba.
Hypothesis Hinj : forall k k', sz / 512 <= k <= last -> sz / 512 <= k' <= last -> B k = B k' -> k = k'.

(** The byte at position [p] of the blocks [B]. *)
Definition bbyte d p : option Z := sector d (B (p / 512)) !! Z.to_nat (p mod 512).

(** The first [r] bytes have been written. *)
Record written (r : Z) (d : D) : Prop := {
  wr_other lba : (forall k, sz / 512 <= k <= last -> B k <> lba) -> sector d lba = sector (medium f) lba;
  wr_old p : sz / 512 * 512 <= p < sz -> bbyte d p = bbyte (medium f) p;
  wr_new p : sz <= p < sz + r -> bbyte d p = src !! Z.to_nat (p - sz) }.

Lemma file_chunk d r io0 : 0 <= r < count -> written r d ->
  zlen io0 = 512 -> bytes io0 -> (r = 0 -> io0 = sector d (B (sz / 512))) -> (0 < r -> (sz + r) mod 512 = 0) ->
  let o := (sz + r) mod 512 in
  let c := if count - r <? 512 - o then count - r else 512 - o in
  0 < c <= count - r /\ (c = count - r \/ (sz + (r + c)) mod 512 = 0)
  /\ exists chunk io, slice src r c = Ok chunk /\ splice io0 o chunk = Ok io /\ zlen io = 512 /\ bytes io
    /\ written (r + c) (set_sector d (B ((sz + r) / 512)) io).
Proof.
  intros Hr W Hl Hb Hfirst Hlater o c.
  pose proof (Z.mod_pos_bound (sz + r) 512 ltac:(lia)) as Ho. pose proof (Z.div_mod (sz + r) 512 ltac:(lia)) as Hdm.
  fold o in Ho, Hdm. set (s := (sz + r) / 512) in *.
  assert (0 < c <= count - r /\ o + c <= 512) as [Hc Hoc] by (unfold c; case_bool; zb; lia).
  split; [done|]. split.
  { unfold c. case_bool; [by left | right]. replace (sz + (r + (512 - o))) with ((s + 1) * 512) by lia. apply Z.mod_mul. lia. }
  assert (sz / 512 <= s <= last) as Hs by (split; apply Z.div_le_mono; lia).
  destruct (slice src r c) as [chunk|] eqn:Es.
  2: { exfalso. unfold slice in Es. case_bool; zb; [discriminate|lia]. }
  unfold slice in Es. case_bool; [|discriminate]. injection Es as <-. zb.
  set (chunk := take (Z.to_nat c) (drop (Z.to_nat r) src)).
  assert (zlen chunk = c) as Hcl by (unfold chunk; rewrite length_take, length_drop; lia).
  destruct (splice_ok io0 o chunk) as [io Eio]; [lia|lia|].
  pose proof (splice_length _ _ _ _ Eio) as Hlio.
  assert (bytes io) as Hbio by (eapply splice_forall; eauto; by apply Forall_take, Forall_drop).
  exists chunk, io. split; [done|]. split; [done|]. split; [lia|]. split; [done|].
  assert (forall lba, sector (set_sector d (B s) io) lba = if lba =? B s then io else sector d lba) as Hset.
  { intros lba. apply sector_set; [|done]. unfold SECTOR_SIZE. lia. }
  assert (forall p, sz / 512 * 512 <= p < sz + count -> sz / 512 <= p / 512 <= last) as Hrange.
  { intros p Hp. split; [apply Z.div_le_lower_bound; lia | apply Z.div_le_mono; lia]. }
  (* bytes before the chunk *)
  assert (forall p, sz / 512 * 512 <= p < sz + r -> bbyte (set_sector d (B s) io) p = bbyte d p) as Hbefore.
  { intros p Hp. unfold bbyte. rewrite Hset. destruct (Z.eqb_spec (B (p / 512)) (B s)) as [Heq|]; [|done].
    apply Hinj in Heq; [|apply Hrange; lia|done]. rewrite Heq.
    pose proof (Z.div_mod p 512 ltac:(lia)). pose proof (Z.mod_pos_bound p 512 ltac:(lia)).
    assert (p mod 512 < o) as Hpo by lia.
    rewrite (splice_lookup _ _ _ _ _ Eio) by lia. replace (o <=? p mod 512) with false by (symmetry; apply Z.leb_gt; lia).
    cbn [andb]. destruct (Z.eq_dec r 0) as [->|Hr0]; [|specialize (Hlater ltac:(lia)); fold o in Hlater; lia].
    rewrite (Hfirst eq_refl). unfold s. by rewrite Z.add_0_r. }
  destruct W as [Wo Wold Wnew]. split.
  - intros lba Hlba. rewrite Hset. destruct (Z.eqb_spec lba (B s)) as [->|]; [|by apply Wo].
    by destruct (Hlba s Hs).
  - intros p Hp. rewrite Hbefore by lia. by apply Wold.
  - intros p Hp. destruct (Z.lt_ge_cases p (sz + r)).
    + rewrite Hbefore; [apply Wnew; lia|]. split; [|lia]. pose proof (Z.mul_div_le sz 512 ltac:(lia)). lia.
    + unfold bbyte. assert (p / 512 = s) as -> by (symmetry; apply (Z.div_unique _ _ _ (o + (p - (sz + r)))); lia).
      assert (p mod 512 = o + (p - (sz + r))) as -> by (symmetry; apply (Z.mod_unique _ _ s); lia).
      rewrite Hset, Z.eqb_refl. rewrite (splice_lookup _ _ _ _ _ Eio) by lia. zdec.
      unfold chunk. rewrite lookup_take_lt, lookup_drop by lia. f_equal. lia.
Qed.

Lemma file_write_loop : exists d io,
  loop (file_write_body a src blocks count) (S (Z.to_nat count)) (f, u32 (sz - 1), 0, count, true, replicate 512 0)
  = Ok (put_inode a (set_size (sz + count) i) (with_medium d f), u32 (sz + count - 1), count, io)
  /\ zlen io = 512 /\ bytes io /\ written count d.
Proof.
  loop_inv (fun s : fs * Z * Z * Z * bool * list Z => let '(f', pos, r, lf, first, io) := s in
      0 <= r <= count /\ lf = count - r /\ pos = u32 (sz + r - 1) /\ zlen io = 512 /\ bytes io /\ (first = true <-> r = 0)
      /\ (0 < r < count -> (sz + r) mod 512 = 0)
      /\ exists d, f' = put_inode a (set_size (sz + r) i) (with_medium d f) /\ (r = 0 -> d = medium f) /\ written r d)
    (fun s : fs * Z * Z * Z * bool * list Z => let '(f', pos, r, lf, first, io) := s in Z.to_nat (count - r)).
  - intros [[[[[f' pos] r] lf] first] io] (Hr & -> & -> & Hl & Hb & Hfirst & Hmod & d & -> & Hd0 & W).
    unfold file_write_body. destruct (Z.ltb_spec r count) as [Hlt|Hge].
    2: { assert (r = count) as -> by lia. exists d, io. done. }
    rewrite get_put_inode. cbn [obind set_size i_size]. change BLOCK_SIZE with 512.
    assert (sz / 512 <= (sz + r) / 512 <= last) as Hs by (split; apply Z.div_le_mono; lia).
    destruct (Hblocks _ Hs) as [Hz Hmax]. rewrite (rd_znth _ _ _ Hz). cbn [obind].
    change (medium (put_inode a (set_size (sz + r) i) (with_medium d f))) with d.
    set (io0 := if first then sector d (B ((sz + r) / 512)) else replicate 512 0).
    assert ((if first then disk_read d (B ((sz + r) / 512)) 1 (replicate 512 0) 0 else Ok (replicate 512 0)) = Ok io0) as ->.
    { unfold io0. destruct first; [|done]. apply disk_read_one; [done | by rewrite length_replicate]. }
    cbn [obind]. pose proof (sector_len d (B ((sz + r) / 512))) as Hsl. unfold SECTOR_SIZE in Hsl.
    destruct (file_chunk d r io0) as (Hc & Hend & chunk & io' & Es & Ei & Hl' & Hb' & W'); try done.
    { lia. }
    { unfold io0. destruct first; [done | by rewrite length_replicate]. }
    { unfold io0. destruct first; [apply sector_bytes | apply Forall_replicate; unfold is_byte; lia]. }
    { intros ->. unfold io0. rewrite (proj2 Hfirst eq_refl), Z.add_0_r. done. }
    { intros. apply Hmod. lia. }
    set (c := if count - r <? 512 - (sz + r) mod 512 then count - r else 512 - (sz + r) mod 512) in *.
    rewrite Es. cbn [obind]. rewrite Ei. cbn [obind]. rewrite disk_write_one by (done || lia). cbn [obind].
    rewrite !u32_small with (z := r + c), !u32_small with (z := count - r - c), !u32_small with (z := sz + r + c) by lia.
    split; [|lia]. split; [lia|]. split; [lia|]. split.
    { unfold u32. rewrite Zplus_mod_idemp_l. f_equal. lia. }
    split; [done|]. split; [done|]. split; [split; [done|lia]|]. split; [intros; destruct Hend; [lia|done]|].
    exists (set_sector d (B ((sz + r) / 512)) io'). split; [|split; [lia|done]].
    unfold put_inode, with_inodes, with_medium. cbn. rewrite insert_insert_eq. by replace (sz + r + c) with (sz + (r + c)) by lia.
  - split; [lia|]. split; [lia|]. split; [f_equal; lia|]. split; [by rewrite length_replicate|].
    split; [apply Forall_replicate; unfold is_byte; lia|]. split; [done|]. split; [lia|].
    exists (medium f). split; [|split; [done|]].
    + rewrite Z.add_0_r. unfold get_inode in Hi. destruct (inodes f !! a) as [j|] eqn:E; [|done]. injection Hi as ->.
      unfold put_inode, with_inodes, with_medium. cbn. rewrite insert_id by (rewrite E; by destruct i). by destruct f.
    + split; [done|done|lia].
  - lia.
Qed.
End data.

(** ** Consequences of the layout *)

Lemma layout_block p d i n k : file_layout p d i n -> 0 <= k < n ->
  data_block p (file_block d i k) /\ bit (block_bitmap p) (file_block d i k - data_start_lba (sb p)) = true
  /\ file_block d i k ∈ used_list d i n.
Proof.
  intros [_ Hu _ _] Hk. rewrite Forall_forall in Hu.
  assert (file_block d i k ∈ used_list d i n) as Hin.
  { unfold used_list. apply elem_of_app; right. apply list_elem_of_In, in_map, list_elem_of_In, elem_of_seqZ. lia. }
  destruct (Hu _ Hin). done.
Qed.

Lemma layout_inj p d i n k k' : file_layout p d i n -> 0 <= k < n -> 0 <= k' < n ->
  file_block d i k = file_block d i k' -> k = k'.
Proof.
  intros [Hnd _ _ _] Hk Hk' Heq. unfold used_list in Hnd. apply NoDup_app in Hnd as (_ & _ & Hnd).
  pose proof (znth_map_seqZ (file_block d i) 0 n k Hk) as E. pose proof (znth_map_seqZ (file_block d i) 0 n k' Hk') as E'.
  unfold znth in E, E'. rewrite (proj2 (Z.ltb_ge k 0)) in E by lia. rewrite (proj2 (Z.ltb_ge k' 0)) in E' by lia.
  rewrite !Z.add_0_l in *. rewrite Heq in E.
  assert (Z.to_nat k = Z.to_nat k') by (eapply NoDup_lookup; eauto). lia.
Qed.

Lemma layout_table_ne p d i n k : file_layout p d i n -> 12 < n -> 0 <= k < n -> file_block d i k <> table_lba i.
Proof.
  intros L Hn Hk Heq. pose proof L as [Hnd _ _ _]. unfold used_list in Hnd.
  replace (12 <? n) with true in Hnd by (symmetry; apply Z.ltb_lt; lia). cbn [app] in Hnd.
  apply NoDup_cons in Hnd as [Hni _]. apply Hni. rewrite <- Heq.
  apply list_elem_of_In, in_map, list_elem_of_In, elem_of_seqZ. lia.
Qed.

Lemma layout_table_in p d i n : file_layout p d i n -> 12 < n -> table_lba i ∈ used_list d i n /\ data_block p (table_lba i).
Proof.
  intros [_ Hu _ _] Hn. rewrite Forall_forall in Hu.
  assert (table_lba i ∈ used_list d i n) as Hin.
  { unfold used_list. replace (12 <? n) with true by (symmetry; apply Z.ltb_lt; lia). by left. }
  split; [done|]. by destruct (Hu _ Hin).
Qed.

(** Data sectors are not metadata. *)
Lemma data_sector_same p d d' lba : geometry p -> data_block p lba ->
  (forall q, 512 * data_start_lba (sb p) <= q -> 512 * lba <= q < 512 * lba + 512 -> dbyte d q = dbyte d' q) ->
  sector d lba = sector d' lba.
Proof. intros G [Hd _] Hq. apply sector_ext. intros k Hk. apply Hq; lia. Qed.

Lemma bb_not_data p q : geometry p -> 512 * data_start_lba (sb p) <= q -> ~ in_bb p q.
Proof. intros G Hq. unfold in_bb. geo G. lia. Qed.

(** The file after its blocks are there, its bytes are written and it is synced. *)
Lemma file_after f i count src d2 b2 i2 blocks d3 d4 :
  geometry (cur_part f) -> wf_inode i -> (blocks_of i = 0 -> i_size i = 0) ->
  file_layout (cur_part f) (medium f) i (blocks_of i) -> 0 <= count ->
  write_post f i (blocks_of i) (blocks_for i count) d2 b2 i2 blocks ->
  written (put_inode 0 i2 (with_medium d2 f)) i2 src count (file_block d2 i2) count d3 ->
  (forall lba, data_block (cur_part f) lba -> sector d4 lba = sector d3 lba) ->
  let i' := set_size (i_size i + count) i2 in
  (forall p, 0 <= p < i_size i -> file_byte d4 i' p = file_byte (medium f) i p)
  /\ (forall p, i_size i <= p < i_size i + count -> file_byte d4 i' p = src !! Z.to_nat (p - i_size i))
  /\ (forall k, 0 <= k < blocks_for i count -> file_block d4 i' k = file_block d2 i2 k)
  /\ (forall lba, data_block (cur_part f) lba ->
        bit (block_bitmap (cur_part f)) (lba - data_start_lba (sb (cur_part f))) = true ->
        lba ∉ used_list (medium f) i (blocks_of i) -> sector d4 lba = sector (medium f) lba).
Proof.
  intros G Hwf Hempty L Hc P W Hd4 i'. set (nb := blocks_of i) in *. set (will := blocks_for i count) in *.
  destruct P as [G2 N2 (l & -> & Hl & Hlu) L2 Hbl Hold Hnew Htab Hbits Hdisk].
  set (i2 := set_sectors l i) in *. destruct W as [Wo Wold Wnew].
  change (i_size i2) with (i_size i) in *. change (medium (put_inode 0 i2 (with_medium d2 f))) with d2 in *.
  assert (0 <= i_size i) as Hsz.
  { destruct Hwf as [_ Hu]. unfold inode_words in Hu. rewrite Forall_app, !Forall_cons in Hu. lia. }
  assert (0 <= i_size i / 512 <= (i_size i + count) / 512) as Hdiv by (split; [apply Z.div_pos; lia | apply Z.div_le_mono; lia]).
  assert (will = (i_size i + count) / 512 + 1) as Hwill by done.
  assert (nb = 0 /\ i_size i = 0 \/ nb = i_size i / 512 + 1) as Hnb.
  { unfold nb, blocks_of in *. case_bool; [left; split; [done|by apply Hempty] | by right]. }
  assert (forall lba, data_block (set_block_bitmap b2 (cur_part f)) lba <-> data_block (cur_part f) lba) as Hdb.
  { intros lba. unfold data_block. cbn. by rewrite N2. }
  assert (forall k, 0 <= k < will -> file_block d4 i' k = file_block d2 i2 k) as Hfb.
  { intros k Hk. destruct (Z.lt_ge_cases k 12); [unfold file_block; by zdec|].
    destruct (layout_table d2 _ i2 will Hl L2 G2 ltac:(lia)) as [Ht [Ht0 Htm]].
    destruct (layout_table_in _ _ _ _ L2 ltac:(lia)) as [_ Htd]. apply Hdb in Htd.
    rewrite (file_block_table d4 i' (table_lba i2)), (file_block_table d2 i2 (table_lba i2)) by (done || lia).
    assert (sector d4 (table_lba i2) = sector d2 (table_lba i2)) as ->; [|done].
    rewrite Hd4 by done. apply Wo. intros k' Hk'. eapply layout_table_ne; eauto; lia. }
  (* a block of the file, before and after *)
  assert (forall k, 0 <= k < will -> data_block (cur_part f) (file_block d2 i2 k)) as Hdk.
  { intros k Hk. apply Hdb. by apply (layout_block _ d2 i2 will). }
  assert (forall k, 0 <= k < nb -> sector d2 (file_block d2 i2 k) = sector (medium f) (file_block (medium f) i k)) as Hsame.
  { intros k Hk. assert (k < will) as Hkw by (destruct Hnb; lia). rewrite <- Hold by done.
    apply (data_sector_same (cur_part f)); [done | apply Hdk; lia |].
    intros q Hq1 Hq2. apply Hdisk; [by apply bb_not_data|]. intros Hw Hq3.
    assert (file_block d2 i2 k = table_lba i2) as Heq by lia. revert Heq. eapply layout_table_ne; eauto; lia. }
  split; [|split; [|split; [done|]]].
  - intros p Hp. assert (0 <= p / 512 <= i_size i / 512) as Hpk by (split; [apply Z.div_pos; lia | apply Z.div_le_mono; lia]).
    assert (p / 512 < nb) as Hpn by (destruct Hnb; lia).
    unfold file_byte. rewrite Hfb by lia. rewrite Hd4 by (apply Hdk; lia). rewrite <- Hsame by lia.
    pose proof (Z.div_mod p 512 ltac:(lia)). pose proof (Z.mod_pos_bound p 512 ltac:(lia)).
    destruct (Z.eq_dec (p / 512) (i_size i / 512)) as [Heq|Hne].
    + apply Wold. pose proof (Z.mul_div_le (i_size i) 512 ltac:(lia)). lia.
    + rewrite Wo; [done|]. intros k' Hk' Heq. apply Hne. apply (layout_inj _ _ _ _ _ _ L2) in Heq; lia.
  - intros p Hp. assert (i_size i / 512 <= p / 512 <= (i_size i + count) / 512) as Hpk
      by (split; apply Z.div_le_mono; lia).
    unfold file_byte. rewrite Hfb by lia. rewrite Hd4 by (apply Hdk; lia). by apply Wnew.
  - intros lba Hlba Hbit Hnot. rewrite Hd4 by done. rewrite Wo.
    + apply (data_sector_same (cur_part f)); [done|done|]. intros q Hq1 Hq2. apply Hdisk; [by apply bb_not_data|].
      intros Hw Hq3. assert (lba = table_lba i2) as -> by lia.
      destruct (Htab Hw) as [[Hn12 Heq]|Hb]; [|congruence]. apply Hnot. rewrite Heq.
      by apply (layout_table_in _ _ _ _ L).
    + intros k Hk Heq. destruct (Z.lt_ge_cases k nb).
      * apply Hnot. rewrite <- Heq, Hold by lia. apply (layout_block _ _ _ _ k L). lia.
      * rewrite <- Heq, Hnew in Hbit by lia. done.
Qed.

Lemma written_medium f f' i src count B d : medium f = medium f' -> written f i src count B count d ->
  written f' i src count B count d.
Proof. intros E [Wo Wold Wnew]. constructor; rewrite <- ?E; done. Qed.

(** The layout survives whatever keeps the list of blocks. *)
Lemma layout_same p d i n d' i' : file_layout p d i n -> i_sectors i' = i_sectors i ->
  (forall k, 0 <= k < n -> file_block d' i' k = file_block d i k) -> file_layout p d' i' n.
Proof.
  intros [Hnd Hu Hf Ht] Es Hk.
  assert (used_list d' i' n = used_list d i n) as E.
  { unfold used_list, table_lba. rewrite Es. f_equal. apply list_eq. intros k. rewrite !list_lookup_fmap.
    destruct (seqZ 0 n !! k) as [v|] eqn:Ev; [|done]. apply lookup_seqZ in Ev as [-> ?]. cbn. f_equal. apply Hk. lia. }
  split; rewrite ?E, ?Es; done.
Qed.

Lemma layout_blocks_of p d i n i' : geometry p -> file_layout p d i n -> 0 < n -> i_sectors i' = i_sectors i ->
  length (i_sectors i) = 13%nat -> blocks_of i' = i_size i' / 512 + 1.
Proof.
  intros G L Hn Es Hlen. destruct (layout_block _ _ _ _ 0 L ltac:(lia)) as [[Hd _] _].
  unfold file_block in Hd. change (0 <? 12) with true in Hd. cbv iota in Hd.
  unfold blocks_of. rewrite Es. replace (default 0 (znth (i_sectors i) 0) =? 0) with false; [done|].
  symmetry. apply Z.eqb_neq. geo G. lia.
Qed.

(** An inode written back: its slot of the table changes and nothing else. *)
Lemma sync_after f i io : geometry (cur_part f) -> wf_inode i -> i_no i < 256 ->
  512 * inode_secs (cur_part f) (i_no i) <= zlen io -> bytes io ->
  exists d io', inode_sync f i io = Ok (with_medium d f, io') /\ zlen io' = zlen io /\ bytes io'
    /\ disk_inode d (cur_part f) (i_no i) = Ok (set_cnts 0 (set_deny 0 i))
    /\ (forall no, 0 <= no < 4096 -> no <> i_no i ->
         disk_inode d (cur_part f) no = disk_inode (medium f) (cur_part f) no)
    /\ (forall q, q < inode_addr (cur_part f) (i_no i) \/ inode_addr (cur_part f) (i_no i) + 76 <= q ->
         dbyte d q = dbyte (medium f) q)
    /\ forall q, 512 * data_start_lba (sb (cur_part f)) <= q -> dbyte d q = dbyte (medium f) q.
Proof.
  intros G Hwf Hno Hl Hb. pose proof Hwf as [Hs Hw].
  assert (0 <= i_no i) as Hno0 by (apply Forall_cons in Hw as [? _]; lia).
  destruct (inode_sync_gen f i io G Hs) as (d & io' & E & Hl' & Hb' & W);
    [by rewrite u8_small by lia | done |]. cbv zeta in W. rewrite (u8_small (i_no i)) in W by lia.
  assert (forall q, q < inode_addr (cur_part f) (i_no i) \/ inode_addr (cur_part f) (i_no i) + 76 <= q ->
         dbyte d q = dbyte (medium f) q) as Hout by (intros q Hq; rewrite W; case_bool; [zb; lia | done]).
  exists d, io'. split; [done|]. split; [done|]. split; [done|]. split; [|split; [|split; [done|]]].
  - apply disk_inode_bytes; [by apply wf_inode_pure|]. intros k Hk. rewrite W. zdec. f_equal. lia.
  - intros no Hn Hne. apply disk_inode_ext. intros k Hk. apply Hout. unfold inode_addr. lia.
  - intros q Hq. apply Hout. unfold inode_addr. geo G. lia.
Qed.

(** [file_write] run: the blocks are taken, the bytes written, the inode synced. *)
Lemma file_write_run n f fd src count x i : get_file f fd = Ok x -> get_inode f (fd_inode x) = Ok i -> wf_inode i ->
  geometry (cur_part f) -> file_layout (cur_part f) (medium f) i (blocks_of i) -> (blocks_of i = 0 -> i_size i = 0) ->
  0 <= i_size i -> 0 <= count -> i_size i + count < 71680 -> count <= zlen src -> bytes src ->
  (new_sectors i count <= length (free_list (block_bitmap (cur_part f))))%nat -> roomy (2 + n) (kheap f) ->
  i_no i < 256 -> inode_secs (cur_part f) (i_no i) = 1 ->
  exists h l bl d2 b2 d3 d4, let i2 := set_sectors l i in let i' := set_size (i_size i + count) i2 in
    file_write f fd src count =
      Ok (with_kheap h (with_medium d4 (with_files (<[Z.to_nat fd := set_pos (u32 (i_size i + count - 1)) x]> (file_table f))
            (put_inode (fd_inode x) i' (with_alloc f (fd_inode x) d2 b2 i2)))), count)
    /\ same_live (kheap f) h /\ roomy (n - 2) h /\ wf_inode i'
    /\ write_post f i (blocks_of i) (blocks_for i count) d2 b2 i2 bl
    /\ written (put_inode 0 i2 (with_medium d2 f)) i2 src count (file_block d2 i2) count d3
    /\ disk_inode d4 (cur_part f) (i_no i) = Ok (set_cnts 0 (set_deny 0 i'))
    /\ forall lba, data_block (cur_part f) lba -> sector d4 lba = sector d3 lba.
Proof.
  intros Hx Hi Hwf G L Hempty Hsz Hc Hmax Hsrc Hbs Hroom R Hno Hsec. pose proof Hwf as [Hlen Hu].
  assert ((i_size i + count) / 512 < 140) as Hd by (apply Z.div_lt_upper_bound; lia).
  assert (0 <= i_size i / 512) as Hd0 by (apply Z.div_pos; lia).
  assert (blocks_for i count <= 140) as Hwill by (unfold blocks_for; lia).
  unfold file_write. rewrite Hx. cbn [obind]. rewrite Hi. cbn [obind]. rewrite !(u32_small (i_size i + count)) by lia.
  change (BLOCK_SIZE * 140) with 71680. replace (71680 <? i_size i + count) with false by (symmetry; apply Z.ltb_ge; lia).
  destruct (two_buffers_roomy n (kheap f) 512 (BLOCK_SIZE + 48) R ltac:(done) ltac:(done)) as (h1 & io & h2 & ab & E1 & N1 & E2 & N2 & Hlive & Hroomy).
  rewrite E1, N1, E2, N2. set (f2 := with_kheap h2 f) in *.
  destruct (file_blocks_ok f2 (fd_inode x) i count (replicate 140 0)) as (f3 & d2 & b2 & i2 & bl & F1 & F2 & P); try done; [apply Forall_replicate; lia|].
  rewrite F1. cbn [obind]. change BLOCK_SIZE with 512. fold (blocks_for i count).
  replace (blocks_for i count <=? 140) with true by (symmetry; apply Z.leb_le; lia). cbn [c_assert obind].
  rewrite F2. cbn [obind]. clear F1 F2. pose proof P as [G2 N (l & -> & Hl & Hlu) L2 Hbl _ _ _ Hbits _].
  set (i2 := set_sectors l i) in *. set (f4 := with_alloc f2 (fd_inode x) d2 b2 i2) in *.
  assert (forall k, 0 <= k < blocks_for i count -> data_block (cur_part f) (file_block d2 i2 k)) as Hdk.
  { intros k Hk. destruct (layout_block _ _ _ _ k L2 Hk) as [Hdb _]. unfold data_block in *. cbn in Hdb. by rewrite N in Hdb. }
  assert (0 <= i_size i / 512 <= (i_size i + count) / 512) as Hmono by (split; [lia | apply Z.div_le_mono; lia]).
  destruct (file_write_loop f4 (fd_inode x) i2 src bl count (file_block d2 i2)) as (d3 & io' & E3 & Hio & Hbio & W);
    try done.
  { apply get_with_alloc. }
  { unfold i2; cbn. lia. }
  { intros k Hk. change (i_size i2) with (i_size i) in Hk.
    split; [apply Hbl; unfold blocks_of, blocks_for; case_bool; lia|].
    destruct (Hdk k ltac:(unfold blocks_for; lia)) as [_ Hlt]. geo G. lia. }
  { intros k k' Hk Hk'. change (i_size i2) with (i_size i) in *. apply (layout_inj _ _ _ _ _ _ L2); unfold blocks_for; lia. }
  change (i_size i2) with (i_size i) in E3. rewrite E3. cbn [obind]. clear E3.
  set (i' := set_size (i_size i + count) i2) in *. set (f5 := put_inode (fd_inode x) i' (with_medium d3 f4)) in *.
  erewrite (put_file_ok f5 fd x) by exact Hx. cbn [obind].
  match goal with |- context [get_inode ?g (fd_inode x)] => change (get_inode g (fd_inode x)) with (get_inode f5 (fd_inode x)) end.
  unfold f5 at 1. rewrite get_put_inode. cbn [obind].
  assert (wf_inode i') as Hwf'.
  { pose proof (wf_set_sectors i l Hwf Hl Hlu) as [_ Hw2]. split; [done|]. unfold inode_words in *.
    rewrite Forall_app, !Forall_cons in *. cbn. intuition lia. }
  match goal with |- context [inode_sync ?g i' io'] => set (f6 := g) end.
  destruct (sync_after f6 i' io') as (d4 & io4 & E4 & _ & _ & Hdisk & _ & _ & Hsame); try done; [change (inode_secs (cur_part f6) (i_no i')) with (inode_secs (cur_part f) (i_no i)); lia|].
  rewrite E4. cbn [obind]. clear E4. rewrite s32_small by lia.
  exists (sys_free (sys_free h2 false ab) false io), l, bl, d2, b2, d3, d4. cbv zeta. fold i2 i'.
  split; [reflexivity|]. split; [done|]. split; [done|]. split; [done|]. split; [by destruct P|].
  split; [by apply (written_medium f4)|]. split; [exact Hdisk|].
  intros lba Hlba. apply (data_sector_same (cur_part f)); [done|done|]. intros q Hq1 Hq2. by apply Hsame.
Qed.

(** ** Properties *)

(** What appending the first [count] bytes of [src] does to inode [i] behind
    descriptor [fd], whose sectors become [l]. *)
Definition appended (f : fs) (fd : Z) (src : list Z) (count : Z) (x : file) (i : inode) (f' : fs) (l : list Z) : Prop :=
  let i' := set_size (i_size i + count) (set_sectors l i) in
    (forall p, 0 <= p < i_size i -> file_byte (medium f') i' p = file_byte (medium f) i p)
    /\ (forall p, i_size i <= p < i_size i + count -> file_byte (medium f') i' p = src !! Z.to_nat (p - i_size i))
    /\ wf_inode i' /\ geometry (cur_part f')
    /\ blocks_of i' = blocks_for i count /\ file_layout (cur_part f') (medium f') i' (blocks_for i count)
    /\ (forall j, bit (block_bitmap (cur_part f)) j = true -> bit (block_bitmap (cur_part f')) j = true)
    /\ (forall lba, data_block (cur_part f) lba ->
         bit (block_bitmap (cur_part f)) (lba - data_start_lba (sb (cur_part f))) = true ->
         lba ∉ used_list (medium f) i (blocks_of i) -> sector (medium f') lba = sector (medium f) lba)
    /\ disk_inode (medium f') (cur_part f) (i_no i) = Ok (set_cnts 0 (set_deny 0 i'))
    /\ inodes f' = <[fd_inode x := i']> (inodes f)
    /\ file_table f' = <[Z.to_nat fd := set_pos (u32 (i_size i + count - 1)) x]> (file_table f)
    /\ open_inodes (cur_part f') = open_inodes (cur_part f) /\ kern f' = kern f
    /\ same_live (kheap f) (kheap f').

Lemma file_write_ok n f fd src count x i : get_file f fd = Ok x -> get_inode f (fd_inode x) = Ok i -> wf_inode i ->
  geometry (cur_part f) -> file_layout (cur_part f) (medium f) i (blocks_of i) -> (blocks_of i = 0 -> i_size i = 0) ->
  0 <= count -> i_size i + count < 71680 -> count <= zlen src -> bytes src ->
  (new_sectors i count <= length (free_list (block_bitmap (cur_part f))))%nat -> roomy (2 + n) (kheap f) ->
  i_no i < 256 -> inode_secs (cur_part f) (i_no i) = 1 ->
  exists f' l, file_write f fd src count = Ok (f', count) /\ appended f fd src count x i f' l /\ roomy (n - 2) (kheap f').
Proof.
  intros Hx Hi Hwf G L Hempty Hc Hmax Hsrc Hbs Hroom R Hno Hsec. pose proof Hwf as [Hlen Hu].
  assert (0 <= i_size i) as Hsz by (unfold inode_words in Hu; rewrite Forall_app, !Forall_cons in Hu; lia).
  destruct (file_write_run n f fd src count x i) as (h & l & bl & d2 & b2 & d3 & d4 & E & Hlive & Hroomy & Hwf' & P & W & Hdisk & Hsame);
    try done.
  destruct (file_after f i count src d2 b2 (set_sectors l i) bl d3 d4) as (Hold & Hnew & Hfb & Hother); try done.
  pose proof P as [G2 _ (l' & [= Hl'] & Hl & _) L2 _ _ _ _ Hbits _]. subst l'.
  assert (0 < blocks_for i count) as Hpos.
  { unfold blocks_for. pose proof (Z.div_pos (i_size i + count) 512). lia. }
  eexists _, l. unfold appended. cbv zeta. split; [exact E|]. split; [|exact Hroomy]. split; [exact Hold|]. split; [exact Hnew|]. split; [done|]. split; [exact G2|].
  split; [exact (layout_blocks_of _ _ _ _ (set_size (i_size i + count) (set_sectors l i)) G2 L2 Hpos eq_refl Hl)|].
  split; [by apply (layout_same _ d2 (set_sectors l i))|].
  split; [exact Hbits|]. split; [exact Hother|]. split; [exact Hdisk|].
  split; [apply insert_insert_eq|]. by split_and!.
Qed.


End write.

(** ** Witness: 30 bytes after the 600 of inode 3 of the partition of Inode.v, open for writing *)

Lemma demo_layout : file_layout (set_open [4096] demo_part) demo_medium demo_opened 2.
Proof.
  assert (used_list demo_medium demo_opened 2 = [713; 714]) as E by (vm_compute; reflexivity).
  split; rewrite ?E.
  - apply (bool_decide_unpack _). vm_compute. exact I.
  - repeat constructor; cbn; lia || reflexivity.
  - intros k Hk.
    pose proof (range_eq (fun k => znth (i_sectors demo_opened) (k + 2)) (fun _ => Some 0) 10 eq_refl (k - 2) ltac:(lia)) as Hz.
    cbn beta in Hz. by replace (k - 2 + 2) with k in Hz by lia.
  - reflexivity.
Qed.

