(* ===== verification/Dir.v ===== *)
(** fs/dir.c: directories. A directory entry is its 24 bytes in memory: the name
    field of 16, the inode number and the type. [struct dir] is a record;
    [dir_self] says whether it is [root_dir] or the block of the heap it is in.
    Names handed in are the characters before the terminator. *)
From S2P Require Import Prelude Bitmap Cstring Ide Blockdev Inode File Filewrite.

Definition MAX_FILE_NAME_LEN : Z := 16.
Definition sizeof_dir_entry : Z := 24.
Definition sizeof_dir : Z := 520.
Definition FT_UNKNOWN : Z := 0.
Definition FT_REGULAR : Z := 1.
Definition FT_DIRECTORY : Z := 2.

Record dir := mk_dir { dir_self : option Z; dir_inode : Z; dir_pos : Z; dir_buf : list Z }.
Definition set_dir_pos (v : Z) (x : dir) : dir := mk_dir (dir_self x) (dir_inode x) v (dir_buf x).
Definition set_dir_buf (v : list Z) (x : dir) : dir := mk_dir (dir_self x) (dir_inode x) (dir_pos x) v.

(** [!strcmp] of the string that starts a piece of memory with a string. *)
Fixpoint str_eq (l s : list Z) : outcome bool :=
  match l, s with
  | [], _ => Err BadAccess
  | x :: _, [] => Ok (x =? 0)
  | x :: l, c :: s => if x =? c then str_eq l s else Ok false
  end.

(** The fields of entry [idx] of a buffer of entries. *)
Definition de_name (buf : list Z) (idx : Z) : list Z := drop (Z.to_nat (sizeof_dir_entry * idx)) buf.
Definition de_i_no (buf : list Z) (idx : Z) : outcome Z := rd_le32 buf (sizeof_dir_entry * idx + 16).
Definition de_f_type (buf : list Z) (idx : Z) : outcome Z := rd_le32 buf (sizeof_dir_entry * idx + 20).

Definition DOT : list Z := [46].
Definition DOTDOT : list Z := [46; 46].

Definition create_dir_entry (filename : list Z) (inode_no file_type : Z) (p_de : list Z) : outcome (list Z) :=
  c_assert (zlen filename <=? MAX_FILE_NAME_LEN) ;;;
  let! p_de := splice p_de 0 filename in
  let! p_de := splice p_de 16 (le32 inode_no) in
  splice p_de 20 (le32 (u8 file_type)).

Section dir.
Context {D H : Type} `{BlockDevice D} `{KernelHeap H}.
Abbreviation fs := (fstate D H).

(** ** Opening and closing *)

Definition open_root_dir (f : fs) : outcome (fs * dir) :=
  let! ' (f, a) := inode_open f (root_inode_no (sb (cur_part f))) in
  Ok (f, mk_dir None a 0 (replicate 512 0)).

Definition dir_open (f : fs) (inode_no : Z) : outcome (fs * dir) :=
  let '(h, pdir) := sys_malloc (kheap f) false sizeof_dir in
  let! ' (f, a) := inode_open (with_kheap h f) inode_no in
  if pdir =? 0 then Err BadAccess else
  Ok (f, mk_dir (Some pdir) a 0 (replicate 512 0)).

Definition dir_close (f : fs) (x : dir) : outcome fs :=
  match dir_self x with
  | None => Ok f
  | Some pdir =>
      let! f := inode_close f (dir_inode x) in
      Ok (with_kheap (sys_free (kheap f) false pdir) f)
  end.

Definition dir_is_empty (f : fs) (x : dir) : outcome bool :=
  let! i := get_inode f (dir_inode x) in
  Ok (i_size i =? u32 (dir_entry_size (sb (cur_part f)) * 2)).

(** ** The blocks of a directory *)

(** [all_blocks]: the direct blocks, and the table's when there is one. *)
Definition direct_blocks (i : inode) : outcome (list Z) := copy_sectors (i_sectors i) (replicate 140 0) 0 11.
Definition dir_blocks (d : D) (i : inode) : outcome (list Z) :=
  let! all_blocks := direct_blocks i in
  let! table_lba := rd (i_sectors i) 12 in
  if negb (table_lba =? 0) then
    let! table := read_table d table_lba in Ok (table_at_12 all_blocks table)
  else Ok all_blocks.

(** [512 / dir_entry_size]; a size of 0 is the processor's division error. *)
Definition entries_per_sec (f : fs) : outcome Z :=
  if dir_entry_size (sb (cur_part f)) =? 0 then Err BadAccess
  else Ok (512 / dir_entry_size (sb (cur_part f))).

(** ** Searching *)

Definition search_entry_body (buf name : list Z) (cnt : Z) (idx : Z) : outcome (Z + option Z) :=
  if idx <? cnt then
    let! same := str_eq (de_name buf idx) name in
    if (same : bool) then Ok (inr (Some idx)) else Ok (inl (idx + 1))
  else Ok (inr None).

(** The walk over the blocks; the entry found is copied out. *)
Definition search_block_body (d : D) (all_blocks name : list Z) (cnt size : Z) (block_idx : Z)
  : outcome (Z + option (list Z)) :=
  if block_idx <? 140 then
    let! lba := rd all_blocks block_idx in
    if lba =? 0 then Ok (inl (block_idx + 1)) else
    let! buf := disk_read d lba 1 (replicate 512 0) 0 in
    let! found := loop (search_entry_body buf name cnt) 513 0 in
    match found with
    | Some idx => let! dir_e := slice buf (sizeof_dir_entry * idx) size in Ok (inr (Some dir_e))
    | None => Ok (inl (block_idx + 1))
    end
  else Ok (inr None).

(** [search_dir_entry]: the entry, when there is one, is [dir_e]. *)
Definition search_dir_entry (f : fs) (pdir : dir) (name : list Z) : outcome (fs * option (list Z)) :=
  let '(h, ab) := sys_malloc (kheap f) false 560 in
  if ab =? 0 then Ok (with_kheap h f, None) else
  let! i := get_inode f (dir_inode pdir) in
  let! all_blocks := dir_blocks (medium f) i in
  let '(h, buf) := sys_malloc h false 512 in
  let! cnt := entries_per_sec f in
  (if (buf =? 0) && existsb (fun lba => negb (lba =? 0)) all_blocks then Err BadAccess else
   let! found := loop (search_block_body (medium f) all_blocks name cnt (dir_entry_size (sb (cur_part f)))) 141 0 in
   c_assert (negb (buf =? 0)) ;;;
   Ok (with_kheap (sys_free (sys_free h false buf) false ab) f, found)).

(** ** Adding an entry *)

(** A block for place [block_idx]: a direct block, the table with its first
    block, or a block of the table; [None] is the return of false. *)
Definition dir_alloc (f : fs) (a : Z) (all_blocks : list Z) (block_idx : Z) : outcome (fs * option (list Z)) :=
  let! ' (f, block_lba) := block_bitmap_alloc f in
  if block_lba =? -1 then Ok (f, None) else
  c_assert (negb (s32 (bitmap_idx_of f block_lba) =? -1)) ;;;
  let! f := bitmap_sync f (bitmap_idx_of f block_lba) BLOCK_BITMAP in
  if block_idx <? 12 then
    let! all_blocks := wr all_blocks block_idx block_lba in
    let! f := put_sector f a block_idx block_lba in
    Ok (f, Some all_blocks)
  else if block_idx =? 12 then
    let! f := put_sector f a 12 block_lba in
    let! ' (f, block_lba) := block_bitmap_alloc f in
    if block_lba =? -1 then
      let! table_lba := get_sector f a 12 in
      let! b := bitmap_set (block_bitmap (cur_part f)) (bitmap_idx_of f table_lba) 0 in
      let! f := put_sector (with_part (set_block_bitmap b (cur_part f)) f) a 12 0 in
      Ok (f, None)
    else
      c_assert (negb (s32 (bitmap_idx_of f block_lba) =? -1)) ;;;
      let! f := bitmap_sync f (bitmap_idx_of f block_lba) BLOCK_BITMAP in
      let! all_blocks := wr all_blocks 12 block_lba in
      let! table_lba := get_sector f a 12 in
      let! f := write_table f table_lba all_blocks in
      Ok (f, Some all_blocks)
  else
    let! all_blocks := wr all_blocks block_idx block_lba in
    let! table_lba := get_sector f a 12 in
    let! f := write_table f table_lba all_blocks in
    Ok (f, Some all_blocks).

Definition grow_dir (f : fs) (a : Z) : outcome fs :=
  let! i := get_inode f a in
  Ok (put_inode a (set_size (u32 (i_size i + dir_entry_size (sb (cur_part f)))) i) f).

Definition free_entry_body (buf : list Z) (cnt : Z) (idx : Z) : outcome (Z + option Z) :=
  if idx <? cnt then
    let! t := de_f_type buf idx in
    if t =? FT_UNKNOWN then Ok (inr (Some idx)) else Ok (inl (u8 (idx + 1)))
  else Ok (inr None).

(** [de] cut to [dir_entry_size] bytes is what [memcpy] moves. *)
Definition sync_dir_body (a : Z) (p_de : list Z) (size cnt : Z) (s : fs * list Z * list Z * Z)
  : outcome (fs * list Z * list Z * Z + fs * bool * list Z) :=
  let '(f, all_blocks, io_buf, block_idx) := s in
  if block_idx <? 140 then
    let! lba := rd all_blocks block_idx in
    if lba =? 0 then
      let! ' (f, r) := dir_alloc f a all_blocks block_idx in
      match r with
      | None => Ok (inr (f, false, io_buf))
      | Some all_blocks =>
          let! io_buf := splice io_buf 0 (replicate 512 0) in
          let! de := slice p_de 0 size in
          let! io_buf := splice io_buf 0 de in
          let! lba := rd all_blocks block_idx in
          let! d := disk_write (medium f) lba 1 io_buf 0 in
          let! f := grow_dir (with_medium d f) a in
          Ok (inr (f, true, io_buf))
      end
    else
      let! io_buf := disk_read (medium f) lba 1 io_buf 0 in
      let! free := loop (free_entry_body io_buf cnt) 513 0 in
      match free with
      | Some idx =>
          let! de := slice p_de 0 size in
          let! io_buf := splice io_buf (sizeof_dir_entry * idx) de in
          let! d := disk_write (medium f) lba 1 io_buf 0 in
          let! f := grow_dir (with_medium d f) a in
          Ok (inr (f, true, io_buf))
      | None => Ok (inl (f, all_blocks, io_buf, u8 (block_idx + 1)))
      end
  else Ok (inr (f, false, io_buf)).

Definition sync_dir_entry (f : fs) (parent_dir : dir) (p_de io_buf : list Z) : outcome (fs * bool * list Z) :=
  let a := dir_inode parent_dir in
  let! i := get_inode f a in
  let! cnt := entries_per_sec f in
  c_assert (i_size i mod dir_entry_size (sb (cur_part f)) =? 0) ;;;
  let! all_blocks := direct_blocks i in
  loop (sync_dir_body a p_de (dir_entry_size (sb (cur_part f))) cnt) 141 (f, all_blocks, io_buf, 0).

(** ** Removing an entry *)

(** One sector: entries counted, whether [.] is among them, the entry looked for. *)
Definition delete_scan_body (io_buf : list Z) (inode_no cnt : Z) (s : Z * Z * bool * option Z)
  : outcome (Z * Z * bool * option Z + Z * bool * option Z) :=
  let '(idx, n, first, found) := s in
  if idx <? cnt then
    let! t := de_f_type io_buf idx in
    if t =? FT_UNKNOWN then Ok (inl (u8 (idx + 1), n, first, found)) else
    let! dot := str_eq (de_name io_buf idx) DOT in
    if (dot : bool) then Ok (inl (u8 (idx + 1), n, true, found)) else
    let! dotdot := str_eq (de_name io_buf idx) DOTDOT in
    if (dotdot : bool) then Ok (inl (u8 (idx + 1), n, first, found)) else
    let! no := de_i_no io_buf idx in
    if no =? inode_no then
      c_assert (match found with None => true | Some _ => false end) ;;;
      Ok (inl (u8 (idx + 1), u8 (n + 1), first, Some idx))
    else Ok (inl (u8 (idx + 1), u8 (n + 1), first, found))
  else Ok (inr (n, first, found)).

(** The count of the table's blocks, as it is written: its index does not move. *)
Definition count_indirect_body (all_blocks : list Z) (s : Z * Z) : outcome (Z * Z + Z) :=
  let '(indirect_blocks, indirect_block_idx) := s in
  if indirect_block_idx <? 140 then
    let! lba := rd all_blocks indirect_block_idx in
    Ok (inl (if negb (lba =? 0) then u32 (indirect_blocks + 1) else indirect_blocks, indirect_block_idx))
  else Ok (inr indirect_blocks).

Definition free_dir_block (f : fs) (lba : Z) : outcome fs :=
  let! b := bitmap_set (block_bitmap (cur_part f)) (bitmap_idx_of f lba) 0 in
  bitmap_sync (with_part (set_block_bitmap b (cur_part f)) f) (bitmap_idx_of f lba) BLOCK_BITMAP.

(** A sector that held only the entry goes back to the bitmap. *)
Definition delete_block (f : fs) (a : Z) (all_blocks : list Z) (block_idx : Z) : outcome fs :=
  let! lba := rd all_blocks block_idx in
  let! f := free_dir_block f lba in
  if block_idx <? 12 then put_sector f a block_idx 0
  else
    let! indirect_blocks := loop (count_indirect_body all_blocks) 141 (0, 12) in
    c_assert (1 <=? indirect_blocks) ;;;
    let! table_lba := get_sector f a 12 in
    if 1 <? indirect_blocks then
      let! all_blocks := wr all_blocks block_idx 0 in
      write_table f table_lba all_blocks
    else
      let! f := free_dir_block f table_lba in
      put_sector f a 12 0.

(** The entry at [idx] of the sector in [io_buf] goes, and the inode is synced. *)
Definition delete_found (f : fs) (a : Z) (all_blocks : list Z) (size block_idx idx n : Z) (first : bool)
    (io_buf : list Z) : outcome (fs * bool * list Z) :=
  c_assert (1 <=? n) ;;;
  let! ' (f, io_buf) :=
    if (n =? 1) && negb first then
      let! f := delete_block f a all_blocks block_idx in Ok (f, io_buf)
    else
      let! io_buf := splice io_buf (sizeof_dir_entry * idx) (replicate (Z.to_nat size) 0) in
      let! lba := rd all_blocks block_idx in
      let! d := disk_write (medium f) lba 1 io_buf 0 in
      Ok (with_medium d f, io_buf) in
  let! i := get_inode f a in
  c_assert (size <=? i_size i) ;;;
  let i := set_size (u32 (i_size i - size)) i in
  let! io_buf := splice io_buf 0 (replicate 1024 0) in
  let! ' (f, io_buf) := inode_sync (put_inode a i f) i io_buf in
  Ok (f, true, io_buf).

Definition delete_dir_body (f : fs) (a inode_no : Z) (all_blocks : list Z) (size cnt : Z) (s : Z * list Z)
  : outcome (Z * list Z + fs * bool * list Z) :=
  let '(block_idx, io_buf) := s in
  if block_idx <? 140 then
    let! lba := rd all_blocks block_idx in
    if lba =? 0 then Ok (inl (block_idx + 1, io_buf)) else
    let! io_buf := splice io_buf 0 (replicate 512 0) in
    let! io_buf := disk_read (medium f) lba 1 io_buf 0 in
    let! ' (n, first, found) := loop (delete_scan_body io_buf inode_no cnt) 513 (0, 0, false, None) in
    match found with
    | None => Ok (inl (block_idx + 1, io_buf))
    | Some idx =>
        let! r := delete_found f a all_blocks size block_idx idx n first io_buf in Ok (inr r)
    end
  else Ok (inr (f, false, io_buf)).

Definition delete_dir_entry (f : fs) (pdir : dir) (inode_no : Z) (io_buf : list Z) : outcome (fs * bool * list Z) :=
  let a := dir_inode pdir in
  let! i := get_inode f a in
  let! all_blocks := dir_blocks (medium f) i in
  let! cnt := entries_per_sec f in
  loop (delete_dir_body f a inode_no all_blocks (dir_entry_size (sb (cur_part f))) cnt) 141 (0, io_buf).

(** ** Reading a directory *)

Definition read_entry_body (buf : list Z) (pos size cnt : Z) (s : Z * Z) : outcome (Z * Z + Z * option Z) :=
  let '(idx, cur) := s in
  if idx <? cnt then
    let! t := de_f_type buf idx in
    if negb (t =? 0) then
      if cur <? pos then Ok (inl (idx + 1, u32 (cur + size)))
      else c_assert (cur =? pos) ;;; Ok (inr (cur, Some idx))
    else Ok (inl (idx + 1, cur))
  else Ok (inr (cur, None)).

Definition dir_read_body (d : D) (all_blocks : list Z) (i_size size cnt : Z) (s : dir * Z * Z)
  : outcome (dir * Z * Z + dir * option Z) :=
  let '(x, block_idx, cur) := s in
  if dir_pos x <? i_size then
    let! lba := rd all_blocks block_idx in
    if lba =? 0 then Ok (inl (x, block_idx + 1, cur)) else
    let! buf := disk_read d lba 1 (replicate 512 0) 0 in
    let x := set_dir_buf buf x in
    let! ' (cur, found) := loop (read_entry_body buf (dir_pos x) size cnt) 513 (0, cur) in
    match found with
    | Some idx => Ok (inr (set_dir_pos (u32 (dir_pos x + size)) x, Some idx))
    | None => Ok (inl (x, block_idx + 1, cur))
    end
  else Ok (inr (x, None)).

(** The entry returned is that of index [idx] in [dir_buf]; [None] is NULL. *)
Definition dir_read (f : fs) (x : dir) : outcome (dir * option Z) :=
  let! i := get_inode f (dir_inode x) in
  let! all_blocks := dir_blocks (medium f) i in
  let! cnt := entries_per_sec f in
  loop (dir_read_body (medium f) all_blocks (i_size i) (dir_entry_size (sb (cur_part f))) cnt) 142 (x, 0, 0).

(** ** Removing a directory *)

Definition dir_remove (f : fs) (parent_dir child_dir : dir) : outcome (fs * Z) :=
  let! i := get_inode f (dir_inode child_dir) in
  c_assert (forallb (fun lba => lba =? 0) (drop 1 (i_sectors i))) ;;;
  let '(h, io) := sys_malloc (kheap f) false 1024 in
  if io =? 0 then Ok (with_kheap h f, -1) else
  let! ' (f, _, _) := delete_dir_entry (with_kheap h f) parent_dir (i_no i) (replicate 1024 0) in
  let! f := inode_release f (i_no i) in
  Ok (with_kheap (sys_free (kheap f) false io) f, 0).

End dir.

(** ** Specification *)

(** The characters before the first zero. *)
Fixpoint chars (l : list Z) : list Z :=
  match l with [] => [] | c :: l => if c =? 0 then [] else c :: chars l end.

Definition word_at (l : list Z) (off : Z) : Z := match rd_le32 l off with Ok w => w | Err _ => 0 end.

(** The entries of a sector, as their bytes, and their fields. *)
Definition slot (buf : list Z) (j : Z) : list Z := take 24 (drop (Z.to_nat (24 * j)) buf).
Definition slots (buf : list Z) : list (list Z) := map (slot buf) (seqZ 0 21).
Definition entry_name (s : list Z) : list Z := chars (take 16 s).
Definition entry_no (s : list Z) : Z := word_at s 16.
Definition entry_type (s : list Z) : Z := word_at s 20.
Definition named (name s : list Z) : bool := bool_decide (entry_name s = name).

(** The sectors of a directory in the order of its blocks, and all its slots. *)
Definition dir_lbas {D} `{BlockDevice D} (d : D) (i : inode) (k n : Z) : list Z :=
  filter (fun lba => lba <> 0) (map (file_block d i) (seqZ k n)).
Definition slots_of {D} `{BlockDevice D} (d : D) (lbas : list Z) : list (list Z) :=
  concat (map (fun lba => slots (sector d lba)) lbas).
Definition dir_slots {D} `{BlockDevice D} (d : D) (i : inode) : list (list Z) := slots_of d (dir_lbas d i 0 140).

(** The directory as a map from names to entries. *)
Definition dir_lookup {D} `{BlockDevice D} (d : D) (i : inode) (name : list Z) : option (list Z) :=
  List.find (named name) (dir_slots d i).

(** A slot whose name is terminated inside its field. *)
Definition name_ends (s : list Z) : Prop := 0 ∈ take 16 s.

(** A directory the code can walk: blocks on the disk, names terminated. *)
Record dir_readable {D} `{BlockDevice D} (d : D) (i : inode) : Prop := {
  rdb_len : length (i_sectors i) = 13%nat;
  rdb_table : znth (i_sectors i) 12 = Some 0 \/ has_table i 12;
  rdb_lbas : Forall (fun lba => lba <= max_lba) (dir_lbas d i 0 140);
  rdb_names : Forall name_ends (dir_slots d i) }.

(** ** Lemmas *)

Lemma str_eq_ok n s : forall l, 0 ∈ take n l -> 0 ∉ s -> str_eq l s = Ok (bool_decide (chars (take n l) = s)).
Proof.
  revert n. induction s as [|c s IH]; intros n [|x l] H0 Hs; destruct n; cbn in H0; try by apply elem_of_nil in H0.
  - cbn. f_equal. symmetry. destruct (Z.eqb_spec x 0); [by apply bool_decide_eq_true_2 | by apply bool_decide_eq_false_2].
  - apply not_elem_of_cons in Hs as [Hc Hs]. cbn. destruct (Z.eqb_spec x c) as [->|Hne].
    + apply elem_of_cons in H0 as [|H0]; [congruence|]. replace (c =? 0) with false by (symmetry; apply Z.eqb_neq; congruence).
      rewrite (IH n) by done. f_equal. apply bool_decide_ext. split; [by intros -> | congruence].
    + f_equal. symmetry. apply bool_decide_eq_false_2. destruct (x =? 0); congruence.
Qed.

Lemma s8_eq x y : is_byte x -> is_byte y -> s8 x = s8 y -> x = y.
Proof.
  unfold is_byte, s8. intros Hx Hy Heq. pose proof (Z.div_mod (x + 2 ^ 7) (2 ^ 8)). pose proof (Z.div_mod (y + 2 ^ 7) (2 ^ 8)).
  lia.
Qed.

(** The comparison is the [strcmp] of lib/string.c on a memory that holds the two strings. *)
Lemma str_eq_strcmp m p q s l b : p <> 0 -> bytes l -> bytes_at m p l -> cstr m q s ->
  str_eq l s = Ok b -> exists r, strcmp (S (length s)) m p q = Ok r /\ (r =? 0) = b.
Proof.
  intros Hp Hl Hm (Hq & Hs & Hmq) E. unfold strcmp, notnull, NULLP in *. apply Z.eqb_neq in Hp, Hq. rewrite Hp, Hq. cbn [negb andb c_assert obind].
  clear Hp Hq. revert p q l b Hl Hm Hmq E. induction s as [|c s IH]; intros p q [|x l] b Hl Hm Hmq E; cbn in E; try done.
  - destruct Hm as [Hx _]. destruct Hmq as [Hy _]. injection E as <-. apply Forall_cons in Hl as [Hxb _].
    cbn [length loop]. unfold strcmp_body, Cstring.load. rewrite Hx, Hy. cbn [obind]. destruct (Z.eqb_spec x 0) as [->|Hne].
    + cbn. eexists; split; reflexivity.
    + assert (s8 x <> s8 0) as He by (intros He; apply Hne, (s8_eq x 0 Hxb); [unfold is_byte; lia | exact He]).
      apply Z.eqb_neq in He as He'. rewrite He'. case_bool; [eexists; split; reflexivity|]. case_bool; [eexists; split; reflexivity|]. zb. lia.
  - destruct Hm as [Hx Hm]. destruct Hmq as [Hy Hmq]. apply Forall_cons in Hl as [Hxb Hl], Hs as [Hc Hs]. unfold is_char in Hc.
    change (length (c :: s)) with (S (length s)). remember (S (length s)) as n eqn:En. cbn [loop]. unfold strcmp_body at 1, Cstring.load. rewrite Hx, Hy. cbn [obind].
    destruct (Z.eqb_spec x c) as [->|Hne].
    + replace (c =? 0) with false by (symmetry; apply Z.eqb_neq; lia). rewrite Z.eqb_refl. by apply (IH Hs _ _ l).
    + injection E as <-. destruct (Z.eqb_spec (s8 x) (s8 c)) as [He|He]; [by apply s8_eq in He; [..|unfold is_byte; lia]|].
      destruct (x =? 0); (case_bool; [eexists; split; reflexivity|]); (case_bool; [eexists; split; reflexivity|]); zb; lia.
Qed.

Lemma find_map {A B} (g : A -> B) (P : B -> bool) (l : list A) :
  List.find P (map g l) = option_map g (List.find (fun x => P (g x)) l).
Proof. induction l as [|x l IH]; [done|]. cbn. by destruct (P (g x)). Qed.

Lemma find_app {A} (P : A -> bool) (l1 l2 : list A) :
  List.find P (l1 ++ l2) = match List.find P l1 with Some x => Some x | None => List.find P l2 end.
Proof. induction l1 as [|x l IH]; [done|]. cbn. by destruct (P x). Qed.

Lemma seqZ_from k n : k < n -> seqZ k (n - k) = k :: seqZ (k + 1) (n - (k + 1)).
Proof. intros Hk. rewrite seqZ_cons by lia. f_equal. f_equal; lia. Qed.

Lemma seqZ_end k n : n <= k -> seqZ k (n - k) = [].
Proof. intros Hk. apply seqZ_nil. lia. Qed.

Lemma name_of_slot buf j : take 16 (slot buf j) = take 16 (de_name buf j).
Proof. unfold slot. rewrite take_take. done. Qed.

Lemma slot_slice buf j : 0 <= j < 21 -> zlen buf = 512 -> slice buf (24 * j) 24 = Ok (slot buf j).
Proof. intros Hj Hl. unfold slice. by zdec. Qed.

(** A loop that walks the integers from [k] to [n] and stops at the first hit. *)
Lemma find_loop {R} (body : Z -> outcome (Z + option R)) (n : Z) (val : Z -> option R) :
  (forall k, 0 <= k < n -> body k = Ok (match val k with Some r => inr (Some r) | None => inl (k + 1) end)) ->
  body n = Ok (inr None) ->
  forall fuel k, 0 <= k <= n -> (Z.to_nat (n - k) < fuel)%nat ->
  loop body fuel k = Ok (fold_right (fun j acc => match val j with Some r => Some r | None => acc end) None (seqZ k (n - k))).
Proof.
  intros Hb Hn. induction fuel as [|fuel IH]; intros k Hk Hf; [lia|]. cbn [loop].
  destruct (Z.eq_dec k n) as [->|Hne].
  - rewrite Hn, seqZ_end by lia. done.
  - rewrite Hb by lia. rewrite seqZ_from by lia. cbn [foldr].
    destruct (val k); [done|]. apply IH; lia.
Qed.

Section lemmas.
Context {D H : Type} `{BlockDeviceLaws D} `{KernelHeapLaws H}.
Abbreviation fs := (fstate D H).
Implicit Types (f : fs) (i : inode) (d : D).

Lemma dir_blocks_ok d i : length (i_sectors i) = 13%nat -> (znth (i_sectors i) 12 = Some 0 \/ has_table i 12) ->
  exists l, dir_blocks d i = Ok l /\ length l = 140%nat /\ forall k, 0 <= k < 140 -> znth l k = Some (file_block d i k).
Proof.
  intros Hl Ht. unfold dir_blocks, direct_blocks.
  destruct (copy_sectors_ok (i_sectors i) (replicate 140 0) 0 11) as (l & El & Hll & Hlk);
    [lia | lia | rewrite length_replicate; lia | lia | lia |].
  rewrite El. cbn [obind]. rewrite length_replicate in Hll.
  assert (forall k, 0 <= k < 12 -> znth l k = Some (file_block d i k)) as Hdir.
  { intros k Hk. rewrite Hlk. zdec. unfold file_block. zdec. apply znth_default. lia. }
  destruct (znth_in (i_sectors i) 12 ltac:(lia)) as [t Et]. rewrite (rd_znth _ _ _ Et). cbn [obind].
  destruct (Z.eqb_spec t 0) as [->|Hne]; cbn [negb].
  - exists l. split; [done|]. split; [done|]. intros k Hk. destruct (Z.lt_ge_cases k 12); [apply Hdir; lia|].
    rewrite Hlk. zdec. unfold file_block, indirect_table. zdec. rewrite Et. cbn [default from_option id Z.eqb].
    unfold znth. zdec. rewrite lookup_nil. rewrite lookup_replicate_2; [done|lia].
  - destruct Ht as [Ht|Ht]; [congruence|]. destruct (Ht ltac:(lia)) as (t' & Et' & _ & Hmax).
    rewrite Et in Et'. injection Et' as <-. rewrite read_table_ok by done. cbn [obind].
    eexists; split; [done|]. split.
    + unfold table_at_12. rewrite length_app, length_take, table_words. lia.
    + intros k Hk. rewrite znth_table by lia. destruct (Z.ltb_spec k 12); [apply Hdir; lia|].
      unfold file_block. zdec. rewrite (indirect_table_of _ _ _ Et Hne). apply znth_default. rewrite table_words. lia.
Qed.

Lemma search_entries buf name : zlen buf = 512 -> Forall name_ends (slots buf) -> 0 ∉ name ->
  loop (search_entry_body buf name 21) 513 0 = Ok (List.find (fun j => named name (slot buf j)) (seqZ 0 21)).
Proof.
  intros Hl Hends Hn.
  rewrite (find_loop _ 21 (fun j => if named name (slot buf j) then Some j else None)).
  - f_equal. change (21 - 0) with 21. induction (seqZ 0 21) as [|j l IH]; [done|]. cbn. by destruct (named name (slot buf j)).
  - intros k Hk. unfold search_entry_body. zdec.
    assert (name_ends (slot buf k)) as He.
    { rewrite Forall_forall in Hends. apply Hends, list_elem_of_In, in_map, list_elem_of_In, elem_of_seqZ. lia. }
    unfold name_ends in He. rewrite name_of_slot in He. rewrite (str_eq_ok 16) by done. cbn [obind].
    unfold named, entry_name. rewrite name_of_slot. by case_bool_decide.
  - done.
  - lia.
  - lia.
Qed.

Lemma dir_slots_in d i k s : 0 <= k < 140 -> file_block d i k <> 0 -> s ∈ slots (sector d (file_block d i k)) -> s ∈ dir_slots d i.
Proof.
  intros Hk Hne Hs. unfold dir_slots, slots_of. apply list_elem_of_In, in_concat. eexists. split; [|by apply list_elem_of_In].
  apply (in_map (fun lba => slots (sector d lba))), list_elem_of_In. unfold dir_lbas. apply list_elem_of_filter. split; [done|].
  apply list_elem_of_In, in_map, list_elem_of_In, elem_of_seqZ. lia.
Qed.

Lemma dir_lbas_in d i k : 0 <= k < 140 -> file_block d i k <> 0 -> file_block d i k ∈ dir_lbas d i 0 140.
Proof.
  intros Hk Hne. unfold dir_lbas. apply list_elem_of_filter. split; [done|].
  apply list_elem_of_In, in_map, list_elem_of_In, elem_of_seqZ. lia.
Qed.

Lemma find_blocks d i name l :
  fold_right (fun j acc => match (if file_block d i j =? 0 then None else List.find (named name) (slots (sector d (file_block d i j))))
                           with Some r => Some r | None => acc end) None l
  = List.find (named name) (slots_of d (filter (fun lba => lba <> 0) (map (file_block d i) l))).
Proof.
  induction l as [|j l IH]; [done|]. cbn [foldr map]. rewrite filter_cons. destruct (Z.eqb_spec (file_block d i j) 0) as [E|E].
  - rewrite decide_False by (intros Hc; by apply Hc). exact IH.
  - rewrite decide_True by done. unfold slots_of. cbn [map concat]. rewrite find_app, IH. done.
Qed.

Lemma search_blocks d i name all_blocks : dir_readable d i -> 0 ∉ name ->
  (forall k, 0 <= k < 140 -> znth all_blocks k = Some (file_block d i k)) ->
  loop (search_block_body d all_blocks name 21 24) 141 0 = Ok (dir_lookup d i name).
Proof.
  intros [Hlen Htab Hlba Hends] Hn Hall.
  rewrite (find_loop _ 140 (fun k => if file_block d i k =? 0 then None
             else List.find (named name) (slots (sector d (file_block d i k))))).
  - f_equal. apply find_blocks.
  - intros k Hk. unfold search_block_body. zdec. rewrite (rd_znth _ _ _ (Hall k Hk)). cbn [obind].
    destruct (Z.eqb_spec (file_block d i k) 0) as [E|E]; [done|].
    rewrite Forall_forall in Hlba. pose proof (proj1 (Forall_forall _ _) Hends) as Hends'. rewrite disk_read_one by (by apply Hlba, dir_lbas_in || by rewrite length_replicate).
    cbn [obind]. pose proof (sector_len d (file_block d i k)) as Hsl. unfold SECTOR_SIZE in Hsl.
    rewrite search_entries; [|lia| |done].
    2: { apply Forall_forall. intros s Hs. apply Hends'. by apply (dir_slots_in d i k). }
    cbn [obind]. unfold slots. rewrite find_map.
    destruct (List.find (fun x => named name (slot (sector d (file_block d i k)) x)) (seqZ 0 21)) as [j|] eqn:Ef; [|done].
    apply List.find_some in Ef as [Hj _]. apply list_elem_of_In, elem_of_seqZ in Hj.
    unfold sizeof_dir_entry. rewrite slot_slice by lia. done.
  - unfold search_block_body. done.
  - lia.
  - lia.
Qed.

(** ** Properties *)

(** [search_dir_entry], with what it leaves of the heap. *)
Lemma search_dir_entry_ok n f pdir name i : get_inode f (dir_inode pdir) = Ok i -> dir_readable (medium f) i ->
  dir_entry_size (sb (cur_part f)) = 24 -> 0 ∉ name -> roomy (2 + n) (kheap f) ->
  exists h, search_dir_entry f pdir name = Ok (with_kheap h f, dir_lookup (medium f) i name)
    /\ same_live (kheap f) h /\ roomy (n - 2) h.
Proof.
  intros Hi Hr Hsz Hn R. unfold search_dir_entry.
  destruct (two_buffers_roomy n (kheap f) 560 512 R ltac:(done) ltac:(done)) as (h1 & b1 & h2 & b2 & E1 & N1 & E2 & N2 & Hlive).
  rewrite E1, N1, Hi. cbn [obind]. pose proof Hr as [Hlen Htab _ _].
  destruct (dir_blocks_ok (medium f) i Hlen Htab) as (l & El & Hl & Hk). rewrite El. cbn [obind].
  rewrite E2, N2. unfold entries_per_sec. rewrite Hsz. cbn [Z.eqb obind andb]. change (512 / 24) with 21.
  rewrite (search_blocks _ i) by done. cbn [obind negb c_assert]. by eexists.
Qed.

(** C18. [search_dir_entry] is the lookup of a name in the directory: the first entry
    of that name in block order is found, and nothing is found when there is
    none. The disk and the open inodes are untouched, both buffers given back. *)
Theorem search_dir_entry_spec f pdir name i : get_inode f (dir_inode pdir) = Ok i -> dir_readable (medium f) i ->
  dir_entry_size (sb (cur_part f)) = 24 -> 0 ∉ name -> roomy 2 (kheap f) ->
  exists h, search_dir_entry f pdir name = Ok (with_kheap h f, dir_lookup (medium f) i name) /\ same_live (kheap f) h.
Proof.
  intros Hi Hr Hsz Hn R. destruct (search_dir_entry_ok 0 f pdir name i Hi Hr Hsz Hn R) as (h & ? & ? & _). by exists h.
Qed.

End lemmas.
