(* ===== verification/Dirwrite.v ===== *)
(** The directory operations of Dir.v that change a directory or read it whole:
    adding an entry, removing one and listing them. *)
From S2P Require Import Prelude Bitmap Ide Blockdev Inode File Filewrite Dir.

(** ** Specification *)

(** The entries in use, in the order of the directory. *)
Definition live (l : list (list Z)) : list (list Z) := filter (fun s => entry_type s <> 0) l.
Definition dir_entries {D} `{BlockDevice D} (d : D) (i : inode) : list (list Z) := live (dir_slots d i).

(** An unused slot is all zeros; a used one has a terminated name that is not empty. *)
Definition slot_ok (s : list Z) : Prop :=
  (entry_type s = 0 /\ s = replicate 24 0)
  \/ (entry_type s <> 0 /\ length s = 24%nat /\ bytes s /\ name_ends s /\ entry_name s <> []).

Definition dir_block (p : partition) (lba : Z) : Prop :=
  0 <= lba - data_start_lba (sb p) < nbits (block_bitmap p) /\ lba < start_lba p + sec_cnt p
  /\ bit (block_bitmap p) (lba - data_start_lba (sb p)) = true.

(** A directory within its direct blocks: distinct allocated blocks, entries of
    distinct names, as many as its size says. *)
Record dir_ok {D} `{BlockDevice D} (p : partition) (d : D) (i : inode) : Prop := {
  dir_inode_wf : wf_inode i;
  dir_no_table : znth (i_sectors i) 12 = Some 0;
  dir_blocks_in k : 0 <= k < 12 -> file_block d i k <> 0 -> dir_block p (file_block d i k);
  dir_blocks_inj k k' : 0 <= k < 12 -> 0 <= k' < 12 -> file_block d i k <> 0 ->
    file_block d i k = file_block d i k' -> k = k';
  dir_slots_ok : Forall slot_ok (dir_slots d i);
  dir_names : NoDup (map entry_name (dir_entries d i));
  dir_size : i_size i = 24 * zlen (dir_entries d i) }.

(** ** Entries in a buffer *)

Lemma rd_sub {A} (l : list A) a n k : 0 <= a -> 0 <= k < n -> rd (take (Z.to_nat n) (drop (Z.to_nat a) l)) k = rd l (a + k).
Proof.
  intros Ha Hk. unfold rd, znth. zdec. rewrite lookup_take_lt, lookup_drop by lia.
  by replace (Z.to_nat (a + k)) with (Z.to_nat a + Z.to_nat k)%nat by lia.
Qed.

Lemma word_of_slot buf j off : 0 <= j -> 0 <= off -> off + 4 <= 24 ->
  rd_le32 (slot buf j) off = rd_le32 buf (24 * j + off).
Proof.
  intros Hj Ho Hl. unfold rd_le32, slot. change 24%nat with (Z.to_nat 24). rewrite !rd_sub by lia.
  by rewrite !Z.add_assoc.
Qed.

Lemma rd_le32_ok l off : 0 <= off -> off + 4 <= zlen l -> rd_le32 l off = Ok (word_at l off).
Proof.
  intros Ho Hl. unfold word_at. enough (exists w, rd_le32 l off = Ok w) as [w ->] by done. unfold rd_le32.
  destruct (znth_in l off) as [a Ea]; [lia|]. destruct (znth_in l (off + 1)) as [b Eb]; [lia|].
  destruct (znth_in l (off + 2)) as [c Ec]; [lia|]. destruct (znth_in l (off + 3)) as [e Ee]; [lia|].
  rewrite (rd_znth _ _ _ Ea), (rd_znth _ _ _ Eb), (rd_znth _ _ _ Ec), (rd_znth _ _ _ Ee). by eexists.
Qed.

Lemma slot_length buf j : 0 <= j < 21 -> 504 <= zlen buf -> length (slot buf j) = 24%nat.
Proof. intros Hj Hl. unfold slot. rewrite length_take, length_drop. lia. Qed.

Lemma de_f_type_ok buf j : 0 <= j < 21 -> 504 <= zlen buf -> de_f_type buf j = Ok (entry_type (slot buf j)).
Proof.
  intros Hj Hl. unfold de_f_type, entry_type, sizeof_dir_entry. rewrite <- word_of_slot by lia.
  apply rd_le32_ok; [lia|]. rewrite slot_length by lia. lia.
Qed.

Lemma de_i_no_ok buf j : 0 <= j < 21 -> 504 <= zlen buf -> de_i_no buf j = Ok (entry_no (slot buf j)).
Proof.
  intros Hj Hl. unfold de_i_no, entry_no, sizeof_dir_entry. rewrite <- word_of_slot by lia.
  apply rd_le32_ok; [lia|]. rewrite slot_length by lia. lia.
Qed.

(** Only the first 504 bytes of a buffer are entries. *)
Lemma slots_take buf n : (504 <= n)%nat -> slots (take n buf) = slots buf.
Proof.
  intros Hn. unfold slots. apply map_ext_in. intros j Hj. apply list_elem_of_In, elem_of_seqZ in Hj.
  unfold slot. rewrite !take_drop_commute, take_take. by rewrite Nat.min_l by lia.
Qed.

Lemma slots_app l r : zlen l = 512 -> slots (l ++ r) = slots l.
Proof. intros Hl. rewrite <- (slots_take (l ++ r) 512) by lia. by rewrite take_app_length' by lia. Qed.

Lemma slots_lookup buf j : 0 <= j < 21 -> slots buf !! Z.to_nat j = Some (slot buf j).
Proof.
  intros Hj. unfold slots. rewrite list_lookup_fmap, lookup_seqZ_lt by lia. cbn. do 2 f_equal. lia.
Qed.

Lemma slots_length buf : length (slots buf) = 21%nat.
Proof. unfold slots. by rewrite length_map, length_seqZ. Qed.

(** An entry written over slot [j]. *)
Lemma slots_splice buf j e buf' : 0 <= j < 21 -> zlen e = 24 -> 504 <= zlen buf ->
  splice buf (24 * j) e = Ok buf' -> slots buf' = <[Z.to_nat j := e]> (slots buf).
Proof.
  intros Hj He Hl Hs. apply list_eq_same_length with 21%nat; [by rewrite length_insert, slots_length | by rewrite slots_length |].
  intros k s1 s2 Hk. replace k with (Z.to_nat (Z.of_nat k)) by lia. rewrite slots_lookup by lia. intros [= <-].
  assert (slot buf' (Z.of_nat k) = if Z.of_nat k =? j then e else slot buf (Z.of_nat k)) as ->.
  { pose proof (splice_length _ _ _ _ Hs) as Hlen. destruct (Z.eqb_spec (Z.of_nat k) j) as [->|Hne].
    - pose proof (slice_splice _ _ _ _ Hs) as Hsl. rewrite He in Hsl. unfold slice in Hsl. case_bool; [|done].
      by injection Hsl.
    - pose proof (slice_splice_ne _ _ _ _ (24 * Z.of_nat k) 24 Hs ltac:(lia)) as Hsl. unfold slice in Hsl.
      revert Hsl. zdec. by intros [= ?]. }
  destruct (Z.eqb_spec (Z.of_nat k) j) as [->|Hne].
  - rewrite list_lookup_insert_eq by (rewrite slots_length; lia). by intros [=].
  - rewrite list_lookup_insert_ne, slots_lookup by lia. by intros [=].
Qed.

(** ** Used entries *)

Lemma live_app l1 l2 : live (l1 ++ l2) = live l1 ++ live l2.
Proof. apply filter_app. Qed.

Lemma live_nil l : Forall (fun s => entry_type s = 0) l -> live l = [].
Proof.
  intros Hl. unfold live. induction Hl as [|s l Hs Hl IH]; [done|]. rewrite filter_cons_False; [done|]. intros Hn. by apply Hn.
Qed.

Lemma live_insert l j s e : l !! j = Some s -> entry_type s = 0 -> entry_type e <> 0 ->
  live (<[j := e]> l) ≡ₚ e :: live l.
Proof.
  intros Hj Hs He. rewrite <- (take_drop_middle l j s Hj) at 2. rewrite insert_take_drop by (by eapply lookup_lt_Some).
  rewrite !live_app. unfold live at 2 4. rewrite filter_cons_True by done. rewrite (filter_cons_False _ s) by (intros Hn; by apply Hn).
  fold live. by rewrite Permutation_middle.
Qed.

Lemma live_concat_upd (g g' : Z -> list (list Z)) l k e : NoDup l -> k ∈ l -> (forall j, j ∈ l -> j <> k -> g' j = g j) ->
  live (g' k) ≡ₚ e :: live (g k) -> live (concat (map g' l)) ≡ₚ e :: live (concat (map g l)).
Proof.
  intros Hnd Hk Hsame Hup. induction l as [|x l IH]; [by apply elem_of_nil in Hk|].
  apply NoDup_cons in Hnd as [Hx Hnd]. cbn [map concat]. rewrite !live_app. apply elem_of_cons in Hk as [<-|Hk].
  - rewrite Hup. cbn [app]. constructor. f_equiv. f_equiv. f_equal. apply map_ext_in. intros j Hj. apply list_elem_of_In in Hj.
    apply Hsame; [by right|]. by intros ->.
  - rewrite Hsame by (try (by left); intros ->; done). rewrite IH; [by rewrite Permutation_middle | done | done |].
    intros j Hj Hne. apply Hsame; [by right|done].
Qed.

Lemma NoDup_map_eq {A B} (g : A -> B) l x y : NoDup (map g l) -> x ∈ l -> y ∈ l -> g x = g y -> x = y.
Proof.
  intros Hnd Hx Hy Heq. apply list_elem_of_lookup in Hx as [m Hm], Hy as [n Hn].
  assert (m = n) as ->; [|congruence]. eapply NoDup_lookup; [exact Hnd | |]; rewrite list_lookup_fmap.
  - by rewrite Hm.
  - rewrite Hn. cbn. by rewrite Heq.
Qed.

Section lemmas.
Context {D H : Type} `{BlockDeviceLaws D} `{KernelHeapLaws H}.
Abbreviation fs := (fstate D H).
Implicit Types (f : fs) (i : inode) (d : D) (p : partition).

Definition block_slots d i (k : Z) : list (list Z) :=
  if file_block d i k =? 0 then [] else slots (sector d (file_block d i k)).

Lemma dir_slots_blocks d i : dir_slots d i = concat (map (block_slots d i) (seqZ 0 140)).
Proof.
  unfold dir_slots, dir_lbas, slots_of. induction (seqZ 0 140) as [|k l IH]; [done|]. cbn [map]. rewrite filter_cons.
  cbn [concat]. unfold block_slots at 1. destruct (Z.eqb_spec (file_block d i k) 0) as [E|E].
  - rewrite decide_False by (intros Hn; by apply Hn). exact IH.
  - rewrite decide_True by done. cbn [map concat]. by rewrite IH.
Qed.

Lemma block_slots_in d i k s : 0 <= k < 140 -> s ∈ block_slots d i k -> s ∈ dir_slots d i.
Proof.
  intros Hk Hs. unfold block_slots in Hs. destruct (Z.eqb_spec (file_block d i k) 0); [by apply elem_of_nil in Hs|].
  by apply (dir_slots_in d i k).
Qed.

Lemma dir_slots_out d i s : s ∈ dir_slots d i -> exists k, 0 <= k < 140 /\ s ∈ block_slots d i k.
Proof.
  rewrite dir_slots_blocks, list_elem_of_In, in_concat. intros (l & Hl & Hs). apply in_map_iff in Hl as (k & <- & Hk).
  apply list_elem_of_In, elem_of_seqZ in Hk. exists k. split; [lia|]. by apply list_elem_of_In.
Qed.

Lemma no_table_block d i k : znth (i_sectors i) 12 = Some 0 -> 12 <= k -> file_block d i k = 0.
Proof.
  intros Ht Hk. unfold file_block, indirect_table. zdec. rewrite Ht. cbn [default from_option id Z.eqb].
  unfold znth. zdec. by rewrite lookup_nil.
Qed.

Lemma file_block_flat d i k : znth (i_sectors i) 12 = Some 0 ->
  file_block d i k = if k <? 12 then default 0 (znth (i_sectors i) k) else 0.
Proof. intros Ht. destruct (Z.ltb_spec k 12); [unfold file_block; by zdec | by apply no_table_block]. Qed.

Lemma dir_slots_count d i : zlen (dir_slots d i) <= 2940.
Proof.
  rewrite dir_slots_blocks. assert (forall l : list Z, zlen (concat (map (block_slots d i) l)) <= 21 * zlen l) as Hc.
  { induction l as [|k l IH]; [done|]. cbn [map concat length]. rewrite length_app. unfold block_slots at 1.
    case_bool; [cbn|rewrite slots_length]; lia. }
  specialize (Hc (seqZ 0 140)). rewrite length_seqZ in Hc. lia.
Qed.

Lemma dir_entries_count d i : zlen (dir_entries d i) <= 2940.
Proof.
  unfold dir_entries, live. pose proof (length_filter (fun s => entry_type s <> 0) (dir_slots d i)).
  pose proof (dir_slots_count d i). lia.
Qed.

Lemma slot_ok_ends s : slot_ok s -> name_ends s.
Proof. intros [[_ ->]|(_ & _ & _ & He & _)]; [|done]. unfold name_ends. cbn. by left. Qed.

Lemma dir_ok_readable p d i : geometry p -> dir_ok p d i -> dir_readable d i.
Proof.
  intros G [[Hlen _] Ht Hin _ Hs _ _]. split; [done | by left | |].
  - apply Forall_forall. intros lba Hl. unfold dir_lbas in Hl. apply list_elem_of_filter in Hl as [Hne Hl].
    apply list_elem_of_In, in_map_iff in Hl as (k & <- & Hk). apply list_elem_of_In, elem_of_seqZ in Hk.
    destruct (Z.lt_ge_cases k 12); [|by rewrite no_table_block in Hne by done].
    destruct (Hin k ltac:(lia) Hne) as (_ & Hlt & _). geo G. lia.
  - eapply Forall_impl; [exact Hs|]. apply slot_ok_ends.
Qed.

(** Lookup is membership among the used entries. *)
Lemma dir_lookup_live p d i name s : dir_ok p d i -> name <> [] ->
  dir_lookup d i name = Some s <-> s ∈ dir_entries d i /\ entry_name s = name.
Proof.
  intros [_ _ _ _ Hs Hnd _] Hne. unfold dir_lookup, dir_entries, live in *. rewrite Forall_forall in Hs.
  assert (forall s, List.find (named name) (dir_slots d i) = Some s -> s ∈ filter (fun s => entry_type s <> 0) (dir_slots d i) /\ entry_name s = name) as Hf.
  { intros s' E. apply List.find_some in E as [Hin Hn]. apply list_elem_of_In in Hin.
    apply bool_decide_eq_true in Hn. split; [|done]. apply list_elem_of_filter. split; [|done].
    destruct (Hs s' Hin) as [[_ ->]|[? _]]; [|done]. exfalso. apply Hne. rewrite <- Hn. reflexivity. }
  split; [apply Hf|]. intros [Hin Hn]. destruct (List.find (named name) (dir_slots d i)) as [s'|] eqn:E.
  - f_equal. destruct (Hf s' eq_refl) as [Hin' Hn']. eapply (NoDup_map_eq entry_name); eauto. congruence.
  - exfalso. apply list_elem_of_filter in Hin as [_ Hin]. apply list_elem_of_In in Hin.
    apply (List.find_none _ _ E) in Hin. apply bool_decide_eq_false in Hin. done.
Qed.

(** ** Adding an entry *)

Lemma free_entry_loop buf : 504 <= zlen buf ->
  loop (free_entry_body buf 21) 513 0 = Ok (List.find (fun j => entry_type (slot buf j) =? 0) (seqZ 0 21)).
Proof.
  intros Hl. rewrite (find_loop _ 21 (fun j => if entry_type (slot buf j) =? 0 then Some j else None)); [| |done|lia|lia].
  - f_equal. change (21 - 0) with 21. induction (seqZ 0 21) as [|j l IH]; [done|]. cbn [foldr List.find].
    by destruct (entry_type (slot buf j) =? 0).
  - intros k Hk. unfold free_entry_body, FT_UNKNOWN. zdec. rewrite de_f_type_ok by lia. cbn [obind].
    case_bool; [done|]. by rewrite u8_small by lia.
Qed.

(** A good entry for a directory without its name. *)
Definition entry_ok (e : list Z) : Prop :=
  zlen e = 24 /\ bytes e /\ entry_type e <> 0 /\ name_ends e /\ entry_name e <> [].

Section insert.
Variables (f : fs) (a : Z) (i : inode) (e : list Z).
Abbreviation p := (cur_part f).
Abbreviation d := (medium f).
Hypothesis Hi : get_inode f a = Ok i.
Hypothesis G : geometry p.
Hypothesis Dok : dir_ok p d i.
Hypothesis Hsz : dir_entry_size (sb p) = 24.
Hypothesis He : entry_ok e.
Hypothesis Hsync : bb_synced d p.

(** All the slots of block [k] are used. *)
Definition block_full (k : Z) : Prop :=
  file_block d i k <> 0 /\ Forall (fun s => entry_type s <> 0) (slots (sector d (file_block d i k))).

Variable all_blocks : list Z.
Hypothesis Hall : length all_blocks = 140%nat.
Hypothesis Hblk : forall k, 0 <= k < 12 -> znth all_blocks k = Some (file_block d i k).

Lemma block_read k io : 0 <= k < 12 -> file_block d i k <> 0 -> 512 <= zlen io ->
  rd all_blocks k = Ok (file_block d i k) /\ (file_block d i k =? 0) = false
  /\ disk_read d (file_block d i k) 1 io 0 = Ok (sector d (file_block d i k) ++ drop 512 io)
  /\ file_block d i k <= max_lba.
Proof.
  intros Hk Hne Hl. destruct (dir_blocks_in _ _ _ Dok k Hk Hne) as (_ & Hlt & _).
  assert (file_block d i k <= max_lba) as Hm by (geo G; lia).
  split; [apply rd_znth, Hblk; lia|]. split; [by apply Z.eqb_neq|]. split; [|done]. by apply disk_read_first.
Qed.

Lemma insert_skip n : forall fuel k io, (forall j, k <= j < k + Z.of_nat n -> block_full j) -> 0 <= k -> k + Z.of_nat n <= 12 ->
  512 <= zlen io -> bytes io ->
  exists io', zlen io' = zlen io /\ bytes io'
    /\ loop (sync_dir_body a e 24 21) (n + fuel) (f, all_blocks, io, k)
       = loop (sync_dir_body a e 24 21) fuel (f, all_blocks, io', k + Z.of_nat n).
Proof.
  induction n as [|n IH]; intros fuel k io Hfull Hk0 Hk Hl Hb.
  - exists io. rewrite Z.add_0_r. done.
  - destruct (Hfull k ltac:(lia)) as [Hne Hused]. destruct (block_read k io ltac:(lia) Hne Hl) as (E1 & E2 & E3 & _).
    pose proof (sector_len d (file_block d i k)) as Hsl. unfold SECTOR_SIZE in Hsl.
    set (io1 := sector d (file_block d i k) ++ drop 512 io) in *.
    assert (zlen io1 = zlen io) as Hl1 by (unfold io1; rewrite length_app, length_drop; lia).
    destruct (IH fuel (k + 1) io1) as (io' & Hl' & Hb' & E); [intros j Hj; apply Hfull; lia | lia | lia | lia | |].
    { apply Forall_app; split; [apply sector_bytes | by apply Forall_drop]. }
    exists io'. split; [lia|]. split; [done|]. change (S n + fuel)%nat with (S (n + fuel)). cbn [loop].
    unfold sync_dir_body at 1. zdec. rewrite E1. cbn [obind]. rewrite E2, E3. cbn [obind].
    rewrite free_entry_loop by lia.
    destruct (List.find (fun j => entry_type (slot io1 j) =? 0) (seqZ 0 21)) as [j|] eqn:Ef.
    { exfalso. apply List.find_some in Ef as [Hj Hz]. apply list_elem_of_In, elem_of_seqZ in Hj. zb.
      rewrite Forall_forall in Hused. apply (Hused (slot io1 j)); [|done].
      rewrite <- (slots_app _ (drop 512 io)) by lia. fold io1. eapply list_elem_of_lookup_2. apply slots_lookup. lia. }
    cbn [obind]. rewrite u8_small by lia. rewrite E. f_equal. f_equal. lia.
Qed.

(** What adding the entry in block [K] leaves. *)
Record grown (d' : D) (b : bitmap) (l : list Z) (K : Z) : Prop := {
  gr_geo : geometry (set_block_bitmap b p);
  gr_nbits : nbits b = nbits (block_bitmap p);
  gr_bits j : bit (block_bitmap p) j = true -> bit b j = true;
  gr_sync : bb_synced d' (set_block_bitmap b p);
  gr_sectors : length l = 13%nat /\ Forall (fun w => is_u32 w) l /\ znth l 12 = Some 0;
  gr_blocks k : k <> K -> file_block d' (set_sectors l i) k = file_block d i k;
  gr_block : dir_block (set_block_bitmap b p) (file_block d' (set_sectors l i) K)
             /\ file_block d' (set_sectors l i) K <> 0
             /\ forall k, 0 <= k < 12 -> k <> K -> file_block d i k <> file_block d' (set_sectors l i) K;
  gr_other q : ~ in_bb p q ->
    ~ (512 * file_block d' (set_sectors l i) K <= q < 512 * file_block d' (set_sectors l i) K + 512) -> dbyte d' q = dbyte d q;
  gr_old : file_block d i K = file_block d' (set_sectors l i) K
           \/ bit (block_bitmap p) (file_block d' (set_sectors l i) K - data_start_lba (sb p)) = false;
  gr_slots : Forall slot_ok (block_slots d' (set_sectors l i) K)
             /\ live (block_slots d' (set_sectors l i) K) ≡ₚ e :: live (block_slots d i K) }.

Lemma entry_slot_ok : slot_ok e.
Proof. destruct He as (? & ? & ? & ? & ?). right. repeat split; try done. lia. Qed.

Lemma block_slots_ne k : file_block d i k <> 0 -> block_slots d i k = slots (sector d (file_block d i k)).
Proof. intros Hne. unfold block_slots. by apply Z.eqb_neq in Hne as ->. Qed.

Lemma geometry_refl : geometry (set_block_bitmap (block_bitmap p) p).
Proof. pose proof G as G'. destruct (cur_part f). exact G'. Qed.

Lemma grown_at d1 b l K t s : 0 <= K < 12 -> geometry (set_block_bitmap b p) -> nbits b = nbits (block_bitmap p) ->
  (forall j, bit (block_bitmap p) j = true -> bit b j = true) -> bb_synced d1 (set_block_bitmap b p) ->
  (forall q, ~ in_bb p q -> dbyte d1 q = dbyte d q) ->
  length l = 13%nat -> Forall (fun w => is_u32 w) l ->
  (forall k, znth l k = if k =? K then Some t else znth (i_sectors i) k) ->
  dir_block (set_block_bitmap b p) t -> (forall k, 0 <= k < 12 -> k <> K -> file_block d i k <> t) ->
  (file_block d i K = t \/ bit (block_bitmap p) (t - data_start_lba (sb p)) = false) ->
  zlen s = 512 -> bytes s -> Forall slot_ok (slots s) -> live (slots s) ≡ₚ e :: live (block_slots d i K) ->
  grown (set_sector d1 t s) b l K.
Proof.
  intros HK G' Hnb Hbits Hbs Hd1 Hll Hlu Hl Ht Hinj Hold Hs Hsb Hso Hlive.
  pose proof (dir_no_table _ _ _ Dok) as Ht12.
  assert (znth l 12 = Some 0) as Hl12 by (rewrite Hl; by zdec).
  assert (file_block (set_sector d1 t s) (set_sectors l i) K = t) as HKt.
  { rewrite file_block_flat by done. cbn [set_sectors i_sectors]. rewrite Hl, Z.eqb_refl. by zdec. }
  destruct Ht as (Htr & Htl & Htb). cbn [set_block_bitmap sb start_lba sec_cnt block_bitmap] in *.
  assert (0 < data_start_lba (sb p)) as Hds by (geo G; lia).
  split; rewrite ?HKt; try done.
  - intros q Hq. cbn [set_block_bitmap sb block_bitmap] in *. rewrite dbyte_set_other; [by apply Hbs|done|done|]. geo G. lia.
  - intros k Hk. rewrite !file_block_flat by done. cbn [set_sectors i_sectors]. rewrite Hl. by zdec.
  - split; [done|]. split; [lia|done].
  - intros q Hq1 Hq2. rewrite dbyte_set_other by done. by apply Hd1.
  - unfold block_slots at 1 2. rewrite HKt. replace (t =? 0) with false by (symmetry; apply Z.eqb_neq; lia).
    rewrite sector_set by (unfold SECTOR_SIZE; done). rewrite Z.eqb_refl. done.
Qed.

(** A free slot of a block of the directory. *)
Lemma insert_slot K io j : 0 <= K < 12 -> file_block d i K <> 0 -> 512 <= zlen io -> bytes io ->
  List.find (fun j => entry_type (slot (sector d (file_block d i K)) j) =? 0) (seqZ 0 21) = Some j ->
  exists d' io', sync_dir_body a e 24 21 (f, all_blocks, io, K)
      = Ok (inr (put_inode a (set_size (u32 (i_size i + 24)) i) (with_medium d' f), true, io'))
    /\ zlen io' = zlen io /\ bytes io' /\ grown d' (block_bitmap p) (i_sectors i) K.
Proof.
  intros HK Hne Hl Hb Hf. destruct (block_read K io HK Hne Hl) as (E1 & E2 & E3 & Hmax).
  set (lba := file_block d i K) in *. set (io1 := sector d lba ++ drop 512 io) in *.
  pose proof (sector_len d lba) as Hsl. unfold SECTOR_SIZE in Hsl.
  assert (zlen io1 = zlen io) as Hl1 by (unfold io1; rewrite length_app, length_drop; lia).
  assert (bytes io1) as Hb1 by (apply Forall_app; split; [apply sector_bytes | by apply Forall_drop]).
  destruct He as (Hel & Heb & _). pose proof Hf as Hf'. apply List.find_some in Hf' as [Hj Hz].
  apply list_elem_of_In, elem_of_seqZ in Hj. apply Z.eqb_eq in Hz.
  assert (slots io1 = slots (sector d lba)) as Hs1 by (by apply slots_app).
  destruct (splice_ok io1 (24 * j) e) as [io2 Es]; [lia|lia|].
  pose proof (splice_length _ _ _ _ Es) as Hl2. pose proof (splice_forall _ _ _ _ _ Es Hb1 Heb) as Hb2.
  exists (set_sector d lba (take 512 io2)), io2. split; [|split; [lia|split; [done|]]].
  - unfold sync_dir_body. zdec. rewrite E1. cbn [obind]. rewrite E2, E3. cbn [obind]. rewrite free_entry_loop by lia.
    replace (List.find (fun j => entry_type (slot io1 j) =? 0) (seqZ 0 21)) with (Some j).
    2: { rewrite <- Hf. unfold slots in Hs1. clear -Hs1. induction (seqZ 0 21) as [|k l IH]; [done|].
         cbn [map] in Hs1. injection Hs1 as E1 E2. cbn. rewrite E1. case_bool; [done|]. by apply IH. }
    cbn [obind]. rewrite slice_all by lia. cbn [obind]. unfold sizeof_dir_entry. rewrite Es. cbn [obind].
    rewrite disk_write_first by lia. cbn [obind]. unfold grow_dir.
    change (get_inode (with_medium ?d' f) a) with (get_inode f a). rewrite Hi. cbn [obind].
    change (cur_part (with_medium ?d' f)) with p. by rewrite Hsz.
  - pose proof (dir_inode_wf _ _ _ Dok) as Hwf.
    assert (slots (take 512 io2) = <[Z.to_nat j := e]> (slots (sector d lba))) as Hsl2.
    { rewrite slots_take by lia. rewrite (slots_splice io1 j e io2) by (done || lia). by rewrite Hs1. }
    apply (grown_at d); try done.
    + apply geometry_refl.
    + by destruct Hwf.
    + by apply sectors_u32.
    + intros k. destruct (Z.eqb_spec k K) as [->|]; [|done]. unfold lba. rewrite file_block_flat by apply Dok.
      zdec. apply znth_default. destruct Hwf. lia.
    + by apply (dir_blocks_in _ _ _ Dok).
    + intros k Hk Hne' Heq. apply Hne'. symmetry. by apply (dir_blocks_inj _ _ _ Dok).
    + by left.
    + rewrite length_take. lia.
    + by apply Forall_take.
    + rewrite Hsl2. apply Forall_insert; [|by apply entry_slot_ok]. apply Forall_forall. intros s Hs.
      pose proof (dir_slots_ok _ _ _ Dok) as Hso. rewrite Forall_forall in Hso. apply Hso, (dir_slots_in d i K); done || lia.
    + rewrite Hsl2, (block_slots_ne K Hne). fold lba. eapply live_insert; [apply slots_lookup; lia | done | by destruct He as (_ & _ & ? & _)].
Qed.

(** A new block, for the first empty place of the list. *)
Lemma insert_new K io : 0 <= K < 12 -> file_block d i K = 0 -> 512 <= zlen io -> bytes io ->
  (0 < length (free_list (block_bitmap p)))%nat ->
  exists d' b l io', sync_dir_body a e 24 21 (f, all_blocks, io, K)
      = Ok (inr (put_inode a (set_size (u32 (i_size i + 24)) (set_sectors l i)) (fs_bb f d' b), true, io'))
    /\ zlen io' = zlen io /\ bytes io' /\ grown d' b l K.
Proof.
  intros HK Hz Hl Hb Hfree. pose proof (dir_inode_wf _ _ _ Dok) as Hwf. pose proof Hwf as [Hlen _].
  destruct (take_block_ok f G Hsync) as (d1 & b & t & E1 & E2 & Ht & Hbt & G1 & N1 & B1 & S1 & O1).
  { destruct (free_exists (block_bitmap p) []) as (k & Hk & Hkb & _); [done|]. by exists k. }
  pose proof Ht as [Htr Htl].
  assert (bitmap_idx_of (with_part (set_block_bitmap b p) f) t = t - data_start_lba (sb p)) as Hidx.
  { unfold bitmap_idx_of. cbn. geo G. rewrite u32_small; lia. }
  assert (is_u32 t) as Htu by (geo G; lia).
  set (l := <[Z.to_nat K := t]> (i_sectors i)).
  destruct (splice_ok io 0 (replicate 512 0)) as [io1 Es1]; [lia | rewrite length_replicate; lia |].
  pose proof (splice_length _ _ _ _ Es1) as Hl1.
  assert (bytes io1) as Hb1 by (eapply splice_forall; eauto; apply Forall_replicate; unfold is_byte; lia).
  destruct He as (Hel & Heb & Het & _). destruct (splice_ok io1 0 e) as [io2 Es2]; [lia | lia |].
  pose proof (splice_length _ _ _ _ Es2) as Hl2. pose proof (splice_forall _ _ _ _ _ Es2 Hb1 Heb) as Hb2.
  exists (set_sector d1 t (take 512 io2)), b, l, io2. split; [|split; [lia|split; [done|]]].
  - unfold sync_dir_body. zdec. rewrite (rd_znth _ _ _ (Hblk K HK)), Hz. cbn [obind Z.eqb]. unfold dir_alloc. rewrite E1. cbn [obind].
    replace (t =? -1) with false by (symmetry; apply Z.eqb_neq; lia). rewrite Hidx. rewrite s32_small by (geo G; lia).
    replace (t - data_start_lba (sb p) =? -1) with false by (symmetry; apply Z.eqb_neq; lia). cbn [negb c_assert obind].
    rewrite E2. cbn [obind]. zdec. rewrite wr_in by lia. cbn [obind].
    rewrite (put_sector_ok a (fs_bb f d1 b) i K t Hi) by lia. cbn [obind]. fold l.
    rewrite Es1. cbn [obind]. rewrite slice_all by lia. cbn [obind]. rewrite Es2. cbn [obind].
    erewrite rd_znth by (rewrite znth_insert by lia; by rewrite Z.eqb_refl). cbn [obind].
    rewrite disk_write_first by (geo G; lia). cbn [obind]. unfold grow_dir.
    change (get_inode (with_medium ?d' ?g) a) with (get_inode g a). rewrite get_put_inode. cbn [obind].
    change (cur_part (with_medium ?d' (put_inode a ?x (fs_bb f ?d1 b)))) with (set_block_bitmap b p). cbn [set_block_bitmap sb]. rewrite Hsz.
    do 4 f_equal. unfold put_inode, with_inodes. cbn. by rewrite insert_insert_eq.
  - assert (block_slots d i K = []) as Hnil by (unfold block_slots; by rewrite Hz).
    assert (slots (take 512 io2) = e :: replicate 20 (replicate 24 0)) as Hsl.
    { rewrite slots_take by lia. rewrite (slots_splice io1 0 e io2) by (done || lia).
      rewrite splice_start in Es1 by (rewrite length_replicate; lia). rewrite length_replicate in Es1.
      assert (io1 = replicate 512 0 ++ drop 512 io) as -> by congruence.
      rewrite slots_app by (by rewrite length_replicate). reflexivity. }
    apply (grown_at d1 b l K t); try done.
    + intros j Hj. rewrite B1. by case_bool.
    + unfold l. by rewrite length_insert.
    + unfold l. apply Forall_insert; [by apply sectors_u32 | done].
    + intros k. unfold l. by rewrite znth_insert by lia.
    + split; [cbn; rewrite N1; lia|]. split; [done|]. cbn. rewrite B1. by rewrite Z.eqb_refl.
    + intros k Hk Hne Heq. assert (file_block d i k <> 0) as Hk0 by (geo G; lia).
      destruct (dir_blocks_in _ _ _ Dok k Hk Hk0) as (_ & _ & Hbk). rewrite Heq in Hbk. congruence.
    + by right.
    + rewrite length_take. lia.
    + by apply Forall_take.
    + rewrite Hsl. constructor; [by apply entry_slot_ok|]. apply Forall_replicate. by left.
    + rewrite Hsl, Hnil. change (e :: replicate 20 (replicate 24 0)) with ([e] ++ replicate 20 (replicate 24 0)).
      rewrite live_app, (live_nil (replicate _ _)) by (by apply Forall_replicate). rewrite app_nil_r.
      unfold live. by rewrite filter_cons_True.
Qed.

(** The directory with the entry in it. *)
Lemma grown_dir d' b l K : 0 <= K < 12 -> grown d' b l K -> dir_lookup d i (entry_name e) = None ->
  let i' := set_size (i_size i + 24) (set_sectors l i) in
  dir_ok (set_block_bitmap b p) d' i' /\ dir_entries d' i' ≡ₚ e :: dir_entries d i.
Proof.
  clear all_blocks Hall Hblk. intros HK [G' N' Hbits _ [Hl [Hlu Hl12]] Hblocks (Hdb & Hdb0 & Hdbn) Hother Hold [Hso Hlive]] Hnone i'.
  assert (forall k, k <> K -> 0 <= k < 140 -> block_slots d' i' k = block_slots d i k) as Hsame.
  { intros k Hk Hk'. unfold block_slots. change (file_block d' i' k) with (file_block d' (set_sectors l i) k). rewrite Hblocks by done.
    destruct (Z.eqb_spec (file_block d i k) 0) as [|Hne]; [done|]. f_equal.
    destruct (Z.lt_ge_cases k 12); [|by rewrite no_table_block in Hne by (apply Dok || lia)].
    destruct (dir_blocks_in _ _ _ Dok k ltac:(lia) Hne) as (Hr & Hlt & _).
    apply sector_ext. intros q Hq. apply Hother; [unfold in_bb; geo G; lia|]. intros Hq'.
    apply (Hdbn k ltac:(lia) Hk). lia. }
  assert (dir_entries d' i' ≡ₚ e :: dir_entries d i) as Hperm.
  { unfold dir_entries. rewrite !dir_slots_blocks. apply (live_concat_upd _ _ _ K); [apply NoDup_seqZ | apply elem_of_seqZ; lia | |done].
    intros j Hj Hne. apply elem_of_seqZ in Hj. apply Hsame; [done|lia]. }
  split; [|done]. pose proof (dir_entries_count d i) as Hcount.
  destruct Dok as [Hwf Ht Hin Hinj Hs Hn Hsize]. split.
  - pose proof (wf_set_sectors i l Hwf Hl Hlu) as [_ Hw2]. split; [done|]. unfold inode_words in *.
    rewrite Forall_app, !Forall_cons in *. cbn. intuition lia.
  - done.
  - intros k Hk Hne. change (file_block d' i' k) with (file_block d' (set_sectors l i) k) in *.
    destruct (Z.eq_dec k K) as [->|Hk']; [done|]. rewrite Hblocks in * by done. destruct (Hin k Hk Hne) as (? & ? & ?).
    split; [cbn; rewrite N'; done|]. split; [done|]. by apply Hbits.
  - intros k k' Hk Hk' Hne. change (file_block d' i') with (file_block d' (set_sectors l i)) in *.
    destruct (Z.eq_dec k K) as [->|HkK], (Z.eq_dec k' K) as [->|HkK']; [done | | |].
    + rewrite (Hblocks k') by done. intros Heq. exfalso. by apply (Hdbn k').
    + rewrite (Hblocks k) by done. intros Heq. exfalso. by apply (Hdbn k).
    + rewrite !Hblocks in * by done. by apply Hinj.
  - apply Forall_forall. intros s Hs'. apply dir_slots_out in Hs' as (k & Hk & Hs').
    destruct (Z.eq_dec k K) as [->|Hne]; [rewrite Forall_forall in Hso; by apply Hso|].
    rewrite Hsame in Hs' by done. rewrite Forall_forall in Hs. apply Hs. by apply (block_slots_in d i k).
  - rewrite Hperm. cbn [map]. apply NoDup_cons. split; [|done]. intros Hin'. apply list_elem_of_In, in_map_iff in Hin' as (s & Hes & Hs').
    apply list_elem_of_In in Hs'. destruct He as (_ & _ & _ & _ & Hne).
    assert (dir_lookup d i (entry_name e) = Some s) as Hc; [|congruence]. by apply (dir_lookup_live p).
  - rewrite Hperm. cbn [length]. unfold i'. cbn [set_size i_size]. lia.
Qed.

End insert.

(** A place for one more entry: an empty direct block or a free slot in one. *)
Definition dir_room d i : Prop := exists k, 0 <= k < 12 /\ ~ (file_block d i k <> 0 /\
  Forall (fun s => entry_type s <> 0) (slots (sector d (file_block d i k)))).

Lemma first_such (P : Z -> Prop) `{forall k, Decision (P k)} n : (exists k, 0 <= k < n /\ ~ P k) ->
  exists k, 0 <= k < n /\ ~ P k /\ forall j, 0 <= j < k -> P j.
Proof.
  intros (k & Hk & Hn). destruct (list_find (fun j => ~ P j) (seqZ 0 n)) as [[m x]|] eqn:E.
  - apply list_find_Some in E as (Hm & Hx & Hlt). apply lookup_seqZ in Hm as [-> Hm]. exists (0 + Z.of_nat m).
    split; [lia|]. split; [done|]. intros j Hj. destruct (decide (P j)) as [|Hc]; [done|]. exfalso.
    apply (Hlt (Z.to_nat j) j); [apply lookup_seqZ; lia | lia | done].
  - apply list_find_None in E. rewrite Forall_forall in E. exfalso. apply (E k); [apply elem_of_seqZ; lia|done].
Qed.

Lemma fs_bb_same f d : fs_bb f d (block_bitmap (cur_part f)) = with_medium d f.
Proof. by destruct f as [? [] ? ? ? ?]. Qed.

(** [sync_dir_entry] run: the first place for the entry takes it. *)
Lemma sync_dir_run f pdir i e io : get_inode f (dir_inode pdir) = Ok i -> geometry (cur_part f) ->
  dir_ok (cur_part f) (medium f) i -> dir_entry_size (sb (cur_part f)) = 24 -> entry_ok e ->
  bb_synced (medium f) (cur_part f) -> dir_room (medium f) i -> (0 < length (free_list (block_bitmap (cur_part f))))%nat ->
  512 <= zlen io -> bytes io ->
  exists d b l io' K, sync_dir_entry f pdir e io
      = Ok (put_inode (dir_inode pdir) (set_size (i_size i + 24) (set_sectors l i)) (fs_bb f d b), true, io')
    /\ 0 <= K < 12 /\ zlen io' = zlen io /\ bytes io' /\ grown f i e d b l K.
Proof.
  intros Hi G Dok Hsz He Hsync Hroom Hfree Hl Hb. unfold sync_dir_entry. rewrite Hi. cbn [obind].
  unfold entries_per_sec. rewrite Hsz. change (24 =? 0) with false. cbn [obind]. change (512 / 24) with 21.
  pose proof (dir_entries_count (medium f) i) as Hcount.
  pose proof (dir_size _ _ _ Dok) as Hsize.
  replace (i_size i mod 24 =? 0) with true.
  2: { symmetry. apply Z.eqb_eq. rewrite Hsize, Z.mul_comm. apply Z.mod_mul. lia. }
  cbn [c_assert obind]. pose proof (dir_inode_wf _ _ _ Dok) as [Hlen _]. unfold direct_blocks.
  destruct (copy_sectors_ok (i_sectors i) (replicate 140 0) 0 11) as (all & Ea & Hla & Hka);
    [lia | lia | rewrite length_replicate; lia | lia | lia |]. rewrite Ea. cbn [obind]. rewrite length_replicate in Hla.
  assert (forall k, 0 <= k < 12 -> znth all k = Some (file_block (medium f) i k)) as Hblk.
  { intros k Hk. rewrite Hka. zdec. rewrite file_block_flat by apply Dok. zdec. apply znth_default. lia. }
  destruct (first_such (fun k => file_block (medium f) i k <> 0 /\
      Forall (fun s => entry_type s <> 0) (slots (sector (medium f) (file_block (medium f) i k)))) 12 Hroom) as (K & HK & Hnf & Hfull).
  destruct (insert_skip f (dir_inode pdir) i e G Dok all Hla Hblk (Z.to_nat K) (141 - Z.to_nat K) 0 io)
    as (io1 & Hl1 & Hb1 & E); [intros j Hj; apply Hfull; lia | lia | lia | lia | done |].
  replace (Z.to_nat K + (141 - Z.to_nat K))%nat with 141%nat in E by lia. rewrite E.
  replace (0 + Z.of_nat (Z.to_nat K)) with K by lia. destruct (141 - Z.to_nat K)%nat as [|fuel] eqn:Ef; [lia|]. cbn [loop].
  assert (u32 (i_size i + 24) = i_size i + 24) as Hu by (apply u32_small; lia).
  destruct (Z.eq_dec (file_block (medium f) i K) 0) as [Hz|Hnz].
  - destruct (insert_new f (dir_inode pdir) i e Hi G Dok Hsz He Hsync all Hla Hblk K io1 HK Hz ltac:(lia) Hb1 Hfree)
      as (d & b & l & io2 & E2 & Hl2 & Hb2 & Gr).
    rewrite E2, Hu. exists d, b, l, io2, K. split; [done|]. split; [done|]. split; [lia|]. done.
  - destruct (List.find (fun j => entry_type (slot (sector (medium f) (file_block (medium f) i K)) j) =? 0) (seqZ 0 21)) as [j|] eqn:Hf.
    2: { exfalso. apply Hnf. split; [done|]. apply Forall_forall. intros s Hs. unfold slots in Hs.
         apply list_elem_of_In, in_map_iff in Hs as (j & <- & Hj). apply (List.find_none _ _ Hf) in Hj. by apply Z.eqb_neq in Hj. }
    destruct (insert_slot f (dir_inode pdir) i e Hi G Dok Hsz He Hsync all Hla Hblk K io1 j HK Hnz ltac:(lia) Hb1 Hf)
      as (d & io2 & E2 & Hl2 & Hb2 & Gr).
    rewrite E2, Hu. exists d, (block_bitmap (cur_part f)), (i_sectors i), io2, K. rewrite fs_bb_same.
    split; [by destruct i|]. split; [done|]. split; [lia|]. done.
Qed.

(** ** Properties *)

(** C16. Adding an entry whose name is new to a directory with room in its direct
    blocks: the directory, seen as a map from names, gains exactly that entry;
    it stays well-formed, its size grows by one entry, and of the rest of the
    disk only the block bitmap changes, never an allocated block outside the
    directory. *)
Theorem sync_dir_entry_spec f pdir i e io : get_inode f (dir_inode pdir) = Ok i -> geometry (cur_part f) ->
  dir_ok (cur_part f) (medium f) i -> dir_entry_size (sb (cur_part f)) = 24 -> entry_ok e ->
  dir_lookup (medium f) i (entry_name e) = None -> bb_synced (medium f) (cur_part f) -> dir_room (medium f) i ->
  (0 < length (free_list (block_bitmap (cur_part f))))%nat -> 512 <= zlen io -> bytes io ->
  exists d b l io', let i' := set_size (i_size i + 24) (set_sectors l i) in let p' := set_block_bitmap b (cur_part f) in
    sync_dir_entry f pdir e io = Ok (put_inode (dir_inode pdir) i' (fs_bb f d b), true, io')
    /\ (forall name, name <> [] ->
         dir_lookup d i' name = if decide (name = entry_name e) then Some e else dir_lookup (medium f) i name)
    /\ dir_entries d i' ≡ₚ e :: dir_entries (medium f) i
    /\ dir_ok p' d i' /\ geometry p' /\ bb_synced d p'
    /\ (forall j, bit (block_bitmap (cur_part f)) j = true -> bit b j = true)
    /\ (forall q, q < 512 * data_start_lba (sb (cur_part f)) -> ~ in_bb (cur_part f) q -> dbyte d q = dbyte (medium f) q)
    /\ (forall lba, dir_block (cur_part f) lba -> (forall k, 0 <= k < 12 -> file_block (medium f) i k <> lba) ->
         sector d lba = sector (medium f) lba)
    /\ zlen io' = zlen io /\ bytes io'.
Proof.
  intros Hi G Dok Hsz He Hnone Hsync Hroom Hfree Hl Hb.
  destruct (sync_dir_run f pdir i e io) as (d & b & l & io' & K & E & HK & Hl' & Hb' & Gr); try done.
  destruct (grown_dir f i e G Dok He d b l K HK Gr Hnone) as [Dok' Hperm].
  pose proof Gr as [G' _ Hbits Hsync' _ _ [(Hr & _ & _) _] Hother Hold _]. cbn [set_block_bitmap sb] in Hr.
  exists d, b, l, io'. cbv zeta. split; [exact E|]. split; [|split; [exact Hperm|split; [exact Dok'|split; [done|split; [done|]]]]].
  - intros name Hne. destruct (decide (name = entry_name e)) as [->|Hn].
    + apply (dir_lookup_live _ _ _ _ _ Dok' Hne). split; [|done]. rewrite Hperm. by left.
    + apply option_eq. intros s. rewrite (dir_lookup_live _ _ _ _ _ Dok' Hne), (dir_lookup_live _ _ _ _ _ Dok Hne), Hperm, elem_of_cons.
      split; [intros [[->|?] ?]; [congruence | done] | intros [? ?]; split; [by right|done]].
  - split; [done|]. split; [|split; [|done]].
    + intros q Hq1 Hq2. apply Hother; [done|]. geo G. lia.
    + intros lba (Hlr & _ & Hlb) Hnk. apply (sector_ext d). intros q Hq. apply Hother; [unfold in_bb; geo G; lia|].
      intros Hq'. assert (lba = file_block d (set_sectors l i) K) as Heq by lia. destruct Hold as [Ho|Ho].
      * apply (Hnk K HK). congruence.
      * rewrite <- Heq in Ho. congruence.
Qed.

End lemmas.
