(* ===== verification/Dirdelete.v ===== *)
(** Removing a directory entry: [delete_dir_entry] of Dir.v. *)
From S2P Require Import Prelude Bitmap Ide Blockdev Inode File Filewrite Dir Dirwrite.

(** ** Specification *)

(** A used entry other than [.] and [..]. *)
Definition ordinary (s : list Z) : Prop := entry_type s <> 0 /\ entry_name s <> DOT /\ entry_name s <> DOTDOT.

#[export] Instance ordinary_dec s : Decision (ordinary s).
Proof. unfold ordinary. apply _. Defined.

(** The entry of inode [no]. *)
Definition entry_of (no : Z) (s : list Z) : Prop := ordinary s /\ entry_no s = no.

Definition is_dot (s : list Z) : Prop := entry_type s <> 0 /\ entry_name s = DOT.

(** [.] is in the block that holds [..], and in the first block of the root. *)
Record dots_ok {D} `{BlockDevice D} (p : partition) (d : D) (i : inode) : Prop := {
  dots_together k s : 0 <= k < 12 -> s ∈ block_slots d i k -> entry_name s = DOTDOT -> Exists is_dot (block_slots d i k);
  dots_root k : 0 <= k < 12 -> file_block d i k = data_start_lba (sb p) -> Exists is_dot (block_slots d i k) }.

(** ** Lemmas *)

Lemma NoDup_filter_pos {A} (P : A -> Prop) `{forall x, Decision (P x)} l m n x : NoDup (filter P l) -> P x ->
  l !! m = Some x -> l !! n = Some x -> m = n.
Proof.
  assert (forall l m n, NoDup (filter P l) -> P x -> l !! m = Some x -> l !! n = Some x -> (m < n)%nat -> False) as Hlt.
  { clear. intros l m n Hnd Hx Hm Hn Hlt. rewrite <- (take_drop_middle l m x Hm), filter_app, filter_cons_True in Hnd by done.
    apply NoDup_app in Hnd as (_ & _ & Hnd). apply NoDup_cons in Hnd as [Hnd _]. apply Hnd, list_elem_of_filter.
    split; [done|]. apply list_elem_of_lookup. exists (n - S m)%nat. rewrite lookup_drop.
    by replace (S m + (n - S m))%nat with n by lia. }
  intros Hnd Hx Hm Hn. destruct (Nat.lt_trichotomy m n) as [|[|]]; [exfalso|done|exfalso]; eauto.
Qed.

Lemma splice_prefix {A} (l r s : list A) off l' : splice l off s = Ok l' -> splice (l ++ r) off s = Ok (l' ++ r).
Proof.
  unfold splice. case_bool; [|done]. zb. intros [= <-]. rewrite length_app. zdec. f_equal.
  rewrite take_app_le, drop_app_le by lia. by rewrite <- !app_assoc.
Qed.

Section lemmas.
Context {D H : Type} `{BlockDeviceLaws D} `{KernelHeapLaws H}.
Abbreviation fs := (fstate D H).
Implicit Types (f : fs) (i : inode) (d : D) (p : partition).

(** What the scan knows after [idx] entries. *)
Definition scan_inv (buf : list Z) (no : Z) (idx n : Z) (first : bool) (found : option Z) : Prop :=
  0 <= idx <= 21 /\ n = zlen (filter ordinary (take (Z.to_nat idx) (slots buf)))
  /\ (first = true <-> Exists is_dot (take (Z.to_nat idx) (slots buf)))
  /\ match found with
     | Some j => 0 <= j < idx /\ entry_of no (slot buf j)
     | None => forall j, 0 <= j < idx -> ~ entry_of no (slot buf j)
     end.

Lemma scan_inv_step buf no idx n first found n' first' found' : scan_inv buf no idx n first found -> idx < 21 ->
  let s := slot buf idx in
  n' = (if decide (ordinary s) then n + 1 else n) -> (first' = true <-> first = true \/ is_dot s) ->
  found' = (if decide (entry_of no s) then Some idx else found) ->
  scan_inv buf no (idx + 1) n' first' found' /\ 0 <= n <= 20.
Proof.
  intros (Hi & -> & Hfst & Hfnd) Hlt s -> Hfst' ->.
  assert (take (Z.to_nat (idx + 1)) (slots buf) = take (Z.to_nat idx) (slots buf) ++ [s]) as HT.
  { replace (Z.to_nat (idx + 1)) with (S (Z.to_nat idx)) by lia. apply take_S_r. apply slots_lookup. lia. }
  pose proof (length_filter ordinary (take (Z.to_nat idx) (slots buf))) as Hf. rewrite length_take, slots_length in Hf.
  unfold scan_inv. rewrite HT. split; [|lia]. split; [lia|]. split; [|split].
  - rewrite filter_app, length_app. destruct (decide (ordinary s)).
    + rewrite filter_cons_True by done. cbn [length filter]. change (filter ordinary []) with (@nil (list Z)). cbn [length]. lia.
    + rewrite filter_cons_False by done. change (filter ordinary []) with (@nil (list Z)). cbn [length]. lia.
  - rewrite Hfst', Hfst, Exists_app, Exists_cons, Exists_nil. tauto.
  - destruct (decide (entry_of no s)) as [Ht|Ht]; [split; [lia|done]|]. destruct found as [j|].
    + destruct Hfnd. split; [lia|done].
    + intros j Hj. destruct (Z.eq_dec j idx) as [->|]; [done|]. apply Hfnd. lia.
Qed.

(** The scan of a sector whose names end, with the entry of [no] at most once. *)
Lemma delete_scan buf no : 512 <= zlen buf -> Forall name_ends (slots buf) ->
  (forall j j', 0 <= j < 21 -> 0 <= j' < 21 -> entry_of no (slot buf j) -> entry_of no (slot buf j') -> j = j') ->
  exists n first found, loop (delete_scan_body buf no 21) 513 (0, 0, false, None) = Ok (n, first, found)
    /\ scan_inv buf no 21 n first found.
Proof.
  intros Hl Hends Huniq.
  loop_inv (fun s : Z * Z * bool * option Z => let '(idx, n, first, found) := s in scan_inv buf no idx n first found)
           (fun s : Z * Z * bool * option Z => Z.to_nat (21 - fst (fst (fst s)))).
  - intros [[[idx n] first] found] I. pose proof I as (Hi & _ & _ & Hf). unfold delete_scan_body.
    destruct (Z.ltb_spec idx 21) as [Hlt|Hge]; [|replace idx with 21 in * by lia; by eexists _, _, _].
    set (s := slot buf idx).
    assert (name_ends s) as He.
    { rewrite Forall_forall in Hends. apply Hends. eapply list_elem_of_lookup_2. apply slots_lookup. lia. }
    assert (forall c, 0 ∉ c -> str_eq (de_name buf idx) c = Ok (bool_decide (entry_name s = c))) as Hstr.
    { intros c Hc. unfold name_ends, s in He. rewrite name_of_slot in He. rewrite (str_eq_ok 16) by done.
      unfold entry_name, s. by rewrite name_of_slot. }
    pose proof (scan_inv_step buf no idx n first found) as Step. specialize (fun n' b' r => Step n' b' r I Hlt). cbv zeta in Step. fold s in Step.
    rewrite de_f_type_ok by lia. fold s. cbn [obind fst]. unfold FT_UNKNOWN. rewrite !(u8_small (idx + 1)) by lia.
    rewrite (Hstr DOT) by (by intros Hin; apply list_elem_of_singleton in Hin).
    rewrite (Hstr DOTDOT) by (intros Hin; apply elem_of_cons in Hin as [|Hin]; [done | by apply list_elem_of_singleton in Hin]).
    cbn [obind].
    destruct (Z.eqb_spec (entry_type s) 0) as [Hz|Hz].
    { split; [|cbn; lia]. apply Step.
      - by rewrite decide_False by (intros [? _]; done).
      - split; [by left | intros [|[? _]]; done].
      - by rewrite decide_False by (intros [[? _] _]; done). }
    rewrite bool_decide_decide. destruct (decide (entry_name s = DOT)) as [Hd|Hd].
    { split; [|cbn; lia]. apply Step.
      - by rewrite decide_False by (intros (_ & ? & _); done).
      - split; [by right | done].
      - by rewrite decide_False by (intros [(_ & ? & _) _]; done). }
    assert (first = true <-> first = true \/ is_dot s) as Hfst by (split; [by left | intros [|[_ ?]]; done]).
    rewrite bool_decide_decide. destruct (decide (entry_name s = DOTDOT)) as [Hdd|Hdd].
    { split; [|cbn; lia]. apply Step; [|done|].
      - by rewrite decide_False by (intros (_ & _ & ?); done).
      - by rewrite decide_False by (intros [(_ & _ & ?) _]; done). }
    assert (ordinary s) as Ho by done. rewrite de_i_no_ok by lia. fold s. cbn [obind].
    assert (0 <= n <= 20) as Hn by (eapply (Step _ first); [reflexivity | done | reflexivity]).
    rewrite (u8_small (n + 1)) by lia. destruct (Z.eqb_spec (entry_no s) no) as [Hno|Hno].
    + assert (entry_of no s) as Ht by done. destruct found as [j|].
      * destruct Hf as [Hj Hjt]. assert (j = idx); [|lia]. by apply Huniq; [lia..| |].
      * cbn [c_assert obind]. split; [|cbn; lia]. apply Step; [by rewrite decide_True|done|by rewrite decide_True].
    + split; [|cbn; lia]. apply Step; [by rewrite decide_True|done|]. by rewrite decide_False by (intros [_ ?]; done).
  - split; [lia|]. split; [done|]. split; [split; [done | by intros ?%Exists_nil] | intros; lia].
  - cbn [fst]. lia.
Qed.

(** ** One entry among the blocks *)

Lemma live_block_NoDup (g : Z -> list (list Z)) l k : NoDup (live (concat (map g l))) -> k ∈ l -> NoDup (live (g k)).
Proof.
  intros Hnd Hk. apply list_elem_of_split in Hk as (l1 & l2 & ->). rewrite map_app, concat_app, live_app in Hnd.
  apply NoDup_app in Hnd as (_ & _ & Hnd). cbn [map concat] in Hnd. rewrite live_app in Hnd. by apply NoDup_app in Hnd as (? & _ & _).
Qed.

Lemma live_block_one (g : Z -> list (list Z)) l k k' s : NoDup (live (concat (map g l))) -> k ∈ l -> k' ∈ l ->
  s ∈ live (g k) -> s ∈ live (g k') -> k = k'.
Proof.
  intros Hnd Hk Hk' Hs Hs'. induction l as [|x l IH]; [by apply elem_of_nil in Hk|].
  cbn [map concat] in Hnd. rewrite live_app in Hnd. apply NoDup_app in Hnd as (_ & Hd & Hnd).
  assert (forall j, j ∈ l -> s ∈ live (g j) -> s ∈ live (concat (map g l))) as Hin.
  { intros j Hj Hsj. apply list_elem_of_split in Hj as (l1 & l2 & ->). rewrite map_app, concat_app, live_app, elem_of_app. right.
    cbn [map concat]. rewrite live_app, elem_of_app. by left. }
  apply elem_of_cons in Hk as [->|Hk], Hk' as [->|Hk']; [done | | | by apply IH].
  - exfalso. apply (Hd s Hs). by apply (Hin k').
  - exfalso. apply (Hd s Hs'). by apply (Hin k).
Qed.

Section delete.
Variables (f : fs) (a : Z) (i : inode) (no : Z) (s0 : list Z).
Abbreviation p := (cur_part f).
Abbreviation d := (medium f).
Hypothesis Hi : get_inode f a = Ok i.
Hypothesis G : geometry p.
Hypothesis Dok : dir_ok p d i.
Hypothesis Hsz : dir_entry_size (sb p) = 24.
Hypothesis Hsync : bb_synced d p.
Hypothesis Hdots : dots_ok p d i.
Hypothesis Hs0 : s0 ∈ dir_entries d i.
Hypothesis Hof : entry_of no s0.
Hypothesis Huniq : forall s, s ∈ dir_entries d i -> entry_of no s -> s = s0.

Lemma entries_NoDup : NoDup (live (concat (map (block_slots d i) (seqZ 0 140)))).
Proof.
  pose proof (dir_names _ _ _ Dok) as Hn. unfold dir_entries in Hn. rewrite dir_slots_blocks in Hn.
  by apply NoDup_fmap_1 in Hn.
Qed.

(** The block and the slot of the entry. *)
Lemma entry_place : exists K j, 0 <= K < 12 /\ file_block d i K <> 0 /\ 0 <= j < 21 /\ slot (sector d (file_block d i K)) j = s0.
Proof.
  pose proof Hs0 as Hin. unfold dir_entries, live in Hin. apply list_elem_of_filter in Hin as [_ Hin].
  apply dir_slots_out in Hin as (K & HK & Hin). unfold block_slots in Hin.
  destruct (Z.eqb_spec (file_block d i K) 0) as [|Hne]; [by apply elem_of_nil in Hin|].
  unfold slots in Hin. apply list_elem_of_In, in_map_iff in Hin as (j & Hj & Hjr). apply list_elem_of_In, elem_of_seqZ in Hjr.
  exists K, j. split; [|split; [done|split; [lia|done]]].
  destruct (Z.lt_ge_cases K 12); [lia|]. by rewrite no_table_block in Hne by (apply Dok || lia).
Qed.

Lemma entry_live k j : 0 <= k < 12 -> file_block d i k <> 0 -> 0 <= j < 21 ->
  entry_of no (slot (sector d (file_block d i k)) j) -> slot (sector d (file_block d i k)) j = s0 /\ s0 ∈ live (block_slots d i k).
Proof.
  intros Hk Hne Hj He. set (s := slot (sector d (file_block d i k)) j) in *.
  assert (s ∈ block_slots d i k) as Hin.
  { rewrite block_slots_ne by done. eapply list_elem_of_lookup_2. by apply slots_lookup. }
  assert (s ∈ live (block_slots d i k)) as Hlive by (apply list_elem_of_filter; split; [apply He|done]).
  assert (s = s0) as <-; [|done]. apply Huniq; [|done]. apply list_elem_of_filter. split; [apply He|].
  apply (block_slots_in d i k); [lia|done].
Qed.

Lemma one_in_block k j j' : 0 <= k < 12 -> file_block d i k <> 0 -> 0 <= j < 21 -> 0 <= j' < 21 ->
  entry_of no (slot (sector d (file_block d i k)) j) -> entry_of no (slot (sector d (file_block d i k)) j') -> j = j'.
Proof.
  intros Hk Hne Hj Hj' E E'. destruct (entry_live k j Hk Hne Hj E) as [E1 _]. destruct (entry_live k j' Hk Hne Hj' E') as [E1' _].
  pose proof (live_block_NoDup (block_slots d i) (seqZ 0 140) k entries_NoDup ltac:(apply elem_of_seqZ; lia)) as Hnd.
  rewrite block_slots_ne in Hnd by done.
  assert (Z.to_nat j = Z.to_nat j') as Heq; [|lia]. apply (NoDup_filter_pos _ _ _ _ s0 Hnd).
  - apply Hof.
  - by rewrite slots_lookup, E1.
  - by rewrite slots_lookup, E1'.
Qed.

Lemma one_block k K j j' : 0 <= k < 12 -> file_block d i k <> 0 -> 0 <= j < 21 -> 0 <= K < 12 -> file_block d i K <> 0 ->
  0 <= j' < 21 -> entry_of no (slot (sector d (file_block d i k)) j) -> slot (sector d (file_block d i K)) j' = s0 -> k = K.
Proof.
  intros Hk Hne Hj HK HneK Hj' E E'. destruct (entry_live k j Hk Hne Hj E) as [_ Hl1].
  destruct (entry_live K j' HK HneK Hj') as [_ Hl2]; [by rewrite E'|].
  by apply (live_block_one (block_slots d i) (seqZ 0 140) k K s0 entries_NoDup); [apply elem_of_seqZ; lia..| |].
Qed.

(** Block [K] is given back and left out of the inode when the entry is alone in it;
    otherwise no block is. *)
Definition freed_if_empty (b : bitmap) (l : list Z) (K : Z) : Prop :=
  if decide (live (block_slots d i K) = [s0])
  then l = <[Z.to_nat K := 0]> (i_sectors i) /\ bit b (file_block d i K - data_start_lba (sb p)) = false
  else l = i_sectors i /\ forall j, bit b j = bit (block_bitmap p) j.

(** What removing the entry of block [K] leaves. *)
Record shrunk (d' : D) (b : bitmap) (l : list Z) (K : Z) : Prop := {
  sh_geo : geometry (set_block_bitmap b p);
  sh_nbits : nbits b = nbits (block_bitmap p);
  sh_bits j : (bit b j = true -> bit (block_bitmap p) j = true)
              /\ (j <> file_block d i K - data_start_lba (sb p) -> bit b j = bit (block_bitmap p) j);
  sh_sync : bb_synced d' (set_block_bitmap b p);
  sh_sectors : length l = 13%nat /\ Forall (fun w => is_u32 w) l /\ znth l 12 = Some 0;
  sh_blocks k : k <> K -> file_block d' (set_sectors l i) k = file_block d i k;
  sh_block : file_block d' (set_sectors l i) K = 0
             \/ (file_block d' (set_sectors l i) K = file_block d i K
                 /\ bit b (file_block d i K - data_start_lba (sb p)) = true);
  sh_other q : ~ in_bb p q -> ~ (512 * file_block d i K <= q < 512 * file_block d i K + 512) -> dbyte d' q = dbyte d q;
  sh_slots : Forall slot_ok (block_slots d' (set_sectors l i) K)
             /\ live (block_slots d i K) ≡ₚ s0 :: live (block_slots d' (set_sectors l i) K);
  sh_freed : freed_if_empty b l K }.

Section place.
Variables (K j : Z).
Hypothesis HK : 0 <= K < 12.
Hypothesis Hne : file_block d i K <> 0.
Hypothesis Hj : 0 <= j < 21.
Hypothesis Hs : slot (sector d (file_block d i K)) j = s0.
Abbreviation lba := (file_block d i K).

Lemma lba_in : dir_block p lba /\ lba <= max_lba /\ 0 < data_start_lba (sb p).
Proof.
  pose proof (dir_blocks_in _ _ _ Dok K HK Hne) as Hd. split; [done|]. destruct Hd as (_ & Hlt & _). geo G. lia.
Qed.

(** The slot is cleared. *)
Lemma shrunk_slot io' : live (slots (sector d lba)) <> [s0] -> splice (sector d lba) (24 * j) (replicate 24 0) = Ok io' ->
  shrunk (set_sector d lba io') (block_bitmap p) (i_sectors i) K.
Proof.
  intros Hmore Es. destruct lba_in as (Hdb & Hmax & Hds). pose proof Hdb as (Hr & Hlt & Hbit).
  pose proof (dir_inode_wf _ _ _ Dok) as [Hlen _]. pose proof (dir_no_table _ _ _ Dok) as H12.
  pose proof (sector_len d lba) as Hsl. unfold SECTOR_SIZE in Hsl. pose proof (splice_length _ _ _ _ Es) as Hl'.
  assert (bytes io') as Hb'.
  { eapply splice_forall; [exact Es | apply sector_bytes | apply Forall_replicate; unfold is_byte; lia]. }
  assert (set_sectors (i_sectors i) i = i) as Ei by (by destruct i).
  assert (forall k, file_block (set_sector d lba io') i k = file_block d i k) as Hfb by (intros k; by rewrite !file_block_flat).
  split; rewrite ?Ei; try done.
  - pose proof G as G'. destruct (cur_part f). exact G'.
  - intros q Hq. cbn [set_block_bitmap sb block_bitmap] in *. rewrite dbyte_set_other; [by apply Hsync | lia | done |]. geo G. lia.
  - split; [done|]. split; [by apply sectors_u32, Dok | done].
  - right. by rewrite Hfb.
  - intros q _ Hq. apply dbyte_set_other; [lia|done|done].
  - unfold block_slots. rewrite Hfb. apply Z.eqb_neq in Hne as ->. rewrite sector_set by (unfold SECTOR_SIZE; done || lia). rewrite Z.eqb_refl.
    rewrite (slots_splice (sector d lba) j (replicate 24 0) io') by (done || lia). split.
    + apply Forall_insert; [|by left]. apply Forall_forall. intros s Hs'. pose proof (dir_slots_ok _ _ _ Dok) as Hso.
      rewrite Forall_forall in Hso. apply Hso, (dir_slots_in d i K); try done; lia.
    + rewrite <- (live_insert _ (Z.to_nat j) (replicate 24 0) s0); [| |done|apply Hof].
      * rewrite list_insert_insert_eq, list_insert_id; [done|]. by rewrite slots_lookup, Hs.
      * rewrite list_lookup_insert_eq; [done|]. rewrite slots_length. lia.
  - unfold freed_if_empty. rewrite block_slots_ne by done. by rewrite decide_False.
Qed.

(** A block with this one entry has nothing else in it. *)
Lemma only_entry : zlen (filter ordinary (slots (sector d lba))) = 1 -> ~ Exists is_dot (slots (sector d lba)) ->
  live (slots (sector d lba)) = [s0].
Proof.
  intros Hn Hnd. assert (live (slots (sector d lba)) = filter ordinary (slots (sector d lba))) as E.
  { apply filter_ext_in. intros s Hin. split; [|by intros [? _]]. intros Ht. split; [done|].
    assert (entry_name s <> DOT) as Hd by (intros Hd; apply Hnd, Exists_exists; by exists s). split; [done|]. intros Hdd.
    pose proof (dots_together _ _ _ Hdots K s HK) as Hdt. rewrite block_slots_ne in Hdt by done. by apply Hnd, Hdt. }
  destruct (entry_live K j HK Hne Hj) as [_ Hl]; [by rewrite Hs|]. rewrite block_slots_ne in Hl by done. rewrite E in *.
  destruct (filter ordinary (slots (sector d lba))) as [|s [|? ?]]; cbn in Hn; try lia. apply list_elem_of_singleton in Hl. by rewrite Hl.
Qed.

(** And one with something else in it is seen to have it. *)
Lemma alone_entry : live (slots (sector d lba)) = [s0] ->
  zlen (filter ordinary (slots (sector d lba))) = 1 /\ ~ Exists is_dot (slots (sector d lba)).
Proof.
  intros E. split.
  - rewrite (filter_ext_in ordinary (fun s => ordinary s /\ entry_type s <> 0)) by (intros s _; unfold ordinary; tauto).
    rewrite <- list_filter_filter. unfold live in E. rewrite E, filter_cons_True by apply Hof. done.
  - intros (s & Hin & Ht & Hd)%Exists_exists. assert (s ∈ live (slots (sector d lba))) as Hl by (apply list_elem_of_filter; by split).
    rewrite E in Hl. apply list_elem_of_singleton in Hl as ->. by destruct Hof as [(_ & ? & _) _].
Qed.

(** The block is freed. *)
Lemma shrunk_block d1 b : live (slots (sector d lba)) = [s0] -> geometry (set_block_bitmap b p) ->
  nbits b = nbits (block_bitmap p) ->
  (forall j, bit b j = if j =? lba - data_start_lba (sb p) then false else bit (block_bitmap p) j) ->
  bb_synced d1 (set_block_bitmap b p) -> (forall q, ~ in_bb p q -> dbyte d1 q = dbyte d q) ->
  shrunk d1 b (<[Z.to_nat K := 0]> (i_sectors i)) K.
Proof.
  intros Hlive G' N' B' S' O'. set (l := <[Z.to_nat K := 0]> (i_sectors i)).
  pose proof (dir_inode_wf _ _ _ Dok) as [Hlen _]. pose proof (dir_no_table _ _ _ Dok) as H12.
  assert (forall k, znth l k = if k =? K then Some 0 else znth (i_sectors i) k) as Hl by (intros k; unfold l; by rewrite znth_insert by lia).
  assert (znth l 12 = Some 0) as Hl12 by (rewrite Hl; by zdec).
  assert (file_block d1 (set_sectors l i) K = 0) as HK0.
  { rewrite file_block_flat by done. cbn [set_sectors i_sectors]. rewrite Hl, Z.eqb_refl. by zdec. }
  split; try done.
  - intros k. rewrite B'. destruct (Z.eqb_spec k (lba - data_start_lba (sb p))); split; done.
  - split; [unfold l; by rewrite length_insert|]. split; [|done]. unfold l. apply Forall_insert; [by apply sectors_u32, Dok | lia].
  - intros k Hk. rewrite !file_block_flat by done. cbn [set_sectors i_sectors]. rewrite Hl. by zdec.
  - by left.
  - intros q Hq _. by apply O'.
  - unfold block_slots at 1 3. rewrite HK0. cbn [Z.eqb]. split; [constructor|]. rewrite block_slots_ne by done. by rewrite Hlive.
  - unfold freed_if_empty. rewrite block_slots_ne, decide_True by done. split; [done|]. by rewrite B', Z.eqb_refl.
Qed.

(** The two ways the entry goes, before the inode is touched. *)
Lemma shrink_run all_blocks n first io : length all_blocks = 140%nat -> znth all_blocks K = Some lba ->
  n = zlen (filter ordinary (slots (sector d lba))) -> (first = true <-> Exists is_dot (slots (sector d lba))) ->
  1024 <= zlen io -> bytes io ->
  let io1 := sector d lba ++ drop 512 io in
  exists f2 io2 d' b l,
    (if (n =? 1) && negb first then
       let! f := delete_block f a all_blocks K in Ok (f, io1)
     else
       let! io_buf := splice io1 (sizeof_dir_entry * j) (replicate (Z.to_nat 24) 0) in
       let! lba := rd all_blocks K in
       let! d := disk_write (medium f) lba 1 io_buf 0 in
       Ok (with_medium d f, io_buf)) = Ok (f2, io2)
    /\ zlen io2 = zlen io /\ bytes io2 /\ get_inode f2 a = Ok (set_sectors l i)
    /\ (forall x, put_inode a x f2 = put_inode a x (fs_bb f d' b)) /\ cur_part f2 = set_block_bitmap b p
    /\ shrunk d' b l K.
Proof.
  intros Hall Hz -> Hfst Hl Hb io1. destruct lba_in as (Hdb & Hmax & Hds). pose proof Hdb as (Hr & Hlt & Hbit).
  pose proof (sector_len d lba) as Hsl. unfold SECTOR_SIZE in Hsl. pose proof (dir_inode_wf _ _ _ Dok) as [Hlen _].
  assert (zlen io1 = zlen io) as Hl1 by (unfold io1; rewrite length_app, length_drop; lia).
  assert (bytes io1) as Hb1 by (apply Forall_app; split; [apply sector_bytes | by apply Forall_drop]).
  destruct ((zlen (filter ordinary (slots (sector d lba))) =? 1) && negb first) eqn:Ec.
  - apply andb_true_iff in Ec as [En Ef]. apply Z.eqb_eq in En. apply negb_true_iff in Ef.
    assert (~ Exists is_dot (slots (sector d lba))) as Hnd by (intros Hx; apply Hfst in Hx; congruence).
    assert (lba <> data_start_lba (sb p)) as Hnr.
    { intros Heq. apply Hnd. pose proof (dots_root _ _ _ Hdots K HK Heq) as Hd. by rewrite block_slots_ne in Hd by done. }
    assert (bitmap_idx_of f lba = lba - data_start_lba (sb p)) as Hidx by (unfold bitmap_idx_of; geo G; rewrite u32_small; lia).
    destruct (set_block_sync f (lba - data_start_lba (sb p)) false G Hsync) as (d1 & b & E1 & E2 & G1 & N1 & B1 & S1 & O1); [lia..|].
    eexists _, io1, d1, b, (<[Z.to_nat K := 0]> (i_sectors i)). split.
    { unfold delete_block. rewrite (rd_znth _ _ _ Hz). cbn [obind]. unfold free_dir_block. rewrite Hidx. change 0 with (Z.b2z false) at 1.
      rewrite E1. cbn [obind]. rewrite E2. cbn [obind]. zdec.
      rewrite (put_sector_ok a (fs_bb f d1 b) i K 0 Hi) by lia. reflexivity. }
    split; [done|]. split; [done|]. split; [by apply get_put_inode|]. split; [|split; [done|]].
    + intros x. unfold put_inode, with_inodes. cbn. by rewrite insert_insert_eq.
    + apply shrunk_block; try done. by apply only_entry.
  - destruct (splice_ok (sector d lba) (24 * j) (replicate 24 0)) as [s' Es]; [lia | rewrite length_replicate; lia|].
    pose proof (splice_length _ _ _ _ Es) as Hl'.
    assert (splice io1 (24 * j) (replicate 24 0) = Ok (s' ++ drop 512 io)) as Es1 by (apply splice_prefix; done).
    eexists _, (s' ++ drop 512 io), (set_sector d lba s'), (block_bitmap p), (i_sectors i).
    assert (bytes s') as Hbs.
    { eapply splice_forall; [exact Es | apply sector_bytes | apply Forall_replicate; unfold is_byte; lia]. }
    split.
    { unfold sizeof_dir_entry. change (Z.to_nat 24) with 24%nat. rewrite Es1. cbn [obind]. rewrite (rd_znth _ _ _ Hz). cbn [obind].
      rewrite disk_write_first by (done || rewrite length_app, length_drop; lia). cbn [obind].
      rewrite take_app_length' by lia. reflexivity. }
    split; [rewrite length_app, length_drop; lia|]. split; [apply Forall_app; split; [done | by apply Forall_drop]|].
    rewrite <- fs_bb_same. split; [change (get_inode (fs_bb ?g ?x ?y) a) with (get_inode g a); rewrite Hi; by destruct i|].
    split; [done|]. split; [done|]. apply shrunk_slot; [|done].
    intros [En Hnd]%alone_entry. rewrite En in Ec. cbn in Ec. apply negb_false_iff, Hfst in Ec. done.
Qed.

End place.

Lemma shrunk_dir d' b l K : 0 <= K < 12 -> shrunk d' b l K ->
  let i' := set_size (i_size i - 24) (set_sectors l i) in
  dir_ok (set_block_bitmap b p) d' i' /\ dir_entries d i ≡ₚ s0 :: dir_entries d' i'.
Proof.
  intros HK [G' N' Hbits _ [Hl [Hlu Hl12]] Hblocks Hblock Hother [Hso Hlive] _] i'.
  assert (forall k, k <> K -> 0 <= k < 140 -> block_slots d' i' k = block_slots d i k) as Hsame.
  { intros k Hk Hk'. unfold block_slots. change (file_block d' i' k) with (file_block d' (set_sectors l i) k). rewrite Hblocks by done.
    destruct (Z.eqb_spec (file_block d i k) 0) as [|Hne]; [done|]. f_equal.
    destruct (Z.lt_ge_cases k 12); [|by rewrite no_table_block in Hne by (apply Dok || lia)].
    destruct (dir_blocks_in _ _ _ Dok k ltac:(lia) Hne) as (Hr & Hlt & _).
    apply sector_ext. intros q Hq. apply Hother; [unfold in_bb; geo G; lia|]. intros Hq'.
    apply Hk. apply (dir_blocks_inj _ _ _ Dok); [lia | lia | done | lia]. }
  assert (dir_entries d i ≡ₚ s0 :: dir_entries d' i') as Hperm.
  { unfold dir_entries. rewrite !dir_slots_blocks. apply (live_concat_upd _ _ _ K); [apply NoDup_seqZ | apply elem_of_seqZ; lia | |done].
    intros j Hj Hne. apply elem_of_seqZ in Hj. symmetry. apply Hsame; [done|lia]. }
  split; [|done]. destruct Dok as [Hwf Ht Hin Hinj Hs Hn Hsize].
  assert (1 <= zlen (dir_entries d i)) as Hcount by (rewrite Hperm; cbn [length]; lia). split.
  - pose proof (wf_set_sectors i l Hwf Hl Hlu) as [_ Hw2]. split; [done|]. unfold inode_words in *.
    rewrite Forall_app, !Forall_cons in *. cbn in *. intuition lia.
  - done.
  - intros k Hk Hne. change (file_block d' i' k) with (file_block d' (set_sectors l i) k) in *.
    destruct (Z.eq_dec k K) as [->|Hk'].
    + destruct Hblock as [|[HbK Hbit]]; [done|]. rewrite HbK in *. destruct (Hin K HK Hne) as (? & ? & ?).
      split; [cbn; rewrite N'; done|]. split; done.
    + rewrite Hblocks in * by done. destruct (Hin k Hk Hne) as (? & ? & ?).
      split; [cbn; rewrite N'; done|]. split; [done|]. cbn. rewrite (proj2 (Hbits _)); [done|]. intros Heq. apply Hk'.
      apply Hinj; [done | done | done | lia].
  - intros k k' Hk Hk' Hne. change (file_block d' i') with (file_block d' (set_sectors l i)) in *.
    assert (forall j, file_block d' (set_sectors l i) j <> 0 -> file_block d' (set_sectors l i) j = file_block d i j) as Hb.
    { intros j Hj. destruct (Z.eq_dec j K) as [->|]; [|by apply Hblocks]. by destruct Hblock as [|[? _]]. }
    intros Heq. pose proof (Hb k Hne) as E1. pose proof (Hb k' ltac:(congruence)) as E2. apply Hinj; [done | done | congruence | congruence].
  - apply Forall_forall. intros s Hs'. apply dir_slots_out in Hs' as (k & Hk & Hs').
    destruct (Z.eq_dec k K) as [->|Hne]; [rewrite Forall_forall in Hso; by apply Hso|].
    rewrite Hsame in Hs' by done. rewrite Forall_forall in Hs. apply Hs. by apply (block_slots_in d i k).
  - rewrite Hperm in Hn. cbn [map] in Hn. by apply NoDup_cons in Hn as [_ Hn].
  - rewrite Hperm in Hsize. cbn [length] in Hsize. change (i_size i') with (i_size i - 24). lia.
Qed.

(** One block of the directory, read and scanned. *)
Lemma delete_step all_blocks k io :
  (forall k, 0 <= k < 140 -> znth all_blocks k = Some (file_block d i k)) ->
  0 <= k < 12 -> file_block d i k <> 0 -> 1024 <= zlen io ->
  let io1 := sector d (file_block d i k) ++ drop 512 io in
  exists n first found, delete_dir_body f a no all_blocks 24 21 (k, io)
      = match found with
        | None => Ok (inl (k + 1, io1))
        | Some idx => let! r := delete_found f a all_blocks 24 k idx n first io1 in Ok (inr r)
        end
    /\ scan_inv (sector d (file_block d i k)) no 21 n first found.
Proof.
  intros Hblk Hk Hne Hl io1. destruct (lba_in k Hk Hne) as (_ & Hmax & _).
  pose proof (sector_len d (file_block d i k)) as Hsl. unfold SECTOR_SIZE in Hsl.
  assert (slots io1 = slots (sector d (file_block d i k))) as Hs1 by (by apply slots_app).
  assert (forall m, 0 <= m < 21 -> slot io1 m = slot (sector d (file_block d i k)) m) as Hslot.
  { intros m Hm. pose proof (slots_lookup io1 m Hm) as E1. rewrite Hs1, slots_lookup in E1 by done. by injection E1. }
  assert (zlen io1 = zlen io) as Hl1 by (unfold io1; rewrite length_app, length_drop; lia).
  destruct (delete_scan io1 no) as (n & first & found & E & I); [lia | | |].
  { rewrite Hs1, <- block_slots_ne by done. apply Forall_forall. intros s Hs. apply slot_ok_ends.
    pose proof (dir_slots_ok _ _ _ Dok) as Hso. rewrite Forall_forall in Hso. apply Hso, (block_slots_in d i k); [lia|done]. }
  { intros j j' Hj Hj' Hj1 Hj2. rewrite Hslot in Hj1, Hj2 by done. by apply (one_in_block k). }
  exists n, first, found. split.
  - unfold delete_dir_body. zdec. rewrite (rd_znth _ _ _ (Hblk k ltac:(lia))). cbn [obind]. apply Z.eqb_neq in Hne as ->.
    rewrite splice_start by (rewrite length_replicate; lia). cbn [obind].
    rewrite disk_read_first by (done || rewrite length_app, length_replicate; lia). cbn [obind].
    rewrite drop_app_length' by (by rewrite length_replicate). rewrite length_replicate. fold io1. rewrite E. done.
  - destruct I as (? & ? & ? & Hf). split; [done|]. rewrite <- Hs1. split; [done|]. split; [done|].
    destruct found as [j|]; [destruct Hf; split; [done|]; by rewrite <- Hslot by lia|].
    intros j Hj. rewrite <- Hslot by done. by apply Hf.
Qed.

(** The blocks before that of the entry are passed over. *)
Lemma delete_skip all_blocks n :
  (forall k, 0 <= k < 140 -> znth all_blocks k = Some (file_block d i k)) ->
  forall fuel k io, 0 <= k -> k + Z.of_nat n <= 12 -> 1024 <= zlen io -> bytes io ->
  (forall j m, k <= j < k + Z.of_nat n -> file_block d i j <> 0 -> 0 <= m < 21 -> ~ entry_of no (slot (sector d (file_block d i j)) m)) ->
  exists io', zlen io' = zlen io /\ bytes io'
    /\ loop (delete_dir_body f a no all_blocks 24 21) (n + fuel) (k, io)
       = loop (delete_dir_body f a no all_blocks 24 21) fuel (k + Z.of_nat n, io').
Proof.
  intros Hblk. induction n as [|n IH]; intros fuel k io Hk0 Hk Hl Hb Hno.
  - exists io. rewrite Z.add_0_r. done.
  - assert (exists io1, zlen io1 = zlen io /\ bytes io1
              /\ delete_dir_body f a no all_blocks 24 21 (k, io) = Ok (inl (k + 1, io1))) as (io1 & Hl1 & Hb1 & E1).
    { destruct (Z.eq_dec (file_block d i k) 0) as [Hz|Hne].
      - exists io. split; [done|]. split; [done|]. unfold delete_dir_body. zdec.
        rewrite (rd_znth _ _ _ (Hblk k ltac:(lia))), Hz. done.
      - pose proof (sector_len d (file_block d i k)) as Hsl. unfold SECTOR_SIZE in Hsl.
        destruct (delete_step all_blocks k io Hblk ltac:(lia) Hne Hl) as (n' & first & found & E & _ & _ & _ & Hf).
        destruct found as [j|]; [destruct Hf as [Hj Hj1]; by apply (Hno k j) in Hj1; [|lia|..]|].
        eexists. split; [|split; [|exact E]]; [rewrite length_app, length_drop; lia|].
        apply Forall_app; split; [apply sector_bytes | by apply Forall_drop]. }
    change (S n + fuel)%nat with (S (n + fuel)). cbn [loop]. rewrite E1.
    destruct (IH fuel (k + 1) io1) as (io' & Hl' & Hb' & E); try lia; try done.
    { intros j m Hj. apply Hno. lia. }
    exists io'. split; [lia|]. split; [done|]. rewrite E. do 2 f_equal. lia.
Qed.

(** [delete_dir_entry] run. *)
Lemma delete_run pdir io : dir_inode pdir = a -> 1024 <= zlen io -> bytes io -> i_no i < 256 ->
  exists d1 d2 b l io' K, let i' := set_size (i_size i - 24) (set_sectors l i) in
    delete_dir_entry f pdir no io = Ok (put_inode a i' (fs_bb f d2 b), true, io')
    /\ 0 <= K < 12 /\ file_block d i K <> 0 /\ zlen io' = zlen io /\ bytes io' /\ shrunk d1 b l K
    /\ disk_inode d2 p (i_no i) = Ok (set_cnts 0 (set_deny 0 i'))
    /\ (forall k, 0 <= k < 4096 -> k <> i_no i -> disk_inode d2 p k = disk_inode d1 p k)
    /\ (forall q, q < inode_addr p (i_no i) \/ inode_addr p (i_no i) + 76 <= q -> dbyte d2 q = dbyte d1 q)
    /\ (forall q, 512 * data_start_lba (sb p) <= q -> dbyte d2 q = dbyte d1 q).
Proof.
  intros Ha Hl Hb Hino. destruct entry_place as (K & j & HK & Hne & Hj & Hs).
  pose proof (dir_inode_wf _ _ _ Dok) as Hwf. pose proof Hwf as [Hlen Hw].
  destruct (dir_blocks_ok d i Hlen) as (all & Eall & Hall & Hblk); [left; apply Dok|].
  unfold delete_dir_entry. rewrite Ha, Hi. cbn [obind]. rewrite Eall. cbn [obind]. unfold entries_per_sec. rewrite Hsz.
  change (24 =? 0) with false. cbn [obind]. change (512 / 24) with 21.
  destruct (delete_skip all (Z.to_nat K) Hblk (141 - Z.to_nat K) 0 io) as (io0 & Hl0 & Hb0 & E0); [lia | lia | done | done | |].
  { intros k m Hk Hk0 Hm He. assert (k = K); [|lia]. by apply (one_block k K m j); [lia|..]. }
  replace (Z.to_nat K + (141 - Z.to_nat K))%nat with 141%nat in E0 by lia. rewrite E0.
  replace (0 + Z.of_nat (Z.to_nat K)) with K by lia. destruct (141 - Z.to_nat K)%nat as [|fuel] eqn:Ef; [lia|]. cbn [loop].
  destruct (delete_step all K io0 Hblk HK Hne ltac:(lia)) as (n & first & found & E1 & _ & Hn & Hfst & Hf). rewrite E1.
  change (Z.to_nat 21) with 21%nat in *. rewrite take_ge in Hn, Hfst by (by rewrite slots_length).
  destruct found as [j'|]; [|exfalso; apply (Hf j Hj); by rewrite Hs].
  destruct Hf as [Hj' Hof']. assert (j' = j) as -> by (apply (one_in_block K); [done.. | by rewrite Hs]).
  unfold delete_found. replace (1 <=? n) with true.
  2: { symmetry. apply Z.leb_le. rewrite Hn. destruct (filter ordinary (slots (sector d (file_block d i K)))) as [|? ?] eqn:Ef'; [|cbn; lia].
       exfalso. eapply (not_elem_of_nil s0). rewrite <- Ef'. apply list_elem_of_filter. split; [apply Hof|].
       rewrite <- Hs. eapply list_elem_of_lookup_2. by apply slots_lookup. }
  cbn [c_assert obind].
  destruct (shrink_run K j HK Hne Hj Hs all n first io0 Hall (Hblk K ltac:(lia)) Hn Hfst ltac:(lia) Hb0)
    as (f2 & io2 & d1 & b & l & E2 & Hl2 & Hb2 & Hi2 & Hp2 & Hc2 & Sh).
  destruct (shrunk_dir d1 b l K HK Sh) as [Dok' Hperm]. pose proof (dir_inode_wf _ _ _ Dok') as Hwf'.
  assert (24 <= i_size i < 2 ^ 32) as Hsize.
  { rewrite (dir_size _ _ _ Dok). pose proof (dir_entries_count d i). apply Permutation_length in Hperm. cbn [length] in Hperm. lia. }
  rewrite E2. cbn [obind]. rewrite Hi2. cbn [obind]. change (i_size (set_sectors l i)) with (i_size i).
  replace (24 <=? i_size i) with true by (symmetry; apply Z.leb_le; lia). cbn [c_assert obind].
  rewrite (u32_small (i_size i - 24)) by lia. set (i' := set_size (i_size i - 24) (set_sectors l i)) in *.
  rewrite splice_start by (rewrite length_replicate; lia). cbn [obind]. set (io3 := replicate 1024 0 ++ _).
  assert (zlen io3 = zlen io) as Hl3.
  { unfold io3. rewrite length_app, length_drop, length_replicate. lia. }
  assert (bytes io3) as Hb3.
  { apply Forall_app; split; [apply Forall_replicate; unfold is_byte; lia | by apply Forall_drop]. }
  rewrite Hp2. destruct (sync_after (put_inode a i' (fs_bb f d1 b)) i' io3) as (d2 & io4 & E4 & Hl4 & Hb4 & Hd4 & Hn4 & Hq4 & Hq4'); try done.
  { apply Sh. }
  { unfold inode_secs. destruct (436 <? _); lia. }
  rewrite E4. cbn [obind]. exists d1, d2, b, l, io4, K. cbv zeta. fold i'. split; [reflexivity|]. split; [done|]. split; [done|].
  split; [lia|]. by split_and!.
Qed.

End delete.

(** A directory is its blocks, all in the data area. *)
Lemma dir_data_ext p d d' i : geometry p -> dir_ok p d i ->
  (forall q, 512 * data_start_lba (sb p) <= q -> dbyte d' q = dbyte d q) -> dir_ok p d' i /\ dir_slots d' i = dir_slots d i.
Proof.
  intros G Dok Hd. assert (forall k, file_block d' i k = file_block d i k) as Hfb by (intros k; rewrite !file_block_flat by apply Dok; done).
  assert (dir_slots d' i = dir_slots d i) as Hs.
  { rewrite !dir_slots_blocks. f_equal. apply map_ext_in. intros k Hk. apply list_elem_of_In, elem_of_seqZ in Hk. unfold block_slots. rewrite Hfb.
    destruct (Z.eqb_spec (file_block d i k) 0) as [|Hne]; [done|]. f_equal.
    destruct (Z.lt_ge_cases k 12); [|by rewrite no_table_block in Hne by (apply Dok || lia)].
    destruct (dir_blocks_in _ _ _ Dok k ltac:(lia) Hne) as (Hr & _). apply sector_ext. intros q Hq. apply Hd. lia. }
  split; [|done]. destruct Dok as [? ? ? ? ? ? ?]. unfold dir_entries in *. split; rewrite ?Hs; try done; [intros k Hk; rewrite Hfb; by auto |..].
  - intros k k' Hk Hk'. rewrite !Hfb. auto.
  - unfold dir_entries. by rewrite Hs.
  - unfold dir_entries. by rewrite Hs.
Qed.

(** ** Properties *)

(** The count of the blocks of the table, as it is written, never ends: a
    directory entry that is alone in a block of the table cannot be removed. *)
Theorem delete_indirect_diverges all_blocks n fuel : length all_blocks = 140%nat ->
  loop (count_indirect_body all_blocks) fuel (n, 12) = Err OutOfFuel.
Proof.
  intros Hl. revert n. induction fuel as [|fuel IH]; intros n; [done|]. cbn [loop]. unfold count_indirect_body at 1. zdec.
  destruct (znth_in all_blocks 12 ltac:(lia)) as [v Hv]. rewrite (rd_znth _ _ _ Hv). cbn [obind]. apply IH.
Qed.


End lemmas.
