(* ===== verification/Dirread.v ===== *)
(** Listing a directory: [dir_read] of Dir.v, called again and again. *)
From S2P Require Import Prelude Bitmap Ide Blockdev Inode File Filewrite Dir Dirwrite.

Section lemmas.
Context {D H : Type} `{BlockDeviceLaws D} `{KernelHeapLaws H}.
Abbreviation fs := (fstate D H).
Implicit Types (f : fs) (i : inode) (d : D).

Lemma live_take_S buf idx : 0 <= idx < 21 ->
  live (take (Z.to_nat (idx + 1)) (slots buf))
  = live (take (Z.to_nat idx) (slots buf)) ++ (if entry_type (slot buf idx) =? 0 then [] else [slot buf idx]).
Proof.
  intros Hi. replace (Z.to_nat (idx + 1)) with (S (Z.to_nat idx)) by lia.
  rewrite (take_S_r _ _ (slot buf idx)) by (apply slots_lookup; lia). rewrite live_app. f_equal. unfold live.
  destruct (Z.eqb_spec (entry_type (slot buf idx)) 0); [rewrite filter_cons_False by auto | rewrite filter_cons_True by done]; done.
Qed.

(** One sector, with [c] entries before it, looking for entry number [k]. *)
Lemma read_entries buf k c : 504 <= zlen buf -> 0 <= c <= k -> 24 * (k + 21) < 2 ^ 32 ->
  exists r, loop (read_entry_body buf (24 * k) 24 21) 513 (0, 24 * c) = Ok r
    /\ match r with
       | (cur, Some idx) => 0 <= idx < 21 /\ live (slots buf) !! Z.to_nat (k - c) = Some (slot buf idx)
       | (cur, None) => cur = 24 * (c + zlen (live (slots buf))) /\ c + zlen (live (slots buf)) <= k
       end.
Proof.
  intros Hl Hc Hmax.
  loop_inv (fun s : Z * Z => let '(idx, cur) := s in 0 <= idx <= 21
              /\ cur = 24 * (c + zlen (live (take (Z.to_nat idx) (slots buf))))
              /\ c + zlen (live (take (Z.to_nat idx) (slots buf))) <= k)
           (fun s : Z * Z => Z.to_nat (21 - fst s)).
  - intros [idx cur] (Hi & -> & Hk). unfold read_entry_body. destruct (Z.ltb_spec idx 21) as [Hlt|Hge].
    2: { replace idx with 21 in * by lia. rewrite take_ge in * by (by rewrite slots_length). by eexists. }
    rewrite de_f_type_ok by lia. cbn [obind fst]. pose proof (live_take_S buf idx ltac:(lia)) as HS.
    destruct (Z.eqb_spec (entry_type (slot buf idx)) 0) as [Hz|Hz]; cbn [negb].
    { cbn [fst]. rewrite HS, app_nil_r. split; [|lia]. split; [lia|done]. }
    destruct (Z.ltb_spec (24 * (c + zlen (live (take (Z.to_nat idx) (slots buf))))) (24 * k)) as [Hlk|Hgk].
    + cbn [fst]. rewrite HS, length_app. cbn [length]. rewrite u32_small by lia. split; [|lia]. split; [lia|]. lia.
    + replace (24 * (c + zlen (live (take (Z.to_nat idx) (slots buf)))) =? 24 * k) with true by (symmetry; apply Z.eqb_eq; lia).
      cbn [c_assert obind]. eexists. split; [done|]. split; [lia|].
      rewrite <- (take_drop (Z.to_nat (idx + 1)) (slots buf)), live_app, HS.
      rewrite <- app_assoc, lookup_app_r by lia. replace (Z.to_nat (k - c) - _)%nat with 0%nat by lia. done.
  - split; [lia|]. change (Z.to_nat 0) with 0%nat. rewrite take_0. cbn. split; [f_equal; lia | lia].
  - cbn [fst]. lia.
Qed.

(** The entries of the first [b] blocks. *)
Definition entries_before d i (b : Z) : list (list Z) := live (concat (map (block_slots d i) (seqZ 0 b))).

Lemma entries_before_S d i b : 0 <= b -> entries_before d i (b + 1) = entries_before d i b ++ live (block_slots d i b).
Proof.
  intros Hb. unfold entries_before. rewrite seqZ_app by lia. change (seqZ (0 + b) 1) with [0 + b].
  rewrite map_app, concat_app, live_app. cbn [map concat]. by rewrite app_nil_r, Z.add_0_l.
Qed.

Lemma entries_before_prefix d i b : 0 <= b <= 140 -> exists l, dir_entries d i = entries_before d i b ++ l.
Proof.
  intros Hb. unfold dir_entries. rewrite dir_slots_blocks. replace 140 with (b + (140 - b)) by lia. rewrite seqZ_app by lia.
  rewrite map_app, concat_app, live_app. by eexists.
Qed.

(** The walk over the blocks for the entry at [dir_pos]. *)
Lemma read_blocks p d i x k all_blocks : geometry p -> dir_ok p d i ->
  (forall b, 0 <= b < 140 -> znth all_blocks b = Some (file_block d i b)) ->
  dir_pos x = 24 * k -> 0 <= k < zlen (dir_entries d i) ->
  exists buf idx, loop (dir_read_body d all_blocks (i_size i) 24 21) 142 (x, 0, 0)
      = Ok (set_dir_pos (24 * (k + 1)) (set_dir_buf buf x), Some idx)
    /\ 0 <= idx < 21 /\ zlen buf = 512 /\ dir_entries d i !! Z.to_nat k = Some (slot buf idx).
Proof.
  intros G Dok Hblk Hpos Hk. pose proof (dir_entries_count d i) as Hcount. pose proof (dir_size _ _ _ Dok) as Hsize.
  destruct (dir_ok_readable _ _ _ G Dok) as [_ _ Hlba _]. rewrite Forall_forall in Hlba.
  loop_inv (fun s : dir * Z * Z => let '(x', b, cur) := s in 0 <= b <= 140 /\ cur = 24 * zlen (entries_before d i b)
              /\ zlen (entries_before d i b) <= k /\ dir_pos x' = 24 * k /\ (forall buf, set_dir_buf buf x' = set_dir_buf buf x))
           (fun s : dir * Z * Z => Z.to_nat (140 - snd (fst s))).
  - intros [[x' b] cur] (Hb & -> & Hc & Hp & Hx). unfold dir_read_body. rewrite Hp, Hsize. zdec.
    assert (b < 140) as Hb'.
    { destruct (Z.eq_dec b 140) as [->|]; [|lia]. unfold entries_before, dir_entries in *. rewrite dir_slots_blocks in Hk. lia. }
    rewrite (rd_znth _ _ _ (Hblk b ltac:(lia))). cbn [obind]. pose proof (entries_before_S d i b ltac:(lia)) as HS.
    unfold block_slots in HS.
    destruct (Z.eqb_spec (file_block d i b) 0) as [Hz|Hz].
    { cbn [fst snd]. change (live []) with (@nil (list Z)) in HS. rewrite app_nil_r in HS. rewrite HS. split; [|lia]. by split_and!; try lia. }
    pose proof (sector_len d (file_block d i b)) as Hsl. unfold SECTOR_SIZE in Hsl.
    rewrite disk_read_one by ((apply Hlba, dir_lbas_in; [lia|done]) || by rewrite length_replicate). cbn [obind].
    set (buf := sector d (file_block d i b)) in *.
    change (dir_pos (set_dir_buf buf x')) with (dir_pos x'). rewrite Hp.
    destruct (read_entries buf k (zlen (entries_before d i b))) as ([cur [idx|]] & E & HR); [lia | lia | lia | | ]; rewrite E; cbn [obind].
    + destruct HR as [Hi Hlk]. exists buf, idx. rewrite u32_small by lia. rewrite Hx. split; [do 3 f_equal; lia|]. split; [done|]. split; [lia|].
      destruct (entries_before_prefix d i (b + 1) ltac:(lia)) as [r ->]. rewrite HS, <- app_assoc, lookup_app_r by lia.
      apply lookup_app_l_Some. by replace (Z.to_nat k - _)%nat with (Z.to_nat (k - zlen (entries_before d i b))) by lia.
    + destruct HR as [-> HR]. cbn [fst snd]. rewrite HS, length_app. split; [|lia]. split; [lia|]. split; [lia|]. split; [lia|].
      split; [done|]. intros buf'. by rewrite <- Hx.
  - split; [lia|]. split; [done|]. split; [|done]. change (entries_before d i 0) with (@nil (list Z)). cbn. lia.
  - cbn. lia.
Qed.

(** One call. *)
Lemma dir_read_ok f x i k : get_inode f (dir_inode x) = Ok i -> geometry (cur_part f) ->
  dir_ok (cur_part f) (medium f) i -> dir_entry_size (sb (cur_part f)) = 24 -> dir_pos x = 24 * k ->
  0 <= k <= zlen (dir_entries (medium f) i) ->
  match dir_entries (medium f) i !! Z.to_nat k with
  | Some e => exists buf idx, dir_read f x = Ok (set_dir_pos (24 * (k + 1)) (set_dir_buf buf x), Some idx)
      /\ 0 <= idx < 21 /\ zlen buf = 512 /\ slot buf idx = e
  | None => dir_read f x = Ok (x, None)
  end.
Proof.
  intros Hi G Dok Hsz Hpos Hk. pose proof (dir_ok_readable _ _ _ G Dok) as [Hlen Htab _ _].
  destruct (dir_blocks_ok (medium f) i Hlen Htab) as (all & Ea & Hal & Hblk).
  assert (dir_read f x = loop (dir_read_body (medium f) all (i_size i) 24 21) 142 (x, 0, 0)) as Er.
  { unfold dir_read, entries_per_sec. rewrite Hi. cbn [obind]. rewrite Ea, Hsz. done. }
  destruct (Z.eq_dec k (zlen (dir_entries (medium f) i))) as [->|Hne].
  - rewrite lookup_ge_None_2 by lia. rewrite Er. change 142%nat with (S 141). remember 141%nat as n. cbn [loop].
    unfold dir_read_body at 1. rewrite Hpos, (dir_size _ _ _ Dok), Z.ltb_irrefl. done.
  - destruct (read_blocks _ _ i x k all G Dok Hblk Hpos ltac:(lia)) as (buf & idx & E & Hidx & Hlb & Hlk).
    rewrite Hlk, Er. by exists buf, idx.
Qed.

(** ** Properties *)

(** C19. Calls of [dir_read] from position 0 list the directory: at position 24 * k
    the call hands out the [k]-th entry in use and moves to the next, and after
    the last entry it returns NULL and moves nothing. It ends on every directory
    that is well-formed. *)
Theorem dir_read_spec f x i k : get_inode f (dir_inode x) = Ok i -> geometry (cur_part f) ->
  dir_ok (cur_part f) (medium f) i -> dir_entry_size (sb (cur_part f)) = 24 -> dir_pos x = 24 * k ->
  0 <= k <= zlen (dir_entries (medium f) i) ->
  match dir_entries (medium f) i !! Z.to_nat k with
  | Some e => exists buf idx, dir_read f x = Ok (set_dir_pos (24 * (k + 1)) (set_dir_buf buf x), Some idx)
      /\ 0 <= idx < 21 /\ zlen buf = 512 /\ slot buf idx = e
  | None => dir_read f x = Ok (x, None)
  end.
Proof. apply dir_read_ok. Qed.

End lemmas.
