(* ===== verification/Dirdemo.v ===== *)
(** A concrete root directory, on which the theorems on directories apply: block
    712 of the partition of Inode.v holds [.], [..] and the file [a]. *)
From S2P Require Import Prelude Bitmap Ide Blockdev Inode File Filewrite Dir Dirwrite Dirdelete Dirread.

Definition demo_entry (name : list Z) (no type : Z) : list Z :=
  name ++ replicate (16 - length name) 0 ++ le32 no ++ le32 type.
Definition demo_entries : list (list Z) :=
  [demo_entry DOT 0 FT_DIRECTORY; demo_entry DOTDOT 0 FT_DIRECTORY; demo_entry [97] 3 FT_REGULAR].
Definition demo_dir_medium : sparse_disk := mk_sparse
  (<[712 := concat demo_entries ++ replicate 440 0]> (match demo_medium with mk_sparse m => m end)).
Definition demo_root : inode := mk_inode 0 72 1 0 (712 :: replicate 12 0).
Definition demo_dir_fs : fstate sparse_disk bump_heap :=
  mk_fs _ _ demo_dir_medium demo_part (mk_bump []) {[ 8192 := demo_root ]} (replicate 32 (mk_file 0 0 0)) (kern demo_fs).
Definition demo_root_dir : dir := mk_dir None 8192 0 (replicate 512 0).

Lemma demo_dir_slots : dir_slots demo_dir_medium demo_root = demo_entries ++ replicate 18 (replicate 24 0).
Proof. vm_compute. reflexivity. Qed.

Lemma demo_dir_entries : dir_entries demo_dir_medium demo_root = demo_entries.
Proof. unfold dir_entries. rewrite demo_dir_slots. vm_compute. reflexivity. Qed.

Lemma demo_dir_synced : bb_synced demo_dir_medium demo_part.
Proof.
  intros q Hq.
  apply (range_eq (fun q => dbyte demo_dir_medium (512 * 102 + q)) (fun q => (demo_bb ++ [0]) !! Z.to_nat q) 512);
    [vm_compute; reflexivity | exact Hq].
Qed.

(** Only the first block is there. *)
Lemma demo_dir_block k : 0 <= k < 12 -> file_block demo_dir_medium demo_root k = if k =? 0 then 712 else 0.
Proof.
  intros Hk. apply (range_eq (file_block demo_dir_medium demo_root) (fun k => if k =? 0 then 712 else 0) 12); [reflexivity|done].
Qed.

Lemma used_slot s : entry_type s <> 0 -> length s = 24%nat ->
  forallb (fun b => (0 <=? b) && (b <? 256)) s = true -> 0 ∈ take 16 s -> entry_name s <> [] -> slot_ok s.
Proof. intros. right. split_and!; try done. by apply good_bytes. Qed.

Lemma demo_dir_ok : dir_ok demo_part demo_dir_medium demo_root.
Proof.
  split.
  - split; [reflexivity | by apply words_ok].
  - reflexivity.
  - intros k Hk. rewrite demo_dir_block by done. destruct (Z.eqb_spec k 0); [|done]. intros _.
    split; [vm_compute; split; congruence|]. split; reflexivity.
  - intros k k' Hk Hk'. rewrite !demo_dir_block by done. destruct (Z.eqb_spec k 0), (Z.eqb_spec k' 0); lia.
  - rewrite demo_dir_slots. apply Forall_app; split; [|apply Forall_replicate; by left].
    apply Forall_cons; split; [|apply Forall_cons; split; [|apply Forall_singleton]]; (apply used_slot; [discriminate | reflexivity | reflexivity | | discriminate]);
      apply (bool_decide_unpack _); vm_compute; exact I.
  - rewrite demo_dir_entries. apply (bool_decide_unpack _). vm_compute. exact I.
  - rewrite demo_dir_entries. reflexivity.
Qed.

Lemma demo_dots : dots_ok demo_part demo_dir_medium demo_root.
Proof.
  assert (Exists is_dot (block_slots demo_dir_medium demo_root 0)) as Hdot.
  { change (block_slots demo_dir_medium demo_root 0) with (slots (sector demo_dir_medium 712)).
    replace (slots (sector demo_dir_medium 712)) with (demo_entries ++ replicate 18 (replicate 24 0)) by (symmetry; vm_compute; reflexivity).
    apply Exists_app. left. apply Exists_cons_hd. by split. }
  split.
  - intros k s Hk Hs _. unfold block_slots in Hs. rewrite demo_dir_block in Hs by done.
    destruct (Z.eqb_spec k 0) as [->|]; [done | by apply elem_of_nil in Hs].
  - intros k Hk. rewrite demo_dir_block by done. destruct (Z.eqb_spec k 0) as [->|]; [done | intros [=]].
Qed.

Lemma demo_entry_ok : entry_ok (demo_entry [98] 5 FT_REGULAR).
Proof.
  split_and!; [reflexivity | by apply good_bytes | discriminate | | discriminate].
  apply (bool_decide_unpack _). vm_compute. exact I.
Qed.

(** ** Witnesses *)

Example search_dir_entry_witness : exists h,
  search_dir_entry demo_dir_fs demo_root_dir [97] = Ok (with_kheap h demo_dir_fs, Some (demo_entry [97] 3 FT_REGULAR)).
Proof.
  destruct (search_dir_entry_spec demo_dir_fs demo_root_dir [97] demo_root) as (h & E & _).
  - reflexivity.
  - exact (dir_ok_readable _ _ _ demo_geometry demo_dir_ok).
  - reflexivity.
  - apply (bool_decide_unpack _). vm_compute. exact I.
  - apply bump_roomy.
  - exists h. rewrite E. unfold dir_lookup. change (medium demo_dir_fs) with demo_dir_medium. by rewrite demo_dir_slots.
Defined.

Example sync_dir_entry_witness : exists f' d i' io',
  sync_dir_entry demo_dir_fs demo_root_dir (demo_entry [98] 5 FT_REGULAR) (replicate 1024 0) = Ok (f', true, io')
  /\ dir_lookup d i' [98] = Some (demo_entry [98] 5 FT_REGULAR).
Proof.
  destruct (sync_dir_entry_spec demo_dir_fs demo_root_dir demo_root (demo_entry [98] 5 FT_REGULAR) (replicate 1024 0))
    as (d & b & l & io' & E & Hl & _).
  - reflexivity.
  - exact demo_geometry.
  - exact demo_dir_ok.
  - reflexivity.
  - exact demo_entry_ok.
  - unfold dir_lookup. change (medium demo_dir_fs) with demo_dir_medium. rewrite demo_dir_slots. reflexivity.
  - exact demo_dir_synced.
  - exists 1. split; [lia|]. intros [Hne _]. by apply Hne.
  - vm_compute; lia.
  - rewrite length_replicate; lia.
  - apply Forall_replicate; unfold is_byte; lia.
  - eexists _, d, _, io'. split; [exact E|]. exact (Hl [98] ltac:(discriminate)).
Defined.


Example delete_indirect_witness : loop (count_indirect_body (replicate 140 713)) 1000 (0, 12) = Err OutOfFuel.
Proof. apply (delete_indirect_diverges (replicate 140 713) 0 1000). apply length_replicate. Defined.

Example dir_read_witness : exists buf idx,
  dir_read demo_dir_fs (set_dir_pos 48 demo_root_dir) = Ok (set_dir_pos 72 (set_dir_buf buf (set_dir_pos 48 demo_root_dir)), Some idx)
  /\ slot buf idx = demo_entry [97] 3 FT_REGULAR.
Proof.
  pose proof (dir_read_spec demo_dir_fs (set_dir_pos 48 demo_root_dir) demo_root 2 eq_refl demo_geometry demo_dir_ok eq_refl eq_refl) as Hr.
  change (medium demo_dir_fs) with demo_dir_medium in Hr. rewrite demo_dir_entries in Hr.
  destruct Hr as (buf & idx & E & _ & _ & Hs); [cbn; lia|]. by exists buf, idx.
Defined.
