(* ===== verification/Words.v ===== *)
(** A string split at a separator into its words. *)
From S2P Require Import Prelude.

Section words.
Variable sep : Z.

(** The pieces between the separators, and those that are not empty. *)
Fixpoint split_on (s : list Z) : list (list Z) :=
  match s with
  | [] => [[]]
  | c :: s => if c =? sep then [] :: split_on s else
      match split_on s with w :: ws => (c :: w) :: ws | [] => [[c]] end
  end.

Definition words_on (s : list Z) : list (list Z) := filter (fun w => w <> []) (split_on s).

(** The first word and what follows it. *)
Fixpoint skip_on (s : list Z) : list Z :=
  match s with c :: s' => if c =? sep then skip_on s' else s | [] => [] end.
Fixpoint word_on (s : list Z) : list Z :=
  match s with c :: s' => if c =? sep then [] else c :: word_on s' | [] => [] end.
Fixpoint after_on (s : list Z) : list Z :=
  match s with c :: s' => if c =? sep then s else after_on s' | [] => [] end.

Lemma in_skip_on s c : c ∈ skip_on s -> c ∈ s.
Proof. induction s as [|x s IH]; [done|]. cbn. destruct (x =? sep); [right; auto | done]. Qed.

Lemma word_after_on s : s = word_on s ++ after_on s.
Proof. induction s as [|c s IH]; [done|]. cbn. destruct (c =? sep); [done|]. cbn. congruence. Qed.

Lemma in_after_on s c : c ∈ after_on s -> c ∈ s.
Proof. intros Hc. rewrite (word_after_on s). apply elem_of_app. by right. Qed.

Lemma in_word_on s c : c ∈ word_on s -> c ∈ s.
Proof. intros Hc. rewrite (word_after_on s). apply elem_of_app. by left. Qed.

Lemma after_sep s : after_on s = [] \/ exists r, after_on s = sep :: r.
Proof.
  induction s as [|c s IH]; [by left|]. cbn. destruct (Z.eqb_spec c sep) as [->|]; [right; by eexists | done].
Qed.

Lemma length_skip_on s : zlen (skip_on s) <= zlen s.
Proof. induction s as [|c s IH]; [done|]. cbn [skip_on]. destruct (c =? sep); cbn [length]; lia. Qed.

Lemma split_on_word w r : sep ∉ w -> split_on (w ++ sep :: r) = w :: split_on r.
Proof.
  induction w as [|c w IH]; intros Hw; [cbn; by rewrite Z.eqb_refl|]. apply not_elem_of_cons in Hw as [Hc Hw]. cbn [app split_on].
  replace (c =? sep) with false by (symmetry; apply Z.eqb_neq; congruence). by rewrite IH.
Qed.

Lemma split_on_last w : sep ∉ w -> split_on w = [w].
Proof.
  induction w as [|c w IH]; intros Hw; [done|]. apply not_elem_of_cons in Hw as [Hc Hw]. cbn [split_on].
  replace (c =? sep) with false by (symmetry; apply Z.eqb_neq; congruence). by rewrite IH.
Qed.

Lemma word_no_sep s : sep ∉ word_on s.
Proof.
  induction s as [|c s IH]; cbn; [by apply not_elem_of_nil|]. destruct (Z.eqb_spec c sep); [by apply not_elem_of_nil|].
  apply not_elem_of_cons. split; [congruence | done].
Qed.

Lemma skip_on_head s : skip_on s = [] \/ exists c t, skip_on s = c :: t /\ c <> sep.
Proof.
  induction s as [|c s IH]; [by left|]. cbn. destruct (Z.eqb_spec c sep); [done | right; by eexists _, _].
Qed.

Lemma skip_on_word_nil s : word_on (skip_on s) = [] -> skip_on s = [].
Proof.
  destruct (skip_on_head s) as [|(c & t & -> & Hc)]; [done|]. cbn.
  by replace (c =? sep) with false by (symmetry; apply Z.eqb_neq; congruence).
Qed.

Lemma words_on_sep r : words_on (sep :: r) = words_on r.
Proof. unfold words_on. cbn [split_on]. by rewrite Z.eqb_refl, filter_cons_False by auto. Qed.

Lemma words_on_one w : w <> [] -> sep ∉ w -> words_on w = [w].
Proof. intros Hn Hw. unfold words_on. rewrite split_on_last by done. by rewrite filter_cons_True. Qed.

Lemma words_on_cons w r : w <> [] -> sep ∉ w -> words_on (w ++ sep :: r) = w :: words_on r.
Proof. intros Hn Hw. unfold words_on. rewrite split_on_word by done. by rewrite filter_cons_True. Qed.

Lemma words_on_skip s : words_on (skip_on s) = words_on s.
Proof.
  induction s as [|c s IH]; [done|]. cbn [skip_on]. destruct (Z.eqb_spec c sep) as [->|]; [|done].
  by rewrite words_on_sep.
Qed.

(** The first word and the others. *)
Lemma words_on_step s : words_on s
  = if decide (word_on (skip_on s) = []) then [] else word_on (skip_on s) :: words_on (after_on (skip_on s)).
Proof.
  rewrite <- (words_on_skip s) at 1. case_decide as Hw; [by rewrite (skip_on_word_nil s Hw)|].
  revert Hw. generalize (skip_on s) as t. intros t Hw. rewrite (word_after_on t) at 1.
  destruct (after_sep t) as [Ha|[r Ha]]; rewrite Ha.
  - rewrite app_nil_r. apply words_on_one; [done | apply word_no_sep].
  - rewrite words_on_sep. apply words_on_cons; [done | apply word_no_sep].
Qed.

Lemma words_on_length s : zlen (words_on s) <= zlen s.
Proof.
  remember (length s) as n eqn:En. revert s En. induction (lt_wf n) as [n _ IH]. intros s ->.
  rewrite words_on_step. case_decide as Hw; [cbn [length]; lia|]. cbn [length].
  pose proof (length_skip_on s). pose proof (f_equal length (word_after_on (skip_on s))) as Hl. rewrite length_app in Hl.
  assert (length (word_on (skip_on s)) <> 0%nat) by (destruct (word_on (skip_on s)); done).
  specialize (IH (length (after_on (skip_on s))) ltac:(lia) _ eq_refl). lia.
Qed.

End words.
