(* ===== verification/Path.v ===== *)
(** fs/fs.c, path names: [path_parse], [path_depth_cnt] and [search_file], which
    resolves a path by one lookup per component. A string is the memory from its
    pointer on: its characters, the terminator, and whatever comes after. The
    content of a stack variable before its first assignment is an argument. *)
From S2P Require Import Prelude Bitmap Ide Blockdev Inode File Filewrite Dir Words.

Definition MAX_PATH_LEN : Z := 512.
Definition SLASH : Z := 47.

(** ** C strings in memory *)

(** The characters of a string; a string without terminator runs out of its memory. *)
Fixpoint c_string (l : list Z) : outcome (list Z) :=
  match l with
  | [] => Err BadAccess
  | c :: l => if c =? 0 then Ok [] else let! s := c_string l in Ok (c :: s)
  end.

Definition c_strlen (l : list Z) : outcome Z := let! s := c_string l in Ok (zlen s).

(** [strcat] of the string [src] to the one that the array [dst] holds. *)
Definition c_strcat (dst src : list Z) : outcome (list Z) :=
  let! n := c_strlen dst in splice dst n (src ++ [0]).

(** ** Parsing *)

Fixpoint skip_slashes (pathname : list Z) : outcome (list Z) :=
  match pathname with
  | [] => Err BadAccess
  | c :: rest => if c =? SLASH then skip_slashes rest else Ok pathname
  end.

Fixpoint copy_component (pathname name_store : list Z) (k : Z) : outcome (list Z * list Z) :=
  match pathname with
  | [] => Err BadAccess
  | c :: rest =>
      if negb (c =? SLASH) && negb (c =? 0) then
        let! name_store := wr name_store k c in copy_component rest name_store (k + 1)
      else Ok (pathname, name_store)
  end.

(** The rest of the path ([None] is NULL) and the contents of [name_store]. *)
Definition path_parse (pathname name_store : list Z) : outcome (option (list Z) * list Z) :=
  let! c := rd pathname 0 in
  let! pathname := if c =? SLASH then skip_slashes (drop 1 pathname) else Ok pathname in
  let! ' (pathname, name_store) := copy_component pathname name_store 0 in
  let! c := rd pathname 0 in
  Ok (if c =? 0 then None else Some pathname, name_store).

Definition depth_body (s : option (list Z) * list Z * Z) : outcome (option (list Z) * list Z * Z + Z) :=
  let '(p, name, depth) := s in
  let! c := rd name 0 in
  if c =? 0 then Ok (inr depth) else
  let depth := u32 (depth + 1) in
  let name := replicate (Z.to_nat MAX_FILE_NAME_LEN) 0 in
  let! ' (p, name) := match p with Some p => path_parse p name | None => Ok (None, name) end in
  Ok (inl (p, name, depth)).

(** [name0] is the array [name], which the code does not initialise. *)
Definition path_depth_cnt (name0 pathname : list Z) : outcome Z :=
  let! ' (p, name) := path_parse pathname name0 in
  let! depth := loop depth_body (2 + length pathname) (p, name, 0) in
  Ok (s32 depth).

(** ** Resolving *)

Record path_search_record := mk_psr { searched_path : list Z; parent_dir : option dir; file_type : Z }.

(** After the [memset] of every caller. *)
Definition empty_record : path_search_record := mk_psr (replicate (Z.to_nat MAX_PATH_LEN) 0) None 0.

Definition set_parent_dir (x : dir) (r : path_search_record) : path_search_record :=
  mk_psr (searched_path r) (Some x) (file_type r).
Definition set_type (v : Z) (r : path_search_record) : path_search_record :=
  mk_psr (searched_path r) (parent_dir r) v.
Definition set_path (v : list Z) (r : path_search_record) : path_search_record :=
  mk_psr v (parent_dir r) (file_type r).

Section search.
Context {D H : Type} `{BlockDevice D} `{KernelHeap H}.
Abbreviation fs := (fstate D H).

(** The locals of [search_file]. *)
Record search_vars := mk_sv {
  sv_fs : fs; sub_path : option (list Z); sv_name : list Z; sv_parent : dir;
  dir_e : list Z; searched_record : path_search_record; parent_inode_no : Z }.

(** [searched_path] grows by a slash and the name. *)
Definition record_name (r : path_search_record) (name : list Z) : outcome (path_search_record * list Z) :=
  let! n := c_strlen (searched_path r) in
  c_assert (n <? 512) ;;;
  let! path := c_strcat (searched_path r) [SLASH] in
  let! s := c_string name in
  let! path := c_strcat path s in
  Ok (set_path path r, s).

(** One component; [inr (inl _)] is the end of the loop, [inr (inr _)] a return. *)
Definition search_body (v : search_vars)
  : outcome (search_vars + (search_vars + fs * path_search_record * Z)) :=
  let! c := rd (sv_name v) 0 in
  if c =? 0 then Ok (inr (inl v)) else
  let! ' (r, name) := record_name (searched_record v) (sv_name v) in
  let! ' (f, found) := search_dir_entry (sv_fs v) (sv_parent v) name in
  match found with
  | None => Ok (inr (inr (f, r, -1)))
  | Some entry =>
      let! e := splice (dir_e v) 0 entry in
      let name := replicate (Z.to_nat MAX_FILE_NAME_LEN) 0 in
      let! ' (sub, name) := match sub_path v with Some p => path_parse p name | None => Ok (None, name) end in
      let! ty := de_f_type e 0 in
      let! no := de_i_no e 0 in
      if ty =? FT_DIRECTORY then
        let! i := get_inode f (dir_inode (sv_parent v)) in
        let! f := dir_close f (sv_parent v) in
        let! ' (f, x) := dir_open f no in
        Ok (inl (mk_sv f sub name x e (set_parent_dir x r) (i_no i)))
      else if ty =? FT_REGULAR then Ok (inr (inr (f, set_type FT_REGULAR r, s32 no)))
      else Ok (inl (mk_sv f sub name (sv_parent v) e r (parent_inode_no v)))
  end.

(** [!strcmp(pathname, "/") || !strcmp(pathname, "/.") || !strcmp(pathname, "/..")] *)
Definition is_root_path (pathname : list Z) : outcome bool :=
  let! a := str_eq pathname [SLASH] in
  if (a : bool) then Ok true else
  let! b := str_eq pathname (SLASH :: DOT) in
  if (b : bool) then Ok true else str_eq pathname (SLASH :: DOTDOT).

(** [dir_close] of a pointer into a record that may still be NULL. *)
Definition close_parent (f : fs) (r : path_search_record) : outcome fs :=
  match parent_dir r with Some x => dir_close f x | None => Err BadAccess end.

(** [dir_e0] is the content of [dir_e] before the first entry is copied to it. *)
Definition search_file (f : fs) (root_dir : dir) (dir_e0 pathname : list Z) (r : path_search_record)
  : outcome (fs * path_search_record * Z) :=
  let! root := is_root_path pathname in
  if (root : bool) then
    let! path := wr (searched_path r) 0 0 in
    Ok (f, set_path path (set_type FT_DIRECTORY (set_parent_dir root_dir r)), 0)
  else
  let! path_len := c_strlen pathname in
  let! c := rd pathname 0 in
  c_assert ((c =? SLASH) && (1 <? path_len) && (path_len <? MAX_PATH_LEN)) ;;;
  let r := set_type FT_UNKNOWN (set_parent_dir root_dir r) in
  let! ' (sub, name) := path_parse pathname (replicate (Z.to_nat MAX_FILE_NAME_LEN) 0) in
  let! end_ := loop search_body (2 + length pathname) (mk_sv f sub name root_dir dir_e0 r 0) in
  match end_ with
  | inr result => Ok result
  | inl v =>
      let! f := close_parent (sv_fs v) (searched_record v) in
      let! ' (f, x) := dir_open f (parent_inode_no v) in
      let! no := de_i_no (dir_e v) 0 in
      Ok (f, set_type FT_DIRECTORY (set_parent_dir x (searched_record v)), s32 no)
  end.

End search.
Arguments search_vars : clear implicits.

(** ** Specification *)

(** The pieces between the slashes, of Words.v. *)
Abbreviation skip := (skip_on SLASH).
Abbreviation word := (word_on SLASH).
Abbreviation after := (after_on SLASH).
Abbreviation components := (words_on SLASH).
Abbreviation in_skip := (in_skip_on SLASH).
Abbreviation word_after := (word_after_on SLASH).
Abbreviation in_after := (in_after_on SLASH).
Abbreviation in_word := (in_word_on SLASH).
Abbreviation after_slash := (after_sep SLASH).
Abbreviation length_skip := (length_skip_on SLASH).
Abbreviation split_slash_word := (split_on_word SLASH).
Abbreviation split_slash_last := (split_on_last SLASH).
Abbreviation word_no_slash := (word_no_sep SLASH).
Abbreviation skip_word_nil := (skip_on_word_nil SLASH).
Abbreviation components_step := (words_on_step SLASH).
Abbreviation components_length := (words_on_length SLASH).

(** [searched_path] after these components. *)
Definition join (ws : list (list Z)) : list Z := concat (map (cons SLASH) ws).

(** ** Strings *)

Lemma c_string_ok s m : 0 ∉ s -> c_string (s ++ 0 :: m) = Ok s.
Proof.
  induction s as [|c s IH]; intros Hs; [done|]. apply not_elem_of_cons in Hs as [Hc Hs]. cbn [app c_string].
  replace (c =? 0) with false by (symmetry; apply Z.eqb_neq; congruence). by rewrite IH.
Qed.

Lemma str_eq_string s t m : 0 ∉ s -> 0 ∉ t -> str_eq (s ++ 0 :: m) t = Ok (bool_decide (s = t)).
Proof.
  intros Hs Ht. rewrite (str_eq_ok (S (length s))); [| |done].
  - assert (chars (take (S (length s)) (s ++ 0 :: m)) = s) as ->; [|done]. clear Ht. induction s as [|c s IH]; [done|].
    apply not_elem_of_cons in Hs as [Hc Hs]. change (take (S (length (c :: s))) ((c :: s) ++ 0 :: m)) with (c :: take (S (length s)) (s ++ 0 :: m)).
    cbn [chars]. replace (c =? 0) with false by (symmetry; apply Z.eqb_neq; congruence). by rewrite IH.
  - rewrite firstn_app, take_ge by lia. replace (S (length s) - length s)%nat with 1%nat by lia.
    apply elem_of_app. right. by left.
Qed.

(** A string in an array that is zero from its end on. *)
Definition str_array (n : Z) (s : list Z) : list Z := s ++ replicate (Z.to_nat (n - zlen s)) 0.

Lemma replicate_head n : (0 < n)%nat -> replicate n 0 = 0 :: replicate (n - 1) 0.
Proof. destruct n as [|n]; intros Hn; [lia|]. cbn [replicate]. do 2 f_equal. lia. Qed.

Lemma c_string_array n s : 0 ∉ s -> zlen s < n -> c_string (str_array n s) = Ok s.
Proof. intros Hs Hn. unfold str_array. rewrite replicate_head by lia. by apply c_string_ok. Qed.

Lemma c_strcat_array n s t : 0 ∉ s -> zlen s + zlen t < n ->
  c_strcat (str_array n s) t = Ok (str_array n (s ++ t)).
Proof.
  intros Hs Hn. unfold c_strcat, c_strlen. rewrite c_string_array by (done || lia). cbn [obind].
  assert (length (str_array n s) = Z.to_nat n) as Hl by (unfold str_array; rewrite length_app, length_replicate; lia).
  unfold splice. rewrite length_app, Hl. cbn [length]. zdec. f_equal. unfold str_array.
  replace (Z.to_nat (zlen s)) with (length s) by lia. rewrite take_app_length.
  rewrite drop_app_ge, drop_replicate by lia. rewrite <- !app_assoc. do 2 f_equal.
  rewrite length_app. change [0] with (replicate 1 0). rewrite <- replicate_add. f_equal. lia.
Qed.

(** ** Parsing *)

Lemma skip_slashes_ok s m : 0 ∉ s -> skip_slashes (s ++ 0 :: m) = Ok (skip s ++ 0 :: m).
Proof.
  induction s as [|c s IH]; intros Hs; [done|]. apply not_elem_of_cons in Hs as [Hc Hs]. cbn [app skip_slashes skip].
  destruct (c =? SLASH); [by apply IH | done].
Qed.

Lemma copy_component_ok s m : forall store k, 0 ∉ s -> 0 <= k -> k + zlen (word s) <= zlen store ->
  copy_component (s ++ 0 :: m) store k
  = Ok (after s ++ 0 :: m, take (Z.to_nat k) store ++ word s ++ drop (Z.to_nat k + length (word s)) store).
Proof.
  induction s as [|c s IH]; intros store k Hs Hk Hl; cbn [app copy_component word after] in *.
  - rewrite andb_false_r. cbn [length app]. by rewrite Nat.add_0_r, take_drop.
  - apply not_elem_of_cons in Hs as [Hc Hs]. destruct (Z.eqb_spec c SLASH) as [->|Hne]; cbn [negb andb].
    + cbn [length app]. by rewrite Nat.add_0_r, take_drop.
    + replace (c =? 0) with false by (symmetry; apply Z.eqb_neq; congruence). cbn [negb length] in *.
      rewrite wr_in by lia. cbn [obind]. rewrite IH by (done || rewrite ?length_insert; lia). do 2 f_equal.
      replace (Z.to_nat (k + 1)) with (S (Z.to_nat k)) by lia.
      rewrite (take_S_r _ _ c) by (apply list_lookup_insert_eq; lia).
      rewrite take_insert_ge by lia. rewrite <- app_assoc. cbn [app]. do 3 f_equal.
      rewrite drop_insert_lt by lia. f_equal. lia.
Qed.

Lemma copy_component_overflow s m : forall store k, 0 ∉ s -> 0 <= k -> zlen store < k + zlen (word s) ->
  k <= zlen store -> copy_component (s ++ 0 :: m) store k = Err BadAccess.
Proof.
  induction s as [|c s IH]; intros store k Hs Hk Hl Hle; cbn [app copy_component word] in *; [cbn in Hl; lia|].
  apply not_elem_of_cons in Hs as [Hc Hs]. destruct (Z.eqb_spec c SLASH) as [->|Hne]; cbn [negb andb] in *; [cbn in Hl; lia|].
  replace (c =? 0) with false by (symmetry; apply Z.eqb_neq; congruence). cbn [negb length] in *.
  destruct (decide (k = zlen store)) as [->|].
  - unfold wr. by zdec.
  - rewrite wr_in by lia. cbn [obind]. apply IH; rewrite ?length_insert; done || lia.
Qed.

(** What a call gives: the first component in the store, and the rest of the path. *)
Lemma path_parse_ok s m store : 0 ∉ s -> zlen (word (skip s)) <= zlen store ->
  path_parse (s ++ 0 :: m) store
  = Ok (if decide (after (skip s) = []) then None else Some (after (skip s) ++ 0 :: m),
        word (skip s) ++ drop (length (word (skip s))) store).
Proof.
  intros Hs Hl. unfold path_parse.
  assert ((let! c := rd (s ++ 0 :: m) 0 in if c =? SLASH then skip_slashes (drop 1 (s ++ 0 :: m)) else Ok (s ++ 0 :: m))
          = Ok (skip s ++ 0 :: m)) as E.
  { destruct s as [|c s]; [done|]. change (rd ((c :: s) ++ 0 :: m) 0) with (Ok c). cbn [obind].
    change (drop 1 ((c :: s) ++ 0 :: m)) with (s ++ 0 :: m). cbn [skip].
    destruct (c =? SLASH); [|done]. apply skip_slashes_ok. by apply not_elem_of_cons in Hs as [_ Hs]. }
  destruct (rd (s ++ 0 :: m) 0) as [c|e] eqn:Er; [|discriminate E]. cbn [obind] in *. rewrite E. cbn [obind].
  rewrite copy_component_ok; [| intros H0; by apply Hs, in_skip | lia | lia]. cbn [obind].
  change (Z.to_nat 0) with 0%nat. rewrite Nat.add_0_l, take_0. cbn [app]. case_decide as Ha.
  - rewrite Ha. done.
  - destruct (after_slash (skip s)) as [|[r Hr]]; [done|]. rewrite Hr. done.
Qed.

Lemma path_parse_overflow s m store : 0 ∉ s -> zlen store < zlen (word (skip s)) ->
  path_parse (s ++ 0 :: m) store = Err BadAccess.
Proof.
  intros Hs Hl. unfold path_parse.
  assert (forall l, 0 ∉ l -> zlen store < zlen (word l) -> copy_component (l ++ 0 :: m) store 0 = Err BadAccess) as Hov
    by (intros; apply copy_component_overflow; done || lia).
  destruct s as [|c s]; [cbn in Hl; lia|]. change (rd ((c :: s) ++ 0 :: m) 0) with (Ok c). cbn [obind skip] in *.
  change (drop 1 ((c :: s) ++ 0 :: m)) with (s ++ 0 :: m). destruct (c =? SLASH).
  - apply not_elem_of_cons in Hs as [_ Hs]. rewrite skip_slashes_ok by done. cbn [obind]. rewrite Hov; [done| |done].
    intros H0. by apply Hs, in_skip.
  - cbn [obind]. by rewrite Hov.
Qed.

(** ** Depth *)

Definition short (w : list Z) : Prop := zlen w <= MAX_FILE_NAME_LEN.

#[export] Instance short_dec w : Decision (short w).
Proof. unfold short. apply _. Defined.

(** The words still to come when [name] and the rest [p] are at hand. *)
Definition pending (name : list Z) (r : list Z) : list (list Z) :=
  if decide (name = []) then [] else name :: components r.

Lemma pending_nil r : pending [] r = [].
Proof. unfold pending. by rewrite decide_True. Qed.

Lemma pending_cons w r : w <> [] -> pending w r = w :: components r.
Proof. intros Hw. unfold pending. by rewrite decide_False. Qed.

Lemma pending_step r : components r = pending (word (skip r)) (after (skip r)).
Proof. apply components_step. Qed.

Lemma depth_loop m : forall fuel r w depth pad, 0 ∉ r -> 0 ∉ w -> Forall short (components r) ->
  (w = [] -> exists t, pad = 0 :: t) ->
  (length (pending w r) < fuel)%nat -> 0 <= depth -> depth + zlen (pending w r) < 2 ^ 32 ->
  loop depth_body fuel (if decide (r = []) then None else Some (r ++ 0 :: m), w ++ pad, depth)
  = Ok (depth + zlen (pending w r)).
Proof.
  induction fuel as [|fuel IH]; intros r w depth pad Hr Hw Hs Hpad Hf Hd Hb; [lia|]. cbn [loop].
  unfold depth_body at 1. destruct w as [|c w].
  - destruct (Hpad eq_refl) as [t ->]. rewrite pending_nil. cbn. f_equal. lia.
  - rewrite pending_cons in * by done. cbn [length] in *.
    change (rd ((c :: w) ++ pad) 0) with (Ok c). cbn [obind]. apply not_elem_of_cons in Hw as [Hc Hw].
    replace (c =? 0) with false by (symmetry; apply Z.eqb_neq; congruence). rewrite u32_small by lia.
    pose proof (components_step r) as Hst.
    destruct (decide (r = [])) as [->|Hrn].
    + change (components []) with (@nil (list Z)) in *. cbn [length] in *. cbn [obind].
      destruct fuel as [|fuel]; [lia|]. reflexivity.
    + assert (short (word (skip r))) as Hsw.
      { rewrite Hst in Hs. destruct (decide (word (skip r) = [])) as [Hn|Hn]; [rewrite Hn; done|].
        by apply Forall_cons in Hs as [? _]. }
      unfold short, MAX_FILE_NAME_LEN in Hsw.
      rewrite path_parse_ok by (done || rewrite length_replicate; lia). cbn [obind]. rewrite drop_replicate.
      rewrite pending_step in Hf, Hb |- *. rewrite IH; [f_equal; lia | | | | | lia | lia | lia].
      * intros Hz. by apply Hr, in_skip, in_after.
      * intros Hz. by apply Hr, in_skip, in_word.
      * rewrite Hst in Hs. case_decide as Hn; [|by apply Forall_cons in Hs as [_ ?]].
        apply skip_word_nil in Hn. rewrite Hn. constructor.
      * intros ->. by eexists.
Qed.

Lemma depth_loop_overflow m : forall fuel r w depth pad, 0 ∉ r -> 0 ∉ w -> w <> [] -> ~ Forall short (components r) ->
  (length (components r) < fuel)%nat ->
  loop depth_body fuel (if decide (r = []) then None else Some (r ++ 0 :: m), w ++ pad, depth) = Err BadAccess.
Proof.
  induction fuel as [|fuel IH]; intros r w depth pad Hr Hw Hwn Hs Hf; [lia|]. cbn [loop].
  unfold depth_body at 1. destruct w as [|c w]; [done|]. change (rd ((c :: w) ++ pad) 0) with (Ok c). cbn [obind].
  apply not_elem_of_cons in Hw as [Hc Hw]. replace (c =? 0) with false by (symmetry; apply Z.eqb_neq; congruence).
  destruct (decide (r = [])) as [->|Hrn]; [by destruct Hs; constructor|].
  rewrite components_step in Hs, Hf. destruct (decide (word (skip r) = [])) as [Hn|Hn]; [by destruct Hs; constructor|].
  destruct (decide (short (word (skip r)))) as [Hsw|Hsw]; unfold short, MAX_FILE_NAME_LEN in Hsw.
  - rewrite path_parse_ok by (done || rewrite length_replicate; lia). cbn [obind length] in *.
    rewrite IH; [done | | | done | | lia].
    + intros Hz. by apply Hr, in_skip, in_after.
    + intros Hz. by apply Hr, in_skip, in_word.
    + intros Ha. apply Hs. by constructor.
  - rewrite path_parse_overflow by (done || rewrite length_replicate; change MAX_FILE_NAME_LEN with 16; lia). done.
Qed.

Lemma path_depth_short s m name0 : 0 ∉ s -> zlen name0 = MAX_FILE_NAME_LEN -> zlen s < 2 ^ 31 ->
  Forall short (components s) -> components s <> [] -> path_depth_cnt name0 (s ++ 0 :: m) = Ok (zlen (components s)).
Proof.
  intros Hs Hn Hl Hall Hne. unfold path_depth_cnt. unfold MAX_FILE_NAME_LEN in Hn. pose proof (components_length s) as Hcl.
  assert (0 ∉ after (skip s)) as Ha by (intros Hz; by apply Hs, in_skip, in_after).
  assert (0 ∉ word (skip s)) as Hw by (intros Hz; by apply Hs, in_skip, in_word).
  pose proof (pending_step s) as Hp. destruct (decide (word (skip s) = [])) as [Hwn|Hwn]; [by rewrite Hwn, pending_nil in Hp|].
  rewrite pending_cons in Hp by done. rewrite Hp in Hall, Hcl |- *. clear Hne. pose proof Hall as Hall'.
  apply Forall_cons in Hall' as [Hsw Hrest]. unfold short, MAX_FILE_NAME_LEN in Hsw.
  rewrite path_parse_ok by (done || lia). cbn [obind length] in *.
  rewrite depth_loop; try done; rewrite ?pending_cons, ?length_app by done; cbn [length obind] in *; try lia.
  f_equal. rewrite s32_small; lia.
Qed.

(** [path_depth_cnt] counts the components of a path, whatever slashes lie
    between and after them, if each fits the 16 bytes of [name]; a longer one is
    written past the array. For a path without components the answer depends on
    the first byte of [name], which the code does not initialise. *)
Theorem path_depth_spec s m name0 : 0 ∉ s -> zlen name0 = MAX_FILE_NAME_LEN -> zlen s < 2 ^ 31 ->
  path_depth_cnt name0 (s ++ 0 :: m)
  = if decide (Forall short (components s)) then
      Ok (if decide (components s = []) then (if decide (znth name0 0 = Some 0) then 0 else 1)
          else zlen (components s))
    else Err BadAccess.
Proof.
  intros Hs Hn Hl. unfold path_depth_cnt. unfold MAX_FILE_NAME_LEN in Hn. pose proof (components_length s) as Hcl.
  assert (0 ∉ after (skip s)) as Ha by (intros Hz; by apply Hs, in_skip, in_after).
  assert (0 ∉ word (skip s)) as Hw by (intros Hz; by apply Hs, in_skip, in_word).
  pose proof (pending_step s) as Hp. destruct (decide (word (skip s) = [])) as [Hwn|Hwn].
  - rewrite Hwn, pending_nil in Hp. rewrite Hp, decide_True, decide_True by (done || constructor).
    rewrite path_parse_ok by (done || (rewrite Hwn; cbn [length]; lia)). rewrite Hwn, (skip_word_nil s Hwn). cbn [after length app drop obind].
    rewrite decide_True, drop_0 by done. destruct name0 as [|c name0]; [done|].
    cbn [loop plus]. unfold depth_body at 1. change (rd (c :: name0) 0) with (Ok c). cbn [obind].
    change (znth (c :: name0) 0) with (Some c). destruct (Z.eqb_spec c 0) as [->|Hc]; [by rewrite decide_True|].
    by rewrite decide_False by congruence.
  - rewrite pending_cons in Hp by done. case_decide as Hall.
    + rewrite (decide_False (P := components s = [])) by (by rewrite Hp).
      apply path_depth_short; try done. by rewrite Hp.
    + rewrite Hp in Hcl, Hall. destruct (decide (short (word (skip s)))) as [Hsw|Hsw]; unfold short, MAX_FILE_NAME_LEN in Hsw.
      * rewrite path_parse_ok by (done || lia). cbn [obind length] in *.
        rewrite depth_loop_overflow; try done; [intros Hf; apply Hall; by constructor | rewrite length_app; lia].
      * by rewrite path_parse_overflow by (done || lia).
Qed.

Lemma path_depth_witness : path_depth_cnt (replicate 16 7) ([47; 97; 47; 47; 98; 99; 47] ++ 0 :: [5]) = Ok 2.
Proof. rewrite path_depth_spec; [reflexivity | compute_done | reflexivity | reflexivity]. Defined.
