(* ===== verification/Search.v ===== *)
(** Correctness of [search_file] of Path.v: resolving a path is one directory
    lookup per component, and leaves exactly the parent directory open. *)
From S2P Require Import Prelude Bitmap Ide Blockdev Inode File Filewrite Dir Path.

(** ** Specification *)

Section spec.
Context {D H : Type} `{BlockDevice D} `{KernelHeap H}.
Abbreviation fs := (fstate D H).

(** An inode by number: the one in memory, or the one on the disk. *)
Definition inode_view (f : fs) (no : Z) : outcome inode :=
  match find_open (inodes f) (open_inodes (cur_part f)) no with
  | Ok (Some (_, i)) => Ok i
  | _ => disk_inode (medium f) (cur_part f) no
  end.

Definition same_inode (i j : inode) : Prop :=
  i_no i = i_no j /\ i_size i = i_size j /\ i_sectors i = i_sectors j /\ write_deny i = write_deny j.

(** No count of openings wraps within [k] more. *)
Definition counts_below (k : Z) (f : fs) : Prop := forall a i, inodes f !! a = Some i -> i_open_cnts i + k < 2 ^ 32.

(** The entry of a name in directory [no]. *)
Definition lookup_in (f : fs) (no : Z) (name : list Z) : option (list Z) :=
  match inode_view f no with Ok i => dir_lookup (medium f) i name | Err _ => None end.

(** The directories [dirs] hold the root and every directory that has an entry in
    one of them, and can be walked. *)
Definition tree_entry (dirs : list Z) (e : list Z) : Prop :=
  (entry_type e = FT_DIRECTORY /\ entry_no e ∈ dirs) \/ (entry_type e = FT_REGULAR /\ 0 <= entry_no e < 4096).

Record tree_ok (f : fs) (dirs : list Z) : Prop := {
  tree_root : 0 ∈ dirs;
  tree_dir no : no ∈ dirs -> 0 <= no < 4096 /\ exists i, inode_view f no = Ok i /\ i_no i = no
    /\ dir_readable (medium f) i /\ forall name e, name <> [] -> dir_lookup (medium f) i name = Some e -> tree_entry dirs e }.

(** Where a path leads, with the number of the directory that is its parent:
    the last component is missing there, or is a file there, or is directory
    [no]. The components seen are those up to the one that decides. *)
Inductive answer := Missing (parent : Z) | Regular (parent no : Z) | Directory (parent no : Z).

Fixpoint resolve (f : fs) (parent no : Z) (seen names : list (list Z)) : list (list Z) * answer :=
  match names with
  | [] => (seen, Directory parent no)
  | name :: names =>
      match lookup_in f no name with
      | None => (seen ++ [name], Missing no)
      | Some e => if entry_type e =? FT_DIRECTORY then resolve f no (entry_no e) (seen ++ [name]) names
                  else (seen ++ [name], Regular no (entry_no e))
      end
  end.

Definition answer_parent (a : answer) : Z :=
  match a with Missing p => p | Regular p _ => p | Directory p _ => p end.
Definition answer_type (a : answer) : Z :=
  match a with Missing _ => FT_UNKNOWN | Regular _ _ => FT_REGULAR | Directory _ _ => FT_DIRECTORY end.
Definition answer_no (a : answer) : Z :=
  match a with Missing _ => -1 | Regular _ no => no | Directory _ no => no end.

(** State [f1] has inode [no] at [a], besides all of [f]. *)
Record held_view (f : fs) (no : Z) (f1 : fs) (a : Z) : Prop := {
  hv_inode : exists i j, inode_view f no = Ok i /\ get_inode f1 a = Ok j /\ same_inode i j;
  hv_open : a ∈ open_inodes (cur_part f1);
  hv_medium : medium f1 = medium f;
  hv_part : exists l, cur_part f1 = set_open l (cur_part f);
  hv_rest : file_table f1 = file_table f /\ kern f1 = kern f;
  hv_mem : mem_ok f1;
  hv_counts k : k < 1000 -> counts_below (k + 1) f -> counts_below k f1;
  hv_view m i : inode_view f m = Ok i -> exists j, inode_view f1 m = Ok j /\ same_inode i j;
  hv_others b i : b ∈ open_inodes (cur_part f) -> inodes f !! b = Some i ->
    b ∈ open_inodes (cur_part f1) /\ exists j, inodes f1 !! b = Some j /\ same_inode i j }.

(** How inode [no] is open at [a], in a state that is [f] otherwise and has heap [h]:
    it was open before, or it has been read from the disk. *)
Inductive open_as (f : fs) (h : H) (no a : Z) : bool -> fs -> Prop :=
  | open_again i : a ∈ open_inodes (cur_part f) -> inodes f !! a = Some i -> i_no i = no ->
      open_as f h no a false (put_inode a (set_cnts (i_open_cnts i + 1) i) (with_kheap h f))
  | open_new i : not_open f no -> disk_inode (medium f) (cur_part f) no = Ok i -> i_no i = no ->
      a <> 0 -> inodes f !! a = None -> open_as f h no a true (opened f h a i).

(** The block an inode read from the disk takes. *)
Definition inode_block (fresh : bool) (a : Z) (k : bool) (b : Z) : Prop := fresh = true /\ k = true /\ b = a.

(** [x] is the root directory, open all the time, or has a block of its own. *)
Definition dir_shape (f : fs) (no : Z) (f1 : fs) (x : dir) : Prop :=
  match dir_self x with
  | None => f1 = with_kheap (kheap f1) f /\ same_live (kheap f) (kheap f1)
  | Some p => exists fresh, open_as f (kheap f1) no (dir_inode x) fresh f1
      /\ ~ live (kheap f) false p /\ (fresh = true -> ~ live (kheap f) true (dir_inode x))
      /\ forall k b, live (kheap f1) k b <-> live (kheap f) k b \/ (k = false /\ b = p) \/ inode_block fresh (dir_inode x) k b
  end.

(** State [f1] is [f] with [x] open on directory [no], but for the heap: closing
    [x] gives [f] back, with the same blocks of the heap in use. *)
Record dir_held (f : fs) (no : Z) (f1 : fs) (x : dir) : Prop := {
  dh_view : held_view f no f1 (dir_inode x);
  dh_close n h : same_live (kheap f1) h -> roomy (2 + n) h ->
    exists h', dir_close (with_kheap h f1) x = Ok (with_kheap h' f) /\ same_live (kheap f) h' /\ roomy n h';
  dh_shape : dir_shape f no f1 x }.

(** [root_dir] as [open_root_dir] leaves it. *)
Record root_ok (f : fs) (root_dir : dir) : Prop := {
  root_self : dir_self root_dir = None;
  root_open : dir_inode root_dir ∈ open_inodes (cur_part f);
  root_inode : exists i, get_inode f (dir_inode root_dir) = Ok i /\ i_no i = 0 }.

#[export] Instance same_live_refl : Reflexive (@same_live H _).
Proof. by intros h k a. Qed.

#[export] Instance same_live_trans : Transitive (@same_live H _).
Proof. intros h1 h2 h3 E1 E2 k a. by rewrite (E1 k a). Qed.

End spec.

Section lemmas.
Context {D H : Type} `{BlockDeviceLaws D} `{KernelHeapLaws H}.
Abbreviation fs := (fstate D H).
Implicit Types (f : fs) (i : inode) (d : D) (h : H).

(** ** Opening and closing a directory *)

Lemma mem_ok_heap f h : mem_ok f -> (forall a, live (kheap f) true a -> live h true a) -> mem_ok (with_kheap h f).
Proof.
  intros [M1 M2 M3 M4] Hl. split; cbn; try done. intros a i Ha. destruct (M3 a i Ha). auto.
Qed.

Lemma inode_view_hit f a i : mem_ok f -> a ∈ open_inodes (cur_part f) -> inodes f !! a = Some i ->
  inode_view f (i_no i) = Ok i.
Proof.
  intros M Ha Hi. unfold inode_view.
  destruct (find_open_spec f (i_no i) (open_inodes (cur_part f))) as [(b & j & E & Hb & Hj & Hbn)|[E Hbn]].
  { intros b Hb. destruct (mem_open f M b Hb) as (j & Hj & _). by exists j. }
  - rewrite E. assert (b = a) as -> by eauto using mem_one. congruence.
  - by destruct (Hbn a i Ha Hi).
Qed.

(** An inode is open, or its view is the disk's. *)
Lemma inode_view_cases f no i : mem_ok f -> inode_view f no = Ok i ->
  (exists a, a ∈ open_inodes (cur_part f) /\ inodes f !! a = Some i /\ i_no i = no)
  \/ (not_open f no /\ disk_inode (medium f) (cur_part f) no = Ok i).
Proof.
  intros M. unfold inode_view.
  destruct (find_open_spec f no (open_inodes (cur_part f))) as [(b & j & E & Hb & Hj & Hbn)|[E Hbn]].
  { intros b Hb. destruct (mem_open f M b Hb) as (j & Hj & _). by exists j. }
  - rewrite E. intros [= <-]. left. by exists b.
  - rewrite E. intros Hd. right. split; [|done]. intros a j Ha Hj. by apply (Hbn a j).
Qed.

Lemma inode_view_miss f no : mem_ok f -> not_open f no -> inode_view f no = disk_inode (medium f) (cur_part f) no.
Proof.
  intros M Hn. unfold inode_view.
  destruct (find_open_spec f no (open_inodes (cur_part f))) as [(b & j & E & Hb & Hj & Hbn)|[E _]].
  { intros b Hb. destruct (mem_open f M b Hb) as (j & Hj & _). by exists j. }
  - by destruct (Hn b j Hb Hj).
  - by rewrite E.
Qed.

Lemma inode_view_total f no : exists i, inode_view f no = Ok i.
Proof.
  unfold inode_view. destruct (disk_inode_total (medium f) (cur_part f) no) as (i & Hd & _). rewrite Hd.
  destruct (find_open _ _ _) as [[[b j]|]|]; by eexists.
Qed.

(** The views after an open inode has changed its count, or another was opened. *)
Lemma view_put f a c i : mem_ok f -> a ∈ open_inodes (cur_part f) -> inodes f !! a = Some i -> 1 <= c < 2 ^ 32 ->
  forall m j, inode_view f m = Ok j -> exists j', inode_view (put_inode a (set_cnts c i) f) m = Ok j' /\ same_inode j j'.
Proof.
  intros M Ha Hi Hc m j Hv. assert (mem_ok (put_inode a (set_cnts c i) f)) as M1 by (by apply (mem_ok_put f a i)).
  destruct (inode_view_cases f m j M Hv) as [(b & Hb & Hj & <-)|[Hmiss Hd]].
  - destruct (decide (b = a)) as [->|Hne].
    + assert (j = i) as -> by congruence. exists (set_cnts c i). split; [|done].
      apply (inode_view_hit _ a (set_cnts c i) M1); [done|]. apply lookup_insert_eq.
    + exists j. split; [|done]. apply (inode_view_hit _ b j M1); [done|]. cbn. by rewrite lookup_insert_ne by congruence.
  - exists j. split; [|done]. rewrite inode_view_miss; [done|done|]. intros b k Hb Hk. cbn in Hb, Hk.
    destruct (decide (b = a)) as [->|Hne]; [rewrite lookup_insert_eq in Hk; injection Hk as <-; by apply (Hmiss a i)|].
    rewrite lookup_insert_ne in Hk by congruence. by apply (Hmiss b k).
Qed.

Lemma view_opened f h a i : mem_ok f -> mem_ok (opened f h a i) -> inodes f !! a = None -> inode_view f (i_no i) = Ok i ->
  forall m j, inode_view f m = Ok j -> exists j', inode_view (opened f h a i) m = Ok j' /\ same_inode j j'.
Proof.
  intros M M1 Ha Hvi m j Hv. destruct (decide (m = i_no i)) as [->|Hm].
  - assert (j = i) as -> by congruence. exists (set_cnts 1 i). split; [|done].
    apply (inode_view_hit _ a (set_cnts 1 i) M1); [by left|]. apply lookup_insert_eq.
  - exists j. split; [|done]. destruct (inode_view_cases f m j M Hv) as [(b & Hb & Hj & <-)|[Hmiss Hd]].
    + apply (inode_view_hit _ b j M1); [by right|]. cbn. rewrite lookup_insert_ne; [done|]. congruence.
    + rewrite inode_view_miss; [done|done|]. intros b k Hb Hk. cbn in Hb, Hk.
      destruct (decide (b = a)) as [->|Hne]; [rewrite lookup_insert_eq in Hk; injection Hk as <-; cbn; congruence|].
      rewrite lookup_insert_ne in Hk by congruence. apply elem_of_cons in Hb as [|Hb]; [done|]. by apply (Hmiss b k).
Qed.

(** Opening an inode, whichever way. *)
Lemma inode_open_shape n f h no i : mem_ok (with_kheap h f) -> geometry (cur_part f) -> counts_below 1 f ->
  0 <= no < 4096 -> inode_view f no = Ok i -> i_no i = no -> roomy (3 + n) h ->
  exists f1 a fresh, inode_open (with_kheap h f) no = Ok (f1, a) /\ roomy n (kheap f1) /\ open_as f (kheap f1) no a fresh f1
    /\ (fresh = true -> ~ live h true a) /\ forall k b, live (kheap f1) k b <-> live h k b \/ inode_block fresh a k b.
Proof.
  intros M G C Hno Hv Hin R.
  destruct (inode_view_cases (with_kheap h f) no i M Hv) as [(a & Ha & Hi & _)|[Hmiss Hd]].
  - assert (i_open_cnts i + 1 < 2 ^ 32) as Hc by (by apply (C a i)).
    destruct (inode_open_hit _ a i M Ha Hi ltac:(lia)) as [Eo _]. rewrite Hin in Eo.
    eexists _, a, false. split; [exact Eo|]. split; [by apply (roomy_le n 3)|]. split; [by apply open_again|].
    split; [done|]. intros k b. cbn. split; [by left|]. by intros [|[? _]].
  - destruct (inode_open_miss _ no i M G Hno Hmiss n R Hd) as (h2 & a & Eo & Na & Ha & Hdead & R2 & L2).
    cbn [inodes with_kheap kheap] in Ha, Hdead, L2. exists (opened f h2 a i), a, true.
    split; [exact Eo|]. split; [exact R2|]. split; [by apply open_new|]. split; [done|].
    intros k b. unfold inode_block. rewrite L2. tauto.
Qed.

(** What such a state promises, and that closing the inode gives [f] back. *)
Lemma open_as_mem f h no a fresh f1 : mem_ok (with_kheap h f) -> (fresh = true -> live h true a) -> counts_below 1 f ->
  0 <= no < 4096 -> open_as f h no a fresh f1 -> mem_ok f1.
Proof.
  intros M Hf C Hno Ho. revert Hf. destruct Ho as [i Ha Hi Hin|i Hmiss Hd Hin Na Ha]; intros Hf.
  - assert (i_open_cnts i + 1 < 2 ^ 32) as Hc by (by apply (C a i)).
    destruct (mem_open _ M a Ha) as (i' & Hi' & _ & Hci). cbn in Hi'. rewrite Hi in Hi'. injection Hi' as <-.
    apply (mem_ok_put _ a i); try done. cbn. lia.
  - change (opened f h a i) with (opened (with_kheap h f) h a i). apply mem_ok_opened; try done; [lia | by rewrite Hin|].
    intros k b [Hb|[-> ->]]; [done | by apply Hf].
Qed.

Lemma open_as_held f h no a fresh f1 i : mem_ok (with_kheap h f) -> (fresh = true -> live h true a) -> counts_below 1 f ->
  0 <= no < 4096 -> inode_view f no = Ok i -> open_as f h no a fresh f1 -> held_view f no f1 a.
Proof.
  intros M Hf C Hno Hv Ho. pose proof (open_as_mem f h no a fresh f1 M Hf C Hno Ho) as M1.
  destruct Ho as [j Ha Hi Hin|j Hmiss Hd Hin Na Ha].
  - assert (i_open_cnts j + 1 < 2 ^ 32) as Hc by (by apply (C a j)).
    destruct (mem_open _ M a Ha) as (j' & Hi' & _ & Hci). cbn in Hi'. rewrite Hi in Hi'. injection Hi' as <-.
    split; [| done | done | | done | done | | |].
    + exists j, (set_cnts (i_open_cnts j + 1) j). split; [rewrite <- Hin; by apply (inode_view_hit (with_kheap h f) a)|]. split; [|done].
      unfold get_inode. cbn. by rewrite lookup_insert_eq.
    + exists (open_inodes (cur_part f)). by destruct f as [? [] ? ? ? ?].
    + intros k Hk Ck b l. cbn. destruct (decide (b = a)) as [->|Hne].
      * rewrite lookup_insert_eq. intros [= <-]. specialize (Ck a j Hi). cbn. lia.
      * rewrite lookup_insert_ne by congruence. intros Hj. specialize (Ck b l Hj). lia.
    + apply (view_put (with_kheap h f) a); try done. lia.
    + intros b l Hb Hj. split; [done|]. cbn. destruct (decide (b = a)) as [->|Hne].
      * rewrite lookup_insert_eq. eexists; split; [done|]. by replace l with j by congruence.
      * rewrite lookup_insert_ne by congruence. by exists l.
  - assert (inode_view f no = Ok j) as Hvj by (change (inode_view (with_kheap h f) no = Ok j); by rewrite inode_view_miss).
    split; [| by left | done | by eexists | done | done | | |].
    + exists j, (set_cnts 1 j). split; [done|]. split; [|done]. unfold get_inode. cbn. by rewrite lookup_insert_eq.
    + intros k Hk Ck b l. cbn. destruct (decide (b = a)) as [->|Hne].
      * rewrite lookup_insert_eq. intros [= <-]. cbn. lia.
      * rewrite lookup_insert_ne by congruence. intros Hj. specialize (Ck b l Hj). lia.
    + apply (view_opened (with_kheap h f) h a j M M1 Ha). by rewrite Hin.
    + intros b l Hb Hj. split; [by right|]. cbn. rewrite lookup_insert_ne by congruence. by exists l.
Qed.

Lemma open_as_close f h no a fresh f1 n h' : mem_ok (with_kheap h' f) -> counts_below 1 f -> (fresh = true -> live h' true a) ->
  open_as f h no a fresh f1 -> roomy (1 + n) h' ->
  exists h2, inode_close (with_kheap h' f1) a = Ok (with_kheap h2 f) /\ roomy n h2
    /\ forall k b, live h2 k b <-> live h' k b /\ ~ inode_block fresh a k b.
Proof.
  intros M C Hf Ho R. revert Hf. destruct Ho as [i Ha Hi Hin|i Hmiss Hd Hin Na Ha]; intros Hf.
  - assert (i_open_cnts i + 1 < 2 ^ 32) as Hc by (by apply (C a i)).
    destruct (inode_open_hit (with_kheap h' f) a i M Ha Hi ltac:(lia)) as [_ Ec]. exists h'.
    split; [exact Ec|]. split; [by apply roomy_less|]. intros k b. split; [intros; split; [done|by intros [? _]] | tauto].
  - change (with_kheap h' (opened f h a i)) with (opened f h' a i). rewrite inode_close_opened; [|done|].
    2: { intros Hb. destruct (mem_open _ M a Hb) as (j & Hj & _). cbn in Hj. congruence. }
    exists (sys_free h' true a). split; [done|]. split; [by apply R, Hf|]. intros k b. unfold inode_block. rewrite free_gone by (by apply Hf). tauto.
Qed.

(** Both in one; [fresh] when the inode has been read from the disk into a new
    block of the kernel's heap. *)
Lemma inode_open_held n f h no i : mem_ok (with_kheap h f) -> geometry (cur_part f) -> counts_below 1 f ->
  0 <= no < 4096 -> inode_view f no = Ok i -> i_no i = no -> roomy (3 + n) h ->
  exists f1 a (fresh : bool), inode_open (with_kheap h f) no = Ok (f1, a) /\ roomy n (kheap f1) /\ held_view f no f1 a
    /\ (fresh = true -> ~ live h true a)
    /\ (forall k b, live (kheap f1) k b <-> live h k b \/ (fresh = true /\ k = true /\ b = a))
    /\ forall n' h', (forall k b, live (kheap f1) k b -> live h' k b) -> roomy (1 + n') h' ->
        exists h2, inode_close (with_kheap h' f1) a = Ok (with_kheap h2 f) /\ roomy n' h2
          /\ forall k b, live h2 k b <-> live h' k b /\ ~ (fresh = true /\ k = true /\ b = a).
Proof.
  intros M G C Hno Hv Hin R. destruct (inode_open_shape n f h no i M G C Hno Hv Hin R) as (f1 & a & fresh & Eo & R1 & Ho & Hf & L).
  assert (forall h', (forall k b, live (kheap f1) k b -> live h' k b) -> mem_ok (with_kheap h' f)) as M'.
  { intros h' Hl. apply (mem_ok_heap (with_kheap h f) h' M). intros b Hb. apply Hl, L. by left. }
  assert (fresh = true -> live (kheap f1) true a) as Hfa by (intros ->; apply L; by right).
  exists f1, a, fresh. split; [done|]. split; [done|]. split; [|split; [done|split; [done|]]].
  - by apply (open_as_held f (kheap f1) no a fresh f1 i); [apply M'|..].
  - intros n' h' Hl R'. by apply (open_as_close f (kheap f1) no a fresh f1); [apply M' | | auto | |].
Qed.

Lemma dir_held_root f h root_dir : mem_ok f -> root_ok f root_dir -> same_live (kheap f) h ->
  dir_held f 0 (with_kheap h f) root_dir.
Proof.
  intros M [Hself Ho (i & Hi & Hno)] Hl. split.
  - split.
    + exists i, i. split; [|done]. unfold get_inode in Hi. destruct (inodes f !! dir_inode root_dir) as [j|] eqn:E; [|done].
      injection Hi as ->. rewrite <- Hno. by apply (inode_view_hit f (dir_inode root_dir)).
    + done.
    + done.
    + exists (open_inodes (cur_part f)). by destruct f as [? [] ? ? ? ?].
    + done.
    + apply mem_ok_heap; [done|]. intros a Ha. by apply Hl.
    + intros k Hk C a j Ha. specialize (C a j Ha). lia.
    + intros m j Hj. by exists j.
    + intros b j Hb Hj. split; [done|]. by exists j.
  - intros n h' Hl' R. exists h'. unfold dir_close. rewrite Hself. split; [done|]. split; [by rewrite Hl|].
    by apply (roomy_le n 2).
  - unfold dir_shape. by rewrite Hself.
Qed.

(** A directory with a block of its own, from its shape. *)
Lemma dir_held_shape f no f1 x p i : mem_ok f -> counts_below 1 f -> 0 <= no < 4096 -> inode_view f no = Ok i ->
  dir_self x = Some p -> dir_shape f no f1 x -> dir_held f no f1 x.
Proof.
  intros M C Hno Hv Hp Hsh. pose proof Hsh as Hsh'. unfold dir_shape in Hsh. rewrite Hp in Hsh. destruct Hsh as (fresh & Ho & Np & Nf & L).
  assert (forall h', same_live (kheap f1) h' -> mem_ok (with_kheap h' f)) as M'.
  { intros h' Hl. apply mem_ok_heap; [done|]. intros b Hb. apply Hl, L. by left. }
  assert (fresh = true -> live (kheap f1) true (dir_inode x)) as Hfa by (intros ->; apply L; by right; right).
  split; [|intros n h Hl R|done].
  - by apply (open_as_held f (kheap f1) no (dir_inode x) fresh f1 i); [apply M'|..].
  - unfold dir_close. rewrite Hp.
    destruct (open_as_close f (kheap f1) no (dir_inode x) fresh f1 (1 + n) h) as (h4 & Ec & R4 & L4); try done; [by apply M' | intros; by apply Hl, Hfa|].
    rewrite Ec. cbn [obind]. assert (live h4 false p) as Lp.
    { apply L4. split; [apply Hl, L; by right; left | by intros (_ & ? & _)]. }
    exists (sys_free h4 false p). split; [done|]. split; [|by apply R4]. intros k b. rewrite free_gone by done. rewrite L4, <- (Hl k b), L. unfold inode_block. split.
    + intros Hb. split; [split; [by left|] |].
      * intros (Ht & -> & ->). by apply Nf.
      * intros [-> ->]. by apply Np.
    + intros [[[?|[?|?]] Ha'] Hp']; [done | by destruct Hp' | by destruct Ha'].
Qed.

Lemma dir_open_held n f h no i : mem_ok f -> geometry (cur_part f) -> counts_below 1 f -> same_live (kheap f) h ->
  0 <= no < 4096 -> inode_view f no = Ok i -> i_no i = no -> roomy (4 + n) h ->
  exists f1 x, dir_open (with_kheap h f) no = Ok (f1, x) /\ dir_held f no f1 x /\ roomy n (kheap f1).
Proof.
  intros M G C Hl Hno Hv Hin R. unfold dir_open. cbn [kheap with_kheap].
  destruct (roomy_malloc _ h false sizeof_dir R ltac:(done)) as (h1 & p & E1 & N1 & R1 & F1 & L1). rewrite E1.
  change (with_kheap h1 (with_kheap h f)) with (with_kheap h1 f).
  assert (mem_ok (with_kheap h1 f)) as M1 by (apply mem_ok_heap; [done|]; intros a Ha; apply L1; left; by apply Hl).
  destruct (inode_open_shape n f h1 no i M1 G C Hno Hv Hin R1) as (f1 & a & fresh & Eo & R2 & Ho & Hf & L2).
  rewrite Eo. cbn [obind]. apply Z.eqb_neq in N1 as Np. rewrite Np. eexists _, _. split; [done|]. split; [|done].
  apply (dir_held_shape f no f1 _ p i); try done. exists fresh. split; [done|]. split; [by intros ?%Hl|]. split.
  - intros Hfr Hb. apply (Hf Hfr), L1. left. by apply Hl.
  - intros k b. rewrite L2, L1, (Hl k b). cbn [dir_inode]. tauto.
Qed.

(** ** The walk *)

Lemma dir_lookup_length d i name e : dir_lookup d i name = Some e -> zlen e = 24.
Proof.
  intros He. apply List.find_some in He as [He _]. unfold dir_slots, slots_of in He.
  apply in_concat in He as (l & Hl & He). apply in_map_iff in Hl as (lba & <- & _). apply in_map_iff in He as (j & <- & Hj).
  apply list_elem_of_In, elem_of_seqZ in Hj. pose proof (sector_len d lba) as Hs. unfold SECTOR_SIZE in Hs.
  unfold slot. rewrite length_take, length_drop. lia.
Qed.

Lemma word_at_ok l off : 0 <= off -> off + 4 <= zlen l -> rd_le32 l off = Ok (word_at l off).
Proof.
  intros Ho Hl. unfold word_at. unfold rd_le32.
  destruct (znth_in l off) as [a Ea]; [lia|]. destruct (znth_in l (off + 1)) as [b Eb]; [lia|].
  destruct (znth_in l (off + 2)) as [c Ec]; [lia|]. destruct (znth_in l (off + 3)) as [x Ex]; [lia|].
  rewrite (rd_znth _ _ _ Ea), (rd_znth _ _ _ Eb), (rd_znth _ _ _ Ec), (rd_znth _ _ _ Ex). done.
Qed.

Lemma entry_fields e : zlen e = 24 -> de_f_type e 0 = Ok (entry_type e) /\ de_i_no e 0 = Ok (entry_no e).
Proof. intros He. unfold de_f_type, de_i_no, entry_type, entry_no. split; apply word_at_ok; cbn; lia. Qed.

Lemma splice_all {A} (l s : list A) : length l = length s -> splice l 0 s = Ok s.
Proof.
  intros Hl. unfold splice. zdec. change (Z.to_nat 0) with 0%nat. rewrite take_0, Nat.add_0_l, drop_ge by lia.
  by rewrite app_nil_r.
Qed.

Lemma join_snoc ws w : join (ws ++ [w]) = join ws ++ SLASH :: w.
Proof. unfold join. rewrite map_app, concat_app. cbn. by rewrite app_nil_r. Qed.

Lemma join_cons w ws : join (w :: ws) = (SLASH :: w) ++ join ws.
Proof. done. Qed.

(** A name in its array of 16 bytes, and paths that fit [searched_path]. *)
Definition fits (w : list Z) : Prop := zlen w < MAX_FILE_NAME_LEN.

Lemma fits_short ws : Forall fits ws -> Forall short ws.
Proof. intros Hf. eapply Forall_impl; [done|]. unfold fits, short. intros w Hw. cbn in Hw. lia. Qed.

Lemma record_name_ok p x ty w : 0 ∉ p -> 0 ∉ w -> fits w -> zlen p + 1 + zlen w < 512 ->
  record_name (mk_psr (str_array 512 p) x ty) (str_array 16 w)
  = Ok (mk_psr (str_array 512 (p ++ SLASH :: w)) x ty, w).
Proof.
  intros Hp Hw Hf Hl. unfold record_name, c_strlen. cbn [searched_path].
  rewrite c_string_array by (done || lia). cbn [obind]. zdec. cbn [c_assert obind].
  rewrite c_strcat_array by (done || cbn; lia). cbn [obind]. unfold fits, MAX_FILE_NAME_LEN in Hf.
  rewrite c_string_array by (done || lia). cbn [obind]. rewrite c_strcat_array; [cbn [obind] | |].
  - by rewrite <- app_assoc.
  - intros Hz. apply elem_of_app in Hz as [|Hz]; [done|]. by apply list_elem_of_singleton in Hz.
  - rewrite length_app. cbn. lia.
Qed.

(** The loop of [search_file], before each pass: [w] is the component at hand,
    [r] the rest of the path, [no] the directory held. *)
Record search_inv (f : fs) (m : list Z) (seen : list (list Z)) (w r : list Z) (parent no eno : Z)
    (v : search_vars D H) : Prop := {
  si_name : sv_name v = str_array 16 w;
  si_sub : sub_path v = if decide (r = []) then None else Some (r ++ 0 :: m);
  si_rec : searched_record v = mk_psr (str_array 512 (join seen)) (Some (sv_parent v)) FT_UNKNOWN;
  si_held : dir_held f no (sv_fs v) (sv_parent v);
  si_pno : parent_inode_no v = parent;
  si_entry : zlen (dir_e v) = 24 /\ entry_no (dir_e v) = eno;
  si_clean : (0 ∉ w) /\ (0 ∉ r) /\ (0 ∉ join seen);
  si_fits : Forall fits (pending w r);
  si_len : zlen (join seen) + zlen (join (pending w r)) < 512 }.

(** The path_parse of a pass. *)
Lemma next_component r m : 0 ∉ r -> Forall fits (components r) ->
  (match (if decide (r = []) then None else Some (r ++ 0 :: m)) with
   | Some p => path_parse p (replicate (Z.to_nat MAX_FILE_NAME_LEN) 0)
   | None => Ok (None, replicate (Z.to_nat MAX_FILE_NAME_LEN) 0) end)
  = Ok (if decide (after (skip r) = []) then None else Some (after (skip r) ++ 0 :: m), str_array 16 (word (skip r))).
Proof.
  intros Hr Hf. assert (fits (word (skip r))) as Hw.
  { rewrite components_step in Hf. case_decide as Hn; [by rewrite Hn | by apply Forall_cons in Hf as [? _]]. }
  unfold fits, MAX_FILE_NAME_LEN in Hw. destruct (decide (r = [])) as [->|Hn]; [done|].
  rewrite path_parse_ok by (done || rewrite length_replicate; change MAX_FILE_NAME_LEN with 16; lia).
  rewrite drop_replicate. do 2 f_equal. unfold str_array, MAX_FILE_NAME_LEN. do 2 f_equal. lia.
Qed.

(** What the loop leaves, by where the path leads. *)
Definition search_end (f : fs) (n : nat) (m : list Z) (eno : Z) (names : list (list Z)) (a : list (list Z) * answer)
    (e : search_vars D H + fs * path_search_record * Z) : Prop :=
  match a with
  | (seen, Directory p no) => exists v r, e = inl v /\ search_inv f m seen [] r p no (if decide (names = []) then eno else no) v
                               /\ roomy (12 + n) (kheap (sv_fs v))
  | (seen, ans) => exists f1 x, e = inr (f1, mk_psr (str_array 512 (join seen)) (Some x) (answer_type ans), answer_no ans)
                               /\ dir_held f (answer_parent ans) f1 x /\ roomy n (kheap f1)
  end.

Lemma same_sectors d i j : i_sectors j = i_sectors i ->
  (forall name, dir_lookup d j name = dir_lookup d i name) /\ (dir_readable d i -> dir_readable d j).
Proof.
  intros Hs. assert (dir_lbas d j 0 140 = dir_lbas d i 0 140) as Hl.
  { unfold dir_lbas. f_equal. apply map_ext. intros k. unfold file_block, indirect_table. by rewrite Hs. }
  assert (dir_slots d j = dir_slots d i) as Hsl by (unfold dir_slots; by rewrite Hl). split.
  - intros name. unfold dir_lookup. by rewrite Hsl.
  - intros [R1 R2 R3 R4]. split; rewrite ?Hl, ?Hsl, ?Hs; try done. destruct R2 as [|R2]; [by left | right].
    unfold has_table in *. by rewrite Hs.
Qed.

Lemma dir_shape_heap f no f1 x h : dir_shape f no f1 x -> same_live (kheap f1) h -> dir_shape f no (with_kheap h f1) x.
Proof.
  unfold dir_shape. destruct (dir_self x) as [p|].
  - intros (fresh & Ho & Np & Nf & L) Hl. exists fresh. split; [|split; [done|split; [done|]]].
    + destruct Ho as [i|i]; [by apply (open_again f h no _ i) | by apply (open_new f h no _ i)].
    + intros k b. cbn. by rewrite <- (Hl k b), L.
  - intros [E L] Hl. split; [by rewrite E|]. cbn. by rewrite <- Hl.
Qed.

(** One pass, for each outcome of the lookup. *)
Lemma search_pass f m dirs seen c w r parent no eno v n : mem_ok f -> geometry (cur_part f) -> counts_below 1 f ->
  dir_entry_size (sb (cur_part f)) = 24 -> tree_ok f dirs -> no ∈ dirs ->
  search_inv f m seen (c :: w) r parent no eno v -> roomy (12 + n) (kheap (sv_fs v)) ->
  match lookup_in f no (c :: w) with
  | None => exists f1 x, search_body v = Ok (inr (inr (f1, mk_psr (str_array 512 (join (seen ++ [c :: w]))) (Some x) FT_UNKNOWN, -1)))
                    /\ dir_held f no f1 x /\ roomy n (kheap f1)
  | Some e => if entry_type e =? FT_DIRECTORY then
                entry_no e ∈ dirs /\
                exists v', search_body v = Ok (inl v') /\ roomy n (kheap (sv_fs v'))
                      /\ search_inv f m (seen ++ [c :: w]) (word (skip r)) (after (skip r)) no (entry_no e) (entry_no e) v'
              else exists f1 x, search_body v = Ok (inr (inr (f1, mk_psr (str_array 512 (join (seen ++ [c :: w]))) (Some x) FT_REGULAR, entry_no e)))
                    /\ dir_held f no f1 x /\ roomy n (kheap f1)
  end.
Proof.
  intros M G C Hsz T Hno [In Is Ir Ih Ip [Ie1 Ie2] (Ic1 & Ic2 & Ic3) If Il] R.
  rewrite pending_cons in If, Il by done. apply Forall_cons in If as [Ifw Ifr].
  destruct (tree_dir f dirs T no Hno) as (Hnor & i & Hv & Hin & Hread & Hent).
  pose proof Ih as [[(i' & j & Hv' & Hj & Hs) Hopen Hmed (l & Hpart) Hrest Hmem Hcnt Hview Hothers] Hclose Hshape]. rewrite Hv in Hv'. injection Hv' as <-.
  destruct Hs as (Hs1 & Hs2 & Hs3 & Hs4).
  destruct (same_sectors (medium f) i j (eq_sym Hs3)) as [Hlook Hread']. rewrite <- Hmed in Hlook, Hread', Hread.
  destruct (search_dir_entry_ok (10 + n) (sv_fs v) (sv_parent v) (c :: w) j Hj (Hread' Hread)) as (h & Es & Hl & Rh);
    [by rewrite Hpart | done | done |]. replace (10 + n - 2)%nat with (8 + n)%nat in Rh by lia.
  assert (c <> 0) as Hc by (intros ->; by destruct Ic1; left).
  assert (0 ∉ join (seen ++ [c :: w])) as Hseen.
  { rewrite join_snoc. intros Hz. apply elem_of_app in Hz as [|Hz]; [done|]. by apply elem_of_cons in Hz as [|Hz]. }
  assert (dir_held f no (with_kheap h (sv_fs v)) (sv_parent v)) as Hheld.
  { split.
    - split; try done; [by exists i, j | by exists l|]. apply mem_ok_heap; [done|]. intros a Ha. by apply Hl.
    - intros k h' Hl'. apply Hclose. by rewrite Hl.
    - by apply dir_shape_heap. }
  unfold search_body. rewrite In. change (rd (str_array 16 (c :: w)) 0) with (Ok c). cbn [obind].
  apply Z.eqb_neq in Hc as ->. rewrite Ir, record_name_ok; [|done|done|done|].
  2: { rewrite join_cons, length_app in Il. cbn [length] in *. lia. }
  cbn [obind]. rewrite <- join_snoc, Es. cbn [obind].
  assert (lookup_in f no (c :: w) = dir_lookup (medium (sv_fs v)) j (c :: w)) as Ell.
  { unfold lookup_in. by rewrite Hv, <- Hmed, Hlook. }
  rewrite Ell. destruct (dir_lookup (medium (sv_fs v)) j (c :: w)) as [e|] eqn:El; [|by eexists _, _; split; [|split; [|apply (roomy_le n 8)]]].
  rewrite Hlook, Hmed in El. pose proof (dir_lookup_length _ _ _ _ El) as He. specialize (Hent (c :: w) e ltac:(discriminate) El).
  destruct (entry_fields e He) as [Ety Eno]. rewrite splice_all by lia. cbn [obind].
  rewrite Is, next_component by done. cbn [obind]. rewrite Ety, Eno. cbn [obind].
  destruct (Z.eqb_spec (entry_type e) FT_DIRECTORY) as [Et|Et].
  - destruct Hent as [[_ Hd]|[Hr _]]; [|rewrite Hr in Et; done]. split; [done|].
    unfold get_inode in Hj |- *. cbn [inodes with_kheap]. destruct (inodes (sv_fs v) !! dir_inode (sv_parent v)) as [j'|]; [|done].
    injection Hj as ->. cbn [obind].
    destruct (Hclose (6 + n)%nat h Hl Rh) as (h2 & Ec & Hl2 & R2). rewrite Ec. cbn [obind].
    destruct (tree_dir f dirs T _ Hd) as (Hnor' & i2 & Hv2 & Hin2 & _).
    destruct (dir_open_held (2 + n) f h2 (entry_no e) i2 M G C Hl2 Hnor' Hv2 Hin2 R2) as (f1 & x & Eo & Hx & R1).
    rewrite Eo. cbn [obind]. eexists. split; [reflexivity|]. split; [by apply (roomy_le n 2)|].
    split; cbn [sv_name sub_path searched_record sv_fs sv_parent dir_e parent_inode_no]; try done.
    + congruence.
    + split; [|split; [|done]]; intros Hz; apply Ic2, in_skip; [by apply in_word | by apply in_after].
    + by rewrite <- pending_step.
    + rewrite <- pending_step, join_snoc, length_app. rewrite join_cons, length_app in Il. lia.
  - destruct Hent as [[? _]|[Hr Hb]]; [done|]. rewrite Hr. cbn. eexists _, _. split; [|split; [done | by apply (roomy_le n 8)]].
    by rewrite s32_small by lia.
Qed.

Lemma search_loop n f m dirs : mem_ok f -> geometry (cur_part f) -> counts_below 1 f ->
  dir_entry_size (sb (cur_part f)) = 24 -> tree_ok f dirs ->
  forall fuel seen w r parent no eno v, no ∈ dirs -> search_inv f m seen w r parent no eno v ->
  (length (pending w r) < fuel)%nat -> roomy (12 * S (length (pending w r)) + n) (kheap (sv_fs v)) ->
  exists e, loop search_body fuel v = Ok e /\ search_end f n m eno (pending w r) (resolve f parent no seen (pending w r)) e.
Proof.
  intros M G C Hsz T. induction fuel as [|fuel IH]; intros seen w r parent no eno v Hno I Hf R; [lia|].
  cbn [loop]. destruct w as [|c w].
  - rewrite pending_nil in *. exists (inl v). split.
    + unfold search_body. by rewrite (si_name _ _ _ _ _ _ _ _ _ I).
    + exists v, r. by rewrite decide_True.
  - rewrite pending_cons in * by done. cbn [length] in Hf, R.
    replace (12 * S (S (length (components r))) + n)%nat with (12 + (12 * S (length (components r)) + n))%nat in R by lia.
    pose proof (search_pass f m dirs seen c w r parent no eno v _ M G C Hsz T Hno I R) as Hp.
    cbn [resolve]. destruct (lookup_in f no (c :: w)) as [e|].
    + destruct (entry_type e =? FT_DIRECTORY).
      * destruct Hp as (Hd & v' & Eb & R' & I'). rewrite Eb. rewrite pending_step in Hf, R' |- *.
        destruct (IH _ _ _ _ _ _ v' Hd I' ltac:(lia) R') as (e' & El & He). exists e'. split; [done|].
        destruct (resolve f no (entry_no e) (seen ++ [c :: w]) _) as [seen' a] eqn:Er. destruct a as [|p no'|p no']; try done.
        destruct He as (v2 & r2 & -> & I2 & R2). exists v2, r2. split; [done|]. split; [|done].
        rewrite decide_False by done. case_decide as Hn; [|done]. rewrite Hn in Er. cbn in Er. injection Er as _ _ <-. done.
      * destruct Hp as (f1 & x & Eb & Hx & Rx). rewrite Eb. eexists. split; [reflexivity|]. exists f1, x.
        split; [done|]. split; [done|]. by apply (roomy_le n (12 * S (length (components r)))).
    + destruct Hp as (f1 & x & Eb & Hx & Rx). rewrite Eb. eexists. split; [reflexivity|]. exists f1, x.
      split; [done|]. split; [done|]. by apply (roomy_le n (12 * S (length (components r)))).
Qed.

Lemma join_length s : s = [] \/ (exists t, s = SLASH :: t) -> zlen (join (components s)) <= zlen s.
Proof.
  remember (length s) as n eqn:En. revert s En. induction (lt_wf n) as [n _ IH]. intros s -> Hs.
  destruct Hs as [->|[t ->]]; [done|]. rewrite components_step. case_decide as Hw; [cbn [length join map concat]; lia|].
  rewrite join_cons, length_app. change (skip (SLASH :: t)) with (skip t) in *. cbn [length].
  pose proof (length_skip t). pose proof (f_equal length (word_after (skip t))) as Hl. rewrite length_app in Hl.
  specialize (IH (length (after (skip t))) ltac:(cbn [length]; lia) _ eq_refl (after_slash _)). lia.
Qed.

Lemma components_nonempty s : Forall (fun w => w <> []) (components s).
Proof. apply Forall_forall. intros w Hw. unfold components in Hw. by apply list_elem_of_filter in Hw as [? _]. Qed.

(** A walk stays among the directories of the tree. *)
Lemma resolve_in f dirs : tree_ok f dirs -> forall names seen parent no, Forall (fun w => w <> []) names -> parent ∈ dirs -> no ∈ dirs ->
  forall seen' p n, resolve f parent no seen names = (seen', Directory p n) -> p ∈ dirs /\ n ∈ dirs.
Proof.
  intros T. induction names as [|name names IH]; intros seen parent no Hne Hp Hn seen' p n E; cbn [resolve] in E.
  - injection E as _ <- <-. done.
  - apply Forall_cons in Hne as [Hnn Hne]. unfold lookup_in in E. destruct (tree_dir f dirs T no Hn) as (_ & i & Hv & _ & _ & He). rewrite Hv in E.
    destruct (dir_lookup (medium f) i name) as [e|] eqn:El; [|done]. destruct (Z.eqb_spec (entry_type e) FT_DIRECTORY) as [Ht|]; [|done].
    destruct (He name e Hnn El) as [[_ Hd]|[Hr _]]; [exact (IH _ _ _ Hne Hn Hd _ _ _ E) | rewrite Ht in Hr; done].
Qed.

(** The three spellings of the root that the code knows. *)
Definition root_path (s : list Z) : Prop := s ∈ [[SLASH]; SLASH :: DOT; SLASH :: DOTDOT].

#[export] Instance root_path_dec s : Decision (root_path s).
Proof. unfold root_path. apply _. Defined.

Lemma is_root_path_ok s m : 0 ∉ s -> is_root_path (s ++ 0 :: m) = Ok (bool_decide (root_path s)).
Proof.
  intros Hs. unfold is_root_path, root_path. rewrite !str_eq_string; try done;
    try by (intros Hz; repeat apply elem_of_cons in Hz as [Hz|Hz]; try discriminate Hz; by apply elem_of_nil in Hz).
  cbn [obind]. destruct (decide (s = [SLASH])) as [->|N1]; [reflexivity|].
  destruct (decide (s = SLASH :: DOT)) as [->|N2]; [reflexivity|]. rewrite (bool_decide_eq_false_2 (s = [SLASH])) by done.
  cbn iota. rewrite (bool_decide_eq_false_2 (s = SLASH :: DOT)) by done. cbn [obind]. f_equal. apply bool_decide_ext.
  rewrite !elem_of_cons, elem_of_nil. tauto.
Qed.

(** Where a call of [search_file] leads. *)
Definition search_answer (f : fs) (s : list Z) : list (list Z) * answer :=
  if decide (root_path s) then ([], Directory 0 0) else resolve f 0 0 [] (components s).

(** The paths the system calls are proved for: absolute, not too long, names that fit. *)
Record path_ok (s : list Z) : Prop := {
  path_clean : 0 ∉ s;
  path_absolute : znth s 0 = Some SLASH;
  path_length : zlen s < MAX_PATH_LEN;
  path_fits : Forall fits (components s) }.

(** What the calls need of the file system. *)
Record fs_ready (f : fs) (root_dir : dir) (dirs : list Z) : Prop := {
  ready_mem : mem_ok f;
  ready_geometry : geometry (cur_part f);
  ready_counts : counts_below 2 f;
  ready_size : dir_entry_size (sb (cur_part f)) = 24;
  ready_tree : tree_ok f dirs;
  ready_root : root_ok f root_dir }.

Lemma search_file_ok n f root_dir dirs dir_e0 s m seen ans : fs_ready f root_dir dirs -> path_ok s -> zlen dir_e0 = 24 ->
  roomy (12 * S (length (components s)) + n) (kheap f) -> search_answer f s = (seen, ans) ->
  exists f1 x, search_file f root_dir dir_e0 (s ++ 0 :: m) empty_record
      = Ok (f1, mk_psr (str_array 512 (join seen)) (Some x) (answer_type ans),
            if decide (components s = [] /\ ~ root_path s) then s32 (entry_no dir_e0) else answer_no ans)
    /\ dir_held f (answer_parent ans) f1 x /\ roomy n (kheap f1).
Proof.
  intros [M G C2 Hsz T Hroot] [Hs H0s Hl Hf] He R. assert (counts_below 1 f) as C by (intros a i Ha; specialize (C2 a i Ha); lia).
  unfold search_answer. intros Er. unfold search_file. rewrite is_root_path_ok by done. cbn [obind].
  assert (dir_held f 0 f root_dir) as Hheld by (replace f with (with_kheap (kheap f) f) at 2 by (by destruct f); by apply dir_held_root).
  assert (s <> []) as Hne by (intros ->; done). unfold MAX_PATH_LEN in Hl. destruct (decide (root_path s)) as [Hr|Hr].
  - injection Er as <- <-. rewrite bool_decide_eq_true_2 by done. exists f, root_dir.
    split; [|split; [done | by apply (roomy_le n (12 * S (length (components s))))]].
    rewrite decide_False by tauto. reflexivity.
  - rewrite bool_decide_eq_false_2 by done. unfold c_strlen. rewrite c_string_ok by done. cbn [obind].
    destruct s as [|c t]; [done|]. injection H0s as ->. change (rd ((SLASH :: t) ++ 0 :: m) 0) with (Ok SLASH). cbn [obind].
    assert (1 < zlen (SLASH :: t)) as Hlen by (destruct t; [by destruct Hr; left | cbn [length]; lia]).
    unfold MAX_PATH_LEN. zdec. change (SLASH =? SLASH) with true. cbn [andb c_assert obind].
    pose proof (join_length (SLASH :: t) ltac:(by right; eexists)) as Hjl.
    pose proof (next_component (SLASH :: t) m Hs Hf) as Hnext. rewrite decide_False in Hnext by done. rewrite Hnext. cbn [obind].
    revert Hs Hf R Hjl Hl Hr Er. generalize (SLASH :: t) as s. intros s Hs Hf R Hjl Hl Hr Er. clear Hnext Hne Hlen.
    set (v := mk_sv _ _ _ _ _ _ _).
    assert (search_inv f m [] (word (skip s)) (after (skip s)) 0 0 (entry_no dir_e0) v) as I.
    { split; rewrite <- ?pending_step; try done.
      - split; [|split; [|apply not_elem_of_nil]]; intros Hz; [by apply Hs, in_skip, in_word | by apply Hs, in_skip, in_after].
      - change (zlen (join [])) with 0. lia. }
    pose proof (components_length s).
    destruct (search_loop n f m dirs M G C Hsz T (2 + length (s ++ 0 :: m)) _ _ _ _ _ _ v (tree_root f dirs T) I) as (e & El & Hend);
      [rewrite <- pending_step, length_app; lia | by rewrite <- pending_step |].
    rewrite <- pending_step in Hend. rewrite El. cbn [obind].
    rewrite Er in Hend. cbn [search_end] in Hend. destruct ans as [p|p no|p no].
    + destruct Hend as (f1 & x & -> & Hx & Rx). exists f1, x. split; [|done]. rewrite decide_False; [done|].
      intros [Hc _]. rewrite Hc in Er. discriminate Er.
    + destruct Hend as (f1 & x & -> & Hx & Rx). exists f1, x. split; [|done]. rewrite decide_False; [done|].
      intros [Hc _]. rewrite Hc in Er. discriminate Er.
    + destruct Hend as (v' & r & -> & [_ _ Ir Ih Ip [Ie1 Ie2] _ _ _] & R'). rewrite Ir. unfold close_parent. cbn [parent_dir].
      destruct (dh_close _ _ _ _ Ih (10 + n) (kheap (sv_fs v')) ltac:(done) R') as (h' & Ecl & Hl' & R2).
      replace (with_kheap (kheap (sv_fs v')) (sv_fs v')) with (sv_fs v') in Ecl by (by destruct (sv_fs v')).
      rewrite Ecl, Ip. cbn [obind]. destruct (resolve_in f dirs T _ _ _ _ ltac:(by apply components_nonempty) (tree_root f dirs T) (tree_root f dirs T) _ _ _ Er) as [Hp Hno].
      destruct (tree_dir f dirs T p Hp) as (Hpr & i & Hv & Hin & _).
      destruct (dir_open_held (6 + n) f h' p i M G C Hl' Hpr Hv Hin R2) as (f1 & x & Eo & Hx & Rx). rewrite Eo. cbn [obind].
      destruct (entry_fields (dir_e v') Ie1) as [_ ->]. cbn [obind]. exists f1, x. split; [|split; [done | by apply (roomy_le n 6)]]. rewrite Ie2.
      do 2 f_equal. destruct (decide (components s = [])) as [Hc|Hc].
      * by rewrite decide_True.
      * rewrite decide_False by tauto. destruct (tree_dir f dirs T no Hno) as (Hnr & _). cbn. by rewrite s32_small by lia.
Qed.

(** C23. Resolving an absolute path of fewer than 512 characters, with names of
    fewer than 16: [search_file] returns what one lookup per component gives (the
    inode number and the kind of the last one, or -1 in the directory where a
    component is missing), records the components it saw, and leaves open the
    parent directory and nothing else: closing it gives the state before the
    call. The root in its three spellings is returned at once. A path of two or
    more slashes has no component: the number returned is then that of an entry
    the code never read. *)
Theorem search_file_spec f root_dir dirs dir_e0 s m : fs_ready f root_dir dirs -> path_ok s -> zlen dir_e0 = 24 ->
  roomy (12 * S (length (components s))) (kheap f) ->
  let '(seen, ans) := if decide (root_path s) then ([], Directory 0 0) else resolve f 0 0 [] (components s) in
  exists f1 x, search_file f root_dir dir_e0 (s ++ 0 :: m) empty_record
      = Ok (f1, mk_psr (str_array 512 (join seen)) (Some x) (answer_type ans),
            if decide (components s = [] /\ ~ root_path s) then s32 (entry_no dir_e0) else answer_no ans)
    /\ dir_held f (answer_parent ans) f1 x.
Proof.
  intros Hr Hp He R. destruct (search_answer f s) as [seen ans] eqn:E. unfold search_answer in E. rewrite E.
  destruct (search_file_ok 0 f root_dir dirs dir_e0 s m seen ans Hr Hp He) as (f1 & x & Es & Hx & _);
    [by rewrite Nat.add_0_r | done |]. by exists f1, x.
Qed.


End lemmas.
