(* ===== verification/Fs.v ===== *)
(** fs/fs.c: the system calls on paths and directories, with [file_create] of
    fs/file.c. A path is the memory from its pointer on, as in Path.v; the
    arguments [name0], [name1] and [dir_e0] are what the uninitialised stack
    variables hold; a [struct dir*] is the directory itself, [None] is NULL. *)
From S2P Require Import Prelude Bitmap Thread Ide Blockdev Inode File Filewrite Dir Path.

Definition set_cwd (v : Z) (t : task_struct) : task_struct :=
  mk_task (self_kstack t) (kstack t) (pid t) (status t) (name t) (priority t) (ticks t) (elapsed_ticks t)
    (fd_table t) (pgdir t) v (parent_pid t) (exit_status t) (stack_magic t).

(** Where the last slash of a string is, and the string after it. *)
Fixpoint last_slash (s : list Z) (k : Z) (found : option Z) : option Z :=
  match s with
  | [] => found
  | c :: s => last_slash s (k + 1) (if c =? SLASH then Some k else found)
  end.

Definition after_last_slash (l : list Z) : outcome (list Z) :=
  let! s := c_string l in
  match last_slash s 0 None with
  | Some k => Ok (drop (Z.to_nat (k + 1)) s)
  | None => Err BadAccess
  end.

Definition zeros (n : Z) : list Z := replicate (Z.to_nat n) 0.

Section fs.
Context {D H : Type} `{BlockDevice D} `{KernelHeap H}.
Abbreviation fs := (fstate D H).

(** ** Creating and opening files *)

(** The cases of the [switch] at label [rollback], each falling into the next. *)
Definition create_rollback (f : fs) (step inode_no fd_idx a io_buf : Z) : outcome (fs * Z) :=
  let! f := if 3 <=? step then put_file fd_idx (mk_file 0 0 0) f else Ok f in
  let f := if 2 <=? step
           then with_kheap (sys_free (kheap f) false a) (with_inodes (delete a (inodes f)) f) else f in
  let! b := bitmap_set (inode_bitmap (cur_part f)) inode_no 0 in
  let f := with_part (set_inode_bitmap b (cur_part f)) f in
  Ok (with_kheap (sys_free (kheap f) false io_buf) f, -1).

(** The part that writes to the disk; its buffer is cleared between the steps. *)
Definition create_sync (f : fs) (parent_dir : dir) (inode_no a : Z) : outcome fs :=
  let! parent := get_inode f (dir_inode parent_dir) in
  let! ' (f, _) := inode_sync f parent (zeros 1024) in
  let! new := get_inode f a in
  let! ' (f, _) := inode_sync f new (zeros 1024) in
  let! f := bitmap_sync f inode_no INODE_BITMAP in
  let! new := get_inode f a in
  let f := with_part (set_open (a :: open_inodes (cur_part f)) (cur_part f)) f in
  Ok (put_inode a (set_cnts 1 new) f).

Definition file_create (f : fs) (parent_dir : dir) (filename : list Z) (flag : Z) : outcome (fs * Z) :=
  let '(h, io_buf) := sys_malloc (kheap f) false 1024 in
  let f := with_kheap h f in
  if io_buf =? 0 then Ok (f, -1) else
  let! ' (f, inode_no) := inode_bitmap_alloc f in
  if inode_no =? -1 then Ok (f, -1) else
  let '(h, a) := sys_malloc (kheap f) false sizeof_inode in
  let f := with_kheap h f in
  if a =? 0 then create_rollback f 1 inode_no 0 a io_buf else
  let f := put_inode a (inode_init inode_no) f in
  let! fd_idx := get_free_slot_in_global f in
  if fd_idx =? -1 then create_rollback f 2 inode_no fd_idx a io_buf else
  let! f := put_file fd_idx (mk_file 0 flag a) f in
  let! new_dir_entry := create_dir_entry filename inode_no FT_REGULAR (zeros sizeof_dir_entry) in
  let! ' (f, done_, _) := sync_dir_entry f parent_dir new_dir_entry (zeros 1024) in
  if negb (done_ : bool) then create_rollback f 3 inode_no fd_idx a io_buf else
  let! f := create_sync f parent_dir inode_no a in
  pcb_fd_install (with_kheap (sys_free (kheap f) false io_buf) f) fd_idx.

Definition sys_open (f : fs) (root_dir : dir) (name0 name1 dir_e0 pathname : list Z) (flags : Z) : outcome (fs * Z) :=
  let! len := c_strlen pathname in
  let! c := rd pathname (len - 1) in
  if c =? SLASH then Ok (f, -1) else
  c_assert (flags <=? 7) ;;;
  let! pathname_depth := path_depth_cnt name0 pathname in
  let! ' (f, r, inode_no) := search_file f root_dir dir_e0 pathname empty_record in
  let found := negb (inode_no =? -1) in
  let close_and_fail f := let! f := close_parent f r in Ok (f, -1) in
  if file_type r =? FT_DIRECTORY then close_and_fail f else
  let! path_searched_depth := path_depth_cnt name1 (searched_path r) in
  let creat := negb (Z.land flags O_CREAT =? 0) in
  if negb (pathname_depth =? path_searched_depth) then close_and_fail f
  else if negb found && negb creat then close_and_fail f
  else if found && creat then close_and_fail f
  else if creat then
    let! filename := after_last_slash pathname in
    match parent_dir r with
    | None => Err BadAccess
    | Some x =>
        let! ' (f, fd) := file_create f x filename flags in
        let! f := dir_close f x in
        Ok (f, fd)
    end
  else file_open f (u32 inode_no) flags.

(** ** Removing files *)

(** The first place of [file_table], from [file_idx] on, with the inode open. *)
Definition in_use_body (f : fs) (inode_no : Z) (file_idx : Z) : outcome (Z + Z) :=
  if file_idx <? MAX_FILE_OPEN then
    let! x := get_file f file_idx in
    if fd_inode x =? 0 then Ok (inl (file_idx + 1)) else
    let! i := get_inode f (fd_inode x) in
    if u32 inode_no =? i_no i then Ok (inr file_idx) else Ok (inl (file_idx + 1))
  else Ok (inr file_idx).

Definition sys_unlink (f : fs) (root_dir : dir) (dir_e0 pathname : list Z) : outcome (fs * Z) :=
  let! len := c_strlen pathname in
  c_assert (len <? MAX_PATH_LEN) ;;;
  let! ' (f, r, inode_no) := search_file f root_dir dir_e0 pathname empty_record in
  c_assert (negb (inode_no =? 0)) ;;;
  let close_and_fail f := let! f := close_parent f r in Ok (f, -1) in
  if inode_no =? -1 then close_and_fail f
  else if file_type r =? FT_DIRECTORY then close_and_fail f else
  let! file_idx := loop (in_use_body f inode_no) 33 0 in
  if file_idx <? MAX_FILE_OPEN then close_and_fail f else
  c_assert (file_idx =? MAX_FILE_OPEN) ;;;
  let '(h, io_buf) := sys_malloc (kheap f) false 1024 in
  let f := with_kheap h f in
  if io_buf =? 0 then close_and_fail f else
  match parent_dir r with
  | None => Err BadAccess
  | Some x =>
      let! ' (f, _, _) := delete_dir_entry f x (u32 inode_no) (zeros 1024) in
      let! f := inode_release f (u32 inode_no) in
      let! f := dir_close (with_kheap (sys_free (kheap f) false io_buf) f) x in
      Ok (f, 0)
  end.

(** ** Making and removing directories *)

(** The sector of a new directory: [.] and [..]. *)
Definition dot_entries (inode_no parent_no : Z) : outcome (list Z) :=
  let! b := splice (zeros 1024) 0 DOT in
  let! b := splice b 16 (le32 inode_no) in
  let! b := splice b 20 (le32 FT_DIRECTORY) in
  let! b := splice b 24 DOTDOT in
  let! b := splice b 40 (le32 parent_no) in
  splice b 44 (le32 FT_DIRECTORY).

Definition mkdir_rollback (f : fs) (r : path_search_record) (step inode_no io_buf : Z) : outcome (fs * Z) :=
  let! f := if 2 <=? step then
              let! b := bitmap_set (inode_bitmap (cur_part f)) inode_no 0 in
              Ok (with_part (set_inode_bitmap b (cur_part f)) f)
            else Ok f in
  let! f := close_parent f r in
  Ok (with_kheap (sys_free (kheap f) false io_buf) f, -1).

(** A new inode with its block, [.] and [..], and an entry in the parent. *)
Definition mkdir_make (f : fs) (r : path_search_record) (x : dir) (io_buf : Z) : outcome (fs * Z) :=
  let! dirname := after_last_slash (searched_path r) in
  let! ' (f, inode_no) := inode_bitmap_alloc f in
  if inode_no =? -1 then mkdir_rollback f r 1 inode_no io_buf else
  let! ' (f, block_lba) := block_bitmap_alloc f in
  if block_lba =? -1 then mkdir_rollback f r 2 inode_no io_buf else
  let! l := wr (i_sectors (inode_init inode_no)) 0 (u32 block_lba) in
  c_assert (negb (bitmap_idx_of f block_lba =? 0)) ;;;
  let! f := bitmap_sync f (bitmap_idx_of f block_lba) BLOCK_BITMAP in
  let! parent := get_inode f (dir_inode x) in
  let! buf := dot_entries inode_no (i_no parent) in
  let! d := disk_write (medium f) (u32 block_lba) 1 buf 0 in
  let f := with_medium d f in
  let new_dir_inode := set_size (u32 (2 * dir_entry_size (sb (cur_part f)))) (set_sectors l (inode_init inode_no)) in
  let! new_dir_entry := create_dir_entry dirname inode_no FT_DIRECTORY (zeros sizeof_dir_entry) in
  let! ' (f, done_, _) := sync_dir_entry f x new_dir_entry (zeros 1024) in
  if negb (done_ : bool) then mkdir_rollback f r 2 inode_no io_buf else
  let! parent := get_inode f (dir_inode x) in
  let! ' (f, _) := inode_sync f parent (zeros 1024) in
  let! ' (f, _) := inode_sync f new_dir_inode (zeros 1024) in
  let! f := bitmap_sync f inode_no INODE_BITMAP in
  let! f := dir_close (with_kheap (sys_free (kheap f) false io_buf) f) x in
  Ok (f, 0).

Definition sys_mkdir (f : fs) (root_dir : dir) (name0 name1 dir_e0 pathname : list Z) : outcome (fs * Z) :=
  let '(h, io_buf) := sys_malloc (kheap f) false 1024 in
  let f := with_kheap h f in
  if io_buf =? 0 then Ok (f, -1) else
  let! ' (f, r, inode_no) := search_file f root_dir dir_e0 pathname empty_record in
  if negb (inode_no =? -1) then mkdir_rollback f r 1 inode_no io_buf else
  let! pathname_depth := path_depth_cnt name0 pathname in
  let! path_searched_depth := path_depth_cnt name1 (searched_path r) in
  if negb (pathname_depth =? path_searched_depth) then mkdir_rollback f r 1 inode_no io_buf else
  match parent_dir r with
  | None => Err BadAccess
  | Some x => mkdir_make f r x io_buf
  end.

Definition sys_rmdir (f : fs) (root_dir : dir) (dir_e0 pathname : list Z) : outcome (fs * Z) :=
  let! ' (f, r, inode_no) := search_file f root_dir dir_e0 pathname empty_record in
  c_assert (negb (inode_no =? 0)) ;;;
  let! ' (f, retval) :=
    if (inode_no =? -1) || (file_type r =? FT_REGULAR) then Ok (f, -1) else
    let! ' (f, x) := dir_open f (u32 inode_no) in
    let! empty := dir_is_empty f x in
    let! ' (f, retval) :=
      if negb (empty : bool) then Ok (f, -1) else
      match parent_dir r with
      | None => Err BadAccess
      | Some parent => let! ' (f, ret) := dir_remove f parent x in Ok (f, if ret =? 0 then 0 else -1)
      end in
    let! f := dir_close f x in
    Ok (f, retval) in
  let! f := close_parent f r in
  Ok (f, retval).

(** ** Directories as streams *)

(** The shortcut's test is as it is written: [name[0] == '.'] is never true after
    [name[0] == '/']. *)
Definition sys_opendir (f : fs) (root_dir : dir) (dir_e0 name : list Z) : outcome (fs * option dir) :=
  let! len := c_strlen name in
  c_assert (len <? MAX_PATH_LEN) ;;;
  let! c := rd name 0 in
  let! root := if c =? SLASH then let! c1 := rd name 1 in Ok ((c1 =? 0) || (c =? 46)) else Ok false in
  if (root : bool) then Ok (f, Some root_dir) else
  let! ' (f, r, inode_no) := search_file f root_dir dir_e0 name empty_record in
  let! ' (f, ret) :=
    if inode_no =? -1 then Ok (f, None)
    else if file_type r =? FT_REGULAR then Ok (f, None)
    else if file_type r =? FT_DIRECTORY then let! ' (f, x) := dir_open f (u32 inode_no) in Ok (f, Some x)
    else Ok (f, None) in
  let! f := close_parent f r in
  Ok (f, ret).

Definition sys_closedir (f : fs) (x : option dir) : outcome (fs * Z) :=
  match x with
  | None => Ok (f, -1)
  | Some x => let! f := dir_close f x in Ok (f, 0)
  end.

Definition sys_readdir (f : fs) (x : option dir) : outcome (dir * option Z) :=
  match x with None => Err AssertFail | Some x => dir_read f x end.

Definition sys_rewinddir (x : dir) : dir := set_dir_pos 0 x.

(** ** The working directory *)

Definition get_parent_dir_inode_nr (f : fs) (child_inode_nr : Z) (io_buf : list Z) : outcome (fs * Z * list Z) :=
  let! ' (f, a) := inode_open f child_inode_nr in
  let! i := get_inode f a in
  let! block_lba := rd (i_sectors i) 0 in
  c_assert (data_start_lba (sb (cur_part f)) <=? block_lba) ;;;
  let! f := inode_close f a in
  let! io_buf := disk_read (medium f) block_lba 1 io_buf 0 in
  let! no := de_i_no io_buf 1 in
  let! ty := de_f_type io_buf 1 in
  c_assert ((no <? 4096) && (ty =? FT_DIRECTORY)) ;;;
  Ok (f, no, io_buf).

Definition child_entry_body (io_buf : list Z) (c_inode_nr cnt : Z) (idx : Z) : outcome (Z + option Z) :=
  if idx <? cnt then
    let! no := de_i_no io_buf idx in
    if no =? c_inode_nr then Ok (inr (Some idx)) else Ok (inl (u8 (idx + 1)))
  else Ok (inr None).

(** Over the blocks; the result is the path with the name appended, or [None]. *)
Definition child_block_body (d : D) (all_blocks path : list Z) (c_inode_nr cnt block_cnt : Z) (s : Z * list Z)
  : outcome (Z * list Z + option (list Z) * list Z) :=
  let '(block_idx, io_buf) := s in
  if block_idx <? block_cnt then
    let! lba := rd all_blocks block_idx in
    if lba =? 0 then Ok (inl (block_idx + 1, io_buf)) else
    let! io_buf := disk_read d lba 1 io_buf 0 in
    let! found := loop (child_entry_body io_buf c_inode_nr cnt) 513 0 in
    match found with
    | Some idx =>
        let! path := c_strcat path [SLASH] in
        let! name := c_string (de_name io_buf idx) in
        let! path := c_strcat path name in
        Ok (inr (Some path, io_buf))
    | None => Ok (inl (block_idx + 1, io_buf))
    end
  else Ok (inr (None, io_buf)).

Definition get_child_dir_name (f : fs) (p_inode_nr c_inode_nr : Z) (path io_buf : list Z)
  : outcome (fs * option (list Z) * list Z) :=
  let! ' (f, a) := inode_open f p_inode_nr in
  let! i := get_inode f a in
  let! all_blocks := dir_blocks (medium f) i in
  let! table_lba := rd (i_sectors i) 12 in
  let block_cnt := if table_lba =? 0 then 12 else 140 in
  let! f := inode_close f a in
  let! cnt := entries_per_sec f in
  let! ' (path, io_buf) := loop (child_block_body (medium f) all_blocks path c_inode_nr cnt block_cnt) 141 (0, io_buf) in
  Ok (f, path, io_buf).

(** Up to the root, a name appended at each step. *)
Definition climb_body (s : fs * Z * list Z * list Z) : outcome (fs * Z * list Z * list Z + fs * option (list Z)) :=
  let '(f, child_inode_nr, path, io_buf) := s in
  if child_inode_nr =? 0 then Ok (inr (f, Some path)) else
  let! ' (f, parent_inode_nr, io_buf) := get_parent_dir_inode_nr f child_inode_nr io_buf in
  let! ' (f, path, io_buf) := get_child_dir_name f parent_inode_nr child_inode_nr path io_buf in
  match path with
  | None => Ok (inr (f, None))
  | Some path => Ok (inl (f, parent_inode_nr, path, io_buf))
  end.

(** The last name of [full_path_reverse] moves to the end of [buf]. *)
Definition reverse_body (s : list Z * list Z) : outcome (list Z * list Z + list Z) :=
  let '(full_path_reverse, buf) := s in
  let! p := c_string full_path_reverse in
  match last_slash p 0 None with
  | None => Ok (inr buf)
  | Some k =>
      let! len := c_strlen buf in
      let! buf := splice buf (u16 len) (drop (Z.to_nat k) p ++ [0]) in
      let! full_path_reverse := wr full_path_reverse k 0 in
      Ok (inl (full_path_reverse, buf))
  end.

(** [buf] is the caller's memory; the result is its new content, or NULL. Every
    turn of the climb lengthens a path of 512 bytes. *)
Definition sys_getcwd (f : fs) (buf : list Z) (size : Z) : outcome (fs * option (list Z)) :=
  let '(h, io) := sys_malloc (kheap f) false 512 in
  let f := with_kheap h f in
  if io =? 0 then Ok (f, None) else
  let! cur := get_task (kern f) (running_thread (kern f)) in
  let child_inode_nr := s32 (cwd_inode_nr cur) in
  c_assert ((0 <=? child_inode_nr) && (child_inode_nr <? 4096)) ;;;
  let give_back (f : fs) := with_kheap (sys_free (kheap f) false io) f in
  if child_inode_nr =? 0 then
    let! buf := splice buf 0 [SLASH; 0] in Ok (give_back f, Some buf)
  else
    let! buf := splice buf 0 (zeros size) in
    let! ' (f, path) := loop climb_body 513 (f, child_inode_nr, zeros MAX_PATH_LEN, zeros 512) in
    match path with
    | None => Ok (give_back f, None)
    | Some full_path_reverse =>
        let! n := c_strlen full_path_reverse in
        c_assert (n <=? size) ;;;
        let! buf := loop reverse_body 513 (full_path_reverse, buf) in
        Ok (give_back f, Some buf)
    end.

Definition sys_chdir (f : fs) (root_dir : dir) (dir_e0 path : list Z) : outcome (fs * Z) :=
  let! ' (f, r, inode_no) := search_file f root_dir dir_e0 path empty_record in
  let! ' (f, ret) :=
    if negb (inode_no =? -1) && (file_type r =? FT_DIRECTORY) then
      let! k := upd_task (kern f) (running_thread (kern f)) (set_cwd (u32 inode_no)) in Ok (with_kern k f, 0)
    else Ok (f, -1) in
  let! f := close_parent f r in
  Ok (f, ret).

(** ** Status *)

Record stat := mk_stat { st_ino : Z; st_size : Z; st_filetype : Z }.

(** [buf] is the caller's structure. *)
Definition sys_stat (f : fs) (root_dir : dir) (dir_e0 path : list Z) (buf : stat) : outcome (fs * stat * Z) :=
  let! root := is_root_path path in
  if (root : bool) then
    let! i := get_inode f (dir_inode root_dir) in Ok (f, mk_stat 0 (i_size i) FT_DIRECTORY, 0)
  else
    let! ' (f, r, inode_no) := search_file f root_dir dir_e0 path empty_record in
    let! ' (f, buf, ret) :=
      if negb (inode_no =? -1) then
        let! ' (f, a) := inode_open f (u32 inode_no) in
        let! i := get_inode f a in
        let! f := inode_close f a in
        Ok (f, mk_stat (u32 inode_no) (i_size i) (file_type r), 0)
      else Ok (f, buf, -1) in
    let! f := close_parent f r in
    Ok (f, buf, ret).

End fs.
