(* ===== verification/Fsspec.v ===== *)
(** Correctness of the system calls of Fs.v: opening files, the working directory
    and the status of a path, on top of [search_file]. *)
From S2P Require Import Prelude Bitmap Thread Ide Blockdev Inode File Filewrite Dir Words Path Search Fs.

Section lemmas.
Context {D H : Type} `{BlockDeviceLaws D} `{KernelHeapLaws H}.
Abbreviation fs := (fstate D H).
Implicit Types (f : fs) (i : inode) (d : D) (h : H).

(** ** Paths *)

Definition is_word (w : list Z) : Prop := w <> [] /\ (SLASH ∉ w) /\ (0 ∉ w).

Lemma components_words s : 0 ∉ s -> Forall is_word (components s).
Proof.
  intros Hs. remember (length s) as n eqn:En. revert s En Hs. induction (lt_wf n) as [n _ IH]. intros s -> Hs.
  rewrite components_step. case_decide as Hn; [constructor|]. constructor.
  - split; [done|]. split; [apply word_no_slash|]. intros Hz. by apply Hs, in_skip, in_word.
  - pose proof (length_skip s). pose proof (f_equal length (word_after (skip s))) as Hl. rewrite length_app in Hl.
    assert (length (word (skip s)) <> 0%nat) by (destruct (word (skip s)); done).
    apply (IH (length (after (skip s))) ltac:(lia) _ eq_refl). intros Hz. by apply Hs, in_skip, in_after.
Qed.

(** The components of a joined path are what was joined. *)
Lemma components_join ws : Forall is_word ws -> components (join ws) = ws.
Proof.
  induction 1 as [|w ws (Hn & Hs & _) Hws IH]; [done|]. rewrite join_cons. cbn [app]. rewrite words_on_sep.
  destruct ws as [|w' ws].
  - rewrite app_nil_r. by apply words_on_one.
  - rewrite join_cons in *. cbn [app] in *. rewrite words_on_sep in IH. rewrite words_on_cons by done. by f_equal.
Qed.

Lemma join_clean ws : Forall is_word ws -> 0 ∉ join ws.
Proof.
  induction 1 as [|w ws (_ & _ & Hz) Hws IH]; [apply not_elem_of_nil|]. rewrite join_cons. intros [Hc|Hc]%elem_of_app; [|done].
  by apply elem_of_cons in Hc as [|Hc].
Qed.

Lemma join_take k ws : zlen (join (take k ws)) <= zlen (join ws).
Proof. rewrite <- (take_drop k ws) at 2. unfold join. rewrite map_app, concat_app, length_app. lia. Qed.

(** The depth of what [search_file] recorded. *)
Lemma depth_joined ws name0 : zlen name0 = MAX_FILE_NAME_LEN -> Forall is_word ws -> Forall fits ws -> ws <> [] ->
  zlen (join ws) < 512 -> path_depth_cnt name0 (str_array 512 (join ws)) = Ok (zlen ws).
Proof.
  intros Hn Hw Hf Hne Hl. unfold str_array. rewrite replicate_head by lia.
  rewrite path_depth_short; rewrite ?components_join by done; try done; [by apply join_clean | lia | by apply fits_short].
Qed.

Lemma resolve_seen f names : forall parent no seen seen' ans, resolve f parent no seen names = (seen', ans) ->
  exists k, seen' = seen ++ take k names /\ (names <> [] -> (0 < k)%nat).
Proof.
  induction names as [|name names IH]; intros parent no seen seen' ans E; cbn [resolve] in E.
  - injection E as <- _. exists 0%nat. by rewrite app_nil_r.
  - destruct (lookup_in f no name) as [e|]; [destruct (entry_type e =? FT_DIRECTORY)|].
    + apply IH in E as (k & -> & _). exists (S k). rewrite <- app_assoc. split; [done | lia].
    + injection E as <- _. exists 1%nat. split; [done | lia].
    + injection E as <- _. exists 1%nat. split; [done | lia].
Qed.

Lemma resolve_numbers f dirs : tree_ok f dirs -> forall names seen parent no, Forall (fun w => w <> []) names ->
  parent ∈ dirs -> no ∈ dirs -> forall seen' ans, resolve f parent no seen names = (seen', ans) ->
  answer_parent ans ∈ dirs /\ match ans with Missing _ => True | Regular _ n => 0 <= n < 4096 | Directory _ n => n ∈ dirs end.
Proof.
  intros T. induction names as [|name names IH]; intros seen parent no Hne Hp Hn seen' ans E; cbn [resolve] in E.
  - by injection E as _ <-.
  - apply Forall_cons in Hne as [Hnn Hne]. unfold lookup_in in E.
    destruct (tree_dir f dirs T no Hn) as (_ & i & Hv & _ & _ & He). rewrite Hv in E.
    destruct (dir_lookup (medium f) i name) as [e|] eqn:El; [|by injection E as _ <-].
    destruct (Z.eqb_spec (entry_type e) FT_DIRECTORY) as [Ht|Ht].
    + destruct (He name e Hnn El) as [[_ Hd]|[Hr _]]; [exact (IH _ _ _ Hne Hn Hd _ _ E) | rewrite Ht in Hr; done].
    + injection E as _ <-. destruct (He name e Hnn El) as [[? _]|[_ Hr]]; done.
Qed.

(** What is known of an answer. *)
Lemma answer_facts f root_dir dirs s seen ans : fs_ready f root_dir dirs -> path_ok s -> search_answer f s = (seen, ans) ->
  answer_parent ans ∈ dirs
  /\ match ans with Missing _ => True | Regular _ n => 0 <= n < 4096 | Directory _ n => n ∈ dirs end
  /\ Forall is_word seen /\ Forall fits seen /\ zlen (join seen) < 512 /\ zlen seen <= zlen (components s)
  /\ (~ root_path s -> components s <> [] -> seen <> []).
Proof.
  intros Hr [Hs Ha Hl Hf] E. unfold search_answer in E. pose proof (ready_tree _ _ _ Hr) as T.
  pose proof (tree_root _ _ T) as T0. case_decide as Hroot.
  - injection E as <- <-. cbn. split_and!; try done; lia.
  - destruct (resolve_numbers f dirs T _ _ _ _ (components_nonempty s) T0 T0 _ _ E) as [Hp Hno].
    destruct (resolve_seen f _ _ _ _ _ _ E) as (k & -> & Hk). cbn [app] in *.
    assert (zlen (join (components s)) <= zlen s).
    { destruct s as [|c t]; [done|]. injection Ha as ->. apply join_length. right. by eexists. }
    pose proof (join_take k (components s)). unfold MAX_PATH_LEN in Hl. split_and!; try done.
    + by apply Forall_take, components_words.
    + by apply Forall_take.
    + lia.
    + rewrite length_take. lia.
    + intros _ Hc Ht. specialize (Hk Hc). destruct (components s); [done|]. by destruct k; [lia|].
Qed.

Lemma close_held n f no f1 x : dir_held f no f1 x -> roomy (2 + n) (kheap f1) ->
  exists h, dir_close f1 x = Ok (with_kheap h f) /\ same_live (kheap f) h /\ roomy n h.
Proof.
  intros [_ Hc _] R. destruct (Hc n (kheap f1) ltac:(done) R) as (h & E & Hl & Rh). exists h.
  replace (with_kheap (kheap f1) f1) with f1 in E by (by destruct f1). done.
Qed.

(** ** Opening a file *)

Lemma skip_nil_last s : skip s = [] -> s <> [] -> znth s (zlen s - 1) = Some SLASH.
Proof.
  induction s as [|c s IH]; intros Hs Hn; [done|]. cbn [skip] in Hs. destruct (Z.eqb_spec c SLASH) as [->|]; [|done].
  destruct s as [|c' s]; [done|]. specialize (IH Hs ltac:(done)). unfold znth in *. cbn [length] in *.
  revert IH. zdec. intros IH. replace (Z.to_nat (Z.of_nat (S (S (length s))) - 1)) with (S (Z.to_nat (Z.of_nat (S (length s)) - 1))) by lia.
  exact IH.
Qed.

Lemma no_trailing_components s : s <> [] -> znth s (zlen s - 1) <> Some SLASH -> components s <> [].
Proof.
  intros Hn Hl Hc. rewrite components_step in Hc. case_decide as Hw; [|done].
  by apply Hl, skip_nil_last; [apply skip_word_nil|].
Qed.

(** The arguments of the calls of [path_depth_cnt] and [search_file]. *)
Record stack_ok (name0 name1 dir_e0 : list Z) : Prop := {
  stack_name0 : zlen name0 = MAX_FILE_NAME_LEN;
  stack_name1 : zlen name1 = MAX_FILE_NAME_LEN;
  stack_entry : zlen dir_e0 = 24 }.

(** A path that does not end in a slash. *)
Definition names_file (s : list Z) : Prop := znth s (zlen s - 1) <> Some SLASH.

(** What [sys_open] does once the path is resolved: [f1] has the parent [x] open. *)
Definition open_resolved (f1 : fs) (x : dir) (s m : list Z) (flags : Z) (seen : list (list Z)) (ans : answer)
  : outcome (fs * Z) :=
  let fail := let! f := dir_close f1 x in Ok (f, -1) in
  let whole := zlen (components s) =? zlen seen in
  let creat := negb (Z.land flags O_CREAT =? 0) in
  match ans with
  | Directory _ _ => fail
  | Missing _ =>
      if whole && creat then
        let! filename := after_last_slash (s ++ 0 :: m) in
        let! ' (f, fd) := file_create f1 x filename flags in
        let! f := dir_close f x in
        Ok (f, fd)
      else fail
  | Regular _ no => if whole && negb creat then file_open f1 no flags else fail
  end.

Lemma sys_open_run n f root_dir dirs s m name0 name1 dir_e0 flags seen ans : fs_ready f root_dir dirs -> path_ok s ->
  names_file s -> 0 <= flags <= 7 -> stack_ok name0 name1 dir_e0 ->
  roomy (12 * S (length (components s)) + n) (kheap f) -> search_answer f s = (seen, ans) ->
  exists f1 x, dir_held f (answer_parent ans) f1 x /\ roomy n (kheap f1)
    /\ sys_open f root_dir name0 name1 dir_e0 (s ++ 0 :: m) flags = open_resolved f1 x s m flags seen ans.
Proof.
  intros Hr Hp Hlast Hfl [Hn0 Hn1 He] R E. destruct (search_file_ok n f root_dir dirs dir_e0 s m seen ans Hr Hp He R E)
    as (f1 & x & Es & Hx & Rx). exists f1, x. split; [done|]. split; [done|].
  destruct (answer_facts f root_dir dirs s seen ans Hr Hp E) as (_ & Hno & Hw & Hf & Hjl & Hsl & Hne).
  destruct Hp as [Hs Ha Hl Hfits]. unfold MAX_PATH_LEN in Hl. unfold names_file in Hlast.
  assert (s <> []) as Hsn by (intros ->; done). pose proof (no_trailing_components s Hsn Hlast) as Hcn.
  unfold sys_open, c_strlen. rewrite c_string_ok by done. cbn [obind].
  destruct (znth_in s (zlen s - 1)) as [c Hc]; [destruct s; [done | cbn [length]; lia]|].
  assert (rd (s ++ 0 :: m) (zlen s - 1) = Ok c) as ->.
  { pose proof (znth_Some _ _ _ Hc). apply rd_znth. revert Hc. unfold znth. zdec. intros Hc. rewrite lookup_app_l; [done | lia]. }
  cbn [obind]. replace (c =? SLASH) with false by (symmetry; apply Z.eqb_neq; congruence). zdec. cbn [c_assert obind].
  rewrite path_depth_short; [|done|done|lia|by apply fits_short|done]. cbn [obind]. rewrite Es. cbn [obind file_type searched_path].
  rewrite (decide_False (P := components s = [] /\ _)) by tauto. unfold close_parent. cbn [parent_dir].
  unfold open_resolved. destruct (decide (root_path s)) as [Hroot|Hroot].
  { unfold search_answer in E. rewrite decide_True in E by done. by injection E as <- <-. }
  specialize (Hne Hroot Hcn). destruct ans as [p|p no|p no]; [| |done]; cbn [answer_type answer_no];
    change (FT_UNKNOWN =? FT_DIRECTORY) with false; change (FT_REGULAR =? FT_DIRECTORY) with false; cbn iota;
    rewrite depth_joined by done; cbn [obind]; destruct (zlen (components s) =? zlen seen); cbn [andb negb]; try done.
  - change (-1 =? -1) with true. cbn [negb andb]. by destruct (Z.land flags O_CREAT =? 0).
  - replace (no =? -1) with false by (symmetry; apply Z.eqb_neq; lia). cbn [negb andb].
    rewrite u32_small by lia. by destruct (Z.land flags O_CREAT =? 0).
Qed.

(** C26. [sys_open] refuses, with -1 and nothing changed, a path to a directory, a
    path with a missing or a regular file before its end, a missing file without
    [O_CREAT], and an existing file with it. *)
Theorem sys_open_refuses f root_dir dirs s m name0 name1 dir_e0 flags seen ans : fs_ready f root_dir dirs -> path_ok s ->
  names_file s -> 0 <= flags <= 7 -> stack_ok name0 name1 dir_e0 ->
  roomy (2 + 12 * S (length (components s))) (kheap f) -> search_answer f s = (seen, ans) ->
  match ans with
  | Directory _ _ => True
  | Missing _ => seen <> components s \/ Z.land flags O_CREAT = 0
  | Regular _ _ => seen <> components s \/ Z.land flags O_CREAT <> 0
  end ->
  exists h, sys_open f root_dir name0 name1 dir_e0 (s ++ 0 :: m) flags = Ok (with_kheap h f, -1)
    /\ same_live (kheap f) h.
Proof.
  intros Hr Hp Hlast Hfl Hst R E Hcase. rewrite Nat.add_comm in R.
  destruct (sys_open_run 2 f root_dir dirs s m name0 name1 dir_e0 flags seen ans Hr Hp Hlast Hfl Hst R E) as (f1 & x & Hx & Rx & ->).
  destruct (close_held 0 f _ f1 x Hx Rx) as (h & Ec & Hl & _). exists h. split; [|done]. unfold open_resolved. rewrite Ec. cbn [obind].
  assert (seen <> components s -> (zlen (components s) =? zlen seen) = false) as Hlen.
  { intros Hne. apply Z.eqb_neq. intros Heq. apply Hne. unfold search_answer in E. case_decide.
    - injection E as <- <-. symmetry. apply length_zero_iff_nil. cbn in Heq. lia.
    - destruct (resolve_seen f _ _ _ _ _ _ E) as (k & -> & _). cbn [app] in *. apply take_ge.
      rewrite length_take in Heq. lia. }
  destruct ans as [p|p no|p no]; [| |done]; destruct Hcase as [Hc|Hc]; rewrite ?(Hlen Hc); cbn [andb]; try done.
  - apply Z.eqb_eq in Hc as ->. by rewrite andb_false_r.
  - apply Z.eqb_neq in Hc as ->. by rewrite andb_false_r.
Qed.

(** ** Descriptors *)

(** The first free place of the file table, and of a task's descriptors. *)
Record first_file (f : fs) (g : Z) : Prop := {
  ff_range : 3 <= g < MAX_FILE_OPEN;
  ff_free : fd_inode <$> znth (file_table f) g = Some 0;
  ff_before k : 3 <= k < g -> exists x, znth (file_table f) k = Some x /\ fd_inode x <> 0 }.

Record first_fd (t : list Z) (l : Z) : Prop := {
  fl_range : 3 <= l < MAX_FILES_OPEN_PER_PROC;
  fl_free : znth t l = Some (-1);
  fl_before k : 3 <= k < l -> exists v, znth t k = Some v /\ v <> -1 }.

Lemma free_slot_ok f g : first_file f g -> get_free_slot_in_global f = Ok g.
Proof.
  intros [Hg Hfree Hbef]. unfold MAX_FILE_OPEN in Hg. unfold get_free_slot_in_global.
  assert (forall fuel k, 3 <= k <= g -> (Z.to_nat (g - k) < fuel)%nat -> loop (free_slot_body f) fuel k = Ok g) as Hl.
  { induction fuel as [|fuel IH]; intros k Hk Hf; [lia|]. cbn [loop]. unfold free_slot_body at 1, MAX_FILE_OPEN, get_file. zdec.
    destruct (decide (k = g)) as [->|Hne].
    - destruct (znth (file_table f) g) as [x|] eqn:Ex; [|done]. injection Hfree as Hx. rewrite (rd_znth _ _ _ Ex). cbn [obind]. by rewrite Hx.
    - destruct (Hbef k ltac:(lia)) as (x & Ex & Hx). rewrite (rd_znth _ _ _ Ex). cbn [obind]. apply Z.eqb_neq in Hx as ->.
      apply IH; lia. }
  rewrite Hl by lia. cbn [obind]. unfold MAX_FILE_OPEN. by zdec.
Qed.

Lemma fd_install_ok f g t l : cur_fds f = Ok t -> first_fd t l -> exists k,
  pcb_fd_install f g = Ok (with_kern k f, l) /\ upd_task (kern f) (running_thread (kern f)) (set_fd_table (<[Z.to_nat l := g]> t)) = Ok k.
Proof.
  intros Ht [Hl Hfree Hbef]. unfold MAX_FILES_OPEN_PER_PROC in Hl. unfold pcb_fd_install. rewrite Ht. cbn [obind].
  assert (forall fuel k, 3 <= k <= l -> (Z.to_nat (l - k) < fuel)%nat ->
    loop (fd_install_body g) fuel (k, t) = Ok (l, <[Z.to_nat l := g]> t)) as Hlp.
  { induction fuel as [|fuel IH]; intros k Hk Hf; [lia|]. cbn [loop]. unfold fd_install_body at 1, MAX_FILES_OPEN_PER_PROC. zdec.
    destruct (decide (k = l)) as [->|Hne].
    - rewrite (rd_znth _ _ _ Hfree). cbn [obind]. change (-1 =? -1) with true. cbn iota.
      rewrite wr_in by (by apply znth_Some in Hfree). done.
    - destruct (Hbef k ltac:(lia)) as (v & Ev & Hv). rewrite (rd_znth _ _ _ Ev). cbn [obind]. apply Z.eqb_neq in Hv as ->.
      rewrite u8_small by lia. apply IH; lia. }
  rewrite Hlp by lia. cbn [obind]. unfold MAX_FILES_OPEN_PER_PROC. zdec. unfold set_fds.
  unfold cur_fds in Ht. unfold upd_task, get_task in *. destruct (tasks (kern f) !! running_thread (kern f)); [|done].
  cbn [obind]. by eexists.
Qed.

Lemma cur_fds_upd f k t : upd_task (kern f) (running_thread (kern f)) (set_fd_table t) = Ok k ->
  cur_fds (with_kern k f) = Ok t.
Proof.
  unfold upd_task, cur_fds, get_task. destruct (tasks (kern f) !! running_thread (kern f)) as [x|]; [|done].
  cbn [obind]. intros [= <-]. cbn. by rewrite lookup_insert_eq.
Qed.

Definition wants_write (flags : Z) : bool := negb (Z.land flags O_WRONLY =? 0) || negb (Z.land flags O_RDWR =? 0).

(** [file_open] of an inode of view [i], in a state that holds [f]. *)
Lemma file_open_ok n f h no flags i g t l : mem_ok (with_kheap h f) -> geometry (cur_part f) -> counts_below 1 f ->
  0 <= no < 4096 -> inode_view f no = Ok i -> i_no i = no -> roomy (3 + n) h ->
  first_file f g -> cur_fds f = Ok t -> first_fd t l -> (wants_write flags = true -> write_deny i = 0) ->
  exists f1 a f2, held_view f no f1 a /\ file_open (with_kheap h f) no flags = Ok (f2, l)
    /\ medium f2 = medium f /\ cur_part f2 = cur_part f1 /\ cur_fds f2 = Ok (<[Z.to_nat l := g]> t)
    /\ file_table f2 = <[Z.to_nat g := mk_file 0 flags a]> (file_table f)
    /\ (exists j, inodes f1 !! a = Some j /\ inodes f2 = if wants_write flags then <[a := set_deny 1 j]> (inodes f1) else inodes f1).
Proof.
  intros M G C Hno Hv Hin R Hg Ht Hl Hw.
  destruct (inode_open_held n f h no i M G C Hno Hv Hin R) as (f1 & a & fresh & Eo & R1 & Hh & _).
  pose proof Hh as [(i' & j & Hi' & Hj & _ & _ & _ & Hdeny) _ Hm _ [Hft Hk] _ _ _ _]. assert (i' = i) as -> by congruence.
  unfold file_open. rewrite (free_slot_ok (with_kheap h f) g) by (by destruct Hg). cbn [obind].
  pose proof (ff_range _ _ Hg) as Hgr. replace (g =? -1) with false by (symmetry; apply Z.eqb_neq; lia).
  rewrite Eo. cbn [obind]. assert (0 <= g < zlen (file_table f)) as Hgl.
  { pose proof (ff_free _ _ Hg) as Hz. destruct (znth (file_table f) g) eqn:Ez; [|done]. by apply znth_Some in Ez. }
  unfold put_file. rewrite Hft, wr_in by done. cbn [obind].
  set (f3 := with_files _ f1). assert (cur_fds f3 = Ok t) as Ht3 by (unfold cur_fds; cbn [f3 with_files kern]; by rewrite Hk).
  unfold get_inode in Hj. destruct (inodes f1 !! a) as [j'|] eqn:Ea; [|done]. injection Hj as ->.
  fold (wants_write flags). destruct (wants_write flags).
  - unfold get_inode. cbn [f3 with_files inodes]. rewrite Ea. cbn [obind]. rewrite <- Hdeny, (Hw eq_refl). change (0 =? 0) with true. cbn iota.
    destruct (fd_install_ok (put_inode a (set_deny 1 j) f3) g t l Ht3 Hl) as (k & Ei & Ek). rewrite Ei. exists f1, a. eexists.
    split; [done|]. split; [reflexivity|]. split; [done|]. split; [done|]. split; [by apply cur_fds_upd|]. split; [done|]. by exists j.
  - destruct (fd_install_ok f3 g t l Ht3 Hl) as (k & Ei & Ek). rewrite Ei. exists f1, a. eexists.
    split; [done|]. split; [reflexivity|]. split; [done|]. split; [done|]. split; [by apply cur_fds_upd|]. split; [done|]. by exists j.
Qed.

(** C25. [sys_open] of an existing file without [O_CREAT]: the descriptor returned
    leads through the task's table and the file table to the inode the path
    names, at position 0 and with the flags given; for writing, the inode is
    then denied to other writers. Nothing on the disk changes. The directory the
    file is in stays open: nothing closes it. *)
Theorem sys_open_existing f root_dir dirs s m name0 name1 dir_e0 flags p no i g t l : fs_ready f root_dir dirs -> path_ok s ->
  names_file s -> 0 <= flags < 4 -> stack_ok name0 name1 dir_e0 ->
  roomy (3 + 12 * S (length (components s))) (kheap f) -> search_answer f s = (components s, Regular p no) ->
  inode_view f no = Ok i -> i_no i = no -> (wants_write flags = true -> write_deny i = 0) ->
  first_file f g -> cur_fds f = Ok t -> first_fd t l ->
  exists f' a j, sys_open f root_dir name0 name1 dir_e0 (s ++ 0 :: m) flags = Ok (f', l)
    /\ cur_fds f' = Ok (<[Z.to_nat l := g]> t) /\ file_table f' = <[Z.to_nat g := mk_file 0 flags a]> (file_table f)
    /\ inodes f' !! a = Some j /\ a ∈ open_inodes (cur_part f')
    /\ i_no j = no /\ i_size j = i_size i /\ i_sectors j = i_sectors i
    /\ write_deny j = (if wants_write flags then 1 else write_deny i) /\ medium f' = medium f
    /\ (exists b k, b ∈ open_inodes (cur_part f') /\ inodes f' !! b = Some k /\ i_no k = p).
Proof.
  intros Hr Hp Hlast Hfl Hst R E Hv Hin Hw Hg Ht Hl. rewrite Nat.add_comm in R.
  destruct (sys_open_run 3 f root_dir dirs s m name0 name1 dir_e0 flags _ _ Hr Hp Hlast ltac:(lia) Hst R E) as (f1 & x & Hx & Rx & ->).
  destruct (answer_facts f root_dir dirs s _ _ Hr Hp E) as (Hpd & Hno & _). cbn [answer_parent] in *.
  unfold open_resolved. rewrite Z.eqb_refl.
  assert ((Z.land flags O_CREAT =? 0) = true) as ->.
  { assert (flags = 0 \/ flags = 1 \/ flags = 2 \/ flags = 3) as Hf4 by lia. by destruct Hf4 as [->|[->|[->| ->]]]. }
  cbn [andb negb]. pose proof Hx as [[(ip & jp & Hip & Hjp & Hsp & _) Hop Hmed [lp Hpart] [Hft Hk] M1 C1 V1 _] _].
  destruct (V1 no i Hv) as (i1 & Hv1 & Hs1 & Hs2 & Hs3 & Hs4).
  assert (geometry (cur_part f1)) as G1 by (rewrite Hpart; by apply geometry_open, Hr).
  assert (counts_below 1 f1) as Cb1 by (apply (C1 1 ltac:(lia)), Hr).
  destruct (file_open_ok 0 f1 (kheap f1) no flags i1 g t l) as (f2 & a & f3 & Hh & Eo & Hm3 & Hp3 & Hfd3 & Hft3 & (j & Hj & Hino)); try done.
  - by destruct f1.
  - congruence.
  - destruct Hg. split; rewrite ?Hft; done.
  - unfold cur_fds. by rewrite Hk.
  - by rewrite <- Hs4.
  - pose proof Hh as [(i' & j' & Hi' & Hj' & Hs1' & Hs2' & Hs3' & Hs4') Ho2 Hm2 _ _ _ _ _ O2].
    unfold get_inode in Hj'. rewrite Hj in Hj'. injection Hj' as <-. assert (i' = i1) as -> by congruence.
    exists f3, a, (if wants_write flags then set_deny 1 j else j). split; [by replace f1 with (with_kheap (kheap f1) f1) at 1 by (by destruct f1)|]. split; [done|]. split; [by rewrite Hft3, Hft|].
    split; [rewrite Hino; destruct (wants_write flags); [by rewrite lookup_insert_eq | done]|]. split; [by rewrite Hp3|].
    split; [destruct (wants_write flags); cbn; congruence|]. split; [destruct (wants_write flags); cbn; congruence|].
    split; [destruct (wants_write flags); cbn; congruence|]. split; [destruct (wants_write flags); cbn; congruence|].
    split; [congruence|]. unfold get_inode in Hjp. destruct (inodes f1 !! dir_inode x) as [jp'|] eqn:Ejp; [|done]. injection Hjp as ->.
    destruct (O2 (dir_inode x) jp Hop Ejp) as [Ob (k & Hk2 & Hsk & _)]. exists (dir_inode x).
    destruct (tree_dir f dirs (ready_tree _ _ _ Hr) p Hpd) as (_ & i0 & Hv0 & Hi0 & _). assert (i0 = ip) as -> by congruence.
    destruct (decide (dir_inode x = a)) as [Hea|Hne].
    + rewrite Hino, Hea. rewrite Hea in Ob, Hk2. exists (if wants_write flags then set_deny 1 j else j). split; [by rewrite Hp3|].
      assert (k = j) as -> by congruence. split; [destruct (wants_write flags); [by rewrite lookup_insert_eq | done]|].
      destruct (wants_write flags); cbn; congruence.
    + exists k. split; [by rewrite Hp3|]. rewrite Hino. split; [|congruence].
      destruct (wants_write flags); [rewrite lookup_insert_ne by congruence|]; done.
Qed.

(** ** Working directory and status *)

Lemma inode_close_kern k f a : inode_close (with_kern k f) a = let! g := inode_close f a in Ok (with_kern k g).
Proof.
  unfold inode_close, get_inode. cbn [with_kern inodes cur_part]. destruct (inodes f !! a) as [i|]; [|done]. cbn [obind].
  destruct (u32 (i_open_cnts i - 1) =? 0); [|done]. by destruct (elem_find _ _).
Qed.

Lemma dir_close_kern k f x : dir_close (with_kern k f) x = let! g := dir_close f x in Ok (with_kern k g).
Proof.
  unfold dir_close. destruct (dir_self x); [|done]. rewrite inode_close_kern. by destruct (inode_close f (dir_inode x)).
Qed.

(** An inode opened, looked at and closed. *)
Lemma inode_visit n f h no i : mem_ok (with_kheap h f) -> geometry (cur_part f) -> counts_below 1 f ->
  0 <= no < 4096 -> inode_view f no = Ok i -> i_no i = no -> roomy (4 + n) h ->
  exists f1 a h2, inode_open (with_kheap h f) no = Ok (f1, a) /\ held_view f no f1 a
    /\ inode_close f1 a = Ok (with_kheap h2 f) /\ same_live h h2 /\ roomy n h2.
Proof.
  intros M G C Hno Hv Hin R.
  destruct (inode_open_held (1 + n) f h no i M G C Hno Hv Hin R) as (f1 & a & fresh & Eo & R1 & Hh & Hf & Hl & Hcl).
  destruct (Hcl n (kheap f1) ltac:(done) R1) as (h2 & Ec & R2 & Hl2). exists f1, a, h2.
  replace (with_kheap (kheap f1) f1) with f1 in Ec by (by destruct f1). split; [done|]. split; [done|]. split; [done|].
  split; [|done]. intros k b. rewrite Hl2, Hl. split.
  - intros Hb. split; [by left|]. intros (Ht & -> & ->). by apply Hf.
  - intros [[?|?] Hne]; [done | by destruct Hne].
Qed.

(** The paths whose answer is an entry the code has read. *)
Definition names_entry (s : list Z) : Prop := components s <> [] \/ root_path s.

Lemma sys_chdir_ok n f root_dir dirs s m dir_e0 seen ans x : fs_ready f root_dir dirs -> path_ok s -> names_entry s ->
  zlen dir_e0 = 24 -> roomy (2 + n + 12 * S (length (components s))) (kheap f) -> search_answer f s = (seen, ans) ->
  get_task (kern f) (running_thread (kern f)) = Ok x ->
  exists h, same_live (kheap f) h /\ roomy n h /\ sys_chdir f root_dir dir_e0 (s ++ 0 :: m)
    = match ans with
      | Directory _ no =>
          Ok (with_kern (with_tasks (<[running_thread (kern f) := set_cwd no x]> (tasks (kern f))) (kern f)) (with_kheap h f), 0)
      | _ => Ok (with_kheap h f, -1)
      end.
Proof.
  intros Hr Hp Hent He R E Hx. rewrite Nat.add_comm in R.
  destruct (search_file_ok (2 + n) f root_dir dirs dir_e0 s m seen ans Hr Hp He R E) as (f1 & y & Es & Hy & Ry).
  destruct (answer_facts f root_dir dirs s seen ans Hr Hp E) as (_ & Hno & _).
  rewrite decide_False in Es by (unfold names_entry in Hent; tauto).
  destruct (close_held n f _ f1 y Hy Ry) as (h & Ec & Hl & Rh). exists h. split; [done|]. split; [done|].
  unfold sys_chdir. rewrite Es. cbn [obind file_type]. unfold close_parent. cbn [parent_dir].
  destruct ans as [p|p no|p no]; cbn [answer_no answer_type].
  - change (-1 =? -1) with true. cbn [negb andb obind]. by rewrite Ec.
  - change (FT_REGULAR =? FT_DIRECTORY) with false. rewrite andb_false_r. cbn [obind]. by rewrite Ec.
  - destruct (tree_dir f dirs (ready_tree _ _ _ Hr) no Hno) as [Hnr _].
    replace (no =? -1) with false by (symmetry; apply Z.eqb_neq; lia). change (FT_DIRECTORY =? FT_DIRECTORY) with true. cbn [negb andb].
    pose proof Hy as [[_ _ _ _ [_ Hk] _ _ _ _] _]. unfold upd_task. rewrite Hk, Hx. cbn [obind].
    rewrite dir_close_kern, Ec. cbn [obind]. by rewrite u32_small by lia.
Qed.

(** [sys_chdir] makes the directory a path leads to the working directory of the
    running task, and changes nothing else; any other path gives -1 and changes
    nothing. *)
Theorem sys_chdir_spec f root_dir dirs s m dir_e0 seen ans x : fs_ready f root_dir dirs -> path_ok s -> names_entry s ->
  zlen dir_e0 = 24 -> roomy (2 + 12 * S (length (components s))) (kheap f) -> search_answer f s = (seen, ans) ->
  get_task (kern f) (running_thread (kern f)) = Ok x ->
  exists h, same_live (kheap f) h /\ sys_chdir f root_dir dir_e0 (s ++ 0 :: m)
    = match ans with
      | Directory _ no =>
          Ok (with_kern (with_tasks (<[running_thread (kern f) := set_cwd no x]> (tasks (kern f))) (kern f)) (with_kheap h f), 0)
      | _ => Ok (with_kheap h f, -1)
      end.
Proof.
  intros Hr Hp Hent He R E Hx.
  destruct (sys_chdir_ok 0 f root_dir dirs s m dir_e0 seen ans x Hr Hp Hent He R E Hx) as (h & ? & _ & ?). by exists h.
Qed.

Lemma sys_stat_ok n f root_dir dirs s m dir_e0 seen ans buf i : fs_ready f root_dir dirs -> path_ok s -> names_entry s ->
  zlen dir_e0 = 24 -> roomy (6 + n + 12 * S (length (components s))) (kheap f) -> search_answer f s = (seen, ans) ->
  (0 <= answer_no ans -> inode_view f (answer_no ans) = Ok i /\ i_no i = answer_no ans) ->
  exists h, same_live (kheap f) h /\ roomy n h /\ sys_stat f root_dir dir_e0 (s ++ 0 :: m) buf
    = Ok (with_kheap h f, if answer_no ans <? 0 then buf else mk_stat (answer_no ans) (i_size i) (answer_type ans),
          if answer_no ans <? 0 then -1 else 0).
Proof.
  intros Hr Hp Hent He R E Hi. rewrite Nat.add_comm in R.
  destruct (search_file_ok (6 + n) f root_dir dirs dir_e0 s m seen ans Hr Hp He R E) as (f1 & y & Es & Hy & Ry).
  destruct (answer_facts f root_dir dirs s seen ans Hr Hp E) as (_ & Hno & _).
  rewrite decide_False in Es by (unfold names_entry in Hent; tauto).
  pose proof (ready_root _ _ _ Hr) as [Hself Ho (ir & Hir & Hir0)].
  unfold sys_stat. rewrite is_root_path_ok by apply Hp. cbn [obind]. destruct (decide (root_path s)) as [Hroot|Hroot].
  { rewrite bool_decide_eq_true_2 by done. unfold search_answer in E. rewrite decide_True in E by done. injection E as <- <-.
    exists (kheap f). split; [done|]. split; [apply (roomy_le n (12 * S (length (components s)) + 6)); by rewrite <- Nat.add_assoc|]. rewrite Hir. cbn [obind answer_no Z.ltb Z.compare].
    destruct (Hi ltac:(done)) as [Hv _]. unfold get_inode in Hir. destruct (inodes f !! dir_inode root_dir) as [j|] eqn:Ej; [|done]. injection Hir as ->.
    pose proof (inode_view_hit f (dir_inode root_dir) ir (ready_mem _ _ _ Hr) Ho Ej) as Hv'. rewrite Hir0 in Hv'.
    cbn [answer_no] in Hv. assert (ir = i) as -> by congruence. by destruct f. }
  rewrite bool_decide_eq_false_2 by done. rewrite Es. cbn [obind file_type]. unfold close_parent. cbn [parent_dir].
  assert (answer_no ans = -1 \/ 0 <= answer_no ans < 4096) as Hcase.
  { destruct ans as [p|p no|p no]; [by left | by right | right]. apply (tree_dir f dirs (ready_tree _ _ _ Hr) no Hno). }
  destruct Hcase as [->|Hn].
  - change (-1 =? -1) with true. cbn [negb obind Z.ltb Z.compare].
    destruct (close_held (4 + n) f _ f1 y Hy Ry) as (h & Ec & Hl & Rh). exists h. rewrite Ec. split; [done|]. split; [by apply (roomy_le n 4) | done].
  - destruct (Hi ltac:(lia)) as [Hv Hin]. clear Hi. set (no := answer_no ans) in *.
    replace (no =? -1) with false by (symmetry; apply Z.eqb_neq; lia). zdec. rewrite u32_small by lia. cbn [negb].
    pose proof Hy as [[_ _ _ [lp Hpart] _ M1 C1 V1 _] Hclose _]. destruct (V1 no i Hv) as (i1 & Hv1 & Hs1 & Hs2 & Hs3 & Hs4).
    assert (geometry (cur_part f1)) as G1 by (rewrite Hpart; by apply geometry_open, Hr).
    assert (counts_below 1 f1) as Cb1 by (apply (C1 1 ltac:(lia)), Hr).
    destruct (inode_visit (2 + n) f1 (kheap f1) no i1) as (f2 & a & h2 & Eo & Hh & Ec & Hl2 & R2); try done; [by destruct f1 | congruence|].
    replace (with_kheap (kheap f1) f1) with f1 in Eo by (by destruct f1). rewrite Eo. cbn [obind].
    pose proof Hh as [(i2 & j & Hi2 & Hj & Hsj1 & Hsj2 & _) _ _ _ _ _ _ _ _]. rewrite Hj. cbn [obind]. rewrite Ec. cbn [obind].
    destruct (Hclose n h2 Hl2 R2) as (h3 & Ec3 & Hl3 & R3). rewrite Ec3. exists h3. split; [done|]. split; [done|]. cbn [obind].
    do 4 f_equal. congruence.
Qed.

(** [sys_stat] reports number, size and kind of what a path leads to, and -1 with
    the structure untouched when there is nothing; nothing stays open. *)
Theorem sys_stat_spec f root_dir dirs s m dir_e0 seen ans buf i : fs_ready f root_dir dirs -> path_ok s -> names_entry s ->
  zlen dir_e0 = 24 -> roomy (6 + 12 * S (length (components s))) (kheap f) -> search_answer f s = (seen, ans) ->
  (0 <= answer_no ans -> inode_view f (answer_no ans) = Ok i /\ i_no i = answer_no ans) ->
  exists h, same_live (kheap f) h /\ sys_stat f root_dir dir_e0 (s ++ 0 :: m) buf
    = Ok (with_kheap h f, if answer_no ans <? 0 then buf else mk_stat (answer_no ans) (i_size i) (answer_type ans),
          if answer_no ans <? 0 then -1 else 0).
Proof.
  intros Hr Hp Hent He R E Hi.
  destruct (sys_stat_ok 0 f root_dir dirs s m dir_e0 seen ans buf i Hr Hp Hent He R E Hi) as (h & ? & _ & ?). by exists h.
Qed.

End lemmas.
