(* ===== verification/Cwd.v ===== *)
(** Correctness of [sys_getcwd] of Fs.v: the climb from the working directory to
    the root, and the path it writes. *)
From S2P Require Import Prelude Bitmap Thread Ide Blockdev Inode File Filewrite Dir Words Path Search Fs Fsspec.

Section spec.
Context {D H : Type} `{BlockDevice D} `{KernelHeap H}.
Abbreviation fs := (fstate D H).

(** The first slot of a directory that carries an inode number. *)
Definition slot_of_no (d : D) (i : inode) (no : Z) : option (list Z) :=
  List.find (fun s => entry_no s =? no) (dir_slots d i).

(** Directory [no] is reached from the root by names, the last of them first: its
    second entry is its parent [p], where the entry that carries [no] is the one
    its name stands for. *)
Inductive upward (f : fs) : Z -> list (list Z) -> Prop :=
  | upward_root : upward f 0 []
  | upward_step no i p ip e names :
      no <> 0 -> 0 <= no < 4096 -> inode_view f no = Ok i -> i_no i = no -> dir_readable (medium f) i ->
      data_start_lba (sb (cur_part f)) <= file_block (medium f) i 0 <= max_lba ->
      entry_no (slot (sector (medium f) (file_block (medium f) i 0)) 1) = p ->
      entry_type (slot (sector (medium f) (file_block (medium f) i 0)) 1) = FT_DIRECTORY ->
      0 <= p < 4096 -> inode_view f p = Ok ip -> i_no ip = p -> dir_readable (medium f) ip ->
      slot_of_no (medium f) ip no = Some e -> dir_lookup (medium f) ip (entry_name e) = Some e ->
      entry_type e = FT_DIRECTORY -> upward f p names -> upward f no (entry_name e :: names).

End spec.

Section lemmas.
Context {D H : Type} `{BlockDeviceLaws D} `{KernelHeapLaws H}.
Abbreviation fs := (fstate D H).
Implicit Types (f : fs) (i : inode) (d : D) (h : H).

Lemma slot_field buf j o : 0 <= j < 21 -> zlen buf = 512 -> 0 <= o <= 20 ->
  rd_le32 buf (24 * j + o) = Ok (word_at (slot buf j) o).
Proof.
  intros Hj Hl Ho. rewrite <- word_at_ok by (unfold slot; rewrite ?length_take, ?length_drop; lia).
  unfold rd_le32.
  assert (forall k, 0 <= k < 24 -> rd buf (24 * j + k) = rd (slot buf j) k) as Hrd.
  { intros k Hk. unfold rd, znth, slot. zdec. rewrite lookup_take_lt, lookup_drop by lia. replace (Z.to_nat (24 * j + k)) with (Z.to_nat (24 * j) + Z.to_nat k)%nat by lia. done. }
  rewrite <- !Hrd by lia. by rewrite !Z.add_assoc.
Qed.

(** ** One step up *)

Lemma get_parent_ok n f h no i io : mem_ok (with_kheap h f) -> geometry (cur_part f) -> counts_below 1 f ->
  0 <= no < 4096 -> inode_view f no = Ok i -> i_no i = no -> dir_readable (medium f) i -> zlen io = 512 ->
  let lba := file_block (medium f) i 0 in
  data_start_lba (sb (cur_part f)) <= lba <= max_lba ->
  entry_type (slot (sector (medium f) lba) 1) = FT_DIRECTORY -> entry_no (slot (sector (medium f) lba) 1) < 4096 ->
  roomy (4 + n) h ->
  exists h2, get_parent_dir_inode_nr (with_kheap h f) no io
      = Ok (with_kheap h2 f, entry_no (slot (sector (medium f) lba) 1), sector (medium f) lba)
    /\ same_live h h2 /\ roomy n h2.
Proof.
  intros M G C Hno Hv Hin Hr Hio lba Hlba Hty Hp R.
  destruct (inode_visit n f h no i M G C Hno Hv Hin R) as (f1 & a & h2 & Eo & Hh & Ec & Hl & R2).
  exists h2. split; [|done]. unfold get_parent_dir_inode_nr. rewrite Eo. cbn [obind].
  pose proof Hh as [(i' & j & Hi' & Hj & _ & _ & Hsec & _) _ Hm [l Hpart] _ _ _ _ _]. assert (i' = i) as -> by congruence.
  rewrite Hj. cbn [obind]. pose proof (rdb_len _ _ Hr) as Hlen.
  assert (rd (i_sectors j) 0 = Ok lba) as ->.
  { rewrite <- Hsec. unfold lba, file_block. cbn [Z.ltb Z.compare]. destruct (i_sectors i) as [|x t]; [done|]. done. }
  cbn [obind]. rewrite Hpart. cbn [sb set_open]. zdec. cbn [c_assert obind]. rewrite Ec. cbn [obind medium with_kheap].
  rewrite disk_read_one by lia. cbn [obind]. pose proof (sector_len (medium f) lba) as Hsl. unfold SECTOR_SIZE in Hsl.
  unfold de_i_no, de_f_type, sizeof_dir_entry. rewrite !slot_field by lia. cbn [obind].
  change (word_at (slot (sector (medium f) lba) 1) 20) with (entry_type (slot (sector (medium f) lba) 1)). rewrite Hty.
  change (word_at (slot (sector (medium f) lba) 1) 16) with (entry_no (slot (sector (medium f) lba) 1)). by zdec.
Qed.

(** A string in memory that ends within [n] bytes. *)
Lemma c_string_chars n : forall l, 0 ∈ take n l -> c_string l = Ok (chars (take n l)).
Proof.
  induction n as [|n IH]; intros [|c l] Hz; try by apply elem_of_nil in Hz. cbn [take] in *. cbn [c_string chars].
  destruct (Z.eqb_spec c 0) as [->|Hc]; [done|]. apply elem_of_cons in Hz as [Hz|Hz]; [congruence|]. by rewrite IH.
Qed.

Lemma child_entries buf no : zlen buf = 512 ->
  loop (child_entry_body buf no 21) 513 0 = Ok (List.find (fun j => entry_no (slot buf j) =? no) (seqZ 0 21)).
Proof.
  intros Hl. rewrite (find_loop _ 21 (fun j => if entry_no (slot buf j) =? no then Some j else None)).
  - f_equal. change (21 - 0) with 21. induction (seqZ 0 21) as [|j l IH]; [done|]. cbn. by destruct (entry_no (slot buf j) =? no).
  - intros k Hk. unfold child_entry_body. zdec. unfold de_i_no, sizeof_dir_entry. rewrite slot_field by lia. cbn [obind].
    rewrite u8_small by lia. unfold entry_no. by destruct (word_at (slot buf k) 16 =? no).
  - done.
  - lia.
  - lia.
Qed.

(** The walk over the blocks, from block [k] on. *)
Lemma child_blocks d i no blocks cnt p e : dir_readable d i -> (forall k, 0 <= k < 140 -> znth blocks k = Some (file_block d i k)) ->
  0 <= cnt <= 140 -> 0 ∉ p -> zlen p + 1 + zlen (entry_name e) < 512 ->
  forall fuel k io, 0 <= k <= cnt -> (Z.to_nat (cnt - k) < fuel)%nat -> zlen io = 512 ->
  List.find (fun s => entry_no s =? no) (slots_of d (dir_lbas d i k (cnt - k))) = Some e ->
  exists io', loop (child_block_body d blocks (str_array 512 p) no 21 cnt) fuel (k, io)
      = Ok (Some (str_array 512 (p ++ SLASH :: entry_name e)), io') /\ zlen io' = 512.
Proof.
  intros Hr Hall Hcnt Hp Hlen. pose proof Hr as [_ _ Hlba Hends].
  induction fuel as [|fuel IH]; intros k io Hk Hf Hio Hfind; [lia|]. cbn [loop]. unfold child_block_body at 1.
  destruct (decide (k = cnt)) as [->|Hne]; [by rewrite Z.sub_diag in Hfind|]. zdec.
  rewrite (rd_znth _ _ _ (Hall k ltac:(lia))). cbn [obind]. unfold dir_lbas in Hfind. rewrite seqZ_from in Hfind by lia.
  cbn [map] in Hfind. rewrite filter_cons in Hfind. destruct (Z.eqb_spec (file_block d i k) 0) as [E|E].
  - rewrite decide_False in Hfind by (intros Hc; by apply Hc). apply IH; try done; lia.
  - rewrite decide_True in Hfind by done. unfold slots_of in Hfind. cbn [map concat] in Hfind. rewrite find_app in Hfind.
    pose proof (sector_len d (file_block d i k)) as Hsl. unfold SECTOR_SIZE in Hsl.
    rewrite disk_read_one; [|rewrite Forall_forall in Hlba; by apply Hlba, dir_lbas_in; [lia|] | lia].
    cbn [obind]. rewrite child_entries by lia. cbn [obind]. unfold slots in Hfind. rewrite find_map in Hfind.
    destruct (List.find (fun x => entry_no (slot (sector d (file_block d i k)) x) =? no) (seqZ 0 21)) as [j|] eqn:Ej.
    + injection Hfind as <-. pose proof Ej as Ej'. apply List.find_some in Ej as [Hj _]. apply list_elem_of_In, elem_of_seqZ in Hj.
      assert (0 ∈ take 16 (slot (sector d (file_block d i k)) j)) as Hend.
      { rewrite Forall_forall in Hends. apply Hends. apply (dir_slots_in d i k); [lia|done|].
        apply list_elem_of_In, in_map, list_elem_of_In, elem_of_seqZ. lia. }
      rewrite c_strcat_array by (done || cbn; lia). cbn [obind].
      rewrite (c_string_chars 16) by (by rewrite <- name_of_slot). rewrite <- name_of_slot. cbn [obind].
      change (chars (take 16 (slot (sector d (file_block d i k)) j))) with (entry_name (slot (sector d (file_block d i k)) j)).
      rewrite c_strcat_array; [|intros [Hz|Hz]%elem_of_app; [done | by apply list_elem_of_singleton in Hz] | rewrite length_app; cbn; lia].
      cbn [obind]. rewrite <- app_assoc. eexists. split; [done | lia].
    + apply IH; try done; lia.
Qed.

Lemma no_table_lbas d i : znth (i_sectors i) 12 = Some 0 -> dir_lbas d i 0 12 = dir_lbas d i 0 140.
Proof.
  intros Ht. unfold dir_lbas. change (seqZ 0 140) with (seqZ 0 12 ++ seqZ 12 128). rewrite map_app, filter_app.
  assert (forall l, (forall k, k ∈ l -> 12 <= k) -> filter (fun lba => lba <> 0) (map (file_block d i) l) = []) as Hnil.
  { induction l as [|k l IH]; intros Hl; [done|]. cbn [map]. rewrite filter_cons_False; [apply IH; intros; apply Hl; by right|].
    intros Hc. apply Hc. unfold file_block, indirect_table. rewrite Ht. specialize (Hl k ltac:(by left)). zdec.
    change (default 0 (Some 0) =? 0) with true. cbn iota. rewrite znth_out by (cbn [length]; lia). done. }
  rewrite (Hnil (seqZ 12 128)), app_nil_r; [done|]. intros k Hk%elem_of_seqZ. lia.
Qed.

Lemma get_child_ok n f h p no ip e path io : mem_ok (with_kheap h f) -> geometry (cur_part f) -> counts_below 1 f ->
  dir_entry_size (sb (cur_part f)) = 24 -> 0 <= p < 4096 -> inode_view f p = Ok ip -> i_no ip = p ->
  dir_readable (medium f) ip -> slot_of_no (medium f) ip no = Some e -> zlen io = 512 ->
  0 ∉ path -> zlen path + 1 + zlen (entry_name e) < 512 -> roomy (4 + n) h ->
  exists h2 io', get_child_dir_name (with_kheap h f) p no (str_array 512 path) io
      = Ok (with_kheap h2 f, Some (str_array 512 (path ++ SLASH :: entry_name e)), io')
    /\ zlen io' = 512 /\ same_live h h2 /\ roomy n h2.
Proof.
  intros M G C Hsz Hp Hv Hin Hr Hslot Hio Hpath Hlen R.
  destruct (inode_visit n f h p ip M G C Hp Hv Hin R) as (f1 & a & h2 & Eo & Hh & Ec & Hl & R2).
  pose proof Hh as [(i' & j & Hi' & Hj & _ & _ & Hsec & _) _ Hm _ _ _ _ _ _]. assert (i' = ip) as -> by congruence.
  destruct (same_sectors (medium f) ip j (eq_sym Hsec)) as [_ Hrj]. specialize (Hrj Hr). pose proof Hr as [Hlen13 Htab _ _].
  unfold get_child_dir_name. rewrite Eo. cbn [obind]. rewrite Hj. cbn [obind]. rewrite Hm.
  destruct (dir_blocks_ok (medium f) j (rdb_len _ _ Hrj) (rdb_table _ _ Hrj)) as (l & El & Hll & Hk). rewrite El. cbn [obind].
  destruct (znth_in (i_sectors j) 12) as [tl Htl]; [rewrite <- Hsec; lia|]. rewrite (rd_znth _ _ _ Htl). cbn [obind].
  rewrite Ec. cbn [obind]. unfold entries_per_sec. cbn [cur_part with_kheap medium]. rewrite Hsz. cbn [Z.eqb obind]. change (512 / 24) with 21.
  destruct (child_blocks (medium f) j no l (if tl =? 0 then 12 else 140) path e Hrj Hk ltac:(destruct (tl =? 0); lia) Hpath Hlen
    141 0 io ltac:(destruct (tl =? 0); lia) ltac:(destruct (tl =? 0); lia) Hio) as (io' & Eb & Hio').
  - rewrite Z.sub_0_r. assert (slot_of_no (medium f) j no = Some e) as Hs.
    { unfold slot_of_no, dir_slots in *. replace (dir_lbas (medium f) j 0 140) with (dir_lbas (medium f) ip 0 140); [done|].
      unfold dir_lbas. f_equal. apply map_ext. intros k. unfold file_block, indirect_table. by rewrite Hsec. }
    unfold slot_of_no, dir_slots in Hs. destruct (Z.eqb_spec tl 0) as [->|]; [by rewrite no_table_lbas | done].
  - rewrite Eb. cbn [obind]. by exists h2, io'.
Qed.

(** ** The climb *)

Lemma upward_words f names no : upward f no names -> Forall (fun w => 0 ∉ w) names.
Proof.
  induction 1; constructor; [|done]. unfold entry_name. generalize (take 16 e) as l. intros l.
  induction l as [|c l IH]; cbn; [apply not_elem_of_nil|]. destruct (Z.eqb_spec c 0); [apply not_elem_of_nil|].
  apply not_elem_of_cons. split; [congruence | done].
Qed.

Lemma climb_ok n f : mem_ok f -> geometry (cur_part f) -> counts_below 1 f -> dir_entry_size (sb (cur_part f)) = 24 ->
  forall no names, upward f no names -> forall fuel h done_ io, same_live (kheap f) h -> roomy (8 * length names + n) h ->
  (length names < fuel)%nat -> zlen io = 512 -> 0 ∉ join done_ -> zlen (join (done_ ++ names)) < 512 ->
  exists h2, loop climb_body fuel (with_kheap h f, no, str_array 512 (join done_), io)
      = Ok (with_kheap h2 f, Some (str_array 512 (join (done_ ++ names))))
    /\ same_live (kheap f) h2 /\ roomy n h2.
Proof.
  intros M G C Hsz no names U.
  induction U as [|no i p ip e names Hnz Hno Hv Hin Hr Hlba Hp Hty Hpr Hvp Hip Hrp Hslot Hlook Het U IH];
    intros fuel h done_ io Hl R Hf Hio Hd Hlen; (destruct fuel as [|fuel]; [cbn [length] in Hf; lia|]); cbn [loop]; unfold climb_body at 1.
  - cbn [Z.eqb]. exists h. rewrite app_nil_r. split; [done|]. split; [done|]. exact R.
  - assert (mem_ok (with_kheap h f)) as M1 by (apply mem_ok_heap; [done|]; intros a Ha; by apply Hl).
    replace (no =? 0) with false by (symmetry; by apply Z.eqb_neq).
    replace (8 * length (entry_name e :: names) + n)%nat with (4 + (4 + (8 * length names + n)))%nat in R by (cbn [length]; lia).
    destruct (get_parent_ok _ f h no i io M1 G C Hno Hv Hin Hr Hio Hlba Hty ltac:(rewrite Hp; lia) R) as (h2 & E2 & Hl2 & R2).
    rewrite E2, Hp. cbn [obind]. assert (same_live (kheap f) h2) as Hl2' by (by rewrite Hl).
    assert (mem_ok (with_kheap h2 f)) as M2 by (apply mem_ok_heap; [done|]; intros a Ha; by apply Hl2').
    pose proof (sector_len (medium f) (file_block (medium f) i 0)) as Hsl. unfold SECTOR_SIZE in Hsl.
    assert (zlen (join done_) + 1 + zlen (entry_name e) < 512) as Hlen1.
    { unfold join in *. rewrite map_app, concat_app in Hlen. cbn [map concat app] in Hlen. rewrite !length_app in Hlen. cbn [length] in Hlen.
      rewrite length_app in Hlen. lia. }
    destruct (get_child_ok _ f h2 p no ip e (join done_) _ M2 G C Hsz Hpr Hvp Hip Hrp Hslot Hsl Hd Hlen1 R2)
      as (h3 & io3 & E3 & Hio3 & Hl3 & R3).
    rewrite E3. cbn [obind]. rewrite <- join_snoc.
    destruct (IH fuel h3 (done_ ++ [entry_name e]) io3) as (h4 & E4 & Hl4 & R4); try done.
    + by rewrite Hl2'.
    + cbn [length] in Hf. lia.
    + rewrite join_snoc. assert (Forall (fun w => 0 ∉ w) (entry_name e :: names)) as Hc by (eapply upward_words; econstructor; eauto).
      apply Forall_cons in Hc as [Hc _]. intros [Hz|Hz]%elem_of_app; [done|]. by apply elem_of_cons in Hz as [|].
    + by rewrite <- app_assoc.
    + exists h4. by rewrite E4, <- app_assoc.
Qed.

(** ** Turning the path round *)

Lemma last_slash_none w : SLASH ∉ w -> forall k acc, last_slash w k acc = acc.
Proof.
  induction w as [|c w IH]; intros Hw k acc; [done|]. apply not_elem_of_cons in Hw as [Hc Hw]. cbn.
  replace (c =? SLASH) with false by (symmetry; apply Z.eqb_neq; congruence). by apply IH.
Qed.

Lemma last_slash_at s w : SLASH ∉ w -> forall k acc, last_slash (s ++ SLASH :: w) k acc = Some (k + zlen s).
Proof.
  intros Hw. induction s as [|c s IH]; intros k acc.
  - cbn. rewrite last_slash_none by done. f_equal. lia.
  - cbn [app last_slash]. rewrite IH. f_equal. cbn [length]. lia.
Qed.

Lemma splice_end s m t : zlen t <= zlen m -> splice (s ++ 0 :: m) (zlen s) (t ++ [0])
  = Ok ((s ++ t) ++ 0 :: drop (length t) m).
Proof.
  intros Hl. unfold splice. rewrite !length_app. cbn [length]. zdec. f_equal.
  replace (Z.to_nat (zlen s)) with (length s) by lia. rewrite take_app_length, drop_app_ge by lia. rewrite <- !app_assoc. do 2 f_equal.
  replace (length s + (length t + 1) - length s)%nat with (S (length t)) by lia. done.
Qed.

Lemma reverse_ok names : Forall is_word names -> forall fuel m s m', (length names < fuel)%nat -> 0 ∉ s ->
  zlen s + zlen (join names) < 2 ^ 16 -> zlen (join names) <= zlen m' ->
  exists m2, loop reverse_body fuel (join names ++ 0 :: m, s ++ 0 :: m') = Ok ((s ++ join (rev names)) ++ 0 :: m2)
    /\ zlen (join (rev names)) + zlen m2 = zlen m'.
Proof.
  induction names as [|w names IH] using rev_ind; intros Hw fuel m s m' Hf Hs Hl Hm; (destruct fuel as [|fuel]; [rewrite ?length_app in Hf; cbn in Hf; lia|]);
    cbn [loop]; unfold reverse_body at 1; rewrite c_string_ok by (by apply join_clean); cbn [obind].
  - exists m'. cbn. by rewrite app_nil_r.
  - rewrite join_snoc in *. apply Forall_app in Hw as [Hn Hw]. apply Forall_singleton in Hw as (_ & Hsl & Hz).
    rewrite last_slash_at by done. cbn [obind]. unfold c_strlen. rewrite c_string_ok by done. cbn [obind]. rewrite length_app in *. cbn [length] in *.
    rewrite u16_small by lia. replace (Z.to_nat (0 + zlen (join names))) with (length (join names)) by lia.
    rewrite drop_app_length. rewrite splice_end by (cbn [length]; lia). cbn [obind].
    rewrite wr_in by (rewrite !length_app; cbn [length]; lia). cbn [obind].
    replace (Z.to_nat (0 + zlen (join names))) with (length (join names) + 0)%nat by lia.
    rewrite <- app_assoc, insert_app_r. cbn [app insert list_insert].
    destruct (IH Hn fuel (w ++ 0 :: m) (s ++ SLASH :: w) (drop (length (SLASH :: w)) m')) as (m2 & E & Hm2).
    + lia.
    + intros [Hc|Hc]%elem_of_app; [done|]. by apply elem_of_cons in Hc as [|].
    + rewrite length_app. cbn [length]. lia.
    + rewrite length_drop. cbn [length]. lia.
    + exists m2. rewrite E. rewrite rev_unit, join_cons, app_assoc. split; [done|].
      rewrite length_drop in Hm2. rewrite length_app. cbn [length] in *. lia.
Qed.

(** ** The path leads back *)

Lemma resolve_snoc f w e names : forall a b seen seen' p q, resolve f a b seen names = (seen', Directory p q) ->
  lookup_in f q w = Some e -> entry_type e = FT_DIRECTORY ->
  resolve f a b seen (names ++ [w]) = (seen' ++ [w], Directory q (entry_no e)).
Proof.
  induction names as [|v names IH]; intros a b seen seen' p q E Hl Ht; cbn [app resolve] in *.
  - injection E as <- <- <-. rewrite Hl, Ht. done.
  - destruct (lookup_in f b v) as [e'|]; [|done]. destruct (entry_type e' =? FT_DIRECTORY); [|done]. by eapply IH.
Qed.

Lemma upward_resolves f no names : upward f no names -> exists p, resolve f 0 0 [] (rev names) = (rev names, Directory p no).
Proof.
  induction 1 as [|no i p ip e names Hnz Hno Hv Hin Hr Hlba Hp Hty Hpr Hvp Hip Hrp Hslot Hlook Het U [q IH]]; [by exists 0|].
  exists p. cbn [rev]. assert (entry_no e = no) as <-.
  { apply List.find_some in Hslot as [_ Hn]. by apply Z.eqb_eq in Hn. }
  apply (resolve_snoc f _ e _ _ _ _ _ q p); [done | | done]. unfold lookup_in. by rewrite Hvp.
Qed.

Lemma join_rev_length names : zlen (join (rev names)) = zlen (join names).
Proof.
  induction names as [|w names IH]; [done|]. cbn [rev]. rewrite join_snoc, join_cons, !length_app. lia.
Qed.

Lemma join_longer names : zlen names <= zlen (join names).
Proof. induction names as [|w names IH]; [done|]. rewrite join_cons, length_app. cbn [length]. lia. Qed.

Lemma upward_heap f h no names : upward f no names -> upward (with_kheap h f) no names.
Proof. induction 1; [constructor | by econstructor]. Qed.

(** The path of a working directory. *)
Definition cwd_path (names : list (list Z)) : list Z := match names with [] => [SLASH] | _ => join (rev names) end.

(** What the call does below the root: the climb, and then the reversal of what
    it has collected into the cleared buffer. *)
Lemma sys_getcwd_run n f buf size no names x : mem_ok f -> geometry (cur_part f) -> counts_below 1 f ->
  dir_entry_size (sb (cur_part f)) = 24 -> get_task (kern f) (running_thread (kern f)) = Ok x -> cwd_inode_nr x = no ->
  upward f no names -> no <> 0 -> Forall is_word names -> zlen (join names) < 512 ->
  zlen (join names) <= size <= zlen buf -> roomy (2 + n + 8 * length names) (kheap f) ->
  exists h pad m, same_live (kheap f) h /\ roomy n h /\ 1 + zlen m = zlen buf
    /\ sys_getcwd f buf size
       = let! b := loop reverse_body 513 (join names ++ 0 :: pad, [] ++ 0 :: m) in Ok (with_kheap h f, Some b).
Proof.
  intros M G C Hsz Hx Hcwd U Hz Hw Hl Hb R. unfold sys_getcwd.
  destruct (roomy_malloc _ (kheap f) false 512 R ltac:(done)) as (h1 & io & E1 & N1 & R1 & F1 & L1). rewrite E1.
  apply Z.eqb_neq in N1 as ->. cbn [kern with_kheap]. rewrite Hx. cbn [obind]. rewrite Hcwd.
  assert (0 <= no < 4096) as Hno by (by inversion U). rewrite s32_small by lia. zdec. cbn [c_assert obind].
  pose proof (join_longer names) as Hlong. assert (0 < zlen names) as Hnn by (inversion U; cbn; lia).
  unfold splice at 1. unfold zeros at 1 2. rewrite !length_replicate. zdec. cbn [obind].
  assert (mem_ok (with_kheap h1 f)) as M1 by (apply mem_ok_heap; [done|]; intros a Ha; apply L1; by left).
  destruct (climb_ok (1 + n) (with_kheap h1 f) M1 G C Hsz no names (upward_heap f h1 no names U) 513 h1 [] (zeros 512))
    as (h2 & E2 & Hl2 & R2); [done | by rewrite Nat.add_comm | lia | done | apply not_elem_of_nil | done |].
  change (with_kheap h1 (with_kheap h1 f)) with (with_kheap h1 f) in E2.
  change (str_array 512 (join [])) with (zeros MAX_PATH_LEN) in E2. rewrite E2. cbn [obind app]. change (with_kheap h2 (with_kheap h1 f)) with (with_kheap h2 f).
  unfold c_strlen. rewrite c_string_array by (by apply join_clean || lia). cbn [obind]. zdec. cbn [c_assert obind].
  exists (sys_free h2 false io), (replicate (Z.to_nat (512 - zlen (join names)) - 1) 0), (replicate (Z.to_nat size - 1) 0 ++ drop (Z.to_nat size) buf).
  cbn [kheap with_kheap] in Hl2. assert (live h2 false io) as Lio by (apply Hl2, L1; by right). split; [|split; [|split]].
  - intros k b. rewrite free_gone by done. rewrite <- (Hl2 k b), L1. split.
    + intros Hk. split; [by left|]. by intros [-> ->].
    + intros [[?|?] Hn]; [done | by destruct Hn].
  - by apply R2.
  - rewrite length_app, length_replicate, length_drop. lia.
  - unfold str_array. rewrite (replicate_head (Z.to_nat (512 - zlen (join names)))) by lia.
    assert (take (Z.to_nat 0) buf ++ replicate (Z.to_nat size) 0 ++ drop (Z.to_nat 0 + length (zeros size)) buf
      = [] ++ 0 :: (replicate (Z.to_nat size - 1) 0 ++ drop (Z.to_nat size) buf)) as ->; [|done].
    unfold zeros. rewrite length_replicate. change (Z.to_nat 0) with 0%nat. rewrite take_0, Nat.add_0_l, (replicate_head (Z.to_nat size)) by lia. done.
Qed.

Lemma sys_getcwd_ok n f buf size no names x : mem_ok f -> geometry (cur_part f) -> counts_below 1 f ->
  dir_entry_size (sb (cur_part f)) = 24 -> get_task (kern f) (running_thread (kern f)) = Ok x -> cwd_inode_nr x = no ->
  upward f no names -> Forall is_word names -> zlen (cwd_path names) < 512 -> zlen (cwd_path names) < size <= zlen buf ->
  roomy (2 + n + 8 * length names) (kheap f) ->
  exists h m, same_live (kheap f) h /\ roomy n h
    /\ sys_getcwd f buf size = Ok (with_kheap h f, Some (cwd_path names ++ 0 :: m))
    /\ zlen (cwd_path names ++ 0 :: m) = zlen buf
    /\ exists p, resolve f 0 0 [] (components (cwd_path names)) = (rev names, Directory p no).
Proof.
  intros M G C Hsz Hx Hcwd U Hw Hl Hb R.
  destruct (upward_resolves f no names U) as [p Hp].
  assert (resolve f 0 0 [] (components (cwd_path names)) = (rev names, Directory p no)) as Hres.
  { destruct names as [|w names]; [exact Hp|]. unfold cwd_path. rewrite components_join by (by apply Forall_rev). done. }
  destruct (Z.eqb_spec no 0) as [Hz|Hz].
  - assert (names = []) as -> by (by inversion U). cbn [cwd_path length] in *. unfold sys_getcwd.
    rewrite Nat.mul_0_r, Nat.add_0_r in R. destruct (roomy_malloc (S n) (kheap f) false 512 R ltac:(done)) as (h1 & io & E1 & N1 & R1 & F1 & L1). rewrite E1.
    apply Z.eqb_neq in N1 as ->. cbn [kern with_kheap]. rewrite Hx. cbn [obind]. rewrite Hcwd, Hz. cbn [obind].
    destruct buf as [|c buf]; [cbn in Hb; lia|]. destruct buf as [|c' buf]; [cbn in Hb; lia|].
    exists (sys_free h1 false io), buf. split; [|split; [|split; [|split; [done | exists p; by rewrite Hz in Hres]]]].
    + intros k b. rewrite free_gone by (apply L1; by right). rewrite L1. split.
      * intros Hk. split; [by left|]. by intros [-> ->].
      * intros [[?|?] Hn]; [done | by destruct Hn].
    + apply R1. by apply L1; right.
    + change (s32 0) with 0. cbn [Z.leb Z.ltb Z.eqb Z.compare andb c_assert obind]. unfold splice. cbn [length app]. zdec. done.
  - assert (cwd_path names = join (rev names)) as Hpath by (by inversion U; subst).
    rewrite Hpath, join_rev_length in Hl, Hb.
    destruct (sys_getcwd_run n f buf size no names x M G C Hsz Hx Hcwd U Hz Hw Hl ltac:(lia) R) as (h & pad & m & Hlive & Hroom & Hm & E).
    pose proof (join_longer names) as Hlong.
    destruct (reverse_ok names Hw 513 pad [] m) as (m2 & E3 & Hm2); [lia | apply not_elem_of_nil | cbn [length]; lia | lia |].
    rewrite E, E3. exists h, m2. rewrite Hpath. split; [done|]. split; [done|]. split; [done|].
    split; [rewrite length_app; cbn [length]; lia | exists p; by rewrite <- Hpath].
Qed.

(** C24. [sys_getcwd] climbs from the working directory to the root and writes the
    absolute path, terminated, into the caller's buffer: a path that resolves to
    the working directory again. Nothing stays open and nothing else changes. *)
Theorem sys_getcwd_spec f buf size no names x : mem_ok f -> geometry (cur_part f) -> counts_below 1 f ->
  dir_entry_size (sb (cur_part f)) = 24 -> get_task (kern f) (running_thread (kern f)) = Ok x -> cwd_inode_nr x = no ->
  upward f no names -> Forall is_word names -> zlen (cwd_path names) < 512 -> zlen (cwd_path names) < size <= zlen buf ->
  roomy (2 + 8 * length names) (kheap f) ->
  exists h m, same_live (kheap f) h
    /\ sys_getcwd f buf size = Ok (with_kheap h f, Some (cwd_path names ++ 0 :: m))
    /\ zlen (cwd_path names ++ 0 :: m) = zlen buf
    /\ exists p, resolve f 0 0 [] (components (cwd_path names)) = (rev names, Directory p no).
Proof.
  intros M G C Hsz Hx Hcwd U Hw Hl Hb R.
  destruct (sys_getcwd_ok 0 f buf size no names x M G C Hsz Hx Hcwd U Hw Hl Hb R) as (h & m & ? & _ & ?). by exists h, m.
Qed.

Lemma reverse_overflow names : Forall is_word names -> forall fuel m s m', (length names < fuel)%nat -> 0 ∉ s ->
  zlen s + zlen (join names) < 2 ^ 16 -> zlen m' < zlen (join names) ->
  loop reverse_body fuel (join names ++ 0 :: m, s ++ 0 :: m') = Err BadAccess.
Proof.
  induction names as [|w names IH] using rev_ind; intros Hw fuel m s m' Hf Hs Hl Hm; [cbn in Hm; lia|].
  destruct fuel as [|fuel]; [lia|]. cbn [loop]. unfold reverse_body at 1. rewrite c_string_ok by (by apply join_clean). cbn [obind].
  rewrite join_snoc in *. apply Forall_app in Hw as [Hn Hw]. apply Forall_singleton in Hw as (_ & Hsl & Hz).
  rewrite last_slash_at by done. cbn [obind]. unfold c_strlen. rewrite c_string_ok by done. cbn [obind]. rewrite length_app in *. cbn [length] in *.
  rewrite u16_small by lia. replace (Z.to_nat (0 + zlen (join names))) with (length (join names)) by lia.
  rewrite drop_app_length. destruct (Z.leb_spec (zlen (SLASH :: w)) (zlen m')) as [Hfit|Hfit]; cbn [length] in Hfit.
  - rewrite splice_end by (cbn [length]; lia). cbn [obind]. rewrite wr_in by (rewrite !length_app; cbn [length]; lia). cbn [obind].
    replace (Z.to_nat (0 + zlen (join names))) with (length (join names) + 0)%nat by lia.
    rewrite <- app_assoc, insert_app_r. cbn [app insert list_insert]. apply IH; [done | lia | | |].
    + intros [Hc|Hc]%elem_of_app; [done|]. by apply elem_of_cons in Hc as [|].
    + rewrite length_app. cbn [length]. lia.
    + rewrite length_drop. cbn [length]. lia.
  - unfold splice. rewrite !length_app. cbn [length]. by zdec.
Qed.

(** The assertion of [sys_getcwd] lets a path as long as the buffer pass: its
    terminator is then written past the buffer. *)
Theorem sys_getcwd_overflow f buf size no names x : mem_ok f -> geometry (cur_part f) -> counts_below 1 f ->
  dir_entry_size (sb (cur_part f)) = 24 -> get_task (kern f) (running_thread (kern f)) = Ok x -> cwd_inode_nr x = no ->
  upward f no names -> no <> 0 -> Forall is_word names -> zlen (join names) < 512 ->
  zlen (join names) = size -> zlen buf = size -> roomy (2 + 8 * length names) (kheap f) ->
  sys_getcwd f buf size = Err BadAccess.
Proof.
  intros M G C Hsz Hx Hcwd U Hz Hw Hl Hs Hb R.
  destruct (sys_getcwd_run 0 f buf size no names x M G C Hsz Hx Hcwd U Hz Hw Hl ltac:(lia) R) as (h & pad & m & _ & _ & Hm & ->).
  pose proof (join_longer names). rewrite reverse_overflow; [done | done | lia | apply not_elem_of_nil | cbn [length]; lia | lia].
Qed.

End lemmas.
