(* ===== verification/Shell.v ===== *)
(** shell/buildin_cmd.c and shell/shell.c: turning what is typed into a clean
    absolute path ([wash_path], [make_clear_abs_path]), cutting a command line
    into arguments ([cmd_parse]), and the commands that change directories and
    files. A string is the memory from its pointer on, as in Path.v; an element of
    [argv] is an index into the command line, [None] is NULL. *)
From S2P Require Import Prelude Bitmap Thread Ide Blockdev Inode File Filewrite Dir Words Path Fs.

Definition MAX_ARG_NR : Z := 16.

(** ** Paths *)

(** [new_abs_path] after the component in [name]. *)
Definition wash_name (name new_abs_path : list Z) : outcome (list Z) :=
  let! dotdot := str_eq name DOTDOT in
  if (dotdot : bool) then
    let! p := c_string new_abs_path in
    match last_slash p 0 None with
    | None => Err BadAccess
    | Some slash => wr new_abs_path (if slash =? 0 then slash + 1 else slash) 0
    end
  else
    let! dot := str_eq name DOT in
    if (dot : bool) then Ok new_abs_path else
    let! top := str_eq new_abs_path [SLASH] in
    let! new_abs_path := if negb (top : bool) then c_strcat new_abs_path [SLASH] else Ok new_abs_path in
    let! w := c_string name in
    c_strcat new_abs_path w.

(** One turn: the rest of the path, [name], [new_abs_path]. *)
Definition wash_body (s : option (list Z) * list Z * list Z)
  : outcome (option (list Z) * list Z * list Z + list Z) :=
  let '(sub_path, name, new_abs_path) := s in
  let! c := rd name 0 in
  if c =? 0 then Ok (inr new_abs_path) else
  let! new_abs_path := wash_name name new_abs_path in
  let name := zeros MAX_FILE_NAME_LEN in
  let! ' (sub_path, name) := match sub_path with Some p => path_parse p name | None => Ok (None, name) end in
  Ok (inl (sub_path, name, new_abs_path)).

Definition wash_path (old_abs_path new_abs_path : list Z) : outcome (list Z) :=
  let! c := rd old_abs_path 0 in
  c_assert (c =? SLASH) ;;;
  let! ' (sub_path, name) := path_parse old_abs_path (zeros MAX_FILE_NAME_LEN) in
  let! c := rd name 0 in
  if c =? 0 then
    let! new_abs_path := wr new_abs_path 0 SLASH in wr new_abs_path 1 0
  else
    let! new_abs_path := wr new_abs_path 0 0 in
    let! new_abs_path := c_strcat new_abs_path [SLASH] in
    loop wash_body (2 + length old_abs_path) (sub_path, name, new_abs_path).

(** ** Command lines *)

Definition skip_token_body (cmd_str : list Z) (token : Z) (next : Z) : outcome (Z + Z) :=
  let! c := rd cmd_str next in
  if c =? token then Ok (inl (next + 1)) else Ok (inr next).

Definition skip_arg_body (cmd_str : list Z) (token : Z) (next : Z) : outcome (Z + Z) :=
  let! c := rd cmd_str next in
  if negb (c =? 0) && negb (c =? token) then Ok (inl (next + 1)) else Ok (inr next).

(** One argument; the state is the line, [argv], [next] and [argc]. *)
Definition cmd_parse_body (token : Z) (s : list Z * list (option Z) * Z * Z)
  : outcome (list Z * list (option Z) * Z * Z + list Z * list (option Z) * Z) :=
  let '(cmd_str, argv, next, argc) := s in
  let! c := rd cmd_str next in
  if c =? 0 then Ok (inr (cmd_str, argv, argc)) else
  let! next := loop (skip_token_body cmd_str token) (S (length cmd_str)) next in
  let! c := rd cmd_str next in
  if c =? 0 then Ok (inr (cmd_str, argv, argc)) else
  let! argv := wr argv argc (Some next) in
  let! next := loop (skip_arg_body cmd_str token) (S (length cmd_str)) next in
  let! c := rd cmd_str next in
  let! ' (cmd_str, next) :=
    if negb (c =? 0) then let! cmd_str := wr cmd_str next 0 in Ok (cmd_str, next + 1) else Ok (cmd_str, next) in
  if MAX_ARG_NR <? argc then Ok (inr (cmd_str, argv, -1)) else
  Ok (inl (cmd_str, argv, next, argc + 1)).

Definition cmd_parse (cmd_str : list Z) (argv : list (option Z)) (token : Z)
  : outcome (list Z * list (option Z) * Z) :=
  let! argv := splice argv 0 (replicate (Z.to_nat MAX_ARG_NR) None) in
  loop (cmd_parse_body token) (S (length cmd_str)) (cmd_str, argv, 0, 0).

(** ** Commands *)

Section commands.
Context {D H : Type} `{BlockDevice D} `{KernelHeap H}.
Abbreviation fs := (fstate D H).

(** [getcwd] is the system call [sys_getcwd]; when it fails, [abs_path] is still
    zeros. *)
Definition make_clear_abs_path (f : fs) (path final_path : list Z) : outcome (fs * list Z) :=
  let abs_path := zeros MAX_PATH_LEN in
  let! c := rd path 0 in
  let! ' (f, abs_path) :=
    if negb (c =? SLASH) then
      let! ' (f, r) := sys_getcwd f abs_path MAX_PATH_LEN in
      match r with
      | None => Ok (f, abs_path)
      | Some abs_path =>
          let! c0 := rd abs_path 0 in
          let! c1 := rd abs_path 1 in
          if (c0 =? SLASH) && (c1 =? 0) then Ok (f, abs_path)
          else let! abs_path := c_strcat abs_path [SLASH] in Ok (f, abs_path)
      end
    else Ok (f, abs_path) in
  let! p := c_string path in
  let! abs_path := c_strcat abs_path p in
  let! final_path := wash_path abs_path final_path in
  Ok (f, final_path).

(** [args] are the strings of [argv] from [argv[1]] on; the array [final_path] is
    part of the result, with whether the command succeeded. *)
Definition buildin_cd (f : fs) (root_dir : dir) (dir_e0 : list Z) (args : list (list Z)) (final_path : list Z)
  : outcome (fs * list Z * bool) :=
  match args with
  | _ :: _ :: _ => Ok (f, final_path, false)
  | _ =>
      let! ' (f, final_path) :=
        match args with
        | [] => let! p := wr final_path 0 SLASH in let! p := wr p 1 0 in Ok (f, p)
        | path :: _ => make_clear_abs_path f path final_path
        end in
      let! ' (f, ret) := sys_chdir f root_dir dir_e0 final_path in
      Ok (f, final_path, negb (ret =? -1))
  end.

(** The common shape of [mkdir], [rmdir] and [rm]: one argument, not the root. *)
Definition on_path (f : fs) (args : list (list Z)) (final_path : list Z) (call : fs -> list Z -> outcome (fs * Z))
  : outcome (fs * list Z * Z) :=
  match args with
  | [path] =>
      let! ' (f, final_path) := make_clear_abs_path f path final_path in
      let! root := str_eq final_path [SLASH] in
      if (root : bool) then Ok (f, final_path, -1) else
      let! ' (f, ret) := call f final_path in
      Ok (f, final_path, if ret =? 0 then 0 else -1)
  | _ => Ok (f, final_path, -1)
  end.

Definition buildin_mkdir (f : fs) (root_dir : dir) (name0 name1 dir_e0 : list Z) (args : list (list Z)) (final_path : list Z) :=
  on_path f args final_path (fun f p => sys_mkdir f root_dir name0 name1 dir_e0 p).
Definition buildin_rmdir (f : fs) (root_dir : dir) (dir_e0 : list Z) (args : list (list Z)) (final_path : list Z) :=
  on_path f args final_path (fun f p => sys_rmdir f root_dir dir_e0 p).
Definition buildin_rm (f : fs) (root_dir : dir) (dir_e0 : list Z) (args : list (list Z)) (final_path : list Z) :=
  on_path f args final_path (fun f p => sys_unlink f root_dir dir_e0 p).

End commands.
