(* ===== verification/Shellspec.v ===== *)
(** Correctness of the paths of Shell.v: [wash_path] computes the normal form of a
    path, which leads where the path leads; [cd] goes there. *)
From S2P Require Import Prelude Bitmap Thread Ide Blockdev Inode File Filewrite Dir Words Path Search Fs Fsspec Cwd Shell.

(** ** Normal forms *)

Definition wash_step (st : list (list Z)) (w : list Z) : list (list Z) :=
  if decide (w = DOTDOT) then removelast st else if decide (w = DOT) then st else st ++ [w].

(** The names left after the dots are worked off, and the path they make. *)
Definition washed (names : list (list Z)) : list (list Z) := fold_left wash_step names [].
Definition show_path (st : list (list Z)) : list Z := match st with [] => [SLASH] | _ => join st end.

Definition plain (w : list Z) : Prop := is_word w /\ w <> DOT /\ w <> DOTDOT.

Lemma Forall_removelast {A} (P : A -> Prop) l : Forall P l -> Forall P (removelast l).
Proof.
  induction 1 as [|x l Hx Hl IH]; [constructor|]. cbn [removelast]. destruct l; [constructor | by constructor].
Qed.

Lemma wash_step_plain st w : Forall plain st -> is_word w -> Forall plain (wash_step st w).
Proof.
  intros Hst Hw. unfold wash_step. repeat case_decide; [by apply Forall_removelast | done|].
  apply Forall_app; split; [done|]. by constructor.
Qed.

Lemma washed_plain names : Forall is_word names -> Forall plain (washed names).
Proof.
  unfold washed. assert (forall st, Forall plain st -> Forall is_word names -> Forall plain (fold_left wash_step names st)) as Hg.
  { induction names as [|w names IH]; intros st Hst Hw; [done|]. apply Forall_cons in Hw as [Hw Hn]. cbn [fold_left].
    apply IH; [by apply wash_step_plain | done]. }
  intros Hw. by apply Hg; [constructor|].
Qed.

Lemma plain_words st : Forall plain st -> Forall is_word st.
Proof. intros Hst. eapply Forall_impl; [done|]. by intros w [? _]. Qed.

(** Names without dots are in normal form. *)
Lemma washed_id st : Forall plain st -> washed st = st.
Proof.
  intros Hst. unfold washed. assert (forall acc, fold_left wash_step st acc = acc ++ st) as Hg; [|by apply Hg].
  induction Hst as [|w st (_ & Hd & Hdd) Hst IH]; intros acc; cbn [fold_left]; [by rewrite app_nil_r|].
  rewrite IH. unfold wash_step. rewrite !decide_False by done. by rewrite <- app_assoc.
Qed.

Lemma show_path_clean st : Forall plain st -> 0 ∉ show_path st.
Proof.
  intros Hst. destruct st as [|w st]; [|apply join_clean; by apply plain_words]. cbn.
  intros Hz. by apply list_elem_of_singleton in Hz.
Qed.

Lemma show_path_components st : Forall plain st -> components (show_path st) = st.
Proof. intros Hst. destruct st as [|w st]; [done|]. apply components_join. by apply plain_words. Qed.

Lemma c_strcat_mem s m t : 0 ∉ s -> zlen t <= zlen m ->
  c_strcat (s ++ 0 :: m) t = Ok ((s ++ t) ++ 0 :: drop (length t) m).
Proof. intros Hs Hl. unfold c_strcat, c_strlen. rewrite c_string_ok by done. cbn [obind]. by apply splice_end. Qed.

(** ** The loop of [wash_path] *)

(** A turn rewrites [new_abs_path] from one path to the next. *)
Lemma wash_turn st w m : Forall plain st -> is_word w -> fits w -> zlen (join st) + 2 + zlen w <= zlen (show_path st) + 1 + zlen m ->
  exists m', wash_name (str_array 16 w) (show_path st ++ 0 :: m)
    = Ok (show_path (wash_step st w) ++ 0 :: m')
    /\ zlen (show_path (wash_step st w) ++ 0 :: m') = zlen (show_path st ++ 0 :: m).
Proof.
  intros Hst (Hwn & Hws & Hwz) Hf Hl. unfold wash_name. unfold fits, MAX_FILE_NAME_LEN in Hf.
  assert (str_array 16 w = w ++ 0 :: replicate (Z.to_nat (16 - zlen w) - 1) 0) as Hname.
  { unfold str_array. by rewrite replicate_head by lia. }
  rewrite Hname. rewrite !str_eq_string; try done;
    try (intros Hz; repeat apply elem_of_cons in Hz as [Hz|Hz]; try discriminate Hz; by apply elem_of_nil in Hz);
    try by apply show_path_clean.
  cbn [obind]. unfold wash_step. case_bool_decide as Hdd.
  - rewrite decide_True by done. rewrite c_string_ok by (by apply show_path_clean). cbn [obind].
    destruct st as [|x st] using rev_ind; [|clear IHst].
    + cbn [show_path last_slash app Z.eqb]. change (SLASH =? SLASH) with true. cbn iota. exists m. change (0 =? 0) with true. cbn iota. rewrite wr_in by (cbn [length]; lia). done.
    + assert (show_path (st ++ [x]) = join (st ++ [x])) as Hshow by (by destruct st).
      apply Forall_app in Hst as [Hst Hx]. apply Forall_singleton in Hx as ((Hxn & Hxs & Hxz) & _).
      rewrite Hshow, join_snoc, last_slash_at by done. rewrite removelast_last, !Z.add_0_l.
      destruct st as [|y st].
      * cbn [join map concat length app]. destruct x as [|c x]; [done|].
        exists (x ++ 0 :: m). split; [|cbn [show_path app length]; rewrite !length_app; cbn [length]; lia].
        change (if Z.of_nat 0 =? 0 then Z.of_nat 0 + 1 else Z.of_nat 0) with 1.
        rewrite wr_in by (cbn [length app]; rewrite ?length_app; cbn [length]; lia). done.
      * assert (0 < zlen (join (y :: st))) as Hpos by (rewrite join_cons, length_app; cbn [length]; lia).
        replace (zlen (join (y :: st)) =? 0) with false by (symmetry; apply Z.eqb_neq; lia).
        exists (x ++ 0 :: m). rewrite wr_in by (rewrite !length_app; cbn [length]; lia).
        replace (Z.to_nat (zlen (join (y :: st)))) with (length (join (y :: st)) + 0)%nat by lia.
        rewrite <- app_assoc, insert_app_r. cbn [app insert list_insert]. split; [done|].
        cbn [show_path]. rewrite !length_app. cbn [length]. rewrite !length_app. cbn [length]. lia.
  - rewrite decide_False by done. case_bool_decide as Hd.
    + rewrite decide_True by done. by exists m.
    + rewrite decide_False by done. rewrite c_string_ok by done. cbn [obind].
      destruct st as [|x st].
      * rewrite bool_decide_eq_true_2 by done. cbn [negb obind].
        assert (show_path ([] ++ [w]) = show_path [] ++ w) as -> by (cbn; by rewrite app_nil_r).
        rewrite c_strcat_mem; [|by apply show_path_clean|cbn in Hl; lia]. eexists. split; [reflexivity|].
        rewrite !length_app. cbn [length]. rewrite length_drop. cbn in Hl |- *. lia.
      * assert (show_path (x :: st) <> [SLASH]) as Hns.
        { cbn [show_path]. rewrite join_cons. apply Forall_cons in Hst as [((Hxn & _) & _) _]. destruct x; done. }
        rewrite bool_decide_eq_false_2 by done. cbn [negb obind].
        change (show_path (x :: st)) with (join (x :: st)) in *. change (show_path ((x :: st) ++ [w])) with (join ((x :: st) ++ [w])).
        rewrite c_strcat_mem; [|by apply (show_path_clean (x :: st))|cbn [length]; lia]. cbn [obind].
        rewrite c_strcat_mem.
        -- eexists. rewrite join_snoc. rewrite <- (app_assoc (join (x :: st)) [SLASH] w). cbn [app]. split; [reflexivity|].
           rewrite !length_app. cbn [length]. rewrite !length_drop. cbn [length]. lia.
        -- intros [Hz|Hz]%elem_of_app; [by apply (show_path_clean (x :: st)) in Hz | by apply list_elem_of_singleton in Hz].
        -- rewrite length_drop. cbn [length]. lia.
Qed.

Lemma join_removelast st : zlen (join (removelast st)) <= zlen (join st).
Proof.
  destruct st as [|x st] using rev_ind; [done|]. rewrite removelast_last, join_snoc, length_app. lia.
Qed.

Lemma wash_step_length st w : zlen (join (wash_step st w)) <= zlen (join st) + 1 + zlen w.
Proof.
  unfold wash_step. repeat case_decide; [pose proof (join_removelast st); lia | lia|].
  rewrite join_snoc, length_app. cbn [length]. lia.
Qed.

Lemma wash_loop m : forall fuel st w r mem, Forall plain st -> (0 ∉ r) -> Forall is_word (pending w r) -> Forall fits (pending w r) ->
  (length (pending w r) < fuel)%nat ->
  zlen (join st) + zlen (join (pending w r)) + 2 <= zlen (show_path st ++ 0 :: mem) ->
  exists mem', loop wash_body fuel (if decide (r = []) then None else Some (r ++ 0 :: m), str_array 16 w, show_path st ++ 0 :: mem)
      = Ok (show_path (fold_left wash_step (pending w r) st) ++ 0 :: mem')
    /\ zlen (show_path (fold_left wash_step (pending w r) st) ++ 0 :: mem') = zlen (show_path st ++ 0 :: mem).
Proof.
  induction fuel as [|fuel IH]; intros st w r mem Hst Hr Hw Hf Hfu Hl; [lia|]. cbn [loop]. unfold wash_body at 1.
  destruct w as [|c w].
  - rewrite pending_nil. cbn. by exists mem.
  - rewrite pending_cons in * by done. cbn [length fold_left] in *.
    apply Forall_cons in Hw as [Hw Hws], Hf as [Hfw Hfs]. pose proof Hw as (_ & _ & Hwz). apply not_elem_of_cons in Hwz as [Hc Hwz].
    change (rd (str_array 16 (c :: w)) 0) with (Ok c). cbn [obind].
    replace (c =? 0) with false by (symmetry; apply Z.eqb_neq; congruence). rewrite join_cons, length_app in Hl.
    destruct (wash_turn st (c :: w) mem Hst Hw Hfw) as (m1 & E1 & Hm1).
    { rewrite length_app in Hl. cbn [length] in Hl |- *. lia. }
    rewrite E1. cbn [obind]. change (zeros MAX_FILE_NAME_LEN) with (replicate (Z.to_nat MAX_FILE_NAME_LEN) 0).
    rewrite next_component by done. cbn [obind]. rewrite pending_step in *.
    destruct (IH (wash_step st (c :: w)) (word (skip r)) (after (skip r)) m1) as (m2 & E2 & Hm2); try done; try lia.
    + by apply wash_step_plain.
    + intros Hz. by apply Hr, in_skip, in_after.
    + pose proof (wash_step_length st (c :: w)). rewrite Hm1. cbn [length] in *. lia.
    + exists m2. rewrite E2. split; [done|]. by rewrite Hm2, Hm1.
Qed.

Lemma wash_path_ok s m new : 0 ∉ s -> znth s 0 = Some SLASH -> Forall fits (components s) -> zlen s + 2 <= zlen new ->
  exists mem, wash_path (s ++ 0 :: m) new = Ok (show_path (washed (components s)) ++ 0 :: mem)
    /\ zlen (show_path (washed (components s)) ++ 0 :: mem) = zlen new.
Proof.
  intros Hs H0 Hf Hl. destruct s as [|c t]; [done|]. injection H0 as ->. unfold wash_path.
  change (rd ((SLASH :: t) ++ 0 :: m) 0) with (Ok SLASH). cbn [obind]. change (SLASH =? SLASH) with true. cbn [c_assert obind].
  pose proof (next_component (SLASH :: t) m Hs Hf) as Hn. rewrite decide_False in Hn by done.
  change (zeros MAX_FILE_NAME_LEN) with (replicate (Z.to_nat MAX_FILE_NAME_LEN) 0). rewrite Hn. cbn [obind].
  pose proof (join_length (SLASH :: t) ltac:(by right; eexists)) as Hj. pose proof (components_length (SLASH :: t)).
  pose proof (components_words (SLASH :: t) Hs) as Hw. pose proof (pending_step (SLASH :: t)) as Hp.
  destruct new as [|n0 new]; [cbn in Hl; lia|]. destruct new as [|n1 new]; [cbn in Hl; lia|].
  assert (0 ∉ after (skip (SLASH :: t))) as Ha by (intros Hz; by apply Hs, in_skip, in_after).
  destruct (decide (word (skip (SLASH :: t)) = [])) as [Hwn|Hwn].
  - rewrite Hwn in Hp |- *. rewrite pending_nil in Hp. rewrite Hp. change (rd (str_array 16 []) 0) with (Ok 0). cbn [obind].
    change (0 =? 0) with true. cbn iota. exists new. rewrite wr_in by (cbn [length]; lia). cbn [obind]. rewrite wr_in by (rewrite length_insert; cbn [length]; lia). done.
  - destruct (word (skip (SLASH :: t))) as [|c w] eqn:Ew; [done|]. change (rd (str_array 16 (c :: w)) 0) with (Ok c). cbn [obind].
    assert (c <> 0) as Hc. { intros ->. apply Hs, in_skip, in_word. rewrite Ew. by left. }
    apply Z.eqb_neq in Hc as ->. rewrite wr_in by (cbn [length]; lia). cbn [obind].
    change (<[Z.to_nat 0:=0]> (n0 :: n1 :: new)) with ([] ++ 0 :: (n1 :: new)).
    rewrite c_strcat_mem by (apply not_elem_of_nil || (cbn [length]; lia)). cbn [obind app length drop].
    rewrite Hp in Hw, Hf, Hj |- *.
    destruct (wash_loop m (2 + length (SLASH :: t ++ 0 :: m)) [] (c :: w) (after (skip (SLASH :: t))) new) as (mem & El & Hm); try done.
    + rewrite Hp in H. cbn [length] in H |- *. rewrite length_app. lia.
    + cbn [show_path app length] in *. change (zlen (join [])) with 0. lia.
    + change ([SLASH] ++ 0 :: new) with (show_path [] ++ 0 :: new). exists mem. split; [exact El|].
      unfold washed. rewrite Hm. done.
Qed.

(** ** Where the clean path leads *)

Section resolve.
Context {D H : Type} `{BlockDeviceLaws D} `{KernelHeapLaws H}.
Abbreviation fs := (fstate D H).
Implicit Types (f : fs).

(** The dot entries are what they should be: every directory has itself under [.],
    and the directory it was made in under [..]; the root is its own parent. *)
Record dots_right (f : fs) (dirs : list Z) : Prop := {
  dr_dot no : no ∈ dirs -> exists e, lookup_in f no DOT = Some e /\ entry_type e = FT_DIRECTORY /\ entry_no e = no;
  dr_root : exists e, lookup_in f 0 DOTDOT = Some e /\ entry_type e = FT_DIRECTORY /\ entry_no e = 0;
  dr_child no name e : no ∈ dirs -> plain name -> lookup_in f no name = Some e -> entry_type e = FT_DIRECTORY ->
    exists e', lookup_in f (entry_no e) DOTDOT = Some e' /\ entry_type e' = FT_DIRECTORY /\ entry_no e' = no }.

(** Directory [no] is reached by names without dots. *)
Inductive reach (f : fs) : list (list Z) -> Z -> Prop :=
  | reach_root : reach f [] 0
  | reach_child st d w e : reach f st d -> plain w -> lookup_in f d w = Some e -> entry_type e = FT_DIRECTORY ->
      reach f (st ++ [w]) (entry_no e).

Lemma lookup_entry f dirs no w e : tree_ok f dirs -> no ∈ dirs -> w <> [] -> lookup_in f no w = Some e -> tree_entry dirs e.
Proof.
  intros T Hn Hw Hl. destruct (tree_dir f dirs T no Hn) as (_ & i & Hv & _ & _ & He). unfold lookup_in in Hl.
  rewrite Hv in Hl. by apply (He w).
Qed.

Lemma reach_in f dirs st no : tree_ok f dirs -> reach f st no -> no ∈ dirs.
Proof.
  intros T R. induction R as [|st d w e R IH Hw Hl Ht]; [apply T|].
  destruct (lookup_entry f dirs d w e T IH ltac:(apply Hw) Hl) as [[_ ?]|[Hr _]]; [done | rewrite Ht in Hr; done].
Qed.

Lemma reach_parent f dirs st no : tree_ok f dirs -> dots_right f dirs -> reach f st no ->
  exists e, lookup_in f no DOTDOT = Some e /\ entry_type e = FT_DIRECTORY /\ reach f (removelast st) (entry_no e).
Proof.
  intros T Hd R. destruct R as [|st d w e R Hw Hl Ht].
  - destruct (dr_root f dirs Hd) as (e & Hl & Ht & He). exists e. rewrite He. split; [done|]. split; [done | constructor].
  - destruct (dr_child f dirs Hd d w e (reach_in f dirs st d T R) Hw Hl Ht) as (e' & Hl' & Ht' & He').
    exists e'. rewrite removelast_last, He'. done.
Qed.

Lemma reach_step f dirs st no w e : tree_ok f dirs -> dots_right f dirs -> reach f st no -> is_word w ->
  lookup_in f no w = Some e ->
  if decide (entry_type e = FT_DIRECTORY) then reach f (wash_step st w) (entry_no e) else wash_step st w = st ++ [w].
Proof.
  intros T Hd R Hw Hl. unfold wash_step.
  destruct (decide (w = DOTDOT)) as [->|Hdd].
  { destruct (reach_parent f dirs st no T Hd R) as (e' & Hl' & Ht' & R'). assert (e' = e) as -> by congruence.
    by rewrite decide_True. }
  destruct (decide (w = DOT)) as [->|Hdot].
  { destruct (dr_dot f dirs Hd no (reach_in f dirs st no T R)) as (e' & Hl' & Ht' & He'). assert (e' = e) as -> by congruence.
    rewrite decide_True by done. by rewrite He'. }
  case_decide; [|done]. by apply (reach_child f st no w e).
Qed.

Lemma reach_resolves f st no : reach f st no -> exists p, resolve f 0 0 [] st = (st, Directory p no).
Proof.
  induction 1 as [|st d w e R [q IH] Hw Hl Ht]; [by exists 0|]. exists d. by apply (resolve_snoc f w e st 0 0 [] st q d).
Qed.

(** Walking a path and walking its normal form end at the same place. *)
Lemma wash_walk f dirs : tree_ok f dirs -> dots_right f dirs -> forall names st parent no seen ans,
  Forall is_word names -> Forall plain st -> reach f st no -> resolve f parent no seen names = (seen ++ names, ans) ->
  answer_type ans <> FT_UNKNOWN ->
  exists ans', resolve f 0 0 [] (fold_left wash_step names st) = (fold_left wash_step names st, ans')
    /\ answer_no ans' = answer_no ans /\ answer_type ans' = answer_type ans.
Proof.
  intros T Hd. induction names as [|w names IH]; intros st parent no seen ans Hw Hst R E Ha; cbn [resolve fold_left] in *.
  - injection E as _ <-. destruct (reach_resolves f st no R) as [p Hp]. by exists (Directory p no).
  - apply Forall_cons in Hw as [Hw Hws]. destruct (lookup_in f no w) as [e|] eqn:El; [|injection E as _ <-; done].
    pose proof (reach_step f dirs st no w e T Hd R Hw El) as Hstep.
    destruct (Z.eqb_spec (entry_type e) FT_DIRECTORY) as [Ht|Ht].
    + rewrite decide_True in Hstep by done. apply (IH _ no (entry_no e) (seen ++ [w]) ans); try done.
      * by apply wash_step_plain.
      * by rewrite <- app_assoc.
    + rewrite decide_False in Hstep by done. injection E as Hs <-.
      assert (names = []) as -> by (by apply app_inv_head in Hs; injection Hs as <-).
      cbn [fold_left]. rewrite Hstep. destruct (reach_resolves f st no R) as [p Hp].
      exists (Regular no (entry_no e)). split; [|done]. clear Hs Hstep Hst IH.
      assert (forall l a b s s' q, resolve f a b s l = (s', Directory q no) -> resolve f a b s (l ++ [w]) = (s' ++ [w], Regular no (entry_no e))) as Hg.
      { induction l as [|v l IHl]; intros a b s s' q Er; cbn [app resolve] in *.
        - injection Er as <- <- <-. rewrite El. apply Z.eqb_neq in Ht as ->. done.
        - destruct (lookup_in f b v) as [e'|]; [|done]. destruct (entry_type e' =? FT_DIRECTORY); [|done]. by eapply IHl. }
      by apply (Hg st 0 0 [] st p).
Qed.

(** [wash_path] writes the normal form of an absolute path: no [.], no [..], no
    doubled or trailing slash, nothing above the root. Washing it again changes
    nothing, and it leads where the path leads, in every file system whose dot
    entries are right. *)
Theorem wash_path_spec f dirs s m new : 0 ∉ s -> znth s 0 = Some SLASH -> Forall fits (components s) -> zlen s + 2 <= zlen new ->
  let t := show_path (washed (components s)) in
  (exists mem, wash_path (s ++ 0 :: m) new = Ok (t ++ 0 :: mem) /\ zlen (t ++ 0 :: mem) = zlen new)
  /\ Forall plain (components t) /\ show_path (washed (components t)) = t
  /\ (tree_ok f dirs -> dots_right f dirs -> forall ans, resolve f 0 0 [] (components s) = (components s, ans) ->
      answer_type ans <> FT_UNKNOWN ->
      exists ans', resolve f 0 0 [] (components t) = (components t, ans')
        /\ answer_no ans' = answer_no ans /\ answer_type ans' = answer_type ans).
Proof.
  intros Hs H0s Hf Hl t. pose proof (components_words s Hs) as Hw. pose proof (washed_plain _ Hw) as Hp.
  assert (components t = washed (components s)) as Hc by (by apply show_path_components).
  split; [by apply wash_path_ok|]. rewrite Hc. split; [done|]. split; [by rewrite washed_id|].
  intros T Hd ans E Ha. by apply (wash_walk f dirs T Hd (components s) [] 0 0 [] ans Hw (List.Forall_nil _) (reach_root f)).
Qed.

(** ** Changing directories *)

Lemma washed_Forall (P : list Z -> Prop) names : Forall P names -> Forall P (washed names).
Proof.
  unfold washed. assert (forall st, Forall P st -> Forall P names -> Forall P (fold_left wash_step names st)) as Hg.
  { induction names as [|w names IH]; intros st Hst Hn; [done|]. apply Forall_cons in Hn as [Hw Hn]. cbn [fold_left].
    apply IH; [|done]. unfold wash_step. repeat case_decide; [by apply Forall_removelast | done|].
    apply Forall_app; split; [done|]. by constructor. }
  intros Hn. by apply Hg; [constructor|].
Qed.

Lemma washed_length names : zlen (join (washed names)) <= zlen (join names).
Proof.
  unfold washed. assert (forall st, zlen (join (fold_left wash_step names st)) <= zlen (join st) + zlen (join names)) as Hg; [|by apply (Hg [])].
  induction names as [|w names IH]; intros st; cbn [fold_left]; [change (zlen (join [])) with 0; lia|].
  specialize (IH (wash_step st w)). pose proof (wash_step_length st w). rewrite join_cons, length_app. cbn [length]. lia.
Qed.

Lemma components_under st p : Forall is_word st -> components (join st ++ SLASH :: p) = st ++ components p.
Proof.
  induction 1 as [|w st (Hn & Hs & _) Hst IH]; [apply words_on_sep|]. rewrite join_cons. cbn [app]. rewrite <- app_assoc.
  rewrite words_on_sep. assert (exists r, join st ++ SLASH :: p = SLASH :: r) as [r Hr].
  { destruct st as [|v st]; [by eexists|]. rewrite join_cons. by eexists. }
  rewrite Hr in IH |- *. rewrite words_on_cons by done. f_equal. by rewrite <- IH, words_on_sep.
Qed.

(** The string [make_clear_abs_path] washes, and the names on it. *)
Definition typed_path (names : list (list Z)) (p : list Z) : list Z :=
  if decide (znth p 0 = Some SLASH) then p else join (rev names) ++ SLASH :: p.
Definition typed_names (names : list (list Z)) (p : list Z) : list (list Z) :=
  (if decide (znth p 0 = Some SLASH) then [] else rev names) ++ components p.

Lemma typed_components names p : Forall is_word names -> components (typed_path names p) = typed_names names p.
Proof.
  intros Hw. unfold typed_path, typed_names. case_decide; [done|]. apply components_under. by apply Forall_rev.
Qed.

(** Where [cd] goes, as a string. *)
Definition clear_path (names : list (list Z)) (p : list Z) : list Z := show_path (washed (typed_names names p)).

Lemma typed_word names p : Forall is_word names -> (0 ∉ p) -> Forall is_word (typed_names names p).
Proof.
  intros Hw Hp. unfold typed_names. apply Forall_app; split; [|by apply components_words].
  case_decide; [constructor | by apply Forall_rev].
Qed.

Lemma typed_clean names p : Forall is_word names -> (0 ∉ p) -> 0 ∉ typed_path names p.
Proof.
  intros Hw Hp. unfold typed_path. case_decide; [done|]. intros [Hz|Hz]%elem_of_app.
  - revert Hz. apply join_clean. by apply Forall_rev.
  - apply elem_of_cons in Hz as [Hz|Hz]; done.
Qed.

Lemma typed_absolute names p : znth (typed_path names p) 0 = Some SLASH.
Proof.
  unfold typed_path. case_decide; [done|]. destruct (rev names); [done|]. by rewrite join_cons.
Qed.

(** The slash behind the working directory. *)
Lemma cwd_slash names m : Forall is_word names -> zlen (join (rev names)) + 2 <= zlen (cwd_path names ++ 0 :: m) ->
  exists m', zlen ((join (rev names) ++ [SLASH]) ++ 0 :: m') = zlen (cwd_path names ++ 0 :: m)
    /\ (let! c0 := rd (cwd_path names ++ 0 :: m) 0 in
        let! c1 := rd (cwd_path names ++ 0 :: m) 1 in
        if (c0 =? SLASH) && (c1 =? 0) then Ok (cwd_path names ++ 0 :: m) else c_strcat (cwd_path names ++ 0 :: m) [SLASH])
       = Ok ((join (rev names) ++ [SLASH]) ++ 0 :: m').
Proof.
  intros Hw Hl. destruct names as [|w0 names]; [by exists m|]. change (cwd_path (w0 :: names)) with (join (rev (w0 :: names))) in *.
  apply Forall_rev in Hw. pose proof (join_clean _ Hw) as Hc. destruct (rev (w0 :: names)) as [|w ws] eqn:Er.
  { apply (f_equal length) in Er. rewrite length_rev in Er. done. }
  apply Forall_cons in Hw as [(Hn & Hs & Hz) Hw]. destruct w as [|c w]; [done|].
  rewrite length_app in Hl. cbn [length] in Hl. exists (drop 1 m).
  split; [rewrite !length_app; cbn [length]; rewrite length_drop; lia|].
  rewrite c_strcat_mem by (done || (cbn [length]; lia)). rewrite join_cons. cbn [app].
  change (rd (SLASH :: c :: (w ++ join ws) ++ 0 :: m) 0) with (Ok SLASH). change (rd (SLASH :: c :: (w ++ join ws) ++ 0 :: m) 1) with (Ok c).
  cbn [obind]. rewrite (proj2 (Z.eqb_neq c 0)), andb_false_r by (intros ->; apply Hz; by left). done.
Qed.

Lemma make_clear_abs_path_ok n f p q new no names x : mem_ok f -> geometry (cur_part f) -> counts_below 1 f ->
  dir_entry_size (sb (cur_part f)) = 24 -> get_task (kern f) (running_thread (kern f)) = Ok x -> cwd_inode_nr x = no ->
  upward f no names -> Forall is_word names -> (0 ∉ p) -> p <> [] -> Forall fits (typed_names names p) ->
  zlen (typed_path names p) + 2 <= MAX_PATH_LEN -> zlen new = MAX_PATH_LEN ->
  roomy (2 + n + 8 * length names) (kheap f) ->
  exists h m, same_live (kheap f) h /\ roomy n h
    /\ make_clear_abs_path f (p ++ 0 :: q) new = Ok (with_kheap h f, clear_path names p ++ 0 :: m)
    /\ zlen (clear_path names p ++ 0 :: m) = MAX_PATH_LEN.
Proof.
  intros M G C Hsz Hx Hcwd U Hw Hp Hne Hf Hl Hn R.
  assert (forall m, exists m', wash_path (typed_path names p ++ 0 :: m) new = Ok (clear_path names p ++ 0 :: m')
    /\ zlen (clear_path names p ++ 0 :: m') = MAX_PATH_LEN) as Hwash.
  { intros m. rewrite <- Hn. unfold clear_path. rewrite <- typed_components by done.
    apply wash_path_ok; [by apply typed_clean | apply typed_absolute | by rewrite typed_components | lia]. }
  assert (exists h m, same_live (kheap f) h /\ roomy n h /\ zlen (typed_path names p ++ 0 :: m) = MAX_PATH_LEN
    /\ make_clear_abs_path f (p ++ 0 :: q) new
       = let! fp := wash_path (typed_path names p ++ 0 :: m) new in Ok (with_kheap h f, fp)) as (h & m & Hlive & Rh & _ & ->).
  { unfold make_clear_abs_path. destruct p as [|c p]; [done|]. change (rd ((c :: p) ++ 0 :: q) 0) with (Ok c). cbn [obind].
    rewrite (c_string_ok (c :: p)) by done. destruct (Z.eqb_spec c SLASH) as [->|Hc]; cbn [negb].
    - exists (kheap f). unfold typed_path in *. rewrite decide_True in * by done. cbn [obind].
      change (zeros MAX_PATH_LEN) with ([] ++ 0 :: replicate 511 0). rewrite c_strcat_mem; [|apply not_elem_of_nil | rewrite length_replicate; unfold MAX_PATH_LEN in Hl; lia].
      eexists. split; [done|]. split; [by apply (roomy_le n (2 + 8 * length names)); rewrite Nat.add_shuffle0|].
      split; [|cbn [obind app]; by destruct f]. rewrite length_app. cbn [length]. rewrite length_drop, length_replicate. unfold MAX_PATH_LEN in *. cbn [length] in *. lia.
    - assert (znth (c :: p) 0 <> Some SLASH) as Hrel by (intros [= ?]; done). unfold typed_path in *. rewrite decide_False in * by done.
      assert (zlen (cwd_path names) <= 1 + zlen (join (rev names))) as Hcl by (destruct names; cbn; lia).
      rewrite length_app in Hl. cbn [length] in Hl. unfold MAX_PATH_LEN in Hl.
      destruct (sys_getcwd_ok n f (zeros MAX_PATH_LEN) MAX_PATH_LEN no names x M G C Hsz Hx Hcwd U Hw) as (h & m & Hlive & Rh & -> & Hm & _);
        [lia | unfold zeros; rewrite length_replicate; unfold MAX_PATH_LEN; lia | done |].
      exists h. cbn [obind]. change (zlen (zeros MAX_PATH_LEN)) with 512 in Hm. rewrite length_app in Hm. cbn [length] in Hm.
      assert (zlen (cwd_path names ++ 0 :: m) = 512) as Hm' by (rewrite length_app; cbn [length]; lia).
      destruct (cwd_slash names m Hw ltac:(lia)) as (m1 & Hm1 & E). rewrite Hm' in Hm1. revert E. clear Hm Hm' Hrel.
      destruct (rd (cwd_path names ++ 0 :: m) 0) as [c0|]; [|done]. destruct (rd (cwd_path names ++ 0 :: m) 1) as [c1|]; [|done]. cbn [obind].
      rewrite !length_app in Hm1. cbn [length] in Hm1.
      assert (zlen (c :: p) <= zlen m1) as Hfit by (cbn [length]; lia).
      assert (forall z : list Z, (join (rev names) ++ [SLASH]) ++ z = join (rev names) ++ SLASH :: z) as Happ by (intros z; by rewrite <- app_assoc).
      assert (0 ∉ (join (rev names) ++ [SLASH])) as Hcl0.
      { intros [Hz|Hz]%elem_of_app; [revert Hz; apply join_clean; by apply Forall_rev | by apply list_elem_of_singleton in Hz]. }
      exists (drop (length (c :: p)) m1). split; [done|]. split; [done|].
      split; [rewrite !length_app; cbn [length]; rewrite length_drop; unfold MAX_PATH_LEN; cbn [length] in *; lia|].
      destruct ((c0 =? SLASH) && (c1 =? 0)); [injection E as E|]; rewrite E; cbn [obind]; by rewrite c_strcat_mem, Happ. }
  destruct (Hwash m) as (m' & E & Hm'). exists h, m'. by rewrite E.
Qed.

Lemma fs_ready_heap f h root_dir dirs : fs_ready f root_dir dirs -> same_live (kheap f) h -> fs_ready (with_kheap h f) root_dir dirs.
Proof.
  intros [M G C Hsz [T0 T] [R1 R2 R3]] Hl. split; try done. apply mem_ok_heap; [done|]. intros a Ha. by apply Hl.
Qed.

Lemma resolve_heap f h names : forall a b seen, resolve (with_kheap h f) a b seen names = resolve f a b seen names.
Proof.
  induction names as [|w names IH]; intros a b seen; [done|]. cbn [resolve]. change (lookup_in (with_kheap h f) b w) with (lookup_in f b w).
  destruct (lookup_in f b w) as [e|]; [|done]. by rewrite IH.
Qed.

Lemma clear_answer f st : Forall plain st -> search_answer f (show_path st) = resolve f 0 0 [] st.
Proof.
  intros Hst. unfold search_answer. rewrite show_path_components by done. case_decide as Hr; [|done].
  destruct st as [|w st]; [done|]. pose proof (show_path_components _ Hst) as Hc. exfalso.
  apply Forall_cons in Hst as [(_ & Hd & Hdd) _].
  unfold root_path in Hr. repeat apply elem_of_cons in Hr as [Hr|Hr]; try (rewrite Hr in Hc; injection Hc as <- <-; done); [by rewrite Hr in Hc | by apply elem_of_nil in Hr].
Qed.

(** C37. [cd] goes where the typed path leads: relative paths start at the working
    directory, the dots are worked off first, [final_path] shows the clean path, and
    the working directory of the task is the directory found. When nothing or a
    file is found, [cd] fails and changes nothing. A path that can be walked as
    typed ends in the same directory. *)
Theorem buildin_cd_spec f root_dir dirs p q dir_e0 final names x seen ans : fs_ready f root_dir dirs -> dots_right f dirs ->
  get_task (kern f) (running_thread (kern f)) = Ok x -> upward f (cwd_inode_nr x) names ->
  Forall is_word names -> Forall fits names -> (0 ∉ p) -> p <> [] -> Forall fits (components p) ->
  zlen (typed_path names p) + 2 <= MAX_PATH_LEN -> zlen final = MAX_PATH_LEN -> zlen dir_e0 = 24 ->
  roomy (2 + (2 + 12 * S (length (washed (typed_names names p)))) + 8 * length names) (kheap f) ->
  resolve f 0 0 [] (washed (typed_names names p)) = (seen, ans) ->
  (exists h m, same_live (kheap f) h
    /\ buildin_cd f root_dir dir_e0 [p ++ 0 :: q] final
       = Ok (match ans with
             | Directory _ no => with_kern (with_tasks (<[running_thread (kern f) := set_cwd no x]> (tasks (kern f))) (kern f)) (with_kheap h f)
             | _ => with_kheap h f
             end, clear_path names p ++ 0 :: m, match ans with Directory _ _ => true | _ => false end))
  /\ (forall parent no, resolve f 0 0 [] (typed_names names p) = (typed_names names p, Directory parent no) ->
      exists parent', ans = Directory parent' no).
Proof.
  intros Hr Hd Hx U Hw Hfn Hp Hne Hfp Hl Hlf He R E. pose proof Hr as [M G C2 Hsz T _].
  assert (Forall fits (typed_names names p)) as Hf.
  { unfold typed_names. apply Forall_app; split; [|done]. case_decide; [constructor | by apply Forall_rev]. }
  assert (counts_below 1 f) as C by (intros a i Ha; specialize (C2 a i Ha); lia).
  pose proof (typed_word names p Hw Hp) as Hwt. pose proof (washed_plain _ Hwt) as Hpl.
  split.
  - destruct (make_clear_abs_path_ok _ f p q final _ names x M G C Hsz Hx eq_refl U Hw Hp Hne Hf Hl Hlf R) as (h & m & Hlive & Rh & Ec & Hm).
    unfold buildin_cd. rewrite Ec. cbn [obind]. unfold clear_path in *.
    assert (path_ok (show_path (washed (typed_names names p)))) as Hpath.
    { split; [by apply show_path_clean | | |rewrite show_path_components by done; by apply washed_Forall].
      - destruct (washed (typed_names names p)); [done|]. cbn [show_path]. by rewrite join_cons.
      - rewrite length_app in Hm. cbn [length] in Hm. lia. }
    destruct (sys_chdir_ok 0 (with_kheap h f) root_dir dirs (show_path (washed (typed_names names p))) m dir_e0 seen ans x) as (h2 & Hl2 & _ & E2);
      try done.
    + by apply fs_ready_heap.
    + destruct (decide (washed (typed_names names p) = [])) as [->|Hnn]; [by right; left|]. left. by rewrite show_path_components.
    + rewrite show_path_components by done. by rewrite Nat.add_0_r.
    + rewrite clear_answer, resolve_heap by done. exact E.
    + rewrite E2. exists h2, m. split; [by intros k b; rewrite <- (Hl2 k b), (Hlive k b)|]. by destruct ans.
  - intros parent no Et.
    destruct (wash_walk f dirs T Hd (typed_names names p) [] 0 0 [] (Directory parent no) Hwt (List.Forall_nil _) (reach_root f) Et) as (ans' & E' & Hno & Hty); [done|].
    change (fold_left wash_step (typed_names names p) []) with (washed (typed_names names p)) in E'. rewrite E in E'. injection E' as _ ->.
    destruct ans' as [?|?|q0 no']; try done. cbn in Hno. subst no'. by exists q0.
Qed.

End resolve.
