(* ===== verification/Cmdline.v ===== *)
(** Correctness of the command line of Shell.v: [cmd_parse] finds the words of a
    line. *)
From S2P Require Import Prelude Words Path Search Shell.

(** ** Command lines *)

Section parse.
Variable tok : Z.
Hypothesis tok_nonzero : tok <> 0.

Lemma rd_at {A} (pre : list A) c x : rd (pre ++ c :: x) (zlen pre) = Ok c.
Proof. apply rd_znth. unfold znth. zdec. rewrite Nat2Z.id. by apply list_lookup_middle. Qed.

Lemma skip_on_split s : exists k, s = replicate k tok ++ skip_on tok s /\ (k <= length s)%nat.
Proof.
  induction s as [|c s (k & IH & Hk)]; [by exists 0%nat|]. cbn [skip_on]. destruct (Z.eqb_spec c tok) as [->|].
  - exists (S k). cbn [replicate app length]. split; [by f_equal | lia].
  - exists 0%nat. split; [done | lia].
Qed.

Lemma skip_token_ok c x : c <> tok -> forall k fuel pre, (k < fuel)%nat ->
  loop (skip_token_body (pre ++ replicate k tok ++ c :: x) tok) fuel (zlen pre) = Ok (zlen pre + Z.of_nat k).
Proof.
  intros Hc. induction k as [|k IH]; intros fuel pre Hf; (destruct fuel as [|fuel]; [lia|]); cbn [loop replicate app]; unfold skip_token_body at 1; rewrite rd_at; cbn [obind].
  - apply Z.eqb_neq in Hc as ->. f_equal. lia.
  - rewrite Z.eqb_refl. specialize (IH fuel (pre ++ [tok]) ltac:(lia)). rewrite <- app_assoc in IH. cbn [app] in IH.
    rewrite length_app in IH. cbn [length] in IH. replace (zlen pre + 1) with (Z.of_nat (length pre + 1)) by lia. rewrite IH. f_equal. lia.
Qed.

Lemma skip_arg_ok c x : c = 0 \/ c = tok -> forall w, (0 ∉ w) -> (tok ∉ w) -> forall fuel pre, (length w < fuel)%nat ->
  loop (skip_arg_body (pre ++ w ++ c :: x) tok) fuel (zlen pre) = Ok (zlen pre + zlen w).
Proof.
  intros Hc. induction w as [|b w IH]; intros H0 Ht fuel pre Hf; (destruct fuel as [|fuel]; [lia|]); cbn [loop app length]; unfold skip_arg_body at 1; rewrite rd_at; cbn [obind].
  - destruct Hc as [->| ->]; [|rewrite Z.eqb_refl, andb_false_r]; cbn [Z.eqb negb andb]; f_equal; lia.
  - apply not_elem_of_cons in H0 as [Hb0 H0], Ht as [Hbt Ht].
    replace (b =? 0) with false by (symmetry; apply Z.eqb_neq; congruence). replace (b =? tok) with false by (symmetry; apply Z.eqb_neq; congruence).
    cbn [negb andb]. cbn [length] in Hf. specialize (IH H0 Ht fuel (pre ++ [b]) ltac:(lia)). rewrite <- app_assoc in IH. cbn [app] in IH.
    rewrite length_app in IH. cbn [length] in IH. replace (zlen pre + 1) with (Z.of_nat (length pre + 1)) by lia. rewrite IH. f_equal. lia.
Qed.

(** [argv] with the pointers found so far. *)
Definition argv_of (ptrs : list Z) : list (option Z) :=
  map Some ptrs ++ replicate (Z.to_nat MAX_ARG_NR - length ptrs) None.

(** A pointer into the line at a terminated word. *)
Definition points (cmd : list Z) (p : Z) (w : list Z) : Prop := 0 <= p /\ exists q, drop (Z.to_nat p) cmd = w ++ 0 :: q.

Lemma points_app cmd x p w : points cmd p w -> points (cmd ++ x) p w.
Proof.
  intros [Hp [q Hq]]. split; [done|]. exists (q ++ x). rewrite drop_app_le, Hq.
  - by rewrite <- app_assoc.
  - destruct (decide (Z.to_nat p <= length cmd)%nat); [done|]. rewrite drop_ge in Hq by lia. by destruct w.
Qed.

Lemma argv_store ptrs p : (length ptrs < 16)%nat -> wr (argv_of ptrs) (zlen ptrs) (Some p) = Ok (argv_of (ptrs ++ [p])).
Proof.
  intros Hl. unfold argv_of, MAX_ARG_NR. change (Z.to_nat 16) with 16%nat.
  rewrite wr_in by (rewrite length_app, length_map, length_replicate; lia). f_equal. rewrite Nat2Z.id, map_app, length_app. cbn [length map].
  replace (16 - length ptrs)%nat with (S (16 - (length ptrs + 1))) by lia. cbn [replicate].
  replace (length ptrs) with (length (map Some ptrs) + 0)%nat at 1 by (rewrite length_map; lia). rewrite insert_app_r. cbn [insert list_insert].
  by rewrite <- app_assoc.
Qed.

Lemma argv_full ptrs p : length ptrs = 16%nat -> wr (argv_of ptrs) (zlen ptrs) (Some p) = Err BadAccess.
Proof. intros Hl. unfold wr, argv_of, MAX_ARG_NR. rewrite length_app, length_map, length_replicate. zdec. done. Qed.

Lemma points_word pre x w q : points ((pre ++ x) ++ w ++ 0 :: q) (zlen pre + zlen x) w.
Proof. split; [lia|]. exists q. by rewrite drop_app_length' by (rewrite length_app; lia). Qed.

(** One turn, on a line that starts with [k] separators: at its end, and on a word. *)
Lemma rd_end {A} (l : list A) c x n : n = zlen l -> rd (l ++ c :: x) n = Ok c.
Proof. intros ->. apply rd_at. Qed.

Lemma parse_end k q pre ptrs :
  cmd_parse_body tok (pre ++ replicate k tok ++ 0 :: q, argv_of ptrs, zlen pre, zlen ptrs)
    = Ok (inr (pre ++ replicate k tok ++ 0 :: q, argv_of ptrs, zlen ptrs)).
Proof.
  unfold cmd_parse_body. destruct k as [|k]; [cbn [replicate app]; by rewrite rd_at|]. cbn [replicate app]. rewrite rd_at. cbn [obind].
  rewrite (proj2 (Z.eqb_neq tok 0)) by done. cbn iota. change (tok :: replicate k tok ++ 0 :: q) with (replicate (S k) tok ++ 0 :: q).
  rewrite skip_token_ok by (try congruence; rewrite !length_app, length_replicate; cbn [length]; lia). cbn [obind].
  rewrite (app_assoc pre), rd_end by (rewrite length_app, length_replicate; lia). done.
Qed.

Lemma parse_turn k w c x pre ptrs : w <> [] -> (0 ∉ w) -> (tok ∉ w) -> c = 0 \/ c = tok -> (length ptrs <= 16)%nat ->
  cmd_parse_body tok (pre ++ replicate k tok ++ w ++ c :: x, argv_of ptrs, zlen pre, zlen ptrs)
    = if decide (length ptrs < 16)%nat then
        Ok (inl (pre ++ replicate k tok ++ w ++ 0 :: x, argv_of (ptrs ++ [zlen (pre ++ replicate k tok)]),
                 zlen (pre ++ replicate k tok ++ w) + (if c =? 0 then 0 else 1), zlen (ptrs ++ [zlen (pre ++ replicate k tok)])))
      else Err BadAccess.
Proof.
  intros Hw H0 Ht Hc Hl. destruct w as [|b w]; [done|]. pose proof H0 as Hb. pose proof Ht as Hbt. apply not_elem_of_cons in Hb as [Hb _], Hbt as [Hbt _].
  assert (exists y, y <> 0 /\ rd (pre ++ replicate k tok ++ (b :: w) ++ c :: x) (zlen pre) = Ok y) as (y & Hy & E1).
  { destruct k; cbn [replicate app]; eexists; (split; [|apply rd_at]); congruence. }
  unfold cmd_parse_body at 1. rewrite E1. cbn [obind]. rewrite (proj2 (Z.eqb_neq y 0)) by done. cbn iota.
  cbn [app]. rewrite skip_token_ok by (try congruence; rewrite !length_app, length_replicate; cbn [length]; lia). cbn [obind].
  rewrite (app_assoc pre (replicate k tok)). set (pre1 := pre ++ replicate k tok).
  assert (zlen pre + Z.of_nat k = zlen pre1) as -> by (unfold pre1; rewrite length_app, length_replicate; lia).
  rewrite rd_at. cbn [obind]. rewrite (proj2 (Z.eqb_neq b 0)) by congruence. cbn iota.
  case_decide as Hlt.
  - rewrite argv_store by done. cbn [obind]. change (b :: w ++ c :: x) with ((b :: w) ++ c :: x).
    rewrite skip_arg_ok by (try done; rewrite !length_app; lia). cbn [obind]. rewrite (app_assoc pre1), rd_end by (rewrite length_app; lia). cbn [obind].
    assert (zlen (ptrs ++ [zlen pre1]) = zlen ptrs + 1) as -> by (rewrite length_app; cbn [length]; lia).
    assert (zlen pre1 + zlen (b :: w) = zlen (pre1 ++ b :: w)) as -> by (rewrite length_app; lia).
    assert (pre ++ replicate k tok ++ b :: w = pre1 ++ b :: w) as -> by apply app_assoc.
    destruct Hc as [->| ->].
    + cbn [Z.eqb negb obind]. unfold MAX_ARG_NR. rewrite (proj2 (Z.ltb_ge 16 (zlen ptrs))) by lia. unfold pre1. by rewrite Z.add_0_r, <- !app_assoc.
    + rewrite (proj2 (Z.eqb_neq tok 0)) by done. cbn [negb]. rewrite wr_in by (rewrite !length_app; cbn [length]; lia). cbn [obind].
      unfold MAX_ARG_NR. rewrite (proj2 (Z.ltb_ge 16 (zlen ptrs))) by lia.
      replace (Z.to_nat (zlen (pre1 ++ b :: w))) with (length (pre1 ++ b :: w) + 0)%nat by lia. rewrite insert_app_r. cbn [insert list_insert].
      unfold pre1. by rewrite <- !app_assoc.
  - by rewrite argv_full by lia.
Qed.

(** A line starts with separators; then it ends, or a word comes. *)
Lemma line_cases s : (0 ∉ s) ->
  exists k, s = replicate k tok /\ words_on tok s = []
  \/ exists w, w <> [] /\ (0 ∉ w) /\ (tok ∉ w) /\
     (s = replicate k tok ++ w /\ words_on tok s = [w]
      \/ exists r, s = replicate k tok ++ w ++ tok :: r /\ (0 ∉ r) /\ words_on tok s = w :: words_on tok r).
Proof.
  intros Hs. destruct (skip_on_split s) as (k & Es & _). exists k. rewrite words_on_step.
  case_decide as Hw; [left; by rewrite (skip_on_word_nil _ _ Hw), app_nil_r in Es|]. right.
  set (t := skip_on tok s) in *. assert (0 ∉ t) as Ht by (intros Hz; by apply Hs, (in_skip_on tok)).
  exists (word_on tok t). split; [done|]. split; [intros Hz; by apply Ht, (in_word_on tok)|]. split; [apply word_no_sep|].
  rewrite (word_after_on tok t) in Es at 1. destruct (after_sep tok t) as [Ha|[r Ha]]; rewrite Ha in Es |- *.
  - left. by rewrite app_nil_r in Es.
  - right. exists r. split; [done|]. split; [|by rewrite words_on_sep]. intros Hz. apply Ht, (in_after_on tok). rewrite Ha. by right.
Qed.

(** The loop from the line [s], with the words before it already cut out of [pre];
    [q] is what follows the line. *)
Lemma parse_loop q : forall fuel s pre ptrs ws, (0 ∉ s) -> (S (length (words_on tok s)) < fuel)%nat ->
  Forall2 (points pre) ptrs ws -> (length ptrs <= 16)%nat ->
  if decide (length ptrs + length (words_on tok s) <= 16)%nat then
    exists s' ptrs', loop (cmd_parse_body tok) fuel (pre ++ s ++ 0 :: q, argv_of ptrs, zlen pre, zlen ptrs)
      = Ok (s' ++ 0 :: q, argv_of ptrs', zlen ptrs') /\ Forall2 (points (s' ++ 0 :: q)) ptrs' (ws ++ words_on tok s)
      /\ length s' = length (pre ++ s)
  else loop (cmd_parse_body tok) fuel (pre ++ s ++ 0 :: q, argv_of ptrs, zlen pre, zlen ptrs) = Err BadAccess.
Proof.
  induction fuel as [|fuel IH]; intros s pre ptrs ws Hs Hf Hp Hl; [lia|]. cbn [loop].
  assert (forall x, Forall2 (points (pre ++ x)) ptrs ws) as Hold.
  { intros x. eapply Forall2_impl; [exact Hp|]. intros p w. apply points_app. }
  destruct (line_cases s Hs) as (k & [[-> Hw]|(w & Hn & H0 & Ht & Hcase)]).
  { rewrite Hw in *. rewrite decide_True by (cbn; lia). rewrite parse_end. rewrite app_assoc. eexists _, _. split; [reflexivity|].
    rewrite app_nil_r, <- app_assoc. split; [apply Hold | done]. }
  assert (forall x, Forall2 (points ((pre ++ replicate k tok ++ w ++ [0]) ++ x)) (ptrs ++ [zlen (pre ++ replicate k tok)]) (ws ++ [w])) as Hnew.
  { intros x. apply Forall2_app; [rewrite <- app_assoc; apply Hold|]. constructor; [|constructor].
    rewrite (app_assoc pre), <- !app_assoc. cbn [app]. split; [lia|]. exists x. rewrite (app_assoc pre). apply drop_app_length'. lia. }
  destruct Hcase as [[-> Hw]|(r & -> & Hr & Hw)]; rewrite Hw in *; rewrite <- !app_assoc; cbn [app].
  - rewrite parse_turn by auto. cbn [length] in *. destruct (decide (length ptrs < 16)%nat) as [Hlt|Hlt]; [|by rewrite decide_False by lia].
    rewrite decide_True by lia. destruct fuel as [|fuel]; [lia|]. cbn [loop]. change (0 =? 0) with true. cbn iota. rewrite Z.add_0_r.
    pose proof (parse_end 0 q (pre ++ replicate k tok ++ w) (ptrs ++ [zlen (pre ++ replicate k tok)])) as He.
    cbn [replicate app] in He. rewrite <- !app_assoc in He. rewrite He.
    exists (pre ++ replicate k tok ++ w), (ptrs ++ [zlen (pre ++ replicate k tok)]). split; [by rewrite <- !app_assoc|].
    split; [|done]. specialize (Hnew q). rewrite <- !app_assoc in Hnew. rewrite <- !app_assoc. exact Hnew.
  - rewrite parse_turn by auto. cbn [length] in *. destruct (decide (length ptrs < 16)%nat) as [Hlt|Hlt]; [|by rewrite decide_False by lia].
    rewrite (proj2 (Z.eqb_neq tok 0)) by done. specialize (IH r (pre ++ replicate k tok ++ w ++ [0]) (ptrs ++ [zlen (pre ++ replicate k tok)]) (ws ++ [w]) Hr).
    specialize (Hnew []). rewrite app_nil_r in Hnew.
    assert (forall p : Z, length (ptrs ++ [p]) = length ptrs + 1)%nat as Hlen by (intros p; by rewrite length_app).
    specialize (IH ltac:(lia) Hnew ltac:(rewrite Hlen; lia)). rewrite Hlen in IH. rewrite <- !app_assoc in IH. cbn [app] in IH.
    assert (zlen (pre ++ replicate k tok ++ w ++ [0]) = zlen (pre ++ replicate k tok ++ w) + 1) as Ez by (rewrite !length_app; cbn [length]; lia).
    rewrite Ez in IH. replace (length ptrs + 1 + length (words_on tok r))%nat with (length ptrs + S (length (words_on tok r)))%nat in IH by lia. rewrite Hlen.
    case_decide; [|exact IH]. destruct IH as (s' & ptrs' & E & Hp' & Hs'). exists s', ptrs'. split; [exact E|]. split; [exact Hp'|].
    rewrite Hs', !length_app. cbn [length]. lia.
Qed.

Lemma cmd_parse_ok s q argv : (0 ∉ s) -> length argv = 16%nat ->
  if decide (zlen (words_on tok s) <= MAX_ARG_NR) then
    exists s' ptrs, cmd_parse (s ++ 0 :: q) argv tok = Ok (s' ++ 0 :: q, argv_of ptrs, zlen (words_on tok s))
      /\ Forall2 (points (s' ++ 0 :: q)) ptrs (words_on tok s) /\ length s' = length s
  else cmd_parse (s ++ 0 :: q) argv tok = Err BadAccess.
Proof.
  intros Hs Ha. unfold cmd_parse, MAX_ARG_NR. pose proof (words_on_length tok s).
  assert (splice argv 0 (replicate (Z.to_nat 16) None) = Ok (argv_of [])) as ->.
  { rewrite splice_all by done. done. }
  cbn [obind]. pose proof (parse_loop q (S (length (s ++ 0 :: q))) s [] [] [] Hs) as Hloop.
  specialize (Hloop ltac:(rewrite length_app; cbn [length]; lia) (List.Forall2_nil _) ltac:(cbn; lia)). cbn [length app] in Hloop.
  destruct (decide (zlen (words_on tok s) <= 16)); [rewrite decide_True in Hloop by lia | by rewrite decide_False in Hloop by lia].
  destruct Hloop as (s' & ptrs & E & Hp & Hl). exists s', ptrs. by rewrite (Forall2_length _ _ _ Hp) in E.
Qed.

(** [cmd_parse] finds the words of a line. Up to sixteen of them: it returns
    their number, [argv] holds a pointer to each, in order, where it stands in the
    line as a string of its own, and the rest of [argv] is NULL; nothing behind the
    line changes. More: it writes
    behind [argv] before it looks at the count. *)
Theorem cmd_parse_spec s q argv : (0 ∉ s) -> length argv = 16%nat ->
  if decide (zlen (words_on tok s) <= MAX_ARG_NR) then
    exists s' ptrs, cmd_parse (s ++ 0 :: q) argv tok = Ok (s' ++ 0 :: q, argv_of ptrs, zlen (words_on tok s))
      /\ Forall2 (points (s' ++ 0 :: q)) ptrs (words_on tok s) /\ length s' = length s
  else cmd_parse (s ++ 0 :: q) argv tok = Err BadAccess.
Proof. apply cmd_parse_ok. Qed.

End parse.
