(* ===== verification/Readline.v ===== *)
(** shell/shell.c: [readline], the line editor of the shell. What is typed is a list
    of characters, what reaches the screen a list of events; [pos] is the index of
    the pointer in the buffer. *)
From S2P Require Import Prelude Path Fsspec Shellspec.

Definition BACKSPACE : Z := 8.
Definition CTRL_L : Z := 11.
Definition CTRL_U : Z := 20.
Definition NEWLINE : Z := 10.
Definition RETURN : Z := 13.

(** [putchar], [clear], [print_prompt], and [printf] of a string or of the
    complaint about a line that is too long. *)
Inductive shown := Putchar (c : Z) | Cleared | Prompt | Printed (s : list Z) | Complaint.

(** [while (buf != pos)] of ctrl+u. *)
Definition rubout_body (s : list Z * Z * list shown) : outcome (list Z * Z * list shown + list Z * Z * list shown) :=
  let '(buf, pos, out) := s in
  if pos =? 0 then Ok (inr s) else
  let! buf := wr buf pos 0 in
  Ok (inl (buf, pos - 1, out ++ [Putchar BACKSPACE])).

(** One turn on the character [c]: [read] stores it at [pos] first. The loop ends
    with the buffer, and whether a line was read. *)
Definition readline_key (count : Z) (s : list Z * Z * list shown) (c : Z)
  : outcome (list Z * Z * list shown + list Z * list shown * bool) :=
  let '(buf, pos, out) := s in
  let! buf := wr buf pos c in
  if negb (pos <? count) then Ok (inr (buf, out ++ [Complaint], false)) else
  if (c =? NEWLINE) || (c =? RETURN) then
    let! buf := wr buf pos 0 in Ok (inr (buf, out ++ [Putchar NEWLINE], true))
  else if c =? BACKSPACE then
    let! c0 := rd buf 0 in
    if negb (c0 =? BACKSPACE) then Ok (inl (buf, pos - 1, out ++ [Putchar BACKSPACE])) else Ok (inl (buf, pos, out))
  else if c =? CTRL_L then
    let! buf := wr buf pos 0 in
    let! typed := c_string buf in
    Ok (inl (buf, pos, out ++ [Cleared; Prompt; Printed typed]))
  else if c =? CTRL_U then
    let! s := loop rubout_body (S (Z.to_nat pos)) (buf, pos, out) in Ok (inl s)
  else Ok (inl (buf, pos + 1, out ++ [Putchar c])).

(** The characters come from [keys]; without one the shell waits, and the state is
    the result. *)
Fixpoint readline (count : Z) (keys : list Z) (s : list Z * Z * list shown)
  : outcome (list Z * Z * list shown + list Z * list shown * bool * list Z) :=
  match keys with
  | [] => Ok (inl s)
  | c :: keys =>
      let! r := readline_key count s c in
      match r with
      | inl s => readline count keys s
      | inr (buf, out, ok) => Ok (inr (buf, out, ok, keys))
      end
  end.

(** ** The editor, on the line itself *)

Definition edit (line : list Z) (c : Z) : list Z :=
  if c =? BACKSPACE then removelast line else if c =? CTRL_L then line else if c =? CTRL_U then [] else line ++ [c].
Definition edited (keys : list Z) : list Z := fold_left edit keys [].

(** The lines the keys are typed on. *)
Fixpoint typed_on (line keys : list Z) : list (list Z) :=
  match keys with [] => [] | c :: keys => line :: typed_on (edit line c) keys end.

(** What is on the screen. *)
Section screen.
Variable prompt : list Z.

Definition show_event (screen : list Z) (e : shown) : list Z :=
  match e with
  | Putchar c => if c =? BACKSPACE then removelast screen else screen ++ [c]
  | Cleared => []
  | Prompt => screen ++ prompt
  | Printed s => screen ++ s
  | Complaint => screen
  end.
Definition screen (start : list Z) (out : list shown) : list Z := fold_left show_event out start.

Definition key (c : Z) : Prop := c <> 0 /\ c <> NEWLINE /\ c <> RETURN.
Definition letter (c : Z) : Prop := key c /\ c <> BACKSPACE /\ c <> CTRL_L /\ c <> CTRL_U.

Lemma screen_app start o1 o2 : screen start (o1 ++ o2) = screen (screen start o1) o2.
Proof. apply fold_left_app. Qed.

Lemma edit_letters line c : Forall letter line -> key c -> Forall letter (edit line c).
Proof.
  intros Hl Hc. unfold edit. destruct (Z.eqb_spec c BACKSPACE); [by apply Forall_removelast|].
  destruct (Z.eqb_spec c CTRL_L); [done|]. destruct (Z.eqb_spec c CTRL_U); [constructor|].
  apply Forall_app; split; [done|]. by constructor.
Qed.

Lemma letters_clean line : Forall letter line -> 0 ∉ line.
Proof. intros Hl Hz. rewrite Forall_forall in Hl. by destruct (Hl 0 Hz) as [[? _] _]. Qed.

Lemma wr_at (l : list Z) x c m : wr (l ++ x :: m) (zlen l) c = Ok (l ++ c :: m).
Proof.
  rewrite wr_in by (rewrite length_app; cbn [length]; lia). f_equal. replace (Z.to_nat (zlen l)) with (length l + 0)%nat by lia.
  by rewrite insert_app_r.
Qed.

(** Ctrl+u empties the line, character by character. *)
Lemma rubout_ok : forall line x m out start base, screen start out = base ++ line -> forall fuel, (length line < fuel)%nat ->
  exists m' out', loop rubout_body fuel (line ++ x :: m, zlen line, out) = Ok (m', 0, out')
    /\ length m' = length (line ++ x :: m) /\ screen start out' = base.
Proof.
  induction line as [|c line IH] using rev_ind; intros x m out start base Hs fuel Hf; (destruct fuel as [|fuel]; [cbn in Hf; lia|]); cbn [loop]; unfold rubout_body at 1.
  - exists (x :: m), out. rewrite app_nil_r in Hs. done.
  - rewrite length_app in *. cbn [length] in *. destruct (Z.eqb_spec (Z.of_nat (length line + 1)) 0); [lia|].
    replace (Z.of_nat (length line + 1)) with (zlen (line ++ [c])) by (rewrite length_app; cbn [length]; lia).
    rewrite wr_at. cbn [obind]. rewrite <- app_assoc. cbn [app].
    destruct (IH c (0 :: m) (out ++ [Putchar BACKSPACE]) start base) with (fuel := fuel) as (m' & out' & E & Hm & Hs'); [|lia|].
    + rewrite screen_app, Hs. cbn. by rewrite app_assoc, removelast_last.
    + exists m', out'. replace (zlen (line ++ [c]) - 1) with (zlen line) by (rewrite length_app; cbn [length]; lia).
      rewrite E. split; [done|]. split; [|done]. rewrite Hm, !length_app. cbn [length]. lia.
Qed.

(** A key edits the line in the buffer and on the screen. *)
Lemma readline_key_ok count line m c out start base : Forall letter line -> key c -> 1 + zlen line + zlen m = count ->
  forall x, screen start out = base ++ line ->
  exists m' out' base', readline_key count (line ++ x :: m, zlen line, out) c = Ok (inl (edit line c ++ m', zlen (edit line c), out'))
    /\ zlen (edit line c ++ m') = count /\ screen start out' = base' ++ edit line c /\ base' = (if c =? CTRL_L then prompt else base).
Proof.
  intros Hl (H0 & Hn & Hr) Hc x Hs. unfold readline_key. rewrite wr_at. cbn [obind].
  rewrite (proj2 (Z.ltb_lt (zlen line) count)) by lia. cbn [negb].
  rewrite (proj2 (Z.eqb_neq c NEWLINE)), (proj2 (Z.eqb_neq c RETURN)) by done. cbn [orb]. unfold edit.
  destruct (Z.eqb_spec c BACKSPACE) as [->|Hb].
  - change (BACKSPACE =? CTRL_L) with false. cbn iota. destruct line as [|b line] using rev_ind; [|clear IHline].
    + cbn [app length removelast]. change (rd (BACKSPACE :: m) 0) with (Ok BACKSPACE). cbn [obind]. rewrite Z.eqb_refl. cbn [negb].
      exists (BACKSPACE :: m), out, base. split; [done|]. split; [cbn [length] in *; lia | done].
    + assert (exists b0 r, (line ++ [b]) ++ BACKSPACE :: m = b0 :: r /\ b0 <> BACKSPACE) as (b0 & r & E & Hb0).
      { destruct line as [|b0 line]; apply Forall_cons in Hl as [Hl _] || apply Forall_app in Hl as [_ Hl]; eexists _, _; (split; [reflexivity|]); [by apply Forall_singleton in Hl as (_ & ? & _) || by destruct Hl as (_ & ? & _) | by destruct Hl as (_ & ? & _)]. }
      assert (rd ((line ++ [b]) ++ BACKSPACE :: m) 0 = Ok b0) as -> by (by rewrite E). cbn [obind].
      rewrite (proj2 (Z.eqb_neq b0 BACKSPACE)) by done. cbn [negb]. rewrite removelast_last.
      exists (b :: BACKSPACE :: m), (out ++ [Putchar BACKSPACE]), base. split; [|split; [|split; [|done]]].
      * rewrite <- app_assoc. rewrite length_app. cbn [length app]. do 4 f_equal. lia.
      * rewrite length_app in *. cbn [length] in *. lia.
      * rewrite screen_app, Hs. cbn. by rewrite app_assoc, removelast_last.
  - destruct (Z.eqb_spec c CTRL_L) as [->|Hcl].
    + rewrite wr_at. cbn [obind]. rewrite c_string_ok by (by apply letters_clean). cbn [obind].
      exists (0 :: m), (out ++ [Cleared; Prompt; Printed line]), prompt. split; [done|]. split; [rewrite length_app; cbn [length]; lia|].
      split; [|done]. by rewrite screen_app.
    + destruct (Z.eqb_spec c CTRL_U) as [->|Hcu].
      * destruct (rubout_ok line CTRL_U m out start base Hs (S (Z.to_nat (zlen line)))) as (m' & out' & E & Hm & Hs'); [lia|].
        rewrite E. cbn [obind]. exists m', out', base. split; [done|]. rewrite length_app in Hm. cbn [length app] in *.
        split; [lia|]. split; [by rewrite app_nil_r | done].
      * exists m, (out ++ [Putchar c]), base. split; [|split; [|split; [|done]]].
        -- rewrite <- app_assoc, length_app. cbn [length app]. do 4 f_equal. lia.
        -- rewrite !length_app. cbn [length]. lia.
        -- rewrite screen_app, Hs. cbn. rewrite (proj2 (Z.eqb_neq c BACKSPACE)) by done. by rewrite app_assoc.
Qed.

(** The screen above the line: ctrl+l leaves the prompt alone. *)
Definition above (base keys : list Z) : list Z := if bool_decide (CTRL_L ∈ keys) then prompt else base.

Lemma readline_run count rest start : forall keys line m out base, Forall letter line -> Forall key keys -> zlen (line ++ m) = count ->
  screen start out = base ++ line -> Forall (fun l => zlen l < count) (typed_on line keys) ->
  exists m' out', readline count (keys ++ rest) (line ++ m, zlen line, out)
      = readline count rest (fold_left edit keys line ++ m', zlen (fold_left edit keys line), out')
    /\ zlen (fold_left edit keys line ++ m') = count /\ Forall letter (fold_left edit keys line)
    /\ screen start out' = above base keys ++ fold_left edit keys line.
Proof.
  induction keys as [|c keys IH]; intros line m out base Hl Hk Hc Hs Ht; cbn [fold_left app].
  - exists m, out. by rewrite Hs.
  - apply Forall_cons in Hk as [Hkc Hk]. cbn [typed_on] in Ht. apply Forall_cons in Ht as [Hlc Ht]. rewrite length_app in Hc.
    destruct m as [|x m]; [cbn in Hc; lia|]. cbn [length] in Hc.
    destruct (readline_key_ok count line m c out start base Hl Hkc ltac:(lia) x Hs) as (m1 & out1 & base1 & E1 & Hm1 & Hs1 & Hb1).
    destruct (IH (edit line c) m1 out1 base1) as (m2 & out2 & E2 & Hm2 & Hl2 & Hs2); try done; [by apply edit_letters|].
    exists m2, out2. split; [cbn [readline]; rewrite E1; exact E2|]. split; [done|]. split; [done|]. rewrite Hs2. f_equal.
    unfold above. rewrite Hb1. rewrite (bool_decide_ext (CTRL_L ∈ c :: keys) (CTRL_L = c \/ CTRL_L ∈ keys)) by apply elem_of_cons.
    destruct (Z.eqb_spec c CTRL_L) as [->|Hne]; [rewrite (bool_decide_eq_true_2 (_ \/ _)) by auto; by case_bool_decide|].
    rewrite (bool_decide_ext (CTRL_L = c \/ CTRL_L ∈ keys) (CTRL_L ∈ keys)); [done|]. split; [intros [Heq|]; [by destruct Hne | done] | by right].
Qed.

(** C39. [readline] is the line editor: whatever keys were typed, Enter ends it with
    the edited line as a string in the buffer, and the screen shows the same line
    after the prompt. There is room for [count] characters, but no check before
    they are stored: a line of [count] characters takes the next key out of the
    buffer. *)
Theorem readline_spec count buf keys c rest base : zlen buf = count -> Forall key keys ->
  Forall (fun l => zlen l < count) (typed_on [] keys) ->
  (c = NEWLINE \/ c = RETURN -> zlen (edited keys) < count ->
   exists m out, readline count (keys ++ c :: rest) (buf, 0, []) = Ok (inr (edited keys ++ 0 :: m, out, true, rest))
     /\ zlen (edited keys ++ 0 :: m) = count /\ (0 ∉ edited keys)
     /\ screen base out = above base keys ++ edited keys ++ [NEWLINE])
  /\ (zlen (edited keys) = count -> readline count (keys ++ c :: rest) (buf, 0, []) = Err BadAccess).
Proof.
  intros Hb Hk Ht. unfold edited.
  destruct (readline_run count (c :: rest) base keys [] buf [] base) as (m & out & E & Hm & Hl & Hs); try done; [by rewrite app_nil_r|].
  change (readline count (keys ++ c :: rest) (buf, 0, [])) with (readline count (keys ++ c :: rest) ([] ++ buf, zlen (@nil Z), [])).
  rewrite E. set (line := fold_left edit keys []) in *. rewrite length_app in Hm. split.
  - intros Hc Hlt. destruct m as [|x m]; [cbn in Hm; lia|]. cbn [readline]. unfold readline_key. rewrite wr_at. cbn [obind].
    rewrite (proj2 (Z.ltb_lt (zlen line) count)) by lia. cbn [negb].
    assert ((c =? NEWLINE) || (c =? RETURN) = true) as -> by (destruct Hc as [->| ->]; done).
    rewrite wr_at. cbn [obind]. eexists m, _. split; [reflexivity|]. split; [rewrite length_app; cbn [length] in *; lia|].
    split; [by apply letters_clean|]. rewrite screen_app, Hs. cbn. by rewrite <- app_assoc.
  - intros Heq. cbn [readline]. unfold readline_key. unfold wr. rewrite length_app. zdec. done.
Qed.

End screen.

Example readline_witness : exists m out,
  readline 512 ([108; 120; 8; 115; 11; 32; 97] ++ 13 :: [108]) (replicate 512 0, 0, [])
    = Ok (inr ([108; 115; 32; 97] ++ 0 :: m, out, true, [108]))
  /\ screen [36; 32] [36; 32] out = [36; 32; 108; 115; 32; 97; 10].
Proof.
  destruct (readline_spec [36; 32] 512 (replicate 512 0) [108; 120; 8; 115; 11; 32; 97] 13 [108] [36; 32]) as [He _].
  - reflexivity.
  - repeat constructor; discriminate.
  - cbn. repeat (constructor; [reflexivity|]). constructor.
  - destruct (He ltac:(by right) ltac:(reflexivity)) as (m & out & E & _ & _ & Hs). exists m, out. split; [exact E | exact Hs].
Defined.
