(* ===== verification/Pipeline.v ===== *)
(** shell/shell.c: [my_shell] on one line, with [cmd_execute] and the pipes. What a
    command does is not part of it: the result is the sequence of system calls and
    commands the line leads to. *)
From S2P Require Import Prelude Words Path Fsspec Shell Shellspec Cmdline.
From stdpp Require Import strings.
Local Open Scope Z_scope.

Definition SPACE : Z := 32.
Definition BAR : Z := 124.

Definition chars (s : string) : list Z := map (fun a => Z.of_nat (Ascii.nat_of_ascii a)) (String.list_ascii_of_string s).

(** The branches of [cmd_execute]; [External] forks, and the child executes. *)
Inductive command := Ls | Cd | Pwd | Ps | Clear | Mkdir | Rmdir | Rm | Help | External.

Definition command_of (name : list Z) : command :=
  if bool_decide (name = chars "ls") then Ls
  else if bool_decide (name = chars "cd") then Cd
  else if bool_decide (name = chars "pwd") then Pwd
  else if bool_decide (name = chars "ps") then Ps
  else if bool_decide (name = chars "clear") then Clear
  else if bool_decide (name = chars "mkdir") then Mkdir
  else if bool_decide (name = chars "rmdir") then Rmdir
  else if bool_decide (name = chars "rm") then Rm
  else if bool_decide (name = chars "help") then Help
  else External.

(** [Too_many] is the message that the number of arguments exceeds 16. *)
Inductive action :=
  | Pipe_call | Redirect (old new : Z) | Execute (c : command) (args : list (list Z)) | Close (fd : Z)
  | Too_many.

(** [strcmp] asserts that its arguments are not NULL, and [argv[0]] is NULL on a line
    of spaces. *)
Definition cmd_execute (args : list (list Z)) : outcome action :=
  match args with [] => Err AssertFail | name :: _ => Ok (Execute (command_of name) args) end.

(** The strings the first elements of [argv] point to. *)
Fixpoint strings_at (cmd : list Z) (argv : list (option Z)) : outcome (list (list Z)) :=
  match argv with
  | [] => Ok []
  | None :: _ => Err BadAccess
  | Some p :: argv =>
      let! s := c_string (drop (Z.to_nat p) cmd) in
      let! l := strings_at cmd argv in
      Ok (s :: l)
  end.

(** [cmd_execute(argc, argv)] on pointers into [cmd]. *)
Definition run_words (cmd : list Z) (argv : list (option Z)) (argc : Z) : outcome action :=
  let! args := strings_at cmd (take (Z.to_nat argc) argv) in cmd_execute args.

(** [cmd_parse(each_cmd, argv, ' ')] and [cmd_execute(argc, argv)]; the pointers are
    counted from [each_cmd]. *)
Definition run_at (cmd_line : list Z) (each_cmd : Z) (argv : list (option Z)) : outcome (list Z * list (option Z) * action) :=
  let! ' (cmd, argv, argc) := cmd_parse (drop (Z.to_nat each_cmd) cmd_line) argv SPACE in
  let! a := run_words cmd argv argc in
  Ok (take (Z.to_nat each_cmd) cmd_line ++ cmd, argv, a).

Fixpoint index_of (c : Z) (s : list Z) : option Z :=
  match s with [] => None | x :: s => if x =? c then Some 0 else Z.succ <$> index_of c s end.
Definition c_strchr (mem : list Z) (c : Z) : outcome (option Z) := let! s := c_string mem in Ok (index_of c s).

(** The commands between the first and the last. *)
Definition pipe_body (s : list Z * Z * list (option Z) * list action)
  : outcome (list Z * Z * list (option Z) * list action + list Z * Z * list (option Z) * list action) :=
  let '(cmd_line, each_cmd, argv, done_) := s in
  let! bar := c_strchr (drop (Z.to_nat each_cmd) cmd_line) BAR in
  match bar with
  | None => Ok (inr s)
  | Some k =>
      let! cmd_line := wr cmd_line (each_cmd + k) 0 in
      let! ' (cmd_line, argv, a) := run_at cmd_line each_cmd argv in
      Ok (inl (cmd_line, each_cmd + k + 1, argv, done_ ++ [a]))
  end.

(** [fd0] and [fd1] are what [pipe] stores. *)
Definition shell_line (cmd_line : list Z) (argv : list (option Z)) (fd0 fd1 : Z) : outcome (list action) :=
  let! c := rd cmd_line 0 in
  if c =? 0 then Ok [] else
  let! bar := c_strchr cmd_line BAR in
  match bar with
  | None =>
      let! ' (cmd_line, argv, argc) := cmd_parse cmd_line argv SPACE in
      if argc =? -1 then Ok [Too_many] else
      let! a := run_words cmd_line argv argc in Ok [a]
  | Some k =>
      let! cmd_line := wr cmd_line k 0 in
      let! ' (cmd_line, argv, first) := run_at cmd_line 0 argv in
      let! ' (cmd_line, each_cmd, argv, middle) := loop pipe_body (S (length cmd_line)) (cmd_line, k + 1, argv, []) in
      let! ' (_, _, last) := run_at cmd_line each_cmd argv in
      Ok ([Pipe_call; Redirect 1 fd1; first; Redirect 0 fd0] ++ middle
          ++ [Redirect 1 1; last; Redirect 0 0; Close fd0; Close fd1])
  end.

(** ** Correctness *)

(** What a piece of the line means. *)
Definition execute_words (piece : list Z) : action :=
  Execute (command_of (default [] (head (words_on SPACE piece)))) (words_on SPACE piece).
Definition command_ok (piece : list Z) : Prop := 1 <= zlen (words_on SPACE piece) <= MAX_ARG_NR.

(** The order in which a line with these commands is worked off. *)
Definition plumbing (fd0 fd1 : Z) (acts : list action) : list action :=
  match acts with
  | [] | [_] => acts
  | first :: rest => [Pipe_call; Redirect 1 fd1; first; Redirect 0 fd0] ++ removelast rest
      ++ [Redirect 1 1; List.last rest first; Redirect 0 0; Close fd0; Close fd1]
  end.

Lemma points_string cmd p w : 0 ∉ w -> points cmd p w -> c_string (drop (Z.to_nat p) cmd) = Ok w.
Proof. intros Hw (_ & q & ->). by apply c_string_ok. Qed.

Lemma strings_at_ok cmd ptrs ws : Forall2 (points cmd) ptrs ws -> Forall (fun w => 0 ∉ w) ws -> strings_at cmd (map Some ptrs) = Ok ws.
Proof.
  induction 1 as [|p w ptrs ws Hp _ IH]; intros Hw; [done|]. apply Forall_cons in Hw as [Hz Hw]. cbn [map strings_at].
  rewrite (points_string cmd p w) by done. cbn [obind]. by rewrite IH.
Qed.

Lemma words_clean s : 0 ∉ s -> Forall (fun w => 0 ∉ w) (words_on SPACE s).
Proof.
  intros Hs. apply Forall_forall. intros w Hw Hz. apply Hs. unfold words_on in Hw. apply list_elem_of_filter in Hw as [_ Hw].
  revert w Hw Hz. clear Hs. induction s as [|c s IH]; intros w Hw Hz; cbn [split_on] in Hw.
  - apply list_elem_of_singleton in Hw as ->. by apply elem_of_nil in Hz.
  - destruct (c =? SPACE); [apply elem_of_cons in Hw as [->|Hw]; [by apply elem_of_nil in Hz | right; by apply (IH w)]|].
    destruct (split_on SPACE s) as [|v ws]; [apply list_elem_of_singleton in Hw as ->; apply elem_of_cons in Hz as [->|Hz]; [by left | by apply elem_of_nil in Hz]|].
    apply elem_of_cons in Hw as [->|Hw]; [|right; apply (IH w); [by right | done]].
    apply elem_of_cons in Hz as [->|Hz]; [by left | right; apply (IH v); [by left | done]].
Qed.

Lemma run_words_ok s q argv : (0 ∉ s) -> command_ok s -> length argv = 16%nat ->
  exists s' argv', cmd_parse (s ++ 0 :: q) argv SPACE = Ok (s' ++ 0 :: q, argv', zlen (words_on SPACE s))
    /\ run_words (s' ++ 0 :: q) argv' (zlen (words_on SPACE s)) = Ok (execute_words s) /\ length s' = length s /\ length argv' = 16%nat.
Proof.
  intros Hs [Hc1 Hc2] Ha. pose proof (cmd_parse_ok SPACE ltac:(done) s q argv Hs Ha) as Hp. rewrite decide_True in Hp by done.
  destruct Hp as (s' & ptrs & E & Hpt & Hl). pose proof (Forall2_length _ _ _ Hpt) as Hn. exists s', (argv_of ptrs). split; [done|]. unfold run_words.
  assert (take (Z.to_nat (zlen (words_on SPACE s))) (argv_of ptrs) = map Some ptrs) as ->.
  { unfold argv_of. rewrite Nat2Z.id, <- Hn. rewrite <- (length_map Some ptrs) at 1. apply take_app_length. }
  rewrite (strings_at_ok _ _ (words_on SPACE s)) by (done || by apply words_clean). cbn [obind].
  unfold cmd_execute, execute_words. destruct (words_on SPACE s) as [|w ws]; [cbn in Hc1; lia|].
  split; [done|]. split; [done|]. unfold argv_of, MAX_ARG_NR in *. rewrite length_app, length_map, length_replicate. lia.
Qed.

Lemma run_at_ok pre s q argv : (0 ∉ s) -> command_ok s -> length argv = 16%nat ->
  exists s' argv', run_at (pre ++ s ++ 0 :: q) (zlen pre) argv = Ok (pre ++ s' ++ 0 :: q, argv', execute_words s)
    /\ length s' = length s /\ length argv' = 16%nat.
Proof.
  intros Hs Hc Ha. unfold run_at. rewrite Nat2Z.id, drop_app_length, take_app_length.
  destruct (run_words_ok s q argv Hs Hc Ha) as (s' & argv' & E & Er & Hl). rewrite E. cbn [obind]. rewrite Er. cbn [obind]. by exists s', argv'.
Qed.

Lemma index_of_word s : index_of BAR s = match after_on BAR s with [] => None | _ => Some (zlen (word_on BAR s)) end.
Proof.
  induction s as [|c s IH]; [done|]. cbn [index_of after_on word_on]. destruct (c =? BAR); [done|]. rewrite IH.
  destruct (after_on BAR s); [done|]. cbn [fmap option_fmap option_map length]. f_equal. lia.
Qed.

Lemma split_on_step s : split_on BAR s = match after_on BAR s with [] => [s] | _ :: r => word_on BAR s :: split_on BAR r end.
Proof.
  pose proof (word_no_sep BAR s) as Hw. destruct (after_sep BAR s) as [Ha|[r Ha]]; rewrite Ha.
  - apply split_on_last. pose proof (word_after_on BAR s) as Hs. rewrite Ha, app_nil_r in Hs. by rewrite Hs.
  - rewrite (word_after_on BAR s) at 1. rewrite Ha. by apply split_on_word.
Qed.

Lemma split_on_nonempty s : split_on BAR s <> [].
Proof. rewrite split_on_step. by destruct (after_on BAR s). Qed.

Lemma c_strchr_ok s m : 0 ∉ s -> c_strchr (s ++ 0 :: m) BAR = Ok (match after_on BAR s with [] => None | _ => Some (zlen (word_on BAR s)) end).
Proof. intros Hs. unfold c_strchr. rewrite c_string_ok by done. cbn [obind]. by rewrite index_of_word. Qed.

Lemma split_on_length s : (length (split_on BAR s) <= S (length s))%nat.
Proof.
  induction s as [|c s IH]; [done|]. cbn [split_on]. destruct (c =? BAR); [cbn [length]; lia|].
  destruct (split_on BAR s); cbn [length] in *; lia.
Qed.

(** Cutting the line at its first bar. *)
Lemma cut_bar pre w r q k : k = zlen pre + zlen w -> wr (pre ++ (w ++ BAR :: r) ++ 0 :: q) k 0 = Ok (pre ++ w ++ 0 :: r ++ 0 :: q).
Proof.
  intros ->. rewrite wr_in by (rewrite !length_app; cbn [length]; lia). f_equal.
  replace (Z.to_nat (zlen pre + zlen w)) with (length pre + (length w + 0))%nat by lia. rewrite insert_app_r, <- app_assoc, insert_app_r. done.
Qed.

(** The parts of a line at its first bar. *)
Lemma bar_cases s : (0 ∉ s) -> after_on BAR s = [] /\ split_on BAR s = [s]
  \/ exists w r, s = w ++ BAR :: r /\ word_on BAR s = w /\ after_on BAR s = BAR :: r /\ split_on BAR s = w :: split_on BAR r /\ (0 ∉ w) /\ (0 ∉ r).
Proof.
  intros Hs. rewrite split_on_step. destruct (after_sep BAR s) as [Ha|[r Ha]]; rewrite Ha; [by left|]. right.
  pose proof (word_after_on BAR s) as E. rewrite Ha in E. exists (word_on BAR s), r.
  split; [done|]. split; [done|]. split; [done|]. split; [done|]. rewrite E in Hs. split; intros Hz; apply Hs, elem_of_app; [by left | right; by right].
Qed.

Lemma pipe_loop q : forall fuel s pre argv done_, (0 ∉ s) -> Forall command_ok (split_on BAR s) -> length argv = 16%nat ->
  (length (split_on BAR s) <= fuel)%nat ->
  exists pre' last argv', loop pipe_body fuel (pre ++ s ++ 0 :: q, zlen pre, argv, done_)
      = Ok (pre' ++ last ++ 0 :: q, zlen pre', argv', done_ ++ map execute_words (removelast (split_on BAR s)))
    /\ (exists ws, split_on BAR s = ws ++ [last]) /\ (0 ∉ last) /\ length argv' = 16%nat.
Proof.
  induction fuel as [|fuel IH]; intros s pre argv done_ Hs Hok Ha Hf.
  { pose proof (split_on_nonempty s). destruct (split_on BAR s); [done | cbn in Hf; lia]. }
  cbn [loop]. unfold pipe_body at 1. rewrite Nat2Z.id, drop_app_length, c_strchr_ok by done. cbn [obind].
  destruct (bar_cases s Hs) as [(Hn & Hsp)|(w & r & Es & Hw & Haf & Hsp & Hw0 & Hr0)]; rewrite Hsp in *.
  - rewrite Hn. exists pre, s, argv. cbn [removelast map]. rewrite app_nil_r. split; [done|]. split; [by exists []|]. done.
  - rewrite Haf, Hw, Es, cut_bar by done. cbn [obind]. apply Forall_cons in Hok as [Hokw Hok]. cbn [length] in Hf.
    destruct (run_at_ok pre w (r ++ 0 :: q) argv Hw0 Hokw Ha) as (s' & argv' & E & Hs' & Ha'). rewrite E. cbn [obind].
    destruct (IH r (pre ++ s' ++ [0]) argv' (done_ ++ [execute_words w]) Hr0 Hok Ha' ltac:(lia)) as (pre' & last & argv2 & E2 & (ws & Hlast) & Hl0 & Ha2).
    exists pre', last, argv2.
    replace (zlen pre + zlen w + 1) with (zlen (pre ++ s' ++ [0])) by (rewrite !length_app; cbn [length]; lia).
    rewrite <- !app_assoc in E2. cbn [app] in E2. rewrite E2. split; [|split; [|done]].
    + rewrite Hlast. destruct ws; [done|]. do 3 f_equal.
    + exists (w :: ws). by rewrite Hlast.
Qed.

(** C38. [my_shell] splits a line at the bars and runs the words of each piece, in
    order: a single command as it is; several with the output of all but the last
    and the input of all but the first led through the pipe, and both put back and
    the pipe closed at the end. *)
Theorem shell_line_spec s q argv fd0 fd1 : (0 ∉ s) -> s <> [] -> Forall command_ok (split_on BAR s) -> length argv = 16%nat ->
  shell_line (s ++ 0 :: q) argv fd0 fd1 = Ok (plumbing fd0 fd1 (map execute_words (split_on BAR s))).
Proof.
  intros Hs Hne Hok Ha. unfold shell_line. assert (exists c, c <> 0 /\ rd (s ++ 0 :: q) 0 = Ok c) as (c & Hc & E0).
  { destruct s as [|c s]; [done|]. exists c. split; [|done]. intros ->. apply Hs. by left. }
  rewrite E0. cbn [obind]. rewrite (proj2 (Z.eqb_neq c 0)), c_strchr_ok by done. cbn [obind].
  destruct (bar_cases s Hs) as [(Hn & Hsp)|(w & r & Es & Hw & Haf & Hsp & Hw0 & Hr0)]; rewrite Hsp in *.
  - rewrite Hn. apply Forall_cons in Hok as [Hok _]. destruct (run_words_ok s q argv Hs Hok Ha) as (s' & argv' & E & Er & _). rewrite E. cbn [obind].
    replace (zlen (words_on SPACE s) =? -1) with false by (symmetry; apply Z.eqb_neq; lia). by rewrite Er.
  - rewrite Haf, Hw, Es. pose proof (cut_bar [] w r q (zlen w) eq_refl) as Ecut. cbn [app] in Ecut. rewrite Ecut. cbn [obind].
    apply Forall_cons in Hok as [Hokw Hok]. destruct (run_at_ok [] w (r ++ 0 :: q) argv Hw0 Hokw Ha) as (s' & argv' & E & Hs' & Ha').
    cbn [app length] in E. change (Z.of_nat 0) with 0 in E. rewrite E. cbn [obind].
    assert (zlen w + 1 = zlen (s' ++ [0])) as -> by (rewrite length_app; cbn [length]; lia).
    destruct (pipe_loop q (S (length (s' ++ 0 :: r ++ 0 :: q))) r (s' ++ [0]) argv' [] Hr0 Hok Ha') as (pre & last & argv2 & E2 & (ws & Hlast) & Hl0 & Ha2).
    { pose proof (split_on_length r). rewrite length_app. cbn [length]. rewrite length_app. lia. }
    rewrite <- app_assoc in E2. cbn [app] in E2. rewrite E2. cbn [obind]. rewrite Hlast, removelast_last in *.
    apply Forall_app in Hok as [_ Hokl]. apply Forall_cons in Hokl as [Hokl _].
    destruct (run_at_ok pre last q argv2 Hl0 Hokl Ha2) as (s2 & argv3 & E3 & _). rewrite E3. cbn [obind].
    f_equal. cbn [map]. unfold plumbing. rewrite map_app. cbn [map]. rewrite removelast_last, List.last_last.
    destruct (map execute_words ws); done.
Qed.

(** [cat a|wc  -l|grep x] *)
Example shell_line_witness :
  shell_line (chars "cat a|wc  -l|ls" ++ replicate 497 0) (replicate 16 None) 3 4
  = Ok [Pipe_call; Redirect 1 4; Execute External [chars "cat"; chars "a"]; Redirect 0 3; Execute External [chars "wc"; chars "-l"];
        Redirect 1 1; Execute Ls [chars "ls"]; Redirect 0 0; Close 3; Close 4].
Proof.
  change (replicate 497 0) with (0 :: replicate 496 0). rewrite shell_line_spec.
  - vm_compute. reflexivity.
  - apply (bool_decide_unpack _). vm_compute. exact I.
  - discriminate.
  - repeat (constructor; [split; apply (bool_decide_unpack _); vm_compute; exact I|]). constructor.
  - reflexivity.
Defined.
