(* ===== verification/Treedemo.v ===== *)
(** A concrete directory tree, on which the theorems on paths apply: the root with
    the file [a] and the directory [d], and the file [x] in [d]. The root is open, and
    [d] is the working directory. *)
From S2P Require Import Prelude Bitmap Ide Thread Blockdev Inode File Filewrite Dir Dirwrite Dirdemo Words Path Search Fs Fsspec Cwd Shell Shellspec.

Definition tree_entries_root : list (list Z) :=
  [demo_entry DOT 0 FT_DIRECTORY; demo_entry DOTDOT 0 FT_DIRECTORY; demo_entry [97] 3 FT_REGULAR; demo_entry [100] 5 FT_DIRECTORY].
Definition tree_entries_d : list (list Z) :=
  [demo_entry DOT 5 FT_DIRECTORY; demo_entry DOTDOT 0 FT_DIRECTORY; demo_entry [120] 4 FT_REGULAR].
Definition tree_root_inode : inode := mk_inode 0 96 1 0 (712 :: replicate 12 0).
Definition tree_d_inode : inode := mk_inode 5 72 0 0 (715 :: replicate 12 0).
Definition tree_a_inode : inode := mk_inode 3 0 0 0 (replicate 13 0).
Definition tree_x_inode : inode := mk_inode 4 700 0 0 (716 :: 717 :: replicate 11 0).
Definition tree_medium : sparse_disk := mk_sparse
  (<[712 := concat tree_entries_root ++ replicate 416 0]> (<[715 := concat tree_entries_d ++ replicate 440 0]>
    (<[104 := replicate 228 0 ++ words_to_bytes (inode_words tree_a_inode ++ inode_words tree_x_inode ++ inode_words tree_d_inode) ++ replicate 56 0]>
      (match demo_medium with mk_sparse m => m end)))).
Definition tree_task : task_struct := set_cwd 5 (demo_task 1 TASK_RUNNING).
Definition tree_kern : kstate := with_tasks (<[0x1000 := tree_task]> (tasks demo_state)) demo_state.
Definition tree_fs : fstate sparse_disk bump_heap :=
  mk_fs _ _ tree_medium (set_open [8192] demo_part) (mk_bump [(true, 8192)]) {[ 8192 := tree_root_inode ]}
    (replicate 32 (mk_file 0 0 0)) tree_kern.
Definition tree_root_dir : dir := mk_dir None 8192 0 (replicate 512 0).

Lemma tree_mem_ok : mem_ok tree_fs.
Proof.
  split; cbn.
  - by apply NoDup_singleton.
  - intros a ->%list_elem_of_singleton. exists tree_root_inode. rewrite lookup_singleton_eq. by repeat split.
  - intros a i Ha. apply lookup_singleton_Some in Ha as [<- _]. split; [done | by left].
  - intros a b i j ->%list_elem_of_singleton ->%list_elem_of_singleton. done.
Qed.

Lemma tree_geometry : geometry (cur_part tree_fs).
Proof. apply geometry_open, demo_geometry. Qed.

Lemma tree_counts : counts_below 2 tree_fs.
Proof. intros a i Ha. cbn in Ha. apply lookup_singleton_Some in Ha as [_ <-]. cbn. lia. Qed.

Lemma tree_root_ok : root_ok tree_fs tree_root_dir.
Proof. split; [done | by left | by exists tree_root_inode]. Qed.

(** A directory of one block is readable, and its entries are those of the block. *)
Lemma one_block_dir i lba es dirs : i_sectors i = lba :: replicate 12 0 -> lba <> 0 -> lba <= max_lba ->
  slots (sector tree_medium lba) = es ->
  Forall (fun s => name_ends s /\ (entry_name s = [] \/ tree_entry dirs s)) es ->
  dir_readable tree_medium i
  /\ forall name e, name <> [] -> dir_lookup tree_medium i name = Some e -> tree_entry dirs e.
Proof.
  intros Hs Hn Hm Hes Hall.
  assert (dir_lbas tree_medium i 0 140 = [lba]) as Hl.
  { unfold dir_lbas. rewrite (map_ext_in _ (fun k => if k =? 0 then lba else 0)).
    - change (seqZ 0 140) with (0 :: seqZ 1 139). cbn [map]. rewrite filter_cons_True by done. f_equal.
    - intros k Hk%list_elem_of_In%elem_of_seqZ. unfold file_block, indirect_table. rewrite Hs.
      change (znth (lba :: replicate 12 0) 12) with (Some 0). cbn [default Z.eqb].
      destruct (Z.ltb_spec k 12); [|change (id 0 =? 0) with true; cbn iota; rewrite znth_out by (cbn [length]; lia); by zdec].
      destruct (Z.eqb_spec k 0) as [->|]; [done|]. unfold znth. zdec. rewrite lookup_cons_ne_0 by lia.
      by rewrite lookup_replicate_2 by lia. }
  assert (dir_slots tree_medium i = es) as Hsl by (unfold dir_slots, slots_of; rewrite Hl; cbn; by rewrite app_nil_r).
  split.
  - split; rewrite ?Hs, ?Hl, ?Hsl; try done; [by left | by apply Forall_singleton |].
    eapply Forall_impl; [exact Hall|]. by intros s [? _].
  - intros name e Hne He. unfold dir_lookup in He. rewrite Hsl in He. apply List.find_some in He as [He Hna].
    unfold named in Hna. apply bool_decide_eq_true in Hna. rewrite Forall_forall in Hall.
    destruct (Hall e) as [_ [Hz|]]; [by apply list_elem_of_In | congruence | done].
Qed.

Lemma tree_is_ok : tree_ok tree_fs [0; 5].
Proof.
  split; [by left|]. intros no Hno. rewrite !elem_of_cons, elem_of_nil in Hno.
  destruct Hno as [->|[->|[]]]; (split; [lia|]).
  - exists tree_root_inode. split; [reflexivity|]. split; [done|].
    apply (one_block_dir _ 712 (tree_entries_root ++ replicate 17 (replicate 24 0))); [done|done|done|vm_compute; reflexivity|].
    apply (bool_decide_unpack _). vm_compute. exact I.
  - exists tree_d_inode. split; [vm_compute; reflexivity|]. split; [done|].
    apply (one_block_dir _ 715 (tree_entries_d ++ replicate 18 (replicate 24 0))); [done|done|done|vm_compute; reflexivity|].
    apply (bool_decide_unpack _). vm_compute. exact I.
Qed.

Lemma tree_ready : fs_ready tree_fs tree_root_dir [0; 5].
Proof.
  split; [exact tree_mem_ok | exact tree_geometry | exact tree_counts | reflexivity | exact tree_is_ok | exact tree_root_ok].
Qed.

(** [path_ok], decided. *)
Definition path_okb (s : list Z) : bool :=
  bool_decide (0 ∉ s) && bool_decide (znth s 0 = Some SLASH) && (zlen s <? MAX_PATH_LEN)
  && forallb (fun w => zlen w <? MAX_FILE_NAME_LEN) (components s).

Lemma path_ok_dec s : path_okb s = true -> path_ok s.
Proof.
  unfold path_okb. intros Hb. repeat (apply andb_true_iff in Hb as [Hb ?]). zb. split; try by eapply bool_decide_eq_true_1.
  - done.
  - apply Forall_forall. intros w Hw. unfold fits. rewrite forallb_forall in H. specialize (H w). zb.
    apply Z.ltb_lt, H. by apply list_elem_of_In.
Qed.

(** ** Witnesses *)

Definition slash_d_x : list Z := [47; 100; 47; 47; 120; 47].

Example search_file_witness : exists f1 x,
  search_file tree_fs tree_root_dir (replicate 24 170) (slash_d_x ++ [0]) empty_record
  = Ok (f1, mk_psr (str_array 512 [47; 100; 47; 120]) (Some x) FT_REGULAR, 4) /\ dir_held tree_fs 5 f1 x.
Proof.
  pose proof (search_file_spec tree_fs tree_root_dir [0; 5] (replicate 24 170) slash_d_x [] tree_ready (path_ok_dec slash_d_x eq_refl)
    eq_refl (bump_roomy _ _)) as Hs.
  destruct (decide (root_path slash_d_x)) as [Hr|Hr]; [exfalso; revert Hr; apply (bool_decide_unpack _); vm_compute; exact I|].
  replace (resolve tree_fs 0 0 [] (components slash_d_x)) with ([[100]; [120]], Regular 5 4) in Hs by (vm_compute; reflexivity).
  destruct Hs as (f1 & x & E & Hx).
  exists f1, x. split; [|exact Hx]. rewrite E. rewrite decide_False; [reflexivity|]. intros [Hc _]. discriminate Hc.
Defined.

Definition d_x : list Z := [47; 100; 47; 120].
Definition d_y : list Z := [47; 100; 47; 121].
Lemma junk_ok : stack_ok (replicate 16 1) (replicate 16 2) (replicate 24 170).
Proof. by split. Qed.

Example sys_open_refuses_witness : exists h,
  sys_open tree_fs tree_root_dir (replicate 16 1) (replicate 16 2) (replicate 24 170) (d_y ++ 0 :: [9]) O_RDONLY
  = Ok (with_kheap h tree_fs, -1) /\ same_live (kheap tree_fs) h.
Proof.
  apply (sys_open_refuses tree_fs tree_root_dir [0; 5] d_y [9] (replicate 16 1) (replicate 16 2) (replicate 24 170) O_RDONLY
    [[100]; [121]] (Missing 5) tree_ready (path_ok_dec d_y eq_refl)).
  - discriminate.
  - vm_compute. split; discriminate.
  - exact junk_ok.
  - apply bump_roomy.
  - vm_compute. reflexivity.
  - by right.
Defined.

Example sys_open_existing_witness : exists f' a j,
  sys_open tree_fs tree_root_dir (replicate 16 1) (replicate 16 2) (replicate 24 170) (d_x ++ 0 :: []) O_RDWR = Ok (f', 3)
  /\ cur_fds f' = Ok [0; 1; 2; 3; -1; -1; -1; -1] /\ inodes f' !! a = Some j /\ i_no j = 4 /\ i_size j = 700.
Proof.
  destruct (sys_open_existing tree_fs tree_root_dir [0; 5] d_x [] (replicate 16 1) (replicate 16 2) (replicate 24 170) O_RDWR
    5 4 tree_x_inode 3 [0; 1; 2; -1; -1; -1; -1; -1] 3 tree_ready (path_ok_dec d_x eq_refl))
    as (f' & a & j & E & Hfd & _ & Hj & _ & Hno & Hsize & _).
  - discriminate.
  - vm_compute. split; [discriminate | reflexivity].
  - exact junk_ok.
  - apply bump_roomy.
  - vm_compute. reflexivity.
  - vm_compute. reflexivity.
  - reflexivity.
  - reflexivity.
  - split; [vm_compute; split; [discriminate | reflexivity] | reflexivity | intros k Hk; lia].
  - vm_compute. reflexivity.
  - split; [vm_compute; split; [discriminate | reflexivity] | reflexivity | intros k Hk; lia].
  - exists f', a, j. by repeat split.
Defined.

Example sys_chdir_witness : exists h,
  sys_chdir tree_fs tree_root_dir (replicate 24 170) ([47; 100; 47] ++ 0 :: [])
  = Ok (with_kern (with_tasks (<[0x1000 := set_cwd 5 tree_task]> (tasks tree_kern)) tree_kern) (with_kheap h tree_fs), 0).
Proof.
  destruct (sys_chdir_spec tree_fs tree_root_dir [0; 5] [47; 100; 47] [] (replicate 24 170) [[100]] (Directory 0 5) tree_task
    tree_ready (path_ok_dec [47; 100; 47] eq_refl)) as (h & _ & E).
  - left. discriminate.
  - reflexivity.
  - apply bump_roomy.
  - vm_compute. reflexivity.
  - reflexivity.
  - by exists h.
Defined.

Example sys_stat_witness : exists h,
  sys_stat tree_fs tree_root_dir (replicate 24 170) (d_x ++ 0 :: []) (mk_stat 1 1 1)
  = Ok (with_kheap h tree_fs, mk_stat 4 700 FT_REGULAR, 0).
Proof.
  destruct (sys_stat_spec tree_fs tree_root_dir [0; 5] d_x [] (replicate 24 170) [[100]; [120]] (Regular 5 4) (mk_stat 1 1 1) tree_x_inode
    tree_ready (path_ok_dec d_x eq_refl)) as (h & _ & E).
  - left. discriminate.
  - reflexivity.
  - apply bump_roomy.
  - vm_compute. reflexivity.
  - intros _. split; [vm_compute|]; reflexivity.
  - by exists h.
Defined.

Lemma tree_counts_1 : counts_below 1 tree_fs.
Proof. intros a i Ha. pose proof (tree_counts a i Ha). lia. Qed.

Lemma tree_upward : upward tree_fs 5 [[100]].
Proof.
  destruct (tree_dir _ _ tree_is_ok 5 ltac:(right; by left)) as (_ & i & Hi & _ & Hri & _).
  destruct (tree_dir _ _ tree_is_ok 0 ltac:(by left)) as (_ & j & Hj & _ & Hrj & _).
  assert (i = tree_d_inode) as -> by (vm_compute in Hi; injection Hi as <-; reflexivity).
  assert (j = tree_root_inode) as -> by (vm_compute in Hj; injection Hj as <-; reflexivity).
  apply (upward_step tree_fs 5 tree_d_inode 0 tree_root_inode (demo_entry [100] 5 FT_DIRECTORY) []); try done.
  - constructor.
Qed.

Lemma tree_names : Forall is_word [[100]].
Proof.
  constructor; [|constructor]. split; [discriminate|]. split; apply (bool_decide_unpack _); vm_compute; exact I.
Qed.

Example sys_getcwd_witness : exists h m,
  sys_getcwd tree_fs (replicate 16 7) 12 = Ok (with_kheap h tree_fs, Some (47 :: 100 :: 0 :: m)) /\ zlen m = 13.
Proof.
  destruct (sys_getcwd_spec tree_fs (replicate 16 7) 12 5 [[100]] tree_task tree_mem_ok tree_geometry tree_counts_1
    eq_refl eq_refl eq_refl tree_upward tree_names) as (h & m & _ & E & Hl & _).
  - reflexivity.
  - vm_compute. split; [reflexivity | discriminate].
  - apply bump_roomy.
  - exists h, m. split; [exact E|]. cbn in Hl. lia.
Defined.

Example sys_getcwd_overflow_witness : sys_getcwd tree_fs [7; 7] 2 = Err BadAccess.
Proof.
  apply (sys_getcwd_overflow tree_fs [7; 7] 2 5 [[100]] tree_task tree_mem_ok tree_geometry tree_counts_1
    eq_refl eq_refl eq_refl tree_upward); try reflexivity.
  - discriminate.
  - exact tree_names.
  - apply bump_roomy.
Defined.

(** ** The shell *)

(** The directory entries of a listing that are not dots. *)
Lemma plain_entry no (P : list Z -> Prop) i name e : inode_view tree_fs no = Ok i ->
  Forall (fun s => entry_name s = [] \/ entry_name s = DOT \/ entry_name s = DOTDOT \/ entry_type s <> FT_DIRECTORY \/ P s) (dir_slots tree_medium i) ->
  plain name -> lookup_in tree_fs no name = Some e -> entry_type e = FT_DIRECTORY -> P e.
Proof.
  intros Hi Hall ((Hn & _) & Hd & Hdd) Hl Ht. unfold lookup_in in Hl. rewrite Hi in Hl. apply List.find_some in Hl as [He Hna].
  unfold named in Hna. apply bool_decide_eq_true in Hna as Hname. rewrite Forall_forall in Hall.
  destruct (Hall e) as [|[|[|[|]]]]; [by apply list_elem_of_In | congruence..| done | done].
Qed.

Lemma tree_dots : dots_right tree_fs [0; 5].
Proof.
  split.
  - intros no Hno. rewrite !elem_of_cons, elem_of_nil in Hno. destruct Hno as [->|[->|[]]].
    + exists (demo_entry DOT 0 FT_DIRECTORY). repeat split; vm_compute; reflexivity.
    + exists (demo_entry DOT 5 FT_DIRECTORY). repeat split; vm_compute; reflexivity.
  - exists (demo_entry DOTDOT 0 FT_DIRECTORY). repeat split; vm_compute; reflexivity.
  - intros no name e Hno Hp Hl Ht. exists (demo_entry DOTDOT 0 FT_DIRECTORY).
    assert (no = 0 /\ entry_no e = 5) as [-> ->]; [|repeat split; vm_compute; reflexivity].
    rewrite !elem_of_cons, elem_of_nil in Hno. destruct Hno as [->|[->|[]]].
    + split; [done|]. apply (plain_entry 0 (fun s => entry_no s = 5) tree_root_inode name e); [reflexivity | | done | done | done].
      apply (bool_decide_unpack _). vm_compute. exact I.
    + exfalso. apply (plain_entry 5 (fun _ => False) tree_d_inode name e); [vm_compute; reflexivity | | done | done | done].
      apply (bool_decide_unpack _). vm_compute. exact I.
Qed.

Definition d_dots : list Z := [47; 100; 47; 46; 46; 47; 46; 47; 97].

(** [/d/.././a] is [/a]. *)
Example wash_path_witness :
  (exists mem, wash_path (d_dots ++ 0 :: []) (replicate 20 7) = Ok ([47; 97] ++ 0 :: mem))
  /\ exists ans, resolve tree_fs 0 0 [] [[97]] = ([[97]], ans) /\ answer_no ans = 3.
Proof.
  destruct (wash_path_spec tree_fs [0; 5] d_dots [] (replicate 20 7)) as ((mem & E & _) & _ & _ & Hr).
  - apply (bool_decide_unpack _). vm_compute. exact I.
  - reflexivity.
  - apply (bool_decide_unpack _). vm_compute. exact I.
  - apply (bool_decide_unpack _). vm_compute. exact I.
  - split; [by exists mem|].
    destruct (Hr tree_is_ok tree_dots (Regular 0 3)) as (ans & Ea & Hno & _); [vm_compute; reflexivity | done|].
    exists ans. split; [exact Ea | exact Hno].
Defined.

(** [cd ../d/.] from [/d]. *)
Example buildin_cd_witness : exists h m,
  buildin_cd tree_fs tree_root_dir (replicate 24 170) [[46; 46; 47; 100; 47; 46] ++ 0 :: []] (replicate 512 0)
  = Ok (with_kern (with_tasks (<[0x1000 := set_cwd 5 tree_task]> (tasks tree_kern)) tree_kern) (with_kheap h tree_fs), [47; 100] ++ 0 :: m, true).
Proof.
  destruct (buildin_cd_spec tree_fs tree_root_dir [0; 5] [46; 46; 47; 100; 47; 46] [] (replicate 24 170) (replicate 512 0) [[100]] tree_task
    [[100]] (Directory 0 5)) as [(h & m & _ & E) _].
  - exact tree_ready.
  - exact tree_dots.
  - reflexivity.
  - exact tree_upward.
  - exact tree_names.
  - apply (bool_decide_unpack _). vm_compute. exact I.
  - apply (bool_decide_unpack _). vm_compute. exact I.
  - discriminate.
  - apply (bool_decide_unpack _). vm_compute. exact I.
  - apply (bool_decide_unpack _). vm_compute. exact I.
  - reflexivity.
  - reflexivity.
  - apply bump_roomy.
  - vm_compute. reflexivity.
  - exists h, m. exact E.
Defined.
