(* ===== verification/Process.v ===== *)
(** userprog/process.c and the page wrappers of kernel/memory.c: page directories,
    address spaces, and the stack a new process starts from. Memory is that of
    Paging.v; the tasks are those of Thread.v. *)
From S2P Require Import Prelude Bitmap.
From S2P Require Thread Inode Heap.
From S2P Require Import Paging.

(** ** Cleared pages (kernel/memory.c) *)

(** [memset(vaddr, 0, n * PG_SIZE)] on mapped pages. *)
Fixpoint zero_pages (m : vm) (vaddr : Z) (n : nat) : outcome vm :=
  match n with
  | O => Ok m
  | S n => let! m := zero_page m vaddr in zero_pages m (u32 (vaddr + PG_SIZE)) n
  end.

(** The pool's lock around them is the business of Sync.v. *)
Definition get_pages (m : vm) (pf : pool_flags) (pg_cnt : Z) : outcome (vm * option Z) :=
  let! ' (m, vaddr) := malloc_page m pf pg_cnt in
  match vaddr with
  | None => Ok (m, None)
  | Some va => let! m := zero_pages m va (Z.to_nat pg_cnt) in Ok (m, Some va)
  end.

Definition get_kernel_pages (m : vm) (pg_cnt : Z) := get_pages m PF_KERNEL pg_cnt.
Definition get_user_pages (m : vm) (pg_cnt : Z) := get_pages m PF_USER pg_cnt.

(** [memcpy] of [n] aligned words between ranges that do not overlap. *)
Fixpoint copy_words (m : vm) (dst src : Z) (n : nat) : outcome vm :=
  match n with
  | O => Ok m
  | S n =>
      let! v := load m src in
      let! m := store m dst v in
      copy_words m (u32 (dst + 4)) (u32 (src + 4)) n
  end.

(** ** Address spaces (userprog/process.c) *)

Definition with_cr3 (v : Z) (m : vm) : vm :=
  mk_vm (pm m) v (kernel_pool m) (user_pool m) (kernel_vaddr m) (userprog_vaddr m).

(** [pgdir] is the virtual address of the task's page directory, 0 for a kernel
    thread. *)
Definition page_dir_activate (m : vm) (pgdir : Z) : outcome vm :=
  let! pagedir_phy_addr := if negb (pgdir =? 0) then addr_v2p m pgdir else Ok 0x100000 in
  Ok (with_cr3 pagedir_phy_addr m).

Definition create_page_dir (m : vm) : outcome (vm * option Z) :=
  let! ' (m, page_dir_vaddr) := get_kernel_pages m 1 in
  match page_dir_vaddr with
  | None => Ok (m, None)
  | Some d =>
      let! m := copy_words m (d + 0x300 * 4) (0xfffff000 + 0x300 * 4) 256 in
      let! new_page_dir_phy_addr := addr_v2p m d in
      let! m := store m (d + 4 * 1023) (Z.lor (Z.lor (Z.lor new_page_dir_phy_addr PG_US_U) PG_RW_W) PG_P_1) in
      Ok (m, Some d)
  end.

Definition USER_VADDR_START : Z := 0x8048000.
Definition USER_STACK3_VADDR : Z := 0xc0000000 - 0x1000.

(** The pages of a process's address bitmap, and its length in bytes. *)
Definition bitmap_pg_cnt : Z := DIV_ROUND_UP ((0xc0000000 - USER_VADDR_START) / PG_SIZE / 8) PG_SIZE.
Definition user_bytes_len : Z := (0xc0000000 - USER_VADDR_START) / PG_SIZE / 8.

(** [userprog_vaddr] of a process, with the address of its bitmap. *)
Record user_vaddr := mk_uvaddr { uv_bits : Z; uv_pool : virtual_addr }.

(** The pages come cleared, and [bitmap_init] clears them again; its [memset]
    asserts that they were granted. *)
Definition create_user_vaddr_bitmap (m : vm) : outcome (vm * user_vaddr) :=
  let! ' (m, bits) := get_kernel_pages m bitmap_pg_cnt in
  match bits with
  | None => Err AssertFail
  | Some a =>
      let! b := bitmap_init (mk_bitmap user_bytes_len (replicate (Z.to_nat (bitmap_pg_cnt * PG_SIZE)) 0)) in
      Ok (m, mk_uvaddr a (mk_vaddr b USER_VADDR_START))
  end.

(** ** The first return to user mode *)

Record intr_stack := mk_intr {
  is_vec_no : Z;
  is_edi : Z; is_esi : Z; is_ebp : Z; is_esp_dummy : Z; is_ebx : Z; is_edx : Z; is_ecx : Z; is_eax : Z;
  is_gs : Z; is_fs : Z; is_es : Z; is_ds : Z;
  is_err_code : Z; is_eip : Z; is_cs : Z; is_eflags : Z; is_esp : Z; is_ss : Z }.

Definition RPL3 : Z := 3.
Definition SELECTOR_U_CODE : Z := Z.shiftl 5 3 + Z.shiftl 0 2 + RPL3.
Definition SELECTOR_U_DATA : Z := Z.shiftl 6 3 + Z.shiftl 0 2 + RPL3.
Definition EFLAGS_MBS : Z := Z.shiftl 1 1.
Definition EFLAGS_IF_1 : Z := Z.shiftl 1 9.
Definition EFLAGS_IOPL_0 : Z := Z.shiftl 0 12.

(** ** Creating a process *)

(** The whole machine: the file system with the kernel's threads, memory, and for
    each process its address pool, the user context at the top of its kernel stack
    and the descriptors of its user heap. (The heap of the file system and [s_vm] are
    separate here; Kheap.v is where the one stands on the other.) *)
Record sys {D H : Type} := mk_sys {
  s_fs : Inode.fstate D H; s_vm : vm; s_vaddr : gmap Z user_vaddr; s_intr : gmap Z intr_stack;
  s_desc : gmap Z (list Heap.mem_block_desc) }.
Arguments sys : clear implicits.

Section process.
Context {D H : Type}.
Abbreviation st := (sys D H).

Definition s_k (s : st) : Thread.kstate := Inode.kern (s_fs s).
Definition with_k (v : Thread.kstate) (s : st) : st := mk_sys _ _ (Inode.with_kern v (s_fs s)) (s_vm s) (s_vaddr s) (s_intr s) (s_desc s).
Definition with_fs (v : Inode.fstate D H) (s : st) : st := mk_sys _ _ v (s_vm s) (s_vaddr s) (s_intr s) (s_desc s).
Definition with_vm (v : vm) (s : st) : st := mk_sys _ _ (s_fs s) v (s_vaddr s) (s_intr s) (s_desc s).
Definition with_uv (t : Z) (v : user_vaddr) (s : st) : st := mk_sys _ _ (s_fs s) (s_vm s) (<[t := v]> (s_vaddr s)) (s_intr s) (s_desc s).
Definition with_context (t : Z) (v : intr_stack) (s : st) : st := mk_sys _ _ (s_fs s) (s_vm s) (s_vaddr s) (<[t := v]> (s_intr s)) (s_desc s).
Definition with_descs (t : Z) (v : list Heap.mem_block_desc) (s : st) : st :=
  mk_sys _ _ (s_fs s) (s_vm s) (s_vaddr s) (s_intr s) (<[t := v]> (s_desc s)).

Definition get_uv (s : st) (t : Z) : outcome user_vaddr := match s_vaddr s !! t with Some v => Ok v | None => Err BadAccess end.
Definition get_context (s : st) (t : Z) : outcome intr_stack := match s_intr s !! t with Some v => Ok v | None => Err BadAccess end.

(** The stack pointer alone; what lies there is then no [thread_stack]. *)
Definition set_self_kstack (v : Z) (t : Thread.task_struct) : Thread.task_struct :=
  Thread.mk_task v None (Thread.pid t) (Thread.status t) (Thread.name t)
    (Thread.priority t) (Thread.ticks t) (Thread.elapsed_ticks t) (Thread.fd_table t) (Thread.pgdir t) (Thread.cwd_inode_nr t)
    (Thread.parent_pid t) (Thread.exit_status t) (Thread.stack_magic t).

(** [start_process] up to the jump to [intr_exit], which pops the stack returned. It
    lies in a page that came cleared, so the two words not set here are 0. As
    [self_kstack] points to words, its addition skips four times the structure. A
    page that is not granted gives the stack pointer [PG_SIZE]. *)
Definition start_process (s : st) (function : Z) : outcome (st * intr_stack) :=
  let cur := Thread.running_thread (s_k s) in
  let! k := Thread.upd_task (s_k s) cur (fun t => set_self_kstack (Thread.self_kstack t + 4 * Thread.SIZEOF_THREAD_STACK) t) in
  let! t := Thread.get_task k cur in
  let! ' (m, page) := get_a_page (s_vm s) (negb (Thread.pgdir t =? 0)) PF_USER USER_STACK3_VADDR in
  Ok (with_vm m (with_k k s),
      mk_intr 0 0 0 0 0 0 0 0 0 0 SELECTOR_U_DATA SELECTOR_U_DATA SELECTOR_U_DATA
        0 function SELECTOR_U_CODE (Z.lor (Z.lor EFLAGS_IOPL_0 EFLAGS_MBS) EFLAGS_IF_1)
        (u32 (default 0 page + PG_SIZE)) SELECTOR_U_DATA).

Definition default_prio : Z := 31.

(** [thread->pgdir = ...] *)
Definition set_pgdir (v : Z) (t : Thread.task_struct) : Thread.task_struct :=
  Thread.mk_task (Thread.self_kstack t) (Thread.kstack t) (Thread.pid t) (Thread.status t) (Thread.name t)
    (Thread.priority t) (Thread.ticks t) (Thread.elapsed_ticks t) (Thread.fd_table t) v (Thread.cwd_inode_nr t)
    (Thread.parent_pid t) (Thread.exit_status t) (Thread.stack_magic t).

(** Both lists at the end, with the assertions before. *)
Definition enlist (k : Thread.kstate) (thread : Z) : outcome Thread.kstate :=
  c_assert (negb (Thread.elem_find (Thread.thread_ready_list k) thread)) ;;;
  let k := Thread.with_ready (Thread.thread_ready_list k ++ [thread]) k in
  c_assert (negb (Thread.elem_find (Thread.thread_all_list k) thread)) ;;;
  Ok (Thread.with_all (Thread.thread_all_list k ++ [thread]) k).

(** [process_execute]: nothing is tested but by the [memset]s. [kthread] and [start]
    are the addresses of [kernel_thread] and [start_process]. *)
Definition process_execute (s : st) (kthread start filename : Z) (name : list Z) : outcome st :=
  let! ' (m, page) := get_kernel_pages (s_vm s) 1 in
  match page with
  | None => Err AssertFail
  | Some thread =>
      let! k := Thread.init_thread (s_k s) thread name default_prio in
      let! ' (m, uv) := create_user_vaddr_bitmap m in
      let! k := Thread.thread_create k thread kthread start filename in
      let! ' (m, dir) := create_page_dir m in
      let! k := Thread.upd_task k thread (set_pgdir (default 0 dir)) in
      let '(old_status, k) := Thread.intr_disable k in
      let! k := enlist k thread in
      Ok (with_descs thread Heap.block_desc_init (with_uv thread uv (with_vm m (with_k (Thread.intr_set_status k old_status) s))))
  end.
End process.
