(* ===== verification/Space.v ===== *)
(** Two address spaces over one memory: the page tables of two directories that
    share the kernel's part, and what writing a page, taking a frame and mapping a
    page in one of them does to both. *)
From S2P Require Import Prelude Bitmap Paging Process.

(** ** Pages as words *)

(** The words of frame [f]. *)
Definition page_words (m : vm) (f : Z) : list Z := map (fun k => pm m (f + 4 * k)) (seqZ 0 1024).

(** [m'] is [m] but for words of frame [fd]. *)
Record writes (m m' : vm) (fd : Z) : Prop := {
  wr_pm : forall a, ~ (fd <= a < fd + PG_SIZE) -> pm m' a = pm m a;
  wr_cr3 : cr3 m' = cr3 m;
  wr_kpool : kernel_pool m' = kernel_pool m;
  wr_upool : user_pool m' = user_pool m;
  wr_kvaddr : kernel_vaddr m' = kernel_vaddr m;
  wr_uvaddr : userprog_vaddr m' = userprog_vaddr m }.

Lemma writes_refl m fd : writes m m fd.
Proof. by constructor. Qed.

Lemma writes_trans m1 m2 m3 fd : writes m1 m2 fd -> writes m2 m3 fd -> writes m1 m3 fd.
Proof. intros [P1 ? ? ? ? ?] [P2 ? ? ? ? ?]. constructor; try congruence. intros a Ha. by rewrite P2, P1. Qed.

Lemma writes_cr3 m m' fd c : writes m m' fd -> writes (with_cr3 c m) (with_cr3 c m') fd.
Proof. intros []. by constructor. Qed.

Lemma writes_pool m m' fd pf : writes m m' fd -> get_pool pf m' = get_pool pf m.
Proof. intros []. by destruct pf. Qed.

(** A word of frame [f] lies outside frame [g]. *)
Lemma out_of_frame f g i : aligned f -> aligned g -> f <> g -> 0 <= i < PG_SIZE -> ~ (g <= f + i < g + PG_SIZE).
Proof.
  intros Hf Hg Hne Hi Hc. pose proof (outside_frame f g i Hf Hg Hne Hi) as E. apply andb_false_iff in E.
  destruct E as [E|E]; [apply Z.leb_gt in E | apply Z.ltb_ge in E]; lia.
Qed.

Lemma writes_word m m' fd f k : writes m m' fd -> aligned f -> aligned fd -> f <> fd -> 0 <= k < 1024 -> pm m' (f + 4 * k) = pm m (f + 4 * k).
Proof. intros W Hf Hd Hne Hk. apply (wr_pm _ _ _ W), out_of_frame; try done. unfold PG_SIZE. lia. Qed.

Lemma writes_words m m' fd f : writes m m' fd -> aligned f -> aligned fd -> f <> fd -> page_words m' f = page_words m f.
Proof.
  intros W Hf Hd Hne. apply map_ext_in. intros k Hk. apply list_elem_of_In, elem_of_seqZ in Hk. apply (writes_word _ _ fd); done || lia.
Qed.

(** A frame that holds neither the directory nor a table. *)
Record plain (m : vm) (f : Z) : Prop := {
  pl_aligned : aligned f;
  pl_dir : f <> cr3 m;
  pl_table : ~ is_table m f }.

Lemma writes_dir m m' fd i : writes m m' fd -> vm_ok m -> plain m fd -> 0 <= i < 1024 -> pm m' (cr3 m + 4 * i) = pm m (cr3 m + 4 * i).
Proof. intros W Hm [Ha Hd _] Hi. apply (writes_word m m' fd); [done | apply Hm | done | by apply not_eq_sym | done]. Qed.

(** Writing a plain frame moves no page. *)
Lemma writes_mmu m m' fd va : writes m m' fd -> vm_ok m -> plain m fd -> 0 <= va -> pdx va < 1023 -> mmu m' va = mmu m va.
Proof.
  intros W Hm Hp Hva Hx. unfold mmu, pte_pa. unfold pde_pa. rewrite (wr_cr3 _ _ _ W).
  assert (0 <= pdx va) by (apply Z.div_pos; lia).
  rewrite (writes_dir m m' fd) by (done || lia).
  destruct (present (pm m (cr3 m + 4 * pdx va))) eqn:Hpr; [|done].
  rewrite (writes_word m m' fd); [done | done | apply frame_aligned | apply Hp | |].
  - intros E. apply (pl_table _ _ Hp). exists (pdx va). by repeat split.
  - unfold ptx. apply Z.mod_pos_bound. lia.
Qed.

Lemma writes_ok m m' fd : writes m m' fd -> vm_ok m -> plain m fd -> vm_ok m'.
Proof. intros W Hm Hp. apply (vm_ok_ext m); try apply W; [done|]. intros i Hi. by apply (writes_dir m m' fd). Qed.

Lemma writes_table m m' fd g : writes m m' fd -> vm_ok m -> plain m fd -> is_table m' g <-> is_table m g.
Proof.
  intros W Hm Hp. unfold is_table. rewrite (wr_cr3 _ _ _ W). apply exist_proper. intros i. split; intros (Hi & Hpr & Hf); (split; [done|]);
    rewrite (writes_dir m m' fd) in * by (done || lia); done.
Qed.

Lemma writes_plain m m' fd g : writes m m' fd -> vm_ok m -> plain m fd -> plain m' g <-> plain m g.
Proof.
  intros W Hm Hp. split; intros [Ha Hd Ht]; (split; [done|..]); rewrite ?(wr_cr3 _ _ _ W) in *; try done;
    rewrite (writes_table m m' fd) in *; done.
Qed.

(** ** Copying a page *)

(** The words of a mapped page. *)
Lemma mmu_word m va f k : va mod PG_SIZE = 0 -> 0 <= va < 2 ^ 32 -> mmu m va = Some f -> 0 <= k < 1024 ->
  mmu m (va + 4 * k) = Some (f + 4 * k).
Proof.
  unfold PG_SIZE. change 4096 with (2 ^ 12). intros Hmod Hr Hva Hk.
  assert (va = va / 2 ^ 12 * 2 ^ 12) as E by (rewrite (Z.div_mod va (2 ^ 12)) at 1 by lia; lia).
  assert (page_of (va + 4 * k) = page_of va) as Ep.
  { unfold page_of. rewrite E at 1. rewrite Z.div_add_l, (Z.div_small (4 * k)) by lia. lia. }
  assert (pdx (va + 4 * k) = pdx va) as Ed.
  { unfold pdx, page_of in *. change (2 ^ 22) with (2 ^ 12 * 2 ^ 10). rewrite <- !Z.div_div by lia. by rewrite Ep. }
  assert (ptx (va + 4 * k) = ptx va) as Et by (unfold ptx, page_of in *; by rewrite Ep).
  unfold mmu, pte_pa, pde_pa in *. rewrite Ed, Et. destruct (present _); [|done]. destruct (present _); [|done].
  injection Hva as <-. rewrite Hmod, Z.add_0_r. f_equal. f_equal. rewrite E, Z.add_comm, Z.mod_add, Z.mod_small; lia.
Qed.

(** [memcpy] of a page between two frames. *)
Lemma copy_page_ok m dst src fd fs : vm_ok m -> dst mod PG_SIZE = 0 -> src mod PG_SIZE = 0 -> mappable dst -> mappable src ->
  mmu m dst = Some fd -> mmu m src = Some fs -> plain m fd -> aligned fs -> fs <> fd ->
  exists m', copy_words m dst src 1024 = Ok m' /\ writes m m' fd /\ page_words m' fd = page_words m fs.
Proof.
  intros Hm Hdm Hsm Hd Hs Ed Es Hp Hfs Hne. destruct (mappable_idx dst Hd) as (Hdr & Hdx & _), (mappable_idx src Hs) as (Hsr & Hsx & _).
  assert (forall n k m1, Z.of_nat n + k = 1024 -> 0 <= k -> writes m m1 fd -> (forall j, 0 <= j < k -> pm m1 (fd + 4 * j) = pm m (fs + 4 * j)) ->
    exists m', copy_words m1 (dst + 4 * k) (src + 4 * k) n = Ok m' /\ writes m m' fd
      /\ forall j, 0 <= j < 1024 -> pm m' (fd + 4 * j) = pm m (fs + 4 * j)) as Hgen.
  { induction n as [|n IH]; intros k m1 Hn Hk W Hc; cbn [copy_words].
    - exists m1. split; [done|]. split; [done|]. intros j Hj. apply Hc. lia.
    - assert (forall va, mappable va -> mmu m1 va = mmu m va) as Hmm.
      { intros va Hva. destruct (mappable_idx va Hva) as (? & ? & _). apply (writes_mmu m m1 fd); done || lia. }
      assert (forall va f, va mod PG_SIZE = 0 -> mappable va -> mmu m va = Some f -> mmu m1 (va + 4 * k) = Some (f + 4 * k)) as Hw.
      { intros va f Hmod Hva E. apply mmu_word; [done | by apply mappable_idx | by rewrite Hmm | lia]. }
      unfold load, store. rewrite (Hw src fs), (Hw dst fd) by done. cbn [obind].
      rewrite (writes_word m m1 fd fs) by (done || apply Hp || lia).
      assert (dst < 0xffc00000 /\ src < 0xffc00000) as [? ?] by (split; [apply Hd | apply Hs]).
      assert (u32 (dst + 4 * k + 4) = dst + 4 * (k + 1)) as -> by (rewrite u32_small; lia).
      assert (u32 (src + 4 * k + 4) = src + 4 * (k + 1)) as -> by (rewrite u32_small; lia).
      apply IH; [lia | lia | |].
      + apply (writes_trans _ m1); [done|]. constructor; try done. intros a Ha. cbn.
        destruct (Z.eqb_spec a (fd + 4 * k)); [|done]. exfalso. apply Ha. unfold PG_SIZE. lia.
      + intros j Hj. cbn. destruct (Z.eqb_spec (fd + 4 * j) (fd + 4 * k)); [do 2 f_equal; lia | apply Hc; lia]. }
  destruct (Hgen 1024%nat 0 m) as (m' & E & W & Hc); [done | done | apply writes_refl | lia |]. rewrite !Z.mul_0_r, !Z.add_0_r in E.
  exists m'. split; [done|]. split; [done|]. apply map_ext_in. intros k Hk. apply list_elem_of_In, elem_of_seqZ in Hk. apply Hc. lia.
Qed.

(** ** Mapping a page *)

(** The words [page_table_add] changes: the directory entry, and the table. *)
Record table_write (m m' : vm) (va t : Z) : Prop := {
  tw_aligned : aligned t;
  tw_present : present (pm m' (pde_pa m va)) = true;
  tw_frame : frame (pm m' (pde_pa m va)) = t;
  tw_rest : forall a, a <> pde_pa m va -> ~ (t <= a < t + PG_SIZE) -> pm m' a = pm m a;
  tw_table : present (pm m (pde_pa m va)) = true /\ pm m' (pde_pa m va) = pm m (pde_pa m va)
    \/ frame_free (kernel_pool m) t /\ ~ frame_free (kernel_pool m') t }.

Lemma pte_in_table m va : mappable va -> frame (pm m (pde_pa m va)) <= pte_pa m va < frame (pm m (pde_pa m va)) + PG_SIZE.
Proof. intros Hva. destruct (mappable_idx va Hva) as (_ & _ & Ht). unfold pte_pa, PG_SIZE. lia. Qed.

Lemma page_table_add_frame m va pa : vm_ok m -> mappable va -> mmu m va = None -> aligned pa -> (0 < free_pages (kernel_pool m))%nat ->
  exists m' t, page_table_add m va pa = Ok m' /\ added m m' va pa /\ table_write m m' va t.
Proof.
  intros Hm H Hun Hal Hfree. destruct (page_table_add_ok m va pa Hm H Hun Hal Hfree) as (m' & E & Had).
  destruct (mappable_idx va H) as (Hr & Hi & Hj). exists m'. pose proof E as E0. revert E0.
  unfold page_table_add. rewrite load_pde by done. cbn [obind]. rewrite land1, negb_involutive.
  destruct (present (pm m (pde_pa m va))) eqn:Hp.
  - rewrite load_pte by done. cbn [obind]. rewrite land1. unfold mmu in Hun. rewrite Hp in Hun. destruct (present (pm m (pte_pa m va))); [done|]. cbn [negb c_assert obind].
    destruct (set_pte m va (PTE_ATTR pa) Hm H Hp) as (E2 & _ & Hdir & _). rewrite E2. intros [= <-].
    exists (frame (pm m (pde_pa m va))). split; [done|]. split; [done|]. pose proof (pte_in_table m va H).
    assert (pm (with_pm (fun a => if a =? pte_pa m va then PTE_ATTR pa else pm m a) m) (pde_pa m va) = pm m (pde_pa m va)) as Hsame by (apply Hdir; lia).
    constructor; rewrite ?Hsame; try done; [apply frame_aligned | | by left].
    intros a _ Hout. cbn. destruct (Z.eqb_spec a (pte_pa m va)) as [->|]; [lia | done].
  - destruct (palloc_ok _ (vo_kpool m Hm) Hfree) as (kp & f & Ep & Hkp & Hsub & Hff & Hnf & Hfal & Hcnt).
    rewrite Ep. cbn [obind]. change (default 0 (Some f)) with f.
    rewrite (store_new_pde m va f kp Hm H). cbn [obind].
    rewrite (zero_new_table m va f kp Hm H Hkp Hsub Hff Hnf Hfal). cbn [obind].
    pose proof (m3_ok m va f kp Hm H Hkp Hsub Hff Hnf Hfal) as Hok3.
    edestruct (m3_maps m va f kp) as (Hp3 & Hpte3 & Hz3); try done.
    pose proof (m3_dir m va f kp Hm Hff Hfal (pdx va) ltac:(lia)) as Hd3. pose proof (m2_dir m va f kp (pdx va) ltac:(lia)) as Hd2.
    rewrite Hd2, Z.eqb_refl in Hd3. clear Hd2. set (m3 := with_pm _ _) in *.
    rewrite load_pte by done. cbn [obind]. rewrite Hz3. change (Z.land 0 1 =? 0) with true. cbn [c_assert obind].
    destruct (set_pte m3 va (PTE_ATTR pa) Hok3 H Hp3) as (E4 & _ & Hdir & _). rewrite E4. intros [= Em].
    assert (forall a, pm m' a = if a =? pte_pa m3 va then PTE_ATTR pa else pm m3 a) as Hpm by (by intros a; rewrite <- Em).
    assert (kernel_pool m' = kp) as Hkp' by (by rewrite <- Em).
    destruct (pte_attr f Hfal) as [Hfp Hff2]. pose proof (pte_in_table m3 va H) as Hin.
    change (pde_pa m3 va) with (pde_pa m va) in *. change (cr3 m3 + 4 * pdx va) with (pde_pa m va) in *. change (cr3 m + 4 * pdx va) with (pde_pa m va) in *.
    rewrite Hd3, Hff2 in Hin.
    assert (pm m' (pde_pa m va) = PTE_ATTR f) as Hsame by (rewrite Hpm, <- Hd3; apply (Hdir (pdx va)); lia).
    exists f. split; [f_equal; exact Em|]. split; [done|]. constructor; rewrite ?Hsame; [done | done | done | | right; by rewrite Hkp'].
    intros a Ha Hout. rewrite Hpm. destruct (Z.eqb_spec a (pte_pa m3 va)) as [->|]; [lia|].
    unfold m3. cbn [pm with_pm]. replace ((f <=? a) && (a <? f + PG_SIZE))%bool with false.
    + by destruct (Z.eqb_spec a (pde_pa m va)).
    + symmetry. apply andb_false_iff. rewrite Z.leb_gt, Z.ltb_ge. lia.
Qed.

(** ** Two directories *)

Section pair.
Variables p c : Z.

(** [p] and [c] are directories over the same memory: they share the tables of the
    kernel's part and no other, and neither is a table of the other. *)
Record pair_ok (m : vm) : Prop := {
  pr_p : vm_ok (with_cr3 p m);
  pr_c : vm_ok (with_cr3 c m);
  pr_ne : p <> c;
  pr_kern : forall i, 768 <= i < 1023 -> pm m (c + 4 * i) = pm m (p + 4 * i);
  pr_low : present (pm m (p + 4 * 0)) = false /\ present (pm m (c + 4 * 0)) = false;
  pr_dirs : ~ is_table (with_cr3 p m) c /\ ~ is_table (with_cr3 c m) p;
  pr_apart : forall i j, 1 <= i < 768 -> 1 <= j < 768 -> present (pm m (p + 4 * i)) = true -> present (pm m (c + 4 * j)) = true ->
    frame (pm m (p + 4 * i)) <> frame (pm m (c + 4 * j)) }.

(** A frame that is in use, and by neither as a directory or table. *)
Record held (m : vm) (f : Z) : Prop := {
  hd_p : plain (with_cr3 p m) f;
  hd_c : plain (with_cr3 c m) f;
  hd_used : forall pf, ~ frame_free (get_pool pf m) f }.

(** Neither depends on the directory in use. *)
Lemma pair_cr3 m d : pair_ok m -> pair_ok (with_cr3 d m).
Proof. by intros [? ? ? ? ? ? ?]. Qed.

Lemma held_cr3 m d f : held m f -> held (with_cr3 d m) f.
Proof. by intros [[? ? ?] [? ? ?] ?]. Qed.

Definition user (va : Z) : Prop := 2 ^ 22 <= va < 0xc0000000.

Lemma user_mappable va : user va -> mappable va.
Proof. unfold user, mappable. lia. Qed.

Lemma user_idx va : user va -> 1 <= pdx va < 768.
Proof. intros [? ?]. unfold pdx. split; [apply Z.div_le_lower_bound | apply Z.div_lt_upper_bound]; lia. Qed.

Lemma pair_writes m m' fd : pair_ok m -> held m fd -> writes m m' fd -> pair_ok m'.
Proof.
  intros [Hp Hc Hne Hk [Hl1 Hl2] [Hd1 Hd2] Ha] [Pp Pc _] W.
  pose proof (writes_cr3 _ _ _ p W) as Wp. pose proof (writes_cr3 _ _ _ c W) as Wc.
  assert (forall i, 0 <= i < 1024 -> pm m' (p + 4 * i) = pm m (p + 4 * i)) as Ep by (intros i Hi; by apply (writes_dir _ _ fd i Wp)).
  assert (forall i, 0 <= i < 1024 -> pm m' (c + 4 * i) = pm m (c + 4 * i)) as Ec by (intros i Hi; by apply (writes_dir _ _ fd i Wc)).
  split; try done.
  - by apply (writes_ok _ _ fd Wp).
  - by apply (writes_ok _ _ fd Wc).
  - intros i Hi. rewrite Ep, Ec by lia. by apply Hk.
  - rewrite Ep, Ec by lia. done.
  - split; intros Ht; [apply Hd1; by apply (writes_table _ _ fd c Wp) | apply Hd2; by apply (writes_table _ _ fd p Wc)].
  - intros i j Hi Hj. rewrite Ep, Ec by lia. by apply Ha.
Qed.

Lemma held_writes m m' fd f : pair_ok m -> held m fd -> writes m m' fd -> held m f -> held m' f.
Proof.
  intros [Hp Hc _ _ _ _ _] [Pp Pc _] W [Fp Fc Fu]. pose proof (writes_cr3 _ _ _ p W) as Wp. pose proof (writes_cr3 _ _ _ c W) as Wc.
  split; [by apply (writes_plain _ _ fd f Wp) | by apply (writes_plain _ _ fd f Wc)|]. intros pf. by rewrite (writes_pool _ _ _ _ W).
Qed.

Lemma mmu_writes m m' fd va : pair_ok m -> held m fd -> writes m m' fd -> mappable va ->
  mmu (with_cr3 p m') va = mmu (with_cr3 p m) va /\ mmu (with_cr3 c m') va = mmu (with_cr3 c m) va.
Proof.
  intros [Hp Hc _ _ _ _ _] [Pp Pc _] W Hva. destruct (mappable_idx va Hva) as (? & ? & _).
  split; (apply (writes_mmu _ _ fd); [by apply writes_cr3 | done | done | lia | lia]).
Qed.

(** Both see the same kernel pages. *)
Lemma mmu_kernel m va : pair_ok m -> mappable va -> 768 <= pdx va -> mmu (with_cr3 c m) va = mmu (with_cr3 p m) va.
Proof.
  intros Hm Hva Hx. destruct (mappable_idx va Hva) as (_ & ? & _). unfold mmu, pte_pa, pde_pa. cbn [cr3 pm with_cr3].
  by rewrite (pr_kern m Hm) by lia.
Qed.

(** Taking frames away from the pools. *)
Lemma pair_pool m pf q : pair_ok m -> pool_ok q -> pool_sub q (get_pool pf m) -> pair_ok (with_pool pf q m).
Proof.
  intros [Hp Hc Hne Hk Hl Hd Ha] Hq Hs.
  assert (pm (with_pool pf q m) = pm m) as Epm by (by destruct pf).
  assert (forall d, vm_ok (with_cr3 d m) -> vm_ok (with_cr3 d (with_pool pf q m))) as Hv.
  { intros d Hv. replace (with_cr3 d (with_pool pf q m)) with (with_pool pf q (with_cr3 d m)) by (by destruct pf).
    apply vm_ok_pool; [done | done | by destruct pf]. }
  assert (forall d f, is_table (with_cr3 d (with_pool pf q m)) f <-> is_table (with_cr3 d m) f) as Ht by (intros d f; by destruct pf).
  split; rewrite ?Epm, ?Ht; auto.
Qed.

Lemma held_pool m pf q f : pool_sub q (get_pool pf m) -> held m f -> held (with_pool pf q m) f.
Proof.
  intros Hs [[A1 B1 C1] [A2 B2 C2] U]. split; [split; [done | done | by destruct pf]..|].
  intros pf' Hf. apply (U pf'). destruct pf, pf'; try done; by apply (ps_free _ _ Hs).
Qed.

(** A free frame, once taken. *)
Lemma held_taken m pf q f : pair_ok m -> pool_sub q (get_pool pf m) -> frame_free (get_pool pf m) f -> ~ frame_free q f -> aligned f ->
  held (with_pool pf q m) f.
Proof.
  intros Hm Hs Hf Hn Ha.
  assert (forall d, vm_ok (with_cr3 d m) -> plain (with_cr3 d (with_pool pf q m)) f) as Hd.
  { intros d Hv. split; [done | |].
    - intros E. apply (vo_cr3_used _ Hv pf). cbn. rewrite E in Hf. by destruct pf.
    - intros (i & Hi & Hpr & Hfr). assert (present (pm m (d + 4 * i)) = true /\ frame (pm m (d + 4 * i)) = f) as [Hpr' Hfr'] by (by destruct pf).
      destruct (vo_tables _ Hv i Hi Hpr') as [_ Hno]. apply (Hno pf). cbn. rewrite Hfr'. by destruct pf. }
  split; [apply Hd, Hm | apply Hd, Hm|]. intros pf' Hf'. destruct pf, pf'; try done.
  - by apply (pools_disjoint _ f (pr_p m Hm)).
  - by apply (pools_disjoint _ f (pr_p m Hm)).
Qed.

Lemma table_apart m i j : pair_ok m -> 1 <= i < 1023 -> 1 <= j < 768 -> (i < 768 \/ i <> j) ->
  present (pm m (p + 4 * i)) = true -> present (pm m (c + 4 * j)) = true -> frame (pm m (p + 4 * i)) <> frame (pm m (c + 4 * j)).
Proof.
  intros Hm Hi Hj Hij Hpi Hpj. destruct (Z.lt_ge_cases i 768); [apply (pr_apart m Hm); done || lia|].
  rewrite <- (pr_kern m Hm) in * by lia. apply (vo_unshared _ (pr_c m Hm)); try done; lia.
Qed.

Lemma with_own m : with_cr3 (cr3 m) m = m.
Proof. by destruct m. Qed.

(** Mapping a page in the child's space. *)
Section map.
Variables (m m' : vm) (va pa t : Z).
Hypothesis Hm : pair_ok m.
Hypothesis Hva : user va.
Hypothesis Had : added (with_cr3 c m) m' va pa.
Hypothesis Htw : table_write (with_cr3 c m) m' va t.

Lemma map_table : is_table (with_cr3 c m) t \/ frame_free (kernel_pool m) t.
Proof.
  destruct Htw as [_ Hpr Hfr _ [[Hp Hs]|[Hf _]]]; [left | by right]. exists (pdx va). pose proof (user_idx va Hva).
  split; [lia|]. split; [exact Hp|]. by rewrite <- Hfr, Hs.
Qed.

Lemma map_not_dir d : d = p \/ d = c -> t <> d.
Proof.
  intros Hd E. destruct map_table as [Ht|Hf]; [rewrite E in Ht | rewrite E in Hf].
  - destruct Hd as [->| ->]; [by apply (pr_dirs m Hm)|]. destruct Ht as (i & Hi & Hpr & Hfr).
    destruct (vo_tables _ (pr_c m Hm) i Hi Hpr) as [Hn _]. by apply Hn.
  - destruct Hd as [->| ->]; [by apply (vo_cr3_used _ (pr_p m Hm) PF_KERNEL) | by apply (vo_cr3_used _ (pr_c m Hm) PF_KERNEL)].
Qed.

Lemma dir_aligned d : d = p \/ d = c -> aligned d.
Proof. intros [->| ->]; [apply (vo_cr3 _ (pr_p m Hm)) | apply (vo_cr3 _ (pr_c m Hm))]. Qed.

Lemma map_dir_p i : 0 <= i < 1024 -> pm m' (p + 4 * i) = pm m (p + 4 * i).
Proof.
  intros Hi. pose proof (user_idx va Hva). apply (tw_rest _ _ _ _ Htw).
  - unfold pde_pa. cbn. apply frames_apart; try lia; [apply dir_aligned; auto | apply dir_aligned; auto | apply (pr_ne m Hm)].
  - apply out_of_frame; [apply dir_aligned; auto | apply (tw_aligned _ _ _ _ Htw) | apply not_eq_sym, map_not_dir; auto | unfold PG_SIZE; lia].
Qed.

Lemma map_dir_c i : 0 <= i < 1024 -> i <> pdx va -> pm m' (c + 4 * i) = pm m (c + 4 * i).
Proof.
  intros Hi Hne. apply (tw_rest _ _ _ _ Htw).
  - unfold pde_pa. cbn. lia.
  - apply out_of_frame; [apply dir_aligned; auto | apply (tw_aligned _ _ _ _ Htw) | apply not_eq_sym, map_not_dir; auto | unfold PG_SIZE; lia].
Qed.

Lemma map_pools : pool_ok (kernel_pool m') /\ pool_sub (kernel_pool m') (kernel_pool m) /\ user_pool m' = user_pool m.
Proof.
  split; [apply (vo_kpool _ (ad_ok _ _ _ _ Had))|]. split; [apply (ad_kpool _ _ _ _ Had) | apply (ad_upool _ _ _ _ Had)].
Qed.

Lemma map_cr3 : with_cr3 c m' = m'.
Proof. pose proof (ad_cr3 _ _ _ _ Had) as E. cbn in E. by rewrite <- E, with_own. Qed.

Lemma map_free pf f : frame_free (get_pool pf m') f -> frame_free (get_pool pf m) f.
Proof. destruct map_pools as (_ & Hs & Hu). destruct pf; cbn; [apply (ps_free _ _ Hs) | by rewrite Hu]. Qed.

Lemma map_p_ok : vm_ok (with_cr3 p m').
Proof.
  destruct map_pools as (Hk & Hs & Hu). apply (vm_ok_ext (with_pool PF_KERNEL (kernel_pool m') (with_cr3 p m))); try done.
  - apply vm_ok_pool; [apply (pr_p m Hm) | done | done].
  - intros i Hi. cbn. by apply map_dir_p.
Qed.

Lemma map_table_p f : is_table (with_cr3 p m') f <-> is_table (with_cr3 p m) f.
Proof.
  unfold is_table. cbn. apply exist_proper. intros i. split; intros (Hi & Hpr & Hf); (split; [done|]); rewrite map_dir_p in * by lia; done.
Qed.

Lemma map_c_table f : is_table (with_cr3 c m') f -> is_table (with_cr3 c m) f \/ frame_free (kernel_pool m) f.
Proof. intros Ht. apply (ad_tables _ _ _ _ Had). by rewrite map_cr3 in Ht. Qed.

Lemma map_pair : pair_ok m'.
Proof.
  pose proof (user_idx va Hva) as Hx. destruct Hm as [Hp Hc Hne Hk [Hl1 Hl2] [Hd1 Hd2] Ha].
  split; try done.
  - exact map_p_ok.
  - rewrite map_cr3. apply (ad_ok _ _ _ _ Had).
  - intros i Hi. rewrite map_dir_p, map_dir_c by lia. by apply Hk.
  - rewrite map_dir_p, map_dir_c by lia. done.
  - split; [by rewrite map_table_p|]. intros Ht. destruct (map_c_table p Ht) as [?|Hf]; [done|].
    by apply (vo_cr3_used _ Hp PF_KERNEL).
  - intros i j Hi Hj. rewrite map_dir_p by lia. destruct (Z.eq_dec j (pdx va)) as [->|Hj'].
    + intros Hpi _. pose proof (tw_frame _ _ _ _ Htw) as Hf. unfold pde_pa in Hf. cbn in Hf. rewrite Hf.
      destruct (tw_table _ _ _ _ Htw) as [[Hp0 Hs]|[Hff _]].
      * unfold pde_pa in *. cbn in *. rewrite <- Hf, Hs. by apply Ha.
      * intros E. destruct (vo_tables _ Hp i ltac:(lia) Hpi) as [_ Hno]. apply (Hno PF_KERNEL). cbn. by rewrite E.
    + rewrite map_dir_c by lia. by apply Ha.
Qed.

Lemma map_mmu_p u : mappable u -> mmu (with_cr3 p m') u = mmu (with_cr3 p m) u.
Proof.
  intros Hu. destruct (mappable_idx u Hu) as (_ & Hi & Ht). pose proof (user_idx va Hva) as Hx.
  unfold mmu, pte_pa, pde_pa. cbn [cr3 pm with_cr3]. rewrite map_dir_p by lia.
  destruct (present (pm m (p + 4 * pdx u))) eqn:Hpr; [|done].
  rewrite (tw_rest _ _ _ _ Htw); [done | |].
  - unfold pde_pa. cbn. apply frames_apart; try apply frame_aligned; try lia; [apply dir_aligned; auto|].
    intros E. apply (proj1 (pr_dirs m Hm)). exists (pdx u). split; [lia|]. by split.
  - apply out_of_frame; [apply frame_aligned | apply (tw_aligned _ _ _ _ Htw) | | unfold PG_SIZE; lia].
    pose proof (tw_frame _ _ _ _ Htw) as Hf. pose proof (tw_present _ _ _ _ Htw) as Hp'. unfold pde_pa in Hf, Hp'. cbn in Hf, Hp'. rewrite <- Hf.
    rewrite <- map_dir_p in Hpr |- * by lia. apply (table_apart m'); try done; [exact map_pair|].
    destruct (Z.lt_ge_cases (pdx u) 768); [by left | right; lia].
Qed.

Lemma map_held f : held m f -> held m' f /\ page_words m' f = page_words m f.
Proof.
  intros [[Fa Fp Ftp] [_ Fc Ftc] Fu]. cbn in *.
  assert (t <> f) as Htf by (intros E; destruct map_table as [Ht|Hf]; [by rewrite E in Ht | rewrite E in Hf; by apply (Fu PF_KERNEL)]).
  split.
  - split.
    + split; [done | done | by rewrite map_table_p].
    + split; [done | done|]. intros Ht. destruct (map_c_table f Ht) as [?|Hf]; [done | by apply (Fu PF_KERNEL)].
    + intros pf Hf. by apply (Fu pf), map_free.
  - apply map_ext_in. intros k Hk. apply list_elem_of_In, elem_of_seqZ in Hk. pose proof (user_idx va Hva).
    apply (tw_rest _ _ _ _ Htw); [unfold pde_pa; cbn; apply frames_apart; try lia; try done; apply dir_aligned; auto|].
    apply out_of_frame; [done | apply (tw_aligned _ _ _ _ Htw) | by apply not_eq_sym | unfold PG_SIZE; lia].
Qed.
End map.

End pair.
