(* ===== verification/Fork.v ===== *)
(** userprog/fork.c: [sys_fork]. The child is a copy of its parent: the task
    structure, the user context at the top of its page, the address bitmap, the
    user pages, and the descriptors, whose files are opened once more. *)
From S2P Require Import Prelude Bitmap Thread Inode File Path.
From S2P Require Heap.
From S2P Require Import Paging Process.

Definition BITMAP_MASK : Z := 1.

(** ** User memory *)

(** One page, by way of the kernel page [buf_page]. That the child's page is granted
    is not tested. *)
Definition fork_page (m : vm) (child_pgdir parent_pgdir buf_page prog_vaddr : Z) : outcome vm :=
  let! m := copy_words m buf_page prog_vaddr 1024 in
  let! m := page_dir_activate m child_pgdir in
  let! ' (m, _) := get_a_page_without_opvaddrbitmap m PF_USER prog_vaddr in
  let! m := copy_words m prog_vaddr buf_page 1024 in
  page_dir_activate m parent_pgdir.

Definition fork_bit_body (child_pgdir parent_pgdir buf_page vaddr_start idx_byte byte : Z) (s : vm * Z) : outcome (vm * Z + vm) :=
  let '(m, idx_bit) := s in
  if idx_bit <? 8 then
    if negb (Z.land (Z.shiftl BITMAP_MASK idx_bit) byte =? 0) then
      let prog_vaddr := u32 ((idx_byte * 8 + idx_bit) * PG_SIZE + vaddr_start) in
      let! m := fork_page m child_pgdir parent_pgdir buf_page prog_vaddr in
      Ok (inl (m, idx_bit + 1))
    else Ok (inl (m, idx_bit + 1))
  else Ok (inr m).

Definition fork_byte_body (child_pgdir parent_pgdir buf_page : Z) (uv : virtual_addr) (s : vm * Z) : outcome (vm * Z + vm) :=
  let '(m, idx_byte) := s in
  if idx_byte <? btmp_bytes_len (vaddr_bitmap uv) then
    let! byte := rd (bits (vaddr_bitmap uv)) idx_byte in
    let! m :=
      if negb (byte =? 0) then loop (fork_bit_body child_pgdir parent_pgdir buf_page (vaddr_start uv) idx_byte byte) 9 (m, 0)
      else Ok m in
    Ok (inl (m, idx_byte + 1))
  else Ok (inr m).

Definition copy_body_stack3 (m : vm) (child_pgdir parent_pgdir buf_page : Z) (uv : virtual_addr) : outcome vm :=
  loop (fork_byte_body child_pgdir parent_pgdir buf_page uv) (S (Z.to_nat (btmp_bytes_len (vaddr_bitmap uv)))) (m, 0).

(** ** The process *)

Section fork.
Context {D H : Type} `{BlockDevice D} `{KernelHeap H}.
Abbreviation st := (sys D H).

Definition fork_suffix : list Z := [95; 102; 111; 114; 107].

(** The task structure of the child, before it has its own directory and stack. *)
Definition child_task (t : task_struct) (child_pid : Z) : task_struct :=
  mk_task (self_kstack t) (kstack t) child_pid TASK_READY (name t) (priority t) (priority t) 0
    (fd_table t) (pgdir t) (cwd_inode_nr t) (pid t) (exit_status t) (stack_magic t).

Definition set_name (v : list Z) (t : task_struct) : task_struct :=
  mk_task (self_kstack t) (kstack t) (pid t) (status t) v (priority t) (ticks t) (elapsed_ticks t)
    (fd_table t) (pgdir t) (cwd_inode_nr t) (parent_pid t) (exit_status t) (stack_magic t).

Definition set_kstack (v : Z) (k : thread_stack) (t : task_struct) : task_struct :=
  mk_task v (Some k) (pid t) (status t) (name t) (priority t) (ticks t) (elapsed_ticks t)
    (fd_table t) (pgdir t) (cwd_inode_nr t) (parent_pid t) (exit_status t) (stack_magic t).

(** The whole page of the parent is copied first: task structure, address pool,
    context, heap descriptors. [false] is the result -1. *)
Definition copy_pcb_vaddrbitmap_stack0 (s : st) (child_thread parent_thread : Z) : outcome (st * bool) :=
  let! t := get_task (s_k s) parent_thread in
  let! uv := get_uv s parent_thread in
  let! context := get_context s parent_thread in
  let! ' (k, child_pid) := fork_pid (s_k s) in
  let k := with_tasks (<[child_thread := child_task t child_pid]> (tasks k)) k in
  let s := with_descs child_thread Heap.block_desc_init (with_context child_thread context (with_uv child_thread uv (with_k k s))) in
  let! ' (m, vaddr_btmp) := get_kernel_pages (s_vm s) bitmap_pg_cnt in
  let s := with_vm m s in
  match vaddr_btmp with
  | None => Ok (s, false)
  | Some a =>
      let s := with_uv child_thread (mk_uvaddr a (uv_pool uv)) s in
      let! len := c_strlen (name t) in
      c_assert (len <? 11) ;;;
      let! nm := c_strcat (name t) fork_suffix in
      let! k := upd_task (s_k s) child_thread (set_name nm) in
      Ok (with_k k s, true)
  end.

(** The child returns 0 from [fork], through [intr_exit]. *)
Definition build_child_stack (s : st) (child_thread intr_exit : Z) : outcome st :=
  let! c := get_context s child_thread in
  let c := mk_intr (is_vec_no c) (is_edi c) (is_esi c) (is_ebp c) (is_esp_dummy c) (is_ebx c) (is_edx c) (is_ecx c) 0
             (is_gs c) (is_fs c) (is_es c) (is_ds c) (is_err_code c) (is_eip c) (is_cs c) (is_eflags c) (is_esp c) (is_ss c) in
  let intr_0_stack := child_thread + PG_SIZE - SIZEOF_INTR_STACK in
  let! k := upd_task (s_k s) child_thread (set_kstack (intr_0_stack - 5 * 4) (mk_thread_stack 0 0 0 0 intr_exit 0 0)) in
  Ok (with_context child_thread c (with_k k s)).

(** One descriptor; [is_pipe] looks in the table of the running thread. *)
Definition open_again (f : fstate D H) (fds : list Z) (local_fd : Z) : outcome (fstate D H) :=
  let! global_fd := rd fds local_fd in
  c_assert (global_fd <? MAX_FILE_OPEN) ;;;
  if negb (global_fd =? -1) then
    let! p := is_pipe f local_fd in
    let! x := get_file f global_fd in
    if (p : bool) then put_file global_fd (set_pos (u32 (fd_pos x + 1)) x) f
    else let! i := get_inode f (fd_inode x) in Ok (put_inode (fd_inode x) (set_cnts (u32 (i_open_cnts i + 1)) i) f)
  else Ok f.

Definition open_again_body (fds : list Z) (s : fstate D H * Z) : outcome (fstate D H * Z + fstate D H) :=
  let '(f, local_fd) := s in
  if local_fd <? MAX_FILES_OPEN_PER_PROC then
    let! f := open_again f fds local_fd in Ok (inl (f, local_fd + 1))
  else Ok (inr f).

Definition update_inode_open_cnts (f : fstate D H) (thread : Z) : outcome (fstate D H) :=
  let! t := get_task (kern f) thread in
  loop (open_again_body (fd_table t)) 6 (f, 3).

(** [pgdir] of the parent is what its task structure says. *)
Definition copy_process (s : st) (child_thread parent_thread intr_exit : Z) : outcome (st * bool) :=
  let! ' (m, buf_page) := get_kernel_pages (s_vm s) 1 in
  let s := with_vm m s in
  match buf_page with
  | None => Ok (s, false)
  | Some buf =>
      let! ' (s, ok) := copy_pcb_vaddrbitmap_stack0 s child_thread parent_thread in
      if negb (ok : bool) then Ok (s, false) else
      let! ' (m, dir) := create_page_dir (s_vm s) in
      let s := with_vm m s in
      let! k := upd_task (s_k s) child_thread (set_pgdir (default 0 dir)) in
      let s := with_k k s in
      match dir with
      | None => Ok (s, false)
      | Some d =>
          let! t := get_task (s_k s) parent_thread in
          let! uv := get_uv s parent_thread in
          let! m := copy_body_stack3 (s_vm s) d (pgdir t) buf (uv_pool uv) in
          let! s := build_child_stack (with_vm m s) child_thread intr_exit in
          let! f := update_inode_open_cnts (s_fs s) child_thread in
          let s := with_fs f s in
          let! m := mfree_page (s_vm s) PF_KERNEL buf 1 in
          Ok (with_vm m s, true)
      end
  end.

Definition sys_fork (s : st) (intr_exit : Z) : outcome (st * Z) :=
  let parent_thread := running_thread (s_k s) in
  let! ' (m, page) := get_kernel_pages (s_vm s) 1 in
  let s := with_vm m s in
  match page with
  | None => Ok (s, -1)
  | Some child_thread =>
      let! t := get_task (s_k s) parent_thread in
      c_assert (negb (intr_get_status (s_k s)) && negb (pgdir t =? 0)) ;;;
      let! ' (s, ok) := copy_process s child_thread parent_thread intr_exit in
      if negb (ok : bool) then Ok (s, -1) else
      let! k := enlist (s_k s) child_thread in
      let! t := get_task k child_thread in
      Ok (with_k k s, pid t)
  end.
End fork.
