(* ===== verification/Forkmem.v ===== *)
(** The memory of a forked process: [copy_body_stack3] gives the child a page of its
    own, with the same words, for every page in the parent's address bitmap, and
    leaves the parent's memory and the kernel's alone. *)
From S2P Require Import Prelude Bitmap Paging Process Space Fork.

Section family.
Variables p c : Z.

(** [va] is a page of the kernel's part, on frame [f]. *)
Definition kernel_page (m : vm) (va f : Z) : Prop :=
  mappable va /\ 768 <= pdx va /\ va mod PG_SIZE = 0 /\ mmu (with_cr3 p m) va = Some f.

(** The user pages of directory [d] are on frames of their own. *)
Definition user_pages_held (m : vm) (d fb : Z) : Prop :=
  forall u f, user u -> u mod PG_SIZE = 0 -> mmu (with_cr3 d m) u = Some f -> held p c m f /\ f <> fb.

(** Parent and child while pages are copied: their directories at [pd] and [cd], the
    buffer at [buf] on frame [fb]. *)
Record family (m : vm) (pd cd buf fb : Z) : Prop := {
  fm_pair : pair_ok p c m;
  fm_pd : kernel_page m pd p;
  fm_cd : kernel_page m cd c;
  fm_buf : kernel_page m buf fb;
  fm_held : held p c m fb;
  fm_parent : user_pages_held m p fb;
  fm_child : user_pages_held m c fb }.

Lemma mmu_none_own m d va : cr3 m = d -> mmu (with_cr3 d m) va = mmu m va.
Proof. intros <-. by rewrite with_own. Qed.

(** Loading the directory at a kernel address, from either space. *)
Lemma activate m va d : pair_ok p c m -> cr3 m = p \/ cr3 m = c -> aligned d -> kernel_page m va d ->
  page_dir_activate m va = Ok (with_cr3 d m).
Proof.
  intros Hm Hc Ha (Hva & Hx & Hmod & E). unfold page_dir_activate.
  replace (va =? 0) with false by (symmetry; apply Z.eqb_neq; unfold mappable in Hva; lia). cbn [negb].
  destruct (mappable_idx va Hva) as (Hr & _). destruct Hc as [Hc|Hc].
  - rewrite (addr_v2p_ok m va d); [done | | done | by rewrite <- (mmu_none_own m p)].
    pose proof (pr_p _ _ m Hm) as Hv. by rewrite <- Hc, with_own in Hv.
  - rewrite (addr_v2p_ok m va d); [done | | done |].
    + pose proof (pr_c _ _ m Hm) as Hv. by rewrite <- Hc, with_own in Hv.
    + rewrite <- (mmu_none_own m c) by done. by rewrite (mmu_kernel p c).
Qed.

Lemma kernel_page_same m m' va d : kernel_page m va d -> mmu (with_cr3 p m') va = mmu (with_cr3 p m) va -> kernel_page m' va d.
Proof. intros (? & ? & ? & E) Hs. unfold kernel_page. by rewrite Hs. Qed.

(** What copying one page does. *)
Record copied (m m' : vm) (va f fb : Z) : Prop := {
  cp_child : exists g, mmu (with_cr3 c m') va = Some g /\ page_words m' g = page_words m f /\ frame_free (user_pool m) g;
  cp_parent : forall u, mappable u -> mmu (with_cr3 p m') u = mmu (with_cr3 p m) u;
  cp_others : forall u, user u -> page_of u <> page_of va -> mmu (with_cr3 c m') u = mmu (with_cr3 c m) u;
  cp_words : forall h, held p c m h -> h <> fb -> held p c m' h /\ page_words m' h = page_words m h;
  cp_pool : pool_sub (user_pool m') (user_pool m);
  cp_user : (free_pages (user_pool m) <= S (free_pages (user_pool m')))%nat;
  cp_kernel : (free_pages (kernel_pool m) <= S (free_pages (kernel_pool m')))%nat }.

(** The child's page is granted: [m3] is [m1] with frame [g] mapped at [va] in the
    child's space. *)
Record granted (m1 m3 : vm) (va g : Z) : Prop := {
  gr_pair : pair_ok p c m3;
  gr_cr3 : cr3 m3 = c;
  gr_held : held p c m3 g;
  gr_map : mmu m3 va = Some g;
  gr_parent u : mappable u -> mmu (with_cr3 p m3) u = mmu (with_cr3 p m1) u;
  gr_others u : user u -> page_of u <> page_of va -> mmu m3 u = mmu (with_cr3 c m1) u;
  gr_kept h : held p c m1 h -> held p c m3 h /\ page_words m3 h = page_words m1 h /\ h <> g;
  gr_free : frame_free (user_pool m1) g;
  gr_pool : pool_sub (user_pool m3) (user_pool m1);
  gr_user : free_pages (user_pool m1) = S (free_pages (user_pool m3));
  gr_kernel : (free_pages (kernel_pool m1) <= S (free_pages (kernel_pool m3)))%nat }.

Lemma grant_page m1 va : pair_ok p c m1 -> user va -> va mod PG_SIZE = 0 -> mmu (with_cr3 c m1) va = None ->
  (0 < free_pages (user_pool m1))%nat -> (0 < free_pages (kernel_pool m1))%nat ->
  exists m3 r g, get_a_page_without_opvaddrbitmap (with_cr3 c m1) PF_USER va = Ok (m3, r) /\ granted m1 m3 va g.
Proof.
  intros Hpr Hva Hmod Enone Hfu Hfk.
  destruct (palloc_ok (user_pool m1)) as (q & g & Ep & Hq & Hsub & Hgf & Hgn & Hga & Hgc); [apply (vo_upool _ (pr_p _ _ m1 Hpr)) | done |].
  unfold get_a_page_without_opvaddrbitmap. change (get_pool PF_USER (with_cr3 c m1)) with (user_pool m1). rewrite Ep. cbn [obind].
  set (m1' := with_pool PF_USER q m1). change (with_pool PF_USER q (with_cr3 c m1)) with (with_cr3 c m1').
  pose proof (pair_pool p c m1 PF_USER q Hpr Hq Hsub) as Hpr'. fold m1' in Hpr'.
  pose proof (held_taken p c m1 PF_USER q g Hpr Hsub Hgf Hgn Hga) as Hg. fold m1' in Hg.
  destruct (page_table_add_frame (with_cr3 c m1') va g) as (m3 & t & E3 & Had & Htw); [apply (pr_c _ _ m1' Hpr') | by apply user_mappable | done | done | done |].
  rewrite E3. cbn [obind]. pose proof (map_held p c m1' m3 va g t Hpr' Hva Had Htw) as Hh3. pose proof (ad_cr3 _ _ _ _ Had) as Ec3. cbn in Ec3.
  eexists m3, _, g. split; [done|]. split.
  - apply (map_pair p c m1' m3 va g t Hpr' Hva Had Htw).
  - done.
  - by apply Hh3.
  - rewrite (ad_map _ _ _ _ Had). f_equal. unfold PG_SIZE in Hmod. change (2 ^ 12) with 4096. lia.
  - intros u Hu. rewrite (map_mmu_p p c m1' m3 va g t Hpr' Hva Had Htw) by done. done.
  - intros u Hu Hne. rewrite (ad_other _ _ _ _ Had); [done | by apply user_mappable | done].
  - intros h Hh. destruct (Hh3 h) as [Hh' Hw]; [by apply held_pool|]. split; [done|]. split; [by rewrite Hw|].
    intros ->. by apply (hd_used _ _ m1 g Hh PF_USER).
  - done.
  - by rewrite (ad_upool _ _ _ _ Had).
  - by rewrite (ad_upool _ _ _ _ Had).
  - apply (ad_cnt _ _ _ _ Had).
Qed.

Lemma fork_page_ok m pd cd buf fb va f : family m pd cd buf fb -> cr3 m = p -> user va -> va mod PG_SIZE = 0 ->
  mmu (with_cr3 p m) va = Some f -> mmu (with_cr3 c m) va = None ->
  (0 < free_pages (user_pool m))%nat -> (0 < free_pages (kernel_pool m))%nat ->
  exists m', fork_page m cd pd buf va = Ok m' /\ family m' pd cd buf fb /\ cr3 m' = p /\ copied m m' va f fb.
Proof.
  intros [Hpr (Hpdm & Hpdx & Hpdmod & Epd) (Hcdm & Hcdx & Hcdmod & Ecd) (Hbm & Hbx & Hbmod & Eb) Hfb Hpar Hchi] Hcr Hva Hmod Ef Enone Hfu Hfk.
  pose proof (user_mappable va Hva) as Hvam. destruct (Hpar va f Hva Hmod Ef) as [Hf Hffb].
  unfold fork_page.
  (* the buffer *)
  destruct (copy_page_ok m buf va fb f) as (m1 & E1 & W1 & P1); try done.
  { pose proof (pr_p _ _ m Hpr) as Hv. by rewrite <- Hcr, with_own in Hv. }
  { by rewrite <- (mmu_none_own m p). }
  { by rewrite <- (mmu_none_own m p). }
  { pose proof (hd_p _ _ m fb Hfb) as Hv. by rewrite <- Hcr, with_own in Hv. }
  { apply Hf. }
  rewrite E1. cbn [obind]. pose proof (pair_writes p c m m1 fb Hpr Hfb W1) as Hpr1.
  pose proof (fun va Hva => mmu_writes p c m m1 fb va Hpr Hfb W1 Hva) as Hmm1.
  assert (kernel_page m1 cd c) as Kcd1 by (by apply (kernel_page_same m); [|apply Hmm1]).
  rewrite (activate m1 cd c); [|done | left; by rewrite (wr_cr3 _ _ _ W1) | apply (dir_aligned p c m Hpr); auto | done]. cbn [obind].
  assert (user_pool m1 = user_pool m) as Eu by apply W1. assert (kernel_pool m1 = kernel_pool m) as Ek by apply W1.
  assert (forall h, held p c m h -> held p c m1 h) as Hheld1 by (intros h Hh; by apply (held_writes p c m m1 fb)).
  (* the frame *)
  destruct (grant_page m1 va Hpr1 Hva Hmod) as (m3 & r & g & E3 & [Hpr3 Ec3 Hg3 Emap Hpar3 Hoth3 Hkept3 Hgf Hgpool Hgu Hgk]);
    [by rewrite (proj2 (Hmm1 va Hvam)) | by rewrite Eu | by rewrite Ek |].
  rewrite E3. cbn [obind].
  assert (forall u, mappable u -> mmu (with_cr3 p m3) u = mmu (with_cr3 p m) u) as Hp3 by (intros u Hu; rewrite Hpar3 by done; apply Hmm1, Hu).
  assert (kernel_page m3 pd p /\ kernel_page m3 cd c /\ kernel_page m3 buf fb) as (Kpd3 & Kcd3 & Kb3).
  { by split_and!; apply (kernel_page_same m); auto. }
  destruct (Hkept3 fb (Hheld1 fb Hfb)) as (Hfb3 & Hwfb3 & Hfbg).
  (* the child's page *)
  assert (with_cr3 c m3 = m3) as Ew3 by (by rewrite <- Ec3, with_own).
  destruct (copy_page_ok m3 va buf g fb) as (m4 & E4 & W4 & P4); try done.
  { pose proof (pr_c _ _ m3 Hpr3) as Hv. by rewrite Ew3 in Hv. }
  { rewrite <- Ew3, (mmu_kernel p c) by done. apply Kb3. }
  { pose proof (hd_c _ _ m3 g Hg3) as Hv. by rewrite Ew3 in Hv. }
  { apply Hfb3. }
  rewrite E4. cbn [obind]. pose proof (pair_writes p c m3 m4 g Hpr3 Hg3 W4) as Hpr4.
  pose proof (fun va Hva => mmu_writes p c m3 m4 g va Hpr3 Hg3 W4 Hva) as Hmm4.
  assert (forall u, mappable u -> mmu (with_cr3 p m4) u = mmu (with_cr3 p m) u) as Hp4.
  { intros u Hu. rewrite (proj1 (Hmm4 u Hu)). by apply Hp3. }
  assert (kernel_page m4 pd p /\ kernel_page m4 cd c /\ kernel_page m4 buf fb) as (Kpd4 & Kcd4 & Kb4).
  { by split_and!; apply (kernel_page_same m); auto. }
  rewrite (activate m4 pd p); [|done | right; by rewrite (wr_cr3 _ _ _ W4) | apply (dir_aligned p c m Hpr); auto | done].
  assert (forall h, held p c m h -> held p c m4 h) as Hheld4.
  { intros h Hh. apply (held_writes p c m3 m4 g); try done. by apply Hkept3, Hheld1. }
  assert (forall u, user u -> page_of u <> page_of va -> mmu (with_cr3 c m4) u = mmu (with_cr3 c m) u) as Hothers.
  { intros u Hu Hne. pose proof (user_mappable u Hu) as Hum. rewrite (proj2 (Hmm4 u Hum)), Ew3, Hoth3 by done. apply Hmm1, Hum. }
  exists (with_cr3 p m4). split; [done|]. split; [|split; [done|]].
  - split; [by apply pair_cr3 | exact Kpd4 | exact Kcd4 | exact Kb4 | by apply held_cr3, Hheld4 | |].
    + intros u h Hu Hum Eh. cbn in Eh. change (mmu (with_cr3 p m4) u = Some h) in Eh. rewrite Hp4 in Eh by (by apply user_mappable).
      destruct (Hpar u h Hu Hum Eh) as [Hh ?]. split; [by apply held_cr3, Hheld4 | done].
    + intros u h Hu Hum Eh. change (mmu (with_cr3 c m4) u = Some h) in Eh.
      destruct (Z.eq_dec (page_of u) (page_of va)) as [Hpg|Hpg].
      * assert (u = va) as ->. { unfold page_of in Hpg. unfold PG_SIZE in *. rewrite (Z.div_mod u 4096), (Z.div_mod va 4096) by lia. change (2 ^ 12) with 4096 in Hpg. lia. }
        rewrite (proj2 (Hmm4 va Hvam)), Ew3, Emap in Eh. injection Eh as <-. split; [|done].
        apply held_cr3. by apply (held_writes p c m3 m4 g).
      * rewrite Hothers in Eh by done. destruct (Hchi u h Hu Hum Eh) as [Hh ?]. split; [by apply held_cr3, Hheld4 | done].
  - constructor.
    + exists g. split; [change (mmu (with_cr3 c m4) va = Some g); by rewrite (proj2 (Hmm4 va Hvam)), Ew3|].
      split; [|by rewrite <- Eu]. change (page_words m4 g = page_words m f). by rewrite P4, Hwfb3.
    + exact Hp4.
    + exact Hothers.
    + intros h Hh Hne. split; [by apply held_cr3, Hheld4|]. change (page_words m4 h = page_words m h).
      destruct (Hkept3 h (Hheld1 h Hh)) as (Hh3 & Hw3 & Hhg). rewrite (writes_words m3 m4 g h W4) by (done || apply Hh || apply Hg3). rewrite Hw3.
      apply (writes_words m m1 fb h W1); done || apply Hh || apply Hfb.
    + change (pool_sub (user_pool m4) (user_pool m)). rewrite (wr_upool _ _ _ W4). by rewrite <- Eu.
    + change (free_pages (user_pool m) <= S (free_pages (user_pool m4)))%nat. rewrite (wr_upool _ _ _ W4), <- Eu. lia.
    + change (free_pages (kernel_pool m) <= S (free_pages (kernel_pool m4)))%nat. rewrite (wr_kpool _ _ _ W4), <- Ek. exact Hgk.
Qed.

(** ** All pages *)

Section copy.
Variables (m0 : vm) (pd cd buf fb : Z) (uv : virtual_addr).
Let b := vaddr_bitmap uv.

(** The page of bit [i], and whether it is in use. *)
Definition page_at (i : Z) : Z := vaddr_start uv + i * PG_SIZE.
Definition in_use (i : Z) : Prop := 0 <= i < nbits b /\ bit b i = true.
Definition uses_from (i : Z) : nat := length (filter (fun j => bit b j = true) (seqZ i (nbits b - i))).

(** The address pool of a process: user pages, each of those in use mapped. *)
Record pool_maps : Prop := {
  pm_wf : bitmap_wf 0 b;
  pm_start : vaddr_start uv mod PG_SIZE = 0;
  pm_low : 2 ^ 22 <= vaddr_start uv;
  pm_high : vaddr_start uv + nbits b * PG_SIZE <= 0xc0000000;
  pm_map : forall i, in_use i -> exists f, mmu (with_cr3 p m0) (page_at i) = Some f }.

(** With the pages of the bits below [i] copied. *)
Record upto (i : Z) (m : vm) : Prop := {
  up_family : family m pd cd buf fb;
  up_cr3 : cr3 m = p;
  up_copied : forall j, in_use j -> j < i -> exists f g, mmu (with_cr3 p m0) (page_at j) = Some f
    /\ mmu (with_cr3 c m) (page_at j) = Some g /\ page_words m g = page_words m0 f /\ frame_free (user_pool m0) g;
  up_rest : forall u, user u -> (forall j, in_use j -> j < i -> page_of u <> page_of (page_at j)) -> mmu (with_cr3 c m) u = None;
  up_parent : forall u, mappable u -> mmu (with_cr3 p m) u = mmu (with_cr3 p m0) u;
  up_words : forall h, held p c m0 h -> h <> fb -> held p c m h /\ page_words m h = page_words m0 h;
  up_pool : pool_sub (user_pool m) (user_pool m0);
  up_user : (uses_from i <= free_pages (user_pool m))%nat;
  up_kernel : (uses_from i <= free_pages (kernel_pool m))%nat }.

Hypothesis Hmaps : pool_maps.
Hypothesis Hparent : user_pages_held m0 p fb.

Lemma page_at_user i : 0 <= i < nbits b -> user (page_at i) /\ page_at i mod PG_SIZE = 0.
Proof.
  intros Hi. pose proof (pm_low Hmaps). pose proof (pm_high Hmaps). pose proof (pm_start Hmaps). unfold user, page_at, PG_SIZE in *.
  split; [lia|]. by rewrite Z.mod_add.
Qed.

Lemma page_at_inj i j : page_of (page_at i) = page_of (page_at j) -> i = j.
Proof. unfold page_at. rewrite !page_of_add. lia. Qed.

Lemma uses_step i : 0 <= i < nbits b -> uses_from i = ((if bit b i then 1 else 0) + uses_from (i + 1))%nat.
Proof.
  intros Hi. unfold uses_from. rewrite seqZ_cons by lia. replace (Z.pred (nbits b - i)) with (nbits b - (i + 1)) by lia.
  change (Z.succ i) with (i + 1). destruct (bit b i) eqn:E; [by rewrite filter_cons_True | by rewrite filter_cons_False by congruence].
Qed.

Lemma upto_skip i m : 0 <= i < nbits b -> bit b i = false -> upto i m -> upto (i + 1) m.
Proof.
  intros Hi Hb []. pose proof (uses_step i Hi) as Hu. rewrite Hb in Hu. cbn in Hu.
  assert (forall j, in_use j -> j < i + 1 -> j < i) as Hlt.
  { intros j [_ Hj] Hji. destruct (Z.eq_dec j i) as [->|]; [congruence | lia]. }
  split; try done; try (rewrite <- Hu; done).
  - intros j Hj Hji. apply up_copied0; [done | by apply Hlt].
  - intros u Hu' Hne. apply up_rest0; [done|]. intros j Hj Hji. apply Hne; [done | lia].
Qed.

Lemma upto_copy i m : 0 <= i < nbits b -> bit b i = true -> upto i m -> exists m', fork_page m cd pd buf (page_at i) = Ok m' /\ upto (i + 1) m'.
Proof.
  intros Hi Hb []. pose proof (uses_step i Hi) as Hu. rewrite Hb in Hu. destruct (page_at_user i Hi) as [Hus Hmod].
  destruct (pm_map Hmaps i) as [f Hf]; [done|]. destruct (Hparent _ f Hus Hmod Hf) as [Hheld Hne].
  destruct (fork_page_ok m pd cd buf fb (page_at i) f up_family0 up_cr4 Hus Hmod) as (m' & E & Hfam & Hcr & []).
  { by rewrite up_parent0 by (by apply user_mappable). }
  { apply up_rest0; [done|]. intros j _ Hj Heq. apply page_at_inj in Heq. lia. }
  { lia. } { lia. }
  exists m'. split; [done|]. split; try done.
  - intros j Hj Hji. destruct (Z.eq_dec j i) as [->|Hji'].
    + destruct cp_child0 as (g & Eg & Hw & Hg). exists f, g. split; [done|]. split; [done|].
      split; [rewrite Hw; apply (up_words0 f); done | by apply (ps_free _ _ up_pool0)].
    + destruct (up_copied0 j Hj ltac:(lia)) as (f' & g & Ef' & Eg & Hw & Hg). exists f', g.
      destruct (page_at_user j (proj1 Hj)) as [Hju Hjm].
      split; [done|]. rewrite cp_others0 by (done || by intros ?%page_at_inj). split; [done|]. split; [|done].
      rewrite <- Hw. destruct (fm_child _ _ _ _ _ up_family0 _ g Hju Hjm Eg) as [Hgh Hgfb]. by apply (cp_words0 g).
  - intros u Hu' Hno. rewrite cp_others0; [|done | apply Hno; [done | lia]]. apply up_rest0; [done|].
    intros j Hj Hji. apply Hno; [done | lia].
  - intros u Hu'. by rewrite cp_parent0, up_parent0.
  - intros h Hh Hhne. destruct (up_words0 h Hh Hhne) as [Hh1 Hw1]. destruct (cp_words0 h Hh1 Hhne) as [Hh2 Hw2].
    split; [done | by rewrite Hw2].
  - by etransitivity.
  - lia.
  - lia.
Qed.

Lemma bit_at idx k byte : 0 <= idx -> 0 <= k < 8 -> znth (bits b) idx = Some byte -> bit b (idx * 8 + k) = Z.testbit byte k.
Proof.
  intros Hi Hk Hb. unfold bit. replace ((idx * 8 + k) / 8) with idx by (Z.to_euclidean_division_equations; lia). replace ((idx * 8 + k) mod 8) with k by (Z.to_euclidean_division_equations; lia). by rewrite Hb.
Qed.

Lemma fork_bits_ok idx byte : 0 <= idx < btmp_bytes_len b -> znth (bits b) idx = Some byte ->
  forall n k m, Z.of_nat n + k = 8 -> 0 <= k -> upto (idx * 8 + k) m ->
  exists m', loop (fork_bit_body cd pd buf (vaddr_start uv) idx byte) (S n) (m, k) = Ok m' /\ upto ((idx + 1) * 8) m'.
Proof.
  intros Hidx Hb. induction n as [|n IH]; intros k m Hn Hk Hup; cbn [loop]; unfold fork_bit_body at 1.
  - rewrite (proj2 (Z.ltb_ge k 8)) by lia. exists m. split; [done|]. by replace ((idx + 1) * 8) with (idx * 8 + k) by lia.
  - rewrite (proj2 (Z.ltb_lt k 8)) by lia. unfold BITMAP_MASK. rewrite Z.land_comm, land_pow2_zero, negb_involutive by done.
    assert (0 <= idx * 8 + k < nbits b) as Hr by (unfold nbits; lia).
    rewrite <- (bit_at idx k byte) by (done || lia). destruct (bit b (idx * 8 + k)) eqn:Hbit.
    + destruct (upto_copy (idx * 8 + k) m Hr Hbit Hup) as (m1 & E1 & Hup1).
      destruct (page_at_user _ Hr) as [[_ Hlt] _]. pose proof (pm_low Hmaps). rewrite u32_small by (unfold page_at, PG_SIZE in *; lia).
      rewrite Z.add_comm. fold (page_at (idx * 8 + k)). rewrite E1. cbn [obind].
      apply (IH (k + 1)); [lia | lia | by rewrite Z.add_assoc].
    + apply (IH (k + 1)); [lia | lia | rewrite Z.add_assoc; by apply upto_skip].
Qed.

Lemma upto_zero idx m : 0 <= idx < btmp_bytes_len b -> znth (bits b) idx = Some 0 -> upto (idx * 8) m -> upto ((idx + 1) * 8) m.
Proof.
  intros Hidx Hb Hup. assert (forall n : nat, (n <= 8)%nat -> upto (idx * 8 + Z.of_nat n) m) as Hg.
  { induction n as [|n IH]; intros Hn; [by rewrite Z.add_0_r|].
    replace (idx * 8 + Z.of_nat (S n)) with (idx * 8 + Z.of_nat n + 1) by lia. apply upto_skip; [unfold nbits; lia | | apply IH; lia].
    rewrite (bit_at idx (Z.of_nat n) 0) by (done || lia). apply Z.bits_0. }
  specialize (Hg 8%nat ltac:(lia)). by replace ((idx + 1) * 8) with (idx * 8 + Z.of_nat 8) by lia.
Qed.

Lemma copy_body_ok m : upto 0 m -> exists m', copy_body_stack3 m cd pd buf uv = Ok m' /\ upto (nbits b) m'.
Proof.
  intros Hup. unfold copy_body_stack3. fold b.
  assert (forall n idx m, Z.of_nat n + idx = btmp_bytes_len b -> 0 <= idx -> upto (idx * 8) m ->
    exists m', loop (fork_byte_body cd pd buf uv) (S n) (m, idx) = Ok m' /\ upto (nbits b) m') as Hg.
  { induction n as [|n IH]; intros idx m1 Hn Hi Hup1; cbn [loop]; unfold fork_byte_body at 1; fold b.
    - rewrite (proj2 (Z.ltb_ge idx _)) by lia. exists m1. split; [done|]. unfold nbits. by replace (btmp_bytes_len b) with idx by lia.
    - rewrite (proj2 (Z.ltb_lt idx _)) by lia.
      destruct (rd_byte (bits b) idx) as (byte & Hb & _); [apply (pm_wf Hmaps) | assert (btmp_bytes_len b + 0 <= zlen (bits b)) by apply (wf_mem _ _ (pm_wf Hmaps)); lia |].
      rewrite (rd_znth _ _ _ Hb). cbn [obind]. destruct (Z.eqb_spec byte 0) as [->|Hnz]; cbn [negb obind].
      + apply IH; [lia | lia | apply upto_zero; [lia | done | done]].
      + destruct (fork_bits_ok idx byte ltac:(lia) Hb 8 0 m1) as (m2 & E2 & Hup2); [done | done | by rewrite Z.add_0_r |].
        rewrite E2. cbn [obind]. apply IH; [lia | lia | done]. }
  assert (0 <= btmp_bytes_len b) by apply (wf_len _ _ (pm_wf Hmaps)). apply Hg; [lia | done | done].
Qed.

End copy.

(** C2. [fork] copies memory: afterwards every page in use of the parent's address
    pool is mapped in the child, on a frame that was free before, with the words the
    parent's page had; the child has no other user page. The parent's translation,
    the kernel's and the words of all their pages are as before, and neither runs on
    a page table or buffer of the other. *)
Theorem copy_body_stack3_spec m pd cd buf fb uv : family m pd cd buf fb -> cr3 m = p -> pool_maps m uv ->
  (forall u, user u -> mmu (with_cr3 c m) u = None) ->
  (uses_from uv 0 <= free_pages (user_pool m))%nat -> (uses_from uv 0 <= free_pages (kernel_pool m))%nat ->
  exists m', copy_body_stack3 m cd pd buf uv = Ok m' /\ family m' pd cd buf fb /\ cr3 m' = p
    /\ (forall i, in_use uv i -> exists f g, mmu (with_cr3 p m) (page_at uv i) = Some f /\ mmu (with_cr3 c m') (page_at uv i) = Some g
         /\ page_words m' g = page_words m f /\ frame_free (user_pool m) g)
    /\ (forall u, user u -> (forall i, in_use uv i -> page_of u <> page_of (page_at uv i)) -> mmu (with_cr3 c m') u = None)
    /\ (forall u, mappable u -> mmu (with_cr3 p m') u = mmu (with_cr3 p m) u)
    /\ (forall f, held p c m f -> f <> fb -> held p c m' f /\ page_words m' f = page_words m f).
Proof.
  intros Hfam Hcr Hmaps Hempty Hu Hk. pose proof (fm_parent _ _ _ _ _ Hfam) as Hpar.
  destruct (copy_body_ok m pd cd buf fb uv Hmaps Hpar m) as (m' & E & []).
  { split; try done; [intros j [? _] ?; lia | intros u Hu' _; by apply Hempty]. }
  exists m'. split; [done|]. split; [done|]. split; [done|]. split; [|split; [|split; done]].
  - intros i Hi. apply up_copied0; [done | apply Hi].
  - intros u Hus Hno. apply up_rest0; [done|]. intros j Hj _. by apply Hno.
Qed.

End family.
