(* ===== verification/Forkdemo.v ===== *)
(** A machine with a parent of one user page and a child directory just created, on
    which [copy_body_stack3_spec] applies. *)
From S2P Require Import Prelude Bitmap Paging Process Space Fork Forkmem.

(** Directories at 1 MB and 1 MB + 12 KB, which share the kernel's table; the parent's
    user table and page; the copy buffer. *)
Definition fp : Z := 0x100000.
Definition fktab : Z := 0x101000.
Definition futab : Z := 0x102000.
Definition fc : Z := 0x103000.
Definition fbuf : Z := 0x104000.
Definition fdata : Z := 0x105000.
Definition fork_words : gmap Z Z := list_to_map [
  (fp + 4 * 32, PTE_ATTR futab); (fp + 4 * 768, PTE_ATTR fktab); (fp + 4 * 1023, PTE_ATTR fp);
  (fc + 4 * 768, PTE_ATTR fktab); (fc + 4 * 1023, PTE_ATTR fc);
  (fktab + 4 * 1, PTE_ATTR fp); (fktab + 4 * 2, PTE_ATTR fc); (fktab + 4 * 3, PTE_ATTR fbuf);
  (futab + 4 * 72, PTE_ATTR fdata); (fdata, 0x12345678); (fdata + 4 * 1023, 0x9abcdef0) ].
Definition fork_vm : vm :=
  mk_vm (fun a => default 0 (fork_words !! a)) fp (demo_pool 0x200000) (demo_pool 0x300000)
    (demo_vaddr 0xc0100000) (mk_vaddr (mk_bitmap 1 [1; 0]) USER_VADDR_START).

Lemma fork_entries d (l : list Z) : bool_decide (Forall (fun i => present (pm fork_vm (d + 4 * i)) = true -> i ∈ l) (seqZ 0 1024)) = true ->
  forall i, 0 <= i < 1024 -> present (pm fork_vm (d + 4 * i)) = true -> i ∈ l.
Proof.
  intros Hb i Hi. apply bool_decide_eq_true in Hb. rewrite Forall_forall in Hb. apply Hb, elem_of_seqZ. lia.
Qed.

Lemma fp_entries i : 0 <= i < 1024 -> present (pm fork_vm (fp + 4 * i)) = true -> i = 32 \/ i = 768 \/ i = 1023.
Proof. intros Hi Hp. pose proof (fork_entries fp [32; 768; 1023] ltac:(vm_compute; reflexivity) i Hi Hp) as He. set_solver. Qed.

Lemma fc_entries i : 0 <= i < 1024 -> present (pm fork_vm (fc + 4 * i)) = true -> i = 768 \/ i = 1023.
Proof. intros Hi Hp. pose proof (fork_entries fc [768; 1023] ltac:(vm_compute; reflexivity) i Hi Hp) as He. set_solver. Qed.

Lemma futab_entries i : 0 <= i < 1024 -> present (pm fork_vm (futab + 4 * i)) = true -> i = 72.
Proof. intros Hi Hp. pose proof (fork_entries futab [72] ltac:(vm_compute; reflexivity) i Hi Hp) as He. set_solver. Qed.

(** Nothing below the pools is free. *)
Lemma fork_below f pf : 0 <= f < 0x200000 -> ~ frame_free (get_pool pf fork_vm) f.
Proof. intros Hf (i & Hi & E & _). destruct pf; cbn in *; unfold PG_SIZE in *; lia. Qed.

Lemma fork_vm_ok d (l : list Z) : d = fp /\ l = [32; 768] \/ d = fc /\ l = [768] ->
  (forall i, 0 <= i < 1023 -> present (pm fork_vm (d + 4 * i)) = true -> i ∈ l) -> vm_ok (with_cr3 d fork_vm).
Proof.
  intros Hd He. split.
  - destruct Hd as [[-> _]|[-> _]]; done.
  - destruct Hd as [[-> _]|[-> _]]; vm_compute; done.
  - apply demo_pool_ok; [lia | done].
  - apply demo_pool_ok; [lia | done].
  - vm_compute. discriminate.
  - intros pf. apply (fork_below d pf). unfold fp, fc in Hd. lia.
  - intros i Hi Hp. specialize (He i Hi Hp). destruct Hd as [[-> ->]|[-> ->]]; repeat apply elem_of_cons in He as [->|He]; try (by apply elem_of_nil in He);
      (split; [vm_compute; discriminate|]; intros pf; apply (fork_below _ pf); vm_compute; split; congruence).
  - intros i j Hi Hj Hij Hpi Hpj. pose proof (He i ltac:(lia) Hpi) as Ei. pose proof (He j ltac:(lia) Hpj) as Ej.
    destruct Hd as [[-> ->]|[-> ->]]; repeat apply elem_of_cons in Ei as [->|Ei]; try (by apply elem_of_nil in Ei);
      repeat apply elem_of_cons in Ej as [->|Ej]; try (by apply elem_of_nil in Ej); try done; vm_compute; discriminate.
Qed.

Lemma fp_ok : vm_ok (with_cr3 fp fork_vm).
Proof.
  apply (fork_vm_ok fp [32; 768]); [by left|]. intros i Hi Hp. destruct (fp_entries i ltac:(lia) Hp) as [->|[->| ->]]; [set_solver..|lia].
Qed.

Lemma fc_ok : vm_ok (with_cr3 fc fork_vm).
Proof.
  apply (fork_vm_ok fc [768]); [by right|]. intros i Hi Hp. destruct (fc_entries i ltac:(lia) Hp) as [->| ->]; [set_solver|lia].
Qed.

Lemma fork_tables d f : d = fp \/ d = fc -> is_table (with_cr3 d fork_vm) f -> f = futab \/ f = fktab.
Proof.
  intros Hd (i & Hi & Hp & Hf). cbn in Hp, Hf. destruct Hd as [->| ->].
  - destruct (fp_entries i ltac:(lia) Hp) as [->|[->| ->]]; [left | right | lia]; rewrite <- Hf; vm_compute; reflexivity.
  - destruct (fc_entries i ltac:(lia) Hp) as [->| ->]; [right | lia]. rewrite <- Hf. vm_compute. reflexivity.
Qed.

Lemma fork_pair : pair_ok fp fc fork_vm.
Proof.
  split.
  - exact fp_ok.
  - exact fc_ok.
  - done.
  - intros i Hi. destruct (Z.eq_dec i 768) as [->|Hne]; [vm_compute; reflexivity|].
    cbn. assert (forall d, d = fp \/ d = fc -> fork_words !! (d + 4 * i) = None) as Hn; [|by rewrite !Hn by auto].
    intros d Hd. apply not_elem_of_list_to_map_1. cbn. unfold fp, fc, fktab, futab, fdata in *. rewrite !not_elem_of_cons. destruct Hd as [->| ->]; repeat split; try lia; apply not_elem_of_nil.
  - vm_compute. done.
  - split; intros Ht; [destruct (fork_tables fp fc) as [E|E] | destruct (fork_tables fc fp) as [E|E]]; auto; vm_compute in E; discriminate.
  - intros i j Hi Hj _ Hp. destruct (fc_entries j ltac:(lia) Hp) as [->| ->]; lia.
Qed.

Lemma fork_held f : aligned f -> 0 <= f < 0x200000 -> ~ (f ∈ [fp; fc; futab; fktab]) -> held fp fc fork_vm f.
Proof.
  intros Ha Hf Hn. rewrite !not_elem_of_cons in Hn. destruct Hn as (N1 & N2 & N3 & N4 & _).
  split; [split; [done | done|] .. | intros pf; by apply fork_below]; intros Ht;
    [destruct (fork_tables fp f) | destruct (fork_tables fc f)]; auto.
Qed.

Lemma fork_user u f : user u -> u mod PG_SIZE = 0 -> mmu (with_cr3 fp fork_vm) u = Some f -> f = fdata.
Proof.
  intros Hu Hmod E. pose proof (user_idx u Hu) as Hx. destruct (mappable_idx u (user_mappable u Hu)) as (_ & _ & Ht).
  unfold mmu in E. destruct (present (pm _ (pde_pa _ u))) eqn:Hp; [|done]. unfold pde_pa in Hp. cbn [cr3 with_cr3] in Hp.
  destruct (fp_entries (pdx u) ltac:(lia) Hp) as [E1|[E1|E1]]; [|lia..].
  assert (pte_pa (with_cr3 fp fork_vm) u = futab + 4 * ptx u) as Ept.
  { unfold pte_pa, pde_pa. cbn [cr3 with_cr3]. rewrite E1. reflexivity. }
  rewrite Ept in E. destruct (present (pm _ (futab + 4 * ptx u))) eqn:Hp2; [|done].
  rewrite (futab_entries (ptx u) Ht Hp2) in E. unfold PG_SIZE in Hmod. change (2 ^ 12) with 4096 in E. rewrite Hmod in E. injection E as <-. reflexivity.
Qed.

Lemma fork_child_empty u : user u -> mmu (with_cr3 fc fork_vm) u = None.
Proof.
  intros Hu. pose proof (user_idx u Hu) as Hx. unfold mmu. destruct (present (pm _ (pde_pa _ u))) eqn:Hp; [|done].
  unfold pde_pa in Hp. cbn [cr3 with_cr3] in Hp. destruct (fc_entries (pdx u) ltac:(lia) Hp); lia.
Qed.

Lemma fork_family : family fp fc fork_vm 0xc0001000 0xc0002000 0xc0003000 fbuf.
Proof.
  split.
  - exact fork_pair.
  - split; [done|]. repeat split; vm_compute; congruence.
  - split; [done|]. repeat split; vm_compute; congruence.
  - split; [done|]. repeat split; vm_compute; congruence.
  - apply fork_held; [done | done|]. apply (bool_decide_unpack _). vm_compute. exact I.
  - intros u f Hu Hm E. rewrite (fork_user u f Hu Hm E). split; [|done]. apply fork_held; [done | done|]. apply (bool_decide_unpack _). vm_compute. exact I.
  - intros u f Hu _ E. by rewrite fork_child_empty in E.
Qed.

Example copy_body_stack3_witness : exists m' g,
  copy_body_stack3 fork_vm 0xc0002000 0xc0001000 0xc0003000 (userprog_vaddr fork_vm) = Ok m'
  /\ mmu (with_cr3 fc m') 0x8048000 = Some g /\ page_words m' g = page_words fork_vm fdata.
Proof.
  destruct (copy_body_stack3_spec fp fc fork_vm 0xc0001000 0xc0002000 0xc0003000 fbuf (userprog_vaddr fork_vm)) as (m' & E & _ & _ & Hc & _).
  - exact fork_family.
  - reflexivity.
  - split.
    + solve_bitmap_wf.
    + reflexivity.
    + vm_compute. discriminate.
    + vm_compute. discriminate.
    + intros i [Hi Hb]. exists fdata. change (0 <= i < 8) in Hi. destruct (Z.eq_dec i 0) as [->|Hne]; [vm_compute; reflexivity|].
      exfalso. assert (i = 1 \/ i = 2 \/ i = 3 \/ i = 4 \/ i = 5 \/ i = 6 \/ i = 7) as Hcase by lia.
      repeat (destruct Hcase as [->|Hcase]; [vm_compute in Hb; discriminate|]). rewrite Hcase in Hb. vm_compute in Hb. discriminate.
  - exact fork_child_empty.
  - apply (bool_decide_unpack _). vm_compute. exact I.
  - apply (bool_decide_unpack _). vm_compute. exact I.
  - destruct (Hc 0 ltac:(split; [vm_compute; split; [discriminate | reflexivity] | reflexivity])) as (f & g & Ef & Eg & Hw & _).
    exists m', g. split; [exact E|]. split; [exact Eg|]. rewrite Hw. vm_compute in Ef. injection Ef as <-. reflexivity.
Defined.
