(* ===== verification/Waitexit.v ===== *)
(** userprog/wait_exit.c: the end of a process. [sys_exit] hands its children to
    init, gives back its memory and files and leaves it hanging with its exit
    status; [sys_wait] collects the status and frees the task structure. *)
From S2P Require Import Prelude Bitmap Thread Inode File.
From S2P Require Import Paging Process.

(** ** User memory (first part of [release_prog_resource]) *)

Definition release_pte_body (first_pte_vaddr_in_pde : Z) (s : vm * Z) : outcome (vm * Z + vm) :=
  let '(m, pte_idx) := s in
  if pte_idx <? 1024 then
    let! pte := load m (u32 (first_pte_vaddr_in_pde + 4 * pte_idx)) in
    let! m := if negb (Z.land pte 0x00000001 =? 0) then free_a_phy_page m (Z.land pte 0xfffff000) else Ok m in
    Ok (inl (m, pte_idx + 1))
  else Ok (inr m).

Definition release_pde_body (pgdir_vaddr : Z) (s : vm * Z) : outcome (vm * Z + vm) :=
  let '(m, pde_idx) := s in
  if pde_idx <? 768 then
    let! pde := load m (u32 (pgdir_vaddr + 4 * pde_idx)) in
    let! m :=
      if negb (Z.land pde 0x00000001 =? 0) then
        let! m := loop (release_pte_body (pte_ptr (u32 (pde_idx * 0x400000)))) 1025 (m, 0) in
        free_a_phy_page m (Z.land pde 0xfffff000)
      else Ok m in
    Ok (inl (m, pde_idx + 1))
  else Ok (inr m).

Definition release_frames (m : vm) (pgdir_vaddr : Z) : outcome vm :=
  loop (release_pde_body pgdir_vaddr) 769 (m, 0).

(** Whole pages of the bitmap only: the division rounds down. *)
Definition release_bitmap (m : vm) (uv : user_vaddr) : outcome vm :=
  mfree_page m PF_KERNEL (uv_bits uv) (btmp_bytes_len (vaddr_bitmap (uv_pool uv)) / PG_SIZE).

(** ** The parent's side *)

Definition find_child (k : kstate) (ppid : Z) (t : Z) : bool :=
  match tasks k !! t with Some x => parent_pid x =? ppid | None => false end.

Definition find_hanging_child (k : kstate) (ppid : Z) (t : Z) : bool :=
  match tasks k !! t with Some x => (parent_pid x =? ppid) && bool_decide (status x = TASK_HANGING) | None => false end.

(** The callback never stops the traversal. *)
Definition init_adopt_a_child (p : Z) (k : kstate) (t : Z) : kstate :=
  match tasks k !! t with
  | Some x => if parent_pid x =? p then with_tasks (<[t := set_parent 1 x]> (tasks k)) k else k
  | None => k
  end.

Definition adopt_children (k : kstate) (p : Z) : kstate := fold_left (init_adopt_a_child p) (thread_all_list k) k.

(** One turn of the loop of [sys_wait]: a child is collected, there is no child, or
    the caller sleeps, to take the next turn when it runs again. The pages are those
    [thread_exit] frees. *)
Inductive wait_result :=
  | Reaped (child_pid : Z) (status : Z) (pages : list Z)
  | NoChild
  | Asleep (old_status : bool).

Definition sys_wait_turn (k : kstate) : outcome (kstate * wait_result) :=
  let! parent_thread := get_task k (running_thread k) in
  match List.find (find_hanging_child k (pid parent_thread)) (thread_all_list k) with
  | Some child_thread =>
      let! x := get_task k child_thread in
      let status := exit_status x in
      let child_pid := u16 (pid x) in
      let! ' (k, pages) := thread_exit k child_thread false in
      Ok (k, Reaped (s16 child_pid) status pages)
  | None =>
      match List.find (find_child k (pid parent_thread)) (thread_all_list k) with
      | None => Ok (k, NoChild)
      | Some _ => let! ' (k, old_status) := thread_block k TASK_WAITING in Ok (k, Asleep old_status)
      end
  end.

(** ** The child's side *)

(** [sys_exit] before its resources go: the status is cut to eight bits. *)
Definition exit_begin (k : kstate) (status : Z) : outcome kstate :=
  let child_thread := running_thread k in
  let! k := upd_task k child_thread (set_exit_status (s8 status)) in
  let! x := get_task k child_thread in
  c_assert (negb (parent_pid x =? -1)) ;;;
  Ok (adopt_children k (pid x)).

(** [sys_exit] afterwards: a parent not found is NULL. *)
Definition exit_end (k : kstate) : outcome (kstate * bool) :=
  let! x := get_task k (running_thread k) in
  let parent_thread := pid2thread k (parent_pid x) in
  let! p := get_task k parent_thread in
  let! k := if bool_decide (status p = TASK_WAITING) then thread_unblock k parent_thread else Ok k in
  thread_block k TASK_HANGING.

Section exit.
Context {D H : Type} `{BlockDevice D} `{KernelHeap H}.
Abbreviation st := (sys D H).

(** One descriptor. The page of a pipe goes back at once; [sys_close] of a file
    frees no page. *)
Definition release_fd (s : st) (fds : list Z) (local_fd : Z) : outcome st :=
  let! global_fd := rd fds local_fd in
  if negb (global_fd =? -1) then
    let! p := is_pipe (s_fs s) local_fd in
    if (p : bool) then
      let! g := fd_local2global (s_fs s) local_fd in
      let! x := get_file (s_fs s) g in
      let x := set_pos (u32 (fd_pos x - 1)) x in
      if fd_pos x =? 0 then
        let! m := mfree_page (s_vm s) PF_KERNEL (fd_inode x) 1 in
        let! f := put_file g (mk_file (fd_pos x) (fd_flag x) 0) (s_fs s) in
        Ok (with_vm m (with_fs f s))
      else let! f := put_file g x (s_fs s) in Ok (with_fs f s)
    else let! ' (f, _, _) := sys_close (s_fs s) local_fd in Ok (with_fs f s)
  else Ok s.

Definition release_fd_body (release_thread : Z) (v : st * Z) : outcome (st * Z + st) :=
  let '(s, local_fd) := v in
  if local_fd <? MAX_FILES_OPEN_PER_PROC then
    let! t := get_task (s_k s) release_thread in
    let! s := release_fd s (fd_table t) local_fd in
    Ok (inl (s, local_fd + 1))
  else Ok (inr s).

Definition release_prog_resource (s : st) (release_thread : Z) : outcome st :=
  let! t := get_task (s_k s) release_thread in
  let! m := release_frames (s_vm s) (pgdir t) in
  let! uv := get_uv s release_thread in
  let! m := release_bitmap m uv in
  loop (release_fd_body release_thread) 6 (with_vm m s, 3).

Definition sys_exit (s : st) (status : Z) : outcome (st * bool) :=
  let! k := exit_begin (s_k s) status in
  let! s := release_prog_resource (with_k k s) (running_thread k) in
  let! ' (k, old_status) := exit_end (s_k s) in
  Ok (with_k k s, old_status).

(** The pages go back to the kernel's pool in order. *)
Fixpoint free_pages_of (m : vm) (pages : list Z) : outcome vm :=
  match pages with
  | [] => Ok m
  | a :: pages => let! m := mfree_page m PF_KERNEL a 1 in free_pages_of m pages
  end.

Definition sys_wait (s : st) : outcome (st * wait_result) :=
  let! ' (k, r) := sys_wait_turn (s_k s) in
  let! m := match r with Reaped _ _ pages => free_pages_of (s_vm s) pages | _ => Ok (s_vm s) end in
  Ok (with_vm m (with_k k s), r).
End exit.
