(* ===== verification/Kin.v ===== *)
(** Parents and children: what [sys_fork], [sys_wait] and [sys_exit] keep true of the
    tasks whatever the scheduler does between, so that no parent sleeps on a child
    that has already ended. *)
From S2P Require Import Prelude Bitmap Thread Process Fork Waitexit.

(** ** What the scheduler leaves alone *)

(** [f] of every task is as before. *)
Definition keeps {A} (f : task_struct -> A) (k k' : kstate) : Prop :=
  forall t, f <$> tasks k' !! t = f <$> tasks k !! t.

#[export] Instance keeps_refl {A} (f : task_struct -> A) : Reflexive (keeps f).
Proof. done. Qed.

#[export] Instance keeps_trans {A} (f : task_struct -> A) : Transitive (keeps f).
Proof. intros k1 k2 k3 E1 E2 t. by rewrite E2, E1. Qed.

Lemma keeps_upd {A} (f : task_struct -> A) k k' t g : upd_task k t g = Ok k' -> (forall x, f (g x) = f x) -> keeps f k k'.
Proof.
  unfold upd_task, get_task. intros E Hg u. destruct (tasks k !! t) as [x|] eqn:Hx; [|done]. injection E as <-. cbn.
  rewrite lookup_insert. case_decide; [subst; by rewrite Hx; cbn; rewrite Hg | done].
Qed.

Lemma keeps_tasks {A} (f : task_struct -> A) k k1 k2 : keeps f k k1 -> tasks k2 = tasks k1 -> keeps f k k2.
Proof. intros Hk E t. by rewrite E. Qed.

Section keeps.
Context {A} (f : task_struct -> A).
Hypothesis Hstatus : forall s x, f (set_status s x) = f x.
Hypothesis Hticks : forall v x, f (set_ticks v x) = f x.

Lemma status_keeps k t s k' : upd_task k t (set_status s) = Ok k' -> keeps f k k'.
Proof. intros E. by eapply keeps_upd. Qed.

Lemma unblock_keeps k t k' : thread_unblock k t = Ok k' -> keeps f k k'.
Proof.
  unfold thread_unblock. rewrite intr_disable_eq. intros E.
  apply obind_Ok in E as (x & _ & E). apply obind_Ok in E as ([] & _ & E). apply obind_Ok in E as (k1 & Ek & E).
  injection E as <-. rewrite intr_set_status_eq. apply (keeps_tasks f _ k1); [|done].
  case_bool_decide; [|by injection Ek as <-]. apply obind_Ok in Ek as ([] & _ & Ek). destruct (elem_find _ _); [done|].
  exact (status_keeps (with_ready _ (with_intr false k)) _ _ _ Ek).
Qed.

Lemma requeue_keeps k k' : schedule_requeue k = Ok k' -> keeps f k k'.
Proof.
  unfold schedule_requeue. intros E. apply obind_Ok in E as (x & _ & E).
  case_bool_decide; [|by injection E as <-]. apply obind_Ok in E as ([] & _ & E).
  eapply (keeps_upd f (with_ready _ k)); [exact E|]. intros y. cbv beta. by rewrite Hstatus, Hticks.
Qed.

Lemma activate_tasks k t k' : process_activate k t = Ok k' -> tasks k' = tasks k.
Proof.
  unfold process_activate, Thread.page_dir_activate. intros E. apply obind_Ok in E as ([] & _ & E).
  apply obind_Ok in E as (k1 & E1 & E). apply obind_Ok in E1 as (x & _ & E1). injection E1 as <-.
  apply obind_Ok in E as (y & _ & E). injection E as <-. by destruct (negb _).
Qed.

Lemma schedule_keeps k k' : schedule k = Ok k' -> keeps f k k'.
Proof.
  unfold schedule. intros E. apply obind_Ok in E as ([] & _ & E). apply obind_Ok in E as (k1 & E1 & E). apply obind_Ok in E as (k2 & E2 & E).
  transitivity k1; [by apply requeue_keeps|]. transitivity k2.
  { unfold schedule_wake_idle in E2. destruct (thread_ready_list k1); [by eapply unblock_keeps | by injection E2 as <-]. }
  destruct (thread_ready_list k2) as [|next rest]; [done|]. apply obind_Ok in E as (k3 & E3 & E). apply obind_Ok in E as (k4 & E4 & E).
  injection E as <-. apply (keeps_tasks f _ k3); [exact (status_keeps (with_ready _ _) _ _ _ E3)|]. exact (activate_tasks _ _ _ E4).
Qed.

Lemma block_keeps k s k' o : thread_block k s = Ok (k', o) -> keeps f k k'.
Proof.
  unfold thread_block. rewrite intr_disable_eq. intros E. apply obind_Ok in E as ([] & _ & E). apply obind_Ok in E as (k1 & E1 & E).
  apply obind_Ok in E as (k2 & E2 & E). injection E as <- <-.
  transitivity k1; [exact (status_keeps (with_intr false k) _ _ _ E1) | by apply schedule_keeps].
Qed.

Lemma yield_keeps k k' o : thread_yield k = Ok (k', o) -> keeps f k k'.
Proof.
  unfold thread_yield. rewrite intr_disable_eq. intros E. apply obind_Ok in E as ([] & _ & E). apply obind_Ok in E as (k1 & E1 & E).
  apply obind_Ok in E as (k2 & E2 & E). injection E as <- <-.
  transitivity k1; [exact (status_keeps (with_ready _ (with_intr false k)) _ _ _ E1) | by apply schedule_keeps].
Qed.
End keeps.

(** ** The invariant *)

(** What identifies a task: its pid, its parent's, its page directory. *)
Definition ids (x : task_struct) : Z * Z * Z := (pid x, parent_pid x, pgdir x).
Definition who (k : kstate) (t : Z) : option (Z * Z * Z) := ids <$> tasks k !! t.

Definition child (k : kstate) (p c : Z) : Prop := c ∈ thread_all_list k /\ exists q d, who k c = Some (q, p, d).

(** Pid [p] is that of a task that has not ended. *)
Definition living (k : kstate) (p : Z) : Prop :=
  exists u q d, u ∈ thread_all_list k /\ who k u = Some (p, q, d) /\ st_of k u <> Some TASK_HANGING.

(** [ko_wait] is the point: whoever waits has a child, and unless it is init none of
    its children has ended. Init has pid 1 and no parent, the idle thread no
    relatives. *)
Record kin_ok (k : kstate) : Prop := {
  ko_sched : sched_ok k;
  ko_pids : pids_wf k;
  ko_nodup : NoDup (thread_all_list k);
  ko_all : forall t, t ∈ thread_all_list k <-> exists s, st_of k t = Some s /\ s <> TASK_DIED;
  ko_pid : forall t p q d, t ∈ thread_all_list k -> who k t = Some (p, q, d) -> 1 <= p <= 1024 /\ pid_used k p = true;
  ko_uniq : forall t u p q d q' d', t ∈ thread_all_list k -> u ∈ thread_all_list k ->
    who k t = Some (p, q, d) -> who k u = Some (p, q', d') -> t = u;
  ko_parent : forall t p q d, t ∈ thread_all_list k -> who k t = Some (p, q, d) -> q = -1 \/ living k q;
  ko_init : exists i d, i ∈ thread_all_list k /\ who k i = Some (1, -1, d) /\ st_of k i <> Some TASK_HANGING;
  ko_wait : forall t p q d, t ∈ thread_all_list k -> who k t = Some (p, q, d) -> st_of k t = Some TASK_WAITING ->
    (exists c, child k p c) /\ (p <> 1 -> forall c, child k p c -> st_of k c <> Some TASK_HANGING);
  ko_idle : exists p, who k (idle_thread k) = Some (p, -1, 0) /\ p <> 1 /\ forall c, ~ child k p c }.

Lemma keeps_who k k' : keeps ids k k' -> forall t, who k' t = who k t.
Proof. intros Hk t. exact (Hk t). Qed.

Lemma who_task k t p q d : who k t = Some (p, q, d) <-> exists x, tasks k !! t = Some x /\ pid x = p /\ parent_pid x = q /\ pgdir x = d.
Proof.
  unfold who. destruct (tasks k !! t) as [x|] eqn:E; cbn; split.
  - intros [= <- <- <-]. by exists x.
  - intros (y & [= <-] & <- & <- & <-). done.
  - done.
  - by intros (y & ? & _).
Qed.

Lemma all_task k t : kin_ok k -> t ∈ thread_all_list k -> exists x, tasks k !! t = Some x /\ who k t = Some (pid x, parent_pid x, pgdir x).
Proof.
  intros Hk Ht. apply (ko_all k Hk) in Ht as (s & Hs & _). destruct (st_of_task _ _ _ Hs) as (x & Hx & _).
  exists x. split; [done|]. apply who_task. by exists x.
Qed.

(** Running, ready and blocked are all one here. *)
Definition active (s : task_status) : bool := match s with TASK_RUNNING | TASK_READY | TASK_BLOCKED => true | _ => false end.

Definition calm (s s' : option task_status) : Prop :=
  s' = s \/ exists a b, s = Some a /\ s' = Some b /\ active a = true /\ active b = true.

Lemma calm_keeps s s' r : calm s s' -> active r = false -> s' = Some r <-> s = Some r.
Proof. intros [->|(a & b & -> & -> & Ha & Hb)] Hr; [done|]. split; intros [= ->]; congruence. Qed.

Lemma calm_alive s s' : calm s s' -> (exists r, s' = Some r /\ r <> TASK_DIED) <-> (exists r, s = Some r /\ r <> TASK_DIED).
Proof.
  intros [->|(a & b & -> & -> & Ha & Hb)]; [done|].
  split; intros _; [exists a | exists b]; (split; [done|]); by intros ->.
Qed.

(** Nothing but statuses changes, nobody ends, and who waits from now on may. *)
Lemma kin_same k k' : kin_ok k -> sched_ok k' -> keeps ids k k' -> same_rest k k' ->
  (forall t, st_of k' t = Some TASK_HANGING <-> st_of k t = Some TASK_HANGING) ->
  (forall t, (exists r, st_of k' t = Some r /\ r <> TASK_DIED) <-> (exists r, st_of k t = Some r /\ r <> TASK_DIED)) ->
  (forall t p q d, who k t = Some (p, q, d) -> st_of k' t = Some TASK_WAITING -> st_of k t <> Some TASK_WAITING ->
     (exists c, child k p c) /\ forall c, child k p c -> st_of k c <> Some TASK_HANGING) -> kin_ok k'.
Proof.
  intros [] Hs Hk (Ha & Hid & _ & Hp) Hh Hal Hnew. pose proof (keeps_who _ _ Hk) as Hw.
  assert (forall p c, child k' p c <-> child k p c) as Hch.
  { intros p c. unfold child. rewrite Ha. by setoid_rewrite Hw. }
  assert (forall p, living k' p <-> living k p) as Hl.
  { intros p. unfold living. rewrite Ha. setoid_rewrite Hw. by setoid_rewrite Hh. }
  constructor; rewrite ?Ha, ?Hid; try setoid_rewrite Hw; unfold pids_wf, pid_used in *; rewrite ?Hp; try done.
  - intros t. by rewrite Hal.
  - intros t p q d Ht Hq. rewrite Hl. by eapply ko_parent0.
  - destruct ko_init0 as (i & d & Hi & Hwi & Hni). exists i, d. by rewrite Hh.
  - intros t p q d Ht Hq Hwt. setoid_rewrite Hch. setoid_rewrite Hh.
    destruct (decide (st_of k t = Some TASK_WAITING)) as [Ew|Ew]; [by apply (ko_wait0 t p q d)|].
    destruct (Hnew t p q d Hq Hwt Ew). done.
  - destruct ko_idle0 as (p & Hi & Hne & Hc). exists p. by setoid_rewrite Hch.
Qed.

(** What the scheduler does changes none of it. *)
Lemma kin_quiet k k' : kin_ok k -> sched_ok k' -> keeps ids k k' -> same_rest k k' ->
  (forall t, calm (st_of k t) (st_of k' t)) -> kin_ok k'.
Proof.
  intros Hk Hs Hi Hr Hst. apply (kin_same k k'); try done.
  - intros t. by apply calm_keeps.
  - intros t. by apply calm_alive.
  - intros t p q d _ Hw Hn. by apply (calm_keeps _ _ TASK_WAITING (Hst t) eq_refl) in Hw.
Qed.

(** ** Waiting *)

Lemma find_child_true k p t : find_child k p t = true <-> exists q d, who k t = Some (q, p, d).
Proof.
  unfold find_child, who, ids. destruct (tasks k !! t) as [x|]; cbn; [|by split; [|intros (? & ? & ?)]].
  rewrite Z.eqb_eq. split; [intros <-; by exists (pid x), (pgdir x) | by intros (q & d & [= _ <- _])].
Qed.

Lemma find_hanging_true k p t : find_hanging_child k p t = true <-> (exists q d, who k t = Some (q, p, d)) /\ st_of k t = Some TASK_HANGING.
Proof.
  rewrite <- find_child_true. unfold find_hanging_child, find_child, st_of. destruct (tasks k !! t) as [x|]; cbn; [|by split; [|intros []]].
  rewrite andb_true_iff, bool_decide_eq_true. split; intros [-> E]; (split; [done|]); congruence.
Qed.

Lemma find_spec (f : Z -> bool) l :
  match List.find f l with Some t => t ∈ l /\ f t = true | None => forall t, t ∈ l -> f t = false end.
Proof.
  destruct (List.find f l) eqn:E.
  - apply List.find_some in E as [Hin Hf]. by rewrite list_elem_of_In.
  - intros t Ht. apply (List.find_none _ _ E). by rewrite <- list_elem_of_In.
Qed.

(** The first child that has ended. *)
Definition first_hanging (k : kstate) (p : Z) (c : Z) : Prop := List.find (find_hanging_child k p) (thread_all_list k) = Some c.

Lemma first_hanging_child k p c : first_hanging k p c -> child k p c /\ st_of k c = Some TASK_HANGING.
Proof.
  intros E. pose proof (find_spec (find_hanging_child k p) (thread_all_list k)) as F. rewrite E in F. destruct F as [Hin F].
  apply find_hanging_true in F as [Hw Hs]. done.
Qed.

Lemma no_hanging k p : List.find (find_hanging_child k p) (thread_all_list k) = None -> forall c, child k p c -> st_of k c <> Some TASK_HANGING.
Proof.
  intros E c [Hin Hw] Hs. pose proof (find_spec (find_hanging_child k p) (thread_all_list k)) as F. rewrite E in F.
  specialize (F c Hin). enough (find_hanging_child k p c = true) by congruence. by apply find_hanging_true.
Qed.

Lemma cur_all k : kin_ok k -> cur k ∈ thread_all_list k.
Proof. intros Hk. apply (ko_all k Hk). exists TASK_RUNNING. split; [apply (ko_sched k Hk) | done]. Qed.

(** The end of a child: one task leaves the lists, the others are as they were. *)
Record reaped (k k' : kstate) (c : Z) : Prop := {
  re_sched : sched_ok k';
  re_cur : cur k' = cur k;
  re_all : thread_all_list k' = remove_elem c (thread_all_list k);
  re_ready : thread_ready_list k' = thread_ready_list k;
  re_idle : idle_thread k' = idle_thread k;
  re_died : st_of k' c = Some TASK_DIED;
  re_rest : forall u, u <> c -> tasks k' !! u = tasks k !! u;
  re_pids : pids_wf k';
  re_free : forall q, 1 <= q -> (exists x, tasks k !! c = Some x /\ q = pid x) -> pid_used k' q = false;
  re_used : forall q, 1 <= q -> ~ (exists x, tasks k !! c = Some x /\ q = pid x) -> pid_used k' q = pid_used k q }.

Lemma exit_idle k t b k' pages : thread_exit k t b = Ok (k', pages) -> b = false -> idle_thread k' = idle_thread k.
Proof.
  unfold thread_exit. rewrite intr_disable_snd. intros E ->. apply obind_Ok in E as (k1 & E1 & E).
  unfold upd_task in E1. apply obind_Ok in E1 as (x & _ & E1). injection E1 as <-.
  apply obind_Ok in E as (y & _ & E). apply obind_Ok in E as (k2 & E2 & E). apply obind_Ok in E as (y2 & _ & E). apply obind_Ok in E as (k3 & E3 & E).
  unfold release_pid in E3. apply obind_Ok in E3 as (b & _ & E3). injection E3 as <-. cbn [obind] in E. injection E as E _. rewrite <- E. cbn.
  destruct (elem_find (thread_all_list _) _) in E2; [|done]. injection E2 as E2. rewrite <- E2. cbn. by destruct (elem_find _ _).
Qed.

Lemma reap_ok k c x p : kin_ok k -> tasks k !! c = Some x -> child k p c -> p <> -1 -> st_of k c = Some TASK_HANGING ->
  exists k', thread_exit k c false = Ok (k', (if pgdir x =? 0 then [] else [pgdir x]) ++ (if c =? main_thread k then [] else [c]))
    /\ reaped k k' c.
Proof.
  intros Hk Hx [Hin (q & d & Hw)] Hp Hs. destruct (ko_sched k Hk) as [Hwf Hrun].
  assert (c <> cur k) as Hne by (intros ->; congruence).
  assert (c <> idle_thread k) as Hi. { intros ->. destruct (ko_idle k Hk) as (pi & Ew & _). congruence. }
  destruct (proj1 (who_task k c q p d) Hw) as (x' & Hx' & Epid & _). assert (x' = x) as -> by congruence.
  destruct (ko_pid k Hk c q p d Hin Hw) as [Hr _].
  destruct (thread_exit_spec k c x (ko_sched k Hk) (ko_pids k Hk) Hx Hi Hin ltac:(lia)) as (k' & E & Hs' & _ & Hd & _ & _ & Ha & Hpw & Hf & Hu & Hrest).
  rewrite bool_decide_false in E by done. destruct (Hrest Hne) as (Hc & Hready & Hsame). exists k'. split; [exact E|]. constructor; try done.
  - rewrite Hready. apply remove_elem_notin. destruct Hwf. rewrite wf_ready, Hs. done.
  - by eapply exit_idle.
  - intros q0 _ (y & Hy & ->). rewrite Hx in Hy. injection Hy as <-. done.
  - intros q0 Hq0 Hn. apply Hu; [done|]. intros ->. apply Hn. by exists x.
Qed.

Lemma remove_elem_in t l u : u ∈ remove_elem t l <-> u ∈ l /\ u <> t.
Proof. unfold remove_elem. rewrite list_elem_of_filter. tauto. Qed.

Lemma reaped_child k k' c : reaped k k' c -> forall p t, child k' p t <-> child k p t /\ t <> c.
Proof.
  intros R p t. unfold child, who. rewrite (re_all _ _ _ R), remove_elem_in. destruct (decide (t = c)) as [->|Hne]; [tauto|].
  rewrite (re_rest _ _ _ R t Hne). tauto.
Qed.

Lemma reaped_st k k' c : reaped k k' c -> forall t, t <> c -> st_of k' t = st_of k t.
Proof. intros R t Ht. unfold st_of. by rewrite (re_rest _ _ _ R t Ht). Qed.

Lemma kin_reaped k k' c p : kin_ok k -> child k p c -> (exists q d, who k (cur k) = Some (p, q, d)) ->
  st_of k c = Some TASK_HANGING -> reaped k k' c -> kin_ok k'.
Proof.
  intros Hk Hc (qc & dc & Hcur) Hs R. pose proof Hk as []. pose proof (reaped_child _ _ _ R) as Hch. pose proof (reaped_st _ _ _ R) as Hst.
  pose proof (cur_all k Hk) as Hcin. destruct Hc as [Hin (pc & dd & Hwc)].
  assert (forall t, t <> c -> who k' t = who k t) as Hw by (intros t Ht; unfold who; by rewrite (re_rest _ _ _ R t Ht)).
  assert (forall t, t ∈ thread_all_list k' <-> t ∈ thread_all_list k /\ t <> c) as Ha.
  { intros t. rewrite (re_all _ _ _ R). apply remove_elem_in. }
  assert (forall q, living k q -> living k' q) as Hl.
  { intros q (u & q' & d & Hu & Hwu & Hn). assert (u <> c) by congruence. exists u, q', d. rewrite Ha, Hw, Hst by done. done. }
  constructor; try apply R.
  - rewrite (re_all _ _ _ R). by apply NoDup_filter.
  - intros t. rewrite Ha. destruct (decide (t = c)) as [->|Hne].
    + rewrite (re_died _ _ _ R). split; [tauto | by intros (s & [= <-] & ?)].
    + rewrite Hst, ko_all0 by done. tauto.
  - intros t q q' d [Ht Hne]%Ha Hq. rewrite Hw in Hq by done. destruct (ko_pid0 t q q' d Ht Hq) as [Hr Hu].
    split; [done|]. rewrite (re_used _ _ _ R); [done | lia|]. intros (y & Hy & ->). apply Hne.
    eapply ko_uniq0; [done | exact Hin | exact Hq |]. apply who_task. by exists y.
  - intros t u q q1 d1 q2 d2 [Ht Hnt]%Ha [Hu Hnu]%Ha. rewrite !Hw by done. by apply ko_uniq0.
  - intros t q q' d [Ht Hne]%Ha Hq. rewrite Hw in Hq by done. destruct (ko_parent0 t q q' d Ht Hq); [by left | right; by apply Hl].
  - destruct ko_init0 as (i & d & Hi & Hwi & Hn). assert (i <> c) by congruence. exists i, d. rewrite Ha, Hw, Hst by done. done.
  - intros t q q' d [Ht Hne]%Ha Hq Hwt. rewrite Hw in Hq by done. rewrite Hst in Hwt by done.
    destruct (ko_wait0 t q q' d Ht Hq Hwt) as [(c' & Hc') Hn]. split.
    + exists c'. apply Hch. split; [done|]. intros ->. destruct Hc' as [_ (? & ? & Hc')]. rewrite Hwc in Hc'. injection Hc' as _ Eq _.
      subst q. enough (t = cur k) by (subst t; destruct ko_sched0; congruence). eapply ko_uniq0; [done | exact Hcin | exact Hq | exact Hcur].
    + intros Hq1 u [Hu Hnu]%Hch. rewrite Hst by done. by apply Hn.
  - destruct ko_idle0 as (pi & Hwi & Hne & Hni). assert (idle_thread k <> c) as Hic.
    { intros E. rewrite E, Hwc in Hwi. injection Hwi as _ Ep _. subst p. destruct (ko_pid0 _ _ _ _ Hcin Hcur). lia. }
    exists pi. rewrite (re_idle _ _ _ R), Hw by done. split_and!; [done | done|]. intros u Hu. apply Hch in Hu as [Hu _]. by apply (Hni u).
Qed.

(** What a turn of [sys_wait] does, in each of its three cases. *)
Definition wait_post (k k' : kstate) (p : Z) (r : wait_result) : Prop :=
  match r with
  | Reaped q v pages => exists c x, first_hanging k p c /\ tasks k !! c = Some x /\ q = pid x /\ v = exit_status x
      /\ pages = (if pgdir x =? 0 then [] else [pgdir x]) ++ (if c =? main_thread k then [] else [c]) /\ reaped k k' c
  | NoChild => k' = k /\ forall c, ~ child k p c
  | Asleep _ => (exists c, child k p c) /\ (forall c, child k p c -> st_of k c <> Some TASK_HANGING)
      /\ st_of k' (cur k) = Some TASK_WAITING /\ (forall u, u <> cur k -> calm (st_of k u) (st_of k' u))
      /\ sched_ok k' /\ same_rest k k' /\ keeps ids k k'
  end.

Lemma wait_turn_ok k p q d : kin_ok k -> who k (cur k) = Some (p, q, d) -> exists k' r, sys_wait_turn k = Ok (k', r) /\ wait_post k k' p r.
Proof.
  intros Hk Hcur. pose proof (cur_all k Hk) as Hcin. destruct (ko_pid k Hk _ _ _ _ Hcin Hcur) as [Hr _].
  destruct (proj1 (who_task _ _ _ _ _) Hcur) as (y & Hy & Hpy & _).
  unfold sys_wait_turn, running_thread, get_task. rewrite Hy. cbn [obind]. rewrite Hpy.
  destruct (List.find (find_hanging_child k p) _) as [c|] eqn:Ef.
  - destruct (first_hanging_child k p c Ef) as [Hc Hs]. destruct (all_task k c Hk (proj1 Hc)) as (x & Hx & Hwx).
    destruct (reap_ok k c x p Hk Hx Hc ltac:(lia) Hs) as (k' & E & R). rewrite Hx. cbn [obind]. rewrite E. cbn [obind].
    destruct (ko_pid k Hk _ _ _ _ (proj1 Hc) Hwx) as [Hrx _].
    eexists k', _. split; [done|]. exists c, x. split_and!; try done. rewrite u16_small, s16_small; lia.
  - pose proof (no_hanging k p Ef) as Hn. pose proof (find_spec (find_child k p) (thread_all_list k)) as F.
    destruct (List.find (find_child k p) _) as [c|].
    + destruct F as [Hin Hc%find_child_true]. assert (cur k <> idle_thread k) as Hi.
      { intros E. destruct (ko_idle k Hk) as (pi & Ew & _ & Hno). rewrite <- E, Hcur in Ew. injection Ew as -> _ _. by apply (Hno c). }
      destruct (thread_block_ok k TASK_WAITING (ko_sched k Hk) eq_refl ltac:(done)) as (k' & E & Hs' & Hsr & _ & _ & Hq & Hst & _).
      rewrite E. cbn [obind]. exists k', (Asleep (intr k)). split; [done|]. split_and!; try done.
      * by exists c.
      * rewrite Hst. case_decide as Ec; [|by rewrite decide_True]. exfalso. (* the caller is not picked *)
        pose proof (sched_running_not_ready k (ko_sched k Hk)) as Hnr. destruct (thread_ready_list k); injection Hq as E1 _; [congruence|].
        apply Hnr. rewrite <- Ec, E1. apply list_elem_of_here.
      * intros u Hu. rewrite Hst. case_decide as Ec; [|rewrite decide_False by done; by left].
        right. destruct (ko_sched k Hk) as [Hwf _]. assert (st_of k u = Some TASK_READY \/ u = idle_thread k) as [Hr1 | ->].
        { destruct (thread_ready_list k) eqn:El; injection Hq as E1 _; [right; congruence|]. left. rewrite <- Ec, E1.
          apply (wf_ready k Hwf). rewrite El. apply list_elem_of_here. }
        -- by exists TASK_READY, TASK_RUNNING.
        -- destruct (wf_idle k Hwf) as [Hi1 | [Hi1 | Hi1]]; eexists _, TASK_RUNNING; (split; [exact Hi1 | done]).
      * by apply (block_keeps ids ltac:(done) ltac:(done) _ _ _ _ E).
    + exists k, NoChild. split; [done|]. split; [done|]. intros c [Hin Hc%find_child_true]. rewrite F in Hc by done. done.
Qed.

Lemma kin_asleep k k' p q d o : kin_ok k -> who k (cur k) = Some (p, q, d) -> wait_post k k' p (Asleep o) -> kin_ok k'.
Proof.
  intros Hk Hcur (Hc & Hn & Hw & Hst & Hs & Hr & Hi). destruct (ko_sched k Hk) as [_ Hrun].
  apply (kin_same k k'); try done.
  - intros t. destruct (decide (t = cur k)) as [->|Hne]; [by rewrite Hw, Hrun | apply calm_keeps; [by apply Hst | done]].
  - intros t. destruct (decide (t = cur k)) as [->|Hne]; [|by apply calm_alive, Hst].
    rewrite Hw, Hrun. split; intros _; eexists; done.
  - intros t p' q' d' Hwt Ht Hnt. destruct (decide (t = cur k)) as [->|Hne].
    + rewrite Hcur in Hwt. by injection Hwt as <- <- <-.
    + by apply (calm_keeps _ _ TASK_WAITING (Hst t Hne) eq_refl) in Ht.
Qed.

Lemma kin_wait k k' r : kin_ok k -> sys_wait_turn k = Ok (k', r) -> kin_ok k'.
Proof.
  intros Hk E. destruct (all_task k _ Hk (cur_all k Hk)) as (x & _ & Hcur).
  destruct (wait_turn_ok k _ _ _ Hk Hcur) as (k2 & r2 & E2 & Hpost). rewrite E in E2. injection E2 as <- <-.
  destruct r.
  - destruct Hpost as (c & y & Hf & _ & _ & _ & _ & R). destruct (first_hanging_child _ _ _ Hf) as [Hc Hs].
    apply (kin_reaped k k' c (pid x)); eauto.
  - by destruct Hpost as [-> _].
  - by eapply kin_asleep.
Qed.

(** ** Ending *)

Definition adopted (p : Z) (x : task_struct) : task_struct := if parent_pid x =? p then set_parent 1 x else x.

Lemma adopted_twice p x : adopted p (adopted p x) = adopted p x.
Proof.
  unfold adopted. destruct (parent_pid x =? p) eqn:E; [|by rewrite E]. cbn [parent_pid set_parent].
  destruct (1 =? p); reflexivity.
Qed.

Lemma adopt_fold p l : forall k, exists T, fold_left (init_adopt_a_child p) l k = with_tasks T k
  /\ forall t, T !! t = if decide (t ∈ l) then adopted p <$> tasks k !! t else tasks k !! t.
Proof.
  induction l as [|a l IH]; intros k; cbn [fold_left].
  { exists (tasks k). split; [by destruct k|]. intros t. by rewrite decide_False by apply not_elem_of_nil. }
  assert (init_adopt_a_child p k a = with_tasks (alter (adopted p) a (tasks k)) k) as ->.
  { assert (with_tasks (tasks k) k = k) as Hid by (by destruct k).
    unfold init_adopt_a_child. destruct (tasks k !! a) as [x|] eqn:Ex; [destruct (parent_pid x =? p) eqn:Ep|]; rewrite <- Hid at 1; f_equal;
      apply map_eq; intros t; rewrite ?lookup_insert, lookup_alter; case_decide; try done; subst t; rewrite Ex; cbn; unfold adopted; by rewrite ?Ep. }
  destruct (IH (with_tasks (alter (adopted p) a (tasks k)) k)) as (T & -> & HT). exists T. split; [done|].
  intros t. rewrite HT. cbn [tasks with_tasks]. rewrite lookup_alter.
  destruct (decide (a = t)) as [->|Hne].
  - rewrite (decide_True (P := t ∈ t :: l)) by apply list_elem_of_here. case_decide; [|done].
    destruct (tasks k !! t); cbn; [by rewrite adopted_twice | done].
  - destruct (decide (t ∈ l)) as [Hin|Hin]; [rewrite decide_True | rewrite decide_False]; try done.
    + by apply list_elem_of_further.
    + rewrite not_elem_of_cons. by split; [apply not_eq_sym|].
Qed.

(** States that differ in their tasks only, and there in nothing the scheduler reads. *)
Lemma sched_ok_same k k' : sched_ok k -> (forall t, st_of k' t = st_of k t) -> cur k' = cur k ->
  thread_ready_list k' = thread_ready_list k -> idle_thread k' = idle_thread k -> sched_ok k'.
Proof.
  intros [[] Hr] Hst Hc Hl Hi. split; [constructor|]; rewrite ?Hc, ?Hl, ?Hi, ?Hst; try done; intros t; rewrite Hst; auto.
Qed.

Lemma keeps_st k k' : keeps status k k' -> forall t, st_of k' t = st_of k t.
Proof. intros Hk t. exact (Hk t). Qed.

(** What [release_prog_resource] may do to the tasks: close descriptors. *)
Definition only_fds (k k' : kstate) : Prop :=
  k' = with_tasks (tasks k') k /\ keeps (set_fd_table []) k k'.

Lemma keeps_through {A B} (f : task_struct -> A) (g : A -> B) k k' : keeps f k k' -> keeps (fun x => g (f x)) k k'.
Proof.
  intros Hk t. specialize (Hk t). destruct (tasks k' !! t), (tasks k !! t); try done. cbn in *. injection Hk as Hk. by rewrite Hk.
Qed.

Lemma only_fds_keeps {A} (f : task_struct -> A) k k' : only_fds k k' -> (forall v x, f (set_fd_table v x) = f x) -> keeps f k k'.
Proof.
  intros [_ Hk] Hf t. pose proof (keeps_through _ f _ _ Hk t) as E. cbv beta in E.
  destruct (tasks k' !! t), (tasks k !! t); try done; cbn in *. by rewrite !Hf in E.
Qed.

Lemma kin_tasks k T : kin_ok k -> keeps ids k (with_tasks T k) -> keeps status k (with_tasks T k) -> kin_ok (with_tasks T k).
Proof.
  intros Hk Hi Hs. pose proof (keeps_st _ _ Hs) as Hst. apply (kin_quiet k); try done; [|intros t; by left].
  apply (sched_ok_same k); [apply Hk | done ..].
Qed.

Lemma kin_fds k k' : kin_ok k -> only_fds k k' -> kin_ok k'.
Proof.
  intros Hk Hf. pose proof (proj1 Hf) as E. rewrite E. apply kin_tasks; [done | |]; rewrite <- E; by apply only_fds_keeps.
Qed.

(** Adoption. *)
Section adopt.
Variables (k : kstate) (p q d : Z).
Hypothesis Hk : kin_ok k.
Hypothesis Hcur : who k (cur k) = Some (p, q, d).
Hypothesis Hq : q <> -1.

Let k' := adopt_children k p.

Lemma adopt_shape : k' = with_tasks (tasks k') k.
Proof. unfold k', adopt_children. destruct (adopt_fold p (thread_all_list k) k) as (T & -> & _). done. Qed.

Lemma adopt_task t : tasks k' !! t = if decide (t ∈ thread_all_list k) then adopted p <$> tasks k !! t else tasks k !! t.
Proof. unfold k', adopt_children. destruct (adopt_fold p (thread_all_list k) k) as (T & -> & HT). apply HT. Qed.

Lemma adopt_keeps {A} (f : task_struct -> A) : (forall v x, f (set_parent v x) = f x) -> keeps f k k'.
Proof.
  intros Hf t. rewrite adopt_task. case_decide; [|done]. destruct (tasks k !! t) as [x|]; [|done]. cbn. f_equal.
  unfold adopted. by destruct (_ =? _).
Qed.

Lemma adopt_st t : st_of k' t = st_of k t.
Proof. exact (adopt_keeps status (fun _ _ => eq_refl) t). Qed.

Lemma adopt_who t a b c : t ∈ thread_all_list k -> who k' t = Some (a, b, c) <->
  exists b0, who k t = Some (a, b0, c) /\ b = if b0 =? p then 1 else b0.
Proof.
  intros Ht. unfold who. rewrite adopt_task, decide_True by done. destruct (tasks k !! t) as [x|]; cbn; [|split; [done | by intros (? & ? & _)]].
  unfold adopted, ids. destruct (parent_pid x =? p) eqn:E; cbn; split.
  - intros [= <- <- <-]. exists (parent_pid x). by rewrite E.
  - intros (b0 & [= <- <- <-] & ->). by rewrite E.
  - intros [= <- <- <-]. exists (parent_pid x). by rewrite E.
  - intros (b0 & [= <- <- <-] & ->). by rewrite E.
Qed.

Lemma adopt_all : thread_all_list k' = thread_all_list k.
Proof. rewrite adopt_shape. done. Qed.

(** Init is another task. *)
Lemma cur_not_init : p <> 1.
Proof.
  intros ->. destruct (ko_init k Hk) as (i & d' & Hi & Hwi & _). assert (i = cur k) as ->; [|congruence].
  eapply (ko_uniq k Hk); [done | by apply cur_all | exact Hwi | exact Hcur].
Qed.

Lemma adopt_child r c : child k' r c <-> child k r c /\ r <> p \/ r = 1 /\ child k p c.
Proof.
  unfold child. rewrite adopt_all. split.
  - intros [Hin (a & e & Hw)]. apply adopt_who in Hw as (b0 & Hw & ->); [|done].
    destruct (Z.eqb_spec b0 p) as [->|Hne]; [right | left]; (split; [|try done]); eauto.
  - intros [[[Hin (a & e & Hw)] Hr]|[-> [Hin (a & e & Hw)]]]; (split; [done|]); exists a, e; apply adopt_who; try done.
    + exists r. split; [done|]. destruct (Z.eqb_spec r p); done.
    + exists p. split; [done|]. by rewrite Z.eqb_refl.
Qed.

Lemma adopt_living r : r <> p -> living k r -> living k' r.
Proof.
  intros Hr (u & b & e & Hu & Hw & Hs). exists u, (if b =? p then 1 else b), e. rewrite adopt_all, adopt_st. split_and!; [done | | done].
  apply adopt_who; [done|]. by exists b.
Qed.

Lemma kin_adopt : kin_ok k'.
Proof.
  pose proof adopt_st as Hst. pose proof adopt_all as Ha. pose proof cur_not_init as Hp1. pose proof (cur_all k Hk) as Hcin.
  pose proof Hk as []. assert (living k' 1) as Hl1.
  { destruct ko_init0 as (i & e & Hi & Hw & Hn). apply adopt_living; [by apply not_eq_sym|]. by exists i, (-1), e. }
  assert (p <> -1) as Hp by (destruct (ko_pid0 _ _ _ _ Hcin Hcur); lia).
  constructor.
  - apply (sched_ok_same k); try done; by rewrite adopt_shape.
  - by rewrite adopt_shape.
  - by rewrite Ha.
  - intros t. by rewrite Ha, Hst.
  - intros t a b c Ht (b0 & Hw & _)%adopt_who; rewrite Ha in *; [|done]. replace (pid_used k' a) with (pid_used k a) by (by rewrite adopt_shape). by eapply ko_pid0.
  - intros t u a b c b' c' Ht Hu (b0 & Hw & _)%adopt_who (b1 & Hw' & _)%adopt_who; rewrite Ha in *; try done. by eapply ko_uniq0.
  - intros t a b c Ht (b0 & Hw & ->)%adopt_who; rewrite Ha in *; [|done]. destruct (Z.eqb_spec b0 p); [by right|].
    destruct (ko_parent0 _ _ _ _ Ht Hw); [by left | right; by apply adopt_living].
  - destruct ko_init0 as (i & e & Hi & Hw & Hn). exists i, e. rewrite Ha, Hst. split_and!; [done | | done].
    apply adopt_who; [done|]. exists (-1). split; [done|]. destruct (Z.eqb_spec (-1) p); [congruence | done].
  - intros t a b c Ht (b0 & Hw & _)%adopt_who; rewrite Ha in *; [|done]. rewrite Hst. intros Hwt.
    assert (a <> p) as Hap. { intros ->. enough (t = cur k) by (subst t; destruct ko_sched0; congruence). by eapply ko_uniq0. }
    destruct (ko_wait0 t a b0 c Ht Hw Hwt) as [(u & Hu) Hn]. split.
    + exists u. apply adopt_child. by left.
    + intros Ha1 v [[Hv _]|[? _]]%adopt_child; [|done]. rewrite Hst. by apply Hn.
  - destruct ko_idle0 as (pi & Hw & Hne & Hno). exists pi. replace (idle_thread k') with (idle_thread k) by (by rewrite adopt_shape).
    split_and!; [| done |].
    + assert (idle_thread k ∈ thread_all_list k) as Hi.
      { apply ko_all0. destruct ko_sched0 as [[_ _ _ _ _ Hwi] _]. destruct Hwi as [E|[E|E]]; rewrite E; eexists; done. }
      apply adopt_who; [done|]. exists (-1). split; [done|]. destruct (Z.eqb_spec (-1) p); [congruence | done].
    + intros c [[Hc _]|[? _]]%adopt_child; [by apply (Hno c) | done].
Qed.
End adopt.

(** The calling thread is not the one picked when it blocks. *)
Lemma block_post k s k' : sched_ok k -> active s = false -> is_blocked_status s = true -> cur k <> idle_thread k ->
  thread_block k s = Ok (k', intr k) ->
  sched_ok k' /\ same_rest k k' /\ cur k' :: thread_ready_list k' = match thread_ready_list k with [] => [idle_thread k] | l => l end
  /\ st_of k' (cur k) = Some s /\ (forall u, u <> cur k -> calm (st_of k u) (st_of k' u))
  /\ (forall u, u <> cur k -> u <> cur k' -> st_of k' u = st_of k u).
Proof.
  intros Hs Ha Hb Hi E. destruct (thread_block_ok k s Hs Hb ltac:(done)) as (k2 & E2 & Hs' & Hsr & _ & _ & Hq & Hst & _).
  rewrite E in E2. injection E2 as <-. split_and!; try done.
  - rewrite Hst. case_decide as Ec; [|by rewrite decide_True]. exfalso. pose proof (sched_running_not_ready k Hs) as Hnr.
    destruct (thread_ready_list k); injection Hq as E1 _; [congruence|]. apply Hnr. rewrite <- Ec, E1. apply list_elem_of_here.
  - intros u Hu. rewrite Hst. case_decide as Ec; [|rewrite decide_False by done; by left]. right.
    destruct Hs as [Hwf _]. assert (st_of k u = Some TASK_READY \/ u = idle_thread k) as [Hr1 | ->].
    { destruct (thread_ready_list k) eqn:El; injection Hq as E1 _; [right; congruence|]. left. rewrite <- Ec, E1.
      apply (wf_ready k Hwf). rewrite El. apply list_elem_of_here. }
    + by exists TASK_READY, TASK_RUNNING.
    + destruct (wf_idle k Hwf) as [Hi1 | [Hi1 | Hi1]]; eexists _, TASK_RUNNING; (split; [exact Hi1 | done]).
  - intros u Hu Hu'. rewrite Hst, decide_False, decide_False; [done| |]; by apply not_eq_sym.
Qed.

Lemma pid2thread_ok k t p q d : kin_ok k -> t ∈ thread_all_list k -> who k t = Some (p, q, d) -> pid2thread k p = t.
Proof.
  intros Hk Ht Hw. unfold pid2thread. pose proof (find_spec (fun t => pid_check k t p) (thread_all_list k)) as F.
  assert (forall u, pid_check k u p = true <-> exists b e, who k u = Some (p, b, e)) as Hc.
  { intros u. unfold pid_check, who, ids. destruct (tasks k !! u) as [x|]; cbn; [|by split; [|intros (? & ? & ?)]].
    rewrite Z.eqb_eq. split; [intros <-; by exists (parent_pid x), (pgdir x) | by intros (b & e & [= <- _ _])]. }
  destruct (List.find _ _) as [u|]; cbn.
  - destruct F as [Hu (b & e & Hwu)%Hc]. by eapply (ko_uniq k Hk).
  - exfalso. specialize (F t Ht). cbv beta in F. enough (pid_check k t p = true) by congruence. apply Hc. eauto.
Qed.

(** The second half of [sys_exit], for a task without children left: it hangs, and a
    waiting parent [u] runs next. *)
Record ended (k k' : kstate) (u : Z) : Prop := {
  en_sched : sched_ok k';
  en_rest : same_rest k k';
  en_hangs : st_of k' (cur k) = Some TASK_HANGING;
  en_calm : forall v, v <> cur k -> v <> u -> calm (st_of k v) (st_of k' v);
  en_parent : st_of k u <> Some TASK_WAITING -> calm (st_of k u) (st_of k' u);
  en_woken : st_of k u = Some TASK_WAITING -> cur k' = u /\ thread_ready_list k' = thread_ready_list k
    /\ forall v, v <> cur k -> v <> u -> st_of k' v = st_of k v }.

Lemma exit_end_ok k p q d : kin_ok k -> who k (cur k) = Some (p, q, d) -> q <> -1 -> (forall c, ~ child k p c) ->
  exists k' u q' d', exit_end k = Ok (k', intr k) /\ u ∈ thread_all_list k /\ who k u = Some (q, q', d') /\ u <> cur k
    /\ ended k k' u /\ (forall A (f : task_struct -> A), (forall s x, f (set_status s x) = f x) -> (forall v x, f (set_ticks v x) = f x) -> keeps f k k').
Proof.
  intros Hk Hcur Hq Hno. pose proof (cur_all k Hk) as Hcin. pose proof (ko_sched k Hk) as [Hwf Hrun].
  destruct (proj1 (who_task _ _ _ _ _) Hcur) as (x & Hx & Hpx & Hqx & _).
  destruct (ko_parent k Hk _ _ _ _ Hcin Hcur) as [?|(u & q' & d' & Hu & Hwu & Hnu)]; [done|].
  assert (u <> cur k) as Hne. { intros ->. apply (Hno (cur k)). split; [done|]. rewrite Hcur in Hwu. injection Hwu as -> -> ->. eauto. }
  assert (cur k <> idle_thread k) as Hni.
  { intros E. destruct (ko_idle k Hk) as (pi & Ew & _). rewrite <- E, Hcur in Ew. congruence. }
  destruct (proj1 (who_task _ _ _ _ _) Hwu) as (y & Hy & _).
  unfold exit_end, running_thread, get_task. rewrite Hx. cbn [obind]. rewrite Hqx, (pid2thread_ok k u q q' d' Hk Hu Hwu), Hy. cbn [obind].
  assert (st_of k u = Some (status y)) as Hsu by (unfold st_of; by rewrite Hy). case_bool_decide as Hw.
  - rewrite Hw in Hsu. destruct (thread_unblock_wf k u TASK_WAITING Hwf Hsu eq_refl) as (k1 & E1 & Hwf1 & Hr1 & Hc1 & Hi1 & Hl1 & Hst1 & _).
    rewrite E1. cbn [obind]. assert (sched_ok k1) as Hs1 by (split; [done | by rewrite Hc1, Hst1, decide_False]).
    destruct Hr1 as (Ha1 & Hid1 & Hm1 & Hp1).
    destruct (thread_block_ok k1 TASK_HANGING Hs1 eq_refl) as (k2 & E2 & _); [rewrite Hc1, Hid1; by intros|].
    destruct (block_post k1 TASK_HANGING k2 Hs1 eq_refl eq_refl ltac:(by rewrite Hc1, Hid1) E2) as (Hs2 & (Ha2 & Hid2 & Hm2 & Hp2) & Hq2 & Hh2 & Hcalm2 & Hsame2).
    rewrite Hl1 in Hq2. injection Hq2 as Hcu Hl2. rewrite Hc1 in Hh2, Hcalm2, Hsame2.
    exists k2, u, q', d'. rewrite E2, Hi1. split_and!; try done.
    + constructor; try done; [split_and!; congruence | |].
      * intros v Hv Hvu. left. rewrite Hsame2 by congruence. by rewrite Hst1, decide_False.
      * intros _. split_and!; [done | done|]. intros v Hv Hvu. rewrite Hsame2 by congruence. by rewrite Hst1, decide_False.
    + intros A f F1 F2. transitivity k1; [by eapply unblock_keeps | by eapply block_keeps].
  - destruct (thread_block_ok k TASK_HANGING (ko_sched k Hk) eq_refl ltac:(done)) as (k2 & E2 & _).
    destruct (block_post k TASK_HANGING k2 (ko_sched k Hk) eq_refl eq_refl Hni E2) as (Hs2 & Hr2 & Hq2 & Hh2 & Hcalm2 & Hsame2).
    exists k2, u, q', d'. cbn [obind]. rewrite E2. split_and!; try done.
    + constructor; try done; [by intros v Hv _; apply Hcalm2 | by intros _; apply Hcalm2 | congruence].
    + intros A f F1 F2. by eapply block_keeps.
Qed.

Lemma kin_ended k k' u p q d q' d' : kin_ok k -> who k (cur k) = Some (p, q, d) -> q <> -1 -> (forall c, ~ child k p c) ->
  u ∈ thread_all_list k -> who k u = Some (q, q', d') -> u <> cur k -> ended k k' u -> keeps ids k k' -> kin_ok k'.
Proof.
  intros Hk Hcur Hq Hno Hu Hwu Hne [Hs (Ha & Hid & Hm & Hp) Hh Hcalm Hpar Hwok] Hi. pose proof (cur_all k Hk) as Hcin.
  pose proof (keeps_who _ _ Hi) as Hw. pose proof Hk as []. destruct ko_sched0 as [Hwf Hrun].
  assert (st_of k u <> Some TASK_HANGING) as Hnu.
  { destruct (ko_parent0 _ _ _ _ Hcin Hcur) as [?|(u' & a & b & Hu' & Hwu' & Hn)]; [done|]. by assert (u' = u) as -> by (by eapply ko_uniq0). }
  assert (forall t, t <> cur k -> st_of k' t = Some TASK_HANGING -> st_of k t = Some TASK_HANGING) as Hhang.
  { intros t Ht Es. destruct (decide (t = u)) as [->|Htu]; [|by apply (calm_keeps _ _ TASK_HANGING (Hcalm t Ht Htu) eq_refl)].
    destruct (decide (st_of k u = Some TASK_WAITING)) as [Ew|Ew]; [|by apply (calm_keeps _ _ TASK_HANGING (Hpar Ew) eq_refl)].
    destruct (Hwok Ew) as (Ec & _). destruct Hs as [_ Hr]. congruence. }
  assert (forall c, child k' p c -> False) as Hno'.
  { intros c [Hin Hc]. rewrite Ha in Hin. setoid_rewrite Hw in Hc. by apply (Hno c). }
  assert (forall a c, child k' a c <-> child k a c) as Hch.
  { intros a c. unfold child. rewrite Ha. by setoid_rewrite Hw. }
  assert (forall a, living k a -> a <> p -> living k' a) as Hl.
  { intros a (v & b & e & Hv & Hwv & Hn) Hap. exists v, b, e. rewrite Ha, Hw. split_and!; [done | done|].
    intros Es. apply Hn, Hhang; [|done]. congruence. }
  constructor; rewrite ?Ha, ?Hid; try setoid_rewrite Hw; unfold pids_wf, pid_used in *; rewrite ?Hp; try done.
  - intros t. rewrite ko_all0. destruct (decide (t = cur k)) as [->|Ht]; [rewrite Hh, Hrun; split; intros _; eexists; done|].
    destruct (decide (t = u)) as [->|Htu]; [|by rewrite (calm_alive _ _ (Hcalm t Ht Htu))].
    destruct (decide (st_of k u = Some TASK_WAITING)) as [Ew|Ew]; [|by rewrite (calm_alive _ _ (Hpar Ew))].
    destruct (Hwok Ew) as (Ec & _). destruct Hs as [_ Hr]. rewrite Ec in Hr. rewrite Ew, Hr. split; intros _; eexists; done.
  - intros t a b c Ht Ht'. destruct (ko_parent0 _ _ _ _ Ht Ht') as [?|Hb]; [by left | right]. apply Hl; [done|]. intros ->. apply (Hno t). split; eauto.
  - destruct ko_init0 as (i & e & Hii & Hwi & Hn). exists i, e. split_and!; [done | done|]. intros Es. apply Hn, Hhang; [congruence | done].
  - intros t a b c Ht Ht' Es. assert (t <> cur k) as Htc by congruence.
    assert (t <> u /\ st_of k t = Some TASK_WAITING) as [Htu Ew].
    { destruct (decide (t = u)) as [->|Htu]; [|split; [done|]; by apply (calm_keeps _ _ TASK_WAITING (Hcalm t Htc Htu) eq_refl)].
      exfalso. destruct (decide (st_of k u = Some TASK_WAITING)) as [Ew|Ew].
      - destruct (Hwok Ew) as (Ec & _). destruct Hs as [_ Hr]. congruence.
      - by apply Ew, (calm_keeps _ _ TASK_WAITING (Hpar Ew) eq_refl). }
    destruct (ko_wait0 t a b c Ht Ht' Ew) as [(v & Hv) Hn]. split; [exists v; by apply Hch|].
    intros Ha1 v' Hv'%Hch Es'. apply (Hn Ha1 v' Hv'), Hhang; [|done]. intros ->. apply Htu.
    destruct Hv' as [_ (a' & e & Hv')]. rewrite Hcur in Hv'. injection Hv' as <- -> <-. by eapply ko_uniq0.
  - destruct ko_idle0 as (pi & Hwi & Hn1 & Hno2). exists pi. by setoid_rewrite Hch.
Qed.
