(* ===== verification/Kinspec.v ===== *)
(** The tasks as a transition system: the system calls on processes and the scheduler
    as steps, the invariant of Kin.v over all runs, and the meeting of [sys_exit] with
    [sys_wait]. *)
From S2P Require Import Prelude Bitmap Thread Inode File.
From S2P Require Import Paging Process Fork Waitexit Kin.

(** ** Steps *)

(** A task made by [thread_start], [process_execute] or [sys_fork]: ready, at the end
    of both lists, with a pid nobody has, and without a parent or a child of a process. *)
Record created (k k' : kstate) (t : Z) (y : task_struct) : Prop := {
  cr_fresh : t <> 0 /\ (t ∉ thread_ready_list k) /\ (t ∉ thread_all_list k);
  cr_pid : allocate_pid k = Ok (with_pids (pid_bitmap k') k, pid y);
  cr_task : tasks k' = <[t := y]> (tasks k);
  cr_ready : status y = TASK_READY /\ thread_ready_list k' = thread_ready_list k ++ [t];
  cr_all : thread_all_list k' = thread_all_list k ++ [t];
  cr_same : cur k' = cur k /\ idle_thread k' = idle_thread k;
  cr_parent : parent_pid y = -1 \/ exists x, tasks k !! cur k = Some x /\ parent_pid y = pid x /\ pgdir x <> 0 }.

(** The bounds on free pids keep [allocate_pid] from running past its bitmap. *)
Inductive task_step (k : kstate) : kstate -> Prop :=
  | step_wait k' r : sys_wait_turn k = Ok (k', r) -> task_step k k'
  | step_exit v k1 k2 k' o : exit_begin k v = Ok k1 -> only_fds k1 k2 -> exit_end k2 = Ok (k', o) -> task_step k k'
  | step_new k' t y : created k k' t y -> (exists q, 1 <= q <= 1024 /\ pid_used k q = false) -> task_step k k'
  | step_schedule k' : schedule k = Ok k' -> task_step k k'
  | step_yield k' o : thread_yield k = Ok (k', o) -> task_step k k'
  | step_block k' o : thread_block k TASK_BLOCKED = Ok (k', o) -> task_step k k'
  | step_unblock t k' : st_of k t = Some TASK_BLOCKED -> thread_unblock k t = Ok k' -> task_step k k'
  | step_intr b : task_step k (with_intr b k).

(** ** Each keeps the invariant *)

Lemma ready_calm k t s : sched_wf k -> t ∈ thread_ready_list k -> active s = true -> calm (st_of k t) (Some s).
Proof. intros Hwf Hin Hs. right. exists TASK_READY, s. by rewrite (proj1 (wf_ready k Hwf t) Hin). Qed.

Lemma idle_calm k s : sched_wf k -> active s = true -> calm (st_of k (idle_thread k)) (Some s).
Proof. intros Hwf Hs. right. destruct (wf_idle k Hwf) as [E|[E|E]]; rewrite E; by eexists _, s. Qed.

Lemma turn_calm k k' s : sched_ok k -> active s = true ->
  (cur k' ∈ thread_ready_list k ++ [cur k]) \/ cur k' = idle_thread k ->
  (forall t, st_of k' t = if decide (cur k' = t) then Some TASK_RUNNING else if decide (cur k = t) then Some s else st_of k t) ->
  forall t, calm (st_of k t) (st_of k' t).
Proof.
  intros [Hwf Hrun] Hs Hin Hst t. rewrite Hst. case_decide as Ec; [subst t | case_decide as Ec'; [subst t | by left]].
  - destruct Hin as [[Hin|Hin%list_elem_of_singleton]%elem_of_app | ->]; [by apply ready_calm | | by apply idle_calm].
    rewrite Hin, Hrun. right. by exists TASK_RUNNING, TASK_RUNNING.
  - rewrite Hrun. right. by exists TASK_RUNNING, s.
Qed.

Lemma kin_schedule k k' : kin_ok k -> schedule k = Ok k' -> kin_ok k'.
Proof.
  intros Hk E. assert (intr k = false) as Hi. { unfold schedule, intr_get_status in E. by destruct (intr k). }
  destruct (ko_sched k Hk) as [Hwf Hrun]. destruct (schedule_ok k Hwf Hi) as (k2 & E2 & Hs & Hr & _ & Hq & Hst & _).
  rewrite E in E2. injection E2 as <-. apply (kin_quiet k); [done | done | by eapply schedule_keeps | done|].
  apply (turn_calm k k' TASK_READY); [done | done | left |].
  - unfold run_queue in Hq. rewrite Hrun in Hq. rewrite Hq. apply list_elem_of_here.
  - intros t. rewrite Hst. case_decide; [done|]. case_decide as Ec; [|done]. subst t. by rewrite Hrun.
Qed.

Lemma kin_yield k k' o : kin_ok k -> thread_yield k = Ok (k', o) -> kin_ok k'.
Proof.
  intros Hk E. destruct (thread_yield_ok k (ko_sched k Hk)) as (k2 & E2 & Hs & Hr & _ & _ & Hq & Hst & _).
  rewrite E in E2. injection E2 as <- ->. apply (kin_quiet k); [done | done | by eapply yield_keeps | done|].
  apply (turn_calm k k' TASK_READY); [apply Hk | done | left; rewrite <- Hq; apply list_elem_of_here | done].
Qed.

Lemma kin_block k k' o : kin_ok k -> thread_block k TASK_BLOCKED = Ok (k', o) -> kin_ok k'.
Proof.
  intros Hk E. destruct (thread_block_ok k TASK_BLOCKED (ko_sched k Hk) eq_refl ltac:(done)) as (k2 & E2 & Hs & Hr & _ & _ & Hq & Hst & _).
  rewrite E in E2. injection E2 as <- ->. apply (kin_quiet k); [done | done | by eapply block_keeps | done|].
  apply (turn_calm k k' TASK_BLOCKED); [apply Hk | done | | done].
  destruct (thread_ready_list k); injection Hq as Hc _; [by right | left]. rewrite Hc. apply list_elem_of_here.
Qed.

Lemma kin_unblock k k' t : kin_ok k -> st_of k t = Some TASK_BLOCKED -> thread_unblock k t = Ok k' -> kin_ok k'.
Proof.
  intros Hk Hb E. destruct (ko_sched k Hk) as [Hwf Hrun].
  destruct (thread_unblock_wf k t TASK_BLOCKED Hwf Hb eq_refl) as (k2 & E2 & Hwf2 & Hr & Hc & _ & _ & Hst & _).
  rewrite E in E2. injection E2 as <-. assert (t <> cur k) as Hne by congruence. apply (kin_quiet k); [done | | by eapply unblock_keeps | done|].
  - split; [done|]. by rewrite Hc, Hst, decide_False.
  - intros u. rewrite Hst. case_decide as Eu; [subst u | by left]. rewrite Hb. right. by exists TASK_BLOCKED, TASK_READY.
Qed.

Lemma kin_intr k b : kin_ok k -> kin_ok (with_intr b k).
Proof.
  intros Hk. apply (kin_quiet k); [done | | done | done | by left]. apply (sched_ok_same k); [apply Hk | done..].
Qed.

(** The first half of [sys_exit]. *)
Lemma exit_begin_ok k v p q d : kin_ok k -> who k (cur k) = Some (p, q, d) -> q <> -1 ->
  exists k1 q1, exit_begin k v = Ok k1 /\ kin_ok k1 /\ cur k1 = cur k /\ thread_ready_list k1 = thread_ready_list k /\ intr k1 = intr k
    /\ same_rest k k1 /\ (forall t, st_of k1 t = st_of k t) /\ who k1 (cur k) = Some (p, q1, d) /\ q1 <> -1 /\ (q <> p -> q1 = q)
    /\ (forall c, ~ child k1 p c) /\ (forall r c, r <> 1 -> r <> p -> child k1 r c <-> child k r c)
    /\ (forall c, child k1 1 c <-> child k 1 c \/ child k p c)
    /\ exit_status <$> tasks k1 !! cur k = Some (s8 v) /\ (forall t, t <> cur k -> exit_status <$> tasks k1 !! t = exit_status <$> tasks k !! t)
    /\ (forall A (f : task_struct -> A), (forall e y, f (set_exit_status e y) = f y) -> (forall e y, f (set_parent e y) = f y) -> keeps f k k1).
Proof.
  intros Hk Hcur Hq. destruct (proj1 (who_task _ _ _ _ _) Hcur) as (x & Hx & Hpx & Hqx & Hdx).
  unfold exit_begin, running_thread. rewrite (upd_task_ok k (cur k) x) by done. cbn [obind].
  set (k0 := with_tasks _ k). assert (kin_ok k0) as Hk0.
  { apply kin_tasks; [done | |]; intros t; unfold k0; cbn; rewrite lookup_insert; case_decide; try done; subst t; by rewrite Hx. }
  assert (forall t, who k0 t = who k t) as Hw0.
  { intros t. unfold k0, who; cbn. rewrite lookup_insert. case_decide; [|done]. subst t. by rewrite Hx. }
  assert (tasks k0 !! cur k = Some (set_exit_status (s8 v) x)) as Hx0 by (apply lookup_insert_eq).
  unfold get_task. rewrite Hx0. cbn [obind parent_pid set_exit_status pid]. rewrite Hqx, Hpx.
  apply Z.eqb_neq in Hq as Hqb. rewrite Hqb. cbn [negb c_assert obind]. apply Z.eqb_neq in Hqb.
  assert (who k0 (cur k0) = Some (p, q, d)) as Hcur0 by (change (cur k0) with (cur k); by rewrite Hw0).
  pose proof (cur_not_init k0 p q d Hk0 Hcur0 Hqb) as Hp1. pose proof (cur_all k Hk) as Hcin.
  assert (p <> -1) as Hpm by (destruct (ko_pid k Hk _ _ _ _ Hcin Hcur); lia).
  assert (forall r c, child k0 r c <-> child k r c) as Hch0 by (intros r c; unfold child; by setoid_rewrite Hw0).
  pose proof (adopt_shape k0 p) as Es. set (k1 := adopt_children k0 p) in *.
  exists k1, (if q =? p then 1 else q). split; [done|]. split; [by apply (kin_adopt k0 p q d)|].
  split; [by rewrite Es|]. split; [by rewrite Es|]. split; [by rewrite Es|]. split; [by rewrite Es|].
  split. { intros t. unfold k1. rewrite adopt_st. unfold st_of, k0; cbn. rewrite lookup_insert. case_decide; [|done]. subst t. by rewrite Hx. }
  split. { apply (adopt_who k0 p); [done|]. exists q. split; [by rewrite Hw0 | done]. }
  split. { by destruct (Z.eqb_spec q p). }
  split. { intros Hqp. by destruct (Z.eqb_spec q p). }
  pose proof (adopt_child k0 p) as Hch. fold k1 in Hch. setoid_rewrite Hch0 in Hch.
  split. { intros c [[_ Hn]|[Hn _]]%Hch; done. }
  split. { intros r c Hr1 Hrp. rewrite Hch. tauto. }
  split. { intros c. rewrite Hch. assert (1 <> p) by congruence. tauto. }
  assert (keeps exit_status k0 k1) as Hex by (by apply adopt_keeps).
  split. { rewrite (Hex (cur k)), Hx0. done. }
  split. { intros t Ht. rewrite (Hex t). unfold k0; cbn. by rewrite lookup_insert_ne by (by apply not_eq_sym). }
  intros A f F1 F2. transitivity k0; [|by apply adopt_keeps]. intros t. unfold k0; cbn. rewrite lookup_insert.
  case_decide; [|done]. subst t. rewrite Hx. cbn. by rewrite F1.
Qed.

Lemma fds_child k k' : only_fds k k' -> forall r c, child k' r c <-> child k r c.
Proof.
  intros Hf r c. assert (keeps ids k k') as Hi by (by apply only_fds_keeps). pose proof (keeps_who _ _ Hi) as Hw.
  unfold child. setoid_rewrite Hw. pose proof (proj1 Hf) as E. rewrite E. done.
Qed.

(** The whole of [sys_exit]: the parent found is the one the task had, or init. *)
Lemma exit_ok k v p q d k1 k2 : kin_ok k -> who k (cur k) = Some (p, q, d) -> q <> -1 ->
  exit_begin k v = Ok k1 -> only_fds k1 k2 ->
  exists k' u q1 b e, exit_end k2 = Ok (k', intr k) /\ kin_ok k' /\ ended k2 k' u /\ (u ∈ thread_all_list k2) /\ who k2 u = Some (q1, b, e) /\ (q <> p -> q1 = q) /\ u <> cur k
    /\ (forall A (f : task_struct -> A), (forall s x, f (set_status s x) = f x) -> (forall w x, f (set_ticks w x) = f x) -> keeps f k2 k').
Proof.
  intros Hk Hcur Hq E1 Hf.
  destruct (exit_begin_ok k v p q d Hk Hcur Hq) as (k1' & q1 & E1' & Hk1 & Hc1 & _ & Hi1 & _ & _ & Hw1 & Hq1 & Hqq & Hno & _).
  rewrite E1 in E1'. injection E1' as <-.
  pose proof (kin_fds k1 k2 Hk1 Hf) as Hk2. assert (keeps ids k1 k2) as Hi by (by apply only_fds_keeps). pose proof (keeps_who _ _ Hi) as Hw.
  assert (cur k2 = cur k /\ intr k2 = intr k) as [Hc2 Hi2]. { pose proof (proj1 Hf) as E. rewrite E. cbn. by rewrite Hc1, Hi1. }
  assert (who k2 (cur k2) = Some (p, q1, d)) as Hcur2 by (by rewrite Hc2, Hw).
  assert (forall c, ~ child k2 p c) as Hno2. { intros c Hc. apply (fds_child k1 k2 Hf) in Hc. by apply (Hno c). }
  destruct (exit_end_ok k2 p q1 d Hk2 Hcur2 Hq1 Hno2) as (k' & u & b & e & E & Hu & Hwu & Hne & Hen & Hkeep).
  exists k', u, q1, b, e. rewrite E, Hi2, <- Hc2. split_and!; try done.
  eapply (kin_ended k2 k' u p q1 d b e); try done. by apply Hkeep.
Qed.

(** A waiting parent is the one found. *)
Lemma exit_waiting k v p q d k1 k2 u a c : kin_ok k -> who k (cur k) = Some (p, q, d) -> exit_begin k v = Ok k1 -> only_fds k1 k2 ->
  u ∈ thread_all_list k -> who k u = Some (q, a, c) -> st_of k u = Some TASK_WAITING ->
  q <> p /\ st_of k2 u = Some TASK_WAITING /\ thread_all_list k2 = thread_all_list k /\ (exists a' c', who k2 u = Some (q, a', c'))
  /\ forall u' q' a' c', u' ∈ thread_all_list k2 -> who k2 u' = Some (q', a', c') -> (q <> p -> q' = q) -> u' = u.
Proof.
  intros Hk Hcur E1 Hf Hu Hwu Hws. destruct (ko_sched k Hk) as [_ Hrun]. pose proof (cur_all k Hk) as Hcin.
  destruct (ko_pid k Hk _ _ _ _ Hu Hwu) as [Hr _].
  destruct (exit_begin_ok k v p q d Hk Hcur ltac:(lia)) as (k1' & q1 & E1' & Hk1 & _ & _ & _ & (Ha1 & _) & Hst1 & _ & _ & _ & _ & _ & _ & _ & _ & Hkeep).
  rewrite E1 in E1'. injection E1' as <-. pose proof (kin_fds k1 k2 Hk1 Hf) as Hk2.
  assert (keeps status k1 k2) as Hs2 by (by apply only_fds_keeps). assert (keeps pid k k2) as Hp2 by (transitivity k1; [by apply Hkeep | by apply only_fds_keeps]).
  assert (q <> p) as Hqp. { intros ->. enough (u = cur k) by congruence. by eapply (ko_uniq k Hk). }
  assert (thread_all_list k2 = thread_all_list k) as Ha2 by (pose proof (proj1 Hf) as E; rewrite E; exact Ha1).
  assert (exists a' c', who k2 u = Some (q, a', c')) as (a' & c' & Hwu2).
  { destruct (proj1 (who_task _ _ _ _ _) Hwu) as (y & Hy & <- & _). specialize (Hp2 u). rewrite Hy in Hp2.
    unfold who. destruct (tasks k2 !! u) as [y2|]; [|done]. injection Hp2 as <-. by exists (parent_pid y2), (pgdir y2). }
  split_and!; [done | by rewrite (keeps_st _ _ Hs2), Hst1 | done | by exists a', c' |].
  intros u' q' a2 c2 Hu' Hwu' Hq'. rewrite (Hq' Hqp) in Hwu'. apply (ko_uniq k2 Hk2 u' u q a2 c2 a' c'); try done. by rewrite Ha2.
Qed.

Lemma kin_exit k v k1 k2 k' o : kin_ok k -> exit_begin k v = Ok k1 -> only_fds k1 k2 -> exit_end k2 = Ok (k', o) -> kin_ok k'.
Proof.
  intros Hk E1 Hf E2. destruct (all_task k _ Hk (cur_all k Hk)) as (x & Hx & Hcur).
  assert (parent_pid x <> -1) as Hq.
  { intros Eq. unfold exit_begin, running_thread in E1. rewrite (upd_task_ok k (cur k) x) in E1 by done. cbn [obind] in E1.
    unfold get_task in E1. cbn [tasks with_tasks] in E1. rewrite lookup_insert_eq in E1. cbn in E1. by rewrite Eq in E1. }
  destruct (exit_ok k v _ _ _ k1 k2 Hk Hcur Hq E1 Hf) as (k3 & u & q1 & b & e & E & Hk3 & _). congruence.
Qed.

Lemma kin_new k k' t y : kin_ok k -> created k k' t y -> (exists q, 1 <= q <= 1024 /\ pid_used k q = false) -> kin_ok k'.
Proof.
  intros Hk [(H0 & Hr & Hn) Hp Ht [Hst Hr'] Ha [Hc Hid] Hpar] Hfree. pose proof (cur_all k Hk) as Hcin. pose proof Hk as [].
  destruct (allocate_pid_ok k ko_pids Hfree) as (b & p & Ep & Hpr & Hpf & _ & Hpw & Hpu). rewrite Hp in Ep. injection Ep as Eb Ey.
  assert (pids_wf k' /\ forall q, 1 <= q -> pid_used k' q = if q =? p then true else pid_used k q) as [Hpw' Hpu'].
  { unfold pids_wf, pid_used in *. cbn in *. rewrite Eb in *. done. }
  assert (who k' t = Some (p, parent_pid y, pgdir y)) as Hwt by (unfold who; by rewrite Ht, lookup_insert_eq, <- Ey).
  assert (forall u, u <> t -> who k' u = who k u) as Hw by (intros u Hu; unfold who; by rewrite Ht, lookup_insert_ne by (by apply not_eq_sym)).
  assert (forall u, st_of k' u = if decide (t = u) then Some TASK_READY else st_of k u) as Hs'.
  { intros u. unfold st_of. rewrite Ht, lookup_insert. case_decide; [by cbn; rewrite Hst | done]. }
  assert (forall u, u ∈ thread_all_list k' <-> u ∈ thread_all_list k \/ u = t) as Hin by (intros u; by rewrite Ha, elem_of_app, list_elem_of_singleton).
  assert (forall u, u ∈ thread_all_list k -> u <> t) as Hne by (intros u Hu ->; done).
  assert (forall u q a d, u ∈ thread_all_list k -> who k u = Some (q, a, d) -> q <> p) as Hnp.
  { intros u q a d Hu Hwu ->. destruct (ko_pid _ _ _ _ Hu Hwu). congruence. }
  assert (forall q, living k q -> living k' q) as Hl.
  { intros q (u & a & d & Hu & Hwu & Hs). exists u, a, d. rewrite Hw by (by apply Hne). rewrite Hs', decide_False by (by apply not_eq_sym, Hne).
    split_and!; [apply Hin; by left | done | done]. }
  destruct (all_task k _ Hk Hcin) as (xc & Hxc & Hwc). destruct ko_sched as [Hwf Hrun].
  assert (parent_pid y = -1 \/ living k (parent_pid y) /\ who k (cur k) = Some (parent_pid y, parent_pid xc, pgdir xc) /\ pgdir xc <> 0) as Hpy.
  { destruct Hpar as [?|(x & Hx & -> & Hd)]; [by left | right]. rewrite Hxc in Hx. injection Hx as <-.
    split_and!; [|done | done]. exists (cur k), (parent_pid xc), (pgdir xc). by rewrite Hrun. }
  constructor; rewrite ?Hid.
  - split; [|rewrite Hc, Hs', decide_False; [done | by apply not_eq_sym, Hne]]. by apply (sched_wf_add k k' t).
  - done.
  - rewrite Ha. apply NoDup_app. split_and!; [done | | apply NoDup_singleton]. intros u Hu ->%list_elem_of_singleton. done.
  - intros u. rewrite Hin, Hs'. case_decide as E; [subst u; split; [by exists TASK_READY | by right]|]. rewrite <- ko_all. split; [intros [|]; congruence | tauto].
  - intros u q a d [Hu| ->]%Hin Hwu.
    + rewrite Hw in Hwu by (by apply Hne). destruct (ko_pid _ _ _ _ Hu Hwu) as [? Hus]. split; [done|]. rewrite Hpu' by lia. by destruct (_ =? _).
    + rewrite Hwt in Hwu. injection Hwu as <- _ _. split; [done|]. rewrite Hpu' by lia. by rewrite Z.eqb_refl.
  - intros u v q a d a' d' [Hu| ->]%Hin [Hv| ->]%Hin; rewrite ?Hwt; try done.
    + rewrite !Hw by (by apply Hne). by apply ko_uniq.
    + rewrite Hw by (by apply Hne). intros Hwu [= <- _ _]. by destruct (Hnp _ _ _ _ Hu Hwu).
    + rewrite Hw by (by apply Hne). intros [= <- _ _] Hwv. by destruct (Hnp _ _ _ _ Hv Hwv).
  - intros u q a d [Hu| ->]%Hin Hwu.
    + rewrite Hw in Hwu by (by apply Hne). destruct (ko_parent _ _ _ _ Hu Hwu); [by left | right; by apply Hl].
    + rewrite Hwt in Hwu. injection Hwu as _ <- _. destruct Hpy as [|[? _]]; [by left | right; by apply Hl].
  - destruct ko_init as (i & d & Hi & Hwi & Hs). pose proof (Hne i Hi). exists i, d. rewrite Hw, Hs', decide_False by congruence.
    split_and!; [apply Hin; by left | done | done].
  - intros u q a d [Hu| ->]%Hin Hwu Hws; [|by rewrite Hs', decide_True in Hws].
    pose proof (Hne u Hu) as Hut. rewrite Hw in Hwu by done. rewrite Hs', decide_False in Hws by (by apply not_eq_sym).
    destruct (ko_wait _ _ _ _ Hu Hwu Hws) as [(c & Hci & q' & d' & Hwc') Hh]. split.
    + exists c. split; [apply Hin; by left|]. exists q', d'. by rewrite Hw by (by apply Hne).
    + intros Hq1 v [[Hci'| ->]%Hin (a' & e & Hwc2)].
      * rewrite Hs', decide_False by (by apply not_eq_sym, Hne). apply Hh; [done|]. split; [done|]. exists a', e. by rewrite <- Hw by (by apply Hne).
      * by rewrite Hs', decide_True.
  - destruct ko_idle as (pi & Hwi & Hn1 & Hno). exists pi.
    assert (idle_thread k ∈ thread_all_list k) as Hii.
    { apply ko_all. destruct Hwf as [_ _ _ _ _ Hwi']. destruct Hwi' as [E|[E|E]]; rewrite E; eexists; done. }
    rewrite Hw by (by apply Hne). split_and!; [done | done|]. intros c [[Hci| ->]%Hin (a & e & Hwc')].
    + apply (Hno c). split; [done|]. exists a, e. by rewrite <- Hw by (by apply Hne).
    + rewrite Hwt in Hwc'. injection Hwc' as _ Epi _. destruct Hpy as [Em|(_ & Hcu & Hd)].
      * assert (pi = -1) by congruence. destruct (ko_pid _ _ _ _ Hii Hwi). lia.
      * rewrite Epi in Hcu. assert (idle_thread k = cur k) as Ei by (by eapply ko_uniq). rewrite Ei, Hcu in Hwi. injection Hwi as _ Ed. done.
Qed.

Lemma kin_step k k' : kin_ok k -> task_step k k' -> kin_ok k'.
Proof.
  intros Hk Hs. destruct Hs; [by eapply kin_wait | by eapply kin_exit | by eapply kin_new | by eapply kin_schedule | by eapply kin_yield
    | by eapply kin_block | by eapply kin_unblock | by apply kin_intr].
Qed.

(** With a waiting parent there is no other child that has ended. *)
Lemma ended_only k k' u p q d : kin_ok k -> ended k k' u -> u ∈ thread_all_list k -> who k u = Some (p, q, d) ->
  st_of k u = Some TASK_WAITING -> p <> 1 -> keeps ids k k' -> forall c, child k' p c -> st_of k' c = Some TASK_HANGING -> c = cur k.
Proof.
  intros Hk Hen Hu Hwu Hs Hp Hi c [Hin Hc] Hh. destruct (decide (c = cur k)) as [|Hne]; [done|]. exfalso.
  destruct (ko_wait k Hk _ _ _ _ Hu Hwu Hs) as [_ Hno]. destruct (en_woken _ _ _ Hen Hs) as (Hcu & _ & Hst).
  assert (c <> u). { intros ->. destruct (en_sched _ _ _ Hen) as [_ Hr]. congruence. }
  apply (Hno Hp c); [|by rewrite <- Hst]. destruct (en_rest _ _ _ Hen) as [Ha _]. rewrite Ha in Hin. split; [done|].
  destruct Hc as (a & e & Hc). exists a, e. by rewrite <- (keeps_who _ _ Hi).
Qed.

(** ** The system calls are steps *)

#[export] Instance only_fds_refl : Reflexive only_fds.
Proof. intros k. split; [by destruct k | done]. Qed.

#[export] Instance only_fds_trans : Transitive only_fds.
Proof. intros k1 k2 k3 [E1 H1] [E2 H2]. split; [rewrite E2, E1; done | by transitivity k2]. Qed.

Section calls.
Context {D H : Type} `{BlockDevice D} `{KernelHeap H}.
Abbreviation st := (sys D H).
Abbreviation fs := (fstate D H).

Lemma set_fds_only l (f f' : fs) : set_fds l f = Ok f' -> only_fds (kern f) (kern f').
Proof.
  unfold set_fds. intros E. apply obind_Ok in E as (k & Ek & E). injection E as <-. cbn.
  assert (keeps (set_fd_table []) (kern f) k) as Hk by (by eapply keeps_upd).
  unfold upd_task in Ek. apply obind_Ok in Ek as (x & _ & Ek). injection Ek as <-. done.
Qed.

Lemma close_inode_kern (f f' : fs) a : inode_close f a = Ok f' -> kern f' = kern f.
Proof.
  unfold inode_close. intros E. apply obind_Ok in E as (i & _ & E). destruct (_ =? 0); [|by injection E as <-].
  destruct (elem_find _ _); [|done]. by injection E as <-.
Qed.

Lemma put_file_kern g x (f f' : fs) : put_file g x f = Ok f' -> kern f' = kern f.
Proof. unfold put_file. intros E. apply obind_Ok in E as (l & _ & E). by injection E as <-. Qed.

Lemma file_close_kern (f f' : fs) o r : file_close f o = Ok (f', r) -> kern f' = kern f.
Proof.
  unfold file_close. destruct o as [g|]; [|intros E; by injection E as <- _]. intros E.
  apply obind_Ok in E as (x & _ & E). apply obind_Ok in E as (i & _ & E). apply obind_Ok in E as (f1 & E1 & E). apply obind_Ok in E as (f2 & E2 & E).
  injection E as <- _. rewrite (put_file_kern _ _ _ _ E2), (close_inode_kern _ _ _ E1). done.
Qed.

Lemma sys_close_only (f f' : fs) fd r a : sys_close f fd = Ok (f', r, a) -> only_fds (kern f) (kern f').
Proof.
  unfold sys_close. destruct (2 <? fd); [|intros E; by injection E as <- _ _]. intros E.
  apply obind_Ok in E as (g & _ & E). apply obind_Ok in E as (p & _ & E). apply obind_Ok in E as ([[f1 r1] a1] & E1 & E).
  apply obind_Ok in E as (f2 & E2 & E). injection E as <- _ _.
  enough (kern f1 = kern f) as Ek.
  { rewrite <- Ek. unfold set_fd in E2. apply obind_Ok in E2 as (l & _ & E2). apply obind_Ok in E2 as (l2 & _ & E2). by eapply set_fds_only. }
  destruct p.
  - apply obind_Ok in E1 as (x & _ & E1). destruct (_ =? 0); apply obind_Ok in E1 as (f3 & E3 & E1); injection E1 as <- _ _; by rewrite (put_file_kern _ _ _ _ E3).
  - apply obind_Ok in E1 as ([f3 r3] & E3 & E1). injection E1 as <- _ _. by eapply file_close_kern.
Qed.

Lemma release_fd_only (s s' : st) l fd : release_fd s l fd = Ok s' -> only_fds (s_k s) (s_k s').
Proof.
  unfold release_fd. intros E. apply obind_Ok in E as (g & _ & E). destruct (negb _); [|by injection E as <-].
  apply obind_Ok in E as (p & _ & E). destruct p.
  - apply obind_Ok in E as (g' & _ & E). apply obind_Ok in E as (x & _ & E). destruct (_ =? 0).
    + apply obind_Ok in E as (m & _ & E). apply obind_Ok in E as (f & Ef & E). injection E as <-. unfold s_k; cbn. by rewrite (put_file_kern _ _ _ _ Ef).
    + apply obind_Ok in E as (f & Ef & E). injection E as <-. unfold s_k; cbn. by rewrite (put_file_kern _ _ _ _ Ef).
  - apply obind_Ok in E as ([[f r] a] & Ef & E). injection E as <-. by eapply sys_close_only.
Qed.

Lemma release_only (s s' : st) t : release_prog_resource s t = Ok s' -> only_fds (s_k s) (s_k s').
Proof.
  unfold release_prog_resource. intros E. apply obind_Ok in E as (x & _ & E). apply obind_Ok in E as (m & _ & E).
  apply obind_Ok in E as (uv & _ & E). apply obind_Ok in E as (m2 & _ & E).
  apply (loop_keeps (release_fd_body t) (fun v => only_fds (s_k s) (s_k (fst v))) (fun r => only_fds (s_k s) (s_k r))) in E; [done | | done].
  intros [s1 fd] r Hi Eb. cbn in Hi. unfold release_fd_body in Eb. destruct (_ <? _); [|injection Eb as <-; done].
  apply obind_Ok in Eb as (y & _ & Eb). apply obind_Ok in Eb as (s2 & E2 & Eb). injection Eb as <-. cbn. transitivity (s_k s1); [done | by eapply release_fd_only].
Qed.

Lemma exit_step (s s' : st) v o : sys_exit s v = Ok (s', o) -> task_step (s_k s) (s_k s').
Proof.
  unfold sys_exit. intros E. apply obind_Ok in E as (k1 & E1 & E). apply obind_Ok in E as (s2 & E2 & E). apply obind_Ok in E as ([k3 o3] & E3 & E).
  injection E as <- <-. apply (step_exit _ v k1 (s_k s2) k3 o3); [done | | done]. exact (release_only _ _ _ E2).
Qed.

Lemma wait_step (s s' : st) r : sys_wait s = Ok (s', r) -> task_step (s_k s) (s_k s').
Proof.
  unfold sys_wait. intros E. apply obind_Ok in E as ([k r'] & E1 & E). apply obind_Ok in E as (m & _ & E). injection E as <- <-.
  by apply (step_wait _ k r').
Qed.

(** The child under construction: in the table of tasks, in no list yet. *)
Definition unborn (k k2 : kstate) (t : Z) (x : task_struct) : Prop := exists b y p,
  allocate_pid k = Ok (with_pids b k, p) /\ k2 = with_tasks (<[t := y]> (tasks k)) (with_pids b k)
  /\ pid y = p /\ parent_pid y = pid x /\ status y = TASK_READY.

Lemma unborn_upd k k2 k3 t x g : unborn k k2 t x -> upd_task k2 t g = Ok k3 ->
  (forall y, pid (g y) = pid y /\ parent_pid (g y) = parent_pid y /\ status (g y) = status y) -> unborn k k3 t x.
Proof.
  intros (b & y & p & E & -> & Hp & Hpp & Hs) Eu Hg. rewrite (upd_task_ok _ _ y) in Eu by apply lookup_insert_eq. injection Eu as <-.
  destruct (Hg y) as (G1 & G2 & G3). exists b, (g y), p. split_and!; [done | | congruence..]. unfold with_tasks; cbn. by rewrite insert_insert_eq.
Qed.

Lemma open_again_kern (f f' : fs) l fd : open_again f l fd = Ok f' -> kern f' = kern f.
Proof.
  unfold open_again. intros E. apply obind_Ok in E as (g & _ & E). apply obind_Ok in E as ([] & _ & E).
  destruct (negb _); [|by injection E as <-]. apply obind_Ok in E as (p & _ & E). apply obind_Ok in E as (x & _ & E). destruct p.
  - by eapply put_file_kern.
  - apply obind_Ok in E as (i & _ & E). by injection E as <-.
Qed.

Lemma update_open_kern (f f' : fs) t : update_inode_open_cnts f t = Ok f' -> kern f' = kern f.
Proof.
  unfold update_inode_open_cnts. intros E. apply obind_Ok in E as (x & _ & E).
  apply (loop_keeps (open_again_body (fd_table x)) (fun v => kern (fst v) = kern f) (fun r => kern r = kern f)) in E; [done | | done].
  intros [f1 fd] r Hi Eb. cbn in Hi. unfold open_again_body in Eb. destruct (_ <? _); [|by injection Eb as <-].
  apply obind_Ok in Eb as (f2 & E2 & Eb). injection Eb as <-. cbn. by rewrite (open_again_kern _ _ _ _ E2).
Qed.

Lemma copy_pcb_unborn (s s' : st) t parent x : tasks (s_k s) !! parent = Some x ->
  copy_pcb_vaddrbitmap_stack0 s t parent = Ok (s', true) -> unborn (s_k s) (s_k s') t x.
Proof.
  intros Hx E. unfold copy_pcb_vaddrbitmap_stack0, get_task in E. rewrite Hx in E. cbn [obind] in E.
  apply obind_Ok in E as (uv & _ & E). apply obind_Ok in E as (c & _ & E). apply obind_Ok in E as ([k1 p] & Ep & E).
  apply obind_Ok in E as ([m a] & _ & E). destruct a as [a|]; [|done].
  apply obind_Ok in E as (len & _ & E). apply obind_Ok in E as ([] & _ & E). apply obind_Ok in E as (nm & _ & E). apply obind_Ok in E as (k2 & Ek & E).
  injection E as <-. eapply unborn_upd; [|exact Ek | done].
  unfold fork_pid in Ep. unfold allocate_pid in Ep. apply obind_Ok in Ep as (i & Ei & Ep). apply obind_Ok in Ep as (b & Eb & Ep). injection Ep as <- <-.
  exists b, (child_task x (s16 (i + pid_start))), (s16 (i + pid_start)). split_and!; try done. unfold allocate_pid. rewrite Ei. cbn [obind]. by rewrite Eb.
Qed.

Lemma fork_step (s s' : st) ie p : sys_fork s ie = Ok (s', p) -> p <> -1 ->
  (forall m va, get_kernel_pages (s_vm s) 1 = Ok (m, Some va) -> va <> 0) ->
  (exists q, 1 <= q <= 1024 /\ pid_used (s_k s) q = false) -> task_step (s_k s) (s_k s').
Proof.
  intros E Hp Hnz Hfree. unfold sys_fork, running_thread in E. apply obind_Ok in E as ([m page] & Em & E). cbn [s_k] in E.
  destruct page as [t|]; [|injection E as _ <-; done]. pose proof (Hnz _ _ Em) as Ht.
  apply obind_Ok in E as (x & Ex & E). assert (tasks (s_k s) !! cur (s_k s) = Some x) as Hx.
  { unfold get_task in Ex. change (s_k (with_vm m s)) with (s_k s) in Ex. destruct (tasks (s_k s) !! _); [by injection Ex as <- | done]. }
  apply obind_Ok in E as ([] & Ea & E). assert (pgdir x <> 0) as Hd.
  { intros Hd. rewrite Hd in Ea. cbn in Ea. by rewrite andb_false_r in Ea. }
  apply obind_Ok in E as ([s2 ok] & Ec & E). destruct ok; [|injection E as _ <-; done]. cbn [negb] in E.
  assert (unborn (s_k s) (s_k s2) t x) as (b & y & q & Ep & Ek & Hpy & Hpp & Hs).
  { unfold copy_process in Ec. apply obind_Ok in Ec as ([m1 buf] & _ & Ec). destruct buf as [buf|]; [|done].
    apply obind_Ok in Ec as ([s3 ok] & Ec3 & Ec). destruct ok; [|done]. cbn [negb] in Ec.
    apply (copy_pcb_unborn _ _ _ _ x) in Ec3; [|done]. apply obind_Ok in Ec as ([m3 dir] & _ & Ec). apply obind_Ok in Ec as (k3 & Ek3 & Ec).
    eapply unborn_upd in Ek3; [|exact Ec3 | done]. destruct dir as [d|]; [|done].
    apply obind_Ok in Ec as (t4 & _ & Ec). apply obind_Ok in Ec as (uv4 & _ & Ec). apply obind_Ok in Ec as (m4 & _ & Ec).
    apply obind_Ok in Ec as (s5 & E5 & Ec). apply obind_Ok in Ec as (f6 & E6 & Ec). apply obind_Ok in Ec as (m6 & _ & Ec). injection Ec as <-.
    unfold build_child_stack in E5. apply obind_Ok in E5 as (c5 & _ & E5). apply obind_Ok in E5 as (k5 & Ek5 & E5). injection E5 as <-.
    apply update_open_kern in E6. unfold s_k in *; cbn in *. rewrite E6. eapply unborn_upd; [|exact Ek5 | done]. done. }
  apply obind_Ok in E as (k3 & E3 & E). apply obind_Ok in E as (y2 & _ & E). injection E as <- _.
  unfold enlist in E3. rewrite Ek in E3. cbn in E3. unfold elem_find in E3.
  case_bool_decide as Hr; [done|]. cbn in E3. case_bool_decide as Hal; [done|]. injection E3 as <-.
  apply (step_new _ _ t y); [|done]. constructor; try done.
  - cbn. by rewrite Ep, Hpy.
  - right. by exists x.
Qed.
End calls.

(** ** Theorems *)

(** C4. No run of tasks that start processes, wait, exit, block and are scheduled
    loses the end of a child of a process other than init: whoever waits has a child,
    and unless it is init (pid 1) none of its children has ended already, so that one
    that ends will wake it. Of init the second part is not claimed and does not hold:
    it can sleep over an ended child it was handed ([adopted_not_collected]). Along the
    way every parent named by a task is alive or there is none, pids are unique and
    taken, and the scheduler's own invariant holds. *)
Theorem no_lost_exit k k' : kin_ok k -> rtc task_step k k' ->
  kin_ok k' /\ forall t x, t ∈ thread_all_list k' -> tasks k' !! t = Some x -> status x = TASK_WAITING ->
    (exists c, child k' (pid x) c) /\ (pid x <> 1 -> forall c, child k' (pid x) c -> st_of k' c <> Some TASK_HANGING).
Proof.
  intros Hk Hr. assert (kin_ok k') as Hk'.
  { induction Hr as [|k1 k2 k3 Hs _ IH]; [done|]. by apply IH, (kin_step k1). }
  split; [done|]. intros t x Ht Hx Hw. destruct (all_task k' t Hk' Ht) as (y & Hy & Hwho). rewrite Hx in Hy. injection Hy as <-.
  apply (ko_wait k' Hk' t _ _ _ Ht Hwho). unfold st_of. by rewrite Hx, <- Hw.
Qed.

(** A turn of [sys_wait] never fails: if a child has ended, the first one in the
    list is collected, its status and pid returned, its pages freed, and no other
    task changes; without children the result is -1 and nothing changes; otherwise
    the caller sleeps as TASK_WAITING, to be woken by a child. *)
Theorem sys_wait_spec k x : kin_ok k -> tasks k !! cur k = Some x ->
  exists k' r, sys_wait_turn k = Ok (k', r) /\ kin_ok k' /\
    match r with
    | Reaped q v pages => exists c y, first_hanging k (pid x) c /\ tasks k !! c = Some y /\ q = pid y /\ v = exit_status y
        /\ pages = (if pgdir y =? 0 then [] else [pgdir y]) ++ (if c =? main_thread k then [] else [c]) /\ reaped k k' c
    | NoChild => k' = k /\ forall c, ~ child k (pid x) c
    | Asleep _ => (exists c, child k (pid x) c) /\ (forall c, child k (pid x) c -> st_of k c <> Some TASK_HANGING)
        /\ st_of k' (cur k) = Some TASK_WAITING /\ (forall u, u <> cur k -> calm (st_of k u) (st_of k' u))
        /\ sched_ok k' /\ same_rest k k' /\ keeps ids k k'
    end.
Proof.
  intros Hk Hx. assert (who k (cur k) = Some (pid x, parent_pid x, pgdir x)) as Hw by (apply who_task; by exists x).
  destruct (wait_turn_ok k _ _ _ Hk Hw) as (k' & r & E & Hp). exists k', r. split; [done|]. split; [by eapply kin_wait | exact Hp].
Qed.

(** C27. The end of a process meets its waiting parent. The child's children go to
    init; the parent runs next, and its turn of [sys_wait] collects its first ended
    child, returning that one's pid and stored status and taking it off the list, no
    matter which descriptors were closed in between. The child that exits has ended by
    then, with the low eight bits of its status, signed; it is the one collected unless
    the parent is init (pid 1), which may have an ended child handed to it before. *)
Theorem exit_meets_wait k x u y v : kin_ok k -> tasks k !! cur k = Some x -> u ∈ thread_all_list k -> tasks k !! u = Some y ->
  pid y = parent_pid x -> status y = TASK_WAITING ->
  exists k1, exit_begin k v = Ok k1 /\ (forall c, child k (pid x) c -> child k1 1 c) /\ forall k2, only_fds k1 k2 ->
    exists k3 k4 pages c z, exit_end k2 = Ok (k3, intr k) /\ cur k3 = u /\ thread_ready_list k3 = thread_ready_list k
      /\ sys_wait_turn k3 = Ok (k4, Reaped (pid z) (exit_status z) pages) /\ kin_ok k4 /\ cur k4 = u
      /\ first_hanging k3 (pid y) c /\ tasks k3 !! c = Some z
      /\ thread_all_list k4 = remove_elem c (thread_all_list k) /\ pid_used k4 (pid z) = false
      /\ child k3 (pid y) (cur k) /\ st_of k3 (cur k) = Some TASK_HANGING /\ exit_status <$> tasks k3 !! cur k = Some (s8 v)
      /\ (pid y <> 1 -> c = cur k /\ pid z = pid x /\ exit_status z = s8 v).
Proof.
  intros Hk Hx Hu Hy Hpy Hws. pose proof (cur_all k Hk) as Hcin. destruct (ko_sched k Hk) as [_ Hrun].
  assert (who k (cur k) = Some (pid x, parent_pid x, pgdir x)) as Hwx by (apply who_task; by exists x).
  assert (who k u = Some (pid y, parent_pid y, pgdir y)) as Hwy by (apply who_task; by exists y).
  destruct (ko_pid k Hk _ _ _ _ Hu Hwy) as [Hry _]. destruct (ko_pid k Hk _ _ _ _ Hcin Hwx) as [Hrx _].
  assert (st_of k u = Some TASK_WAITING) as Hsu by (unfold st_of; by rewrite Hy, <- Hws).
  destruct (exit_begin_ok k v _ _ _ Hk Hwx ltac:(lia)) as
    (k1 & q1 & E1 & Hk1 & Hc1 & Hr1 & Hi1 & _ & _ & Hw1 & _ & Hqq & _ & _ & Hinit1 & Hex1 & _).
  exists k1. split; [done|]. split; [intros c Hc; apply Hinit1; by right|]. intros k2 Hf. rewrite Hpy in Hwy.
  destruct (exit_ok k v _ _ _ k1 k2 Hk Hwx ltac:(lia) E1 Hf) as (k3 & u' & q & b & e & E3 & Hk3 & Hen & Hu' & Hwu' & Hq & Hne & Hkeep).
  destruct (exit_waiting k v _ _ _ k1 k2 u _ _ Hk Hwx E1 Hf Hu Hwy Hsu) as (Hpp & Hsu2 & Ha2 & (a & c & Hwu) & Hun).
  assert (u' = u) as -> by (by eapply Hun). pose proof (kin_fds k1 k2 Hk1 Hf) as Hk2.
  assert (cur k2 = cur k /\ thread_ready_list k2 = thread_ready_list k) as (Hc2 & Hr2) by (pose proof (proj1 Hf) as E; rewrite E; by cbn; rewrite Hc1, Hr1).
  destruct (en_woken _ _ _ Hen Hsu2) as (Hcu & Hr3 & _).
  assert (keeps ids k2 k3) as Hids by (by apply Hkeep). pose proof (keeps_who _ _ Hids) as Hw3.
  assert (who k3 (cur k) = Some (pid x, parent_pid x, pgdir x)) as Hw3c.
  { rewrite Hw3. assert (keeps ids k1 k2) as Hi12 by (by apply only_fds_keeps). rewrite (keeps_who _ _ Hi12), Hw1. by rewrite Hqq. }
  assert (thread_all_list k3 = thread_all_list k) as Ha3 by (destruct (en_rest _ _ _ Hen) as [-> _]; done).
  assert (child k3 (parent_pid x) (cur k)) as Hchild by (split; [by rewrite Ha3 | by exists (pid x), (pgdir x)]).
  assert (st_of k3 (cur k) = Some TASK_HANGING) as Hh3 by (rewrite <- Hc2; apply Hen).
  destruct (wait_turn_ok k3 (parent_pid x) a c Hk3) as (k4 & r & E4 & Hpost); [by rewrite Hcu, Hw3|].
  pose proof (kin_wait _ _ _ Hk3 E4) as Hk4.
  destruct r as [p4 v4 pages| |]; [|by destruct Hpost as [_ Hno]; destruct (Hno _ Hchild)|by destruct Hpost as (_ & Hno & _); destruct (Hno _ Hchild)].
  destruct Hpost as (c' & z & Hfirst & Hz & -> & -> & _ & R). destruct (first_hanging_child _ _ _ Hfirst) as [Hc Hcs].
  assert (exit_status <$> tasks k3 !! cur k = Some (s8 v)) as Hst.
  { assert (keeps exit_status k1 k3) as Hks by (transitivity k2; [by apply only_fds_keeps | by apply Hkeep]). by rewrite (Hks (cur k)). }
  exists k3, k4, pages, c', z. rewrite Hpy. split_and!; [done | done | congruence | done | done | by rewrite (re_cur _ _ _ R) | done | done
    | by rewrite (re_all _ _ _ R), Ha3 | | done | done | done |].
  - destruct (all_task k3 c' Hk3 (proj1 Hc)) as (z' & Hz' & Hwz). rewrite Hz in Hz'. injection Hz' as <-.
    destruct (ko_pid k3 Hk3 _ _ _ _ (proj1 Hc) Hwz) as [Hrz _]. apply (re_free _ _ _ R); [lia | by exists z].
  - intros Hn1. assert (c' = cur k) as ->. { rewrite <- Hc2. eapply (ended_only k2 k3 u (parent_pid x)); done. }
    destruct (proj1 (who_task _ _ _ _ _) Hw3c) as (z' & Hz' & Epz & _). rewrite Hz in Hz', Hst. injection Hz' as <-. injection Hst as ->. by rewrite Epz.
Qed.
