(* ===== verification/Kindemo.v ===== *)
(** A small family of tasks on which the theorems of Kinspec.v are applied: init, the
    shell, a program it waits for, and a child of that program that has ended. *)
From S2P Require Import Prelude Bitmap Thread Process Waitexit Kin Kinspec.

Definition kin_task (p q : Z) (d : Z) (s : task_status) : task_struct :=
  mk_task 0 None p s [97; 0] 31 31 0 initial_fd_table d 0 q 0 STACK_MAGIC.

Definition kin_state : kstate :=
  mk_kstate 0x3000
    (<[0x1000 := kin_task 1 (-1) 0xc0106000 TASK_WAITING]> (<[0x2000 := kin_task 2 1 0xc0102000 TASK_WAITING]>
     (<[0x3000 := kin_task 3 2 0xc0101000 TASK_RUNNING]> (<[0x4000 := kin_task 4 (-1) 0 TASK_BLOCKED]>
     (<[0x5000 := kin_task 5 3 0xc0105000 TASK_HANGING]> ∅)))))
    [] [0x1000; 0x2000; 0x3000; 0x4000; 0x5000] false 0x4000 0x6000
    (mk_bitmap 128 (31 :: replicate 128 0)) 0x100000 0 (fun v => v).

Lemma kin_state_st t : st_of kin_state t = if decide (0x1000 = t) then Some TASK_WAITING else if decide (0x2000 = t) then Some TASK_WAITING
  else if decide (0x3000 = t) then Some TASK_RUNNING else if decide (0x4000 = t) then Some TASK_BLOCKED
  else if decide (0x5000 = t) then Some TASK_HANGING else None.
Proof. unfold st_of, kin_state; cbn [tasks]. rewrite !lookup_insert. by repeat case_decide. Qed.

Lemma kin_state_who t : who kin_state t = if decide (0x1000 = t) then Some (1, -1, 0xc0106000) else if decide (0x2000 = t) then Some (2, 1, 0xc0102000)
  else if decide (0x3000 = t) then Some (3, 2, 0xc0101000) else if decide (0x4000 = t) then Some (4, -1, 0)
  else if decide (0x5000 = t) then Some (5, 3, 0xc0105000) else None.
Proof. unfold who, kin_state; cbn [tasks]. rewrite !lookup_insert. by repeat case_decide. Qed.

Lemma kin_state_all t : t ∈ thread_all_list kin_state <-> t = 0x1000 \/ t = 0x2000 \/ t = 0x3000 \/ t = 0x4000 \/ t = 0x5000.
Proof. cbn [thread_all_list kin_state]. rewrite !elem_of_cons, elem_of_nil. tauto. Qed.

Lemma kin_state_ok : kin_ok kin_state.
Proof.
  split.
  - split; [constructor|]; try (rewrite kin_state_st; by repeat case_decide).
    + constructor.
    + intros t. rewrite kin_state_st. cbn [thread_ready_list kin_state]. rewrite elem_of_nil. repeat case_decide; done.
    + intros t. rewrite kin_state_st. cbn [cur kin_state]. repeat case_decide; congruence.
    + right; right. reflexivity.
  - split; [|reflexivity]. constructor; [cbn; lia | unfold nbits; cbn; lia | cbn; lia |].
    cbn [bits pid_bitmap kin_state]. apply Forall_cons; split; [unfold is_byte; lia|]. apply Forall_replicate. unfold is_byte; lia.
  - apply (bool_decide_unpack _). vm_compute. exact I.
  - intros t. rewrite kin_state_all, kin_state_st. repeat case_decide; subst; split; try (intros _; eexists; done); try tauto;
      [intros [?|[?|[?|[?|?]]]]; congruence | by intros (? & ? & _)].
  - intros t p q d _. rewrite kin_state_who. repeat case_decide; intros [= <- <- <-] || intros [=]; (split; [lia | reflexivity]).
  - intros t u p q d q' d' _ _. rewrite !kin_state_who. repeat case_decide; congruence.
  - intros t p q d _. rewrite kin_state_who. repeat case_decide; intros [= <- <- <-] || intros [=]; (by left) || right.
    + exists 0x1000, (-1), 0xc0106000. rewrite kin_state_all, kin_state_who, kin_state_st. split_and!; [tauto | done | done].
    + exists 0x2000, 1, 0xc0102000. rewrite kin_state_all, kin_state_who, kin_state_st. split_and!; [tauto | done | done].
    + exists 0x3000, 2, 0xc0101000. rewrite kin_state_all, kin_state_who, kin_state_st. split_and!; [tauto | done | done].
  - exists 0x1000, 0xc0106000. rewrite kin_state_all, kin_state_who, kin_state_st. split_and!; [tauto | done | done].
  - intros t p q d _. rewrite kin_state_who, kin_state_st. repeat case_decide; intros [= <- <- <-] || intros [=]; intros [=]; split.
    + exists 0x2000. split; [rewrite kin_state_all; tauto|]. by exists 2, 0xc0102000.
    + done.
    + exists 0x3000. split; [rewrite kin_state_all; tauto|]. by exists 3, 0xc0101000.
    + intros _ c [_ (a & b & Hc)]. rewrite kin_state_who in Hc. rewrite kin_state_st. repeat case_decide; congruence.
  - exists 4. split_and!; [reflexivity | done|]. intros c [_ (a & b & Hc)]. rewrite kin_state_who in Hc. repeat case_decide; congruence.
Qed.

Definition kin_status : Z := 263.

Example no_lost_exit_witness : exists k', rtc task_step kin_state k' /\ kin_ok k'.
Proof.
  destruct (thread_yield_ok kin_state (ko_sched _ kin_state_ok)) as (k' & E & _). exists k'.
  assert (rtc task_step kin_state k') as Hr by (apply rtc_once; by eapply step_yield). split; [exact Hr|].
  apply (no_lost_exit kin_state k' kin_state_ok Hr).
Defined.

Example sys_wait_witness : exists k' q v pages, sys_wait_turn kin_state = Ok (k', Reaped q v pages) /\ kin_ok k' /\ q = 5.
Proof.
  destruct (sys_wait_spec kin_state (kin_task 3 2 0xc0101000 TASK_RUNNING) kin_state_ok eq_refl) as (k' & r & E & Hk & Hp).
  destruct r as [q v pages| |].
  - exists k', q, v, pages. split; [exact E|]. split; [exact Hk|]. vm_compute in E. congruence.
  - exfalso. vm_compute in E. congruence.
  - exfalso. vm_compute in E. congruence.
Defined.

Example exit_meets_wait_witness : exists k1 k3 k4 pages, exit_begin kin_state kin_status = Ok k1 /\ exit_end k1 = Ok (k3, false) /\ cur k3 = 0x2000
  /\ sys_wait_turn k3 = Ok (k4, Reaped 3 7 pages) /\ kin_ok k4.
Proof.
  destruct (exit_meets_wait kin_state (kin_task 3 2 0xc0101000 TASK_RUNNING) 0x2000 (kin_task 2 1 0xc0102000 TASK_WAITING) kin_status)
    as (k1 & E1 & _ & Hrest); [exact kin_state_ok | reflexivity | rewrite kin_state_all; tauto | reflexivity | reflexivity | reflexivity |].
  destruct (Hrest k1 (reflexivity k1)) as (k3 & k4 & pages & c & z & E3 & Hc & _ & E4 & Hk & _ & _ & _ & _ & _ & _ & _ & _ & Hz).
  destruct (Hz ltac:(discriminate)) as (_ & Hp & Hs). rewrite Hp, Hs in E4.
  exists k1, k3, k4, pages. split_and!; [exact E1 | exact E3 | exact Hc | exact E4 | exact Hk].
Defined.

(** Adoption does not wake init: the child that had ended before its parent did now
    hangs under init, which goes on sleeping until some other child ends. *)
Example adopted_not_collected : exists k1 k3, exit_begin kin_state kin_status = Ok k1 /\ exit_end k1 = Ok (k3, false)
  /\ st_of k3 0x1000 = Some TASK_WAITING /\ child k3 1 0x5000 /\ st_of k3 0x5000 = Some TASK_HANGING.
Proof.
  eexists _, _. split_and!; [vm_compute; reflexivity | vm_compute; reflexivity | reflexivity | | reflexivity].
  split; [apply (bool_decide_unpack _); vm_compute; exact I | by exists 5, 0xc0105000].
Qed.
