(* ===== verification/Release.v ===== *)
(** The memory a process gives back when it ends: the frames of its user pages and
    page tables, and the pages of its address bitmap. *)
From S2P Require Import Prelude Bitmap Paging Process Space Waitexit.

(** ** Machines that differ in which frames are free *)

Definition frame_in (p : pool) (f : Z) : Prop := exists i, 0 <= i < pool_bits p /\ f = phy_addr_start p + i * PG_SIZE.

(** [p'] is [p] with the frames of [S] free as well. *)
Record pool_freed (S : Z -> Prop) (p p' : pool) : Prop := {
  pf_start : phy_addr_start p' = phy_addr_start p;
  pf_size : pool_size p' = pool_size p;
  pf_len : btmp_bytes_len (pool_bitmap p') = btmp_bytes_len (pool_bitmap p);
  pf_mem : zlen (bits (pool_bitmap p')) = zlen (bits (pool_bitmap p));
  pf_wf : bitmap_wf 1 (pool_bitmap p');
  pf_bits : forall i, 0 <= i < pool_bits p ->
    bit (pool_bitmap p') i = false <-> bit (pool_bitmap p) i = false \/ S (phy_addr_start p + i * PG_SIZE) }.

Record freed (S : Z -> Prop) (m m' : vm) : Prop := {
  fr_pm : pm m' = pm m;
  fr_cr3 : cr3 m' = cr3 m;
  fr_kvaddr : kernel_vaddr m' = kernel_vaddr m;
  fr_uvaddr : userprog_vaddr m' = userprog_vaddr m;
  fr_pool : forall pf, pool_freed S (get_pool pf m) (get_pool pf m') }.

Lemma pool_freed_bits S p p' : pool_freed S p p' -> pool_bits p' = pool_bits p.
Proof. intros []. unfold pool_bits, nbits. congruence. Qed.

Lemma pool_freed_free S p p' g : pool_freed S p p' -> frame_free p' g <-> frame_free p g \/ S g /\ frame_in p g.
Proof.
  intros F. pose proof (pool_freed_bits _ _ _ F) as Hb. destruct F. unfold frame_free, frame_in. rewrite Hb, pf_start0. split.
  - intros (i & Hi & -> & Hf). apply pf_bits0 in Hf as [Hf|Hs]; [| |done].
    + left. by exists i.
    + right. split; [done|]. by exists i.
  - intros [(i & Hi & -> & Hf)|[Hs (i & Hi & ->)]]; exists i; (split; [exact Hi|]); (split; [done|]); apply (pf_bits0 i Hi); [by left | by right].
Qed.

Lemma pool_freed_ext S T p p' : (forall g, S g <-> T g) -> pool_freed S p p' -> pool_freed T p p'.
Proof. intros E []. constructor; try done. intros i Hi. by rewrite <- E, pf_bits0. Qed.

Lemma freed_ext S T m m' : (forall g, S g <-> T g) -> freed S m m' -> freed T m m'.
Proof. intros E []. constructor; try done. intros pf. by eapply pool_freed_ext. Qed.

Lemma freed_none m S : (forall pf, pool_ok (get_pool pf m)) -> (forall g, ~ S g) -> freed S m m.
Proof. intros Hp Hs. constructor; try done. intros pf. constructor; try done; [apply Hp|]. intros i _. pose proof (Hs (phy_addr_start (get_pool pf m) + i * PG_SIZE)). tauto. Qed.

Lemma freed_mmu S m m' va : freed S m m' -> mmu m' va = mmu m va.
Proof. intros []. unfold mmu, pte_pa, pde_pa. by rewrite fr_pm0, fr_cr4. Qed.

Lemma freed_load S m m' va : freed S m m' -> load m' va = load m va.
Proof. intros F. unfold load. by rewrite (freed_mmu _ _ _ _ F), (fr_pm _ _ _ F). Qed.

(** Clearing a bit, in a bitmap and in one of the same size. *)
Lemma bitmap_clear b i : bitmap_wf 1 b -> 0 <= i -> i / 8 < zlen (bits b) ->
  exists b', bitmap_set b i 0 = Ok b' /\ btmp_bytes_len b' = btmp_bytes_len b /\ zlen (bits b') = zlen (bits b) /\ bitmap_wf 1 b'
    /\ forall j, bit b' j = if j =? i then false else bit b j.
Proof.
  intros [] H0 Hi. destruct (bitmap_set_ok b (zlen (bits b) - btmp_bytes_len b) i false) as (b' & E & Hl & Hwf & Hb).
  - constructor; try done. lia.
  - unfold nbits. split; [done|]. Z.to_euclidean_division_equations; lia.
  - exists b'. assert (zlen (bits b') = zlen (bits b)) as Hz.
    { unfold bitmap_set in E. cbn [Z.b2z] in E. cbn in E. destruct (rd (bits b) (i / 8)); cbn in E; [|done].
      destruct (wr _ _ _) eqn:Ew; cbn in E; [|done]. injection E as <-. cbn. apply wr_Ok in Ew as [_ ->]. by rewrite length_insert. }
    split_and!; try done. destruct Hwf. constructor; try done; lia.
Qed.

Lemma bitmap_clear_range b b' i : bitmap_set b i 0 = Ok b' -> 0 <= i -> i / 8 < zlen (bits b).
Proof.
  unfold bitmap_set. cbn. intros E Hi. destruct (rd (bits b) (i / 8)) eqn:Er; cbn in E; [|done].
  apply rd_Ok, znth_Some in Er. lia.
Qed.

Lemma pool_freed_other S p p' f : pool_freed S p p' -> ~ frame_in p f -> pool_freed (fun g => S g \/ g = f) p p'.
Proof.
  intros [] Hn. constructor; try done. intros i Hi. rewrite pf_bits0 by done. split; [tauto|].
  intros [?|[?|Hf]]; [by left | by right|]. destruct Hn. by exists i.
Qed.

Lemma pool_freed_clear S p p' b i : pool_freed S p p' -> 0 <= i < pool_bits p -> btmp_bytes_len b = btmp_bytes_len (pool_bitmap p') ->
  zlen (bits b) = zlen (bits (pool_bitmap p')) -> bitmap_wf 1 b -> (forall j, bit b j = if j =? i then false else bit (pool_bitmap p') j) ->
  pool_freed (fun g => S g \/ g = phy_addr_start p + i * PG_SIZE) p (mk_pool b (phy_addr_start p') (pool_size p')).
Proof.
  intros [] Hi Hl Hz Hwf Hb. constructor; cbn; try congruence. intros j Hj. rewrite Hb. destruct (Z.eqb_spec j i) as [->|Hne].
  - split; [intros _; right; by right | done].
  - rewrite pf_bits0 by done. unfold PG_SIZE. split; [tauto|]. intros [?|[?|Hf]]; [by left | by right | lia].
Qed.

(** ** Freeing frames *)

Section frames.
Variables (m : vm) (dir : Z).
Hypothesis Hm : vm_ok m.

Lemma pool_start pf f : frame_in (get_pool pf m) f ->
  (phy_addr_start (user_pool m) <=? f) = match pf with PF_USER => true | PF_KERNEL => false end
  /\ exists i, 0 <= i < pool_bits (get_pool pf m) /\ f = phy_addr_start (get_pool pf m) + i * PG_SIZE
       /\ u32 (f - phy_addr_start (get_pool pf m)) / PG_SIZE = i.
Proof.
  intros (i & Hi & E). pose proof (vo_order m Hm). assert (pool_ok (get_pool pf m)) as [_ Hst Hend] by (destruct pf; apply Hm).
  unfold PG_SIZE in *. split.
  - destruct pf; cbn in *; [apply Z.leb_gt | apply Z.leb_le]; lia.
  - exists i. split_and!; [lia | lia | done|]. rewrite u32_small by lia. rewrite E.
    replace (_ + i * 4096 - _) with (i * 4096) by lia. by apply Z.div_mul.
Qed.

(** A frame is in one pool only. *)
Lemma pool_unique pf pf' f : frame_in (get_pool pf m) f -> frame_in (get_pool pf' m) f -> pf = pf'.
Proof. intros H1 H2. destruct (pool_start _ _ H1) as [E1 _], (pool_start _ _ H2) as [E2 _]. destruct pf, pf'; congruence. Qed.

Lemma pool_of_flag (pf : pool_flags) (mm : vm) : get_pool (if match pf with PF_USER => true | PF_KERNEL => false end then PF_USER else PF_KERNEL) mm = get_pool pf mm.
Proof. by destruct pf. Qed.

Lemma free_more S m1 pf f : freed S m m1 -> frame_in (get_pool pf m) f ->
  exists m2, free_a_phy_page m1 f = Ok m2 /\ freed (fun g => S g \/ g = f) m m2.
Proof.
  intros F Hf. pose proof (fr_pool _ _ _ F) as Fp. destruct (pool_start pf f Hf) as (E & i & Hi & Hfi & Eu).
  pose proof (Fp pf) as []. assert (0 <= i /\ i / 8 < zlen (bits (pool_bitmap (get_pool pf m1)))) as [Hi0 Hi8].
  { destruct pf_wf0. unfold pool_bits, nbits in Hi. rewrite pf_len0 in *. Z.to_euclidean_division_equations; lia. }
  destruct (bitmap_clear _ i pf_wf0 Hi0 Hi8) as (b & Eb & Hl & Hz & Hwf & Hb).
  unfold free_a_phy_page, pfree. replace (phy_addr_start (user_pool m1)) with (phy_addr_start (user_pool m)) by (symmetry; apply (Fp PF_USER)).
  rewrite E, pool_of_flag, pf_start0, Eu, Eb. cbn [obind]. eexists; split; [done|]. destruct F.
  pose proof (pool_freed_clear S _ _ b i (Fp pf) Hi Hl Hz Hwf Hb) as Hp. rewrite <- Hfi, pf_start0 in Hp.
  destruct pf; constructor; try done; intros [|]; try exact Hp; (apply pool_freed_other; [apply Fp|]; intros Hother).
  - by pose proof (pool_unique PF_KERNEL PF_USER f Hf Hother).
  - by pose proof (pool_unique PF_USER PF_KERNEL f Hf Hother).
Qed.

(** ** The loops *)

Definition pde (i : Z) : Z := pm m (cr3 m + 4 * i).
Definition pte (i j : Z) : Z := pm m (frame (pde i) + 4 * j).

Definition pte_frame (i n f : Z) : Prop := exists j, 0 <= j < n /\ present (pte i j) = true /\ frame (pte i j) = f.
Definition pde_frame (n f : Z) : Prop :=
  exists i, 0 <= i < n /\ present (pde i) = true /\ (frame (pde i) = f \/ pte_frame i 1024 f).

Hypothesis Hdir : 0 <= dir < 2 ^ 32 /\ dir mod PG_SIZE = 0.
Hypothesis Hmap : mmu m dir = Some (cr3 m).
Hypothesis Hin : forall f, pde_frame 768 f -> exists pf, frame_in (get_pool pf m) f.

Lemma load_dir i : 0 <= i < 1024 -> load m (u32 (dir + 4 * i)) = Ok (pde i).
Proof.
  intros Hi. unfold load. assert (dir + 4 * i < 2 ^ 32) as Hlt by (destruct Hdir; unfold PG_SIZE in *; Z.to_euclidean_division_equations; lia).
  rewrite u32_small by lia. by rewrite (mmu_word m dir (cr3 m) i) by tauto.
Qed.

Lemma load_table i j : 0 <= i < 768 -> 0 <= j < 1024 -> present (pde i) = true ->
  load m (u32 (pte_ptr (u32 (i * 0x400000)) + 4 * j)) = Ok (pte i j).
Proof.
  intros Hi Hj Hp. rewrite (u32_small (i * 0x400000)) by lia. set (va := i * 2 ^ 22 + j * 2 ^ 12 + 0).
  assert (pdx va = i) as Ex by (unfold va; rewrite <- Z.add_assoc; apply pdx_split; lia).
  assert (ptx va = j) as Et by (unfold va; apply ptx_split; lia).
  assert (0 <= va < 2 ^ 32) as Hva by (unfold va; lia).
  assert (u32 (pte_ptr (i * 0x400000) + 4 * j) = pte_ptr va) as ->.
  { rewrite (pte_ptr_eq va Hva), Ex, Et, pte_ptr_eq by lia.
    assert (pdx (i * 0x400000) = i) as -> by (replace (i * 0x400000) with (i * 2 ^ 22 + 0) by lia; apply pdx_split; lia).
    assert (ptx (i * 0x400000) = 0) as -> by (replace (i * 0x400000) with (i * 2 ^ 22 + 0 * 2 ^ 12 + 0) by lia; apply ptx_split; lia).
    rewrite u32_small; lia. }
  rewrite load_pte; [|done | done | unfold pde_pa; by rewrite Ex]. unfold pte_pa, pde_pa. by rewrite Ex, Et.
Qed.

Lemma release_table i S : 0 <= i < 768 -> present (pde i) = true -> forall m1, freed S m m1 ->
  exists m2, loop (release_pte_body (pte_ptr (u32 (i * 0x400000)))) 1025 (m1, 0) = Ok m2
    /\ freed (fun g => S g \/ pte_frame i 1024 g) m m2.
Proof.
  intros Hi Hp m1 F1. eapply (loop_rule _ (fun v => 0 <= snd v <= 1024 /\ freed (fun g => S g \/ pte_frame i (snd v) g) m (fst v))
    (fun o => exists m2, o = Ok m2 /\ freed (fun g => S g \/ pte_frame i 1024 g) m m2) (fun v => Z.to_nat (1024 - snd v))); cbn [fst snd]; [|split; [lia|] | lia].
  2: { eapply freed_ext; [|exact F1]. intros g. split; [by left | intros [?|(j & ? & _)]; [done | lia]]. }
  intros [m2 j] [Hj F]. cbn [fst snd] in *. unfold release_pte_body. destruct (Z.ltb_spec j 1024) as [Hlt|Hge].
  2: { exists m2. split; [done|]. by replace j with 1024 in F by lia. }
  rewrite (freed_load _ _ _ _ F), load_table by (done || lia). cbn [obind]. rewrite land1, negb_involutive, land_frame.
  assert (forall k, 0 <= k < j + 1 -> k < j \/ k = j) as Hlast by lia.
  destruct (present (pte i j)) eqn:Ep; cbn [obind].
  - destruct (Hin (frame (pte i j))) as [pf Hf]; [exists i; split; [done|]; split; [done|]; right; exists j; split; [lia | done]|].
    destruct (free_more _ _ pf _ F Hf) as (m3 & E3 & F3). rewrite E3. cbn [obind fst snd]. split; [|lia]. split; [lia|].
    eapply freed_ext; [|exact F3]. intros g. cbv beta. split.
    + intros [[?|(k & Hk & ?)]| ->]; [by left | right; exists k; split; [lia | done] | right; exists j; split; [lia | done]].
    + intros [?|(k & Hk & Hpk & Hfk)]; [by left; left|]. destruct (Hlast k Hk) as [?| ->]; [left; right; exists k; split; [lia | done] | by right].
  - cbn [fst snd]. split; [|lia]. split; [lia|]. eapply freed_ext; [|exact F]. intros g. cbv beta. split.
    + intros [?|(k & Hk & ?)]; [by left | right; exists k; split; [lia | done]].
    + intros [?|(k & Hk & Hpk & Hfk)]; [by left|]. destruct (Hlast k Hk) as [?| ->]; [right; exists k; split; [lia | done] | congruence].
Qed.

Lemma release_frames_ok : exists m', release_frames m dir = Ok m' /\ freed (pde_frame 768) m m'.
Proof.
  unfold release_frames. eapply (loop_rule _ (fun v => 0 <= snd v <= 768 /\ freed (pde_frame (snd v)) m (fst v))
    (fun o => exists m2, o = Ok m2 /\ freed (pde_frame 768) m m2) (fun v => Z.to_nat (768 - snd v))); cbn [fst snd]; [|split; [lia|] | lia].
  2: { apply freed_none; [intros []; apply Hm|]. intros g (i & ? & _). lia. }
  intros [m2 i] [Hi F]. cbn [fst snd] in *. unfold release_pde_body. destruct (Z.ltb_spec i 768) as [Hlt|Hge].
  2: { exists m2. split; [done|]. by replace i with 768 in F by lia. }
  rewrite (freed_load _ _ _ _ F), load_dir by lia. cbn [obind]. rewrite land1, negb_involutive, land_frame.
  assert (forall k, 0 <= k < i + 1 -> k < i \/ k = i) as Hlast by lia.
  destruct (present (pde i)) eqn:Ep; cbn [obind].
  - destruct (release_table i _ ltac:(lia) Ep m2 F) as (m3 & E3 & F3). rewrite E3. cbn [obind].
    destruct (Hin (frame (pde i))) as [pf Hf]; [exists i; split; [lia|]; split; [done | by left]|].
    destruct (free_more _ _ pf _ F3 Hf) as (m4 & E4 & F4). rewrite E4. cbn [obind fst snd]. split; [|lia]. split; [lia|].
    eapply freed_ext; [|exact F4]. intros g. cbv beta. split.
    + intros [[(k & Hk & ?)|?]| Hg]; [exists k; split; [lia | done] | |]; exists i; (split; [lia|]); (split; [done|]); [by right | by left].
    + intros (k & Hk & Hpk & Hfk). destruct (Hlast k Hk) as [?| ->]; [left; left; exists k; split; [lia | done]|]. destruct Hfk as [<-|?]; [by right | left; by right].
  - cbn [fst snd]. split; [|lia]. split; [lia|]. eapply freed_ext; [|exact F]. intros g. split.
    + intros (k & Hk & ?). exists k. split; [lia | done].
    + intros (k & Hk & Hpk & Hfk). destruct (Hlast k Hk) as [?| ->]; [exists k; split; [lia | done] | congruence].
Qed.
End frames.

(** ** Unmapping does not look at what is free *)

Definition alike (S : Z -> Prop) (m m' : vm) : Prop := freed S m m' /\ forall pf, bitmap_wf 1 (pool_bitmap (get_pool pf m)).

Lemma pfree_alike S m m' f m1 : alike S m m' -> pfree m f = Ok m1 -> exists m1', pfree m' f = Ok m1' /\ alike S m1 m1'.
Proof.
  intros [F Hwf] E. unfold pfree in *. pose proof (fr_pool _ _ _ F) as Fp.
  assert (phy_addr_start (user_pool m') = phy_addr_start (user_pool m)) as -> by apply (Fp PF_USER).
  set (pf := if phy_addr_start (user_pool m) <=? f then PF_USER else PF_KERNEL) in *. pose proof (Fp pf) as [].
  rewrite pf_start0. apply obind_Ok in E as (b & Eb & E). injection E as <-.
  set (i := u32 (f - phy_addr_start (get_pool pf m)) / PG_SIZE) in *.
  assert (0 <= i) as Hi by (apply Z.div_pos; [apply u32_range | done]).
  pose proof (bitmap_clear_range _ _ _ Eb Hi) as Hr.
  destruct (bitmap_clear _ i (Hwf pf) Hi Hr) as (b0 & Eb0 & Hl0 & Hz0 & Hwf0 & Hb0). rewrite Eb in Eb0. injection Eb0 as <-.
  destruct (bitmap_clear _ i pf_wf0 Hi ltac:(by rewrite pf_mem0)) as (b' & Eb' & Hl' & Hz' & Hwf' & Hb'). rewrite Eb'. cbn [obind].
  eexists; split; [done|]. assert (pool_freed S (mk_pool b (phy_addr_start (get_pool pf m)) (pool_size (get_pool pf m)))
    (mk_pool b' (phy_addr_start (get_pool pf m)) (pool_size (get_pool pf m')))) as Hp.
  { constructor; cbn; try congruence. intros j Hj. rewrite Hb0, Hb'. destruct (j =? i); [tauto|]. apply pf_bits0.
    unfold pool_bits, nbits in *. cbn in Hj. by rewrite Hl0 in Hj. }
  destruct F. split.
  - destruct pf; constructor; try done; intros [|]; first [exact Hp | exact (Fp PF_KERNEL) | exact (Fp PF_USER)].
  - destruct pf; intros [|]; first [exact Hwf0 | exact (Hwf PF_USER) | exact (Hwf PF_KERNEL)].
Qed.

Lemma store_alike S m m' va v m1 : alike S m m' -> store m va v = Ok m1 -> exists m1', store m' va v = Ok m1' /\ alike S m1 m1'.
Proof.
  intros [F Hwf] E. unfold store in *. rewrite (freed_mmu _ _ _ _ F), (fr_pm _ _ _ F). destruct (mmu m va); [|done]. injection E as <-.
  eexists; split; [done|]. destruct F. split; [|intros [|]; first [exact (Hwf PF_KERNEL) | exact (Hwf PF_USER)]].
  by constructor.
Qed.

Lemma addr_v2p_alike S m m' va : alike S m m' -> addr_v2p m' va = addr_v2p m va.
Proof. intros [F _]. unfold addr_v2p. by rewrite (freed_load _ _ _ _ F). Qed.

Lemma unmap_alike S u n : forall m m' va m1, alike S m m' -> unmap_pages m u va n = Ok m1 ->
  exists m1', unmap_pages m' u va n = Ok m1' /\ alike S m1 m1'.
Proof.
  induction n as [|n IH]; intros m m' va m1 A E; cbn [unmap_pages] in *; [injection E as <-; eauto|].
  rewrite (addr_v2p_alike _ _ _ _ A). pose proof (fr_pool _ _ _ (proj1 A)) as Fp.
  apply obind_Ok in E as (pa & Epa & E). rewrite Epa. cbn [obind].
  assert (phy_addr_start (user_pool m') = phy_addr_start (user_pool m)) as -> by apply (Fp PF_USER).
  assert (phy_addr_start (kernel_pool m') = phy_addr_start (kernel_pool m)) as -> by apply (Fp PF_KERNEL).
  apply obind_Ok in E as ([] & Ec & E). rewrite Ec. cbn [obind].
  apply obind_Ok in E as (m2 & E2 & E). destruct (pfree_alike _ _ _ _ _ A E2) as (m2' & E2' & A2). rewrite E2'. cbn [obind].
  apply obind_Ok in E as (m3 & E3 & E). unfold page_table_pte_remove in *. rewrite (freed_load _ _ _ _ (proj1 A2)).
  apply obind_Ok in E3 as (w & Ew & E3). rewrite Ew. cbn [obind]. destruct (store_alike _ _ _ _ _ _ A2 E3) as (m3' & E3' & A3). rewrite E3'. cbn [obind].
  by apply (IH m3).
Qed.

Lemma mfree_alike S m m' pf va n m1 : alike S m m' -> mfree_page m pf va n = Ok m1 ->
  exists m1', mfree_page m' pf va n = Ok m1' /\ alike S m1 m1'.
Proof.
  intros A E. unfold mfree_page in *. rewrite (addr_v2p_alike _ _ _ _ A).
  apply obind_Ok in E as ([] & Ec & E). rewrite Ec. cbn [obind]. apply obind_Ok in E as (pa & Epa & E). rewrite Epa. cbn [obind].
  apply obind_Ok in E as ([] & Ec2 & E). rewrite Ec2. cbn [obind].
  assert (phy_addr_start (user_pool m') = phy_addr_start (user_pool m)) as -> by apply (fr_pool _ _ _ (proj1 A) PF_USER).
  apply obind_Ok in E as (m2 & E2 & E). destruct (unmap_alike _ _ _ _ _ _ _ A E2) as (m2' & E2' & A2). rewrite E2'. cbn [obind].
  unfold vaddr_remove in *. destruct A2 as [F Hwf]. assert (get_vaddr pf m2' = get_vaddr pf m2) as -> by (destruct F; by destruct pf).
  apply obind_Ok in E as (b & Eb & E). injection E as <-. rewrite Eb. cbn [obind]. eexists; split; [done|]. destruct F.
  split; [|destruct pf; intros [|]; first [exact (Hwf PF_KERNEL) | exact (Hwf PF_USER)]].
  destruct pf; constructor; try done; intros [|]; first [exact (fr_pool0 PF_KERNEL) | exact (fr_pool0 PF_USER)].
Qed.

(** ** The theorem *)

(** A frame of user memory, or of a page table for it. *)
Definition user_frame (m : vm) (f : Z) : Prop :=
  (exists u, 0 <= u < 0xc0000000 /\ u mod PG_SIZE = 0 /\ mmu m u = Some f)
  \/ exists i, 0 <= i < 768 /\ present (pm m (cr3 m + 4 * i)) = true /\ frame (pm m (cr3 m + 4 * i)) = f.

Lemma user_frame_pde m f : user_frame m f <-> pde_frame m 768 f.
Proof.
  unfold user_frame, PG_SIZE. change 4096 with (2 ^ 12). split.
  - intros [(u & Hu & Hmod & E)|(i & Hi & Hp & Hf)]; [|exists i; auto].
    destruct (ptr_fields u ltac:(lia)) as (_ & _ & _ & Hx & Ht). unfold mmu in E. fold (pde m (pdx u)) in E.
    destruct (present (pm m (pde_pa m u))) eqn:Hp; [|done]. destruct (present (pm m (pte_pa m u))) eqn:Hp2; [|done]. injection E as <-.
    exists (pdx u). split; [split; [lia|]; unfold pdx; apply Z.div_lt_upper_bound; lia|]. split; [exact Hp|]. right.
    exists (ptx u). split; [lia|]. split; [exact Hp2|]. rewrite Hmod, Z.add_0_r. done.
  - intros (i & Hi & Hp & [Hf|(j & Hj & Hp2 & Hf)]); [right; by exists i | left].
    exists (i * 2 ^ 22 + j * 2 ^ 12 + 0). assert (pdx (i * 2 ^ 22 + j * 2 ^ 12 + 0) = i) as Ex by (rewrite <- Z.add_assoc; apply pdx_split; lia).
    assert (ptx (i * 2 ^ 22 + j * 2 ^ 12 + 0) = j) as Et by (apply ptx_split; lia).
    assert ((i * 2 ^ 22 + j * 2 ^ 12 + 0) mod 2 ^ 12 = 0) as Em.
    { replace (i * 2 ^ 22 + j * 2 ^ 12 + 0) with ((i * 2 ^ 10 + j) * 2 ^ 12) by lia. apply Z.mod_mul. lia. }
    split; [lia|]. split; [exact Em|]. unfold mmu, pte_pa, pde_pa. rewrite Ex, Et. unfold pte, pde in *. rewrite Hp, Hp2, Hf, Em, Z.add_0_r. done.
Qed.

(** [n] kernel pages granted before, from address [va] on, with their frames. *)
Record kernel_run (m : vm) (va n : Z) (fs : list Z) : Prop := {
  kr_pos : 0 < n;
  kr_range : range_ok va (Z.to_nat n);
  kr_start : 0 <= vaddr_start (kernel_vaddr m);
  kr_wf : bitmap_wf 1 (vaddr_bitmap (kernel_vaddr m));
  kr_addr : exists r, 0 <= r /\ va = vaddr_start (kernel_vaddr m) + r * PG_SIZE /\ r + n <= nbits (vaddr_bitmap (kernel_vaddr m));
  kr_count : length fs = Z.to_nat n;
  kr_nodup : NoDup fs;
  kr_map : forall i f, fs !! i = Some f -> mmu m (va + Z.of_nat i * PG_SIZE) = Some f;
  kr_used : forall f, f ∈ fs -> frame_used (kernel_pool m) f /\ ~ is_table m f /\ f <> cr3 m }.

(** A bitmap that lies on kernel pages, [n] of them whole. *)
Definition bitmap_pages (m : vm) (uv : user_vaddr) (n : Z) (fs : list Z) : Prop :=
  btmp_bytes_len (vaddr_bitmap (uv_pool uv)) / PG_SIZE = n /\ kernel_run m (uv_bits uv) n fs.

Lemma frame_in_same p p' g : phy_addr_start p' = phy_addr_start p -> pool_bits p' = pool_bits p -> frame_in p' g <-> frame_in p g.
Proof. intros E1 E2. unfold frame_in. by rewrite E1, E2. Qed.

(** [m1] is [m] after the pages [va] .. were given back, with their frames [fs]. *)
Record run_freed (m m1 : vm) (va n : Z) (fs : list Z) : Prop := {
  rf_ok : vm_ok m1;
  rf_cr3 : cr3 m1 = cr3 m;
  rf_user : user_pool m1 = user_pool m;
  rf_start : phy_addr_start (kernel_pool m1) = phy_addr_start (kernel_pool m);
  rf_bits : pool_bits (kernel_pool m1) = pool_bits (kernel_pool m);
  rf_free g : frame_free (kernel_pool m1) g <-> frame_free (kernel_pool m) g \/ g ∈ fs;
  rf_mmu va' : mappable va' -> ~ (page_of va <= page_of va' < page_of va + n) -> mmu m1 va' = mmu m va';
  rf_other va' n' fs' : kernel_run m va' n' fs' -> page_of va + n <= page_of va' \/ page_of va' + n' <= page_of va ->
    (forall f, f ∈ fs' -> f ∉ fs) -> kernel_run m1 va' n' fs' }.

Lemma mfree_run_ok m va n fs : vm_ok m -> kernel_run m va n fs -> 0x102000 <= phy_addr_start (kernel_pool m) ->
  exists m1, mfree_page m PF_KERNEL va n = Ok m1 /\ run_freed m m1 va n fs.
Proof.
  intros Hm [] Hlow. destruct kr_addr0 as (r & Hr & -> & Hrn).
  destruct (mfree_page_ok m PF_KERNEL n r fs Hm kr_pos0) as (mu & m1 & E & Hun & (b & -> & Hwf & Hlb & _)); cbn [get_vaddr get_pool] in *; try done.
  set (va := vaddr_start (kernel_vaddr m) + r * PG_SIZE) in *. eexists; split; [exact E|]. destruct Hun as [Hok _ Hother Hback Hpool _ Htab Hcr].
  cbn [get_pool other_pool] in Hback, Hpool. destruct Hback as (B1 & B2 & _ & B4). rewrite Z2Nat.id in Hother by lia.
  constructor; try done; [by apply (vm_ok_ext mu)|].
  intros va' n' fs' [] Hap Hdis. constructor; try done; cbn.
  - unfold nbits in *. by rewrite Hlb.
  - intros i f Hi. change (mmu _ (va' + Z.of_nat i * PG_SIZE)) with (mmu mu (va' + Z.of_nat i * PG_SIZE)). pose proof (lookup_lt_Some _ _ _ Hi).
    rewrite Hother; [by apply kr_map1 | apply (range_mappable _ (Z.to_nat n')); [done | lia] | rewrite page_of_add; lia].
  - intros f Hf. destruct (kr_used1 f Hf) as (Hu & Ht & Hc). split_and!; [|intros Hi; by apply Ht, Htab | by rewrite Hcr].
    destruct Hu as (i & Hi & -> & Hb). exists i. rewrite B1, B2. split_and!; try done; try lia. destruct (bit (pool_bitmap (kernel_pool mu)) i) eqn:Eb; [done|].
    destruct (proj1 (B4 (phy_addr_start (kernel_pool m) + i * PG_SIZE))) as [(j & Hj & Ej & Hbj)|Hin].
    + exists i. by rewrite B1, B2.
    + unfold PG_SIZE in *. assert (j = i) as -> by lia. congruence.
    + by destruct (Hdis _ Hf).
Qed.

(** The end of a process gives its memory back: exactly the frames of its user
    pages, of the page tables for them, and of the whole pages of its address bitmap
    become free, as if only the bitmap's pages had been given back and the frames of
    user memory were free besides. *)
Lemma release_memory_alike m dir uv n fs : vm_ok m -> 0 <= dir < 2 ^ 32 /\ dir mod PG_SIZE = 0 -> mmu m dir = Some (cr3 m) ->
  (forall f, user_frame m f -> exists pf, frame_in (get_pool pf m) f) -> bitmap_pages m uv n fs -> 0x102000 <= phy_addr_start (kernel_pool m) ->
  exists mo m', (let! m := release_frames m dir in release_bitmap m uv) = Ok m' /\ run_freed m mo (uv_bits uv) n fs /\ alike (user_frame m) mo m'.
Proof.
  intros Hm Hdir Hmap Hin [Hlen Hrun] Hlow.
  destruct (release_frames_ok m dir Hm Hdir Hmap) as (m1 & E1 & F1). { intros f Hf. apply Hin. by apply user_frame_pde. }
  rewrite E1. cbn [obind]. unfold release_bitmap. rewrite Hlen. destruct (mfree_run_ok m _ n fs Hm Hrun Hlow) as (mo & E2 & R).
  assert (alike (user_frame m) m m1) as A. { split; [|intros []; apply Hm]. eapply freed_ext; [|exact F1]. intros g. symmetry. apply user_frame_pde. }
  destruct (mfree_alike _ _ _ _ _ _ _ A E2) as (m' & E' & A'). by exists mo, m'.
Qed.

(** The frames free in the end. *)
Lemma alike_free m mo m' (S S' : Z -> Prop) : alike S mo m' -> user_pool mo = user_pool m ->
  phy_addr_start (kernel_pool mo) = phy_addr_start (kernel_pool m) -> pool_bits (kernel_pool mo) = pool_bits (kernel_pool m) ->
  (forall g, frame_free (kernel_pool mo) g <-> frame_free (kernel_pool m) g \/ S' g) ->
  forall pf g, frame_free (get_pool pf m') g <-> frame_free (get_pool pf m) g \/ S g /\ frame_in (get_pool pf m) g \/ pf = PF_KERNEL /\ S' g.
Proof.
  intros [F _] Eu Es Eb Hf pf g. rewrite (pool_freed_free _ _ _ g (fr_pool _ _ _ F pf)). destruct pf; cbn [get_pool].
  - rewrite Hf, (frame_in_same _ _ _ Es Eb). tauto.
  - rewrite Eu. split; [tauto|]. intros [?|[?|[? _]]]; [by left | by right | done].
Qed.

(** Only the pages of the bitmap are unmapped. The bitmap covers one page more than
    its length divides into, and that one is neither freed nor unmapped. *)
Theorem release_memory_spec m dir uv n fs : vm_ok m -> 0 <= dir < 2 ^ 32 /\ dir mod PG_SIZE = 0 -> mmu m dir = Some (cr3 m) ->
  (forall f, user_frame m f -> exists pf, frame_in (get_pool pf m) f) -> bitmap_pages m uv n fs -> 0x102000 <= phy_addr_start (kernel_pool m) ->
  exists m', (let! m := release_frames m dir in release_bitmap m uv) = Ok m' /\ cr3 m' = cr3 m
    /\ (forall pf g, frame_free (get_pool pf m') g <->
          frame_free (get_pool pf m) g \/ user_frame m g /\ frame_in (get_pool pf m) g \/ pf = PF_KERNEL /\ g ∈ fs)
    /\ (forall va, mappable va -> ~ (page_of (uv_bits uv) <= page_of va < page_of (uv_bits uv) + n) -> mmu m' va = mmu m va)
    /\ user_bytes_len / PG_SIZE = bitmap_pg_cnt - 1.
Proof.
  intros Hm Hdir Hmap Hin Hbp Hlow. destruct (release_memory_alike m dir uv n fs Hm Hdir Hmap Hin Hbp Hlow) as (mo & m' & E & [] & A).
  exists m'. split; [done|]. pose proof (proj1 A) as F. split; [by rewrite (fr_cr3 _ _ _ F)|]. split_and!.
  - by apply (alike_free m mo m' (user_frame m) (fun g => g ∈ fs)).
  - intros va Hv Hne. by rewrite (freed_mmu _ _ _ _ F), rf_mmu0.
  - reflexivity.
Qed.
