(* ===== verification/Releasedemo.v ===== *)
(** A process of one user page with a bitmap of one page and the buffer of a pipe, on
    which [release_memory_spec] applies. *)
From S2P Require Import Prelude Bitmap Paging Process Space Waitexit Release.

(** Its directory, the kernel's table, the table and the page of the user, and the
    page of the bitmap; the page of a pipe. *)
Definition rdir : Z := 0x200000.
Definition rktab : Z := 0x201000.
Definition rutab : Z := 0x202000.
Definition rbits : Z := 0x203000.
Definition rdata : Z := 0x300000.
Definition rpipe : Z := 0x204000.
Definition release_words : gmap Z Z := list_to_map [
  (rdir + 4 * 32, PTE_ATTR rutab); (rdir + 4 * 768, PTE_ATTR rktab); (rdir + 4 * 1023, PTE_ATTR rdir);
  (rktab + 4 * 256, PTE_ATTR rbits); (rktab + 4 * 257, PTE_ATTR rdir); (rktab + 4 * 258, PTE_ATTR rpipe); (rutab + 4 * 72, PTE_ATTR rdata) ].
Definition release_vm : vm :=
  mk_vm (fun a => default 0 (release_words !! a)) rdir
    (mk_pool (mk_bitmap 1 [31; 0]) 0x200000 (8 * PG_SIZE)) (mk_pool (mk_bitmap 1 [1; 0]) 0x300000 (8 * PG_SIZE))
    (mk_vaddr (mk_bitmap 1 [7; 0]) 0xc0100000) (mk_vaddr (mk_bitmap 1 [1; 0]) USER_VADDR_START).
Definition release_uv : user_vaddr := mk_uvaddr 0xc0100000 (mk_vaddr (mk_bitmap 4096 []) USER_VADDR_START).

Lemma release_entries (d : Z) (l : list Z) : bool_decide (Forall (fun i => present (pm release_vm (d + 4 * i)) = true -> i ∈ l) (seqZ 0 1024)) = true ->
  forall i, 0 <= i < 1024 -> present (pm release_vm (d + 4 * i)) = true -> i ∈ l.
Proof. intros Hb i Hi. apply bool_decide_eq_true in Hb. rewrite Forall_forall in Hb. apply Hb, elem_of_seqZ. lia. Qed.

Lemma rdir_entries i : 0 <= i < 1024 -> present (pm release_vm (rdir + 4 * i)) = true -> i = 32 \/ i = 768 \/ i = 1023.
Proof. intros Hi Hp. pose proof (release_entries rdir [32; 768; 1023] ltac:(vm_compute; reflexivity) i Hi Hp). set_solver. Qed.

Lemma rutab_entries i : 0 <= i < 1024 -> present (pm release_vm (rutab + 4 * i)) = true -> i = 72.
Proof. intros Hi Hp. pose proof (release_entries rutab [72] ltac:(vm_compute; reflexivity) i Hi Hp). set_solver. Qed.

Lemma release_used f pf : f ∈ [rdir; rktab; rutab; rbits; rdata] -> ~ frame_free (get_pool pf release_vm) f.
Proof.
  intros Hf (i & Hi & E & Hb). assert (0 <= i < 8) as Hi8 by (by destruct pf). clear Hi.
  assert (i = 0 \/ i = 1 \/ i = 2 \/ i = 3 \/ i = 4 \/ i = 5 \/ i = 6 \/ i = 7) as Hcase by lia.
  rewrite !elem_of_cons, elem_of_nil in Hf. destruct pf; unfold rdir, rktab, rutab, rbits, rdata, PG_SIZE in *; cbn in E, Hb;
    repeat (destruct Hcase as [->|Hcase]; [vm_compute in Hb; first [discriminate | lia]|]); subst i; lia.
Qed.

Lemma release_pool_ok b start : 0 < start < 0xf0000000 -> start mod 2 ^ 12 = 0 -> 0 <= b < 256 -> pool_ok (mk_pool (mk_bitmap 1 [b; 0]) start (8 * PG_SIZE)).
Proof.
  intros Hs Hm Hb. constructor; [| by split; [apply Hs|] |].
  - constructor; [cbn; lia | unfold nbits; cbn; lia | cbn; lia |]. repeat (apply Forall_cons; split; [unfold is_byte; lia|]). constructor.
  - unfold pool_bits, nbits, PG_SIZE; cbn. lia.
Qed.

Lemma release_vm_ok : vm_ok release_vm.
Proof.
  split.
  - by split.
  - by vm_compute.
  - by apply release_pool_ok.
  - by apply release_pool_ok.
  - by vm_compute.
  - intros pf. apply release_used. by left.
  - intros i Hi Hp. destruct (rdir_entries i ltac:(lia) Hp) as [->|[->| ->]]; [| |lia].
    + split; [by vm_compute|]. intros pf. apply release_used. apply (bool_decide_unpack _). vm_compute. exact I.
    + split; [by vm_compute|]. intros pf. apply release_used. apply (bool_decide_unpack _). vm_compute. exact I.
  - intros i j Hi Hj Hij Hpi Hpj. destruct (rdir_entries i ltac:(lia) Hpi) as [->|[->| ->]], (rdir_entries j ltac:(lia) Hpj) as [->|[->| ->]];
      try lia; by vm_compute.
Qed.

Lemma release_user f : user_frame release_vm f -> f = rutab \/ f = rdata.
Proof.
  intros (i & Hi & Hp & Hf)%user_frame_pde. destruct (rdir_entries i ltac:(lia) Hp) as [->|[->| ->]]; [|lia..].
  destruct Hf as [<-|(j & Hj & Hp2 & <-)]; [by left | right]. by rewrite (rutab_entries j Hj Hp2).
Qed.

Lemma release_pages : bitmap_pages release_vm release_uv 1 [rbits].
Proof.
  split; [done|]. split; try done.
  - solve_bitmap_wf.
  - exists 0. split_and!; by vm_compute.
  - apply NoDup_singleton.
  - intros [|i] f; [|done]. intros [= <-]. by vm_compute.
  - intros f ->%list_elem_of_singleton. split; [exists 3; by vm_compute|]. split; [|done].
    intros (i & Hi & Hp & E). destruct (rdir_entries i ltac:(lia) Hp) as [->|[->| ->]]; [by vm_compute in E | by vm_compute in E | lia].
Qed.

Lemma release_pipe : kernel_run release_vm 0xc0102000 1 [rpipe].
Proof.
  split; try done.
  - solve_bitmap_wf.
  - exists 2. split_and!; by vm_compute.
  - apply NoDup_singleton.
  - intros [|i] f; [|done]. intros [= <-]. by vm_compute.
  - intros f ->%list_elem_of_singleton. split; [exists 4; by vm_compute|]. split; [|done].
    intros (i & Hi & Hp & E). destruct (rdir_entries i ltac:(lia) Hp) as [->|[->| ->]]; [by vm_compute in E | by vm_compute in E | lia].
Qed.

Lemma release_data : user_frame release_vm rdata /\ frame_in (get_pool PF_USER release_vm) rdata.
Proof.
  split.
  - left. exists 0x8048000. split; [lia|]. split; [vm_compute; reflexivity|]. vm_compute. reflexivity.
  - exists 0. split; vm_compute; [split; congruence | reflexivity].
Qed.

Example release_memory_witness : exists m', (let! m := release_frames release_vm 0xc0101000 in release_bitmap m release_uv) = Ok m'
  /\ frame_free (user_pool m') rdata /\ frame_free (kernel_pool m') rbits /\ mmu m' 0xc0101000 = Some rdir.
Proof.
  destruct (release_memory_spec release_vm 0xc0101000 release_uv 1 [rbits]) as (m' & E & _ & Hf & Hm & _).
  - exact release_vm_ok.
  - by split.
  - by vm_compute.
  - intros f [->| ->]%release_user; [exists PF_KERNEL, 2 | exists PF_USER, 0]; by vm_compute.
  - exact release_pages.
  - by vm_compute.
  - exists m'. split; [exact E|]. split_and!.
    + apply (Hf PF_USER). right; left. exact release_data.
    + apply (Hf PF_KERNEL). right; right. split; [done|]. by left.
    + rewrite Hm; [by vm_compute | by split | by vm_compute; intros []].
Defined.
