(* ===== verification/Exitfds.v ===== *)
(** The closing of descriptors at the end of a process: what it leaves in the table of
    open files, in the table of inodes and in memory. *)
From S2P Require Import Prelude Bitmap Thread Inode File.
From S2P Require Import Paging Process Waitexit Kin Kinspec Release.

Section closing.
Context {D H : Type} `{BlockDevice D} `{KernelHeap H}.
Abbreviation fs := (fstate D H).
Abbreviation st := (sys D H).

(** ** What is left *)

(** How many of the descriptors [gs] are the slot [g] of [file_table]. *)
Definition refs (gs : list Z) (g : Z) : Z := zlen (filter (fun v => v = g) gs).

(** A slot after [n] of its descriptors were closed: a pipe counts its descriptors in
    [fd_pos]; a slot is free when [fd_inode] is NULL. *)
Definition closed_slot (n : Z) (y : file) : file :=
  if n =? 0 then y
  else if fd_flag y =? PIPE_FLAG then mk_file (fd_pos y - n) (fd_flag y) (if fd_pos y =? n then 0 else fd_inode y)
  else mk_file (fd_pos y) (fd_flag y) 0.

(** How many of [gs] are files on the inode at [a]. *)
Definition on_inode (f : fs) (a g : Z) : bool :=
  match znth (file_table f) g with Some y => negb (fd_flag y =? PIPE_FLAG) && (fd_inode y =? a) | None => false end.
Definition uses (f : fs) (gs : list Z) (a : Z) : Z := zlen (filter (fun g => on_inode f a g = true) gs).

(** An inode after [n] openings of it were closed. *)
Definition closed_inode (n : Z) (i : inode) : option inode :=
  if n =? 0 then Some i
  else if i_open_cnts i =? n then None else Some (set_cnts (i_open_cnts i - n) (set_deny 0 i)).

(** [f'] is [f] after the descriptors [gs] were closed; [gone] are the inodes whose
    last opening that was, in the order in which their memory was freed. *)
Record fds_closed (f : fs) (gs gone : list Z) (f' : fs) : Prop := {
  fc_medium : medium f' = medium f;
  fc_slots g : znth (file_table f') g = closed_slot (refs gs g) <$> znth (file_table f) g;
  fc_inodes a : inodes f' !! a = inodes f !! a ≫= closed_inode (uses f gs a);
  fc_gone a : a ∈ gone <-> 0 < uses f gs a /\ exists i, inodes f !! a = Some i /\ i_open_cnts i = uses f gs a;
  fc_nodup : NoDup gone;
  fc_part : cur_part f' = set_open (filter (fun a => a ∉ gone) (open_inodes (cur_part f))) (cur_part f);
  fc_heap : kheap f' = fold_left (fun h a => sys_free h true a) gone (kheap f) }.

(** Slot [g] is a pipe whose last descriptors are among [gs]; its buffer is the page [a]. *)
Definition pipe_ends (f : fs) (gs : list Z) (g a : Z) : Prop :=
  g ∈ gs /\ exists y, znth (file_table f) g = Some y /\ fd_flag y = PIPE_FLAG /\ fd_pos y = refs gs g /\ fd_inode y = a.

(** Descriptors that can be closed: a pipe has at least those descriptors; a file has a
    slot of its own, and its inode is open at least as often. *)
Definition closable (f : fs) (gs : list Z) : Prop := forall g, g ∈ gs ->
  0 <= g < MAX_FILE_OPEN /\ exists y, znth (file_table f) g = Some y /\
    if fd_flag y =? PIPE_FLAG then refs gs g <= fd_pos y < 2 ^ 32
    else refs gs g = 1 /\ exists i, inodes f !! fd_inode y = Some i /\ uses f gs (fd_inode y) <= i_open_cnts i < 2 ^ 32
           /\ fd_inode y ∈ open_inodes (cur_part f).

(** ** Counting *)

Lemma refs_app gs hs g : refs (gs ++ hs) g = refs gs g + refs hs g.
Proof. unfold refs. rewrite filter_app, length_app. lia. Qed.
Lemma refs_one v g : refs [v] g = if v =? g then 1 else 0.
Proof. unfold refs. cbn. destruct (Z.eqb_spec v g) as [->|]; [by rewrite decide_True | by rewrite decide_False]. Qed.
Lemma refs_nonneg gs g : 0 <= refs gs g. Proof. unfold refs. lia. Qed.

Lemma uses_app f gs hs a : uses f (gs ++ hs) a = uses f gs a + uses f hs a.
Proof. unfold uses. rewrite filter_app, length_app. lia. Qed.
Lemma uses_one f v a : uses f [v] a = if on_inode f a v then 1 else 0.
Proof. unfold uses. cbn. destruct (on_inode f a v); [by rewrite decide_True | by rewrite decide_False]. Qed.
Lemma uses_nonneg f gs a : 0 <= uses f gs a. Proof. unfold uses. lia. Qed.

Lemma fds_closed_nil (f : fs) : fds_closed f [] [] f.
Proof.
  constructor; try done.
  - intros g. by destruct (znth _ g).
  - intros a. by destruct (inodes f !! a).
  - intros a. split; [intros Ha; by apply elem_of_nil in Ha | intros [Hu _]; unfold uses in Hu; cbn in Hu; lia].
  - constructor.
  - destruct (cur_part f). unfold set_open; cbn. f_equal.
    induction open_inodes as [|a l IH]; [done|]. rewrite filter_cons_True by apply not_elem_of_nil. by f_equal.
Qed.

Lemma fds_closed_kern (f f1 : fs) gs gone k : fds_closed f gs gone f1 -> fds_closed f gs gone (with_kern k f1).
Proof. intros []. by constructor. Qed.

(** ** One descriptor *)

Lemma put_file_at g x (f : fs) y : znth (file_table f) g = Some y ->
  exists f', put_file g x f = Ok f' /\ (forall j, znth (file_table f') j = if j =? g then Some x else znth (file_table f) j)
    /\ medium f' = medium f /\ inodes f' = inodes f /\ cur_part f' = cur_part f /\ kheap f' = kheap f /\ kern f' = kern f.
Proof.
  intros Hy. pose proof (znth_Some _ _ _ Hy) as Hr. unfold put_file. rewrite wr_in by lia. eexists. split; [reflexivity|].
  split; [|done]. intros j. cbn. by apply znth_insert.
Qed.

(** Closing one more: the slot [g], whose counts were those of [gs]. *)
Lemma closed_pipe n y : 0 <= n -> (fd_flag y =? PIPE_FLAG) = true -> closed_slot (n + 1) y = mk_file (fd_pos y - n - 1) (fd_flag y) (if fd_pos y - n - 1 =? 0 then 0 else fd_inode y).
Proof.
  intros Hn Hp. unfold closed_slot. replace (n + 1 =? 0) with false by (symmetry; apply Z.eqb_neq; lia). rewrite Hp.
  replace (fd_pos y - (n + 1)) with (fd_pos y - n - 1) by lia. f_equal.
  destruct (Z.eqb_spec (fd_pos y) (n + 1)), (Z.eqb_spec (fd_pos y - n - 1) 0); (done || lia).
Qed.

Lemma slots_next (f f1 f2 : fs) gs g y : znth (file_table f) g = Some y ->
  (forall j, znth (file_table f1) j = closed_slot (refs gs j) <$> znth (file_table f) j) ->
  (forall j, znth (file_table f2) j = if j =? g then Some (closed_slot (refs gs g + 1) y) else znth (file_table f1) j) ->
  forall j, znth (file_table f2) j = closed_slot (refs (gs ++ [g]) j) <$> znth (file_table f) j.
Proof.
  intros Hy H1 H2 j. rewrite H2, refs_app, refs_one, (Z.eqb_sym g j). destruct (Z.eqb_spec j g) as [->|].
  - by rewrite Hy.
  - by rewrite Z.add_0_r, H1.
Qed.

Lemma pipe_step (f f1 f2 : fs) gs gone g y : fds_closed f gs gone f1 -> znth (file_table f) g = Some y -> (fd_flag y =? PIPE_FLAG) = true ->
  (forall j, znth (file_table f2) j = if j =? g then Some (closed_slot (refs gs g + 1) y) else znth (file_table f1) j) ->
  medium f2 = medium f1 -> inodes f2 = inodes f1 -> cur_part f2 = cur_part f1 -> kheap f2 = kheap f1 -> fds_closed f (gs ++ [g]) gone f2.
Proof.
  intros [] Hy Hp Hs Em Ei Ep Eh. assert (forall a, uses f (gs ++ [g]) a = uses f gs a) as Hu.
  { intros a. rewrite uses_app, uses_one. unfold on_inode. rewrite Hy, Hp. cbn. lia. }
  constructor; try congruence.
  - by eapply slots_next.
  - intros a. by rewrite Hu.
Qed.

(** [f'] is [f] after the descriptors [gs] and one more opening of the inode at [a]. *)
Record opening_closed (f : fs) (gs : list Z) (a : Z) (gone : list Z) (f' : fs) : Prop := {
  oc_inodes b : inodes f' !! b = inodes f !! b ≫= closed_inode (uses f gs b + if b =? a then 1 else 0);
  oc_gone b : b ∈ gone <-> 0 < uses f gs b + (if b =? a then 1 else 0)
    /\ exists i, inodes f !! b = Some i /\ i_open_cnts i = uses f gs b + if b =? a then 1 else 0;
  oc_nodup : NoDup gone;
  oc_part : cur_part f' = set_open (filter (fun a => a ∉ gone) (open_inodes (cur_part f))) (cur_part f);
  oc_heap : kheap f' = fold_left (fun h a => sys_free h true a) gone (kheap f) }.

Lemma closed_inode_next n i : 0 <= n < i_open_cnts i ->
  closed_inode (n + 1) i = if i_open_cnts i - n - 1 =? 0 then None else Some (set_cnts (i_open_cnts i - n - 1) (set_deny 0 i)).
Proof.
  intros Hn. unfold closed_inode. replace (n + 1 =? 0) with false by (symmetry; apply Z.eqb_neq; lia).
  destruct (Z.eqb_spec (i_open_cnts i) (n + 1)), (Z.eqb_spec (i_open_cnts i - n - 1) 0); try lia; [done|]. by replace (i_open_cnts i - (n + 1)) with (i_open_cnts i - n - 1) by lia.
Qed.

(** The inode at [a] as the openings closed so far have left it. *)
Lemma inode_so_far (f f1 : fs) gs gone a i : fds_closed f gs gone f1 -> inodes f !! a = Some i -> uses f gs a < i_open_cnts i ->
  exists i1, inodes f1 !! a = Some i1 /\ set_deny 0 i1 = set_cnts (i_open_cnts i - uses f gs a) (set_deny 0 i).
Proof.
  intros [] Hi Hu. rewrite fc_inodes0, Hi. cbn. unfold closed_inode. destruct (Z.eqb_spec (uses f gs a) 0) as [->|].
  - exists i. split; [done|]. destruct i; unfold set_deny, set_cnts; cbn. by rewrite Z.sub_0_r.
  - replace (i_open_cnts i =? uses f gs a) with false by (symmetry; apply Z.eqb_neq; lia). by eexists.
Qed.

Lemma close_opening (f f1 : fs) gs gone a i i1 : fds_closed f gs gone f1 -> inodes f !! a = Some i -> uses f gs a + 1 <= i_open_cnts i < 2 ^ 32 ->
  a ∈ open_inodes (cur_part f) -> inodes f1 !! a = Some i1 -> set_deny 0 i1 = set_cnts (i_open_cnts i - uses f gs a) (set_deny 0 i) ->
  exists gone2 f2, inode_close (put_inode a (set_deny 0 i1) f1) a = Ok f2 /\ opening_closed f gs a gone2 f2
    /\ file_table f2 = file_table f1 /\ medium f2 = medium f1 /\ kern f2 = kern f1.
Proof.
  intros [] Hi Hcnt Hopen Hi1 ->. pose proof (uses_nonneg f gs a) as Hu0. set (u := uses f gs a) in *.
  assert (a ∉ gone) as Hng. { intros (_ & j & Hj & Ej)%fc_gone0. rewrite Hi in Hj. injection Hj as <-. fold u in Ej. lia. }
  set (i2 := set_cnts (i_open_cnts i - u) (set_deny 0 i)). set (f1' := put_inode a i2 f1).
  unfold inode_close, get_inode. assert (inodes f1' !! a = Some i2) as -> by (cbn; by rewrite lookup_insert_eq). cbn [obind].
  change (i_open_cnts i2) with (i_open_cnts i - u). rewrite u32_small by lia. destruct (Z.eqb_spec (i_open_cnts i - u - 1) 0) as [Hlast|Hmore].
  - assert (elem_find (open_inodes (cur_part f1')) a = true) as ->.
    { apply bool_decide_eq_true. change (cur_part f1') with (cur_part f1). rewrite fc_part0. cbn. by apply list_elem_of_filter. }
    exists (gone ++ [a]). eexists. split; [reflexivity|]. split; [|done]. constructor.
    + intros b. cbn. destruct (Z.eqb_spec b a) as [->|Hne].
      * rewrite lookup_delete_eq, Hi. cbn. fold u. rewrite closed_inode_next, Hlast by lia. done.
      * by rewrite lookup_delete_ne, lookup_insert_ne, fc_inodes0, Z.add_0_r by done.
    + intros b. rewrite elem_of_app, list_elem_of_singleton, fc_gone0. destruct (Z.eqb_spec b a) as [->|Hne].
      * fold u. split; [intros _; split; [lia|]; exists i; split; [done | lia] | by right].
      * rewrite Z.add_0_r. tauto.
    + apply NoDup_app. split_and!; [done | | apply NoDup_singleton]. intros b Hb ->%list_elem_of_singleton. done.
    + cbn. rewrite fc_part0. cbn. unfold set_open; cbn. f_equal. unfold remove_elem. rewrite list_filter_filter.
      apply list_filter_iff. intros b. rewrite elem_of_app, list_elem_of_singleton. tauto.
    + cbn. by rewrite fold_left_app, fc_heap0.
  - exists gone. eexists. split; [reflexivity|]. split; [|done]. constructor; [| |done|done|done].
    + intros b. cbn. destruct (Z.eqb_spec b a) as [->|Hne].
      * rewrite lookup_insert_eq, Hi. cbn. fold u. rewrite closed_inode_next by lia. by apply Z.eqb_neq in Hmore as ->.
      * by rewrite !lookup_insert_ne, fc_inodes0, Z.add_0_r by done.
    + intros b. rewrite fc_gone0. destruct (Z.eqb_spec b a) as [->|Hne]; [|by rewrite Z.add_0_r].
      fold u. split; intros (_ & j & Hj & Ej); rewrite Hi in Hj; injection Hj as <-; lia.
Qed.

Lemma file_step (f f1 : fs) gs gone g rest y : fds_closed f gs gone f1 -> closable f (gs ++ g :: rest) ->
  znth (file_table f) g = Some y -> (fd_flag y =? PIPE_FLAG) = false ->
  exists gone2 f2, file_close f1 (Some g) = Ok (f2, 0) /\ kern f2 = kern f1 /\ fds_closed f (gs ++ [g]) gone2 f2.
Proof.
  intros Hc Hcl Hy Hp. destruct (Hcl g) as (Hg & y' & Hy' & Hslot); [set_solver|].
  assert (y' = y) as -> by congruence. rewrite Hp in Hslot. destruct Hslot as (Hone & i & Hi & Hcnt & Hopen). set (a := fd_inode y) in *.
  assert (on_inode f a g = true) as Hon by (unfold on_inode; rewrite Hy, Hp; apply Z.eqb_refl).
  change (g :: rest) with ([g] ++ rest) in *. rewrite !refs_app, refs_one, Z.eqb_refl in Hone. rewrite !uses_app, uses_one, Hon in Hcnt.
  pose proof (refs_nonneg gs g). pose proof (refs_nonneg rest g). pose proof (uses_nonneg f rest a). assert (refs gs g = 0) as Hr0 by lia.
  assert (znth (file_table f1) g = Some y) as Hy1 by (by rewrite (fc_slots _ _ _ _ Hc), Hy, Hr0).
  destruct (inode_so_far f f1 gs gone a i Hc Hi ltac:(lia)) as (i1 & Hi1 & Ei1).
  destruct (close_opening f f1 gs gone a i i1 Hc Hi ltac:(lia) Hopen Hi1 Ei1) as (gone2 & f2 & E2 & [] & Eft & Emd & Ekn).
  destruct (put_file_at g (mk_file (fd_pos y) (fd_flag y) 0) f2 y) as (f3 & E3 & Hs3 & Em & Ei & Ep & Eh & Ek); [by rewrite Eft|].
  assert (forall b, uses f (gs ++ [g]) b = uses f gs b + if b =? a then 1 else 0) as Hus.
  { intros b. rewrite uses_app, uses_one. unfold on_inode. rewrite Hy, Hp. cbn. fold a. by rewrite Z.eqb_sym. }
  unfold file_close, get_file. rewrite (rd_znth _ _ _ Hy1). cbn [obind]. fold a. unfold get_inode at 1. rewrite Hi1. cbn [obind].
  rewrite E2. cbn [obind]. rewrite E3. cbn [obind]. exists gone2, f3. split; [done|]. split; [congruence|]. constructor.
  - rewrite Em, Emd. apply Hc.
  - eapply slots_next; [exact Hy | apply Hc|]. intros j. rewrite Hs3, Hr0, Eft. unfold closed_slot. by rewrite Hp.
  - intros b. rewrite Ei, Hus. apply oc_inodes0.
  - intros b. rewrite Hus. apply oc_gone0.
  - done.
  - by rewrite Ep.
  - by rewrite Eh.
Qed.

(** ** All of them *)

Lemma closed_slot_open n y : (fd_flag y =? PIPE_FLAG) = true -> 0 <= n < fd_pos y ->
  closed_slot n y = mk_file (fd_pos y - n) (fd_flag y) (fd_inode y).
Proof.
  intros Hp Hn. unfold closed_slot. rewrite Hp. destruct (Z.eqb_spec n 0) as [->|]; [by rewrite Z.sub_0_r; destruct y|].
  by replace (fd_pos y =? n) with false by (symmetry; apply Z.eqb_neq; lia).
Qed.
Lemma closed_slot_flag n y : fd_flag (closed_slot n y) = fd_flag y.
Proof. unfold closed_slot. by repeat case_match. Qed.

(** The pages and frames of the pipes that end, each granted on its own. *)
Record pipe_pages (m : vm) (f : fs) (gs : list Z) (pages : list (Z * Z)) : Prop := {
  pp_pages a : a ∈ pages.*1 <-> exists g, pipe_ends f gs g a;
  pp_one g g' a : pipe_ends f gs g a -> pipe_ends f gs g' a -> g = g';
  pp_addrs : NoDup pages.*1;
  pp_frames : NoDup pages.*2;
  pp_run a b : (a, b) ∈ pages -> kernel_run m a 1 [b] }.

Section loop.
Variables (f0 : fs) (m0 : vm) (S : Z -> Prop) (gs : list Z) (pages : list (Z * Z)).
Hypothesis Hcl : closable f0 gs.
Hypothesis Hpp : pipe_pages m0 f0 gs pages.

Definition ended_in (done : list Z) (a : Z) : Prop := exists j, pipe_ends f0 done j a.

(** [mo] is [m0] without the pages of the pipes that ended among [done]. *)
Record pages_back (done : list Z) (mo : vm) : Prop := {
  pb_ok : vm_ok mo;
  pb_user : user_pool mo = user_pool m0;
  pb_start : phy_addr_start (kernel_pool mo) = phy_addr_start (kernel_pool m0);
  pb_bits : pool_bits (kernel_pool mo) = pool_bits (kernel_pool m0);
  pb_free g : frame_free (kernel_pool mo) g <-> frame_free (kernel_pool m0) g \/ exists a, (a, g) ∈ pages /\ ended_in done a;
  pb_run a b : (a, b) ∈ pages -> ~ ended_in done a -> kernel_run mo a 1 [b] }.

Lemma ended_le done rest j a : gs = done ++ rest -> pipe_ends f0 done j a -> pipe_ends f0 gs j a.
Proof.
  intros -> (Hj & y & Hy & Hf & Hp & Ha). split; [set_solver|]. exists y. split_and!; try done.
  destruct (Hcl j) as (_ & y' & Hy' & Hs); [set_solver|]. assert (y' = y) as -> by congruence. rewrite Hf, Z.eqb_refl in Hs.
  rewrite refs_app in *. pose proof (refs_nonneg rest j). lia.
Qed.

(** A page is given back exactly when the count of its pipe gets to its [fd_pos]. *)
Lemma ended_next done rest g y a : gs = done ++ g :: rest -> znth (file_table f0) g = Some y ->
  ended_in (done ++ [g]) a <-> ended_in done a \/ (fd_flag y = PIPE_FLAG /\ fd_pos y = refs done g + 1 /\ a = fd_inode y).
Proof.
  intros Hgs Hy. split.
  - intros (j & Hj & y' & Hy' & Hf & Hp & <-). rewrite refs_app, refs_one in Hp. destruct (Z.eqb_spec g j) as [<-|Hne].
    + right. assert (y' = y) as -> by congruence. done.
    + left. exists j. split; [set_solver|]. exists y'. split_and!; (done || lia).
  - intros [(j & Hj & y' & Hy' & Hf & Hp & <-)|(Hf & Hp & ->)].
    + exists j. split; [set_solver|]. exists y'. rewrite refs_app, refs_one. split_and!; try done. destruct (Z.eqb_spec g j) as [<-|]; [|lia].
      exfalso. destruct (Hcl g) as (_ & y2 & Hy2 & Hs); [set_solver|]. assert (y2 = y') as -> by congruence. rewrite Hf, Z.eqb_refl, Hgs in Hs.
      change (g :: rest) with ([g] ++ rest) in Hs. rewrite !refs_app, refs_one, Z.eqb_refl in Hs. pose proof (refs_nonneg rest g). lia.
    + exists g. split; [set_solver|]. exists y. rewrite refs_app, refs_one, Z.eqb_refl. done.
Qed.

Lemma pages_back_ext done done' mo : (forall a, ended_in done' a <-> ended_in done a) -> pages_back done mo -> pages_back done' mo.
Proof.
  intros E []. constructor; try done.
  - intros g. rewrite pb_free0. split; (intros [?|(a & Ha & He)]; [by left | right; exists a; by rewrite E in *]).
  - intros a b Hab Hn. apply pb_run0; [done|]. by rewrite <- E.
Qed.

Lemma pages_distinct a b a' b' : (a, b) ∈ pages -> (a', b') ∈ pages -> a <> a' -> page_of a <> page_of a' /\ b <> b'.
Proof.
  intros Hi Hi' Hne. split.
  - destruct (pp_run _ _ _ _ Hpp _ _ Hi) as [_ (Hm & _) _ _ _ _ _ _ _], (pp_run _ _ _ _ Hpp _ _ Hi') as [_ (Hm' & _) _ _ _ _ _ _ _].
    unfold page_of. Z.to_euclidean_division_equations. lia.
  - intros <-. apply list_elem_of_lookup in Hi as [i Hi], Hi' as [i' Hi'].
    assert (i = i') as <-. { eapply (NoDup_lookup pages.*2); [apply Hpp | by rewrite list_lookup_fmap, Hi | by rewrite list_lookup_fmap, Hi']. } congruence.
Qed.

(** The page of a pipe that ends is given back. *)
Lemma page_step done mo m a b : 0x102000 <= phy_addr_start (kernel_pool m0) -> pages_back done mo -> alike S mo m ->
  (a, b) ∈ pages -> ~ ended_in done a ->
  exists mo' m', mfree_page m PF_KERNEL a 1 = Ok m' /\ alike S mo' m'
    /\ forall done', (forall a', ended_in done' a' <-> ended_in done a' \/ a' = a) -> pages_back done' mo'.
Proof.
  intros Hlow B A Hab Hn. pose proof B as []. destruct (mfree_run_ok mo a 1 [b]) as (mo' & E & []); [done | by apply pb_run0 | by rewrite pb_start0|].
  destruct (mfree_alike _ _ _ _ _ _ _ A E) as (m' & E' & A'). exists mo', m'. split; [done|]. split; [done|]. intros done' Hd. constructor; try congruence.
  - intros g. rewrite rf_free, pb_free0, list_elem_of_singleton. split.
    + intros [[?|(a' & Ha' & He)]| ->]; [by left | right; exists a'; rewrite Hd; tauto | right; exists a; rewrite Hd; tauto].
    + intros [?|(a' & Ha' & He)]; [by left; left|]. apply Hd in He as [He| ->]; [left; right; by exists a'|]. right.
      destruct (decide (g = b)) as [|Hgb]; [done|]. apply list_elem_of_lookup in Hab as [i Hi], Ha' as [i' Hi'].
      assert (i = i') as <-. { eapply (NoDup_lookup pages.*1); [apply Hpp | by rewrite list_lookup_fmap, Hi | by rewrite list_lookup_fmap, Hi']. } congruence.
  - intros a' b' Hab' Hn'. rewrite Hd in Hn'. destruct (pages_distinct a b a' b') as [Hp Hb]; [done | done | intros ->; tauto|].
    apply rf_other; [apply pb_run0; tauto | lia|]. intros c ->%list_elem_of_singleton. rewrite list_elem_of_singleton. congruence.
Qed.

(** After the descriptors [done]. *)
Definition going (done : list Z) (s : st) : Prop :=
  (exists gone, fds_closed f0 done gone (s_fs s)) /\ exists mo, alike S mo (s_vm s) /\ pages_back done mo.

Lemma set_fd_ok (f : fs) t fd v : cur_fds f = Ok t -> 0 <= fd < zlen t ->
  exists k, set_fd f fd v = Ok (with_kern k f) /\ cur k = cur (kern f) /\ cur_fds (with_kern k f) = Ok (<[Z.to_nat fd := v]> t).
Proof.
  intros Ht Hfd. unfold set_fd. rewrite Ht. cbn [obind]. rewrite wr_in by done. cbn [obind]. unfold set_fds, upd_task, running_thread.
  unfold cur_fds in Ht. apply obind_Ok in Ht as (x & Ex & _). unfold running_thread in Ex. rewrite Ex. cbn [obind].
  eexists. split; [reflexivity|]. split; [done|]. unfold cur_fds, running_thread, get_task. cbn. by rewrite lookup_insert_eq.
Qed.

(** Everything but descriptors, files and page frames is as before. *)
Definition beside (s s' : st) : Prop := s_vaddr s' = s_vaddr s /\ s_intr s' = s_intr s /\ s_desc s' = s_desc s /\ cur (s_k s') = cur (s_k s).

Lemma release_fd_pipe (s : st) (done rest : list Z) g y t fd : gs = done ++ g :: rest -> 0x102000 <= phy_addr_start (kernel_pool m0) -> going done s ->
  cur_fds (s_fs s) = Ok t -> znth t fd = Some g -> znth (file_table f0) g = Some y -> (fd_flag y =? PIPE_FLAG) = true ->
  exists s', release_fd s t fd = Ok s' /\ going (done ++ [g]) s' /\ kern (s_fs s') = kern (s_fs s) /\ beside s s'.
Proof.
  intros Hgs Hlow [(gone & C) (mo & A & B)] Ht Hg Hy Hp. destruct (Hcl g) as (Hgr & y' & Hy' & Hs); [set_solver|].
  assert (y' = y) as -> by congruence. rewrite Hp, Hgs in Hs. change (g :: rest) with ([g] ++ rest) in Hs. rewrite !refs_app, refs_one, Z.eqb_refl in Hs.
  pose proof (refs_nonneg rest g). pose proof (refs_nonneg done g) as Hd0.
  assert (znth (file_table (s_fs s)) g = Some (mk_file (fd_pos y - refs done g) (fd_flag y) (fd_inode y))) as Hy1.
  { rewrite (fc_slots _ _ _ _ C), Hy. cbn. by rewrite closed_slot_open by (done || lia). }
  assert (fd_local2global (s_fs s) fd = Ok g) as El.
  { unfold fd_local2global. rewrite Ht. cbn [obind]. rewrite (rd_znth _ _ _ Hg). cbn [obind].
    replace ((0 <=? g) && (g <? MAX_FILE_OPEN)) with true by (symmetry; apply andb_true_iff; rewrite Z.leb_le, Z.ltb_lt; lia). done. }
  set (x := mk_file (fd_pos y - refs done g - 1) (fd_flag y) (if fd_pos y - refs done g - 1 =? 0 then 0 else fd_inode y)).
  assert (forall z, z = x -> exists f2, put_file g z (s_fs s) = Ok f2 /\ fds_closed f0 (done ++ [g]) gone f2 /\ kern f2 = kern (s_fs s)) as Hput.
  { intros z ->. destruct (put_file_at g x (s_fs s) _ Hy1) as (f2 & E2 & Hs2 & Em & Ei & Ep & Eh & Ek). exists f2. split; [done|]. split; [|done].
    apply (pipe_step f0 (s_fs s) f2 done gone g y C Hy Hp); try done. intros j. rewrite Hs2, closed_pipe by (done || lia). done. }
  unfold release_fd. rewrite (rd_znth _ _ _ Hg). cbn [obind]. replace (g =? -1) with false by (symmetry; apply Z.eqb_neq; lia). cbn [negb].
  unfold is_pipe, get_file. rewrite El. cbn [obind]. rewrite (rd_znth _ _ _ Hy1). cbn [obind fd_flag]. rewrite Hp. cbn zeta.
  unfold set_pos. cbn [fd_pos fd_flag fd_inode]. rewrite u32_small by lia. destruct (Z.eqb_spec (fd_pos y - refs done g - 1) 0) as [E0|E0].
  - assert (pipe_ends f0 (done ++ [g]) g (fd_inode y)) as Hend.
    { split; [set_solver|]. exists y. rewrite refs_app, refs_one, Z.eqb_refl. apply Z.eqb_eq in Hp. split_and!; (done || lia). }
    assert (pipe_ends f0 gs g (fd_inode y)) as Hendg by (apply (ended_le (done ++ [g]) rest); [by rewrite <- app_assoc | done]).
    assert (exists b, (fd_inode y, b) ∈ pages) as [b Hab].
    { assert (fd_inode y ∈ pages.*1) as Hin by (apply (pp_pages _ _ _ _ Hpp); by exists g). apply list_elem_of_fmap in Hin as ([a b] & -> & Hin). by exists b. }
    destruct (page_step done mo (s_vm s) (fd_inode y) b Hlow B A Hab) as (mo' & m' & Em & A' & B').
    { intros (j & Hj). assert (j = g) as ->. { eapply (pp_one _ _ _ _ Hpp); [by eapply ended_le | done]. }
      destruct Hj as (_ & y2 & Hy2 & _ & Hp2 & _). assert (y2 = y) as -> by congruence. lia. }
    rewrite Em. cbn [obind]. destruct (Hput (mk_file (fd_pos y - refs done g - 1) (fd_flag y) 0)) as (f2 & -> & C2 & Ek); [done|].
    cbn [obind]. eexists. split; [reflexivity|]. split; [|split; [exact Ek | split_and!; try done; unfold s_k; cbn; by rewrite Ek]].
    split; [by exists gone|]. exists mo'. split; [done|]. apply B'. intros a'. rewrite (ended_next done rest g y a') by done.
    apply Z.eqb_eq in Hp. split; (intros [?|?]; [by left | right]); [tauto | split_and!; (done || lia)].
  - destruct (Hput (mk_file (fd_pos y - refs done g - 1) (fd_flag y) (fd_inode y))) as (f2 & -> & C2 & Ek); [done|].
    cbn [obind]. eexists. split; [reflexivity|]. split; [|split; [exact Ek | split_and!; try done; unfold s_k; cbn; by rewrite Ek]].
    split; [by exists gone|]. exists mo. split; [done|]. apply (pages_back_ext done); [|done]. intros a'. rewrite (ended_next done rest g y a') by done.
    split; [intros [?|(_ & ? & _)]; [done | lia] | by left].
Qed.

Lemma release_fd_file (s : st) (done rest : list Z) g y t fd : gs = done ++ g :: rest -> going done s -> cur_fds (s_fs s) = Ok t ->
  3 <= fd -> znth t fd = Some g -> znth (file_table f0) g = Some y -> (fd_flag y =? PIPE_FLAG) = false ->
  exists s', release_fd s t fd = Ok s' /\ going (done ++ [g]) s' /\ cur_fds (s_fs s') = Ok (<[Z.to_nat fd := -1]> t) /\ beside s s'.
Proof.
  intros Hgs [(gone & C) (mo & A & B)] Ht Hfd Hg Hy Hp. destruct (Hcl g) as (Hgr & _); [set_solver|].
  assert (closable f0 (done ++ g :: rest)) as Hcl' by (by rewrite <- Hgs).
  destruct (file_step f0 (s_fs s) done gone g rest y C Hcl' Hy Hp) as (gone2 & f2 & E2 & Ek & C2).
  assert (exists x, znth (file_table (s_fs s)) g = Some x /\ fd_flag x = fd_flag y) as (x & Hx & Ef).
  { rewrite (fc_slots _ _ _ _ C), Hy. cbn. eexists. split; [reflexivity|]. apply closed_slot_flag. }
  assert (fd_local2global (s_fs s) fd = Ok g) as El.
  { unfold fd_local2global. rewrite Ht. cbn [obind]. rewrite (rd_znth _ _ _ Hg). cbn [obind].
    replace ((0 <=? g) && (g <? MAX_FILE_OPEN)) with true by (symmetry; apply andb_true_iff; rewrite Z.leb_le, Z.ltb_lt; lia). done. }
  assert (is_pipe (s_fs s) fd = Ok false) as Ei.
  { unfold is_pipe, get_file. rewrite El. cbn [obind]. rewrite (rd_znth _ _ _ Hx). cbn [obind]. by rewrite Ef, Hp. }
  destruct (set_fd_ok f2 t fd (-1)) as (k & E3 & Ec & Et); [by unfold cur_fds; rewrite Ek | by apply (znth_Some _ _ _ Hg)|].
  unfold release_fd. rewrite (rd_znth _ _ _ Hg). cbn [obind]. replace (g =? -1) with false by (symmetry; apply Z.eqb_neq; lia). cbn [negb].
  rewrite Ei. cbn [obind]. unfold sys_close. replace (2 <? fd) with true by (symmetry; apply Z.ltb_lt; lia). rewrite El. cbn [obind]. rewrite Ei. cbn [obind].
  rewrite E2. cbn [obind]. rewrite E3. cbn [obind]. eexists. split; [reflexivity|]. split; [|split; [exact Et|]].
  - split; [exists gone2; by apply fds_closed_kern|]. exists mo. split; [done|]. apply (pages_back_ext done); [|done].
    intros a. rewrite (ended_next done rest g y a) by done. apply Z.eqb_neq in Hp. tauto.
  - split_and!; try done. unfold s_k; cbn. by rewrite Ec, Ek.
Qed.

Definition fd_open (v : Z) : Prop := v <> -1.

Lemma release_fd_ok (s : st) (done rest : list Z) g t fd : gs = done ++ g :: rest -> 0x102000 <= phy_addr_start (kernel_pool m0) -> going done s ->
  cur_fds (s_fs s) = Ok t -> 3 <= fd -> znth t fd = Some g ->
  exists s' t', release_fd s t fd = Ok s' /\ going (done ++ [g]) s' /\ cur_fds (s_fs s') = Ok t' /\ (forall j, j <> fd -> znth t' j = znth t j) /\ beside s s'.
Proof.
  intros Hgs Hlow Hgo Ht Hfd Hg. destruct (Hcl g) as (_ & y & Hy & _); [set_solver|]. destruct (fd_flag y =? PIPE_FLAG) eqn:Hp.
  - destruct (release_fd_pipe s done rest g y t fd) as (s' & E & Hgo' & Ek & Hb); try done. exists s', t. unfold cur_fds in *. by rewrite Ek.
  - destruct (release_fd_file s done rest g y t fd) as (s' & E & Hgo' & Et & Hb); try done. exists s', (<[Z.to_nat fd := -1]> t). split_and!; try done.
    intros j Hj. rewrite znth_insert by apply (znth_Some _ _ _ Hg). by apply Z.eqb_neq in Hj as ->.
Qed.

Lemma beside_trans (s1 s2 s3 : st) : beside s1 s2 -> beside s2 s3 -> beside s1 s3.
Proof. intros (?&?&?&?) (?&?&?&?). split_and!; congruence. Qed.

Lemma release_loop es : forall fd (s : st) done t, fd + zlen es = MAX_FILES_OPEN_PER_PROC -> 3 <= fd -> (forall i v, es !! i = Some v -> znth t (fd + Z.of_nat i) = Some v) ->
  gs = done ++ filter fd_open es -> 0x102000 <= phy_addr_start (kernel_pool m0) -> going done s -> cur_fds (s_fs s) = Ok t ->
  exists s', loop (release_fd_body (cur (s_k s))) (1 + length es) (s, fd) = Ok s' /\ going gs s' /\ beside s s'.
Proof.
  induction es as [|v es IH]; intros fd s done t Hlen Hfd Hes Hgs Hlow Hgo Ht.
  - exists s. cbn [loop Nat.add length]. unfold release_fd_body. replace (fd <? MAX_FILES_OPEN_PER_PROC) with false by (symmetry; apply Z.ltb_ge; cbn in Hlen; lia).
    split; [done|]. split; [|by split_and!]. rewrite Hgs. cbn. by rewrite app_nil_r.
  - pose proof (Hes O v eq_refl) as Hv. rewrite Z.add_0_r in Hv. cbn [length] in Hlen.
    assert (exists x, get_task (s_k s) (cur (s_k s)) = Ok x /\ fd_table x = t) as (x & Ex & Ext).
    { unfold cur_fds, running_thread in Ht. apply obind_Ok in Ht as (x & Ex & [= <-]). by exists x. }
    assert (exists s' t' done', release_fd s t fd = Ok s' /\ going done' s' /\ cur_fds (s_fs s') = Ok t' /\ (forall j, j <> fd -> znth t' j = znth t j)
      /\ beside s s' /\ gs = done' ++ filter fd_open es) as (s1 & t1 & done1 & E1 & Hgo1 & Ht1 & Hj1 & Hb1 & Hgs1).
    { destruct (decide (fd_open v)) as [Hop|Hcl1].
      - rewrite filter_cons_True in Hgs by done. destruct (release_fd_ok s done (filter fd_open es) v t fd) as (s1 & t1 & ?&?&?&?&?); try done.
        exists s1, t1, (done ++ [v]). rewrite <- app_assoc. done.
      - rewrite filter_cons_False in Hgs by done. unfold fd_open in Hcl1. assert (v = -1) as -> by lia.
        exists s, t, done. unfold release_fd. rewrite (rd_znth _ _ _ Hv). cbn. by split_and!. }
    destruct (IH (fd + 1) s1 done1 t1) as (s2 & E2 & Hgo2 & Hb2); try done; [lia | lia | |].
    + intros i w Hw. rewrite Hj1 by lia. replace (fd + 1 + Z.of_nat i) with (fd + Z.of_nat (1 + i)) by lia. by apply Hes.
    + exists s2. split; [|split; [done | by eapply beside_trans]]. cbn [length]. change (1 + Datatypes.S (length es))%nat with (Datatypes.S (1 + length es)).
      cbn [loop]. unfold release_fd_body at 1. replace (fd <? MAX_FILES_OPEN_PER_PROC) with true by (symmetry; apply Z.ltb_lt; lia).
      rewrite Ex. cbn [obind]. rewrite Ext, E1. cbn [obind]. destruct Hb1 as (_ & _ & _ & Ec). by rewrite <- Ec.
Qed.
End loop.
End closing.
