(* ===== verification/Exitspec.v ===== *)
(** [sys_exit] as a whole: tasks, memory, open files and pipes together. *)
From S2P Require Import Prelude Bitmap Thread Inode File.
From S2P Require Import Paging Process Waitexit Kin Kinspec Release Exitfds.

Section exit.
Context {D H : Type} `{BlockDevice D} `{KernelHeap H}.
Abbreviation st := (sys D H).

(** The open descriptors besides the standard ones, as slots of [file_table]. *)
Definition open_fds (x : task_struct) : list Z := filter fd_open (drop 3 (fd_table x)).

(** What [release_prog_resource] needs of a process [x]: its directory is the one in
    use, its frames belong to the pools, its bitmap and the buffers of the pipes it is
    the last to hold are pages of the kernel, and its descriptors can be closed. *)
Record releasable (s : st) (x : task_struct) (uv : user_vaddr) (n : Z) (fs : list Z) (pages : list (Z * Z)) : Prop := {
  rl_vm : vm_ok (s_vm s);
  rl_low : 0x102000 <= phy_addr_start (kernel_pool (s_vm s));
  rl_dir : 0 <= pgdir x < 2 ^ 32 /\ pgdir x mod PG_SIZE = 0;
  rl_map : mmu (s_vm s) (pgdir x) = Some (Paging.cr3 (s_vm s));
  rl_user f : user_frame (s_vm s) f -> exists pf, frame_in (get_pool pf (s_vm s)) f;
  rl_bitmap : bitmap_pages (s_vm s) uv n fs;
  rl_fds : zlen (fd_table x) = MAX_FILES_OPEN_PER_PROC;
  rl_close : closable (s_fs s) (open_fds x);
  rl_pages : pipe_pages (s_vm s) (s_fs s) (open_fds x) pages;
  rl_apart a b : (a, b) ∈ pages -> (page_of (uv_bits uv) + n <= page_of a \/ page_of a + 1 <= page_of (uv_bits uv)) /\ b ∉ fs }.

(** What a process [x] held is released: its memory, its bitmap, its descriptors and
    the buffers of its pipes. *)
Definition released (s s' : st) (x : task_struct) (fs : list Z) (pages : list (Z * Z)) : Prop :=
  (exists gone, fds_closed (s_fs s) (open_fds x) gone (s_fs s'))
  /\ forall pf g, frame_free (get_pool pf (s_vm s')) g <->
       frame_free (get_pool pf (s_vm s)) g \/ user_frame (s_vm s) g /\ frame_in (get_pool pf (s_vm s)) g
       \/ pf = PF_KERNEL /\ (g ∈ fs \/ g ∈ pages.*2).

Lemma all_ended f gs a b m pages : pipe_pages (D := D) (H := H) m f gs pages -> (a, b) ∈ pages -> ended_in f gs a.
Proof. intros Hpp Hab. apply (pp_pages _ _ _ _ Hpp), list_elem_of_fmap. by exists (a, b). Qed.

Lemma release_ok (s : st) x uv n fs pages : tasks (s_k s) !! cur (s_k s) = Some x -> get_uv s (cur (s_k s)) = Ok uv -> releasable s x uv n fs pages ->
  exists s', release_prog_resource s (cur (s_k s)) = Ok s' /\ released s s' x fs pages.
Proof.
  intros Hx Huv []. destruct (release_memory_alike (s_vm s) (pgdir x) uv n fs) as (mo & m' & Em & [] & A); try done.
  apply obind_Ok in Em as (m1 & Em1 & Em2). set (s1 := with_vm m' s).
  assert (pipe_pages mo (s_fs s) (open_fds x) pages) as Hpp.
  { destruct rl_pages0. constructor; try done. intros a b Hab. destruct (rl_apart0 a b Hab) as [Hap Hb].
    apply rf_other; [by apply pp_run | lia|]. by intros c ->%list_elem_of_singleton. }
  assert (going (s_fs s) mo (user_frame (s_vm s)) pages [] s1) as Hgo.
  { split; [exists []; apply fds_closed_nil|]. exists mo. split; [done|].
    assert (forall a, ~ ended_in (s_fs s) [] a) as Hnone by (intros a (j & Hj & _); by apply elem_of_nil in Hj).
    constructor; try done; [|intros a b Hab _; by apply (pp_run _ _ _ _ Hpp)].
    intros g. split; [by left|]. intros [?|(a & _ & Ha)]; [done | by destruct (Hnone a)]. }
  destruct (release_loop (s_fs s) mo (user_frame (s_vm s)) (open_fds x) pages rl_close0 Hpp (drop 3 (fd_table x)) 3 s1 [] (fd_table x))
    as (s2 & E2 & [Hf (mo2 & A2 & [])] & _); try done.
  - rewrite length_drop. unfold MAX_FILES_OPEN_PER_PROC in *. lia.
  - intros i v Hi. rewrite lookup_drop in Hi. unfold znth. replace (3 + Z.of_nat i <? 0) with false by (symmetry; apply Z.ltb_ge; lia).
    by replace (Z.to_nat (3 + Z.of_nat i)) with (3 + i)%nat by lia.
  - by rewrite rf_start.
  - unfold cur_fds, running_thread, get_task. change (kern (s_fs s1)) with (s_k s). by rewrite Hx.
  - exists s2. split.
    + unfold release_prog_resource, get_task. rewrite Hx. cbn [obind]. rewrite Em1. cbn [obind]. unfold get_uv in *. rewrite Huv. cbn [obind].
      rewrite Em2. cbn [obind]. change (s_k s1) with (s_k s) in E2. rewrite <- E2. f_equal. rewrite length_drop. unfold MAX_FILES_OPEN_PER_PROC in *. lia.
    + split; [done|]. apply (alike_free _ mo2 _ _ (fun g => g ∈ fs \/ g ∈ pages.*2)); try congruence.
      intros g. rewrite pb_free, rf_free. split.
      * intros [[?|?]|(a & Ha & _)]; [by left | by right; left | right; right]. apply list_elem_of_fmap. by exists (a, g).
      * intros [?|[?|Hg]]; [by left; left | by left; right | right]. apply list_elem_of_fmap in Hg as ([a b] & -> & Hab).
        exists a. split; [done|]. by eapply all_ended.
Qed.

(** C5. [sys_exit] of a process whose parent is alive and which can be released
    ([releasable]: each open file in a slot of its own) ends it: the tasks keep their
    invariant, the caller hangs with its status, a waiting parent runs next, and the
    children belong to init. Its open descriptors are closed: a pipe loses them from
    its count, a file gives up its slot and its opening of the inode. Exactly the user
    frames, the page tables, the whole pages of its address bitmap and the buffers of
    the pipes it was the last to hold become free (the bitmap's last page stays: the
    division rounds down). *)
Theorem sys_exit_spec (s : st) v x uv n fs pages : kin_ok (s_k s) -> tasks (s_k s) !! cur (s_k s) = Some x -> parent_pid x <> -1 ->
  get_uv s (cur (s_k s)) = Ok uv -> releasable s x uv n fs pages ->
  exists s', sys_exit s v = Ok (s', intr (s_k s)) /\ kin_ok (s_k s') /\ released s s' x fs pages
    /\ st_of (s_k s') (cur (s_k s)) = Some TASK_HANGING /\ exit_status <$> tasks (s_k s') !! cur (s_k s) = Some (s8 v)
    /\ (forall c, child (s_k s) (pid x) c -> child (s_k s') 1 c)
    /\ (forall u y, u ∈ thread_all_list (s_k s) -> tasks (s_k s) !! u = Some y -> pid y = parent_pid x -> status y = TASK_WAITING -> cur (s_k s') = u).
Proof.
  intros Hk Hx Hpar Huv Hrel. assert (who (s_k s) (cur (s_k s)) = Some (pid x, parent_pid x, pgdir x)) as Hw by (apply who_task; by exists x).
  destruct (exit_begin_ok (s_k s) v _ _ _ Hk Hw Hpar) as (k1 & q1 & E1 & Hk1 & Hc1 & _ & _ & (Ha1 & _) & _ & _ & _ & _ & _ & _ & Hinit & Hex & _ & Hkeep1).
  assert (exists x1, tasks k1 !! cur (s_k s) = Some x1 /\ pgdir x1 = pgdir x /\ fd_table x1 = fd_table x) as (x1 & Hx1 & Ed & Ef).
  { assert (keeps (fun y => (pgdir y, fd_table y)) (s_k s) k1) as Hkp by (by apply Hkeep1). specialize (Hkp (cur (s_k s))). rewrite Hx in Hkp.
    destruct (tasks k1 !! _) as [x1|]; [|done]. cbn in Hkp. injection Hkp as ? ?. by exists x1. }
  assert (open_fds x1 = open_fds x) as Eo by (unfold open_fds; by rewrite Ef).
  destruct (release_ok (with_k k1 s) x1 uv n fs pages) as (s2 & E2 & Hr2).
  { change (s_k (with_k k1 s)) with k1. by rewrite Hc1. }
  { change (s_k (with_k k1 s)) with k1. by rewrite Hc1. }
  { destruct Hrel. constructor; cbn in *; rewrite ?Ed, ?Ef, ?Eo; try done. by destruct rl_pages0. }
  change (s_k (with_k k1 s)) with k1 in E2. pose proof (release_only _ _ _ E2) as Hof. change (s_k (with_k k1 s)) with k1 in Hof.
  destruct (exit_ok (s_k s) v _ _ _ k1 (s_k s2) Hk Hw Hpar E1 Hof) as (k3 & u & q & b & e & E3 & Hk3 & Hen & Hu & Hwu & Hq & _ & Hkeep3).
  exists (with_k k3 s2). unfold sys_exit. rewrite E1. cbn [obind]. unfold running_thread. rewrite E2. cbn [obind]. rewrite E3. cbn [obind].
  change (s_k (with_k k3 s2)) with k3. assert (cur (s_k s2) = cur (s_k s)) as Hc2 by (rewrite (proj1 Hof); cbn; done).
  split; [done|]. split; [done|]. split_and!.
  - destruct Hr2 as [(gone & Hg) Hfree]. split; [|exact Hfree]. exists gone. rewrite Eo in Hg. destruct Hg. by constructor.
  - rewrite <- Hc2. apply Hen.
  - rewrite <- Hex. assert (keeps exit_status k1 k3) as Hks by (transitivity (s_k s2); [by apply only_fds_keeps | by apply Hkeep3]). apply (Hks _).
  - intros c Hc. assert (keeps ids k1 k3) as Hi by (transitivity (s_k s2); [by apply only_fds_keeps | by apply Hkeep3]).
    destruct (proj2 (Hinit c) (or_intror Hc)) as [Hin1 Hwc]. split.
    + destruct (en_rest _ _ _ Hen) as [-> _]. rewrite (proj1 Hof). done.
    + destruct Hwc as (a & c' & Hwc). exists a, c'. by rewrite (keeps_who _ _ Hi).
  - intros t y Ht Hy Hp Hs. assert (who (s_k s) t = Some (parent_pid x, parent_pid y, pgdir y)) as Hwt by (apply who_task; by exists y).
    assert (st_of (s_k s) t = Some TASK_WAITING) as Hst by (unfold st_of; by rewrite Hy, <- Hs).
    destruct (exit_waiting (s_k s) v _ _ _ k1 (s_k s2) t _ _ Hk Hw E1 Hof Ht Hwt Hst) as (_ & Hs1 & _ & _ & Hun).
    assert (u = t) as -> by (by eapply Hun). apply (en_woken _ _ _ Hen Hs1).
Qed.
End exit.
