(* ===== verification/Exitdemo.v ===== *)
(** A whole machine on which [sys_exit_spec] applies: the tasks of Kindemo.v, the
    memory of Releasedemo.v, and a small file system in which the process that ends
    has a file and both ends of a pipe open. *)
From S2P Require Import Prelude Bitmap Thread Blockdev Inode File Filewrite Dirdemo.
From S2P Require Import Paging Process Waitexit Kin Kinspec Kindemo Release Releasedemo Exitfds Exitspec.

Definition exit_fds : list Z := [0; 1; 2; 4; 5; 5; -1; -1].
Definition exit_task : task_struct := set_fd_table exit_fds (kin_task 3 2 0xc0101000 TASK_RUNNING).
Definition exit_kern : kstate := with_tasks (<[0x3000 := exit_task]> (tasks kin_state)) kin_state.

(** Slot 4 is a file on the inode at 0x3000, slot 5 a pipe on the page 0xc0102000. *)
Definition exit_files : list file :=
  replicate 4 (mk_file 0 0 0) ++ [mk_file 10 2 0x3000; mk_file 2 PIPE_FLAG 0xc0102000] ++ replicate 26 (mk_file 0 0 0).
Definition exit_inode : inode := mk_inode 1 20 1 1 (713 :: replicate 12 0).
Definition exit_fs : fstate sparse_disk bump_heap :=
  mk_fs _ _ demo_dir_medium (set_open [0x3000; 8192] demo_part) (mk_bump [(true, 0x3000)])
    (<[0x3000 := exit_inode]> {[ 8192 := demo_root ]}) exit_files exit_kern.
Definition exit_sys : sys sparse_disk bump_heap :=
  mk_sys _ _ exit_fs release_vm {[0x3000 := release_uv]} ∅ ∅.

Lemma exit_kern_ok : kin_ok exit_kern.
Proof.
  apply (kin_fds kin_state); [exact kin_state_ok|]. split; [reflexivity|]. intros t. cbn. destruct (decide (t = 0x3000)) as [->|].
  - by rewrite lookup_insert_eq.
  - by rewrite lookup_insert_ne by done.
Qed.

Lemma exit_closable : closable exit_fs (open_fds exit_task).
Proof.
  change (open_fds exit_task) with [4; 5; 5]. intros g. rewrite !elem_of_cons, elem_of_nil.
  assert (forall x, x = 5 -> znth (file_table exit_fs) x = Some (mk_file 2 PIPE_FLAG 0xc0102000) /\ refs [4; 5; 5] x = 2) as Hpipe by (by intros x ->).
  intros [->|[Hg|[Hg|[]]]].
  - split; [unfold MAX_FILE_OPEN; lia|]. exists (mk_file 10 2 0x3000). split; [reflexivity|]. change (fd_flag _ =? PIPE_FLAG) with false. cbn iota.
    split; [reflexivity|]. exists exit_inode. split; [reflexivity|]. split; [|left].
    change (uses exit_fs [4; 5; 5] (fd_inode (mk_file 10 2 0x3000))) with 1. cbn. lia.
  - destruct (Hpipe g Hg) as [Hy Hr]. split; [unfold MAX_FILE_OPEN; lia|]. eexists. split; [exact Hy|]. rewrite Hr. cbn. lia.
  - destruct (Hpipe g Hg) as [Hy Hr]. split; [unfold MAX_FILE_OPEN; lia|]. eexists. split; [exact Hy|]. rewrite Hr. cbn. lia.
Qed.

Lemma exit_pipe g a : pipe_ends exit_fs (open_fds exit_task) g a <-> g = 5 /\ a = 0xc0102000.
Proof.
  change (open_fds exit_task) with [4; 5; 5]. split.
  - intros (Hg & y & Hy & Hf & Hp & <-). rewrite !elem_of_cons, elem_of_nil in Hg. destruct Hg as [->|[->|[->|[]]]];
      injection Hy as <-; [discriminate | done..].
  - intros [-> ->]. split; [right; left|]. eexists. split; [reflexivity|]. done.
Qed.

Lemma exit_pages : pipe_pages release_vm exit_fs (open_fds exit_task) [(0xc0102000, rpipe)].
Proof.
  split.
  - intros a. change (a ∈ [0xc0102000] <-> exists g, pipe_ends exit_fs (open_fds exit_task) g a); rewrite list_elem_of_singleton. split; [intros ->; exists 5; by apply exit_pipe | by intros (g & [_ ->]%exit_pipe)].
  - by intros g g' a [-> _]%exit_pipe [-> _]%exit_pipe.
  - apply NoDup_singleton.
  - apply NoDup_singleton.
  - intros a b Hab. apply list_elem_of_singleton in Hab. injection Hab as -> ->. exact release_pipe.
Qed.

Example sys_exit_witness : exists s', sys_exit exit_sys kin_status = Ok (s', false) /\ kin_ok (s_k s') /\ cur (s_k s') = 0x2000
  /\ child (s_k s') 1 0x5000 /\ inodes (s_fs s') !! 0x3000 = None /\ znth (file_table (s_fs s')) 5 = Some (mk_file 0 PIPE_FLAG 0)
  /\ frame_free (user_pool (s_vm s')) rdata /\ frame_free (kernel_pool (s_vm s')) rpipe.
Proof.
  destruct (sys_exit_spec exit_sys kin_status exit_task release_uv 1 [rbits] [(0xc0102000, rpipe)])
    as (s' & E & Hk & ((gone & Hfds) & Hf) & _ & _ & Hc & Hw).
  - exact exit_kern_ok.
  - reflexivity.
  - discriminate.
  - reflexivity.
  - split.
    + exact release_vm_ok.
    + by vm_compute.
    + split; [cbn; lia | reflexivity].
    + vm_compute. reflexivity.
    + intros f [->| ->]%release_user; [exists PF_KERNEL, 2 | exists PF_USER, 0]; by vm_compute.
    + exact release_pages.
    + reflexivity.
    + exact exit_closable.
    + exact exit_pages.
    + intros a b Hab. apply list_elem_of_singleton in Hab. injection Hab as -> ->. split; [left; by vm_compute | by intros [= ?]%list_elem_of_singleton].
  - exists s'. split; [exact E|]. split; [exact Hk|]. split_and!.
    + apply (Hw 0x2000 (kin_task 2 1 0xc0102000 TASK_WAITING)); [by apply kin_state_all; tauto | reflexivity | reflexivity | reflexivity].
    + apply Hc. split; [by apply kin_state_all; tauto | by exists 5, 0xc0105000].
    + rewrite (fc_inodes _ _ _ _ Hfds). reflexivity.
    + rewrite (fc_slots _ _ _ _ Hfds). reflexivity.
    + apply (Hf PF_USER). right; left. exact release_data.
    + apply (Hf PF_KERNEL). right; right. split; [done|]. right. by left.
Defined.
