(* ===== verification/Gates.v ===== *)
(** kernel/interrupt.c, userprog/tss.c, kernel/global.h: the descriptor tables the
    kernel builds for the processor, and the interrupt controllers it programs. What
    the processor and the controllers make of them is stated as their manuals do. *)
From Stdlib Require Import String.
From S2P Require Import Prelude.
From S2P Require Paging Process.
Local Open Scope Z_scope.

(** ** Interrupt gates *)

Definition IDT_DESC_CNT : Z := 0x81.
Definition SELECTOR_K_CODE : Z := Z.shiftl 1 3 + Z.shiftl 0 2 + 0.
Definition SELECTOR_K_STACK : Z := Z.shiftl 2 3 + Z.shiftl 0 2 + 0.
Definition SELECTOR_TSS : Z := Z.shiftl 4 3 + Z.shiftl 0 2 + 0.
Definition IDT_DESC_ATTR_DPL0 : Z := Z.shiftl 1 7 + Z.shiftl 0 5 + 0xE.
Definition IDT_DESC_ATTR_DPL3 : Z := Z.shiftl 1 7 + Z.shiftl 3 5 + 0xE.

Record gate_desc := mk_gate {
  func_offset_low_word : Z; selector : Z; dcount : Z; attribute : Z; func_offset_high_word : Z }.

Definition make_idt_desc (attr function : Z) : gate_desc :=
  mk_gate (u16 (Z.land function 0x0000FFFF)) SELECTOR_K_CODE 0 (u8 attr) (u16 (Z.shiftr (Z.land function 0xFFFF0000) 16)).

(** [intr_entry_table] is memory from that symbol on: it is declared with 0x81 entries,
    kernel.S defines 0x30, and the words after them are what the linker put there. *)
Definition idt_desc_body (intr_entry_table : list Z) (s : list gate_desc * Z) : outcome (list gate_desc * Z + list gate_desc) :=
  let '(idt, i) := s in
  if i <? IDT_DESC_CNT then
    let! e := rd intr_entry_table i in
    let! idt := wr idt i (make_idt_desc IDT_DESC_ATTR_DPL0 e) in
    Ok (inl (idt, i + 1))
  else Ok (inr idt).

Definition idt_desc_init (intr_entry_table : list Z) (syscall_handler : Z) (idt : list gate_desc) : outcome (list gate_desc) :=
  let! idt := loop (idt_desc_body intr_entry_table) 130 (idt, 0) in
  wr idt (IDT_DESC_CNT - 1) (make_idt_desc IDT_DESC_ATTR_DPL3 syscall_handler).

(** ** The controllers *)

Definition PIC_M_CTRL : Z := 0x20.
Definition PIC_M_DATA : Z := 0x21.
Definition PIC_S_CTRL : Z := 0xa0.
Definition PIC_S_DATA : Z := 0xa1.

(** The port writes, in order. *)
Definition pic_init : list (Z * Z) :=
  [(PIC_M_CTRL, 0x11); (PIC_M_DATA, 0x20); (PIC_M_DATA, 0x04); (PIC_M_DATA, 0x01);
   (PIC_S_CTRL, 0x11); (PIC_S_DATA, 0x28); (PIC_S_DATA, 0x02); (PIC_S_DATA, 0x01);
   (PIC_M_DATA, 0xf8); (PIC_S_DATA, 0xbf)].

(** An 8259A: which initialisation word it expects next, the vector of its first
    line, the wiring word, and its mask. *)
Record pic := mk_pic { expects : Z; vector_base : Z; wiring : Z; imr : Z }.

Definition pic_ctrl (v : Z) (p : pic) : pic :=
  if Z.testbit v 4 then mk_pic 2 (vector_base p) (wiring p) 0 else p.

Definition pic_data (v : Z) (p : pic) : pic :=
  if expects p =? 2 then mk_pic 3 (Z.land v 0xf8) (wiring p) (imr p)
  else if expects p =? 3 then mk_pic 4 (vector_base p) v (imr p)
  else if expects p =? 4 then mk_pic 0 (vector_base p) (wiring p) (imr p)
  else mk_pic 0 (vector_base p) (wiring p) v.

(** Master and slave on their ports. *)
Definition pic_out (s : pic * pic) (w : Z * Z) : pic * pic :=
  let '(m, l) := s in let '(port, v) := w in
  if port =? PIC_M_CTRL then (pic_ctrl v m, l)
  else if port =? PIC_M_DATA then (pic_data v m, l)
  else if port =? PIC_S_CTRL then (m, pic_ctrl v l)
  else if port =? PIC_S_DATA then (m, pic_data v l)
  else s.

(** The vector on which line [irq] of the pair interrupts, if it is open; lines 8 to
    15 pass through line 2 of the master. *)
Definition irq_vector (s : pic * pic) (irq : Z) : option Z :=
  let '(m, l) := s in
  if irq <? 8 then if Z.testbit (imr m) irq then None else Some (vector_base m + irq)
  else if Z.testbit (imr m) 2 || Z.testbit (imr l) (irq - 8) then None else Some (vector_base l + (irq - 8)).

(** ** Handlers *)

(** Printing apart: two vectors are ignored, on all others the machine stops. *)
Definition general_intr_handler (vec_nr : Z) : outcome unit :=
  if (vec_nr =? 0x27) || (vec_nr =? 0x2f) then Ok tt else Err AssertFail.

Definition intr_names : list (Z * string) :=
  [(0, "#DE Divide Error"); (1, "#DB Debug Exception"); (2, "NMI Interrupt"); (3, "#BP Breakpoint Exception");
   (4, "#OF Overflow Exception"); (5, "#BR BOUND Range Exceeded Exception"); (6, "#UD Invalid Opcode Exception");
   (7, "#NM Device Not Available Exception"); (8, "#DF Double Fault Exception"); (9, "Coprocessor Segment Overrun");
   (10, "#TS Invalid TSS Exception"); (11, "#NP Segment Not Present"); (12, "#SS Stack Fault Exception");
   (13, "#GP General Protection Exception"); (14, "#PF Page-Fault Exception"); (16, "#MF 0x87 FPU Floating-Point Error");
   (17, "#AC Alignment Check Exception"); (18, "#MC Machine-Check Exception"); (19, "#XF SIMD Floating-Point Exception")]%string.

(** A handler is named by its address; [general] is that of [general_intr_handler]. *)
Definition exception_init (general : Z) : list Z * list string :=
  (replicate (Z.to_nat IDT_DESC_CNT) general,
   fold_left (fun l e => <[Z.to_nat (fst e) := snd e]> l) intr_names (replicate (Z.to_nat IDT_DESC_CNT) "unknown"%string)).

Definition register_handler (idt_table : list Z) (vector_no function : Z) : outcome (list Z) :=
  wr idt_table vector_no function.

Record idt_state := mk_idt { idt : list gate_desc; idt_table : list Z; intr_name : list string; pics : pic * pic; idt_operand : Z }.

(** [idt_addr] is the address of the table; 8 the size of a descriptor. *)
Definition idt_init (intr_entry_table : list Z) (syscall_handler general idt_addr : Z) (idt0 : list gate_desc) (pics0 : pic * pic) : outcome idt_state :=
  let! idt := idt_desc_init intr_entry_table syscall_handler idt0 in
  let '(idt_table, intr_name) := exception_init general in
  Ok (mk_idt idt idt_table intr_name (fold_left pic_out pic_init pics0)
        (Z.lor (8 * IDT_DESC_CNT - 1) (Z.shiftl (u32 idt_addr) 16))).

(** ** Segments *)

Definition TSS_ATTR_HIGH : Z := Z.shiftl 1 7 + Z.shiftl 0 6 + Z.shiftl 0 5 + Z.shiftl 0 4 + 0.
Definition TSS_ATTR_LOW : Z := Z.shiftl 1 7 + Z.shiftl 0 5 + Z.shiftl 0 4 + 9.
Definition GDT_ATTR_HIGH : Z := Z.shiftl 1 7 + Z.shiftl 1 6 + Z.shiftl 0 5 + Z.shiftl 0 4.
Definition GDT_CODE_ATTR_LOW_DPL3 : Z := Z.shiftl 1 7 + Z.shiftl 3 5 + Z.shiftl 1 4 + 8.
Definition GDT_DATA_ATTR_LOW_DPL3 : Z := Z.shiftl 1 7 + Z.shiftl 3 5 + Z.shiftl 1 4 + 2.

Record gdt_desc := mk_gdt {
  limit_low_word : Z; base_low_word : Z; base_mid_byte : Z; attr_low_byte : Z; limit_high_attr_high : Z; base_high_byte : Z }.

Definition make_gdt_desc (desc_addr limit attr_low attr_high : Z) : gdt_desc :=
  let desc_base := u32 desc_addr in
  mk_gdt (u16 (Z.land limit 0x0000ffff)) (u16 (Z.land desc_base 0x0000ffff)) (u8 (Z.shiftr (Z.land desc_base 0x00ff0000) 16))
    (u8 attr_low) (u8 (Z.shiftr (Z.land limit 0x000f0000) 16 + u8 attr_high)) (u8 (Z.shiftr desc_base 24)).

(** [struct tss]: 27 words, of which the kernel sets three. *)
Definition SIZEOF_TSS : Z := 27 * 4.
Record tss := mk_tss { esp0 : Z; ss0 : Z; io_base : Z }.

Definition update_tss_esp (t : tss) (pthread : Z) : tss := mk_tss (u32 (pthread + 4096)) (ss0 t) (io_base t).

Record tss_state := mk_tss_state { the_tss : tss; gdt : gmap Z gdt_desc; gdt_operand : Z; tr : Z }.

(** [gdt0] are the descriptors the loader left, by address. *)
Definition tss_init (tss_addr : Z) (gdt0 : gmap Z gdt_desc) : tss_state :=
  let tss_size := SIZEOF_TSS in
  mk_tss_state (mk_tss 0 SELECTOR_K_STACK tss_size)
    (<[0xc0000930 := make_gdt_desc 0 0xfffff GDT_DATA_ATTR_LOW_DPL3 GDT_ATTR_HIGH]>
     (<[0xc0000928 := make_gdt_desc 0 0xfffff GDT_CODE_ATTR_LOW_DPL3 GDT_ATTR_HIGH]>
      (<[0xc0000920 := make_gdt_desc tss_addr (tss_size - 1) TSS_ATTR_LOW TSS_ATTR_HIGH]> gdt0)))
    (Z.lor (8 * 7 - 1) (Z.shiftl 0xc0000900 16)) SELECTOR_TSS.

(** ** What the processor reads *)

(** Of a gate: where it leads, from which privilege level [int] may use it, and
    whether interrupts are off in the handler (type 14 of the two 32-bit types). *)
Definition gate_offset (g : gate_desc) : Z := Z.lor (func_offset_low_word g) (Z.shiftl (func_offset_high_word g) 16).
Definition gate_present (g : gate_desc) : bool := Z.testbit (attribute g) 7.
Definition gate_dpl (g : gate_desc) : Z := Z.land (Z.shiftr (attribute g) 5) 3.
Definition gate_closes (g : gate_desc) : bool := Z.land (attribute g) 0x1f =? 14.

(** Of a segment: base, last byte, level, presence, and type with the system bit. *)
Definition seg_base (d : gdt_desc) : Z := Z.lor (base_low_word d) (Z.lor (Z.shiftl (base_mid_byte d) 16) (Z.shiftl (base_high_byte d) 24)).
Definition seg_raw_limit (d : gdt_desc) : Z := Z.lor (limit_low_word d) (Z.shiftl (Z.land (limit_high_attr_high d) 15) 16).
Definition seg_limit (d : gdt_desc) : Z :=
  if Z.testbit (limit_high_attr_high d) 7 then (seg_raw_limit d + 1) * 4096 - 1 else seg_raw_limit d.
Definition seg_dpl (d : gdt_desc) : Z := Z.land (Z.shiftr (attr_low_byte d) 5) 3.
Definition seg_present (d : gdt_desc) : bool := Z.testbit (attr_low_byte d) 7.
Definition seg_type (d : gdt_desc) : Z := Z.land (attr_low_byte d) 0x1f.

(** The descriptor table a selector indexes. *)
Definition descriptor (s : tss_state) (sel : Z) : option gdt_desc := gdt s !! (Z.shiftr (gdt_operand s) 16 + 8 * Z.shiftr sel 3).

(** The I/O permission bitmap of a task begins at [io_base], unless that is beyond
    the limit of the segment. *)
Definition has_io_bitmap (t : tss) (d : gdt_desc) : bool := io_base t <=? seg_limit d.

(** ** Encoding and decoding *)

Lemma lor_shift a b k : 0 <= k -> 0 <= a < 2 ^ k -> Z.lor a (Z.shiftl b k) = a + b * 2 ^ k.
Proof.
  intros Hk Ha. rewrite <- Z.shiftl_mul_pow2 by done. pose proof (Z.add_lor_land a (Z.shiftl b k)) as E.
  enough (Z.land a (Z.shiftl b k) = 0) by lia. apply Z.bits_inj'. intros n Hn. rewrite Z.land_spec, Z.bits_0, Z.shiftl_spec by done.
  destruct (Z.ltb_spec n k); [by rewrite (Z.testbit_neg_r b), andb_false_r by lia|].
  by rewrite <- (Z.mod_small a (2 ^ k)), Z.mod_pow2_bits_high by lia.
Qed.

Lemma shr_field a n k : 0 <= n -> 0 <= k -> Z.shiftr (Z.land a (Z.shiftl (Z.ones n) k)) k = a / 2 ^ k mod 2 ^ n.
Proof. intros Hn Hk. rewrite Paging.land_field, Z.shiftr_div_pow2, Z.div_mul by lia. done. Qed.

Lemma gate_roundtrip attr f : 0 <= f < 2 ^ 32 -> gate_offset (make_idt_desc attr f) = f.
Proof.
  intros Hf. unfold gate_offset, make_idt_desc; cbn [func_offset_low_word func_offset_high_word].
  change 0x0000FFFF with (Z.shiftl (Z.ones 16) 0). change 0xFFFF0000 with (Z.shiftl (Z.ones 16) 16).
  rewrite Paging.land_field, shr_field, Z.pow_0_r, Z.mul_1_r, Z.div_1_r by lia.
  assert (0 <= f mod 2 ^ 16 < 65536) by (apply Z.mod_pos_bound; lia). assert (0 <= f / 2 ^ 16 mod 2 ^ 16 < 65536) by (apply Z.mod_pos_bound; lia).
  rewrite !u16_small, lor_shift by lia. Z.to_euclidean_division_equations; lia.
Qed.

(** A descriptor made of a limit of 20 bits is read back as it was made. *)
Lemma segment_roundtrip base limit low high : 0 <= base < 2 ^ 32 -> 0 <= limit < 2 ^ 20 -> 0 <= low < 256 -> 0 <= high < 16 ->
  let d := make_gdt_desc base limit low (high * 16) in
  seg_base d = base /\ seg_raw_limit d = limit /\ seg_limit d = (if Z.testbit high 3 then (limit + 1) * 4096 - 1 else limit)
  /\ seg_type d = low mod 32 /\ seg_dpl d = low / 32 mod 4 /\ seg_present d = Z.testbit low 7.
Proof.
  intros Hb Hl Hlo Hhi d. assert (limit_high_attr_high d = limit / 2 ^ 16 + high * 2 ^ 4) as Eh.
  { unfold d; cbn [limit_high_attr_high make_gdt_desc]. change 0x000f0000 with (Z.shiftl (Z.ones 4) 16). rewrite shr_field by lia.
    rewrite (Z.mod_small (limit / 2 ^ 16)) by (Z.to_euclidean_division_equations; lia). rewrite (u8_small (high * 16)) by lia.
    rewrite u8_small; Z.to_euclidean_division_equations; lia. }
  assert (0 <= limit / 2 ^ 16 < 2 ^ 4) as Hl4 by (Z.to_euclidean_division_equations; lia).
  assert (seg_raw_limit d = limit) as El.
  { unfold seg_raw_limit. rewrite Eh. change 15 with (Z.ones 4). rewrite Z.land_ones, Z.mod_add, (Z.mod_small (limit / 2 ^ 16)) by lia.
    unfold d; cbn [limit_low_word make_gdt_desc]. change 0x0000ffff with (Z.ones 16). rewrite Z.land_ones by lia.
    assert (0 <= limit mod 2 ^ 16 < 65536) by (apply Z.mod_pos_bound; lia). rewrite u16_small, lor_shift by lia. Z.to_euclidean_division_equations; lia. }
  assert (Z.testbit (limit_high_attr_high d) 7 = Z.testbit high 3) as Et.
  { rewrite Eh, !Z.testbit_eqb by lia. f_equal. Z.to_euclidean_division_equations; lia. }
  assert (attr_low_byte d = low) as Ea by (unfold d; cbn [attr_low_byte make_gdt_desc]; by apply u8_small).
  split_and!.
  - unfold seg_base, d, make_gdt_desc; cbn [base_low_word base_mid_byte base_high_byte]. rewrite (u32_small base) by done.
    change 0x0000ffff with (Z.shiftl (Z.ones 16) 0). change 0x00ff0000 with (Z.shiftl (Z.ones 8) 16).
    rewrite Paging.land_field, shr_field, Z.pow_0_r, Z.mul_1_r, Z.div_1_r, Z.shiftr_div_pow2 by lia.
    assert (0 <= base mod 2 ^ 16 < 65536) by (apply Z.mod_pos_bound; lia). assert (0 <= base / 2 ^ 16 mod 2 ^ 8 < 256) by (apply Z.mod_pos_bound; lia).
    assert (0 <= base / 2 ^ 24 < 256) by (Z.to_euclidean_division_equations; lia). rewrite u16_small, !u8_small by lia.
    rewrite <- (Z.shiftl_shiftl _ 8 16), <- Z.shiftl_lor, (lor_shift _ _ 8), lor_shift by lia. Z.to_euclidean_division_equations; lia.
  - exact El.
  - unfold seg_limit. by rewrite Et, El.
  - unfold seg_type. rewrite Ea. change 0x1f with (Z.ones 5). by rewrite Z.land_ones.
  - unfold seg_dpl. rewrite Ea. change 3 with (Z.ones 2). by rewrite Z.land_ones, Z.shiftr_div_pow2.
  - unfold seg_present. by rewrite Ea.
Qed.

(** ** Initialisation *)

Section init.
Variables (entries : list Z) (handler : Z) (idt0 : list gate_desc).
Hypothesis Hidt : zlen idt0 = IDT_DESC_CNT.

Lemma idt_desc_loop : IDT_DESC_CNT <= zlen entries ->
  exists l, loop (idt_desc_body entries) 130 (idt0, 0) = Ok l /\ zlen l = IDT_DESC_CNT
    /\ forall v e, 0 <= v < IDT_DESC_CNT -> znth entries v = Some e -> znth l v = Some (make_idt_desc IDT_DESC_ATTR_DPL0 e).
Proof.
  intros Hlen. eapply (loop_rule _ (fun s => 0 <= snd s <= IDT_DESC_CNT /\ zlen (fst s) = IDT_DESC_CNT
      /\ forall v e, 0 <= v < snd s -> znth entries v = Some e -> znth (fst s) v = Some (make_idt_desc IDT_DESC_ATTR_DPL0 e))
    (fun o => exists l, o = Ok l /\ _) (fun s => Z.to_nat (IDT_DESC_CNT - snd s))); cbn [fst snd];
    [|split_and!; [done | done | done | lia] | by vm_compute; lia].
  intros [l i] (Hi & Hl & Hd). cbn [fst snd] in *. unfold idt_desc_body. destruct (Z.ltb_spec i IDT_DESC_CNT) as [Hlt|Hge].
  - destruct (znth_in entries i ltac:(lia)) as (e & He). rewrite (rd_znth _ _ _ He). cbn [obind]. rewrite wr_in by lia. cbn [obind fst snd].
    split; [|lia]. split; [lia|]. rewrite length_insert. split; [done|]. intros v e' Hv He'. rewrite znth_insert by lia. destruct (Z.eqb_spec v i) as [->|]; [congruence | apply Hd; [lia | done]].
  - exists l. split; [done|]. split; [done|]. intros v e Hv. apply Hd. lia.
Qed.

(** C40. The table of kernel.S has the entries of the vectors 0 to 0x2f; the loop reads
    on through the words behind it. After [idt_init] the processor finds behind each
    vector of the table its entry, as a present gate of level 0 that turns interrupts
    off, behind 0x30 to 0x7f gates of the same kind that lead to whatever those words
    are, and behind 0x80 the system call handler, which [int] may use from level 3; the
    table's register covers exactly the 0x81 gates; every handler is the general one; and
    the controllers interrupt on vectors 0x20 to 0x2f, all of them of the table, with
    lines 0, 1, 2 and 14 open alone, whatever state they were in. *)
Theorem idt_init_spec general addr pics0 table after : entries = table ++ after -> zlen table = 0x30 -> 0x51 <= zlen after ->
  Forall (fun e => 0 <= e < 2 ^ 32) entries -> 0 <= handler < 2 ^ 32 -> 0 <= addr < 2 ^ 32 ->
  exists s, idt_init entries handler general addr idt0 pics0 = Ok s
    /\ (forall v, 0 <= v < 0x80 -> exists g e, znth (idt s) v = Some g
         /\ (if v <? 0x30 then znth table v = Some e else znth after (v - 0x30) = Some e)
         /\ gate_offset g = e /\ selector g = SELECTOR_K_CODE /\ gate_present g = true /\ gate_dpl g = 0 /\ gate_closes g = true)
    /\ (exists g, znth (idt s) 0x80 = Some g /\ gate_offset g = handler /\ selector g = SELECTOR_K_CODE /\ gate_present g = true /\ gate_dpl g = 3 /\ gate_closes g = true)
    /\ zlen (idt s) = IDT_DESC_CNT /\ idt_operand s = (8 * zlen (idt s) - 1) + addr * 2 ^ 16
    /\ (forall v, 0 <= v < IDT_DESC_CNT -> znth (idt_table s) v = Some general)
    /\ (forall irq, 0 <= irq < 16 -> irq_vector (pics s) irq = if bool_decide (irq ∈ [0; 1; 2; 14]) then Some (0x20 + irq) else None).
Proof.
  intros Ee Ht Haf Hent Hh Ha. assert (IDT_DESC_CNT <= zlen entries) as Hlen by (rewrite Ee, length_app; unfold IDT_DESC_CNT; lia).
  destruct (idt_desc_loop Hlen) as (l & El & Hl & Hd).
  unfold idt_init, idt_desc_init. rewrite El. cbn [obind]. rewrite wr_in by (rewrite Hl; done). cbn [obind].
  eexists; split; [done|]. cbn [idt idt_table pics idt_operand]. split_and!.
  - intros v Hv. destruct (znth_in entries v) as (e & He); [unfold IDT_DESC_CNT in *; lia|]. eexists _, e. rewrite znth_insert by (rewrite Hl; unfold IDT_DESC_CNT; lia). destruct (Z.eqb_spec v (IDT_DESC_CNT - 1)) as [->|]; [unfold IDT_DESC_CNT in Hv; lia|].
    split; [apply Hd; [unfold IDT_DESC_CNT; lia | done]|]. split.
    { clear -Ee Ht Hv He. subst entries. unfold znth in *. destruct (Z.ltb_spec v 0x30), (Z.ltb_spec v 0), (Z.ltb_spec (v - 0x30) 0); try lia.
      - by rewrite lookup_app_l in He by lia.
      - rewrite lookup_app_r in He by lia. by replace (Z.to_nat (v - 0x30)) with (Z.to_nat v - length table)%nat by lia. }
    split; [|by repeat split]. apply gate_roundtrip.
    rewrite Forall_forall in Hent. apply Hent. apply list_elem_of_lookup. exists (Z.to_nat v). unfold znth in He. by destruct (v <? 0).
  - eexists. rewrite znth_insert by (rewrite Hl; done). split; [done|]. split; [by apply gate_roundtrip | by repeat split].
  - by rewrite length_insert.
  - rewrite length_insert, Hl, (u32_small addr) by done. by rewrite lor_shift.
  - intros v Hv. unfold znth. destruct (Z.ltb_spec v 0); [lia|]. apply lookup_replicate. split; [done | lia].
  - intros irq Hi. destruct pics0 as [[] []]. assert (irq = 0 \/ irq = 1 \/ irq = 2 \/ irq = 3 \/ irq = 4 \/ irq = 5 \/ irq = 6 \/ irq = 7 \/ irq = 8
      \/ irq = 9 \/ irq = 10 \/ irq = 11 \/ irq = 12 \/ irq = 13 \/ irq = 14 \/ irq = 15) as Hcase by lia.
    repeat (destruct Hcase as [->|Hcase]; [reflexivity|]). by rewrite Hcase.
Qed.

End init.

(** A handler registered is the one behind its vector, and the others stay. *)
Lemma register_handler_ok t v f : zlen t = IDT_DESC_CNT -> 0 <= v < IDT_DESC_CNT ->
  exists t', register_handler t v f = Ok t' /\ znth t' v = Some f /\ forall w, w <> v -> znth t' w = znth t w.
Proof.
  intros Hl Hv. unfold register_handler. rewrite wr_in by lia. eexists; split; [done|]. split; [by rewrite znth_insert, Z.eqb_refl by lia|].
  intros w Hw. rewrite znth_insert by lia. by rewrite (proj2 (Z.eqb_neq w v)).
Qed.

(** After [tss_init] the task register names a present, available TSS of level 0
    at the address of [tss], the user's selectors name flat segments of 4 GB and level
    3, code and writable data, and the kernel's stack selector is set. But the limit of
    the TSS is counted in pages of 4 KB, so that [io_base], set to its size in order
    that there be no I/O bitmap, lies within it: there is one, in what follows [tss]. *)
Theorem tss_init_spec addr gdt0 : 0 <= addr < 2 ^ 32 ->
  exists t c d, descriptor (tss_init addr gdt0) (tr (tss_init addr gdt0)) = Some t /\ seg_base t = addr /\ seg_present t = true /\ seg_dpl t = 0 /\ seg_type t = 9
    /\ descriptor (tss_init addr gdt0) Process.SELECTOR_U_CODE = Some c /\ seg_base c = 0 /\ seg_limit c = 2 ^ 32 - 1 /\ seg_dpl c = 3 /\ seg_type c = 0x18 /\ seg_present c = true
    /\ descriptor (tss_init addr gdt0) Process.SELECTOR_U_DATA = Some d /\ seg_base d = 0 /\ seg_limit d = 2 ^ 32 - 1 /\ seg_dpl d = 3 /\ seg_type d = 0x12 /\ seg_present d = true
    /\ ss0 (the_tss (tss_init addr gdt0)) = SELECTOR_K_STACK
    /\ seg_limit t = SIZEOF_TSS * 4096 - 1 /\ has_io_bitmap (the_tss (tss_init addr gdt0)) t = true.
Proof.
  intros Ha. destruct (segment_roundtrip addr (SIZEOF_TSS - 1) TSS_ATTR_LOW 8) as (T1 & _ & T2 & T3 & T4 & T5); [done | by vm_compute..|].
  exists (make_gdt_desc addr (SIZEOF_TSS - 1) TSS_ATTR_LOW (8 * 16)), (make_gdt_desc 0 0xfffff GDT_CODE_ATTR_LOW_DPL3 GDT_ATTR_HIGH), (make_gdt_desc 0 0xfffff GDT_DATA_ATTR_LOW_DPL3 GDT_ATTR_HIGH).
  assert (forall sel, descriptor (tss_init addr gdt0) sel = gdt (tss_init addr gdt0) !! (0xc0000900 + 8 * Z.shiftr sel 3)) as Hd by done.
  rewrite T1, T2, T3, T4, T5, !Hd. unfold has_io_bitmap. rewrite T2. split_and!; try reflexivity.
  - cbn. rewrite lookup_insert_ne, lookup_insert_ne, lookup_insert_eq by done. reflexivity.
  - cbn. rewrite lookup_insert_ne, lookup_insert_eq by done. reflexivity.
  - cbn. rewrite lookup_insert_eq. reflexivity.
Qed.

(** ** Witnesses *)

Definition no_gate : gate_desc := mk_gate 0 0 0 0 0.

Example idt_init_witness : exists s g, idt_init (replicate 48 0xc0001500 ++ replicate 81 7) 0xc0002000 0xc0003000 0xc0009000 (replicate 129 no_gate) (mk_pic 0 0 0 0, mk_pic 0 0 0 0) = Ok s
  /\ irq_vector (pics s) 14 = Some 0x2e /\ znth (idt s) 0x2e = Some g /\ gate_offset g = 0xc0001500.
Proof.
  destruct (idt_init_spec (replicate 48 0xc0001500 ++ replicate 81 7) 0xc0002000 (replicate 129 no_gate) eq_refl 0xc0003000 0xc0009000 (mk_pic 0 0 0 0, mk_pic 0 0 0 0)
    (replicate 48 0xc0001500) (replicate 81 7) eq_refl eq_refl)
    as (s & E & Hg & _ & _ & _ & _ & Hv); [by vm_compute | apply Forall_app; split; apply Forall_replicate; lia | lia | lia |].
  destruct (Hg 0x2e ltac:(lia)) as (g & e & Hg1 & He & Ho & _). exists s, g. split; [exact E|]. split; [exact (Hv 14 ltac:(lia))|].
  split; [exact Hg1|]. rewrite Ho. cbn in He. injection He as <-. reflexivity.
Defined.

Example tss_init_witness : exists t, descriptor (tss_init 0xc0008000 ∅) SELECTOR_TSS = Some t /\ has_io_bitmap (the_tss (tss_init 0xc0008000 ∅)) t = true.
Proof.
  destruct (tss_init_spec 0xc0008000 ∅ ltac:(lia)) as (t & c & d & Ht & _ & _ & _ & _ & _ & _ & _ & _ & _ & _ & _ & _ & _ & _ & _ & _ & _ & _ & Hio).
  exists t. split; [exact Ht | exact Hio].
Defined.
