(* ===== verification/Syscall.v ===== *)
(** lib/user/syscall.c, userprog/syscall-init.c, kernel/kernel.S: the way of a system
    call from its stub in the user library, through registers and the table, to the
    routine of the kernel, and of its result back. *)
From S2P Require Import Prelude.
From S2P Require Import Process.

(** ** Numbers (lib/user/syscall.h) *)

Inductive SYSCALL_NR :=
  | SYS_GETPID | SYS_WRITE | SYS_MALLOC | SYS_FREE | SYS_FORK | SYS_READ | SYS_PUTCHAR | SYS_CLEAR
  | SYS_GETCWD | SYS_OPEN | SYS_CLOSE | SYS_LSEEK | SYS_UNLINK | SYS_MKDIR | SYS_OPENDIR | SYS_CLOSEDIR
  | SYS_CHDIR | SYS_RMDIR | SYS_READDIR | SYS_REWINDDIR | SYS_STAT | SYS_PS | SYS_EXECV | SYS_EXIT
  | SYS_WAIT | SYS_PIPE | SYS_FD_REDIRECT | SYS_HELP.

(** The enumeration counts from 0. *)
Definition all_nr : list SYSCALL_NR :=
  [SYS_GETPID; SYS_WRITE; SYS_MALLOC; SYS_FREE; SYS_FORK; SYS_READ; SYS_PUTCHAR; SYS_CLEAR;
   SYS_GETCWD; SYS_OPEN; SYS_CLOSE; SYS_LSEEK; SYS_UNLINK; SYS_MKDIR; SYS_OPENDIR; SYS_CLOSEDIR;
   SYS_CHDIR; SYS_RMDIR; SYS_READDIR; SYS_REWINDDIR; SYS_STAT; SYS_PS; SYS_EXECV; SYS_EXIT;
   SYS_WAIT; SYS_PIPE; SYS_FD_REDIRECT; SYS_HELP].

#[export] Instance nr_eq_dec : EqDecision SYSCALL_NR.
Proof. solve_decision. Defined.

Definition number (n : SYSCALL_NR) : Z := default 0 (Z.of_nat ∘ fst <$> list_find (fun m => m = n) all_nr).

(** ** The kernel's routines *)

Inductive routine :=
  | sys_getpid | sys_write | sys_malloc | sys_free | sys_fork | sys_read | sys_putchar | cls_screen
  | sys_getcwd | sys_open | sys_close | sys_lseek | sys_unlink | sys_mkdir | sys_opendir | sys_closedir
  | sys_chdir | sys_rmdir | sys_readdir | sys_rewinddir | sys_stat | sys_ps | sys_execv | sys_exit
  | sys_wait | sys_pipe | sys_fd_redirect | sys_help.

Definition syscall_nr : Z := 32.

(** [syscall_table[n] = f], on a table of null pointers. *)
Definition syscall_init : list (option routine) :=
  fold_left (fun t e => <[Z.to_nat (number (fst e)) := Some (snd e)]> t)
    [(SYS_GETPID, sys_getpid); (SYS_WRITE, sys_write); (SYS_MALLOC, sys_malloc); (SYS_FREE, sys_free);
     (SYS_FORK, sys_fork); (SYS_READ, sys_read); (SYS_PUTCHAR, sys_putchar); (SYS_CLEAR, cls_screen);
     (SYS_GETCWD, sys_getcwd); (SYS_OPEN, sys_open); (SYS_CLOSE, sys_close); (SYS_LSEEK, sys_lseek);
     (SYS_UNLINK, sys_unlink); (SYS_MKDIR, sys_mkdir); (SYS_OPENDIR, sys_opendir); (SYS_CLOSEDIR, sys_closedir);
     (SYS_CHDIR, sys_chdir); (SYS_RMDIR, sys_rmdir); (SYS_READDIR, sys_readdir); (SYS_REWINDDIR, sys_rewinddir);
     (SYS_STAT, sys_stat); (SYS_PS, sys_ps); (SYS_EXECV, sys_execv); (SYS_EXIT, sys_exit);
     (SYS_WAIT, sys_wait); (SYS_PIPE, sys_pipe); (SYS_FD_REDIRECT, sys_fd_redirect); (SYS_HELP, sys_help)]

    (replicate (Z.to_nat syscall_nr) None).

(** ** The stubs *)

Record regs := mk_regs { eax : Z; ebx : Z; ecx : Z; edx : Z }.

(** [int 0x80] with the registers the constraints name; the others are what they were. *)
Definition _syscall0 (r : regs) (NUMBER : SYSCALL_NR) : regs := mk_regs (number NUMBER) (ebx r) (ecx r) (edx r).
Definition _syscall1 (r : regs) (NUMBER : SYSCALL_NR) (ARG1 : Z) : regs := mk_regs (number NUMBER) (u32 ARG1) (ecx r) (edx r).
Definition _syscall2 (r : regs) (NUMBER : SYSCALL_NR) (ARG1 ARG2 : Z) : regs := mk_regs (number NUMBER) (u32 ARG1) (u32 ARG2) (edx r).
Definition _syscall3 (r : regs) (NUMBER : SYSCALL_NR) (ARG1 ARG2 ARG3 : Z) : regs := mk_regs (number NUMBER) (u32 ARG1) (u32 ARG2) (u32 ARG3).

(** A call of the user library, with its arguments. *)
Inductive user_call :=
  | getpid_
  | write_ (fd buf count : Z)
  | malloc_ (size : Z)
  | free_ (ptr : Z)
  | fork_
  | read_ (fd buf count : Z)
  | putchar_ (char_asci : Z)
  | clear_
  | getcwd_ (buf size : Z)
  | open_ (pathname flag : Z)
  | close_ (fd : Z)
  | lseek_ (fd offset whence : Z)
  | unlink_ (pathname : Z)
  | mkdir_ (pathname : Z)
  | opendir_ (name : Z)
  | closedir_ (dir : Z)
  | chdir_ (path : Z)
  | rmdir_ (pathname : Z)
  | readdir_ (dir : Z)
  | rewinddir_ (dir : Z)
  | stat_ (path buf : Z)
  | ps_
  | execv_ (pathname argv : Z)
  | exit_ (status : Z)
  | wait_ (status : Z)
  | pipe_ (pipefd : Z)
  | fd_redirect_ (old_local_fd new_local_fd : Z)
  | help_.

Definition stub (r : regs) (c : user_call) : regs :=
  match c with
  | getpid_ => _syscall0 r SYS_GETPID
  | write_ fd buf count => _syscall3 r SYS_WRITE fd buf count
  | malloc_ size => _syscall1 r SYS_MALLOC size
  | free_ ptr => _syscall1 r SYS_FREE ptr
  | fork_ => _syscall0 r SYS_FORK
  | read_ fd buf count => _syscall3 r SYS_READ fd buf count
  | putchar_ char_asci => _syscall1 r SYS_PUTCHAR char_asci
  | clear_ => _syscall0 r SYS_CLEAR
  | getcwd_ buf size => _syscall2 r SYS_GETCWD buf size
  | open_ pathname flag => _syscall2 r SYS_OPEN pathname flag
  | close_ fd => _syscall1 r SYS_CLOSE fd
  | lseek_ fd offset whence => _syscall3 r SYS_LSEEK fd offset whence
  | unlink_ pathname => _syscall1 r SYS_UNLINK pathname
  | mkdir_ pathname => _syscall1 r SYS_MKDIR pathname
  | opendir_ name => _syscall1 r SYS_OPENDIR name
  | closedir_ dir => _syscall1 r SYS_CLOSEDIR dir
  | chdir_ path => _syscall1 r SYS_CHDIR path
  | rmdir_ pathname => _syscall1 r SYS_RMDIR pathname
  | readdir_ dir => _syscall1 r SYS_READDIR dir
  | rewinddir_ dir => _syscall1 r SYS_REWINDDIR dir
  | stat_ path buf => _syscall2 r SYS_STAT path buf
  | ps_ => _syscall0 r SYS_PS
  | execv_ pathname argv => _syscall2 r SYS_EXECV pathname argv
  | exit_ status => _syscall1 r SYS_EXIT status
  | wait_ status => _syscall1 r SYS_WAIT status
  | pipe_ pipefd => _syscall1 r SYS_PIPE pipefd
  | fd_redirect_ old_local_fd new_local_fd => _syscall2 r SYS_FD_REDIRECT old_local_fd new_local_fd
  | help_ => _syscall0 r SYS_HELP
  end.

(** [pid_t] is the low half of what comes back; the others return [eax] as it is. *)
Definition stub_result (c : user_call) (eax : Z) : Z :=
  match c with fork_ | wait_ _ => s16 eax | _ => eax end.

(** ** The handler *)

(** Its arguments are the three words it pushed; the number is not checked. *)
Definition syscall_handler (table : list (option routine)) (r : regs) : outcome (routine * list Z) :=
  let! f := rd table (eax r) in
  match f with Some f => Ok (f, [ebx r; ecx r; edx r]) | None => Err BadAccess end.

(** The saved context as the words of its stack, and [mov [esp + 8*4], eax]. *)
Definition context_words (c : intr_stack) : list Z :=
  [is_vec_no c; is_edi c; is_esi c; is_ebp c; is_esp_dummy c; is_ebx c; is_edx c; is_ecx c; is_eax c;
   is_gs c; is_fs c; is_es c; is_ds c; is_err_code c; is_eip c; is_cs c; is_eflags c; is_esp c; is_ss c].

Definition handler_return (c : list Z) (result : Z) : outcome (list Z) := wr c 8 result.

(** ** What the calls mean *)

(** The routine of the same name, and the arguments it is to see. *)
Definition meaning (c : user_call) : routine * list Z :=
  match c with
  | getpid_ => (sys_getpid, [])
  | write_ fd buf count => (sys_write, [u32 fd; u32 buf; u32 count])
  | malloc_ size => (sys_malloc, [u32 size])
  | free_ ptr => (sys_free, [u32 ptr])
  | fork_ => (sys_fork, [])
  | read_ fd buf count => (sys_read, [u32 fd; u32 buf; u32 count])
  | putchar_ char_asci => (sys_putchar, [u32 char_asci])
  | clear_ => (cls_screen, [])
  | getcwd_ buf size => (sys_getcwd, [u32 buf; u32 size])
  | open_ pathname flag => (sys_open, [u32 pathname; u32 flag])
  | close_ fd => (sys_close, [u32 fd])
  | lseek_ fd offset whence => (sys_lseek, [u32 fd; u32 offset; u32 whence])
  | unlink_ pathname => (sys_unlink, [u32 pathname])
  | mkdir_ pathname => (sys_mkdir, [u32 pathname])
  | opendir_ name => (sys_opendir, [u32 name])
  | closedir_ dir => (sys_closedir, [u32 dir])
  | chdir_ path => (sys_chdir, [u32 path])
  | rmdir_ pathname => (sys_rmdir, [u32 pathname])
  | readdir_ dir => (sys_readdir, [u32 dir])
  | rewinddir_ dir => (sys_rewinddir, [u32 dir])
  | stat_ path buf => (sys_stat, [u32 path; u32 buf])
  | ps_ => (sys_ps, [])
  | execv_ pathname argv => (sys_execv, [u32 pathname; u32 argv])
  | exit_ status => (sys_exit, [u32 status])
  | wait_ status => (sys_wait, [u32 status])
  | pipe_ pipefd => (sys_pipe, [u32 pipefd])
  | fd_redirect_ old_local_fd new_local_fd => (sys_fd_redirect, [u32 old_local_fd; u32 new_local_fd])
  | help_ => (sys_help, [])
  end.

(** Every stub reaches the routine of its name with its arguments in order: numbers,
    table and registers agree. *)
Lemma stub_reaches r c : exists args, syscall_handler syscall_init (stub r c) = Ok (fst (meaning c), args)
  /\ take (length (snd (meaning c))) args = snd (meaning c).
Proof. destruct c; eexists; by split. Qed.

(** The result arrives in [eax], and nothing else of the context changes. *)
Lemma handler_return_ok c v : handler_return (context_words c) v = Ok (context_words
  (mk_intr (is_vec_no c) (is_edi c) (is_esi c) (is_ebp c) (is_esp_dummy c) (is_ebx c) (is_edx c) (is_ecx c) v
     (is_gs c) (is_fs c) (is_es c) (is_ds c) (is_err_code c) (is_eip c) (is_cs c) (is_eflags c) (is_esp c) (is_ss c))).
Proof. reflexivity. Qed.

(** Any other number makes the kernel call a null pointer or what follows the table. *)
Lemma wrong_number r : 0 <= eax r < 2 ^ 32 -> 28 <= eax r -> syscall_handler syscall_init r = Err BadAccess.
Proof.
  intros Hr Hn. unfold syscall_handler. destruct (Z.lt_ge_cases (eax r) 32) as [Hlt|Hge]; [|by rewrite rd_out by (right; exact Hge)].
  assert (eax r = 28 \/ eax r = 29 \/ eax r = 30 \/ eax r = 31) as [->|[->|[->| ->]]] by lia; reflexivity.
Qed.
