(* ===== verification/Printf.v ===== *)
(** lib/stdio.c's [sprintf] and [printf], and lib/kernel/stdio-kernel.c's [printk],
    over buffers that are lists: what [vsprintf] of Stdio.v does, for callers
    whose memory is modelled by lists. *)
From Stdlib Require Import String Ascii.
From S2P Require Import Prelude Cstring Stdio Path.

(** The characters of a literal of the source. *)
Definition txt (s : string) : list Z := map (fun c => Z.of_nat (nat_of_ascii c)) (list_ascii_of_string s).

(** The arguments behind a format: a string, a character, a 32-bit word. *)
Inductive arg := AStr (s : list Z) | AChar (b : Z) | AInt (a : Z).

(** What [vsprintf] writes for one conversion, with whether [strcpy] ends it. *)
Definition convert (t : Z) (a : arg) : option (list Z * bool) :=
  match a with
  | AStr s => if t =? ch_s then Some (s, true) else None
  | AChar b => if t =? ch_c then Some ([u8 b], false) else None
  | AInt a => if t =? ch_d then Some ((if s32 a <? 0 then [ch_minus] else []) ++ ascii_of 10 (Z.abs (s32 a)), false)
              else if t =? ch_x then Some (ascii_of 16 (u32 a), false) else None
  end.

(** [vsprintf] at position [pos] of [buf]; other conversions are not used by the
    callers modelled. Only [strcpy] writes a terminator. *)
Fixpoint put_format (buf : list Z) (pos : Z) (fmt : list Z) (args : list arg) : outcome (list Z) :=
  match fmt with
  | [] => Ok buf
  | c :: fmt =>
      if negb (c =? ch_percent) then let! buf := wr buf pos c in put_format buf (pos + 1) fmt args
      else match fmt, args with
           | t :: fmt, a :: args =>
               match convert t a with
               | Some (out, ends) =>
                   let! buf := splice buf pos (out ++ if (ends : bool) then [0] else []) in
                   put_format buf (pos + zlen out) fmt args
               | None => Err BadAccess
               end
           | _, _ => Err BadAccess
           end
  end.

(** [sprintf]: the buffer and [strlen] of it. *)
Definition sprintf (buf fmt : list Z) (args : list arg) : outcome (list Z * Z) :=
  let! buf := put_format buf 0 fmt args in
  let! n := c_strlen buf in
  Ok (buf, n).

(** [printf] and [printk]: the text handed to [write] or [console_put_str]. *)
Definition printf (fmt : list Z) (args : list arg) : outcome (list Z) :=
  let! buf := put_format (replicate 1024 0) 0 fmt args in c_string buf.
Definition printk := printf.

(** [user_spin] of lib/user/assert.c, up to its loop. *)
Definition user_spin (filename : list Z) (line : Z) (func condition : list Z) : outcome (list Z) :=
  printf ([10; 10; 10; 10] ++ txt "filename %s" ++ [10] ++ txt "line %d" ++ [10] ++ txt "function %s" ++ [10] ++ txt "condition %s" ++ [10])
    [AStr filename; AInt line; AStr func; AStr condition].

(** ** Specification *)

(** The text of a format. *)
Fixpoint format_text (fmt : list Z) (args : list arg) : option (list Z) :=
  match fmt with
  | [] => Some []
  | c :: fmt =>
      if negb (c =? ch_percent) then out ← format_text fmt args; Some (c :: out)
      else match fmt, args with
           | t :: fmt, a :: args => x ← convert t a; out ← format_text fmt args; Some (fst x ++ out)
           | _, _ => None
           end
  end.

(** The arguments in memory behind [ap], where [vsprintf] finds them. *)
Fixpoint args_at (m : mem) (str n ap : Z) (args : list arg) : Prop :=
  match args with
  | [] => True
  | a :: args =>
      match a with
      | AStr s => exists p, load32 m (ap + 4) = Ok p /\ apart str n (ap + 4) 4 /\ cstr m p s /\ apart str n p (zlen s + 1)
      | AChar b => load m (ap + 4) = Ok b /\ apart str n (ap + 4) 1 /\ is_char b
      | AInt a => load32 m (ap + 4) = Ok a /\ apart str n (ap + 4) 4
      end /\ args_at m str n (ap + 4) args
  end.

(** [format_text] is what [vsprintf_spec] says [vsprintf] writes. *)
Lemma format_text_renders m str n args : forall fmt ap out, args_at m str n ap args -> format_text fmt args = Some out ->
  renders m str n fmt ap out.
Proof.
  intros fmt. remember (length fmt) as len eqn:Hlen. assert (length fmt <= len)%nat as Hle by lia. clear Hlen.
  revert fmt Hle args. induction len as [|len IH]; intros [|c fmt] Hle args ap out Ha E; cbn [length] in Hle; try lia.
  - injection E as <-. constructor.
  - injection E as <-. constructor.
  - cbn [format_text] in E. destruct (Z.eqb_spec c ch_percent) as [->|Hc]; cbn [negb] in E.
    + destruct fmt as [|t fmt], args as [|a args]; try discriminate. cbn [length] in Hle. destruct Ha as [Ha Har].
      destruct (convert t a) as [[o ends]|] eqn:Ec; [|discriminate]. cbn in E. destruct (format_text fmt args) as [out'|] eqn:Ef; [|discriminate].
      injection E as <-. pose proof (IH fmt ltac:(lia) args (ap + 4) out' Har Ef) as Hr. destruct a as [s|b|a]; cbn [convert] in Ec.
      * destruct (Z.eqb_spec t ch_s) as [->|]; [|discriminate]. injection Ec as <- <-. destruct Ha as (p & ? & ? & ? & ?). by eapply renders_s.
      * destruct (Z.eqb_spec t ch_c) as [->|]; [|discriminate]. injection Ec as <- <-. destruct Ha as (? & ? & Hb).
        rewrite u8_small by (unfold is_char in Hb; lia). by apply renders_c.
      * destruct Ha. destruct (Z.eqb_spec t ch_d) as [->|]; [injection Ec as <- <-; cbn [fst]; rewrite <- app_assoc; by apply renders_d|].
        destruct (Z.eqb_spec t ch_x) as [->|]; [|discriminate]. injection Ec as <- <-. by apply renders_x.
    + destruct (format_text fmt args) as [out'|] eqn:Ef; [|discriminate]. injection E as <-. apply renders_char; [done|]. by apply (IH fmt ltac:(lia) args).
Qed.

(** ** Lists *)

(** A buffer cleared from [pos] on. *)
Lemma put_format_ok fmt : forall args out l k, format_text fmt args = Some out -> zlen out < Z.of_nat k ->
  put_format (l ++ replicate k 0) (zlen l) fmt args = Ok (l ++ out ++ replicate (k - length out) 0).
Proof.
  remember (length fmt) as len eqn:Hlen. assert (length fmt <= len)%nat as Hle by lia. clear Hlen.
  revert fmt Hle. induction len as [|len IH]; intros [|c fmt] Hle args out l k E Hk; cbn [length] in Hle; try lia.
  - injection E as <-. cbn. by rewrite Nat.sub_0_r.
  - injection E as <-. cbn. by rewrite Nat.sub_0_r.
  - cbn [format_text] in E. cbn [put_format]. destruct (Z.eqb_spec c ch_percent) as [->|Hc]; cbn [negb] in *.
    + destruct fmt as [|t fmt], args as [|a args]; try discriminate. cbn [length] in Hle.
      destruct (convert t a) as [[o ends]|] eqn:Ec; [|discriminate]. cbn in E. destruct (format_text fmt args) as [out'|] eqn:Ef; [|discriminate].
      injection E as <-. rewrite length_app in Hk. unfold splice.
      assert (zlen (o ++ if ends then [0] else []) <= zlen o + 1) as Hl1 by (rewrite length_app; destruct ends; cbn; lia).
      rewrite (length_app l), length_replicate. destruct (Z.leb_spec 0 (zlen l)); [|lia].
      destruct (Z.leb_spec (zlen l + zlen (o ++ if ends then [0] else [])) (Z.of_nat (length l + k))); [|lia]. cbn [andb obind].
      rewrite Nat2Z.id, take_app_length. rewrite <- drop_drop, drop_app_length, drop_replicate.
      replace (l ++ (o ++ (if ends then [0] else [])) ++ replicate (k - length (o ++ (if ends then [0] else []))) 0)
        with ((l ++ o) ++ replicate (k - length o) 0).
      * replace (zlen l + zlen o) with (zlen (l ++ o)) by (rewrite length_app; lia). rewrite (IH fmt) with (out := out') by (done || lia).
        rewrite length_app, <- !app_assoc. do 5 f_equal. lia.
      * rewrite <- !app_assoc. do 2 f_equal. rewrite length_app. destruct ends; cbn [app length]; [|by rewrite Nat.add_0_r].
        replace (k - length o)%nat with (S (k - (length o + 1))) by lia. done.
    + destruct (format_text fmt args) as [out'|] eqn:Ef; [|discriminate]. injection E as <-. cbn [length] in Hk.
      rewrite wr_in by (rewrite length_app, length_replicate; lia). cbn [obind]. rewrite Nat2Z.id, insert_app_r_alt, Nat.sub_diag by lia.
      destruct k as [|k]; [lia|]. cbn [replicate insert list_insert]. replace (l ++ c :: replicate k 0) with ((l ++ [c]) ++ replicate k 0) by (by rewrite <- app_assoc).
      replace (zlen l + 1) with (zlen (l ++ [c])) by (rewrite length_app; cbn; lia). rewrite (IH fmt) with (out := out') by (done || lia).
      cbn [length]. rewrite <- app_assoc. done.
Qed.

(** [printf] of a text that fits its buffer. *)
Lemma printf_ok fmt args out : format_text fmt args = Some out -> zlen out < 1024 -> (0 ∉ out) -> printf fmt args = Ok out.
Proof.
  intros E Hl Hz. unfold printf. pose proof (put_format_ok fmt args out [] 1024 E ltac:(lia)) as Hp. cbn [app length] in Hp. change (Z.of_nat 0) with 0 in Hp. rewrite Hp. cbn [obind].
  destruct (1024 - length out)%nat as [|k] eqn:Ek; [lia|]. cbn [replicate]. by apply c_string_ok.
Qed.
