(* ===== verification/Screen.v ===== *)
(** lib/kernel/print.S: the text screen. The assembly is translated with its 16-bit
    registers: [video] are the 4000 bytes of video memory that are shown, a character
    and its attribute for each of 25 rows of 80; [cursor] is what the ports of the
    display hold. Also [panic_spin] of kernel/debug.c, which prints on it. *)
From Stdlib Require Import String.
From S2P Require Import Prelude Thread Path Printf.
From S2P Require Stdio.
Local Open Scope Z_scope.

(** ** The code *)

Record vga := mk_vga { video : list Z; cursor : Z }.

(** A character and its attribute at offset [off]. *)
Definition put_cell (v : list Z) (off c : Z) : outcome (list Z) :=
  let! v := wr v off c in wr v (u16 (off + 1)) 0x07.

Definition roll_screen (v : list Z) : outcome vga :=
  let! moved := slice v 160 3840 in
  let! v := splice v 0 moved in
  let! v := splice v 3840 (concat (replicate 80 [0x20; 0x07])) in
  Ok (mk_vga v 1920).

(** [.is_line_feed]: both a line feed and a carriage return. *)
Definition line_feed (v : list Z) (bx : Z) : outcome vga :=
  let bx := u16 (bx - bx mod 80 + 80) in
  if s16 bx <? 2000 then Ok (mk_vga v bx) else roll_screen v.

Definition put_char (s : vga) (c : Z) : outcome vga :=
  let bx := cursor s in
  let cl := u8 c in
  if (cl =? 0xd) || (cl =? 0xa) then line_feed (video s) bx else
  if cl =? 0x8 then
    let off := u16 (2 * u16 (bx - 1)) in
    let! v := put_cell (video s) off 0x20 in
    Ok (mk_vga v (Z.shiftr (u16 (off + 1)) 1))
  else
    let off := u16 (2 * bx) in
    let! v := put_cell (video s) off cl in
    let bx := u16 (Z.shiftr (u16 (off + 1)) 1 + 1) in
    if s16 bx <? 2000 then Ok (mk_vga v bx) else line_feed v bx.

Fixpoint put_chars (s : vga) (l : list Z) : outcome vga :=
  match l with [] => Ok s | c :: l => let! s := put_char s c in put_chars s l end.

Definition put_str (s : vga) (str : list Z) : outcome vga := let! l := c_string str in put_chars s l.

(** [set_cursor], and [cls_screen] on a screen of 2000 cells. *)
Definition set_cursor (s : vga) (pos : Z) : vga := mk_vga (video s) (u16 pos).

Definition cls_screen (s : vga) : outcome vga :=
  let! v := splice (video s) 0 (concat (replicate (80 * 25) [0x20; 0x07])) in Ok (mk_vga v 0).

(** [put_int]: the eight digits of the buffer, without the zeros in front. *)
Definition hex_char (d : Z) : Z := if 9 <? d then d - 10 + 65 else d + 48.
Definition put_int_buffer (n : Z) : list Z :=
  map (fun i => hex_char (Z.land (Z.shiftr (u32 n) (4 * i)) 0xf)) [7; 6; 5; 4; 3; 2; 1; 0].

Fixpoint skip_prefix_0 (l : list Z) : list Z :=
  match l with [] => [48] | c :: l => if c =? 48 then skip_prefix_0 l else c :: l end.

Definition put_int_text (n : Z) : list Z := skip_prefix_0 (put_int_buffer n).
Definition put_int (s : vga) (n : Z) : outcome vga := put_chars s (put_int_text n).

(** [panic_spin], up to the loop it ends in. *)
Definition panic_spin (k : kstate) (s : vga) (filename : list Z) (line : Z) (func condition : list Z) : outcome (kstate * vga) :=
  let k := snd (intr_disable k) in
  let! s := put_chars s (txt "Something wrong...") in
  let! s := put_chars s (txt "FileName: ") in
  let! s := put_str s filename in
  let! s := put_char s 10 in
  let! s := put_chars s (txt "Line: ") in
  let! s := put_int s line in
  let! s := put_char s 10 in
  let! s := put_chars s (txt "Function: ") in
  let! s := put_str s func in
  let! s := put_char s 10 in
  let! s := put_chars s (txt "Condition: ") in
  let! s := put_str s condition in
  let! s := put_char s 10 in
  Ok (k, s).

(** ** Specification: a terminal *)

(** The rows finished so far, of which the first [scrolled] have left the screen, and the
    row being written. *)
Record term := mk_term { scrolled : nat; rows : list (list Z); row : list Z }.

(** The rows above the one being written; there is room for 24. *)
Definition shown_before (t : term) : list (list Z) := drop (scrolled t) (rows t).

(** A row filled up with blanks. *)
Definition pad (r : list Z) : list Z := r ++ replicate (80 - List.length r) 32.

Definition push (t : term) (r : list Z) : term :=
  mk_term (if (List.length (shown_before t) <? 24)%nat then scrolled t else S (scrolled t)) (rows t ++ [r]) [].

(** A row ends with a line feed, or when it is full. A backspace takes back the last
    character of the row, and at the start of a row the last cell of the row above it,
    which is then the row being written; above the first row on the screen there is none. *)
Definition feed (t : term) (c : Z) : option term :=
  if (u8 c =? 0xd) || (u8 c =? 0xa) then Some (push t (row t))
  else if u8 c =? 0x8 then
    match row t with
    | [] => match shown_before t with
            | [] => None
            | _ => Some (mk_term (scrolled t) (removelast (rows t)) (take 79 (pad (default [] (last (rows t))))))
            end
    | _ => Some (mk_term (scrolled t) (rows t) (removelast (row t)))
    end
  else
    let r := row t ++ [u8 c] in
    Some (if (List.length r <? 80)%nat then mk_term (scrolled t) (rows t) r else push t r).

Fixpoint feed_all (t : term) (l : list Z) : option term :=
  match l with [] => Some t | c :: l => t ← feed t c; feed_all t l end.

(** The screen: the rows above, the one being written, and blank rows below. *)
Definition grid (t : term) : list Z :=
  concat (map pad (shown_before t)) ++ pad (row t) ++ replicate (80 * (24 - List.length (shown_before t))) 32.

Definition cells (g : list Z) : list Z := concat (map (fun c => [c; 0x07]) g).

Record shows (s : vga) (t : term) : Prop := {
  sh_video : video s = cells (grid t);
  sh_cursor : cursor s = 80 * zlen (shown_before t) + zlen (row t);
  sh_rows : Forall (fun r => (List.length r <= 80)%nat) (shown_before t);
  sh_fit : (scrolled t <= List.length (rows t))%nat /\ (List.length (shown_before t) <= 24)%nat;
  sh_row : (List.length (row t) < 80)%nat }.

(** ** Cells *)

Lemma cells_length g : List.length (cells g) = (2 * List.length g)%nat.
Proof. induction g as [|c g IH]; [done|]. change (cells (c :: g)) with (c :: 7 :: cells g). cbn [List.length]. lia. Qed.

Lemma cells_app g1 g2 : cells (g1 ++ g2) = cells g1 ++ cells g2.
Proof. unfold cells. by rewrite map_app, concat_app. Qed.

Lemma cells_replicate n c : cells (replicate n c) = concat (replicate n [c; 0x07]).
Proof. induction n as [|n IH]; [done|]. cbn. by f_equal; f_equal. Qed.

Lemma put_cell_ok g1 x g2 c : zlen (g1 ++ x :: g2) <= 2000 ->
  put_cell (cells (g1 ++ x :: g2)) (2 * zlen g1) c = Ok (cells (g1 ++ c :: g2)).
Proof.
  intros Hl. rewrite length_app in Hl. cbn [List.length] in Hl. unfold put_cell. rewrite !cells_app.
  assert (zlen (cells g1) = 2 * zlen g1) as E1 by (rewrite cells_length; lia).
  change (cells (x :: g2)) with (x :: 7 :: cells g2). change (cells (c :: g2)) with (c :: 7 :: cells g2).
  rewrite wr_in by (rewrite length_app; cbn [List.length]; lia). cbn [obind].
  rewrite insert_app_r_alt by lia. replace (Z.to_nat _ - _)%nat with 0%nat by lia. cbn [insert list_insert].
  rewrite u16_small by lia. rewrite wr_in by (rewrite length_app; cbn [List.length]; lia).
  rewrite insert_app_r_alt by lia. replace (Z.to_nat _ - _)%nat with 1%nat by lia. done.
Qed.

Lemma roll_ok g1 g2 : List.length g1 = 80%nat -> List.length g2 = 1920%nat ->
  roll_screen (cells (g1 ++ g2)) = Ok (mk_vga (cells (g2 ++ replicate 80 32)) 1920).
Proof.
  intros H1 H2. unfold roll_screen, slice. rewrite !cells_app, length_app, !cells_length, H1, H2. change (0 <=? 160) with true. change (0 <=? 3840) with true.
  change (160 + 3840 <=? Z.of_nat (2 * 80 + 2 * 1920)) with true. cbn [andb obind]. change (Z.to_nat 160) with (2 * 80)%nat. change (Z.to_nat 3840) with (2 * 1920)%nat.
  assert (List.length (cells g1) = (2 * 80)%nat) as E1 by (by rewrite cells_length, H1). assert (List.length (cells g2) = (2 * 1920)%nat) as E2 by (by rewrite cells_length, H2).
  rewrite <- E1 at 1. rewrite drop_app_length, take_ge by lia. rewrite splice_start by (rewrite length_app; lia). cbn [obind]. rewrite cells_replicate.
  set (b := concat (replicate 80 [32; 7])). assert (List.length b = 160%nat) as Eb by reflexivity. unfold splice.
  rewrite !length_app, length_drop, length_app, Eb, E1, E2. change (0 <=? 3840) with true. change (3840 + Z.of_nat 160 <=? _) with true. cbn [andb obind].
  do 3 f_equal. change (Z.to_nat 3840) with (2 * 1920)%nat. rewrite <- E2 at 1. rewrite take_app_length. f_equal. rewrite drop_ge; [by rewrite app_nil_r|].
  rewrite !length_app, length_drop, length_app. lia.
Qed.

(** ** The grid *)

Lemma pad_length r : (List.length r <= 80)%nat -> List.length (pad r) = 80%nat.
Proof. intros Hr. unfold pad. rewrite length_app, length_replicate. lia. Qed.

Lemma pad_nil : pad [] = replicate 80 32.
Proof. reflexivity. Qed.

Lemma pads_length l : Forall (fun r => (List.length r <= 80)%nat) l -> List.length (concat (map pad l)) = (80 * List.length l)%nat.
Proof.
  induction 1 as [|r l Hr Hl IH]; [done|]. cbn [map concat]. rewrite length_app, pad_length, IH by done. cbn [List.length]. lia.
Qed.

(** One row more on the screen, which then may lose its first. *)
Lemma push_shown t r : (scrolled t <= List.length (rows t))%nat ->
  shown_before (push t r) = if (List.length (shown_before t) <? 24)%nat then shown_before t ++ [r] else drop 1 (shown_before t ++ [r]).
Proof.
  intros Hs. unfold push, shown_before at 1. cbn [scrolled rows]. destruct (_ <? 24)%nat.
  - by rewrite drop_app_le by lia.
  - unfold shown_before. rewrite <- drop_app_le by lia. by rewrite drop_drop, Nat.add_1_r.
Qed.

(** The row [r] finished on the screen [v], which shows it below the others: the next
    row is still blank, or the screen rolls. *)
Lemma next_row v t r : Forall (fun r => (List.length r <= 80)%nat) (shown_before t) -> (scrolled t <= List.length (rows t))%nat ->
  (List.length (shown_before t) <= 24)%nat -> (List.length r <= 80)%nat ->
  v = cells (concat (map pad (shown_before t)) ++ pad r ++ replicate (80 * (24 - List.length (shown_before t))) 32) ->
  exists s, (if 80 * (zlen (shown_before t) + 1) <? 2000 then Ok (mk_vga v (80 * (zlen (shown_before t) + 1))) else roll_screen v) = Ok s
    /\ shows s (push t r).
Proof.
  intros Hrs Hsc H24 Hr ->. pose proof (push_shown t r Hsc) as E'. assert (scrolled (push t r) <= List.length (rows (push t r)))%nat as Hsc'.
  { unfold push; cbn [scrolled rows]. rewrite length_app; cbn [List.length]. destruct (_ <? 24)%nat; lia. }
  assert (Forall (fun r => (List.length r <= 80)%nat) (shown_before t ++ [r])) as Hrs' by (apply Forall_app; split; [done | by apply Forall_singleton]).
  set (sh := shown_before t) in *. destruct (Nat.ltb_spec (List.length sh) 24) as [Hlt|Hge].
  - replace (80 * (zlen sh + 1) <? 2000) with true by (symmetry; apply Z.ltb_lt; lia). eexists. split; [done|].
    split; rewrite ?E', ?length_app; cbn [video cursor row push List.length]; try (done || lia).
    unfold grid. rewrite E'. cbn [row push]. rewrite map_app, concat_app, length_app. cbn [map concat List.length].
    rewrite !app_nil_r, pad_nil, <- app_assoc, <- replicate_add. do 4 f_equal. lia.
  - replace (80 * (zlen sh + 1) <? 2000) with false by (symmetry; apply Z.ltb_ge; lia).
    assert (List.length sh = 24%nat) as Hn by lia. destruct sh as [|r0 rest] eqn:E; [done|]. cbn [map concat app drop] in *.
    apply Forall_cons in Hrs as [Hr0 Hrest]. apply Forall_cons in Hrs' as [_ Hrs']. cbn [List.length] in *. rewrite drop_0 in E'. replace (24 - S (List.length rest))%nat with 0%nat by lia.
    rewrite Nat.mul_0_r. cbn [replicate]. rewrite app_nil_r, <- app_assoc.
    rewrite roll_ok; [|by apply pad_length | rewrite length_app, pads_length, pad_length by done; lia].
    eexists. split; [done|]. split; rewrite ?E', ?length_app; cbn [video cursor row push List.length]; try (done || lia).
    unfold grid. rewrite E'. cbn [row push]. rewrite map_app, concat_app, length_app. cbn [map concat List.length].
    rewrite !app_nil_r, pad_nil. replace (24 - (List.length rest + 1))%nat with 0%nat by lia. rewrite Nat.mul_0_r. cbn [replicate]. by rewrite app_nil_r.
Qed.

(** The place of the cursor is in the row being written. *)
Lemma cursor_range s t : shows s t -> 0 <= cursor s < 2000 /\ cursor s mod 80 = zlen (row t) /\ zlen (shown_before t) <= 24.
Proof.
  intros [_ Hc _ [_ Hn] Hr]. rewrite Hc. split; [lia|]. split; [|lia].
  rewrite Z.mul_comm, Z.add_comm, Z.mod_add by lia. apply Z.mod_small. lia.
Qed.

Lemma shows_length s t : shows s t -> zlen (grid t) = 2000 /\ zlen (video s) = 4000.
Proof.
  intros [Hv _ Hrs [_ Hn] Hr]. rewrite Hv, cells_length. enough (List.length (grid t) = 2000%nat) by lia. unfold grid.
  rewrite !length_app, pads_length, pad_length, length_replicate by (done || lia). lia.
Qed.

(** The screen [v] shows the row [r] being written below the others; [x] is the cell
    behind it. *)
Definition under (t : term) (r : list Z) (x : Z) : list Z :=
  (concat (map pad (shown_before t)) ++ r) ++ x :: replicate (79 - List.length r) 32 ++ replicate (80 * (24 - List.length (shown_before t))) 32.

Lemma grid_under t : (List.length (row t) < 80)%nat -> grid t = under t (row t) 32.
Proof.
  intros Hr. unfold grid, under, pad. rewrite <- !app_assoc. do 2 f_equal.
  by replace (80 - List.length (row t))%nat with (S (79 - List.length (row t))) by lia.
Qed.

Lemma under_pad t r x : (List.length r < 80)%nat ->
  under t r x = concat (map pad (shown_before t)) ++ pad (r ++ [x]) ++ replicate (80 * (24 - List.length (shown_before t))) 32.
Proof.
  intros Hr. unfold under, pad. rewrite length_app. cbn [List.length]. rewrite <- !app_assoc. cbn [app]. do 4 f_equal. f_equal. lia.
Qed.

(** The cell behind [r] is written. *)
Lemma put_under t r x c : Forall (fun r => (List.length r <= 80)%nat) (shown_before t) -> (List.length (shown_before t) <= 24)%nat -> (List.length r < 80)%nat ->
  put_cell (cells (under t r x)) (2 * (80 * zlen (shown_before t) + zlen r)) c = Ok (cells (under t r c)).
Proof.
  intros Hrs Hn Hr. pose proof (pads_length _ Hrs) as Hpl. unfold under.
  replace (80 * zlen (shown_before t) + zlen r) with (zlen (concat (map pad (shown_before t)) ++ r)) by (rewrite length_app, Hpl; lia).
  apply put_cell_ok. rewrite !length_app, Hpl. cbn [List.length]. rewrite length_app, !length_replicate. lia.
Qed.

Lemma shift_cell n : Z.shiftr (2 * n + 1) 1 = n.
Proof. rewrite Z.shiftr_div_pow2 by lia. change (2 ^ 1) with 2. symmetry. apply (Z.div_unique _ _ _ 1); lia. Qed.

(** A backspace behind the cell [x]. *)
Lemma backspace_ok s t t' r x : shows s t -> row t' = r -> (List.length r < 80)%nat ->
  Forall (fun r => (List.length r <= 80)%nat) (shown_before t') -> (scrolled t' <= List.length (rows t'))%nat -> (List.length (shown_before t') <= 24)%nat ->
  grid t = under t' r x -> cursor s - 1 = 80 * zlen (shown_before t') + zlen r ->
  exists s', put_char s 8 = Ok s' /\ shows s' t'.
Proof.
  intros Hsh Hrow Hr Hrs Hsc Hn Hg Hc. pose proof (cursor_range s t Hsh) as (Hb & _). unfold put_char. change (u8 8) with 8. change ((8 =? 0xd) || (8 =? 0xa)) with false.
  change (8 =? 8) with true. cbn iota. rewrite (sh_video _ _ Hsh), Hg, Hc. rewrite (u16_small (80 * _ + _)), u16_small by lia. rewrite put_under by done. cbn [obind].
  eexists. split; [done|]. rewrite u16_small, shift_cell by lia. split; cbn [video cursor]; try done; [|by rewrite Hrow | by rewrite Hrow].
  by rewrite grid_under, Hrow by (by rewrite Hrow).
Qed.

Lemma put_char_u8 s c : put_char s (u8 c) = put_char s c.
Proof. unfold put_char. by rewrite (u8_small (u8 c)) by apply u8_range. Qed.

Lemma exists_last_or {A} (l : list A) : l = [] \/ exists l' x, l = l' ++ [x].
Proof. destruct l as [|x l _] using rev_ind; [by left | right; by exists l, x]. Qed.

(** The last row above, when there is one. *)
Lemma shown_last t sh r : (scrolled t <= List.length (rows t))%nat -> shown_before t = sh ++ [r] ->
  default [] (last (rows t)) = r /\ (forall l, shown_before (mk_term (scrolled t) (removelast (rows t)) l) = sh)
  /\ rows t <> [] /\ (scrolled t <= List.length (removelast (rows t)))%nat.
Proof.
  intros Hsc E. unfold shown_before in *. cbn [scrolled rows]. destruct (exists_last_or (rows t)) as [E0|(l & x & E0)]; rewrite E0 in *; [by rewrite drop_nil in E; destruct sh|].
  rewrite length_app in Hsc. cbn [List.length] in Hsc. assert (scrolled t <= List.length l)%nat as Hl.
  { destruct (decide (scrolled t = S (List.length l))) as [Es|]; [|lia]. rewrite drop_ge in E by (rewrite length_app; cbn [List.length]; lia). by destruct sh. }
  rewrite drop_app_le in E by done. apply app_inj_tail in E as [E1 ->]. rewrite last_snoc, removelast_last. split_and!; try done. by destruct l.
Qed.

Lemma pad_last r : (List.length r <= 80)%nat -> exists x, pad r = take 79 (pad r) ++ [x].
Proof.
  intros Hr. pose proof (pad_length r Hr) as Hl. destruct (exists_last_or (pad r)) as [E|(l & x & E)]; [by rewrite E in Hl|].
  exists x. rewrite E in *. rewrite length_app in Hl. cbn [List.length] in Hl. rewrite take_app_le, take_ge by lia. done.
Qed.

Lemma put_char_ok s t c t' : shows s t -> feed t c = Some t' -> exists s', put_char s c = Ok s' /\ shows s' t'.
Proof.
  intros Hsh Hf. pose proof (cursor_range s t Hsh) as (Hb & Hmod & _). pose proof Hsh as [Hv Hc Hrs [Hsc Hn] Hr]. unfold feed in Hf.
  destruct ((u8 c =? 0xd) || (u8 c =? 0xa)) eqn:Enl; [|destruct (Z.eqb_spec (u8 c) 8) as [E8|N8]].
  - injection Hf as <-. unfold put_char. rewrite Enl. unfold line_feed. rewrite Hmod, Hc. rewrite u16_small by lia. rewrite s16_small by lia.
    replace (80 * zlen (shown_before t) + zlen (row t) - zlen (row t) + 80) with (80 * (zlen (shown_before t) + 1)) by lia.
    apply next_row; (done || lia || by rewrite Hv).
  - rewrite <- (put_char_u8 s c), E8. destruct (row t) as [|y l] eqn:Erow.
    + destruct (exists_last_or (shown_before t)) as [E|(sh & r & E)]; [by rewrite E in Hf|]. destruct (shown_last t sh r Hsc E) as (E2 & E3 & E4 & Hsc').
      assert (Some (mk_term (scrolled t) (removelast (rows t)) (take 79 (pad (default [] (last (rows t)))))) = Some t') as Hf' by (rewrite E in Hf; by destruct sh).
      injection Hf' as <-. rewrite E2. rewrite E in Hrs, Hn, Hc. apply Forall_app in Hrs as [Hrs Hr80]. rewrite Forall_singleton in Hr80. pose proof (pad_length r Hr80) as Hpl.
      rewrite length_app in Hn, Hc. cbn [List.length] in Hn, Hc. destruct (pad_last r Hr80) as [x Hx].
      apply (backspace_ok s t _ (take 79 (pad r)) x); cbn [row]; rewrite ?E3; try done; rewrite ?length_take; try lia.
      unfold grid. rewrite E, Erow, map_app, concat_app, length_app. cbn [map concat List.length]. rewrite app_nil_r. unfold under. rewrite E3, length_take, Hpl.
      rewrite Hx at 1. rewrite pad_nil, <- !app_assoc. change (replicate (79 - 79 `min` 80) 32) with (@nil Z). cbn [app].
      do 3 f_equal. rewrite <- replicate_add. f_equal. lia.
    + assert (y :: l <> []) as Hne by done. destruct (exists_last Hne) as (r & x & Hrx). rewrite Hrx in Hf, Hr, Hc, Erow. rewrite removelast_last in Hf.
      rewrite length_app in Hr, Hc. cbn [List.length] in Hr, Hc. assert (Some (mk_term (scrolled t) (rows t) r) = Some t') as Hf' by (by destruct r). injection Hf' as <-.
      assert (shown_before (mk_term (scrolled t) (rows t) r) = shown_before t) as Es by done.
      apply (backspace_ok s t _ r x); rewrite ?Es; try done; try lia.
      unfold grid. rewrite Erow. rewrite under_pad by lia. done.
  - unfold put_char. rewrite Enl. apply Z.eqb_neq in N8 as ->. rewrite Hv, Hc, grid_under by done. rewrite (u16_small (2 * _)) by lia. rewrite put_under by done. cbn [obind].
    rewrite (u16_small (2 * _ + 1)), shift_cell by lia. rewrite u16_small by lia. rewrite s16_small by lia. injection Hf as <-. rewrite length_app. cbn [List.length].
    destruct (Nat.ltb_spec (List.length (row t) + 1) 80) as [Hlt|Hge].
    + zdec. eexists. split; [done|]. split; cbn [video cursor rows row scrolled]; try done; rewrite ?length_app; cbn [List.length]; [|change (shown_before _) with (shown_before t); lia | lia].
      by rewrite under_pad.
    + destruct (next_row (cells (under t (row t) (u8 c))) t (row t ++ [u8 c])) as (s' & E & Hs'); try done; [rewrite length_app; cbn [List.length]; lia | by rewrite under_pad|].
      exists s'. split; [|done]. replace (80 * zlen (shown_before t) + zlen (row t) + 1) with (80 * (zlen (shown_before t) + 1)) by lia. rewrite <- E. clear E.
      destruct (Z.ltb_spec (80 * (zlen (shown_before t) + 1)) 2000) as [|Hge']; [done|]. unfold line_feed.
      replace (80 * (zlen (shown_before t) + 1)) with 2000 by lia. reflexivity.
Qed.

(** A backspace with nothing before it on the screen leaves the video memory. *)
Lemma put_char_bad s t c : shows s t -> feed t c = None -> put_char s c = Err BadAccess.
Proof.
  intros Hsh Hf. pose proof (shows_length s t Hsh) as [_ Hl]. unfold feed in Hf. destruct ((u8 c =? 0xd) || (u8 c =? 0xa)) eqn:Enl; [done|].
  destruct (Z.eqb_spec (u8 c) 8) as [E8|N8]; [|by destruct (_ <? _)%nat in Hf]. destruct (row t) as [|y l] eqn:Er; [|done].
  destruct (shown_before t) eqn:Es; [|done]. unfold put_char. rewrite Enl, E8. cbn [Z.eqb Pos.eqb]. rewrite (sh_cursor _ _ Hsh), Es, Er.
  cbn [List.length]. change (u16 (2 * u16 (80 * Z.of_nat 0 + Z.of_nat 0 - 1))) with 65534. unfold put_cell, wr. by rewrite Hl.
Qed.

Lemma put_chars_ok l : forall s t, shows s t ->
  match feed_all t l with
  | Some t' => exists s', put_chars s l = Ok s' /\ shows s' t'
  | None => put_chars s l = Err BadAccess
  end.
Proof.
  induction l as [|c l IH]; intros s t Hs; [by exists s|]. cbn [feed_all put_chars]. destruct (feed t c) as [t1|] eqn:E1; cbn [mbind option_bind].
  - destruct (put_char_ok s t c t1 Hs E1) as (s1 & Ep & Hs1). rewrite Ep. by apply (IH s1 t1).
  - by rewrite (put_char_bad s t c Hs E1).
Qed.

Lemma cls_screen_ok s : zlen (video s) = 4000 -> exists s', cls_screen s = Ok s' /\ shows s' (mk_term 0 [] []).
Proof.
  intros Hl. unfold cls_screen. assert (List.length (concat (replicate (80 * 25) [0x20; 0x07])) = 4000%nat) as Hn by reflexivity.
  rewrite splice_start by lia. eexists. split; [done|]. split; cbn [video cursor rows row scrolled]; [|done|done|cbn; lia|cbn; lia].
  rewrite drop_ge, app_nil_r by lia. reflexivity.
Qed.

(** ** Properties *)

(** C9. The screen is a terminal. On a cleared screen, printing a text shows its last
    rows, the lower ones blank as long as there are fewer than 25, and the cursor is behind
    the last character: rows end at line feeds, carriage returns and after 80 characters, a
    screen that is full rolls, and a backspace takes back the character before the cursor,
    or the last cell of the row above. No character is written outside the screen, with
    one exception, which is stated: a backspace with the cursor in the top left corner
    leaves the video memory. *)
Theorem screen_is_terminal s text : zlen (video s) = 4000 ->
  exists s0, cls_screen s = Ok s0 /\
    match feed_all (mk_term 0 [] []) text with
    | Some t => exists s1, put_chars s0 text = Ok s1 /\ video s1 = cells (grid t)
        /\ cursor s1 = 80 * zlen (shown_before t) + zlen (row t) /\ 0 <= cursor s1 < 2000
    | None => put_chars s0 text = Err BadAccess
    end.
Proof.
  intros Hl. destruct (cls_screen_ok s Hl) as (s0 & E0 & H0). exists s0. split; [done|]. pose proof (put_chars_ok text s0 _ H0) as Hp.
  destruct (feed_all (mk_term 0 [] []) text) as [t|]; [|done]. destruct Hp as (s1 & E1 & H1). exists s1. split; [done|]. split; [apply H1|].
  split; [apply H1|]. by destruct (cursor_range s1 t H1).
Qed.

(** A backspace at once leaves the video memory. *)
Lemma backspace_top_left v : zlen v = 4000 -> put_char (mk_vga v 0) 8 = Err BadAccess.
Proof. intros Hl. unfold put_char, put_cell. cbn [cursor video]. change (u16 (2 * u16 (0 - 1))) with 65534. unfold wr. rewrite Hl. reflexivity. Qed.

(** Thirty rows, with a character taken back in the first: the last one is at the bottom.
    Then a backspace too many, and the row above is written on. *)
Example screen_is_terminal_witness : exists s0 s1, cls_screen (mk_vga (replicate 4000 0) 7) = Ok s0
  /\ put_chars s0 (txt "ab" ++ [8] ++ replicate 30 10 ++ txt "c" ++ [8; 8] ++ txt "d") = Ok s1
  /\ cursor s1 = 1920 /\ video s1 = cells (replicate 1919 32 ++ [100] ++ replicate 80 32).
Proof.
  destruct (screen_is_terminal (mk_vga (replicate 4000 0) 7) (txt "ab" ++ [8] ++ replicate 30 10 ++ txt "c" ++ [8; 8] ++ txt "d")) as (s0 & E0 & Ht); [reflexivity|].
  exists s0. assert (feed_all (mk_term 0 [] []) (txt "ab" ++ [8] ++ replicate 30 10 ++ txt "c" ++ [8; 8] ++ txt "d")
    = Some (mk_term 6 ([97] :: replicate 28 [] ++ [replicate 79 32 ++ [100]]) [])) as Ef by (vm_compute; reflexivity).
  rewrite Ef in Ht. destruct Ht as (s1 & E1 & Ev & Ec & _). exists s1. split; [exact E0|]. split; [exact E1|]. split; [exact Ec|]. rewrite Ev. vm_compute. reflexivity.
Defined.

(** ** [put_int] *)

(** The eight digits, and those [itoa] writes. *)
Fixpoint fixed_digits (k : nat) (n : Z) : list Z :=
  match k with O => [] | S k => fixed_digits k (n / 16) ++ [n mod 16] end.

Fixpoint skip_zeros (l : list Z) : list Z :=
  match l with [] => [0] | d :: l => if d =? 0 then skip_zeros l else d :: l end.

Lemma skip_zeros_app l d : (exists x, x ∈ l /\ x <> 0) -> skip_zeros (l ++ [d]) = skip_zeros l ++ [d].
Proof.
  induction l as [|c l IH]; intros (x & Hx & Hne); [by apply elem_of_nil in Hx|]. cbn [app skip_zeros]. destruct (Z.eqb_spec c 0) as [->|]; [|done].
  apply IH. exists x. split; [|done]. by apply elem_of_cons in Hx as [->|].
Qed.

Lemma fixed_zero k d : skip_zeros (fixed_digits k 0 ++ [d]) = [d].
Proof.
  revert d. induction k as [|k IH]; intros d; cbn [fixed_digits app skip_zeros]; [by destruct (Z.eqb_spec d 0) as [->|]|].
  change (0 / 16) with 0. change (0 mod 16) with 0. rewrite <- app_assoc. cbn [app].
  assert (forall l, Forall (eq 0) l -> skip_zeros (l ++ [0; d]) = skip_zeros [0; d]) as Hz.
  { induction 1 as [|x l <- Hl IHl]; [done|]. exact IHl. }
  rewrite Hz; [cbn; by destruct (Z.eqb_spec d 0) as [->|]|]. clear. induction k as [|k IH]; [constructor|]. cbn [fixed_digits].
  change (0 / 16) with 0. change (0 mod 16) with 0. apply Forall_app; split; [done | by constructor].
Qed.

Lemma fixed_nonzero k : forall n, 0 < n < 16 ^ Z.of_nat k -> exists x, x ∈ fixed_digits k n /\ x <> 0.
Proof.
  induction k as [|k IH]; intros n Hn; [change (16 ^ Z.of_nat 0) with 1 in Hn; lia|]. cbn [fixed_digits].
  rewrite Nat2Z.inj_succ, Z.pow_succ_r in Hn by lia. destruct (decide (n / 16 = 0)) as [Hz|Hz].
  - exists (n mod 16). split; [apply elem_of_app; right; by left|]. pose proof (Z.div_mod n 16 ltac:(lia)). lia.
  - destruct (IH (n / 16)) as (x & Hx & Hne).
    + pose proof (Z.div_pos n 16 ltac:(lia) ltac:(lia)). split; [lia|]. apply Z.div_lt_upper_bound; lia.
    + exists x. split; [|done]. apply elem_of_app. by left.
Qed.

Lemma skip_fixed k : forall f n, (k <= f)%nat -> (0 < k)%nat -> 0 <= n < 16 ^ Z.of_nat k -> skip_zeros (fixed_digits k n) = Stdio.digits f 16 n.
Proof.
  induction k as [|k IH]; intros f n Hf Hk Hn; [lia|]. destruct f as [|f]; [lia|]. cbn [fixed_digits Stdio.digits].
  rewrite Nat2Z.inj_succ, Z.pow_succ_r in Hn by lia. pose proof (Z.div_pos n 16 ltac:(lia) ltac:(lia)).
  assert (n / 16 < 16 ^ Z.of_nat k) by (apply Z.div_lt_upper_bound; lia). destruct (Z.eqb_spec (n / 16) 0) as [->|Hne]; [apply fixed_zero|].
  rewrite skip_zeros_app by (apply fixed_nonzero; lia). f_equal. apply IH; [lia| |lia].
  destruct k; [change (16 ^ Z.of_nat 0) with 1 in *; lia | lia].
Qed.

(** [put_int] prints the number as [itoa] does in base 16. *)
Lemma put_int_is_itoa n : put_int_text n = Stdio.ascii_of 16 (u32 n).
Proof.
  assert (forall l, Forall (fun d => 0 <= d < 16) l -> skip_prefix_0 (map hex_char l) = map hex_char (skip_zeros l)) as Hskip.
  { induction 1 as [|d l Hd Hl IH]; [done|]. cbn [map skip_prefix_0 skip_zeros].
    unfold hex_char at 1. destruct (Z.eqb_spec d 0) as [->|Hd0]; [exact IH|].
    replace ((if 9 <? d then d - 10 + 65 else d + 48) =? 48) with false by (symmetry; apply Z.eqb_neq; destruct (Z.ltb_spec 9 d); lia). done. }
  unfold put_int_text. pose proof (u32_range n) as Hr. set (v := u32 n) in *.
  assert (put_int_buffer n = map hex_char (fixed_digits 8 v)) as ->.
  { unfold put_int_buffer. fold v. assert (forall i, 0 <= i -> Z.land (Z.shiftr v (4 * i)) 15 = v / 16 ^ i mod 16) as Hd.
    { intros i Hi. change 15 with (Z.ones 4). rewrite Z.land_ones, Z.shiftr_div_pow2, Z.pow_mul_r by lia. done. }
    cbn [map fixed_digits app]. rewrite !Hd by lia. rewrite !Z.div_div by lia. rewrite Z.pow_0_r, Z.div_1_r. reflexivity. }
  rewrite Hskip.
  2: { clear Hr. clearbody v. generalize 8%nat as k. intros k. revert v. induction k as [|k IH]; intros v; [constructor|]. cbn [fixed_digits].
       apply Forall_app; split; [apply IH|]. apply Forall_singleton. by apply Z.mod_pos_bound. }
  rewrite (skip_fixed 8 33) by (try lia; done). unfold Stdio.ascii_of. apply map_ext_in. intros d Hd. unfold hex_char, Stdio.itoa_char.
  unfold Stdio.ch_0, Stdio.ch_A. destruct (Z.ltb_spec 9 d), (Z.ltb_spec d 10); lia.
Qed.
