(* ===== verification/Rw.v ===== *)
(** fs/fs.c: [sys_write] and [sys_read], which send a transfer to the file, the pipe,
    the keyboard or the screen behind a descriptor; device/console.c. *)
From S2P Require Import Prelude Thread Sync Ide Ioqueue Blockdev Inode File Filewrite Dir Path Fsspec Pipeline Process Kin Screen.
From stdpp Require Import strings.
Local Open Scope Z_scope.

(** ** The console *)

(** [screen] is the sequence of characters handed to [put_char] of Screen.v. *)
Record console := mk_console { console_lock : lock; screen : list Z }.

Definition console_init (c : console) : console := mk_console lock_init (screen c).

(** Output between [console_acquire] and [console_release]; [false] when the caller
    waits for the console. [text] are the characters that reach the screen. *)
Definition console_put (k : kstate) (c : console) (text : outcome (list Z)) : outcome (kstate * console * bool) :=
  let! ' (k, l, got) := lock_acquire k (console_lock c) in
  if (got : bool) then
    let! s := text in
    let! ' (k, l) := lock_release k l in
    Ok (k, mk_console l (screen c ++ s), true)
  else Ok (k, mk_console l (screen c), false).

Definition console_put_str (k : kstate) (c : console) (str : list Z) := console_put k c (c_string str).
Definition console_put_char (k : kstate) (c : console) (char_asci : Z) := console_put k c (Ok [u8 char_asci]).
Definition console_put_int (k : kstate) (c : console) (num : Z) := console_put k c (Ok (put_int_text num)).

(** fs/fs.c's [sys_putchar]. *)
Definition sys_putchar := console_put_char.

(** ** The calls *)

(** The files and threads, the ring buffers of the open pipes by the address of their
    page, the keyboard's ring buffer, the console. *)
Record io {D H : Type} := mk_io {
  io_fs : fstate D H; io_pipes : gmap Z ioqueue; kbd_buf : ioqueue; io_console : console }.
Arguments io : clear implicits.

Section rw.
Context {D H : Type} `{BlockDevice D} `{KernelHeap H}.
Abbreviation st := (io D H).
Implicit Types (s : st).

Definition with_files (v : fstate D H) s : st := mk_io _ _ v (io_pipes s) (kbd_buf s) (io_console s).
Definition with_queue (k : kstate) (page : Z) (q : ioqueue) s : st :=
  mk_io _ _ (with_kern k (io_fs s)) (<[page := q]> (io_pipes s)) (kbd_buf s) (io_console s).
Definition with_keys (k : kstate) (q : ioqueue) s : st := mk_io _ _ (with_kern k (io_fs s)) (io_pipes s) q (io_console s).
Definition with_console (k : kstate) (c : console) s : st := mk_io _ _ (with_kern k (io_fs s)) (io_pipes s) (kbd_buf s) c.

(** The ring buffer behind a descriptor: [pipe_read] and [pipe_write] up to their loops. *)
Definition pipe_of s (fd : Z) : outcome (Z * ioqueue) :=
  let! global_fd := fd_local2global (io_fs s) fd in
  let! x := get_file (io_fs s) global_fd in
  match io_pipes s !! fd_inode x with Some q => Ok (fd_inode x, q) | None => Err BadAccess end.

(** [sys_pipe] with the queue it sets up in the page; [b] is what the page holds where
    the buffer of the queue lies. *)
Definition open_pipe s (page : Z) (b : list Z) : outcome (st * Z * Z * Z) :=
  let! ' (f, fd0, fd1, ret) := sys_pipe (io_fs s) page in
  Ok (with_queue (kern f) page (ioqueue_init b) (with_files f s), fd0, fd1, ret).

(** The result of a call is [None] where the caller loses the processor. *)
Definition say s (msg : list Z) (ret : Z) : outcome (st * option Z) :=
  let! ' (k, c, got) := console_put_str (kern (io_fs s)) (io_console s) (msg ++ [10; 0]) in
  Ok (with_console k c s, if (got : bool) then Some ret else None).

Definition write_pipe s (fd : Z) (buf : list Z) (count : Z) : outcome (st * option Z) :=
  let! ' (page, q) := pipe_of s fd in
  let! ' (k, q, n, whole) := pipe_write (kern (io_fs s)) q buf count in
  Ok (with_queue k page q s, if (whole : bool) then Some (s32 n) else None).

(** [memcpy] of [count] bytes into [char tmp_buf[1024] = {0}]. *)
Definition fill_tmp (buf : list Z) (count : Z) : outcome (list Z) :=
  let! data := slice buf 0 count in splice (replicate 1024 0) 0 data.

Definition sys_write s (fd : Z) (buf : list Z) (count : Z) : outcome (st * option Z) :=
  if fd <? 0 then say s (chars "sys_write: fd error") (-1) else
  if fd =? 1 then
    let! p := is_pipe (io_fs s) fd in
    if (p : bool) then write_pipe s fd buf count
    else
      let! tmp_buf := fill_tmp buf count in
      let! ' (k, c, got) := console_put_str (kern (io_fs s)) (io_console s) tmp_buf in
      Ok (with_console k c s, if (got : bool) then Some (s32 count) else None)
  else
    let! p := is_pipe (io_fs s) fd in
    if (p : bool) then write_pipe s fd buf count
    else
      let! fd_ := fd_local2global (io_fs s) fd in
      let! wr_file := get_file (io_fs s) fd_ in
      if negb (Z.land (fd_flag wr_file) O_WRONLY =? 0) || negb (Z.land (fd_flag wr_file) O_RDWR =? 0) then
        let! ' (f, bytes_written) := file_write (io_fs s) fd_ buf count in
        Ok (with_files f s, Some (s32 bytes_written))
      else say s (chars "sys_write: not allowed to write file without flag O_RDWR or O_WRONLY") (-1).

Definition read_pipe s (fd count : Z) : outcome (st * list Z * option Z) :=
  let! ' (page, q) := pipe_of s fd in
  let! ' (k, q, out, whole) := pipe_read (kern (io_fs s)) q count in
  Ok (with_queue k page q s, out, if (whole : bool) then Some (s32 (zlen out)) else None).

(** The loop over the keys read so far; [false] when blocked. *)
Definition read_keys_body (count : Z) (v : kstate * ioqueue * list Z)
  : outcome (kstate * ioqueue * list Z + kstate * ioqueue * list Z * bool) :=
  let '(k, q, out) := v in
  if zlen out <? count then
    let! ' (k, q, r) := ioq_getchar k q in
    match r with
    | Some byte => Ok (inl (k, q, out ++ [byte]))
    | None => Ok (inr (k, q, out, false))
    end
  else Ok (inr (k, q, out, true)).

(** [buf] is the address of the buffer, the second result what is stored in it. *)
Definition sys_read s (fd buf count : Z) : outcome (st * list Z * option Z) :=
  c_assert (negb (buf =? 0)) ;;;
  if (fd <? 0) || (fd =? 1) || (fd =? 2) then
    let! ' (s, r) := say s (chars "sys_read: fd error") (-1) in Ok (s, [], r)
  else if fd =? 0 then
    let! p := is_pipe (io_fs s) fd in
    if (p : bool) then read_pipe s fd count
    else
      let! ' (k, q, out, whole) := loop (read_keys_body count) (S (Z.to_nat count)) (kern (io_fs s), kbd_buf s, []) in
      Ok (with_keys k q s, out, if (whole : bool) then Some (if zlen out =? 0 then -1 else s32 (zlen out)) else None)
  else
    let! p := is_pipe (io_fs s) fd in
    if (p : bool) then read_pipe s fd count
    else
      let! global_fd := fd_local2global (io_fs s) fd in
      let! ' (f, ret, out) := file_read (io_fs s) global_fd count in
      Ok (with_files f s, out, Some ret).

End rw.

(** ** Regular files *)

Section files.
Context {D H : Type} `{BlockDeviceLaws D} `{KernelHeapLaws H}.
Abbreviation st := (io D H).
Implicit Types (s : st) (f : fstate D H).

(** Descriptor [fd] of the running thread stands for the regular file with inode [i]. *)
Record stands_for f (fd g : Z) (x : file) (i : inode) : Prop := {
  sf_fd : 2 < fd;
  sf_global : fd_local2global f fd = Ok g;
  sf_file : get_file f g = Ok x;
  sf_inode : get_inode f (fd_inode x) = Ok i;
  sf_regular : fd_flag x <> PIPE_FLAG }.

Lemma fd_local2global_kern f f' fd : kern f' = kern f -> fd_local2global f' fd = fd_local2global f fd.
Proof. intros E. unfold fd_local2global, cur_fds. by rewrite E. Qed.

Lemma fd_local2global_range f fd g : fd_local2global f fd = Ok g -> 0 <= g < 32.
Proof.
  unfold fd_local2global. destruct (cur_fds f) as [t|]; [|done]. cbn [obind]. destruct (rd t fd) as [v|]; [|done].
  cbn [obind]. unfold MAX_FILE_OPEN. destruct (Z.leb_spec 0 v), (Z.ltb_spec v 32); cbn [andb c_assert obind]; intros [= ->]; lia.
Qed.

Lemma stands_not_pipe f fd g x i : stands_for f fd g x i -> is_pipe f fd = Ok false.
Proof. intros [_ Hg Hx _ Hr]. unfold is_pipe. rewrite Hg. cbn [obind]. rewrite Hx. cbn [obind]. by apply Z.eqb_neq in Hr as ->. Qed.

(** The descriptor after a step that sets its position and its inode. *)
Lemma stands_after f f' fd g x i p i' : stands_for f fd g x i -> kern f' = kern f ->
  file_table f' = <[Z.to_nat g := set_pos p x]> (file_table f) -> inodes f' !! fd_inode x = Some i' ->
  stands_for f' fd g (set_pos p x) i'.
Proof.
  intros [Hfd Hg Hx Hi Hr] Hk Ht Hn. pose proof (fd_local2global_range _ _ _ Hg) as Hgr. split; try done.
  - by rewrite (fd_local2global_kern f).
  - unfold get_file in *. rewrite Ht. apply rd_znth. rewrite znth_insert by (apply rd_Ok, znth_Some in Hx; lia). by rewrite Z.eqb_refl.
  - unfold get_inode. cbn. by rewrite Hn.
Qed.

Definition writable (x : file) : bool :=
  negb (Z.land (fd_flag x) O_WRONLY =? 0) || negb (Z.land (fd_flag x) O_RDWR =? 0).

Lemma sys_write_file s fd g x i buf count : stands_for (io_fs s) fd g x i -> writable x = true ->
  sys_write s fd buf count =
    let! ' (f, n) := file_write (io_fs s) g buf count in Ok (with_files f s, Some (s32 n)).
Proof.
  intros Hs Hw. pose proof (stands_not_pipe _ _ _ _ _ Hs) as Hp. destruct Hs as [Hfd Hg Hx _ _].
  unfold sys_write. zdec. rewrite Hp. cbn [obind]. rewrite Hg. cbn [obind]. rewrite Hx. cbn [obind].
  unfold writable in Hw. by rewrite Hw.
Qed.

Lemma sys_read_file s fd g x i buf count : stands_for (io_fs s) fd g x i -> buf <> 0 ->
  sys_read s fd buf count =
    let! ' (f, ret, out) := file_read (io_fs s) g count in Ok (with_files f s, out, Some ret).
Proof.
  intros Hs Hb. pose proof (stands_not_pipe _ _ _ _ _ Hs) as Hp. destruct Hs as [Hfd Hg Hx _ _].
  unfold sys_read. zdec. cbn [negb c_assert obind orb]. rewrite Hp. cbn [obind]. rewrite Hg. cbn [obind]. done.
Qed.

Lemma lseek_set_ok f fd g x i p : stands_for f fd g x i -> 0 <= p < i_size i -> i_size i < 2 ^ 31 ->
  sys_lseek f fd p SEEK_SET = Ok (Inode.with_files (<[Z.to_nat g := set_pos p x]> (file_table f)) f, p).
Proof.
  intros [Hfd Hg Hx Hi _] Hp Hmax. unfold sys_lseek. zdec. cbn [c_assert obind]. rewrite Hg. cbn [obind]. rewrite Hx. cbn [obind].
  rewrite Hi. cbn [obind]. rewrite (s32_small (i_size i)), s32_small by lia. zdec. by rewrite (put_file_ok f g x) by done.
Qed.

(** A file that may be appended to: on its own blocks, with room for [count] more bytes. *)
Record appendable f (i : inode) (count : Z) : Prop := {
  ap_wf : wf_inode i;
  ap_geometry : geometry (cur_part f);
  ap_layout : file_layout (cur_part f) (medium f) i (blocks_of i);
  ap_empty : blocks_of i = 0 -> i_size i = 0;
  ap_small : i_size i + count < 71168;
  ap_room : (new_sectors i count <= length (free_list (block_bitmap (cur_part f))))%nat;
  ap_no : i_no i < 256;
  ap_sector : inode_secs (cur_part f) (i_no i) = 1 }.

(** The blocks of a file laid out on its partition can be read. *)
Lemma layout_readable p d i n last : geometry p -> length (i_sectors i) = 13%nat -> file_layout p d i n -> last < n ->
  has_table i last /\ forall k, 0 <= k <= last -> file_block d i k <= max_lba.
Proof.
  intros G Hlen L Hlast. split.
  - intros Hl. destruct (layout_table d p i n Hlen L G ltac:(lia)) as [Ht Hr]. exists (table_lba i). split; [done|]. lia.
  - intros k Hk. destruct (layout_block _ _ _ _ k L ltac:(lia)) as [Hd _]. unfold data_block in Hd. geo G. lia.
Qed.

(** C3. What is written is read back. [sys_write] on a regular file open for writing
    takes the whole buffer, [sys_lseek] goes back to where the file ended, and
    [sys_read] returns the bytes written, in their order; reading and seeking leave the disk as
    the write left it, and nothing happens to the pipes, the keys and the screen. It
    takes room on the partition and a file of less than 139 blocks in the end. *)
Theorem write_read_back s fd g x i buf src count : stands_for (io_fs s) fd g x i -> writable x = true ->
  appendable (io_fs s) i count -> roomy 6 (kheap (io_fs s)) -> buf <> 0 -> 0 < count <= zlen src -> bytes src ->
  exists s1 f2 s3, sys_write s fd src count = Ok (s1, Some count)
    /\ sys_lseek (io_fs s1) fd (i_size i) SEEK_SET = Ok (f2, i_size i)
    /\ sys_read (with_files f2 s1) fd buf count = Ok (s3, take (Z.to_nat count) src, Some count)
    /\ medium (io_fs s3) = medium (io_fs s1)
    /\ io_pipes s3 = io_pipes s /\ kbd_buf s3 = kbd_buf s /\ io_console s3 = io_console s.
Proof.
  intros Hs Hw [Hwf G L He Hsm Hroom Hno Hsec] R Hb Hc Hbs. pose proof Hs as [_ _ Hx Hi _].
  assert (0 <= i_size i) as Hsz by (destruct Hwf as [_ Hu]; unfold inode_words in Hu; rewrite Forall_app, !Forall_cons in Hu; lia).
  destruct (file_write_ok 4 (io_fs s) g src count x i Hx Hi Hwf G L He ltac:(lia) ltac:(lia) ltac:(lia) Hbs Hroom R Hno Hsec)
    as (f1 & l & E & A & R1).
  destruct A as (_ & Hnew & Hwf1 & G1 & _ & L1 & _ & _ & _ & Hin & Htab & _ & Hk & _).
  set (i1 := set_size (i_size i + count) (set_sectors l i)) in *.
  rewrite (sys_write_file s fd g x i) by done. rewrite E. cbn [obind]. rewrite s32_small by lia.
  eexists (with_files f1 s). cbn [io_fs with_files].
  pose proof (stands_after _ f1 fd g x i _ i1 Hs Hk Htab ltac:(by rewrite Hin, lookup_insert_eq)) as Hs1.
  assert (i_size i1 = i_size i + count) as Hsz1 by done.
  pose proof (lseek_set_ok f1 fd g _ i1 (i_size i) Hs1 ltac:(lia) ltac:(lia)) as E2.
  set (f2 := Inode.with_files _ f1) in *. eexists f2. 
  assert (inodes f2 !! fd_inode x = Some i1) as Hin2 by (cbn; by rewrite Hin, lookup_insert_eq).
  pose proof (stands_after f1 f2 fd g _ i1 (i_size i) i1 Hs1 eq_refl eq_refl Hin2) as Hs2.
  pose proof Hs2 as [_ _ Hx2 Hi2 _].
  destruct (layout_readable _ _ i1 _ ((i_size i + count) / 512) G1 ltac:(by destruct Hwf1) L1 ltac:(unfold blocks_for; lia)) as [Ht Hbk].
  pose proof (file_read_ok 0 f2 g count _ i1 Hx2 Hi2 Hwf1) as Hr. cbn [fd_pos set_pos] in Hr. rewrite Hsz1 in Hr.
  replace (Z.min count (i_size i + count - i_size i)) with count in Hr by lia.
  replace (count =? 0) with false in Hr by (symmetry; apply Z.eqb_neq; lia). rewrite andb_false_r in Hr.
  destruct Hr as (h3 & out & E3 & Hlo & Ho & _); try done; try lia.
  { apply Z.div_lt_upper_bound; lia. }
  { intros k Hkk. apply Hbk. pose proof (Z.div_pos (i_size i) 512). lia. }
  match type of E3 with _ = Ok (?f3, _, _) => exists (with_files f3 (with_files f2 (with_files f1 s))) end. rewrite (sys_read_file (with_files f2 (with_files f1 s)) fd g (set_pos (i_size i) (set_pos (u32 (i_size i + count - 1)) x)) i1 buf count Hs2 Hb). cbn [io_fs with_files]. rewrite E3. cbn [obind].
  split; [done|]. split; [done|]. split; [|done]. do 3 f_equal.
  apply (list_by_znth _ _ count); [done | rewrite length_take; lia|]. intros k Hkr.
  rewrite Ho by done. rewrite lookup_take_lt by lia. specialize (Hnew (i_size i + k) ltac:(lia)).
  replace (i_size i + k - i_size i) with k in Hnew by lia. exact Hnew.
Qed.

End files.

(** ** Pipes *)

Section pipes.
Context {D H : Type} `{BlockDevice D} `{KernelHeap H}.
Abbreviation st := (io D H).
Implicit Types (s : st).

(** Descriptor [fd] of the running thread leads to the ring buffer [q] in page [page]. *)
Record pipe_end s (fd page : Z) (q : ioqueue) : Prop := {
  pe_pipe : is_pipe (io_fs s) fd = Ok true;
  pe_queue : pipe_of s fd = Ok (page, q) }.

Lemma sys_write_pipe s fd page q buf count : 0 <= fd -> pipe_end s fd page q -> sys_write s fd buf count = write_pipe s fd buf count.
Proof. intros Hfd [Hp _]. unfold sys_write. zdec. rewrite Hp. cbn [obind]. by case_bool. Qed.

Lemma sys_read_pipe s fd page q buf count : fd = 0 \/ 2 < fd -> buf <> 0 -> pipe_end s fd page q -> sys_read s fd buf count = read_pipe s fd count.
Proof.
  intros Hfd Hb [Hp _]. unfold sys_read. apply Z.eqb_neq in Hb as ->. cbn [negb c_assert obind].
  replace ((fd <? 0) || (fd =? 1) || (fd =? 2)) with false by (destruct (Z.ltb_spec fd 0), (Z.eqb_spec fd 1), (Z.eqb_spec fd 2); cbn; lia).
  rewrite Hp. cbn [obind]. by case_bool.
Qed.

(** A write that nobody waits for leaves the threads alone. *)
Lemma pipe_write_quiet k q0 l data count : ioq_rep q0 l -> intr k = false -> sched_ok k -> consumer q0 = 0 ->
  0 <= count <= zlen data -> zlen l + count <= bufsize - 1 ->
  exists q, pipe_write k q0 data count = Ok (k, q, count, true) /\ ioq_rep q (l ++ take (Z.to_nat count) data)
    /\ producer q = producer q0.
Proof.
  intros Hr Hi Hs Hc Hcnt Hfit. pose proof (ioq_length_ok q0 l Hr) as Hlen. unfold bufsize in *. unfold pipe_write, bufsize.
  rewrite Hlen, u32_small by lia. replace (if count <? 2048 - zlen l then count else 2048 - zlen l) with count by (case_bool; zb; lia).
  loop_inv (fun s : kstate * ioqueue * Z => let '(k', q, n) := s in
    0 <= n <= count /\ k' = k /\ consumer q = 0 /\ producer q = producer q0 /\ ioq_rep q (l ++ take (Z.to_nat n) data))
   (fun s : kstate * ioqueue * Z => Z.to_nat (count - snd s)).
  - intros [[k' q] n] (Hn & -> & Hcq & Hp & Hrq). unfold pipe_write_body.
    assert (zlen (l ++ take (Z.to_nat n) data) = zlen l + n) as Hzl by (rewrite length_app, Nat2Z.inj_add, zlen_take; lia).
    destruct (Z.ltb_spec n count) as [Hlt|Hge].
    + destruct (znth_in data n ltac:(lia)) as [b Hb]. rewrite (rd_znth _ _ _ Hb). cbn [obind].
      destruct (ioq_put_ok k q _ b Hrq Hi ltac:(unfold bufsize; lia) Hs) as (k2 & q2 & E & Hrep & Hp2 & _ & Hc2 & Hwk); [by left|].
      rewrite E. cbn [obind]. unfold woken in Hwk. rewrite Hcq in Hwk. destruct Hwk as (_ & _ & _ & ->).
      split; [|cbn; lia]. split; [lia|]. split; [done|]. split; [done|]. split; [congruence|].
      by rewrite (take_snoc_znth _ _ _ Hb), app_assoc.
    + assert (n = count) as -> by lia. by exists q.
  - split; [lia|]. split; [done|]. split; [done|]. split; [done|]. by rewrite app_nil_r.
  - cbn; lia.
Qed.

Lemma upd_fds_sched k t l k' : sched_ok k -> upd_task k t (set_fd_table l) = Ok k' -> sched_ok k' /\ intr k' = intr k.
Proof.
  intros Hs E. assert (keeps status k k') as Hk by (by eapply keeps_upd).
  unfold upd_task in E. apply obind_Ok in E as (x & _ & E). injection E as <-. split; [|done].
  apply (sched_ok_same k); done.
Qed.

(** C12. A pipe carries what is written into it: [sys_pipe] gives the two lowest free
    descriptors, [sys_write] on the second takes the whole buffer of up to 2047
    bytes, and [sys_read] on the first returns its first [n] bytes, or all of them when [n]
    is more; neither waits, and the files, the disk and the screen stay as they were. *)
Theorem pipe_carries s g t l0 l1 page b buf count dst n : let f := io_fs s in
  first_file f g -> cur_fds f = Ok t -> first_fd t l0 -> first_fd (<[Z.to_nat l0 := g]> t) l1 ->
  page <> 0 -> zlen b = bufsize -> sched_ok (kern f) -> intr (kern f) = false ->
  0 <= count <= zlen buf -> count < bufsize -> 0 <= n < 2 ^ 32 -> dst <> 0 ->
  exists s1 s2 s3, open_pipe s page b = Ok (s1, l0, l1, 0)
    /\ sys_write s1 l1 buf count = Ok (s2, Some count)
    /\ sys_read s2 l0 dst n = Ok (s3, take (Z.to_nat n) (take (Z.to_nat count) buf), Some (Z.min n count))
    /\ file_table (io_fs s3) = <[Z.to_nat g := mk_file 2 PIPE_FLAG page]> (file_table f)
    /\ medium (io_fs s3) = medium f /\ inodes (io_fs s3) = inodes f /\ io_console s3 = io_console s.
Proof.
  intros f Hg Ht Hl0 Hl1 Hpage Hb Hs Hi Hc Hcs Hn Hd. pose proof Hg as [Hgr Hfree _]. unfold MAX_FILE_OPEN in Hgr.
  destruct (znth (file_table f) g) as [x0|] eqn:Ex; [|done].
  set (x := mk_file 2 PIPE_FLAG page). set (f1 := Inode.with_files (<[Z.to_nat g := x]> (file_table f)) f).
  assert (put_file g x f = Ok f1) as Ep by (apply (put_file_ok f g x0); by apply rd_znth).
  destruct (fd_install_ok f1 g t l0 Ht Hl0) as (k1 & E1 & U1). destruct (upd_fds_sched _ _ _ _ Hs U1) as [Hs1 Hi1].
  pose proof (cur_fds_upd _ _ _ U1) as T1.
  destruct (fd_install_ok (with_kern k1 f1) g _ l1 T1 Hl1) as (k2 & E2 & U2). destruct (upd_fds_sched _ _ _ _ Hs1 U2) as [Hs2 Hi2].
  pose proof (cur_fds_upd (with_kern k1 f1) _ _ U2) as T2. change (with_kern k2 (with_kern k1 f1)) with (with_kern k2 f1) in *.
  set (f2 := with_kern k2 f1) in *. set (q := ioqueue_init b).
  assert (open_pipe s page b = Ok (with_queue k2 page q (with_files f2 s), l0, l1, 0)) as EP.
  { unfold open_pipe, sys_pipe. change (io_fs s) with f. rewrite (free_slot_ok _ _ Hg). cbn [obind]. zdec. fold x.
    rewrite Ep. cbn [obind]. rewrite E1. cbn [obind]. by rewrite E2. }
  rewrite EP. eexists. set (s1 := with_queue k2 page q (with_files f2 s)).
  assert (ioq_rep q []) as Hrep by (split; try done; intros i Hir; cbn in Hir; lia).
  assert (znth (file_table f2) g = Some x) as Hx by (cbn; rewrite znth_insert by (by apply znth_Some in Ex); by rewrite Z.eqb_refl).
  assert (forall fd q' s', io_fs s' = f2 -> io_pipes s' !! page = Some q' -> fd = l0 \/ fd = l1 -> pipe_end s' fd page q') as Hend.
  { intros fd q' s' Ef Eq Hfd. assert (fd_local2global f2 fd = Ok g) as Hgl.
    { unfold fd_local2global. rewrite T2. cbn [obind]. pose proof Hl0 as [Hr0 Hf0 _]. pose proof Hl1 as [Hr1 Hf1 _].
      apply znth_Some in Hf0, Hf1. rewrite length_insert in Hf1.
      assert (znth (<[Z.to_nat l1:=g]> (<[Z.to_nat l0:=g]> t)) fd = Some g) as Hz.
      { rewrite !znth_insert by (rewrite ?length_insert; lia).
        destruct Hfd as [-> | ->]; rewrite Z.eqb_refl; [by destruct (Z.eqb_spec l0 l1)|done]. }
      rewrite (rd_znth _ _ _ Hz). cbn [obind]. unfold MAX_FILE_OPEN. zdec. done. }
    split; [unfold is_pipe | unfold pipe_of]; rewrite Ef, Hgl; cbn [obind]; unfold get_file; rewrite (rd_znth _ _ _ Hx); cbn [obind]; [done|].
    change (fd_inode x) with page. by rewrite Eq. }
  pose proof Hl0 as [Hr0 _ _]. pose proof Hl1 as [Hr1 _ _].
  destruct (pipe_write_quiet k2 q [] buf count Hrep) as (q2 & W & Hrep2 & Hp2); try done.
  { rewrite Hi2, Hi1. done. } { cbn. lia. }
  rewrite (sys_write_pipe s1 l1 page q buf count); [|lia | apply Hend; [done | apply lookup_insert_eq | by right]].
  unfold write_pipe. rewrite (pe_queue _ _ _ _ (Hend l1 q s1 eq_refl (lookup_insert_eq _ _ _) (or_intror eq_refl))). cbn [obind].
  change (kern (io_fs s1)) with k2. rewrite W. cbn [obind]. unfold bufsize in Hcs. rewrite s32_small by lia.
  eexists. set (s2 := with_queue k2 page q2 s1).
  assert (pipe_end s2 l0 page q2) as Hend2 by (apply Hend; [done | apply lookup_insert_eq | by left]).
  rewrite (sys_read_pipe s2 l0 page q2 dst n) by (done || lia). unfold read_pipe. rewrite (pe_queue _ _ _ _ Hend2). cbn [obind].
  change (kern (io_fs s2)) with k2.
  destruct (pipe_read_ok k2 q2 _ n Hrep2 ltac:(by rewrite Hi2, Hi1) Hs2 ltac:(left; by rewrite Hp2) ltac:(lia)) as (k3 & q3 & R & _ & _).
  rewrite R. cbn [obind app]. exists (with_queue k3 page q3 s2). split; [done|]. split; [done|]. split; [|done].
  assert (zlen (take (Z.to_nat n) (take (Z.to_nat count) buf)) = Z.min n count) as -> by (rewrite !length_take; lia).
  by rewrite s32_small by lia.
Qed.

(** ** The screen *)

Lemma c_string_stop l m : c_string (l ++ 0 :: m) = Ok (Dir.chars l).
Proof. induction l as [|c l IH]; [done|]. cbn. case_bool; [done|]. by rewrite IH. Qed.

Lemma c_string_open l : 0 ∉ l -> c_string l = Err BadAccess.
Proof.
  induction l as [|c l IH]; [done|]. intros Hl. apply not_elem_of_cons in Hl as [Hc Hl]. cbn.
  replace (c =? 0) with false by (symmetry; apply Z.eqb_neq; congruence). by rewrite IH.
Qed.

(** The console when no thread has it or waits for it. *)
Definition console_free (c : console) : Prop := lock_free (console_lock c) /\ waiters (sem (console_lock c)) = [].

Lemma console_put_str_ok k c str : sched_ok k -> intr k = false -> console_free c ->
  match c_string str with
  | Ok s => exists c', console_put_str k c str = Ok (k, c', true) /\ screen c' = screen c ++ s /\ console_free c'
  | Err e => console_put_str k c str = Err e
  end.
Proof.
  intros Hs Hi [Hl Hw]. unfold console_put_str, console_put. rewrite lock_acquire_free by done. cbn [obind].
  assert (with_intr false k = k) as -> by (destruct k; cbn in *; by subst).
  destruct (c_string str) as [s|e]; [|done]. cbn [obind]. unfold lock_release, lock_release_drop, running_thread. cbn [holder].
  rewrite Z.eqb_refl. cbn [c_assert obind sem waiters holder_repeat_nr]. change (1 <? 1) with false. change (1 =? 1) with true.
  cbn [c_assert obind]. unfold sema_up, intr_disable. cbn [sem value waiters]. rewrite Hw.
  change (0 =? 0) with true. cbn [c_assert obind value]. change (u8 (0 + 1) =? 1) with true. cbn [c_assert obind].
  unfold intr_get_status. rewrite Hi. cbn [obind]. rewrite intr_set_status_eq.
  assert (with_intr false k = k) as -> by (destruct k; cbn in *; by subst).
  by eexists.
Qed.

(** What [sys_write] does on descriptor 1 when it is not redirected to a pipe: the
    buffer up to its first NUL goes to the screen, in order, when it has at most
    1023 characters. A longer request runs over the 1024 bytes of [tmp_buf], or leaves
    it without a terminator. *)
Theorem sys_write_screen s buf count : is_pipe (io_fs s) 1 = Ok false -> console_free (io_console s) ->
  intr (kern (io_fs s)) = false -> sched_ok (kern (io_fs s)) -> 0 <= count <= zlen buf ->
  (count < 1024 -> exists s1, sys_write s 1 buf count = Ok (s1, Some count)
    /\ screen (io_console s1) = screen (io_console s) ++ Dir.chars (take (Z.to_nat count) buf)
    /\ console_free (io_console s1) /\ kern (io_fs s1) = kern (io_fs s))
  /\ (1024 <= count -> 0 ∉ take 1024 buf -> sys_write s 1 buf count = Err BadAccess).
Proof.
  intros Hp Hc Hi Hs Hn. unfold sys_write. change (1 <? 0) with false. change (1 =? 1) with true. cbn iota. rewrite Hp. cbn [obind].
  unfold fill_tmp, slice. zdec. change (Z.to_nat 0) with 0%nat. rewrite drop_0. cbn [obind].
  assert (zlen (take (Z.to_nat count) buf) = count) as Hl by (rewrite length_take; lia). split.
  - intros Hsm. unfold splice. rewrite Hl, length_replicate. zdec. cbn [andb obind]. change (Z.to_nat 0) with 0%nat. rewrite take_0.
    rewrite drop_replicate.
    replace (1024 - (0 + length (take (Z.to_nat count) buf)))%nat with (S (1023 - Z.to_nat count)) by lia. cbn [replicate app].
    match goal with |- context [console_put_str ?k ?c ?m] => pose proof (console_put_str_ok k c m Hs Hi Hc) as E end.
    rewrite c_string_stop in E. destruct E as (c' & E & Es & Hf). rewrite E. cbn [obind]. rewrite s32_small by lia.
    eexists. split; [done|]. cbn. split; [done|]. split; [done|]. by destruct (io_fs s).
  - intros Hbig Hz. unfold splice. rewrite Hl, length_replicate. change (Z.of_nat 1024) with 1024. destruct (Z.leb_spec (0 + count) 1024); [|done].
    assert (count = 1024) as -> by lia. change (Z.to_nat 0) with 0%nat. change (0 <=? 0) with true. cbn [andb obind].
    rewrite take_0, drop_ge, app_nil_r by (rewrite length_replicate; lia). cbn [app].
    match goal with |- context [console_put_str ?k ?c ?m] => pose proof (console_put_str_ok k c m Hs Hi Hc) as E end.
    change (Z.to_nat 1024) with 1024%nat in *. rewrite (c_string_open _ Hz) in E. by rewrite E.
Qed.

End pipes.

(** ** Witnesses, on the partition of Inode.v *)

Definition demo_console : console := mk_console lock_init [].
Definition demo_io (f : fstate sparse_disk bump_heap) : io sparse_disk bump_heap := mk_io _ _ f ∅ (demo_ring 5) demo_console.

Example write_read_back_witness : exists s1 f2 s3, sys_write (demo_io demo_open) 3 (replicate 40 65) 30 = Ok (s1, Some 30)
  /\ sys_lseek (io_fs s1) 3 600 SEEK_SET = Ok (f2, 600)
  /\ sys_read (with_files f2 s1) 3 4096 30 = Ok (s3, replicate 30 65, Some 30).
Proof.
  destruct demo_open_file as (Hx & Hi & Hm & Hp).
  destruct (write_read_back (demo_io demo_open) 3 3 (mk_file 0 2 4096) demo_opened 4096 (replicate 40 65) 30) as (s1 & f2 & s3 & E1 & E2 & E3 & _).
  - split; [lia | vm_compute; reflexivity | done | done | done].
  - reflexivity.
  - split; cbn [io_fs demo_io]; rewrite ?Hp, ?Hm.
    + split; [reflexivity | by apply words_ok].
    + exact (geometry_open _ _ demo_geometry).
    + exact demo_layout.
    + intros [=].
    + cbn; lia.
    + vm_compute; lia.
    + cbn; lia.
    + reflexivity.
  - apply bump_roomy.
  - lia.
  - rewrite length_replicate; lia.
  - apply Forall_replicate; unfold is_byte; lia.
  - exists s1, f2, s3. split; [exact E1|]. split; [exact E2 | exact E3].
Defined.

Lemma demo_free_fds l : l = 3 \/ l = 4 -> first_fd (if l =? 3 then initial_fd_table else <[3%nat := 3]> initial_fd_table) l.
Proof.
  intros [-> | ->]; split; try reflexivity; try (cbv; split; congruence); intros k Hk; [lia|].
  assert (k = 3) as -> by lia. by exists 3.
Qed.

Lemma demo_free_file : first_file demo_fs 3.
Proof. split; [cbv; split; congruence | reflexivity | intros k Hk; lia]. Qed.

Example pipe_carries_witness : exists s1 s2 s3, open_pipe (demo_io demo_fs) 8192 (replicate 2048 0) = Ok (s1, 3, 4, 0)
  /\ sys_write s1 4 [1; 2; 3] 3 = Ok (s2, Some 3) /\ sys_read s2 3 4096 2 = Ok (s3, [1; 2], Some 2).
Proof.
  destruct (pipe_carries (demo_io demo_fs) 3 initial_fd_table 3 4 8192 (replicate 2048 0) [1; 2; 3] 3 4096 2 demo_free_file eq_refl
    (demo_free_fds 3 ltac:(by left)) (demo_free_fds 4 ltac:(by right))) as (s1 & s2 & s3 & E1 & E2 & E3 & _);
    try done; [apply demo_ok|].
  exists s1, s2, s3. split; [exact E1|]. split; [exact E2 | exact E3].
Defined.

Example sys_write_screen_witness : exists s1, sys_write (demo_io demo_fs) 1 [104; 105; 0; 33] 4 = Ok (s1, Some 4)
  /\ screen (io_console s1) = [104; 105].
Proof.
  destruct (sys_write_screen (demo_io demo_fs) [104; 105; 0; 33] 4) as [Hs _]; try done; [apply demo_ok|].
  destruct (Hs ltac:(lia)) as (s1 & E & Es & _). exists s1. split; [exact E | exact Es].
Defined.
