(* ===== verification/Exec.v ===== *)
(** userprog/exec.c: loading an ELF file over the running process and starting it.
    Memory is the word memory of Paging.v read and written by bytes; the files are
    those of the file system. *)
From S2P Require Import Prelude Bitmap Thread Ioqueue Blockdev Inode Path Dir Fs File Rw Paging Process.
From S2P Require Fork.

(** ** Bytes of memory *)

(** Byte [n] of a little-endian word, and the word with it replaced. *)
Definition byte_of (w n : Z) : Z := Z.land (Z.shiftr w (8 * n)) 255.
Definition set_byte (w n b : Z) : Z := Z.lor (Z.land w (Z.lnot (Z.shiftl 255 (8 * n)))) (Z.shiftl b (8 * n)).

Definition load_byte (m : vm) (va : Z) : outcome Z :=
  let! w := load m (va - va mod 4) in Ok (byte_of w (va mod 4)).

Definition store_byte (m : vm) (va b : Z) : outcome vm :=
  let! w := load m (va - va mod 4) in store m (va - va mod 4) (set_byte w (va mod 4) b).

Fixpoint load_bytes (m : vm) (va : Z) (n : nat) : outcome (list Z) :=
  match n with
  | O => Ok []
  | S n => let! b := load_byte m va in let! l := load_bytes m (u32 (va + 1)) n in Ok (b :: l)
  end.

Fixpoint store_bytes (m : vm) (va : Z) (l : list Z) : outcome vm :=
  match l with
  | [] => Ok m
  | b :: l => let! m := store_byte m va b in store_bytes m (u32 (va + 1)) l
  end.

(** The string at [va], looked for over [fuel] bytes. *)
Fixpoint string_at (fuel : nat) (m : vm) (va : Z) : outcome (list Z) :=
  match fuel with
  | O => Err OutOfFuel
  | S fuel =>
      let! b := load_byte m va in
      if b =? 0 then Ok [] else let! s := string_at fuel m (u32 (va + 1)) in Ok (b :: s)
  end.

(** ** The structures of an ELF file *)

Definition rd_le16 (l : list Z) (off : Z) : outcome Z :=
  let! a := rd l off in let! b := rd l (off + 1) in Ok (a + 256 * b).

Record Elf32_Ehdr := mk_ehdr {
  e_ident : list Z; e_type : Z; e_machine : Z; e_version : Z; e_entry : Z; e_phoff : Z; e_shoff : Z; e_flags : Z;
  e_ehsize : Z; e_phentsize : Z; e_phnum : Z; e_shentsize : Z; e_shnum : Z; e_shstrndx : Z }.
Definition SIZEOF_EHDR : Z := 52.

Record Elf32_Phdr := mk_phdr {
  p_type : Z; p_offset : Z; p_vaddr : Z; p_paddr : Z; p_filesz : Z; p_memsz : Z; p_flags : Z; p_align : Z }.
Definition SIZEOF_PHDR : Z := 32.
Definition PT_LOAD : Z := 1.

Definition ehdr_at (l : list Z) : outcome Elf32_Ehdr :=
  let! ident := slice l 0 16 in
  let! type := rd_le16 l 16 in
  let! machine := rd_le16 l 18 in
  let! version := rd_le32 l 20 in
  let! entry := rd_le32 l 24 in
  let! phoff := rd_le32 l 28 in
  let! shoff := rd_le32 l 32 in
  let! flags := rd_le32 l 36 in
  let! ehsize := rd_le16 l 40 in
  let! phentsize := rd_le16 l 42 in
  let! phnum := rd_le16 l 44 in
  let! shentsize := rd_le16 l 46 in
  let! shnum := rd_le16 l 48 in
  let! shstrndx := rd_le16 l 50 in
  Ok (mk_ehdr ident type machine version entry phoff shoff flags ehsize phentsize phnum shentsize shnum shstrndx).

Definition phdr_at (l : list Z) : outcome Elf32_Phdr :=
  let! type := rd_le32 l 0 in
  let! offset := rd_le32 l 4 in
  let! vaddr := rd_le32 l 8 in
  let! paddr := rd_le32 l 12 in
  let! filesz := rd_le32 l 16 in
  let! memsz := rd_le32 l 20 in
  let! flags := rd_le32 l 24 in
  let! align := rd_le32 l 28 in
  Ok (mk_phdr type offset vaddr paddr filesz memsz flags align).

(** What [memcmp] compares the start of [e_ident] with. *)
Definition ELF_MAGIC : list Z := [127; 69; 76; 70; 1; 1; 1].

Definition bad_header (h : Elf32_Ehdr) : bool :=
  negb (bool_decide (take 7 (e_ident h) = ELF_MAGIC)) || negb (e_type h =? 2) || negb (e_machine h =? 3)
  || negb (e_version h =? 1) || (1024 <? e_phnum h) || negb (e_phentsize h =? SIZEOF_PHDR).

(** ** Loading *)

(** The machine, with what the file descriptors can lead to besides files. *)
Record prog {D H : Type} := mk_prog {
  p_sys : sys D H; p_pipes : gmap Z ioqueue; p_keys : ioqueue; p_console : console }.
Arguments prog : clear implicits.

Section exec.
Context {D H : Type} `{BlockDevice D} `{KernelHeap H}.
Abbreviation st := (prog D H).
Implicit Types (p : st).

Definition p_io p : io D H := mk_io _ _ (s_fs (p_sys p)) (p_pipes p) (p_keys p) (p_console p).
Definition with_io (s : io D H) p : st := mk_prog _ _ (with_fs (io_fs s) (p_sys p)) (io_pipes s) (kbd_buf s) (io_console s).
Definition p_vm p : vm := s_vm (p_sys p).
Definition with_mem (m : vm) p : st := mk_prog _ _ (with_vm m (p_sys p)) (p_pipes p) (p_keys p) (p_console p).
Definition with_sys (s : sys D H) p : st := mk_prog _ _ s (p_pipes p) (p_keys p) (p_console p).

(** The page loop of [segment_load]; [inr (_, false)] is the return when a page is
    missing. *)
Definition segment_page_body (is_process : bool) (occupy_pages : Z) (s : vm * Z * Z)
  : outcome (vm * Z * Z + vm * bool) :=
  let '(m, vaddr_page, page_idx) := s in
  if page_idx <? occupy_pages then
    let! pde := load m (pde_ptr vaddr_page) in
    let! missing :=
      if Z.land pde 0x00000001 =? 0 then Ok true
      else let! pte := load m (pte_ptr vaddr_page) in Ok (Z.land pte 0x00000001 =? 0) in
    if (missing : bool) then
      let! ' (m, page) := get_a_page m is_process PF_USER vaddr_page in
      if default 0 page =? 0 then Ok (inr (m, false))
      else Ok (inl (m, u32 (vaddr_page + PG_SIZE), page_idx + 1))
    else Ok (inl (m, u32 (vaddr_page + PG_SIZE), page_idx + 1))
  else Ok (inr (m, true)).

Definition segment_pages (m : vm) (is_process : bool) (filesz vaddr : Z) : outcome (vm * bool) :=
  let vaddr_first_page := Z.land vaddr 0xfffff000 in
  let size_in_first_page := PG_SIZE - Z.land vaddr 0x00000fff in
  let occupy_pages :=
    if size_in_first_page <? filesz then DIV_ROUND_UP (filesz - size_in_first_page) PG_SIZE + 1 else 1 in
  loop (segment_page_body is_process occupy_pages) (S (Z.to_nat occupy_pages)) (m, vaddr_first_page, 0).

(** [None] where the caller waits (for a pipe or the keyboard); neither result of
    [sys_lseek] nor that of [sys_read] is looked at. *)
Definition segment_load p (fd offset filesz vaddr : Z) : outcome (st * option bool) :=
  let! t := get_task (s_k (p_sys p)) (running_thread (s_k (p_sys p))) in
  let! ' (m, ok) := segment_pages (p_vm p) (negb (pgdir t =? 0)) filesz vaddr in
  let p := with_mem m p in
  if (ok : bool) then
    let! ' (f, _) := sys_lseek (s_fs (p_sys p)) fd (s32 offset) SEEK_SET in
    let p := with_io (with_files f (p_io p)) p in
    let! ' (s, out, r) := sys_read (p_io p) fd vaddr filesz in
    let! m := store_bytes (p_vm p) vaddr out in
    Ok (with_mem m (with_io s p), match r with Some _ => Some true | None => None end)
  else Ok (p, Some false).

(** The loop over the program headers; it is left with the value of [ret]. [sp] is
    the address of the local [prog_header]. *)
Definition load_body (fd sp : Z) (h : Elf32_Ehdr) (s : st * Z * Z) : outcome (st * Z * Z + st * option Z) :=
  let '(p, prog_header_offset, prog_idx) := s in
  if prog_idx <? e_phnum h then
    let! ' (f, _) := sys_lseek (s_fs (p_sys p)) fd (s32 prog_header_offset) SEEK_SET in
    let p := with_io (with_files f (p_io p)) p in
    let! ' (s, out, r) := sys_read (p_io p) fd sp (e_phentsize h) in
    let p := with_io s p in
    match r with
    | None => Ok (inr (p, None))
    | Some n =>
        if negb (n =? e_phentsize h) then Ok (inr (p, Some (-1))) else
        let! ph := phdr_at out in
        let! ' (p, r) :=
          if p_type ph =? PT_LOAD then segment_load p fd (p_offset ph) (p_filesz ph) (p_vaddr ph) else Ok (p, Some true) in
        match r with
        | None => Ok (inr (p, None))
        | Some false => Ok (inr (p, Some (-1)))
        | Some true => Ok (inl (p, u32 (prog_header_offset + e_phentsize h), prog_idx + 1))
        end
    end
  else Ok (inr (p, Some (s32 (e_entry h)))).

(** [load] once the file is open. *)
Definition load_file p (fd sp : Z) : outcome (st * option Z) :=
  let! ' (s, out, r) := sys_read (p_io p) fd sp SIZEOF_EHDR in
  let p := with_io s p in
  match r with
  | None => Ok (p, None)
  | Some n =>
      if negb (n =? SIZEOF_EHDR) then Ok (p, Some (-1)) else
      let! h := ehdr_at out in
      if bad_header h then Ok (p, Some (-1)) else
      loop (load_body fd sp h) (S (Z.to_nat (e_phnum h))) (p, e_phoff h, 0)
  end.

(** The page of a pipe that [sys_close] gives back is freed here. *)
Definition load_close p (fd : Z) : outcome st :=
  let! ' (f, _, page) := sys_close (s_fs (p_sys p)) fd in
  let! m := match page with Some a => mfree_page (p_vm p) PF_KERNEL a 1 | None => Ok (p_vm p) end in
  Ok (with_mem m (with_io (with_files f (p_io p)) p)).

(** [load]; the result is [None] where the caller waits. The first arguments are what
    [sys_open] finds in its memory. *)
Definition load_elf p (root_dir : dir) (name0 name1 dir_e0 pathname : list Z) (sp : Z) : outcome (st * option Z) :=
  let! ' (f, fd) := sys_open (s_fs (p_sys p)) root_dir name0 name1 dir_e0 pathname O_RDONLY in
  let p := with_io (with_files f (p_io p)) p in
  if fd =? -1 then Ok (p, Some (-1)) else
  let! ' (p, r) := load_file p fd sp in
  match r with
  | None => Ok (p, None)
  | Some ret => let! p := load_close p fd in Ok (p, Some ret)
  end.

(** ** [sys_execv] *)

Definition argc_body (m : vm) (argv argc : Z) : outcome (Z + Z) :=
  let! a := load m (u32 (argv + 4 * argc)) in
  if a =? 0 then Ok (inr argc) else Ok (inl (argc + 1)).

(** The context the process starts with. *)
Definition exec_context (c : intr_stack) (argv argc entry_point : Z) : intr_stack :=
  mk_intr (is_vec_no c) (is_edi c) (is_esi c) (is_ebp c) (is_esp_dummy c) argv (is_edx c) argc (is_eax c)
    (is_gs c) (is_fs c) (is_es c) (is_ds c) (is_err_code c) (u32 entry_point) (is_cs c) (is_eflags c) 0xc0000000 (is_ss c).

(** [None] where the caller waits; [Some None] the failed call; else the jump to
    [intr_exit] with the context. [path] is read before the file is loaded, and again
    afterwards, for the name. [fuel] bounds the strings and the argument vector. *)
Definition sys_execv (fuel : nat) p (root_dir : dir) (name0 name1 dir_e0 : list Z) (sp path argv : Z)
  : outcome (st * option (option intr_stack)) :=
  let! argc := loop (argc_body (p_vm p) argv) fuel 0 in
  let! pathname := string_at fuel (p_vm p) path in
  let! ' (p, r) := load_elf p root_dir name0 name1 dir_e0 (pathname ++ [0]) sp in
  match r with
  | None => Ok (p, None)
  | Some entry_point =>
      if entry_point =? -1 then Ok (p, Some None) else
      let cur := running_thread (s_k (p_sys p)) in
      let! name := load_bytes (p_vm p) path 16 in
      let! name := wr name 15 0 in
      let! k := upd_task (s_k (p_sys p)) cur (Fork.set_name name) in
      let s := with_k k (p_sys p) in
      let! c := get_context s cur in
      let c := exec_context c argv argc entry_point in
      Ok (with_sys (with_context cur c s) p, Some (Some c))
  end.
End exec.
