(* ===== verification/Loader.v ===== *)
(** What the loader of Exec.v does to the address space of the running process. *)
From S2P Require Import Prelude Bitmap Paging Process Space Exec.

(** ** Bytes of words *)

Lemma byte_of_bits w n i : 0 <= n -> 0 <= i < 8 -> Z.testbit (byte_of w n) i = Z.testbit w (8 * n + i).
Proof.
  intros Hn Hi. unfold byte_of. rewrite Z.land_spec, Z.shiftr_spec by lia. change 255 with (Z.ones 8).
  rewrite Z.ones_spec_low, andb_true_r by lia. f_equal. lia.
Qed.

Lemma byte_of_range w n : is_byte (byte_of w n).
Proof. unfold byte_of, is_byte. change 255 with (Z.ones 8). rewrite Z.land_ones by lia. apply Z.mod_pos_bound. lia. Qed.

Lemma byte_ext a b : is_byte a -> is_byte b -> (forall i, 0 <= i < 8 -> Z.testbit a i = Z.testbit b i) -> a = b.
Proof.
  intros Ha Hb Hi. apply Z.bits_inj'. intros i Hi0. destruct (Z.lt_ge_cases i 8) as [Hlt|Hge]; [by apply Hi|].
  assert (forall z, is_byte z -> Z.testbit z i = false) as Hz; [|by rewrite !Hz].
  intros z [Hz0 Hz]. destruct (Z.eq_dec z 0) as [->|Hne]; [apply Z.bits_0|]. apply Z.bits_above_log2; [done|].
  apply Z.log2_lt_pow2; [lia|]. apply (Z.lt_le_trans _ (2 ^ 8)); [exact Hz | apply Z.pow_le_mono_r; lia].
Qed.

Lemma byte_of_set w n b k : 0 <= n -> 0 <= k -> is_byte b ->
  byte_of (set_byte w n b) k = if k =? n then b else byte_of w k.
Proof.
  intros Hn Hk Hb. apply byte_ext; [apply byte_of_range | case_bool; [done | apply byte_of_range]|]. intros i Hi.
  rewrite byte_of_bits by done. unfold set_byte. rewrite Z.lor_spec, Z.land_spec, Z.lnot_spec, !Z.shiftl_spec by lia.
  change 255 with (Z.ones 8). case_bool; zb.
  - rewrite Z.ones_spec_low by lia. rewrite andb_false_r. cbn [orb]. f_equal. lia.
  - rewrite byte_of_bits by done. destruct (Z.lt_ge_cases k n) as [Hlt|Hge].
    + rewrite !(Z.testbit_neg_r _ (8 * k + i - 8 * n)) by lia. by rewrite andb_true_r, orb_false_r.
    + rewrite Z.ones_spec_high by lia. rewrite andb_true_r.
      assert (Z.testbit b (8 * k + i - 8 * n) = false) as ->; [|by rewrite orb_false_r].
      destruct Hb as [Hb0 Hb]. destruct (Z.eq_dec b 0) as [->|Hb1]; [apply Z.bits_0|]. apply Z.bits_above_log2; [done|].
      apply Z.log2_lt_pow2; [lia|]. apply (Z.lt_le_trans _ (2 ^ 8)); [exact Hb | apply Z.pow_le_mono_r; lia].
Qed.

(** ** The address space of a process *)

(** User pages lie on frames of their own. *)
Record space_ok (m : vm) : Prop := {
  so_vm : vm_ok m;
  so_page va f : user va -> va mod PG_SIZE = 0 -> mmu m va = Some f -> plain m f /\ forall pf, ~ frame_free (get_pool pf m) f;
  so_own va va' f : user va -> user va' -> va mod PG_SIZE = 0 -> va' mod PG_SIZE = 0 ->
    mmu m va = Some f -> mmu m va' = Some f -> va = va' }.

(** What a process reads at [va]. *)
Definition user_byte (m : vm) (va : Z) : option Z :=
  match mmu m va with Some pa => Some (byte_of (pm m (pa - pa mod 4)) (pa mod 4)) | None => None end.

Definition page_base (va : Z) : Z := va - va mod PG_SIZE.

Lemma page_base_eq va : page_base va = page_of va * PG_SIZE.
Proof. unfold page_base, page_of, PG_SIZE. change (2 ^ 12) with 4096. pose proof (Z.div_mod va 4096). lia. Qed.

Lemma page_base_mod va : page_base va mod PG_SIZE = 0.
Proof. rewrite page_base_eq. apply Z.mod_mul. done. Qed.

Lemma page_base_user va : user va -> user (page_base va).
Proof. unfold user, page_base, PG_SIZE. intros [Hl Hu]. pose proof (Z.mod_pos_bound va 4096). Z.to_euclidean_division_equations. lia. Qed.

Lemma mmu_base m va : mmu m va = (fun f => f + va mod PG_SIZE) <$> mmu m (page_base va).
Proof.
  assert (page_of (page_base va) = page_of va) as Ep.
  { rewrite page_base_eq. unfold page_of, PG_SIZE. change (2 ^ 12) with 4096. apply Z.div_mul. done. }
  assert (pdx (page_base va) = pdx va) as Ed.
  { unfold pdx, page_of in *. change (2 ^ 22) with (2 ^ 12 * 2 ^ 10). rewrite <- !Z.div_div by lia. by rewrite Ep. }
  assert (ptx (page_base va) = ptx va) as Et by (unfold ptx, page_of in *; by rewrite Ep).
  unfold mmu, pte_pa, pde_pa. rewrite Ed, Et. destruct (present _); [|done]. destruct (present _); [|done]. cbn.
  change (2 ^ 12) with PG_SIZE. by rewrite page_base_mod, Z.add_0_r.
Qed.

Lemma same_page_base va u : page_of u = page_of va <-> page_base u = page_base va.
Proof. rewrite !page_base_eq. unfold PG_SIZE. lia. Qed.

(** The frame and offset behind an address. *)
Lemma user_at m va pa : space_ok m -> user va -> mmu m va = Some pa ->
  exists f, mmu m (page_base va) = Some f /\ pa = f + va mod PG_SIZE /\ plain m f /\ pa mod 4 = va mod 4 /\ f mod 4 = 0.
Proof.
  intros Hs Hu E. rewrite mmu_base in E. destruct (mmu m (page_base va)) as [f|] eqn:Ef; [|done]. injection E as <-.
  destruct (so_page m Hs _ f (page_base_user va Hu) (page_base_mod va) Ef) as [Hp _]. exists f. split; [done|]. split; [done|]. split; [done|].
  destruct Hp as [[_ Hf] _ _]. unfold PG_SIZE. change (2 ^ 12) with 4096 in Hf. Z.to_euclidean_division_equations; lia.
Qed.

Lemma load_byte_ok m va : space_ok m -> user va ->
  load_byte m va = match user_byte m va with Some b => Ok b | None => Err BadAccess end.
Proof.
  intros Hs Hu. unfold load_byte, user_byte, load.
  assert (page_base (va - va mod 4) = page_base va) as Eb by (unfold page_base, PG_SIZE; Z.to_euclidean_division_equations; lia).
  rewrite (mmu_base m (va - va mod 4)), Eb. destruct (mmu m va) as [pa|] eqn:E.
  - destruct (user_at m va pa Hs Hu E) as (f & Ef & -> & _ & Hm & Hf). rewrite Ef. cbn. rewrite Hm. do 3 f_equal.
    unfold PG_SIZE. Z.to_euclidean_division_equations; lia.
  - rewrite mmu_base in E. by destruct (mmu m (page_base va)).
Qed.

(** Two user addresses lie on the same physical byte only when they are equal. *)
Lemma user_inj m va u pa : space_ok m -> user va -> user u -> mmu m va = Some pa -> mmu m u = Some pa -> u = va.
Proof.
  intros Hs Hv Hu Ev Eu. destruct (user_at m va pa Hs Hv Ev) as (f & Ef & Hpa & Hp & _), (user_at m u pa Hs Hu Eu) as (g & Eg & Hpa' & Hq & _).
  pose proof (Z.mod_pos_bound va PG_SIZE ltac:(done)). pose proof (Z.mod_pos_bound u PG_SIZE ltac:(done)).
  destruct Hp as [[_ Hf] _ _], Hq as [[_ Hg] _ _]. change (2 ^ 12) with PG_SIZE in *.
  assert (f = g /\ va mod PG_SIZE = u mod PG_SIZE) as [-> Eo] by (unfold PG_SIZE in *; Z.to_euclidean_division_equations; lia).
  pose proof (so_own m Hs _ _ g (page_base_user va Hv) (page_base_user u Hu) (page_base_mod va) (page_base_mod u) Ef Eg) as Eb.
  unfold page_base in Eb. lia.
Qed.

(** ** Writing *)

(** Nothing but the contents of user pages differs. *)
Record same_space (m m' : vm) : Prop := {
  ss_mmu va : mappable va -> mmu m' va = mmu m va;
  ss_cr3 : cr3 m' = cr3 m;
  ss_pool pf : get_pool pf m' = get_pool pf m;
  ss_kvaddr : kernel_vaddr m' = kernel_vaddr m;
  ss_uvaddr : userprog_vaddr m' = userprog_vaddr m }.

Lemma same_space_refl m : same_space m m.
Proof. by split. Qed.

Lemma same_space_trans m1 m2 m3 : same_space m1 m2 -> same_space m2 m3 -> same_space m1 m3.
Proof.
  intros [M1 ? P1 ? ?] [M2 ? P2 ? ?]. split; try congruence. intros va Hva. by rewrite M2, M1.
Qed.

Lemma writes_same m m' f : vm_ok m -> plain m f -> writes m m' f -> same_space m m'.
Proof.
  intros Hm Hp W. split; try apply W.
  - intros va Hva. destruct (mappable_idx va Hva) as (? & ? & _). apply (writes_mmu m m' f); done || lia.
  - intros pf. by apply (writes_pool m m' f).
Qed.

Lemma space_writes m m' f : space_ok m -> plain m f -> writes m m' f -> space_ok m'.
Proof.
  intros [Hm Hpg Hown] Hp W. pose proof (writes_same _ _ _ Hm Hp W) as S. split.
  - by apply (writes_ok m m' f).
  - intros va g Hu Hmod E. rewrite (ss_mmu _ _ S) in E by (by apply user_mappable). destruct (Hpg va g Hu Hmod E) as [Hg Hf].
    split; [by apply (writes_plain m m' f)|]. intros pf. rewrite (ss_pool _ _ S). apply Hf.
  - intros va va' g Hu Hu' Hv Hv' E E'. rewrite (ss_mmu _ _ S) in E, E' by (by apply user_mappable). by apply (Hown va va' g).
Qed.

Lemma store_byte_ok m va b : space_ok m -> user va -> user_byte m va <> None -> is_byte b ->
  exists m', store_byte m va b = Ok m' /\ space_ok m' /\ same_space m m'
    /\ forall u, user u -> user_byte m' u = if u =? va then Some b else user_byte m u.
Proof.
  intros Hs Hu Hb Hbyte. unfold user_byte in Hb. destruct (mmu m va) as [pa|] eqn:E; [|done].
  destruct (user_at m va pa Hs Hu E) as (f & Ef & Hpa & Hp & Hm4 & Hf4).
  assert (page_base (va - va mod 4) = page_base va) as Eb by (unfold page_base, PG_SIZE; Z.to_euclidean_division_equations; lia).
  assert (mmu m (va - va mod 4) = Some (pa - pa mod 4)) as Ew.
  { rewrite mmu_base, Eb, Ef. cbn. f_equal. rewrite Hm4, Hpa. unfold PG_SIZE. Z.to_euclidean_division_equations; lia. }
  unfold store_byte, load, store. rewrite Ew. cbn [obind]. set (w := set_byte _ _ _).
  set (m' := with_pm _ m). pose proof (Z.mod_pos_bound va 4 ltac:(lia)) as H4. pose proof (Z.mod_pos_bound va PG_SIZE ltac:(done)) as Hpg.
  assert (writes m m' f) as W.
  { constructor; try done. intros a Ha. cbn. destruct (Z.eqb_spec a (pa - pa mod 4)) as [->|]; [|done].
    exfalso. apply Ha. unfold PG_SIZE in *. Z.to_euclidean_division_equations; lia. }
  pose proof (writes_same _ _ _ (so_vm m Hs) Hp W) as S.
  exists m'. split; [done|]. split; [by apply (space_writes m m' f)|]. split; [done|]. intros u Huu. unfold user_byte.
  rewrite (ss_mmu _ _ S) by (by apply user_mappable). destruct (mmu m u) as [pb|] eqn:Eu.
  - destruct (user_at m u pb Hs Huu Eu) as (_ & _ & _ & _ & Hm4' & _). cbn. destruct (Z.eqb_spec u va) as [->|Hne].
    + rewrite E in Eu. injection Eu as <-. rewrite Z.eqb_refl. unfold w. rewrite Hm4, byte_of_set by (done || lia). by rewrite Z.eqb_refl.
    + destruct (Z.eqb_spec (pb - pb mod 4) (pa - pa mod 4)) as [Hw|]; [|done]. pose proof (Z.mod_pos_bound pb 4 ltac:(lia)). unfold w. rewrite byte_of_set by (done || lia).
      destruct (Z.eqb_spec (pb mod 4) (va mod 4)) as [Ho|]; [|by rewrite Hw].
      exfalso. apply Hne. apply (user_inj m va u pa); try done. rewrite Eu. f_equal. lia.
  - destruct (Z.eqb_spec u va) as [->|]; [congruence | done].
Qed.

Lemma store_bytes_ok l : forall m va, space_ok m -> Forall is_byte l ->
  (forall k, 0 <= k < zlen l -> user (va + k) /\ user_byte m (va + k) <> None) ->
  exists m', store_bytes m va l = Ok m' /\ space_ok m' /\ same_space m m'
    /\ forall u, user u -> user_byte m' u = if (va <=? u) && (u <? va + zlen l) then l !! Z.to_nat (u - va) else user_byte m u.
Proof.
  induction l as [|b l IH]; intros m va Hs Hl Hr.
  - exists m. split; [done|]. split; [done|]. split; [apply same_space_refl|]. intros u Hu. cbn [length].
    destruct (Z.leb_spec va u), (Z.ltb_spec u (va + Z.of_nat 0)); try done; lia.
  - apply Forall_cons in Hl as [Hb Hl]. assert (zlen (b :: l) = zlen l + 1) as Hz by (cbn; lia). rewrite Hz in *.
    destruct (Hr 0 ltac:(lia)) as [Hu0 Hb0]. rewrite Z.add_0_r in *.
    destruct (store_byte_ok m va b Hs Hu0 Hb0 Hb) as (m1 & E1 & Hs1 & S1 & B1). cbn [store_bytes]. rewrite E1. cbn [obind].
    rewrite u32_small by (unfold user in Hu0; lia).
    destruct (IH m1 (va + 1) Hs1 Hl) as (m2 & E2 & Hs2 & S2 & B2).
    { intros k Hk. replace (va + 1 + k) with (va + (k + 1)) by lia. destruct (Hr (k + 1) ltac:(lia)) as [Hu Hn]. split; [done|].
      rewrite B1 by done. by case_bool. }
    exists m2. split; [done|]. split; [done|]. split; [by apply (same_space_trans _ m1)|]. intros u Hu. rewrite B2, B1 by done.
    destruct (Z.eqb_spec u va) as [->|Hne].
    + zdec. cbn [andb]. rewrite Z.sub_diag. done.
    + destruct (Z.leb_spec (va + 1) u), (Z.leb_spec va u); try lia; cbn [andb]; [|done].
      replace (u <? va + 1 + zlen l) with (u <? va + (zlen l + 1)) by (f_equal; lia). case_bool; [|done].
      replace (Z.to_nat (u - va)) with (S (Z.to_nat (u - (va + 1)))) by lia. done.
Qed.

(** ** Taking a page *)

(** The address pool of the process has a bit for the page at [va]. *)
Record covers (m : vm) (va : Z) : Prop := {
  cv_wf : bitmap_wf 1 (vaddr_bitmap (userprog_vaddr m));
  cv_start : 0 <= vaddr_start (userprog_vaddr m) <= va;
  cv_bit : (va - vaddr_start (userprog_vaddr m)) / PG_SIZE < nbits (vaddr_bitmap (userprog_vaddr m)) }.

(** Every page mapped in [m] has its frame and contents in [m']. *)
Definition keeps_pages (m m' : vm) : Prop :=
  (forall va, user va -> mmu m va <> None -> mmu m' va = mmu m va)
  /\ forall va, user va -> user_byte m va <> None -> user_byte m' va = user_byte m va.

Lemma keeps_pages_refl m : keeps_pages m m.
Proof. by split. Qed.

Lemma keeps_pages_trans m1 m2 m3 : keeps_pages m1 m2 -> keeps_pages m2 m3 -> keeps_pages m1 m3.
Proof.
  intros [M1 B1] [M2 B2]. split; intros va Hu Hn.
  - rewrite M2; [by apply M1 | done | by rewrite M1].
  - rewrite B2; [by apply B1 | done | by rewrite B1].
Qed.

Section take.
Variables (m m1 m' : vm) (va f t : Z) (q : pool).
Hypothesis Hs : space_ok m.
Hypothesis Hva : user va.
Hypothesis Hmod : va mod PG_SIZE = 0.
Hypothesis Hsub : pool_sub q (user_pool m).
Hypothesis Hf : frame_free (user_pool m) f.
Hypothesis Hnf : ~ frame_free q f.
Hypothesis Hal : aligned f.
Hypothesis Hpm : pm m1 = pm m.
Hypothesis Hcr : cr3 m1 = cr3 m.
Hypothesis Hk : kernel_pool m1 = kernel_pool m.
Hypothesis Hq : user_pool m1 = q.
Hypothesis Had : added m1 m' va f.
Hypothesis Htw : table_write m1 m' va t.

Lemma take_mmu u : mmu m1 u = mmu m u.
Proof. unfold mmu, pte_pa, pde_pa. by rewrite Hpm, Hcr. Qed.

Lemma take_free pf g : frame_free (get_pool pf m') g -> frame_free (get_pool pf m) g.
Proof.
  destruct pf; cbn; [|rewrite (ad_upool _ _ _ _ Had), Hq; apply Hsub]. rewrite <- Hk. apply (ad_kpool _ _ _ _ Had).
Qed.

Lemma take_table g : is_table m' g -> is_table m g \/ frame_free (kernel_pool m) g.
Proof.
  intros Hg. destruct (ad_tables _ _ _ _ Had g Hg) as [(i & Hi & Hp & E)|Hfr]; [left; exists i; by rewrite <- Hpm, <- Hcr | right; by rewrite <- Hk].
Qed.

Lemma table_not_free pf g : is_table m g -> ~ frame_free (get_pool pf m) g.
Proof. intros (i & Hi & Hp & E). destruct (vo_tables m (so_vm m Hs) i Hi Hp) as [_ Hn]. rewrite <- E. apply Hn. Qed.

(** A frame in use stays what it is. *)
Lemma take_plain g : plain m g -> (forall pf, ~ frame_free (get_pool pf m) g) -> plain m' g /\ forall pf, ~ frame_free (get_pool pf m') g.
Proof.
  intros [Ha Hd Ht] Hfr. split; [split; [done | |]|].
  - by rewrite (ad_cr3 _ _ _ _ Had), Hcr.
  - intros Hg. destruct (take_table g Hg) as [|Hkf]; [done | by apply (Hfr PF_KERNEL)].
  - intros pf Hg. by apply (Hfr pf), take_free.
Qed.

Lemma take_new : plain m' f /\ forall pf, ~ frame_free (get_pool pf m') f.
Proof.
  pose proof (so_vm m Hs) as Hm. split; [split; [done | |]|].
  - rewrite (ad_cr3 _ _ _ _ Had), Hcr. intros ->. by apply (vo_cr3_used m Hm PF_USER).
  - intros Hg. destruct (take_table f Hg) as [Ht|Hkf]; [by apply (table_not_free PF_USER f Ht) | by apply (pools_disjoint m f)].
  - intros [] Hg; [apply (pools_disjoint m f Hm); [by apply (take_free PF_KERNEL) | done]|].
    apply Hnf. rewrite <- Hq, <- (ad_upool _ _ _ _ Had). exact Hg.
Qed.

Lemma take_own u : user u -> u mod PG_SIZE = 0 -> u <> va -> mmu m' u = mmu m u.
Proof.
  intros Hu Hum Hne. rewrite (ad_other _ _ _ _ Had); [apply take_mmu | by apply user_mappable|].
  rewrite same_page_base. unfold page_base. rewrite Hum, Hmod. lia.
Qed.

Lemma take_mapped : mmu m' va = Some f.
Proof. rewrite (ad_map _ _ _ _ Had). change (2 ^ 12) with PG_SIZE. rewrite Hmod. f_equal. lia. Qed.

Lemma take_space : space_ok m'.
Proof.
  split; [apply (ad_ok _ _ _ _ Had) | |].
  - intros u g Hu Hum E. destruct (Z.eq_dec u va) as [->|Hne]; [rewrite take_mapped in E; injection E as <-; apply take_new|].
    rewrite take_own in E by done. destruct (so_page m Hs u g Hu Hum E). by apply take_plain.
  - intros u u' g Hu Hu' Hum Hum' E E'.
    assert (forall w, user w -> w mod PG_SIZE = 0 -> w <> va -> mmu m' w = Some f -> False) as Hnew.
    { intros w Hw Hwm Hne Ew. rewrite take_own in Ew by done. destruct (so_page m Hs w f Hw Hwm Ew) as [_ Hn]. by apply (Hn PF_USER). }
    destruct (Z.eq_dec u va) as [->|Hn1], (Z.eq_dec u' va) as [->|Hn2]; try done.
    + rewrite take_mapped in E. injection E as <-. exfalso. by apply (Hnew u').
    + rewrite take_mapped in E'. injection E' as <-. exfalso. by apply (Hnew u).
    + rewrite take_own in E, E' by done. by apply (so_own m Hs u u' g).
Qed.

Lemma take_words g i : plain m g -> (forall pf, ~ frame_free (get_pool pf m) g) -> 0 <= i < PG_SIZE -> pm m' (g + i) = pm m (g + i).
Proof.
  intros [Ha Hd Ht] Hfr Hi. rewrite <- Hpm. pose proof (mappable_idx va (user_mappable va Hva)) as (_ & Hx & _). apply (tw_rest _ _ _ _ Htw).
  - unfold pde_pa. rewrite Hcr. intros E. apply (out_of_frame g (cr3 m) i); [done | apply (so_vm m Hs) | done | done | unfold PG_SIZE; lia].
  - apply out_of_frame; [done | apply Htw | | done]. intros ->. pose proof (tw_table _ _ _ _ Htw) as [[Hp E]|[Hkf _]].
    + apply Ht. exists (pdx va). pose proof (tw_frame _ _ _ _ Htw) as Hfr'. rewrite E in Hfr'. unfold pde_pa in *. rewrite Hcr, Hpm in *. split; [lia | done].
    + rewrite Hk in Hkf. by apply (Hfr PF_KERNEL).
Qed.

Hypothesis Hnone : mmu m va = None.

Lemma take_keeps : keeps_pages m m'.
Proof.
  assert (forall u, user u -> mmu m u <> None -> mmu m' u = mmu m u) as Hmm.
  { intros u Hu Hn. rewrite mmu_base, (mmu_base m u). f_equal. apply take_own; [by apply page_base_user | apply page_base_mod|].
    intros E. by rewrite mmu_base, E, Hnone in Hn. }
  split; [done|]. intros u Hu Hb. unfold user_byte in *. destruct (mmu m u) as [pa|] eqn:E; [|done].
  rewrite Hmm by (done || congruence). rewrite E. destruct (user_at m u pa Hs Hu E) as (g & Eg & -> & Hp & Hm4 & Hg4).
  destruct (so_page m Hs _ g (page_base_user u Hu) (page_base_mod u) Eg) as [_ Hfr].
  replace (g + u mod PG_SIZE - (g + u mod PG_SIZE) mod 4) with (g + (u mod PG_SIZE - u mod 4)) by lia.
  rewrite take_words; try done. pose proof (Z.mod_pos_bound u 4 ltac:(lia)). unfold PG_SIZE. Z.to_euclidean_division_equations; lia.
Qed.
End take.

(** [get_a_page] for the running process, of a page that is not mapped. *)
Lemma get_a_page_ok m va : space_ok m -> user va -> va mod PG_SIZE = 0 -> mmu m va = None -> covers m va ->
  (0 < free_pages (user_pool m))%nat -> (0 < free_pages (kernel_pool m))%nat ->
  exists m', get_a_page m true PF_USER va = Ok (m', Some va) /\ space_ok m' /\ keeps_pages m m' /\ mmu m' va <> None
    /\ (forall u, covers m u -> covers m' u) /\ cr3 m' = cr3 m
    /\ (free_pages (user_pool m) <= S (free_pages (user_pool m')))%nat /\ (free_pages (kernel_pool m) <= S (free_pages (kernel_pool m')))%nat.
Proof.
  intros Hs Hu Hmod Hnone [Hwf Hst Hbit] Hfu Hfk. pose proof (so_vm m Hs) as Hm. unfold get_a_page.
  set (k := (va - vaddr_start (userprog_vaddr m)) / PG_SIZE) in *.
  assert (0 <= k < 2 ^ 20) as Hk. { unfold k, user, PG_SIZE in *. Z.to_euclidean_division_equations; lia. }
  unfold user in Hu. rewrite u32_small by lia. fold k. rewrite s32_small by lia. zdec. cbn [c_assert obind]. rewrite u32_small by lia.
  destruct (bitmap_set_ok (vaddr_bitmap (userprog_vaddr m)) 1 k true Hwf ltac:(lia)) as (b & Eb & Hlb & Hwfb & _). cbn [Z.b2z] in Eb. rewrite Eb. cbn [obind].
  set (m0 := with_uvaddr _ m). change (get_pool PF_USER m0) with (user_pool m).
  destruct (palloc_ok (user_pool m) (vo_upool m Hm) Hfu) as (q & f & Ep & Hq & Hsub & Hff & Hnf & Hal & Hcnt). rewrite Ep. cbn [obind].
  set (m1 := with_pool PF_USER q m0).
  assert (vm_ok m0) as Hm0 by (by apply (vm_ok_ext m)).
  assert (vm_ok m1) as Hm1 by (by apply (vm_ok_pool m0 PF_USER q)).
  destruct (page_table_add_frame m1 va f Hm1 (user_mappable va Hu) Hnone Hal Hfk) as (m' & t & E & Had & Htw). rewrite E. cbn [obind].
  assert (mmu m' va = Some f) as Emap.
  { rewrite (ad_map _ _ _ _ Had). change (2 ^ 12) with PG_SIZE. rewrite Hmod. f_equal. lia. }
  exists m'. split; [done|]. split; [by apply (take_space m m1 m' va f q)|]. split; [by apply (take_keeps m m1 m' va f t)|].
  split; [by rewrite Emap|]. split; [|split; [by rewrite (ad_cr3 _ _ _ _ Had)|]].
  - intros u [Hw Hs' Hb]. split; rewrite (ad_uvaddr _ _ _ _ Had); cbn; [done | done|]. unfold nbits in *. by rewrite Hlb.
  - rewrite (ad_upool _ _ _ _ Had). pose proof (ad_cnt _ _ _ _ Had) as Hc. cbn in *. lia.
Qed.

(** ** The pages of a segment *)

(** How many pages [n] bytes at [va] touch. *)
Definition touched (va n : Z) : Z := (va mod PG_SIZE + n - 1) / PG_SIZE + 1.

Lemma touched_bounds va n : 0 < n -> user va -> va + n <= 0xc0000000 ->
  1 <= touched va n /\ forall j, 0 <= j < touched va n -> user (page_base va + j * PG_SIZE) /\ (page_base va + j * PG_SIZE) mod PG_SIZE = 0.
Proof.
  intros Hn Hu He. unfold touched. split; [unfold PG_SIZE; Z.to_euclidean_division_equations; lia|]. intros j Hj. split.
  - unfold user, page_base, PG_SIZE in *. Z.to_euclidean_division_equations; lia.
  - unfold page_base, PG_SIZE in *. Z.to_euclidean_division_equations; lia.
Qed.

Lemma touched_page va n k : 0 <= k < n -> exists j, 0 <= j < touched va n /\ page_base (va + k) = page_base va + j * PG_SIZE.
Proof.
  intros Hk. exists ((va mod PG_SIZE + k) / PG_SIZE). unfold touched, page_base, PG_SIZE. Z.to_euclidean_division_equations; lia.
Qed.

(** The running process has room for [n] more pages from [va] on. *)
Record room (m : vm) (va : Z) (n : Z) : Prop := {
  rm_user : (Z.to_nat n <= free_pages (user_pool m))%nat;
  rm_kernel : (Z.to_nat n <= free_pages (kernel_pool m))%nat;
  rm_covers j : 0 <= j < n -> covers m (page_base va + j * PG_SIZE) }.

(** What the loop has done when [idx] of the pages are worked off. *)
Record paged (m m' : vm) (base idx : Z) : Prop := {
  pg_space : space_ok m';
  pg_keeps : keeps_pages m m';
  pg_mapped j : 0 <= j < idx -> mmu m' (base + j * PG_SIZE) <> None;
  pg_covers u : covers m u -> covers m' u;
  pg_cr3 : cr3 m' = cr3 m;
  pg_user : (free_pages (user_pool m) <= Z.to_nat idx + free_pages (user_pool m'))%nat;
  pg_kernel : (free_pages (kernel_pool m) <= Z.to_nat idx + free_pages (kernel_pool m'))%nat }.

Lemma missing_ok m va : vm_ok m -> user va ->
  (let! pde := load m (pde_ptr va) in
   if Z.land pde 0x00000001 =? 0 then Ok true else let! pte := load m (pte_ptr va) in Ok (Z.land pte 0x00000001 =? 0))
  = Ok (bool_decide (mmu m va = None)).
Proof.
  intros Hm Hu. assert (0 <= va < 2 ^ 32) as Hr by (unfold user in Hu; lia). rewrite load_pde by done. cbn [obind]. rewrite land1.
  unfold mmu. destruct (present (pm m (pde_pa m va))) eqn:Hp; cbn [negb]; [|done].
  rewrite load_pte by done. cbn [obind]. rewrite land1. by destruct (present (pm m (pte_pa m va))).
Qed.

Lemma segment_step m m1 va n idx : paged m m1 (page_base va) idx -> room m va n -> 0 <= idx < n ->
  (forall j, 0 <= j < n -> user (page_base va + j * PG_SIZE)) ->
  exists m2, segment_page_body true n (m1, page_base va + idx * PG_SIZE, idx)
    = Ok (inl (m2, page_base va + (idx + 1) * PG_SIZE, idx + 1)) /\ paged m m2 (page_base va) (idx + 1).
Proof.
  intros [Hs Hk Hmap Hcv Hc Hfu Hfk] [Ru Rk Rc] Hi Hall. pose proof (Hall idx Hi) as Hu. set (u := page_base va + idx * PG_SIZE) in *.
  assert (u mod PG_SIZE = 0) as Hmod by (unfold u; rewrite Z.mod_add by done; apply page_base_mod).
  assert (u32 (u + PG_SIZE) = page_base va + (idx + 1) * PG_SIZE) as Hnext by (unfold user, u, PG_SIZE in *; rewrite u32_small; lia).
  unfold segment_page_body. zdec. pose proof (missing_ok m1 u (so_vm m1 Hs) Hu) as Hmis.
  destruct (load m1 (pde_ptr u)) as [pde|]; [|done]. cbn [obind] in *. rewrite Hmis. cbn [obind].
  destruct (mmu m1 u) as [f|] eqn:Em.
  - rewrite bool_decide_false by done. rewrite Hnext. exists m1. split; [done|]. split; try done; [|lia..].
    intros j Hj. destruct (Z.eq_dec j idx) as [->|]; [fold u; congruence | apply Hmap; lia].
  - rewrite bool_decide_true by done.
    destruct (get_a_page_ok m1 u Hs Hu Hmod Em) as (m2 & E & Hs2 & Hk2 & Hm2 & Hcv2 & Hc2 & Hfu2 & Hfk2); [apply Hcv, Rc; lia | lia | lia |].
    rewrite E. cbn [obind default from_option id]. replace (u =? 0) with false by (symmetry; apply Z.eqb_neq; unfold user in Hu; lia).
    rewrite Hnext. exists m2. split; [done|]. split; [done | by apply (keeps_pages_trans _ m1) | | by auto | congruence | lia | lia].
    intros j Hj. destruct (Z.eq_dec j idx) as [->|Hne]; [done|]. rewrite (proj1 Hk2); [apply Hmap; lia | | apply Hmap; lia]. apply Hall. lia.
Qed.

Lemma segment_pages_ok m filesz va : space_ok m -> 0 < filesz -> user va -> va + filesz <= 0xc0000000 -> room m va (touched va filesz) ->
  exists m', segment_pages m true filesz va = Ok (m', true) /\ paged m m' (page_base va) (touched va filesz).
Proof.
  intros Hs Hn Hu He R. destruct (touched_bounds va filesz Hn Hu He) as [Hpos Hall]. unfold segment_pages.
  assert (Z.land va 0x00000fff = va mod PG_SIZE) as -> by (change 0xfff with (Z.ones 12); by apply Z.land_ones).
  assert (Z.land va 0xfffff000 = page_base va) as ->.
  { rewrite land_frame. unfold frame, user, page_base, PG_SIZE in *. change (2 ^ 12) with 4096. change (2 ^ 20) with 1048576. Z.to_euclidean_division_equations; lia. }
  assert ((if PG_SIZE - va mod PG_SIZE <? filesz then DIV_ROUND_UP (filesz - (PG_SIZE - va mod PG_SIZE)) PG_SIZE + 1 else 1) = touched va filesz) as ->.
  { unfold touched, DIV_ROUND_UP, user, PG_SIZE in *. destruct (Z.ltb_spec (4096 - va mod 4096) filesz).
    - rewrite u32_small by (Z.to_euclidean_division_equations; lia). do 2 f_equal. lia.
    - Z.to_euclidean_division_equations; lia. }
  set (n := touched va filesz) in *.
  apply (loop_rule _ (fun s : vm * Z * Z => let '(m1, u, idx) := s in u = page_base va + idx * PG_SIZE /\ 0 <= idx <= n /\ paged m m1 (page_base va) idx)
    (fun o => exists m', o = Ok (m', true) /\ paged m m' (page_base va) n) (fun s => Z.to_nat (n - snd s))).
  - intros [[m1 u] idx] (-> & Hi & P). destruct (Z.eq_dec idx n) as [->|Hne].
    + unfold segment_page_body. rewrite Z.ltb_irrefl. by exists m1.
    + destruct (segment_step m m1 va n idx P R ltac:(lia) (fun j Hj => proj1 (Hall j Hj))) as (m2 & E & P2). rewrite E.
      cbn [snd]. split; [|lia]. split; [done|]. split; [lia | done].
  - split; [lia|]. split; [lia|]. split; [done | apply keeps_pages_refl | intros j Hj; lia | by auto | done | lia | lia].
  - cbn [snd]. lia.
Qed.

(** Every byte of the segment is mapped afterwards. *)
Lemma paged_bytes m m' va n k : paged m m' (page_base va) (touched va n) -> 0 <= k < n -> user_byte m' (va + k) <> None.
Proof.
  intros P Hk. destruct (touched_page va n k Hk) as (j & Hj & E). pose proof (pg_mapped _ _ _ _ P j Hj) as Hm. rewrite <- E in Hm.
  unfold user_byte. rewrite mmu_base. by destruct (mmu m' (page_base (va + k))).
Qed.
