(* ===== verification/Execspec.v ===== *)
(** Loading a program (userprog/exec.c): what [load] leaves in the memory of the
    running process, in terms of the bytes of the file and of its ELF headers. *)
From S2P Require Import Prelude Bitmap Thread Ide Blockdev Inode File Filewrite Paging Process Space Rw Exec Loader.

(** ** Specification *)

(** [n] bytes of a file from [off] on. *)
Definition file_bytes {D} `{BlockDevice D} (d : D) (i : inode) (off n : Z) : list Z :=
  map (fun k => default 0 (file_byte d i (off + k))) (seqZ 0 n).

(** The segment of a program header contains address [u]. *)
Definition loads (ph : Elf32_Phdr) (u : Z) : bool :=
  (p_type ph =? PT_LOAD) && (p_vaddr ph <=? u) && (u <? p_vaddr ph + p_filesz ph).

(** The byte at [u] when the segments have been put over memory in their order;
    [b] is what was there. *)
Definition image {D} `{BlockDevice D} (d : D) (i : inode) (phs : list Elf32_Phdr) (u : Z) (b : option Z) : option Z :=
  fold_left (fun b ph => if loads ph u then file_byte d i (p_offset ph + (u - p_vaddr ph)) else b) phs b.

(** A segment that lies in the file and in the memory of the process. *)
Definition segment_ok (i : inode) (ph : Elf32_Phdr) : Prop :=
  0 < p_filesz ph /\ user (p_vaddr ph) /\ p_vaddr ph + p_filesz ph <= 0xc0000000
  /\ 0 <= p_offset ph /\ p_offset ph + p_filesz ph <= i_size i.

(** A 32-bit little-endian ELF executable for the 80386, of the current version, with
    at most 1024 program headers of the usual size. *)
Definition accepted (h : Elf32_Ehdr) : Prop :=
  take 7 (e_ident h) = [127; 69; 76; 70; 1; 1; 1] /\ e_type h = 2 /\ e_machine h = 3 /\ e_version h = 1
  /\ e_phnum h <= 1024 /\ e_phentsize h = 32.

Lemma bad_header_false h : bad_header h = false <-> accepted h.
Proof.
  unfold bad_header, accepted, SIZEOF_PHDR. rewrite !orb_false_iff, !negb_false_iff, !Z.eqb_eq, Z.ltb_ge, bool_decide_eq_true. tauto.
Qed.

Lemma bad_header_true h : ~ accepted h -> bad_header h = true.
Proof. rewrite <- bad_header_false. by destruct (bad_header h). Qed.

(** The file is an executable with header [h] and program headers [phs]. *)
Record executable {D} `{BlockDevice D} (d : D) (i : inode) (h : Elf32_Ehdr) (phs : list Elf32_Phdr) : Prop := {
  ex_size : SIZEOF_EHDR <= i_size i;
  ex_header : ehdr_at (file_bytes d i 0 SIZEOF_EHDR) = Ok h;
  ex_good : accepted h;
  ex_number : zlen phs = e_phnum h;
  ex_table : 0 <= e_phoff h /\ e_phoff h + SIZEOF_PHDR * e_phnum h <= i_size i;
  ex_phdr k ph : phs !! k = Some ph -> phdr_at (file_bytes d i (e_phoff h + SIZEOF_PHDR * Z.of_nat k) SIZEOF_PHDR) = Ok ph;
  ex_loads : Forall (fun ph => p_type ph = PT_LOAD -> segment_ok i ph) phs }.

(** The pages the segments touch. *)
Definition pages_of (phs : list Elf32_Phdr) : Z :=
  foldr (fun ph n => (if p_type ph =? PT_LOAD then touched (p_vaddr ph) (p_filesz ph) else 0) + n) 0 phs.

(** There are frames and addresses for them. *)
Record rooms (m : vm) (phs : list Elf32_Phdr) : Prop := {
  rs_user : pages_of phs <= Z.of_nat (free_pages (user_pool m));
  rs_kernel : pages_of phs <= Z.of_nat (free_pages (kernel_pool m));
  rs_covers ph j : ph ∈ phs -> p_type ph = PT_LOAD -> 0 <= j < touched (p_vaddr ph) (p_filesz ph) ->
    covers m (page_base (p_vaddr ph) + j * PG_SIZE) }.

(** ** Reading the file *)

Section exec.
Context {D H : Type} `{BlockDeviceLaws D} `{KernelHeapLaws H}.
Implicit Types (f : fstate D H) (p : prog D H).

(** The file system after reads and seeks: the position of one file, and the heap. *)
Definition moved f (g : Z) (x : file) (pos : Z) (h : H) : fstate D H :=
  with_kheap h (Inode.with_files (<[Z.to_nat g := set_pos pos x]> (file_table f)) f).

(** The machine with its file system and memory exchanged. *)
Definition machine p f (m : vm) : prog D H := with_mem m (with_io (with_files f (p_io p)) p).

(** A regular file open for reading. *)
Record readable f (fd g : Z) (x : file) (i : inode) : Prop := {
  re_stands : stands_for f fd g x i;
  re_wf : wf_inode i;
  re_geometry : geometry (cur_part f);
  re_layout : file_layout (cur_part f) (medium f) i (blocks_of i);
  re_used : blocks_of i <> 0;
  re_small : i_size i < 71168 }.

Lemma moved_stands f fd g x i pos h : stands_for f fd g x i -> stands_for (moved f g x pos h) fd g (set_pos pos x) i.
Proof. intros Hs. apply (stands_after f _ fd g x i pos i Hs); try done. destruct Hs as [_ _ _ Hi _]. cbn. unfold get_inode in Hi. by destruct (inodes f !! fd_inode x); [injection Hi as ->|]. Qed.

Lemma moved_moved f g x a b h1 h2 : moved (moved f g x a h1) g (set_pos a x) b h2 = moved f g x b h2.
Proof. unfold moved, with_kheap, Inode.with_files. cbn. by rewrite list_insert_insert_eq. Qed.

Lemma file_bytes_eq f i off n out : zlen out = n -> (forall k, 0 <= k < n -> out !! Z.to_nat k = file_byte (medium f) i (off + k)) ->
  out = file_bytes (medium f) i off n.
Proof.
  intros Hl Ho. unfold file_bytes. apply (list_by_znth _ _ n Hl).
  - rewrite length_map, length_seqZ. lia.
  - intros k Hk. rewrite Ho by done. rewrite list_lookup_fmap, lookup_seqZ_lt by lia. cbn.
    specialize (Ho k Hk). destruct (lookup_lt_is_Some_2 out (Z.to_nat k)) as [b Hb]; [lia|]. rewrite Hb in Ho.
    by rewrite Z.add_0_l, Z2Nat.id, <- Ho by lia.
Qed.

Lemma blocks_of_used i : blocks_of i <> 0 -> blocks_of i = i_size i / 512 + 1.
Proof. unfold blocks_of. by destruct (_ =? 0). Qed.

(** [sys_read] at the position of the file. *)
Lemma read_here n f fd g x i pos h (s : io D H) buf cnt : readable f fd g x i -> io_fs s = moved f g x pos h -> roomy (4 + n) h -> buf <> 0 ->
  0 <= pos -> 0 < cnt -> pos + cnt <= i_size i ->
  exists h', sys_read s fd buf cnt = Ok (with_files (moved f g x (pos + cnt) h') s, file_bytes (medium f) i pos cnt, Some cnt) /\ roomy n h'.
Proof.
  intros [Hs Hwf G L Hu Hsm] Ef R Hb Hpos Hc Hend. pose proof (moved_stands f fd g x i pos h Hs) as Hm.
  assert (0 <= i_size i < 2 ^ 32) as Hsz by (destruct Hwf as [_ Hw]; unfold inode_words in Hw; rewrite Forall_app, !Forall_cons in Hw; lia).
  rewrite (sys_read_file s fd g (set_pos pos x) i) by (done || by rewrite Ef). rewrite Ef.
  pose proof Hm as [_ _ Hx Hi _]. pose proof (blocks_of_used i Hu) as Hbl.
  assert ((pos + cnt) / 512 <= i_size i / 512) as Hdiv by (apply Z.div_le_mono; lia).
  destruct (layout_readable _ _ i _ ((pos + cnt) / 512) G ltac:(by destruct Hwf) L ltac:(lia)) as [Ht Hbk].
  pose proof (file_read_ok (2 + n) (moved f g x pos h) g cnt _ i Hx Hi Hwf) as Hr. cbn [fd_pos set_pos] in Hr.
  replace (Z.min cnt (i_size i - pos)) with cnt in Hr by lia. replace (cnt =? 0) with false in Hr by (symmetry; apply Z.eqb_neq; lia).
  rewrite andb_false_r in Hr. destruct Hr as (h' & out & E & Hlo & Ho & _ & R'); try done; try lia.
  { apply Z.div_lt_upper_bound; lia. }
  { intros k Hk. apply Hbk. pose proof (Z.div_pos pos 512). lia. }
  rewrite E. cbn [obind]. replace (2 + n - 2)%nat with n in R' by lia. exists h'. split; [|exact R']. rewrite (file_bytes_eq f i pos cnt out Hlo Ho).
  do 4 f_equal. apply (moved_moved f g x pos (pos + cnt) h h').
Qed.

Lemma seek_ok f fd g x i pos h off : readable f fd g x i -> 0 <= off < i_size i ->
  sys_lseek (moved f g x pos h) fd (s32 off) SEEK_SET = Ok (moved f g x off h, off).
Proof.
  intros [Hs _ _ _ _ Hsm] Ho. rewrite s32_small by lia.
  rewrite (lseek_set_ok _ fd g (set_pos pos x) i off) by (by apply moved_stands || lia).
  do 2 f_equal. apply (moved_moved f g x pos off h h).
Qed.

(** ** Loading a segment *)

Lemma file_bytes_length (d : D) i off n : 0 <= n -> zlen (file_bytes d i off n) = n.
Proof. intros Hn. unfold file_bytes. rewrite length_map, length_seqZ. lia. Qed.

Lemma file_byte_some (d : D) i k : exists b, file_byte d i k = Some b /\ is_byte b.
Proof.
  unfold file_byte. pose proof (sector_len d (file_block d i (k / 512))) as Hl. pose proof (sector_bytes d (file_block d i (k / 512))) as Hb.
  pose proof (Z.mod_pos_bound k 512 ltac:(lia)) as Hk. unfold SECTOR_SIZE in Hl.
  destruct (lookup_lt_is_Some_2 (sector d (file_block d i (k / 512))) (Z.to_nat (k mod 512))) as [b Eb]; [lia|].
  exists b. split; [done|]. rewrite Forall_lookup in Hb. by apply (Hb (Z.to_nat (k mod 512))).
Qed.

Lemma file_bytes_lookup (d : D) i off n k : 0 <= k < n -> file_bytes d i off n !! Z.to_nat k = file_byte d i (off + k).
Proof.
  intros Hk. unfold file_bytes. rewrite list_lookup_fmap, lookup_seqZ_lt by lia. cbn. rewrite Z.add_0_l, Z2Nat.id by lia.
  by destruct (file_byte_some d i (off + k)) as (b & -> & _).
Qed.

Lemma file_bytes_bytes (d : D) i off n : Forall is_byte (file_bytes d i off n).
Proof.
  unfold file_bytes. apply Forall_map, Forall_forall. intros k _. by destruct (file_byte_some d i (off + k)) as (b & -> & ?).
Qed.

(** What is kept from one header to the next: an address space with [n] pages taken. *)
Record grown (m m' : vm) (n : Z) : Prop := {
  gr_space : space_ok m';
  gr_covers u : covers m u -> covers m' u;
  gr_user : (free_pages (user_pool m) <= Z.to_nat n + free_pages (user_pool m'))%nat;
  gr_kernel : (free_pages (kernel_pool m) <= Z.to_nat n + free_pages (kernel_pool m'))%nat }.

Lemma get_pool_same m m' : same_space m m' -> user_pool m' = user_pool m /\ kernel_pool m' = kernel_pool m.
Proof. intros S. split; [apply (ss_pool _ _ S PF_USER) | apply (ss_pool _ _ S PF_KERNEL)]. Qed.

Lemma segment_load_ok n p f fd g x i pos h m t ph : readable f fd g x i -> roomy (4 + n) h ->
  get_task (kern f) (running_thread (kern f)) = Ok t -> pgdir t <> 0 -> segment_ok i ph -> p_type ph = PT_LOAD ->
  space_ok m -> room m (p_vaddr ph) (touched (p_vaddr ph) (p_filesz ph)) ->
  exists h' m', segment_load (machine p (moved f g x pos h) m) fd (p_offset ph) (p_filesz ph) (p_vaddr ph)
      = Ok (machine p (moved f g x (p_offset ph + p_filesz ph) h') m', Some true)
    /\ roomy n h' /\ grown m m' (touched (p_vaddr ph) (p_filesz ph))
    /\ forall u, user u -> image (medium f) i [ph] u (user_byte m u) <> None -> user_byte m' u = image (medium f) i [ph] u (user_byte m u).
Proof.
  intros Hr R Ht Hd (Hn & Hu & He & Ho & Hend) Hty Hs Rm. unfold segment_load.
  change (s_k (p_sys (machine p (moved f g x pos h) m))) with (kern f). rewrite Ht. cbn [obind].
  replace (pgdir t =? 0) with false by (symmetry; by apply Z.eqb_neq). cbn [negb].
  destruct (segment_pages_ok m (p_filesz ph) (p_vaddr ph) Hs Hn Hu He Rm) as (m1 & E1 & P1).
  change (p_vm (machine p (moved f g x pos h) m)) with m. rewrite E1. cbn [obind].
  change (s_fs (p_sys (with_mem m1 (machine p (moved f g x pos h) m)))) with (moved f g x pos h).
  rewrite (seek_ok f fd g x i) by (done || lia). cbn [obind].
  match goal with |- context [sys_read (p_io ?q)] => change q with (machine p (moved f g x (p_offset ph) h) m1) end.
  destruct (read_here n f fd g x i (p_offset ph) h (p_io (machine p (moved f g x (p_offset ph) h) m1)) (p_vaddr ph) (p_filesz ph))
    as (h' & E2 & R'); try done; [unfold user in Hu; lia|].
  rewrite E2. cbn [obind]. change (p_vm (machine p (moved f g x (p_offset ph) h) m1)) with m1.
  destruct (store_bytes_ok (file_bytes (medium f) i (p_offset ph) (p_filesz ph)) m1 (p_vaddr ph) (pg_space _ _ _ _ P1) (file_bytes_bytes _ _ _ _))
    as (m2 & E3 & Hs2 & S2 & B2).
  { rewrite file_bytes_length by lia. intros k Hk. split; [unfold user in *; lia | by apply (paged_bytes m m1 _ (p_filesz ph))]. }
  rewrite E3. cbn [obind]. exists h', m2. split; [done|]. split; [done|]. destruct (get_pool_same _ _ S2) as [Eu Ek]. split.
  - split; rewrite ?Eu, ?Ek; [done | | apply P1 | apply P1]. intros u Hc. pose proof (pg_covers _ _ _ _ P1 u Hc) as [].
    split; by rewrite (ss_uvaddr _ _ S2).
  - intros u Huu. cbn [image fold_left]. rewrite B2 by done. rewrite file_bytes_length by lia. unfold loads. rewrite Hty. change (PT_LOAD =? PT_LOAD) with true.
    cbn [andb]. destruct (Z.leb_spec (p_vaddr ph) u), (Z.ltb_spec u (p_vaddr ph + p_filesz ph)); cbn [andb]; try (intros Hb; by apply (pg_keeps _ _ _ _ P1)).
    intros _. rewrite file_bytes_lookup by lia. done.
Qed.

(** ** The program headers *)

Lemma image_app d i l1 l2 u b : image d i (l1 ++ l2) u b = image d i l2 u (image d i l1 u b).
Proof. unfold image. apply fold_left_app. Qed.

Lemma pages_of_app l1 l2 : pages_of (l1 ++ l2) = pages_of l1 + pages_of l2.
Proof. induction l1 as [|ph l1 IH]; cbn in *; [done|]. unfold pages_of in *. lia. Qed.

Lemma pages_of_nonneg i l : Forall (fun ph => p_type ph = PT_LOAD -> segment_ok i ph) l -> 0 <= pages_of l.
Proof.
  induction 1 as [|ph l Hph _ IH]; [done|]. cbn. unfold pages_of in *. destruct (Z.eqb_spec (p_type ph) PT_LOAD) as [E|]; [|lia].
  destruct (Hph E) as (Hn & Hu & He & _). pose proof (proj1 (touched_bounds _ _ Hn Hu He)). lia.
Qed.

(** The memory after the headers [done_]. *)
Record progress (d : D) (i : inode) (m m' : vm) (done_ : list Elf32_Phdr) : Prop := {
  pr_grown : grown m m' (pages_of done_);
  pr_image u : user u -> image d i done_ u (user_byte m u) <> None -> user_byte m' u = image d i done_ u (user_byte m u) }.

Lemma progress_room d i m m' done_ ph rest : Forall (fun ph => p_type ph = PT_LOAD -> segment_ok i ph) (done_ ++ ph :: rest) ->
  rooms m (done_ ++ ph :: rest) -> progress d i m m' done_ -> p_type ph = PT_LOAD -> room m' (p_vaddr ph) (touched (p_vaddr ph) (p_filesz ph)).
Proof.
  intros Hall [Ru Rk Rc] [[_ Hc Hu Hk] _] Ht. pose proof Hall as Hall2. apply Forall_app in Hall as [Hfst Hsnd]. apply Forall_cons in Hsnd as [_ Hsnd].
  pose proof (pages_of_nonneg i done_ Hfst). pose proof (pages_of_nonneg i rest Hsnd).
  rewrite pages_of_app in Ru, Rk. change (pages_of (ph :: rest)) with ((if p_type ph =? PT_LOAD then touched (p_vaddr ph) (p_filesz ph) else 0) + pages_of rest) in *.
  rewrite Ht in *. change (PT_LOAD =? PT_LOAD) with true in *. cbn iota in *. split; [lia | lia|].
  intros j Hj. apply Hc, Rc; [apply elem_of_app; right; by left | done | done].
Qed.

Lemma grown_trans m1 m2 m3 a b : 0 <= a -> 0 <= b -> grown m1 m2 a -> grown m2 m3 b -> grown m1 m3 (a + b).
Proof. intros Ha Hb [_ C1 U1 K1] [S C2 U2 K2]. split; [done | by auto | lia | lia]. Qed.

Section load.
Variables (p : prog D H) (f : fstate D H) (fd g : Z) (x : file) (i : inode) (sp : Z) (t : task_struct) (m : vm).
Variables (hd : Elf32_Ehdr) (phs : list Elf32_Phdr).
Hypothesis Hr : readable f fd g x i.
Hypothesis Ht : get_task (kern f) (running_thread (kern f)) = Ok t.
Hypothesis Hd : pgdir t <> 0.
Hypothesis Hsp : sp <> 0.
Hypothesis Hex : executable (medium f) i hd phs.
Hypothesis Hrooms : rooms m phs.

Lemma good_fields : e_phentsize hd = SIZEOF_PHDR /\ e_phnum hd <= 1024.
Proof.
  by destruct (ex_good _ _ _ _ Hex) as (_ & _ & _ & _ & Hn & Hs).
Qed.

Lemma load_step n done_ ph rest pos h m1 : phs = done_ ++ ph :: rest -> roomy (8 + n) h -> progress (medium f) i m m1 done_ ->
  let k := zlen done_ in
  exists pos' h' m2, load_body fd sp hd (machine p (moved f g x pos h) m1, e_phoff hd + SIZEOF_PHDR * k, k)
      = Ok (inl (machine p (moved f g x pos' h') m2, e_phoff hd + SIZEOF_PHDR * (k + 1), k + 1))
    /\ roomy n h' /\ progress (medium f) i m m2 (done_ ++ [ph]).
Proof.
  intros Ephs R P k. destruct good_fields as [Es Hn]. pose proof Hex as [_ _ _ Hnum [Hoff Htab] Hph Hloads]. unfold SIZEOF_PHDR in *.
  assert (zlen phs = k + 1 + zlen rest) as Hlen by (rewrite Ephs, length_app; cbn; lia).
  assert (i_size i < 71168) as Hsm by apply Hr. unfold load_body. zdec.
  change (s_fs (p_sys (machine p (moved f g x pos h) m1))) with (moved f g x pos h).
  rewrite (seek_ok f fd g x i) by (done || lia). cbn [obind].
  match goal with |- context [sys_read (p_io ?q)] => change q with (machine p (moved f g x (e_phoff hd + 32 * k) h) m1) end.
  destruct (read_here (4 + n) f fd g x i (e_phoff hd + 32 * k) h (p_io (machine p (moved f g x (e_phoff hd + 32 * k) h) m1)) sp (e_phentsize hd))
    as (h1 & E1 & R1); try done; try lia.
  rewrite E1. cbn [obind]. rewrite Z.eqb_refl. cbn [negb]. rewrite Es.
  assert (phs !! length done_ = Some ph) as El by (rewrite Ephs; apply list_lookup_middle; done).
  pose proof (Hph _ _ El) as Hp. fold k in Hp. rewrite Hp. cbn [obind].
  match goal with |- context [with_io ?s ?q] => change (with_io s q) with (machine p (moved f g x (e_phoff hd + 32 * k + 32) h1) m1) end.
  assert (u32 (e_phoff hd + 32 * k + 32) = e_phoff hd + 32 * (k + 1)) as -> by (rewrite u32_small; lia).
  assert (Forall (fun ph => p_type ph = PT_LOAD -> segment_ok i ph) (done_ ++ ph :: rest)) as Hall by (by rewrite <- Ephs).
  pose proof (proj1 (proj1 (Forall_app _ _ _) Hall)) as Hdone. pose proof (pages_of_nonneg i done_ Hdone) as Hpn.
  destruct (Z.eqb_spec (p_type ph) PT_LOAD) as [Ety|Hne].
  - assert (segment_ok i ph) as Hseg by (rewrite Forall_forall in Hall; apply Hall; [apply elem_of_app; right; by left | done]).
    assert (room m1 (p_vaddr ph) (touched (p_vaddr ph) (p_filesz ph))) as Hroom.
    { apply (progress_room (medium f) i m m1 done_ ph rest); try done. by rewrite <- Ephs. }
    destruct (segment_load_ok n p f fd g x i (e_phoff hd + 32 * k + 32) h1 m1 t ph Hr R1 Ht Hd Hseg Ety (gr_space _ _ _ (pr_grown _ _ _ _ _ P)) Hroom)
      as (h2 & m2 & E2 & R2 & G2 & B2).
    rewrite E2. cbn [obind]. exists (p_offset ph + p_filesz ph), h2, m2. split; [done|]. split; [done|]. split.
    + rewrite pages_of_app. cbn. rewrite Ety. change (PT_LOAD =? PT_LOAD) with true. cbn iota. rewrite Z.add_0_r.
      destruct Hseg as (Hs1 & Hs2 & Hs3 & _). pose proof (proj1 (touched_bounds _ _ Hs1 Hs2 Hs3)).
      apply (grown_trans m m1 m2); [done | lia | apply P | done].
    + intros u Hu. rewrite image_app. intros Hn2. destruct (image (medium f) i done_ u (user_byte m u)) as [b|] eqn:Eb.
      * pose proof (pr_image _ _ _ _ _ P u Hu ltac:(by rewrite Eb)) as Em. rewrite Eb in Em. rewrite <- Em in Hn2 |- *. by apply B2.
      * rewrite B2; [|done|].
        -- cbn in *. by destruct (loads ph u).
        -- cbn in *. by destruct (loads ph u).
  - cbn [obind]. exists (e_phoff hd + 32 * k + 32), h1, m1. split; [done|]. split; [by apply (roomy_le n 4)|].
    assert (forall u b, image (medium f) i [ph] u b = b) as Hid.
    { intros u b. cbn. unfold loads. by apply Z.eqb_neq in Hne as ->. }
    split.
    + rewrite pages_of_app. cbn. apply Z.eqb_neq in Hne as ->. rewrite !Z.add_0_r. apply P.
    + intros u Hu. rewrite image_app, Hid. apply P, Hu.
Qed.
Lemma load_loop n rest : forall done_ fuel pos h m1, phs = done_ ++ rest -> (length rest < fuel)%nat -> roomy (8 * length rest + n) h ->
  progress (medium f) i m m1 done_ ->
  exists pos' h' m2, loop (load_body fd sp hd) fuel (machine p (moved f g x pos h) m1, e_phoff hd + SIZEOF_PHDR * zlen done_, zlen done_)
      = Ok (machine p (moved f g x pos' h') m2, Some (s32 (e_entry hd))) /\ roomy n h' /\ progress (medium f) i m m2 phs.
Proof.
  pose proof (ex_number _ _ _ _ Hex) as Hnum.
  induction rest as [|ph rest IH]; intros done_ fuel pos h m1 Ephs Hf R P; destruct fuel as [|fuel]; try (cbn in Hf; lia); cbn [loop].
  - rewrite app_nil_r in Ephs. unfold load_body at 1. rewrite <- Ephs, Hnum, Z.ltb_irrefl.
    exists pos, h, m1. split; [done|]. split; [exact R|]. by rewrite Ephs.
  - destruct (load_step (8 * length rest + n) done_ ph rest pos h m1 Ephs) as (pos1 & h1 & m2 & E & R1 & P1); [|done|].
    { by replace (8 + (8 * length rest + n))%nat with (8 * length (ph :: rest) + n)%nat by (cbn; lia). }
    rewrite E. assert (zlen done_ + 1 = zlen (done_ ++ [ph])) as -> by (rewrite length_app; cbn; lia).
    apply IH; [by rewrite <- app_assoc | cbn in Hf; lia | done | done].
Qed.
End load.

(** A file just opened. *)
Lemma start_moved f fd g x i : readable f fd g x i -> fd_pos x = 0 -> f = moved f g x 0 (kheap f).
Proof.
  intros [[_ _ Hx _ _] _ _ _ _ _] Hp0. unfold moved, with_kheap, Inode.with_files, set_pos. destruct f as [md cp hp ino ft kn]. cbn in *.
  f_equal. symmetry. apply list_insert_id. unfold get_file in Hx. apply rd_Ok in Hx. pose proof (znth_Some _ _ _ Hx) as Hg.
  unfold znth in Hx. destruct (Z.ltb_spec g 0); [lia|]. cbn in Hx. rewrite Hx. f_equal. destruct x as [a b c]. cbn in *. by subst a.
Qed.

(** A file that ends before the header does. *)
Lemma read_short f fd g x i (s : io D H) buf : readable f fd g x i -> fd_pos x = 0 -> io_fs s = f -> buf <> 0 -> roomy 2 (kheap f) ->
  i_size i < SIZEOF_EHDR ->
  exists pos h out n, sys_read s fd buf SIZEOF_EHDR = Ok (with_files (moved f g x pos h) s, out, Some n) /\ n <> SIZEOF_EHDR.
Proof.
  intros Hr Hp0 Ef Hb R Hsm. pose proof (start_moved f fd g x i Hr Hp0) as Em. destruct Hr as [Hs Hwf G L Hu _]. unfold SIZEOF_EHDR in *.
  assert (0 <= i_size i < 2 ^ 32) as Hsz by (destruct Hwf as [_ Hw]; unfold inode_words in Hw; rewrite Forall_app, !Forall_cons in Hw; lia).
  rewrite (sys_read_file s fd g x i) by (done || by rewrite Ef). rewrite Ef. pose proof Hs as [_ _ Hx Hi _]. pose proof (blocks_of_used i Hu) as Hbl.
  destruct (layout_readable _ _ i _ (i_size i / 512) G ltac:(by destruct Hwf) L ltac:(lia)) as [Htb Hbk].
  pose proof (file_read_ok 0 f g 52 x i Hx Hi Hwf) as Hrd. rewrite Hp0 in Hrd. cbn [Z.add] in Hrd. rewrite Z.sub_0_r in Hrd.
  replace (Z.min 52 (i_size i)) with (i_size i) in Hrd by lia. change (0 <? 52) with true in Hrd. cbn [andb] in Hrd.
  assert (i_size i / 512 < 139) by (apply Z.div_lt_upper_bound; lia).
  destruct (Z.eqb_spec (i_size i) 0) as [E0|Hne].
  - rewrite Hrd by (done || lia || (intros k Hk; apply Hbk; change (0 / 512) with 0 in Hk; lia)). cbn [obind].
    exists 0, (kheap f), [], (-1). rewrite <- Em. split; [done | lia].
  - destruct Hrd as (h & out & E & _); try done; try lia.
    rewrite E. cbn [obind]. exists (i_size i), h, out, (i_size i). split; [done | lia].
Qed.

(** C6. Loading. Of an executable of the format the kernel accepts, open at its start
    in a process with room for its segments, [load] returns the entry point and leaves in
    memory the image of the file: at every user address the byte of the last segment that
    contains it, or else the byte that was there. The address space stays well formed (every
    user page on a frame of its own), and of the file system only the position of the
    file and the blocks of the heap change. *)
Theorem load_file_spec p fd g x i sp t hd phs : let f := s_fs (p_sys p) in let m := s_vm (p_sys p) in
  readable f fd g x i -> fd_pos x = 0 -> get_task (kern f) (running_thread (kern f)) = Ok t -> pgdir t <> 0 -> sp <> 0 ->
  executable (medium f) i hd phs -> space_ok m -> rooms m phs -> roomy (4 + 8 * length phs) (kheap f) ->
  exists pos h m', load_file p fd sp = Ok (machine p (moved f g x pos h) m', Some (s32 (e_entry hd)))
    /\ space_ok m' /\ forall u, user u -> image (medium f) i phs u (user_byte m u) <> None -> user_byte m' u = image (medium f) i phs u (user_byte m u).
Proof.
  intros f m Hr Hp0 Ht Hd Hsp Hex Hs Hrooms R. unfold load_file.
  pose proof (start_moved f fd g x i Hr Hp0) as Ef.
  pose proof Hex as [Hsize Hh Hgood Hnum [Hoff Htab] _ _].
  destruct (read_here (8 * length phs) f fd g x i 0 (kheap f) (p_io p) sp SIZEOF_EHDR Hr Ef R Hsp) as (h1 & E1 & R1); [done | done | lia |].
  rewrite E1. cbn [obind]. rewrite Z.eqb_refl. cbn [negb]. rewrite Hh. cbn [obind]. rewrite (proj2 (bad_header_false hd) Hgood).
  change (with_io (with_files (moved f g x (0 + SIZEOF_EHDR) h1) (p_io p)) p) with (machine p (moved f g x SIZEOF_EHDR h1) m).
  destruct (load_loop p f fd g x i sp t m hd phs Hr Ht Hd Hsp Hex Hrooms 0 phs [] (S (Z.to_nat (e_phnum hd))) SIZEOF_EHDR h1 m) as (pos & h & m' & E & _ & P).
  - done.
  - rewrite <- Hnum. lia.
  - by rewrite Nat.add_0_r.
  - split; [|done]. split; [done | by auto | lia | lia].
  - cbn [length] in E. rewrite Z.mul_0_r, Z.add_0_r in E. change (Z.of_nat 0) with 0 in E. rewrite E. exists pos, h, m'.
    split; [done|]. split; [apply P|]. apply P.
Qed.

(** What is not such an executable is refused: a file shorter than an ELF header, or
    with another magic number, class, byte order, version, type or machine, more than
    1024 program headers or headers of another size. The result is -1, and nothing but the
    position of the file and the heap has changed. *)
Theorem load_file_refuses p fd g x i sp hd : let f := s_fs (p_sys p) in
  readable f fd g x i -> fd_pos x = 0 -> sp <> 0 -> roomy 4 (kheap f) ->
  (i_size i < SIZEOF_EHDR \/ ehdr_at (file_bytes (medium f) i 0 SIZEOF_EHDR) = Ok hd /\ ~ accepted hd) ->
  exists pos h, load_file p fd sp = Ok (machine p (moved f g x pos h) (s_vm (p_sys p)), Some (-1)).
Proof.
  intros f Hr Hp0 Hsp R Hbad. unfold load_file. destruct (Z.lt_ge_cases (i_size i) SIZEOF_EHDR) as [Hlt|Hge].
  - destruct (read_short f fd g x i (p_io p) sp Hr Hp0 eq_refl Hsp ltac:(by apply (roomy_le 2 2)) Hlt) as (pos & h & out & n & E & Hn).
    rewrite E. cbn [obind]. apply Z.eqb_neq in Hn as ->. by exists pos, h.
  - destruct Hbad as [|[Hh Hbad]]; [lia|].
    destruct (read_here 0 f fd g x i 0 (kheap f) (p_io p) sp SIZEOF_EHDR Hr (start_moved f fd g x i Hr Hp0) R Hsp) as (h & E & _); [done | done | lia|].
    rewrite E. cbn [obind]. rewrite Z.eqb_refl. cbn [negb]. rewrite Hh. cbn [obind]. rewrite (bad_header_true hd Hbad). by exists SIZEOF_EHDR, h.
Qed.
End exec.
