(* ===== verification/Execdemo.v ===== *)
(** A concrete executable on the partition of Inode.v, and the process of an empty
    address space that loads it. *)
From S2P Require Import Prelude Bitmap Thread Blockdev Ioqueue Inode File Filewrite Paging Process Space Rw Exec Loader Execspec.

(** An ELF header, one program header that loads 16 bytes from offset 84 to
    0x8048054, and the bytes. *)
Definition demo_elf : list Z :=
  [127; 69; 76; 70; 1; 1; 1; 0] ++ replicate 8 0 ++ [2; 0; 3; 0; 1; 0; 0; 0; 0x54; 0x80; 4; 8; 52; 0; 0; 0] ++ replicate 8 0
  ++ [52; 0; 32; 0; 1; 0] ++ replicate 6 0
  ++ [1; 0; 0; 0; 84; 0; 0; 0; 0x54; 0x80; 4; 8; 0x54; 0x80; 4; 8; 16; 0; 0; 0; 32; 0; 0; 0; 5; 0; 0; 0; 0; 16; 0; 0]
  ++ [1; 2; 3; 4; 5; 6; 7; 8; 9; 10; 11; 12; 13; 14; 15; 16].
Definition demo_ehdr : Elf32_Ehdr :=
  mk_ehdr ([127; 69; 76; 70; 1; 1; 1; 0] ++ replicate 8 0) 2 3 1 0x8048054 52 0 0 52 32 1 0 0 0.
Definition demo_phdr : Elf32_Phdr := mk_phdr 1 84 0x8048054 0x8048054 16 32 5 4096.

Definition elf_inode : inode := mk_inode 3 100 1 0 (713 :: replicate 12 0).
Definition elf_medium (l : list Z) : sparse_disk :=
  mk_sparse (<[102 := demo_bb]> (<[103 := demo_ib]> {[ 713 := l ++ replicate (512 - length l) 0 ]})).
Definition elf_task : task_struct :=
  mk_task 0 None 1 TASK_RUNNING [97; 0] 31 31 0 (<[3%nat := 3]> initial_fd_table) 0xc0200000 0 (-1) 0 STACK_MAGIC.
Definition elf_fs (l : list Z) : fstate sparse_disk bump_heap :=
  mk_fs _ _ (elf_medium l) (set_open [4096] demo_part) (mk_bump [(true, 4096)]) {[ 4096 := elf_inode ]}
    (<[3%nat := mk_file 0 O_RDONLY 4096]> (replicate 32 (mk_file 0 0 0)))
    (with_tasks (<[0x1000 := elf_task]> (tasks demo_state)) demo_state).
Definition elf_prog (l : list Z) : prog sparse_disk bump_heap :=
  mk_prog _ _ (mk_sys _ _ (elf_fs l) demo_vm ∅ ∅ ∅) ∅ (demo_ring 5) demo_console.

Lemma elf_readable l : readable (elf_fs l) 3 3 (mk_file 0 O_RDONLY 4096) elf_inode.
Proof.
  assert (used_list (elf_medium l) elf_inode 1 = [713]) as E by reflexivity. split.
  - split; [lia | vm_compute; reflexivity | reflexivity | reflexivity | done].
  - split; [reflexivity | by apply words_ok].
  - exact (geometry_open _ _ demo_geometry).
  - change (blocks_of elf_inode) with 1. split; rewrite ?E.
    + apply NoDup_singleton.
    + repeat constructor; cbn; lia || reflexivity.
    + intros k Hk. assert (k = 1 \/ k = 2 \/ k = 3 \/ k = 4 \/ k = 5 \/ k = 6 \/ k = 7 \/ k = 8 \/ k = 9 \/ k = 10 \/ k = 11) as Hc by lia.
      by repeat (destruct Hc as [->|Hc]; [done|]); subst k.
    + reflexivity.
  - discriminate.
  - cbn; lia.
Qed.

Lemma elf_executable : executable (elf_medium demo_elf) elf_inode demo_ehdr [demo_phdr].
Proof.
  split.
  - cbn; unfold SIZEOF_EHDR; lia.
  - vm_compute; reflexivity.
  - repeat split; cbn; lia.
  - reflexivity.
  - cbn. unfold SIZEOF_PHDR. lia.
  - intros [|k] ph Hk; [|done]. injection Hk as <-. vm_compute; reflexivity.
  - repeat constructor; unfold user; cbn; lia.
Qed.

Lemma demo_space : space_ok demo_vm.
Proof.
  split; [exact demo_vm_ok | |].
  - intros va f Hu _ E. by rewrite demo_unmapped in E by (by apply user_mappable).
  - intros va va' f Hu _ _ _ E. by rewrite demo_unmapped in E by (by apply user_mappable).
Qed.

Lemma demo_rooms : rooms demo_vm [demo_phdr].
Proof.
  split; [vm_compute; congruence | vm_compute; congruence|]. intros ph j Hp _ Hj. apply list_elem_of_singleton in Hp as ->.
  assert (j = 0) as -> by (change (touched _ _) with 1 in Hj; lia).
  split; [solve_bitmap_wf | vm_compute; split; congruence | vm_compute; congruence].
Qed.

Example load_file_witness : exists p' m', load_file (elf_prog demo_elf) 3 0xc0001000 = Ok (p', Some 0x8048054)
  /\ p_vm p' = m' /\ user_byte m' 0x8048055 = Some 2.
Proof.
  destruct (load_file_spec (elf_prog demo_elf) 3 3 (mk_file 0 O_RDONLY 4096) elf_inode 0xc0001000 elf_task demo_ehdr [demo_phdr])
    as (pos & h & m' & E & _ & B).
  - exact (elf_readable demo_elf).
  - reflexivity.
  - reflexivity.
  - cbn; lia.
  - lia.
  - exact elf_executable.
  - exact demo_space.
  - exact demo_rooms.
  - apply bump_roomy.
  - eexists _, m'. split; [exact E|]. split; [reflexivity|].
    assert (image (elf_medium demo_elf) elf_inode [demo_phdr] 0x8048055 (user_byte demo_vm 0x8048055) = Some 2) as Ei by (vm_compute; reflexivity).
    rewrite <- Ei. apply B; [unfold user; lia|]. change (s_vm (p_sys (elf_prog demo_elf))) with demo_vm. cbn [medium elf_prog elf_fs p_sys s_fs]. by rewrite Ei.
Defined.

Example load_file_refuses_witness : exists p', load_file (elf_prog (replicate 100 65)) 3 0xc0001000 = Ok (p', Some (-1)).
Proof.
  destruct (load_file_refuses (elf_prog (replicate 100 65)) 3 3 (mk_file 0 O_RDONLY 4096) elf_inode 0xc0001000
    (mk_ehdr (replicate 16 65) 16705 16705 1094795585 1094795585 1094795585 1094795585 1094795585 16705 16705 16705 16705 16705 16705)) as (pos & h & E).
  - exact (elf_readable _).
  - reflexivity.
  - lia.
  - apply bump_roomy.
  - right. split; [vm_compute; reflexivity | by intros [? _]].
  - eexists. exact E.
Defined.
