(* ===== verification/Format.v ===== *)
(** fs/fs.c: making a file system on a partition ([partition_format]), mounting one
    ([mount_partition]) and what the kernel does at its start ([filesys_init]).
    The buffers these functions allocate are lists, as in Inode.v; a disk is what
    [ide_init] leaves in [channels]: its name and its partitions. *)
From S2P Require Import Prelude Bitmap Thread Ide Blockdev Inode File Dir Path Fs.

Definition MAX_FILES_PER_PART : Z := 4096.
Definition BITS_PER_SECTOR : Z := 4096.
Definition SB_MAGIC : Z := 0x19590318.

(** ** The super block *)

(** The words before [pad]. *)
Definition sb_words (s : super_block) : list Z :=
  [magic s; sb_sec_cnt s; inode_cnt s; part_lba_base s; block_bitmap_lba s; block_bitmap_sects s;
   inode_bitmap_lba s; inode_bitmap_sects s; inode_table_lba s; inode_table_sects s;
   data_start_lba s; root_inode_no s; dir_entry_size s].

Definition SIZEOF_SB : Z := 512.
Definition SIZEOF_PAD : Z := 460.

Definition sb_bytes (s : super_block) (pad : list Z) : list Z := words_to_bytes (sb_words s) ++ pad.

Definition sb_at (buf : list Z) : outcome super_block :=
  let! l := slice buf 0 52 in
  match bytes_to_words l with
  | [m; n; i; base; bbl; bbs; ibl; ibs; tl; ts; data; root; de] => Ok (mk_sb m n i base bbl bbs ibl ibs tl ts data root de)
  | _ => Err BadAccess
  end.

(** The super block of a partition, and [block_bitmap_bit_len]. *)
Definition format_layout (start cnt : Z) : super_block * Z :=
  let boot_sector_sects := 1 in
  let super_block_sects := 1 in
  let inode_bitmap_sects := DIV_ROUND_UP MAX_FILES_PER_PART BITS_PER_SECTOR in
  let inode_table_sects := DIV_ROUND_UP (sizeof_inode * MAX_FILES_PER_PART) SECTOR_SIZE in
  let used_sects := boot_sector_sects + super_block_sects + inode_bitmap_sects + inode_table_sects in
  let free_sects := u32 (cnt - used_sects) in
  let block_bitmap_sects := DIV_ROUND_UP free_sects BITS_PER_SECTOR in
  let block_bitmap_bit_len := u32 (free_sects - block_bitmap_sects) in
  let block_bitmap_sects := DIV_ROUND_UP block_bitmap_bit_len BITS_PER_SECTOR in
  let block_bitmap_lba := u32 (start + 2) in
  let inode_bitmap_lba := u32 (block_bitmap_lba + block_bitmap_sects) in
  let inode_table_lba := u32 (inode_bitmap_lba + inode_bitmap_sects) in
  let data_start_lba := u32 (inode_table_lba + inode_table_sects) in
  (mk_sb SB_MAGIC cnt MAX_FILES_PER_PART start block_bitmap_lba block_bitmap_sects inode_bitmap_lba inode_bitmap_sects
     inode_table_lba inode_table_sects data_start_lba 0 sizeof_dir_entry, block_bitmap_bit_len).

(** ** Formatting *)

Definition clear_bit_body (last_byte last_bit : Z) (s : list Z * Z) : outcome (list Z * Z + list Z) :=
  let '(buf, bit_idx) := s in
  if bit_idx <=? last_bit then
    let! b := rd buf last_byte in
    let! buf := wr buf last_byte (u8 (Z.land b (Z.lnot (Z.shiftl 1 bit_idx)))) in
    Ok (inl (buf, u8 (bit_idx + 1)))
  else Ok (inr buf).

(** The block bitmap, in a cleared buffer. *)
Definition block_bitmap_buf (buf : list Z) (bit_len : Z) : outcome (list Z) :=
  let! b := rd buf 0 in
  let! buf := wr buf 0 (Z.lor b 1) in
  let last_byte := bit_len / 8 in
  let last_bit := bit_len mod 8 in
  let last_size := SECTOR_SIZE - last_byte mod SECTOR_SIZE in
  let! buf := splice buf last_byte (replicate (Z.to_nat last_size) 255) in
  loop (clear_bit_body last_byte last_bit) 9 (buf, 0).

(** The inode of the root directory, and the directory's two entries. *)
Definition root_inode_buf (buf : list Z) (s : super_block) : outcome (list Z) :=
  let! buf := splice buf 4 (le32 (dir_entry_size s * 2)) in
  let! buf := splice buf 0 (le32 0) in
  splice buf 16 (le32 (data_start_lba s)).

Definition root_dir_buf (buf : list Z) : outcome (list Z) :=
  let! b := splice buf 0 DOT in
  let! b := splice b 16 (le32 0) in
  let! b := splice b 20 (le32 FT_DIRECTORY) in
  let! b := splice b 24 DOTDOT in
  let! b := splice b 40 (le32 0) in
  splice b 44 (le32 FT_DIRECTORY).

Section format.
Context {D H : Type} `{BlockDevice D} `{KernelHeap H}.
Abbreviation fs := (fstate D H).

(** [pad] is what the stack holds where [sb.pad] lies. *)
Definition partition_format (d : D) (h : H) (start cnt : Z) (pad : list Z) : outcome (D * H) :=
  let '(s, bit_len) := format_layout start cnt in
  let! d := disk_write d (u32 (start + 1)) 1 (sb_bytes s pad) 0 in
  let sects := if inode_bitmap_sects s <=? block_bitmap_sects s then block_bitmap_sects s else inode_bitmap_sects s in
  let buf_size := u32 ((if inode_table_sects s <=? sects then sects else inode_table_sects s) * SECTOR_SIZE) in
  let '(h, a) := sys_malloc h false buf_size in
  if a =? 0 then Err BadAccess else
  let! buf := block_bitmap_buf (zeros buf_size) bit_len in
  let! d := disk_write d (block_bitmap_lba s) (block_bitmap_sects s) buf 0 in
  let! b := rd (zeros buf_size) 0 in
  let! buf := wr (zeros buf_size) 0 (Z.lor b 1) in
  let! d := disk_write d (inode_bitmap_lba s) (inode_bitmap_sects s) buf 0 in
  let! buf := root_inode_buf (zeros buf_size) s in
  let! d := disk_write d (inode_table_lba s) (inode_table_sects s) buf 0 in
  let! buf := root_dir_buf (zeros buf_size) in
  let! d := disk_write d (data_start_lba s) 1 buf 0 in
  Ok (d, sys_free h false a).

(** ** Mounting *)

(** A bitmap read from [lba]; [after] is the memory behind the block it is put in. *)
Definition mount_bitmap (d : D) (h : H) (lba sects : Z) (after : list Z) : outcome (H * bitmap) :=
  let size := u32 (sects * SECTOR_SIZE) in
  let '(h, a) := sys_malloc h false size in
  if a =? 0 then Err AssertFail else
  let! l := disk_read d lba sects (zeros size) 0 in
  Ok (h, mk_bitmap size (l ++ after)).

(** [mount_partition] on a partition of the name looked for; the file table and
    the threads are those of the kernel. *)
Definition mount_partition (d : D) (h : H) (files : list file) (k : kstate) (start cnt : Z) (after_bb after_ib : list Z)
  : outcome fs :=
  let '(h, sb_buf) := sys_malloc h false SECTOR_SIZE in
  let '(h, sb) := sys_malloc h false SIZEOF_SB in
  if sb =? 0 then Err AssertFail else
  if sb_buf =? 0 then Err BadAccess else
  let! buf := disk_read d (u32 (start + 1)) 1 (zeros SECTOR_SIZE) 0 in
  let! s := sb_at buf in
  let! ' (h, bb) := mount_bitmap d h (block_bitmap_lba s) (block_bitmap_sects s) after_bb in
  let! ' (h, ib) := mount_bitmap d h (inode_bitmap_lba s) (inode_bitmap_sects s) after_ib in
  Ok (mk_fs _ _ d (mk_partition start cnt s bb ib []) h ∅ files k).

(** ** The start of the file system *)

(** A disk as [ide_init] leaves it: [hd_parts] are its partitions, each at its
    index of [prim_parts] or [logic_parts], in the order of [partition_list]. *)
Record hdisk := mk_hdisk { hd_name : list Z; hd_medium : D; hd_parts : list Ide.partition }.
Definition with_hd_medium (d : D) (hd : hdisk) : hdisk := mk_hdisk (hd_name hd) d (hd_parts hd).

(** The partition at [part_idx], counted through both arrays. *)
Definition part_at (hd : hdisk) (part_idx : Z) : option Ide.partition :=
  List.find (fun p => if part_idx <? 4 then negb (part_logical p) && (Ide.part_idx p =? part_idx)
                      else part_logical p && (Ide.part_idx p =? part_idx - 4)) (hd_parts hd).

Definition init_part_body (pad : list Z) (hd : hdisk) (s : D * H * Z) : outcome (D * H * Z + D * H * Z) :=
  let '(d, h, part_idx) := s in
  if part_idx <? 12 then
    let! ' (d, h) :=
      match part_at hd part_idx with
      | Some p =>
          if part_cnt p =? 0 then Ok (d, h) else
          let! buf := disk_read d (u32 (part_start p + 1)) 1 (zeros SECTOR_SIZE) 0 in
          let! m := rd_le32 buf 0 in
          if m =? SB_MAGIC then Ok (d, h) else partition_format d h (part_start p) (part_cnt p) pad
      | None => Ok (d, h)
      end in
    Ok (inl (d, h, part_idx + 1))
  else Ok (inr (d, h, part_idx)).

(** The loop over the two disks of a channel; the first one is skipped. *)
Definition init_dev_body (pad : list Z) (s : list hdisk * H * Z * Z) : outcome (list hdisk * H * Z * Z + list hdisk * H * Z) :=
  let '(devices, h, part_idx, dev_no) := s in
  if dev_no <? 2 then
    if dev_no =? 0 then Ok (inl (devices, h, part_idx, dev_no + 1)) else
    let! hd := rd devices dev_no in
    let! ' (d, h, part_idx) := loop (init_part_body pad hd) 13 (hd_medium hd, h, part_idx) in
    let! devices := wr devices dev_no (with_hd_medium d hd) in
    Ok (inl (devices, h, part_idx, dev_no + 1))
  else Ok (inr (devices, h, part_idx)).

Definition init_channel_body (pad : list Z) (channel_cnt : Z) (s : list (list hdisk) * H * Z * Z)
  : outcome (list (list hdisk) * H * Z * Z + list (list hdisk) * H) :=
  let '(channels, h, part_idx, channel_no) := s in
  if channel_no <? channel_cnt then
    let! devices := rd channels channel_no in
    let! ' (devices, h, part_idx) := loop (init_dev_body pad) 3 (devices, h, part_idx, 0) in
    let! channels := wr channels channel_no devices in
    Ok (inl (channels, h, part_idx, channel_no + 1))
  else Ok (inr (channels, h)).

(** [sprintf(name, "%s%d", hd->name, n)] for the numbers a partition can have. *)
Definition decimal (n : Z) : list Z := if n <? 10 then [48 + n] else [48 + n / 10; 48 + n mod 10].
Definition part_name (hd : hdisk) (p : Ide.partition) : list Z :=
  hd_name hd ++ decimal (if part_logical p then Ide.part_idx p + 5 else Ide.part_idx p + 1).

(** [partition_list], with the disk of each partition. *)
Definition queued (channels : list (list hdisk)) : list (hdisk * Ide.partition) :=
  flat_map (fun hd => map (pair hd) (hd_parts hd)) (concat channels).

(** "sdb1" *)
Definition default_part : list Z := [115; 100; 98; 49].

Definition clear_file_body (s : list file * Z) : outcome (list file * Z + list file) :=
  let '(t, fd_idx) := s in
  if fd_idx <? MAX_FILE_OPEN then
    let! x := rd t fd_idx in
    let! t := wr t fd_idx (mk_file (fd_pos x) (fd_flag x) 0) in
    Ok (inl (t, fd_idx + 1))
  else Ok (inr t).

(** [filesys_init]: the disks with what was formatted, the mounted file system and
    [root_dir]. Without the default partition [cur_part] is NULL when
    [open_root_dir] uses it. *)
Definition filesys_init (channels : list (list hdisk)) (channel_cnt : Z) (h : H) (files : list file) (k : kstate)
    (pad after_bb after_ib : list Z) : outcome (list (list hdisk) * fs * dir) :=
  let '(h, sb_buf) := sys_malloc h false SECTOR_SIZE in
  if sb_buf =? 0 then Err AssertFail else
  let! ' (channels, h) := loop (init_channel_body pad channel_cnt) (S (Z.to_nat channel_cnt)) (channels, h, 0, 0) in
  let h := sys_free h false sb_buf in
  match List.find (fun x => bool_decide (part_name (fst x) (snd x) = default_part)) (queued channels) with
  | None => Err BadAccess
  | Some (hd, p) =>
      let! f := mount_partition (hd_medium hd) h files k (part_start p) (part_cnt p) after_bb after_ib in
      let! ' (f, root_dir) := open_root_dir f in
      let! t := loop clear_file_body 33 (file_table f, 0) in
      Ok (channels, with_files t f, root_dir)
  end.
End format.
Arguments hdisk : clear implicits.
