(* ===== verification/Formatspec.v ===== *)
(** What [partition_format], [mount_partition] and [filesys_init] of Format.v do: the
    file system a partition holds after it was formatted, and what mounting
    finds of one that is there. *)
From S2P Require Import Prelude Bitmap Thread Ide Blockdev Inode File Filewrite Dir Dirwrite Path Search Fs Rw Format.

Ltac dlia := Z.to_euclidean_division_equations; lia.

(** ** The layout *)

(** Bits of the block bitmap in use, and its sectors, of a partition of [cnt] sectors:
    611 of them hold the boot sector, the super block and what belongs to inodes. *)
Definition bits_of (cnt : Z) : Z := cnt - 611 - (cnt - 611 + 4095) / 4096.
Definition sects_of (cnt : Z) : Z := (bits_of cnt + 4095) / 4096.

Definition layout_sb (start cnt : Z) : super_block :=
  let n := sects_of cnt in
  mk_sb SB_MAGIC cnt 4096 start (start + 2) n (start + 2 + n) 1 (start + 3 + n) 608 (start + 611 + n) 0 24.

(** A partition on the disk that is large enough for a file system. *)
Record fits_disk (start cnt : Z) : Prop := {
  fit_start : 0 <= start;
  fit_cnt : 620 <= cnt;
  fit_end : start + cnt <= max_lba }.

Lemma layout_bounds cnt : 620 <= cnt <= 163839 -> 8 <= bits_of cnt /\ 1 <= sects_of cnt <= 40
  /\ cnt - 1 <= 611 + sects_of cnt + bits_of cnt <= cnt /\ bits_of cnt <= 4096 * sects_of cnt < bits_of cnt + 4096.
Proof.
  intros Hc. unfold sects_of, bits_of. remember (cnt - 611) as f eqn:Ef.
  pose proof (Z.div_mod (f + 4095) 4096 ltac:(lia)). pose proof (Z.mod_pos_bound (f + 4095) 4096 ltac:(lia)).
  set (q := (f + 4095) / 4096) in *. clearbody q.
  pose proof (Z.div_mod (f - q + 4095) 4096 ltac:(lia)). pose proof (Z.mod_pos_bound (f - q + 4095) 4096 ltac:(lia)).
  set (s := (f - q + 4095) / 4096) in *. clearbody s. lia.
Qed.

Lemma format_layout_eq start cnt : fits_disk start cnt -> format_layout start cnt = (layout_sb start cnt, bits_of cnt).
Proof.
  intros [Hs Hc He]. change max_lba with 163839 in He. pose proof (layout_bounds cnt ltac:(lia)) as (Hb & Hn & He2 & Hsz).
  unfold format_layout, layout_sb, DIV_ROUND_UP.
  change (u32 (MAX_FILES_PER_PART + BITS_PER_SECTOR - 1) / BITS_PER_SECTOR) with 1.
  change (u32 (sizeof_inode * MAX_FILES_PER_PART + SECTOR_SIZE - 1) / SECTOR_SIZE) with 608. change (1 + 1 + 1 + 608) with 611.
  unfold BITS_PER_SECTOR. rewrite (u32_small (cnt - 611)) by lia. rewrite (u32_small (cnt - 611 + 4096 - 1)) by lia.
  replace (cnt - 611 + 4096 - 1) with (cnt - 611 + 4095) by lia. fold (bits_of cnt). rewrite (u32_small (bits_of cnt)) by lia.
  rewrite (u32_small (bits_of cnt + 4096 - 1)) by lia. replace (bits_of cnt + 4096 - 1) with (bits_of cnt + 4095) by lia. fold (sects_of cnt).
  rewrite (u32_small (start + 2)) by lia. rewrite (u32_small (start + 2 + sects_of cnt)) by lia.
  rewrite (u32_small (start + 2 + sects_of cnt + 1)) by lia. rewrite (u32_small (start + 2 + sects_of cnt + 1 + 608)) by lia.
  f_equal. f_equal; lia.
Qed.

(** ** The buffers *)

Lemma zeros_length n : 0 <= n -> zlen (zeros n) = n.
Proof. intros. unfold zeros. rewrite length_replicate. lia. Qed.

Lemma zeros_bytes n : bytes (zeros n).
Proof. apply Forall_replicate. unfold is_byte. lia. Qed.

Lemma zeros_lookup n k : 0 <= k < n -> zeros n !! Z.to_nat k = Some 0.
Proof. intros. unfold zeros. by rewrite lookup_replicate_2 by lia. Qed.

(** The byte in which the bits in use end: the bits up to [b] are clear. *)
Definition cleared (b : Z) : Z := 256 - 2 ^ b.

Lemma clear_bit b : 0 <= b < 8 -> u8 (Z.land (cleared b) (Z.lnot (Z.shiftl 1 b))) = cleared (b + 1).
Proof.
  intros Hb. assert (b = 0 \/ b = 1 \/ b = 2 \/ b = 3 \/ b = 4 \/ b = 5 \/ b = 6 \/ b = 7) as Hc by lia.
  by repeat (destruct Hc as [->|Hc]; [reflexivity|]); subst b.
Qed.

Lemma clear_loop last_bit lb buf : 0 <= last_bit < 8 -> 0 <= lb < zlen buf -> buf !! Z.to_nat lb = Some 255 ->
  loop (clear_bit_body lb last_bit) 9 (buf, 0) = Ok (<[Z.to_nat lb := cleared (last_bit + 1)]> buf).
Proof.
  intros Hb Hl Hlk.
  loop_inv (fun s : list Z * Z => 0 <= snd s <= last_bit + 1 /\ fst s = <[Z.to_nat lb := cleared (snd s)]> buf)
           (fun s : list Z * Z => Z.to_nat (last_bit + 1 - snd s)).
  - intros [l b] [Hr Hlb]. cbn [snd fst] in Hr, Hlb. subst l. unfold clear_bit_body. destruct (Z.leb_spec b last_bit).
    + rewrite (rd_znth _ _ (cleared b)); [|unfold znth; zdec; rewrite list_lookup_insert_eq; [done | lia]].
      cbn [obind]. rewrite wr_in by (rewrite length_insert; lia). cbn [obind]. rewrite clear_bit by lia.
      rewrite u8_small by lia. rewrite list_insert_insert_eq. cbn [fst snd]. split; [split; [lia|done] | lia].
    + assert (b = last_bit + 1) as -> by lia. done.
  - cbn [fst snd]. split; [lia|]. rewrite list_insert_id; [done | exact Hlk].
  - cbn [fst snd]. lia.
Qed.

(** The bytes of the block bitmap. *)
Definition bitmap_byte (bit_len q : Z) : Z :=
  if q =? 0 then 1 else if q <? bit_len / 8 then 0 else
  if q =? bit_len / 8 then cleared (bit_len mod 8 + 1) else
  if q <? bit_len / 8 + (512 - bit_len / 8 mod 512) then 255 else 0.

Lemma cleared_byte b : 1 <= b <= 8 -> is_byte (cleared b).
Proof.
  intros Hb. unfold cleared, is_byte. pose proof (Z.pow_pos_nonneg 2 b ltac:(lia) ltac:(lia)).
  pose proof (Z.pow_le_mono_r 2 b 8 ltac:(lia) ltac:(lia)). change (2 ^ 8) with 256 in *. lia.
Qed.

Lemma block_bitmap_buf_ok n bit_len : 8 <= bit_len -> bit_len / 8 + 512 <= n ->
  exists l, block_bitmap_buf (zeros n) bit_len = Ok l /\ zlen l = n /\ bytes l
    /\ forall q, 0 <= q < n -> l !! Z.to_nat q = Some (bitmap_byte bit_len q).
Proof.
  intros Hb Hn. unfold block_bitmap_buf. assert (1 <= bit_len / 8) as Hlb by dlia. set (lb := bit_len / 8) in *.
  pose proof (Z.mod_pos_bound lb 512 ltac:(lia)) as Hm. unfold SECTOR_SIZE.
  rewrite (rd_znth _ _ 0) by (unfold znth; zdec; apply zeros_lookup; lia). cbn [obind].
  pose proof (zeros_length n ltac:(lia)) as Hz. rewrite wr_in by lia. cbn [obind]. change (Z.lor 0 1) with 1.
  set (r := replicate (Z.to_nat (512 - lb mod 512)) 255). assert (zlen r = 512 - lb mod 512) as Hr by (unfold r; rewrite length_replicate; lia).
  destruct (splice_ok (<[Z.to_nat 0:=1]> (zeros n)) lb r) as [l El]; [lia | rewrite length_insert; lia|].
  rewrite El. cbn [obind]. pose proof (splice_length _ _ _ _ El) as Hll. rewrite length_insert in Hll.
  assert (forall q, 0 <= q < n -> l !! Z.to_nat q = Some (if q =? 0 then 1 else if (lb <=? q) && (q <? lb + (512 - lb mod 512)) then 255 else 0)) as Hq.
  { intros q Hq. rewrite (splice_lookup _ _ _ _ _ El) by lia. rewrite Hr.
    destruct (Z.eqb_spec q 0) as [->|Hne].
    - replace (lb <=? 0) with false by (symmetry; apply Z.leb_gt; lia). cbn [andb]. rewrite list_lookup_insert_eq by lia. done.
    - destruct (andb _ _) eqn:E; zb.
      + unfold r. by rewrite lookup_replicate_2 by lia.
      + rewrite list_lookup_insert_ne by lia. by apply zeros_lookup. }
  rewrite clear_loop; [|apply Z.mod_pos_bound; lia | lia|].
  2: { rewrite Hq by lia. destruct (Z.eqb_spec lb 0), (Z.leb_spec lb lb), (Z.ltb_spec lb (lb + (512 - lb mod 512))); done || lia. }
  pose proof (Z.mod_pos_bound bit_len 8 ltac:(lia)) as Hm8.
  eexists. split; [done|]. split; [rewrite length_insert; lia|]. split.
  - apply Forall_insert; [|by apply cleared_byte; lia]. apply (splice_forall _ _ _ _ _ El).
    + apply Forall_insert; [apply zeros_bytes | unfold is_byte; lia].
    + apply Forall_replicate. unfold is_byte. lia.
  - intros q Hqn. unfold bitmap_byte. fold lb. destruct (Z.eqb_spec q lb) as [->|Hne].
    + rewrite list_lookup_insert_eq by lia. replace (lb =? 0) with false by (symmetry; apply Z.eqb_neq; lia). by rewrite Z.ltb_irrefl.
    + rewrite list_lookup_insert_ne by lia. rewrite Hq by done. destruct (Z.eqb_spec q 0); [done|].
      destruct (Z.leb_spec lb q), (Z.ltb_spec q lb); cbn [andb]; try lia; done.
Qed.

Lemma cleared_bit b j : 0 <= b < 8 -> 0 <= j < 8 -> Z.testbit (cleared (b + 1)) j = (b <? j).
Proof.
  intros Hb Hj.
  assert (forallb (fun b => forallb (fun j => Bool.eqb (Z.testbit (cleared (b + 1)) j) (b <? j)) (seqZ 0 8)) (seqZ 0 8) = true) as Hall by reflexivity.
  pose proof (forallb_range _ _ Hall b Hb) as Hr. by apply (forallb_range _ _ Hr), Bool.eqb_prop in Hj.
Qed.

Lemma testbit_255 j : 0 <= j < 8 -> Z.testbit 255 j = true.
Proof. intros Hj. change 255 with (Z.ones 8). apply Z.ones_spec_low. lia. Qed.

Lemma testbit_1 k : 0 <= k -> Z.testbit 1 k = (k =? 0).
Proof. intros Hk. change 1 with (2 ^ 0). rewrite Z.pow2_bits_eqb by lia. by rewrite Z.eqb_sym. Qed.

(** The bits the bitmap says are in use: the root directory's block, and those after
    the first one past the end. *)
Lemma bitmap_bits bit_len n m l k : 8 <= bit_len -> bit_len <= 4096 * n < bit_len + 4096 ->
  (forall q, 0 <= q < 512 * n -> l !! Z.to_nat q = Some (bitmap_byte bit_len q)) -> 0 <= k < 4096 * n ->
  bit (mk_bitmap m l) k = (k =? 0) || (bit_len <? k).
Proof.
  intros Hb Hn Hl Hk. unfold bit, znth. cbn [bits]. replace (k / 8 <? 0) with false by (symmetry; apply Z.ltb_ge; dlia).
  rewrite Hl by dlia. cbn [default]. pose proof (Z.mod_pos_bound k 8 ltac:(lia)) as Hm. pose proof (Z.div_mod k 8 ltac:(lia)) as Hdm.
  pose proof (Z.mod_pos_bound bit_len 8 ltac:(lia)) as Hm'. pose proof (Z.div_mod bit_len 8 ltac:(lia)) as Hdm'. unfold bitmap_byte, id.
  destruct (Z.eqb_spec (k / 8) 0) as [E0|Hne].
  - replace (bit_len <? k) with false by (symmetry; apply Z.ltb_ge; lia). rewrite orb_false_r.
    rewrite testbit_1 by lia. f_equal. lia.
  - replace (k =? 0) with false by (symmetry; apply Z.eqb_neq; intros ->; done). cbn [orb].
    destruct (Z.ltb_spec (k / 8) (bit_len / 8)).
    + rewrite Z.bits_0. symmetry. apply Z.ltb_ge. lia.
    + destruct (Z.eqb_spec (k / 8) (bit_len / 8)) as [Ee|Hne'].
      * rewrite cleared_bit by lia. destruct (Z.ltb_spec (bit_len mod 8) (k mod 8)), (Z.ltb_spec bit_len k); lia.
      * destruct (Z.ltb_spec (k / 8) (bit_len / 8 + (512 - bit_len / 8 mod 512))) as [_|Hge].
        -- replace (bit_len <? k) with true by (symmetry; apply Z.ltb_lt; lia). by apply (testbit_255 (k mod 8)).
        -- exfalso. pose proof (Z.mod_pos_bound (bit_len / 8) 512 ltac:(lia)). pose proof (Z.div_mod (bit_len / 8) 512 ltac:(lia)). lia.
Qed.

(** The first bytes of a cleared buffer are written, the rest stays. *)
Lemma splice_app_l {A} (l r : list A) off src : 0 <= off -> off + zlen src <= zlen l ->
  splice (l ++ r) off src = let! l := splice l off src in Ok (l ++ r).
Proof.
  intros Ho Hs. unfold splice. rewrite length_app. zdec. cbn [obind]. f_equal.
  rewrite take_app_le, drop_app_le by lia. by rewrite <- !app_assoc.
Qed.

Lemma zeros_split n k : 0 <= k <= n -> zeros n = zeros k ++ zeros (n - k).
Proof. intros. unfold zeros. rewrite <- replicate_add. f_equal. lia. Qed.

Lemma zeros_first n : 512 <= n -> take (Z.to_nat (512 * 1)) (<[Z.to_nat 0:=1]> (zeros n)) = 1 :: zeros 511.
Proof.
  intros Hn. rewrite (zeros_split n 1), (zeros_split (n - 1) 511) by lia. change (zeros 1) with [0].
  change (Z.to_nat (512 * 1)) with (S (Z.to_nat 511)). change (Z.to_nat 0) with 0%nat. cbn [app insert list_insert take]. apply (f_equal (cons 1)).
  apply take_app_length'. pose proof (zeros_length 511). lia.
Qed.

(** The bytes of the root directory's inode, and of its two entries. *)
Definition root_inode (s : super_block) : inode := mk_inode 0 48 0 0 (data_start_lba s :: replicate 12 0).

Lemma root_inode_buf_ok n s : 76 <= n -> dir_entry_size s = 24 ->
  root_inode_buf (zeros n) s = Ok (words_to_bytes (inode_words (root_inode s)) ++ zeros (n - 76)).
Proof.
  intros Hn Hs. unfold root_inode_buf. rewrite Hs, (zeros_split n 76) by lia.
  change (zeros 76) with (replicate 76 0). rewrite splice_app_l by (cbn; lia).
  cbn [obind]. change (splice (replicate 76 0) 4 (le32 (24 * 2))) with (Ok (replicate 4 0 ++ le32 48 ++ replicate 68 0)). cbn [obind].
  rewrite splice_app_l by (cbn; lia).
  change (splice (replicate 4 0 ++ le32 48 ++ replicate 68 0) 0 (le32 0)) with (Ok (le32 0 ++ le32 48 ++ replicate 68 0)). cbn [obind].
  rewrite splice_app_l by (cbn; lia). unfold root_inode. destruct s as [? ? ? ? ? ? ? ? ? ? data ? ?]. cbn [data_start_lba].
  unfold words_to_bytes, inode_words. cbn [i_no i_size i_open_cnts write_deny i_sectors app map concat replicate]. assert (length (le32 data) = 4%nat) as Hl by reflexivity.
  revert Hl. generalize (le32 data). intros [|a [|b [|c [|e [|]]]]] Hl; try discriminate Hl. reflexivity.
Qed.

Definition root_entries : list (list Z) := [DOT ++ replicate 15 0 ++ le32 0 ++ le32 FT_DIRECTORY; DOTDOT ++ replicate 14 0 ++ le32 0 ++ le32 FT_DIRECTORY].

Lemma root_dir_buf_ok n : 512 <= n -> root_dir_buf (zeros n) = Ok (concat root_entries ++ replicate 464 0 ++ zeros (n - 512)).
Proof.
  intros Hn. unfold root_dir_buf. rewrite (zeros_split n 512) by lia. change (zeros 512) with (replicate 512 0).
  do 6 (rewrite splice_app_l by (vm_compute; discriminate);
    match goal with |- context [splice ?l ?o ?s] => let v := eval vm_compute in (splice l o s) in change (splice l o s) with v end; cbn [obind]).
  reflexivity.
Qed.

(** A super block read back. *)
Lemma sb_at_bytes s pad : Forall (fun w => is_u32 w) (sb_words s) -> sb_at (sb_bytes s pad) = Ok s.
Proof.
  intros Hw. unfold sb_at, sb_bytes, slice. rewrite length_app, words_to_bytes_length. cbn [sb_words length]. zdec. cbn [obind].
  change (Z.to_nat 0) with 0%nat. rewrite drop_0. replace (Z.to_nat 52) with (length (words_to_bytes (sb_words s))) by (by rewrite words_to_bytes_length).
  rewrite take_app_length, bytes_to_words_to_bytes by done. by destruct s.
Qed.

Section disk.
Context {D : Type} `{BlockDeviceLaws D}.
Implicit Types (d : D) (l buf : list Z).

(** The bytes of [l] are on the disk from sector [lba] on. *)
Definition on_disk d (lba : Z) l : Prop := forall i, 0 <= i < zlen l -> dbyte d (512 * lba + i) = l !! Z.to_nat i.

(** A write of [n] sectors. *)
Lemma write_run d lba n buf : 0 < n -> lba + n - 1 <= max_lba -> 512 * n <= zlen buf -> bytes buf ->
  exists d', disk_write d lba n buf 0 = Ok d' /\ on_disk d' lba (take (Z.to_nat (512 * n)) buf)
    /\ forall p, ~ 512 * lba <= p < 512 * (lba + n) -> dbyte d' p = dbyte d p.
Proof.
  intros Hn Hm Hl Hb. unfold disk_write, transfer_ok, slice. pose proof (Z.mul_div_le (n - 1) 256 ltac:(lia)) as Hd.
  pose proof (Z.div_pos (n - 1) 256 ltac:(lia) ltac:(lia)). zdec. cbn [c_assert obind].
  change (Z.to_nat 0) with 0%nat. rewrite drop_0. set (l := take (Z.to_nat (512 * n)) buf).
  assert (zlen l = 512 * n) as Hll by (unfold l; rewrite length_take; lia).
  eexists. split; [done|]. assert (bytes l) as Hbl by (by apply Forall_take). split.
  - intros i Hi. rewrite write_sectors_dbyte by (done || lia). rewrite Z2Nat.id by lia. zdec. f_equal. lia.
  - intros p Hp. rewrite write_sectors_dbyte by (done || lia). rewrite Z2Nat.id by lia. case_bool; [zb; lia | done].
Qed.

Lemma on_disk_keep d d' lba lba' n l : on_disk d lba l -> (forall p, ~ 512 * lba' <= p < 512 * (lba' + n) -> dbyte d' p = dbyte d p) ->
  512 * lba + zlen l <= 512 * lba' \/ lba' + n <= lba -> on_disk d' lba l.
Proof. intros Ho Hk Hr i Hi. rewrite Hk by lia. by apply Ho. Qed.

Lemma on_disk_sectors d lba n l : zlen l = 512 * Z.of_nat n -> on_disk d lba l -> read_sectors d lba n = l.
Proof.
  intros Hl Ho. pose proof (read_sectors_length d lba n) as Hr. apply (list_by_znth _ _ (512 * Z.of_nat n)); [lia | lia|].
  intros k Hk. rewrite read_sectors_lookup by lia. rewrite Ho by lia. done.
Qed.

Lemma on_disk_sub d lba l r : on_disk d lba (l ++ r) -> on_disk d lba l.
Proof. intros Ho i Hi. rewrite Ho by (rewrite length_app; lia). by rewrite lookup_app_l by lia. Qed.
End disk.

(** ** Formatting *)

(** What a formatted partition holds besides free blocks. *)
Record format_disk {D} `{BlockDevice D} (d : D) (start cnt : Z) (pad : list Z) : Prop := {
  fd_sb : on_disk d (start + 1) (sb_bytes (layout_sb start cnt) pad);
  fd_bb : on_disk d (start + 2) (map (bitmap_byte (bits_of cnt)) (seqZ 0 (512 * sects_of cnt)));
  fd_ib : on_disk d (start + 2 + sects_of cnt) (1 :: zeros 511);
  fd_table : on_disk d (start + 3 + sects_of cnt) (words_to_bytes (inode_words (root_inode (layout_sb start cnt))) ++ zeros (311296 - 76));
  fd_root : on_disk d (start + 611 + sects_of cnt) (concat root_entries ++ replicate 464 0) }.

(** The stack is bytes. *)
Definition pad_ok (pad : list Z) : Prop := zlen pad = SIZEOF_PAD /\ bytes pad.

Lemma sb_bytes_ok s pad : pad_ok pad -> zlen (sb_bytes s pad) = 512 /\ bytes (sb_bytes s pad).
Proof.
  intros [Hl Hb]. unfold sb_bytes, SIZEOF_PAD in *. rewrite length_app, words_to_bytes_length. cbn [sb_words length].
  split; [lia|]. apply Forall_app; split; [apply words_to_bytes_bytes | done].
Qed.

Section format.
Context {D H : Type} `{BlockDeviceLaws D} `{KernelHeapLaws H}.
Implicit Types (d : D) (h : H).

Lemma write_exact d lba n l buf : 0 < n -> lba + n - 1 <= 163839 -> 512 * n <= zlen buf -> bytes buf -> take (Z.to_nat (512 * n)) buf = l ->
  exists d', disk_write d lba n buf 0 = Ok d' /\ on_disk d' lba l /\ forall p, ~ 512 * lba <= p < 512 * (lba + n) -> dbyte d' p = dbyte d p.
Proof. intros Hn Hm Hl Hb <-. by apply write_run. Qed.

Lemma partition_format_ok d h start cnt pad : fits_disk start cnt -> pad_ok pad -> snd (sys_malloc h false 311296) <> 0 ->
  exists d', partition_format d h start cnt pad = Ok (d', sys_free (fst (sys_malloc h false 311296)) false (snd (sys_malloc h false 311296)))
    /\ format_disk d' start cnt pad
    /\ forall p, ~ 512 * (start + 1) <= p < 512 * (start + 612 + sects_of cnt) -> dbyte d' p = dbyte d p.
Proof.
  intros Hf Hp Ha. pose proof Hf as [Hs Hc He]. change max_lba with 163839 in He.
  pose proof (layout_bounds cnt ltac:(lia)) as (Hb & Hn & Hend & Hsz). set (n := sects_of cnt) in *.
  unfold partition_format. rewrite format_layout_eq by done. cbn [layout_sb block_bitmap_sects inode_bitmap_sects inode_table_sects block_bitmap_lba inode_bitmap_lba inode_table_lba data_start_lba].
  fold n. destruct (Z.leb_spec 1 n) as [_|]; [|lia]. destruct (Z.leb_spec 608 n); [lia|]. change (u32 (608 * SECTOR_SIZE)) with 311296.
  destruct (sys_malloc h false 311296) as [h' a] eqn:Em. cbn [fst snd] in *. apply Z.eqb_neq in Ha as ->.
  destruct (sb_bytes_ok (layout_sb start cnt) pad Hp) as [Hl1 Hb1]. rewrite u32_small by lia.
  pose proof (zeros_length 311296 ltac:(lia)) as Hzl. 
  destruct (write_exact d (start + 1) 1 (sb_bytes (layout_sb start cnt) pad) (sb_bytes (layout_sb start cnt) pad)) as (d1 & E1 & O1 & K1); [lia|lia|lia|done|apply take_ge; lia|].
  rewrite E1. cbn [obind].
  destruct (block_bitmap_buf_ok 311296 (bits_of cnt) Hb) as (l & El & Hll & Hlb & Hlq); [dlia|]. rewrite El. cbn [obind].
  destruct (write_exact d1 (start + 2) n (map (bitmap_byte (bits_of cnt)) (seqZ 0 (512 * n))) l) as (d2 & E2 & O2 & K2); [lia|lia|lia|done| |].
  { apply (list_by_znth _ _ (512 * n)); [rewrite length_take; lia | rewrite length_map, length_seqZ; lia|].
    intros k Hk. rewrite lookup_take_lt, Hlq by lia. rewrite list_lookup_fmap, lookup_seqZ_lt by lia. cbn. by rewrite Z2Nat.id by lia. }
  rewrite E2. cbn [obind]. rewrite (rd_znth _ _ 0) by (unfold znth; zdec; apply zeros_lookup; lia). cbn [obind]. rewrite wr_in by lia. cbn [obind].
  change (Z.lor 0 1) with 1.
  destruct (write_exact d2 (start + 2 + n) 1 (1 :: zeros 511) (<[Z.to_nat 0:=1]> (zeros 311296))) as (d3 & E3 & O3 & K3); [lia|lia|rewrite length_insert; lia| | |].
  { apply Forall_insert; [apply zeros_bytes | unfold is_byte; lia]. }
  { by apply zeros_first. }
  rewrite E3. cbn [obind]. rewrite root_inode_buf_ok by (done || lia). cbn [obind]. set (w := words_to_bytes (inode_words (root_inode (layout_sb start cnt)))).
  assert (zlen w = 76) as Hw by (unfold w; rewrite inode_words_length by done; lia).
  destruct (write_exact d3 (start + 3 + n) 608 (w ++ zeros (311296 - 76)) (w ++ zeros (311296 - 76))) as (d4 & E4 & O4 & K4);
    [lia|lia|rewrite length_app; pose proof (zeros_length (311296 - 76)); lia| | |].
  { apply Forall_app; split; [apply words_to_bytes_bytes | apply zeros_bytes]. }
  { apply take_ge. rewrite length_app. pose proof (zeros_length (311296 - 76)); lia. }
  rewrite E4. cbn [obind]. rewrite root_dir_buf_ok by lia. cbn [obind].
  destruct (write_exact d4 (start + 611 + n) 1 (concat root_entries ++ replicate 464 0) (concat root_entries ++ replicate 464 0 ++ zeros (311296 - 512))) as (d5 & E5 & O5 & K5);
    [lia|lia| | | |].
  { rewrite !length_app. change (length (concat root_entries)) with 48%nat. rewrite length_replicate. lia. }
  { apply Forall_app; split; [by apply good_bytes | apply Forall_app; split; [apply Forall_replicate; unfold is_byte; lia | apply zeros_bytes]]. }
  { rewrite app_assoc. rewrite take_app_le by (rewrite length_app; cbn; lia). by apply take_ge. }
  rewrite E5. cbn [obind]. exists d5. split; [done|]. split.
  - assert (zlen (map (bitmap_byte (bits_of cnt)) (seqZ 0 (512 * n))) = 512 * n) as Hmb by (rewrite length_map, length_seqZ; lia).
    assert (zlen (1 :: zeros 511) = 512) as Hib by (cbn [length]; pose proof (zeros_length 511); lia).
    assert (zlen (w ++ zeros (311296 - 76)) = 311296) as Htb by (rewrite length_app; pose proof (zeros_length (311296 - 76)); lia).
    split; fold n; fold w.
    + eapply on_disk_keep; [|exact K5|lia]. eapply on_disk_keep; [|exact K4|lia]. eapply on_disk_keep; [|exact K3|lia]. eapply on_disk_keep; [|exact K2|lia]. exact O1.
    + eapply on_disk_keep; [|exact K5|lia]. eapply on_disk_keep; [|exact K4|lia]. eapply on_disk_keep; [|exact K3|lia]. exact O2.
    + eapply on_disk_keep; [|exact K5|lia]. eapply on_disk_keep; [|exact K4|lia]. exact O3.
    + eapply on_disk_keep; [|exact K5|lia]. exact O4.
    + exact O5.
  - intros p Hq. rewrite K5, K4, K3, K2, K1 by lia. done.
Qed.
End format.

(** ** Mounting *)

(** The heap can serve the next [n] requests, of up to the 608 sectors formatting
    takes at once. *)
Fixpoint ample {H} `{KernelHeap H} (n : nat) (h : H) : Prop :=
  match n with
  | O => True
  | S n => (forall k sz, 0 < sz <= 311296 -> may_malloc h k sz /\ ample n (fst (sys_malloc h k sz)))
           /\ forall k a, Inode.live h k a -> ample n (sys_free h k a)
  end.

(** A block bitmap with its overhang harmless: it ends with its last sector, or
    the sector after it is still in the partition. *)
Definition spare (cnt : Z) : Prop := bits_of cnt mod 4096 = 0 \/ 611 + sects_of cnt + bits_of cnt < cnt.

(** The super block of a mounted partition is on the disk, and describes bitmaps
    the code can read. *)
Record sb_synced {D} `{BlockDevice D} (d : D) (p : partition) (pad : list Z) : Prop := {
  sbs_words : Forall (fun w => is_u32 w) (sb_words (sb p));
  sbs_pad : pad_ok pad;
  sbs_disk : on_disk d (start_lba p + 1) (sb_bytes (sb p) pad);
  sbs_bb : 0 < block_bitmap_sects (sb p) <= 256;
  sbs_ib : inode_bitmap_sects (sb p) = 1 }.

Section mount.
Context {D H : Type} `{BlockDeviceLaws D} `{KernelHeapLaws H}.
Abbreviation fs := (fstate D H).
Implicit Types (d : D) (h : H) (f : fs) (p : partition).

Lemma ample_roomy n : forall h, ample n h -> roomy n h.
Proof.
  induction n as [|n IH]; intros h; cbn; [done|]. intros [Ha Hf]. split; [|by auto].
  intros k sz Hsz. destruct (Ha k sz ltac:(lia)). auto.
Qed.

Lemma ample_less n : forall h, ample (S n) h -> ample n h.
Proof.
  induction n as [|n IH]; intros h; [done|]. intros [Ha Hf]. split; [|by auto].
  intros k sz Hsz. destruct (Ha k sz Hsz). auto.
Qed.

Lemma ample_le n m h : (n <= m)%nat -> ample m h -> ample n h.
Proof. induction 1; [done|]. intros A. by apply IHle, ample_less. Qed.

Lemma ample_malloc n h k sz : ample (S n) h -> 0 < sz <= 311296 ->
  exists h' a, sys_malloc h k sz = (h', a) /\ a <> 0 /\ ample n h' /\ ~ Inode.live h k a
    /\ forall k' b, Inode.live h' k' b <-> Inode.live h k' b \/ (k' = k /\ b = a).
Proof.
  intros [Ha _] Hs. destruct (Ha k sz Hs) as [M A]. pose proof (malloc_some _ _ _ M) as Hn.
  destruct (sys_malloc h k sz) as [h' a] eqn:E. exists h', a. split_and!; try done; by eapply malloc_fresh.
Qed.

(** A partition as it is mounted from [d]. *)
Definition mounted d (start cnt : Z) (s : super_block) (after_bb after_ib : list Z) : partition :=
  mk_partition start cnt s (mk_bitmap (512 * block_bitmap_sects s) (read_sectors d (block_bitmap_lba s) (Z.to_nat (block_bitmap_sects s)) ++ after_bb))
    (mk_bitmap 512 (read_sectors d (inode_bitmap_lba s) 1 ++ after_ib)) [].

Lemma mount_bitmap_ok n d h lba sects after : ample (S n) h -> lba <= max_lba -> 0 < sects <= 256 ->
  exists h', mount_bitmap d h lba sects after = Ok (h', mk_bitmap (512 * sects) (read_sectors d lba (Z.to_nat sects) ++ after)) /\ ample n h'.
Proof.
  intros A Hl Hs. unfold mount_bitmap, SECTOR_SIZE. rewrite u32_small by lia.
  destruct (ample_malloc n h false (sects * 512) A ltac:(lia)) as (h' & a & -> & Ha & A' & _). apply Z.eqb_neq in Ha as ->.
  rewrite disk_read_whole by (rewrite ?zeros_length; lia). cbn [obind]. exists h'. split; [|done]. by rewrite (Z.mul_comm sects).
Qed.

Lemma mount_ok n d h files k start cnt s pad after_bb after_ib : ample (4 + n) h -> 0 <= start -> start + 1 <= max_lba ->
  Forall (fun w => is_u32 w) (sb_words s) -> pad_ok pad -> on_disk d (start + 1) (sb_bytes s pad) ->
  block_bitmap_lba s <= max_lba -> 0 < block_bitmap_sects s <= 256 -> inode_bitmap_lba s <= max_lba -> inode_bitmap_sects s = 1 ->
  exists h', mount_partition d h files k start cnt after_bb after_ib = Ok (mk_fs _ _ d (mounted d start cnt s after_bb after_ib) h' ∅ files k)
    /\ ample n h'.
Proof.
  intros A Hs Hm Hw Hp Ho Hl1 Hn1 Hl2 Hn2. unfold mount_partition. change max_lba with 163839 in Hm.
  destruct (ample_malloc (3 + n) h false SECTOR_SIZE A ltac:(unfold SECTOR_SIZE; lia)) as (h1 & a1 & -> & Ha1 & A1 & _).
  destruct (ample_malloc (2 + n) h1 false SIZEOF_SB A1 ltac:(unfold SIZEOF_SB; lia)) as (h2 & a2 & -> & Ha2 & A2 & _).
  apply Z.eqb_neq in Ha1 as ->. apply Z.eqb_neq in Ha2 as ->. rewrite u32_small by lia.
  rewrite disk_read_one by (done || (change max_lba with 163839; lia)). cbn [obind].
  assert (sector d (start + 1) = sb_bytes s pad) as ->.
  { rewrite <- (on_disk_sectors d (start + 1) 1 (sb_bytes s pad)); [|destruct (sb_bytes_ok s pad Hp); lia|done]. cbn [read_sectors]. by rewrite app_nil_r. }
  rewrite sb_at_bytes by done. cbn [obind].
  destruct (mount_bitmap_ok (1 + n) d h2 _ _ after_bb A2 Hl1 Hn1) as (h3 & -> & A3). cbn [obind].
  destruct (mount_bitmap_ok n d h3 (inode_bitmap_lba s) (inode_bitmap_sects s) after_ib A3 Hl2 ltac:(lia)) as (h4 & -> & A4). cbn [obind].
  exists h4. split; [|done]. unfold mounted. rewrite Hn2. done.
Qed.

(** The bits of a bitmap read back are those of the one that was synced. *)
Lemma read_bits d lba n b after k : 0 <= lba -> 0 <= n -> n * 512 <= zlen (bits b) ->
  (forall q, 0 <= q < 512 * n -> dbyte d (512 * lba + q) = bits b !! Z.to_nat q) ->
  0 <= k < 4096 * n -> bit (mk_bitmap (512 * n) (read_sectors d lba (Z.to_nat n) ++ after)) k = bit b k.
Proof.
  intros Hl Hn Hlen Hq Hk. unfold bit, znth. cbn [bits]. assert (0 <= k / 8 < 512 * n) as Hk8 by dlia.
  replace (k / 8 <? 0) with false by (symmetry; apply Z.ltb_ge; lia). pose proof (read_sectors_length d lba (Z.to_nat n)) as Hr.
  rewrite lookup_app_l by lia. rewrite read_sectors_lookup, Hq by lia. done.
Qed.

Lemma read_bitmap_wf d lba n after : 0 <= n <= 256 -> 1 <= zlen after -> bytes after ->
  bitmap_wf 1 (mk_bitmap (512 * n) (read_sectors d lba (Z.to_nat n) ++ after)).
Proof.
  intros Hn Ha Hb. pose proof (read_sectors_length d lba (Z.to_nat n)) as Hr.
  split; unfold nbits; cbn [btmp_bytes_len bits]; rewrite ?length_app; [lia | lia | lia |].
  apply Forall_app; split; [apply read_sectors_bytes | done].
Qed.

Lemma read_synced d lba n after q : 0 <= q < 512 * n ->
  dbyte d (512 * lba + q) = (read_sectors d lba (Z.to_nat n) ++ after) !! Z.to_nat q.
Proof.
  intros Hq. pose proof (read_sectors_length d lba (Z.to_nat n)) as Hr. rewrite lookup_app_l by lia. by rewrite read_sectors_lookup by lia.
Qed.

Lemma bitmaps_fit p : geometry p -> 512 * block_bitmap_sects (sb p) <= zlen (bits (block_bitmap p)) /\ 512 <= zlen (bits (inode_bitmap p)).
Proof. intros G. pose proof (wf_mem _ _ (geo_bb_wf p G)). pose proof (wf_mem _ _ (geo_ib_wf p G)). geo G. lia. Qed.

Lemma mounted_bits d p after_bb after_ib : geometry p -> bb_synced d p -> ib_synced d p -> 0 < block_bitmap_sects (sb p) <= 256 ->
  let p' := mounted d (start_lba p) (sec_cnt p) (sb p) after_bb after_ib in
  (forall k, 0 <= k < nbits (block_bitmap p) -> bit (block_bitmap p') k = bit (block_bitmap p) k)
  /\ (forall k, 0 <= k < 4096 -> bit (inode_bitmap p') k = bit (inode_bitmap p) k).
Proof.
  intros G Sb Si Hn p'. destruct (bitmaps_fit p G) as [F1 F2]. split; intros k Hk.
  - apply read_bits; [geo G; lia | lia | lia | exact Sb | geo G; lia].
  - apply (read_bits d _ 1); [geo G; lia | lia | lia | exact Si | lia].
Qed.

Lemma mounted_geometry d p after_bb after_ib : geometry p -> bb_synced d p -> ib_synced d p -> 0 < block_bitmap_sects (sb p) <= 256 ->
  1 <= zlen after_bb -> bytes after_bb -> 1 <= zlen after_ib -> bytes after_ib ->
  geometry (mounted d (start_lba p) (sec_cnt p) (sb p) after_bb after_ib).
Proof.
  intros G Sb Si Hn A1 B1 A2 B2. destruct (mounted_bits d p after_bb after_ib G Sb Si Hn) as [Mb _].
  assert (nbits (block_bitmap p) = 4096 * block_bitmap_sects (sb p)) as En by (geo G; lia).
  split; unfold mounted; cbn [start_lba sec_cnt sb block_bitmap inode_bitmap btmp_bytes_len]; try apply G; try done.
  - apply read_bitmap_wf; lia || done.
  - apply (read_bitmap_wf d _ 1); lia || done.
  - transitivity (bit (block_bitmap p) 0); [apply Mb; lia | apply G].
  - intros k Hk Hb. apply G; [rewrite En; unfold nbits in Hk; cbn [btmp_bytes_len] in Hk; lia|].
    rewrite <- Hb. symmetry. apply Mb. unfold nbits in Hk. cbn [btmp_bytes_len] in Hk. lia.
Qed.

Lemma mounted_synced d start cnt s after_bb after_ib :
  bb_synced d (mounted d start cnt s after_bb after_ib) /\ ib_synced d (mounted d start cnt s after_bb after_ib).
Proof. split; intros q Hq; [by apply read_synced | by apply (read_synced d _ 1)]. Qed.

Lemma mem_ok_fresh d p h files k : open_inodes p = [] -> mem_ok (mk_fs D H d p h ∅ files k).
Proof.
  intros Ho. split; cbn; rewrite ?Ho; [constructor | intros a Ha; by apply elem_of_nil in Ha | intros a i; by rewrite lookup_empty |].
  intros a b i j Ha. by apply elem_of_nil in Ha.
Qed.

(** C8. What was in the file system when the machine went down is there when it is
    mounted again: of a partition whose super block and bitmaps are on the disk,
    [mount_partition] makes a well-formed file system with the same super block, the
    same blocks and inodes in use, and nothing open; every inode that was not open is
    what it was. *)
Theorem remount_spec f h files k pad after_bb after_ib : let p := cur_part f in
  mem_ok f -> geometry p -> bb_synced (medium f) p -> ib_synced (medium f) p -> sb_synced (medium f) p pad -> ample 4 h ->
  1 <= zlen after_bb -> bytes after_bb -> 1 <= zlen after_ib -> bytes after_ib ->
  exists f', mount_partition (medium f) h files k (start_lba p) (sec_cnt p) after_bb after_ib = Ok f'
    /\ medium f' = medium f /\ sb (cur_part f') = sb p /\ open_inodes (cur_part f') = []
    /\ mem_ok f' /\ geometry (cur_part f') /\ bb_synced (medium f') (cur_part f') /\ ib_synced (medium f') (cur_part f')
    /\ (forall b, 0 <= b < nbits (block_bitmap p) -> bit (block_bitmap (cur_part f')) b = bit (block_bitmap p) b)
    /\ (forall b, 0 <= b < 4096 -> bit (inode_bitmap (cur_part f')) b = bit (inode_bitmap p) b)
    /\ forall no, not_open f no -> inode_view f' no = inode_view f no.
Proof.
  intros p M G Sb Si [Hw Hp Ho Hn1 Hn2] A A1 B1 A2 B2.
  destruct (mount_ok 0 (medium f) h files k (start_lba p) (sec_cnt p) (sb p) pad after_bb after_ib) as (h' & E & _); try done.
  1-4: subst p; geo G; change max_lba with 163839; lia.
  rewrite E. eexists. split; [done|]. cbn [medium cur_part]. split; [done|]. split; [done|]. split; [done|].
  split; [by apply mem_ok_fresh|]. split; [by apply mounted_geometry|].
  destruct (mounted_synced (medium f) (start_lba p) (sec_cnt p) (sb p) after_bb after_ib) as [S1 S2]. split; [done|]. split; [done|].
  destruct (mounted_bits (medium f) p after_bb after_ib G Sb Si Hn1) as [M1 M2]. split; [done|]. split; [done|].
  intros no Hno. rewrite (inode_view_miss f no M Hno). done.
Qed.
End mount.

(** ** A new file system *)

(** A directory of one block. *)
Lemma one_block_slots {D} `{BlockDevice D} (d : D) i lba : i_sectors i = lba :: replicate 12 0 -> lba <> 0 ->
  (forall k, 0 <= k < 140 -> file_block d i k = if k =? 0 then lba else 0) /\ dir_slots d i = slots (sector d lba).
Proof.
  intros Hs Hn. assert (forall k, 0 <= k < 140 -> file_block d i k = if k =? 0 then lba else 0) as Hb.
  { intros k Hk. unfold file_block, indirect_table. rewrite Hs. change (znth (lba :: replicate 12 0) 12) with (Some 0). cbn [default Z.eqb].
    destruct (Z.ltb_spec k 12); [|change (id 0 =? 0) with true; cbn iota; rewrite znth_out by (cbn [length]; lia); by zdec].
    destruct (Z.eqb_spec k 0) as [->|]; [done|]. unfold znth. zdec. rewrite lookup_cons_ne_0 by lia. by rewrite lookup_replicate_2 by lia. }
  assert (dir_lbas d i 0 140 = [lba]) as Hl.
  { unfold dir_lbas. rewrite (map_ext_in _ (fun k => if k =? 0 then lba else 0)).
    - change (seqZ 0 140) with (0 :: seqZ 1 139). cbn [map]. rewrite filter_cons_True by done. f_equal.
    - intros k Hk%list_elem_of_In%elem_of_seqZ. apply Hb. lia. }
  split; [exact Hb|]. unfold dir_slots, slots_of. rewrite Hl. cbn [map concat]. by rewrite app_nil_r.
Qed.

(** The file system of a newly formatted partition: the bits that are in use, the root
    directory with its two entries. *)
Record fresh_fs {D H} `{BlockDevice D} (f : fstate D H) (start cnt : Z) : Prop := {
  ff_part : start_lba (cur_part f) = start /\ sec_cnt (cur_part f) = cnt /\ sb (cur_part f) = layout_sb start cnt;
  ff_len : nbits (block_bitmap (cur_part f)) = 4096 * sects_of cnt;
  ff_blocks k : 0 <= k < 4096 * sects_of cnt -> bit (block_bitmap (cur_part f)) k = (k =? 0) || (bits_of cnt <? k);
  ff_inodes k : 0 <= k < 4096 -> bit (inode_bitmap (cur_part f)) k = (k =? 0);
  ff_synced : bb_synced (medium f) (cur_part f) /\ ib_synced (medium f) (cur_part f);
  ff_root : disk_inode (medium f) (cur_part f) 0 = Ok (root_inode (layout_sb start cnt));
  ff_dir : dir_ok (cur_part f) (medium f) (root_inode (layout_sb start cnt));
  ff_entries : dir_entries (medium f) (root_inode (layout_sb start cnt)) = root_entries }.

Section fresh.
Context {D H : Type} `{BlockDeviceLaws D} `{KernelHeapLaws H}.
Abbreviation fs := (fstate D H).
Implicit Types (d : D) (h : H) (f : fs) (p : partition).
Variables (d : D) (start cnt : Z) (pad after_bb after_ib : list Z).
Hypothesis Hf : fits_disk start cnt.
Hypothesis Hd : format_disk d start cnt pad.

Let s := layout_sb start cnt.
Let p := mounted d start cnt s after_bb after_ib.

Lemma fresh_bounds : 0 <= start /\ start + cnt <= 163839 /\ 8 <= bits_of cnt /\ 1 <= sects_of cnt <= 40
  /\ cnt - 1 <= 611 + sects_of cnt + bits_of cnt <= cnt /\ bits_of cnt <= 4096 * sects_of cnt < bits_of cnt + 4096.
Proof. pose proof Hf as [? ? ?]. change max_lba with 163839 in *. pose proof (layout_bounds cnt ltac:(lia)). lia. Qed.

Lemma fresh_words : Forall (fun w => is_u32 w) (sb_words s).
Proof. pose proof fresh_bounds. unfold s, layout_sb, sb_words. cbn -[Z.le Z.lt]. repeat (apply Forall_cons; split; [unfold SB_MAGIC; lia|]). by apply Forall_nil. Qed.

Lemma fresh_blocks k : 0 <= k < 4096 * sects_of cnt -> bit (block_bitmap p) k = (k =? 0) || (bits_of cnt <? k).
Proof.
  pose proof fresh_bounds as Hb. intros Hk. apply (bitmap_bits _ (sects_of cnt)); try lia. intros q Hq.
  change (block_bitmap_lba s) with (start + 2). change (block_bitmap_sects s) with (sects_of cnt).
  rewrite <- (read_synced d (start + 2) (sects_of cnt) after_bb q Hq).
  rewrite (fd_bb _ _ _ _ Hd) by (rewrite length_map, length_seqZ; lia). rewrite list_lookup_fmap, lookup_seqZ_lt by lia. cbn. by rewrite Z2Nat.id by lia.
Qed.

Lemma fresh_inodes k : 0 <= k < 4096 -> bit (inode_bitmap p) k = (k =? 0).
Proof.
  intros Hk. unfold bit, znth. assert (0 <= k / 8 < 512) as Hk8 by dlia. replace (k / 8 <? 0) with false by (symmetry; apply Z.ltb_ge; lia).
  cbn [p mounted inode_bitmap bits]. rewrite <- (read_synced d (inode_bitmap_lba s) 1 after_ib) by lia.
  change (inode_bitmap_lba s) with (start + 2 + sects_of cnt). rewrite (fd_ib _ _ _ _ Hd) by (cbn [length]; pose proof (zeros_length 511); lia).
  destruct (Z.eq_dec (k / 8) 0) as [E0|Hne].
  - rewrite E0. assert (0 <= k < 8) as Hk' by dlia. rewrite Z.mod_small by lia. apply testbit_1. lia.
  - rewrite lookup_cons_ne_0 by lia. replace (Nat.pred (Z.to_nat (k / 8))) with (Z.to_nat (k / 8 - 1)) by lia.
    rewrite zeros_lookup by lia. cbn. rewrite Z.bits_0. symmetry. apply Z.eqb_neq. intros ->. by apply Hne.
Qed.

Lemma fresh_root_wf : wf_inode (root_inode s).
Proof. pose proof fresh_bounds. split; [done|]. unfold inode_words, root_inode. cbn -[Z.le Z.lt]. repeat (apply Forall_cons; split; [lia|]). by apply Forall_nil. Qed.

Lemma fresh_root : disk_inode d p 0 = Ok (root_inode s).
Proof.
  apply disk_inode_bytes; [apply fresh_root_wf|]. intros k Hk. unfold inode_addr. cbn [p mounted sb].
  change (inode_table_lba s) with (start + 3 + sects_of cnt). rewrite Z.mul_0_r, Z.add_0_r.
  assert (length (words_to_bytes (inode_words (root_inode s))) = 76%nat) as Hl by (by apply inode_words_length).
  rewrite (fd_table _ _ _ _ Hd) by (fold s; rewrite length_app; lia). fold s. by rewrite lookup_app_l by lia.
Qed.

Lemma fresh_slots : dir_slots d (root_inode s) = root_entries ++ replicate 19 (replicate 24 0).
Proof.
  pose proof fresh_bounds. rewrite (proj2 (one_block_slots d (root_inode s) (start + 611 + sects_of cnt) eq_refl ltac:(lia))).
  replace (sector d (start + 611 + sects_of cnt)) with (concat root_entries ++ replicate 464 0); [vm_compute; reflexivity|].
  rewrite <- (on_disk_sectors d (start + 611 + sects_of cnt) 1 (concat root_entries ++ replicate 464 0)); [|done | apply Hd].
  cbn [read_sectors]. by rewrite app_nil_r.
Qed.

Lemma fresh_entries : dir_entries d (root_inode s) = root_entries.
Proof. unfold dir_entries. rewrite fresh_slots. vm_compute. reflexivity. Qed.

Lemma fresh_dir : dir_ok p d (root_inode s).
Proof.
  pose proof fresh_bounds as Hb. destruct (one_block_slots d (root_inode s) (start + 611 + sects_of cnt) eq_refl ltac:(lia)) as [Hblk _].
  split.
  - apply fresh_root_wf.
  - done.
  - intros k Hk. rewrite Hblk by lia. destruct (Z.eqb_spec k 0); [|done]. intros _. unfold dir_block, nbits, p, mounted, s.
    cbn [sb data_start_lba layout_sb block_bitmap btmp_bytes_len start_lba sec_cnt block_bitmap_sects]. split; [lia|]. split; [lia|].
    rewrite Z.sub_diag. change (bit (block_bitmap p) 0 = true). rewrite fresh_blocks by lia. done.
  - intros k k' Hk Hk'. rewrite !Hblk by lia. destruct (Z.eqb_spec k 0), (Z.eqb_spec k' 0); lia.
  - rewrite fresh_slots. apply Forall_app; split; [|apply Forall_replicate; by left].
    apply Forall_cons; split; [|apply Forall_singleton]; (right; split_and!; [discriminate | reflexivity | by apply good_bytes | | discriminate]);
      apply (bool_decide_unpack _); vm_compute; exact I.
  - rewrite fresh_entries. apply (bool_decide_unpack _). vm_compute. exact I.
  - rewrite fresh_entries. reflexivity.
Qed.
End fresh.

(** ** Formatting and mounting *)

Section theorems.
Context {D H : Type} `{BlockDeviceLaws D} `{KernelHeapLaws H}.
Abbreviation fs := (fstate D H).
Implicit Types (d : D) (h : H) (f : fs) (p : partition).

Definition fresh_mount d h files k start cnt after_bb after_ib : fs :=
  mk_fs _ _ d (mounted d start cnt (layout_sb start cnt) after_bb after_ib) h ∅ files k.

Lemma fresh_mounted d h files k start cnt pad after_bb after_ib : fits_disk start cnt -> format_disk d start cnt pad ->
  fresh_fs (fresh_mount d h files k start cnt after_bb after_ib) start cnt.
Proof.
  intros Hf Hd. split; cbn [medium cur_part fresh_mount].
  - done.
  - unfold nbits. cbn. lia.
  - by apply (fresh_blocks d start cnt pad).
  - by apply (fresh_inodes d start cnt pad).
  - apply mounted_synced.
  - by apply (fresh_root d start cnt pad).
  - by apply (fresh_dir d start cnt pad).
  - by apply (fresh_entries d start cnt pad).
Qed.

Lemma mount_fresh n d h files k start cnt pad after_bb after_ib : ample (4 + n) h -> fits_disk start cnt -> pad_ok pad -> format_disk d start cnt pad ->
  exists h', mount_partition d h files k start cnt after_bb after_ib = Ok (fresh_mount d h' files k start cnt after_bb after_ib) /\ ample n h'.
Proof.
  intros A Hf Hp Hd. pose proof (fresh_bounds start cnt Hf) as Hb.
  apply (mount_ok n d h files k start cnt (layout_sb start cnt) pad); try done; try (cbn; change max_lba with 163839; lia); try lia;
    [by apply fresh_words | apply Hd].
Qed.

(** Where the last bit ends harmlessly, a new file system is well formed; elsewhere its
    last free block is the sector after the partition. *)
Lemma fresh_geometry d h files k start cnt pad after_bb after_ib : fits_disk start cnt -> format_disk d start cnt pad ->
  1 <= zlen after_bb -> bytes after_bb -> 1 <= zlen after_ib -> bytes after_ib ->
  let p := cur_part (fresh_mount d h files k start cnt after_bb after_ib) in
  (spare cnt -> geometry p)
  /\ (~ spare cnt -> bit (block_bitmap p) (bits_of cnt) = false /\ data_start_lba (sb p) + bits_of cnt = start + cnt).
Proof.
  intros Hf Hd A1 B1 A2 B2 p. pose proof (fresh_bounds start cnt Hf) as Hb. destruct (fresh_mounted d h files k start cnt pad after_bb after_ib Hf Hd) as [_ Hlen Hbits _ _ _ _ _].
  fold p in Hlen, Hbits. split.
  - intros Hsp. split; unfold p, fresh_mount, mounted, layout_sb;
      cbn [cur_part start_lba sec_cnt sb block_bitmap inode_bitmap btmp_bytes_len block_bitmap_lba block_bitmap_sects inode_bitmap_lba inode_table_lba data_start_lba];
      try lia; try (change max_lba with 163839; lia).
    + apply read_bitmap_wf; lia || done.
    + apply (read_bitmap_wf d _ 1); lia || done.
    + change (bit (block_bitmap p) 0 = true). rewrite Hbits by lia. done.
    + intros j Hj. change (bit (block_bitmap p) j = false -> start + 611 + sects_of cnt + j < start + cnt).
      change (0 <= j < nbits (block_bitmap p)) in Hj. rewrite Hbits by lia. intros Hz. apply orb_false_iff in Hz as [_ Hz]. apply Z.ltb_ge in Hz.
      destruct Hsp as [Hm|]; [|lia]. assert (bits_of cnt = 4096 * sects_of cnt) by (pose proof (Z.div_mod (bits_of cnt) 4096 ltac:(lia)); lia). lia.
  - intros Hns. unfold spare in Hns. assert (bits_of cnt <> 4096 * sects_of cnt) as Hne.
    { intros E. apply Hns. left. rewrite E, Z.mul_comm. by apply Z.mod_mul. }
    split; [|change (start + 611 + sects_of cnt + bits_of cnt = start + cnt); lia].
    rewrite Hbits by lia. rewrite Z.ltb_irrefl, orb_false_r. apply Z.eqb_neq. lia.
Qed.

(** [bb] is [b] with the block after the partition taken, where the clearing loop has
    made it free. *)
#[export] Instance spare_dec cnt : Decision (spare cnt). Proof. unfold spare. apply _. Defined.
Record end_taken (cnt : Z) (b bb : bitmap) : Prop := {
  et_len : btmp_bytes_len bb = btmp_bytes_len b;
  et_spare : spare cnt -> bb = b;
  et_bits j : bit bb j = bit b j || bool_decide (~ spare cnt) && (j =? bits_of cnt) }.

(** But for that block a new file system is well formed. *)
Lemma fresh_geometry_but d h files k start cnt pad after_bb after_ib : fits_disk start cnt -> format_disk d start cnt pad ->
  1 <= zlen after_bb -> bytes after_bb -> 1 <= zlen after_ib -> bytes after_ib ->
  let p := cur_part (fresh_mount d h files k start cnt after_bb after_ib) in
  exists bb, end_taken cnt (block_bitmap p) bb /\ geometry (set_block_bitmap bb p).
Proof.
  intros Hf Hd A1 B1 A2 B2 p. pose proof (fresh_bounds start cnt Hf) as Hb. destruct (fresh_geometry d h files k start cnt pad after_bb after_ib Hf Hd A1 B1 A2 B2) as [G _].
  fold p in G. destruct (decide (spare cnt)) as [Hs|Hs].
  - exists (block_bitmap p). split; [|by destruct p; apply G]. split; [done | done|]. intros j. rewrite bool_decide_eq_false_2 by tauto. by rewrite orb_false_r.
  - destruct (fresh_mounted d h files k start cnt pad after_bb after_ib Hf Hd) as [_ Hlen Hbits _ _ _ _ _]. fold p in Hlen, Hbits.
    assert (bitmap_wf 1 (block_bitmap p)) as Hwf by (apply (read_bitmap_wf d (start + 2) (sects_of cnt)); [lia | done | done]).
    destruct (bitmap_set_ok (block_bitmap p) 1 (bits_of cnt) true Hwf) as (bb & _ & El & Hwf' & Eb); [lia|]. exists bb. split.
    { split; [done | done|]. intros j. rewrite Eb, bool_decide_eq_true_2 by done. destruct (j =? bits_of cnt); [by rewrite orb_true_r | by rewrite orb_false_r]. }
    assert (btmp_bytes_len bb = 512 * sects_of cnt) as El' by (rewrite El; reflexivity).
    split; unfold p, fresh_mount, mounted, layout_sb, set_block_bitmap;
      cbn [cur_part start_lba sec_cnt sb block_bitmap inode_bitmap btmp_bytes_len block_bitmap_lba block_bitmap_sects inode_bitmap_lba inode_table_lba data_start_lba];
      try lia; try (change max_lba with 163839; lia); try done.
    + apply (read_bitmap_wf d _ 1); lia || done.
    + rewrite Eb. destruct (0 =? bits_of cnt); [done|]. by rewrite Hbits by lia.
    + intros j Hj. rewrite Eb. destruct (Z.eqb_spec j (bits_of cnt)) as [->|Hne]; [done|]. unfold nbits in *. rewrite El' in Hj. rewrite Hbits by lia.
      intros Hz. apply orb_false_iff in Hz as [_ Hz]. apply Z.ltb_ge in Hz. lia.
Qed.

(** C7. Making and mounting a file system: [partition_format] followed by
    [mount_partition] gives a file system in which only the root directory exists, with
    its entries for itself: the block of the root directory and its inode are in use,
    the bitmaps agree with the disk, the super block says where everything is, and no
    sector outside the partition (nor behind its first data block) has changed. It
    satisfies what the other calls ask of a file system ([geometry]), except that the
    loop that clears the last bits clears one too many: unless that bit is behind the
    bitmap, or its sector still in the partition, the sector after the partition is a
    free block. *)
Theorem format_mount_spec d h files k start cnt pad after_bb after_ib : fits_disk start cnt -> pad_ok pad -> ample 6 h ->
  1 <= zlen after_bb -> bytes after_bb -> 1 <= zlen after_ib -> bytes after_ib ->
  exists d' h' f, partition_format d h start cnt pad = Ok (d', h')
    /\ mount_partition d' h' files k start cnt after_bb after_ib = Ok f
    /\ medium f = d' /\ mem_ok f /\ fresh_fs f start cnt
    /\ (forall q, ~ 512 * (start + 1) <= q < 512 * (data_start_lba (sb (cur_part f)) + 1) -> dbyte d' q = dbyte d q)
    /\ (spare cnt -> geometry (cur_part f))
    /\ (~ spare cnt -> bit (block_bitmap (cur_part f)) (bits_of cnt) = false
          /\ data_start_lba (sb (cur_part f)) + bits_of cnt = start + cnt).
Proof.
  intros Hf Hp A A1 B1 A2 B2. destruct (ample_malloc 5 h false 311296 A ltac:(lia)) as (h1 & a & Em & Ha & Am & _ & Hlv).
  destruct (partition_format_ok d h start cnt pad Hf Hp) as (d' & E & Hd & Hk); [by rewrite Em|]. rewrite Em in E. cbn [fst snd] in E.
  assert (Inode.live h1 false a) as La by (apply Hlv; by right).
  pose proof (fresh_bounds start cnt Hf) as Hb. assert (ample 4 (sys_free h1 false a)) as A4 by (by apply Am).
  destruct (mount_fresh 0 d' (sys_free h1 false a) files k start cnt pad after_bb after_ib A4 Hf Hp Hd) as (h2 & E2 & _).
  exists d', (sys_free h1 false a), (fresh_mount d' h2 files k start cnt after_bb after_ib).
  split; [exact E|]. split; [exact E2|]. split; [done|]. split; [by apply mem_ok_fresh|]. split; [by apply (fresh_mounted d' h2 files k start cnt pad)|].
  split; [|by apply (fresh_geometry d' h2 files k start cnt pad)].
  intros q Hq. apply Hk. cbn in Hq. lia.
Qed.
End theorems.
