(* ===== verification/Fsinit.v ===== *)
(** [filesys_init] of Format.v: which partitions of the disks are formatted, and what
    the kernel's file system is when it returns. *)
From S2P Require Import Prelude Bitmap Thread Ide Blockdev Inode File Filewrite Dir Dirwrite Path Search Fs Format Formatspec.

(** ** Specification *)

Section spec.
Context {D : Type} `{BlockDevice D}.
Implicit Types (d : D) (p : Ide.partition).

(** The bytes of a partition, and the word that tells whether it has a file system. *)
Definition inside p (q : Z) : Prop := 512 * part_start p <= q < 512 * (part_start p + part_cnt p).
Definition magic_at d p : Z := word_at (sector d (part_start p + 1)) 0.

(** What becomes of a partition: one that has a file system keeps every byte, another
    one is formatted. *)
Definition treated (pad : list Z) d d' p : Prop :=
  if magic_at d p =? SB_MAGIC then forall q, inside p q -> dbyte d' q = dbyte d q
  else format_disk d' (part_start p) (part_cnt p) pad.

(** Partitions the code can format, none overlapping another. *)
Record parts_ok (hd : hdisk D) : Prop := {
  po_fits i p : part_at hd i = Some p -> part_cnt p <> 0 -> fits_disk (part_start p) (part_cnt p);
  po_apart i j p p' q : part_at hd i = Some p -> part_at hd j = Some p' -> inside p q -> inside p' q -> i = j }.
End spec.

Section init.
Context {D H : Type} `{BlockDeviceLaws D} `{KernelHeapLaws H}.
Abbreviation fs := (fstate D H).
Implicit Types (d : D) (h : H) (f : fs) (hd : hdisk D) (p : Ide.partition).

(** ** The loops over the partitions *)

Lemma on_disk_same d d' lba l : on_disk d lba l -> (forall q, 512 * lba <= q < 512 * lba + zlen l -> dbyte d' q = dbyte d q) -> on_disk d' lba l.
Proof. intros Ho Hk i Hi. rewrite Hk by lia. by apply Ho. Qed.

Lemma format_disk_same d d' start cnt pad : fits_disk start cnt -> pad_ok pad -> format_disk d start cnt pad ->
  (forall q, 512 * start <= q < 512 * (start + cnt) -> dbyte d' q = dbyte d q) -> format_disk d' start cnt pad.
Proof.
  intros Hf Hp [F1 F2 F3 F4 F5] Hk. pose proof (fresh_bounds start cnt Hf) as Hb. destruct (sb_bytes_ok (layout_sb start cnt) pad Hp) as [Hl _].
  pose proof (zeros_length 511 ltac:(lia)). pose proof (zeros_length (311296 - 76) ltac:(lia)).
  assert (length (words_to_bytes (inode_words (root_inode (layout_sb start cnt)))) = 76%nat) by exact (inode_words_length (root_inode (layout_sb start cnt)) eq_refl).
  split.
  - apply (on_disk_same d _ _ _ F1). intros q Hq. apply Hk. lia.
  - apply (on_disk_same d _ _ _ F2). rewrite length_map, length_seqZ. intros q Hq. apply Hk. lia.
  - apply (on_disk_same d _ _ _ F3). cbn [length]. intros q Hq. apply Hk. lia.
  - apply (on_disk_same d _ _ _ F4). rewrite length_app. intros q Hq. apply Hk. lia.
  - apply (on_disk_same d _ _ _ F5). rewrite length_app. change (length (concat root_entries)) with 48%nat. rewrite length_replicate. intros q Hq. apply Hk. lia.
Qed.

Lemma magic_same d d' p : fits_disk (part_start p) (part_cnt p) -> (forall q, inside p q -> dbyte d' q = dbyte d q) -> magic_at d' p = magic_at d p.
Proof.
  intros [Hs Hc _] Hk. unfold magic_at. f_equal. apply sector_ext. intros i Hi. apply Hk. unfold inside. lia.
Qed.

(** Blocks in use stay in use. *)
Definition kept h h' : Prop := forall k a, Inode.live h k a -> Inode.live h' k a.

(** One turn of the loop. *)
Lemma init_part_step n pad hd d h i : 0 <= i < 12 -> parts_ok hd -> pad_ok pad -> ample (2 + n) h ->
  exists d' h', init_part_body pad hd (d, h, i) = Ok (inl (d', h', i + 1)) /\ ample n h' /\ kept h h'
    /\ (forall p, part_at hd i = Some p -> part_cnt p <> 0 -> treated pad d d' p)
    /\ forall q, (forall p, part_at hd i = Some p -> ~ inside p q) -> dbyte d' q = dbyte d q.
Proof.
  intros Hi [Hfits _] Hp A. unfold init_part_body. destruct (Z.ltb_spec i 12); [|lia].
  assert (ample n h) as A0 by (eapply ample_le, A; lia).
  destruct (part_at hd i) as [p|] eqn:Ep; [|exists d, h; split_and!; [done | done | by intros ? ? ? | by intros ? [=] | done]].
  destruct (Z.eqb_spec (part_cnt p) 0) as [E0|Hc]; [by exists d, h; split_and!; [done | done | by intros ? ? ? | intros p' [= <-] | done]|].
  pose proof (Hfits i p Ep Hc) as Hf. pose proof (fresh_bounds _ _ Hf) as Hb. rewrite u32_small by lia.
  rewrite disk_read_one by (reflexivity || (change max_lba with 163839; lia)). cbn [obind].
  pose proof (sector_len d (part_start p + 1)) as Hl. unfold SECTOR_SIZE in Hl. rewrite rd_le32_ok by lia. cbn [obind].
  change (word_at (sector d (part_start p + 1)) 0) with (magic_at d p).
  destruct (magic_at d p =? SB_MAGIC) eqn:Em.
  - exists d, h. split_and!; [done | done | by intros ? ? ? | | done]. intros p' [= <-] _. unfold treated. by rewrite Em.
  - destruct (ample_malloc (1 + n) h false 311296 A ltac:(lia)) as (h1 & a & Ea & Ha & Am & Hn & Hlv).
    destruct (partition_format_ok d h (part_start p) (part_cnt p) pad Hf Hp) as (d' & E & Hd & Hk); [by rewrite Ea|].
    rewrite Ea in E. rewrite E. cbn [fst snd obind]. exists d', (sys_free h1 false a). split; [done|]. split.
    + apply Am, Hlv. by right.
    + split.
      { intros k b Hk'. apply free_gone; [apply Hlv; by right|]. split; [apply Hlv; by left|]. by intros [-> ->]. }
      split; [intros p' [= <-] _; unfold treated; by rewrite Em|]. intros q Hq. apply Hk. specialize (Hq p eq_refl). unfold inside in Hq. lia.
Qed.

Lemma init_part_loop n pad hd : parts_ok hd -> pad_ok pad -> forall m fuel d h i, 0 <= i -> i + Z.of_nat m = 12 -> (m < fuel)%nat -> ample (2 * m + n) h ->
  exists d' h', loop (init_part_body pad hd) fuel (d, h, i) = Ok (d', h', 12) /\ ample n h' /\ kept h h'
    /\ (forall j p, i <= j < 12 -> part_at hd j = Some p -> part_cnt p <> 0 -> treated pad d d' p)
    /\ forall q, (forall j p, i <= j < 12 -> part_at hd j = Some p -> ~ inside p q) -> dbyte d' q = dbyte d q.
Proof.
  intros Ho Hp m. induction m as [|m IH]; intros fuel d h i Hi Hm Hf A; (destruct fuel as [|fuel]; [lia|]); cbn [loop].
  - assert (i = 12) as -> by lia. cbn. exists d, h. split_and!; [done | done | by intros ? ? ? | intros; lia | done].
  - destruct (init_part_step (2 * m + n) pad hd d h i) as (d1 & h1 & E & A1 & L1 & T1 & K1); [lia | done | done | by eapply ample_le, A; lia|].
    rewrite E. destruct (IH fuel d1 h1 (i + 1)) as (d2 & h2 & E2 & A2 & L2 & T2 & K2); [lia | lia | lia | done|].
    exists d2, h2. split; [done|]. split; [done|]. split; [by intros c b Hb; apply L2, L1|]. split.
    + intros j p Hj Ej Hc. pose proof (po_fits hd Ho j p Ej Hc) as Hfp. destruct (decide (j = i)) as [->|Hne].
      * assert (forall q, inside p q -> dbyte d2 q = dbyte d1 q) as Hk.
        { intros q Hq. apply K2. intros j' p' Hj' Ej' Hq'. pose proof (po_apart hd Ho i j' p p' q Ej Ej' Hq Hq'). lia. }
        specialize (T1 p Ej Hc). unfold treated in *. destruct (magic_at d p =? SB_MAGIC).
        -- intros q Hq. rewrite Hk by done. by apply T1.
        -- apply (format_disk_same d1); [done | done | done |]. intros q Hq. by apply Hk.
      * assert (forall q, inside p q -> dbyte d1 q = dbyte d q) as Hk.
        { intros q Hq. apply K1. intros p' Ep' Hq'. by pose proof (po_apart hd Ho j i p p' q Ej Ep' Hq Hq'). }
        specialize (T2 j p ltac:(lia) Ej Hc). unfold treated in *. rewrite <- (magic_same d d1 p Hfp Hk).
        destruct (magic_at d1 p =? SB_MAGIC); [|done]. intros q Hq. rewrite T2 by done. by apply Hk.
    + intros q Hq. rewrite K2, K1; [done | intros p Ep; apply (Hq i p); [lia | done] | intros j p Hj; apply (Hq j p); lia].
Qed.

(** The second disk of the first channel is the only one whose partitions are looked
    at: [part_idx] is not set back. *)
Lemma init_devices n pad hd0 hd1 h : parts_ok hd1 -> pad_ok pad -> ample (24 + n) h ->
  exists d' h', loop (init_dev_body pad) 3 ([hd0; hd1], h, 0, 0) = Ok ([hd0; with_hd_medium d' hd1], h', 12) /\ ample n h' /\ kept h h'
    /\ (forall j p, 0 <= j < 12 -> part_at hd1 j = Some p -> part_cnt p <> 0 -> treated pad (hd_medium hd1) d' p)
    /\ forall q, (forall j p, 0 <= j < 12 -> part_at hd1 j = Some p -> ~ inside p q) -> dbyte d' q = dbyte (hd_medium hd1) q.
Proof.
  intros Ho Hp A. destruct (init_part_loop n pad hd1 Ho Hp 12 13 (hd_medium hd1) h 0) as (d' & h' & E & A' & L & T & K); [lia | lia | lia | done|].
  exists d', h'. split; [|done]. change 3%nat with (S (S 1)). cbn [loop]. unfold init_dev_body at 1. cbn [Z.ltb Z.compare Z.eqb Z.add].
  unfold init_dev_body at 1. change (0 + 1) with 1. change (1 <? 2) with true. change (1 =? 0) with false. cbn iota.
  change (rd [hd0; hd1] 1) with (Ok hd1). cbn [obind]. rewrite E. cbn [obind].
  change (wr [hd0; hd1] 1 (with_hd_medium d' hd1)) with (Ok [hd0; with_hd_medium d' hd1]). reflexivity.
Qed.

Lemma init_devices_rest pad a b h : loop (init_dev_body pad) 3 ([a; b], h, 12, 0) = Ok ([a; b], h, 12).
Proof.
  change 3%nat with (S (S 1)). cbn [loop]. unfold init_dev_body at 1. cbn [Z.ltb Z.compare Z.eqb Z.add].
  unfold init_dev_body at 1. change (0 + 1) with 1. change (1 <? 2) with true. change (1 =? 0) with false. cbn iota.
  change (rd [a; b] 1) with (Ok b). cbn [obind]. change (loop (init_part_body pad b) 13 (hd_medium b, h, 12)) with (@Ok (D * H * Z) (hd_medium b, h, 12)). cbn [obind].
  replace (with_hd_medium (hd_medium b) b) with b by (by destruct b). reflexivity.
Qed.

Definition two_disks (devices : list (hdisk D)) : Prop := exists a b, devices = [a; b].

Lemma init_channels_rest pad channels h m : forall fuel i, 0 < i -> i + Z.of_nat m = zlen channels -> (m < fuel)%nat ->
  (forall j c, 0 < j -> channels !! Z.to_nat j = Some c -> two_disks c) ->
  loop (init_channel_body pad (zlen channels)) fuel (channels, h, 12, i) = Ok (channels, h).
Proof.
  induction m as [|m IH]; intros fuel i Hi Hm Hf Hc; (destruct fuel as [|fuel]; [lia|]); cbn [loop]; unfold init_channel_body at 1.
  - destruct (Z.ltb_spec i (zlen channels)); [lia | done].
  - destruct (Z.ltb_spec i (zlen channels)); [|lia]. destruct (lookup_lt_is_Some_2 channels (Z.to_nat i)) as [c Ec]; [lia|].
    rewrite (rd_znth _ _ c) by (unfold znth; destruct (Z.ltb_spec i 0); [lia | done]). cbn [obind].
    destruct (Hc i c Hi Ec) as (a & b & ->). rewrite init_devices_rest. cbn [obind]. rewrite wr_in by lia. cbn [obind].
    rewrite list_insert_id by done. apply IH; done || lia.
Qed.

Lemma init_channels n pad hd0 hd1 rest h : parts_ok hd1 -> pad_ok pad -> (forall c, c ∈ rest -> two_disks c) -> ample (24 + n) h ->
  exists d' h', loop (init_channel_body pad (1 + zlen rest)) (S (Z.to_nat (1 + zlen rest))) ([hd0; hd1] :: rest, h, 0, 0)
      = Ok ([hd0; with_hd_medium d' hd1] :: rest, h') /\ ample n h' /\ kept h h'
    /\ (forall j p, 0 <= j < 12 -> part_at hd1 j = Some p -> part_cnt p <> 0 -> treated pad (hd_medium hd1) d' p)
    /\ forall q, (forall j p, 0 <= j < 12 -> part_at hd1 j = Some p -> ~ inside p q) -> dbyte d' q = dbyte (hd_medium hd1) q.
Proof.
  intros Ho Hp Hrest A. destruct (init_devices n pad hd0 hd1 h Ho Hp A) as (d' & h2 & E & R). exists d', h2. split; [|exact R]. cbn [loop].
  unfold init_channel_body at 1. destruct (Z.ltb_spec 0 (1 + zlen rest)); [|lia].
  change (rd ([hd0; hd1] :: rest) 0) with (Ok [hd0; hd1]). cbn [obind]. rewrite E. cbn [obind].
  rewrite wr_in by (cbn [length]; lia). cbn [obind]. change (Z.to_nat 0) with 0%nat. cbn [insert list_insert].
  set (channels := [hd0; with_hd_medium d' hd1] :: rest). replace (1 + zlen rest) with (zlen channels) by (cbn [channels length]; lia).
  apply (init_channels_rest pad channels h2 (length rest) _ (0 + 1)); [lia | cbn [channels length]; lia | cbn [channels length]; lia |].
  intros j c Hj Ej. unfold channels in Ej. rewrite lookup_cons_ne_0 in Ej by lia. apply Hrest. by apply list_elem_of_lookup_2 in Ej.
Qed.

(** ** The root directory and the file table *)

Lemma same_inode_readable d i j : same_inode i j -> dir_readable d i -> dir_readable d j /\ forall name, dir_lookup d j name = dir_lookup d i name.
Proof. intros (_ & _ & Es & _) R. destruct (same_sectors d i j (eq_sym Es)) as [Hl Hr]. auto. Qed.

Lemma open_root_ready n f dirs : mem_ok f -> geometry (cur_part f) -> inodes f = ∅ -> dir_entry_size (sb (cur_part f)) = 24 ->
  root_inode_no (sb (cur_part f)) = 0 -> tree_ok f dirs -> roomy (3 + n) (kheap f) ->
  exists f' root_dir, open_root_dir f = Ok (f', root_dir) /\ fs_ready f' root_dir dirs /\ medium f' = medium f
    /\ (exists l, cur_part f' = set_open l (cur_part f)) /\ file_table f' = file_table f /\ kern f' = kern f.
Proof.
  intros M G Hi Hsz Hr T R. pose proof T as [T0 Td]. destruct (Td 0 T0) as (_ & i & Hv & Hin & _).
  assert (forall k, k < 2 ^ 32 -> counts_below k f) as C by (intros k Hk a j; by rewrite Hi, lookup_empty).
  destruct (inode_open_held n f (kheap f) 0 i) as (f' & a & fresh & E & _ & V & _); try done; [by destruct f | by apply C|].
  unfold open_root_dir. rewrite Hr. replace (with_kheap (kheap f) f) with f in E by (by destruct f). rewrite E. cbn [obind].
  pose proof V as [(i0 & j & Hv0 & Hj & Sj) Ho Hmd (l & Hl) [Hft Hk] Hm Hc Hview _].
  assert (i0 = i) as -> by congruence. exists f', (mk_dir None a 0 (replicate 512 0)). split; [done|].
  split; [|by split_and!; try done; exists l]. split.
  - done.
  - rewrite Hl. by apply geometry_open.
  - apply Hc; [lia|]. apply C. lia.
  - by rewrite Hl.
  - split; [done|]. intros no Hno. destruct (Td no Hno) as (Hr1 & i1 & Hv1 & Hn1 & Hread & Hent). split; [done|].
    destruct (Hview no i1 Hv1) as (j1 & Hj1 & Sj1). exists j1. rewrite Hmd. destruct (same_inode_readable (medium f) i1 j1 Sj1 Hread) as [Hrd Hlk].
    split; [done|]. split; [by rewrite <- (proj1 Sj1)|]. split; [done|]. intros name e. rewrite Hlk. apply Hent.
  - split; [done | done|]. exists j. split; [done|]. by rewrite <- (proj1 Sj).
Qed.

Definition free_file (x : file) : file := mk_file (fd_pos x) (fd_flag x) 0.

Lemma clear_files (t : list file) : length t = 32%nat -> loop clear_file_body 33 (t, 0) = Ok (map free_file t).
Proof.
  intros Hl. loop_inv (fun s : list file * Z => 0 <= snd s <= 32 /\ fst s = map free_file (take (Z.to_nat (snd s)) t) ++ drop (Z.to_nat (snd s)) t)
           (fun s : list file * Z => Z.to_nat (32 - snd s)).
  - intros [l i] [Hi El]. cbn [fst snd] in Hi, El. subst l. unfold clear_file_body, MAX_FILE_OPEN. destruct (Z.ltb_spec i 32).
    + destruct (lookup_lt_is_Some_2 t (Z.to_nat i)) as [x Ex]; [lia|]. assert (length (map free_file (take (Z.to_nat i) t)) = Z.to_nat i) as Hlm by (rewrite length_map, length_take; lia).
      assert (drop (Z.to_nat i) t = x :: drop (S (Z.to_nat i)) t) as Ed by (by apply drop_S).
      rewrite (rd_znth _ _ x); [|unfold znth; destruct (Z.ltb_spec i 0); [lia|]; rewrite lookup_app_r, Hlm, Nat.sub_diag, Ed by lia; done].
      cbn [obind]. rewrite wr_in by (rewrite length_app, Hlm, length_drop; lia). cbn [obind fst snd]. split; [|lia]. split; [lia|].
      replace (Z.to_nat (i + 1)) with (S (Z.to_nat i)) by lia. rewrite (take_S_r _ _ x Ex), map_app. rewrite insert_app_r_alt by lia.
      rewrite Hlm, Nat.sub_diag, Ed. cbn. by rewrite <- app_assoc.
    + assert (i = 32) as -> by lia. rewrite take_ge, drop_ge by lia. by rewrite app_nil_r.
  - cbn [fst snd]. split; [lia|]. done.
  - cbn [fst snd]. lia.
Qed.

(** The tree of a new file system is its root. *)
Lemma fresh_tree f start cnt : disk_inode (medium f) (cur_part f) 0 = Ok (root_inode (layout_sb start cnt)) ->
  dir_readable (medium f) (root_inode (layout_sb start cnt)) -> open_inodes (cur_part f) = [] ->
  dir_slots (medium f) (root_inode (layout_sb start cnt)) = root_entries ++ replicate 19 (replicate 24 0) -> tree_ok f [0].
Proof.
  intros F Hread Ho Hs. split; [by left|]. intros no ->%list_elem_of_singleton. split; [lia|]. exists (root_inode (layout_sb start cnt)).
  split; [unfold inode_view; rewrite Ho; apply F|]. split; [done|]. split; [done|].
  intros name e Hn He. unfold dir_lookup in He. apply List.find_some in He as [He Hna]. unfold named in Hna. apply bool_decide_eq_true in Hna.
  rewrite Hs in He. apply in_app_or in He as [He|He].
  - left. destruct He as [<-|[<-|[]]]; (split; [done | by left]).
  - exfalso. apply Hn. rewrite <- Hna. by apply list_elem_of_In, elem_of_replicate in He as [-> _].
Qed.

(** Opening an inode does not look at the block bitmap. *)
Definition with_block_bitmap (bb : bitmap) f : fs := with_part (set_block_bitmap bb (cur_part f)) f.

Lemma inode_open_bitmap bb f no : inode_open (with_block_bitmap bb f) no = let! ' (f', a) := inode_open f no in Ok (with_block_bitmap bb f', a).
Proof.
  unfold inode_open. change (inodes (with_block_bitmap bb f)) with (inodes f). change (open_inodes (cur_part (with_block_bitmap bb f))) with (open_inodes (cur_part f)).
  destruct (find_open (inodes f) (open_inodes (cur_part f)) no) as [[[a i]|]|]; [done | | done]. cbn [obind].
  change (inode_locate (cur_part (with_block_bitmap bb f)) no) with (inode_locate (cur_part f) no). destruct (inode_locate (cur_part f) no) as [pos|]; [|done]. cbn [obind].
  change (kheap (with_block_bitmap bb f)) with (kheap f). change (medium (with_block_bitmap bb f)) with (medium f).
  destruct (sys_malloc (kheap f) true sizeof_inode) as [h a]. destruct (sys_malloc h false _) as [h2 b]. destruct (b =? 0); [done|].
  destruct (disk_read _ _ _ _ _) as [buf|]; [|done]. cbn [obind]. destruct (a =? 0); [done|]. by destruct (inode_at buf (off_size pos)).
Qed.

Lemma open_root_bitmap bb f : open_root_dir (with_block_bitmap bb f) = let! ' (f', r) := open_root_dir f in Ok (with_block_bitmap bb f', r).
Proof.
  unfold open_root_dir. rewrite inode_open_bitmap. change (sb (cur_part (with_block_bitmap bb f))) with (sb (cur_part f)).
  by destruct (inode_open f (root_inode_no (sb (cur_part f)))) as [[f' a]|].
Qed.

(** The default partition is among those of the second disk. *)
Lemma queued_default d hd0 hd1 rest p : hd_parts hd0 = [] ->
  List.find (fun p => bool_decide (part_name hd1 p = default_part)) (hd_parts hd1) = Some p ->
  List.find (fun x => bool_decide (part_name (fst x) (snd x) = default_part)) (queued ([hd0; with_hd_medium d hd1] :: rest)) = Some (with_hd_medium d hd1, p).
Proof.
  intros Hz Hp. unfold queued. cbn [concat app flat_map]. rewrite Hz. cbn [map app]. rewrite find_app, find_map.
  match goal with |- context [option_map ?g (List.find ?P ?l)] =>
    change (List.find P l) with (List.find (fun p => bool_decide (part_name hd1 p = default_part)) (hd_parts hd1)) end.
  by rewrite Hp.
Qed.

(** The first start on a disk: [filesys_init] formats every partition of the second
    disk of the first channel that has no file system, leaves those that have one and
    everything outside the partitions as they are (and the other channel, if there is one,
    alone: [part_idx] is not set back), and mounts the default partition. When that was
    one of those formatted, the kernel's file system is a root directory with its two
    entries, open, and all file structures are free; it is well formed, but for the block
    behind the partition where its bitmap has that one free. *)
Theorem filesys_init_spec hd0 hd1 rest i p files k pad after_bb after_ib h :
  parts_ok hd1 -> pad_ok pad -> hd_parts hd0 = [] -> (forall c, c ∈ rest -> two_disks c) -> length files = 32%nat -> ample 40 h ->
  List.find (fun p => bool_decide (part_name hd1 p = default_part)) (hd_parts hd1) = Some p ->
  0 <= i < 12 -> part_at hd1 i = Some p -> part_cnt p <> 0 -> magic_at (hd_medium hd1) p <> SB_MAGIC ->
  1 <= zlen after_bb -> bytes after_bb -> 1 <= zlen after_ib -> bytes after_ib ->
  exists d' f root_dir bb,
    filesys_init ([hd0; hd1] :: rest) (1 + zlen rest) h files k pad after_bb after_ib = Ok ([hd0; with_hd_medium d' hd1] :: rest, f, root_dir)
    /\ (forall j q, 0 <= j < 12 -> part_at hd1 j = Some q -> part_cnt q <> 0 -> treated pad (hd_medium hd1) d' q)
    /\ (forall b, (forall j q, 0 <= j < 12 -> part_at hd1 j = Some q -> ~ inside q b) -> dbyte d' b = dbyte (hd_medium hd1) b)
    /\ medium f = d' /\ kern f = k /\ Forall (fun x => fd_inode x = 0) (file_table f)
    /\ end_taken (part_cnt p) (block_bitmap (cur_part f)) bb /\ fs_ready (with_block_bitmap bb f) root_dir [0]
    /\ dir_entries d' (root_inode (sb (cur_part f))) = root_entries.
Proof.
  intros Ho Hp Hq0 Hrest Hlf A Hfind Hi Hat Hc Hmag A1 B1 A2 B2. unfold filesys_init.
  destruct (ample_malloc 39 h false SECTOR_SIZE A ltac:(unfold SECTOR_SIZE; lia)) as (h1 & a & Em & Ha & Am & _ & Hlv). rewrite Em.
  apply Z.eqb_neq in Ha as Ha'. rewrite Ha'. 
  destruct (init_channels 15 pad hd0 hd1 rest h1 Ho Hp Hrest Am) as (d' & h2 & E & Ah & L & T & K). rewrite E.
  cbn [obind]. rewrite (queued_default d' hd0 hd1 rest p) by done.
  assert (ample 14 (sys_free h2 false a)) as A14 by (apply Ah, L, Hlv; by right).
  pose proof (po_fits hd1 Ho i p Hat Hc) as Hf. assert (format_disk d' (part_start p) (part_cnt p) pad) as Hd.
  { specialize (T i p Hi Hat Hc). unfold treated in T. apply Z.eqb_neq in Hmag. by rewrite Hmag in T. }
  destruct (mount_fresh 10 d' (sys_free h2 false a) files k (part_start p) (part_cnt p) pad after_bb after_ib A14 Hf Hp Hd) as (h3 & E3 & A3).
  cbn [hd_medium with_hd_medium]. rewrite E3. cbn [obind].
  destruct (fresh_geometry_but d' h3 files k _ _ pad after_bb after_ib Hf Hd A1 B1 A2 B2) as (bb & Hbb & G).
  pose proof (fresh_mounted d' h3 files k _ _ pad after_bb after_ib Hf Hd) as F.
  set (f0 := fresh_mount d' h3 files k (part_start p) (part_cnt p) after_bb after_ib) in *.
  assert (dir_readable d' (root_inode (layout_sb (part_start p) (part_cnt p)))) as Hread.
  { apply (dir_ok_readable (set_block_bitmap bb (cur_part f0))); [done|]. destruct (ff_dir _ _ _ F) as [? ? Hin ? ? ? ?]. split; try done.
    intros j Hj Hne. destruct (Hin j Hj Hne) as (Hr & Hlt & Hb). split; [|split; [done|]].
    - unfold nbits in *. cbn [set_block_bitmap block_bitmap sb]. by rewrite (et_len _ _ _ Hbb).
    - change (bit bb (file_block (medium f0) (root_inode (layout_sb (part_start p) (part_cnt p))) j - data_start_lba (sb (cur_part f0))) = true).
      by rewrite (et_bits _ _ _ Hbb), Hb. }
  destruct (open_root_ready 7 (with_block_bitmap bb f0) [0]) as (f' & root_dir & Er & Rd & Hm & (l & Hl) & Hft & Hk); try done.
  { by apply mem_ok_fresh. }
  { apply (fresh_tree _ (part_start p) (part_cnt p)); try done; [apply (ff_root _ _ _ F) | by eapply fresh_slots]. }
  { by apply ample_roomy. }
  pose proof (open_root_bitmap (block_bitmap (cur_part f0)) f0) as Eself. change (with_block_bitmap (block_bitmap (cur_part f0)) f0) with f0 in Eself.
  rewrite open_root_bitmap in Er. destruct (open_root_dir f0) as [[f r]|]; [|done]. cbn [obind] in Er, Eself. injection Er as Ef ->. injection Eself as Eself. rewrite <- Ef in *.
  cbn [obind]. change (file_table (with_block_bitmap bb f)) with (file_table f) in Hft. rewrite Hft.
  change (file_table (with_block_bitmap bb f0)) with files. rewrite clear_files by done. cbn [obind].
  exists d', (with_files (map free_file files) f), root_dir, bb. assert (block_bitmap (cur_part f) = block_bitmap (cur_part f0) /\ sb (cur_part f) = sb (cur_part f0)) as [Ebb Esb].
  { split; [by rewrite Eself|]. change (sb (cur_part f)) with (sb (cur_part (with_block_bitmap bb f))). by rewrite Hl. }
  split; [done|]. split; [done|]. split; [done|]. split; [done|]. split; [done|]. split; [apply Forall_map, Forall_forall; by intros|].
  split; [cbn [with_files cur_part]; by rewrite Ebb|].
  split; [destruct Rd as [R1 R2 R3 R4 R5 R6]; split; [by destruct R1; split | done | done | done | by destruct R5; split | by destruct R6; split]|].
  cbn [with_files cur_part]. rewrite Esb. apply F.
Qed.

End init.
