(* ===== verification/Fsinitdemo.v ===== *)
(** Concrete disks on which the theorems of Formatspec.v and Fsinit.v apply: one that
    is blank but for a logical partition that has a file system, and the
    partition of Inode.v with its super block written. *)
From S2P Require Import Prelude Bitmap Thread Ide Blockdev Inode File Filewrite Dir Dirwrite Path Search Fs Format Formatspec Fsinit.

Lemma bump_ample n : forall h : bump_heap, ample n h.
Proof.
  induction n as [|n IH]; [done|]. intros h. split; [|by intros]. intros k sz _. split; [|apply IH].
  cbn. pose proof (proj1 (top_addr_above (blocks h))). lia.
Qed.

Lemma demo_pad : pad_ok (replicate 460 170).
Proof. split; [reflexivity | by apply good_bytes]. Qed.

Lemma demo_after : 1 <= zlen [0] /\ bytes [0].
Proof. split; [cbn; lia | by apply good_bytes]. Qed.

(** "sda" and "sdb"; the first partition of the second is 4708 sectors long. *)
Definition demo_p1 : Ide.partition := mk_part false 0 63 4708.
Definition demo_p5 : Ide.partition := mk_part true 0 5000 2000.
Definition demo_sda : hdisk sparse_disk := mk_hdisk [115; 100; 97] (mk_sparse ∅) [].
Definition demo_sdb : hdisk sparse_disk :=
  mk_hdisk [115; 100; 98] (mk_sparse {[ 5001 := le32 SB_MAGIC ++ replicate 508 0 ]}) [demo_p1; demo_p5].

Lemma part_at_in {D} (hd : hdisk D) i p : part_at hd i = Some p ->
  p ∈ hd_parts hd /\ i = if part_logical p then Ide.part_idx p + 4 else Ide.part_idx p.
Proof.
  intros E. apply List.find_some in E as [Hp Hi]. split; [by apply list_elem_of_In|].
  destruct (i <? 4), (part_logical p); cbn in Hi; zb; try discriminate; lia.
Qed.

Lemma demo_parts_ok : parts_ok demo_sdb.
Proof.
  split.
  - intros i p [Hp _]%part_at_in _. cbn [hd_parts demo_sdb] in Hp. rewrite !elem_of_cons, elem_of_nil in Hp. destruct Hp as [->|[->|[]]]; split; cbn; change max_lba with 163839; lia.
  - intros i j p p' q [Hp ->]%part_at_in [Hp' ->]%part_at_in. unfold inside.
    cbn [hd_parts demo_sdb] in Hp, Hp'. rewrite !elem_of_cons, elem_of_nil in Hp, Hp'. destruct Hp as [->|[->|[]]], Hp' as [->|[->|[]]]; cbn; lia.
Qed.

Example filesys_init_witness : exists d' f root_dir,
  filesys_init [[demo_sda; demo_sdb]] 1 (mk_bump []) (replicate 32 (mk_file 0 0 7)) demo_state (replicate 460 170) [0] [0]
    = Ok ([[demo_sda; with_hd_medium d' demo_sdb]], f, root_dir)
  /\ fs_ready f root_dir [0] /\ (forall q, inside demo_p5 q -> dbyte d' q = dbyte (hd_medium demo_sdb) q).
Proof.
  destruct demo_after as [A B].
  assert (magic_at (hd_medium demo_sdb) demo_p1 <> SB_MAGIC) as Hm by (vm_compute; discriminate).
  pose proof (filesys_init_spec demo_sda demo_sdb [] 0 demo_p1 (replicate 32 (mk_file 0 0 7)) demo_state (replicate 460 170) [0] [0] (mk_bump [])
    demo_parts_ok demo_pad eq_refl (fun c Hc => match proj1 (elem_of_nil c) Hc with end) eq_refl (bump_ample _ _) eq_refl ltac:(lia) eq_refl
    ltac:(discriminate) Hm A B A B) as Hx.
  destruct Hx as (d' & f & root_dir & bb & E & T & _ & _ & _ & _ & Hb & R & _).
  assert (block_bitmap (cur_part f) = bb) as <- by (symmetry; apply (et_spare _ _ _ Hb); right; reflexivity).
  exists d', f, root_dir. split; [exact E|]. split; [by destruct f, cur_part|].
  assert (treated (replicate 460 170) (hd_medium demo_sdb) d' demo_p5) as T5 by (apply (T 4); [lia | reflexivity | discriminate]).
  unfold treated in T5. replace (magic_at (hd_medium demo_sdb) demo_p5) with SB_MAGIC in T5 by (vm_compute; reflexivity). exact T5.
Defined.

Example format_mount_witness : exists d' h' f,
  partition_format (mk_sparse ∅) (mk_bump []) 100 2000 (replicate 460 170) = Ok (d', h')
  /\ mount_partition d' h' (replicate 32 (mk_file 0 0 0)) demo_state 100 2000 [0] [0] = Ok f
  /\ bit (block_bitmap (cur_part f)) 1388 = false /\ data_start_lba (sb (cur_part f)) + 1388 = 2100.
Proof.
  destruct demo_after as [A B].
  destruct (format_mount_spec (mk_sparse ∅) (mk_bump []) (replicate 32 (mk_file 0 0 0)) demo_state 100 2000 (replicate 460 170) [0] [0])
    as (d' & h' & f & E1 & E2 & _ & _ & _ & _ & _ & Hn).
  - split; cbn; change max_lba with 163839; lia.
  - exact demo_pad.
  - apply bump_ample.
  - exact A.
  - exact B.
  - exact A.
  - exact B.
  - exists d', h', f. split; [exact E1|]. split; [exact E2|]. apply Hn. intros [Hm|Hlt]; discriminate.
Defined.

(** The partition of Inode.v, its super block written. *)
Definition kept_medium : sparse_disk := set_sector demo_medium 101 (sb_bytes demo_sb (replicate 460 170)).
Definition kept_fs : fstate sparse_disk bump_heap := with_medium kept_medium demo_fs.

Lemma kept_synced : bb_synced kept_medium demo_part /\ ib_synced kept_medium demo_part.
Proof.
  split; intros q Hq.
  - apply (range_eq (fun q => dbyte kept_medium (512 * 102 + q)) (fun q => (demo_bb ++ [0]) !! Z.to_nat q) 512); [vm_compute; reflexivity | exact Hq].
  - apply (range_eq (fun q => dbyte kept_medium (512 * 103 + q)) (fun q => (demo_ib ++ [0]) !! Z.to_nat q) 512); [vm_compute; reflexivity | exact Hq].
Qed.

Lemma kept_sb : sb_synced kept_medium demo_part (replicate 460 170).
Proof.
  split.
  - by apply words_ok.
  - exact demo_pad.
  - intros i Hi. apply (range_eq (fun q => dbyte kept_medium (512 * 101 + q)) (fun q => sb_bytes demo_sb (replicate 460 170) !! Z.to_nat q) 512);
      [vm_compute; reflexivity | exact Hi].
  - cbn. lia.
  - reflexivity.
Qed.

Example remount_witness : exists f',
  mount_partition kept_medium (mk_bump []) (replicate 32 (mk_file 0 0 0)) demo_state 100 2000 [0] [0] = Ok f'
  /\ bit (inode_bitmap (cur_part f')) 3 = true /\ inode_view f' 3 = Ok (demo_inode 3).
Proof.
  destruct demo_after as [A B].
  destruct (remount_spec kept_fs (mk_bump []) (replicate 32 (mk_file 0 0 0)) demo_state (replicate 460 170) [0] [0])
    as (f' & E & _ & _ & _ & _ & _ & _ & _ & _ & Hi & Hv).
  - split; cbn; [constructor | intros a Ha; by apply elem_of_nil in Ha | intros a i; by rewrite lookup_empty |].
    intros a b i j Ha. by apply elem_of_nil in Ha.
  - exact demo_geometry.
  - exact (proj1 kept_synced).
  - exact (proj2 kept_synced).
  - exact kept_sb.
  - apply bump_ample.
  - exact A.
  - exact B.
  - exact A.
  - exact B.
  - exists f'. split; [exact E|]. split; [rewrite Hi by lia; vm_compute; reflexivity|].
    rewrite Hv; [vm_compute; reflexivity|]. intros a i Ha. by apply elem_of_nil in Ha.
Defined.
