(* ===== verification/Idestart.v ===== *)
(** device/ide.c: finding the disks ([identify_disk], [ide_init]), and with
    [filesys_init] the start of the machine's file system. *)
From Stdlib Require Import String.
From S2P Require Import Prelude Bitmap Thread Sync Ide Blockdev Inode File Dir Dirwrite Path Search Fs Format Gates Printf.
Local Open Scope Z_scope.

(** ** Identifying a disk *)

(** Serial number, model and number of sectors as they are printed. *)
Record identity := mk_identity { id_sn : list Z; id_model : list Z; id_sectors : Z }.

(** [id_info] are the words the disk answers with, [buf0] what the buffer holds. The
    trace is that of Ide.v. *)
Definition identify_disk (hd : disk) (status : nat -> Z) (id_info buf0 : list Z) : outcome (list event * identity) :=
  let tr := select_disk hd ++ cmd_out hd CMD_IDENTIFY ++ [SemaDown] in
  let! ready := busy_wait status in
  c_assert ready ;;;
  let tr := tr ++ read_from_sector hd 0 1 in
  let! sn := swap_pairs_bytes (drop 20 id_info) buf0 20 in
  let! model := swap_pairs_bytes (drop 54 id_info) (zeros 64) 40 in
  let! sectors := rd_le32 id_info 120 in
  Ok (tr, mk_identity (chars sn) (chars model) sectors).

(** ** [ide_init] *)

Record drive := mk_drive { d_name : list Z; d_no : Z; d_parts : list Ide.partition }.

(** [struct ide_channel]; [c_wait] are its number, [expecting_intr] and [disk_done]. *)
Record channel := mk_chan { c_name : list Z; c_port : Z; c_wait : ide_channel; c_lock : lock; c_drives : list drive }.

(** What the machine answers: status and identification of a disk, and the sectors of
    its medium. *)
Record answers := mk_answers { a_status : Z -> Z -> nat -> Z; a_id : Z -> Z -> list Z; a_sector : Z -> Z -> Z -> list Z }.

Section ide.
Variables (m : answers) (buf0 : list Z) (fuel : nat).

(** The loop over the two disks of a channel. [p_no] and [l_no] are 0 where a scan
    begins; [ext_lba_base] is not set back between disks. *)
Definition init_drive_body (channel_no port : Z) (s : list drive * Z * list event * Z)
  : outcome (list drive * Z * list event * Z + list drive * Z * list event) :=
  let '(drives, ext, tr, dev_no) := s in
  if dev_no <? 2 then
    let! ' (tr1, _) := identify_disk (mk_disk port dev_no) (a_status m channel_no dev_no) (a_id m channel_no dev_no) buf0 in
    let! st := if negb (dev_no =? 0) then partition_scan fuel (a_sector m channel_no dev_no) 0 (mk_pscan ext 0 0 []) else Ok (mk_pscan ext 0 0 []) in
    let! drives := wr drives dev_no (mk_drive [115; 100; u8 (97 + channel_no * 2 + dev_no)] dev_no (partition_list st)) in
    Ok (inl (drives, ext_lba_base st, tr ++ tr1, dev_no + 1))
  else Ok (inr (drives, ext, tr)).

Definition init_chan_body (handler channel_cnt : Z) (s : list channel * list Z * Z * list event * Z)
  : outcome (list channel * list Z * Z * list event * Z + list channel * list Z * list event) :=
  let '(channels, idt_table, ext, tr, channel_no) := s in
  if channel_no <? channel_cnt then
    let! c := rd channels channel_no in
    let port := if channel_no =? 0 then 0x1f0 else if channel_no =? 1 then 0x170 else c_port c in
    let irq := if channel_no =? 0 then 0x20 + 14 else if channel_no =? 1 then 0x20 + 15 else irq_no (c_wait c) in
    let! idt_table := register_handler idt_table irq handler in
    let! ' (drives, ext, tr) := loop (init_drive_body channel_no port) 3 (c_drives c, ext, tr, 0) in
    let! channels := wr channels channel_no
      (mk_chan [105; 100; 101; u8 (48 + channel_no)] port (mk_channel irq false (sema_init 0)) lock_init drives) in
    Ok (inl (channels, idt_table, ext, tr, channel_no + 1))
  else Ok (inr (channels, idt_table, tr)).

(** [hd_cnt] is the byte at 0x475; [handler] the address of [intr_hd_handler]. The
    result has [channel_cnt], the channels, the handlers and the trace of the
    identifications. *)
Definition ide_init (hd_cnt handler : Z) (channels : list channel) (idt_table : list Z)
  : outcome (Z * list channel * list Z * list event) :=
  c_assert (0 <? hd_cnt) ;;;
  let channel_cnt := u8 (DIV_ROUND_UP hd_cnt 2) in
  let! ' (channels, idt_table, tr) := loop (init_chan_body handler channel_cnt) (S (Z.to_nat channel_cnt)) (channels, idt_table, 0, [], 0) in
  Ok (channel_cnt, channels, idt_table, tr).
End ide.

(** The static arrays before. *)
Definition no_drive : drive := mk_drive [] 0 [].
Definition no_channel : channel := mk_chan [] 0 (mk_channel 0 false (mk_sema 0 [])) (mk_lock 0 (mk_sema 0 []) 0) [no_drive; no_drive].

(** [partition_info]: the line of a partition, whose name the caller reads from it. *)
Definition partition_info (name : list Z) (part : Ide.partition) : outcome (list Z) :=
  printk (txt "   %s start_lba:0x%x, sec_cnt:0x%x" ++ [10]) [AStr name; AInt (part_start part); AInt (part_cnt part)].

(** ** Both inits in the order of [init_all] *)

Section boot.
Context {D H : Type} `{BlockDevice D} `{KernelHeap H}.

(** The disks the file system starts on: what [ide_init] found, and the media. *)
Definition hdisks (media : list (list D)) (channels : list channel) : list (list (hdisk D)) :=
  zip_with (fun ds c => zip_with (fun d x => mk_hdisk (d_name x) d (d_parts x)) ds (c_drives c)) media channels.

Definition medium_of (media : list (list D)) (c dev lba : Z) : list Z :=
  match znth media c with Some ds => match znth ds dev with Some d => sector d lba | None => [] end | None => [] end.

Definition start_disks (status : Z -> Z -> nat -> Z) (id : Z -> Z -> list Z) (media : list (list D)) (fuel : nat) (hd_cnt handler : Z)
    (idt_table buf0 : list Z) (h : H) (files : list file) (k : kstate) (pad after_bb after_ib : list Z)
  : outcome (list (list (hdisk D)) * fstate D H * dir * list Z) :=
  let! ' (cnt, channels, idt_table, _) :=
    ide_init (mk_answers status id (medium_of media)) buf0 fuel hd_cnt handler [no_channel; no_channel] idt_table in
  let! ' (disks, f, root_dir) := filesys_init (hdisks media channels) cnt h files k pad after_bb after_ib in
  Ok (disks, f, root_dir, idt_table).
End boot.
