(* ===== verification/Idespec.v ===== *)
(** What [ide_init] of Idestart.v finds, and the file system the machine starts with
    ([ide_init] and then [filesys_init]). *)
From S2P Require Import Prelude Bitmap Thread Sync Ide Blockdev Inode File Filewrite Dir Dirwrite Path Search Fs Format Formatspec Fsinit Gates Idestart.

(** ** Specification *)

(** The two bytes of every word exchanged: the characters of an identification are
    stored in words, the first in the high half. *)
Fixpoint swapped (l : list Z) : list Z :=
  match l with a :: b :: l => b :: a :: swapped l | _ => [] end.

(** Both disks answer with 512 bytes. *)
Record answering (status : nat -> Z) (id : list Z) : Prop := { an_ready : disk_ready status; an_length : zlen id = 512 }.

(** The boot record of a partitioned disk, as Ide.v describes it, with the partitions
    on it. *)
Record partitioned (sect : Z -> list Z) (prims : list partition_table_entry) (ext : partition_table_entry)
    (parts : list partition_table_entry) (l : list Ide.partition) : Prop := {
  pd_table : exists zs, partition_table (sect 0) = Ok (prims ++ ext :: zs) /\ Forall (fun p => fs_type p = 0) zs;
  pd_prims : Forall data_entry prims /\ Forall (fun p => 0 <= Ide.start_lba p < 2 ^ 32) prims /\ zlen prims <= 3;
  pd_ext : fs_type ext = 5 /\ 0 < Ide.start_lba ext;
  pd_chain : ebr_chain sect (Ide.start_lba ext) 0 parts /\ logicals sect (Ide.start_lba ext) 0 0 parts l }.

(** ** Identification *)

Lemma swapped_snoc l a b : forall n, length l = (2 * n)%nat -> swapped (l ++ [a; b]) = swapped l ++ [b; a].
Proof.
  intros n. revert l. induction n as [|n IH]; intros l Hl; [by destruct l|].
  destruct l as [|x [|y l]]; [discriminate | cbn in Hl; lia|]. cbn [app swapped]. rewrite IH by (cbn in Hl; lia). done.
Qed.

Lemma swapped_length n : forall l, length l = (2 * n)%nat -> length (swapped l) = (2 * n)%nat.
Proof.
  induction n as [|n IH]; intros l Hl; [by destruct l|]. destruct l as [|x [|y l]]; [discriminate | cbn in Hl; lia|].
  cbn [swapped length]. rewrite IH by (cbn in Hl; lia). lia.
Qed.

Lemma take_two {A} (l : list A) n a b : l !! n = Some a -> l !! S n = Some b -> take (S (S n)) l = take n l ++ [a; b].
Proof. intros Ha Hb. by rewrite (take_S_r _ _ _ Hb), (take_S_r _ _ _ Ha), <- app_assoc. Qed.

(** [swap_pairs_bytes] of an even number of bytes. *)
Lemma swap_pairs_ok dst buf n : 0 <= n <= 100 -> 2 * n <= zlen dst -> 2 * n < zlen buf ->
  exists rest, swap_pairs_bytes dst buf (2 * n) = Ok (swapped (take (Z.to_nat (2 * n)) dst) ++ 0 :: rest).
Proof.
  intros Hn Hd Hb. unfold swap_pairs_bytes.
  loop_inv (fun s : Z * Z * list Z => exists j, 0 <= j <= n /\ fst (fst s) = 2 * j /\ snd (fst s) = 2 * j
                /\ snd s = swapped (take (Z.to_nat (2 * j)) dst) ++ drop (Z.to_nat (2 * j)) (snd s) /\ length (snd s) = length buf)
           (fun s : Z * Z * list Z => Z.to_nat (2 * n - fst (fst s))).
  - intros [[idx d] l] (j & Hj & Ei & Ed0 & El & Hl). cbn [fst snd] in Ei, Ed0, El, Hl. subst idx d. unfold swap_body.
    assert (length (swapped (take (Z.to_nat (2 * j)) dst)) = (2 * Z.to_nat j)%nat) as Hsl by (apply swapped_length; rewrite length_take; lia).
    destruct (Z.ltb_spec (2 * j) (2 * n)).
    + destruct (lookup_lt_is_Some_2 dst (Z.to_nat (2 * j))) as [b0 E0]; [lia|]. destruct (lookup_lt_is_Some_2 dst (Z.to_nat (2 * j + 1))) as [b1 E1]; [lia|].
      rewrite (rd_znth _ _ b0) by (unfold znth; destruct (Z.ltb_spec (2 * j) 0); [lia | done]). cbn [obind]. rewrite wr_in by lia. cbn [obind].
      rewrite (rd_znth _ _ b1) by (unfold znth; destruct (Z.ltb_spec (2 * j + 1) 0); [lia | done]). cbn [obind].
      rewrite wr_in by (rewrite length_insert; lia). cbn [obind fst snd]. split; [|rewrite u8_small by lia; lia].
      exists (j + 1). rewrite u8_small by lia. split; [lia|]. split; [lia|]. split; [lia|]. split; [|by rewrite !length_insert].
      replace (Z.to_nat (2 * (j + 1))) with (S (S (Z.to_nat (2 * j)))) by lia. replace (Z.to_nat (2 * j + 1)) with (S (Z.to_nat (2 * j))) in * by lia.
      rewrite (take_two dst _ b0 b1 E0 E1), (swapped_snoc _ _ _ (Z.to_nat j)) by (rewrite length_take; lia).
      rewrite !drop_insert_lt by lia. assert (length (drop (Z.to_nat (2 * j)) l) = (length l - Z.to_nat (2 * j))%nat) as Hdl by apply length_drop.
      rewrite El at 1. set (w := swapped (take (Z.to_nat (2 * j)) dst)) in *. replace (Z.to_nat (2 * j)) with (length w) at 1 2 by lia.
      rewrite (insert_app_r_alt w) by lia. rewrite (insert_app_r_alt w) by lia. rewrite Nat.sub_diag. replace (S (length w) - length w)%nat with 1%nat by lia.
      rewrite <- app_assoc. f_equal. destruct (drop (Z.to_nat (2 * j)) l) as [|x [|y r]] eqn:Ed; cbn [length] in Hdl; [lia | lia|].
      cbn [insert list_insert app]. do 2 f_equal. replace (S (S (Z.to_nat (2 * j)))) with (Z.to_nat (2 * j) + 2)%nat by lia. rewrite <- drop_drop, Ed. done.
    + assert (j = n) as -> by lia. rewrite wr_in by lia. exists (drop (S (Z.to_nat (2 * n))) l). cbn [obind]. f_equal.
      rewrite El at 1. rewrite insert_app_r_alt by lia. rewrite Hsl. replace (Z.to_nat (2 * n) - 2 * Z.to_nat n)%nat with 0%nat by lia. f_equal.
      destruct (drop (Z.to_nat (2 * n)) l) as [|x r] eqn:Ed.
      * pose proof (length_drop l (Z.to_nat (2 * n))) as Hx. rewrite Ed in Hx. cbn in Hx. lia.
      * cbn. f_equal. replace (S (Z.to_nat (2 * n))) with (Z.to_nat (2 * n) + 1)%nat by lia. by rewrite <- drop_drop, Ed.
  - exists 0. cbn [fst snd]. rewrite Z.mul_0_r. change (Z.to_nat 0) with 0%nat. cbn. split; [lia|]. done.
  - cbn [fst snd]. lia.
Qed.

(** The disk is selected and asked, and its answer read; the serial number are 20 bytes
    of it, the model 40. *)
Lemma identify_ok hd status id buf0 : answering status id -> zlen buf0 = 64 ->
  exists sectors r1 r2, identify_disk hd status id buf0
    = Ok (select_disk hd ++ cmd_out hd CMD_IDENTIFY ++ [SemaDown] ++ [Insw (reg_data hd) 0 256],
          mk_identity (chars (swapped (take 20 (drop 20 id)) ++ 0 :: r1)) (chars (swapped (take 40 (drop 54 id)) ++ 0 :: r2)) sectors).
Proof.
  intros [Hr Hl] Hb. unfold identify_disk. rewrite disk_ready_wait by done. cbn [c_assert obind].
  destruct (swap_pairs_ok (drop 20 id) buf0 10) as [r1 E1]; [lia | rewrite length_drop; lia | lia|]. change (2 * 10) with 20 in E1. rewrite E1. cbn [obind].
  destruct (swap_pairs_ok (drop 54 id) (zeros 64) 20) as [r2 E2]; [lia | rewrite length_drop; lia | rewrite zeros_length; lia|]. change (2 * 20) with 40 in E2. rewrite E2. cbn [obind].
  rewrite rd_le32_ok by lia. cbn [obind]. exists (word_at id 120), r1, r2. rewrite <- !app_assoc. done.
Qed.

(** ** [ide_init] with two disks *)

Definition ide_name (n : Z) : list Z := [105; 100; 101; 48 + n].
Definition sda : list Z := [115; 100; 97].
Definition sdb : list Z := [115; 100; 98].

(** The first channel as two disks leave it. *)
Definition two_drives (parts : list Ide.partition) : channel :=
  mk_chan (ide_name 0) 0x1f0 (mk_channel 0x2e false (sema_init 0)) lock_init [mk_drive sda 0 []; mk_drive sdb 1 parts].

Section ide.
Variables (m : answers) (buf0 : list Z) (fuel : nat).
Hypothesis Hbuf : zlen buf0 = 64.
Hypothesis Ha0 : answering (a_status m 0 0) (a_id m 0 0).
Hypothesis Ha1 : answering (a_status m 0 1) (a_id m 0 1).

Lemma init_drives_ok st : partition_scan fuel (a_sector m 0 1) 0 (mk_pscan 0 0 0 []) = Ok st ->
  exists tr, loop (init_drive_body m buf0 fuel 0 0x1f0) 3 (c_drives no_channel, 0, [], 0)
    = Ok ([mk_drive sda 0 []; mk_drive sdb 1 (partition_list st)], ext_lba_base st, tr).
Proof.
  intros Hs. destruct (identify_ok (mk_disk 0x1f0 0) _ _ buf0 Ha0 Hbuf) as (s0 & r1 & r2 & E0).
  destruct (identify_ok (mk_disk 0x1f0 1) _ _ buf0 Ha1 Hbuf) as (s1 & r3 & r4 & E1).
  change 3%nat with (S (S 1)). cbn [loop]. unfold init_drive_body at 1. change (0 <? 2) with true. cbn iota. rewrite E0. cbn [obind].
  change (negb (0 =? 0)) with false. cbn iota. cbn [obind partition_list ext_lba_base].
  change (wr (c_drives no_channel) 0 ?x) with (@Ok (list drive) [x; no_drive]). cbn [obind].
  unfold init_drive_body at 1. change (0 + 1) with 1. change (1 <? 2) with true. cbn iota. rewrite E1. cbn [obind].
  change (negb (1 =? 0)) with true. cbn iota. rewrite Hs. cbn [obind].
  change (wr [?y; no_drive] 1 ?x) with (@Ok (list drive) [y; x]). cbn [obind]. eexists. reflexivity.
Qed.

Lemma ide_init_ok handler idt_table st : zlen idt_table = IDT_DESC_CNT ->
  partition_scan fuel (a_sector m 0 1) 0 (mk_pscan 0 0 0 []) = Ok st ->
  exists t tr, ide_init m buf0 fuel 2 handler [no_channel; no_channel] idt_table = Ok (1, [two_drives (partition_list st); no_channel], t, tr)
    /\ znth t 0x2e = Some handler /\ forall v, v <> 0x2e -> znth t v = znth idt_table v.
Proof.
  intros Ht Hs. destruct (init_drives_ok st Hs) as [tr E]. unfold IDT_DESC_CNT in *.
  destruct (register_handler_ok idt_table 0x2e handler) as (t & Er & H1t & H2t); [done | unfold IDT_DESC_CNT; lia|].
  exists t, tr. split; [|done]. unfold ide_init. change (c_assert (0 <? 2)) with (Ok tt). cbn [obind]. change (u8 (DIV_ROUND_UP 2 2)) with 1.
  change (S (Z.to_nat 1)) with (S 1). cbn [loop]. unfold init_chan_body at 1. change (0 <? 1) with true. cbn iota.
  change (rd [no_channel; no_channel] 0) with (Ok no_channel). cbn [obind]. change (0 =? 0) with true. cbn iota. change (0x20 + 14) with 0x2e.
  rewrite Er. cbn [obind]. rewrite E. cbn [obind].
  change (wr [no_channel; no_channel] 0 ?x) with (@Ok (list channel) [x; no_channel]). cbn [obind]. reflexivity.
Qed.
End ide.

(** ** The start *)

Section start.
Context {D H : Type} `{BlockDeviceLaws D} `{KernelHeapLaws H}.

(** C11. The first start of a machine with two disks that answer, whose second disk has a
    boot record with one to three primary partitions and, behind them, an extended one
    with a chain of at least one logical partition; the partitions fit the disk and do not
    overlap, and the first of them has no file system yet. Then [ide_init] finds the disks,
    the primary and the first eight logical partitions, and installs the handler of the
    disk interrupt; [filesys_init] formats the partitions that have no file system, keeps
    those that have one, leaves the first disk and everything outside the partitions as
    they are, and mounts the first partition. The kernel's file system is then a root
    directory with its two entries, open, and all file structures are free. It is well
    formed, except that for most sizes the block behind the partition is free in its
    bitmap ([end_taken]). *)
Theorem start_disks_spec status id (d0 d1 : D) e prims ext parts l fuel handler idt_table buf0 (h : H) files k pad after_bb after_ib :
  let hd := mk_hdisk sdb d1 (primaries 0 (e :: prims) ++ take 8 l) in
  partitioned (sector d1) (e :: prims) ext parts l -> (length parts < fuel)%nat ->
  answering (status 0 0) (id 0 0) -> answering (status 0 1) (id 0 1) -> zlen buf0 = 64 -> zlen idt_table = IDT_DESC_CNT ->
  parts_ok hd -> Ide.sec_cnt e <> 0 -> word_at (sector d1 (Ide.start_lba e + 1)) 0 <> SB_MAGIC ->
  pad_ok pad -> length files = 32%nat -> ample 40 h ->
  1 <= zlen after_bb -> bytes after_bb -> 1 <= zlen after_ib -> bytes after_ib ->
  exists d1' f root_dir t bb,
    start_disks status id [[d0; d1]] fuel 2 handler idt_table buf0 h files k pad after_bb after_ib
      = Ok ([[mk_hdisk sda d0 []; with_hd_medium d1' hd]], f, root_dir, t)
    /\ znth t 0x2e = Some handler
    /\ (forall j q, 0 <= j < 12 -> part_at hd j = Some q -> part_cnt q <> 0 -> treated pad d1 d1' q)
    /\ (forall b, (forall j q, 0 <= j < 12 -> part_at hd j = Some q -> ~ inside q b) -> dbyte d1' b = dbyte d1 b)
    /\ medium f = d1' /\ kern f = k /\ Forall (fun x => fd_inode x = 0) (file_table f)
    /\ end_taken (Ide.sec_cnt e) (block_bitmap (cur_part f)) bb /\ fs_ready (with_block_bitmap bb f) root_dir [0]
    /\ dir_entries d1' (root_inode (sb (cur_part f))) = root_entries.
Proof.
  intros hd [(zs & Htab & Hz) (Hp1 & Hp2 & Hp3) [Hx1 Hx2] [Hch Hlg]] Hfu Ha0 Ha1 Hbuf Ht Ho Hc Hm Hpad Hlf A A1 B1 A2 B2.
  pose proof (partition_scan_spec (sector d1) (e :: prims) ext zs parts l fuel Htab Hp1 Hp2 Hp3 Hx1 Hx2 Hz Hch Hlg Hfu) as Hs.
  unfold start_disks. set (m := mk_answers status id (medium_of [[d0; d1]])).
  destruct (ide_init_ok m buf0 fuel Hbuf Ha0 Ha1 handler idt_table _ Ht Hs) as (t & tr & E & Ht1 & _). rewrite E. cbn [obind].
  set (p := mk_part false 0 (Ide.start_lba e) (Ide.sec_cnt e)).
  assert (hdisks [[d0; d1]] [two_drives (primaries 0 (e :: prims) ++ take 8 l); no_channel] = [[mk_hdisk sda d0 []; hd]]) as Eh by reflexivity.
  cbn [partition_list]. rewrite Eh.
  destruct (filesys_init_spec (mk_hdisk sda d0 []) hd [] 0 p files k pad after_bb after_ib h) as (d' & f & root_dir & bb & Ei & R); try done.
  { intros c Hcc. by apply elem_of_nil in Hcc. }
  cbn [length] in Ei. change (1 + Z.of_nat 0) with 1 in Ei. rewrite Ei. cbn [obind]. by exists d', f, root_dir, t, bb.
Qed.
End start.
