(* ===== verification/Idedemo.v ===== *)
(** The machine of Ide.v's example disk with room for a file system: one primary
    partition of 4708 sectors and two logical ones. *)
From S2P Require Import Prelude Bitmap Thread Sync Ide Blockdev Inode File Filewrite Dir Dirwrite Path Search Fs Format Formatspec Fsinit Fsinitdemo Gates Idestart Idespec.

Definition w_pte (t s c : Z) : list Z := [0; 0; 0; 0; t; 0; 0; 0] ++ le32 s ++ le32 c.
Definition w_boot (e1 e2 : list Z) : list Z := replicate 446 0 ++ e1 ++ e2 ++ replicate 34 0.
Definition demo_mbr_disk : sparse_disk := mk_sparse
  (<[0 := w_boot (w_pte 0x83 63 4708) (w_pte 5 5000 5000)]> (<[5000 := w_boot (w_pte 0x66 1 2000) (w_pte 5 2100 2000)]>
    {[ 7100 := w_boot (w_pte 0x66 1 1000) (w_pte 0 0 0) ]})).
Definition demo_status (c dev : Z) (n : nat) : Z := 8.
Definition demo_id (c dev : Z) : list Z := replicate 512 65.

Lemma demo_answering c dev : answering (demo_status c dev) (demo_id c dev).
Proof.
  split; [|reflexivity]. exists 0%nat. split; [lia|]. split; [intros j Hj; lia|]. split; [reflexivity | discriminate].
Qed.

Lemma demo_partitioned : partitioned (sector demo_mbr_disk) [mk_pte 0x83 63 4708] (mk_pte 5 5000 5000)
  [mk_pte 0x66 1 2000; mk_pte 0x66 1 1000] [mk_part true 0 5001 2000; mk_part true 1 7101 1000].
Proof.
  split.
  - exists [mk_pte 0 0 0; mk_pte 0 0 0]. split; [vm_compute; reflexivity | repeat constructor].
  - split; [repeat constructor; discriminate|]. split; [repeat constructor; cbn; lia | cbn; lia].
  - split; [done | cbn; lia].
  - split.
    + cbn [ebr_chain Ide.start_lba]. change max_lba with 163839. split; [lia|]. split; [by split|]. split; [lia|]. split; [lia|].
      exists (mk_pte 5 2100 2000), (mk_pte 0 0 0), (mk_pte 0 0 0). split; [vm_compute; reflexivity|]. do 3 (split; [reflexivity|]).
      split; [cbn; lia|]. split; [by split|]. split; [cbn; lia|]. split; [cbn; lia|].
      exists (mk_pte 0 0 0), (mk_pte 0 0 0), (mk_pte 0 0 0). split; [vm_compute; reflexivity|]. repeat split.
    + eapply (logicals_next (sector demo_mbr_disk) 5000 0 0 (mk_pte 0x66 1 2000) [mk_pte 0x66 1 1000] _ (mk_pte 5 2100 2000));
        [done | vm_compute; reflexivity | apply logicals_last].
Qed.

Definition demo_hd : hdisk sparse_disk :=
  mk_hdisk sdb demo_mbr_disk (primaries 0 [mk_pte 0x83 63 4708] ++ take 8 [mk_part true 0 5001 2000; mk_part true 1 7101 1000]).

Lemma demo_hd_parts : hd_parts demo_hd = [mk_part false 0 63 4708; mk_part true 0 5001 2000; mk_part true 1 7101 1000].
Proof. reflexivity. Qed.

Lemma demo_hd_ok : parts_ok demo_hd.
Proof.
  split.
  - intros i p [Hp _]%part_at_in _. rewrite demo_hd_parts, !elem_of_cons, elem_of_nil in Hp.
    destruct Hp as [->|[->|[->|[]]]]; split; cbn; change max_lba with 163839; lia.
  - intros i j p p' q [Hp ->]%part_at_in [Hp' ->]%part_at_in. unfold inside.
    rewrite demo_hd_parts, !elem_of_cons, elem_of_nil in Hp, Hp'. destruct Hp as [->|[->|[->|[]]]], Hp' as [->|[->|[->|[]]]]; cbn; lia.
Qed.

Example start_disks_witness : exists d1' f root_dir t,
  start_disks demo_status demo_id [[mk_sparse ∅; demo_mbr_disk]] 4 2 0xc0009000 (replicate 129 0) (replicate 64 170) (mk_bump [])
    (replicate 32 (mk_file 0 0 7)) demo_state (replicate 460 170) [0] [0]
    = Ok ([[mk_hdisk sda (mk_sparse ∅) []; with_hd_medium d1' demo_hd]], f, root_dir, t)
  /\ fs_ready f root_dir [0] /\ znth t 0x2e = Some 0xc0009000.
Proof.
  destruct demo_after as [A B].
  assert (word_at (sector demo_mbr_disk (63 + 1)) 0 <> SB_MAGIC) as Hm by (vm_compute; discriminate).
  pose proof (start_disks_spec demo_status demo_id (mk_sparse ∅) demo_mbr_disk (mk_pte 0x83 63 4708) [] (mk_pte 5 5000 5000) [mk_pte 0x66 1 2000; mk_pte 0x66 1 1000]
    [mk_part true 0 5001 2000; mk_part true 1 7101 1000] 4 0xc0009000 (replicate 129 0) (replicate 64 170) (mk_bump []) (replicate 32 (mk_file 0 0 7)) demo_state
    (replicate 460 170) [0] [0] demo_partitioned ltac:(cbn; lia) (demo_answering 0 0) (demo_answering 0 1) eq_refl eq_refl demo_hd_ok
    ltac:(discriminate) Hm demo_pad eq_refl (bump_ample _ _) A B A B) as Hx.
  destruct Hx as (d1' & f & root_dir & t & bb & E & Ht & _ & _ & _ & _ & _ & Hb & R & _).
  assert (block_bitmap (cur_part f) = bb) as <- by (symmetry; apply (et_spare _ _ _ Hb); right; reflexivity).
  exists d1', f, root_dir, t. split; [exact E|]. split; [by destruct f, cur_part | exact Ht].
Defined.
