(* ===== verification/Ps.v ===== *)
(** thread/thread.c: [sys_ps], the list of tasks, and what the start of the scheduler
    consists of: [thread_init], [kernel_thread] and [idle]. *)
From Stdlib Require Import String.
From S2P Require Import Prelude Bitmap Cstring Thread Path Printf.
From S2P Require Process.
Local Open Scope Z_scope.

Abbreviation zeros n := (replicate n 0).

(** ** [sys_ps] *)

(** What [pad_print] is given to print: a string, or the address of a field, with the
    16-bit and the 32-bit number that can be read there. *)
Inductive column := Text (s : list Z) | Field (v16 v32 : Z) (format : Z).

(** The text written: [buf_len - 1] characters. The case of ['d'] has no [break]: the
    number is written again over the first text, from 32 bits and in hexadecimal. *)
Definition pad_print (buf_len : Z) (x : column) : outcome (list Z) :=
  let buf := zeros (Z.to_nat buf_len) in
  let! ' (buf, n) :=
    match x with
    | Text s => sprintf buf (txt "%s") [AStr s]
    | Field v16 v32 format =>
        let! ' (buf, n) := if format =? Stdio.ch_d then sprintf buf (txt "%d") [AInt (u32 (s16 v16))] else Ok (buf, 0) in
        sprintf buf (txt "%x") [AInt (u32 v32)]
    end in
  let out_pad_0idx := u8 n in
  let! buf := splice buf out_pad_0idx (replicate (Z.to_nat (buf_len - out_pad_0idx)) 32) in
  slice buf 0 (buf_len - 1).

Definition status_name (s : task_status) : list Z :=
  match s with
  | TASK_RUNNING => txt "RUNNING" | TASK_READY => txt "READY" | TASK_BLOCKED => txt "BLOCKED"
  | TASK_WAITING => txt "WAITING" | TASK_HANGING => txt "HANGING" | TASK_DIED => txt "DIED"
  end.

(** The line of a task. Behind [pid] lie two bytes of padding, which are 0, behind
    [parent_pid] the exit status and one byte of padding. *)
Definition elem2thread_info (t : task_struct) : outcome (list Z) :=
  let! c1 := pad_print 16 (Field (pid t) (u16 (pid t)) Stdio.ch_d) in
  let! c2 := pad_print 16 (if parent_pid t =? -1 then Text (txt "NULL")
                           else Field (parent_pid t) (u16 (parent_pid t) + 2 ^ 16 * u8 (exit_status t)) Stdio.ch_d) in
  let! c3 := pad_print 16 (Text (status_name (status t))) in
  let! c4 := pad_print 16 (Field 0 (elapsed_ticks t) Stdio.ch_x) in
  let! nm := c_string (name t) in
  c_assert (zlen nm <? 17) ;;;
  let! out_pad := splice (zeros 16) 0 nm in
  let! out_pad := c_strcat out_pad [10] in
  let! last := c_string out_pad in
  Ok (c1 ++ c2 ++ c3 ++ c4 ++ last).

Definition ps_title : list Z := txt "PID            PPID           STAT           TICKS          COMMAND" ++ [10].

Fixpoint ps_lines (k : kstate) (l : list Z) : outcome (list Z) :=
  match l with
  | [] => Ok []
  | t :: l => let! x := get_task k t in let! a := elem2thread_info x in let! b := ps_lines k l in Ok (a ++ b)
  end.

(** What [sys_ps] writes to the standard output. *)
Definition sys_ps (k : kstate) : outcome (list Z) :=
  let! l := ps_lines k (thread_all_list k) in Ok (ps_title ++ l).

(** ** The start of the scheduler *)

(** [kernel_thread], up to the call of the function. *)
Definition kernel_thread (k : kstate) : kstate := snd (intr_enable k).

(** One turn of [idle]: it blocks; when it runs again it enables interrupts and
    halts. *)
Definition idle (k : kstate) : outcome (kstate * bool) := thread_block k TASK_BLOCKED.
Definition idle_resume (k : kstate) (old_status : bool) : kstate := snd (intr_enable (thread_block_resume k old_status)).

Definition with_idle (v : Z) (k : kstate) : kstate :=
  mk_kstate (cur k) (tasks k) (thread_ready_list k) (thread_all_list k) (intr k) v (main_thread k) (pid_bitmap k) (cr3 k) (tss_esp0 k) (addr_v2p k).

Section init.
Context {D H : Type}.

(** [pids] is the memory of the pid bitmap; the addresses are those of
    [kernel_thread], [start_process], [init] and [idle]. *)
Definition thread_init (s : Process.sys D H) (pids : list Z) (kthread start init idle_fn : Z) : outcome (Process.sys D H) :=
  let k := with_all [] (with_ready [] (Process.s_k s)) in
  let! k := pid_pool_init k pids in
  let! s := Process.process_execute (Process.with_k k s) kthread start init (txt "init" ++ [0]) in
  let! k := make_main_thread (Process.s_k s) in
  let! ' (m, page) := Process.get_kernel_pages (Process.s_vm s) 1 in
  let! ' (k, idle_thread) := thread_start k (default 0 page) (txt "idle" ++ [0]) 10 kthread idle_fn 0 in
  Ok (Process.with_vm m (Process.with_k (with_idle idle_thread k) s)).
End init.

(** ** What a line says *)

(** The five texts of the columns with fewer than 16 characters. *)
Lemma pad_text s : (0 ∉ s) -> zlen s < 16 -> pad_print 16 (Text s) = Ok (take 15 (s ++ replicate 16 32)).
Proof.
  intros Hz Hs. unfold pad_print, sprintf. change (zeros (Z.to_nat 16)) with (zeros 16).
  pose proof (put_format_ok (txt "%s") [AStr s] s [] 16) as Hp. cbn [app List.length] in Hp. change (Z.of_nat 0) with 0 in Hp.
  rewrite Hp; [|transitivity (Some (s ++ [])); [reflexivity | by rewrite app_nil_r] | lia]. cbn [obind]. unfold c_strlen.
  destruct (16 - List.length s)%nat as [|j] eqn:Ej; [lia|]. cbn [replicate]. rewrite c_string_ok by done. cbn [obind].
  rewrite u8_small by lia. unfold splice. rewrite length_app, length_replicate. cbn [List.length]. rewrite length_replicate. zdec. cbn [obind].
  unfold slice. rewrite Nat2Z.id, take_app_length. replace (Z.to_nat (16 - zlen s)) with (S j) by lia.
  rewrite drop_ge by (rewrite length_app; cbn [List.length]; rewrite length_replicate; lia). rewrite app_nil_r, length_app, length_replicate. zdec.
  change (Z.to_nat 0) with 0%nat. rewrite drop_0. f_equal. change (Z.to_nat (16 - 1)) with 15%nat.
  apply list_eq. intros i. destruct (decide (i < 15)%nat); [|by rewrite !lookup_take_ge by lia]. rewrite !lookup_take_lt by lia.
  destruct (decide (i < List.length s)%nat); [by rewrite !lookup_app_l by done|]. rewrite !lookup_app_r by lia.
  change [32; 32; 32; 32; 32; 32; 32; 32; 32; 32; 32; 32; 32; 32; 32; 32] with (replicate 16 32). by rewrite !lookup_replicate_2 by lia.
Qed.

(** A number below 10 is printed as it is; one of two digits is overwritten by its
    hexadecimal digits: 12 reads C2. *)
Lemma pad_digit v : 0 <= v < 10 -> pad_print 16 (Field v v Stdio.ch_d) = Ok ((48 + v) :: replicate 14 32).
Proof.
  intros Hv. assert (v = 0 \/ v = 1 \/ v = 2 \/ v = 3 \/ v = 4 \/ v = 5 \/ v = 6 \/ v = 7 \/ v = 8 \/ v = 9) as Hc by lia.
  by repeat (destruct Hc as [->|Hc]; [vm_compute; reflexivity|]); subst v; vm_compute.
Qed.

Lemma pad_two_digits v : 10 <= v < 16 -> pad_print 16 (Field v v Stdio.ch_d) = Ok ((55 + v) :: (38 + v) :: replicate 13 32).
Proof.
  intros Hv. assert (v = 10 \/ v = 11 \/ v = 12 \/ v = 13 \/ v = 14 \/ v = 15) as Hc by lia.
  by repeat (destruct Hc as [->|Hc]; [vm_compute; reflexivity|]); subst v; vm_compute.
Qed.
