(* ===== verification/Ls.v ===== *)
(** shell/buildin_cmd.c: [ls], and the commands that print: [pwd], [ps], [clear],
    [help]; with [sys_help] of fs/fs.c. What a command hands to [write] is a list of
    texts, in order; the system calls are those of Fs.v. *)
From Stdlib Require Import String.
From S2P Require Import Prelude Bitmap Thread Ide Blockdev Inode File Filewrite Dir Path Fs Shell Printf.
Local Open Scope Z_scope.

Definition nl : list Z := [10].

(** ** Options *)

Inductive ls_choice := Go (long : bool) (path : option (list Z)) | Stop (text : list Z).

(** The loop over [argv] from [argv[1]] on. *)
Fixpoint ls_options (args : list (list Z)) (long : bool) (path : option (list Z)) : outcome ls_choice :=
  match args with
  | [] => Ok (Go long path)
  | a :: args =>
      let! c := rd a 0 in
      if c =? 45 then
        let! l := str_eq a (txt "-l") in
        if (l : bool) then ls_options args true path else
        let! h := str_eq a (txt "-h") in
        if (h : bool) then
          let! t := printf (txt "usage: -l list all infomation about the file." ++ nl ++ txt "-h for help" ++ nl ++
                            txt "list all files in the current dirctory if no option" ++ nl) [] in Ok (Stop t)
        else
          let! s := c_string a in
          let! t := printf (txt "ls: invalid option %s" ++ nl ++ txt "Try `ls -h' for more information." ++ nl) [AStr s] in Ok (Stop t)
      else
        match path with
        | None => ls_options args long (Some a)
        | Some _ => let! t := printf (txt "ls: only support one path" ++ nl) [] in Ok (Stop t)
        end
  end.

Section ls.
Context {D H : Type} `{BlockDevice D} `{KernelHeap H}.
Abbreviation fs := (fstate D H).

(** ** Listing *)

(** One turn of the loop of the short form. *)
Definition ls_short_body (f : fs) (s : dir * list (list Z)) : outcome (dir * list (list Z) + dir * list (list Z)) :=
  let '(x, out) := s in
  let! ' (x, r) := sys_readdir f (Some x) in
  match r with
  | None => Ok (inr (x, out))
  | Some idx =>
      let! nm := c_string (de_name (dir_buf x) idx) in
      let! t := printf (txt "%s ") [AStr nm] in
      Ok (inl (x, out ++ [t]))
  end.

(** One turn of the long form; [inr (_, false)] is the return when an entry cannot be
    looked up: the directory is not closed there. *)
Definition ls_long_body (root_dir : dir) (dir_e0 : list Z) (pathname_len : Z) (s : fs * dir * list Z * list (list Z))
  : outcome (fs * dir * list Z * list (list Z) + fs * dir * list (list Z) * bool) :=
  let '(f, x, sub_pathname, out) := s in
  let! ' (x, r) := sys_readdir f (Some x) in
  match r with
  | None => Ok (inr (f, x, out, true))
  | Some idx =>
      let! t := de_f_type (dir_buf x) idx in
      let ftype := if t =? FT_REGULAR then 45 else 100 in
      let! nm := c_string (de_name (dir_buf x) idx) in
      let! sub_pathname := wr sub_pathname pathname_len 0 in
      let! sub_pathname := c_strcat sub_pathname nm in
      let! ' (f, st, ret) := sys_stat f root_dir dir_e0 sub_pathname (mk_stat 0 0 0) in
      if ret =? -1 then
        let! t := printf (txt "ls: cannot access %s: No such file or directory" ++ nl) [AStr nm] in
        Ok (inr (f, x, out ++ [t], false))
      else
        let! no := de_i_no (dir_buf x) idx in
        let! t := printf (txt "%c  %d  %d  %s" ++ nl) [AChar ftype; AInt no; AInt (st_size st); AStr nm] in
        Ok (inl (f, x, sub_pathname, out ++ [t]))
  end.

(** [sub_pathname] and [pathname_len] before the listing. *)
Definition ls_prefix (pathname : list Z) : outcome (list Z * Z) :=
  let! pathname_len := c_strlen pathname in
  let! sub := splice (zeros MAX_PATH_LEN) 0 (take (Z.to_nat pathname_len) pathname) in
  let! c := rd sub (pathname_len - 1) in
  if negb (c =? SLASH) then let! sub := wr sub pathname_len SLASH in Ok (sub, pathname_len + 1) else Ok (sub, pathname_len).

(** A directory; 2941 turns are enough for the 140 blocks of 21 entries it can have.
    [root_dir] is part of the result: [opendir] hands it out for a path like [/]. *)
Definition ls_directory (f : fs) (root_dir : dir) (dir_e0 pathname : list Z) (long : bool) (st : stat)
  : outcome (fs * dir * list (list Z)) :=
  let! ' (f, x) := sys_opendir f root_dir dir_e0 pathname in
  let! ' (sub_pathname, pathname_len) := ls_prefix pathname in
  match x with
  | None => Err BadAccess
  | Some x =>
      let x := sys_rewinddir x in
      let! ' (f, x, out, close) :=
        if long then
          let! t := printf (txt "total: %d" ++ nl) [AInt (st_size st)] in
          loop (ls_long_body root_dir dir_e0 pathname_len) 2942 (f, x, sub_pathname, [t])
        else
          let! ' (x, out) := loop (ls_short_body f) 2942 (x, []) in
          let! t := printf nl [] in Ok (f, x, out ++ [t], true) in
      let root_dir := match dir_self x with None => x | Some _ => root_dir end in
      let! ' (f, _) := if (close : bool) then sys_closedir f (Some x) else Ok (f, 0) in
      Ok (f, root_dir, out)
  end.

(** ** The command *)

Definition ls_path (f : fs) (path : option (list Z)) (final_path : list Z) : outcome (fs * list Z * option (list Z)) :=
  match path with
  | None =>
      let! ' (f, r) := sys_getcwd f final_path MAX_PATH_LEN in
      match r with
      | Some p => Ok (f, p, None)
      | None => let! t := printf (txt "ls: getcwd for default path failed" ++ nl) [] in Ok (f, final_path, Some t)
      end
  | Some p => let! ' (f, final_path) := make_clear_abs_path f p final_path in Ok (f, final_path, None)
  end.

(** [args] are the arguments behind [argv[0]]; the result has [root_dir], the array
    [final_path], and the texts. *)
Definition buildin_ls (f : fs) (root_dir : dir) (dir_e0 : list Z) (args : list (list Z)) (final_path : list Z)
  : outcome (fs * dir * list Z * list (list Z)) :=
  let! choice := ls_options args false None in
  match choice with
  | Stop t => Ok (f, root_dir, final_path, [t])
  | Go long path =>
      let! ' (f, final_path, failed) := ls_path f path final_path in
      match failed with
      | Some t => Ok (f, root_dir, final_path, [t])
      | None =>
          let! ' (f, st, ret) := sys_stat f root_dir dir_e0 final_path (mk_stat 0 0 0) in
          let! shown := c_string final_path in
          if ret =? -1 then
            let! t := printf (txt "ls: cannot access %s: No such file or directory" ++ nl) [AStr shown] in
            Ok (f, root_dir, final_path, [t])
          else if st_filetype st =? FT_DIRECTORY then
            let! ' (f, root_dir, out) := ls_directory f root_dir dir_e0 final_path long st in
            Ok (f, root_dir, final_path, out)
          else if long then
            let! t := printf (txt "-  %d  %d  %s" ++ nl) [AInt (st_ino st); AInt (st_size st); AStr shown] in
            Ok (f, root_dir, final_path, [t])
          else let! t := printf (txt "%s" ++ nl) [AStr shown] in Ok (f, root_dir, final_path, [t])
      end
  end.

(** ** The commands that only print *)

Definition buildin_pwd (f : fs) (args : list (list Z)) (final_path : list Z) : outcome (fs * list Z * list Z) :=
  match args with
  | _ :: _ => let! t := printf (txt "pwd: no argument support!" ++ nl) [] in Ok (f, final_path, t)
  | [] =>
      let! ' (f, r) := sys_getcwd f final_path MAX_PATH_LEN in
      match r with
      | Some p => let! s := c_string p in let! t := printf (txt "%s" ++ nl) [AStr s] in Ok (f, p, t)
      | None => let! t := printf (txt "pwd: get current work directory failed." ++ nl) [] in Ok (f, final_path, t)
      end
  end.

End ls.

(** The two that call [ps] and [clear]: the message, or the call. *)
Definition buildin_ps (args : list (list Z)) : outcome (option (list Z)) :=
  match args with [] => Ok None | _ => let! t := printf (txt "ps: no argument support!" ++ nl) [] in Ok (Some t) end.
Definition buildin_clear (args : list (list Z)) : outcome (option (list Z)) :=
  match args with [] => Ok None | _ => let! t := printf (txt "clear: no argument support!" ++ nl) [] in Ok (Some t) end.

Definition sys_help : outcome (list Z) :=
  printk (txt " buildin commands:" ++ nl ++ txt "       ls: show directory or file information" ++ nl ++
    txt "       cd: change current work directory" ++ nl ++ txt "       mkdir: create a directory" ++ nl ++
    txt "       rmdir: remove a empty directory" ++ nl ++ txt "       rm: remove a regular file" ++ nl ++
    txt "       pwd: show current work directory" ++ nl ++ txt "       ps: show process information" ++ nl ++
    txt "       clear: clear screen" ++ nl ++ txt " shortcut key:" ++ nl ++ txt "       ctrl+l: clear screen" ++ nl ++
    txt "       ctrl+u: clear input" ++ nl ++ nl) [].
Definition buildin_help : outcome (list Z) := sys_help.
