(* ===== verification/Opendir.v ===== *)
(** Closing one inode while a later one stays open, and with it [sys_opendir] of
    fs/fs.c, which closes the parent directory after it has opened the one it
    returns. *)
From S2P Require Import Prelude Bitmap Thread Ide Blockdev Inode File Filewrite Dir Path Search Fs Fsspec.

Section lemmas.
Context {D H : Type} `{BlockDeviceLaws D} `{KernelHeapLaws H}.
Abbreviation fs := (fstate D H).
Implicit Types (f : fs) (i : inode) (h : H).

#[local] Arguments remove_elem : simpl never.

(** The state is put together anew from its parts. *)
Lemma fs_ext f g : medium f = medium g -> cur_part f = cur_part g -> kheap f = kheap g -> inodes f = inodes g ->
  file_table f = file_table g -> kern f = kern g -> f = g.
Proof. destruct f, g. cbn. by intros -> -> -> -> -> ->. Qed.

(** An inode that is open more often than once. *)
Lemma inode_close_again f a i : inodes f !! a = Some i -> 2 <= i_open_cnts i < 2 ^ 32 ->
  inode_close f a = Ok (put_inode a (set_cnts (i_open_cnts i - 1) i) f).
Proof.
  intros Hi Hc. unfold inode_close, get_inode. rewrite Hi. cbn [obind]. rewrite u32_small by lia.
  by replace (i_open_cnts i - 1 =? 0) with false by (symmetry; apply Z.eqb_neq; lia).
Qed.

Lemma inode_close_once f a i : inodes f !! a = Some i -> i_open_cnts i = 1 -> a ∈ open_inodes (cur_part f) ->
  inode_close f a = Ok (with_kheap (sys_free (kheap f) true a) (with_inodes (delete a (inodes f))
    (with_part (set_open (remove_elem a (open_inodes (cur_part f))) (cur_part f)) f))).
Proof.
  intros Hi Hc Ha. unfold inode_close, get_inode. rewrite Hi. cbn [obind]. rewrite Hc. change (u32 (1 - 1) =? 0) with true. cbn iota.
  unfold elem_find. by rewrite bool_decide_eq_true_2.
Qed.

Lemma remove_elem_cons a b l : b <> a -> remove_elem a (b :: l) = b :: remove_elem a l.
Proof. intros Hb. unfold remove_elem. by rewrite filter_cons_True. Qed.

Lemma set_cnts_back i : Some i = Some (set_cnts (i_open_cnts i + 1 - 1) (set_cnts (i_open_cnts i + 1) i)).
Proof. rewrite Z.add_simpl_r. by destruct i. Qed.

Lemma open_as_eq f h no a fresh g g' : open_as f h no a fresh g -> g' = g -> open_as f h no a fresh g'.
Proof. by intros Ho ->. Qed.

Ltac same_fs :=
  apply fs_ext; cbn [medium cur_part kheap inodes file_table kern with_kheap with_inodes with_part put_inode opened]; try reflexivity.

(** Maps of inodes that agree at two addresses and elsewhere. *)
Ltac same_inodes a b :=
  apply map_eq; let z := fresh "z" in let Ea := fresh in let Eb := fresh in
  intros z; destruct (decide (z = a)) as [Ea|Ea], (decide (z = b)) as [Eb|Eb]; [congruence | rewrite !Ea | rewrite !Eb |];
  repeat first [rewrite lookup_insert_eq | rewrite lookup_delete_eq | rewrite lookup_insert_ne by congruence | rewrite lookup_delete_ne by congruence];
  try congruence.

(** Inode [p] is opened, then [no], then [p] is closed: what is left is [f] with [no]
    open. When both are the same inode its block stays; otherwise the one [p] took is
    freed. *)
Lemma open_as_swap f h1 p a fresh1 f1 h2 no b fresh2 f2 h' n : mem_ok f -> counts_below 2 f ->
  open_as f h1 p a fresh1 f1 -> open_as f1 h2 no b fresh2 f2 -> (fresh1 = true -> live h' true a) -> roomy (1 + n) h' ->
  exists f3 fresh3, inode_close (with_kheap h' f2) a = Ok f3 /\ open_as f (kheap f3) no b fresh3 f3 /\ roomy n (kheap f3)
    /\ ((fresh3 = fresh2 /\ (fresh1 = true -> b <> a) /\ forall k c, live (kheap f3) k c <-> live h' k c /\ ~ inode_block fresh1 a k c)
        \/ (fresh1 = true /\ fresh2 = false /\ fresh3 = true /\ b = a /\ kheap f3 = h')).
Proof.
  intros M C Ho1 Ho2 Hf R. destruct Ho1 as [i Ha Hi Hin|i Hmiss Hd Hin Na Ha].
  - assert (i_open_cnts i + 2 < 2 ^ 32) as Hc by (by apply (C a i)).
    destruct (mem_open _ M a Ha) as (i' & Hi' & _ & Hci). rewrite Hi in Hi'. injection Hi' as <-.
    assert (forall k c, live h' k c <-> live h' k c /\ ~ inode_block false a k c) as Hfree by (intros k c; unfold inode_block; split; [by split; [|intros []] | tauto]).
    destruct Ho2 as [j Hb Hj Hjn|j Hmiss2 Hd2 Hjn Nb Hb]; cbn in Hb.
    + cbn in Hj. destruct (decide (b = a)) as [->|Hne].
      * rewrite lookup_insert_eq in Hj. injection Hj as <-. cbn in Hjn.
        eexists _, false. split; [rewrite (inode_close_again _ a (set_cnts (i_open_cnts i + 1 + 1) i)); [reflexivity | cbn; by rewrite lookup_insert_eq | cbn; lia]|].
        split; [|split; [by apply roomy_less | by left]].
        assert (no = p) as -> by congruence.
        eapply open_as_eq; [by apply (open_again _ _ _ a i)|].
        same_fs. rewrite !insert_insert_eq. unfold set_cnts. cbn. repeat f_equal; lia.
      * rewrite lookup_insert_ne in Hj by congruence.
        eexists _, false. split; [rewrite (inode_close_again _ a (set_cnts (i_open_cnts i + 1) i)); [reflexivity | cbn; by rewrite lookup_insert_ne, lookup_insert_eq by congruence | cbn; lia]|].
        split; [|split; [by apply roomy_less | by left]].
        eapply open_as_eq; [by apply (open_again _ _ _ b j)|].
        same_fs. same_inodes a b. rewrite Hi. symmetry. apply set_cnts_back.
    + assert (b <> a) as Hne by (intros ->; cbn in Hb; by rewrite lookup_insert_eq in Hb). cbn in Hb. rewrite lookup_insert_ne in Hb by congruence.
      eexists _, true. split; [rewrite (inode_close_again _ a (set_cnts (i_open_cnts i + 1) i)); [reflexivity | cbn; by rewrite lookup_insert_ne, lookup_insert_eq by congruence | cbn; lia]|].
      split; [|split; [by apply roomy_less | by left]].
      eapply open_as_eq; [apply (open_new _ _ _ b j); try done|].
      * intros c k Hc' Hk Hkn. destruct (decide (c = a)) as [->|].
        -- apply (Hmiss2 a (set_cnts (i_open_cnts i + 1) i)); [done | cbn; by rewrite lookup_insert_eq | cbn; congruence].
        -- apply (Hmiss2 c k); [done | cbn; by rewrite lookup_insert_ne by congruence | done].
      * same_fs. same_inodes a b. rewrite Hi. symmetry. apply set_cnts_back.
  - assert (a ∉ open_inodes (cur_part f)) as Hna by (intros Hx; destruct (mem_open _ M a Hx) as (j & Hj & _); congruence).
    destruct Ho2 as [j Hb Hj Hjn|j Hmiss2 Hd2 Hjn Nb Hb]; cbn in Hb.
    + cbn in Hj. destruct (decide (b = a)) as [->|Hne].
      * rewrite lookup_insert_eq in Hj. injection Hj as <-. cbn in Hjn.
        eexists _, true. split; [rewrite (inode_close_again _ a (set_cnts 2 i)); [reflexivity | cbn; by rewrite lookup_insert_eq | done]|].
        split; [|split; [by apply roomy_less | by right]].
        assert (no = p) as -> by congruence.
        eapply open_as_eq; [by apply (open_new _ _ _ a i)|].
        same_fs. by rewrite !insert_insert_eq.
      * rewrite lookup_insert_ne in Hj by congruence. apply elem_of_cons in Hb as [|Hb]; [done|].
        eexists _, false. split; [rewrite (inode_close_once _ a (set_cnts 1 i)); [reflexivity | cbn; by rewrite lookup_insert_ne, lookup_insert_eq by congruence | done | by left]|].
        split; [|split; [by apply R, Hf|]].
        -- eapply open_as_eq; [by apply (open_again _ _ _ b j)|].
           same_fs; [cbn; rewrite remove_elem_head by done; by destruct f as [? [] ? ? ? ?] | same_inodes a b].
        -- left. split; [done|]. split; [done|]. intros k c. cbn. unfold inode_block. rewrite free_gone by (by apply Hf). tauto.
    + assert (b <> a) as Hne by (intros ->; cbn in Hb; by rewrite lookup_insert_eq in Hb). cbn in Hb. rewrite lookup_insert_ne in Hb by congruence.
      assert (b ∉ open_inodes (cur_part f)) as Hnb by (intros Hx; destruct (mem_open _ M b Hx) as (k & Hk & _); congruence).
      eexists _, true. split; [rewrite (inode_close_once _ a (set_cnts 1 i)); [reflexivity | cbn; by rewrite lookup_insert_ne, lookup_insert_eq by congruence | done | by right; left]|].
      split; [|split; [by apply R, Hf|]].
      * eapply open_as_eq; [apply (open_new _ _ _ b j); try done|].
        -- intros c k Hc' Hk Hkn. apply (Hmiss2 c k); [by right | cbn; rewrite lookup_insert_ne; [done | by intros ->] | done].
        -- same_fs; [cbn; rewrite remove_elem_cons, remove_elem_head by done; by destruct f as [? [] ? ? ? ?] | same_inodes a b].
      * left. split; [done|]. split; [done|]. intros k c. cbn. unfold inode_block. rewrite free_gone by (by apply Hf). tauto.
Qed.
(** The same for directories: [y] is closed while [x], opened after it, stays open. *)
Lemma open_as_heap f h no a fresh f1 h' : open_as f h no a fresh f1 -> open_as f h' no a fresh (with_kheap h' f1).
Proof. intros [i|i]; [by apply (open_again f h' no a i) | by apply (open_new f h' no a i)]. Qed.

Lemma close_first n f p f1 y no i f2 x px : mem_ok f -> counts_below 2 f -> 0 <= no < 4096 -> inode_view f no = Ok i ->
  dir_held f p f1 y -> dir_held f1 no f2 x -> dir_self x = Some px -> roomy (2 + n) (kheap f2) ->
  exists f3, dir_close f2 y = Ok f3 /\ dir_held f no f3 x /\ roomy n (kheap f3).
Proof.
  intros M C Hno Hv Hy Hx Hpx R.
  assert (counts_below 1 f) as C1 by (intros a j Ha; specialize (C a j Ha); lia).
  pose proof (dh_shape _ _ _ _ Hy) as Sy. pose proof (dh_shape _ _ _ _ Hx) as Sx. unfold dir_shape in Sx. rewrite Hpx in Sx.
  destruct Sx as (fr2 & Ho2 & Np2 & Nf2 & L2). unfold dir_shape in Sy. unfold dir_close.
  assert (forall f3 fr, open_as f (kheap f3) no (dir_inode x) fr f3 -> ~ live (kheap f) false px -> (fr = true -> ~ live (kheap f) true (dir_inode x)) ->
    (forall k b, live (kheap f3) k b <-> live (kheap f) k b \/ (k = false /\ b = px) \/ inode_block fr (dir_inode x) k b) -> dir_held f no f3 x) as Hheld.
  { intros f3 fr Ho Np Nf L. apply (dir_held_shape f no f3 x px i); try done. unfold dir_shape. rewrite Hpx. by exists fr. }
  destruct (dir_self y) as [py|].
  - destruct Sy as (fr1 & Ho1 & Np1 & Nf1 & L1).
    destruct (open_as_swap f (kheap f1) p (dir_inode y) fr1 f1 (kheap f2) no (dir_inode x) fr2 f2 (kheap f2) (1 + n) M C Ho1 Ho2)
      as (f3 & fr3 & Ec & Ho3 & R3 & Hcase); [intros ->; apply L2; left; apply L1; by right; right | exact R |].
    replace (with_kheap (kheap f2) f2) with f2 in Ec by (by destruct f2). rewrite Ec. cbn [obind].
    assert (live (kheap f2) false py) as Lp by (apply L2; left; apply L1; by right; left).
    assert (px <> py) as Hne by (intros ->; apply Np2, L1; by right; left).
    assert (live (kheap f3) false py) as Lp3.
    { destruct Hcase as [(_ & _ & L3)|(_ & _ & _ & _ & ->)]; [|done]. apply L3. split; [done | by intros (_ & ? & _)]. }
    eexists. split; [done|]. split; [|by apply R3]. apply (Hheld _ fr3); cbn [kheap with_kheap].
    + by apply open_as_heap with (h := kheap f3).
    + intros Hb. apply Np2, L1. by left.
    + intros -> Hb. destruct Hcase as [(E & _)|(-> & _ & _ & E & _)]; [apply Nf2; [done|]; apply L1; by left | apply Nf1; [done|]; by rewrite <- E].
    + intros k b. rewrite free_gone by done. destruct Hcase as [(-> & Hba & L3)|(-> & -> & -> & E & ->)].
      * rewrite L3, L2, L1. unfold inode_block. split.
        -- tauto.
        -- intros [Hb|[[-> ->]|(E & -> & ->)]].
           ++ split; [split; [tauto|] |]; [intros (E1 & -> & ->); by apply Nf1 | intros [-> ->]; by apply Np1].
           ++ split; [split; [tauto | by intros (_ & ? & _)] | by intros [_ ?]].
           ++ split; [split; [tauto | intros (E1 & _ & E2); by apply (Hba E1)] | by intros [? _]].
      * rewrite L2, L1, E. unfold inode_block. split.
        -- tauto.
        -- intros [Hb|[[-> ->]|(_ & -> & ->)]].
           ++ split; [tauto|]. intros [-> ->]. by apply Np1.
           ++ split; [tauto | by intros [_ ?]].
           ++ split; [tauto | by intros [? _]].
  - destruct Sy as [E1 L1]. exists f2. split; [done|]. split; [|by apply (roomy_le n 2)]. apply (Hheld f2 fr2).
    + rewrite E1 in Ho2. destruct Ho2 as [j|j]; [by apply (open_again f _ no _ j) | by apply (open_new f _ no _ j)].
    + intros Hb. by apply Np2, L1.
    + intros E Hb. by apply (Nf2 E), L1.
    + intros k b. by rewrite L2, (L1 k b).
Qed.

(** [sys_opendir] of a path that leads to a directory: that directory is open, and
    nothing else. Only for [/] is it [root_dir] itself. *)
Lemma sys_opendir_ok n f root_dir dirs s m dir_e0 seen parent no : fs_ready f root_dir dirs -> path_ok s -> names_entry s ->
  zlen dir_e0 = 24 -> roomy (6 + n + 12 * S (length (components s))) (kheap f) -> search_answer f s = (seen, Directory parent no) ->
  exists f1 x, sys_opendir f root_dir dir_e0 (s ++ 0 :: m) = Ok (f1, Some x) /\ dir_held f no f1 x /\ roomy n (kheap f1)
    /\ (s = [SLASH] -> f1 = f /\ x = root_dir) /\ (s <> [SLASH] -> exists p, dir_self x = Some p).
Proof.
  intros Hr Hp Hent He R E. rewrite Nat.add_comm in R. pose proof Hr as [M G C Hsz T Hroot]. pose proof Hp as [Hs Ha Hl Hf].
  unfold sys_opendir, c_strlen. rewrite c_string_ok by done. cbn [obind]. unfold MAX_PATH_LEN in *. zdec. cbn [c_assert obind].
  destruct s as [|c t]; [done|]. injection Ha as ->. change (rd ((SLASH :: t) ++ 0 :: m) 0) with (Ok SLASH). cbn [obind].
  change (SLASH =? SLASH) with true. cbn iota.
  destruct t as [|c t].
  { exists f, root_dir. split; [done|]. assert (no = 0) as ->.
    { unfold search_answer in E. rewrite decide_True in E by (by left). by injection E. }
    split; [replace f with (with_kheap (kheap f) f) at 2 by (by destruct f); by apply dir_held_root|].
    split; [by apply (roomy_le n (12 * S (length (components [SLASH])) + 6)); rewrite <- Nat.add_assoc|]. done. }
  change (rd ((SLASH :: c :: t) ++ 0 :: m) 1) with (Ok c). cbn [obind].
  replace (c =? 0) with false by (symmetry; apply Z.eqb_neq; intros ->; apply Hs; by right; left).
  change (SLASH =? 46) with false. cbn [orb]. cbn iota.
  destruct (search_file_ok (6 + n) f root_dir dirs dir_e0 (SLASH :: c :: t) m seen _ Hr Hp He R E) as (f1 & y & Es & Hy & Ry).
  destruct (answer_facts f root_dir dirs _ seen _ Hr Hp E) as (_ & Hno & _). cbn [answer_no answer_parent answer_type] in *.
  rewrite decide_False in Es by (unfold names_entry in Hent; tauto). rewrite Es. cbn [obind file_type].
  destruct (tree_dir f dirs T no Hno) as (Hnor & i & Hv & Hin & _).
  replace (no =? -1) with false by (symmetry; apply Z.eqb_neq; lia). change (FT_DIRECTORY =? FT_REGULAR) with false.
  change (FT_DIRECTORY =? FT_DIRECTORY) with true. cbn iota. rewrite u32_small by lia.
  pose proof Hy as [[_ _ _ [lp Hpart] _ M1 C1 V1 _] _ _]. destruct (V1 no i Hv) as (i1 & Hv1 & Hs1 & _).
  destruct (dir_open_held (2 + n) f1 (kheap f1) no i1) as (f2 & x & Eo & Hx & Rx); try done;
    [rewrite Hpart; by apply geometry_open | by apply (C1 1 ltac:(lia)) | congruence|].
  replace (with_kheap (kheap f1) f1) with f1 in Eo by (by destruct f1). rewrite Eo. cbn [obind]. unfold close_parent. cbn [parent_dir].
  assert (exists px, dir_self x = Some px) as [px Hpx].
  { unfold dir_open in Eo. destruct (sys_malloc (kheap f1) false sizeof_dir) as [h0 pd]. destruct (inode_open _ no) as [[g b]|]; [|done].
    cbn [obind] in Eo. destruct (pd =? 0); [done|]. injection Eo as _ <-. by exists pd. }
  destruct (close_first n f parent f1 y no i f2 x px M C Hnor Hv Hy Hx Hpx Rx) as (f3 & Ec & Hh & R3).
  rewrite Ec. exists f3, x. split; [done|]. split; [done|]. split; [done|]. split; [done|]. intros _. by exists px.
Qed.
End lemmas.
