(* ===== verification/Lsspec.v ===== *)
(** What [ls] of Ls.v prints, against the directory as a sequence of entries. *)
From Stdlib Require Import String.
From S2P Require Import Prelude Bitmap Thread Ide Blockdev Inode File Filewrite Dir Dirwrite Dirread Words Path Search Fs Fsspec Cwd Opendir Shell Shellspec Printf Ls.
From S2P Require Cstring Stdio.
Local Open Scope Z_scope.

(** ** The texts *)

(** The decimal digits of a number below 2^31, and the two forms of a line. *)
Definition dec (n : Z) : list Z := Stdio.ascii_of 10 n.
Definition gap : list Z := [32; 32].
Definition long_text (kind no size : Z) (name : list Z) : list Z :=
  [kind] ++ gap ++ dec no ++ gap ++ dec size ++ gap ++ name ++ nl.

Lemma digits_length base : forall n v, (List.length (Stdio.digits n base v) <= n)%nat.
Proof.
  induction n as [|n IH]; intros v; [done|]. cbn [Stdio.digits]. rewrite length_app. cbn [List.length].
  destruct (v / base =? 0); [cbn; lia | specialize (IH (v / base)); lia].
Qed.

Lemma dec_length n : zlen (dec n) <= 33.
Proof. unfold dec, Stdio.ascii_of. rewrite length_map. pose proof (digits_length 10 33 n). lia. Qed.

Lemma dec_clean n : 0 <= n < 2 ^ 32 -> 0 ∉ dec n.
Proof.
  intros Hn Hz. pose proof (Stdio.ascii_of_chars 10 n ltac:(lia) Hn) as Hc. rewrite Forall_forall in Hc.
  specialize (Hc 0 Hz). unfold Cstring.is_char in Hc. lia.
Qed.

(** A numeral of [printf]. *)
Lemma convert_d n : 0 <= n < 2 ^ 31 -> convert Stdio.ch_d (AInt n) = Some (dec n, false).
Proof.
  intros Hn. cbn [convert]. change (Stdio.ch_d =? Stdio.ch_d) with true. rewrite s32_small by lia. zdec. cbn [app].
  by rewrite Z.abs_eq by lia.
Qed.

(** A piece of a format without conversions. *)
Lemma format_plain l k args : (Stdio.ch_percent ∉ l) -> format_text (l ++ k) args = out ← format_text k args; Some (l ++ out).
Proof.
  induction l as [|c l IH]; intros Hc; [cbn; by destruct (format_text k args)|]. apply not_elem_of_cons in Hc as [Hc Hcl].
  cbn [app format_text]. destruct (Z.eqb_spec c Stdio.ch_percent); [congruence|]. cbn [negb]. rewrite IH by done. by destruct (format_text k args).
Qed.

Lemma format_conv c a x l args : convert c a = Some (x, false) ->
  format_text (Stdio.ch_percent :: c :: l) (a :: args) = out ← format_text l args; Some (x ++ out).
Proof. intros E. cbn [format_text]. change (negb (Stdio.ch_percent =? Stdio.ch_percent)) with false. cbn iota. by rewrite E. Qed.

Lemma long_text_fits kind no size name : 0 < kind -> 0 <= no < 2 ^ 31 -> 0 <= size < 2 ^ 31 -> (0 ∉ name) -> zlen name < 512 ->
  zlen (long_text kind no size name) < 1024 /\ (0 ∉ long_text kind no size name).
Proof.
  intros Hk Hno Hsz Hz Hl. unfold long_text, gap, nl. split.
  - rewrite !length_app. cbn [List.length]. pose proof (dec_length no). pose proof (dec_length size). lia.
  - pose proof (dec_clean no ltac:(lia)). pose proof (dec_clean size ltac:(lia)).
    rewrite !elem_of_app, !elem_of_cons, !elem_of_nil. intuition lia.
Qed.

(** The formats [%d  %d  %s] of both lines behind the first character. *)
Lemma format_long no size name : 0 <= no < 2 ^ 31 -> 0 <= size < 2 ^ 31 ->
  format_text (gap ++ Stdio.ch_percent :: Stdio.ch_d :: gap ++ Stdio.ch_percent :: Stdio.ch_d :: gap ++ Stdio.ch_percent :: Stdio.ch_s :: nl)
    [AInt no; AInt size; AStr name] = Some (gap ++ dec no ++ gap ++ dec size ++ gap ++ name ++ nl).
Proof.
  intros Hno Hsz. assert (Stdio.ch_percent ∉ gap) by (by apply (bool_decide_unpack _)).
  rewrite format_plain, (format_conv _ _ (dec no)), format_plain, (format_conv _ _ (dec size)), format_plain by (done || by apply convert_d). reflexivity.
Qed.

Lemma print_long kind no size name : 0 < kind < 128 -> 0 <= no < 2 ^ 31 -> 0 <= size < 2 ^ 31 -> (0 ∉ name) -> zlen name < 512 ->
  printf (txt "%c  %d  %d  %s" ++ nl) [AChar kind; AInt no; AInt size; AStr name] = Ok (long_text kind no size name).
Proof.
  intros Hk Hno Hsz Hz Hl. destruct (long_text_fits kind no size name ltac:(lia) Hno Hsz Hz Hl). apply printf_ok; [|done|done].
  etransitivity; [apply (format_conv Stdio.ch_c (AChar kind) [kind]); cbn [convert]; by rewrite u8_small by lia|].
  etransitivity; [|reflexivity]. cbn [app]. match goal with |- context [format_text ?l ?k] => change (format_text l k) with (format_text (gap ++ Stdio.ch_percent :: Stdio.ch_d :: gap ++ Stdio.ch_percent :: Stdio.ch_d :: gap ++ Stdio.ch_percent :: Stdio.ch_s :: nl) k) end.
  by rewrite format_long.
Qed.

(** The line for a file. *)
Lemma print_ls_file no size shown : 0 <= no < 2 ^ 31 -> 0 <= size < 2 ^ 31 -> (0 ∉ shown) -> zlen shown < 512 ->
  printf (txt "-  %d  %d  %s" ++ nl) [AInt no; AInt size; AStr shown] = Ok (long_text 45 no size shown).
Proof.
  intros Hno Hsz Hz Hl. destruct (long_text_fits 45 no size shown ltac:(lia) Hno Hsz Hz Hl). apply printf_ok; [|done|done].
  change (txt "-  %d  %d  %s" ++ nl) with ([45] ++ (gap ++ Stdio.ch_percent :: Stdio.ch_d :: gap ++ Stdio.ch_percent :: Stdio.ch_d :: gap ++ Stdio.ch_percent :: Stdio.ch_s :: nl)).
  rewrite format_plain by (by apply (bool_decide_unpack _)). by rewrite format_long.
Qed.

Lemma print_total size : 0 <= size < 2 ^ 31 -> printf (txt "total: %d" ++ nl) [AInt size] = Ok (txt "total: " ++ dec size ++ nl).
Proof.
  intros Hsz. apply printf_ok.
  - change (txt "total: %d" ++ nl) with (txt "total: " ++ Stdio.ch_percent :: Stdio.ch_d :: nl ++ []).
    rewrite format_plain by (by apply (bool_decide_unpack _)). rewrite (format_conv _ _ (dec size)) by (by apply convert_d).
    rewrite format_plain by (by apply (bool_decide_unpack _)). reflexivity.
  - rewrite !length_app. change (List.length (txt "total: ")) with 7%nat. change (List.length nl) with 1%nat. pose proof (dec_length size). lia.
  - pose proof (dec_clean size ltac:(lia)). rewrite !elem_of_app. intros [Hz|[Hz|Hz]]; [|done|]; revert Hz; by apply (bool_decide_unpack _).
Qed.

(** A format of one [%s] between two texts. *)
Lemma print_name pre name post : (0 ∉ pre) -> (Stdio.ch_percent ∉ pre) -> (0 ∉ name) -> (0 ∉ post) -> (Stdio.ch_percent ∉ post) ->
  zlen pre + zlen name + zlen post < 1024 ->
  printf (pre ++ [Stdio.ch_percent; Stdio.ch_s] ++ post) [AStr name] = Ok (pre ++ name ++ post).
Proof.
  intros Hp0 Hpp Hn Hq0 Hqp Hl.
  apply printf_ok.
  - rewrite format_plain by done. cbn [format_text app]. change (negb (Stdio.ch_percent =? Stdio.ch_percent)) with false. cbn iota. cbn [convert].
    change (Stdio.ch_s =? Stdio.ch_s) with true. cbn. rewrite <- (app_nil_r post) at 1. rewrite format_plain by done. cbn. by rewrite app_nil_r.
  - rewrite !length_app. lia.
  - rewrite !elem_of_app. tauto.
Qed.

Section lemmas.
Context {D H : Type} `{BlockDeviceLaws D} `{KernelHeapLaws H}.
Abbreviation fs := (fstate D H).
Implicit Types (f : fs) (i : inode).

(** ** A directory held open changes nothing for the paths *)

Lemma same_slots (d : D) i j : i_sectors j = i_sectors i ->
  (forall k, file_block d j k = file_block d i k) /\ dir_slots d j = dir_slots d i.
Proof.
  intros Hs. assert (forall k, file_block d j k = file_block d i k) as Hb by (intros k; unfold file_block, indirect_table; by rewrite Hs).
  split; [done|]. unfold dir_slots, dir_lbas. by rewrite (map_ext _ _ Hb).
Qed.

Lemma same_dir_ok p l (d : D) i j : same_inode i j -> 0 <= i_open_cnts j < 2 ^ 32 -> dir_ok p d i -> dir_ok (set_open l p) d j.
Proof.
  intros (E1 & E2 & E3 & E4) Hc [[W1 W2] T B I S N Z]. destruct (same_slots d i j (eq_sym E3)) as [Eb Es]. split.
  - split; [by rewrite <- E3|]. unfold inode_words in *. rewrite <- E1, <- E2, <- E3, <- E4. cbn [app] in *.
    repeat (apply Forall_cons in W2 as [? W2]). repeat (constructor; [done|]). done.
  - by rewrite <- E3.
  - intros k. rewrite Eb. apply B.
  - intros k k'. rewrite !Eb. apply I.
  - by rewrite Es.
  - unfold dir_entries. by rewrite Es.
  - unfold dir_entries. by rewrite <- E2, Es.
Qed.

Lemma held_lookup f no f1 a m w : held_view f no f1 a -> lookup_in f1 m w = lookup_in f m w.
Proof.
  intros Hh. destruct (inode_view_total f m) as [i Hi]. destruct (hv_view _ _ _ _ Hh m i Hi) as (j & Hj & _ & _ & Es & _).
  unfold lookup_in. rewrite Hi, Hj, (hv_medium _ _ _ _ Hh). by apply same_sectors.
Qed.

Lemma held_resolve f no f1 a names : held_view f no f1 a -> forall p n seen, resolve f1 p n seen names = resolve f p n seen names.
Proof.
  intros Hh. induction names as [|w names IH]; intros p n seen; [done|]. cbn [resolve]. rewrite (held_lookup f no f1 a n w Hh).
  destruct (lookup_in f n w) as [e|]; [|done]. by rewrite IH.
Qed.

Lemma held_ready f no f1 a root_dir dirs : fs_ready f root_dir dirs -> counts_below 3 f -> held_view f no f1 a -> fs_ready f1 root_dir dirs.
Proof.
  intros [M G C Hsz [T0 T] [R1 R2 (ri & R3 & R4)]] C3 Hh. pose proof Hh as [_ _ Em (l & Ep) _ M1 C1 V1 O1]. split.
  - done.
  - rewrite Ep. by apply geometry_open.
  - by apply (C1 2 ltac:(lia)).
  - by rewrite Ep.
  - split; [done|]. intros m Hm. destruct (T m Hm) as (Hr & i & Hi & Hin & Hread & He). split; [done|].
    destruct (V1 m i Hi) as (j & Hj & Hs). pose proof Hs as (Hs1 & _ & Hs3 & _). rewrite Em.
    destruct (same_sectors (medium f) i j (eq_sym Hs3)) as [Hl Hr1]. exists j. split; [done|]. split; [congruence|]. split; [auto|].
    intros w e. rewrite Hl. apply He.
  - split; [done|destruct (get_inode f (dir_inode root_dir)) eqn:E; [|done]|].
    + unfold get_inode in E. destruct (inodes f !! dir_inode root_dir) as [r|] eqn:Er; [|done]. by apply (O1 _ r R2).
    + unfold get_inode in R3. destruct (inodes f !! dir_inode root_dir) as [r|] eqn:Er; [|done]. injection R3 as ->.
      destruct (O1 _ ri R2 Er) as (_ & j & Hj & Hs & _). exists j. unfold get_inode. rewrite Hj. split; [done | congruence].
Qed.

(** ** The short form *)

(** The directory that a state has open, as it is read: [x] apart from its position
    and buffer. *)
Record reading (g : fs) (i : inode) (x y : dir) : Prop := {
  rd_geometry : geometry (cur_part g);
  rd_dir : dir_ok (cur_part g) (medium g) i;
  rd_size : dir_entry_size (sb (cur_part g)) = 24;
  rd_inode : get_inode g (dir_inode x) = Ok i;
  rd_same : dir_self y = dir_self x /\ dir_inode y = dir_inode x }.

Lemma name_facts e : name_ends e -> (0 ∉ entry_name e) /\ zlen (entry_name e) < 16.
Proof.
  unfold name_ends, entry_name. assert (forall l, 0 ∈ l -> (0 ∉ chars l) /\ (List.length (chars l) < List.length l)%nat) as Hc.
  { induction l as [|c l IH]; intros Hz; [by apply elem_of_nil in Hz|]. cbn [chars]. destruct (Z.eqb_spec c 0) as [->|Hc].
    - cbn. split; [apply not_elem_of_nil | lia].
    - apply elem_of_cons in Hz as [|Hz]; [done|]. destruct (IH Hz). cbn [List.length]. split; [|lia]. by apply not_elem_of_cons. }
  intros Hz. destruct (Hc _ Hz). split; [done|]. rewrite length_take in *. lia.
Qed.

(** One call of [readdir], at entry number [k]. *)
Lemma readdir_turn g i x y k : reading g i x y -> dir_pos y = 24 * k -> 0 <= k <= zlen (dir_entries (medium g) i) ->
  match dir_entries (medium g) i !! Z.to_nat k with
  | Some e => exists y' idx, sys_readdir g (Some y) = Ok (y', Some idx) /\ reading g i x y' /\ dir_pos y' = 24 * (k + 1)
      /\ c_string (de_name (dir_buf y') idx) = Ok (entry_name e) /\ de_f_type (dir_buf y') idx = Ok (entry_type e)
      /\ de_i_no (dir_buf y') idx = Ok (entry_no e) /\ name_ends e
  | None => sys_readdir g (Some y) = Ok (y, None)
  end.
Proof.
  intros [G Dok Hsz Hi [Hs1 Hs2]] Hp Hk. unfold sys_readdir. rewrite <- Hs2 in Hi.
  pose proof (dir_read_ok g y i k Hi G Dok Hsz Hp Hk) as Hr.
  destruct (dir_entries (medium g) i !! Z.to_nat k) as [e|] eqn:Ee; [|done]. destruct Hr as (buf & idx & E & Hidx & Hl & Hslot).
  eexists _, idx. split; [exact E|]. split; [split; try done; by rewrite <- Hs2|]. split; [done|]. cbn [dir_buf set_dir_pos set_dir_buf].
  assert (name_ends e) as Hne.
  { apply list_elem_of_lookup_2 in Ee. unfold dir_entries, live in Ee. apply list_elem_of_filter in Ee as [_ Ee].
    pose proof (dir_slots_ok _ _ _ Dok) as Hall. rewrite Forall_forall in Hall. by apply slot_ok_ends, Hall. }
  split; [|rewrite de_f_type_ok, de_i_no_ok by lia; by rewrite Hslot].
  unfold name_ends, entry_name in *. rewrite <- Hslot, name_of_slot in *. by apply c_string_chars.
Qed.

(** The loop of the short form. *)
Definition short_text (e : list Z) : list Z := entry_name e ++ [32].

Lemma short_loop g i x y : reading g i x y -> dir_pos y = 0 ->
  exists y', loop (ls_short_body g) 2942 (y, []) = Ok (y', map short_text (dir_entries (medium g) i)) /\ reading g i x y'.
Proof.
  intros Hrd Hp. set (es := dir_entries (medium g) i). pose proof (dir_entries_count (medium g) i) as Hcount. fold es in Hcount.
  loop_inv (fun s : dir * list (list Z) => let '(y, out) := s in exists k, 0 <= k <= zlen es /\ reading g i x y /\ dir_pos y = 24 * k
              /\ out = map short_text (take (Z.to_nat k) es))
           (fun s : dir * list (list Z) => Z.to_nat (zlen es - zlen (snd s))).
  - intros [z out] (k & Hk & Hz & Hzp & ->). unfold ls_short_body. pose proof (readdir_turn g i x z k Hz Hzp Hk) as Hr. fold es in Hr.
    destruct (es !! Z.to_nat k) as [e|] eqn:Ee.
    + destruct Hr as (y' & idx & -> & Hy' & Hyp & Hnm & _ & _ & Hne). cbn [obind]. rewrite Hnm. cbn [obind].
      destruct (name_facts e Hne) as [Hz0 Hl16]. change (txt "%s ") with ([] ++ [Stdio.ch_percent; Stdio.ch_s] ++ [32]).
      rewrite print_name; [|apply not_elem_of_nil | apply not_elem_of_nil | done | by apply (bool_decide_unpack _) | by apply (bool_decide_unpack _) | cbn; lia].
      cbn [obind]. pose proof (lookup_lt_Some _ _ _ Ee). split.
      * exists (k + 1). split; [lia|]. split; [done|]. split; [done|]. replace (Z.to_nat (k + 1)) with (S (Z.to_nat k)) by lia.
        by rewrite (take_S_r _ _ e), map_app.
      * cbn [snd]. rewrite length_app, length_map, length_take. cbn [List.length]. lia.
    + rewrite Hr. cbn [obind]. apply lookup_ge_None in Ee. eexists. split; [|done]. by rewrite take_ge.
  - exists 0. split; [lia|]. split; [done|]. split; [lia|]. by rewrite take_0.
  - cbn [snd List.length]. lia.
Qed.

(** ** The long form *)

(** A path that ends in no slash gets one. *)
Lemma show_last st : Forall plain st -> st <> [] -> exists s c, join st = s ++ [c] /\ c <> SLASH.
Proof.
  intros Hst Hne. destruct (exists_last Hne) as (st' & w & ->). apply Forall_app in Hst as [_ Hw]. apply Forall_singleton in Hw as ((Hn & Hs & _) & _).
  destruct (exists_last Hn) as (w' & c & ->). exists (join st' ++ SLASH :: w'), c. rewrite join_snoc, <- app_assoc. split; [done|].
  intros ->. apply Hs, elem_of_app. right. by left.
Qed.

Lemma ls_prefix_ok st m : Forall plain st -> zlen (show_path st) + 1 < 512 ->
  exists tl, ls_prefix (show_path st ++ 0 :: m) = Ok ((join st ++ [SLASH]) ++ 0 :: tl, zlen (join st ++ [SLASH]))
    /\ zlen ((join st ++ [SLASH]) ++ 0 :: tl) = 512.
Proof.
  intros Hst Hl. unfold ls_prefix, c_strlen. rewrite c_string_ok by (by apply show_path_clean). cbn [obind].
  rewrite Nat2Z.id, take_app_length. unfold zeros. rewrite splice_start by (rewrite length_replicate; unfold MAX_PATH_LEN; lia). cbn [obind].
  rewrite drop_replicate. change (Z.to_nat MAX_PATH_LEN) with 512%nat. destruct st as [|w st].
  - exists (replicate 510 0). split; reflexivity.
  - destruct (show_last (w :: st) Hst ltac:(done)) as (s & c & E & Hc). cbn [show_path] in *. rewrite E in *. rewrite !length_app in *. cbn [List.length] in *.
    replace (512 - (List.length s + 1))%nat with (S (S (510 - (List.length s + 1)))) by lia. cbn [replicate]. exists (replicate (510 - (List.length s + 1)) 0).
    rewrite (rd_znth _ _ c).
    2: { unfold znth. zdec. replace (Z.to_nat _) with (List.length s) by lia. rewrite <- app_assoc. by apply list_lookup_middle. }
    cbn [obind]. destruct (Z.eqb_spec c SLASH); [done|]. cbn [negb].
    rewrite wr_in by (rewrite !length_app; cbn [List.length]; lia). cbn [obind].
    rewrite insert_app_r_alt by (rewrite length_app; cbn [List.length]; lia). rewrite length_app. cbn [List.length].
    replace (Z.to_nat _ - _)%nat with 0%nat by lia. cbn [insert list_insert]. split.
    + rewrite <- !app_assoc. cbn [app]. do 2 f_equal. lia.
    + rewrite !length_app. cbn [List.length]. rewrite length_replicate. lia.
Qed.

(** A walk that ends in a directory has seen every component. *)
Lemma resolve_walked f names : forall a b seen seen' p q, resolve f a b seen names = (seen', Directory p q) -> seen' = seen ++ names.
Proof.
  induction names as [|w names IH]; intros a b seen seen' p q E; cbn [resolve] in E; [injection E as <- _ _; by rewrite app_nil_r|].
  destruct (lookup_in f b w) as [e|]; [|done]. destruct (entry_type e =? FT_DIRECTORY); [|done]. rewrite (IH _ _ _ _ _ _ E). by rewrite <- app_assoc.
Qed.

(** One more component, when it is not a directory. *)
Lemma resolve_snoc_file f w e names : forall a b seen seen' p q, resolve f a b seen names = (seen', Directory p q) ->
  lookup_in f q w = Some e -> entry_type e <> FT_DIRECTORY ->
  resolve f a b seen (names ++ [w]) = (seen' ++ [w], Regular q (entry_no e)).
Proof.
  induction names as [|v names IH]; intros a b seen seen' p q E Hl Ht; cbn [app resolve] in *.
  - injection E as <- <- <-. apply Z.eqb_neq in Ht. by rewrite Hl, Ht.
  - destruct (lookup_in f b v) as [e'|]; [|done]. destruct (entry_type e' =? FT_DIRECTORY); [|done]. by eapply IH.
Qed.

(** The path of an entry leads to the entry's inode. *)
Lemma entry_answer f dirs st parent no w e : tree_ok f dirs -> dots_right f dirs -> Forall plain st -> is_word w ->
  resolve f 0 0 [] st = (st, Directory parent no) -> no ∈ dirs -> lookup_in f no w = Some e ->
  exists seen ans, search_answer f (join st ++ SLASH :: w) = (seen, ans) /\ answer_no ans = entry_no e.
Proof.
  intros T Hd Hst Hw E Hno Hl. unfold search_answer. destruct (decide (root_path (join st ++ SLASH :: w))) as [Hr|Hr].
  - exists [], (Directory 0 0). split; [done|]. cbn [answer_no].
    assert (st = [] /\ (w = DOT \/ w = DOTDOT)) as [-> Hdots].
    { destruct st as [|v st].
      - split; [done|]. change (join [] ++ SLASH :: w) with (SLASH :: w) in Hr. destruct Hw as (Hn & _). unfold root_path in Hr. rewrite !elem_of_cons, elem_of_nil in Hr. destruct Hr as [Hr|[Hr|[Hr|[]]]]; injection Hr as ->; [done|by left|by right].
      - exfalso. apply Forall_cons in Hst as [((Hn & Hs & _) & Hd1 & _) _]. destruct v as [|c v]; [done|]. rewrite join_cons in Hr. cbn [app] in Hr.
        assert (SLASH ∈ ((v ++ join st) ++ SLASH :: w)) as Hin by (apply elem_of_app; right; by left).
        unfold root_path in Hr. rewrite !elem_of_cons, elem_of_nil in Hr. destruct Hr as [Hr|[Hr|[Hr|[]]]]; [discriminate| |]; injection Hr as Hc Ht; rewrite Ht in Hin;
          repeat (apply elem_of_cons in Hin as [Hin|Hin]; [done|]); by apply elem_of_nil in Hin. }
    cbn in E. injection E as <- <-. destruct Hdots as [->| ->].
    + destruct (dr_dot _ _ Hd 0 Hno) as (e' & Hl' & _ & He'). congruence.
    + destruct (dr_root _ _ Hd) as (e' & Hl' & _ & He'). congruence.
  - rewrite components_under by (by apply plain_words). assert (components w = [w]) as ->.
    { destruct Hw as (Hn & Hs & _). by apply words_on_one. }
    destruct (Z.eqb_spec (entry_type e) FT_DIRECTORY) as [Et|Et].
    + rewrite (resolve_snoc f w e st 0 0 [] st parent no E Hl Et). by eexists _, _.
    + eexists _, (Regular no (entry_no e)). split; [|done]. by rewrite (resolve_snoc_file f w e st 0 0 [] st parent no E Hl Et).
Qed.

(** An entry that the long form can describe: a name without slashes, an inode of a size
    below 2^31. *)
Record listed f (e : list Z) : Prop := {
  li_word : is_word (entry_name e);
  li_inode : exists j, inode_view f (entry_no e) = Ok j /\ i_no j = entry_no e /\ 0 <= i_size j < 2 ^ 31 }.

Definition long_line f (e : list Z) : list Z :=
  match inode_view f (entry_no e) with
  | Ok j => long_text (if entry_type e =? FT_REGULAR then 45 else 100) (entry_no e) (i_size j) (entry_name e)
  | Err _ => []
  end.

Lemma held_answer f no f1 a h s : held_view f no f1 a -> search_answer (with_kheap h f1) s = search_answer f s.
Proof. intros Hh. unfold search_answer. rewrite resolve_heap. by rewrite (held_resolve f no f1 a). Qed.

Lemma reading_heap g h i x y : reading g i x y -> reading (with_kheap h g) i x y.
Proof. by intros []. Qed.

Lemma entry_no_range f dirs no w e : tree_ok f dirs -> no ∈ dirs -> w <> [] -> lookup_in f no w = Some e -> 0 <= entry_no e < 4096.
Proof.
  intros T Hno Hw Hl. destruct (lookup_entry f dirs no w e T Hno Hw Hl) as [[_ Hin]|[_ ?]]; [|done]. by destruct (tree_dir f dirs T _ Hin).
Qed.

(** What one entry costs of the heap's room. *)
Definition stat_cost (st : list (list Z)) : nat := 6 + 12 * S (S (List.length st)).

(** One [stat] of an entry, while the directory is held open. *)
Lemma entry_stat n f g root_dir dirs st parent no a dir_e0 h e m : fs_ready f root_dir dirs -> dots_right f dirs -> counts_below 3 f ->
  held_view f no g a -> Forall plain st -> Forall fits st -> zlen (join st) + 17 <= MAX_PATH_LEN -> zlen dir_e0 = 24 ->
  resolve f 0 0 [] st = (st, Directory parent no) -> no ∈ dirs -> lookup_in f no (entry_name e) = Some e -> name_ends e -> listed f e ->
  same_live (kheap g) h -> roomy (stat_cost st + n) h ->
  exists h' sz ty, sys_stat (with_kheap h g) root_dir dir_e0 (((join st ++ [SLASH]) ++ entry_name e) ++ 0 :: m) (mk_stat 0 0 0)
      = Ok (with_kheap h' g, mk_stat (entry_no e) sz ty, 0)
    /\ same_live (kheap g) h' /\ roomy n h' /\ 0 <= sz < 2 ^ 31
    /\ forall kind, kind = (if entry_type e =? FT_REGULAR then 45 else 100) -> long_line f e = long_text kind (entry_no e) sz (entry_name e).
Proof.
  intros Hr Hd C3 Hh Hst Hf Hlen He E Hno Hl Hne [Hw (j & Hj & Hjn & Hjs)] Hlive R. pose proof Hr as [M G C Hsz T _].
  destruct (entry_answer f dirs st parent no (entry_name e) e T Hd Hst Hw E Hno Hl) as (seen & ans & Ea & Han).
  destruct (name_facts e Hne) as [Hz Hn16]. pose proof (plain_words _ Hst) as Hws.
  assert ((join st ++ [SLASH]) ++ entry_name e = join st ++ SLASH :: entry_name e) as -> by (by rewrite <- app_assoc).
  assert (components (join st ++ SLASH :: entry_name e) = st ++ [entry_name e]) as Hcomp.
  { rewrite components_under by done. f_equal. destruct Hw as (Hwn & Hws' & _). by apply words_on_one. }
  assert (path_ok (join st ++ SLASH :: entry_name e)) as Hpath.
  { split.
    - rewrite elem_of_app, elem_of_cons. intros [Hb|[Hb|Hb]]; [by apply (join_clean st) in Hb | done | done].
    - destruct st as [|w st]; [done|]. by rewrite join_cons.
    - rewrite length_app. cbn [List.length]. lia.
    - rewrite Hcomp. apply Forall_app; split; [done|]. apply Forall_singleton. unfold fits, MAX_FILE_NAME_LEN. lia. }
  assert (fs_ready (with_kheap h g) root_dir dirs) as Hr1 by (apply fs_ready_heap; [by apply (held_ready f no g a)|done]).
  destruct (hv_view _ _ _ _ Hh _ _ Hj) as (j' & Hj' & Es1 & Es2 & _).
  destruct (sys_stat_ok n (with_kheap h g) root_dir dirs (join st ++ SLASH :: entry_name e) m dir_e0 seen ans (mk_stat 0 0 0) j')
    as (h' & Hl' & R' & Es); try done.
  - left. rewrite Hcomp. by destruct st.
  - rewrite Hcomp, length_app. cbn [List.length kheap with_kheap]. replace (6 + n + _)%nat with (stat_cost st + n)%nat by (unfold stat_cost; lia). done.
  - by rewrite (held_answer f no g a).
  - intros _. rewrite Han. split; [done | congruence].
  - pose proof (entry_no_range f dirs no _ e T Hno ltac:(apply Hw) Hl).
    rewrite Han in Es. destruct (Z.ltb_spec (entry_no e) 0); [lia|]. exists h', (i_size j'), (answer_type ans). split; [exact Es|].
    split; [intros k b; by rewrite (Hlive k b), <- (Hl' k b)|]. split; [done|]. split; [lia|]. intros kind ->. unfold long_line. rewrite Hj. by rewrite Es2.
Qed.

(** The loop of the long form. *)
Lemma long_loop n f g root_dir dirs st parent no dir_e0 i x y tl t0 : fs_ready f root_dir dirs -> dots_right f dirs -> counts_below 3 f ->
  held_view f no g (dir_inode x) -> Forall plain st -> Forall fits st -> zlen (join st) + 17 <= MAX_PATH_LEN -> zlen dir_e0 = 24 ->
  resolve f 0 0 [] st = (st, Directory parent no) -> no ∈ dirs -> reading g i x y -> dir_pos y = 0 ->
  (forall e, e ∈ dir_entries (medium g) i -> lookup_in f no (entry_name e) = Some e /\ listed f e) ->
  zlen ((join st ++ [SLASH]) ++ 0 :: tl) = 512 -> roomy (n + stat_cost st * List.length (dir_entries (medium g) i)) (kheap g) ->
  exists h y', loop (ls_long_body root_dir dir_e0 (zlen (join st ++ [SLASH]))) 2942 (g, y, (join st ++ [SLASH]) ++ 0 :: tl, [t0])
      = Ok (with_kheap h g, y', t0 :: map (long_line f) (dir_entries (medium g) i), true)
    /\ reading (with_kheap h g) i x y' /\ same_live (kheap g) h /\ roomy n h.
Proof.
  intros Hr Hd C3 Hh Hst Hf Hlen He E Hno Hrd Hp Hall Hsub R. set (es := dir_entries (medium g) i) in *.
  pose proof (dir_entries_count (medium g) i) as Hcount. fold es in Hcount. set (P := join st ++ [SLASH]) in *.
  assert (zlen P = zlen (join st) + 1) as HP by (unfold P; rewrite length_app; cbn; lia).
  assert (0 ∉ P) as HPz by (unfold P; rewrite elem_of_app, list_elem_of_singleton; intros [Hz|]; [by apply join_clean in Hz; [|apply plain_words] | done]).
  loop_inv (fun s : fs * dir * list Z * list (list Z) => let '(f', y, sub, out) := s in exists k h c t, f' = with_kheap h g /\ 0 <= k <= zlen es
              /\ reading g i x y /\ dir_pos y = 24 * k /\ sub = P ++ c :: t /\ zlen sub = 512 /\ out = t0 :: map (long_line f) (take (Z.to_nat k) es)
              /\ same_live (kheap g) h /\ roomy (n + stat_cost st * (List.length es - Z.to_nat k)) h)
           (fun s : fs * dir * list Z * list (list Z) => Z.to_nat (1 + zlen es - zlen (snd s))).
  - intros [[[f' z] sub] out] (k & h & c & t & -> & Hk & Hz & Hzp & -> & Hs512 & -> & Hlive & Rk). unfold ls_long_body.
    pose proof (readdir_turn (with_kheap h g) i x z k (reading_heap g h i x z Hz) Hzp Hk) as Hturn. change (dir_entries (medium (with_kheap h g)) i) with es in Hturn.
    destruct (es !! Z.to_nat k) as [e|] eqn:Ee.
    + destruct Hturn as (y' & idx & -> & Hy' & Hyp & Hnm & Hty & Hin & Hne). cbn [obind]. rewrite Hty, Hnm. cbn [obind].
      destruct (Hall e (list_elem_of_lookup_2 _ _ _ Ee)) as (Hl & Hli). pose proof (lookup_lt_Some _ _ _ Ee).
      rewrite wr_in by (rewrite length_app; cbn [List.length]; lia). cbn [obind]. rewrite Nat2Z.id, insert_app_r_alt, Nat.sub_diag by lia. cbn [insert list_insert].
      destruct (name_facts e Hne) as [Hz0 Hn16]. rewrite length_app in Hs512. cbn [List.length] in Hs512. unfold MAX_PATH_LEN in Hlen.
      rewrite c_strcat_mem by (done || lia). cbn [obind].
      destruct (entry_stat (n + stat_cost st * (List.length es - Z.to_nat (k + 1))) f g root_dir dirs st parent no (dir_inode x) dir_e0 h e
        (drop (List.length (entry_name e)) t) Hr Hd C3 Hh Hst Hf Hlen He E Hno Hl Hne Hli Hlive) as (h' & sz & ty & Est & Hl' & R' & Hszr & Hline).
      { replace (stat_cost st + _)%nat with (n + stat_cost st * (List.length es - Z.to_nat k))%nat; [done|].
        replace (List.length es - Z.to_nat k)%nat with (S (List.length es - Z.to_nat (k + 1))) by lia. lia. }
      fold P in Est. rewrite Est. cbn [obind]. change (0 =? -1) with false. cbn iota. rewrite Hin. cbn [obind st_size].
      destruct Hli as [Hwd _].
      pose proof (entry_no_range f dirs no _ e (ready_tree _ _ _ Hr) Hno ltac:(apply Hwd) Hl).
      rewrite print_long by (first [lia | done | destruct (entry_type e =? FT_REGULAR); lia]). cbn [obind]. split.
      * exists (k + 1), h', (nth 0 (entry_name e ++ [0]) 0), (drop 1 (entry_name e ++ 0 :: drop (List.length (entry_name e)) t)).
        split; [done|]. split; [lia|]. split; [by destruct Hy'|]. split; [done|]. split; [|split; [|split; [|done]]].
        -- rewrite <- app_assoc. f_equal. by destruct (entry_name e).
        -- rewrite !length_app. cbn [List.length]. rewrite length_drop. lia.
        -- replace (Z.to_nat (k + 1)) with (S (Z.to_nat k)) by lia. rewrite (take_S_r _ _ e) by done. rewrite map_app. cbn [map app]. by rewrite <- Hline.
      * cbn [snd]. rewrite length_app. cbn [List.length]. rewrite length_map, length_take. lia.
    + rewrite Hturn. cbn [obind]. apply lookup_ge_None in Ee. exists h, z. rewrite take_ge by done. split; [done|].
      split; [by apply reading_heap|]. split; [done|]. by apply (roomy_le n (stat_cost st * (List.length es - Z.to_nat k))); rewrite Nat.add_comm.
  - exists 0, (kheap g), 0, tl. split; [by destruct g|]. split; [lia|]. split; [done|]. split; [lia|]. split; [done|]. split; [done|].
    split; [by rewrite take_0|]. split; [done|]. by rewrite Nat.sub_0_r.
  - cbn [snd List.length]. lia.
Qed.

(** ** A directory *)

(** What [ls] prints for the directory of inode [i] on the disk. *)
Definition listing f (long : bool) i : list (list Z) :=
  if long then (txt "total: " ++ dec (i_size i) ++ nl) :: map (long_line f) (dir_entries (medium f) i)
  else map short_text (dir_entries (medium f) i) ++ [nl].

(** [root_dir] afterwards: [opendir] hands it out for [/], and listing moves its
    position. *)
Definition like_root (root_dir root' : dir) : Prop := dir_self root' = dir_self root_dir /\ dir_inode root' = dir_inode root_dir.

Lemma dir_close_same f x y : dir_self y = dir_self x -> dir_inode y = dir_inode x -> dir_close f y = dir_close f x.
Proof. intros E1 E2. unfold dir_close. by rewrite E1, E2. Qed.

(** What the listing of a directory needs besides its path. *)
Record listable f (st : list (list Z)) (long : bool) no i : Prop := {
  la_dir : dir_ok (cur_part f) (medium f) i;
  la_inode : inode_view f no = Ok i;
  la_long : long = true -> zlen (join st) + 17 <= MAX_PATH_LEN /\ Forall (listed f) (dir_entries (medium f) i) }.

(** The room it takes. *)
Definition ls_cost (st : list (list Z)) (long : bool) (entries : nat) : nat :=
  6 + 12 * S (List.length st) + (if long then stat_cost st * entries else 0) + 2.

(** What comes after the listing. *)
Lemma ls_end f g root_dir no x j : dir_self root_dir = None -> dir_held f no g x -> (dir_self x = None -> x = root_dir) ->
  forall h y, reading (with_kheap h g) j x y -> same_live (kheap g) h -> roomy 2 h -> forall out : list (list Z),
  exists h' root', same_live (kheap f) h' /\ like_root root_dir root'
    /\ (let root' := match dir_self y with None => y | Some _ => root_dir end in
        let! ' (f', _) := sys_closedir (with_kheap h g) (Some y) in Ok (f', root', out)) = Ok (with_kheap h' f, root', out).
Proof.
  intros Hroot Hx Hxr h y Hy Hlive Rh out. destruct (rd_same _ _ _ _ Hy) as [Hs1 Hs2]. destruct (dh_close _ _ _ _ Hx 0%nat h Hlive Rh) as (h' & Ec & Hl' & _).
  exists h', (match dir_self y with None => y | Some _ => root_dir end). split; [done|]. split.
  - rewrite Hs1. destruct (dir_self x) as [p|] eqn:Ex; [done|]. rewrite (Hxr eq_refl) in *. split; [by rewrite Hs1, Ex | done].
  - cbn zeta. unfold sys_closedir. rewrite (dir_close_same _ x y Hs1 Hs2), Ec. done.
Qed.

Lemma ls_directory_ok f root_dir dirs st parent no dir_e0 m long i stt : fs_ready f root_dir dirs -> dots_right f dirs -> counts_below 3 f ->
  Forall plain st -> Forall fits st -> zlen (show_path st) + 1 < MAX_PATH_LEN -> zlen dir_e0 = 24 ->
  resolve f 0 0 [] st = (st, Directory parent no) -> listable f st long no i -> st_size stt = i_size i ->
  roomy (ls_cost st long (List.length (dir_entries (medium f) i))) (kheap f) ->
  exists h root', same_live (kheap f) h /\ like_root root_dir root'
    /\ ls_directory f root_dir dir_e0 (show_path st ++ 0 :: m) long stt = Ok (with_kheap h f, root', listing f long i).
Proof.
  intros Hr Hd C3 Hst Hf Hlen He E [Dok Hv Hlong] Hst_size R. set (es := dir_entries (medium f) i) in *.
  assert (path_ok (show_path st)) as Hp.
  { split; [by apply show_path_clean | | lia | by rewrite show_path_components]. destruct st as [|w st]; [done|]. cbn [show_path]. by rewrite join_cons. }
  assert (search_answer f (show_path st) = (st, Directory parent no)) as Ea by (by rewrite clear_answer).
  assert (names_entry (show_path st)) as Hent by (unfold names_entry; rewrite show_path_components by done; destruct st; [right; by left | by left]).
  unfold ls_cost in R.
  destruct (sys_opendir_ok ((if long then stat_cost st * List.length es else 0) + 2) f root_dir dirs (show_path st) m dir_e0 st parent no Hr Hp Hent He)
    as (g & x & Eo & Hx & Rg & Hroot & Hown); [rewrite show_path_components by done; by replace (6 + _ + _)%nat with (6 + 12 * S (List.length st) + (if long then stat_cost st * List.length es else 0) + 2)%nat by lia | done |].
  destruct (answer_facts f root_dir dirs _ st _ Hr Hp Ea) as (_ & Hno & _). cbn [answer_parent] in Hno.
  pose proof (dh_view _ _ _ _ Hx) as Hh. pose proof Hh as [(i' & j & Hi' & Hj & Hs) _ Em (l & Ep) _ M1 _ _ _]. rewrite Hv in Hi'. injection Hi' as <-.
  destruct (same_slots (medium f) i j) as [_ Hslots]; [by destruct Hs as (_ & _ & ? & _)|].
  assert (dir_entries (medium g) j = es) as Hes by (unfold es, dir_entries; by rewrite Em, Hslots).
  assert (reading g j x (sys_rewinddir x)) as Hrd.
  { split; try done.
    - rewrite Ep. by apply geometry_open, Hr.
    - rewrite Ep, Em. apply (same_dir_ok _ _ _ i); [done| |done]. unfold get_inode in Hj. destruct (inodes g !! dir_inode x) as [j'|] eqn:Ej; [|done]. injection Hj as ->.
      pose proof (hv_open _ _ _ _ Hh) as Ho. destruct (mem_open g M1 _ Ho) as (j' & Hj' & _ & Hc). rewrite Ej in Hj'. injection Hj' as <-. lia.
    - rewrite Ep. apply Hr. }
  destruct (ls_prefix_ok st m Hst ltac:(done)) as (tl & Epre & Htl). unfold ls_directory. rewrite Eo. cbn [obind]. rewrite Epre. cbn [obind].
  pose proof (ls_end f g root_dir no x j (root_self _ _ (ready_root _ _ _ Hr)) Hx) as Hend.
  assert (dir_self x = None -> x = root_dir) as Hxr by (intros Hn; destruct (decide (show_path st = [SLASH])) as [Hsl|Hsl]; [by apply Hroot | destruct (Hown Hsl); congruence]).
  specialize (Hend Hxr).
  destruct long; cbn [listing].
  - destruct (Hlong eq_refl) as [Hl17 Hall]. rewrite Hst_size. rewrite Forall_forall in Hall.
    pose proof (dir_size _ _ _ Dok) as Hsz. pose proof (dir_entries_count (medium f) i) as Hcnt.
    rewrite print_total by lia. cbn [obind].
    destruct (long_loop 2 f g root_dir dirs st parent no dir_e0 j x (sys_rewinddir x) tl (txt "total: " ++ dec (i_size i) ++ nl) Hr Hd C3 Hh Hst Hf Hl17 He E Hno Hrd)
      as (h & y & El & Hy & Hlive & Rh); [done | | done | rewrite Hes; by rewrite Nat.add_comm |].
    { intros e Hin. rewrite Hes in Hin. split; [|by apply Hall]. unfold lookup_in. rewrite Hv.
      destruct (Hall e Hin) as [[Hne _] _]. by apply (dir_lookup_live _ _ _ _ _ Dok). }
    rewrite El. cbn [obind]. rewrite Hes. destruct (Hend h y Hy Hlive Rh ((txt "total: " ++ dec (i_size i) ++ nl) :: map (long_line f) es)) as (h' & root' & ? & ? & Hq).
    exists h', root'. split; [done|]. split; [done|]. exact Hq.
  - destruct (short_loop g j x (sys_rewinddir x) Hrd eq_refl) as (y & El & Hy). rewrite El. cbn [obind]. rewrite Hes.
    change (printf nl []) with (Ok nl). cbn [obind].
    destruct (Hend (kheap g) y (reading_heap g (kheap g) j x y Hy) ltac:(done) Rg (map short_text es ++ [nl])) as (h' & root' & ? & ? & Hq).
    replace (with_kheap (kheap g) g) with g in Hq by (by destruct g). exists h', root'. split; [done|]. split; [done|]. exact Hq.
Qed.

(** ** The command *)

(** The arguments [ls -l p] or [ls p]. *)
Definition ls_args (long : bool) (p q : list Z) : list (list Z) := (if long then [txt "-l" ++ [0]] else []) ++ [p ++ 0 :: q].

(** What is printed for a path that leads to [ans], with the inode there. *)
Definition ls_output f (long : bool) (shown : list Z) (ans : answer) i : list (list Z) :=
  match ans with
  | Missing _ => [txt "ls: cannot access " ++ shown ++ txt ": No such file or directory" ++ nl]
  | Regular _ no => [if long then long_text 45 no (i_size i) shown else shown ++ nl]
  | Directory _ _ => listing f long i
  end.

Lemma ls_options_ok long p q : p <> [] -> (0 ∉ p) -> znth p 0 <> Some 45 -> ls_options (ls_args long p q) false None = Ok (Go long (Some (p ++ 0 :: q))).
Proof.
  intros Hne Hz Hd. destruct p as [|c p]; [done|]. change (znth (c :: p) 0) with (Some c) in Hd.
  assert (forall l, ls_options [(c :: p) ++ 0 :: q] l None = Ok (Go l (Some ((c :: p) ++ 0 :: q)))) as Hpath.
  { intros l. cbn [ls_options]. change (rd ((c :: p) ++ 0 :: q) 0) with (Ok c). cbn [obind].
    destruct (Z.eqb_spec c 45) as [->|]; [done|]. done. }
  destruct long; [|apply Hpath]. rewrite <- (Hpath true). reflexivity.
Qed.

Lemma listable_heap f h st long no i : listable f st long no i -> listable (with_kheap h f) st long no i.
Proof.
  intros [L1 L2 L3]. split; [done|done|]. intros Hlong. destruct (L3 Hlong) as [? Hall]. split; [done|].
  eapply Forall_impl; [exact Hall|]. by intros e [].
Qed.

(** C10. [ls] of a path that does not begin with a dash, with or without [-l]: the path is
    cleaned as [cd] does. If nothing is there, or a file, one line says so. If a directory
    is there, the short form prints the name of every entry, in the order of the
    directory; the long form prints for every entry its kind, its number and the size
    of the inode of that number, found through the path of the entry. Afterwards the
    file system is as before, with nothing left open; only the position of the root
    directory may have moved. *)
Theorem buildin_ls_spec f root_dir dirs p q dir_e0 final names x seen ans long i : fs_ready f root_dir dirs -> dots_right f dirs -> counts_below 3 f ->
  get_task (kern f) (running_thread (kern f)) = Ok x -> upward f (cwd_inode_nr x) names ->
  Forall is_word names -> Forall fits names -> (0 ∉ p) -> p <> [] -> znth p 0 <> Some 45 -> Forall fits (components p) ->
  zlen (typed_path names p) + 2 <= MAX_PATH_LEN -> zlen final = MAX_PATH_LEN -> zlen dir_e0 = 24 ->
  let st := washed (typed_names names p) in
  resolve f 0 0 [] st = (seen, ans) ->
  match ans with
  | Missing _ => True
  | Regular _ no => inode_view f no = Ok i /\ i_no i = no /\ 0 <= i_size i < 2 ^ 31
  | Directory _ no => listable f st long no i
  end ->
  roomy (2 + (6 + ls_cost st long (List.length (dir_entries (medium f) i)) + 12 * S (List.length st)) + 8 * List.length names) (kheap f) ->
  exists h m root', same_live (kheap f) h /\ like_root root_dir root'
    /\ buildin_ls f root_dir dir_e0 (ls_args long p q) final
       = Ok (with_kheap h f, root', clear_path names p ++ 0 :: m, ls_output f long (clear_path names p) ans i).
Proof.
  intros Hr Hd C3 Hx U Hw Hfn Hp Hne Hdash Hfp Hl Hlf He st E Hi R. pose proof Hr as [M G C2 Hsz T _].
  assert (Forall fits (typed_names names p)) as Hf.
  { unfold typed_names. apply Forall_app; split; [|done]. case_decide; [constructor | by apply Forall_rev]. }
  assert (counts_below 1 f) as C by (intros a j Ha; specialize (C2 a j Ha); lia).
  pose proof (typed_word names p Hw Hp) as Hwt. pose proof (washed_plain _ Hwt) as Hpl. fold st in Hpl.
  destruct (make_clear_abs_path_ok _ f p q final _ names x M G C Hsz Hx eq_refl U Hw Hp Hne Hf Hl Hlf R) as (h & m & Hlive & Rh & Ec & Hm).
  unfold clear_path in *. fold st in Ec, Hm |- *. set (f1 := with_kheap h f) in *.
  assert (fs_ready f1 root_dir dirs) as Hr1 by (by apply fs_ready_heap).
  assert (zlen (show_path st) + 1 < MAX_PATH_LEN) as Hshow.
  { pose proof (washed_length (typed_names names p)). fold st in H4. rewrite <- (typed_components names p Hw) in H4.
    pose proof (join_length (typed_path names p)) as Hj. pose proof (typed_absolute names p) as Habs.
    specialize (Hj ltac:(right; destruct (typed_path names p) as [|c t]; [done|]; injection Habs as ->; by eexists)).
    destruct st; [cbn; unfold MAX_PATH_LEN; lia|]. cbn [show_path]. lia. }
  assert (Forall fits st) as Hfst by (by apply washed_Forall).
  assert (0 ∉ show_path st) as Hclean by (by apply show_path_clean).
  assert (path_ok (show_path st)) as Hpath.
  { split; [done| |lia|by rewrite show_path_components]. destruct st as [|w t]; [done|]. cbn [show_path]. by rewrite join_cons. }
  assert (names_entry (show_path st)) as Hent by (unfold names_entry; rewrite show_path_components by done; destruct st; [right; by left | by left]).
  assert (search_answer f1 (show_path st) = (seen, ans)) as Ea by (rewrite clear_answer by done; unfold f1; by rewrite resolve_heap).
  destruct (answer_facts f1 root_dir dirs _ seen ans Hr1 Hpath Ea) as (_ & Hno & _).
  destruct (sys_stat_ok (ls_cost st long (List.length (dir_entries (medium f) i))) f1 root_dir dirs (show_path st) m dir_e0 seen ans (mk_stat 0 0 0) i Hr1 Hpath Hent He)
    as (h2 & Hl2 & R2 & Es); [by rewrite show_path_components | done | |].
  { intros Hpos. destruct ans as [|pa no|pa no]; cbn [answer_no] in *; [lia | tauto|]. split; [apply Hi|].
    destruct (tree_dir f1 dirs (ready_tree _ _ _ Hr1) no Hno) as (_ & i' & Hv' & Hin & _). pose proof (la_inode _ _ _ _ _ Hi) as Hv.
    change (inode_view f no = Ok i') in Hv'. congruence. }
  assert (same_live (kheap f) h2) as Hlive2 by (intros k b; rewrite (Hlive k b); apply Hl2).
  unfold buildin_ls. rewrite ls_options_ok by done. cbn [obind]. unfold ls_path. rewrite Ec. cbn [obind].
  rewrite Es. cbn [obind]. rewrite c_string_ok by done. cbn [obind]. change (with_kheap h2 f1) with (with_kheap h2 f).
  unfold MAX_PATH_LEN in Hshow. destruct ans as [pa|pa no|pa no]; cbn [answer_no answer_type ls_output st_filetype st_ino st_size] in *.
  - exists h2, m, root_dir. split; [done|]. split; [done|]. change (-1 <? 0) with true. change (-1 =? -1) with true. cbn iota.
    change (txt "ls: cannot access %s: No such file or directory" ++ nl) with (txt "ls: cannot access " ++ [Stdio.ch_percent; Stdio.ch_s] ++ (txt ": No such file or directory" ++ nl)).
    rewrite print_name; [done | by apply (bool_decide_unpack _) | by apply (bool_decide_unpack _) | done | by apply (bool_decide_unpack _) | by apply (bool_decide_unpack _) | ].
    change (zlen (txt "ls: cannot access ")) with 18. change (zlen (txt ": No such file or directory" ++ nl)) with 28. lia.
  - exists h2, m, root_dir. split; [done|]. split; [done|]. destruct (Z.ltb_spec no 0); [lia|]. change (0 =? -1) with false. change (FT_REGULAR =? FT_DIRECTORY) with false. cbn iota.
    destruct Hi as (_ & _ & Hsz2). destruct long.
    + cbn [st_ino st_size]. rewrite print_ls_file by (done || lia). done.
    + change (txt "%s" ++ nl) with ([] ++ [Stdio.ch_percent; Stdio.ch_s] ++ nl).
      rewrite print_name; [done | apply not_elem_of_nil | apply not_elem_of_nil | done | by apply (bool_decide_unpack _) | by apply (bool_decide_unpack _) | cbn; lia].
  - destruct (tree_dir f1 dirs (ready_tree _ _ _ Hr1) no Hno) as (Hnor & _). destruct (Z.ltb_spec no 0); [lia|]. change (0 =? -1) with false. change (FT_DIRECTORY =? FT_DIRECTORY) with true. cbn iota.
    pose proof (resolve_walked f st _ _ _ _ _ _ E) as Hseen. cbn [app] in Hseen. subst seen.
    destruct (ls_directory_ok (with_kheap h2 f) root_dir dirs st pa no dir_e0 m long i (mk_stat no (i_size i) FT_DIRECTORY)) as (h3 & root' & Hl3 & Hroot & Ed); try done.
    + by apply fs_ready_heap.
    + by destruct Hd.
    + by rewrite resolve_heap.
    + by apply listable_heap.
    + exists h3, m, root'. split; [intros k b; by rewrite (Hlive2 k b), <- (Hl3 k b)|]. split; [done|]. rewrite Ed. done.
Qed.
End lemmas.
