(* ===== verification/Lsdemo.v ===== *)
(** [ls] on the tree of Treedemo.v. *)
From Stdlib Require Import String.
From S2P Require Import Prelude Bitmap Ide Thread Blockdev Inode File Filewrite Dir Dirwrite Dirdemo Words Path Search Fs Fsspec Cwd Shell Shellspec Treedemo Printf Ls Lsspec.
Local Open Scope Z_scope.

Lemma tree_root_slots : dir_slots tree_medium tree_root_inode = tree_entries_root ++ replicate 17 (replicate 24 0).
Proof. vm_compute. reflexivity. Qed.

Lemma tree_root_entries : dir_entries tree_medium tree_root_inode = tree_entries_root.
Proof. unfold dir_entries. rewrite tree_root_slots. vm_compute. reflexivity. Qed.

Lemma tree_root_block k : 0 <= k < 12 -> file_block tree_medium tree_root_inode k = if k =? 0 then 712 else 0.
Proof.
  intros Hk. apply (range_eq (file_block tree_medium tree_root_inode) (fun k => if k =? 0 then 712 else 0) 12); [reflexivity|done].
Qed.

Lemma tree_root_dir_ok : dir_ok (cur_part tree_fs) tree_medium tree_root_inode.
Proof.
  split.
  - split; [reflexivity | by apply words_ok].
  - reflexivity.
  - intros k Hk. rewrite tree_root_block by done. destruct (Z.eqb_spec k 0); [|done]. intros _.
    split; [vm_compute; split; congruence|]. split; reflexivity.
  - intros k k' Hk Hk'. rewrite !tree_root_block by done. destruct (Z.eqb_spec k 0), (Z.eqb_spec k' 0); lia.
  - rewrite tree_root_slots. apply Forall_app; split; [|apply Forall_replicate; by left].
    repeat (apply Forall_cons; split); try apply Forall_nil; try done; (apply used_slot; [discriminate | reflexivity | reflexivity | | discriminate]);
      apply (bool_decide_unpack _); vm_compute; exact I.
  - rewrite tree_root_entries. apply (bool_decide_unpack _). vm_compute. exact I.
  - rewrite tree_root_entries. reflexivity.
Qed.

Lemma tree_listed : Forall (listed tree_fs) tree_entries_root.
Proof.
  repeat (apply Forall_cons; split); try apply Forall_nil; try done.
  all: split; [split; [discriminate | split; apply (bool_decide_unpack _); vm_compute; exact I]|].
  - exists tree_root_inode. by repeat split.
  - exists tree_root_inode. by repeat split.
  - exists tree_a_inode. by vm_compute.
  - exists tree_d_inode. by vm_compute.
Qed.

(** [ls -l ..] from [/d]. *)
Example buildin_ls_witness : exists h m root',
  buildin_ls tree_fs tree_root_dir (replicate 24 170) [txt "-l" ++ [0]; [46; 46] ++ 0 :: []] (replicate 512 0)
  = Ok (with_kheap h tree_fs, root', [47] ++ 0 :: m,
        [txt "total: 96" ++ nl; txt "d  0  96  ." ++ nl; txt "d  0  96  .." ++ nl; txt "-  3  0  a" ++ nl; txt "d  5  72  d" ++ nl]).
Proof.
  destruct (buildin_ls_spec tree_fs tree_root_dir [0; 5] [46; 46] [] (replicate 24 170) (replicate 512 0) [[100]] tree_task
    [] (Directory 0 0) true tree_root_inode) as (h & m & root' & _ & _ & E).
  - exact tree_ready.
  - exact tree_dots.
  - intros a i Ha. cbn in Ha. apply lookup_singleton_Some in Ha as [_ <-]. cbn. lia.
  - reflexivity.
  - exact tree_upward.
  - exact tree_names.
  - apply (bool_decide_unpack _). vm_compute. exact I.
  - apply (bool_decide_unpack _). vm_compute. exact I.
  - discriminate.
  - discriminate.
  - apply (bool_decide_unpack _). vm_compute. exact I.
  - apply (bool_decide_unpack _). vm_compute. exact I.
  - reflexivity.
  - reflexivity.
  - reflexivity.
  - split; [exact tree_root_dir_ok | reflexivity|]. intros _. split; [apply (bool_decide_unpack _); vm_compute; exact I|].
    change (medium tree_fs) with tree_medium. rewrite tree_root_entries. exact tree_listed.
  - apply bump_roomy.
  - exists h, m, root'. etransitivity; [exact E|]. by do 2 f_equal.
Defined.
